(* ===== verification/_CoqProject ===== *)
-Q . S2P
Prelude.v
Decimal.v
Datetime.v
Json.v
Errors.v
Price.v
TradingSession.v
Intent.v
Evaluation.v
Trailing.v
Twap.v
Tables.v
Store.v
CoreSchema.v
Lifecycle.v
Pagination.v
IntentRepo.v
Samples.v
IntentQueries.v
Template.v
Trigger.v
Quotes.v
Shioaji.v
CreateIntent.v
Dispatcher.v
DispatchSpec.v
AuditLog.v
KillSwitch.v
IntentLife.v
RateLimiter.v
Idempotency.v
Notifications.v
AuthRepos.v
Telegram.v
TelegramLlm.v
TelegramRoute.v
LegacyRepo.v
LegacyTrigger.v
Tokens.v
AuthSamples.v
Auth.v
LoginSpec.v
SessionSpec.v
Account.v
AccountSpec.v
ResetSpec.v
TwoFactorSpec.v
AdminSpec.v
AuthLife.v
TelegramSpec.v
TelegramLife.v
LegacyCommands.v
LegacyLife.v
TwapWorker.v
TwapPlanSpec.v
TwapSpec.v
TwapInv.v
TwapLife.v
App.v
Responses.v
ClientIp.v
Config.v
Schemas.v
Symbols.v
Endpoints.v
Routes.v
RequestSpec.v
ApiSpec.v
IsolationSpec.v
Ddl.v
DdlFacts.v
Naming.v
Revisions.v
Models.v
MigrationFacts.v
History.v
UpgradeSteps.v
UpgradeSpec.v
DowngradeSpec.v
Tools.v
