(* ===== verification/Prelude.v ===== *)
(** * AI Stock: a verification development

    The program is the backend of a stock alert service for the Taiwan market
    ([src/app], Python).  A user places an intent: an alert at a price, a market
    order alert, a trailing stop, or a TWAP plan split into slices, over HTTP or
    by a Telegram message.  Quotes reach the intents through a dispatcher; an
    intent that fires is recorded and notified once.  Accounts are invited by
    admins, log in with rotating refresh tokens, and admins pass a second factor.
    This library models the program from its routes to its migrations and proves
    what it promises.  Paths below are relative to [src/app].

    ** Layers

    - Foundations.  [Prelude]: results, programs as state passing with
      exceptions, tactics.  [Decimal] and [Datetime]: Python's decimals (28
      digits of context precision) and datetimes.  [Json]: documents.  [Errors]:
      the exceptions, one constructor each.  [Intent]: the records of
      [domain/trade_intent.py] and the quotes.
    - Domain rules, pure functions.  [Price] ([domain/price.py]), [TradingSession]
      ([domain/trading_session.py]), [Evaluation] ([domain/quote_evaluation.py])
      with the trailing stop's theory in [Trailing], [Twap] ([domain/twap.py]),
      [Template] ([services/notification_template.py]).
    - The database.  [Tables]: a row per table of [db/models]; [Store]: a session
      as a state with a durable part and the view of the transaction, with
      commit, rollback and savepoints, and the proof rules for programs over it
      ([preserves], [quiet], [safe]); [CoreSchema]: constraints as tests of an
      insert, and the invariant they give; [Pagination]: keyset pages.
    - The new intent track.  [IntentRepo] ([repositories/trade_intent_core_repository.py]),
      [Trigger] ([commands/trigger_intent_core.py]), [Quotes] (the provider
      interface as a class, its in-memory instance, the reconciler and the
      validator of [services/quote]), [Shioaji] ([services/quote/shioaji_demo]),
      [CreateIntent] ([commands/trade_intent_core.py]), [Lifecycle]
      ([commands/intent_lifecycle.py], over the store interface both tracks
      implement), [Dispatcher] ([services/quote_dispatcher_core.py]).
    - The legacy track and TWAP.  [LegacyRepo] ([repositories/intent_repository.py]),
      [LegacyTrigger] ([commands/trigger_intent.py]), [LegacyCommands]
      ([commands/trade_intent.py], [services/quote_dispatcher.py]), [TwapWorker]
      ([commands/twap.py], [services/twap_scheduler.py]).
    - Telegram.  [Telegram] (the drafts, the message and button handlers:
      [commands/telegram_intent.py] and its repository), [TelegramLlm] (what is
      accepted of the language model), [TelegramRoute] (the webhook and the bot
      client).
    - Around them.  [KillSwitch] (provider with its cache, admin command, flags),
      [AuditLog], [RateLimiter], [Idempotency], [Notifications], [Symbols].
    - Accounts.  [AuthRepos] (the four repositories), [Tokens] ([core/tokens.py],
      [core/passwords.py]), [Auth] ([commands/auth.py] and the gates of
      [api/deps.py]), [Account] ([commands/account.py], [password_reset.py] and
      [two_factor.py], with [services/mailer.py] as an interface).
    - HTTP.  [Config] ([core/config.py]), [ClientIp] (client addresses and origins),
      [Schemas] (request and response bodies), [Responses] ([api/errors.py] and
      the middleware), [Endpoints] (every route of [api/routes] as a program over
      the commands), [Routes] (the table of calls and the service), [App] (what
      [main.py] runs at start-up).
    - The schema and its history.  [Ddl]: schemas and rows as values, SQL's
      three-valued conditions, and the statements the revisions use; [Naming]
      ([db/base.py], with the MD5 that shortens names); [Revisions] (each file of
      [db/migrations/versions] in both directions, and the walk of
      [db/migrations/env.py]); [Models] ([db/models] as metadata).  [DdlFacts] and
      [MigrationFacts] hold their theory, [History] and [UpgradeSteps] the
      revisions on rows that are not known.
    - [Tools]: the seed and the commands that make admins.
    - Theorems about several components are in files of their own: [IntentQueries],
      [DispatchSpec], [IntentLife], [LegacyLife], [LoginSpec], [SessionSpec],
      [AccountSpec], [ResetSpec], [TwoFactorSpec], [AdminSpec], [AuthLife],
      [TwapPlanSpec], [TwapSpec], [TwapInv], [TwapLife], [TelegramSpec],
      [TelegramLife], [RequestSpec], [ApiSpec], [IsolationSpec], [UpgradeSpec],
      [DowngradeSpec].  [Samples], [AuthSamples] and the head of [RequestSpec] hold
      the states and the toy instances of the witnesses.

    ** How state and operations correspond

    A repository method is a program over a world: the durable tables, the
    transaction's view of them, the quote provider, the supply of fresh
    identifiers, the messages handed to Telegram and the two clocks.  A command's
    [execute] is a program composed the way the source composes it: its guards,
    early returns and [except] clauses in their order.  An endpoint is a program
    over the commands, its dependencies in the order FastAPI resolves them, and
    the service answers a request with the outcome of its endpoint or of the
    exception handler that takes it.  What is not code of the repository is a
    parameter: quote providers ([QuoteProvider]), mailers ([Mailer], with the law
    that sending does not write to the database), the Bot API ([BotTransport]),
    the conversions of pydantic and which of its error reports can be written as
    JSON ([Pydantic]), the language model, and the
    primitives of argon2, PyJWT, hashlib, secrets, pyotp and Fernet ([Crypto],
    with [JwtLaws] and [PasswordLaws] where a theorem relies on their documented
    behaviour); each class has a concrete instance.

    The migrations are about another state: a schema (tables with columns and
    constraints, indexes, extensions) and the rows in it.  A revision is the list
    of statements it executes, in their order; a statement fails as PostgreSQL
    has it fail, and a failed walk leaves the database as it was, since
    [run_migrations_online] puts it into one transaction.

    ** What the theorems show

    - Intents: creation is atomic, respects limits, duplicates and the kill
      switch, and stores the order asked for, its price or trail included, which
      nothing later changes; an intent's life over any sequence of requests and
      quotes, on both tracks; a quote fires exactly the intents whose rule it meets, all or none
      of a batch; an intent fires once; start-up subscribes what is open.
    - Rules: evaluation refines a declarative rule per strategy; the trailing
      stop ratchets; ticks, parsing and formatting of prices; trading dates.
    - TWAP: plans split fairly and inside the window; a confirmed plan is stored
      as planned; one pass of the worker delivers exactly the due slices; over
      any sequence of steps each slice is notified at most once, a notification
      has exactly one slice, and plans complete exactly with their slices.
    - Telegram: the outcomes of a button, and the order it creates; over any
      sequence of updates a draft makes at most one intent, and no intent comes
      from nowhere; what the language model may say.
    - Services: the token bucket bound, replay of idempotent requests, paging of
      the inbox, staleness of the kill switch, the quota of the broker.
    - Accounts: outcomes of a login; bounds on guessing passwords and codes, with
      what each success in between gives back; a
      refresh token works once and its replay kills the family; invitations and
      resets from end to end; what disabling an account shuts; what no sequence
      of requests undoes; how the first admin is made.
    - HTTP: who may call what; whose data a call touches and shows; a retried
      request is answered as before; what a refused creation is answered;
      cookies from other sites are refused; client addresses cannot be made up; every exception has its documented answer; the typed
      create endpoints and the common one agree; the settings that are accepted.
    - Migrations: from any revision and any rows that satisfy its schema the
      upgrade succeeds, keeps the values, and arrives at the schema the models
      declare; the revisions that widened what a row may be refuse to be taken
      back exactly while rows need them, and otherwise go back and forth.

    Behaviour that departs from what comments and documents of the repository
    say is stated where it was met, as in [rotated_session_survives] of
    [AdminSpec], [twap_opposite_side_refused] of [TwapPlanSpec],
    [validate_huge_price_escapes] of [Price], [cancel_drops_legacy_quotes] of
    [CreateIntent] and [null_target_accepted] of [DowngradeSpec].

    ** Bounds and fuel

    Loops run over lists.  Fuel occurs in the digit functions of [Decimal], where
    it is bounded by the digits of the number and shown to be enough
    ([int_digits_spec]); in the search for the next weekday, bounded by a week
    ([next_weekday_opt_spec]); in the path along the revisions, bounded by their
    number ([path_from]); and in clients that read all pages, where the theorems
    give a number of pages that is enough.

    ** What is not modelled, and simplifications

    - The wiring FastAPI, Starlette and pydantic-settings do, the CORS layer, the
      prompt of the language model and the HTTPS exchanges, the SMTP sender, the
      client around the broker's SDK with its floating-point prices, the sleeping
      loops of the schedulers, logging, and the offline mode of Alembic: they are
      I/O or code of libraries.
    - Commands run one at a time on a session: row locks, SKIP LOCKED and
      isolation between concurrent transactions do not appear.  The clocks are
      constant during a command.  A message handed to Telegram is not undone by a
      rollback, as in the program.
    - An identifier from [uuid4] is the next of a counter.  Strings are their
      UTF-8 bytes; emails are lowered and stripped on ASCII.  Rows selected
      without ORDER BY, or tied by it, come in the order of the map.
    - NUMERIC columns keep the exact decimal: rounding and overflow at the
      database are left out.  CHECKs of an UPDATE are tested where the written
      value is not a constant that passes.  The rate limiter's floats are exact
      rationals.  Audit rows keep type, actor and time; the payload hash of an
      idempotent request is a parameter.
    - A migration's schema does not keep the order of columns, nor comments,
      grants and storage; MD5 is computed on the bytes of a name. *)

From stdpp Require Export base decidable option list strings gmap.
From Stdlib Require Export Ascii ZArith Lia.

#[global] Open Scope Z_scope.

(** ** Outcomes of Python calls

    A call either returns a value or raises an exception; [E] is the type of
    exceptions (fixed in [Errors]). *)

Inductive result (E A : Type) : Type :=
| Ok (a : A)
| Raise (e : E).
Arguments Ok {E A} a.
Arguments Raise {E A} e.

Definition rbind {E A B} (r : result E A) (k : A -> result E B) : result E B :=
  match r with
  | Ok a => k a
  | Raise e => Raise e
  end.

Definition is_ok {E A} (r : result E A) : bool :=
  match r with Ok _ => true | Raise _ => false end.

Definition rmap {E A B} (f : A -> B) (r : result E A) : result E B :=
  rbind r (fun a => Ok (f a)).

(** [[f(x) for x in xs]] where [f] may raise. *)
Fixpoint map_result {E A B} (f : A -> result E B) (xs : list A) : result E (list B) :=
  match xs with
  | [] => Ok []
  | x :: xs' => rbind (f x) (fun y => rbind (map_result f xs') (fun ys => Ok (y :: ys)))
  end.

(** ** Programs: state passing with exceptions

    A method that mutates state is a function from the state it starts in to
    its outcome and the state it leaves.  An exception does not undo what the
    method did before it was raised; undoing is the database's [rollback]. *)

Definition prog (S E A : Type) : Type := S -> result E A * S.

Definition ret {S E A} (a : A) : prog S E A := fun s => (Ok a, s).
Definition raise {S E A} (e : E) : prog S E A := fun s => (Raise e, s).
Definition get {S E} : prog S E S := fun s => (Ok s, s).
Definition gets {S E A} (f : S -> A) : prog S E A := fun s => (Ok (f s), s).
Definition modify {S E} (f : S -> S) : prog S E unit := fun s => (Ok tt, f s).
Definition lift {S E A} (r : result E A) : prog S E A := fun s => (r, s).

Definition bind {S E A B} (c : prog S E A) (k : A -> prog S E B) : prog S E B :=
  fun s =>
    match c s with
    | (Ok a, s') => k a s'
    | (Raise e, s') => (Raise e, s')
    end.

(** [try_except c h]: run [c]; on an exception continue with the handler. *)
Definition try_except {S E A} (c : prog S E A) (h : E -> prog S E A) : prog S E A :=
  fun s =>
    match c s with
    | (Ok a, s') => (Ok a, s')
    | (Raise e, s') => h e s'
    end.

(** [when b c]: the Python statement [if b: c]. *)
Definition when {S E} (b : bool) (c : prog S E unit) : prog S E unit :=
  if b then c else ret tt.

(** A [for] loop whose body mutates the state. *)
Fixpoint for_each {S E A} (xs : list A) (body : A -> prog S E unit) : prog S E unit :=
  match xs with
  | [] => ret tt
  | x :: xs' => bind (body x) (fun _ => for_each xs' body)
  end.

Declare Scope py_scope.
Delimit Scope py_scope with py.
#[global] Open Scope py_scope.

Notation "'let?' x := r 'in' k" := (rbind r (fun x => k))
  (at level 10, x name, r at level 100, k at level 200) : py_scope.
Notation "'do' x <- c ; k" := (bind c (fun x => k))
  (at level 10, x name, c at level 100, k at level 200) : py_scope.
Notation "'do_' c ; k" := (bind c (fun _ => k))
  (at level 10, c at level 100, k at level 200) : py_scope.

(** ** Boolean helpers *)

(** A Python string as the list of its characters and back. *)
Definition chars (s : string) : list ascii := String.list_ascii_of_string s.
Definition unchars (l : list ascii) : string := String.string_of_list_ascii l.

(** Membership of a string in a Python [frozenset]. *)
Definition str_in (s : string) (l : list string) : bool :=
  existsb (String.eqb s) l.

Definition is_some {A} (o : option A) : bool :=
  match o with Some _ => true | None => false end.

Definition is_none {A} (o : option A) : bool := negb (is_some o).

Definition opt_eqb {A} (eqb : A -> A -> bool) (x y : option A) : bool :=
  match x, y with
  | Some a, Some b => eqb a b
  | None, None => true
  | _, _ => false
  end.

(** ** Tactics *)

(** Split on the scrutinee of a [match] or [if] in the goal or a hypothesis. *)
Ltac case_goal :=
  match goal with
  | |- context [match ?x with _ => _ end] => destruct x eqn:?
  end.

Ltac case_hyp H :=
  match type of H with
  | context [match ?x with _ => _ end] => destruct x eqn:?
  end.

(** Turn boolean comparisons in the context into propositions. *)
Ltac b2p :=
  repeat match goal with
  | H : (_ && _)%bool = true |- _ => apply andb_true_iff in H; destruct H
  | H : (_ || _)%bool = false |- _ => apply orb_false_iff in H; destruct H
  | H : negb _ = true |- _ => apply negb_true_iff in H
  | H : negb _ = false |- _ => apply negb_false_iff in H
  | H : (_ =? _) = true |- _ => apply Z.eqb_eq in H
  | H : (_ =? _) = false |- _ => apply Z.eqb_neq in H
  | H : (_ <? _) = true |- _ => apply Z.ltb_lt in H
  | H : (_ <? _) = false |- _ => apply Z.ltb_ge in H
  | H : (_ <=? _) = true |- _ => apply Z.leb_le in H
  | H : (_ <=? _) = false |- _ => apply Z.leb_gt in H
  | H : String.eqb _ _ = true |- _ => apply String.eqb_eq in H
  | H : String.eqb _ _ = false |- _ => apply String.eqb_neq in H
  end.

(** Run a [prog] one bind at a time. *)
Ltac run_prog :=
  unfold bind, ret, raise, get, gets, modify, lift, try_except, when, rbind in *.

(** ** Lemmas on results and programs *)

Lemma rbind_Ok {E A B} (r : result E A) (k : A -> result E B) b :
  rbind r k = Ok b <-> exists a, r = Ok a /\ k a = Ok b.
Proof. destruct r; simpl; naive_solver. Qed.

Lemma bind_Ok {S E A B} (c : prog S E A) (k : A -> prog S E B) s b s' :
  bind c k s = (Ok b, s') <-> exists a s1, c s = (Ok a, s1) /\ k a s1 = (Ok b, s').
Proof. unfold bind. destruct (c s) as [[a|e] s1]; naive_solver. Qed.

Lemma bind_Raise {S E A B} (c : prog S E A) (k : A -> prog S E B) s e s' :
  bind c k s = (Raise e, s') <->
  c s = (Raise e, s') \/ exists a s1, c s = (Ok a, s1) /\ k a s1 = (Raise e, s').
Proof. unfold bind. destruct (c s) as [[a|e1] s1]; naive_solver. Qed.

(** A property of the state kept by every iteration is kept by the loop. *)
Lemma for_each_inv {S E A} (P : S -> Prop) (xs : list A) (body : A -> prog S E unit) s r s' :
  (forall x s r s', x ∈ xs -> P s -> body x s = (r, s') -> P s') ->
  P s -> for_each xs body s = (r, s') -> P s'.
Proof.
  intros Hbody. revert s. induction xs as [|x xs IH]; intros s HP; simpl.
  - intros [= <- <-]. done.
  - unfold bind. destruct (body x s) as [[[]|e] s1] eqn:Hx.
    + apply IH; [|by eapply Hbody; [left|..]].
      intros x' ? ? ? Hin. by apply Hbody; right.
    + intros [= <- <-]. by eapply Hbody; [left|..].
Qed.

Lemma unchars_chars s : unchars (chars s) = s.
Proof. apply String.string_of_list_ascii_of_string. Qed.

Lemma chars_unchars l : chars (unchars l) = l.
Proof. apply String.list_ascii_of_string_of_list_ascii. Qed.

Lemma unchars_inj l1 l2 : unchars l1 = unchars l2 -> l1 = l2.
Proof. intros H. by rewrite <-(chars_unchars l1), H, chars_unchars. Qed.

Lemma str_in_spec s l : str_in s l = true <-> s ∈ l.
Proof.
  unfold str_in. rewrite existsb_exists. setoid_rewrite String.eqb_eq.
  rewrite list_elem_of_In. naive_solver.
Qed.

(** ** Arithmetic shared by the components *)

Lemma quot_bounds a b : 0 <= a -> 0 < b -> b * (a ÷ b) <= a < b * (a ÷ b) + b.
Proof.
  intros Ha Hb. rewrite Z.quot_div_nonneg by lia.
  pose proof (Z.div_mod a b). pose proof (Z.mod_pos_bound a b). lia.
Qed.

Lemma pow10_pos n : 0 <= n -> 0 < 10 ^ n.
Proof. intros. apply Z.pow_pos_nonneg; lia. Qed.

Lemma pow10_split n m : 0 <= m <= n -> 10 ^ n = 10 ^ (n - m) * 10 ^ m.
Proof. intros. rewrite <-Z.pow_add_r by lia. f_equal. lia. Qed.

Create HintDb py.
#[export] Hint Resolve pow10_pos : py.
#[export] Hint Extern 1 (0 < 10 ^ _) => apply pow10_pos; lia : py.
