(* ===== verification/Decimal.v ===== *)
(** * Python's [decimal.Decimal]

    The standard-library arithmetic that [app/domain/price.py] and
    [app/domain/quote_evaluation.py] rely on, under the default context
    (28 significant digits, ROUND_HALF_EVEN).  A finite decimal is a signed
    coefficient and an exponent; equality of representation is finer than
    equality of value, and [equiv] is the latter.  A negative zero is
    identified with zero, and the exponent limits of the context (Emax, Emin)
    are not modelled. *)

From S2P Require Import Prelude.

Record dec : Type := Dec { coef : Z; expo : Z }.

#[export] Instance dec_eq_dec : EqDecision dec.
Proof. solve_decision. Defined.

(** Exceptions of the [decimal] module. *)
Inductive dec_exn : Type :=
| InvalidOperation
| DivisionByZero.

(** The coefficient of [d] when written with exponent [e <= expo d]. *)
Definition scaled (d : dec) (e : Z) : Z := coef d * 10 ^ (expo d - e).

Definition common_expo (a b : dec) : Z := Z.min (expo a) (expo b).

Definition dec_ltb (a b : dec) : bool :=
  scaled a (common_expo a b) <? scaled b (common_expo a b).
Definition dec_leb (a b : dec) : bool :=
  scaled a (common_expo a b) <=? scaled b (common_expo a b).
Definition dec_eqb (a b : dec) : bool :=
  scaled a (common_expo a b) =? scaled b (common_expo a b).

#[export] Instance dec_equiv : Equiv dec := fun a b => dec_eqb a b = true.

Notation "a '<=d' b" := (dec_leb a b = true) (at level 70) : py_scope.
Notation "a '<d' b" := (dec_ltb a b = true) (at level 70) : py_scope.

Definition of_int (n : Z) : dec := Dec n 0.

(** ** Rounding to the context *)

Definition PREC : Z := 28.

Fixpoint ndigits_fuel (fuel : nat) (n : Z) : Z :=
  match fuel with
  | O => 0
  | S f => if n <? 10 then 1 else 1 + ndigits_fuel f (n / 10)
  end.

(** Number of decimal digits of [n >= 0]; a number has at most as many
    decimal as binary digits, so the fuel suffices. *)
Definition ndigits (n : Z) : Z := ndigits_fuel (S (Z.to_nat (Z.log2 n))) n.

Definition div_half_even (n m : Z) : Z :=
  let q := n / m in
  let r := n mod m in
  if 2 * r <? m then q
  else if m <? 2 * r then q + 1
  else if Z.even q then q else q + 1.

(** [Decimal._fix]: round the coefficient to [PREC] digits. *)
Definition fix_prec (d : dec) : dec :=
  let n := ndigits (Z.abs (coef d)) in
  if n <=? PREC then d
  else
    let k := n - PREC in
    let q := Z.sgn (coef d) * div_half_even (Z.abs (coef d)) (10 ^ k) in
    if ndigits (Z.abs q) <=? PREC then Dec q (expo d + k)
    else Dec (q ÷ 10) (expo d + k + 1).

(** ** Arithmetic *)

Definition dec_add (a b : dec) : dec :=
  let e := common_expo a b in fix_prec (Dec (scaled a e + scaled b e) e).

Definition dec_sub (a b : dec) : dec :=
  let e := common_expo a b in fix_prec (Dec (scaled a e - scaled b e) e).

Definition dec_mul (a b : dec) : dec :=
  fix_prec (Dec (coef a * coef b) (expo a + expo b)).

(** [Decimal._divide]: the integer quotient truncated towards zero and the
    remainder with the sign of the dividend; DivisionImpossible (an
    InvalidOperation) when the quotient does not fit the context. *)
Definition dec_divmod (a b : dec) : result dec_exn (dec * dec) :=
  if coef b =? 0 then Raise (if coef a =? 0 then InvalidOperation else DivisionByZero)
  else
    let e := common_expo a b in
    let q := scaled a e ÷ scaled b e in
    let r := Z.rem (scaled a e) (scaled b e) in
    if Z.abs q <? 10 ^ PREC then Ok (Dec q 0, fix_prec (Dec r e))
    else Raise InvalidOperation.

(** [a // b] *)
Definition dec_floordiv (a b : dec) : result dec_exn dec := rmap fst (dec_divmod a b).
(** [a % b] *)
Definition dec_mod (a b : dec) : result dec_exn dec := rmap snd (dec_divmod a b).

(** Strip trailing zeros of an exact quotient up to the ideal exponent. *)
Fixpoint strip_zeros (fuel : nat) (c e ideal : Z) : dec :=
  match fuel with
  | O => Dec c e
  | S f =>
      if (e <? ideal) && (c mod 10 =? 0) then strip_zeros f (c / 10) (e + 1) ideal
      else Dec c e
  end.

(** [a / b] (true division), [Decimal.__truediv__]. *)
Definition dec_div (a b : dec) : result dec_exn dec :=
  if coef b =? 0 then Raise (if coef a =? 0 then InvalidOperation else DivisionByZero)
  else if coef a =? 0 then Ok (Dec 0 (expo a - expo b))
  else
    let sign := Z.sgn (coef a) * Z.sgn (coef b) in
    let x := Z.abs (coef a) in
    let y := Z.abs (coef b) in
    let shift := ndigits y - ndigits x + PREC + 1 in
    let e := expo a - expo b - shift in
    let '(c, r) :=
      if 0 <=? shift then ((x * 10 ^ shift) / y, (x * 10 ^ shift) mod y)
      else (x / (y * 10 ^ (- shift)), x mod (y * 10 ^ (- shift))) in
    let d :=
      if r =? 0 then strip_zeros (Z.to_nat (expo a - expo b - e)) c e (expo a - expo b)
      else Dec (if c mod 5 =? 0 then c + 1 else c) e in
    Ok (fix_prec (Dec (sign * coef d) (expo d))).

(** Python's [max(a, b)]: the first argument unless the second is greater. *)
Definition dec_max (a b : dec) : dec := if dec_ltb a b then b else a.

(** ** Rendering *)

Definition digit_char (d : Z) : ascii := ascii_of_nat (48 + Z.to_nat d).

(** The decimal digits of [n >= 0], most significant first. *)
Fixpoint int_digits_fuel (fuel : nat) (n : Z) (acc : list ascii) : list ascii :=
  match fuel with
  | O => acc
  | S f =>
      let acc' := digit_char (n mod 10) :: acc in
      if n <? 10 then acc' else int_digits_fuel f (n / 10) acc'
  end.
Definition int_digits (n : Z) : list ascii :=
  int_digits_fuel (S (Z.to_nat (Z.log2 n))) n [].

(** The [w] low-order digits of [n], padded with zeros on the left. *)
Fixpoint low_digits (w : nat) (n : Z) : list ascii :=
  match w with
  | O => []
  | S w' => low_digits w' (n / 10) ++ [digit_char (n mod 10)]
  end.

Definition dot : ascii := "."%char.
Definition zero_ch : ascii := "0"%char.

Definition sign_chars (c : Z) : list ascii := if c <? 0 then ["-"%char] else [].

(** Integer and fraction digits of the plain ("f") notation. *)
Definition int_part (d : dec) : Z :=
  if 0 <=? expo d then Z.abs (coef d) * 10 ^ expo d else Z.abs (coef d) / 10 ^ (- expo d).
Definition frac_digits (d : dec) : list ascii :=
  if 0 <=? expo d then []
  else low_digits (Z.to_nat (- expo d)) (Z.abs (coef d) mod 10 ^ (- expo d)).

(** [format(value, "f")] *)
Definition format_f (d : dec) : list ascii :=
  sign_chars (coef d) ++ int_digits (int_part d) ++
  match frac_digits d with [] => [] | fs => dot :: fs end.

(** [s.rstrip(c)] and [s.ljust(w, c)] *)
Fixpoint rstrip (c : ascii) (s : list ascii) : list ascii :=
  match s with
  | [] => []
  | x :: s' =>
      match rstrip c s' with
      | [] => if Ascii.eqb x c then [] else [x]
      | r => x :: r
      end
  end.
Definition ljust (w : nat) (c : ascii) (s : list ascii) : list ascii :=
  s ++ replicate (w - length s) c.

(** [s.partition(c)] without the separator *)
Fixpoint partition_at (c : ascii) (s : list ascii) : list ascii * list ascii :=
  match s with
  | [] => ([], [])
  | x :: s' =>
      if Ascii.eqb x c then ([], s')
      else let '(a, b) := partition_at c s' in (x :: a, b)
  end.

(** [str(value)]: scientific notation when the exponent is positive or the
    number is small. *)
Definition str_dec (d : dec) : list ascii :=
  let ds := int_digits (Z.abs (coef d)) in
  let n := Z.of_nat (length ds) in
  let left := expo d + n in
  let dotplace := if (expo d <=? 0) && (-6 <? left) then left else 1 in
  let mant :=
    if dotplace <=? 0 then [zero_ch; dot] ++ replicate (Z.to_nat (- dotplace)) zero_ch ++ ds
    else if n <=? dotplace then ds ++ replicate (Z.to_nat (dotplace - n)) zero_ch
    else take (Z.to_nat dotplace) ds ++ dot :: drop (Z.to_nat dotplace) ds in
  let x := left - dotplace in
  let ex :=
    if x =? 0 then []
    else "E"%char :: (if x <? 0 then "-"%char else "+"%char) :: int_digits (Z.abs x) in
  sign_chars (coef d) ++ mant ++ ex.

(** ** The constructor [Decimal(str)] *)

(** What the constructor accepts: a finite number, an infinity or a NaN. *)
Inductive parsed : Type :=
| Finite (d : dec)
| Infinity
| NaN.

Definition is_digit (c : ascii) : bool :=
  (48 <=? nat_of_ascii c)%nat && (nat_of_ascii c <=? 57)%nat.

Definition digit_val (c : ascii) : Z := Z.of_nat (nat_of_ascii c) - 48.

(** The longest prefix of digits and the rest. *)
Fixpoint span_digits (s : list ascii) : list ascii * list ascii :=
  match s with
  | c :: s' => if is_digit c then let '(a, b) := span_digits s' in (c :: a, b) else ([], s)
  | [] => ([], [])
  end.

Definition digits_val (ds : list ascii) : Z :=
  fold_left (fun acc c => 10 * acc + digit_val c) ds 0.

Definition lower_char (c : ascii) : ascii :=
  let n := nat_of_ascii c in
  if (65 <=? n)%nat && (n <=? 90)%nat then ascii_of_nat (n + 32) else c.

(** An optional sign: whether it is a minus, and the rest. *)
Definition take_sign (s : list ascii) : bool * list ascii :=
  match s with
  | c :: s' =>
      if Ascii.eqb c "-" then (true, s')
      else if Ascii.eqb c "+" then (false, s') else (false, s)
  | [] => (false, [])
  end.

(** The exponent part: nothing, or [E] and a signed run of digits. *)
Definition parse_exp (s : list ascii) : option Z :=
  match s with
  | [] => Some 0
  | c :: s' =>
      if Ascii.eqb (lower_char c) "e" then
        let '(neg, s1) := take_sign s' in
        match span_digits s1 with
        | (ds, []) => if (length ds =? 0)%nat then None
                      else Some (if neg then - digits_val ds else digits_val ds)
        | _ => None
        end
      else None
  end.

Definition parse_special (s : list ascii) : option parsed :=
  let l := map lower_char s in
  let nan_of r := match span_digits r with (_, []) => Some NaN | _ => None end in
  if bool_decide (l = chars "inf" \/ l = chars "infinity")
  then Some Infinity
  else if bool_decide (take 3 l = chars "nan") then nan_of (drop 3 l)
  else if bool_decide (take 4 l = chars "snan") then nan_of (drop 4 l)
  else None.

(** [Decimal(value)] on an ASCII string without surrounding whitespace:
    [None] stands for the InvalidOperation (ConversionSyntax) it raises. *)
Definition decimal_of_chars (value : list ascii) : option parsed :=
  let s := List.filter (fun c => negb (Ascii.eqb c "_")) value in
  let '(neg, s1) := take_sign s in
  let '(ip, s2) := span_digits s1 in
  let '(fp, s3) :=
    match s2 with
    | c :: s2' => if Ascii.eqb c dot then span_digits s2' else ([], s2)
    | [] => ([], [])
    end in
  if (length ip + length fp =? 0)%nat then parse_special s1
  else
    match parse_exp s3 with
    | Some x =>
        let c := digits_val (ip ++ fp) in
        Some (Finite (Dec (if neg then - c else c) (x - Z.of_nat (length fp))))
    | None => None
    end.

(** ** Comparison does not depend on the scale *)

Lemma scaled_lower d e e' : e' <= e <= expo d -> scaled d e' = scaled d e * 10 ^ (e - e').
Proof.
  intros. unfold scaled. rewrite <-Z.mul_assoc, <-Z.pow_add_r by lia. do 2 f_equal. lia.
Qed.

Lemma scaled_self d : scaled d (expo d) = coef d.
Proof. unfold scaled. rewrite Z.sub_diag. lia. Qed.

Lemma dec_ltb_at e a b : e <= expo a -> e <= expo b ->
  dec_ltb a b = (scaled a e <? scaled b e).
Proof.
  intros. unfold dec_ltb, common_expo.
  rewrite !(scaled_lower _ (expo a `min` expo b) e) by lia.
  assert (0 < 10 ^ (expo a `min` expo b - e)) by auto with py lia.
  apply eq_true_iff_eq. rewrite !Z.ltb_lt. nia.
Qed.

Lemma dec_leb_at e a b : e <= expo a -> e <= expo b ->
  dec_leb a b = (scaled a e <=? scaled b e).
Proof.
  intros. unfold dec_leb, common_expo.
  rewrite !(scaled_lower _ (expo a `min` expo b) e) by lia.
  assert (0 < 10 ^ (expo a `min` expo b - e)) by auto with py lia.
  apply eq_true_iff_eq. rewrite !Z.leb_le. nia.
Qed.

Lemma dec_eqb_at e a b : e <= expo a -> e <= expo b ->
  dec_eqb a b = (scaled a e =? scaled b e).
Proof.
  intros. unfold dec_eqb, common_expo.
  rewrite !(scaled_lower _ (expo a `min` expo b) e) by lia.
  assert (0 < 10 ^ (expo a `min` expo b - e)) by auto with py lia.
  apply eq_true_iff_eq. rewrite !Z.eqb_eq. nia.
Qed.

(** Move every decimal comparison of the context to one scale. *)
Ltac at_scale e :=
  rewrite ?(dec_ltb_at e), ?(dec_leb_at e), ?(dec_eqb_at e) in * by lia.

Lemma dec_equiv_at e a b : e <= expo a -> e <= expo b -> a ≡ b <-> scaled a e = scaled b e.
Proof. intros. unfold equiv, dec_equiv. rewrite (dec_eqb_at e) by done. apply Z.eqb_eq. Qed.

#[export] Instance dec_equivalence : Equivalence (≡@{dec}).
Proof.
  split.
  - intros a. by apply (dec_equiv_at (expo a)).
  - intros a b. rewrite !(dec_equiv_at (expo a `min` expo b)) by lia. done.
  - intros a b c. rewrite !(dec_equiv_at (expo a `min` expo b `min` expo c)) by lia. congruence.
Qed.

#[export] Instance dec_ltb_proper : Proper ((≡) ==> (≡) ==> eq) dec_ltb.
Proof.
  intros a a' Ha b b' Hb.
  set (e := expo a `min` expo a' `min` expo b `min` expo b').
  rewrite !(dec_ltb_at e) by lia.
  apply (dec_equiv_at e) in Ha, Hb; [|lia..]. congruence.
Qed.

#[export] Instance dec_leb_proper : Proper ((≡) ==> (≡) ==> eq) dec_leb.
Proof.
  intros a a' Ha b b' Hb.
  set (e := expo a `min` expo a' `min` expo b `min` expo b').
  rewrite !(dec_leb_at e) by lia.
  apply (dec_equiv_at e) in Ha, Hb; [|lia..]. congruence.
Qed.

Lemma dec_leb_refl a : a <=d a.
Proof. rewrite (dec_leb_at (expo a)) by lia. apply Z.leb_refl. Qed.

Lemma dec_leb_trans a b c : a <=d b -> b <=d c -> a <=d c.
Proof. at_scale (expo a `min` expo b `min` expo c). b2p. intros; b2p. apply Z.leb_le. lia. Qed.

Lemma dec_ltb_leb a b : dec_ltb a b = negb (dec_leb b a).
Proof. at_scale (expo a `min` expo b). apply Z.ltb_antisym. Qed.

Lemma dec_ltb_le a b : a <d b -> a <=d b.
Proof. at_scale (expo a `min` expo b). intros; b2p. apply Z.leb_le. lia. Qed.

Lemma dec_leb_total a b : a <=d b \/ b <=d a.
Proof. at_scale (expo a `min` expo b). rewrite !Z.leb_le. lia. Qed.

Lemma dec_leb_antisym a b : a <=d b -> b <=d a -> a ≡ b.
Proof.
  at_scale (expo a `min` expo b). rewrite (dec_equiv_at (expo a `min` expo b)) by lia.
  intros; b2p. lia.
Qed.

(** Positive values are those with a positive coefficient. *)
Lemma dec_leb_zero d : dec_leb d (of_int 0) = (coef d <=? 0).
Proof.
  unfold dec_leb, common_expo, scaled. simpl. apply eq_true_iff_eq. rewrite !Z.leb_le.
  assert (0 < 10 ^ (expo d - expo d `min` 0)) by auto with py lia. nia.
Qed.

(** ** Rounding leaves small coefficients alone *)

Lemma ndigits_fuel_bound f n k : 0 <= n < 10 ^ k -> 1 <= k -> ndigits_fuel f n <= k.
Proof.
  revert n k. induction f as [|f IH]; intros n k Hn Hk; simpl; [lia|].
  destruct (Z.ltb_spec n 10); [lia|].
  destruct (decide (k = 1)) as [->|]; [lia|].
  assert (10 ^ k = 10 ^ (k - 1) * 10) by (rewrite (pow10_split k 1); lia).
  assert (ndigits_fuel f (n / 10) <= k - 1); [|lia].
  apply IH; [|lia]. split; [apply Z.div_pos; lia|apply Z.div_lt_upper_bound; lia].
Qed.

Lemma fix_prec_id d : Z.abs (coef d) < 10 ^ PREC -> fix_prec d = d.
Proof.
  intros H. unfold fix_prec, ndigits.
  rewrite (proj2 (Z.leb_le _ _)); [done|]. apply ndigits_fuel_bound; unfold PREC in *; lia.
Qed.

(** ** Digit strings *)

Lemma digit_char_val d : 0 <= d < 10 -> is_digit (digit_char d) = true /\ digit_val (digit_char d) = d.
Proof.
  intros H.
  assert (d = 0 \/ d = 1 \/ d = 2 \/ d = 3 \/ d = 4 \/ d = 5 \/ d = 6 \/ d = 7 \/ d = 8 \/ d = 9) by lia.
  naive_solver.
Qed.

Definition all_digits (s : list ascii) : Prop := Forall (fun c => is_digit c = true) s.

Lemma digits_val_acc ds acc :
  fold_left (fun acc c => 10 * acc + digit_val c) ds acc = acc * 10 ^ Z.of_nat (length ds) + digits_val ds.
Proof.
  unfold digits_val. revert acc. induction ds as [|c ds IH]; intros acc; cbn [fold_left length]; [lia|].
  rewrite IH, (IH (10 * 0 + digit_val c)). rewrite Nat2Z.inj_succ, Z.pow_succ_r by lia. lia.
Qed.

Lemma digits_val_app ds1 ds2 :
  digits_val (ds1 ++ ds2) = digits_val ds1 * 10 ^ Z.of_nat (length ds2) + digits_val ds2.
Proof. unfold digits_val at 1. rewrite fold_left_app. apply digits_val_acc. Qed.

Lemma digits_val_snoc ds d : 0 <= d < 10 -> digits_val (ds ++ [digit_char d]) = 10 * digits_val ds + d.
Proof.
  intros. rewrite digits_val_app. unfold digits_val at 2. simpl.
  rewrite (proj2 (digit_char_val d H)). lia.
Qed.

Lemma digits_val_zeros k : digits_val (replicate k zero_ch) = 0.
Proof. induction k; [done|]. cbn [replicate]. change (digits_val ([zero_ch] ++ replicate k zero_ch) = 0).
  rewrite digits_val_app, IHk. change (digits_val [zero_ch]) with 0. lia.
Qed.

Lemma all_digits_app s t : all_digits (s ++ t) <-> all_digits s /\ all_digits t.
Proof. apply Forall_app. Qed.

Lemma all_digits_zeros k : all_digits (replicate k zero_ch).
Proof. by apply Forall_replicate. Qed.

Lemma low_digits_S w n : low_digits (S w) (10 * n) = low_digits w n ++ [zero_ch].
Proof.
  cbn [low_digits]. rewrite Z.mul_comm, Z.div_mul, Z.mod_mul by lia. done.
Qed.

Lemma low_digits_length w n : length (low_digits w n) = w.
Proof. revert n. induction w; intros; simpl; [done|]. rewrite length_app, IHw. simpl. lia. Qed.

Lemma low_digits_val w n : 0 <= n < 10 ^ Z.of_nat w -> digits_val (low_digits w n) = n.
Proof.
  revert n. induction w as [|w IH]; intros n Hn; cbn [low_digits].
  { change (10 ^ Z.of_nat 0) with 1 in Hn. unfold digits_val. simpl. lia. }
  rewrite Nat2Z.inj_succ, Z.pow_succ_r in Hn by lia.
  pose proof (Z.div_mod n 10 ltac:(lia)). pose proof (Z.mod_pos_bound n 10 ltac:(lia)).
  rewrite digits_val_snoc by lia. rewrite IH; lia.
Qed.

Lemma low_digits_digits w n : all_digits (low_digits w n).
Proof.
  revert n. induction w as [|w IH]; intros n; simpl; [constructor|].
  apply all_digits_app. split; [apply IH|]. constructor; [|constructor].
  apply digit_char_val. apply Z.mod_pos_bound. lia.
Qed.

Lemma int_digits_fuel_app f n acc : int_digits_fuel f n acc = int_digits_fuel f n [] ++ acc.
Proof.
  revert n acc. induction f as [|f IH]; intros n acc; simpl; [done|].
  destruct (n <? 10); [done|]. rewrite IH, (IH _ [_]), <-app_assoc. done.
Qed.

Lemma int_digits_fuel_spec f n : 0 <= n < 2 ^ Z.of_nat f ->
  all_digits (int_digits_fuel f n []) /\ digits_val (int_digits_fuel f n []) = n.
Proof.
  revert n. induction f as [|f IH]; intros n Hn.
  { change (2 ^ Z.of_nat 0) with 1 in Hn. assert (n = 0) as -> by lia. split; [constructor|done]. }
  rewrite Nat2Z.inj_succ, Z.pow_succ_r in Hn by lia. cbn [int_digits_fuel].
  pose proof (Z.div_mod n 10 ltac:(lia)). pose proof (Z.mod_pos_bound n 10 ltac:(lia)) as Hm.
  destruct (Z.ltb_spec n 10).
  - rewrite (Z.mod_small n) by lia. split.
    + constructor; [apply digit_char_val; lia|constructor].
    + change [digit_char n] with ([] ++ [digit_char n]). rewrite digits_val_snoc by lia.
      change (digits_val []) with 0. lia.
  - destruct (IH (n / 10)) as [Hd Hv]; [lia|]. rewrite int_digits_fuel_app. split.
    + apply all_digits_app. split; [done|]. constructor; [apply digit_char_val; lia|constructor].
    + rewrite digits_val_snoc by done. lia.
Qed.

Lemma int_digits_spec n : 0 <= n ->
  all_digits (int_digits n) /\ digits_val (int_digits n) = n.
Proof.
  intros Hn. apply int_digits_fuel_spec. split; [done|].
  rewrite Nat2Z.inj_succ, Z2Nat.id by apply Z.log2_nonneg.
  destruct (decide (n = 0)) as [->|]; [done|]. apply Z.log2_spec. lia.
Qed.

Lemma int_digits_nonempty n : int_digits n <> [].
Proof.
  unfold int_digits. cbn [int_digits_fuel]. case_match; [done|].
  rewrite int_digits_fuel_app. destruct (int_digits_fuel _ _ []); done.
Qed.

Lemma rstrip_nil_inv c s : rstrip c s = [] -> s = replicate (length s) c.
Proof.
  induction s as [|x s IH]; simpl; [done|]. destruct (rstrip c s); [|done].
  destruct (Ascii.eqb_spec x c); [|done]. intros _. subst. f_equal. by apply IH.
Qed.

(** Stripping and padding only remove and add trailing [c]s. *)
Lemma rstrip_spec c s : exists k, s = rstrip c s ++ replicate k c.
Proof.
  induction s as [|x s [k IH]]; simpl; [by exists 0%nat|].
  destruct (rstrip c s) eqn:Hr.
  - destruct (Ascii.eqb_spec x c).
    + subst. exists (S k). simpl. by f_equal.
    + exists k. simpl. by f_equal.
  - exists k. simpl. by f_equal.
Qed.

Lemma rstrip_snoc c s : rstrip c (s ++ [c]) = rstrip c s.
Proof.
  induction s as [|x s IH]; simpl; [by rewrite Ascii.eqb_refl|]. by rewrite IH.
Qed.

(** ** The constructor reads back plain notation *)

Lemma is_digit_not c d : is_digit c = true -> is_digit d = false -> Ascii.eqb c d = false.
Proof. intros. destruct (Ascii.eqb_spec c d); congruence. Qed.

Lemma span_digits_app s t : all_digits s ->
  match t with [] => True | c :: _ => is_digit c = false end ->
  span_digits (s ++ t) = (s, t).
Proof.
  intros Hs Ht. induction Hs as [|c s Hc Hs IH]; simpl.
  - destruct t; [done|]. simpl. by rewrite Ht.
  - by rewrite Hc, IH.
Qed.

Lemma filter_digits s : all_digits s -> List.filter (fun c => negb (Ascii.eqb c "_")) s = s.
Proof.
  induction 1 as [|c s Hc Hs IH]; simpl; [done|]. by rewrite (is_digit_not c "_") by done; simpl; rewrite IH.
Qed.

Lemma partition_at_digits s t : all_digits s -> partition_at dot (s ++ dot :: t) = (s, t).
Proof.
  induction 1 as [|c s Hc Hs IH]; simpl; [done|]. rewrite (is_digit_not c dot) by done. by rewrite IH.
Qed.

Lemma partition_at_nodot s : all_digits s -> partition_at dot s = (s, []).
Proof.
  induction 1 as [|c s Hc Hs IH]; simpl; [done|]. rewrite (is_digit_not c dot) by done. by rewrite IH.
Qed.

Lemma decimal_of_plain (neg : bool) (ip fp : list ascii) :
  all_digits ip -> all_digits fp -> ip <> [] ->
  decimal_of_chars ((if neg then ["-"%char] else []) ++ ip ++ dot :: fp) =
  Some (Finite (Dec (if neg then - digits_val (ip ++ fp) else digits_val (ip ++ fp))
                    (- Z.of_nat (length fp)))).
Proof.
  intros Hip Hfp Hne. unfold decimal_of_chars.
  assert (Hf : List.filter (fun c => negb (Ascii.eqb c "_")) (ip ++ dot :: fp) = ip ++ dot :: fp).
  { rewrite List.filter_app. cbn [List.filter]. by rewrite !filter_digits. }
  assert (Hs : forall s, take_sign (ip ++ s) = (false, ip ++ s)).
  { intros s. destruct ip as [|c ip]; [done|]. inversion Hip; subst. simpl.
    by rewrite !(is_digit_not c _) by done. }
  assert (take_sign (List.filter (fun c => negb (Ascii.eqb c "_"))
            ((if neg then ["-"%char] else []) ++ ip ++ dot :: fp)) = (neg, ip ++ dot :: fp)) as ->.
  { destruct neg; simpl; rewrite Hf; [done|]. apply Hs. }
  rewrite span_digits_app by done. simpl.
  rewrite <-(app_nil_r fp) at 1. rewrite span_digits_app by done.
  destruct ip as [|c ip]; [done|]. simpl. by destruct neg.
Qed.

(** ** Exact division *)

Lemma strip_zeros_spec f c e ideal : 0 < c -> e <= ideal -> ideal - e <= Z.of_nat f ->
  let d := strip_zeros f c e ideal in
  0 < coef d /\ e <= expo d <= ideal /\ coef d * 10 ^ (expo d - e) = c /\
  (expo d = ideal \/ coef d mod 10 <> 0).
Proof.
  revert c e. induction f as [|f IH]; intros c e Hc He Hf; cbn [strip_zeros].
  { cbn. rewrite Z.sub_diag. lia. }
  destruct (Z.ltb_spec e ideal); cbn [andb].
  2: { cbn. rewrite Z.sub_diag. lia. }
  destruct (Z.eqb_spec (c mod 10) 0) as [Hm|Hm].
  2: { cbn. rewrite Z.sub_diag. lia. }
  pose proof (Z.div_mod c 10 ltac:(lia)) as Hdm.
  destruct (IH (c / 10) (e + 1)) as (H1 & H2 & H3 & H4); [lia..|].
  split; [done|]. split; [lia|]. split; [|done].
  set (d := strip_zeros f (c / 10) (e + 1) ideal) in *.
  replace (expo d - e) with (expo d - (e + 1) + 1) by lia.
  rewrite Z.pow_add_r, Z.mul_assoc, H3 by lia. lia.
Qed.

(** Dividing by a divisor of a power of ten is exact. *)
Lemma dec_div_exact a y m k : 0 < coef a < 10 ^ 20 -> 0 < y -> y * m = 10 ^ k -> 0 <= k <= 8 ->
  exists d, dec_div a (Dec y 0) = Ok d /\ 0 < coef d <= coef a * m /\
    expo a - k <= expo d <= expo a /\ coef d * 10 ^ (expo d - (expo a - k)) = coef a * m.
Proof.
  intros Ha Hy Hm Hk. unfold dec_div. cbn [coef expo].
  rewrite !(proj2 (Z.eqb_neq _ _)) by lia.
  rewrite !Z.sgn_pos, !Z.abs_eq, Z.sub_0_r by lia.
  set (shift := ndigits y - ndigits (coef a) + PREC + 1).
  assert (Hshift : k <= shift).
  { assert (ndigits (coef a) <= 20) by (apply ndigits_fuel_bound; lia).
    assert (0 <= ndigits y) by (unfold ndigits; generalize (S (Z.to_nat (Z.log2 y))) as f; intros f;
      clear; revert y; induction f as [|f IH]; intros y; cbn [ndigits_fuel]; [lia|];
      specialize (IH (y / 10)); case_match; lia).
    unfold shift, PREC. lia. }
  rewrite (proj2 (Z.leb_le _ _)) by lia.
  assert (Hp : 0 < 10 ^ (shift - k)) by auto with py lia.
  assert (Hx : coef a * 10 ^ shift = coef a * m * 10 ^ (shift - k) * y).
  { rewrite (pow10_split shift k), <-Hm by lia. ring. }
  rewrite Hx, Z.div_mul, Z.mod_mul by lia. rewrite Z.eqb_refl.
  assert (0 < m) by (pose proof (pow10_pos k); nia).
  destruct (strip_zeros_spec (Z.to_nat (expo a - (expo a - shift))) (coef a * m * 10 ^ (shift - k))
              (expo a - shift) (expo a)) as (H1 & H2 & H3 & H4); [nia|lia|lia|].
  set (d := strip_zeros _ _ _ _) in *.
  assert (Hlow : expo a - k <= expo d).
  { destruct (Z.le_gt_cases (expo a - k) (expo d)) as [|Hlt]; [done|].
    destruct H4 as [H4|H4]; [lia|]. exfalso. apply H4.
    assert (coef d = coef a * m * 10 ^ (expo a - k - expo d - 1) * 10) as ->; [|apply Z.mod_mul; lia].
    replace (shift - k) with ((expo a - k - expo d - 1) + (1 + (expo d - (expo a - shift)))) in H3 by lia.
    rewrite !Z.pow_add_r in H3 by lia. change (10 ^ 1) with 10 in H3.
    assert (0 < 10 ^ (expo d - (expo a - shift))) by auto with py lia. nia. }
  assert (Hval : coef d * 10 ^ (expo d - (expo a - k)) = coef a * m).
  { replace (expo d - (expo a - shift)) with ((expo d - (expo a - k)) + (shift - k)) in H3 by lia.
    rewrite Z.pow_add_r in H3 by lia. nia. }
  assert (Hle : coef d <= coef a * m).
  { assert (0 < 10 ^ (expo d - (expo a - k))) by auto with py lia. nia. }
  exists d. split; [|repeat split; lia || done].
  f_equal. rewrite fix_prec_id; [destruct d; simpl; f_equal; lia|].
  cbn [coef]. assert (m <= 10 ^ 8).
  { pose proof (Z.pow_le_mono_r 10 k 8). nia. }
  unfold PREC.
  assert (coef a * m < 10 ^ 20 * 10 ^ 8) by nia. lia.
Qed.
