(* ===== verification/Datetime.v ===== *)
(** * Dates, times of day and datetimes

    The parts of Python's [datetime] and of the Asia/Taipei time zone that the
    application uses.  An instant is a number of microseconds since
    1970-01-01T00:00Z; a [date] is a number of days since 1970-01-01 and a
    [time] a number of microseconds since midnight.  Asia/Taipei is the fixed
    offset UTC+8, which it has been since 1979. *)

From S2P Require Import Prelude.

Definition date : Type := Z.
Definition time : Type := Z.

Definition SECOND : Z := 1000000.
Definition MINUTE : Z := 60 * SECOND.
Definition HOUR : Z := 60 * MINUTE.
Definition DAY : Z := 24 * HOUR.

(** [dt_off] is the UTC offset in minutes of an aware datetime and [None] for
    a naive one, whose [dt_us] is then its wall-clock reading. *)
Record datetime : Type := DT { dt_us : Z; dt_off : option Z }.

#[export] Instance datetime_eq_dec : EqDecision datetime.
Proof. solve_decision. Defined.

Definition is_aware (dt : datetime) : bool := is_some (dt_off dt).

(** [time(h, m)] *)
Definition mk_time (h m : Z) : time := h * HOUR + m * MINUTE.

Definition TAIPEI_OFFSET : Z := 480.

(** [dt.astimezone(TAIPEI_TZ)] of an aware datetime, and the fields it then has. *)
Definition astimezone_taipei (dt : datetime) : datetime := DT (dt_us dt) (Some TAIPEI_OFFSET).
Definition wall (dt : datetime) : Z :=
  match dt_off dt with Some o => dt_us dt + o * MINUTE | None => dt_us dt end.
Definition dt_date (dt : datetime) : date := wall dt / DAY.
Definition dt_time (dt : datetime) : time := wall dt mod DAY.

(** [datetime.combine(d, t, tzinfo=TAIPEI_TZ)] *)
Definition combine_taipei (d : date) (t : time) : datetime :=
  DT (d * DAY + t - TAIPEI_OFFSET * MINUTE) (Some TAIPEI_OFFSET).

(** [dt + timedelta] *)
Definition dt_add (dt : datetime) (us : Z) : datetime := DT (dt_us dt + us) (dt_off dt).

(** [d.weekday()], Monday is 0; 1970-01-01 was a Thursday. *)
Definition weekday (d : date) : Z := (d + 3) mod 7.

(** Civil calendar: year, month and day of a day number (proleptic Gregorian). *)
Definition civil (d : date) : Z * Z * Z :=
  let z := d + 719468 in
  let era := z / 146097 in
  let doe := z mod 146097 in
  let yoe := (doe - doe / 1460 + doe / 36524 - doe / 146096) / 365 in
  let doy := doe - (365 * yoe + yoe / 4 - yoe / 100) in
  let mp := (5 * doy + 2) / 153 in
  let day := doy - (153 * mp + 2) / 5 + 1 in
  let month := if mp <? 10 then mp + 3 else mp - 9 in
  let year := yoe + era * 400 + (if month <=? 2 then 1 else 0) in
  (year, month, day).

(** ** Facts *)

Lemma DAY_pos : 0 < DAY.
Proof. done. Qed.

Lemma dt_time_bounds dt : 0 <= dt_time dt < DAY.
Proof. unfold dt_time. apply Z.mod_pos_bound, DAY_pos. Qed.

Lemma wall_split dt : wall dt = dt_date dt * DAY + dt_time dt.
Proof. unfold dt_date, dt_time. pose proof DAY_pos.
  pose proof (Z.div_mod (wall dt) DAY ltac:(lia)). lia. Qed.

Lemma wall_taipei dt : wall (astimezone_taipei dt) = dt_us dt + TAIPEI_OFFSET * MINUTE.
Proof. done. Qed.

Lemma wall_combine d t : wall (combine_taipei d t) = d * DAY + t.
Proof. unfold wall, combine_taipei. simpl. lia. Qed.

Lemma combine_fields d t : 0 <= t < DAY ->
  dt_date (combine_taipei d t) = d /\ dt_time (combine_taipei d t) = t.
Proof.
  intros Ht. pose proof DAY_pos. unfold dt_date, dt_time. rewrite wall_combine. split.
  - rewrite Z.add_comm, Z.div_add, Z.div_small; lia.
  - rewrite Z.add_comm, Z_mod_plus_full, Z.mod_small; lia.
Qed.

Lemma combine_of_taipei dt : dt_off dt = Some TAIPEI_OFFSET -> combine_taipei (dt_date dt) (dt_time dt) = dt.
Proof.
  intros H. destruct dt as [us off]. simpl in H. subst off. unfold combine_taipei. f_equal.
  rewrite <-wall_split. unfold wall. simpl. lia.
Qed.

Lemma weekday_bounds d : 0 <= weekday d < 7.
Proof. apply Z.mod_pos_bound. lia. Qed.

Lemma weekday_succ d : weekday (d + 1) = if weekday d =? 6 then 0 else weekday d + 1.
Proof.
  unfold weekday. replace (d + 1 + 3) with (d + 3 + 1) by lia.
  pose proof (Z.mod_pos_bound (d + 3) 7 ltac:(lia)).
  rewrite Z.add_mod by lia. change (1 mod 7) with 1.
  destruct (Z.eqb_spec ((d + 3) mod 7) 6) as [->|]; [done|]. rewrite Z.mod_small; lia.
Qed.
