(* ===== verification/Json.v ===== *)
(** * JSON values and small pieces of Python's text handling

    The values the Telegram workflow keeps in its JSONB columns and reads from
    the replies of the language model and of the Bot API, [str()] of the
    scalars among them, and the text form of a UUID. *)

From S2P Require Import Prelude Decimal.

#[local] Open Scope string_scope.
#[local] Open Scope list_scope.
#[local] Open Scope Z_scope.

(** ** Values *)

(** A scalar as [json.loads] gives it. *)
Inductive scalar : Type :=
| SNull
| SBool (b : bool)
| SInt (n : Z)
| SStr (s : string).

#[export] Instance scalar_eq_dec : EqDecision scalar.
Proof. solve_decision. Defined.

(** A document.  A float is kept as the text [str()] gives it; the members of
    an object are the ones the parser keeps, one per key. *)
Inductive jvalue : Type :=
| JScalar (s : scalar)
| JFloat (repr : string)
| JArr (items : list jvalue)
| JObj (members : gmap string jvalue).

Definition JNull : jvalue := JScalar SNull.
Definition JStr (s : string) : jvalue := JScalar (SStr s).
Definition JInt (n : Z) : jvalue := JScalar (SInt n).

(** [v == "..."] on a value that may be absent *)
Definition is_str (v : option jvalue) (s : string) : bool :=
  match v with Some (JScalar (SStr t)) => String.eqb t s | _ => false end.

(** [bool(v)] of [dict.get] *)
Definition truthy (v : option jvalue) : bool :=
  match v with
  | None | Some (JScalar SNull) => false
  | Some (JScalar (SBool b)) => b
  | Some (JScalar (SInt n)) => negb (n =? 0)
  | Some (JScalar (SStr s)) => negb (String.eqb s "")
  | Some (JFloat t) => negb (str_in t ["0.0"; "-0.0"])
  | Some (JArr l) => match l with [] => false | _ => true end
  | Some (JObj m) => negb (bool_decide (m = ∅))
  end.

(** [str(n)] of an integer *)
Definition str_int (n : Z) : string := unchars (sign_chars n ++ int_digits (Z.abs n)).

(** [str(v)] of a scalar *)
Definition py_str (v : scalar) : string :=
  match v with
  | SNull => "None"
  | SBool b => if b then "True" else "False"
  | SInt n => str_int n
  | SStr s => s
  end.

(** [n == v] of an integer and a scalar: a bool is an integer in Python. *)
Definition int_eq (n : Z) (v : scalar) : bool :=
  match v with
  | SInt m => n =? m
  | SBool b => n =? (if b then 1 else 0)
  | _ => false
  end.

(** [sorted(strings)]: UTF-8 keeps the order of the code points. *)
Fixpoint insert_string (x : string) (l : list string) : list string :=
  match l with
  | [] => [x]
  | y :: l' => if String.leb x y then x :: l else y :: insert_string x l'
  end.
Definition sorted_strings (l : list string) : list string := foldr insert_string [] l.

(** [s.isdigit()] on ASCII text *)
Definition str_isdigit (s : string) : bool :=
  match chars s with [] => false | l => forallb is_digit l end.

(** [len(s)] of a string held as UTF-8: the bytes that start a character. *)
Definition py_len (s : string) : Z :=
  Z.of_nat (length (List.filter (fun c => negb (Nat.leb 128 (Ascii.nat_of_ascii c) && Nat.ltb (Ascii.nat_of_ascii c) 192))
                      (chars s))).

(** [s.split(c)] *)
Fixpoint split_at (c : ascii) (s : list ascii) : list (list ascii) :=
  match s with
  | [] => [[]]
  | x :: rest =>
      if Ascii.eqb x c then [] :: split_at c rest
      else match split_at c rest with w :: ws => (x :: w) :: ws | [] => [[x]] end
  end.

(** [str.strip()]: ASCII whitespace *)
Definition is_space (c : ascii) : bool :=
  let n := nat_of_ascii c in
  ((9 <=? n)%nat && (n <=? 13)%nat) || ((28 <=? n)%nat && (n <=? 32)%nat).
Fixpoint lstrip (s : list ascii) : list ascii :=
  match s with
  | c :: s' => if is_space c then lstrip s' else s
  | [] => []
  end.
Definition strip (s : list ascii) : list ascii := rev (lstrip (rev (lstrip s))).

(** ** UUIDs as text *)

Definition hex_digit (n : Z) : ascii :=
  ascii_of_nat (Z.to_nat (if n <? 10 then 48 + n else 87 + n)).
Definition hex_value (c : ascii) : option Z :=
  let n := Z.of_nat (nat_of_ascii (lower_char c)) in
  if (48 <=? n) && (n <=? 57) then Some (n - 48)
  else if (97 <=? n) && (n <=? 102) then Some (n - 87) else None.

(** The [w] low-order hexadecimal digits of [n]. *)
Fixpoint low_hex (w : nat) (n : Z) : list ascii :=
  match w with
  | O => []
  | S w' => low_hex w' (n / 16) ++ [hex_digit (n mod 16)]
  end.

(** [str(UUID)]: groups of 8, 4, 4, 4 and 12 digits. *)
Definition hyphen : ascii := "-"%char.
Definition hyphenate (h : list ascii) : list ascii :=
  take 8 h ++ hyphen :: take 4 (drop 8 h) ++ hyphen :: take 4 (drop 12 h) ++
  hyphen :: take 4 (drop 16 h) ++ hyphen :: drop 20 h.
Definition str_uuid (i : Z) : string := unchars (hyphenate (low_hex 32 i)).

(** [s.replace(old, '')], scanning from the left. *)
Fixpoint remove_text (fuel : nat) (old s : list ascii) : list ascii :=
  match fuel with
  | O => s
  | S f =>
      match s with
      | [] => []
      | c :: rest =>
          if bool_decide (take (length old) s = old) then remove_text f old (drop (length old) s)
          else c :: remove_text f old rest
      end
  end.
Definition remove_all (old s : list ascii) : list ascii := remove_text (length s) old s.

(** [s.strip('{}')] *)
Fixpoint lstrip_braces (s : list ascii) : list ascii :=
  match s with
  | c :: rest => if (Ascii.eqb c "{" || Ascii.eqb c "}")%char then lstrip_braces rest else s
  | [] => []
  end.
Definition strip_braces (s : list ascii) : list ascii := rev (lstrip_braces (rev (lstrip_braces s))).

(** The digits of [int(s, 16)], single underscores between them. *)
Fixpoint hex_digits (acc : Z) (after_digit : bool) (s : list ascii) : option Z :=
  match s with
  | [] => if after_digit then Some acc else None
  | c :: rest =>
      if Ascii.eqb c "_" then if after_digit then hex_digits acc false rest else None
      else match hex_value c with Some v => hex_digits (16 * acc + v) true rest | None => None end
  end.

(** [int(s, 16)] *)
Definition int_of_hex (s : list ascii) : option Z :=
  let '(neg, s1) := take_sign (strip s) in
  let n :=
    match s1 with
    | c :: x :: rest =>
        if Ascii.eqb c "0" && Ascii.eqb (lower_char x) "x" then
          hex_digits 0 false (match rest with u :: rest' => if Ascii.eqb u "_" then rest' else rest | [] => rest end)
        else hex_digits 0 false s1
    | _ => hex_digits 0 false s1
    end in
  (fun v => if neg : bool then - v else v) <$> n.

(** [UUID(text)]; [None] is its ValueError. *)
Definition parse_uuid (text : string) : option Z :=
  let h := List.filter (fun c => negb (Ascii.eqb c hyphen))
             (strip_braces (remove_all (chars "uuid:") (remove_all (chars "urn:") (chars text)))) in
  if negb (length h =? 32)%nat then None
  else
    match int_of_hex h with
    | Some v => if (0 <=? v) && (v <? 2 ^ 128) then Some v else None
    | None => None
    end.
