(* ===== verification/Errors.v ===== *)
(** * The exceptions of the application

    One constructor per exception class that the modelled code raises or
    catches, with the fields the handlers read. *)

From Stdlib Require QArith_base.
From S2P Require Import Prelude Decimal Datetime Json.

(** A UUID, abstractly. *)
Definition uuid : Type := Z.

(** What a caller may pass as [PriceRequest.amount]: an [int], or something
    that is not one (a [bool] counts as not one). *)
Inductive py_amount : Type :=
| AmountInt (n : Z)
| AmountOther (repr : string).

Inductive exn : Type :=
(* builtins and libraries *)
| TypeError
| ValueError (msg : string)
| RuntimeError (msg : string)
| KeyError (key : string)
| DecimalError (e : dec_exn)
| OverflowError
| IntegrityError (constraint : string)
(* domain/price.py *)
| InvalidPriceError (value reason : string)
| InvalidTickSizeError (value reason : string) (nearest_lower nearest_upper : dec) (field : option string)
| InvalidAmountError (value : py_amount) (reason : string)
| InvalidTypeError (value reason : string)
(* domain/symbol_errors.py *)
| UnknownSymbolError (symbol : string)
| SymbolNotTradableError (symbol tradable_status : string)
(* domain/trading_session.py *)
| OutsideSessionError (reason : string)
(* domain/trade_intent.py *)
| DuplicateIntentError (owner : uuid) (symbol strategy : string)
| IntentNotFoundError (intent_id : uuid)
| CancelNotAllowedError (intent_id : uuid) (current_status : string)
| InvalidCursorError (cursor_id : uuid)
| UserIntentLimitExceededError (limit current : Z)
| SymbolIntentLimitExceededError (symbol : string) (limit current : Z)
(* domain/trigger_event.py, commands/trigger_intent*.py *)
| DuplicateTriggerError (intent_id : uuid)
| CoreIntentNotActiveError (intent_id : uuid)
| IntentNotActiveError (intent_id : uuid) (current_status : string)
(* domain/twap.py *)
| TwapInvalidIntervalError (interval_seconds : Z)
| TwapInvalidQuantityError (quantity_lots : Z)
| TwapEndTimeOutsideSessionError (end_time : time)
| TwapStartTimeOutsideSessionError (start_time : time)
| TwapStartTimeAfterEndTimeError (start_time end_time : time)
| TwapEndTimeAlreadyPassedError (end_at now : datetime)
| TwapInsufficientSlicesError (available materialized : Z)
| TwapTooManySlicesError (materialized : Z)
| TwapDuplicateActivePlanError (owner : uuid) (symbol position_side : string)
(* services/quote *)
| QuoteUnavailableError (symbol : string)
| QuoteProviderUnavailableError (provider : string) (reason : option string)
| SymbolNotAvailableInDemo (symbol : string) (allowed : list string)
| QuoteSubscriptionLimitExceeded (symbol : string) (current limit : Z)
| QuoteValidationError (reason symbol : string)
(* domain/notification.py *)
| NotificationNotFoundError (notification_id : uuid)
(* domain/auth.py *)
| UnauthenticatedError
| ForbiddenError
| LoginFailedError
| LoginLockedError (retry_after_seconds : option QArith_base.Q)
| RefreshInvalidError
| RefreshReuseDetectedError
| CsrfFailedError
| MfaRequiredError
| RateLimitedError (retry_after_seconds : option QArith_base.Q)
| MfaInvalidCodeError
| EmailAlreadyExistsError
| UserNotFoundError
| InvitationInvalidError
| InvitationExpiredError
| InvitationConsumedError
| WeakPasswordError
| PasswordResetInvalidError
| MfaAlreadyEnabledError
| MfaNotSetupError
| AccountNotDisabledError
(* domain/telegram_intent.py *)
| TelegramIntentLlmError (msg : string)
(* services/idempotency.py *)
| IdempotencyConflictError
(* core/tokens.py, api/errors.py *)
| InvalidAccessTokenError
| ApiError (code : string) (status_code : Z) (message : option string) (details : list (string * jvalue))
(* third-party failures (SMTP, JWT library, ...) *)
| ExternalError (what : string).

Abbreviation res := (result exn).

(** [except QuoteProviderError] *)
Definition is_quote_provider_error (e : exn) : bool :=
  match e with
  | QuoteUnavailableError _ | QuoteProviderUnavailableError _ _ | SymbolNotAvailableInDemo _ _
  | QuoteSubscriptionLimitExceeded _ _ _ => true
  | _ => false
  end.

(** [except AuthError] *)
Definition is_auth_error (e : exn) : bool :=
  match e with
  | UnauthenticatedError | ForbiddenError | LoginFailedError | LoginLockedError _
  | RefreshInvalidError | RefreshReuseDetectedError | CsrfFailedError | MfaRequiredError
  | RateLimitedError _ | MfaInvalidCodeError => true
  | _ => false
  end.

(** [except AccountError] *)
Definition is_account_error (e : exn) : bool :=
  match e with
  | EmailAlreadyExistsError | UserNotFoundError | InvitationInvalidError
  | InvitationExpiredError | InvitationConsumedError | WeakPasswordError
  | PasswordResetInvalidError | MfaAlreadyEnabledError | MfaNotSetupError
  | AccountNotDisabledError => true
  | _ => false
  end.

(** Decimal operations raise their own exceptions into the program. *)
Definition lift_dec {A} (r : result dec_exn A) : res A :=
  match r with Ok a => Ok a | Raise e => Raise (DecimalError e) end.
