(* ===== verification/Price.v ===== *)
(** * Prices: [src/app/domain/price.py]

    Price formatting, parsing and the TWSE tick-size rules. *)

From S2P Require Import Prelude Decimal Datetime Json Errors.

(** [format_price_str] *)
Definition format_price_str (value : dec) : string :=
  let s := format_f value in
  let '(integer_part, decimal_part) := partition_at dot s in
  let decimal_part := ljust 2 zero_ch (rstrip zero_ch decimal_part) in
  unchars (integer_part ++ dot :: decimal_part).

(** [_STOCK_TICK_TABLE]: (price upper bound exclusive, tick size) *)
Definition STOCK_TICK_TABLE : list (dec * dec) :=
  [ (Dec 10 0, Dec 1 (-2)); (Dec 50 0, Dec 5 (-2)); (Dec 100 0, Dec 1 (-1));
    (Dec 500 0, Dec 5 (-1)); (Dec 1000 0, Dec 1 0) ].
Definition STOCK_TICK_ABOVE_1000 : dec := Dec 5 0.
Definition ETF_TICK_TABLE : list (dec * dec) := [ (Dec 50 0, Dec 1 (-2)) ].
Definition ETF_TICK_ABOVE_50 : dec := Dec 5 (-2).

Inductive SecurityType : Type := STOCK | ETF.

#[export] Instance SecurityType_eq_dec : EqDecision SecurityType.
Proof. solve_decision. Defined.

(** [SecurityType(value)]; [None] is the ValueError of the enum. *)
Definition security_type_of (value : string) : option SecurityType :=
  if String.eqb value "stock" then Some STOCK
  else if String.eqb value "etf" then Some ETF else None.

Record PriceRequest : Type := mkPriceRequest {
  pr_type : string;
  pr_price : string;
  pr_amount : py_amount;
}.

(** [PriceService.parse] *)
Definition parse (value : string) : res dec :=
  let s := chars value in
  if negb (bool_decide (s = strip s)) then
    Raise (InvalidPriceError value "must not contain leading or trailing whitespace")
  else if existsb (Ascii.eqb ","%char) s then
    Raise (InvalidPriceError value "Comma is not allowed in price")
  else
    match decimal_of_chars s with
    | None => Raise (InvalidPriceError value "cannot be parsed as a number")
    | Some (Finite d) =>
        if dec_leb d (of_int 0) then Raise (InvalidPriceError value "must be greater than zero")
        else Ok d
    | Some _ => Raise (InvalidPriceError value "must be a finite number")
    end.

(** The loop over a tick table: the first bucket whose bound exceeds the price. *)
Fixpoint first_tick (table : list (dec * dec)) (above price : dec) : dec :=
  match table with
  | [] => above
  | (upper, tick) :: rest => if dec_ltb price upper then tick else first_tick rest above price
  end.

(** [PriceService.lookup_tick_size] *)
Definition lookup_tick_size (st : SecurityType) (price : dec) : dec :=
  match st with
  | ETF => first_tick ETF_TICK_TABLE ETF_TICK_ABOVE_50 price
  | STOCK => first_tick STOCK_TICK_TABLE STOCK_TICK_ABOVE_1000 price
  end.

(** [PriceService.is_valid_tick] *)
Definition is_valid_tick (st : SecurityType) (price : dec) : res bool :=
  let tick := lookup_tick_size st price in
  let? r := lift_dec (dec_mod price tick) in
  Ok (dec_eqb r (of_int 0)).

(** [PriceService.nearest_lower] *)
Definition nearest_lower (st : SecurityType) (price : dec) : res dec :=
  let tick := lookup_tick_size st price in
  let? q := lift_dec (dec_floordiv price tick) in
  let lower := dec_mul q tick in
  Ok (dec_max lower tick).

(** [PriceService.nearest_upper] *)
Definition nearest_upper (st : SecurityType) (price : dec) : res dec :=
  let tick := lookup_tick_size st price in
  let? q := lift_dec (dec_floordiv price tick) in
  let lower := dec_mul q tick in
  Ok (if dec_eqb lower price then lower else dec_add lower tick).

(** [PriceService.round_down_to_tick] *)
Definition round_down_to_tick (st : SecurityType) (price : dec) : res dec := nearest_lower st price.

(** [PriceService.fixed_amount_tick_size] *)
Definition fixed_amount_tick_size (st : SecurityType) : dec :=
  match st with ETF => Dec 5 (-2) | STOCK => Dec 1 (-1) end.

(** [PriceService.validate_fixed_amount_tick] *)
Definition validate_fixed_amount_tick (st : SecurityType) (value : dec) : res unit :=
  let tick := fixed_amount_tick_size st in
  let? r := lift_dec (dec_mod value tick) in
  if negb (dec_eqb r (of_int 0)) then
    let? q := lift_dec (dec_floordiv value tick) in
    let lower := dec_mul q tick in
    Raise (InvalidTickSizeError (unchars (str_dec value))
             ("not a valid fixed amount tick multiple (tick size is "
                ++ unchars (str_dec tick) ++ ")")%string
             (dec_max lower tick) (dec_add lower tick) (Some "trailValue"))
  else Ok tt.

(** [PriceService.validate] *)
Definition validate (request : PriceRequest) : res dec :=
  match pr_amount request with
  | AmountOther _ => Raise (InvalidAmountError (pr_amount request) "must be an integer")
  | AmountInt n =>
      if n <=? 0 then Raise (InvalidAmountError (pr_amount request) "must be greater than zero")
      else
        match security_type_of (pr_type request) with
        | None => Raise (InvalidTypeError (pr_type request) "must be stock or etf")
        | Some st =>
            let? price := parse (pr_price request) in
            let? valid := is_valid_tick st price in
            if negb valid then
              let tick := lookup_tick_size st price in
              let? lo := nearest_lower st price in
              let? hi := nearest_upper st price in
              Raise (InvalidTickSizeError (pr_price request)
                       ("not a valid tick multiple (tick size for this range is "
                          ++ unchars (str_dec tick) ++ ")")%string
                       lo hi None)
            else Ok price
        end
  end.

(** ** Formatting depends on the value only *)

Definition price_frac (d : dec) : list ascii := ljust 2 zero_ch (rstrip zero_ch (frac_digits d)).

Lemma int_part_nonneg d : 0 <= int_part d.
Proof.
  unfold int_part. case_match; b2p.
  - assert (0 < 10 ^ expo d) by auto with py. nia.
  - apply Z.div_pos; [lia|]. apply pow10_pos. lia.
Qed.

Lemma frac_digits_all d : all_digits (frac_digits d).
Proof. unfold frac_digits. case_match; [constructor|apply low_digits_digits]. Qed.

Lemma partition_sign neg s a b : (forall c, c ∈ neg -> c <> dot) ->
  partition_at dot s = (a, b) ->
  partition_at dot (neg ++ s) = (neg ++ a, b).
Proof.
  intros Hneg Hs. induction neg as [|c neg IH]; simpl; [done|].
  destruct (Ascii.eqb_spec c dot) as [->|]; [by destruct (Hneg dot); [left|]|].
  rewrite IH; [done|]. intros c' Hc. by apply Hneg; right.
Qed.

Lemma format_price_str_eq d :
  format_price_str d =
  unchars (sign_chars (coef d) ++ int_digits (int_part d) ++ dot :: price_frac d).
Proof.
  destruct (int_digits_spec (int_part d) (int_part_nonneg d)) as [Hi _].
  unfold format_price_str, format_f.
  assert (partition_at dot (sign_chars (coef d) ++ int_digits (int_part d) ++
            match frac_digits d with [] => [] | fs => dot :: fs end)
          = (sign_chars (coef d) ++ int_digits (int_part d), frac_digits d)) as ->.
  { apply partition_sign.
    - unfold sign_chars. intros c. case_match; [|by intros ?%elem_of_nil].
      intros ->%list_elem_of_singleton. done.
    - destruct (frac_digits d) eqn:Hf.
      + rewrite app_nil_r. by apply partition_at_nodot.
      + by apply partition_at_digits. }
  by rewrite <-app_assoc.
Qed.

Lemma price_frac_spec d : exists r k j,
  frac_digits d = r ++ replicate k zero_ch /\ price_frac d = r ++ replicate j zero_ch.
Proof.
  destruct (rstrip_spec zero_ch (frac_digits d)) as [k Hk].
  exists (rstrip zero_ch (frac_digits d)), k, (2 - length (rstrip zero_ch (frac_digits d)))%nat.
  split; [done|]. reflexivity.
Qed.

(** The digits before and after the point denote the absolute value. *)
Lemma plain_value d :
  Z.abs (coef d) * 10 ^ (expo d + Z.of_nat (length (frac_digits d))) =
  int_part d * 10 ^ Z.of_nat (length (frac_digits d)) + digits_val (frac_digits d)
  /\ - Z.of_nat (length (frac_digits d)) <= expo d.
Proof.
  unfold frac_digits, int_part. destruct (Z.leb_spec 0 (expo d)).
  - cbn [length]. change (Z.of_nat 0) with 0. change (digits_val []) with 0.
    rewrite Z.add_0_r, Z.pow_0_r. lia.
  - rewrite low_digits_length, Z2Nat.id by lia. split; [|lia].
    assert (Hp : 0 < 10 ^ (- expo d)) by auto with py lia.
    rewrite low_digits_val.
    2: { rewrite Z2Nat.id by lia. by apply Z.mod_pos_bound. }
    pose proof (Z.div_mod (Z.abs (coef d)) (10 ^ - expo d) ltac:(lia)) as Hdm.
    rewrite Z.add_opp_diag_r, Z.pow_0_r. lia.
Qed.

Lemma format_price_reads_back d : exists q,
  decimal_of_chars (chars (format_price_str d)) = Some (Finite q) /\ q ≡ d.
Proof.
  destruct (int_digits_spec (int_part d) (int_part_nonneg d)) as [Hid Hiv].
  destruct (price_frac_spec d) as (r & k & j & Hf & Hp).
  destruct (plain_value d) as [Hv He].
  pose proof (frac_digits_all d) as Hall. rewrite Hf in Hall, Hv, He.
  apply all_digits_app in Hall as [Hr _].
  rewrite format_price_str_eq, chars_unchars, Hp.
  unfold sign_chars. rewrite decimal_of_plain; [|done| |apply int_digits_nonempty].
  2: { apply all_digits_app. split; [done|apply all_digits_zeros]. }
  eexists. split; [done|].
  rewrite digits_val_app, digits_val_zeros in Hv.
  rewrite length_app, length_replicate, Nat2Z.inj_add in *.
  set (R := Z.of_nat (length r)) in *. set (J := Z.of_nat j) in *. set (K := Z.of_nat k) in *.
  apply (dec_equiv_at (- (R + K) - J)); [cbn [expo]; lia|lia|].
  unfold scaled. cbn [coef expo].
  replace (- (R + J) - (- (R + K) - J)) with K by lia.
  replace (expo d - (- (R + K) - J)) with (expo d + (R + K) + J) by lia.
  rewrite !digits_val_app, !digits_val_zeros, !length_app, !length_replicate, Hiv, !Nat2Z.inj_add.
  fold R J K. rewrite (Z.pow_add_r 10 (expo d + (R + K)) J), (Z.pow_add_r 10 R J), (Z.mul_assoc (coef d)) by lia.
  rewrite (Z.pow_add_r 10 R K) in Hv by lia.
  destruct (Z.ltb_spec (coef d) 0).
  - rewrite Z.abs_neq in Hv by lia.
    replace (coef d * 10 ^ (expo d + (R + K))) with (- (- coef d * 10 ^ (expo d + (R + K)))) by ring.
    rewrite Hv. ring.
  - rewrite Z.abs_eq in Hv by lia. rewrite Hv. ring.
Qed.

(** Writing the same value with one more digit does not change the text. *)
Lemma format_price_str_shift c e : format_price_str (Dec (10 * c) (e - 1)) = format_price_str (Dec c e).
Proof.
  rewrite !format_price_str_eq. cbn [coef].
  assert (sign_chars (10 * c) = sign_chars c) as ->.
  { unfold sign_chars. by destruct (Z.ltb_spec (10 * c) 0), (Z.ltb_spec c 0); try lia. }
  assert (Habs : Z.abs (10 * c) = 10 * Z.abs c) by lia.
  assert (int_part (Dec (10 * c) (e - 1)) = int_part (Dec c e)
          /\ price_frac (Dec (10 * c) (e - 1)) = price_frac (Dec c e)) as [-> ->]; [|done].
  unfold price_frac, int_part, frac_digits. cbn [coef expo]. rewrite Habs.
  destruct (Z.leb_spec 0 (e - 1)), (Z.leb_spec 0 e); try lia.
  - split; [|done]. rewrite (pow10_split e 1) by lia. change (10 ^ 1) with 10. ring.
  - assert (e = 0) as -> by lia. split; [|].
    + change (10 ^ - (0 - 1)) with 10. rewrite Z.mul_comm, Z.div_mul by lia. by rewrite Z.mul_1_r.
    + change (- (0 - 1)) with 1. change (10 ^ 1) with 10. rewrite Z.mul_comm, Z.mod_mul by lia. done.
  - set (w := Z.to_nat (- e)).
    assert (Hw : - e = Z.of_nat w) by lia.
    assert (Z.to_nat (- (e - 1)) = S w) as -> by lia.
    assert (10 ^ (- (e - 1)) = 10 * 10 ^ (- e)) as ->.
    { replace (- (e - 1)) with (1 + - e) by lia. by rewrite Z.pow_add_r by lia. }
    assert (0 < 10 ^ - e) by auto with py lia. split.
    + by rewrite Z.div_mul_cancel_l by lia.
    + rewrite Z.mul_mod_distr_l by lia. by rewrite low_digits_S, rstrip_snoc.
Qed.

Lemma format_price_str_pow c e k : format_price_str (Dec (c * 10 ^ Z.of_nat k) (e - Z.of_nat k)) = format_price_str (Dec c e).
Proof.
  induction k as [|k IH].
  - rewrite Z.pow_0_r. do 2 f_equal; lia.
  - rewrite <-IH, <-(format_price_str_shift (c * 10 ^ Z.of_nat k)), Nat2Z.inj_succ, Z.pow_succ_r by lia.
    do 2 f_equal; [ring|lia].
Qed.

#[export] Instance format_price_str_proper : Proper ((≡) ==> eq) format_price_str.
Proof.
  intros a b Hab. apply (dec_equiv_at (expo a `min` expo b)) in Hab; [|lia..].
  set (m := expo a `min` expo b) in *.
  assert (Hm : forall d : dec, m <= expo d -> format_price_str d = format_price_str (Dec (scaled d m) m)).
  { intros [c e] Hd. simpl in Hd. rewrite <-(format_price_str_pow c e (Z.to_nat (e - m))), Z2Nat.id by lia.
    unfold scaled. simpl. do 2 f_equal. lia. }
  rewrite (Hm a), (Hm b) by lia. by rewrite Hab.
Qed.

(** ** Tick arithmetic in integer units

    Prices with at most 20 decimals and below 10^24 (a [NUMERIC(9,4)] column
    holds far less) are measured in units of 10^-20. *)

Definition UNIT : Z := -20.
Definition units (d : dec) : Z := scaled d UNIT.
Definition price_range (d : dec) : Prop := UNIT <= expo d /\ 0 < units d < 10 ^ 44.
Definition wide_range (d : dec) : Prop := UNIT <= expo d /\ 0 < units d < 10 ^ 45.

(** The smallest tick, 0.01, in units. *)
Definition CENT : Z := 10 ^ 18.

Definition tick_units (st : SecurityType) (p : Z) : Z :=
  match st with
  | STOCK =>
      if p <? 1000 * CENT then CENT
      else if p <? 5000 * CENT then 5 * CENT
      else if p <? 10000 * CENT then 10 * CENT
      else if p <? 50000 * CENT then 50 * CENT
      else if p <? 100000 * CENT then 100 * CENT
      else 500 * CENT
  | ETF => if p <? 5000 * CENT then CENT else 5 * CENT
  end.

Lemma price_wide d : price_range d -> wide_range d.
Proof. unfold price_range, wide_range. lia. Qed.

Lemma lookup_units st p : UNIT <= expo p ->
  units (lookup_tick_size st p) = tick_units st (units p) /\
  UNIT <= expo (lookup_tick_size st p) <= 0 /\
  0 < coef (lookup_tick_size st p) <= 5.
Proof.
  intros Hp. unfold lookup_tick_size, tick_units. destruct st; cbn [first_tick STOCK_TICK_TABLE ETF_TICK_TABLE];
    rewrite !(dec_ltb_at UNIT) by (done || (cbn; unfold UNIT; lia));
    repeat match goal with |- context [scaled (Dec ?c 0) UNIT] =>
      let v := eval vm_compute in (c * 100) in
      replace (scaled (Dec c 0) UNIT) with (v * CENT) by (vm_compute; reflexivity) end;
    fold (units p);
    repeat case_match; (split; [vm_compute; reflexivity|unfold UNIT; simpl; lia]).
Qed.

Lemma tick_units_bounds st p : 0 < tick_units st p <= 500 * CENT.
Proof. unfold tick_units, CENT. repeat case_match; lia. Qed.

Lemma scaled_units d e : UNIT <= e <= expo d -> units d = scaled d e * 10 ^ (e - UNIT).
Proof. intros. apply scaled_lower. done. Qed.

(** Division by a tick, in units. *)
Lemma divmod_units a b : UNIT <= expo a -> UNIT <= expo b ->
  0 <= units a -> 0 < units b <= 500 * CENT -> units a / units b < 10 ^ PREC ->
  exists r, dec_divmod a b = Ok (Dec (units a / units b) 0, Dec r (common_expo a b)) /\
    units (Dec r (common_expo a b)) = units a mod units b /\ 0 <= r.
Proof.
  intros Ha Hb H0a H0b Hq. unfold dec_divmod. set (e := common_expo a b).
  assert (He : UNIT <= e /\ e <= expo a /\ e <= expo b) by (unfold e, common_expo; lia).
  rewrite (scaled_units a e), (scaled_units b e) in * by lia.
  set (A := scaled a e) in *. set (B := scaled b e) in *. set (k := 10 ^ (e - UNIT)) in *.
  assert (Hk : 0 < k) by (apply pow10_pos; lia).
  assert (HA : 0 <= A) by nia. assert (HB : 0 < B) by nia.
  assert (HB2 : B <= 500 * CENT) by nia.
  rewrite Z.div_mul_cancel_r in * by lia.
  assert (coef b <> 0).
  { intros Hz. unfold B, scaled in HB. rewrite Hz in HB. lia. }
  rewrite (proj2 (Z.eqb_neq _ _)) by done.
  rewrite Z.quot_div_nonneg, Z.rem_mod_nonneg by lia.
  assert (0 <= A / B) by (apply Z.div_pos; lia).
  rewrite (proj2 (Z.ltb_lt _ _)) by lia.
  pose proof (Z.mod_pos_bound A B HB).
  exists (A mod B). rewrite fix_prec_id.
  2: { cbn [coef]. unfold CENT, PREC in *. lia. }
  split; [done|]. split; [|lia].
  unfold units, scaled. cbn [coef expo]. fold k. by rewrite Z.mul_mod_distr_r by lia.
Qed.

Lemma wide_quotient st d : wide_range d -> units d / tick_units st (units d) < 10 ^ PREC.
Proof.
  intros [_ Hd]. pose proof (tick_units_bounds st (units d)) as Ht.
  apply Z.div_lt_upper_bound; [lia|].
  assert (CENT <= tick_units st (units d)) by (unfold tick_units; repeat case_match; unfold CENT; lia).
  unfold PREC, CENT in *. lia.
Qed.

(** A price is a legal tick when its tick divides it. *)
Lemma is_valid_tick_units st d : wide_range d ->
  is_valid_tick st d = Ok (units d mod tick_units st (units d) =? 0).
Proof.
  intros Hd. pose proof Hd as [He Hu]. unfold is_valid_tick.
  destruct (lookup_units st d He) as (Ht & Hte & Htc).
  pose proof (tick_units_bounds st (units d)). pose proof (wide_quotient st d Hd).
  destruct (divmod_units d (lookup_tick_size st d)) as (r & Hdm & Hr & Hr0);
    [done|lia|lia|by rewrite Ht|by rewrite Ht|].
  unfold dec_mod. rewrite Hdm. cbn. f_equal.
  rewrite Ht in Hr. rewrite <-Hr. unfold dec_eqb, units, scaled, common_expo. cbn [coef expo of_int].
  set (m := Z.min (expo d) (expo (lookup_tick_size st d))) in *.
  assert (0 < 10 ^ (m - m `min` 0)) by (apply pow10_pos; lia).
  assert (0 < 10 ^ (m - UNIT)) by (apply pow10_pos; lia).
  apply eq_true_iff_eq. rewrite !Z.eqb_eq. nia.
Qed.

(** The multiple of the tick at or below the price. *)
Lemma floor_tick st p : wide_range p ->
  let tick := lookup_tick_size st p in
  exists q, dec_floordiv p tick = Ok q /\
    dec_mul q tick = Dec (units p / units tick * coef tick) (expo tick) /\
    units (dec_mul q tick) = units p / units tick * units tick.
Proof.
  intros Hp tick. pose proof Hp as [He Hu].
  destruct (lookup_units st p He) as (Ht & Hte & Htc). fold tick in Ht, Hte, Htc.
  pose proof (tick_units_bounds st (units p)). pose proof (wide_quotient st p Hp).
  destruct (divmod_units p tick) as (r & Hdm & _);
    [done|lia|lia|by rewrite Ht|by rewrite Ht|].
  unfold dec_floordiv. rewrite Hdm. cbn. eexists. split; [done|].
  assert (dec_mul (Dec (units p / units tick) 0) tick = Dec (units p / units tick * coef tick) (expo tick)) as ->.
  { unfold dec_mul. cbn [coef expo]. rewrite Z.add_0_l. apply fix_prec_id. cbn [coef].
    assert (0 <= units p / units tick) by (apply Z.div_pos; lia).
    assert (units p / units tick * units tick <= units p).
    { rewrite Z.mul_comm. apply Z.mul_div_le. lia. }
    assert (units tick = coef tick * 10 ^ (expo tick - UNIT)) by done.
    assert (10 ^ 18 <= 10 ^ (expo tick - UNIT)).
    { apply Z.pow_le_mono_r; [lia|]. unfold UNIT.
      enough (-2 <= expo tick) by lia. unfold tick, lookup_tick_size.
      destruct st; cbn; repeat case_match; simpl; lia. }
    assert (units p / units tick * coef tick * 10 ^ 18 <= units p) by nia.
    unfold PREC. nia. }
  split; [done|]. unfold units, scaled. cbn [coef expo]. ring.
Qed.

(** Rounding to the tick on integers. *)
Definition lower_units (st : SecurityType) (u : Z) : Z :=
  Z.max (u / tick_units st u * tick_units st u) (tick_units st u).
Definition upper_units (st : SecurityType) (u : Z) : Z :=
  if u mod tick_units st u =? 0 then u else (u / tick_units st u + 1) * tick_units st u.

Lemma nearest_lower_units st p : price_range p ->
  exists lo, nearest_lower st p = Ok lo /\ units lo = lower_units st (units p) /\ UNIT <= expo lo <= 0.
Proof.
  intros Hp. apply price_wide in Hp as Hw. pose proof Hw as [He Hu].
  destruct (lookup_units st p He) as (Ht & Hte & Htc).
  destruct (floor_tick st p Hw) as (q & Hq & Hmul & Hlo). unfold nearest_lower.
  rewrite Hq. cbn [lift_dec rbind]. eexists. split; [done|].
  unfold dec_max. rewrite (dec_ltb_at UNIT); [|rewrite Hmul; cbn [expo]; lia|lia].
  fold (units (dec_mul q (lookup_tick_size st p))) (units (lookup_tick_size st p)).
  unfold lower_units. rewrite <-Ht, Hlo. case_match eqn:Hc; b2p; (split; [lia|]).
  - done.
  - rewrite Hmul. done.
Qed.

Lemma nearest_upper_units st p : price_range p ->
  exists hi, nearest_upper st p = Ok hi /\ units hi = upper_units st (units p) /\ UNIT <= expo hi <= 0.
Proof.
  intros Hp. apply price_wide in Hp as Hw. pose proof Hw as [He Hu].
  destruct (lookup_units st p He) as (Ht & Hte & Htc).
  destruct (floor_tick st p Hw) as (q & Hq & Hmul & Hlo). unfold nearest_upper.
  rewrite Hq. cbn [lift_dec rbind]. eexists. split; [done|].
  rewrite (dec_eqb_at UNIT); [|rewrite Hmul; cbn [expo]; lia|done].
  fold (units (dec_mul q (lookup_tick_size st p))) (units p).
  unfold upper_units. pose proof (tick_units_bounds st (units p)) as Htb. rewrite <-Ht in *.
  set (t := lookup_tick_size st p) in *.
  pose proof (Z.div_mod (units p) (units t) ltac:(lia)) as Hdm.
  pose proof (Z.mod_pos_bound (units p) (units t) ltac:(lia)).
  rewrite Z.mul_comm in Hdm.
  case_match eqn:Hc; b2p.
  { rewrite (proj2 (Z.eqb_eq _ _)) by lia. rewrite Hmul. split; [rewrite <-Hmul; lia|done]. }
  rewrite (proj2 (Z.eqb_neq _ _)) by lia.
  assert (dec_add (dec_mul q t) t = Dec (units p / units t * coef t + coef t) (expo t)) as ->.
  { rewrite Hmul. unfold dec_add, common_expo. cbn [expo]. rewrite Z.min_id.
    unfold scaled. cbn [coef expo]. rewrite Z.sub_diag, !Z.mul_1_r. apply fix_prec_id. cbn [coef].
    assert (1 <= 10 ^ (expo t - UNIT)) by (pose proof (pow10_pos (expo t - UNIT)); lia).
    assert (units t = coef t * 10 ^ (expo t - UNIT)) as Hut by done.
    assert (0 <= units p / units t) by (apply Z.div_pos; lia).
    pose proof (wide_quotient st p Hw) as Hwq. rewrite <-Ht in Hwq. destruct Hp as [_ Hp].
    assert (10 ^ 18 <= 10 ^ (expo t - UNIT)).
    { apply Z.pow_le_mono_r; [lia|]. unfold UNIT.
      enough (-2 <= expo t) by lia. unfold t, lookup_tick_size.
      destruct st; cbn; repeat case_match; simpl; lia. }
    assert (units p / units t * coef t * 10 ^ 18 <= units p) by nia.
    unfold PREC. nia. }
  split; [|done]. unfold units at 1, scaled. cbn [coef expo].
  transitivity ((units p / units t + 1) * (coef t * 10 ^ (expo t - UNIT))); [ring|done].
Qed.

(** On every bucket, rounding lands on a legal tick of the bucket it lands in. *)
Lemma lower_units_valid st u : 0 < u ->
  0 < lower_units st u /\ lower_units st u mod tick_units st (lower_units st u) = 0.
Proof.
  intros Hu. pose proof (tick_units_bounds st u) as Htb.
  assert (tick_units st (lower_units st u) = tick_units st u) as Hsame.
  { unfold lower_units. pose proof (Z.div_mod u (tick_units st u) ltac:(lia)).
    pose proof (Z.mod_pos_bound u (tick_units st u) ltac:(lia)).
    set (q := u / tick_units st u) in *. clearbody q. revert Htb H H0. unfold tick_units.
    destruct st; repeat case_match; b2p; unfold CENT in *; intros; try reflexivity; try lia. }
  split; [unfold lower_units; lia|]. rewrite Hsame. unfold lower_units.
  destruct (Z.max_spec (u / tick_units st u * tick_units st u) (tick_units st u)) as [[_ ->]|[_ ->]].
  - apply Z.mod_same. lia.
  - apply Z.mod_mul. lia.
Qed.

Lemma upper_units_valid st u : 0 < u ->
  0 < upper_units st u /\ upper_units st u mod tick_units st (upper_units st u) = 0.
Proof.
  intros Hu. pose proof (tick_units_bounds st u) as Htb.
  pose proof (Z.div_mod u (tick_units st u) ltac:(lia)) as Hdm.
  pose proof (Z.mod_pos_bound u (tick_units st u) ltac:(lia)) as Hm.
  unfold upper_units. case_match eqn:Hz; [by b2p|].
  apply Z.eqb_neq in Hz.
  assert (0 <= u / tick_units st u) by (apply Z.div_pos; lia).
  split; [nia|].
  set (q := u / tick_units st u) in *. clearbody q.
  remember (tick_units st u) as t eqn:Ht. remember (u mod t) as r eqn:Hr. clear Hr.
  remember ((q + 1) * t) as v eqn:Hv. remember (tick_units st v) as t2 eqn:Ht2.
  enough (t2 = t \/ v = 1000 * CENT \/ v = 5000 * CENT \/ v = 10000 * CENT \/ v = 50000 * CENT \/ v = 100000 * CENT)
    as [->|Hcase].
  { subst v. apply Z.mod_mul. lia. }
  { destruct Hcase as [->|[->|[->|[->| ->]]]]; subst t2; by destruct st. }
  clear Htb. unfold tick_units, CENT in *.
  destruct st; repeat case_match; b2p; subst t t2; lia.
Qed.

Lemma units_le a b : UNIT <= expo a -> UNIT <= expo b -> a <=d b <-> units a <= units b.
Proof. intros. rewrite (dec_leb_at UNIT) by done. apply Z.leb_le. Qed.

Lemma units_lt a b : UNIT <= expo a -> UNIT <= expo b -> a <d b <-> units a < units b.
Proof. intros. rewrite (dec_ltb_at UNIT) by done. apply Z.ltb_lt. Qed.

Lemma multiple_above u t k : 0 < t -> u <= k * t -> u mod t <> 0 -> (u / t + 1) * t <= k * t.
Proof.
  intros Ht Hk Hm. apply Z.mul_le_mono_nonneg_r; [lia|].
  assert (u <> k * t) by (intros ->; apply Hm, Z.mod_mul; lia).
  enough (u / t < k) by lia. apply Z.div_lt_upper_bound; lia.
Qed.

Lemma multiple_below u t k : 0 < t -> k * t <= u -> k * t <= u / t * t.
Proof.
  intros Ht Hk. apply Z.mul_le_mono_nonneg_r; [lia|]. apply Z.div_le_lower_bound; lia.
Qed.

Lemma upper_units_ge st u : 0 < u ->
  u <= upper_units st u <= u + tick_units st u /\
  forall k, u <= k * tick_units st u -> upper_units st u <= k * tick_units st u.
Proof.
  intros Hu. pose proof (tick_units_bounds st u). unfold upper_units.
  pose proof (Z.div_mod u (tick_units st u) ltac:(lia)).
  pose proof (Z.mod_pos_bound u (tick_units st u) ltac:(lia)).
  case_match eqn:Hz; b2p; (split; [lia|]); intros k Hk; [done|].
  apply multiple_above; [lia|done|done].
Qed.

Lemma lower_units_le st u : 0 < u ->
  (lower_units st u <= u \/ (u < tick_units st u /\ lower_units st u = tick_units st u)) /\
  forall k, k * tick_units st u <= u -> k * tick_units st u <= lower_units st u.
Proof.
  intros Hu. pose proof (tick_units_bounds st u). unfold lower_units.
  pose proof (Z.div_mod u (tick_units st u) ltac:(lia)).
  pose proof (Z.mod_pos_bound u (tick_units st u) ltac:(lia)).
  split.
  - destruct (Z.max_spec (u / tick_units st u * tick_units st u) (tick_units st u)) as [[? ->]|[? ->]]; [|lia].
    destruct (Z.lt_ge_cases u (tick_units st u)); [by right|left]. done.
  - intros k Hk. etrans; [apply (multiple_below u); [lia|done]|apply Z.le_max_l].
Qed.

Lemma lower_upper_fixed st u : 0 < u -> u mod tick_units st u = 0 ->
  lower_units st u = u /\ upper_units st u = u.
Proof.
  intros Hu Hz. pose proof (tick_units_bounds st u). unfold lower_units, upper_units.
  pose proof (Z.div_mod u (tick_units st u) ltac:(lia)).
  rewrite (proj2 (Z.eqb_eq _ _)) by done. split; [|done].
  assert (u / tick_units st u * tick_units st u = u) as -> by lia.
  assert (0 < u / tick_units st u) by nia. apply Z.max_l. nia.
Qed.

(** ** The properties of the price service *)

(** [format_price_str] is a canonical form of the numerical value: two
    decimals render to the same text exactly when they are equal as numbers,
    whatever their exponents ("600" and "600.0000" both render to "600.00",
    and different values never collide).  This is what the duplicate key of an
    intent relies on. *)
Theorem format_price_str_canonical (a b : dec) : format_price_str a = format_price_str b <-> a ≡ b.
Proof.
  split; [|by intros ->].
  intros Heq. destruct (format_price_reads_back a) as (qa & Ha & <-).
  destruct (format_price_reads_back b) as (qb & Hb & <-). rewrite Heq, Hb in Ha. injection Ha as ->. done.
Qed.

(** Rounding to the tick: for every price in range both neighbours exist,
    are themselves legal prices of the bucket they fall in (also across a
    bucket boundary), bracket the price unless it is below the first tick, and
    no multiple of the tick lies strictly between them and the price. *)
Theorem nearest_ticks_bracket (st : SecurityType) (p : dec) (Hp : price_range p) :
  exists lo hi,
    nearest_lower st p = Ok lo /\ nearest_upper st p = Ok hi /\
    is_valid_tick st lo = Ok true /\ is_valid_tick st hi = Ok true /\
    p <=d hi /\ (lo <=d p \/ (p <d lookup_tick_size st p /\ lo ≡ lookup_tick_size st p)) /\
    forall k, let m := k * units (lookup_tick_size st p) in
      (m <= units p -> m <= units lo) /\ (units p <= m -> units hi <= m).
Proof.
  destruct (nearest_lower_units st p Hp) as (lo & Hlo & Ulo & Elo).
  destruct (nearest_upper_units st p Hp) as (hi & Hhi & Uhi & Ehi).
  destruct Hp as [He Hu]. destruct (lookup_units st p He) as (Ht & Hte & _).
  pose proof (tick_units_bounds st (units p)) as Htb.
  destruct (lower_units_valid st (units p)) as [Hl0 Hlv]; [lia|].
  destruct (upper_units_valid st (units p)) as [Hh0 Hhv]; [lia|].
  destruct (lower_units_le st (units p)) as [Hlle Hlmax]; [lia|].
  destruct (upper_units_ge st (units p)) as [Huge Humin]; [lia|].
  exists lo, hi. do 2 (split; [done|]).
  rewrite !is_valid_tick_units, Ulo, Uhi, Hlv, Hhv.
  2, 3: unfold wide_range, CENT in *; lia.
  do 2 (split; [done|]). rewrite !units_le, units_lt, (dec_equiv_at UNIT) by lia.
  change (scaled ?d UNIT) with (units d). rewrite Uhi, Ulo, Ht.
  split; [lia|]. split; [naive_solver lia|]. intros k. cbv zeta. auto.
Qed.

Lemma lstrip_head c s : is_space c = false -> lstrip (c :: s) = c :: s.
Proof. simpl. by intros ->. Qed.

Lemma strip_digits c s d : is_space c = false -> is_space d = false -> strip (c :: s ++ [d]) = c :: s ++ [d].
Proof.
  intros Hc Hd. unfold strip. rewrite lstrip_head by done.
  assert (lstrip (rev (c :: s ++ [d])) = rev (c :: s ++ [d])) as ->; [|apply rev_involutive].
  change (c :: s ++ [d]) with ((c :: s) ++ [d]). rewrite rev_app_distr. by apply lstrip_head.
Qed.

Lemma digit_not_space c : is_digit c = true -> is_space c = false.
Proof. destruct c as [[] [] [] [] [] [] [] []]; done. Qed.

Lemma no_comma s : all_digits s -> existsb (Ascii.eqb ","%char) s = false.
Proof.
  induction 1 as [|c s Hc Hs IH]; cbn [existsb]; [done|].
  rewrite IH, orb_false_r. destruct (Ascii.eqb_spec ","%char c); [by subst|done].
Qed.

(** C33. Round trip: parsing the rendered text of a positive price succeeds and
    gives back the same value, so a price shown to a client can be sent back
    unchanged. *)
Theorem parse_format_roundtrip (d : dec) (Hd : 0 < coef d) :
  exists q, parse (format_price_str d) = Ok q /\ q ≡ d.
Proof.
  destruct (format_price_reads_back d) as (q & Hq & Hqd). exists q. split; [|done].
  destruct (int_digits_spec (int_part d) (int_part_nonneg d)) as [Hi _].
  assert (Hpf : all_digits (price_frac d)).
  { destruct (price_frac_spec d) as (r & k & j & Hf & ->). pose proof (frac_digits_all d) as Ha.
    rewrite Hf in Ha. apply all_digits_app in Ha as [? _]. by apply all_digits_app; split; [|apply all_digits_zeros]. }
  assert (Hpl : exists l x, price_frac d = l ++ [x]).
  { destruct (price_frac d) as [|a l] eqn:E using rev_ind; [|by eauto].
    apply (f_equal length) in E. unfold price_frac, ljust in E. rewrite length_app, length_replicate in E.
    simpl in E. lia. }
  destruct Hpl as (l & x & Hx).
  assert (Hchars : chars (format_price_str d) = int_digits (int_part d) ++ dot :: l ++ [x]).
  { rewrite format_price_str_eq, chars_unchars, Hx. unfold sign_chars.
    by rewrite (proj2 (Z.ltb_ge _ _)) by lia. }
  unfold parse. rewrite Hq.
  assert (dec_leb q (of_int 0) = false) as ->.
  { rewrite Hqd. rewrite dec_leb_zero. apply Z.leb_gt. done. }
  rewrite Hchars. rewrite Hx in Hpf. apply all_digits_app in Hpf as [Hl Hxd].
  destruct (int_digits (int_part d)) as [|c s] eqn:E; [by destruct (int_digits_nonempty (int_part d))|].
  inversion Hi as [|? ? Hc Hs]; subst. inversion Hxd; subst.
  assert (Hshape : (c :: s) ++ dot :: l ++ [x] = c :: (s ++ dot :: l) ++ [x]) by (simpl; by rewrite <-app_assoc).
  rewrite Hshape, strip_digits by (by apply digit_not_space).
  rewrite bool_decide_eq_true_2 by done. cbn [negb].
  assert (existsb (Ascii.eqb ","%char) (c :: (s ++ dot :: l) ++ [x]) = false) as ->; [|done].
  rewrite <-Hshape. change (dot :: l ++ [x]) with ([dot] ++ l ++ [x]).
  by rewrite !existsb_app, (no_comma (c :: s)), (no_comma l), (no_comma [x]) by done.
Qed.

Lemma parse_format_roundtrip_witness :
  0 < coef (Dec 6005 (-1)) /\ exists q, parse (format_price_str (Dec 6005 (-1))) = Ok q /\ q ≡ Dec 6005 (-1).
Proof. split; [reflexivity|]. apply (parse_format_roundtrip (Dec 6005 (-1))). reflexivity. Defined.

Lemma nearest_ticks_bracket_witness :
  price_range (Dec 9995 (-3)) /\
  exists lo hi, nearest_lower STOCK (Dec 9995 (-3)) = Ok lo /\ nearest_upper STOCK (Dec 9995 (-3)) = Ok hi /\
    is_valid_tick STOCK hi = Ok true.
Proof.
  assert (H : price_range (Dec 9995 (-3))) by (vm_compute; repeat split; discriminate).
  split; [exact H|]. destruct (nearest_ticks_bracket STOCK _ H) as (lo & hi & H1 & H2 & _ & H3 & _).
  exists lo, hi. auto.
Defined.

(** [validate] on every branch: a non-integer or non-positive amount, an
    unknown security type and an unparseable price are reported in that order;
    a legal price is returned as parsed; any other price is refused with the
    two legal neighbours that enclose it. *)
Theorem validate_outcomes (r : PriceRequest) :
  match pr_amount r, security_type_of (pr_type r), parse (pr_price r) with
  | AmountOther x, _, _ => validate r = Raise (InvalidAmountError (AmountOther x) "must be an integer")
  | AmountInt n, ty, pr =>
      if n <=? 0 then validate r = Raise (InvalidAmountError (AmountInt n) "must be greater than zero")
      else match ty, pr with
      | None, _ => validate r = Raise (InvalidTypeError (pr_type r) "must be stock or etf")
      | Some _, Raise e => validate r = Raise e
      | Some st, Ok p =>
          price_range p ->
          if units p mod tick_units st (units p) =? 0 then validate r = Ok p
          else exists lo hi reason,
            validate r = Raise (InvalidTickSizeError (pr_price r) reason lo hi None) /\
            units lo = lower_units st (units p) /\ units hi = upper_units st (units p) /\
            p <d hi /\ (lo <d p \/ p <d lookup_tick_size st p)
      end
  end.
Proof.
  unfold validate. destruct (pr_amount r) as [n|x]; [|done]. destruct (n <=? 0); [done|].
  destruct (security_type_of (pr_type r)) as [st|]; [|done].
  destruct (parse (pr_price r)) as [p|e]; [|done]. intros Hp. cbn [rbind].
  rewrite is_valid_tick_units by by apply price_wide. cbn [rbind].
  destruct (Z.eqb_spec (units p mod tick_units st (units p)) 0) as [|Hz]; [done|].
  destruct (nearest_lower_units st p Hp) as (lo & -> & Ulo & Elo).
  destruct (nearest_upper_units st p Hp) as (hi & -> & Uhi & Ehi). cbn.
  do 3 eexists. split; [done|]. do 2 (split; [done|]). destruct Hp as [He Hu].
  destruct (lookup_units st p He) as (Ht & Hte & _).
  rewrite !units_lt, Ulo, Uhi, Ht by lia.
  pose proof (tick_units_bounds st (units p)).
  pose proof (Z.div_mod (units p) (tick_units st (units p)) ltac:(lia)).
  pose proof (Z.mod_pos_bound (units p) (tick_units st (units p)) ltac:(lia)).
  assert (units p <> tick_units st (units p)) by (intros Heq; rewrite <-Heq, Z.mod_same in Hz; lia).
  unfold upper_units, lower_units. rewrite (proj2 (Z.eqb_neq _ _)) by done. lia.
Qed.

(** A price whose tick count needs more than 28 digits escapes [validate]
    as the library's InvalidOperation, which is not one of the errors the
    method documents (InvalidAmountError, InvalidPriceError). *)
Theorem validate_huge_price_escapes :
  validate (mkPriceRequest "stock" "1E+30" (AmountInt 1)) = Raise (DecimalError InvalidOperation).
Proof. vm_compute. reflexivity. Qed.
