(* ===== verification/TradingSession.v ===== *)
(** * The regular trading session: [src/app/domain/trading_session.py]

    Weekday-only calendar: Monday to Friday, 09:00 (inclusive) to 13:30
    (exclusive) Asia/Taipei. *)

From S2P Require Import Prelude Decimal Datetime Errors.

Definition SESSION_START : time := mk_time 9 0.
Definition SESSION_END : time := mk_time 13 30.

(** [_require_aware] *)
Definition require_aware (dt : datetime) : res unit :=
  if is_aware dt then Ok tt else Raise TypeError.

Inductive TradingDayPhase : Type := PRE_MARKET | REGULAR_SESSION | POST_MARKET.

#[export] Instance TradingDayPhase_eq_dec : EqDecision TradingDayPhase.
Proof. solve_decision. Defined.

(** [now_taipei]: the injected clock, seen in Asia/Taipei. *)
Definition now_taipei (clock : datetime) : datetime := astimezone_taipei clock.

Definition is_trading_day (d : date) : bool := weekday d <? 5.

Definition is_within_regular_session (dt : datetime) : res bool :=
  let? _ := require_aware dt in
  let taipei := astimezone_taipei dt in
  if negb (is_trading_day (dt_date taipei)) then Ok false
  else
    let t := dt_time taipei in
    Ok ((SESSION_START <=? t) && (t <? SESSION_END)).

Definition get_trading_day_phase (dt : datetime) : res TradingDayPhase :=
  let? _ := require_aware dt in
  let taipei := astimezone_taipei dt in
  if negb (is_trading_day (dt_date taipei)) then Ok POST_MARKET
  else
    let t := dt_time taipei in
    if t <? SESSION_START then Ok PRE_MARKET
    else if t <? SESSION_END then Ok REGULAR_SESSION
    else Ok POST_MARKET.

(** [_next_weekday]: the loop skips at most a weekend; [None] would mean that
    the fuel ran out ([next_weekday_total] shows it does not). *)
Fixpoint skip_weekend (fuel : nat) (candidate : date) : option date :=
  match fuel with
  | O => None
  | S f => if 5 <=? weekday candidate then skip_weekend f (candidate + 1) else Some candidate
  end.

Definition next_weekday_opt (d : date) : option date := skip_weekend 3 (d + 1).
Definition next_weekday (d : date) : date := default (d + 1) (next_weekday_opt d).

Definition next_trading_day (d : date) : date := next_weekday d.

Definition get_day_intent_trading_date (now : datetime) : res date :=
  let? _ := require_aware now in
  let taipei := astimezone_taipei now in
  let today := dt_date taipei in
  let t := dt_time taipei in
  if is_trading_day today && (t <? SESSION_END) then Ok today
  else Ok (next_weekday today).

Definition get_initial_day_intent_status (now : datetime) : res string :=
  let? _ := require_aware now in
  let? b := is_within_regular_session now in
  Ok (if b then "active" else "scheduled")%string.

Definition get_expirable_day_intent_cutoff (now : datetime) : res date :=
  let? _ := require_aware now in
  let taipei := astimezone_taipei now in
  let today := dt_date taipei in
  let? phase := get_trading_day_phase taipei in
  if bool_decide (phase = POST_MARKET) then Ok today else Ok (today - 1).

Definition verify_trading_hours (now quote_time : datetime) : res unit :=
  let? _ := require_aware now in
  let? _ := require_aware quote_time in
  let? b1 := is_within_regular_session now in
  if negb b1 then Raise (OutsideSessionError "now is outside regular session")
  else
    let? b2 := is_within_regular_session quote_time in
    if negb b2 then Raise (OutsideSessionError "quote_time is outside regular session")
    else Ok tt.

(** ** What the methods compute on an aware datetime *)

Definition taipei_date (dt : datetime) : date := dt_date (astimezone_taipei dt).
Definition taipei_time (dt : datetime) : time := dt_time (astimezone_taipei dt).

Definition in_session (dt : datetime) : bool :=
  is_trading_day (taipei_date dt) && ((SESSION_START <=? taipei_time dt) && (taipei_time dt <? SESSION_END)).

Lemma require_aware_ok dt : is_aware dt = true -> require_aware dt = Ok tt.
Proof. unfold require_aware. by intros ->. Qed.

Lemma is_within_aware dt : is_aware dt = true -> is_within_regular_session dt = Ok (in_session dt).
Proof.
  intros H. unfold is_within_regular_session, in_session, taipei_date, taipei_time.
  rewrite require_aware_ok by done. cbn [rbind]. by destruct (is_trading_day _).
Qed.

Lemma is_within_naive dt : is_aware dt = false -> is_within_regular_session dt = Raise TypeError.
Proof. intros H. unfold is_within_regular_session, require_aware. by rewrite H. Qed.

Lemma phase_aware dt : is_aware dt = true -> exists ph, get_trading_day_phase dt = Ok ph /\
  (ph = REGULAR_SESSION <-> in_session dt = true) /\
  (ph = POST_MARKET <-> (is_trading_day (taipei_date dt) && (taipei_time dt <? SESSION_END)) = false).
Proof.
  intros H. unfold get_trading_day_phase, in_session, taipei_date, taipei_time.
  rewrite require_aware_ok by done. cbn [rbind].
  set (d := dt_date _). set (t := dt_time _).
  destruct (is_trading_day d); [|by eexists].
  assert (SESSION_START < SESSION_END) by done.
  destruct (Z.ltb_spec t SESSION_START), (Z.leb_spec SESSION_START t), (Z.ltb_spec t SESSION_END);
    try lia; by eexists.
Qed.

Lemma next_weekday_opt_spec d : next_weekday_opt d = Some (next_weekday d) /\
  is_trading_day (next_weekday d) = true /\ d < next_weekday d <= d + 3 /\
  forall x, d < x < next_weekday d -> is_trading_day x = false.
Proof.
  unfold next_weekday, next_weekday_opt, is_trading_day. cbn [skip_weekend].
  pose proof (weekday_bounds (d + 1)) as Hb. pose proof (weekday_succ (d + 1)) as Hs1.
  pose proof (weekday_succ (d + 1 + 1)) as Hs2.
  destruct (Z.leb_spec 5 (weekday (d + 1))) as [H1|H1].
  - destruct (Z.leb_spec 5 (weekday (d + 1 + 1))) as [H2|H2].
    + assert (weekday (d + 1) = 5) as H5 by (destruct (Z.eqb_spec (weekday (d + 1)) 6); lia).
      rewrite H5 in Hs1. simpl in Hs1. rewrite Hs1 in Hs2. simpl in Hs2.
      rewrite Hs2. simpl. rewrite Hs2. repeat split; try lia.
      intros x Hx. apply Z.ltb_ge.
      destruct (decide (x = d + 1)) as [->|]; [lia|]. assert (x = d + 1 + 1) as -> by lia. lia.
    + simpl. repeat split; try lia.
      intros x Hx. apply Z.ltb_ge. assert (x = d + 1) as -> by lia. lia.
  - simpl. repeat split; lia.
Qed.

Lemma trading_date_aware now : is_aware now = true ->
  get_day_intent_trading_date now =
    Ok (if is_trading_day (taipei_date now) && (taipei_time now <? SESSION_END)
        then taipei_date now else next_weekday (taipei_date now)).
Proof.
  intros H. unfold get_day_intent_trading_date, taipei_date, taipei_time.
  rewrite require_aware_ok by done. cbn [rbind]. by case_match.
Qed.

Lemma cutoff_aware now : is_aware now = true ->
  get_expirable_day_intent_cutoff now =
    Ok (if is_trading_day (taipei_date now) && (taipei_time now <? SESSION_END)
        then taipei_date now - 1 else taipei_date now).
Proof.
  intros H. unfold get_expirable_day_intent_cutoff. rewrite require_aware_ok by done. cbn [rbind].
  destruct (phase_aware (astimezone_taipei now) ltac:(done)) as (ph & -> & _ & Hpost).
  cbn [rbind]. change (taipei_date (astimezone_taipei now)) with (taipei_date now) in Hpost.
  change (taipei_time (astimezone_taipei now)) with (taipei_time now) in Hpost.
  case_bool_decide as Hph.
  - by rewrite (proj1 Hpost).
  - destruct (_ && _); [done|]. by destruct Hph; apply Hpost.
Qed.

Lemma initial_status_aware now : is_aware now = true ->
  get_initial_day_intent_status now = Ok (if in_session now then "active" else "scheduled")%string.
Proof.
  intros H. unfold get_initial_day_intent_status.
  by rewrite require_aware_ok, is_within_aware by done.
Qed.

Lemma in_session_open dt : in_session dt = true ->
  is_trading_day (taipei_date dt) && (taipei_time dt <? SESSION_END) = true.
Proof.
  unfold in_session. intros [-> H]%andb_true_iff. by apply andb_true_iff in H as [_ ->].
Qed.

(** The calls are total on aware datetimes and refuse naive ones. *)
Lemma verify_trading_hours_spec now qt :
  verify_trading_hours now qt =
    if is_aware now && is_aware qt then
      if in_session now then
        if in_session qt then Ok tt
        else Raise (OutsideSessionError "quote_time is outside regular session")
      else Raise (OutsideSessionError "now is outside regular session")
    else Raise TypeError.
Proof.
  unfold verify_trading_hours, require_aware.
  destruct (is_aware now) eqn:Hn, (is_aware qt) eqn:Hq; try done. cbn [rbind andb].
  rewrite !is_within_aware by done. cbn [rbind].
  by destruct (in_session now), (in_session qt).
Qed.

(** ** Properties of the session rules *)

(** The trading date of a new day intent: it is a trading day, not in the
    past, and the earliest one whose session has not ended yet; the search for
    the next weekday always terminates. *)
Theorem trading_date_correct (now : datetime) (H : is_aware now = true) :
  exists d, get_day_intent_trading_date now = Ok d /\
    is_trading_day d = true /\ taipei_date now <= d <= taipei_date now + 3 /\
    (d = taipei_date now -> taipei_time now < SESSION_END) /\
    (forall x, taipei_date now <= x < d -> is_trading_day x = false \/
                 (x = taipei_date now /\ SESSION_END <= taipei_time now)) /\
    next_weekday_opt (taipei_date now) = Some (next_weekday (taipei_date now)).
Proof.
  rewrite trading_date_aware by done. eexists. split; [done|].
  destruct (next_weekday_opt_spec (taipei_date now)) as (Hopt & Htd & Hb & Hleast).
  destruct (is_trading_day (taipei_date now)) eqn:Hday;
    [destruct (Z.ltb_spec (taipei_time now) SESSION_END)|]; cbn [andb];
    (split; [done|]); repeat split; try lia; try done;
    intros x Hx; try lia;
    (destruct (decide (x = taipei_date now)) as [->|]; [auto|left; apply Hleast; lia]).
Qed.

Lemma trading_date_correct_witness :
  (* Friday 2026-05-29 14:00 Taipei: the intent targets Monday 2026-06-01 *)
  let now := combine_taipei 20602 (mk_time 14 0) in
  is_aware now = true /\ exists d, get_day_intent_trading_date now = Ok d /\ is_trading_day d = true.
Proof.
  split; [reflexivity|].
  destruct (trading_date_correct (combine_taipei 20602 (mk_time 14 0)) eq_refl) as (d & H1 & H2 & _).
  exists d. split; assumption.
Defined.

(** Creation and expiry agree: at any moment the trading date given to a
    new intent is strictly after the expiry cutoff of that moment (a new intent
    is never born expired), an intent born [active] targets today, and once
    the session of its date is over the cutoff reaches it. *)
Theorem new_intent_not_expirable (now later : datetime) (H : is_aware now = true)
    (Hl : is_aware later = true) :
  exists d c c' st,
    get_day_intent_trading_date now = Ok d /\
    get_expirable_day_intent_cutoff now = Ok c /\
    get_expirable_day_intent_cutoff later = Ok c' /\
    get_initial_day_intent_status now = Ok st /\
    c < d /\
    (st = "active"%string -> d = taipei_date now /\ get_trading_day_phase now = Ok REGULAR_SESSION) /\
    (d <= c' <-> d < taipei_date later \/ (d = taipei_date later /\ SESSION_END <= taipei_time later)).
Proof.
  rewrite trading_date_aware, !cutoff_aware, initial_status_aware by done.
  do 4 eexists. do 4 (split; [done|]).
  destruct (next_weekday_opt_spec (taipei_date now)) as (_ & Htd & Hb & _).
  destruct (phase_aware now H) as (ph & Hph & Hreg & _).
  set (d := if _ && _ then taipei_date now else _).
  assert (Hdd : is_trading_day d = true /\ taipei_date now <= d).
  { unfold d. destruct (is_trading_day (taipei_date now)) eqn:E; simpl; [case_match|]; (split; [done|lia]). }
  split; [|split].
  - unfold d. case_match; lia.
  - destruct (in_session now) eqn:Hin; [|done]. intros _.
    unfold d. rewrite in_session_open by done. rewrite Hph. split; [done|]. f_equal. by apply Hreg.
  - destruct Hdd as [Hdd _].
    destruct (decide (d = taipei_date later)) as [Heq|].
    + rewrite <-Heq, Hdd. simpl. destruct (Z.ltb_spec (taipei_time later) SESSION_END); lia.
    + case_match; lia.
Qed.

Lemma new_intent_not_expirable_witness :
  let now := combine_taipei 20601 (mk_time 10 0) in
  is_aware now = true /\ exists d c, get_day_intent_trading_date now = Ok d /\
    get_expirable_day_intent_cutoff now = Ok c /\ c < d.
Proof.
  split; [reflexivity|].
  destruct (new_intent_not_expirable (combine_taipei 20601 (mk_time 10 0))
              (combine_taipei 20601 (mk_time 14 0)) eq_refl eq_refl)
    as (d & c & _ & _ & H1 & H2 & _ & _ & H3 & _).
  exists d, c. repeat split; assumption.
Defined.
