(* ===== verification/Intent.v ===== *)
(** * Trade intents and quotes: the shared data

    [src/app/domain/trade_intent.py] and the snapshot type of
    [src/app/services/quote/base.py]. *)

From S2P Require Import Prelude Decimal Datetime Errors Price TradingSession.

#[local] Open Scope string_scope.
#[local] Open Scope list_scope.
#[local] Open Scope Z_scope.

(** ** [domain/trade_intent.py] *)

Definition CANCELLABLE_STATUSES : list string := ["active"; "scheduled"].
Definition TERMINAL_STATUSES : list string :=
  ["triggered"; "expired"; "cancelled"; "cancelled_by_account_disabled"].
Definition VALID_STATUSES : list string :=
  ["active"; "scheduled"; "triggered"; "expired"; "cancelled"; "cancelled_by_account_disabled"].
Definition BUY_SIDE_STRATEGIES : list string :=
  ["buy_price_alert"; "limit_buy_order"; "market_order"; "market_buy_order"].
Definition SELL_SIDE_STRATEGIES : list string :=
  ["sell_price_alert"; "limit_sell_order"; "trailing_stop_alert"; "market_sell_order"].
Definition MARKET_ORDER_STRATEGIES : list string :=
  ["market_order"; "market_buy_order"; "market_sell_order"].

Definition TRAILING_STRATEGY : string := "trailing_stop_alert".
Definition TWAP_STRATEGY : string := "twap_order".

(** [derive_order_side] *)
Definition derive_order_side (strategy : string) : res string :=
  if str_in strategy BUY_SIDE_STRATEGIES then Ok "buy"
  else if str_in strategy SELL_SIDE_STRATEGIES then Ok "sell"
  else Raise (ValueError ("Unsupported strategy: " ++ strategy)%string).

(** [TradeIntentData] *)
Record TradeIntentData : Type := mkIntent {
  i_id : uuid;
  i_owner_user_id : uuid;
  i_symbol : string;
  i_strategy : string;
  i_execution_mode : string;
  i_quantity_lots : Z;
  i_target_price_original : option dec;
  i_target_price_effective : option dec;
  i_trigger_reference_price_type : string;
  i_trading_date : date;
  i_time_in_force : string;
  i_status : string;
  i_created_at : datetime;
  i_updated_at : datetime;
  i_cancelled_at : option datetime;
  i_triggered_at : option datetime;
  i_transaction_mode : string;
  i_notification_mode : string;
  i_filled_quantity_lots : Z;
  i_last_fill_at : option datetime;
  i_trail_mode : option string;
  i_trail_value : option dec;
  i_baseline : option dec;
  i_dynamic_trigger_price : option dec;
  i_baseline_updated_at : option datetime;
  i_security_type : SecurityType;
  i_position_side : option string;
  i_twap_interval_seconds : option Z;
  i_twap_end_time : option time;
  i_twap_start_at : option datetime;
  i_twap_end_at : option datetime;
  i_twap_available_slice_count : option Z;
  i_twap_materialized_slice_count : option Z;
}.

(** [dataclasses.replace(intent, baseline=..., dynamic_trigger_price=..., baseline_updated_at=...)] *)
Definition intent_with_baseline (i : TradeIntentData) (b d : option dec) (t : option datetime) : TradeIntentData :=
  {| i_id := i_id i; i_owner_user_id := i_owner_user_id i; i_symbol := i_symbol i;
     i_strategy := i_strategy i; i_execution_mode := i_execution_mode i;
     i_quantity_lots := i_quantity_lots i; i_target_price_original := i_target_price_original i;
     i_target_price_effective := i_target_price_effective i;
     i_trigger_reference_price_type := i_trigger_reference_price_type i;
     i_trading_date := i_trading_date i; i_time_in_force := i_time_in_force i;
     i_status := i_status i; i_created_at := i_created_at i; i_updated_at := i_updated_at i;
     i_cancelled_at := i_cancelled_at i; i_triggered_at := i_triggered_at i;
     i_transaction_mode := i_transaction_mode i; i_notification_mode := i_notification_mode i;
     i_filled_quantity_lots := i_filled_quantity_lots i; i_last_fill_at := i_last_fill_at i;
     i_trail_mode := i_trail_mode i; i_trail_value := i_trail_value i;
     i_baseline := b; i_dynamic_trigger_price := d; i_baseline_updated_at := t;
     i_security_type := i_security_type i; i_position_side := i_position_side i;
     i_twap_interval_seconds := i_twap_interval_seconds i; i_twap_end_time := i_twap_end_time i;
     i_twap_start_at := i_twap_start_at i; i_twap_end_at := i_twap_end_at i;
     i_twap_available_slice_count := i_twap_available_slice_count i;
     i_twap_materialized_slice_count := i_twap_materialized_slice_count i |}.

(** ** [services/quote/base.py]: [QuoteSnapshot] *)
Record QuoteSnapshot : Type := mkQuote {
  q_symbol : string;
  bid_price : option dec;
  ask_price : option dec;
  last_price : option dec;
  quote_time : datetime;
  received_at : datetime;
}.

(** A price of an optional column or field, when present. *)
Definition price_list (q : QuoteSnapshot) : list (option dec) :=
  [bid_price q; ask_price q; last_price q].

(** The interface every quote provider implements ([QuoteProvider]); the
    state of a provider is [P].  [get_current_price] is the optional
    [CurrentPriceProvider] capability. *)
Class QuoteProvider (P : Type) : Type := {
  get_quotes : P -> list string -> res (list QuoteSnapshot);
  subscribe : P -> string -> res P;
  unsubscribe : P -> string -> res P;
  active_subscriptions : P -> list string;
  get_current_price : option (P -> string -> res QuoteSnapshot);
}.
