(* ===== verification/Evaluation.v ===== *)
(** * Quote evaluation: [src/app/domain/quote_evaluation.py]

    The pure decision whether a quote triggers an intent. *)

From S2P Require Import Prelude Decimal Datetime Errors Price TradingSession Intent.

#[local] Open Scope string_scope.
#[local] Open Scope list_scope.
#[local] Open Scope Z_scope.

Definition QUOTE_FRESHNESS_THRESHOLD : Z := 10 * SECOND.

Inductive SkipReason : Type :=
| OUTSIDE_SESSION
| QUOTE_STALE
| QUOTE_BID_GT_ASK
| QUOTE_NONPOSITIVE_PRICE
| QUOTE_MISSING_ALL_PRICES
| CONDITION_NOT_MET
| UNSUPPORTED_STRATEGY.

Record EvaluationResult : Type := mkEval {
  should_trigger : bool;
  trigger_price : option dec;
  trigger_reference_price_type : option string;
  fallback_used : bool;
  skip_reason : option SkipReason;
  e_baseline : option dec;
  e_dynamic_trigger_price : option dec;
  e_baseline_updated_at : option datetime;
}.

(** [EvaluationResult(should_trigger=False, skip_reason=...)] and
    [EvaluationResult(should_trigger=True, ...)] with the other fields at
    their defaults. *)
Definition eval_skip (r : SkipReason) : EvaluationResult :=
  mkEval false None None false (Some r) None None None.
Definition eval_trigger (p : dec) (ref : string) (fallback : bool) : EvaluationResult :=
  mkEval true (Some p) (Some ref) fallback None None None None.

(** [_validate_quote] *)
Definition validate_quote (q : QuoteSnapshot) : option SkipReason :=
  if existsb (fun p => match p with Some d => dec_leb d (of_int 0) | None => false end) (price_list q)
  then Some QUOTE_NONPOSITIVE_PRICE
  else if match bid_price q, ask_price q with Some b, Some a => dec_ltb a b | _, _ => false end
  then Some QUOTE_BID_GT_ASK
  else if is_none (bid_price q) && is_none (ask_price q) && is_none (last_price q)
  then Some QUOTE_MISSING_ALL_PRICES
  else None.

(** [_evaluate_buy] *)
Definition evaluate_buy (q : QuoteSnapshot) (target : option dec) : EvaluationResult :=
  match target with
  | None => eval_skip UNSUPPORTED_STRATEGY
  | Some t =>
      match ask_price q with
      | Some ask => if dec_leb ask t then eval_trigger ask "ask" false else eval_skip CONDITION_NOT_MET
      | None =>
          match last_price q with
          | Some last =>
              if dec_leb last t then eval_trigger last "last_fallback" true else eval_skip CONDITION_NOT_MET
          | None => eval_skip CONDITION_NOT_MET
          end
      end
  end.

(** [_evaluate_sell] *)
Definition evaluate_sell (q : QuoteSnapshot) (target : option dec) : EvaluationResult :=
  match target with
  | None => eval_skip UNSUPPORTED_STRATEGY
  | Some t =>
      match bid_price q with
      | Some bid => if dec_leb t bid then eval_trigger bid "bid" false else eval_skip CONDITION_NOT_MET
      | None =>
          match last_price q with
          | Some last =>
              if dec_leb t last then eval_trigger last "last_fallback" true else eval_skip CONDITION_NOT_MET
          | None => eval_skip CONDITION_NOT_MET
          end
      end
  end.

(** [_evaluate_market_buy] and [_evaluate_market_sell] *)
Definition evaluate_market_buy (q : QuoteSnapshot) : EvaluationResult :=
  match ask_price q with
  | Some ask => eval_trigger ask "ask" false
  | None =>
      match last_price q with
      | Some last => eval_trigger last "last_fallback" true
      | None => eval_skip CONDITION_NOT_MET
      end
  end.
Definition evaluate_market_sell (q : QuoteSnapshot) : EvaluationResult :=
  match bid_price q with
  | Some bid => eval_trigger bid "bid" false
  | None =>
      match last_price q with
      | Some last => eval_trigger last "last_fallback" true
      | None => eval_skip CONDITION_NOT_MET
      end
  end.

(** [_trailing_reference_price] *)
Definition trailing_reference_price (q : QuoteSnapshot) : res (option dec) :=
  match last_price q with
  | Some last => Ok (Some last)
  | None =>
      match bid_price q, ask_price q with
      | Some b, Some a => let? m := lift_dec (dec_div (dec_add b a) (Dec 2 0)) in Ok (Some m)
      | _, _ => Ok None
      end
  end.

(** [_calculate_dynamic_trigger_price] *)
Definition calculate_dynamic_trigger_price (i : TradeIntentData) (baseline : dec) : res dec :=
  match i_trail_mode i, i_trail_value i with
  | Some mode, Some value =>
      let? raw :=
        (if String.eqb mode "percentage" then
           let? ratio := lift_dec (dec_div value (Dec 100 0)) in
           Ok (dec_mul baseline (dec_sub (Dec 1 0) ratio))
         else if String.eqb mode "fixed_amount" then Ok (dec_sub baseline value)
         else Raise (ValueError ("Unsupported trail mode: " ++ mode)%string)) in
      round_down_to_tick (i_security_type i) raw
  | _, _ => Raise (ValueError "trailing intent requires trail_mode and trail_value")
  end.

(** [_evaluate_trailing_stop] *)
Definition evaluate_trailing_stop (q : QuoteSnapshot) (i : TradeIntentData) (now : datetime)
  : res EvaluationResult :=
  match i_trail_mode i, i_trail_value i with
  | Some _, Some _ =>
      let? reference := trailing_reference_price q in
      let raises :=
        match reference with
        | Some r => match i_baseline i with None => true | Some b => dec_ltb b r end
        | None => false
        end in
      let? st :=
        match reference, raises with
        | Some r, true =>
            let? d := calculate_dynamic_trigger_price i r in Ok (Some r, Some d, Some now)
        | _, _ => Ok (i_baseline i, i_dynamic_trigger_price i, None)
        end in
      let '(baseline, dynamic, updated_at) := st in
      let result b p ref fb skip := mkEval b p ref fb skip baseline dynamic updated_at in
      match dynamic with
      | None => Ok (result false None None false (Some CONDITION_NOT_MET))
      | Some d =>
          match bid_price q with
          | Some bid =>
              if dec_leb bid d then Ok (result true (Some bid) (Some "bid") false None)
              else Ok (result false None None false (Some CONDITION_NOT_MET))
          | None =>
              match last_price q with
              | Some last =>
                  if dec_leb last d then Ok (result true (Some last) (Some "last_fallback") true None)
                  else Ok (result false None None false (Some CONDITION_NOT_MET))
              | None => Ok (result false None None false (Some CONDITION_NOT_MET))
              end
          end
      end
  | _, _ => Ok (eval_skip UNSUPPORTED_STRATEGY)
  end.

(** [QuoteEvaluator.evaluate] *)
Definition evaluate (q : QuoteSnapshot) (i : TradeIntentData) (now : datetime) : res EvaluationResult :=
  match verify_trading_hours now (quote_time q) with
  | Raise (OutsideSessionError _) => Ok (eval_skip OUTSIDE_SESSION)
  | Raise e => Raise e
  | Ok _ =>
      if QUOTE_FRESHNESS_THRESHOLD <? dt_us now - dt_us (quote_time q) then Ok (eval_skip QUOTE_STALE)
      else
        match validate_quote q with
        | Some failure => Ok (eval_skip failure)
        | None =>
            let s := i_strategy i in
            if str_in s ["buy_price_alert"; "limit_buy_order"] then
              Ok (evaluate_buy q (i_target_price_effective i))
            else if str_in s ["sell_price_alert"; "limit_sell_order"] then
              Ok (evaluate_sell q (i_target_price_effective i))
            else if str_in s ["market_order"; "market_buy_order"] then Ok (evaluate_market_buy q)
            else if String.eqb s "market_sell_order" then Ok (evaluate_market_sell q)
            else if String.eqb s "trailing_stop_alert" then evaluate_trailing_stop q i now
            else Ok (eval_skip UNSUPPORTED_STRATEGY)
        end
  end.

(** ** The declarative rules

    Which price an intent is compared with, and when it is met: the strategy
    table of the domain, independent of the order of the code's tests. *)

Definition buy_reference (q : QuoteSnapshot) (p : dec) (ref : string) : Prop :=
  (ask_price q = Some p /\ ref = "ask") \/
  (ask_price q = None /\ last_price q = Some p /\ ref = "last_fallback").

Definition sell_reference (q : QuoteSnapshot) (p : dec) (ref : string) : Prop :=
  (bid_price q = Some p /\ ref = "bid") \/
  (bid_price q = None /\ last_price q = Some p /\ ref = "last_fallback").

(** [meets q i dyn p ref]: the condition of intent [i] holds at price [p] of
    kind [ref]; [dyn] is the dynamic trigger price of a trailing intent. *)
Inductive meets (q : QuoteSnapshot) (i : TradeIntentData) (dyn : option dec) (p : dec) (ref : string) : Prop :=
| meets_buy t :
    i_strategy i = "buy_price_alert" \/ i_strategy i = "limit_buy_order" ->
    i_target_price_effective i = Some t -> buy_reference q p ref -> p <=d t -> meets q i dyn p ref
| meets_sell t :
    i_strategy i = "sell_price_alert" \/ i_strategy i = "limit_sell_order" ->
    i_target_price_effective i = Some t -> sell_reference q p ref -> t <=d p -> meets q i dyn p ref
| meets_market_buy :
    i_strategy i = "market_order" \/ i_strategy i = "market_buy_order" ->
    buy_reference q p ref -> meets q i dyn p ref
| meets_market_sell :
    i_strategy i = "market_sell_order" -> sell_reference q p ref -> meets q i dyn p ref
| meets_trailing d :
    i_strategy i = "trailing_stop_alert" -> is_some (i_trail_mode i) = true ->
    is_some (i_trail_value i) = true -> dyn = Some d ->
    sell_reference q p ref -> p <=d d -> meets q i dyn p ref.

(** A quote may be acted upon at [now]. *)
Definition usable (q : QuoteSnapshot) (now : datetime) : bool :=
  in_session now && in_session (quote_time q) &&
  (dt_us now - dt_us (quote_time q) <=? QUOTE_FRESHNESS_THRESHOLD) && is_none (validate_quote q).

Definition positive (p : dec) : Prop := dec_leb p (of_int 0) = false.

(** What an evaluation result says: it triggers exactly when the condition
    [P] holds at some reference price, and its fields are consistent. *)
Definition outcome (r : EvaluationResult) (P : dec -> string -> Prop) : Prop :=
  if should_trigger r then
    exists p ref, P p ref /\ trigger_price r = Some p /\ trigger_reference_price_type r = Some ref /\
      fallback_used r = String.eqb ref "last_fallback" /\ skip_reason r = None
  else
    (forall p ref, ~ P p ref) /\ trigger_price r = None /\ trigger_reference_price_type r = None /\
      fallback_used r = false /\ is_some (skip_reason r) = true.

Lemma outcome_ext r P Q : (forall p ref, P p ref <-> Q p ref) -> outcome r P -> outcome r Q.
Proof. intros HPQ. unfold outcome. case_match; naive_solver. Qed.

(** The reference price as a function. *)
Definition buy_reference_of (q : QuoteSnapshot) : option (dec * string) :=
  match ask_price q with
  | Some a => Some (a, "ask")
  | None => match last_price q with Some l => Some (l, "last_fallback") | None => None end
  end.
Definition sell_reference_of (q : QuoteSnapshot) : option (dec * string) :=
  match bid_price q with
  | Some b => Some (b, "bid")
  | None => match last_price q with Some l => Some (l, "last_fallback") | None => None end
  end.

Lemma buy_reference_iff q p ref : buy_reference q p ref <-> buy_reference_of q = Some (p, ref).
Proof. unfold buy_reference, buy_reference_of. destruct (ask_price q), (last_price q); naive_solver. Qed.

Lemma sell_reference_iff q p ref : sell_reference q p ref <-> sell_reference_of q = Some (p, ref).
Proof. unfold sell_reference, sell_reference_of. destruct (bid_price q), (last_price q); naive_solver. Qed.

(** A decision by a reference price and a test on it. *)
Definition decision (o : option (dec * string)) (c : dec -> bool) (b dyn : option dec)
    (u : option datetime) : EvaluationResult :=
  match o with
  | Some (p, ref) =>
      if c p then mkEval true (Some p) (Some ref) (String.eqb ref "last_fallback") None b dyn u
      else mkEval false None None false (Some CONDITION_NOT_MET) b dyn u
  | None => mkEval false None None false (Some CONDITION_NOT_MET) b dyn u
  end.

Lemma decision_outcome o c b dyn u (P : dec -> string -> Prop) :
  (forall p ref, P p ref <-> o = Some (p, ref) /\ c p = true) -> outcome (decision o c b dyn u) P.
Proof.
  intros HP. unfold outcome, decision. destruct o as [[p ref]|]; [destruct (c p) eqn:Hc|]; simpl.
  - exists p, ref. split; [by apply HP|done].
  - split; [|done]. intros p' ref' [Heq Hc']%HP. congruence.
  - split; [|done]. by intros p' ref' [Heq _]%HP.
Qed.

Lemma skip_outcome s (P : dec -> string -> Prop) : (forall p ref, ~ P p ref) -> outcome (eval_skip s) P.
Proof. intros H. unfold outcome. simpl. naive_solver. Qed.

Ltac prices q :=
  destruct (ask_price q), (bid_price q), (last_price q); try done; case_goal.

Lemma evaluate_buy_outcome q t : outcome (evaluate_buy q t)
  (fun p ref => exists t', t = Some t' /\ buy_reference q p ref /\ p <=d t').
Proof.
  destruct t as [t|]; [|apply skip_outcome; naive_solver].
  replace (evaluate_buy q (Some t)) with (decision (buy_reference_of q) (fun p => dec_leb p t) None None None).
  - apply decision_outcome. intros p ref. pose proof (buy_reference_iff q p ref). naive_solver.
  - unfold decision, evaluate_buy, buy_reference_of. by prices q.
Qed.

Lemma evaluate_sell_outcome q t : outcome (evaluate_sell q t)
  (fun p ref => exists t', t = Some t' /\ sell_reference q p ref /\ t' <=d p).
Proof.
  destruct t as [t|]; [|apply skip_outcome; naive_solver].
  replace (evaluate_sell q (Some t)) with (decision (sell_reference_of q) (fun p => dec_leb t p) None None None).
  - apply decision_outcome. intros p ref. pose proof (sell_reference_iff q p ref). naive_solver.
  - unfold decision, evaluate_sell, sell_reference_of. by prices q.
Qed.

Lemma evaluate_market_buy_outcome q : outcome (evaluate_market_buy q) (buy_reference q).
Proof.
  replace (evaluate_market_buy q) with (decision (buy_reference_of q) (fun _ => true) None None None).
  - apply decision_outcome. intros p ref. pose proof (buy_reference_iff q p ref). naive_solver.
  - unfold decision, evaluate_market_buy, buy_reference_of. by prices q.
Qed.

Lemma evaluate_market_sell_outcome q : outcome (evaluate_market_sell q) (sell_reference q).
Proof.
  replace (evaluate_market_sell q) with (decision (sell_reference_of q) (fun _ => true) None None None).
  - apply decision_outcome. intros p ref. pose proof (sell_reference_iff q p ref). naive_solver.
  - unfold decision, evaluate_market_sell, sell_reference_of. by prices q.
Qed.

(** The shape of a trailing evaluation: a new baseline or the old one, then a
    decision on the sell reference price. *)
Lemma evaluate_trailing_shape q i now r : evaluate_trailing_stop q i now = Ok r ->
  is_some (i_trail_mode i) && is_some (i_trail_value i) = true ->
  exists b dyn u, e_dynamic_trigger_price r = dyn /\
    r = decision (match dyn with Some _ => sell_reference_of q | None => None end)
          (fun p => match dyn with Some d => dec_leb p d | None => false end) b dyn u.
Proof.
  unfold evaluate_trailing_stop. intros H Hm.
  destruct (i_trail_mode i), (i_trail_value i); try done.
  apply rbind_Ok in H as (reference & _ & H). apply rbind_Ok in H as ([[b dyn] u] & _ & H).
  exists b, dyn, u. unfold decision, sell_reference_of.
  destruct dyn as [dd|]; [|by simplify_eq].
  destruct (bid_price q) as [x|]; [by case_match; simplify_eq|].
  destruct (last_price q) as [x|]; [by case_match; simplify_eq|by simplify_eq].
Qed.

Lemma evaluate_trailing_outcome q i now r : evaluate_trailing_stop q i now = Ok r ->
  outcome r (fun p ref => is_some (i_trail_mode i) = true /\ is_some (i_trail_value i) = true /\
    exists d, e_dynamic_trigger_price r = Some d /\ sell_reference q p ref /\ p <=d d).
Proof.
  intros H. destruct (is_some (i_trail_mode i) && is_some (i_trail_value i)) eqn:Hm.
  - destruct (evaluate_trailing_shape q i now r H Hm) as (b & dyn & u & Hd & Hr).
    rewrite Hd, Hr. apply andb_true_iff in Hm as [-> ->].
    apply decision_outcome. intros p ref. pose proof (sell_reference_iff q p ref).
    destruct dyn; naive_solver.
  - unfold evaluate_trailing_stop in H.
    destruct (i_trail_mode i), (i_trail_value i); try done; simplify_eq; apply skip_outcome; naive_solver.
Qed.

Lemma validate_positive q p ref : validate_quote q = None ->
  buy_reference q p ref \/ sell_reference q p ref -> positive p.
Proof.
  unfold validate_quote, positive, price_list. cbn [existsb].
  destruct (match bid_price q with Some d => dec_leb d (of_int 0) | None => false end) eqn:Hb; [done|].
  destruct (match ask_price q with Some d => dec_leb d (of_int 0) | None => false end) eqn:Ha; [done|].
  destruct (match last_price q with Some d => dec_leb d (of_int 0) | None => false end) eqn:Hl; [done|].
  intros _. unfold buy_reference, sell_reference.
  intros [[[E _]|(_ & E & _)]|[[E _]|(_ & E & _)]]; rewrite E in *; done.
Qed.

(** The strategy tests of [evaluate] pick the rule of the strategy. *)
Lemma strategy_cases s :
  (s = "buy_price_alert" \/ s = "limit_buy_order") \/
  (s = "sell_price_alert" \/ s = "limit_sell_order") \/
  (s = "market_order" \/ s = "market_buy_order") \/
  s = "market_sell_order" \/ s = "trailing_stop_alert" \/
  (str_in s (BUY_SIDE_STRATEGIES ++ SELL_SIDE_STRATEGIES) = false).
Proof.
  destruct (str_in s (BUY_SIDE_STRATEGIES ++ SELL_SIDE_STRATEGIES)) eqn:E; [|tauto].
  apply str_in_spec in E. set_unfold in E. naive_solver.
Qed.

Lemma meets_elim q i dyn p ref : meets q i dyn p ref ->
  str_in (i_strategy i) (BUY_SIDE_STRATEGIES ++ SELL_SIDE_STRATEGIES) = true /\
  (buy_reference q p ref \/ sell_reference q p ref).
Proof. intros []; (split; [apply str_in_spec; set_solver|auto]). Qed.

Lemma rule_outcome q i now r :
  (let s := i_strategy i in
   if str_in s ["buy_price_alert"; "limit_buy_order"] then Ok (evaluate_buy q (i_target_price_effective i))
   else if str_in s ["sell_price_alert"; "limit_sell_order"] then Ok (evaluate_sell q (i_target_price_effective i))
   else if str_in s ["market_order"; "market_buy_order"] then Ok (evaluate_market_buy q)
   else if String.eqb s "market_sell_order" then Ok (evaluate_market_sell q)
   else if String.eqb s "trailing_stop_alert" then evaluate_trailing_stop q i now
   else Ok (eval_skip UNSUPPORTED_STRATEGY)) = Ok r ->
  outcome r (meets q i (e_dynamic_trigger_price r)).
Proof.
  destruct (strategy_cases (i_strategy i)) as [[E|E]|[[E|E]|[[E|E]|[E|[E|E]]]]]; cbv zeta;
    [rewrite E; cbn..|].
  all: try (intros [= <-]; first
    [ eapply outcome_ext; [|apply evaluate_buy_outcome]
    | eapply outcome_ext; [|apply evaluate_sell_outcome]
    | eapply outcome_ext; [|apply evaluate_market_buy_outcome]
    | eapply outcome_ext; [|apply evaluate_market_sell_outcome] ];
    intros p ref; split;
    [ naive_solver eauto using meets
    | intros Hm; inversion Hm; naive_solver congruence ]).
  - intros H. eapply outcome_ext; [|by eapply evaluate_trailing_outcome].
    intros p ref. split; [naive_solver eauto using meets|].
    intros Hm. inversion Hm; naive_solver congruence.
  - assert (Hn : i_strategy i ∉ BUY_SIDE_STRATEGIES ++ SELL_SIDE_STRATEGIES).
    { rewrite <-str_in_spec. by rewrite E. }
    assert (Hl : forall l, (forall x, x ∈ l -> x ∈ BUY_SIDE_STRATEGIES ++ SELL_SIDE_STRATEGIES) ->
              str_in (i_strategy i) l = false).
    { intros l Hl. apply not_true_iff_false. rewrite str_in_spec. auto. }
    rewrite !Hl by set_solver.
    destruct (String.eqb_spec (i_strategy i) "market_sell_order") as [Heq|]; [exfalso; apply Hn; rewrite Heq; set_solver|].
    destruct (String.eqb_spec (i_strategy i) "trailing_stop_alert") as [Heq|]; [exfalso; apply Hn; rewrite Heq; set_solver|].
    intros [= <-]. apply skip_outcome. intros p ref [Hs _]%meets_elim. congruence.
Qed.

Lemma usable_false_skip q i now r : evaluate q i now = Ok r -> usable q now = false ->
  should_trigger r = false /\ trigger_price r = None /\ is_some (skip_reason r) = true /\
  e_baseline_updated_at r = None.
Proof.
  unfold evaluate, usable. rewrite verify_trading_hours_spec.
  destruct (is_aware now && is_aware (quote_time q)); [|done].
  destruct (in_session now), (in_session (quote_time q)); cbn [andb]; try (by intros [= <-]).
  rewrite Z.leb_antisym. destruct (_ <? _); cbn [negb andb]; [by intros [= <-]|].
  destruct (validate_quote q); [by intros [= <-]|done].
Qed.

Lemma usable_true_rules q i now r : evaluate q i now = Ok r -> usable q now = true ->
  validate_quote q = None /\ outcome r (meets q i (e_dynamic_trigger_price r)).
Proof.
  unfold evaluate, usable. rewrite verify_trading_hours_spec.
  intros H [[[Hn Hq]%andb_true_iff Hf]%andb_true_iff Hv]%andb_true_iff.
  rewrite Hn, Hq in H. destruct (is_aware now && is_aware (quote_time q)); [|done].
  rewrite Z.leb_antisym in Hf. apply negb_true_iff in Hf. rewrite Hf in H.
  destruct (validate_quote q); [done|]. split; [done|]. by apply (rule_outcome q i now).
Qed.

(** C23. The evaluator implements the strategy table: whenever it returns, it
    triggers exactly when both times are in the regular session, the quote is
    at most ten seconds old and well formed, and the rule of the intent's
    strategy is met at its reference price (ask for buys, bid for sells and
    trailing stops, last only when that side is missing); the trigger price is
    that positive reference price, [fallback_used] is set exactly for
    [last_fallback], and a result carries either a trigger or a skip reason. *)
Theorem evaluate_implements_rules (q : QuoteSnapshot) (i : TradeIntentData) (now : datetime)
    (r : EvaluationResult) (H : evaluate q i now = Ok r) :
  (should_trigger r = true <->
     usable q now = true /\ exists p ref, meets q i (e_dynamic_trigger_price r) p ref) /\
  (should_trigger r = true -> exists p ref,
     meets q i (e_dynamic_trigger_price r) p ref /\ positive p /\
     trigger_price r = Some p /\ trigger_reference_price_type r = Some ref /\
     fallback_used r = String.eqb ref "last_fallback" /\ skip_reason r = None) /\
  (should_trigger r = false -> trigger_price r = None /\ is_some (skip_reason r) = true).
Proof.
  destruct (usable q now) eqn:Hu.
  - destruct (usable_true_rules q i now r H Hu) as [Hv Ho]. unfold outcome in Ho.
    destruct (should_trigger r).
    + destruct Ho as (p & ref & Hm & Hrest). destruct (meets_elim _ _ _ _ _ Hm) as [_ Href].
      pose proof (validate_positive q p ref Hv Href). naive_solver.
    + naive_solver.
  - destruct (usable_false_skip q i now r H Hu) as (-> & -> & -> & _). naive_solver.
Qed.

Definition sample_intent (strategy : string) (target : option dec) (mode : option string)
    (value baseline dyn : option dec) : TradeIntentData :=
  let t := DT 0 (Some 0) in
  mkIntent 1 7 "2330" strategy "notify_only" 2 target target "ask" 20601 "day" "active" t t None None
    "single_notification" "single" 0 None mode value baseline dyn None STOCK
    None None None None None None None.

Definition sample_quote (b a l : option dec) : QuoteSnapshot :=
  let t := combine_taipei 20601 (mk_time 10 0) in mkQuote "2330" b a l t t.

Lemma evaluate_implements_rules_witness :
  let q := sample_quote None None (Some (Dec 600 0)) in
  let i := sample_intent "buy_price_alert" (Some (Dec 6000000 (-4))) None None None None in
  let now := combine_taipei 20601 (mk_time 10 0 + 3 * SECOND) in
  let r := eval_trigger (Dec 600 0) "last_fallback" true in
  evaluate q i now = Ok r /\ usable q now = true.
Proof.
  split; [vm_compute; reflexivity|].
  refine (proj1 (proj1 (proj1 (evaluate_implements_rules _
    (sample_intent "buy_price_alert" (Some (Dec 6000000 (-4))) None None None None) _
    (eval_trigger (Dec 600 0) "last_fallback" true) _)) _)).
  - vm_compute. reflexivity.
  - reflexivity.
Defined.
