(* ===== verification/Trailing.v ===== *)
(** * The trailing stop

    [QuoteEvaluator._evaluate_trailing_stop] over a sequence of quotes: the
    baseline follows the highest reference price and the dynamic trigger price
    is the legal tick below the trailed baseline.  The sequence is the one
    [trigger_intent_core.apply_trailing_baseline_update] produces: each
    evaluation sees the baseline the previous one stored. *)

From S2P Require Import Prelude Decimal Datetime Errors Price TradingSession Intent Evaluation.

#[local] Open Scope string_scope.
#[local] Open Scope list_scope.
#[local] Open Scope Z_scope.

(** ** Exact arithmetic at a scale *)

Lemma scaled_abs_mono d e e' : e' <= e <= expo d -> Z.abs (scaled d e) <= Z.abs (scaled d e').
Proof.
  intros H. rewrite (scaled_lower d e e') by done. rewrite Z.abs_mul.
  assert (0 < 10 ^ (e - e')) by auto with py lia. nia.
Qed.

Lemma coef_scaled d e : e <= expo d -> Z.abs (coef d) <= Z.abs (scaled d e).
Proof. intros. rewrite <-(scaled_self d). apply scaled_abs_mono. lia. Qed.

Lemma scaled_add_at a b e : e <= expo a -> e <= expo b ->
  Z.abs (scaled a e) + Z.abs (scaled b e) < 10 ^ PREC ->
  scaled (dec_add a b) e = scaled a e + scaled b e /\ expo (dec_add a b) = common_expo a b.
Proof.
  intros Ha Hb Hlt. unfold dec_add. set (m := common_expo a b).
  assert (Hm : e <= m <= expo a /\ m <= expo b) by (unfold m, common_expo; lia).
  pose proof (scaled_abs_mono a m e). pose proof (scaled_abs_mono b m e).
  rewrite fix_prec_id by (cbn [coef]; lia). split; [|done].
  rewrite !(scaled_lower _ m e) by (cbn [expo]; lia).
  unfold scaled at 1. cbn [coef expo]. rewrite Z.sub_diag. ring.
Qed.

Lemma scaled_sub_at a b e : e <= expo a -> e <= expo b ->
  Z.abs (scaled a e) + Z.abs (scaled b e) < 10 ^ PREC ->
  scaled (dec_sub a b) e = scaled a e - scaled b e /\ expo (dec_sub a b) = common_expo a b.
Proof.
  intros Ha Hb Hlt. unfold dec_sub. set (m := common_expo a b).
  assert (Hm : e <= m <= expo a /\ m <= expo b) by (unfold m, common_expo; lia).
  pose proof (scaled_abs_mono a m e). pose proof (scaled_abs_mono b m e).
  rewrite fix_prec_id by (cbn [coef]; lia). split; [|done].
  rewrite !(scaled_lower _ m e) by (cbn [expo]; lia).
  unfold scaled at 1. cbn [coef expo]. rewrite Z.sub_diag. ring.
Qed.

Lemma scaled_mul_at a b e f : e <= expo a -> f <= expo b ->
  Z.abs (scaled a e * scaled b f) < 10 ^ PREC ->
  scaled (dec_mul a b) (e + f) = scaled a e * scaled b f /\ expo (dec_mul a b) = expo a + expo b.
Proof.
  intros Ha Hb Hlt. unfold dec_mul.
  pose proof (coef_scaled a e Ha). pose proof (coef_scaled b f Hb).
  rewrite fix_prec_id.
  2: { cbn [coef]. rewrite Z.abs_mul in *. nia. }
  split; [|done]. unfold scaled. cbn [coef expo].
  replace (expo a + expo b - (e + f)) with ((expo a - e) + (expo b - f)) by lia.
  rewrite Z.pow_add_r by lia. ring.
Qed.

(** ** Rounding down is monotone, also below the first tick *)

Lemma nearest_lower_nonpos st p : UNIT <= expo p -> - 10 ^ 44 < units p <= 0 ->
  exists lo, nearest_lower st p = Ok lo /\ units lo = lower_units st (units p) /\ UNIT <= expo lo <= 0.
Proof.
  intros He Hu. unfold nearest_lower.
  destruct (lookup_units st p He) as (Ht & Hte & Htc). set (tick := lookup_tick_size st p) in *.
  pose proof (tick_units_bounds st (units p)) as Htb.
  assert (Hce : CENT <= units tick) by (rewrite Ht; unfold tick_units; repeat case_match; unfold CENT; lia).
  assert (Hex : 10 ^ 18 <= 10 ^ (expo tick - UNIT)).
  { apply Z.pow_le_mono_r; [lia|]. unfold UNIT. enough (-2 <= expo tick) by lia.
    unfold tick, lookup_tick_size. destruct st; cbn; repeat case_match; simpl; lia. }
  unfold dec_floordiv, dec_divmod. set (e := common_expo p tick).
  assert (Hem : UNIT <= e /\ e <= expo p /\ e <= expo tick) by (unfold e, common_expo; lia).
  rewrite (proj2 (Z.eqb_neq (coef tick) 0)) by lia.
  set (q := scaled p e ÷ scaled tick e).
  assert (Hk : 0 < 10 ^ (e - UNIT)) by (apply pow10_pos; lia).
  assert (Hq : q = - ((- units p) / units tick)).
  { unfold q. rewrite (scaled_units p e), (scaled_units tick e) in * by lia.
    set (A := scaled p e) in *. set (B := scaled tick e) in *. set (k := 10 ^ (e - UNIT)) in *.
    rewrite <-Z.mul_opp_l, Z.div_mul_cancel_r by nia.
    rewrite <-Z.quot_div_nonneg, Z.quot_opp_l by nia. lia. }
  assert (Hq0 : 0 <= (- units p) / units tick) by (apply Z.div_pos; lia).
  assert (Hqm : (- units p) / units tick * units tick <= - units p).
  { rewrite Z.mul_comm. apply Z.mul_div_le. lia. }
  assert (Hut : units tick = coef tick * 10 ^ (expo tick - UNIT)) by done.
  assert ((- units p) / units tick * coef tick * 10 ^ 18 <= - units p) by nia.
  rewrite (proj2 (Z.ltb_lt _ _)) by (unfold PREC; nia).
  cbn [rmap lift_dec rbind fst]. eexists. split; [done|].
  assert (dec_mul (Dec q 0) tick = Dec (q * coef tick) (expo tick)) as ->.
  { unfold dec_mul. cbn [coef expo]. rewrite Z.add_0_l. apply fix_prec_id. cbn [coef].
    rewrite Hq. unfold PREC. nia. }
  unfold dec_max. rewrite (dec_ltb_at UNIT) by (cbn [expo]; lia).
  rewrite (proj2 (Z.ltb_lt _ _)).
  2: { fold (units tick). unfold scaled. cbn [coef expo]. nia. }
  split; [|done]. unfold lower_units. rewrite <-Ht.
  rewrite Z.max_r; [done|].
  assert (units p / units tick <= 0) by (apply Z.div_le_upper_bound; lia). nia.
Qed.

Lemma round_down_units st p : UNIT <= expo p -> Z.abs (units p) < 10 ^ 44 ->
  exists lo, round_down_to_tick st p = Ok lo /\ units lo = lower_units st (units p) /\ UNIT <= expo lo <= 0.
Proof.
  intros He Hu. unfold round_down_to_tick. destruct (Z.lt_ge_cases 0 (units p)).
  - apply nearest_lower_units. unfold price_range. lia.
  - apply nearest_lower_nonpos; lia.
Qed.

Lemma lower_units_mono st u v : u <= v -> lower_units st u <= lower_units st v.
Proof.
  intros Huv. unfold lower_units.
  assert (H : tick_units st u = tick_units st v \/
    exists B, u < B <= v /\ B mod tick_units st v = 0 /\ tick_units st u <= B /\ B mod tick_units st u = 0).
  { unfold tick_units. destruct st; repeat case_match; b2p; try lia; try (by left); right;
    match goal with
    | _ : ?B <= v |- _ =>
        match goal with _ : u < B |- _ => exists B; split; [lia|]; vm_compute; repeat split; discriminate end
    end. }
  pose proof (tick_units_bounds st u) as Hu. pose proof (tick_units_bounds st v) as Hv.
  destruct H as [->|(B & HB & Hmod & Hle & Hmod')].
  - pose proof (Z.div_le_mono u v (tick_units st v) ltac:(lia) Huv). nia.
  - assert (B <= v / tick_units st v * tick_units st v).
    { pose proof (Z.div_le_mono B v (tick_units st v) ltac:(lia) ltac:(lia)).
      pose proof (Z.div_mod B (tick_units st v) ltac:(lia)). nia. }
    assert (u / tick_units st u * tick_units st u <= u).
    { rewrite Z.mul_comm. apply Z.mul_div_le. lia. }
    lia.
Qed.

(** ** The trailed price *)

(** Reference prices have at most seven decimals (a midpoint of two six-decimal
    prices), trail values the four of their column. *)
Definition REF_SCALE : Z := -7.
Definition reference_price (d : dec) : Prop := REF_SCALE <= expo d /\ 0 < scaled d REF_SCALE < 10 ^ 16.
Definition quote_price (d : dec) : Prop := -6 <= expo d /\ 0 < scaled d (-6) < 10 ^ 14.
Definition trail_value_ok (mode : string) (v : dec) : Prop :=
  -4 <= expo v <= 0 /\
  ((mode = "percentage" /\ 0 < scaled v (-4) <= 10 * 10 ^ 4) \/
   (mode = "fixed_amount" /\ 0 < scaled v (-4) < 10 ^ 9)).
Definition trailing_ok (i : TradeIntentData) : Prop :=
  exists mode v, i_trail_mode i = Some mode /\ i_trail_value i = Some v /\ trail_value_ok mode v.

(** The trailed price in units of [UNIT], an exact integer expression. *)
Definition raw_units (mode : string) (v b : dec) : Z :=
  if String.eqb mode "percentage" then scaled b REF_SCALE * (10 ^ 6 - scaled v (-4)) * 10 ^ 7
  else scaled b REF_SCALE * 10 ^ 13 - scaled v (-4) * 10 ^ 16.

Lemma percent_ratio v : -4 <= expo v <= 0 -> 0 < scaled v (-4) <= 10 * 10 ^ 4 ->
  exists r, dec_div v (Dec 100 0) = Ok r /\ -6 <= expo r <= 0 /\ scaled r (-6) = scaled v (-4).
Proof.
  intros He Hv. pose proof (coef_scaled v (-4) ltac:(lia)) as Hc.
  assert (0 < coef v).
  { unfold scaled in Hv. assert (0 < 10 ^ (expo v - -4)) by auto with py lia. nia. }
  destruct (dec_div_exact v 100 1 2) as (d & Hd & Hd0 & Hde & Hdv); [lia|lia|done|lia|].
  exists d. split; [done|]. split; [lia|].
  rewrite (scaled_lower d (expo v - 2) (-6)) by lia. unfold scaled at 1. rewrite Hdv.
  unfold scaled. replace (expo v - -4) with (expo v - 2 - -6) by lia. ring.
Qed.

(** The price before rounding to the tick, exact in both modes. *)
Lemma percentage_raw r b v : reference_price b -> -6 <= expo r <= 0 -> scaled r (-6) = scaled v (-4) ->
  0 < scaled v (-4) <= 10 * 10 ^ 4 ->
  let raw := dec_mul b (dec_sub (Dec 1 0) r) in
  UNIT <= expo raw /\ units raw = scaled b REF_SCALE * (10 ^ 6 - scaled v (-4)) * 10 ^ 7.
Proof.
  intros [Hbe Hb] Hre Hr Hvb. assert (H1 : scaled (Dec 1 0) (-6) = 10 ^ 6) by (vm_compute; reflexivity).
  destruct (scaled_sub_at (Dec 1 0) r (-6)) as [Hs Hse];
    [cbn [expo]; lia|lia|rewrite H1, Hr; unfold PREC; lia|].
  rewrite Hr, H1 in Hs. unfold common_expo in Hse. cbn [expo] in Hse.
  destruct (scaled_mul_at b (dec_sub (Dec 1 0) r) REF_SCALE (-6)) as [Hp Hpe];
    [done|lia|rewrite Hs; unfold PREC; nia|].
  rewrite Hs in Hp. cbn zeta. set (raw := dec_mul _ _) in *. unfold REF_SCALE, UNIT in *.
  split; [lia|]. unfold units. rewrite (scaled_lower raw (-7 + -6) UNIT) by (unfold UNIT; lia).
  rewrite Hp. f_equal.
Qed.

Lemma fixed_raw b v : reference_price b -> -4 <= expo v -> 0 < scaled v (-4) < 10 ^ 9 ->
  UNIT <= expo (dec_sub b v) /\
  units (dec_sub b v) = scaled b REF_SCALE * 10 ^ 13 - scaled v (-4) * 10 ^ 16.
Proof.
  intros [Hbe Hb] Hve Hvb.
  assert (Hv7 : scaled v REF_SCALE = scaled v (-4) * 10 ^ 3).
  { rewrite (scaled_lower v (-4) REF_SCALE) by (unfold REF_SCALE; lia). f_equal. }
  destruct (scaled_sub_at b v REF_SCALE) as [Hs Hse];
    [done|unfold REF_SCALE; lia|rewrite Hv7; unfold PREC; lia|].
  unfold common_expo in Hse. assert (HU : UNIT = -20) by done. assert (HR : REF_SCALE = -7) by done.
  split; [lia|].
  unfold units. rewrite (scaled_lower _ REF_SCALE UNIT) by lia.
  rewrite Hs, Hv7, HU, HR. replace (-7 - -20) with 13 by lia. lia.
Qed.

(** The dynamic trigger price is computed without rounding error and is the
    legal tick under the trailed price. *)
Lemma calculate_units i mode v b : i_trail_mode i = Some mode -> i_trail_value i = Some v ->
  trail_value_ok mode v -> reference_price b ->
  exists d, calculate_dynamic_trigger_price i b = Ok d /\ UNIT <= expo d <= 0 /\
    units d = lower_units (i_security_type i) (raw_units mode v b).
Proof.
  intros Hm Hv [Hve Hcase] Hbr. unfold calculate_dynamic_trigger_price, raw_units. rewrite Hm, Hv.
  pose proof Hbr as [_ Hb].
  destruct Hcase as [[-> Hvb]|[-> Hvb]].
  - rewrite String.eqb_refl.
    destruct (percent_ratio v Hve Hvb) as (r & -> & Hre & Hr). cbn [lift_dec rbind].
    destruct (percentage_raw r b v) as [He Hru]; [done..|].
    rewrite <-Hru. destruct (round_down_units (i_security_type i) (dec_mul b (dec_sub (Dec 1 0) r)))
      as (lo & Hlo & Hlu & Hle); [done|rewrite Hru|by exists lo].
    assert (0 <= scaled b REF_SCALE * (10 ^ 6 - scaled v (-4))) by (apply Z.mul_nonneg_nonneg; lia).
    assert (scaled b REF_SCALE * (10 ^ 6 - scaled v (-4)) <= 10 ^ 16 * 10 ^ 6)
      by (apply Z.mul_le_mono_nonneg; lia). lia.
  - change (String.eqb "fixed_amount" "percentage") with false. rewrite String.eqb_refl. cbn [rbind].
    destruct (fixed_raw b v) as [He Hru]; [done|lia|done|].
    rewrite <-Hru. destruct (round_down_units (i_security_type i) (dec_sub b v)) as (lo & Hlo & Hlu & Hle);
      [done|rewrite Hru; lia|]. by exists lo.
Qed.

Lemma raw_units_mono mode v b b' : trail_value_ok mode v ->
  scaled b REF_SCALE <= scaled b' REF_SCALE -> raw_units mode v b <= raw_units mode v b'.
Proof. intros [_ H] Hb. unfold raw_units. case_match; destruct H as [[-> ?]|[-> ?]]; try done; nia. Qed.

(** A higher baseline never gives a lower stop. *)
Lemma calculate_mono i b b' d d' : trailing_ok i -> reference_price b -> reference_price b' -> b <=d b' ->
  calculate_dynamic_trigger_price i b = Ok d -> calculate_dynamic_trigger_price i b' = Ok d' -> d <=d d'.
Proof.
  intros (mode & v & Hm & Hv & Hok) Hb Hb' Hle Hd Hd'.
  destruct (calculate_units i mode v b) as (x & Hx & Hxe & Hxu); [done..|].
  destruct (calculate_units i mode v b') as (y & Hy & Hye & Hyu); [done..|].
  rewrite Hx in Hd. rewrite Hy in Hd'. injection Hd as ->. injection Hd' as ->.
  destruct Hb as [? ?], Hb' as [? ?]. rewrite (dec_leb_at REF_SCALE) in Hle by done.
  rewrite (dec_leb_at UNIT) by lia. fold (units d) (units d'). rewrite Hxu, Hyu. b2p.
  apply Z.leb_le, lower_units_mono, raw_units_mono; done.
Qed.

(** ** A sequence of quotes *)

Definition trail_step (i : TradeIntentData) (q : QuoteSnapshot) (now : datetime) : res TradeIntentData :=
  let? r := evaluate_trailing_stop q i now in
  Ok (match e_baseline_updated_at r with
      | Some t => intent_with_baseline i (e_baseline r) (e_dynamic_trigger_price r) (Some t)
      | None => i
      end).

Fixpoint trail_run (i : TradeIntentData) (qs : list (QuoteSnapshot * datetime)) : res TradeIntentData :=
  match qs with
  | [] => Ok i
  | (q, now) :: qs' => let? i' := trail_step i q now in trail_run i' qs'
  end.

(** The baseline and the stop of an intent agree. *)
Definition stop_inv (i : TradeIntentData) : Prop :=
  match i_baseline i, i_dynamic_trigger_price i with
  | None, None => True
  | Some b, Some d => reference_price b /\ calculate_dynamic_trigger_price i b = Ok d
  | _, _ => False
  end.

(** The recorded value [y] is at least the value [x], when there is one. *)
Definition raised (x y : option dec) : Prop :=
  forall a, x = Some a -> exists b, y = Some b /\ a <=d b.

Lemma raised_refl x : raised x x.
Proof. intros a ->. exists a. split; [done|apply dec_leb_refl]. Qed.
Lemma raised_trans x y z : raised x y -> raised y z -> raised x z.
Proof.
  intros Hxy Hyz a Ha. destruct (Hxy a Ha) as (b & Hb & Hab). destruct (Hyz b Hb) as (c & Hc & Hbc).
  exists c. split; [done|]. by apply dec_leb_trans with b.
Qed.

Definition quote_ok (q : QuoteSnapshot) : Prop :=
  forall p, Some p ∈ price_list q -> quote_price p.

Definition quote_ok_bool (q : QuoteSnapshot) : bool :=
  forallb (fun o => match o with
    | Some p => (-6 <=? expo p) && (0 <? scaled p (-6)) && (scaled p (-6) <? 10 ^ 14)
    | None => true
    end) (price_list q).

Lemma quote_ok_b q : quote_ok_bool q = true -> quote_ok q.
Proof.
  unfold quote_ok_bool. rewrite forallb_forall. intros H p Hp.
  apply list_elem_of_In in Hp. specialize (H _ Hp). cbn in H. unfold quote_price.
  rewrite !andb_true_iff, Z.leb_le, !Z.ltb_lt in H. lia.
Qed.

Lemma quote_price_reference p : quote_price p -> reference_price p.
Proof.
  intros [He Hp]. unfold reference_price, REF_SCALE. split; [lia|].
  rewrite (scaled_lower p (-6) (-7)) by lia. change (10 ^ (-6 - -7)) with 10. lia.
Qed.

Lemma midpoint_ok b a : quote_price b -> quote_price a ->
  exists m, dec_div (dec_add b a) (Dec 2 0) = Ok m /\ reference_price m.
Proof.
  intros [Hbe Hb] [Hae Ha].
  destruct (scaled_add_at b a (-6)) as [Hs Hse]; [done..|unfold PREC; lia|].
  unfold common_expo in Hse. set (s := dec_add b a) in *.
  assert (Hc : 0 < coef s < 10 ^ 20).
  { pose proof (coef_scaled s (-6) ltac:(lia)). set (t := scaled s (-6)) in *.
    assert (0 < t) by lia. assert (t = coef s * 10 ^ (expo s - -6)) as Ht by done. clearbody t.
    assert (0 < 10 ^ (expo s - -6)) by (apply pow10_pos; lia).
    assert (0 < coef s) by nia. lia. }
  destruct (dec_div_exact s 2 5 1) as (m & Hm & Hm0 & Hme & Hmv); [done|lia|done|lia|].
  exists m. split; [done|]. unfold reference_price, REF_SCALE. split; [lia|].
  rewrite (scaled_lower m (expo s - 1) (-7)) by lia. unfold scaled at 1 2. rewrite Hmv.
  assert (scaled s (-6) = coef s * 10 ^ (expo s - 1 - -7)) by (unfold scaled; do 2 f_equal; lia).
  nia.
Qed.

Lemma reference_ok q : quote_ok q ->
  exists o, trailing_reference_price q = Ok o /\ forall r, o = Some r -> reference_price r.
Proof.
  intros Hq. assert (forall p, Some p ∈ price_list q -> quote_price p) as Hall by done.
  unfold price_list in Hall. unfold trailing_reference_price.
  destruct (last_price q) as [l|].
  { exists (Some l). split; [done|]. intros ? [= <-]. apply quote_price_reference, Hall. set_solver. }
  destruct (bid_price q) as [b|]; [|by exists None].
  destruct (ask_price q) as [a|]; [|by exists None].
  destruct (midpoint_ok b a) as (m & -> & Hm); [apply Hall; set_solver..|].
  exists (Some m). cbn. split; [done|]. by intros ? [= <-].
Qed.

(** The state part of an evaluation: the new baseline and stop. *)
Lemma trailing_state q i now reference : is_some (i_trail_mode i) && is_some (i_trail_value i) = true ->
  trailing_reference_price q = Ok reference ->
  (exists r, reference = Some r /\ (forall b, i_baseline i = Some b -> dec_ltb b r = true) /\
     forall d, calculate_dynamic_trigger_price i r = Ok d ->
       trail_step i q now = Ok (intent_with_baseline i (Some r) (Some d) (Some now))) \/
  ((forall r, reference = Some r -> exists b, i_baseline i = Some b /\ dec_ltb b r = false) /\
     trail_step i q now = Ok i).
Proof.
  intros Hm Hr. unfold trail_step, evaluate_trailing_stop. rewrite Hr.
  destruct (i_trail_mode i), (i_trail_value i); try done. cbn [rbind].
  destruct reference as [r|].
  2: { right. split; [done|]. cbn. repeat (case_match; try done). }
  destruct (i_baseline i) as [b|] eqn:Hb; [destruct (dec_ltb b r) eqn:Hlt|].
  - left. exists r. split; [done|]. split; [naive_solver|]. intros d' ->. cbn. repeat (case_match; try done).
  - right. split; [naive_solver|]. cbn. repeat (case_match; try done).
  - left. exists r. split; [done|]. split; [done|]. intros d' ->. cbn. repeat (case_match; try done).
Qed.

Definition same_trail (i j : TradeIntentData) : Prop :=
  i_trail_mode j = i_trail_mode i /\ i_trail_value j = i_trail_value i /\
  i_security_type j = i_security_type i.

Lemma same_trail_ok i j : same_trail i j -> trailing_ok i -> trailing_ok j.
Proof. intros (Hm & Hv & _) (mode & v & H1 & H2 & H3). exists mode, v. rewrite Hm, Hv. done. Qed.

Lemma trail_step_spec q i now : trailing_ok i -> stop_inv i -> quote_ok q ->
  exists i', trail_step i q now = Ok i' /\ stop_inv i' /\ same_trail i i' /\
    raised (i_baseline i) (i_baseline i') /\
    raised (i_dynamic_trigger_price i) (i_dynamic_trigger_price i') /\
    (forall r, trailing_reference_price q = Ok (Some r) -> raised (Some r) (i_baseline i')) /\
    (i_baseline i' = i_baseline i \/ exists r, trailing_reference_price q = Ok (Some r) /\ i_baseline i' = Some r).
Proof.
  intros Hok Hinv Hq. destruct (reference_ok q Hq) as (o & Ho & Hro).
  pose proof Hok as (mode & v & Hm & Hv & Hmv).
  destruct (trailing_state q i now o) as [(r & -> & Hlt & Hstep)|[Hge Hstep]];
    [by rewrite Hm, Hv|done|..].
  - specialize (Hro r eq_refl). destruct (calculate_units i mode v r) as (d & Hd & _); [done..|].
    eexists. split; [by apply Hstep|]. cbn.
    split; [by split|]. split; [done|]. unfold stop_inv in Hinv.
    split; [|split; [|split; [|by right; exists r]]].
    + intros b Hb. exists r. split; [done|]. by apply dec_ltb_le, Hlt.
    + intros d0 Hd0. rewrite Hd0 in Hinv. destruct (i_baseline i) as [b|]; [|done].
      destruct Hinv as [Hbr Hbd]. exists d. split; [done|].
      apply (calculate_mono i b r); [done..|by apply dec_ltb_le, Hlt|done|done].
    + intros r' Hr'. rewrite Ho in Hr'. injection Hr' as <-. apply raised_refl.
  - exists i. split; [done|]. split; [done|]. split; [done|].
    split; [apply raised_refl|]. split; [apply raised_refl|]. split; [|by left].
    intros r Hr. rewrite Ho in Hr. simplify_eq. destruct (Hge r eq_refl) as (b & Hb & Hlt).
    intros ? [= <-]. exists b. split; [done|]. rewrite dec_ltb_leb in Hlt. by apply negb_false_iff in Hlt.
Qed.

(** C24. The trailing stop only ratchets up: over any sequence of well-formed
    quotes the evaluation never fails, the baseline ends at the highest
    reference price seen (or stays), the dynamic trigger price is always the
    one computed from the current baseline, and neither ever falls. *)
Theorem trailing_stop_ratchets (i : TradeIntentData) (qs : list (QuoteSnapshot * datetime))
    (Hok : trailing_ok i) (Hinv : stop_inv i) (Hqs : Forall (fun q => quote_ok (fst q)) qs) :
  exists i', trail_run i qs = Ok i' /\ stop_inv i' /\
    raised (i_baseline i) (i_baseline i') /\
    raised (i_dynamic_trigger_price i) (i_dynamic_trigger_price i') /\
    (forall q now r, (q, now) ∈ qs -> trailing_reference_price q = Ok (Some r) ->
       raised (Some r) (i_baseline i')) /\
    (i_baseline i' = i_baseline i \/
     exists q now r, (q, now) ∈ qs /\ trailing_reference_price q = Ok (Some r) /\ i_baseline i' = Some r).
Proof.
  revert i Hok Hinv. induction Hqs as [|[q now] qs Hq _ IH]; intros i Hok Hinv; cbn [trail_run].
  { exists i. repeat split; try done; try apply raised_refl; [|by left]. set_solver. }
  destruct (trail_step_spec q i now Hok Hinv Hq) as (j & -> & Hj & Hsame & Hb & Hd & Hcov & Hfrom).
  cbn [rbind]. destruct (IH j) as (k & Hrun & Hk & Hb' & Hd' & Hcov' & Hfrom');
    [by apply same_trail_ok with i|done|].
  exists k. split; [done|]. split; [done|].
  split; [by apply raised_trans with (i_baseline j)|].
  split; [by apply raised_trans with (i_dynamic_trigger_price j)|]. split.
  - intros q' now' r [[= -> ->]|Hin]%elem_of_cons Hr; [|by apply (Hcov' q' now')].
    apply raised_trans with (i_baseline j); [by apply Hcov|done].
  - destruct Hfrom' as [Hkj|(q' & now' & r & Hin & Hr)]; [|right; exists q', now', r; set_solver].
    destruct Hfrom as [Hji|(r & Hr & Hjr)]; [left; congruence|].
    right. exists q, now, r. rewrite Hkj. set_solver.
Qed.

Lemma trailing_stop_ratchets_witness :
  let i := sample_intent "trailing_stop_alert" None (Some "percentage") (Some (Dec 5 0)) None None in
  let t := combine_taipei 20601 (mk_time 10 0) in
  let qs := [(sample_quote None None (Some (Dec 600 0)), t);
             (sample_quote (Some (Dec 6400 (-1))) (Some (Dec 64050 (-2))) None, t);
             (sample_quote None None (Some (Dec 620 0)), t)] in
  exists i', trail_run i qs = Ok i' /\ i_dynamic_trigger_price i' = Some (Dec 608 0).
Proof.
  intros i t qs.
  destruct (trailing_stop_ratchets i qs) as (i' & Hrun & _).
  - exists "percentage", (Dec 5 0). repeat split; try (vm_compute; done). left. split; [done|vm_compute; done].
  - done.
  - repeat apply Forall_cons_2; [..|by apply Forall_nil_2];
      apply quote_ok_b; vm_compute; reflexivity.
  - exists i'. split; [done|]. vm_compute in Hrun. injection Hrun as <-. vm_compute. reflexivity.
Defined.
