(* ===== verification/Twap.v ===== *)
(** * TWAP planning

    [src/app/domain/twap.py]: the plan of a time-weighted order, its slices and
    the checks that precede it. *)

From Stdlib Require Import Sorted.
From S2P Require Import Prelude Decimal Datetime Errors TradingSession.

#[local] Open Scope string_scope.
#[local] Open Scope list_scope.
#[local] Open Scope Z_scope.

Definition TWAP_MIN_QUANTITY_LOTS : Z := 2.
Definition TWAP_MAX_QUANTITY_LOTS : Z := 1000.
Definition TWAP_MIN_INTERVAL_SECONDS : Z := 1.
Definition TWAP_MAX_INTERVAL_SECONDS : Z := 3600.
Definition TWAP_MIN_MATERIALIZED_SLICES : Z := 2.
Definition TWAP_MAX_MATERIALIZED_SLICES : Z := 200.
Definition SESSION_START_TIME : time := mk_time 9 0.
Definition TWAP_LATEST_START_TIME : time := mk_time 13 20.
Definition TWAP_LATEST_END_TIME : time := mk_time 13 25.

Record TwapSlicePlan : Type := mkSlice {
  sequence_no : Z;
  scheduled_at : datetime;
  planned_quantity_lots : Z;
}.

Record TwapPlan : Type := mkPlan {
  position_side : string;
  trading_phase : TradingDayPhase;
  trading_date : date;
  requested_start_time : time;
  start_at : datetime;
  requested_end_time : time;
  end_at : datetime;
  interval_seconds : Z;
  target_quantity_lots : Z;
  available_slice_count : Z;
  materialized_slice_count : Z;
  slices : list TwapSlicePlan;
}.

(** [_ceil_to_second] *)
Definition ceil_to_second (dt : datetime) : datetime :=
  let micro := dt_us dt mod SECOND in
  if micro =? 0 then dt else dt_add dt (SECOND - micro).

(** The loop of [_allocate_slices]: [todo] slices remain, the next has index
    [index].  [-(-q // n)] is the ceiling of [q / n]. *)
Fixpoint allocate_from (start : datetime) (interval : Z) (todo : nat) (index remaining : Z)
  : list TwapSlicePlan :=
  match todo with
  | O => []
  | S todo' =>
      let planned := - (- remaining / Z.of_nat todo) in
      mkSlice (index + 1) (dt_add start (interval * index * SECOND)) planned
        :: allocate_from start interval todo' (index + 1) (remaining - planned)
  end.

(** [_allocate_slices] *)
Definition allocate_slices (start : datetime) (interval target count : Z) : list TwapSlicePlan :=
  allocate_from start interval (Z.to_nat count) 0 target.

Definition time_before (t : option time) (b : time) : bool :=
  match t with Some s => s <? b | None => false end.
Definition time_after (t : option time) (b : time) : bool :=
  match t with Some s => b <? s | None => false end.

(** The trading date and the start of the plan. *)
Definition twap_window (start_time : option time) (now : datetime) (phase : TradingDayPhase)
  : date * datetime :=
  let now_taipei := astimezone_taipei now in
  let today := dt_date now_taipei in
  match phase with
  | PRE_MARKET => (today, combine_taipei today (default SESSION_START_TIME start_time))
  | REGULAR_SESSION =>
      (today, match start_time with
              | Some s => combine_taipei today s
              | None => ceil_to_second now_taipei
              end)
  | POST_MARKET =>
      let d := next_trading_day today in (d, combine_taipei d (default SESSION_START_TIME start_time))
  end.

(** [build_twap_plan] *)
Definition build_twap_plan (side : string) (quantity interval : Z) (start_time : option time)
    (end_time : time) (now : datetime) : res TwapPlan :=
  if (interval <? TWAP_MIN_INTERVAL_SECONDS) || (TWAP_MAX_INTERVAL_SECONDS <? interval) then
    Raise (TwapInvalidIntervalError interval)
  else if (quantity <? TWAP_MIN_QUANTITY_LOTS) || (TWAP_MAX_QUANTITY_LOTS <? quantity) then
    Raise (TwapInvalidQuantityError quantity)
  else if time_before start_time SESSION_START_TIME || time_after start_time TWAP_LATEST_START_TIME then
    Raise (TwapStartTimeOutsideSessionError (default 0 start_time))
  else if (end_time <? SESSION_START_TIME) || (TWAP_LATEST_END_TIME <? end_time) then
    Raise (TwapEndTimeOutsideSessionError end_time)
  else if time_after start_time end_time then
    Raise (TwapStartTimeAfterEndTimeError (default 0 start_time) end_time)
  else
    let? phase := get_trading_day_phase (astimezone_taipei now) in
    let '(d, start) := twap_window start_time now phase in
    let requested := default (dt_time start) start_time in
    let fin := combine_taipei d end_time in
    let late := dt_us fin <? dt_us start in
    if bool_decide (phase = REGULAR_SESSION) && late then
      Raise (TwapEndTimeAlreadyPassedError fin (astimezone_taipei now))
    else if late then Raise (TwapInsufficientSlicesError 0 0)
    else
      let available := (dt_us fin - dt_us start) / (interval * SECOND) + 1 in
      let count := Z.min available quantity in
      if count <? TWAP_MIN_MATERIALIZED_SLICES then Raise (TwapInsufficientSlicesError available count)
      else if TWAP_MAX_MATERIALIZED_SLICES <? count then Raise (TwapTooManySlicesError count)
      else
        Ok (mkPlan side phase d requested start end_time fin interval quantity available count
              (allocate_slices start interval quantity count)).

(** ** The allocation *)

Definition total_lots (l : list TwapSlicePlan) : Z := foldr (fun s acc => planned_quantity_lots s + acc) 0 l.

(** One step: the ceiling is between the floor and the floor plus one, and
    what is left needs the same floor. *)
Lemma ceil_step r n lo : 0 < n -> n * lo <= r <= n * (lo + 1) ->
  let c := - (- r / n) in
  lo <= c <= lo + 1 /\ r <= n * c /\
  ((c = lo /\ r = n * lo) \/ (n - 1) * lo <= r - c <= (n - 1) * (lo + 1)).
Proof.
  intros Hn Hr c. unfold c.
  pose proof (Z.div_mod (- r) n ltac:(lia)). pose proof (Z.mod_pos_bound (- r) n Hn).
  set (q := - r / n) in *. clearbody q.
  assert (lo <= - q <= lo + 1) by nia. split; [done|]. split; [lia|].
  assert (- q = lo \/ - q = lo + 1) as [Hq|Hq] by lia; rewrite Hq; [left|right]; nia.
Qed.

Lemma allocate_from_spec start iv todo index r lo :
  Z.of_nat todo * lo <= r <= Z.of_nat todo * (lo + 1) -> (todo = O -> r = 0) ->
  let l := allocate_from start iv todo index r in
  length l = todo /\ total_lots l = r /\
  Forall (fun s => lo <= planned_quantity_lots s <= lo + 1) l /\
  (forall k s, l !! k = Some s -> sequence_no s = index + Z.of_nat k + 1 /\
     scheduled_at s = dt_add start (iv * (index + Z.of_nat k) * SECOND)) /\
  (r = Z.of_nat todo * lo -> Forall (fun s => planned_quantity_lots s = lo) l) /\
  StronglySorted (fun a b => planned_quantity_lots b <= planned_quantity_lots a) l.
Proof.
  revert index r. induction todo as [|todo IH]; intros index r Hr Hz.
  { cbn. split; [done|]. split; [by rewrite Hz|]. repeat split; try constructor. all: by rewrite lookup_nil in H. }
  intros l. unfold l. cbn [allocate_from]. clear l Hz.
  destruct (ceil_step r (Z.of_nat (S todo)) lo) as (Hc & Hrc & Hrest); [lia|done|].
  set (c := - (- r / Z.of_nat (S todo))) in *. clearbody c.
  assert (Hb : Z.of_nat todo * lo <= r - c <= Z.of_nat todo * (lo + 1)) by lia.
  destruct (IH (index + 1) (r - c) Hb) as (IH1 & IH2 & IH3 & IH4 & IH5 & IH6).
  { intros ->. assert (r <= c) by lia. nia. }
  set (l := allocate_from start iv todo (index + 1) (r - c)) in *. clearbody l.
  split; [cbn; by rewrite IH1|]. split; [cbn; fold (total_lots l); lia|].
  split; [by constructor|]. split; [|split].
  - intros [|k] s Hk; cbn in Hk.
    + injection Hk as <-. cbn [sequence_no scheduled_at]. split; [lia|do 2 f_equal; lia].
    + destruct (IH4 k s Hk) as [-> ->]. split; [lia|]. do 2 f_equal. lia.
  - intros Heq. assert (c = lo) by nia. constructor; [done|]. apply IH5. lia.
  - constructor; [done|]. cbn [planned_quantity_lots].
    destruct (decide (c = lo)) as [->|].
    + assert (r - lo = Z.of_nat todo * lo) as Heq by lia.
      eapply Forall_impl; [by apply IH5|]. cbn. intros a ->. done.
    + eapply Forall_impl; [exact IH3|]. cbn. intros a ?. lia.
Qed.

Lemma allocate_slices_spec (start : datetime) (interval target count : Z)
    (Hc : 0 < count) (Ht : 0 <= target) :
  let l := allocate_slices start interval target count in
  Z.of_nat (length l) = count /\ total_lots l = target /\
  Forall (fun s => target / count <= planned_quantity_lots s <= target / count + 1) l /\
  (count <= target -> Forall (fun s => 1 <= planned_quantity_lots s) l) /\
  (forall k s, l !! k = Some s -> sequence_no s = Z.of_nat k + 1 /\
     scheduled_at s = dt_add start (interval * Z.of_nat k * SECOND)) /\
  StronglySorted (fun a b => planned_quantity_lots b <= planned_quantity_lots a) l.
Proof.
  intros l. pose proof (Z.div_mod target count ltac:(lia)). pose proof (Z.mod_pos_bound target count Hc).
  destruct (allocate_from_spec start interval (Z.to_nat count) 0 target (target / count)) as
    (H1 & H2 & H3 & H4 & _ & H5); [lia|lia|].
  fold (allocate_slices start interval target count) in H1, H2, H3, H4, H5. fold l in H1, H2, H3, H4, H5.
  split; [lia|]. split; [done|]. split; [done|]. split; [|split; [|done]].
  - intros Hle. assert (1 <= target / count) by (apply Z.div_le_lower_bound; lia).
    eapply Forall_impl; [exact H3|]. cbn. intros a ?. lia.
  - intros k s Hk. apply H4 in Hk as [-> ->]. split; [lia|]. do 2 f_equal; lia.
Qed.

(** Slice allocation: [count] slices numbered from 1, scheduled one
    interval apart from the start, that add up to the target exactly; each
    slice is the target divided by the count rounded down or up (so at least
    one lot when the count does not exceed the target) and the larger slices
    come first. *)
Theorem allocate_slices_fair (start : datetime) (interval target count : Z)
    (Hc : 0 < count) (Ht : 0 <= target) :
  let l := allocate_slices start interval target count in
  Z.of_nat (length l) = count /\ total_lots l = target /\
  Forall (fun s => target / count <= planned_quantity_lots s <= target / count + 1) l /\
  (count <= target -> Forall (fun s => 1 <= planned_quantity_lots s) l) /\
  (forall k s, l !! k = Some s -> sequence_no s = Z.of_nat k + 1 /\
     scheduled_at s = dt_add start (interval * Z.of_nat k * SECOND)) /\
  StronglySorted (fun a b => planned_quantity_lots b <= planned_quantity_lots a) l.
Proof. by apply allocate_slices_spec. Qed.

Lemma allocate_slices_fair_witness :
  let l := allocate_slices (combine_taipei 20601 (mk_time 9 0)) 60 10 4 in
  total_lots l = 10 /\ planned_quantity_lots <$> l = [3; 3; 2; 2].
Proof.
  split; [|vm_compute; reflexivity].
  exact (proj1 (proj2 (allocate_slices_fair (combine_taipei 20601 (mk_time 9 0)) 60 10 4
    ltac:(lia) ltac:(lia)))).
Defined.

(** ** The plan *)

(** A moment between the opening and the latest end of a trading day [d] is in
    its regular session. *)
Lemma window_in_session d x end_time : is_trading_day d = true -> end_time <= TWAP_LATEST_END_TIME ->
  d * DAY + SESSION_START_TIME <= wall (astimezone_taipei x) <= d * DAY + end_time ->
  in_session x = true /\ taipei_date x = d.
Proof.
  intros Hd He Hx. unfold in_session, taipei_date, taipei_time, dt_date, dt_time.
  assert (HD : SESSION_START_TIME = SESSION_START /\ 0 <= SESSION_START /\
    TWAP_LATEST_END_TIME < SESSION_END /\ SESSION_END < DAY) by done.
  set (w := wall (astimezone_taipei x)) in *. clearbody w.
  assert (w / DAY = d /\ w mod DAY = w - d * DAY) as [-> ->].
  { assert (w / DAY = d) as Hw by (symmetry; apply Z.div_unique with (w - d * DAY); lia).
    split; [done|]. pose proof (Z.div_mod w DAY ltac:(lia)). rewrite Hw in *. lia. }
  rewrite Hd. split; [|done]. cbn. apply andb_true_iff. rewrite Z.leb_le, Z.ltb_lt. lia.
Qed.

Lemma ceil_to_second_spec dt : dt_us dt <= dt_us (ceil_to_second dt) < dt_us dt + SECOND /\
  dt_us (ceil_to_second dt) mod SECOND = 0 /\ dt_off (ceil_to_second dt) = dt_off dt.
Proof.
  unfold ceil_to_second. assert (HS : 0 < SECOND) by done.
  pose proof (Z.mod_pos_bound (dt_us dt) SECOND HS). pose proof (Z.div_mod (dt_us dt) SECOND ltac:(lia)).
  case_match eqn:Hm; b2p; [repeat split; lia|]. cbn [dt_add dt_us dt_off].
  split; [lia|]. split; [|done].
  replace (dt_us dt + (SECOND - dt_us dt mod SECOND)) with ((dt_us dt / SECOND + 1) * SECOND) by lia.
  apply Z.mod_mul. lia.
Qed.

Lemma twap_window_spec start_time now ph d start :
  get_trading_day_phase (astimezone_taipei now) = Ok ph -> twap_window start_time now ph = (d, start) ->
  time_before start_time SESSION_START_TIME = false ->
  is_trading_day d = true /\ d * DAY + SESSION_START_TIME <= wall (astimezone_taipei start) /\
  (start_time = None -> dt_us now <= dt_us start) /\ taipei_date now <= d /\
  (forall s, start_time = Some s -> start = combine_taipei d s).
Proof.
  intros Hph Hw Hs.
  destruct (phase_aware (astimezone_taipei now) ltac:(done)) as (ph' & Hph' & Hreg & Hpost).
  rewrite Hph' in Hph. injection Hph as ->.
  change (taipei_date (astimezone_taipei now)) with (taipei_date now) in Hpost.
  change (taipei_time (astimezone_taipei now)) with (taipei_time now) in Hpost.
  change (in_session (astimezone_taipei now)) with (in_session now) in Hreg.
  pose proof (wall_split (astimezone_taipei now)) as Hnow.
  pose proof (dt_time_bounds (astimezone_taipei now)) as Hbd.
  fold (taipei_date now) (taipei_time now) in Hnow, Hbd.
  assert (Hcomb : forall d' t, wall (astimezone_taipei (combine_taipei d' t)) = d' * DAY + t)
    by (intros; rewrite <-wall_combine; done).
  assert (Hdef : SESSION_START_TIME <= default SESSION_START_TIME start_time).
  { destruct start_time as [s|]; cbn in *; b2p; lia. }
  assert (HS : SESSION_START_TIME = SESSION_START) by done.
  rewrite wall_taipei in Hnow.
  destruct ph; cbn [twap_window] in Hw; injection Hw as <- <-.
  - assert (Ho : is_trading_day (taipei_date now) && (taipei_time now <? SESSION_END) = true).
    { destruct (_ && _); [done|]. by assert (PRE_MARKET = POST_MARKET) by by apply Hpost. }
    apply andb_true_iff in Ho as [Htd Hlt]. fold (taipei_date now).
    split; [done|]. rewrite Hcomb. split; [lia|]. split; [|split; [lia|by intros s ->]].
    intros ->. cbn. destruct (Z.le_gt_cases SESSION_START (taipei_time now)); [|b2p; lia].
    assert (in_session now = true) as Hin.
    { unfold in_session. rewrite Htd, Hlt. by rewrite (proj2 (Z.leb_le _ _)). }
    by apply Hreg in Hin.
  - assert (Hin : in_session now = true) by by apply Hreg.
    unfold in_session in Hin. b2p. fold (taipei_date now). split; [done|].
    destruct start_time as [s|].
    + rewrite Hcomb. cbn in Hdef. split; [lia|]. split; [done|]. split; [lia|by intros ? [= <-]].
    + destruct (ceil_to_second_spec (astimezone_taipei now)) as (Hc & _). cbn [astimezone_taipei dt_us] in Hc.
      rewrite wall_taipei. split; [lia|]. split; [lia|]. split; [lia|done].
  - fold (taipei_date now) in *. unfold next_trading_day.
    destruct (next_weekday_opt_spec (taipei_date now)) as (_ & Htd & Hlt & _).
    split; [done|]. rewrite Hcomb. split; [lia|]. split; [|split; [lia|by intros s ->]].
    intros ->. pose proof (Hcomb (next_weekday (taipei_date now)) (default SESSION_START_TIME None)) as Hw.
    rewrite wall_taipei in Hw. assert (0 < DAY /\ 0 < SESSION_START_TIME) by done.
    assert ((taipei_date now + 1) * DAY <= next_weekday (taipei_date now) * DAY) by nia. lia.
Qed.

(** The requests that get a plan: parameters in range, and between 2 and 200
    slices that fit before the end time. *)
Definition fits (start : datetime) (fin : datetime) (interval : Z) : Z :=
  (dt_us fin - dt_us start) / (interval * SECOND) + 1.

Definition twap_admissible (quantity interval : Z) (start_time : option time) (end_time : time)
    (start fin : datetime) : Prop :=
  1 <= interval <= 3600 /\ 2 <= quantity <= 1000 /\
  match start_time with Some s => mk_time 9 0 <= s <= mk_time 13 20 | None => True end /\
  mk_time 9 0 <= end_time <= mk_time 13 25 /\
  2 <= fits start fin interval /\ Z.min (fits start fin interval) quantity <= 200.

#[export] Instance twap_admissible_dec quantity interval start_time end_time start fin :
  Decision (twap_admissible quantity interval start_time end_time start fin).
Proof. unfold twap_admissible. destruct start_time; apply _. Defined.

Lemma fits_ge2 start fin interval : 1 <= interval -> 2 <= fits start fin interval ->
  dt_us start + interval * SECOND <= dt_us fin.
Proof.
  intros Hi H. unfold fits in H. assert (0 < SECOND) by done.
  pose proof (Z.mul_div_le (dt_us fin - dt_us start) (interval * SECOND) ltac:(nia)). nia.
Qed.

Lemma slot_bounds start fin interval k : 1 <= interval -> 0 <= k <= fits start fin interval - 1 ->
  dt_us start <= dt_us (dt_add start (interval * k * SECOND)) <= dt_us fin.
Proof.
  intros Hi Hk. unfold fits in Hk. cbn [dt_add dt_us]. assert (0 < SECOND) by done.
  pose proof (Z.mul_div_le (dt_us fin - dt_us start) (interval * SECOND) ltac:(nia)).
  assert (interval * SECOND * k <= interval * SECOND * ((dt_us fin - dt_us start) / (interval * SECOND)))
    by (apply Z.mul_le_mono_nonneg_l; nia). nia.
Qed.

(** The checks of the code in one place. *)
Lemma build_unfold side quantity interval start_time end_time now ph d start :
  get_trading_day_phase (astimezone_taipei now) = Ok ph -> twap_window start_time now ph = (d, start) ->
  (forall s, start_time = Some s -> start = combine_taipei d s) ->
  let fin := combine_taipei d end_time in
  let count := Z.min (fits start fin interval) quantity in
  (twap_admissible quantity interval start_time end_time start fin ->
   build_twap_plan side quantity interval start_time end_time now =
     Ok (mkPlan side ph d (default (dt_time start) start_time) start end_time fin interval quantity
           (fits start fin interval) count (allocate_slices start interval quantity count))) /\
  (~ twap_admissible quantity interval start_time end_time start fin ->
   is_ok (build_twap_plan side quantity interval start_time end_time now) = false).
Proof.
  intros Hph Hw Hs fin count. unfold build_twap_plan. rewrite Hph. cbn [rbind]. rewrite Hw.
  fold fin. fold (fits start fin interval). fold count.
  unfold TWAP_MIN_INTERVAL_SECONDS, TWAP_MAX_INTERVAL_SECONDS, TWAP_MIN_QUANTITY_LOTS, TWAP_MAX_QUANTITY_LOTS,
    TWAP_MIN_MATERIALIZED_SLICES, TWAP_MAX_MATERIALIZED_SLICES.
  split.
  - intros (Hi & Hq & Hst & He & Hf & Hcnt). fold count in Hcnt.
    pose proof (fits_ge2 start fin interval ltac:(lia) Hf) as Hlate.
    assert (0 < interval * SECOND) by (assert (0 < SECOND) by done; nia).
    rewrite !(proj2 (Z.ltb_ge _ _)) by (unfold SESSION_START_TIME, TWAP_LATEST_END_TIME; lia).
    rewrite andb_false_r. cbn [orb].
    destruct start_time as [s|]; cbn [time_before time_after]; [|done].
    specialize (Hs s eq_refl).
    assert (s <= end_time).
    { rewrite Hs in Hlate. unfold fin, combine_taipei in Hlate. cbn [dt_us] in Hlate. lia. }
    rewrite !(proj2 (Z.ltb_ge _ _)) by (unfold SESSION_START_TIME, TWAP_LATEST_START_TIME; lia). done.
  - intros Hn. repeat (case_match; [done|]). exfalso. apply Hn. unfold twap_admissible. fold count.
    apply orb_false_iff in H, H0, H1, H2. destruct H, H0, H1 as [Ha Hb], H2. b2p.
    unfold SESSION_START_TIME, TWAP_LATEST_END_TIME in *.
    split; [lia|]. split; [lia|]. split.
    { destruct start_time as [s|]; [|done]. cbn in Ha, Hb. b2p. unfold SESSION_START_TIME, TWAP_LATEST_START_TIME in *. lia. }
    unfold count in *. lia.
Qed.

(** A TWAP plan is built exactly for the admissible requests (parameters
    in range and 2 to 200 slices before the end time), whatever the moment;
    all its slices lie in the regular session of one trading day, not before
    the start nor after the requested end; they are as many as fit, at most
    one per lot; and without a requested start none is in the past. *)
Theorem build_twap_plan_correct (side : string) (quantity interval : Z) (start_time : option time)
    (end_time : time) (now : datetime) :
  exists d start, let fin := combine_taipei d end_time in
    (is_ok (build_twap_plan side quantity interval start_time end_time now) = true <->
       time_before start_time SESSION_START_TIME = false /\
       twap_admissible quantity interval start_time end_time start fin) /\
    forall p, build_twap_plan side quantity interval start_time end_time now = Ok p ->
      trading_date p = d /\ start_at p = start /\ end_at p = fin /\ taipei_date now <= d /\
      materialized_slice_count p = Z.min (available_slice_count p) quantity /\
      available_slice_count p = fits start fin interval /\
      Z.of_nat (length (slices p)) = materialized_slice_count p /\
      total_lots (slices p) = quantity /\
      Forall (fun s => 1 <= planned_quantity_lots s /\ in_session (scheduled_at s) = true /\
        taipei_date (scheduled_at s) = d /\
        dt_us start <= dt_us (scheduled_at s) <= dt_us fin /\
        (start_time = None -> dt_us now <= dt_us (scheduled_at s))) (slices p).
Proof.
  destruct (phase_aware (astimezone_taipei now) ltac:(done)) as (ph & Hph & _ & _).
  destruct (twap_window start_time now ph) as [d start] eqn:Hw. exists d, start. intros fin.
  destruct (time_before start_time SESSION_START_TIME) eqn:Htb.
  { assert (is_ok (build_twap_plan side quantity interval start_time end_time now) = false) as Hno.
    { unfold build_twap_plan. rewrite Htb. cbn [orb]. repeat (case_match; [done|]). done. }
    split; [rewrite Hno; naive_solver|]. by intros p Hp; rewrite Hp in Hno. }
  destruct (twap_window_spec start_time now ph d start Hph Hw Htb) as (Htd & Hge & Hnow & Hd & Hs).
  destruct (build_unfold side quantity interval start_time end_time now ph d start Hph Hw Hs) as [Hyes Hno].
  fold fin in Hyes, Hno.
  assert (Hiff : is_ok (build_twap_plan side quantity interval start_time end_time now) = true <->
    twap_admissible quantity interval start_time end_time start fin).
  { split; [|intros Ha; by rewrite (Hyes Ha)]. intros Hok. apply dec_stable. intros Hna.
    by rewrite (Hno Hna) in Hok. }
  split; [rewrite Hiff; naive_solver|]. intros p Hp.
  assert (Ha : twap_admissible quantity interval start_time end_time start fin) by (apply Hiff; by rewrite Hp).
  rewrite (Hyes Ha) in Hp. injection Hp as <-. cbn.
  destruct Ha as (Hi & Hq & _ & He & Hf & Hcnt).
  set (f := fits start fin interval) in *. set (count := Z.min f quantity) in *.
  destruct (allocate_slices_spec start interval quantity count) as (Hlen & Hsum & _ & Hpos & Hsl & _); [lia..|].
  repeat (split; [done|]). apply Forall_forall. intros s Hin.
  pose proof (proj1 (Forall_forall _ _) (Hpos ltac:(lia)) s Hin) as H1.
  apply list_elem_of_lookup in Hin as (k & Hk). pose proof (lookup_lt_Some _ _ _ Hk) as Hkl.
  destruct (Hsl k s Hk) as [_ Hsch].
  assert (Hbound : dt_us start <= dt_us (scheduled_at s) <= dt_us fin).
  { rewrite Hsch. apply slot_bounds; [lia|]. fold f. lia. }
  destruct (window_in_session d (scheduled_at s) end_time Htd) as [Hin Hdate].
  - unfold TWAP_LATEST_END_TIME. lia.
  - assert (wall fin = d * DAY + end_time) as Hfin by apply wall_combine.
    unfold wall in Hfin. cbn [dt_off fin combine_taipei] in Hfin.
    rewrite !wall_taipei in *. unfold fin in Hfin, Hbound. lia.
  - split; [done|]. split; [done|]. split; [done|]. split; [done|].
    intros Hnone. specialize (Hnow Hnone). lia.
Qed.
