(* ===== verification/Tables.v ===== *)
(** * The tables

    The rows of [src/app/db/models/core.py], [trade_intent_core.py] and
    [auth.py] and the database as a record of tables.  A table is a finite map
    from its primary key.  A [Numeric] column holds the decimal it is given
    (its rounding to four digits is not modelled), a timestamp column a
    [datetime], and a JSON column the value it serialises. *)

From Stdlib Require Import QArith.
From S2P Require Import Prelude Decimal Datetime Json Errors Intent.

#[local] Open Scope string_scope.
#[local] Open Scope list_scope.
#[local] Open Scope Z_scope.

(** A JSON document. *)
Definition json : Type := jvalue.

(** ** Rows *)

(** [symbols], keyed by the symbol. *)
Record SymbolRow : Type := mkSymbol {
  sy_display_name : string;
  sy_market : string;
  sy_instrument_type : string;
  sy_tradable_status : string;
}.

(** [trade_intent_core] ([TradeIntentCore]), keyed by id. *)
Record CoreRow : Type := mkCore {
  c_owner_user_id : uuid;
  c_symbol : string;
  c_strategy : string;
  c_execution_mode : string;
  c_quantity_lots : Z;
  c_trigger_reference_price_type : string;
  c_trading_date : date;
  c_time_in_force : string;
  c_status : string;
  c_cancelled_at : option datetime;
  c_triggered_at : option datetime;
  c_transaction_mode : string;
  c_notification_mode : string;
  c_filled_quantity_lots : Z;
  c_last_fill_at : option datetime;
  c_dedup_key : string;
  c_created_at : datetime;
  c_updated_at : datetime;
}.

(** [trade_intent_price_params], keyed by the intent. *)
Record PriceParamsRow : Type := mkPriceParams {
  pp_target_price_original : dec;
  pp_target_price_effective : dec;
}.

(** [trade_intent_trailing_params], keyed by the intent. *)
Record TrailingParamsRow : Type := mkTrailingParams {
  tp_trail_mode : string;
  tp_trail_value : dec;
  tp_baseline : option dec;
  tp_dynamic_trigger_price : option dec;
  tp_baseline_updated_at : option datetime;
}.

(** [trade_intent_twap_params], keyed by the intent. *)
Record TwapParamsRow : Type := mkTwapParams {
  wp_position_side : string;
  wp_interval_seconds : Z;
  wp_end_time : time;
  wp_start_at : datetime;
  wp_end_at : datetime;
  wp_available_slice_count : Z;
  wp_materialized_slice_count : Z;
}.

(** [trade_intent_triggers] ([TradeIntentTrigger]) and, with the same columns,
    [trigger_events] ([TriggerEvent]) of the legacy track; the JSONB snapshot is
    the snapshot it serialises. *)
Record TriggerRow : Type := mkTrigger {
  g_trade_intent_id : uuid;
  g_owner_user_id : uuid;
  g_symbol : string;
  g_quote_snapshot : QuoteSnapshot;
  g_target_price_effective : dec;
  g_trigger_price : dec;
  g_trigger_reference_price_type : string;
  g_fallback_used : bool;
  g_filled_quantity_lots : Z;
  g_baseline_at_trigger : option dec;
  g_dynamic_trigger_price_at_trigger : option dec;
  g_triggered_at : datetime;
}.

(** [notifications] ([Notification]). *)
Record NotificationRow : Type := mkNotification {
  n_owner_user_id : uuid;
  n_trade_intent_id : option uuid;
  n_trade_intent_core_id : option uuid;
  n_type : string;
  n_rendered_title : string;
  n_rendered_body : string;
  n_read_at : option datetime;
  n_created_at : datetime;
  n_updated_at : datetime;
}.

(** [trade_intents] ([TradeIntent]), the frozen legacy track. *)
Record LegacyRow : Type := mkLegacy {
  l_owner_user_id : uuid;
  l_symbol : string;
  l_strategy : string;
  l_execution_mode : string;
  l_quantity_lots : Z;
  l_target_price_original : option dec;
  l_target_price_effective : option dec;
  l_trigger_reference_price_type : string;
  l_trading_date : date;
  l_time_in_force : string;
  l_status : string;
  l_cancelled_at : option datetime;
  l_triggered_at : option datetime;
  l_transaction_mode : string;
  l_notification_mode : string;
  l_filled_quantity_lots : Z;
  l_last_fill_at : option datetime;
  l_trail_mode : option string;
  l_trail_value : option dec;
  l_baseline : option dec;
  l_dynamic_trigger_price : option dec;
  l_baseline_updated_at : option datetime;
  l_position_side : option string;
  l_twap_interval_seconds : option Z;
  l_twap_end_time : option time;
  l_twap_start_at : option datetime;
  l_twap_end_at : option datetime;
  l_twap_available_slice_count : option Z;
  l_twap_materialized_slice_count : option Z;
  l_created_at : datetime;
  l_updated_at : datetime;
}.

(** [twap_slices] ([TwapSlice]). *)
Record SliceRow : Type := mkSliceRow {
  ts_trade_intent_id : uuid;
  ts_owner_user_id : uuid;
  ts_symbol : string;
  ts_sequence_no : Z;
  ts_scheduled_at : datetime;
  ts_planned_quantity_lots : Z;
  ts_status : string;
  ts_primary_notification_id : option uuid;
  ts_notified_at : option datetime;
  ts_primary_price_available : option bool;
  ts_primary_reference_price : option dec;
  ts_primary_reference_price_type : option string;
  ts_primary_quote_time : option datetime;
  ts_price_followup_required : bool;
  ts_price_followup_attempts : Z;
  ts_next_price_followup_at : option datetime;
  ts_price_followup_notification_id : option uuid;
  ts_price_followup_sent_at : option datetime;
  ts_created_at : datetime;
  ts_updated_at : datetime;
}.

(** [system_flags] ([SystemFlag]), keyed by the flag. *)
Record FlagRow : Type := mkFlag {
  sf_enabled : bool;
  sf_updated_by : option uuid;
  sf_updated_at : datetime;
  sf_reason : option string;
}.

(** [idempotency_keys] ([IdempotencyKey]). *)
Record IdempotencyRow : Type := mkIdempotency {
  ik_user_id : uuid;
  ik_key : string;
  ik_endpoint : string;
  ik_request_hash : string;
  ik_response_snapshot : json;
  ik_created_at : datetime;
  ik_expires_at : datetime;
}.

(** [users] ([User]). *)
Record UserRow : Type := mkUser {
  u_email : string;
  u_password_hash : option string;
  u_role : string;
  u_status : string;
  u_mfa_enabled : bool;
  u_mfa_secret_encrypted : option string;
  u_disabled_at : option datetime;
  u_created_at : datetime;
  u_updated_at : datetime;
}.

(** [invitations] ([Invitation]). *)
Record InvitationRow : Type := mkInvitation {
  inv_user_id : uuid;
  inv_token_hash : string;
  inv_expires_at : datetime;
  inv_consumed_at : option datetime;
  inv_revoked_at : option datetime;
  inv_created_by_admin_id : uuid;
}.

(** [password_resets] ([PasswordReset]). *)
Record PasswordResetRow : Type := mkPasswordReset {
  pr_user_id : uuid;
  pr_token_hash : string;
  pr_expires_at : datetime;
  pr_consumed_at : option datetime;
}.

(** [refresh_tokens] ([RefreshToken]). *)
Record RefreshTokenRow : Type := mkRefreshToken {
  rt_user_id : uuid;
  rt_token_hash : string;
  rt_parent_token_id : option uuid;
  rt_issued_at : datetime;
  rt_expires_at : datetime;
  rt_revoked_at : option datetime;
  rt_revoked_reason : option string;
  rt_mfa_verified : bool;
}.

(** [rate_limit_buckets] ([RateLimitBucket]), keyed by the bucket. *)
Record BucketRow : Type := mkBucket {
  rb_tokens : Q;
  rb_updated_at : datetime;
}.

(** [audit_events] ([AuditEvent]); the metadata is not kept. *)
Record AuditRow : Type := mkAudit {
  ae_event_type : string;
  ae_actor_type : string;
  ae_actor_id : option uuid;
  ae_occurred_at : datetime;
}.

(** [telegram_intent_interactions] ([TelegramIntentInteraction]): one draft of
    the configured chat; the payload's values are scalars, the only ones the
    program writes, and the row's own timestamps are not kept. *)
Record InteractionRow : Type := mkInteraction {
  ti_owner_user_id : uuid;
  ti_telegram_chat_id : string;
  ti_bot_message_id : option Z;
  ti_kind : string;
  ti_capability_id : string;
  ti_strategy : string;
  ti_payload : gmap string scalar;
  ti_missing_fields : list string;
  ti_clarification_attempt_count : Z;
  ti_status : string;
  ti_expires_at : datetime;
  ti_confirmed_at : option datetime;
  ti_created_trade_intent_id : option uuid;
}.

(** ** The columns an update changes *)

(** The mutable columns of a core row. *)
Definition core_set (status : string) (cancelled triggered last_fill : option datetime) (filled : Z) (updated : datetime) (r : CoreRow) : CoreRow :=
  {| c_owner_user_id := c_owner_user_id r; c_symbol := c_symbol r; c_strategy := c_strategy r;
     c_execution_mode := c_execution_mode r; c_quantity_lots := c_quantity_lots r;
     c_trigger_reference_price_type := c_trigger_reference_price_type r; c_trading_date :=
     c_trading_date r; c_time_in_force := c_time_in_force r; c_status := status; c_cancelled_at :=
     cancelled; c_triggered_at := triggered; c_transaction_mode := c_transaction_mode r;
     c_notification_mode := c_notification_mode r; c_filled_quantity_lots := filled; c_last_fill_at :=
     last_fill; c_dedup_key := c_dedup_key r; c_created_at := c_created_at r; c_updated_at := updated |}.

(** The mutable columns of a legacy row. *)
Definition legacy_set (status : string) (cancelled triggered last_fill : option datetime) (filled : Z) (updated : datetime) (r : LegacyRow) : LegacyRow :=
  {| l_owner_user_id := l_owner_user_id r; l_symbol := l_symbol r; l_strategy := l_strategy r;
     l_execution_mode := l_execution_mode r; l_quantity_lots := l_quantity_lots r;
     l_target_price_original := l_target_price_original r; l_target_price_effective :=
     l_target_price_effective r; l_trigger_reference_price_type := l_trigger_reference_price_type r;
     l_trading_date := l_trading_date r; l_time_in_force := l_time_in_force r; l_status := status;
     l_cancelled_at := cancelled; l_triggered_at := triggered; l_transaction_mode := l_transaction_mode
     r; l_notification_mode := l_notification_mode r; l_filled_quantity_lots := filled; l_last_fill_at
     := last_fill; l_trail_mode := l_trail_mode r; l_trail_value := l_trail_value r; l_baseline :=
     l_baseline r; l_dynamic_trigger_price := l_dynamic_trigger_price r; l_baseline_updated_at :=
     l_baseline_updated_at r; l_position_side := l_position_side r; l_twap_interval_seconds :=
     l_twap_interval_seconds r; l_twap_end_time := l_twap_end_time r; l_twap_start_at := l_twap_start_at
     r; l_twap_end_at := l_twap_end_at r; l_twap_available_slice_count := l_twap_available_slice_count
     r; l_twap_materialized_slice_count := l_twap_materialized_slice_count r; l_created_at :=
     l_created_at r; l_updated_at := updated |}.

(** Cancelling a slice. *)
Definition slice_cancel (updated : datetime) (r : SliceRow) : SliceRow :=
  {| ts_trade_intent_id := ts_trade_intent_id r; ts_owner_user_id := ts_owner_user_id r; ts_symbol
     := ts_symbol r; ts_sequence_no := ts_sequence_no r; ts_scheduled_at := ts_scheduled_at r;
     ts_planned_quantity_lots := ts_planned_quantity_lots r; ts_status := "cancelled";
     ts_primary_notification_id := ts_primary_notification_id r; ts_notified_at := ts_notified_at r;
     ts_primary_price_available := ts_primary_price_available r; ts_primary_reference_price :=
     ts_primary_reference_price r; ts_primary_reference_price_type :=
     ts_primary_reference_price_type r; ts_primary_quote_time := ts_primary_quote_time r;
     ts_price_followup_required := false; ts_price_followup_attempts := ts_price_followup_attempts
     r; ts_next_price_followup_at := None; ts_price_followup_notification_id :=
     ts_price_followup_notification_id r; ts_price_followup_sent_at := ts_price_followup_sent_at r;
     ts_created_at := ts_created_at r; ts_updated_at := updated |}.

(** Giving up the price follow-up of a slice. *)
Definition slice_no_followup (updated : datetime) (r : SliceRow) : SliceRow :=
  {| ts_trade_intent_id := ts_trade_intent_id r; ts_owner_user_id := ts_owner_user_id r; ts_symbol
     := ts_symbol r; ts_sequence_no := ts_sequence_no r; ts_scheduled_at := ts_scheduled_at r;
     ts_planned_quantity_lots := ts_planned_quantity_lots r; ts_status := ts_status r;
     ts_primary_notification_id := ts_primary_notification_id r; ts_notified_at := ts_notified_at r;
     ts_primary_price_available := ts_primary_price_available r; ts_primary_reference_price :=
     ts_primary_reference_price r; ts_primary_reference_price_type :=
     ts_primary_reference_price_type r; ts_primary_quote_time := ts_primary_quote_time r;
     ts_price_followup_required := false; ts_price_followup_attempts := ts_price_followup_attempts
     r; ts_next_price_followup_at := None; ts_price_followup_notification_id :=
     ts_price_followup_notification_id r; ts_price_followup_sent_at := ts_price_followup_sent_at r;
     ts_created_at := ts_created_at r; ts_updated_at := updated |}.

(** A slice whose notification went out, with the price it quoted. *)
Definition slice_notified (notification : uuid) (price : option dec) (price_type : option string) (quote : option datetime)
    (next : option datetime) (now : datetime) (r : SliceRow) : SliceRow :=
  {| ts_trade_intent_id := ts_trade_intent_id r; ts_owner_user_id := ts_owner_user_id r; ts_symbol
     := ts_symbol r; ts_sequence_no := ts_sequence_no r; ts_scheduled_at := ts_scheduled_at r;
     ts_planned_quantity_lots := ts_planned_quantity_lots r; ts_status := "notified";
     ts_primary_notification_id := Some notification; ts_notified_at := Some now;
     ts_primary_price_available := Some (match price with Some _ => true | None => false end);
     ts_primary_reference_price := price; ts_primary_reference_price_type := price_type;
     ts_primary_quote_time := quote; ts_price_followup_required := match price with Some _ => false
     | None => true end; ts_price_followup_attempts := ts_price_followup_attempts r;
     ts_next_price_followup_at := next; ts_price_followup_notification_id :=
     ts_price_followup_notification_id r; ts_price_followup_sent_at := ts_price_followup_sent_at r;
     ts_created_at := ts_created_at r; ts_updated_at := now |}.

(** One more attempt to find a price. *)
Definition slice_retry (attempts : Z) (required : bool) (next : option datetime) (now : datetime) (r : SliceRow) : SliceRow :=
  {| ts_trade_intent_id := ts_trade_intent_id r; ts_owner_user_id := ts_owner_user_id r; ts_symbol
     := ts_symbol r; ts_sequence_no := ts_sequence_no r; ts_scheduled_at := ts_scheduled_at r;
     ts_planned_quantity_lots := ts_planned_quantity_lots r; ts_status := ts_status r;
     ts_primary_notification_id := ts_primary_notification_id r; ts_notified_at := ts_notified_at r;
     ts_primary_price_available := ts_primary_price_available r; ts_primary_reference_price :=
     ts_primary_reference_price r; ts_primary_reference_price_type :=
     ts_primary_reference_price_type r; ts_primary_quote_time := ts_primary_quote_time r;
     ts_price_followup_required := required; ts_price_followup_attempts := attempts;
     ts_next_price_followup_at := next; ts_price_followup_notification_id :=
     ts_price_followup_notification_id r; ts_price_followup_sent_at := ts_price_followup_sent_at r;
     ts_created_at := ts_created_at r; ts_updated_at := now |}.

(** The follow-up of a slice went out. *)
Definition slice_followed_up (attempts : Z) (notification : uuid) (now : datetime) (r : SliceRow) : SliceRow :=
  {| ts_trade_intent_id := ts_trade_intent_id r; ts_owner_user_id := ts_owner_user_id r; ts_symbol
     := ts_symbol r; ts_sequence_no := ts_sequence_no r; ts_scheduled_at := ts_scheduled_at r;
     ts_planned_quantity_lots := ts_planned_quantity_lots r; ts_status := ts_status r;
     ts_primary_notification_id := ts_primary_notification_id r; ts_notified_at := ts_notified_at r;
     ts_primary_price_available := ts_primary_price_available r; ts_primary_reference_price :=
     ts_primary_reference_price r; ts_primary_reference_price_type :=
     ts_primary_reference_price_type r; ts_primary_quote_time := ts_primary_quote_time r;
     ts_price_followup_required := false; ts_price_followup_attempts := attempts;
     ts_next_price_followup_at := None; ts_price_followup_notification_id := Some notification;
     ts_price_followup_sent_at := Some now; ts_created_at := ts_created_at r; ts_updated_at := now
     |}.

(** The trailing columns of a legacy row. *)
Definition legacy_set_baseline (baseline dynamic : option dec) (baseline_at : option datetime) (updated : datetime) (r : LegacyRow) : LegacyRow :=
  {| l_owner_user_id := l_owner_user_id r; l_symbol := l_symbol r; l_strategy := l_strategy r;
     l_execution_mode := l_execution_mode r; l_quantity_lots := l_quantity_lots r;
     l_target_price_original := l_target_price_original r; l_target_price_effective :=
     l_target_price_effective r; l_trigger_reference_price_type := l_trigger_reference_price_type r;
     l_trading_date := l_trading_date r; l_time_in_force := l_time_in_force r; l_status := l_status
     r; l_cancelled_at := l_cancelled_at r; l_triggered_at := l_triggered_at r; l_transaction_mode
     := l_transaction_mode r; l_notification_mode := l_notification_mode r; l_filled_quantity_lots
     := l_filled_quantity_lots r; l_last_fill_at := l_last_fill_at r; l_trail_mode := l_trail_mode
     r; l_trail_value := l_trail_value r; l_baseline := baseline; l_dynamic_trigger_price :=
     dynamic; l_baseline_updated_at := baseline_at; l_position_side := l_position_side r;
     l_twap_interval_seconds := l_twap_interval_seconds r; l_twap_end_time := l_twap_end_time r;
     l_twap_start_at := l_twap_start_at r; l_twap_end_at := l_twap_end_at r;
     l_twap_available_slice_count := l_twap_available_slice_count r; l_twap_materialized_slice_count
     := l_twap_materialized_slice_count r; l_created_at := l_created_at r; l_updated_at := updated
     |}.

(** A new status of a Telegram draft. *)
Definition interaction_set_status (status : string) (r : InteractionRow) : InteractionRow :=
  {| ti_owner_user_id := ti_owner_user_id r; ti_telegram_chat_id := ti_telegram_chat_id r;
     ti_bot_message_id := ti_bot_message_id r; ti_kind := ti_kind r; ti_capability_id :=
     ti_capability_id r; ti_strategy := ti_strategy r; ti_payload := ti_payload r; ti_missing_fields :=
     ti_missing_fields r; ti_clarification_attempt_count := ti_clarification_attempt_count r; ti_status
     := status; ti_expires_at := ti_expires_at r; ti_confirmed_at := ti_confirmed_at r;
     ti_created_trade_intent_id := ti_created_trade_intent_id r |}.

(** The columns a further message changes. *)
Definition interaction_set_draft (kind capability strategy : string) (payload : gmap string scalar) (missing : list string)
    (attempts : Z) (expires : datetime) (r : InteractionRow) : InteractionRow :=
  {| ti_owner_user_id := ti_owner_user_id r; ti_telegram_chat_id := ti_telegram_chat_id r;
     ti_bot_message_id := ti_bot_message_id r; ti_kind := kind; ti_capability_id := capability;
     ti_strategy := strategy; ti_payload := payload; ti_missing_fields := missing;
     ti_clarification_attempt_count := attempts; ti_status := ti_status r; ti_expires_at := expires;
     ti_confirmed_at := ti_confirmed_at r; ti_created_trade_intent_id := ti_created_trade_intent_id r |}.

(** The bot message that shows the draft. *)
Definition interaction_set_message (message_id : Z) (r : InteractionRow) : InteractionRow :=
  {| ti_owner_user_id := ti_owner_user_id r; ti_telegram_chat_id := ti_telegram_chat_id r;
     ti_bot_message_id := Some message_id; ti_kind := ti_kind r; ti_capability_id := ti_capability_id r;
     ti_strategy := ti_strategy r; ti_payload := ti_payload r; ti_missing_fields := ti_missing_fields r;
     ti_clarification_attempt_count := ti_clarification_attempt_count r; ti_status := ti_status r;
     ti_expires_at := ti_expires_at r; ti_confirmed_at := ti_confirmed_at r; ti_created_trade_intent_id
     := ti_created_trade_intent_id r |}.

(** A confirmed draft and the intent it became. *)
Definition interaction_confirm (now : datetime) (intent_id : uuid) (r : InteractionRow) : InteractionRow :=
  {| ti_owner_user_id := ti_owner_user_id r; ti_telegram_chat_id := ti_telegram_chat_id r;
     ti_bot_message_id := ti_bot_message_id r; ti_kind := ti_kind r; ti_capability_id :=
     ti_capability_id r; ti_strategy := ti_strategy r; ti_payload := ti_payload r; ti_missing_fields :=
     ti_missing_fields r; ti_clarification_attempt_count := ti_clarification_attempt_count r; ti_status
     := "confirmed"; ti_expires_at := ti_expires_at r; ti_confirmed_at := Some now;
     ti_created_trade_intent_id := Some intent_id |}.

(** Marking a notification read. *)
Definition notification_read (now : datetime) (r : NotificationRow) : NotificationRow :=
  {| n_owner_user_id := n_owner_user_id r; n_trade_intent_id := n_trade_intent_id r;
     n_trade_intent_core_id := n_trade_intent_core_id r; n_type := n_type r; n_rendered_title :=
     n_rendered_title r; n_rendered_body := n_rendered_body r; n_read_at := Some now; n_created_at :=
     n_created_at r; n_updated_at := now |}.

(** The account columns of a user. *)
Definition user_set (hash : option string) (status : string) (disabled : option datetime) (updated : datetime) (r : UserRow) : UserRow :=
  {| u_email := u_email r; u_password_hash := hash; u_role := u_role r; u_status := status;
     u_mfa_enabled := u_mfa_enabled r; u_mfa_secret_encrypted := u_mfa_secret_encrypted r; u_disabled_at
     := disabled; u_created_at := u_created_at r; u_updated_at := updated |}.

(** The second-factor columns of a user. *)
Definition user_set_mfa (enabled : bool) (secret : option string) (updated : datetime) (r : UserRow) : UserRow :=
  {| u_email := u_email r; u_password_hash := u_password_hash r; u_role := u_role r; u_status :=
     u_status r; u_mfa_enabled := enabled; u_mfa_secret_encrypted := secret; u_disabled_at :=
     u_disabled_at r; u_created_at := u_created_at r; u_updated_at := updated |}.

(** Consuming or revoking an invitation. *)
Definition invitation_set (consumed revoked : option datetime) (r : InvitationRow) : InvitationRow :=
  {| inv_user_id := inv_user_id r; inv_token_hash := inv_token_hash r; inv_expires_at := inv_expires_at
     r; inv_consumed_at := consumed; inv_revoked_at := revoked; inv_created_by_admin_id :=
     inv_created_by_admin_id r |}.

(** Consuming a password reset. *)
Definition reset_consume (now : datetime) (r : PasswordResetRow) : PasswordResetRow :=
  {| pr_user_id := pr_user_id r; pr_token_hash := pr_token_hash r; pr_expires_at := pr_expires_at r;
     pr_consumed_at := Some now |}.

(** Revoking a refresh token. *)
Definition token_revoke (now : datetime) (reason : string) (r : RefreshTokenRow) : RefreshTokenRow :=
  {| rt_user_id := rt_user_id r; rt_token_hash := rt_token_hash r; rt_parent_token_id :=
     rt_parent_token_id r; rt_issued_at := rt_issued_at r; rt_expires_at := rt_expires_at r;
     rt_revoked_at := Some now; rt_revoked_reason := Some reason; rt_mfa_verified := rt_mfa_verified r |}.

(** Recording the second factor of a session. *)
Definition token_mfa (r : RefreshTokenRow) : RefreshTokenRow :=
  {| rt_user_id := rt_user_id r; rt_token_hash := rt_token_hash r; rt_parent_token_id :=
     rt_parent_token_id r; rt_issued_at := rt_issued_at r; rt_expires_at := rt_expires_at r;
     rt_revoked_at := rt_revoked_at r; rt_revoked_reason := rt_revoked_reason r; rt_mfa_verified := true |}.

(** ** The database *)

Record db : Type := mkDb {
  symbols : gmap string SymbolRow;
  cores : gmap uuid CoreRow;
  price_params : gmap uuid PriceParamsRow;
  trailing_params : gmap uuid TrailingParamsRow;
  twap_params : gmap uuid TwapParamsRow;
  triggers : gmap uuid TriggerRow;
  notifications : gmap uuid NotificationRow;
  legacy_intents : gmap uuid LegacyRow;
  twap_slices : gmap uuid SliceRow;
  system_flags : gmap string FlagRow;
  idempotency_keys : gmap uuid IdempotencyRow;
  users : gmap uuid UserRow;
  invitations : gmap uuid InvitationRow;
  password_resets : gmap uuid PasswordResetRow;
  refresh_tokens : gmap uuid RefreshTokenRow;
  rate_buckets : gmap string BucketRow;
  audit_events : gmap uuid AuditRow;
  telegram_interactions : gmap uuid InteractionRow;
  trigger_events : gmap uuid TriggerRow;
}.

Definition empty_db : db := mkDb ∅ ∅ ∅ ∅ ∅ ∅ ∅ ∅ ∅ ∅ ∅ ∅ ∅ ∅ ∅ ∅ ∅ ∅ ∅.

Definition set_symbols (t : gmap string SymbolRow) (d : db) : db :=
  {| symbols := t; cores := cores d; price_params := price_params d; trailing_params := trailing_params
     d; twap_params := twap_params d; triggers := triggers d; notifications := notifications d;
     legacy_intents := legacy_intents d; twap_slices := twap_slices d; system_flags := system_flags d;
     idempotency_keys := idempotency_keys d; users := users d; invitations := invitations d;
     password_resets := password_resets d; refresh_tokens := refresh_tokens d; rate_buckets :=
     rate_buckets d; audit_events := audit_events d; telegram_interactions := telegram_interactions d;
     trigger_events := trigger_events d |}.
Definition set_cores (t : gmap uuid CoreRow) (d : db) : db :=
  {| symbols := symbols d; cores := t; price_params := price_params d; trailing_params :=
     trailing_params d; twap_params := twap_params d; triggers := triggers d; notifications :=
     notifications d; legacy_intents := legacy_intents d; twap_slices := twap_slices d; system_flags :=
     system_flags d; idempotency_keys := idempotency_keys d; users := users d; invitations :=
     invitations d; password_resets := password_resets d; refresh_tokens := refresh_tokens d;
     rate_buckets := rate_buckets d; audit_events := audit_events d; telegram_interactions :=
     telegram_interactions d; trigger_events := trigger_events d |}.
Definition set_price_params (t : gmap uuid PriceParamsRow) (d : db) : db :=
  {| symbols := symbols d; cores := cores d; price_params := t; trailing_params := trailing_params d;
     twap_params := twap_params d; triggers := triggers d; notifications := notifications d;
     legacy_intents := legacy_intents d; twap_slices := twap_slices d; system_flags := system_flags d;
     idempotency_keys := idempotency_keys d; users := users d; invitations := invitations d;
     password_resets := password_resets d; refresh_tokens := refresh_tokens d; rate_buckets :=
     rate_buckets d; audit_events := audit_events d; telegram_interactions := telegram_interactions d;
     trigger_events := trigger_events d |}.
Definition set_trailing_params (t : gmap uuid TrailingParamsRow) (d : db) : db :=
  {| symbols := symbols d; cores := cores d; price_params := price_params d; trailing_params := t;
     twap_params := twap_params d; triggers := triggers d; notifications := notifications d;
     legacy_intents := legacy_intents d; twap_slices := twap_slices d; system_flags := system_flags d;
     idempotency_keys := idempotency_keys d; users := users d; invitations := invitations d;
     password_resets := password_resets d; refresh_tokens := refresh_tokens d; rate_buckets :=
     rate_buckets d; audit_events := audit_events d; telegram_interactions := telegram_interactions d;
     trigger_events := trigger_events d |}.
Definition set_twap_params (t : gmap uuid TwapParamsRow) (d : db) : db :=
  {| symbols := symbols d; cores := cores d; price_params := price_params d; trailing_params :=
     trailing_params d; twap_params := t; triggers := triggers d; notifications := notifications d;
     legacy_intents := legacy_intents d; twap_slices := twap_slices d; system_flags := system_flags d;
     idempotency_keys := idempotency_keys d; users := users d; invitations := invitations d;
     password_resets := password_resets d; refresh_tokens := refresh_tokens d; rate_buckets :=
     rate_buckets d; audit_events := audit_events d; telegram_interactions := telegram_interactions d;
     trigger_events := trigger_events d |}.
Definition set_triggers (t : gmap uuid TriggerRow) (d : db) : db :=
  {| symbols := symbols d; cores := cores d; price_params := price_params d; trailing_params :=
     trailing_params d; twap_params := twap_params d; triggers := t; notifications := notifications d;
     legacy_intents := legacy_intents d; twap_slices := twap_slices d; system_flags := system_flags d;
     idempotency_keys := idempotency_keys d; users := users d; invitations := invitations d;
     password_resets := password_resets d; refresh_tokens := refresh_tokens d; rate_buckets :=
     rate_buckets d; audit_events := audit_events d; telegram_interactions := telegram_interactions d;
     trigger_events := trigger_events d |}.
Definition set_notifications (t : gmap uuid NotificationRow) (d : db) : db :=
  {| symbols := symbols d; cores := cores d; price_params := price_params d; trailing_params :=
     trailing_params d; twap_params := twap_params d; triggers := triggers d; notifications := t;
     legacy_intents := legacy_intents d; twap_slices := twap_slices d; system_flags := system_flags d;
     idempotency_keys := idempotency_keys d; users := users d; invitations := invitations d;
     password_resets := password_resets d; refresh_tokens := refresh_tokens d; rate_buckets :=
     rate_buckets d; audit_events := audit_events d; telegram_interactions := telegram_interactions d;
     trigger_events := trigger_events d |}.
Definition set_legacy_intents (t : gmap uuid LegacyRow) (d : db) : db :=
  {| symbols := symbols d; cores := cores d; price_params := price_params d; trailing_params :=
     trailing_params d; twap_params := twap_params d; triggers := triggers d; notifications :=
     notifications d; legacy_intents := t; twap_slices := twap_slices d; system_flags := system_flags d;
     idempotency_keys := idempotency_keys d; users := users d; invitations := invitations d;
     password_resets := password_resets d; refresh_tokens := refresh_tokens d; rate_buckets :=
     rate_buckets d; audit_events := audit_events d; telegram_interactions := telegram_interactions d;
     trigger_events := trigger_events d |}.
Definition set_twap_slices (t : gmap uuid SliceRow) (d : db) : db :=
  {| symbols := symbols d; cores := cores d; price_params := price_params d; trailing_params :=
     trailing_params d; twap_params := twap_params d; triggers := triggers d; notifications :=
     notifications d; legacy_intents := legacy_intents d; twap_slices := t; system_flags := system_flags
     d; idempotency_keys := idempotency_keys d; users := users d; invitations := invitations d;
     password_resets := password_resets d; refresh_tokens := refresh_tokens d; rate_buckets :=
     rate_buckets d; audit_events := audit_events d; telegram_interactions := telegram_interactions d;
     trigger_events := trigger_events d |}.
Definition set_system_flags (t : gmap string FlagRow) (d : db) : db :=
  {| symbols := symbols d; cores := cores d; price_params := price_params d; trailing_params :=
     trailing_params d; twap_params := twap_params d; triggers := triggers d; notifications :=
     notifications d; legacy_intents := legacy_intents d; twap_slices := twap_slices d; system_flags :=
     t; idempotency_keys := idempotency_keys d; users := users d; invitations := invitations d;
     password_resets := password_resets d; refresh_tokens := refresh_tokens d; rate_buckets :=
     rate_buckets d; audit_events := audit_events d; telegram_interactions := telegram_interactions d;
     trigger_events := trigger_events d |}.
Definition set_idempotency_keys (t : gmap uuid IdempotencyRow) (d : db) : db :=
  {| symbols := symbols d; cores := cores d; price_params := price_params d; trailing_params :=
     trailing_params d; twap_params := twap_params d; triggers := triggers d; notifications :=
     notifications d; legacy_intents := legacy_intents d; twap_slices := twap_slices d; system_flags :=
     system_flags d; idempotency_keys := t; users := users d; invitations := invitations d;
     password_resets := password_resets d; refresh_tokens := refresh_tokens d; rate_buckets :=
     rate_buckets d; audit_events := audit_events d; telegram_interactions := telegram_interactions d;
     trigger_events := trigger_events d |}.
Definition set_users (t : gmap uuid UserRow) (d : db) : db :=
  {| symbols := symbols d; cores := cores d; price_params := price_params d; trailing_params :=
     trailing_params d; twap_params := twap_params d; triggers := triggers d; notifications :=
     notifications d; legacy_intents := legacy_intents d; twap_slices := twap_slices d; system_flags :=
     system_flags d; idempotency_keys := idempotency_keys d; users := t; invitations := invitations d;
     password_resets := password_resets d; refresh_tokens := refresh_tokens d; rate_buckets :=
     rate_buckets d; audit_events := audit_events d; telegram_interactions := telegram_interactions d;
     trigger_events := trigger_events d |}.
Definition set_invitations (t : gmap uuid InvitationRow) (d : db) : db :=
  {| symbols := symbols d; cores := cores d; price_params := price_params d; trailing_params :=
     trailing_params d; twap_params := twap_params d; triggers := triggers d; notifications :=
     notifications d; legacy_intents := legacy_intents d; twap_slices := twap_slices d; system_flags :=
     system_flags d; idempotency_keys := idempotency_keys d; users := users d; invitations := t;
     password_resets := password_resets d; refresh_tokens := refresh_tokens d; rate_buckets :=
     rate_buckets d; audit_events := audit_events d; telegram_interactions := telegram_interactions d;
     trigger_events := trigger_events d |}.
Definition set_password_resets (t : gmap uuid PasswordResetRow) (d : db) : db :=
  {| symbols := symbols d; cores := cores d; price_params := price_params d; trailing_params :=
     trailing_params d; twap_params := twap_params d; triggers := triggers d; notifications :=
     notifications d; legacy_intents := legacy_intents d; twap_slices := twap_slices d; system_flags :=
     system_flags d; idempotency_keys := idempotency_keys d; users := users d; invitations :=
     invitations d; password_resets := t; refresh_tokens := refresh_tokens d; rate_buckets :=
     rate_buckets d; audit_events := audit_events d; telegram_interactions := telegram_interactions d;
     trigger_events := trigger_events d |}.
Definition set_refresh_tokens (t : gmap uuid RefreshTokenRow) (d : db) : db :=
  {| symbols := symbols d; cores := cores d; price_params := price_params d; trailing_params :=
     trailing_params d; twap_params := twap_params d; triggers := triggers d; notifications :=
     notifications d; legacy_intents := legacy_intents d; twap_slices := twap_slices d; system_flags :=
     system_flags d; idempotency_keys := idempotency_keys d; users := users d; invitations :=
     invitations d; password_resets := password_resets d; refresh_tokens := t; rate_buckets :=
     rate_buckets d; audit_events := audit_events d; telegram_interactions := telegram_interactions d;
     trigger_events := trigger_events d |}.
Definition set_rate_buckets (t : gmap string BucketRow) (d : db) : db :=
  {| symbols := symbols d; cores := cores d; price_params := price_params d; trailing_params :=
     trailing_params d; twap_params := twap_params d; triggers := triggers d; notifications :=
     notifications d; legacy_intents := legacy_intents d; twap_slices := twap_slices d; system_flags :=
     system_flags d; idempotency_keys := idempotency_keys d; users := users d; invitations :=
     invitations d; password_resets := password_resets d; refresh_tokens := refresh_tokens d;
     rate_buckets := t; audit_events := audit_events d; telegram_interactions := telegram_interactions
     d; trigger_events := trigger_events d |}.
Definition set_audit_events (t : gmap uuid AuditRow) (d : db) : db :=
  {| symbols := symbols d; cores := cores d; price_params := price_params d; trailing_params :=
     trailing_params d; twap_params := twap_params d; triggers := triggers d; notifications :=
     notifications d; legacy_intents := legacy_intents d; twap_slices := twap_slices d; system_flags :=
     system_flags d; idempotency_keys := idempotency_keys d; users := users d; invitations :=
     invitations d; password_resets := password_resets d; refresh_tokens := refresh_tokens d;
     rate_buckets := rate_buckets d; audit_events := t; telegram_interactions := telegram_interactions
     d; trigger_events := trigger_events d |}.
Definition set_telegram_interactions (t : gmap uuid InteractionRow) (d : db) : db :=
  {| symbols := symbols d; cores := cores d; price_params := price_params d; trailing_params :=
     trailing_params d; twap_params := twap_params d; triggers := triggers d; notifications :=
     notifications d; legacy_intents := legacy_intents d; twap_slices := twap_slices d; system_flags :=
     system_flags d; idempotency_keys := idempotency_keys d; users := users d; invitations :=
     invitations d; password_resets := password_resets d; refresh_tokens := refresh_tokens d;
     rate_buckets := rate_buckets d; audit_events := audit_events d; telegram_interactions := t;
     trigger_events := trigger_events d |}.
Definition set_trigger_events (t : gmap uuid TriggerRow) (d : db) : db :=
  {| symbols := symbols d; cores := cores d; price_params := price_params d; trailing_params :=
     trailing_params d; twap_params := twap_params d; triggers := triggers d; notifications :=
     notifications d; legacy_intents := legacy_intents d; twap_slices := twap_slices d; system_flags :=
     system_flags d; idempotency_keys := idempotency_keys d; users := users d; invitations :=
     invitations d; password_resets := password_resets d; refresh_tokens := refresh_tokens d;
     rate_buckets := rate_buckets d; audit_events := audit_events d; telegram_interactions :=
     telegram_interactions d; trigger_events := t |}.
