(* ===== verification/Store.v ===== *)
(** * Sessions

    The SQLAlchemy session the commands run in: statements see and change the
    transaction's own view ([pending]), [commit] makes it durable, [rollback]
    returns to the durable state and a savepoint ([begin_nested]) to the view
    it started from.  The session factory of [src/app/db/session.py] disables
    autoflush, so an added object is inserted at the [flush] that follows it.
    The world also holds what a transaction does not undo: the quote provider,
    the messages handed to Telegram and the supply of fresh UUIDs. *)

From S2P Require Import Prelude Decimal Datetime Errors Intent Tables.

#[local] Open Scope string_scope.
#[local] Open Scope list_scope.
#[local] Open Scope Z_scope.

(** ** SQL statements on a table *)

Section Sql.
  Context {K A : Type} `{Countable K}.
  Implicit Types (m : gmap K A) (p : K -> A -> bool).

Definition select_where p m : list (K * A) :=
  List.filter (fun x => p (fst x) (snd x)) (map_to_list m).

Definition count_where p m : Z := Z.of_nat (length (select_where p m)).

Definition update_where p (f : A -> A) m : gmap K A :=
  map_imap (fun k a => Some (if p k a then f a else a)) m.

Definition delete_where p m : gmap K A :=
  map_imap (fun k a => if p k a then None else Some a) m.

Lemma elem_of_select p m k a : (k, a) ∈ select_where p m <-> m !! k = Some a /\ p k a = true.
Proof.
  unfold select_where. rewrite list_elem_of_In, filter_In, <-list_elem_of_In, elem_of_map_to_list. done.
Qed.

Lemma select_NoDup p m : NoDup (select_where p m).*1.
Proof.
  unfold select_where. pose proof (NoDup_fst_map_to_list m) as Hnd.
  induction (map_to_list m) as [|[k a] l IH]; cbn; [constructor|].
  cbn in Hnd. apply NoDup_cons in Hnd as [Hk Hnd]. destruct (p k a); [|by apply IH].
  cbn. apply NoDup_cons. split; [|by apply IH]. intros Hin. apply Hk.
  apply list_elem_of_fmap in Hin as ([k' a'] & -> & Hin).
  apply list_elem_of_In, filter_In in Hin as [Hin _]. apply list_elem_of_fmap.
  exists (k', a'). split; [done|]. by apply list_elem_of_In.
Qed.

Lemma select_empty p m : select_where p m = [] <-> forall k a, m !! k = Some a -> p k a = false.
Proof.
  split.
  - intros He k a Hk. destruct (p k a) eqn:Hp; [|done].
    assert (Hin : (k, a) ∈ select_where p m) by by apply elem_of_select. rewrite He in Hin. set_solver.
  - intros Hn. destruct (select_where p m) as [|[k a] l] eqn:He; [done|].
    assert (Hin : (k, a) ∈ select_where p m) by (rewrite He; set_solver).
    apply elem_of_select in Hin as [Hk Hp]. rewrite (Hn k a Hk) in Hp. done.
Qed.

Lemma select_single p m i a : m !! i = Some a -> p i a = true ->
  (forall j b, m !! j = Some b -> p j b = true -> j = i) -> select_where p m = [(i, a)].
Proof.
  intros Hi Hp Hu. apply Permutation_singleton_r. symmetry. apply NoDup_Permutation.
  - apply NoDup_singleton.
  - eapply (NoDup_fmap_1 fst), select_NoDup.
  - intros [j b]. rewrite elem_of_select, list_elem_of_singleton. split; [by intros [= -> ->]|].
    intros [Hj Hpb]. pose proof (Hu j b Hj Hpb) as ->. congruence.
Qed.

(** The row of a query that selects at most one. *)
Definition at_most_one p m : Prop :=
  forall i j a b, m !! i = Some a -> m !! j = Some b -> p i a = true -> p j b = true -> i = j.
Definition one_of {B} (rows : list B) : option B := match rows with [x] => Some x | _ => None end.

Lemma one_of_Some p m i a : at_most_one p m ->
  one_of (select_where p m) = Some (i, a) <-> m !! i = Some a /\ p i a = true.
Proof.
  intros Hu. split.
  - intros Ho. apply elem_of_select. destruct (select_where p m) as [|x [|]]; cbn in Ho; [done| |done].
    injection Ho as ->. by left.
  - intros [Hi Hp]. rewrite (select_single p m i a Hi Hp); [done|]. intros j b Hj Hb. by apply (Hu j i b a).
Qed.

Lemma one_of_None p m : at_most_one p m ->
  one_of (select_where p m) = None <-> forall i a, m !! i = Some a -> p i a = false.
Proof.
  intros Hu. rewrite <-select_empty. split; [|by intros ->]. intros Ho.
  destruct (select_where p m) as [|[i a] l] eqn:Hs; [done|]. exfalso.
  assert (Hin : (i, a) ∈ select_where p m) by (rewrite Hs; by left). apply elem_of_select in Hin as [Hi Hp].
  rewrite <-Hs, (select_single p m i a Hi Hp) in Ho; [done|]. intros j b Hj Hb. by apply (Hu j i b a).
Qed.

Lemma select_short p m : at_most_one p m -> (length (select_where p m) <= 1)%nat.
Proof.
  intros Hu. destruct (select_where p m) as [|[i a] l] eqn:Hs; [cbn; lia|].
  assert (Hin : (i, a) ∈ select_where p m) by (rewrite Hs; by left). apply elem_of_select in Hin as [Hi Hp].
  rewrite <-Hs, (select_single p m i a Hi Hp); [done|]. intros j b Hj Hb. by apply (Hu j i b a).
Qed.

Lemma count_zero p m : count_where p m = 0 <-> forall k a, m !! k = Some a -> p k a = false.
Proof.
  rewrite <-select_empty. unfold count_where. split; [|by intros ->].
  destruct (select_where p m); [done|]. cbn. lia.
Qed.

Lemma count_nonneg p m : 0 <= count_where p m.
Proof. unfold count_where. lia. Qed.

Lemma lookup_update p f m k : update_where p f m !! k = (fun a => if p k a then f a else a) <$> m !! k.
Proof. unfold update_where. rewrite map_lookup_imap. by destruct (m !! k). Qed.

Lemma lookup_update_Some p f m k b : update_where p f m !! k = Some b <->
  exists a, m !! k = Some a /\ b = if p k a then f a else a.
Proof. rewrite lookup_update. destruct (m !! k); cbn; naive_solver. Qed.

Lemma update_none p f m : (forall k a, m !! k = Some a -> p k a = false) -> update_where p f m = m.
Proof.
  intros Hn. apply map_eq. intros k. rewrite lookup_update. destruct (m !! k) as [a|] eqn:Hk; [|done].
  cbn. by rewrite (Hn k a Hk).
Qed.

Lemma count_ext p q m :
  (forall k a, m !! k = Some a -> p k a = q k a) -> count_where p m = count_where q m.
Proof.
  intros Hpq. unfold count_where, select_where. do 2 f_equal.
  assert (Hin : forall x, x ∈ map_to_list m -> p x.1 x.2 = q x.1 x.2).
  { intros [k a] Hx. apply elem_of_map_to_list in Hx. by apply Hpq. }
  induction (map_to_list m) as [|x l IH]; [done|]. cbn. rewrite (Hin x) by left.
  rewrite IH; [done|]. intros y Hy. apply Hin. by right.
Qed.

Lemma update_ext p q (f g : A -> A) m :
  (forall k a, p k a = q k a) -> (forall a, f a = g a) -> update_where p f m = update_where q g m.
Proof.
  intros Hpq Hfg. apply map_eq. intros k. rewrite !lookup_update. destruct (m !! k) as [a|]; [|done].
  cbn. by rewrite Hpq, Hfg.
Qed.

(** Counting after an update. *)
Lemma count_update p q f m :
  count_where p (update_where q f m) = count_where (fun k a => p k (if q k a then f a else a)) m.
Proof.
  unfold count_where. f_equal. rewrite <-(length_fmap fst (select_where p _)), <-(length_fmap fst (select_where _ m)).
  apply Permutation_length, NoDup_Permutation; [apply select_NoDup..|]. intros k. rewrite !list_elem_of_fmap.
  split; intros ([k' a] & -> & Hin); apply elem_of_select in Hin as [Hk Hp].
  - apply lookup_update_Some in Hk as (b & Hb & ->). exists (k', b). split; [done|]. by apply elem_of_select.
  - exists (k', if q k' a then f a else a). split; [done|]. apply elem_of_select.
    split; [apply lookup_update_Some; by exists a|done].
Qed.

Lemma lookup_delete_where p m k b : delete_where p m !! k = Some b <-> m !! k = Some b /\ p k b = false.
Proof.
  unfold delete_where. rewrite map_lookup_imap. destruct (m !! k) as [a|]; cbn; [|naive_solver].
  destruct (p k a) eqn:Hp; naive_solver congruence.
Qed.

End Sql.

(** ** How a table may change *)

(** Every row is still there, evolved by [R]. *)
Definition rows_evolve {A} (R : A -> A -> Prop) (m m' : gmap uuid A) : Prop :=
  forall (i : uuid) a, m !! i = Some a -> exists b, m' !! i = Some b /\ R a b.

Section Rows.
  Context {A : Type} (R : A -> A -> Prop) `{!PreOrder R}.

Lemma rows_refl m : rows_evolve R m m.
Proof. intros i a Hi. by exists a. Qed.
Lemma rows_trans m1 m2 m3 : rows_evolve R m1 m2 -> rows_evolve R m2 m3 -> rows_evolve R m1 m3.
Proof.
  intros H12 H23 i a Hi. destruct (H12 i a Hi) as (b & Hb & Hab). destruct (H23 i b Hb) as (c & Hc & Hbc).
  exists c. split; [done|]. by transitivity b.
Qed.
Lemma rows_insert m (i : uuid) r : m !! i = None -> rows_evolve R m (<[i := r]> m).
Proof. intros Hn j a Hj. exists a. split; [|done]. rewrite lookup_insert_ne; [done|]. by intros ->; rewrite Hn in Hj. Qed.
Lemma rows_put m (i : uuid) a b : m !! i = Some a -> R a b -> rows_evolve R m (<[i := b]> m).
Proof.
  intros Hi Hab j c Hj. destruct (decide (j = i)) as [->|]; [|exists c; by rewrite lookup_insert_ne].
  rewrite Hi in Hj. injection Hj as <-. exists b. by rewrite lookup_insert_eq.
Qed.
Lemma rows_update m p f : (forall (i : uuid) a, p i a = true -> R a (f a)) -> rows_evolve R m (update_where p f m).
Proof. intros Hf i a Hi. rewrite lookup_update, Hi. cbn. eexists. split; [reflexivity|]. destruct (p i a) eqn:Hp; [by eapply Hf|done]. Qed.
End Rows.

Lemma Forall2_impl_in {A B} (P Q : A -> B -> Prop) l k :
  Forall2 P l k -> (forall x y, x ∈ l -> P x y -> Q x y) -> Forall2 Q l k.
Proof.
  induction 1 as [|x y l k Hxy _ IH]; intros Hpq; constructor; [apply Hpq; [by left|done]|].
  apply IH. intros a b Ha. apply Hpq. by right.
Qed.

(** ** The world of a command *)

(** A message handed to the Telegram sender. *)
Record message : Type := mkMessage { m_title : string; m_body : string; m_type : string }.

Record world (P : Type) : Type := mkWorld {
  durable : db;
  pending : db;
  provider : P;
  next_id : uuid;
  outbox : list message;
  app_now : datetime;
  db_now : datetime;
}.
Arguments mkWorld {P}.
Arguments durable {P}.
Arguments pending {P}.
Arguments provider {P}.
Arguments next_id {P}.
Arguments outbox {P}.
Arguments app_now {P}.
Arguments db_now {P}.

Section Session.
  Context {P : Type}.
  Implicit Types w : world P.

Definition M (A : Type) : Type := prog (world P) exn A.

Definition with_pending (d : db) w : world P :=
  mkWorld (durable w) d (provider w) (next_id w) (outbox w) (app_now w) (db_now w).
Definition with_provider (q : P) w : world P :=
  mkWorld (durable w) (pending w) q (next_id w) (outbox w) (app_now w) (db_now w).

Definition with_ids (n : Z) w : world P :=
  mkWorld (durable w) (pending w) (provider w) (next_id w + n) (outbox w) (app_now w) (db_now w).
Definition committed w : world P :=
  mkWorld (pending w) (pending w) (provider w) (next_id w) (outbox w) (app_now w) (db_now w).

(** [session.commit()] and [session.rollback()] *)
Definition commit : M unit := modify committed.
Definition rollback : M unit := modify (fun w => with_pending (durable w) w).

(** [with session.begin_nested():] around [c] *)
Definition begin_nested {A} (c : M A) : M A := fun w =>
  match c w with
  | (Ok a, w') => (Ok a, w')
  | (Raise e, w') => (Raise e, with_pending (pending w) w')
  end.

(** [uuid4()] *)
Definition uuid4 : M uuid := fun w =>
  (Ok (next_id w),
   mkWorld (durable w) (pending w) (provider w) (next_id w + 1) (outbox w) (app_now w) (db_now w)).

(** Reading and changing the transaction's view. *)
Definition query {A} (f : db -> A) : M A := gets (fun w => f (pending w)).
Definition execute (f : db -> db) : M unit := modify (fun w => with_pending (f (pending w)) w).

(** [func.now()] is the start of the transaction; [datetime.now] the host's
    clock.  Both are constant while one command runs. *)
Definition sql_now : M datetime := gets db_now.
Definition clock : M datetime := gets app_now.

(** Inserting a row at a flush: the violated constraint is raised. *)
Definition insert_checked (violation : db -> option string) (f : db -> db) : M unit :=
  do d <- query id;
  match violation d with
  | Some c => raise (IntegrityError c)
  | None => execute f
  end.

(** [dispatch_notification_to_telegram]: the sender swallows every network
    error, so all the program sees is that the message was handed over. *)
Definition send_message (msg : message) : M unit :=
  modify (fun w => mkWorld (durable w) (pending w) (provider w) (next_id w) (outbox w ++ [msg]) (app_now w) (db_now w)).

(** A command body under [try: ... except Exception: rollback; raise]. *)
Definition transaction {A} (c : M A) : M A :=
  try_except c (fun e => do_ rollback; raise e).

(** The exception handler of the account commands: a domain error is re-raised
    without a rollback (the request's session is closed afterwards), anything
    else rolls back. *)
Definition transaction_keeping {A} (keep : exn -> bool) (c : M A) : M A :=
  try_except c (fun e => if keep e then raise e else (do_ rollback; raise e)).

(** [with self._session_factory() as db:], or the session [get_db] gives to a
    request: a session of its own, closed at the end. *)
Definition with_session {A} (c : M A) : M A := fun w =>
  let '(r, w') := c (with_pending (durable w) w) in (r, with_pending (durable w') w').

(** ** What the combinators do *)

Lemma transaction_Ok {A} (c : M A) w a w' : transaction c w = (Ok a, w') <-> c w = (Ok a, w').
Proof. unfold transaction, try_except. run_prog. destruct (c w) as [[|] ?]; naive_solver. Qed.

Lemma transaction_Raise {A} (c : M A) w e w' : transaction c w = (Raise e, w') <->
  exists w1, c w = (Raise e, w1) /\ w' = with_pending (durable w1) w1.
Proof. unfold transaction, try_except. run_prog. unfold rollback. run_prog. destruct (c w) as [[|] ?]; naive_solver. Qed.

(** An error that left the durable state alone still does after the handler. *)
Lemma keep_run {A} keep (e : exn) w w1 (r : res A) w' :
  (if keep e : bool then raise e else do_ rollback; raise e) w1 = (r, w') -> durable w1 = durable w ->
  r = Raise e /\ durable w' = durable w /\ outbox w' = outbox w1 /\ provider w' = provider w1.
Proof. intros H1 Hd. destruct (keep e); revert H1; unfold bind, rollback, modify, raise; by intros [= <- <-]. Qed.

Lemma keeping_cases {A} keep (c : M A) w r w' : transaction_keeping keep c w = (r, w') ->
  exists w1, c w = (r, w1) /\ durable w' = durable w1 /\ outbox w' = outbox w1 /\ provider w' = provider w1 /\
    (is_ok r = true -> w' = w1).
Proof.
  unfold transaction_keeping, try_except. destruct (c w) as [[a|e] w1].
  - intros [= <- <-]. by exists w1.
  - unfold bind, rollback, modify, raise. destruct (keep e); intros [= <- <-]; by exists w1.
Qed.

(** Between two sessions: everything is committed. *)
Definition at_rest (d : db) w : world P :=
  mkWorld d d (provider w) (next_id w) (outbox w) (app_now w) (db_now w).

(** A request starts from the durable state. *)
Definition opening w : world P := with_pending (durable w) w.
Lemma session_cases {A} (c : M A) w r w' : with_session c w = (r, w') ->
  exists w1, c (opening w) = (r, w1) /\ durable w' = durable w1 /\ pending w' = durable w1 /\
    provider w' = provider w1 /\ next_id w' = next_id w1 /\ outbox w' = outbox w1.
Proof. unfold with_session. fold (opening w). destruct (c (opening w)) as [r1 w1]. intros [= <- <-]. by exists w1. Qed.
Lemma session_fst {A} (c : M A) w : fst (with_session c w) = fst (c (opening w)).
Proof. unfold with_session. fold (opening w). by destruct (c (opening w)). Qed.

Lemma begin_nested_Ok {A} (c : M A) w a w' : begin_nested c w = (Ok a, w') <-> c w = (Ok a, w').
Proof. unfold begin_nested. destruct (c w) as [[|] ?]; naive_solver. Qed.

Lemma begin_nested_Raise {A} (c : M A) w e w' : begin_nested c w = (Raise e, w') <->
  exists w1, c w = (Raise e, w1) /\ w' = with_pending (pending w) w1.
Proof. unfold begin_nested. destruct (c w) as [[|] ?]; naive_solver. Qed.

End Session.

Arguments M : clear implicits.

(** What a statement never changes: the durable state and the clocks. *)
Notation same_env w w' := (durable w' = durable w /\ app_now w' = app_now w /\ db_now w' = db_now w).

(** Unfold a program built from the session's primitives. *)
Ltac run_session :=
  unfold insert_checked in *; unfold commit, committed, rollback, uuid4, query, execute, sql_now, clock, send_message in *; run_prog.

(** ** Invariants of programs

    [preserves I c]: [c] started in a state of [I] ends in one, whether it
    returns or raises.  The rules below and the hint database [pres] reduce a
    command to the statements it executes. *)

Section Preserves.
  Context {P : Type} (I : world P -> Prop).

Definition preserves {A} (c : M P A) : Prop :=
  forall w r w', I w -> c w = (r, w') -> I w'.

Lemma preserves_ret {A} (a : A) : preserves (ret a).
Proof. intros w r w' Hw [= _ <-]. done. Qed.
Lemma preserves_raise {A} e : preserves (raise e : M P A).
Proof. intros w r w' Hw [= _ <-]. done. Qed.
Lemma preserves_gets {A} (f : world P -> A) : preserves (gets f).
Proof. intros w r w' Hw [= _ <-]. done. Qed.
Lemma preserves_query {A} (f : db -> A) : preserves (query f).
Proof. apply preserves_gets. Qed.
Lemma preserves_sql_now : preserves sql_now.
Proof. apply preserves_gets. Qed.
Lemma preserves_clock : preserves clock.
Proof. apply preserves_gets. Qed.
Lemma preserves_lift {A} (x : res A) : preserves (lift x).
Proof. intros w r w' Hw [= _ <-]. done. Qed.

Lemma preserves_bind {A B} (c : M P A) (k : A -> M P B) :
  preserves c -> (forall a, preserves (k a)) -> preserves (bind c k).
Proof.
  intros Hc Hk w r w' Hw. unfold bind. destruct (c w) as [[a|e] w1] eqn:Hcw.
  - intros Hkw. eapply Hk; [|exact Hkw]. by eapply Hc.
  - intros [= _ <-]. by eapply Hc.
Qed.

Lemma preserves_try {A} (c : M P A) (h : exn -> M P A) :
  preserves c -> (forall e, preserves (h e)) -> preserves (try_except c h).
Proof.
  intros Hc Hh w r w' Hw. unfold try_except. destruct (c w) as [[a|e] w1] eqn:Hcw.
  - intros [= _ <-]. by eapply Hc.
  - intros Hkw. eapply Hh; [|exact Hkw]. by eapply Hc.
Qed.

Lemma preserves_when b (c : M P unit) : preserves c -> preserves (when b c).
Proof. destruct b; [done|]. intros _. apply preserves_ret. Qed.

Lemma preserves_for_each {A} (xs : list A) (body : A -> M P unit) :
  (forall x, preserves (body x)) -> preserves (for_each xs body).
Proof.
  intros Hb. induction xs as [|x xs IH]; cbn; [apply preserves_ret|].
  apply preserves_bind; [apply Hb|intros _; exact IH].
Qed.

End Preserves.

#[export] Hint Resolve preserves_ret preserves_raise preserves_gets preserves_query preserves_sql_now
  preserves_clock preserves_lift preserves_when preserves_for_each : pres.

(** Walk through a program, splitting its branches. *)
Ltac preserve_step :=
  match goal with
  | |- preserves _ (bind _ _) => apply preserves_bind; [|intros ?]
  | |- preserves _ (try_except _ _) => apply preserves_try; [|intros ?]
  | |- preserves _ (when _ _) => apply preserves_when
  | |- preserves _ (for_each _ _) => apply preserves_for_each; intros ?
  | |- preserves _ (match ?x with _ => _ end) => destruct x eqn:?
  | |- preserves _ _ => solve [eauto with pres]
  end.
Ltac preserve := repeat preserve_step.

(** An invariant of the database, held by the durable state and by the view
    of the running transaction. *)
Section DbInvariant.
  Context {P : Type} (J : db -> Prop).

Definition both (w : world P) : Prop := J (durable w) /\ J (pending w).

Lemma both_commit : preserves both commit.
Proof. intros w r w' [Hd Hp] [= _ <-]. done. Qed.
Lemma both_rollback : preserves both rollback.
Proof. intros w r w' [Hd Hp] [= _ <-]. done. Qed.
Lemma both_uuid4 : preserves both uuid4.
Proof. intros w r w' [Hd Hp] [= _ <-]. done. Qed.
Lemma both_send msg : preserves both (send_message msg).
Proof. intros w r w' [Hd Hp] [= _ <-]. done. Qed.
Lemma both_execute f : (forall d, J d -> J (f d)) -> preserves both (execute f).
Proof. intros Hf w r w' [Hd Hp] [= _ <-]. split; [done|]. by apply Hf. Qed.
Lemma both_insert v f : (forall d, J d -> v d = None -> J (f d)) -> preserves both (insert_checked v f).
Proof.
  intros Hf w r w' [Hd Hp]. unfold insert_checked. run_session. destruct (v (id (pending w))) eqn:Hv.
  - intros [= _ <-]. done.
  - intros [= _ <-]. split; [done|]. by apply Hf.
Qed.
Lemma both_nested {A} (c : M P A) : preserves both c -> preserves both (begin_nested c).
Proof.
  intros Hc w r w' Hw. unfold begin_nested. destruct (c w) as [[a|e] w1] eqn:Hcw; intros [= _ <-].
  - by eapply Hc.
  - destruct (Hc _ _ _ Hw Hcw). destruct Hw. by split.
Qed.
Lemma both_transaction {A} (c : M P A) : preserves both c -> preserves both (transaction c).
Proof.
  intros Hc. unfold transaction. apply preserves_try; [done|]. intros e. apply preserves_bind; [apply both_rollback|].
  intros _. apply preserves_raise.
Qed.
Lemma both_keeping {A} keep (c : M P A) : preserves both c -> preserves both (transaction_keeping keep c).
Proof.
  intros Hc. unfold transaction_keeping. apply preserves_try; [done|]. intros e. destruct (keep e); [apply preserves_raise|].
  apply preserves_bind; [apply both_rollback|]. intros _. apply preserves_raise.
Qed.
End DbInvariant.

#[export] Hint Resolve both_commit both_rollback both_uuid4 both_send both_nested both_transaction both_keeping : pres.

(** A part of the view that the statements leave alone. *)
Section View.
  Context {P B : Type} (g : db -> B) (b : B).

Definition view_is (w : world P) : Prop := g (pending w) = b.

Lemma view_execute f : (forall d, g (f d) = g d) -> preserves view_is (execute f).
Proof. intros Hf w r w' Hw [= _ <-]. unfold view_is. cbn. by rewrite Hf. Qed.
Lemma view_uuid4 : preserves view_is uuid4.
Proof. intros w r w' Hw [= _ <-]. done. Qed.
Lemma view_insert v f : (forall d, g (f d) = g d) -> preserves view_is (insert_checked v f).
Proof.
  intros Hf. unfold insert_checked. apply preserves_bind; [apply preserves_query|]. intros d.
  destruct (v d); [apply preserves_raise|by apply view_execute].
Qed.
End View.

#[export] Hint Resolve view_execute view_uuid4 view_insert : pres.

(** Statements change neither the durable state, nor the clocks, nor the
    outbox, nor the provider: only [commit], the sender and provider calls do. *)
Section Statements.
  Context {P : Type} (w0 : world P).

Definition statements_since (w : world P) : Prop :=
  same_env w0 w /\ outbox w = outbox w0 /\ provider w = provider w0.

Lemma since_execute f : preserves statements_since (execute f).
Proof. intros w r w' Hw [= _ <-]. done. Qed.
Lemma since_uuid4 : preserves statements_since uuid4.
Proof. intros w r w' Hw [= _ <-]. done. Qed.
Lemma since_rollback : preserves statements_since rollback.
Proof. intros w r w' Hw [= _ <-]. done. Qed.
Lemma since_insert v f : preserves statements_since (insert_checked v f).
Proof.
  unfold insert_checked. apply preserves_bind; [apply preserves_query|]. intros d.
  destruct (v d); [apply preserves_raise|apply since_execute].
Qed.
Lemma since_start : statements_since w0.
Proof. done. Qed.
End Statements.

#[export] Hint Resolve since_execute since_uuid4 since_rollback since_insert : pres.

(** ** Programs that leave the database alone *)

Section Quiet.
  Context {P : Type}.

(** A program that leaves the database, the outbox and the UUID supply alone. *)
Definition quiet {A} (c : M P A) : Prop :=
  forall w r w', c w = (r, w') ->
    durable w' = durable w /\ pending w' = pending w /\ outbox w' = outbox w /\
    next_id w' = next_id w /\ app_now w' = app_now w /\ db_now w' = db_now w.

Lemma quiet_preserves {A} (c : M P A) J : quiet c -> preserves (both J) c.
Proof. intros Hq w r w' [Hd Hp] H1. destruct (Hq w r w' H1) as (Hd' & Hp' & _). split; congruence. Qed.

Lemma quiet_ret {A} (a : A) : quiet (ret a).
Proof. by intros w r w' [= _ <-]. Qed.
Lemma quiet_raise {A} e : quiet (raise e : M P A).
Proof. by intros w r w' [= _ <-]. Qed.
Lemma quiet_gets {A} (f : world P -> A) : quiet (gets f).
Proof. by intros w r w' [= _ <-]. Qed.
Lemma quiet_lift {A} (x : res A) : quiet (lift x).
Proof. by intros w r w' [= _ <-]. Qed.
Lemma quiet_bind {A B} (c : M P A) (k : A -> M P B) : quiet c -> (forall a, quiet (k a)) -> quiet (bind c k).
Proof.
  intros Hc Hk w r w'. unfold bind. destruct (c w) as [[a|e] w1] eqn:Hcw.
  - intros Hkw. specialize (Hc _ _ _ Hcw). specialize (Hk a _ _ _ Hkw).
    destruct Hc as (? & ? & ? & ? & ? & ?), Hk as (? & ? & ? & ? & ? & ?). repeat split; congruence.
  - intros [= _ <-]. by eapply Hc.
Qed.
Lemma quiet_try {A} (c : M P A) (h : exn -> M P A) : quiet c -> (forall e, quiet (h e)) -> quiet (try_except c h).
Proof.
  intros Hc Hh w r w'. unfold try_except. destruct (c w) as [[a|e] w1] eqn:Hcw.
  - intros [= _ <-]. by eapply Hc.
  - intros Hkw. specialize (Hc _ _ _ Hcw). specialize (Hh e _ _ _ Hkw).
    destruct Hc as (? & ? & ? & ? & ? & ?), Hh as (? & ? & ? & ? & ? & ?). repeat split; congruence.
Qed.

End Quiet.

(** ** Commands that are undone when they fail

    A program that breaks the invariant halfway is still safe inside a
    transaction or a savepoint: [safe J c] asks for the invariant of the view
    only when [c] returns. *)
Section Safe.
  Context {P : Type} (J : db -> Prop).

Definition safe {A} (c : M P A) : Prop :=
  forall w r w', both J w -> c w = (r, w') -> J (durable w') /\ (is_ok r = true -> J (pending w')).

Lemma preserves_safe {A} (c : M P A) : preserves (both J) c -> safe c.
Proof. intros Hc w r w' Hw H. by destruct (Hc w r w' Hw H). Qed.

Lemma safe_bind {A B} (c : M P A) (k : A -> M P B) : safe c -> (forall a, safe (k a)) -> safe (bind c k).
Proof.
  intros Hc Hk w r w' Hw. unfold bind. destruct (c w) as [[a|e] w1] eqn:Hcw.
  - destruct (Hc _ _ _ Hw Hcw) as [Hd Hp]. apply Hk. split; [done|]. by apply Hp.
  - intros [= <- <-]. destruct (Hc _ _ _ Hw Hcw). done.
Qed.

Lemma safe_bind_lift {A B} (x : res A) (k : A -> M P B) :
  (forall a, x = Ok a -> safe (k a)) -> safe (bind (lift x) k).
Proof.
  intros Hk w r w' Hw. unfold bind, lift. destruct x as [a|e]; [by apply Hk|].
  intros [= <- <-]. by destruct Hw.
Qed.

Lemma safe_when b (c : M P unit) : safe c -> safe (when b c).
Proof. destruct b; [done|]. intros _. apply preserves_safe, preserves_ret. Qed.

Lemma safe_nested {A} (c : M P A) : safe c -> preserves (both J) (begin_nested c).
Proof.
  intros Hc w r w' Hw. unfold begin_nested. destruct (c w) as [[a|e] w1] eqn:Hcw; intros [= _ <-];
    destruct (Hc _ _ _ Hw Hcw) as [Hd Hp]; (split; [done|]); [by apply Hp|by destruct Hw].
Qed.

Lemma safe_transaction {A} (c : M P A) : safe c -> preserves (both J) (transaction c).
Proof.
  intros Hc w r w' Hw. unfold transaction, try_except. destruct (c w) as [[a|e] w1] eqn:Hcw;
    destruct (Hc _ _ _ Hw Hcw) as [Hd Hp]; [intros [= _ <-]; split; [done|]; by apply Hp|].
  unfold rollback. run_prog. intros [= _ <-]. done.
Qed.

(** A handler that only translates the exception. *)
Lemma safe_reraise {A} (c : M P A) (h : exn -> exn) : safe c -> safe (try_except c (fun e => raise (h e))).
Proof.
  intros Hc w r w' Hw. unfold try_except. destruct (c w) as [[a|e] w1] eqn:Hcw.
  - intros [= <- <-]. by apply (Hc w (Ok a) w1).
  - intros [= <- <-]. by destruct (Hc _ _ _ Hw Hcw).
Qed.

Lemma safe_try {A} (c : M P A) (h : exn -> M P A) : preserves (both J) c -> (forall e, safe (h e)) ->
  safe (try_except c h).
Proof.
  intros Hc Hh w r w' Hw. unfold try_except. destruct (c w) as [[a|e] w1] eqn:Hcw.
  - intros [= <- <-]. by destruct (Hc _ _ _ Hw Hcw).
  - intros He. by apply (Hh e w1 r w'); [apply (Hc _ _ _ Hw Hcw)|].
Qed.

Lemma safe_for_each {A} (xs : list A) (body : A -> M P unit) :
  (forall x, safe (body x)) -> safe (for_each xs body).
Proof.
  intros Hb. induction xs as [|x xs IH]; cbn; [apply preserves_safe, preserves_ret|].
  apply safe_bind; [apply Hb|intros _; exact IH].
Qed.

End Safe.

#[export] Hint Resolve safe_nested safe_transaction : pres.

Ltac safe_step :=
  match goal with
  | |- safe _ (bind _ _) => apply safe_bind; [|intros ?]
  | |- safe _ (when _ _) => apply safe_when
  | |- safe _ (match ?x with _ => _ end) => destruct x eqn:?
  | |- safe _ _ => solve [eauto with pres]
  | |- safe _ _ => apply preserves_safe; solve [eauto with pres]
  end.
Ltac safe_prog := repeat safe_step.
