(* ===== verification/CoreSchema.v ===== *)
(** * The schema of the new intent track

    The CHECK constraints, unique indexes and foreign keys of
    [src/app/db/models/trade_intent_core.py] and of [Notification] in
    [models/core.py], as the test an INSERT runs.  [None] means that the row
    is accepted, [Some c] names the violated constraint.  PostgreSQL tests the
    CHECKs before the indexes and the foreign keys last. *)

From S2P Require Import Prelude Decimal Datetime Errors Intent Tables Store.

#[local] Open Scope string_scope.
#[local] Open Scope list_scope.
#[local] Open Scope Z_scope.

(** The first constraint whose test fails. *)
Fixpoint first_violation (tests : list (bool * string)) : option string :=
  match tests with
  | [] => None
  | (ok, name) :: rest => if ok then first_violation rest else Some name
  end.

Lemma first_violation_none tests : first_violation tests = None <-> Forall (fun t => fst t = true) tests.
Proof.
  induction tests as [|[ok name] rest IH]; cbn; [done|]. rewrite Forall_cons. cbn.
  destruct ok; naive_solver.
Qed.

Definition dec_positive (d : dec) : bool := 0 <? coef d.
Definition opt_positive (o : option dec) : bool := match o with Some d => dec_positive d | None => true end.

Definition VALID_STRATEGIES : list string :=
  ["buy_price_alert"; "sell_price_alert"; "limit_buy_order"; "limit_sell_order"; "trailing_stop_alert";
   "market_order"; "market_buy_order"; "market_sell_order"; "twap_order"].
Definition VALID_TRIGGER_REFERENCE_PRICE_TYPES : list string := ["ask"; "bid"; "last_fallback"].

(** [status IN ('scheduled', 'active')] *)
Definition is_open (status : string) : bool := str_in status CANCELLABLE_STATUSES.

(** CHECKs of [TradeIntentCore]. *)
Definition core_checks (r : CoreRow) : list (bool * string) :=
  [(str_in (c_strategy r) VALID_STRATEGIES, "strategy");
   (String.eqb (c_execution_mode r) "notify_only", "execution_mode");
   (String.eqb (c_time_in_force r) "day", "time_in_force");
   (str_in (c_status r) VALID_STATUSES, "status");
   (str_in (c_trigger_reference_price_type r) VALID_TRIGGER_REFERENCE_PRICE_TYPES, "trigger_reference_price_type");
   (0 <? c_quantity_lots r, "quantity_lots");
   (str_in (c_transaction_mode r) ["single_notification"; "partial_fill_allowed"], "transaction_mode");
   (String.eqb (c_notification_mode r) "single", "notification_mode");
   (0 <=? c_filled_quantity_lots r, "filled_quantity_lots")].

(** The columns of the two partial unique indexes. *)
Definition same_duplicate_key (a b : CoreRow) : bool :=
  if String.eqb (c_strategy a) TWAP_STRATEGY || String.eqb (c_strategy b) TWAP_STRATEGY then
    String.eqb (c_strategy a) (c_strategy b) &&
    (c_owner_user_id a =? c_owner_user_id b) && String.eqb (c_symbol a) (c_symbol b) &&
    String.eqb (c_dedup_key a) (c_dedup_key b) && (c_trading_date a =? c_trading_date b)
  else
    (c_owner_user_id a =? c_owner_user_id b) && String.eqb (c_symbol a) (c_symbol b) &&
    String.eqb (c_strategy a) (c_strategy b) && String.eqb (c_dedup_key a) (c_dedup_key b) &&
    (c_quantity_lots a =? c_quantity_lots b) && (c_trading_date a =? c_trading_date b).

(** [uq_trade_intent_core_active_duplicate] and [..._active_twap_duplicate] *)
Definition conflicts_open (r : CoreRow) (d : db) : bool :=
  is_open (c_status r) &&
  negb (count_where (fun _ x => is_open (c_status x) && same_duplicate_key r x) (cores d) =? 0).

Definition core_violation (i : uuid) (r : CoreRow) (d : db) : option string :=
  first_violation (core_checks r ++
    [(is_none (cores d !! i), "pk_trade_intent_core");
     (negb (conflicts_open r d), "uq_trade_intent_core_active_duplicate");
     (is_some (users d !! c_owner_user_id r), "fk_trade_intent_core_owner_user_id_users");
     (is_some (symbols d !! c_symbol r), "fk_trade_intent_core_symbol_symbols")]).

Definition price_violation (i : uuid) (r : PriceParamsRow) (d : db) : option string :=
  first_violation
    [(dec_positive (pp_target_price_original r), "target_price_original");
     (dec_positive (pp_target_price_effective r), "target_price_effective");
     (is_none (price_params d !! i), "pk_trade_intent_price_params");
     (is_some (cores d !! i), "fk_trade_intent_price_params_intent")].

Definition trailing_checks (r : TrailingParamsRow) : list (bool * string) :=
  [(str_in (tp_trail_mode r) ["percentage"; "fixed_amount"], "trail_mode");
   ((String.eqb (tp_trail_mode r) "percentage" && dec_positive (tp_trail_value r) &&
       dec_leb (tp_trail_value r) (Dec 10 0)) ||
    (String.eqb (tp_trail_mode r) "fixed_amount" && dec_positive (tp_trail_value r)), "trail_value_range");
   (opt_positive (tp_baseline r), "baseline_positive");
   (opt_positive (tp_dynamic_trigger_price r), "dynamic_trigger_price")].

Definition trailing_violation (i : uuid) (r : TrailingParamsRow) (d : db) : option string :=
  first_violation (trailing_checks r ++
    [(is_none (trailing_params d !! i), "pk_trade_intent_trailing_params");
     (is_some (cores d !! i), "fk_trade_intent_trailing_params_intent")]).

Definition trigger_checks (r : TriggerRow) : list (bool * string) :=
  [(str_in (g_trigger_reference_price_type r) VALID_TRIGGER_REFERENCE_PRICE_TYPES, "trigger_reference_price_type");
   ((String.eqb (g_trigger_reference_price_type r) "last_fallback" && g_fallback_used r) ||
    (str_in (g_trigger_reference_price_type r) ["ask"; "bid"] && negb (g_fallback_used r)), "fallback_consistency");
   (dec_positive (g_target_price_effective r), "target_price_effective");
   (dec_positive (g_trigger_price r), "trigger_price");
   (0 <=? g_filled_quantity_lots r, "filled_quantity_lots");
   (opt_positive (g_baseline_at_trigger r), "baseline_at_trigger");
   (opt_positive (g_dynamic_trigger_price_at_trigger r), "dynamic_trigger_price_at_trigger")].

Definition trigger_violation (i : uuid) (r : TriggerRow) (d : db) : option string :=
  first_violation (trigger_checks r ++
    [(is_none (triggers d !! i), "pk_trade_intent_triggers");
     (count_where (fun _ x => g_trade_intent_id x =? g_trade_intent_id r) (triggers d) =? 0,
        "uq_trade_intent_triggers_trade_intent_id");
     (is_some (cores d !! g_trade_intent_id r), "fk_trade_intent_triggers_intent");
     (is_some (users d !! g_owner_user_id r), "fk_trade_intent_triggers_owner");
     (is_some (symbols d !! g_symbol r), "fk_trade_intent_triggers_symbol")]).

Definition VALID_NOTIFICATION_TYPES : list string :=
  ["price_triggered"; "limit_order_triggered"; "trailing_stop_triggered"; "market_order_triggered";
   "twap_slice"; "twap_price_followup"].

(** [num_nonnulls(trade_intent_id, trade_intent_core_id) = 1] *)
Definition exactly_one {A B} (a : option A) (b : option B) : bool := xorb (is_some a) (is_some b).

Definition notification_violation (i : uuid) (r : NotificationRow) (d : db) : option string :=
  first_violation
    [(str_in (n_type r) VALID_NOTIFICATION_TYPES, "type");
     (exactly_one (n_trade_intent_id r) (n_trade_intent_core_id r), "triggered_notification_intent");
     (is_none (notifications d !! i), "pk_notifications");
     (is_some (users d !! n_owner_user_id r), "fk_notifications_owner_user_id_users");
     (match n_trade_intent_id r with Some j => is_some (legacy_intents d !! j) | None => true end,
        "fk_notifications_trade_intent_id_trade_intents");
     (match n_trade_intent_core_id r with Some j => is_some (cores d !! j) | None => true end,
        "fk_notifications_trade_intent_core_id_trade_intent_core")].

(** ** What the schema guarantees *)

(** The invariant of the track: every row passes its CHECKs, no two open
    intents share a duplicate key, a triggered intent has its one trigger
    row, and the satellites belong to stored intents. *)
Record schema_ok (d : db) : Prop := {
  core_rows_ok : forall i r, cores d !! i = Some r -> first_violation (core_checks r) = None;
  open_unique : forall i j a b, cores d !! i = Some a -> cores d !! j = Some b ->
    is_open (c_status a) = true -> is_open (c_status b) = true -> same_duplicate_key a b = true -> i = j;
  trigger_unique : forall i j a b, triggers d !! i = Some a -> triggers d !! j = Some b ->
    g_trade_intent_id a = g_trade_intent_id b -> i = j;
  trigger_intent : forall i a, triggers d !! i = Some a ->
    exists r, cores d !! g_trade_intent_id a = Some r /\ c_status r = "triggered";
  triggered_has : forall i r, cores d !! i = Some r -> c_status r = "triggered" ->
    exists j a, triggers d !! j = Some a /\ g_trade_intent_id a = i;
  satellites_owned : forall i, cores d !! i = None -> price_params d !! i = None /\ trailing_params d !! i = None;
}.

(** Statements that leave the tables of the track alone keep the invariant. *)
Lemma schema_ok_frame d d' : cores d' = cores d -> triggers d' = triggers d ->
  price_params d' = price_params d -> trailing_params d' = trailing_params d -> schema_ok d -> schema_ok d'.
Proof. intros Hc Ht Hp Hl []. split; rewrite ?Hc, ?Ht, ?Hp, ?Hl; assumption. Qed.

(** Statements on the satellites of stored intents. *)
Lemma schema_ok_satellites d d' : cores d' = cores d -> triggers d' = triggers d ->
  (forall i, cores d !! i = None -> price_params d !! i = None -> price_params d' !! i = None) ->
  (forall i, cores d !! i = None -> trailing_params d !! i = None -> trailing_params d' !! i = None) ->
  schema_ok d -> schema_ok d'.
Proof.
  intros Hc Ht Hp Hl []. split; rewrite ?Hc, ?Ht; try assumption.
  intros i Hi. destruct (satellites_owned0 i Hi). split; [by apply Hp|by apply Hl].
Qed.

(** A checked insert of a satellite finds its intent. *)
Lemma price_violation_core i r d : price_violation i r d = None -> exists c, cores d !! i = Some c.
Proof.
  intros Hv. apply first_violation_none in Hv. rewrite !Forall_cons in Hv. cbn [fst] in Hv.
  destruct Hv as (_ & _ & _ & Hc & _). destruct (cores d !! i) as [c|]; [by exists c|done].
Qed.
Lemma trailing_violation_core i r d : trailing_violation i r d = None -> exists c, cores d !! i = Some c.
Proof.
  intros Hv. unfold trailing_violation in Hv. apply first_violation_none, Forall_app in Hv as [_ Hv].
  rewrite !Forall_cons in Hv. cbn [fst] in Hv. destruct Hv as (_ & Hc & _). destruct (cores d !! i) as [c|]; [by exists c|done].
Qed.

Lemma same_duplicate_key_sym a b : same_duplicate_key a b = same_duplicate_key b a.
Proof.
  unfold same_duplicate_key. rewrite orb_comm.
  by rewrite (String.eqb_sym (c_strategy a) (c_strategy b)), (String.eqb_sym (c_symbol a)),
    (String.eqb_sym (c_dedup_key a)), (Z.eqb_sym (c_owner_user_id a)), (Z.eqb_sym (c_quantity_lots a)),
    (Z.eqb_sym (c_trading_date a)).
Qed.

(** Inserting an accepted core row. *)
Lemma insert_core_ok d i r : schema_ok d -> c_status r <> "triggered" -> core_violation i r d = None ->
  schema_ok (set_cores (<[i := r]> (cores d)) d).
Proof.
  intros Hok Hst Hv. unfold core_violation in Hv. apply first_violation_none in Hv.
  apply Forall_app in Hv as [Hch Hrest]. apply first_violation_none in Hch.
  rewrite !Forall_cons in Hrest. cbn [fst] in Hrest. destruct Hrest as (Hpk & Hconf & _).
  unfold is_none in Hpk. apply negb_true_iff in Hpk.
  assert (Hnone : cores d !! i = None) by by destruct (cores d !! i).
  assert (Hfree : forall j b, cores d !! j = Some b -> is_open (c_status r) = true ->
    is_open (c_status b) = true -> same_duplicate_key r b = false).
  { intros j b Hj Hr Hb. unfold conflicts_open in Hconf. rewrite Hr, andb_true_l in Hconf.
    rewrite negb_involutive in Hconf. apply Z.eqb_eq in Hconf. rewrite count_zero in Hconf.
    specialize (Hconf j b Hj). cbv beta in Hconf. by rewrite Hb in Hconf. }
  destruct Hok as [H1 H2 H3 H4 H5 H6]. split; cbn [cores triggers price_params trailing_params set_cores].
  - intros j x Hj. destruct (decide (j = i)) as [->|]; simplify_map_eq; [done|]. by eapply H1.
  - intros j k a b Hj Hk Ha Hb Hs. destruct (decide (j = i)) as [->|], (decide (k = i)) as [->|]; simplify_map_eq; try done.
    + by rewrite (Hfree k b) in Hs.
    + rewrite same_duplicate_key_sym, (Hfree j a) in Hs; done.
    + by eapply H2.
  - done.
  - intros j a Ha. destruct (H4 j a Ha) as (x & Hx & Hs). exists x. split; [|done].
    rewrite lookup_insert_ne; [done|congruence].
  - intros j x Hj Hs. destruct (decide (j = i)) as [->|]; simplify_map_eq. by eapply H5.
  - intros j [Hj _]%lookup_insert_None. by apply H6.
Qed.

(** An UPDATE that closes open intents, or moves them between the open
    statuses, keeps the invariant: it never opens a closed one nor touches the
    columns of the indexes. *)
Lemma update_cores_ok d p f : schema_ok d ->
  (forall i r, cores d !! i = Some r -> p i r = true ->
     first_violation (core_checks (f r)) = None /\
     (forall x, same_duplicate_key (f r) x = same_duplicate_key r x) /\
     (is_open (c_status (f r)) = true -> is_open (c_status r) = true) /\
     (c_status (f r) = "triggered" <-> c_status r = "triggered")) ->
  schema_ok (set_cores (update_where p f (cores d)) d).
Proof.
  intros [H1 H2 H3 H4 H5 H6] Hf. split; cbn [cores triggers price_params trailing_params set_cores].
  - intros i r (a & Ha & ->)%lookup_update_Some. destruct (p i a) eqn:Hp; [by apply (Hf i a)|by eapply H1].
  - intros i j ? ? (a & Ha & ->)%lookup_update_Some (b & Hb & ->)%lookup_update_Some.
    assert (Hopen : forall k x, cores d !! k = Some x -> is_open (c_status (if p k x then f x else x)) = true ->
      is_open (c_status x) = true).
    { intros k x Hk. destruct (p k x) eqn:Hp; [|done]. by apply (Hf k x). }
    assert (Hkey : forall k x y, cores d !! k = Some x ->
      same_duplicate_key (if p k x then f x else x) y = same_duplicate_key x y).
    { intros k x y Hk. destruct (p k x) eqn:Hp; [|done]. by apply (Hf k x). }
    intros Hoa Hob. rewrite Hkey, same_duplicate_key_sym, Hkey, same_duplicate_key_sym by done.
    apply (H2 i j a b Ha Hb); by eapply Hopen.
  - done.
  - intros i a Ha. destruct (H4 i a Ha) as (r & Hr & Hs). set (j := g_trade_intent_id a) in *.
    exists (if p j r then f r else r). split; [apply lookup_update_Some; by exists r|].
    destruct (p j r) eqn:Hp; [|done]. destruct (Hf _ _ Hr Hp) as (_ & _ & _ & Hi). by apply Hi.
  - intros i r (a & Ha & ->)%lookup_update_Some. intros Hs. apply (H5 i a Ha).
    destruct (p i a) eqn:Hp; [|done]. destruct (Hf i a Ha Hp) as (_ & _ & _ & Hi). by apply Hi.
  - intros i Hi. apply H6. rewrite lookup_update in Hi. by destruct (cores d !! i).
Qed.

(** The columns [core_set] leaves alone. *)
Lemma core_set_key st c t l f u r x :
  same_duplicate_key (core_set st c t l f u r) x = same_duplicate_key r x.
Proof. done. Qed.

Lemma core_set_checks st c t l f u r : str_in st VALID_STATUSES = true -> 0 <= f ->
  first_violation (core_checks r) = None -> first_violation (core_checks (core_set st c t l f u r)) = None.
Proof.
  intros Hs Hf. rewrite !first_violation_none. unfold core_checks.
  cbn [c_strategy c_execution_mode c_time_in_force c_status c_trigger_reference_price_type c_quantity_lots
       c_transaction_mode c_notification_mode c_filled_quantity_lots core_set].
  rewrite !Forall_cons. cbn [fst]. intros (? & ? & ? & ? & ? & ? & ? & ? & ? & ?).
  apply Z.leb_le in Hf. repeat split; assumption || apply Forall_nil_2.
Qed.

Lemma core_row_filled d i r : schema_ok d -> cores d !! i = Some r -> 0 <= c_filled_quantity_lots r.
Proof.
  intros Hok Hr. pose proof (core_rows_ok d Hok i r Hr) as H. apply first_violation_none in H.
  unfold core_checks in H. rewrite !Forall_cons in H. cbn [fst] in H.
  destruct H as (_ & _ & _ & _ & _ & _ & _ & _ & H & _). by apply Z.leb_le.
Qed.

Lemma core_status_valid d i r : schema_ok d -> cores d !! i = Some r -> str_in (c_status r) VALID_STATUSES = true.
Proof.
  intros Hok Hr. pose proof (core_rows_ok d Hok i r Hr) as H. apply first_violation_none in H.
  unfold core_checks in H. rewrite !Forall_cons in H. cbn [fst] in H. tauto.
Qed.

Lemma open_not_triggered st : is_open st = true -> st <> "triggered".
Proof. by intros H ->. Qed.
