(* ===== verification/Lifecycle.v ===== *)
(** * The day lifecycle of intents

    [src/app/commands/intent_lifecycle.py]: one rule for the two tracks, over
    the store interface the source declares as a protocol. *)

From S2P Require Import Prelude Decimal Datetime Errors TradingSession Tables Store.

#[local] Open Scope Z_scope.

(** [DayIntentLifecycleStore]; [commit] is the session's on both tracks. *)
Record DayIntentLifecycleStore (P : Type) : Type := mkLifecycleStore {
  expire_day_intents_through : date -> datetime -> M P Z;
  activate_scheduled_day_intents : date -> datetime -> M P Z;
}.
Arguments mkLifecycleStore {P}.
Arguments expire_day_intents_through {P}.
Arguments activate_scheduled_day_intents {P}.

(** [IntentLifecycleOutput] *)
Record IntentLifecycleOutput : Type := mkLifecycleOutput { activated_count : Z; expired_count : Z }.

(** [IntentLifecycleCommand.run] *)
Definition run {P} (store : DayIntentLifecycleStore P) : M P IntentLifecycleOutput :=
  do host_now <- clock;
  let now := now_taipei host_now in
  do cutoff <- lift (get_expirable_day_intent_cutoff now);
  do expired <- expire_day_intents_through store cutoff now;
  do phase <- lift (get_trading_day_phase now);
  do activated <-
    (if bool_decide (phase = REGULAR_SESSION) then activate_scheduled_day_intents store (dt_date now) now
     else ret 0);
  do_ when (negb (expired =? 0) || negb (activated =? 0)) commit;
  ret (mkLifecycleOutput activated expired).
