(* ===== verification/Pagination.v ===== *)
(** * Keyset pagination

    The shape shared by [TradeIntentCoreRepository.list_by_owner] and
    [NotificationRepository.list_by_owner]: order by a key that ends in the
    id, start after the anchor row, fetch one row more than the page and
    return the last row's id as the next cursor. *)

From Stdlib Require Import Sorted.
From S2P Require Import Prelude Errors.

#[local] Open Scope list_scope.
#[local] Open Scope Z_scope.

(** A strict total order on the rows of a table ([after a b]: [b] comes after
    [a] in the [ORDER BY]). *)
Class RowOrder {A : Type} (after : A -> A -> bool) (valid : A -> A -> Prop) : Prop := {
  after_irrefl : forall a, after a a = false;
  after_trans : forall a b c, after a b = true -> after b c = true -> after a c = true;
  after_total : forall a b, valid a b -> a = b \/ after a b = true \/ after b a = true;
}.

Section Keyset.
  Context {A : Type} (after : A -> A -> bool) (row_id : A -> uuid).

Fixpoint insert_sorted (x : A) (l : list A) : list A :=
  match l with
  | [] => [x]
  | y :: l' => if after x y then x :: l else y :: insert_sorted x l'
  end.

(** [ORDER BY] *)
Definition order_by (l : list A) : list A := foldr insert_sorted [] l.

(** [stmt.limit(page_size + 1)] and what follows: the page and the next cursor. *)
Definition cut_page (page_size : nat) (rows : list A) : list A * option uuid :=
  let fetched := take (S page_size) rows in
  let has_more := (page_size <? length fetched)%nat in
  let page := take page_size fetched in
  (page, if has_more then row_id <$> last page else None).

(** One page of the rows [rows] that pass the query's filters; [anchor] is the
    row of the cursor. *)
Definition page_after (page_size : nat) (rows : list A) (anchor : option A) : list A * option uuid :=
  cut_page page_size (order_by
    (match anchor with Some a => List.filter (after a) rows | None => rows end)).

(** ** Sorting *)

Lemma insert_sorted_perm x l : insert_sorted x l ≡ₚ x :: l.
Proof.
  induction l as [|y l IH]; cbn; [done|]. destruct (after x y); [done|].
  rewrite IH. apply Permutation_swap.
Qed.

Lemma order_by_perm l : order_by l ≡ₚ l.
Proof. induction l as [|x l IH]; cbn; [done|]. by rewrite insert_sorted_perm, IH. Qed.

Context {valid : A -> A -> Prop} `{!RowOrder after valid}.

Definition ordered (l : list A) : Prop := StronglySorted (fun a b => after a b = true) l.

Lemma insert_ordered x l : (forall y, y ∈ l -> valid x y) -> x ∉ l -> ordered l -> ordered (insert_sorted x l).
Proof.
  intros Hv Hx. induction l as [|y l IH]; cbn; intros Hl.
  { by repeat constructor. }
  inversion Hl as [|? ? Hl' Hy]; subst. destruct (after x y) eqn:Hxy.
  - constructor; [done|]. constructor; [done|]. eapply Forall_impl; [exact Hy|]. cbn.
    intros z Hz. by apply after_trans with y.
  - constructor; [apply IH; [set_solver..|done]|].
    apply Forall_forall. intros z Hz. rewrite insert_sorted_perm in Hz.
    apply elem_of_cons in Hz as [->|Hz]; [|by eapply Forall_forall in Hy].
    destruct (after_total x y) as [->|[?|?]]; [set_solver|set_solver|congruence|done].
Qed.

Definition distinct_rows (l : list A) : Prop := NoDup l /\ forall a b, a ∈ l -> b ∈ l -> valid a b.

Lemma order_by_ordered l : distinct_rows l -> ordered (order_by l).
Proof.
  intros [Hnd Hv]. induction Hnd as [|x l Hx Hnd IH]; cbn; [constructor|].
  apply insert_ordered.
  - intros y Hy. rewrite order_by_perm in Hy. apply Hv; set_solver.
  - by rewrite order_by_perm.
  - apply IH. intros a b Ha Hb. apply Hv; set_solver.
Qed.

Lemma ordered_unique l1 l2 : ordered l1 -> ordered l2 -> l1 ≡ₚ l2 -> l1 = l2.
Proof.
  revert l2. induction l1 as [|x l1 IH]; intros l2 H1 H2 Hp.
  { by apply Permutation_nil_l in Hp. }
  destruct l2 as [|y l2]; [by symmetry in Hp; apply Permutation_nil_l in Hp|].
  inversion H1 as [|? ? H1' Hx]; subst. inversion H2 as [|? ? H2' Hy]; subst.
  assert (x = y) as ->.
  { assert (Hxin : x ∈ y :: l2) by (rewrite <-Hp; set_solver).
    assert (Hyin : y ∈ x :: l1) by (rewrite Hp; set_solver).
    apply elem_of_cons in Hxin as [|Hxin]; [done|]. apply elem_of_cons in Hyin as [|Hyin]; [done|].
    rewrite Forall_forall in Hx, Hy.
    assert (after x x = true) by (apply after_trans with y; auto). by rewrite after_irrefl in H. }
  f_equal. apply IH; [done..|]. by apply Permutation.Permutation_cons_inv in Hp.
Qed.

Lemma filter_ordered p l : ordered l -> ordered (List.filter p l).
Proof.
  induction 1 as [|x l Hl IH Hx]; cbn; [constructor|]. destruct (p x); [|done].
  constructor; [done|]. apply Forall_forall. intros y Hy. rewrite Forall_forall in Hx. apply Hx.
  by apply list_elem_of_In, filter_In in Hy as [Hy%list_elem_of_In _].
Qed.

Lemma filter_perm (p : A -> bool) l l' : l ≡ₚ l' -> List.filter p l ≡ₚ List.filter p l'.
Proof.
  induction 1; cbn; repeat case_match; try done; try by constructor.
  by etrans.
Qed.

Lemma distinct_filter p l : distinct_rows l -> distinct_rows (List.filter p l).
Proof.
  intros [Hnd Hv]. split.
  - clear Hv. induction Hnd as [|x l Hx Hnd IH]; cbn; [constructor|]. destruct (p x); [|done].
    constructor; [|done]. intros Hin. apply Hx. by apply list_elem_of_In, filter_In in Hin as [Hin%list_elem_of_In _].
  - intros a b Ha Hb. apply list_elem_of_In, filter_In in Ha as [Ha%list_elem_of_In _].
    apply list_elem_of_In, filter_In in Hb as [Hb%list_elem_of_In _]. by apply Hv.
Qed.

Lemma ordered_split l1 x l2 : ordered (l1 ++ x :: l2) ->
  ordered l2 /\ forall y, y ∈ l1 ++ x :: l2 -> (after x y = true <-> y ∈ l2).
Proof.
  induction l1 as [|z l1 IH]; cbn; intros Hs; inversion Hs as [|? ? Hs' Hz]; subst.
  - split; [done|]. intros y Hy. rewrite Forall_forall in Hz. split; [|by apply Hz].
    intros Hxy. apply elem_of_cons in Hy as [->|Hy]; [|done]. by rewrite after_irrefl in Hxy.
  - destruct (IH Hs') as [Ho Hiff]. split; [done|]. intros y Hy. apply elem_of_cons in Hy as [->|Hy]; [|by apply Hiff].
    rewrite Forall_forall in Hz. assert (Hno : forall w, after w z = true -> after z w = true -> False).
    { intros w H1 H2. assert (after z z = true) by by apply after_trans with w. by rewrite after_irrefl in H. }
    split; intros H.
    + destruct (Hno x H). apply Hz. set_solver.
    + destruct (Hno z); apply Hz; set_solver.
Qed.

(** The rows after a row of the ordered list are its tail. *)
Lemma order_after l1 a l2 rows : distinct_rows rows -> order_by rows = l1 ++ a :: l2 ->
  order_by (List.filter (after a) rows) = l2.
Proof.
  intros Hd Heq. pose proof (order_by_ordered rows Hd) as Hs. rewrite Heq in Hs.
  apply ordered_unique.
  - by apply order_by_ordered, distinct_filter.
  - clear Heq. induction l1 as [|x l1 IH]; cbn in Hs; inversion Hs; subst; [done|by apply IH].
  - rewrite order_by_perm, <-(filter_perm _ _ _ (order_by_perm rows)), Heq.
    clear Heq. induction l1 as [|x l1 IH]; cbn in *.
    + rewrite after_irrefl. inversion Hs as [|? ? Hs' Ha]; subst.
      clear Hs Hs'. induction l2 as [|y l2 IH2]; cbn; [done|].
      apply Forall_cons in Ha as [-> Ha]. by rewrite IH2.
    + inversion Hs as [|? ? Hs' Hx]; subst. assert (after a x = false) as ->; [|by apply IH].
      destruct (after a x) eqn:Hax; [|done]. rewrite Forall_forall in Hx.
      assert (after x a = true) by (apply Hx; set_solver).
      assert (after x x = true) by by apply after_trans with a. by rewrite after_irrefl in H0.
Qed.

(** ** Walking through the pages *)

(** Follow the cursors from the first page; [find] looks a cursor up. *)
Fixpoint walk (fuel : nat) (page_size : nat) (rows : list A) (find : uuid -> option A)
    (anchor : option A) : list (list A) :=
  match fuel with
  | O => []
  | S fuel' =>
      let '(page, next) := page_after page_size rows anchor in
      page :: match next with
              | Some c => match find c with
                          | Some a => walk fuel' page_size rows find (Some a)
                          | None => []
                          end
              | None => []
              end
  end.

Lemma last_take {B} n (l : list B) : (0 < n)%nat -> l <> [] ->
  exists l1 x, take n l = l1 ++ [x] /\ last (take n l) = Some x.
Proof.
  intros Hn Hl. destruct (exists_last (l := take n l)) as (l1 & x & Heq).
  - destruct n, l; [lia|lia|done|done].
  - exists l1, x. rewrite Heq. split; [done|]. by rewrite last_snoc.
Qed.

(** One page and the rest: the page is the head of what is left, and the next
    cursor is the id of its last row exactly when something follows. *)
Lemma cut_page_spec n rows : (0 < n)%nat ->
  exists page next, cut_page n rows = (page, next) /\ page = take n rows /\
    ((next = None /\ drop n rows = []) \/
     (exists l1 x, page = l1 ++ [x] /\ next = Some (row_id x) /\ drop n rows <> [])).
Proof.
  intros Hn. exists (take n rows), (snd (cut_page n rows)). unfold cut_page.
  assert (Ht : take n (take (S n) rows) = take n rows) by (rewrite take_take; f_equal; lia).
  rewrite Ht. cbn [snd]. split; [done|]. split; [done|].
  rewrite length_take. destruct (Nat.ltb_spec n (S n `min` length rows)) as [Hlt|Hge].
  - right. destruct (last_take n rows) as (l1 & x & Heq & Hlast); [done|intros ->; cbn in Hlt; lia|].
    exists l1, x. split; [done|]. rewrite Hlast. split; [done|].
    intros Hd. apply (f_equal length) in Hd. rewrite length_drop in Hd. cbn in Hd. lia.
  - left. split; [done|]. apply drop_ge. lia.
Qed.

(** Every row appears on exactly one page, in order: enough fuel is one page
    per row. *)
Lemma walk_all n rows find : (0 < n)%nat -> distinct_rows rows ->
  (forall a, a ∈ rows -> find (row_id a) = Some a) ->
  forall fuel anchor rest, 
    (match anchor with
     | None => rest = order_by rows
     | Some a => exists l1, order_by rows = l1 ++ a :: rest
     end) -> (length rest < fuel)%nat ->
    concat (walk fuel n rows find anchor) = rest.
Proof.
  intros Hn Hd Hfind. induction fuel as [|fuel IH]; intros anchor rest Hrest Hlen; [lia|].
  cbn [walk]. unfold page_after.
  assert (order_by (match anchor with Some a => List.filter (after a) rows | None => rows end) = rest) as ->.
  { destruct anchor as [a|]; [|done]. destruct Hrest as (l1 & Hl). by apply order_after with l1. }
  destruct (cut_page_spec n rest Hn) as (page & next & -> & -> & [[-> Hdrop]|(l1 & x & Hp & -> & Hdrop)]).
  - cbn. rewrite app_nil_r. rewrite <-(take_drop n rest) at 2. by rewrite Hdrop, app_nil_r.
  - assert (Hsplit : exists l0, order_by rows = l0 ++ rest).
    { destruct anchor as [a|]; [destruct Hrest as (l0 & ->); exists (l0 ++ [a]); by rewrite <-app_assoc|by exists []; rewrite Hrest]. }
    destruct Hsplit as (l0 & Hl0). pose proof (take_drop n rest) as Htd. rewrite Hp in Htd.
    rewrite Hfind.
    2: { rewrite <-(order_by_perm rows), Hl0, <-Htd. set_solver. }
    cbn [concat]. rewrite (IH (Some x) (drop n rest)).
    + apply take_drop.
    + exists (l0 ++ l1). rewrite Hl0, <-Htd at 1. by rewrite <-!app_assoc.
    + rewrite length_drop. assert (rest <> []) by (intros ->; by destruct n).
      destruct rest; [done|]. cbn in *. lia.
Qed.

End Keyset.
