(* ===== verification/IntentRepo.v ===== *)
(** * The repository of the new intent track

    [src/app/repositories/trade_intent_core_repository.py]: reading and
    writing [trade_intent_core] and its satellite tables. *)

From S2P Require Import Prelude Decimal Datetime Errors Price Intent Tables Store CoreSchema Pagination.

#[local] Open Scope string_scope.
#[local] Open Scope list_scope.
#[local] Open Scope Z_scope.

(** [build_dedup_key] *)
Definition build_dedup_key (strategy : string) (target_price_effective : option dec)
    (trail_mode : option string) (trail_value : option dec) (position_side : option string) : string :=
  if String.eqb strategy TRAILING_STRATEGY then
    let value := match trail_value with Some v => format_price_str v | None => "" end in
    (default "None" trail_mode ++ ":" ++ value)%string
  else if String.eqb strategy TWAP_STRATEGY then default "" position_side
  else match target_price_effective with Some p => format_price_str p | None => "" end.

(** [_to_domain]: a core row and its satellites as the flat intent. *)
Definition to_domain (d : db) (i : uuid) (c : CoreRow) (st : SecurityType) : TradeIntentData :=
  let price := price_params d !! i in
  let trailing := trailing_params d !! i in
  let twap := twap_params d !! i in
  {| i_id := i; i_owner_user_id := c_owner_user_id c; i_symbol := c_symbol c;
     i_strategy := c_strategy c; i_execution_mode := c_execution_mode c;
     i_quantity_lots := c_quantity_lots c;
     i_target_price_original := pp_target_price_original <$> price;
     i_target_price_effective := pp_target_price_effective <$> price;
     i_trigger_reference_price_type := c_trigger_reference_price_type c;
     i_trading_date := c_trading_date c; i_time_in_force := c_time_in_force c;
     i_status := c_status c; i_created_at := c_created_at c; i_updated_at := c_updated_at c;
     i_cancelled_at := c_cancelled_at c; i_triggered_at := c_triggered_at c;
     i_transaction_mode := c_transaction_mode c; i_notification_mode := c_notification_mode c;
     i_filled_quantity_lots := c_filled_quantity_lots c; i_last_fill_at := c_last_fill_at c;
     i_trail_mode := tp_trail_mode <$> trailing; i_trail_value := tp_trail_value <$> trailing;
     i_baseline := trailing ≫= tp_baseline;
     i_dynamic_trigger_price := trailing ≫= tp_dynamic_trigger_price;
     i_baseline_updated_at := trailing ≫= tp_baseline_updated_at;
     i_security_type := st; i_position_side := wp_position_side <$> twap;
     i_twap_interval_seconds := wp_interval_seconds <$> twap;
     i_twap_end_time := wp_end_time <$> twap; i_twap_start_at := wp_start_at <$> twap;
     i_twap_end_at := wp_end_at <$> twap;
     i_twap_available_slice_count := wp_available_slice_count <$> twap;
     i_twap_materialized_slice_count := wp_materialized_slice_count <$> twap |}.

(** A row of [_core_with_symbol_type]: the core row joined with the type of
    its symbol; a row whose symbol is missing is not in the join. *)
Definition with_symbol_type (d : db) (c : CoreRow) : option (CoreRow * string) :=
  match symbols d !! c_symbol c with Some s => Some (c, sy_instrument_type s) | None => None end.

(** [SecurityType(instrument_type)] *)
Definition parse_security_type (s : string) : res SecurityType :=
  match security_type_of s with
  | Some st => Ok st
  | None => Raise (ValueError (s ++ " is not a valid SecurityType")%string)
  end.

Section Repository.
  Context {P : Type}.

(** The arguments of [create]. *)
Record CreateArgs : Type := mkCreateArgs {
  a_owner_user_id : uuid;
  a_symbol : string;
  a_strategy : string;
  a_quantity_lots : Z;
  a_target_price_original : option dec;
  a_target_price_effective : option dec;
  a_trigger_reference_price_type : string;
  a_trading_date : date;
  a_time_in_force : string;
  a_execution_mode : string;
  a_status : string;
  a_transaction_mode : string;
  a_notification_mode : string;
  a_trail_mode : option string;
  a_trail_value : option dec;
  a_baseline : option dec;
  a_dynamic_trigger_price : option dec;
  a_baseline_updated_at : option datetime;
}.

(** The consistency checks at the head of [create]. *)
Definition check_create_args (a : CreateArgs) : res unit :=
  let strategy := a_strategy a in
  let is_trailing := String.eqb strategy TRAILING_STRATEGY in
  if String.eqb strategy TWAP_STRATEGY then Raise (ValueError "create() does not handle TWAP")
  else
    let? _ :=
      (if is_trailing then
         if is_none (a_trail_mode a) || is_none (a_trail_value a) then
           Raise (ValueError "trailing_stop_alert requires trail_mode and trail_value")
         else Ok tt
       else if is_some (a_trail_mode a) || is_some (a_trail_value a) || is_some (a_baseline a) ||
               is_some (a_dynamic_trigger_price a) || is_some (a_baseline_updated_at a) then
         Raise (ValueError (strategy ++ " must not carry trailing params")%string)
       else Ok tt) in
    if negb is_trailing && negb (str_in strategy MARKET_ORDER_STRATEGIES) then
      if is_none (a_target_price_original a) || is_none (a_target_price_effective a) then
        Raise (ValueError (strategy ++ " requires a target price")%string)
      else Ok tt
    else if is_some (a_target_price_original a) || is_some (a_target_price_effective a) then
      Raise (ValueError (strategy ++ " must not carry a target price")%string)
    else Ok tt.

Definition core_of_args (a : CreateArgs) (dedup_key : string) (now : datetime) : CoreRow :=
  mkCore (a_owner_user_id a) (a_symbol a) (a_strategy a) (a_execution_mode a) (a_quantity_lots a)
    (a_trigger_reference_price_type a) (a_trading_date a) (a_time_in_force a) (a_status a) None None
    (a_transaction_mode a) (a_notification_mode a) 0 None dedup_key now now.

(** The duplicate looked up before the insert. *)
Definition is_duplicate (a : CreateArgs) (dedup_key : string) (c : CoreRow) : bool :=
  (c_owner_user_id c =? a_owner_user_id a) && String.eqb (c_symbol c) (a_symbol a) &&
  String.eqb (c_strategy c) (a_strategy a) && String.eqb (c_dedup_key c) dedup_key &&
  (c_quantity_lots c =? a_quantity_lots a) && (c_trading_date c =? a_trading_date a) &&
  is_open (c_status c).

Definition insert_core (i : uuid) (r : CoreRow) : M P unit :=
  insert_checked (core_violation i r) (fun d => set_cores (<[i := r]> (cores d)) d).
Definition insert_price_params (i : uuid) (r : PriceParamsRow) : M P unit :=
  insert_checked (price_violation i r) (fun d => set_price_params (<[i := r]> (price_params d)) d).
Definition insert_trailing_params (i : uuid) (r : TrailingParamsRow) : M P unit :=
  insert_checked (trailing_violation i r) (fun d => set_trailing_params (<[i := r]> (trailing_params d)) d).

(** The flush of [create]: the core row, then its satellites. *)
Definition flush_create (i : uuid) (a : CreateArgs) (dedup_key : string) : M P unit :=
  do now <- sql_now;
  do_ insert_core i (core_of_args a dedup_key now);
  do_ (match a_target_price_effective a, a_target_price_original a with
       | Some effective, Some original => insert_price_params i (mkPriceParams original effective)
       | _, _ => ret tt
       end);
  if String.eqb (a_strategy a) TRAILING_STRATEGY then
    match a_trail_mode a, a_trail_value a with
    | Some mode, Some value =>
        insert_trailing_params i (mkTrailingParams mode value (a_baseline a)
          (a_dynamic_trigger_price a) (a_baseline_updated_at a))
    | _, _ => ret tt
    end
  else ret tt.

(** [create] *)
Definition create (a : CreateArgs) : M P uuid :=
  do_ lift (check_create_args a);
  let dedup_key := build_dedup_key (a_strategy a) (a_target_price_effective a) (a_trail_mode a)
                     (a_trail_value a) None in
  let duplicate_error := DuplicateIntentError (a_owner_user_id a) (a_symbol a) (a_strategy a) in
  do duplicates <- query (fun d => select_where (fun _ c => is_duplicate a dedup_key c) (cores d));
  match duplicates with
  | _ :: _ :: _ => raise (RuntimeError "MultipleResultsFound")
  | [_] => raise duplicate_error
  | [] =>
      do i <- uuid4;
      do_ try_except (flush_create i a dedup_key)
            (fun e => match e with IntegrityError _ => raise duplicate_error | _ => raise e end);
      ret i
  end.

(** The row of [_core_with_symbol_type().where(id == intent_id)]. *)
Definition get_core (intent_id : uuid) : M P (option (CoreRow * string)) :=
  query (fun d => cores d !! intent_id ≫= with_symbol_type d).

(** [find_by_id] *)
Definition find_by_id (intent_id owner_user_id : uuid) : M P TradeIntentData :=
  do row <- get_core intent_id;
  match row with
  | None => raise (IntentNotFoundError intent_id)
  | Some (c, instrument_type) =>
      if negb (c_owner_user_id c =? owner_user_id) then raise (IntentNotFoundError intent_id)
      else
        do st <- lift (parse_security_type instrument_type);
        query (fun d => to_domain d intent_id c st)
  end.

Definition update_cores (p : uuid -> CoreRow -> bool) (f : CoreRow -> CoreRow) : M P unit :=
  execute (fun d => set_cores (update_where p f (cores d)) d).

(** [cancel] *)
Definition cancel (intent_id owner_user_id : uuid) : M P TradeIntentData :=
  do row <- get_core intent_id;
  match row with
  | None => raise (IntentNotFoundError intent_id)
  | Some (c, instrument_type) =>
      if negb (c_owner_user_id c =? owner_user_id) then raise (IntentNotFoundError intent_id)
      else if String.eqb (c_status c) "cancelled" then
        do st <- lift (parse_security_type instrument_type);
        query (fun d => to_domain d intent_id c st)
      else if negb (str_in (c_status c) CANCELLABLE_STATUSES) then
        raise (CancelNotAllowedError intent_id (c_status c))
      else
        do now <- sql_now;
        let c' := core_set "cancelled" (Some now) (c_triggered_at c) (c_last_fill_at c)
                    (c_filled_quantity_lots c) now c in
        do_ update_cores (fun i _ => i =? intent_id) (fun x =>
              core_set "cancelled" (Some now) (c_triggered_at x) (c_last_fill_at x)
                (c_filled_quantity_lots x) now x);
        do st <- lift (parse_security_type instrument_type);
        query (fun d => to_domain d intent_id c' st)
  end.

(** [system_update_trailing_baseline]; the UPDATE runs the CHECKs of the
    satellite on the values it writes. *)
Definition baseline_violation (intent_id : uuid) (baseline dynamic : option dec) (d : db) : option string :=
  match trailing_params d !! intent_id with
  | None => None
  | Some _ => first_violation
      [(opt_positive baseline, "baseline_positive"); (opt_positive dynamic, "dynamic_trigger_price")]
  end.

Definition system_update_trailing_baseline (intent_id : uuid) (baseline dynamic : option dec)
    (baseline_updated_at : option datetime) : M P unit :=
  do rowcount <- query (fun d => count_where (fun i _ => i =? intent_id) (trailing_params d));
  do_ insert_checked (baseline_violation intent_id baseline dynamic) (fun d => set_trailing_params
        (update_where (fun i _ => i =? intent_id) (fun t =>
           mkTrailingParams (tp_trail_mode t) (tp_trail_value t) baseline dynamic
             (match baseline_updated_at with Some u => Some u | None => tp_baseline_updated_at t end))
           (trailing_params d)) d);
  if rowcount =? 0 then raise (ValueError "no trailing params row")
  else
    do now <- sql_now;
    update_cores (fun i _ => i =? intent_id) (fun x =>
      core_set (c_status x) (c_cancelled_at x) (c_triggered_at x) (c_last_fill_at x)
        (c_filled_quantity_lots x) now x).

(** [system_list_active_symbols] *)
Definition system_list_active_symbols : M P (list string) :=
  query (fun d => remove_dups ((fun x => c_symbol (snd x)) <$>
    select_where (fun _ c => String.eqb (c_status c) "active") (cores d))).

(** Rows of a query with the symbol's type, as intents. *)
Fixpoint to_domains (d : db) (rows : list (uuid * CoreRow)) : res (list TradeIntentData) :=
  match rows with
  | [] => Ok []
  | (i, c) :: rest =>
      match with_symbol_type d c with
      | None => to_domains d rest
      | Some (_, instrument_type) =>
          let? st := parse_security_type instrument_type in
          let? others := to_domains d rest in
          Ok (to_domain d i c st :: others)
      end
  end.

(** [system_list_active_by_symbols] *)
Definition system_list_active_by_symbols (wanted : list string) : M P (list TradeIntentData) :=
  match wanted with
  | [] => ret []
  | _ =>
      do d <- query id;
      lift (to_domains d (select_where
        (fun _ c => String.eqb (c_status c) "active" && str_in (c_symbol c) wanted) (cores d)))
  end.

(** [active_or_scheduled_symbols] *)
Definition active_or_scheduled_symbols : M P (list string) :=
  query (fun d => remove_dups ((fun x => c_symbol (snd x)) <$>
    select_where (fun _ c => is_open (c_status c)) (cores d))).

(** The three counts. *)
Definition count_active_or_scheduled_for_user (owner : uuid) : M P Z :=
  query (fun d => count_where (fun _ c => (c_owner_user_id c =? owner) && is_open (c_status c)) (cores d)).
Definition count_active_or_scheduled_for_user_symbol (owner : uuid) (symbol : string) : M P Z :=
  query (fun d => count_where (fun _ c => (c_owner_user_id c =? owner) && String.eqb (c_symbol c) symbol &&
    is_open (c_status c)) (cores d)).
Definition count_active_or_scheduled_for_symbol (symbol : string) : M P Z :=
  query (fun d => count_where (fun _ c => String.eqb (c_symbol c) symbol && is_open (c_status c)) (cores d)).

(** An UPDATE and its row count. *)
Definition update_counting (p : uuid -> CoreRow -> bool) (f : CoreRow -> CoreRow) : M P Z :=
  do n <- query (fun d => count_where p (cores d));
  do_ update_cores p f;
  ret n.

(** [system_activate_scheduled_day_intents] *)
Definition system_activate_scheduled_day_intents (trading_date : date) (now : datetime) : M P Z :=
  update_counting (fun _ c => String.eqb (c_status c) "scheduled" && (c_trading_date c =? trading_date))
    (fun c => core_set "active" (c_cancelled_at c) (c_triggered_at c) (c_last_fill_at c)
       (c_filled_quantity_lots c) now c).

(** [system_expire_day_intents_through] *)
Definition system_expire_day_intents_through (cutoff_date : date) (now : datetime) : M P Z :=
  update_counting (fun _ c => is_open (c_status c) && (c_trading_date c <=? cutoff_date))
    (fun c => core_set "expired" (c_cancelled_at c) (c_triggered_at c) (c_last_fill_at c)
       (c_filled_quantity_lots c) now c).

(** [cancel_active_for_owner] *)
Definition cancel_active_for_owner (owner_user_id : uuid) (status : string) (now : datetime) : M P Z :=
  update_counting (fun _ c => (c_owner_user_id c =? owner_user_id) && is_open (c_status c))
    (fun c => core_set status (Some now) (c_triggered_at c) (c_last_fill_at c)
       (c_filled_quantity_lots c) now c).

(** The [ORDER BY] of [list_by_owner]: terminal intents by their last change,
    newest first, the others by trading date and then newest first; the id
    breaks ties. *)
Definition after_terminal (a b : uuid * CoreRow) : bool :=
  (dt_us (c_updated_at (snd b)) <? dt_us (c_updated_at (snd a))) ||
  ((dt_us (c_updated_at (snd b)) =? dt_us (c_updated_at (snd a))) && (fst a <? fst b)).
Definition after_open (a b : uuid * CoreRow) : bool :=
  (c_trading_date (snd a) <? c_trading_date (snd b)) ||
  ((c_trading_date (snd b) =? c_trading_date (snd a)) &&
     (dt_us (c_created_at (snd b)) <? dt_us (c_created_at (snd a)))) ||
  ((c_trading_date (snd b) =? c_trading_date (snd a)) &&
     (dt_us (c_created_at (snd b)) =? dt_us (c_created_at (snd a))) && (fst a <? fst b)).

Definition row_after (terminal_only : bool) : uuid * CoreRow -> uuid * CoreRow -> bool :=
  if terminal_only then after_terminal else after_open.

Definition is_terminal_only (statuses : option (list string)) : bool :=
  match statuses with
  | Some ((_ :: _) as l) => forallb (fun s => str_in s TERMINAL_STATUSES) l
  | _ => false
  end.

(** The rows the filters of [list_by_owner] keep. *)
Definition listed (d : db) (owner : uuid) (statuses : option (list string)) (trading_date : option date)
    (_ : uuid) (c : CoreRow) : bool :=
  (c_owner_user_id c =? owner) && is_some (with_symbol_type d c) &&
  match statuses with Some ((_ :: _) as l) => str_in (c_status c) l | _ => true end &&
  match trading_date with Some t => c_trading_date c =? t | None => true end.

(** [list_by_owner]; the cursor is a parsed UUID. *)
Definition list_by_owner (owner : uuid) (statuses : option (list string)) (trading_date : option date)
    (cursor : option uuid) (page_size : nat) : M P (list TradeIntentData * option uuid) :=
  do d <- query id;
  do anchor <-
    (match cursor with
     | None => ret None
     | Some c =>
         match cores d !! c with
         | Some r => if c_owner_user_id r =? owner then ret (Some (c, r)) else raise (InvalidCursorError c)
         | None => raise (InvalidCursorError c)
         end
     end);
  let '(page, next) := page_after (row_after (is_terminal_only statuses)) fst page_size
    (select_where (listed d owner statuses trading_date) (cores d)) anchor in
  do intents <- lift (to_domains d page);
  ret (intents, next).

End Repository.

(** ** The invariant of the track *)

Section Facts.
  Context {P : Type}.

Notation pres := (preserves (P := P) (both schema_ok)).

Lemma insert_core_pres i r : c_status r <> "triggered" -> pres (insert_core i r).
Proof. intros Hr. apply both_insert. intros d Hd Hv. by apply insert_core_ok. Qed.

Lemma insert_price_pres i r : pres (insert_price_params i r).
Proof.
  apply both_insert. intros d Hd Hv. destruct (price_violation_core _ _ _ Hv) as [c Hc].
  apply (schema_ok_satellites d); try done. intros j Hj. cbn. rewrite lookup_insert_ne; [done|congruence].
Qed.
Lemma insert_trailing_pres i r : pres (insert_trailing_params i r).
Proof.
  apply both_insert. intros d Hd Hv. destruct (trailing_violation_core _ _ _ Hv) as [c Hc].
  apply (schema_ok_satellites d); try done. intros j Hj. cbn. rewrite lookup_insert_ne; [done|congruence].
Qed.

Lemma flush_create_pres i a k : a_status a <> "triggered" -> pres (flush_create i a k).
Proof.
  intros Ha. unfold flush_create.
  pose proof (insert_core_pres i). pose proof insert_price_pres. pose proof insert_trailing_pres. preserve.
Qed.

Lemma create_pres a : a_status a <> "triggered" -> pres (create a).
Proof. intros Ha. unfold create. pose proof flush_create_pres. preserve. Qed.

Lemma update_cores_pres p f :
  (forall d i r, schema_ok d -> cores d !! i = Some r -> p i r = true ->
     first_violation (core_checks (f r)) = None /\
     (forall x, same_duplicate_key (f r) x = same_duplicate_key r x) /\
     (is_open (c_status (f r)) = true -> is_open (c_status r) = true) /\
     (c_status (f r) = "triggered" <-> c_status r = "triggered")) -> pres (update_cores p f).
Proof. intros Hf. apply both_execute. intros d Hd. apply update_cores_ok; [done|]. intros i r. by apply Hf. Qed.

(** An update that gives open intents a new, untriggered status. *)
Lemma update_status_pres p st (c : CoreRow -> option datetime) now :
  str_in st VALID_STATUSES = true -> st <> "triggered" ->
  (forall i r, p i r = true -> is_open (c_status r) = true) ->
  pres (update_cores p (fun x => core_set st (c x) (c_triggered_at x) (c_last_fill_at x)
    (c_filled_quantity_lots x) now x)).
Proof.
  intros Hst Hnt Hp. apply update_cores_pres. intros d i r Hd Hr Hpr.
  assert (Ho := Hp i r Hpr). split; [|split; [done|]].
  - apply core_set_checks; [done|by eapply core_row_filled|by eapply core_rows_ok].
  - split; [done|]. apply open_not_triggered in Ho. cbn. naive_solver.
Qed.

Lemma update_counting_pres p f : pres (update_cores p f) -> pres (update_counting p f).
Proof. intros H. unfold update_counting. preserve. Qed.

Lemma expire_pres c now : pres (system_expire_day_intents_through c now).
Proof. apply update_counting_pres, update_status_pres; [done|discriminate|]. by intros i r [? _]%andb_true_iff. Qed.

Lemma activate_pres t now : pres (system_activate_scheduled_day_intents t now).
Proof.
  apply update_counting_pres, update_status_pres; [done|discriminate|].
  intros i r [Hs _]%andb_true_iff. apply String.eqb_eq in Hs. by rewrite Hs.
Qed.

Lemma cancel_owner_pres o st now : str_in st VALID_STATUSES = true -> st <> "triggered" ->
  pres (cancel_active_for_owner o st now).
Proof. intros. apply update_counting_pres, update_status_pres; [done..|]. by intros i r [_ ?]%andb_true_iff. Qed.

Lemma find_by_id_pres i o : pres (find_by_id i o).
Proof. unfold find_by_id, get_core. preserve. Qed.

Lemma baseline_pres i b d u : pres (system_update_trailing_baseline i b d u).
Proof.
  unfold system_update_trailing_baseline.
  assert (Hins : pres (insert_checked (baseline_violation i b d) (fun d0 => set_trailing_params
    (update_where (fun j _ => j =? i) (fun t => mkTrailingParams (tp_trail_mode t) (tp_trail_value t) b d
       (match u with Some u => Some u | None => tp_baseline_updated_at t end)) (trailing_params d0)) d0))).
  { apply both_insert. intros d0 Hd0 _. apply (schema_ok_satellites d0); try done.
    intros j _ Hj. cbn. by rewrite lookup_update, Hj. }
  assert (Htouch : forall now, pres (update_cores (fun j _ => j =? i) (fun x =>
    core_set (c_status x) (c_cancelled_at x) (c_triggered_at x) (c_last_fill_at x) (c_filled_quantity_lots x) now x))).
  { intros now. apply update_cores_pres. intros d0 j r Hd Hr _. split; [|done].
    apply core_set_checks; [|by eapply core_row_filled|by eapply core_rows_ok].
    by eapply core_status_valid. }
  preserve.
Qed.

(** The row and the database [cancel] leaves behind. *)
Definition cancelled_row (now : datetime) (x : CoreRow) : CoreRow :=
  core_set "cancelled" (Some now) (c_triggered_at x) (c_last_fill_at x) (c_filled_quantity_lots x) now x.
Definition cancelled_db (i : uuid) (now : datetime) (d : db) : db :=
  set_cores (update_where (fun j _ => j =? i) (cancelled_row now) (cores d)) d.

(** Every branch of [cancel]. *)
Lemma cancel_cases i o (w : world P) r w' : cancel i o w = (r, w') ->
  (w' = w /\
     ((r = Raise (IntentNotFoundError i) /\
         (cores (pending w) !! i = None \/ exists c, cores (pending w) !! i = Some c /\
            (c_owner_user_id c <> o \/ symbols (pending w) !! c_symbol c = None))) \/
      (exists c s, cores (pending w) !! i = Some c /\ c_owner_user_id c = o /\
         symbols (pending w) !! c_symbol c = Some s /\
         ((is_open (c_status c) = false /\ c_status c <> "cancelled" /\ r = Raise (CancelNotAllowedError i (c_status c))) \/
          (c_status c = "cancelled" /\
             r = rmap (to_domain (pending w) i c) (parse_security_type (sy_instrument_type s))))))) \/
  (exists c s, cores (pending w) !! i = Some c /\ c_owner_user_id c = o /\ is_open (c_status c) = true /\
     symbols (pending w) !! c_symbol c = Some s /\
     w' = with_pending (cancelled_db i (db_now w) (pending w)) w /\
     r = rmap (to_domain (cancelled_db i (db_now w) (pending w)) i (cancelled_row (db_now w) c))
           (parse_security_type (sy_instrument_type s))).
Proof.
  unfold cancel, get_core. run_session.
  destruct (cores (pending w) !! i) as [c|] eqn:Hc; cbn [mbind option_bind];
    [|intros [= <- <-]; left; split; [done|]; left; split; [done|by left]].
  unfold with_symbol_type. destruct (symbols (pending w) !! c_symbol c) as [s|] eqn:Hsy; cbn [fmap option_fmap option_map].
  2: { intros [= <- <-]. left. split; [done|]. left. split; [done|]. right. exists c. split; [done|by right]. }
  destruct (Z.eqb_spec (c_owner_user_id c) o) as [Ho|Ho]; cbn [negb].
  2: { intros [= <- <-]. left. split; [done|]. left. split; [done|]. right. exists c. split; [done|by left]. }
  destruct (String.eqb_spec (c_status c) "cancelled") as [Hcan|Hcan].
  { intros H. left. assert (w' = w) as -> by (case_match; by injection H). split; [done|]. right.
    exists c, s. split; [done|]. split; [done|]. split; [done|]. right. split; [done|].
    unfold rmap, rbind. case_match; by injection H. }
  destruct (str_in (c_status c) CANCELLABLE_STATUSES) eqn:Hopen; cbn [negb].
  2: { intros [= <- <-]. left. split; [done|]. right. exists c, s. repeat (split; [done|]). by left. }
  unfold update_cores. run_session. intros H. right. exists c, s. repeat (split; [done|]).
  unfold rmap, rbind, cancelled_db, cancelled_row. split; case_match; by injection H.
Qed.

Lemma cancel_pres i o : pres (cancel i o).
Proof.
  intros w r w' Hw H. pose proof Hw as [Hd Hp].
  destruct (cancel_cases i o w r w' H) as [[-> _]|(c & s & Hc & _ & Hopen & _ & -> & _)]; [done|].
  split; [done|]. apply update_cores_ok; [done|]. intros j r0 Hr0 ->%Z.eqb_eq. simplify_eq.
  split; [|split; [done|]].
  - apply core_set_checks; [done|by eapply core_row_filled|by eapply core_rows_ok].
  - split; [done|]. apply open_not_triggered in Hopen. cbn. naive_solver.
Qed.

End Facts.
