(* ===== verification/Samples.v ===== *)
(** * Sample states

    A small database and the quotes and intents the witnesses of the other
    files evaluate the theorems on. *)

From S2P Require Import Prelude Decimal Datetime Errors Price Intent Tables Store CoreSchema IntentRepo.

#[local] Open Scope string_scope.
#[local] Open Scope list_scope.
#[local] Open Scope Z_scope.

(** A database with one user, one tradable stock and nothing else. *)
Definition sample_db : db :=
  set_symbols {["2330" := mkSymbol "TSMC" "TWSE" "stock" "tradable"]}
    (set_users {[7 := mkUser "a@b.c" None "user" "active" false None None (DT 0 (Some 0)) (DT 0 (Some 0))]} empty_db).
Definition sample_time : datetime := combine_taipei 20601 (mk_time 10 0).
Definition world_of (d : db) : world unit := mkWorld d d tt 100 [] sample_time sample_time.

Definition sample_args (qty : Z) (price : dec) : CreateArgs :=
  mkCreateArgs 7 "2330" "buy_price_alert" qty (Some price) (Some price) "ask" 20601 "day" "notify_only" "active"
    "single_notification" "single" None None None None None.

Definition sample_row (qty : Z) : CoreRow := core_of_args (sample_args qty (Dec 600 0)) "600.00" sample_time.

Lemma sample_schema : schema_ok sample_db.
Proof. split; cbn; intros; by rewrite lookup_empty in *. Qed.

(** The same with one active buy alert at 600, with id 1. *)
Definition open_db : db :=
  set_price_params {[1 := mkPriceParams (Dec 600 0) (Dec 600 0)]}
    (set_cores (<[1 := sample_row 2]> (cores sample_db)) sample_db).

Lemma open_schema : schema_ok open_db.
Proof.
  refine (schema_ok_satellites _ _ _ _ _ _ (insert_core_ok sample_db 1 (sample_row 2) sample_schema _ _));
    [reflexivity|reflexivity| |done|discriminate|vm_compute; reflexivity].
  intros i Hi _. cbn in Hi |- *. apply lookup_insert_None in Hi as [_ Hi]. by apply lookup_singleton_None.
Qed.

Definition open_intent : TradeIntentData := to_domain open_db 1 (sample_row 2) STOCK.
Definition quote_at (bid ask last : option dec) : QuoteSnapshot :=
  mkQuote "2330" bid ask last sample_time sample_time.
