(* ===== verification/IntentQueries.v ===== *)
(** * What the intent queries return

    Properties of [TradeIntentCoreRepository]: pagination, the duplicate check
    of [create], [find_by_id] and [cancel]. *)

From S2P Require Import Prelude Decimal Datetime Errors Price Intent Tables Store CoreSchema Pagination IntentRepo Samples.

#[local] Open Scope string_scope.
#[local] Open Scope list_scope.
#[local] Open Scope Z_scope.

(** ** Pagination *)

(** Rows of one table: the id determines the row. *)
Definition same_table {A} (a b : uuid * A) : Prop := fst a = fst b -> a = b.

#[export] Instance row_after_order b : RowOrder (row_after b) same_table.
Proof.
  split.
  - intros [i c]. destruct b; unfold row_after, after_terminal, after_open; cbn;
      rewrite !Z.ltb_irrefl; by rewrite ?andb_false_r.
  - intros [i a] [j x] [k y]. destruct b; unfold row_after, after_terminal, after_open; cbn;
      rewrite !orb_true_iff, !andb_true_iff, !Z.ltb_lt, !Z.eqb_eq; lia.
  - intros [i a] [j x] Hv. unfold same_table in Hv. cbn in Hv.
    destruct (decide (i = j)) as [->|Hij]; [left; by apply Hv|right].
    destruct b; unfold row_after, after_terminal, after_open; cbn;
      rewrite !orb_true_iff, !andb_true_iff, !Z.ltb_lt, !Z.eqb_eq; lia.
Qed.

(** The CHECK on [symbols.instrument_type]. *)
Definition symbols_ok (d : db) : Prop :=
  forall s r, symbols d !! s = Some r -> is_some (security_type_of (sy_instrument_type r)) = true.

Definition security_type_in (d : db) (c : CoreRow) : SecurityType :=
  match symbols d !! c_symbol c with
  | Some s => default STOCK (security_type_of (sy_instrument_type s))
  | None => STOCK
  end.
Definition intent_of (d : db) (x : uuid * CoreRow) : TradeIntentData :=
  to_domain d (fst x) (snd x) (security_type_in d (snd x)).

Lemma to_domains_ok d rows : symbols_ok d ->
  (forall i c, (i, c) ∈ rows -> is_some (with_symbol_type d c) = true) ->
  to_domains d rows = Ok (intent_of d <$> rows).
Proof.
  intros Hs. induction rows as [|[i c] rows IH]; intros Hr; [done|]. cbn [to_domains].
  specialize (Hr i c ltac:(set_solver)) as Hc. unfold with_symbol_type in *.
  destruct (symbols d !! c_symbol c) as [s|] eqn:Hsy; [|done].
  specialize (Hs _ _ Hsy) as Hst. unfold parse_security_type.
  destruct (security_type_of (sy_instrument_type s)) as [st|] eqn:Hty; [|done].
  cbn [rbind]. rewrite IH by (intros; apply (Hr i0); set_solver). cbn [rbind fmap list_fmap].
  unfold intent_of at 2, security_type_in. cbn [fst snd]. by rewrite Hsy, Hty.
Qed.

Section Pages.
  Context {P : Type} (w : world P) (owner : uuid) (statuses : option (list string))
    (trading_date : option date) (page_size : nat).

Let d := pending w.
Definition listed_rows : list (uuid * CoreRow) :=
  select_where (listed d owner statuses trading_date) (cores d).
Definition list_order := row_after (is_terminal_only statuses).

(** Ask for the pages one after the other. *)
Fixpoint read_pages (fuel : nat) (cursor : option uuid) : res (list TradeIntentData) :=
  match fuel with
  | O => Ok []
  | S fuel' =>
      match fst (list_by_owner owner statuses trading_date cursor page_size w) with
      | Raise e => Raise e
      | Ok (page, None) => Ok page
      | Ok (page, Some c) => let? rest := read_pages fuel' (Some c) in Ok (page ++ rest)
      end
  end.

Definition anchor_of (c : uuid) : option (uuid * CoreRow) :=
  match cores d !! c with
  | Some r => if c_owner_user_id r =? owner then Some (c, r) else None
  | None => None
  end.

Lemma listed_rows_distinct : distinct_rows (valid := same_table) listed_rows.
Proof.
  split.
  - apply (NoDup_fmap_1 fst), select_NoDup.
  - intros [i a] [j b] Ha Hb Heq. cbn in Heq. subst. apply elem_of_select in Ha as [Ha _], Hb as [Hb _]. congruence.
Qed.

Lemma listed_row_anchor a : a ∈ listed_rows -> anchor_of (fst a) = Some a.
Proof.
  destruct a as [i c]. intros [Hi Hl]%elem_of_select. cbn. unfold anchor_of. rewrite Hi.
  unfold listed in Hl. b2p. by rewrite (proj2 (Z.eqb_eq _ _)).
Qed.

Lemma list_by_owner_step cursor anchor : symbols_ok d ->
  (match cursor with Some c => anchor_of c = anchor /\ is_some anchor = true | None => anchor = None end) ->
  fst (list_by_owner owner statuses trading_date cursor page_size w) =
    let '(page, next) := page_after list_order fst page_size listed_rows anchor in
    Ok (intent_of d <$> page, next).
Proof.
  intros Hs Hc. unfold list_by_owner. run_session. unfold id. fold d.
  assert (Hpage : forall page next, page_after list_order fst page_size listed_rows anchor = (page, next) ->
    to_domains d page = Ok (intent_of d <$> page)).
  { intros page next Hp. apply to_domains_ok; [done|]. intros i c Hin.
    assert (Hl : (i, c) ∈ listed_rows).
    { unfold page_after, cut_page in Hp. injection Hp as <- _. apply elem_of_take in Hin as (? & Hin & _).
      apply list_elem_of_lookup_2 in Hin. apply elem_of_take in Hin as (? & Hin & _).
      apply list_elem_of_lookup_2 in Hin. rewrite order_by_perm in Hin.
      destruct anchor; [|done]. by apply list_elem_of_In, filter_In in Hin as [Hin%list_elem_of_In _]. }
    apply elem_of_select in Hl as [_ Hl]. unfold listed in Hl. by b2p. }
  unfold listed_rows, list_order in *.
  destruct cursor as [c|]; [|subst anchor].
  - destruct Hc as [Ha Hsome]. unfold anchor_of in Ha.
    destruct (cores d !! c) as [r|]; [|by subst]. destruct (c_owner_user_id r =? owner); [|by subst].
    subst anchor. destruct (page_after _ _ _ _ _) as [page next] eqn:Hp. by rewrite (Hpage _ _ eq_refl).
  - destruct (page_after _ _ _ _ _) as [page next] eqn:Hp. by rewrite (Hpage _ _ eq_refl).
Qed.

Lemma read_pages_walk fuel cursor anchor : symbols_ok d ->
  (match cursor with Some c => anchor_of c = anchor /\ is_some anchor = true | None => anchor = None end) ->
  read_pages fuel cursor =
    Ok (intent_of d <$> concat (walk list_order fst fuel page_size listed_rows anchor_of anchor)).
Proof.
  intros Hs. revert cursor anchor. induction fuel as [|fuel IH]; intros cursor anchor Hc; [done|].
  cbn [read_pages walk]. rewrite (list_by_owner_step cursor anchor Hs Hc).
  destruct (page_after list_order fst page_size listed_rows anchor) as [page next] eqn:Hp.
  destruct next as [c|]; [|by rewrite concat_cons, app_nil_r].
  assert (Hfound : exists a, anchor_of c = Some a).
  { unfold page_after, cut_page in Hp. set (rows := order_by _ _) in Hp. case_match eqn:Hlt; [|by simplify_eq].
    injection Hp as Hpg Hl. rewrite Hpg in Hl. destruct (last page) as [a|] eqn:Hla; [|done]. injection Hl as <-.
    exists a. apply listed_row_anchor.
    assert (Ha : a ∈ page) by (apply last_Some in Hla as (? & ->); set_solver).
    rewrite <-Hpg in Ha. apply elem_of_take in Ha as (? & Ha & _).
    apply list_elem_of_lookup_2 in Ha. apply elem_of_take in Ha as (? & Ha & _).
    apply list_elem_of_lookup_2 in Ha. unfold rows in Ha. rewrite order_by_perm in Ha.
    destruct anchor; [|done]. by apply list_elem_of_In, filter_In in Ha as [Ha%list_elem_of_In _]. }
  destruct Hfound as (a & Ha). rewrite (IH (Some c) (Some a)) by done. cbn [rbind].
  rewrite Ha, concat_cons, fmap_app. done.
Qed.

End Pages.

(** Paging through an owner's intents: with a positive page size,
    following the cursors of [list_by_owner] from the first page to the last
    returns every intent of the owner that passes the filters exactly once, in
    the order of the query (and never an invalid cursor), however many rows
    tie on the sort columns. *)
Theorem list_by_owner_enumerates {P} (w : world P) (owner : uuid) (statuses : option (list string))
    (trading_date : option date) (page_size fuel : nat)
    (Hsym : symbols_ok (pending w)) (Hsize : (0 < page_size)%nat)
    (Hfuel : (length (listed_rows w owner statuses trading_date) < fuel)%nat) :
  exists rows,
    read_pages w owner statuses trading_date page_size fuel None = Ok (intent_of (pending w) <$> rows) /\
    (forall i c, (i, c) ∈ rows <-> cores (pending w) !! i = Some c /\
       listed (pending w) owner statuses trading_date i c = true) /\
    NoDup rows.*1 /\ ordered (list_order statuses) rows.
Proof.
  exists (order_by (list_order statuses) (listed_rows w owner statuses trading_date)).
  pose proof (listed_rows_distinct w owner statuses trading_date) as Hd.
  split; [|split; [|split]].
  - rewrite (read_pages_walk w owner statuses trading_date page_size fuel None None Hsym eq_refl). do 2 f_equal.
    apply (walk_all (list_order statuses) fst (valid := same_table)); try done.
    + apply listed_row_anchor.
    + by rewrite order_by_perm.
  - intros i c. rewrite order_by_perm. apply elem_of_select.
  - rewrite (order_by_perm (list_order statuses) (listed_rows w owner statuses trading_date)). apply select_NoDup.
  - exact (order_by_ordered _ fst _ Hd).
Qed.

Lemma list_by_owner_enumerates_witness :
  let d := set_cores {[3 := sample_row 1; 1 := sample_row 2; 2 := sample_row 3]} sample_db in
  exists rows, read_pages (world_of d) 7 None None 2 4 None = Ok (intent_of d <$> rows) /\
    rmap (fmap i_id) (read_pages (world_of d) 7 None None 2 4 None) = Ok [1; 2; 3].
Proof.
  intros d.
  destruct (list_by_owner_enumerates (world_of d) 7 None None 2 4) as (rows & Hr & _).
  - intros s r Hs. cbn in Hs. apply lookup_singleton_Some in Hs as [_ <-]. reflexivity.
  - lia.
  - vm_compute. lia.
  - exists rows. split; [exact Hr|]. vm_compute. reflexivity.
Defined.

(** ** Creating the same order twice *)

(** Optional decimals equal as numbers. *)
Definition opt_equiv (a b : option dec) : Prop :=
  match a, b with Some x, Some y => x ≡ y | None, None => True | _, _ => False end.

Definition same_order (a b : CreateArgs) : Prop :=
  a_owner_user_id a = a_owner_user_id b /\ a_symbol a = a_symbol b /\ a_strategy a = a_strategy b /\
  a_quantity_lots a = a_quantity_lots b /\ a_trading_date a = a_trading_date b /\
  a_trail_mode a = a_trail_mode b /\
  opt_equiv (a_target_price_effective a) (a_target_price_effective b) /\
  opt_equiv (a_trail_value a) (a_trail_value b).

Lemma dedup_key_equiv s t t' m v v' p : opt_equiv t t' -> opt_equiv v v' ->
  build_dedup_key s t m v p = build_dedup_key s t' m v' p.
Proof.
  intros Ht Hv. destruct t, t', v, v'; cbn in Ht, Hv; try done; unfold build_dedup_key; cbn [default];
    by rewrite ?Ht, ?Hv.
Qed.

Lemma insert_checked_Ok {P} v f (w w' : world P) : insert_checked v f w = (Ok tt, w') ->
  v (pending w) = None /\ w' = with_pending (f (pending w)) w.
Proof. run_session. unfold id. destruct (v (pending w)); [done|]. by intros [= <-]. Qed.

Lemma flush_create_Ok {P} i a k (w w' : world P) : flush_create i a k w = (Ok tt, w') ->
  core_violation i (core_of_args a k (db_now w)) (pending w) = None /\
  cores (pending w') = <[i := core_of_args a k (db_now w)]> (cores (pending w)).
Proof.
  intros H. unfold flush_create in H.
  apply bind_Ok in H as (now & w1 & [= <- <-] & H).
  apply bind_Ok in H as ([] & w2 & Hc & H). apply insert_checked_Ok in Hc as [Hv ->]. split; [done|].
  apply bind_Ok in H as ([] & w3 & Hp & H).
  assert (cores (pending w3) = <[i := core_of_args a k (db_now w)]> (cores (pending w))) as <-.
  { destruct (a_target_price_effective a), (a_target_price_original a);
      first [by injection Hp as <- | by apply insert_checked_Ok in Hp as [_ ->]]. }
  destruct (String.eqb _ _), (a_trail_mode a), (a_trail_value a);
    first [by injection H as <- | by apply insert_checked_Ok in H as [_ ->]].
Qed.

(** A successful [create] found no duplicate and inserted its row. *)
Lemma create_Ok {P} (a : CreateArgs) (w w' : world P) i : create a w = (Ok i, w') ->
  let k := build_dedup_key (a_strategy a) (a_target_price_effective a) (a_trail_mode a) (a_trail_value a) None in
  i = next_id w /\
  select_where (fun _ c => is_duplicate a k c) (cores (pending w)) = [] /\
  core_violation i (core_of_args a k (db_now w)) (pending w) = None /\
  cores (pending w') = <[i := core_of_args a k (db_now w)]> (cores (pending w)).
Proof.
  unfold create. set (k := build_dedup_key _ _ _ _ _). intros H.
  apply bind_Ok in H as (u & w1 & Hc & H). injection Hc as _ <-.
  apply bind_Ok in H as (dup & w2 & [= <- <-] & H).
  destruct (select_where _ _) as [|x [|y l]] eqn:Hsel; [|done..].
  apply bind_Ok in H as (j & w3 & [= <- <-] & H).
  apply bind_Ok in H as (v & w4 & Hf & [= <- <-]).
  unfold try_except in Hf. destruct (flush_create _ _ _ _) as [[[]|e] w5] eqn:Hfl; [|by destruct e].
  injection Hf as _ <-. apply flush_create_Ok in Hfl as [Hv Hrow].
  split; [done|]. split; [done|]. split; [exact Hv|exact Hrow].
Qed.

(** Under the invariant at most one open row matches. *)
Lemma duplicates_unique d a k : schema_ok d -> a_strategy a <> TWAP_STRATEGY ->
  (length (select_where (fun _ c => is_duplicate a k c) (cores d)) <= 1)%nat.
Proof.
  intros Hok Hs. pose proof (select_NoDup (fun _ c => is_duplicate a k c) (cores d)) as Hnd.
  destruct (select_where _ _) as [|[i x] [|[j y] l]] eqn:He; cbn; [lia..|]. exfalso.
  assert (Hin : forall i x, (i, x) ∈ (i, x) :: (j, y) :: l -> True) by done. clear Hin.
  assert (Hx : (i, x) ∈ select_where (fun _ c => is_duplicate a k c) (cores d)) by (rewrite He; set_solver).
  assert (Hy : (j, y) ∈ select_where (fun _ c => is_duplicate a k c) (cores d)) by (rewrite He; set_solver).
  apply elem_of_select in Hx as [Hx Hdx], Hy as [Hy Hdy]. unfold is_duplicate in Hdx, Hdy. b2p.
  assert (i = j) as ->.
  { apply (open_unique d Hok i j x y); [done..|]. unfold same_duplicate_key.
    assert (c_strategy x <> TWAP_STRATEGY) by congruence. assert (c_strategy y <> TWAP_STRATEGY) by congruence.
    rewrite !(proj2 (String.eqb_neq _ _)) by done. cbn [orb].
    rewrite !andb_true_iff, !String.eqb_eq, !Z.eqb_eq. repeat split; congruence. }
  cbn in Hnd. apply NoDup_cons in Hnd as [Hnd _]. set_solver.
Qed.

(** An open order cannot be placed twice: after a successful [create], a
    second one with the same owner, symbol, strategy, quantity and trading date
    and numerically equal prices or trail values (however they are written)
    raises [DuplicateIntentError] and changes nothing. *)
Theorem create_rejects_equal_order {P} (a b : CreateArgs) (w w1 : world P) (i : uuid)
    (Hok : both schema_ok w) (Ha : create a w = (Ok i, w1)) (Hopen : is_open (a_status a) = true)
    (Hsame : same_order a b) (Hargs : check_create_args b = Ok tt) :
  create b w1 = (Raise (DuplicateIntentError (a_owner_user_id b) (a_symbol b) (a_strategy b)), w1).
Proof.
  assert (Hok1 : schema_ok (pending w1)).
  { apply (create_pres a (open_not_triggered _ Hopen) w (Ok i) w1 Hok Ha). }
  destruct (create_Ok a w w1 i Ha) as (_ & _ & _ & Hrows).
  destruct Hsame as (Ho & Hsy & Hst & Hq & Hd & Hm & Ht & Hv).
  assert (Htwap : a_strategy b <> TWAP_STRATEGY).
  { unfold check_create_args in Hargs. intros Heq. by rewrite (proj2 (String.eqb_eq _ _) Heq) in Hargs. }
  rewrite Hst, Hm, (dedup_key_equiv _ _ _ _ _ _ _ Ht Hv) in Hrows.
  unfold create. set (k := build_dedup_key _ _ _ _ _) in *.
  unfold bind at 1, lift. rewrite Hargs. unfold bind at 1, query, gets.
  pose proof (duplicates_unique (pending w1) b k Hok1 Htwap) as Hle.
  destruct (select_where _ _) as [|x [|y l]] eqn:Hsel; [exfalso|done|cbn in Hle; lia].
  rewrite select_empty in Hsel. specialize (Hsel i (core_of_args a k (db_now w))).
  rewrite Hrows in Hsel. specialize (Hsel (lookup_insert_eq _ _ _)). cbv beta in Hsel.
  unfold is_duplicate, core_of_args in Hsel. cbn [c_owner_user_id c_symbol c_strategy c_dedup_key c_quantity_lots
    c_trading_date c_status] in Hsel.
  rewrite Hopen, Ho, Hsy, Hst, Hq, Hd, !Z.eqb_refl, !String.eqb_refl in Hsel. done.
Qed.

Lemma create_rejects_equal_order_witness :
  let w := world_of sample_db in
  exists w1, create (sample_args 2 (Dec 600 0)) w = (Ok 100, w1) /\
    fst (create (sample_args 2 (Dec 6000000 (-4))) w1) =
      Raise (DuplicateIntentError 7 "2330" "buy_price_alert").
Proof.
  intros w. set (w1 := snd (create (sample_args 2 (Dec 600 0)) w)). exists w1.
  assert (H1 : create (sample_args 2 (Dec 600 0)) w = (Ok 100, w1)) by (vm_compute; reflexivity).
  split; [exact H1|].
  rewrite (create_rejects_equal_order (sample_args 2 (Dec 600 0)) (sample_args 2 (Dec 6000000 (-4))) w w1 100);
    [reflexivity|split; exact sample_schema|exact H1|reflexivity| |reflexivity].
  repeat split; vm_compute; reflexivity.
Defined.
