(* ===== verification/Template.v ===== *)
(** * Notification texts

    [src/app/services/notification_template.py]: the title and body of each
    kind of notification. *)

From S2P Require Import Prelude Decimal Datetime Json Errors Price Intent.

#[local] Open Scope string_scope.
#[local] Open Scope list_scope.
#[local] Open Scope Z_scope.

(** A zero-padded field of [strftime]. *)
Definition pad (w : nat) (n : Z) : string := unchars (low_digits w n).

(** [strftime("%Y-%m-%d %H:%M:%S")] *)
Definition strftime (dt : datetime) : string :=
  let '(y, m, d) := civil (dt_date dt) in
  let t := dt_time dt in
  (pad 4 y ++ "-" ++ pad 2 m ++ "-" ++ pad 2 d ++ " " ++
   pad 2 (t / HOUR) ++ ":" ++ pad 2 (t / MINUTE mod 60) ++ ":" ++ pad 2 (t / SECOND mod 60))%string.

Definition taipei_text (dt : datetime) : string := strftime (astimezone_taipei dt).

(** ["\n".join(lines)] *)
Definition newline : string := String (Ascii.ascii_of_nat 10) EmptyString.
Fixpoint join_lines (lines : list string) : string :=
  match lines with
  | [] => ""
  | [l] => l
  | l :: rest => (l ++ newline ++ join_lines rest)%string
  end.

(** A lookup in one of the label dictionaries. *)
Definition label_of (labels : list (string * string)) (k : string) : option string :=
  match List.find (fun kv => String.eqb (fst kv) k) labels with
  | Some (_, v) => Some v
  | None => None
  end.

Definition STRATEGY_LABELS : list (string * string) :=
  [("buy_price_alert", "買進到價提醒"); ("sell_price_alert", "賣出到價提醒")].
Definition LIMIT_ORDER_LABELS : list (string * string) :=
  [("limit_buy_order", "限價買單"); ("limit_sell_order", "限價賣單")].
Definition MARKET_ORDER_LABELS : list (string * string) :=
  [("market_order", "市價單"); ("market_buy_order", "市價買單"); ("market_sell_order", "市價賣單")].
Definition DISCLAIMER : string := "僅通知、未下單、不保證成交。".
Definition POSITION_LABELS : list (string * (string * string)) :=
  [("long", ("多單建倉", "買入")); ("short", ("空單建倉", "賣出"))].

(** The two checks every template starts with: the strategy (or mode) has a
    label and the time is aware. *)
Definition labelled {A} (what : string) (found : option A) (key : string) (t : datetime) : res A :=
  match found with
  | None => Raise (ValueError (what ++ ": '" ++ key ++ "'")%string)
  | Some v => if is_aware t then Ok v else Raise TypeError
  end.

(** [render_price_triggered] *)
Definition render_price_triggered (symbol strategy : string) (target_price trigger_price : dec)
    (quote_time : datetime) : res (string * string) :=
  let? label := labelled "Unsupported strategy for notification" (label_of STRATEGY_LABELS strategy)
                  strategy quote_time in
  Ok ((symbol ++ " 到價提醒已觸發")%string,
      join_lines
        [label; ""; ("標的：" ++ symbol)%string;
         ("目標價：" ++ format_price_str target_price)%string;
         ("觸發價：" ++ format_price_str trigger_price)%string;
         ("報價時間：" ++ taipei_text quote_time)%string; ""; DISCLAIMER]).

Definition fill_line (filled quantity : Z) : string :=
  ("成交 " ++ str_int filled ++ " 張 / 委託 " ++ str_int quantity ++ " 張")%string.

(** [render_limit_order_triggered] *)
Definition render_limit_order_triggered (symbol strategy : string) (target_price trigger_price : dec)
    (filled quantity : Z) (quote_time : datetime) : res (string * string) :=
  let? label := labelled "Unsupported limit order strategy for notification"
                  (label_of LIMIT_ORDER_LABELS strategy) strategy quote_time in
  Ok ((symbol ++ " " ++ label ++ "已觸發")%string,
      join_lines
        [("策略：" ++ label)%string; ("標的：" ++ symbol)%string;
         ("目標價：" ++ format_price_str target_price)%string;
         ("觸發價：" ++ format_price_str trigger_price)%string;
         fill_line filled quantity;
         ("報價時間：" ++ taipei_text quote_time)%string; ""; DISCLAIMER]).

(** [render_market_order_triggered] *)
Definition render_market_order_triggered (symbol strategy : string) (trigger_price : dec)
    (filled quantity : Z) (quote_time : datetime) : res (string * string) :=
  let? label := labelled "Unsupported market order strategy for notification"
                  (label_of MARKET_ORDER_LABELS strategy) strategy quote_time in
  Ok ((symbol ++ " " ++ label ++ "已觸發")%string,
      join_lines
        [("策略：" ++ label)%string; ("標的：" ++ symbol)%string;
         ("成交參考價：" ++ format_price_str trigger_price)%string;
         fill_line filled quantity;
         ("報價時間：" ++ taipei_text quote_time)%string; ""; DISCLAIMER]).

(** [text.rstrip('0').rstrip('.')] *)
Definition trim_decimals (s : string) : string := unchars (rstrip dot (rstrip zero_ch (chars s))).

(** [render_trailing_stop_triggered] *)
Definition render_trailing_stop_triggered (symbol trail_mode : string)
    (trail_value baseline dynamic_trigger_price trigger_price : dec)
    (trigger_reference_price_type : string) (quote_time : datetime) : res (string * string) :=
  let? percentage := labelled "Unsupported trail mode for notification"
      (label_of [("percentage", "percentage"); ("fixed_amount", "fixed_amount")] trail_mode)
      trail_mode quote_time in
  let '(mode_label, trail_text, trigger_formula) :=
    if String.eqb percentage "percentage" then
      ("百分比模式",
       (trim_decimals (format_price_str trail_value) ++ "%")%string,
       ("最高 × " ++ trim_decimals (format_price_str (dec_sub (Dec 100 0) trail_value)) ++ "%")%string)
    else
      ("固定點數模式",
       ("NT$" ++ format_price_str trail_value)%string,
       ("最高 - " ++ trim_decimals (format_price_str trail_value))%string) in
  Ok ((symbol ++ " 移動出場已觸發")%string,
      join_lines
        ["策略：移動出場";
         ("移動幅度：" ++ trail_text ++ "（" ++ mode_label ++ "）")%string;
         ("今日最高價：" ++ format_price_str baseline)%string;
         ("觸發價（" ++ trigger_formula ++ "）：" ++ format_price_str dynamic_trigger_price)%string;
         ("實際觸發成交價：" ++ format_price_str trigger_price ++ "（" ++ trigger_reference_price_type ++ "）")%string;
         ("報價時間：" ++ taipei_text quote_time)%string; ""; DISCLAIMER]).

(** [render_twap_slice] *)
Definition render_twap_slice (symbol position_side : string) (sequence_no total_slices planned : Z)
    (reference_price : option dec) (reference_price_type : option string) (quote_time : option datetime)
  : res (string * string) :=
  match List.find (fun kv => String.eqb (fst kv) position_side) POSITION_LABELS with
  | None => Raise (ValueError ("Unsupported TWAP position side: '" ++ position_side ++ "'")%string)
  | Some (_, (side_label, action_label)) =>
      if match quote_time with Some t => negb (is_aware t) | None => false end then Raise TypeError
      else
        let title := (symbol ++ " TWAP 第 " ++ str_int sequence_no ++ "/" ++ str_int total_slices ++ " 筆")%string in
        let head := [side_label; ("建議市價" ++ action_label ++ "：" ++ str_int planned ++ " 張")%string] in
        match reference_price with
        | None => Ok (title, join_lines (head ++ ["目前行情暫不可用，請自行確認市價。"]))
        | Some p =>
            match reference_price_type, quote_time with
            | Some ty, Some t =>
                Ok (title, join_lines (head ++
                  [("參考價：" ++ format_price_str p ++ "（" ++ ty ++ "）")%string;
                   ("報價時間：" ++ taipei_text t)%string]))
            | _, _ =>
                Raise (ValueError "TWAP price notification requires reference price type and quote time")
            end
        end
  end.

(** [render_twap_price_followup] *)
Definition render_twap_price_followup (symbol : string) (sequence_no total_slices : Z)
    (reference_price : dec) (reference_price_type : string) (sent_at : datetime) : res (string * string) :=
  if negb (is_aware sent_at) then Raise TypeError
  else
    Ok ((symbol ++ " TWAP 候補價格")%string,
        join_lines
          [("第 " ++ str_int sequence_no ++ "/" ++ str_int total_slices ++ " 筆參考價：" ++
              format_price_str reference_price ++ "（" ++ reference_price_type ++ "）")%string;
           ("補發時間：" ++ taipei_text sent_at)%string; "此為稍後補發的價格資訊。"]).

Lemma labelled_Ok {A} what (found : option A) key t v : found = Some v -> is_aware t = true ->
  labelled what found key t = Ok v.
Proof. unfold labelled. by intros -> ->. Qed.
