(* ===== verification/Trigger.v ===== *)
(** * Firing an intent

    [src/app/commands/trigger_intent_core.py]: writing the trigger, the
    notification and the new status of an intent, and storing the baseline of
    a trailing stop. *)

From S2P Require Import Prelude Decimal Datetime Errors Price Intent Evaluation Template Tables Store CoreSchema IntentRepo Samples.

#[local] Open Scope string_scope.
#[local] Open Scope list_scope.
#[local] Open Scope Z_scope.

(** [TriggerCoreInput]; the JSONB snapshot is the quote it serialises. *)
Record TriggerCoreInput : Type := mkTriggerInput {
  t_trigger_price : dec;
  t_trigger_reference_price_type : string;
  t_fallback_used : bool;
  t_quote_snapshot : QuoteSnapshot;
  t_quote_time : datetime;
}.

(** What a firing records besides the trigger price. *)
Record rendering : Type := mkRendering {
  notification_type : string;
  r_target : option dec;
  r_baseline : option dec;
  r_dynamic : option dec;
  r_title : string;
  r_body : string;
}.

(** The branches of [persist_core_trigger] by strategy. *)
Definition render_trigger (i : TradeIntentData) (inp : TriggerCoreInput) : res rendering :=
  let strategy := i_strategy i in
  let price := t_trigger_price inp in
  let time := t_quote_time inp in
  if str_in strategy MARKET_ORDER_STRATEGIES then
    let? tb := render_market_order_triggered (i_symbol i) strategy price (i_quantity_lots i)
                 (i_quantity_lots i) time in
    Ok (mkRendering "market_order_triggered" (Some price) None None (fst tb) (snd tb))
  else if str_in strategy ["limit_buy_order"; "limit_sell_order"] then
    match i_target_price_effective i with
    | None => Raise (RuntimeError "limit order trigger requires target_price_effective")
    | Some target =>
        let? tb := render_limit_order_triggered (i_symbol i) strategy target price (i_quantity_lots i)
                     (i_quantity_lots i) time in
        Ok (mkRendering "limit_order_triggered" (Some target) None None (fst tb) (snd tb))
    end
  else if String.eqb strategy "trailing_stop_alert" then
    match i_baseline i, i_dynamic_trigger_price i with
    | Some baseline, Some dynamic =>
        match i_trail_mode i, i_trail_value i with
        | Some mode, Some value =>
            let? tb := render_trailing_stop_triggered (i_symbol i) mode value baseline dynamic price
                         (t_trigger_reference_price_type inp) time in
            Ok (mkRendering "trailing_stop_triggered" (Some dynamic) (Some baseline) (Some dynamic)
                  (fst tb) (snd tb))
        | None, _ => Raise (ValueError "Unsupported trail mode for notification: None")
        | Some _, None => Raise TypeError
        end
    | _, _ => Raise (RuntimeError "trailing trigger requires baseline and dynamic_trigger_price")
    end
  else
    match i_target_price_effective i with
    | None => Raise (RuntimeError "price alert trigger requires target_price_effective")
    | Some target =>
        let? tb := render_price_triggered (i_symbol i) strategy target price time in
        Ok (mkRendering "price_triggered" (Some target) None None (fst tb) (snd tb))
    end.

Section Trigger.
  Context {P : Type}.

Definition insert_trigger (i : uuid) (r : TriggerRow) : M P unit :=
  insert_checked (trigger_violation i r) (fun d => set_triggers (<[i := r]> (triggers d)) d).
Definition insert_notification (i : uuid) (r : NotificationRow) : M P unit :=
  insert_checked (notification_violation i r) (fun d => set_notifications (<[i := r]> (notifications d)) d).

Definition trigger_row_of (i : TradeIntentData) (inp : TriggerCoreInput) (r : rendering) (target : dec)
    (now : datetime) : TriggerRow :=
  mkTrigger (i_id i) (i_owner_user_id i) (i_symbol i) (t_quote_snapshot inp) target (t_trigger_price inp)
    (t_trigger_reference_price_type inp) (t_fallback_used inp) (i_quantity_lots i) (r_baseline r)
    (r_dynamic r) now.

Definition notification_row_of (i : TradeIntentData) (r : rendering) (now : datetime) : NotificationRow :=
  mkNotification (i_owner_user_id i) None (Some (i_id i)) (notification_type r) (r_title r) (r_body r)
    None now now.

(** The guarded UPDATE: [WHERE id = :id AND status = 'active']. *)
Definition trigger_guard (i : TradeIntentData) (k : uuid) (c : CoreRow) : bool :=
  (k =? i_id i) && String.eqb (c_status c) "active".
Definition mark_triggered (i : TradeIntentData) : M P Z :=
  do now <- sql_now;
  update_counting (trigger_guard i) (fun c =>
    core_set "triggered" (c_cancelled_at c) (Some now) (Some now) (i_quantity_lots i) now c).

(** The statements under the [try]: the added rows reach the database at the
    flush, after the UPDATE. *)
Definition write_trigger (i : TradeIntentData) (trigger_id notification_id : uuid)
    (trigger_row : TriggerRow) (notification_row : NotificationRow) : M P unit :=
  do rowcount <- mark_triggered i;
  if rowcount =? 0 then raise (CoreIntentNotActiveError (i_id i))
  else
    do_ insert_trigger trigger_id trigger_row;
    insert_notification notification_id notification_row.

(** [except IntegrityError]: the unique index on the intent is the expected
    race, anything else is re-raised. *)
Definition translate_duplicate (i : TradeIntentData) (e : exn) : exn :=
  match e with
  | IntegrityError constraint =>
      if String.eqb constraint "uq_trade_intent_triggers_trade_intent_id" then DuplicateTriggerError (i_id i) else e
  | _ => e
  end.

(** [persist_core_trigger] *)
Definition persist_core_trigger (i : TradeIntentData) (inp : TriggerCoreInput) : M P unit :=
  do r <- lift (render_trigger i inp);
  match r_target r with
  | None => raise (RuntimeError "trigger requires target_price_effective")
  | Some target =>
      do now <- sql_now;
      do trigger_id <- uuid4;
      do notification_id <- uuid4;
      do_ try_except
            (write_trigger i trigger_id notification_id (trigger_row_of i inp r target now)
               (notification_row_of i r now))
            (fun e => raise (translate_duplicate i e));
      send_message (mkMessage (r_title r) (r_body r) (notification_type r))
  end.

(** [apply_trailing_baseline_update] *)
Definition apply_trailing_baseline_update (i : TradeIntentData) (r : EvaluationResult) : M P TradeIntentData :=
  do_ system_update_trailing_baseline (i_id i) (e_baseline r) (e_dynamic_trigger_price r)
        (e_baseline_updated_at r);
  ret (intent_with_baseline i (e_baseline r) (e_dynamic_trigger_price r) (e_baseline_updated_at r)).

End Trigger.

(** ** What firing does to the tables *)

Lemma update_where_one {A} (p : uuid -> A -> bool) (f : A -> A) (m : gmap uuid A) k a :
  m !! k = Some a -> p k a = true -> (forall j b, m !! j = Some b -> p j b = true -> j = k) ->
  update_where p f m = <[k := f a]> m.
Proof.
  intros Ha Hp Hu. apply map_eq. intros j. rewrite lookup_update.
  destruct (decide (j = k)) as [->|Hj]; [by rewrite Ha, lookup_insert_eq; cbn; rewrite Hp|].
  rewrite lookup_insert_ne by done. destruct (m !! j) as [b|] eqn:Hb; [|done]. cbn.
  destruct (p j b) eqn:Hpb; [|done]. by destruct Hj; apply (Hu j b).
Qed.

Lemma guard_iff i m : count_where (trigger_guard i) m = 0 <->
  (forall c, m !! i_id i = Some c -> c_status c <> "active").
Proof.
  rewrite count_zero. unfold trigger_guard. split.
  - intros H c Hc Hs. specialize (H (i_id i) c Hc). by rewrite Z.eqb_refl, (proj2 (String.eqb_eq _ _) Hs) in H.
  - intros H k c Hc. destruct (Z.eqb_spec k (i_id i)) as [->|]; [|done]. cbn.
    apply String.eqb_neq. by apply H.
Qed.

Definition triggered_row (i : TradeIntentData) (now : datetime) (c : CoreRow) : CoreRow :=
  core_set "triggered" (c_cancelled_at c) (Some now) (Some now) (i_quantity_lots i) now c.

Lemma guard_update i now (m : gmap uuid CoreRow) c : m !! i_id i = Some c -> c_status c = "active" ->
  update_where (trigger_guard i) (triggered_row i now) m = <[i_id i := triggered_row i now c]> m.
Proof.
  intros Hc Hs. apply update_where_one; [done| |].
  - unfold trigger_guard. by rewrite Z.eqb_refl, (proj2 (String.eqb_eq _ _) Hs).
  - unfold trigger_guard. by intros j b _ [Hj%Z.eqb_eq _]%andb_true_iff.
Qed.

(** Marking an active intent triggered together with its first trigger row
    keeps the invariant. *)
Lemma fire_schema_ok d i now c tid row : schema_ok d -> cores d !! i_id i = Some c -> c_status c = "active" ->
  0 <= i_quantity_lots i -> triggers d !! tid = None -> g_trade_intent_id row = i_id i ->
  schema_ok (set_triggers (<[tid := row]> (triggers d))
    (set_cores (<[i_id i := triggered_row i now c]> (cores d)) d)).
Proof.
  intros Hok Hc Hs Hq Htid Hg. pose proof (core_rows_ok d Hok _ _ Hc) as Hck.
  destruct Hok as [H1 H2 H3 H4 H5 H6].
  assert (Hold : forall j a, triggers d !! j = Some a -> g_trade_intent_id a <> i_id i).
  { intros j a Ha Heq. destruct (H4 j a Ha) as (r & Hr & Hrs). rewrite Heq, Hc in Hr. injection Hr as <-. congruence. }
  split; cbn [cores triggers price_params trailing_params set_cores set_triggers].
  - intros k r Hk. apply lookup_insert_Some in Hk as [[<- <-]|[Hne Hk]]; [|by eapply H1].
    by apply core_set_checks.
  - intros k l a b Hk Hl Ha Hb Hkey.
    apply lookup_insert_Some in Hk as [[<- <-]|[Hk1 Hk]]; [done|].
    apply lookup_insert_Some in Hl as [[<- <-]|[Hl1 Hl]]; [done|]. by eapply H2.
  - intros k l a b Hk Hl Heq.
    apply lookup_insert_Some in Hk as [[<- <-]|[Hk1 Hk]]; apply lookup_insert_Some in Hl as [[<- <-]|[Hl1 Hl]].
    + done.
    + destruct (Hold l b Hl). congruence.
    + destruct (Hold k a Hk). congruence.
    + by eapply H3.
  - intros k a Hk. apply lookup_insert_Some in Hk as [[<- <-]|[Hk1 Hk]].
    + rewrite Hg. eexists. rewrite lookup_insert_eq. done.
    + destruct (H4 k a Hk) as (r & Hr & Hrs). exists r. split; [|done].
      rewrite lookup_insert_ne; [done|]. apply not_eq_sym. by eapply Hold.
  - intros k r Hk Hrs. apply lookup_insert_Some in Hk as [[<- <-]|[Hne Hk]].
    + exists tid, row. by rewrite lookup_insert_eq.
    + destruct (H5 k r Hk Hrs) as (j & a & Ha & Heq). exists j, a. split; [|done].
      rewrite lookup_insert_ne; [done|]. intros ->. congruence.
  - intros k [Hk _]%lookup_insert_None. by apply H6.
Qed.

(** The statements under the [try]. *)
Lemma write_trigger_cases {P} i tid nid trow nrow (w w' : world P) r :
  g_trade_intent_id trow = i_id i -> g_filled_quantity_lots trow = i_quantity_lots i ->
  write_trigger i tid nid trow nrow w = (r, w') ->
  same_env w w' /\ outbox w' = outbox w /\
  match r with
  | Ok _ => exists c, cores (pending w) !! i_id i = Some c /\ c_status c = "active" /\
      triggers (pending w) !! tid = None /\ 0 <= i_quantity_lots i /\
      pending w' = set_notifications (<[nid := nrow]> (notifications (pending w)))
        (set_triggers (<[tid := trow]> (triggers (pending w)))
          (set_cores (<[i_id i := triggered_row i (db_now w) c]> (cores (pending w))) (pending w)))
  | Raise e =>
      ((forall c, cores (pending w) !! i_id i = Some c -> c_status c <> "active") /\
         e = CoreIntentNotActiveError (i_id i)) \/
      (exists c k, cores (pending w) !! i_id i = Some c /\ c_status c = "active" /\ e = IntegrityError k)
  end.
Proof.
  intros Hg Hq. unfold write_trigger, mark_triggered, update_counting, update_cores. run_session.
  destruct (Z.eqb_spec (count_where (trigger_guard i) (cores (pending w))) 0) as [Hz|Hz].
  { intros [= <- <-]. split; [done|]. split; [done|]. left. split; [by apply guard_iff|done]. }
  assert (Hc : exists c, cores (pending w) !! i_id i = Some c /\ c_status c = "active").
  { rewrite guard_iff in Hz. destruct (cores (pending w) !! i_id i) as [c|] eqn:Hc; [|by destruct Hz].
    exists c. split; [done|]. apply dec_stable. intros Hn. apply Hz. by intros ? [= <-]. }
  destruct Hc as (c & Hc & Hs). unfold insert_trigger, insert_notification.
  change (fun c0 => core_set "triggered" (c_cancelled_at c0) (Some (db_now w)) (Some (db_now w))
    (i_quantity_lots i) (db_now w) c0) with (triggered_row i (db_now w)).
  rewrite (guard_update i (db_now w) _ c Hc Hs). unfold insert_checked. run_session. unfold id. cbn [pending with_pending].
  set (d1 := set_cores _ _). destruct (trigger_violation tid trow d1) as [k|] eqn:Hv.
  { intros [= <- <-]. split; [done|]. split; [done|]. right. by exists c, k. }
  match goal with |- context [notification_violation nid nrow ?x] =>
    destruct (notification_violation nid nrow x) as [k|] eqn:Hv2 end.
  { intros [= <- <-]. split; [done|]. split; [done|]. right. by exists c, k. }
  intros [= <- <-]. split; [done|]. split; [done|]. exists c. split; [done|]. split; [done|].
  unfold trigger_violation in Hv. apply first_violation_none, Forall_app in Hv as [Hch Hu].
  unfold trigger_checks in Hch. rewrite !Forall_cons in Hch, Hu. cbn [fst] in Hch, Hu.
  destruct Hch as (_ & _ & _ & _ & Hf & _). destruct Hu as (Hpk & _). rewrite Z.leb_le, Hq in Hf.
  split; [|by split]. cbn in Hpk. by destruct (triggers (pending w) !! tid).
Qed.

(** What [persist_core_trigger] does, whatever the state it runs in. *)
Lemma persist_cases {P} i inp (w w' : world P) r : persist_core_trigger i inp w = (r, w') ->
  same_env w w' /\
  match r with
  | Ok _ => exists c x target tid nid,
      render_trigger i inp = Ok x /\ r_target x = Some target /\
      cores (pending w) !! i_id i = Some c /\ c_status c = "active" /\
      triggers (pending w) !! tid = None /\ 0 <= i_quantity_lots i /\
      pending w' = set_notifications (<[nid := notification_row_of i x (db_now w)]> (notifications (pending w)))
        (set_triggers (<[tid := trigger_row_of i inp x target (db_now w)]> (triggers (pending w)))
          (set_cores (<[i_id i := triggered_row i (db_now w) c]> (cores (pending w))) (pending w))) /\
      outbox w' = outbox w ++ [mkMessage (r_title x) (r_body x) (notification_type x)]
  | Raise e => outbox w' = outbox w /\
      (render_trigger i inp = Raise e \/ (exists m, e = RuntimeError m) \/
       ((forall c, cores (pending w) !! i_id i = Some c -> c_status c <> "active") /\
          e = CoreIntentNotActiveError (i_id i)) \/
       (exists c k, cores (pending w) !! i_id i = Some c /\ c_status c = "active" /\
          e = translate_duplicate i (IntegrityError k)))
  end.
Proof.
  unfold persist_core_trigger. intros H. unfold bind at 1, lift in H.
  destruct (render_trigger i inp) as [x|e] eqn:Hx; [|injection H as <- <-; naive_solver].
  destruct (r_target x) as [target|] eqn:Htg.
  2: { unfold raise in H. injection H as <- <-. split; [done|]. split; [done|]. right. left. by eexists. }
  unfold bind at 1, sql_now, gets, bind at 1, uuid4 in H. unfold bind at 1 in H.
  unfold bind, try_except in H.
  match type of H with context [write_trigger ?i ?t ?n ?tr ?nr ?w1] =>
    destruct (write_trigger i t n tr nr w1) as [r1 w2] eqn:Hw;
    destruct (write_trigger_cases i t n tr nr w1 w2 r1 eq_refl eq_refl Hw) as (Hd & Ho & Hcase)
  end.
  cbn [durable outbox pending db_now app_now cores] in *. destruct r1 as [[]|e].
  - unfold send_message, modify in H. injection H as <- <-. cbn [durable outbox pending app_now db_now]. split; [done|].
    destruct Hcase as (c & Hc & Hs & Hf & Hq & Hp). exists c, x, target. do 2 eexists.
    repeat (split; [done|]). by rewrite Ho.
  - unfold raise in H. injection H as <- <-. split; [done|]. split; [done|].
    destruct Hcase as [[Hn ->]|(c & k & Hc & Hs & ->)]; [right; right; left; done|].
    right. right. right. by exists c, k.
Qed.

Lemma persist_safe {P} i inp : safe (P := P) schema_ok (persist_core_trigger i inp).
Proof.
  intros w r w' [Hd Hp] H. destruct (persist_cases i inp w w' r H) as [(-> & _) Hcase]. split; [done|].
  destruct r as [[]|e]; [|done]. intros _.
  destruct Hcase as (c & x & target & tid & nid & _ & _ & Hc & Hs & Hf & Hq & -> & _).
  pose proof (fire_schema_ok (pending w) i (db_now w) c tid (trigger_row_of i inp x target (db_now w))
    Hp Hc Hs Hq Hf eq_refl) as Hok.
  refine (schema_ok_frame _ _ _ _ _ _ Hok); reflexivity.
Qed.

(** C8. Firing is all or nothing and happens at most once: when
    [persist_core_trigger] returns, the stored intent was active (whatever the
    caller's copy says) and is now triggered, with exactly one new trigger row,
    one new notification and one Telegram message; when it raises, no message
    was sent; and firing the same intent again, from any copy of it, raises and
    sends nothing. *)
Theorem persist_core_trigger_once {P} (i : TradeIntentData) (inp : TriggerCoreInput) (w w' : world P)
    (r : res unit) (Hok : schema_ok (pending w)) (H : persist_core_trigger i inp w = (r, w')) :
  match r with
  | Ok _ => exists c tid trow nid nrow msg,
      cores (pending w) !! i_id i = Some c /\ c_status c = "active" /\
      cores (pending w') = <[i_id i := triggered_row i (db_now w) c]> (cores (pending w)) /\
      triggers (pending w) !! tid = None /\ triggers (pending w') = <[tid := trow]> (triggers (pending w)) /\
      g_trade_intent_id trow = i_id i /\ g_trigger_price trow = t_trigger_price inp /\
      notifications (pending w') = <[nid := nrow]> (notifications (pending w)) /\
      n_trade_intent_core_id nrow = Some (i_id i) /\
      outbox w' = outbox w ++ [msg] /\ m_body msg = n_rendered_body nrow /\ schema_ok (pending w')
  | Raise _ => outbox w' = outbox w
  end /\
  (is_ok r = true -> forall j inp2 r2 w2, i_id j = i_id i -> persist_core_trigger j inp2 w' = (r2, w2) ->
     is_ok r2 = false /\ outbox w2 = outbox w').
Proof.
  destruct (persist_cases i inp w w' r H) as [Hd Hcase].
  destruct r as [[]|e]; [|split; [by destruct Hcase|done]].
  destruct Hcase as (c & x & target & tid & nid & _ & _ & Hc & Hs & Hf & Hq & Hp & Ho).
  assert (Hok' : schema_ok (pending w')).
  { rewrite Hp. refine (schema_ok_frame _ _ _ _ _ _ (fire_schema_ok (pending w) i (db_now w) c tid
      (trigger_row_of i inp x target (db_now w)) Hok Hc Hs Hq Hf eq_refl)); reflexivity. }
  split.
  - exists c, tid. do 4 eexists. split; [done|]. split; [done|]. rewrite Hp at 1 2 3.
    cbn [cores triggers notifications set_cores set_triggers set_notifications].
    split; [done|]. split; [done|]. split; [reflexivity|]. split; [done|]. split; [done|].
    split; [reflexivity|]. split; [done|]. split; [exact Ho|]. done.
  - intros _ j inp2 r2 w2 Hj H2. destruct (persist_cases j inp2 w' w2 r2 H2) as [_ Hcase2].
    destruct r2 as [[]|e]; [exfalso|by destruct Hcase2].
    destruct Hcase2 as (c2 & _ & _ & _ & _ & _ & _ & Hc2 & Hs2 & _).
    rewrite Hp, Hj in Hc2. cbn in Hc2. rewrite lookup_insert_eq in Hc2. injection Hc2 as <-. done.
Qed.

Definition sample_input : TriggerCoreInput :=
  mkTriggerInput (Dec 5995 (-1)) "ask" false (quote_at None (Some (Dec 5995 (-1))) None) sample_time.

Lemma persist_core_trigger_once_witness :
  let w := world_of open_db in
  exists w', persist_core_trigger open_intent sample_input w = (Ok tt, w') /\
    length (outbox w') = 1%nat /\ count_where (fun _ c => String.eqb (c_status c) "triggered") (cores (pending w')) = 1 /\
    is_ok (fst (persist_core_trigger open_intent sample_input w')) = false.
Proof.
  intros w. set (w' := snd (persist_core_trigger open_intent sample_input w)). exists w'.
  assert (H : persist_core_trigger open_intent sample_input w = (Ok tt, w')) by (vm_compute; reflexivity).
  split; [exact H|]. split; [vm_compute; reflexivity|]. split; [vm_compute; reflexivity|].
  refine (proj1 (proj2 (persist_core_trigger_once open_intent sample_input w w' (Ok tt) open_schema H)
    eq_refl open_intent sample_input _ _ eq_refl (surjective_pairing _))).
Defined.
