(* ===== verification/Quotes.v ===== *)
(** * Quote sources and subscriptions

    The in-memory provider ([services/quote/in_memory.py]), the quote
    validator ([services/quote/validation.py]) and the subscription
    reconciler ([services/quote/intent_reconciler.py]). *)

From S2P Require Import Prelude Decimal Datetime Errors TradingSession Intent Evaluation Tables Store IntentRepo.

#[local] Open Scope string_scope.
#[local] Open Scope list_scope.
#[local] Open Scope Z_scope.

(** ** [InMemoryQuoteProvider] *)

Record InMemoryQuoteProvider : Type := mkInMemory {
  im_snapshots : gmap string QuoteSnapshot;
  im_subscribed : gset string;
}.

(** [get_quotes]: the first symbol without a snapshot is reported. *)
Definition im_get_quotes (p : InMemoryQuoteProvider) (symbols : list string) : res (list QuoteSnapshot) :=
  match List.filter (fun s => is_none (im_snapshots p !! s)) symbols with
  | missing :: _ => Raise (QuoteUnavailableError missing)
  | [] => Ok (omap (fun s => im_snapshots p !! s) symbols)
  end.

(** [subscribe] *)
Definition im_subscribe (p : InMemoryQuoteProvider) (symbol : string) : res InMemoryQuoteProvider :=
  Ok (mkInMemory (im_snapshots p) ({[symbol]} ∪ im_subscribed p)).

(** [unsubscribe]: the stale snapshot goes with the subscription. *)
Definition im_unsubscribe (p : InMemoryQuoteProvider) (symbol : string) : res InMemoryQuoteProvider :=
  Ok (mkInMemory (delete symbol (im_snapshots p)) (im_subscribed p ∖ {[symbol]})).

Definition im_active_subscriptions (p : InMemoryQuoteProvider) : list string := elements (im_subscribed p).

(** [shutdown] *)
Definition im_shutdown (_ : InMemoryQuoteProvider) : InMemoryQuoteProvider := mkInMemory ∅ ∅.

(** The state part of [push_quote]; the listeners run afterwards. *)
Definition im_push_quote (p : InMemoryQuoteProvider) (q : QuoteSnapshot) : InMemoryQuoteProvider :=
  mkInMemory (<[q_symbol q := q]> (im_snapshots p)) ({[q_symbol q]} ∪ im_subscribed p).

#[export] Instance in_memory_provider : QuoteProvider InMemoryQuoteProvider := {
  get_quotes := im_get_quotes;
  subscribe := im_subscribe;
  unsubscribe := im_unsubscribe;
  active_subscriptions := im_active_subscriptions;
  get_current_price := None;
}.

(** ** The reconciler *)

Section Reconcile.
  Context {P : Type} `{QuoteProvider P}.

(** A provider call that changes the provider's state. *)
Definition provider_call (f : P -> res P) : M P unit :=
  do p <- gets provider;
  do p' <- lift (f p);
  modify (with_provider p').

(** [reconcile_on_create] *)
Definition reconcile_on_create (symbol : string) : M P unit :=
  do p <- gets provider;
  if str_in symbol (active_subscriptions p) then ret tt
  else provider_call (fun p => subscribe p symbol).

(** [reconcile_on_terminal] *)
Definition reconcile_on_terminal (symbol : string) (other_active_count : Z) : M P unit :=
  if 0 <? other_active_count then ret tt else provider_call (fun p => unsubscribe p symbol).

(** [reconcile_after_terminal_transition] *)
Definition reconcile_after_terminal_transition (symbol : string) : M P unit :=
  do remaining <- count_active_or_scheduled_for_symbol symbol;
  reconcile_on_terminal symbol remaining.

Lemma provider_call_quiet f : quiet (provider_call f).
Proof. intros w r w'. unfold provider_call. run_prog. destruct (f (provider w)); by intros [= _ <-]. Qed.

Lemma reconcile_on_create_quiet symbol : quiet (reconcile_on_create symbol).
Proof.
  intros w r w'. unfold reconcile_on_create, bind, gets. case_match; [by intros [= _ <-]|]. apply provider_call_quiet.
Qed.

Lemma reconcile_after_quiet symbol : quiet (reconcile_after_terminal_transition symbol).
Proof.
  intros w r w'. unfold reconcile_after_terminal_transition, count_active_or_scheduled_for_symbol,
    reconcile_on_terminal, bind, query, gets. case_match; [by intros [= _ <-]|]. apply provider_call_quiet.
Qed.

End Reconcile.

(** ** [QuoteValidator] *)

(** [validate]: the snapshot with its [fallback_used] flag. *)
Definition quote_validate (q : QuoteSnapshot) (now : datetime) : res (QuoteSnapshot * bool) :=
  let fail reason := Raise (QuoteValidationError reason (q_symbol q)) in
  let? now_ok := is_within_regular_session now in
  if negb now_ok then fail "now outside regular session"
  else
    let? quote_ok := is_within_regular_session (quote_time q) in
    if negb quote_ok then fail "quote_time outside regular session"
    else if is_none (bid_price q) && is_none (ask_price q) && is_none (last_price q) then
      fail "bid, ask, and last all missing"
    else
      let bad (p : option dec) := match p with Some x => dec_leb x (Dec 0 0) | None => false end in
      if bad (bid_price q) then fail "bid_price must be > 0"
      else if bad (ask_price q) then fail "ask_price must be > 0"
      else if bad (last_price q) then fail "last_price must be > 0"
      else
        match bid_price q, ask_price q with
        | Some b, Some a =>
            if dec_ltb a b then fail "bid_price > ask_price (crossed quote)" else Ok (q, false)
        | _, _ =>
            if is_none (last_price q) then fail "missing both bid/ask and last for fallback"
            else Ok (q, true)
        end.

(** What a usable price quote is. *)
Definition both_sides (q : QuoteSnapshot) : bool := is_some (bid_price q) && is_some (ask_price q).

(** The validator of the trigger path accepts a quote exactly when both
    clocks are aware and in session, the evaluator's own checks pass and there
    is a price to use: both sides of the book, or else a last price, in which
    case the quote is flagged as a fallback.  It never changes the quote. *)
Theorem quote_validate_accepts (q q' : QuoteSnapshot) (now : datetime) (fallback : bool) :
  quote_validate q now = Ok (q', fallback) <->
    q' = q /\ is_aware now = true /\ in_session now = true /\ is_aware (quote_time q) = true /\
    in_session (quote_time q) = true /\ validate_quote q = None /\ fallback = negb (both_sides q) /\
    (both_sides q = true \/ is_some (last_price q) = true).
Proof.
  unfold quote_validate, validate_quote, both_sides.
  destruct (is_aware now) eqn:Hn; [rewrite (is_within_aware now Hn)|rewrite (is_within_naive now Hn); naive_solver].
  cbn [rbind]. destruct (in_session now); cbn [negb]; [|naive_solver].
  destruct (is_aware (quote_time q)) eqn:Hq; [rewrite (is_within_aware _ Hq)|rewrite (is_within_naive _ Hq); naive_solver].
  cbn [rbind]. destruct (in_session (quote_time q)); cbn [negb]; [|naive_solver].
  unfold price_list, of_int. destruct (bid_price q) as [b|], (ask_price q) as [a|], (last_price q) as [l|]; cbn;
    repeat (match goal with |- context [dec_leb ?x ?y] => destruct (dec_leb x y); cbn
                          | |- context [dec_ltb ?x ?y] => destruct (dec_ltb x y); cbn end); naive_solver.
Qed.
