(* ===== verification/Shioaji.v ===== *)
(** * The broker-backed quote provider

    [src/app/services/quote/shioaji_demo]: the allowlist, the subscription
    quota, the merging of tick and order-book updates and the provider's state.
    The client that wraps the broker's SDK is an interface.  A lock makes every
    operation atomic, so the broker's threads are an interleaving of steps. *)

From S2P Require Import Prelude Decimal Datetime Json Errors Intent Tables Store Samples Quotes.

#[local] Open Scope string_scope.
#[local] Open Scope list_scope.
#[local] Open Scope Z_scope.

(** ** Allowlist and quota *)

Definition DEFAULT_DEMO_ALLOWED_SYMBOLS : gset string := {["2330"; "2317"; "0050"; "00878"]}.
Definition DEFAULT_MAX_SUBSCRIPTIONS : Z := 5.

(** [parse_allowlist_override] *)
Definition allow_tokens (raw : string) : list string :=
  List.filter (fun t => negb (String.eqb t ""))
    ((fun w => unchars (strip w)) <$> split_at "," (chars raw)).
Definition parse_allowlist_override (raw : option string) : gset string :=
  match raw with
  | None | Some "" => DEFAULT_DEMO_ALLOWED_SYMBOLS
  | Some text =>
      match allow_tokens text with
      | [] => DEFAULT_DEMO_ALLOWED_SYMBOLS
      | tokens => list_to_set tokens
      end
  end.

(** ** Merging updates *)

(** [TickPayload] and [BidAskPayload] *)
Record TickPayload : Type := mkTick { tk_symbol : string; tk_last_price : dec; tk_quote_time : datetime }.
Record BidAskPayload : Type := mkBidAsk {
  ba_symbol : string;
  ba_bid_price : option dec;
  ba_ask_price : option dec;
  ba_quote_time : datetime;
}.

(** [_merge_field]: [None] is [_UNSET], keep the previous value. *)
Definition merge_field (value : option (option dec)) (previous : option dec) : option dec :=
  match value with None => previous | Some v => v end.

(** [build_snapshot]; [received_at] is [now_utc()]. *)
Definition build_snapshot (symbol : string) (previous : option QuoteSnapshot) (bid ask last : option (option dec))
    (quote_time received_at : datetime) : QuoteSnapshot :=
  mkQuote symbol (merge_field bid (previous ≫= bid_price)) (merge_field ask (previous ≫= ask_price))
    (merge_field last (previous ≫= last_price)) quote_time received_at.

(** ** The client and the provider *)

(** [ShioajiClient]: what the provider calls; [C] is the state of the SDK. *)
Class ShioajiClient (C : Type) : Type := {
  cl_login : prog C exn unit;
  cl_logout : prog C exn unit;
  cl_set_handlers : prog C exn unit;
  cl_subscribe : string -> prog C exn unit;
  cl_unsubscribe : string -> prog C exn unit;
  cl_get_stock_snapshot : C -> string -> res QuoteSnapshot;
}.

(** [ShioajiQuoteProvider]; its listeners run after the operation, outside the
    lock. *)
Record ShioajiQuoteProvider (C : Type) : Type := mkShioaji {
  sp_client : C;
  sp_allowed : gset string;
  sp_max : Z;
  sp_snapshots : gmap string QuoteSnapshot;
  sp_subscribed : gset string;
  sp_started : bool;
}.
Arguments mkShioaji {C}.
Arguments sp_client {C}.
Arguments sp_allowed {C}.
Arguments sp_max {C}.
Arguments sp_snapshots {C}.
Arguments sp_subscribed {C}.
Arguments sp_started {C}.

Definition sp_with {C} (client : C) (snapshots : gmap string QuoteSnapshot) (subscribed : gset string) (started : bool)
    (p : ShioajiQuoteProvider C) : ShioajiQuoteProvider C :=
  mkShioaji client (sp_allowed p) (sp_max p) snapshots subscribed started.

Section Provider.
  Context {C : Type} `{ShioajiClient C}.
  Notation S A := (prog (ShioajiQuoteProvider C) exn A).

(** [__init__] *)
Definition sp_init (client : C) (allowed : gset string) (max : Z) : ShioajiQuoteProvider C :=
  mkShioaji client allowed max ∅ ∅ false.

(** A call on [self._client]. *)
Definition on_client {A} (c : prog C exn A) : S A := fun p =>
  let '(r, client) := c (sp_client p) in
  (r, sp_with client (sp_snapshots p) (sp_subscribed p) (sp_started p) p).
Definition set_state (snapshots : gmap string QuoteSnapshot) (subscribed : gset string) (started : bool) : S unit :=
  modify (fun p => sp_with (sp_client p) snapshots subscribed started p).

Definition not_started {A} : S A := raise (QuoteProviderUnavailableError "shioaji" (Some "provider not started; call startup() first")).

(** [startup] *)
Definition sp_startup : S unit :=
  do started <- gets sp_started;
  if started then ret tt
  else
    do_ on_client cl_login;
    do_ on_client cl_set_handlers;
    do p <- gets id;
    set_state (sp_snapshots p) (sp_subscribed p) true.

(** [shutdown] *)
Definition sp_shutdown : S unit :=
  do started <- gets sp_started;
  if negb started then ret tt
  else
    do subscribed <- gets sp_subscribed;
    do_ for_each (elements subscribed) (fun symbol => on_client (cl_unsubscribe symbol));
    do_ on_client cl_logout;
    set_state ∅ ∅ false.

(** [get_quotes] *)
Definition sp_get_quotes (p : ShioajiQuoteProvider C) (symbols : list string) : res (list QuoteSnapshot) :=
  match List.filter (fun s => is_none (sp_snapshots p !! s)) symbols with
  | missing :: _ => Raise (QuoteUnavailableError missing)
  | [] => Ok (omap (fun s => sp_snapshots p !! s) symbols)
  end.

(** [get_current_price] *)
Definition sp_get_current_price (p : ShioajiQuoteProvider C) (symbol : string) : res QuoteSnapshot :=
  if negb (bool_decide (symbol ∈ sp_allowed p)) then
    Raise (SymbolNotAvailableInDemo symbol (elements (sp_allowed p)))
  else if negb (sp_started p) then Raise (QuoteProviderUnavailableError "shioaji" (Some "provider not started; call startup() first"))
  else cl_get_stock_snapshot (sp_client p) symbol.

(** [subscribe] *)
Definition sp_subscribe (symbol : string) : S unit :=
  do p <- gets id;
  if negb (bool_decide (symbol ∈ sp_allowed p)) then
    raise (SymbolNotAvailableInDemo symbol (elements (sp_allowed p)))
  else if bool_decide (symbol ∈ sp_subscribed p) then ret tt
  else if negb (sp_started p) then not_started
  else
    let current := Z.of_nat (size (sp_subscribed p)) in
    if sp_max p <=? current then raise (QuoteSubscriptionLimitExceeded symbol current (sp_max p))
    else
      do_ try_except (on_client (cl_subscribe symbol))
            (fun e => if is_quote_provider_error e then do_ on_client (cl_unsubscribe symbol); raise e else raise e);
      set_state (sp_snapshots p) ({[symbol]} ∪ sp_subscribed p) (sp_started p).

(** [unsubscribe] *)
Definition sp_unsubscribe (symbol : string) : S unit :=
  do p <- gets id;
  if negb (bool_decide (symbol ∈ sp_subscribed p)) then ret tt
  else
    do_ try_except (on_client (cl_unsubscribe symbol))
          (fun e => if is_quote_provider_error e then ret tt else raise e);
    set_state (delete symbol (sp_snapshots p)) (sp_subscribed p ∖ {[symbol]}) (sp_started p).

(** [active_subscriptions] *)
Definition sp_active_subscriptions (p : ShioajiQuoteProvider C) : list string := elements (sp_subscribed p).

(** The snapshot [_on_tick] and [_on_bidask] store and then hand to the
    listeners. *)
Definition sp_on_tick (received_at : datetime) (t : TickPayload) : S QuoteSnapshot :=
  do p <- gets id;
  let q := build_snapshot (tk_symbol t) (sp_snapshots p !! tk_symbol t) None None (Some (Some (tk_last_price t)))
             (tk_quote_time t) received_at in
  do_ set_state (<[tk_symbol t := q]> (sp_snapshots p)) (sp_subscribed p) (sp_started p);
  ret q.
Definition sp_on_bidask (received_at : datetime) (b : BidAskPayload) : S QuoteSnapshot :=
  do p <- gets id;
  let q := build_snapshot (ba_symbol b) (sp_snapshots p !! ba_symbol b) (Some (ba_bid_price b)) (Some (ba_ask_price b))
             None (ba_quote_time b) received_at in
  do_ set_state (<[ba_symbol b := q]> (sp_snapshots p)) (sp_subscribed p) (sp_started p);
  ret q.

(** The result of a provider operation in the [QuoteProvider] interface, which
    keeps the provider of a successful call: a failing one only reaches the
    SDK. *)
Definition provider_result {A} (x : res A * ShioajiQuoteProvider C) : res (ShioajiQuoteProvider C) :=
  match x with (Ok _, p) => Ok p | (Raise e, _) => Raise e end.

End Provider.

#[export] Instance shioaji_provider {C} `{ShioajiClient C} : QuoteProvider (ShioajiQuoteProvider C) := {
  get_quotes := sp_get_quotes;
  subscribe p symbol := provider_result (sp_subscribe symbol p);
  unsubscribe p symbol := provider_result (sp_unsubscribe symbol p);
  active_subscriptions := sp_active_subscriptions;
  get_current_price := Some sp_get_current_price;
}.

(** ** What subscriptions promise

    The law the rest of the program relies on: a successful call changes the
    subscription it names and no other. *)
Class LawfulSubscriptions (P : Type) `{QuoteProvider P} : Prop := {
  subscribe_active : forall p s p' t, subscribe p s = Ok p' ->
    (t ∈ active_subscriptions p' <-> t = s \/ t ∈ active_subscriptions p);
  unsubscribe_active : forall p s p' t, unsubscribe p s = Ok p' ->
    (t ∈ active_subscriptions p' <-> t <> s /\ t ∈ active_subscriptions p);
  quotes_complete : forall p l qs, get_quotes p l = Ok qs -> length qs = length l;
}.

Lemma omap_all_length {A B} (f : A -> option B) (l : list A) :
  List.filter (fun x => is_none (f x)) l = [] -> length (omap f l) = length l.
Proof.
  induction l as [|x l IH]; cbn; [done|]. destruct (f x); cbn; [|done]. intros Hl. by rewrite IH.
Qed.

#[export] Instance in_memory_lawful : LawfulSubscriptions InMemoryQuoteProvider.
Proof.
  split.
  - intros p s p' t [= <-]. cbn. unfold im_active_subscriptions. cbn. set_solver.
  - intros p s p' t [= <-]. cbn. unfold im_active_subscriptions. cbn. set_solver.
  - intros p l qs. cbn. unfold im_get_quotes. destruct (List.filter _ l) eqn:Hf; [|done]. intros [= <-]. by apply omap_all_length.
Qed.

Section Facts.
  Context {C : Type} `{ShioajiClient C}.
  Implicit Types p : ShioajiQuoteProvider C.

(** What a call on the client leaves alone. *)
Definition same_state p p' : Prop :=
  sp_allowed p' = sp_allowed p /\ sp_max p' = sp_max p /\ sp_snapshots p' = sp_snapshots p /\
  sp_subscribed p' = sp_subscribed p /\ sp_started p' = sp_started p.

Lemma on_client_same {A} (c : prog C exn A) p r p' : on_client c p = (r, p') -> same_state p p'.
Proof. unfold on_client. destruct (c _). by intros [= _ <-]. Qed.

Lemma same_state_trans p1 p2 p3 : same_state p1 p2 -> same_state p2 p3 -> same_state p1 p3.
Proof. intros (?&?&?&?&?) (?&?&?&?&?). repeat split; congruence. Qed.

(** [subscribe], inverted. *)
Lemma sp_subscribe_cases s p r p' : sp_subscribe s p = (r, p') ->
  (is_ok r = false /\ same_state p p') \/ (r = Ok tt /\ s ∈ sp_subscribed p /\ p' = p) \/
  (r = Ok tt /\ s ∈ sp_allowed p /\ s ∉ sp_subscribed p /\ sp_started p = true /\ Z.of_nat (size (sp_subscribed p)) < sp_max p /\
     sp_allowed p' = sp_allowed p /\ sp_max p' = sp_max p /\ sp_snapshots p' = sp_snapshots p /\
     sp_subscribed p' = {[s]} ∪ sp_subscribed p /\ sp_started p' = true).
Proof.
  unfold sp_subscribe, gets, bind at 1, id. case_bool_decide as Ha; cbn [negb]; [|intros [= <- <-]; by left].
  case_bool_decide as Hs; [intros [= <- <-]; right; by left|].
  destruct (sp_started p) eqn:Hst; cbn [negb]; [|intros [= <- <-]; by left].
  destruct (Z.leb_spec (sp_max p) (Z.of_nat (size (sp_subscribed p)))) as [Hq|Hq]; [intros [= <- <-]; by left|].
  unfold bind at 1, try_except. destruct (on_client (cl_subscribe s) p) as [[u|e] p1] eqn:Hc; pose proof (on_client_same _ _ _ _ Hc) as Hsame.
  - unfold set_state, modify. intros [= <- <-]. right. right. destruct Hsame as (?&?&?&?&?). cbn. repeat split; congruence || done.
  - destruct (is_quote_provider_error e); [|intros [= <- <-]; by left].
    unfold bind. destruct (on_client (cl_unsubscribe s) p1) as [[u|e2] p2] eqn:Hu;
      intros [= <- <-]; left; (split; [done|]); (apply (same_state_trans _ p1); [done|exact (on_client_same _ _ _ _ Hu)]).
Qed.

Lemma sp_unsubscribe_cases s p r p' : sp_unsubscribe s p = (r, p') ->
  (is_ok r = false /\ same_state p p') \/ (r = Ok tt /\ s ∉ sp_subscribed p /\ p' = p) \/
  (r = Ok tt /\ s ∈ sp_subscribed p /\ sp_allowed p' = sp_allowed p /\ sp_max p' = sp_max p /\
     sp_snapshots p' = delete s (sp_snapshots p) /\ sp_subscribed p' = sp_subscribed p ∖ {[s]} /\ sp_started p' = sp_started p).
Proof.
  unfold sp_unsubscribe, gets, bind at 1, id. case_bool_decide as Hs; cbn [negb]; [|intros [= <- <-]; right; by left].
  unfold bind at 1, try_except. destruct (on_client (cl_unsubscribe s) p) as [[u|e] p1] eqn:Hc; pose proof (on_client_same _ _ _ _ Hc) as (?&?&?&?&?).
  - unfold set_state, modify. intros [= <- <-]. right. right. done.
  - destruct (is_quote_provider_error e); intros [= <- <-]; [right; right; done|left]. split; [done|]. by repeat split.
Qed.

#[export] Instance shioaji_lawful : LawfulSubscriptions (ShioajiQuoteProvider C).
Proof.
  split.
  - intros p s p' t. cbn [subscribe unsubscribe active_subscriptions shioaji_provider]. unfold sp_active_subscriptions, provider_result.
    destruct (sp_subscribe s p) as [r p1] eqn:Hr. destruct (sp_subscribe_cases _ _ _ _ Hr) as [[He _]|[(-> & Hs & ->)|(-> & _ & _ & _ & _ & _ & _ & _ & Hs & _)]].
    + by destruct r.
    + intros [= <-]. rewrite !elem_of_elements. set_solver.
    + intros [= <-]. rewrite !elem_of_elements, Hs. set_solver.
  - intros p s p' t. cbn [subscribe unsubscribe active_subscriptions shioaji_provider]. unfold sp_active_subscriptions, provider_result.
    destruct (sp_unsubscribe s p) as [r p1] eqn:Hr. destruct (sp_unsubscribe_cases _ _ _ _ Hr) as [[He _]|[(-> & Hs & ->)|(-> & _ & _ & _ & _ & Hs & _)]].
    + by destruct r.
    + intros [= <-]. rewrite !elem_of_elements. set_solver.
    + intros [= <-]. rewrite !elem_of_elements, Hs. set_solver.
  - intros p l qs. cbn. unfold sp_get_quotes. destruct (List.filter _ l) eqn:Hf; [|done]. intros [= <-]. by apply omap_all_length.
Qed.

(** ** The quota *)

(** What the broker's threads and the requests do to the provider, one locked
    operation at a time; the SDK may change its own state at any moment. *)
Inductive sp_step : ShioajiQuoteProvider C -> ShioajiQuoteProvider C -> Prop :=
| sp_step_startup p r p' : sp_startup p = (r, p') -> sp_step p p'
| sp_step_shutdown p r p' : sp_shutdown p = (r, p') -> sp_step p p'
| sp_step_subscribe s p r p' : sp_subscribe s p = (r, p') -> sp_step p p'
| sp_step_unsubscribe s p r p' : sp_unsubscribe s p = (r, p') -> sp_step p p'
| sp_step_tick now t p r p' : sp_on_tick now t p = (r, p') -> sp_step p p'
| sp_step_bidask now b p r p' : sp_on_bidask now b p = (r, p') -> sp_step p p'
| sp_step_sdk c p : sp_step p (sp_with c (sp_snapshots p) (sp_subscribed p) (sp_started p) p).

Record sp_ok (allowed : gset string) (max : Z) p : Prop := {
  so_config : sp_allowed p = allowed /\ sp_max p = max;
  so_within : sp_subscribed p ⊆ allowed;
  so_quota : Z.of_nat (size (sp_subscribed p)) <= Z.max 0 max;
  so_stopped : sp_started p = false -> sp_subscribed p = ∅;
}.

Lemma sp_ok_same allowed max p p' : same_state p p' -> sp_ok allowed max p -> sp_ok allowed max p'.
Proof. intros (Ha & Hm & Hs & Hu & Hst) [[? ?] ? ? ?]. split; rewrite ?Ha, ?Hm, ?Hu, ?Hst; done. Qed.

Lemma unsubscribe_all_same l p r p' : for_each l (fun symbol => on_client (cl_unsubscribe symbol)) p = (r, p') -> same_state p p'.
Proof.
  revert p. induction l as [|s l IH]; intros p; cbn; [by intros [= _ <-]|]. unfold bind.
  destruct (on_client (cl_unsubscribe s) p) as [[u|e] p1] eqn:Hc; pose proof (on_client_same _ _ _ _ Hc).
  - intros Hl. apply (same_state_trans _ p1); [done|exact (IH p1 Hl)].
  - by intros [= _ <-].
Qed.

Lemma sp_step_ok allowed max p p' : sp_step p p' -> sp_ok allowed max p -> sp_ok allowed max p'.
Proof.
  intros Hstep Hok. destruct Hstep as [p r p' Hs|p r p' Hs|s p r p' Hs|s p r p' Hs|now t p r p' Hs|now b p r p' Hs|c p].
  - unfold sp_startup, gets, bind at 1 in Hs. destruct (sp_started p) eqn:Hst; [by injection Hs as _ <-|].
    unfold bind at 1 in Hs. destruct (on_client cl_login p) as [[u|e] p1] eqn:Hl; pose proof (on_client_same _ _ _ _ Hl) as H1.
    2: { injection Hs as _ <-. by eapply sp_ok_same. }
    unfold bind at 1 in Hs. destruct (on_client cl_set_handlers p1) as [[u2|e] p2] eqn:Hh;
      pose proof (same_state_trans _ _ _ H1 (on_client_same _ _ _ _ Hh)) as H2.
    2: { injection Hs as _ <-. by eapply sp_ok_same. }
    unfold bind, set_state, modify, id in Hs. injection Hs as _ <-.
    destruct (sp_ok_same _ _ _ _ H2 Hok) as [? ? ? Hoff]. split; cbn; done.
  - unfold sp_shutdown, gets, bind at 1 in Hs. destruct (sp_started p) eqn:Hst; cbn [negb] in Hs; [|by injection Hs as _ <-].
    unfold bind at 1 in Hs. unfold bind at 1 in Hs.
    destruct (for_each _ _ p) as [[u|e] p1] eqn:Hl; pose proof (unsubscribe_all_same _ _ _ _ Hl) as H1.
    2: { injection Hs as _ <-. by eapply sp_ok_same. }
    unfold bind in Hs. destruct (on_client cl_logout p1) as [[u2|e] p2] eqn:Hh;
      pose proof (same_state_trans _ _ _ H1 (on_client_same _ _ _ _ Hh)) as H2.
    2: { injection Hs as _ <-. by eapply sp_ok_same. }
    unfold set_state, modify in Hs. injection Hs as _ <-. destruct (sp_ok_same _ _ _ _ H2 Hok) as [? ? ? ?].
    split; cbn; [done|set_solver|rewrite size_empty; lia|done].
  - destruct (sp_subscribe_cases _ _ _ _ Hs) as [[_ Hsame]|[(_ & _ & ->)|(_ & Ha & Hn & Hst & Hq & Ha' & Hm' & _ & Hs' & Hst')]];
      [by eapply sp_ok_same|done|].
    destruct Hok as [[Hca Hcm] Hw Hz Hoff]. split; rewrite ?Ha', ?Hm', ?Hs', ?Hst'; [done|set_solver| |done].
    rewrite size_union, size_singleton by set_solver. lia.
  - destruct (sp_unsubscribe_cases _ _ _ _ Hs) as [[_ Hsame]|[(_ & _ & ->)|(_ & Hin & Ha' & Hm' & _ & Hs' & Hst')]];
      [by eapply sp_ok_same|done|].
    destruct Hok as [[Hca Hcm] Hw Hz Hoff]. split; rewrite ?Ha', ?Hm', ?Hs', ?Hst'; [done|set_solver| |].
    + assert (size (sp_subscribed p ∖ {[s]}) <= size (sp_subscribed p))%nat by (apply subseteq_size; set_solver). lia.
    + intros Hf. rewrite (Hoff Hf). set_solver.
  - unfold sp_on_tick, gets, bind, set_state, modify, ret in Hs. injection Hs as _ <-. by destruct Hok; split.
  - unfold sp_on_bidask, gets, bind, set_state, modify, ret in Hs. injection Hs as _ <-. by destruct Hok; split.
  - by destruct Hok; split.
Qed.

(** C31. Whatever the requests, the broker's callbacks and failures of the SDK do,
    in any interleaving: the provider is subscribed to allowed symbols only, to
    at most as many as the quota grants, and to none while it is not started. *)
Theorem subscriptions_bounded (client : C) (allowed : gset string) (max : Z) p
    (Hrun : rtc sp_step (sp_init client allowed max) p) :
  sp_subscribed p ⊆ allowed /\ Z.of_nat (size (sp_subscribed p)) <= Z.max 0 max /\
  (sp_started p = false -> sp_subscribed p = ∅).
Proof.
  assert (Hok : sp_ok allowed max p); [|by destruct Hok].
  assert (H0 : sp_ok allowed max (sp_init client allowed max)).
  { split; cbn; [done|set_solver|rewrite size_empty; lia|done]. }
  revert H0. induction Hrun as [|a b c Hab _ IH]; [done|]. intros Ha. apply IH. by eapply sp_step_ok.
Qed.

End Facts.

(** ** Merging keeps the latest of each field *)

Inductive update : Type := Tick (t : TickPayload) | Book (b : BidAskPayload).
Definition update_symbol (u : update) : string := match u with Tick t => tk_symbol t | Book b => ba_symbol b end.
Definition update_time (u : update) : datetime := match u with Tick t => tk_quote_time t | Book b => ba_quote_time b end.
Definition as_tick (x : datetime * update) : option TickPayload := match snd x with Tick t => Some t | Book _ => None end.
Definition as_book (x : datetime * update) : option BidAskPayload := match snd x with Book b => Some b | Tick _ => None end.

(** The last element of a history with a view of it. *)
Fixpoint latest {A B} (f : A -> option B) (l : list A) : option B :=
  match l with
  | [] => None
  | x :: rest => match latest f rest with Some b => Some b | None => f x end
  end.

(** What a reader should see for [symbol] after a history of updates: the last
    order book, the last trade, and the times of the last update. *)
Definition reference_snapshot (symbol : string) (history : list (datetime * update)) : option QuoteSnapshot :=
  let mine := List.filter (fun x => String.eqb (update_symbol (snd x)) symbol) history in
  match latest Some mine with
  | None => None
  | Some (received_at, u) =>
      Some (mkQuote symbol (latest as_book mine ≫= ba_bid_price) (latest as_book mine ≫= ba_ask_price)
              (tk_last_price <$> latest as_tick mine) (update_time u) received_at)
  end.

Lemma latest_snoc {A B} (f : A -> option B) l x :
  latest f (l ++ [x]) = match f x with Some b => Some b | None => latest f l end.
Proof. induction l as [|y l IH]; cbn; [by destruct (f x)|]. rewrite IH. by destruct (f x). Qed.

Lemma latest_none {A B} (f : A -> option B) l : latest Some l = None -> latest f l = None.
Proof. destruct l as [|x l]; [done|]. cbn. by destruct (latest Some l). Qed.

Section Merging.
  Context {C : Type} `{ShioajiClient C}.

(** The callbacks in the order they ran. *)
Definition receive (x : datetime * update) : prog (ShioajiQuoteProvider C) exn unit :=
  match snd x with
  | Tick t => do q <- sp_on_tick (fst x) t; ret tt
  | Book b => do q <- sp_on_bidask (fst x) b; ret tt
  end.

Lemma receive_snapshots x p p' : receive x p = (Ok tt, p') -> sp_snapshots p' =
  <[update_symbol (snd x) := match snd x with
     | Tick t => build_snapshot (tk_symbol t) (sp_snapshots p !! tk_symbol t) None None (Some (Some (tk_last_price t))) (tk_quote_time t) (fst x)
     | Book b => build_snapshot (ba_symbol b) (sp_snapshots p !! ba_symbol b) (Some (ba_bid_price b)) (Some (ba_ask_price b)) None (ba_quote_time b) (fst x)
     end]> (sp_snapshots p).
Proof. destruct x as [now [t|b]]; unfold receive; cbn; by intros [= <-]. Qed.

(** After any sequence of tick and order-book callbacks, the snapshot the
    provider serves for a symbol is the one a reader of the whole history would
    build: the bid and the ask of the last order book, the price of the last
    trade, the times of the last update; a symbol without updates has none, and
    the updates of other symbols do not matter. *)
Theorem snapshot_is_latest (history : list (datetime * update)) (p p' : ShioajiQuoteProvider C) (symbol : string)
    (Hnone : sp_snapshots p !! symbol = None) (Hrun : for_each history receive p = (Ok tt, p')) :
  sp_snapshots p' !! symbol = reference_snapshot symbol history.
Proof.
  revert p' Hrun. induction history as [|x l IH] using rev_ind; intros p'; [by intros [= <-]|].
  assert (Hsplit : forall p0, for_each (l ++ [x]) receive p0 = (do_ for_each l receive; receive x) p0).
  { intros p0. clear. revert p0. induction l as [|y l IH]; intros p0; cbn.
    - unfold bind. by destruct (receive x p0) as [[[]|e] p1].
    - unfold bind in *. destruct (receive y p0) as [[[]|e] p1]; [|done]. apply IH. }
  rewrite Hsplit. unfold bind. destruct (for_each l receive p) as [[[]|e] p1] eqn:Hl; [|done].
  specialize (IH p1 eq_refl). intros Hx%receive_snapshots. rewrite Hx. clear Hx Hsplit Hl.
  unfold reference_snapshot in *. rewrite List.filter_app. cbn [List.filter].
  destruct (String.eqb_spec (update_symbol (snd x)) symbol) as [<-|Hne].
  2: { rewrite lookup_insert_ne, app_nil_r by done. exact IH. }
  rewrite lookup_insert_eq, !latest_snoc. revert IH. set (mine := List.filter _ l).
  destruct x as [now [t|b]]; cbn [fst snd update_symbol update_time as_tick as_book]; intros ->; unfold build_snapshot;
    (destruct (latest Some mine) as [[now0 u0]|] eqn:Hm; [done|]); by rewrite !(latest_none _ _ Hm).
Qed.

End Merging.

(** ** Witnesses *)

(** A client whose calls all succeed. *)
#[local] Instance quiet_client : ShioajiClient unit := {
  cl_login := ret tt;
  cl_logout := ret tt;
  cl_set_handlers := ret tt;
  cl_subscribe _ := ret tt;
  cl_unsubscribe _ := ret tt;
  cl_get_stock_snapshot _ s := Raise (QuoteUnavailableError s);
}.

Definition demo_provider : ShioajiQuoteProvider unit := sp_init tt (parse_allowlist_override (Some " 2330, 2317,0050 ")) 2.

(** Three allowed symbols against a quota of two. *)
Lemma subscriptions_bounded_witness :
  exists p, rtc sp_step demo_provider p /\ elements (sp_subscribed p) = ["2330"; "2317"] /\
    fst (sp_subscribe "0050" p) = Raise (QuoteSubscriptionLimitExceeded "0050" 2 2) /\
    Z.of_nat (size (sp_subscribed p)) <= 2.
Proof.
  set (p1 := snd (sp_startup demo_provider)). set (p2 := snd (sp_subscribe "2330" p1)). set (p3 := snd (sp_subscribe "2317" p2)).
  assert (Hrun : rtc sp_step demo_provider p3).
  { eapply rtc_l; [exact (sp_step_startup _ _ _ (surjective_pairing (sp_startup demo_provider)))|].
    eapply rtc_l; [exact (sp_step_subscribe _ _ _ _ (surjective_pairing (sp_subscribe "2330" p1)))|].
    apply rtc_once. exact (sp_step_subscribe _ _ _ _ (surjective_pairing (sp_subscribe "2317" p2))). }
  destruct (subscriptions_bounded tt (parse_allowlist_override (Some " 2330, 2317,0050 ")) 2 p3 Hrun) as (_ & Hq & _).
  exists p3. split; [exact Hrun|]. split; [vm_compute; reflexivity|]. split; [vm_compute; reflexivity|exact Hq].
Defined.

Definition some_history : list (datetime * update) :=
  [(sample_time, Tick (mkTick "2330" (Dec 600 0) sample_time));
   (sample_time, Book (mkBidAsk "2330" (Some (Dec 5995 (-1))) (Some (Dec 600 0)) sample_time));
   (sample_time, Tick (mkTick "2317" (Dec 200 0) sample_time));
   (sample_time, Book (mkBidAsk "2330" None (Some (Dec 601 0)) sample_time))].

Lemma snapshot_is_latest_witness :
  exists p', for_each some_history receive demo_provider = (Ok tt, p') /\
    sp_snapshots p' !! "2330" = Some (mkQuote "2330" None (Some (Dec 601 0)) (Some (Dec 600 0)) sample_time sample_time).
Proof.
  set (x := for_each some_history receive demo_provider).
  assert (Hx : x = (Ok tt, snd x)) by (vm_compute; reflexivity). exists (snd x). split; [exact Hx|].
  rewrite (snapshot_is_latest some_history demo_provider (snd x) "2330" ltac:(vm_compute; reflexivity) Hx).
  vm_compute. reflexivity.
Defined.
