(* ===== verification/CreateIntent.v ===== *)
(** * Creating and cancelling intents

    [src/app/commands/trade_intent_core.py] with [services/symbol.py]: the
    command that validates, stores, subscribes and possibly fires a new intent
    in one transaction, and the command that cancels one. *)

From S2P Require Import Prelude Decimal Datetime Errors Price TradingSession Intent Evaluation Tables Store CoreSchema IntentRepo Samples IntentQueries Trigger Quotes.

#[local] Open Scope string_scope.
#[local] Open Scope list_scope.
#[local] Open Scope Z_scope.

(** [IntentLimits] *)
Record IntentLimits : Type := mkLimits { per_user : Z; per_symbol : Z }.

(** [CreateTradeIntentInput] *)
Record CreateTradeIntentInput : Type := mkCreateInput {
  ci_symbol : string;
  ci_strategy : string;
  ci_quantity_lots : Z;
  ci_owner_user_id : uuid;
  ci_target_price : option string;
  ci_transaction_mode : string;
  ci_notification_mode : string;
  ci_trail_mode : option string;
  ci_trail_value : option dec;
}.

Section Commands.
  Context {P : Type} `{QuoteProvider P}.

(** [SymbolService.get_by_symbol] and [get_tradable_symbol] *)
Definition get_by_symbol (symbol : string) : M P SymbolRow :=
  do row <- query (fun d => symbols d !! symbol);
  match row with Some r => ret r | None => raise (UnknownSymbolError symbol) end.

Definition get_tradable_symbol (symbol : string) : M P SymbolRow :=
  do r <- get_by_symbol symbol;
  if negb (String.eqb (sy_tradable_status r) "tradable") then
    raise (SymbolNotTradableError symbol (sy_tradable_status r))
  else ret r.

(** Step 2 of [execute]: the effective price and the trail value. *)
Definition validate_input (instrument_type : string) (inp : CreateTradeIntentInput)
  : res (option dec * option dec) :=
  match security_type_of instrument_type with
  | None => Raise (InvalidTypeError instrument_type "must be stock or etf")
  | Some security_type =>
      if String.eqb (ci_strategy inp) "trailing_stop_alert" then
        match ci_trail_mode inp, ci_trail_value inp with
        | Some mode, Some value =>
            let? _ := (if String.eqb mode "fixed_amount" then validate_fixed_amount_tick security_type value
                       else Ok tt) in
            Ok (None, Some value)
        | _, _ => Raise (ValueError "trailing_stop_alert requires trail_mode and trail_value")
        end
      else if str_in (ci_strategy inp) MARKET_ORDER_STRATEGIES then Ok (None, None)
      else
        match ci_target_price inp with
        | None => Raise (ValueError (ci_strategy inp ++ " requires target_price")%string)
        | Some price =>
            let? p := validate (mkPriceRequest instrument_type price (AmountInt (ci_quantity_lots inp))) in
            Ok (Some p, None)
        end
  end.

(** Step 4: the creation caps. *)
Definition check_limits (limits : option IntentLimits) (inp : CreateTradeIntentInput) : M P unit :=
  match limits with
  | None => ret tt
  | Some l =>
      do user_count <- count_active_or_scheduled_for_user (ci_owner_user_id inp);
      if per_user l <=? user_count then raise (UserIntentLimitExceededError (per_user l) user_count)
      else
        do symbol_count <- count_active_or_scheduled_for_user_symbol (ci_owner_user_id inp) (ci_symbol inp);
        if per_symbol l <=? symbol_count then
          raise (SymbolIntentLimitExceededError (ci_symbol inp) (per_symbol l) symbol_count)
        else ret tt
  end.

(** Errors of the provider are swallowed, others propagate. *)
Definition or_provider_error {A} (c : M P A) (otherwise : M P A) : M P A :=
  try_except c (fun e => if is_quote_provider_error e then otherwise else raise e).

(** [_fetch_quote_for_create] *)
Definition fetch_quote_for_create (symbol strategy : string) : M P (option QuoteSnapshot) :=
  let from_cache :=
    or_provider_error
      (do p <- gets provider;
       do quotes <- lift (get_quotes p [symbol]);
       ret (head quotes))
      (ret None) in
  match str_in strategy MARKET_ORDER_STRATEGIES, get_current_price with
  | true, Some current =>
      or_provider_error
        (do p <- gets provider; do q <- lift (current p symbol); ret (Some q))
        from_cache
  | _, _ => from_cache
  end.

(** What a triggering evaluation passes on. *)
Definition trigger_input (quote : QuoteSnapshot) (r : EvaluationResult) : option TriggerCoreInput :=
  match trigger_price r, trigger_reference_price_type r with
  | Some price, Some ty => Some (mkTriggerInput price ty (fallback_used r) quote (quote_time quote))
  | _, _ => None
  end.

(** The two steps that follow an evaluation, shared with the dispatcher: store
    the baseline and go on with the updated intent. *)
Definition store_baseline (i : TradeIntentData) (r : EvaluationResult) : M P TradeIntentData :=
  match e_baseline_updated_at r with
  | Some _ => apply_trailing_baseline_update i r
  | None => ret i
  end.

Definition fire (i : TradeIntentData) (quote : QuoteSnapshot) (r : EvaluationResult) : M P unit :=
  match trigger_input quote r with
  | Some inp => persist_core_trigger i inp
  | None => raise (RuntimeError "Evaluator returned should_trigger=True but trigger fields are None")
  end.

(** [_apply_inline_trigger_if_quote_met] *)
Definition apply_inline_trigger_if_quote_met (intent_id owner : uuid) (symbol strategy : string)
    (now : datetime) : M P unit :=
  do quote <- fetch_quote_for_create symbol strategy;
  match quote with
  | None => ret tt
  | Some q =>
      do i <- find_by_id intent_id owner;
      do r <- lift (evaluate q i now);
      do i' <- store_baseline i r;
      if should_trigger r then fire i' q r else ret tt
  end.

(** The arguments step 5 passes to [create]. *)
Definition create_args (inp : CreateTradeIntentInput) (prices : option dec * option dec)
    (trigger_ref : string) (trading_date : date) (status : string) : CreateArgs :=
  mkCreateArgs (ci_owner_user_id inp) (ci_symbol inp) (ci_strategy inp) (ci_quantity_lots inp)
    (fst prices) (fst prices) trigger_ref trading_date "day" "notify_only" status
    (ci_transaction_mode inp) (ci_notification_mode inp) (ci_trail_mode inp) (snd prices) None None None.

(** [self._kill_switch is not None and self._kill_switch.is_halted()] *)
Definition halted_now (kill_switch : option (M P bool)) : M P bool :=
  match kill_switch with Some is_halted => is_halted | None => ret false end.

(** The body of [CreateTradeIntentCommand.execute] up to its commit.
    [kill_switch] is [is_halted] of the injected provider. *)
Definition create_body (kill_switch : option (M P bool)) (limits : option IntentLimits)
    (inp : CreateTradeIntentInput) : M P uuid :=
  do symbol_obj <- get_tradable_symbol (ci_symbol inp);
  do prices <- lift (validate_input (sy_instrument_type symbol_obj) inp);
  do host_now <- clock;
  let now := now_taipei host_now in
  do trading_date <- lift (get_day_intent_trading_date now);
  do initial_status <- lift (get_initial_day_intent_status now);
  do side <- lift (derive_order_side (ci_strategy inp));
  let trigger_ref := if String.eqb side "buy" then "ask" else "bid" in
  do_ check_limits limits inp;
  do intent_id <- create (create_args inp prices trigger_ref trading_date initial_status);
  do_ reconcile_on_create (ci_symbol inp);
  do halted <- halted_now kill_switch;
  do_ when (String.eqb initial_status "active" && negb halted)
        (apply_inline_trigger_if_quote_met intent_id (ci_owner_user_id inp) (ci_symbol inp)
           (ci_strategy inp) now);
  do_ commit;
  ret intent_id.

(** [CreateTradeIntentCommand.execute] *)
Definition create_command (kill_switch : option (M P bool)) (limits : option IntentLimits)
    (inp : CreateTradeIntentInput) : M P TradeIntentData :=
  do intent_id <- transaction (create_body kill_switch limits inp);
  find_by_id intent_id (ci_owner_user_id inp).

(** [CancelTradeIntentCommand.execute] *)
Definition cancel_command (intent_id owner_user_id : uuid) : M P TradeIntentData :=
  do i <- transaction (do i <- cancel intent_id owner_user_id; do_ commit; ret i);
  do_ try_except (reconcile_after_terminal_transition (i_symbol i)) (fun _ => ret tt);
  ret i.

End Commands.

(** ** The order an intent describes *)

(** The columns of the core row that make the order; the others are its status,
    its fills and the times of their changes. *)
Definition order_columns (c : CoreRow) :=
  (c_owner_user_id c, c_symbol c, c_strategy c, c_execution_mode c, c_quantity_lots c, c_trigger_reference_price_type c,
   c_trading_date c, c_time_in_force c, c_transaction_mode c, c_notification_mode c, c_dedup_key c, c_created_at c).
Definition same_order_row (c c' : CoreRow) : Prop := order_columns c' = order_columns c.

(** Its terms, in the satellites: the target prices, and the trail's mode and
    value; the baseline of a trail is not a term, it follows the market. *)
Definition terms (d : db) (i : uuid) : option PriceParamsRow * option (string * dec) :=
  (price_params d !! i, (fun t => (tp_trail_mode t, tp_trail_value t)) <$> trailing_params d !! i).

(** All rows of an intent. *)
Definition intent_rows (d : db) (i : uuid) := (cores d !! i, price_params d !! i, trailing_params d !! i).

(** The terms an input asks for: a price alert or limit order has the price its
    text denotes and nothing else, a trailing stop its mode and value, a market
    order nothing. *)
Inductive asked_terms (inp : CreateTradeIntentInput) : option PriceParamsRow * option (string * dec) -> Prop :=
| asked_price text p :
    ci_strategy inp ∉ ["trailing_stop_alert"; "market_order"; "market_buy_order"; "market_sell_order"] ->
    ci_target_price inp = Some text -> parse text = Ok p -> asked_terms inp (Some (mkPriceParams p p), None)
| asked_trail mode value : ci_strategy inp = "trailing_stop_alert" ->
    ci_trail_mode inp = Some mode -> ci_trail_value inp = Some value -> asked_terms inp (None, Some (mode, value))
| asked_market : ci_strategy inp ∈ ["market_order"; "market_buy_order"; "market_sell_order"] ->
    asked_terms inp (None, None).

(** The stored intent is the order of the input. *)
Record order_of (inp : CreateTradeIntentInput) (d : db) (i : uuid) (c : CoreRow) : Prop := {
  oo_owner : c_owner_user_id c = ci_owner_user_id inp;
  oo_symbol : c_symbol c = ci_symbol inp;
  oo_strategy : c_strategy c = ci_strategy inp;
  oo_lots : c_quantity_lots c = ci_quantity_lots inp;
  oo_modes : c_transaction_mode c = ci_transaction_mode inp /\ c_notification_mode c = ci_notification_mode inp;
  oo_fixed : c_execution_mode c = "notify_only" /\ c_time_in_force c = "day";
  oo_side : exists side, derive_order_side (ci_strategy inp) = Ok side /\
    c_trigger_reference_price_type c = (if String.eqb side "buy" then "ask" else "bid");
  oo_terms : asked_terms inp (terms d i);
}.

(** It stays so as long as the order does not change. *)
Lemma order_of_same inp d d' i c c' : same_order_row c c' -> terms d' i = terms d i -> order_of inp d i c -> order_of inp d' i c'.
Proof.
  intros Hs Ht [H1 H2 H3 H4 [H5 H6] [H7 H8] (side & Hd & H9) H10]. unfold same_order_row, order_columns in Hs. injection Hs as ? ? ? ? ? ? ? ? ? ? ? ?.
  split; [congruence..|split; congruence|split; congruence|exists side; split; [done|congruence]|by rewrite Ht].
Qed.

(** ** Steps that concern one intent *)

(** Between [w] and [w'] only intent [id] changed, and it is still the same
    order: unchanged or fired. *)
Record only_intent {P} (id : uuid) (w w' : world P) : Prop := {
  oi_durable : durable w' = durable w;
  oi_symbols : symbols (pending w') = symbols (pending w);
  oi_users : users (pending w') = users (pending w);
  oi_now : app_now w' = app_now w /\ db_now w' = db_now w;
  oi_other : forall j, j <> id -> intent_rows (pending w') j = intent_rows (pending w) j;
  oi_terms : terms (pending w') id = terms (pending w) id;
  oi_self : forall c, cores (pending w) !! id = Some c -> exists c', cores (pending w') !! id = Some c' /\
    same_order_row c c' /\ (c_status c' = c_status c \/ (c_status c = "active" /\ c_status c' = "triggered"));
}.

Lemma oi_core {P} id (w w' : world P) j : only_intent id w w' -> j <> id -> cores (pending w') !! j = cores (pending w) !! j.
Proof. intros Hoi Hj. pose proof (oi_other _ _ _ Hoi j Hj) as H. by injection H. Qed.

Lemma only_intent_refl {P} id (w : world P) : only_intent id w w.
Proof. split; try done. intros c Hc. exists c. split; [done|]. split; [done|by left]. Qed.

Lemma only_intent_trans {P} id (a b c : world P) : only_intent id a b -> only_intent id b c -> only_intent id a c.
Proof.
  intros [Hd Hs Hu [Hn1 Hn2] Ho Ht Hf] [Hd' Hs' Hu' [Hn1' Hn2'] Ho' Ht' Hf']. split; try congruence.
  - split; congruence.
  - intros j Hj. by rewrite Ho', Ho.
  - intros x Hx. destruct (Hf x Hx) as (y & Hy & Hxy & Hst). destruct (Hf' y Hy) as (z & Hz & Hyz & Hst').
    exists z. split; [done|]. unfold same_order_row in *. split; [congruence|].
    destruct Hst as [Hst|[? Hst]], Hst' as [Hst'|[? Hst']]; [left|right|right|right]; try (split; congruence); congruence.
Qed.

Lemma quiet_only_intent {P} {A} (c : M P A) id w r w' : quiet c -> c w = (r, w') -> only_intent id w w'.
Proof.
  intros Hq Hc. destruct (Hq w r w' Hc) as (Hd & Hp & _ & _ & Ha & Hb).
  split; rewrite ?Hp; try done. intros x Hx. exists x. split; [done|]. split; [done|by left].
Qed.

Lemma baseline_only_intent {P} id b d u (w w' : world P) r :
  system_update_trailing_baseline id b d u w = (r, w') -> only_intent id w w' /\ outbox w' = outbox w /\
    triggers (pending w') = triggers (pending w) /\ notifications (pending w') = notifications (pending w).
Proof.
  unfold system_update_trailing_baseline, update_cores. run_session. unfold Datatypes.id.
  destruct (baseline_violation id b d (pending w)); [intros [= _ <-]; split; [apply only_intent_refl|done]|].
  destruct (Z.eqb_spec (count_where (fun i _ => i =? id) (trailing_params (pending w))) 0);
    intros [= _ <-]; (split; [|done]); split; try done.
  all: try (intros j Hj; unfold intent_rows; cbn; rewrite !lookup_update, (proj2 (Z.eqb_neq _ _)) by done;
    by destruct (cores (pending w) !! j), (trailing_params (pending w) !! j)).
  all: try (unfold terms; cbn; rewrite lookup_update, Z.eqb_refl; by destruct (trailing_params (pending w) !! id)).
  - intros c Hc. exists c. split; [exact Hc|]. split; [done|by left].
  - intros c Hc. cbn. rewrite lookup_update, Hc. cbn. rewrite Z.eqb_refl. eexists. split; [done|]. split; [done|by left].
Qed.

Lemma fired_only_intent {P} i inp (w w' : world P) : persist_core_trigger i inp w = (Ok tt, w') ->
  only_intent (i_id i) w w' /\ exists c, cores (pending w) !! i_id i = Some c /\ c_status c = "active".
Proof.
  intros Hp. destruct (persist_cases i inp w w' (Ok tt) Hp) as [(Hd & Ha & Hb) Hcase].
  destruct Hcase as (c & x & target & tid & nid & _ & _ & Hc & Hs & _ & _ & Hpe & _). split; [|by exists c].
  split; rewrite ?Hpe; try done; cbn.
  - intros j Hj. unfold intent_rows. cbn. by rewrite lookup_insert_ne.
  - intros c0 Hc0. rewrite Hc in Hc0. injection Hc0 as <-. rewrite lookup_insert_eq.
    eexists. split; [done|]. split; [done|]. by right.
Qed.

Lemma find_by_id_world {P} i o (w w' : world P) r : find_by_id i o w = (r, w') -> w' = w.
Proof.
  unfold find_by_id, get_core, with_symbol_type. run_session.
  destruct (cores (pending w) !! i) as [c|]; cbn; [|by intros [= _ <-]].
  destruct (symbols (pending w) !! c_symbol c) as [sy|]; cbn; [|by intros [= _ <-]].
  destruct (negb _); cbn; [by intros [= _ <-]|]. destruct (parse_security_type _); cbn; by intros [= _ <-].
Qed.

Lemma find_by_id_found {P} i o (w w' : world P) x : find_by_id i o w = (Ok x, w') ->
  exists c st, cores (pending w) !! i = Some c /\ c_owner_user_id c = o /\ x = to_domain (pending w) i c st.
Proof.
  unfold find_by_id, get_core, with_symbol_type. run_session.
  destruct (cores (pending w) !! i) as [c|]; cbn; [|done].
  destruct (symbols (pending w) !! c_symbol c) as [sy|]; cbn; [|done].
  destruct (Z.eqb_spec (c_owner_user_id c) o); cbn; [|done].
  destruct (parse_security_type _) as [st|]; cbn; [|done].
  intros [= <- <-]. by exists c, st.
Qed.

Section CreateFacts.
  Context {P : Type} `{QuoteProvider P}.
  Implicit Types w : world P.

Lemma fetch_quiet symbol strategy : quiet (fetch_quote_for_create symbol strategy).
Proof.
  assert (Hor : forall A (c o : M P A), quiet c -> quiet o -> quiet (or_provider_error c o)).
  { intros A c o Hc Ho. apply quiet_try; [done|]. intros e. destruct (is_quote_provider_error e); [done|apply quiet_raise]. }
  assert (Hcache : quiet (or_provider_error (do p <- gets provider; do quotes <- lift (get_quotes p [symbol]);
    ret (head quotes)) (ret None) : M P (option QuoteSnapshot))).
  { apply Hor; [|apply quiet_ret]. apply quiet_bind; [apply quiet_gets|]. intros p.
    apply quiet_bind; [apply quiet_lift|]. intros qs. apply quiet_ret. }
  unfold fetch_quote_for_create. destruct (str_in _ _); [|done]. destruct get_current_price; [|done].
  apply Hor; [|done]. apply quiet_bind; [apply quiet_gets|]. intros p.
  apply quiet_bind; [apply quiet_lift|]. intros q. apply quiet_ret.
Qed.

Lemma store_baseline_cases i r w x w' : store_baseline i r w = (x, w') ->
  only_intent (i_id i) w w' /\ outbox w' = outbox w /\ (forall j, x = Ok j -> i_id j = i_id i) /\
  triggers (pending w') = triggers (pending w) /\ notifications (pending w') = notifications (pending w).
Proof.
  unfold store_baseline. destruct (e_baseline_updated_at r).
  - unfold apply_trailing_baseline_update, bind.
    destruct (system_update_trailing_baseline _ _ _ _ w) as [y w1] eqn:Hy.
    destruct (baseline_only_intent _ _ _ _ _ _ _ Hy) as (Ho & Hb & Ht & Hn).
    destruct y; intros [= <- <-]; (split; [done|]); (split; [done|]); (split; [by intros ? [= <-]|done]).
  - intros [= <- <-]. split; [apply only_intent_refl|]. split; [done|]. split; [by intros ? [= <-]|done].
Qed.

Lemma fire_cases i q r w x w' : fire i q r w = (x, w') ->
  (is_ok x = true /\ only_intent (i_id i) w w' /\
     exists c, cores (pending w) !! i_id i = Some c /\ c_status c = "active") \/
  (is_ok x = false /\ same_env w w' /\ outbox w' = outbox w).
Proof.
  unfold fire. destruct (trigger_input q r) as [inp|]; [|intros [= <- <-]; by right].
  intros Hp. destruct x as [[]|e].
  - left. split; [done|]. by eapply fired_only_intent.
  - right. split; [done|]. destruct (persist_cases i inp w w' _ Hp) as [? [? _]]. done.
Qed.

(** The inline trigger touches the new intent only, and sends nothing unless it
    succeeds. *)
Lemma inline_cases id owner symbol strategy now w x w' :
  apply_inline_trigger_if_quote_met id owner symbol strategy now w = (x, w') ->
  (is_ok x = true /\ only_intent id w w') \/ (is_ok x = false /\ same_env w w' /\ outbox w' = outbox w).
Proof.
  assert (Henv : forall a b : world P, only_intent id a b -> same_env a b).
  { intros a b [? _ _ ? _ _ _]. done. }
  unfold apply_inline_trigger_if_quote_met. unfold bind at 1.
  destruct (fetch_quote_for_create symbol strategy w) as [y w1] eqn:Hf.
  destruct (fetch_quiet symbol strategy w y w1 Hf) as (Hd1 & _ & Ho1 & _ & Ha1 & Hb1).
  pose proof (quiet_only_intent _ id w y w1 (fetch_quiet symbol strategy) Hf) as Hoi1.
  destruct y as [[q|]|e]; [|intros [= <- <-]; by left|intros [= <- <-]; by right].
  unfold bind at 1. destruct (find_by_id id owner w1) as [i w2] eqn:Hi.
  pose proof (find_by_id_world _ _ _ _ _ Hi) as ->.
  destruct i as [i|e]; [|intros [= <- <-]; by right].
  assert (Hid : i_id i = id) by (destruct (find_by_id_found _ _ _ _ _ Hi) as (c & st & _ & _ & ->); done).
  unfold bind at 1, lift. destruct (evaluate q i now) as [r|e]; [|intros [= <- <-]; by right].
  unfold bind at 1. destruct (store_baseline i r w1) as [j w3] eqn:Hs.
  destruct (store_baseline_cases _ _ _ _ _ Hs) as (Hoi3 & Ho3 & Hj & _). rewrite Hid in Hoi3, Hj.
  pose proof (only_intent_trans _ _ _ _ Hoi1 Hoi3) as Hoi. destruct (Henv _ _ Hoi) as (Hd & Ha & Hb).
  destruct j as [j|e]; [|intros [= <- <-]; right; by rewrite Ho3].
  specialize (Hj j eq_refl). destruct (should_trigger r); [|intros [= <- <-]; by left].
  intros Hx. destruct (fire_cases _ _ _ _ _ _ Hx) as [(Hok & Hoi4 & _)|(Hok & (Hd4 & Ha4 & Hb4) & Ho4)].
  - left. split; [done|]. rewrite Hj in Hoi4. by apply only_intent_trans with w3.
  - right. split; [done|]. split; [|congruence]. repeat split; congruence.
Qed.

End CreateFacts.

(** ** The whole command *)

Lemma core_fresh i r d : core_violation i r d = None -> cores d !! i = None.
Proof.
  intros Hv. unfold core_violation in Hv. apply first_violation_none, Forall_app in Hv as [_ Hv].
  rewrite !Forall_cons in Hv. destruct Hv as (Hpk & _). cbn in Hpk. by destruct (cores d !! i).
Qed.

Section CommandFacts.
  Context {P : Type} `{QuoteProvider P}.
  Implicit Types w : world P.

Lemma create_since w0 a : preserves (P := P) (statements_since w0) (create a).
Proof.
  unfold create, flush_create, insert_core, insert_price_params, insert_trailing_params. preserve.
Qed.

Lemma get_tradable_symbol_world s w r w' : get_tradable_symbol s w = (r, w') ->
  w' = w /\ (forall x, r = Ok x -> symbols (pending w) !! s = Some x /\ sy_tradable_status x = "tradable").
Proof.
  unfold get_tradable_symbol, get_by_symbol. run_session.
  destruct (symbols (pending w) !! s) as [x|]; cbn; [|by intros [= <- <-]].
  destruct (String.eqb_spec (sy_tradable_status x) "tradable"); cbn; intros [= <- <-]; [|done].
  split; [done|]. by intros ? [= <-].
Qed.

(** The caps as a condition on the database. *)
Definition below_limits (limits : option IntentLimits) (inp : CreateTradeIntentInput) (d : db) : Prop :=
  match limits with
  | None => True
  | Some l =>
      count_where (fun _ c => (c_owner_user_id c =? ci_owner_user_id inp) && is_open (c_status c)) (cores d)
        < per_user l /\
      count_where (fun _ c => (c_owner_user_id c =? ci_owner_user_id inp) &&
        String.eqb (c_symbol c) (ci_symbol inp) && is_open (c_status c)) (cores d) < per_symbol l
  end.

Lemma check_limits_world l inp w r w' : check_limits l inp w = (r, w') ->
  w' = w /\ (is_ok r = true <-> below_limits l inp (pending w)).
Proof.
  unfold check_limits, below_limits, count_active_or_scheduled_for_user, count_active_or_scheduled_for_user_symbol.
  run_session. destruct l as [l|]; [|by intros [= <- <-]].
  match goal with |- context [per_user l <=? ?n] => destruct (Z.leb_spec (per_user l) n) end.
  { intros [= <- <-]. split; [done|]. cbn [is_ok]. split; [done|]. intros [? ?]. exfalso. lia. }
  match goal with |- context [per_symbol l <=? ?n] => destruct (Z.leb_spec (per_symbol l) n) end;
    intros [= <- <-]; (split; [done|]); cbn [is_ok]; (split; [|intros [? ?]]); [done|exfalso; lia|intros _; lia|done].
Qed.

(** Everything [create_body] establishes before it stores the intent. *)
Definition accepted (limits : option IntentLimits) (inp : CreateTradeIntentInput) (w : world P)
    (a : CreateArgs) : Prop :=
  exists sy prices date status side,
    symbols (pending w) !! ci_symbol inp = Some sy /\ sy_tradable_status sy = "tradable" /\
    validate_input (sy_instrument_type sy) inp = Ok prices /\
    get_day_intent_trading_date (now_taipei (app_now w)) = Ok date /\
    get_initial_day_intent_status (now_taipei (app_now w)) = Ok status /\
    derive_order_side (ci_strategy inp) = Ok side /\ below_limits limits inp (pending w) /\
    a = create_args inp prices (if String.eqb side "buy" then "ask" else "bid") date status.

(** Inversion of the body: a failure changed nothing that lasts, a success
    stored the accepted order and possibly fired it. *)
Lemma create_body_cases ks limits inp w r w' : (forall c, ks = Some c -> quiet c) ->
  create_body ks limits inp w = (r, w') ->
  match r with
  | Raise _ => same_env w w' /\ outbox w' = outbox w
  | Ok id => exists a w1 w2, accepted limits inp w a /\ create a w = (Ok id, w1) /\
      only_intent id w1 w2 /\ durable w' = pending w2 /\ pending w' = pending w2 /\
      outbox w' = outbox w2 /\ provider w' = provider w2 /\
      (exists w0, reconcile_on_create (ci_symbol inp) w1 = (Ok tt, w0) /\
         forall w3, halted_now ks w0 = (Ok true, w3) -> w2 = w3)
  end.
Proof.
  intros Hks. unfold create_body. unfold bind at 1.
  destruct (get_tradable_symbol _ w) as [sy wa] eqn:Hsy.
  destruct (get_tradable_symbol_world _ _ _ _ Hsy) as [-> Htr]. destruct sy as [sy|e]; [|by intros [= <- <-]].
  destruct (Htr sy eq_refl) as [Hs1 Hs2]. clear Htr Hsy. unfold bind at 1, lift.
  destruct (validate_input _ inp) as [prices|e] eqn:Hp; [|by intros [= <- <-]].
  unfold bind at 1, clock, gets. unfold bind at 1.
  destruct (get_day_intent_trading_date _) as [date|e] eqn:Hdate; [|by intros [= <- <-]].
  unfold bind at 1. destruct (get_initial_day_intent_status _) as [status|e] eqn:Hst; [|by intros [= <- <-]].
  unfold bind at 1. destruct (derive_order_side _) as [side|e] eqn:Hside; [|by intros [= <- <-]].
  unfold bind at 1. destruct (check_limits limits inp w) as [lim wb] eqn:Hlim.
  destruct (check_limits_world _ _ _ _ _ Hlim) as [-> Hbelow]. destruct lim as [[]|e]; [|by intros [= <- <-]].
  unfold bind at 1. set (a := create_args _ _ _ _ _).
  destruct (create a w) as [id w1] eqn:Hc.
  destruct (create_since w a w id w1 (since_start w) Hc) as (Henv & Hout & _).
  destruct id as [id|e]; [|by intros [= <- <-]].
  unfold bind at 1. destruct (reconcile_on_create _ w1) as [[[]|e] w0] eqn:Hrec;
    destruct (reconcile_on_create_quiet _ _ _ _ Hrec) as (Hd0 & _ & Ho0 & _ & Ha0 & Hb0).
  2: { intros [= <- <-]. split; [|congruence]. repeat split; naive_solver congruence. }
  pose proof (quiet_only_intent _ id _ _ _ (reconcile_on_create_quiet (ci_symbol inp)) Hrec) as Hoi0.
  unfold bind at 1.
  assert (Hkq : quiet (halted_now ks)).
  { unfold halted_now. destruct ks as [c|]; [by apply Hks|apply quiet_ret]. }
  destruct (halted_now ks w0) as [h w3] eqn:Hh.
  destruct (Hkq _ _ _ Hh) as (Hd3 & _ & Ho3 & _ & Ha3 & Hb3).
  pose proof (only_intent_trans _ _ _ _ Hoi0 (quiet_only_intent _ id _ _ _ Hkq Hh)) as Hoi3.
  destruct h as [h|e].
  2: { intros [= <- <-]. split; [|congruence]. repeat split; naive_solver congruence. }
  cbv beta iota. unfold bind at 1. unfold when. cbv beta iota.
  match goal with |- context [let (_, _) := ?c in _] => destruct c as [x w2] eqn:Hx end.
  assert (Hcase : (is_ok x = true /\ only_intent id w3 w2 /\ (h = true -> w2 = w3)) \/
     (is_ok x = false /\ same_env w3 w2 /\ outbox w2 = outbox w3)).
  { destruct (String.eqb status "active" && negb h) eqn:Hgo.
    - destruct (inline_cases _ _ _ _ _ _ _ _ Hx) as [[? ?]|?]; [left|by right].
      split; [done|]. split; [done|]. intros ->. by rewrite andb_false_r in Hgo.
    - injection Hx as <- <-. left. split; [done|]. split; [apply only_intent_refl|done]. }
  destruct Hcase as [(Hok & Hoi2 & Hhalt)|(Hbad & (Hd2 & Ha2 & Hb2) & Ho2)].
  - destruct x as [[]|e]; [|done]. unfold bind, commit, modify, ret. intros [= <- <-].
    exists a, w1, w2. cbn [durable pending outbox provider].
    split. { exists sy, prices, date, status, side. repeat (split; [done|]). split; [by apply Hbelow|done]. }
    split; [done|]. split; [by apply only_intent_trans with w3|]. repeat (split; [done|]).
    exists w0. split; [done|]. intros w4 Hct. rewrite Hct in Hh. injection Hh as <- <-. by apply Hhalt.
  - destruct x as [|e]; [done|]. intros [= <- <-]. split; [|congruence]. repeat split; naive_solver congruence.
Qed.

End CommandFacts.

(** ** The invariant through the commands *)

Section CommandSafety.
  Context {P : Type} `{QuoteProvider P}.

Lemma store_baseline_pres i r : preserves (P := P) (both schema_ok) (store_baseline i r).
Proof.
  unfold store_baseline, apply_trailing_baseline_update. pose proof (baseline_pres (P := P)) as Hb. preserve.
Qed.

Lemma fire_safe i q r : safe (P := P) schema_ok (fire i q r).
Proof. unfold fire. pose proof (persist_safe (P := P)). safe_prog. Qed.

Lemma inline_safe id owner symbol strategy now :
  safe (P := P) schema_ok (apply_inline_trigger_if_quote_met id owner symbol strategy now).
Proof.
  unfold apply_inline_trigger_if_quote_met.
  pose proof (fire_safe). pose proof (store_baseline_pres). pose proof (find_by_id_pres (P := P)).
  pose proof (quiet_preserves _ schema_ok (fetch_quiet symbol strategy)). safe_prog.
Qed.

Lemma create_body_safe ks limits inp : (forall c, ks = Some c -> quiet c) ->
  safe (P := P) schema_ok (create_body ks limits inp).
Proof.
  intros Hks. unfold create_body, get_tradable_symbol, get_by_symbol.
  pose proof (quiet_preserves (P := P) _ schema_ok (reconcile_on_create_quiet (ci_symbol inp))).
  assert (preserves (P := P) (both schema_ok) (halted_now ks)).
  { unfold halted_now. destruct ks; [by apply quiet_preserves, Hks|apply preserves_ret]. }
  assert (preserves (P := P) (both schema_ok) (check_limits limits inp)).
  { unfold check_limits, count_active_or_scheduled_for_user, count_active_or_scheduled_for_user_symbol. preserve. }
  apply safe_bind; [safe_prog|intros sy]. apply safe_bind; [safe_prog|intros prices].
  apply safe_bind; [safe_prog|intros t]. apply safe_bind; [safe_prog|intros date].
  apply safe_bind_lift. intros status Hst.
  apply safe_bind; [safe_prog|intros side]. apply safe_bind; [safe_prog|intros u].
  assert (status <> "triggered").
  { unfold get_initial_day_intent_status in Hst. apply rbind_Ok in Hst as (u1 & _ & Hst).
    apply rbind_Ok in Hst as (b & _ & Hst). injection Hst as <-. by destruct b. }
  pose proof inline_safe.
  apply safe_bind; [apply preserves_safe; by apply create_pres|intros id]. safe_prog.
Qed.

Lemma create_command_pres ks limits inp : (forall c, ks = Some c -> quiet c) ->
  preserves (P := P) (both schema_ok) (create_command ks limits inp).
Proof.
  intros Hks. unfold create_command. pose proof (find_by_id_pres (P := P)).
  pose proof (safe_transaction schema_ok _ (create_body_safe ks limits inp Hks)). preserve.
Qed.

Lemma cancel_command_pres i o : preserves (P := P) (both schema_ok) (cancel_command i o).
Proof.
  unfold cancel_command. pose proof (cancel_pres (P := P)).
  assert (forall s, preserves (P := P) (both schema_ok) (reconcile_after_terminal_transition s)).
  { intros s. apply quiet_preserves, reconcile_after_quiet. }
  apply preserves_bind; [apply both_transaction; preserve|intros x]. preserve.
Qed.

Lemma create_view {B} (g : db -> B) b a : (forall d t, g (set_cores t d) = g d) ->
  (forall d t, g (set_price_params t d) = g d) -> (forall d t, g (set_trailing_params t d) = g d) ->
  preserves (P := P) (view_is g b) (create a).
Proof.
  intros H1 H2 H3. unfold create, flush_create, insert_core, insert_price_params, insert_trailing_params. preserve.
Qed.

End CommandSafety.

(** ** The properties of the commands *)

Lemma security_type_parses instrument inp prices : validate_input instrument inp = Ok prices ->
  exists st, parse_security_type instrument = Ok st.
Proof. unfold validate_input, parse_security_type. destruct (security_type_of instrument); [by eexists|done]. Qed.

(** Reading back what was just committed cannot fail. *)
Lemma find_after_create {P} (w : world P) id c s st : cores (pending w) !! id = Some c ->
  symbols (pending w) !! c_symbol c = Some s -> parse_security_type (sy_instrument_type s) = Ok st ->
  find_by_id id (c_owner_user_id c) w = (Ok (to_domain (pending w) id c st), w).
Proof.
  intros Hc Hs Hst. unfold find_by_id, get_core, with_symbol_type. run_session. rewrite Hc. cbn. rewrite Hs.
  rewrite Z.eqb_refl. cbn. by rewrite Hst.
Qed.

(** What [create] writes into the satellites. *)
Lemma create_satellites {P} a (w w' : world P) i : create a w = (Ok i, w') ->
  price_params (pending w') =
    match a_target_price_effective a, a_target_price_original a with
    | Some effective, Some original => <[i := mkPriceParams original effective]> (price_params (pending w))
    | _, _ => price_params (pending w)
    end /\
  trailing_params (pending w') =
    match String.eqb (a_strategy a) TRAILING_STRATEGY, a_trail_mode a, a_trail_value a with
    | true, Some mode, Some value =>
        <[i := mkTrailingParams mode value (a_baseline a) (a_dynamic_trigger_price a) (a_baseline_updated_at a)]> (trailing_params (pending w))
    | _, _, _ => trailing_params (pending w)
    end.
Proof.
  unfold create. set (k := build_dedup_key _ _ _ _ _). intros H.
  apply bind_Ok in H as (u & w1 & Hc & H). injection Hc as _ <-.
  apply bind_Ok in H as (dup & w2 & [= <- <-] & H). destruct (select_where _ _) as [|x [|y l]]; [|done..].
  apply bind_Ok in H as (j & w3 & [= <- <-] & H). apply bind_Ok in H as (v & w4 & Hf & [= <- <-]).
  unfold try_except in Hf. destruct (flush_create _ _ _ _) as [[[]|e] w5] eqn:Hfl; [|by destruct e].
  injection Hf as _ <-. unfold flush_create in Hfl. apply bind_Ok in Hfl as (now & w6 & [= <- <-] & Hfl).
  apply bind_Ok in Hfl as ([] & w7 & Hi & Hfl). apply insert_checked_Ok in Hi as [_ ->].
  apply bind_Ok in Hfl as ([] & w8 & Hp & Hfl).
  destruct (a_target_price_effective a), (a_target_price_original a);
    first [injection Hp as <- | apply insert_checked_Ok in Hp as [_ ->]];
    (destruct (String.eqb _ _), (a_trail_mode a), (a_trail_value a);
      first [injection Hfl as <- | apply insert_checked_Ok in Hfl as [_ ->]]; done).
Qed.

(** The terms of an accepted order are the ones that were asked for. *)
Lemma validated_terms instrument inp prices : validate_input instrument inp = Ok prices ->
  asked_terms inp
    (match fst prices with Some p => Some (mkPriceParams p p) | None => None end,
     if String.eqb (ci_strategy inp) TRAILING_STRATEGY then
       match ci_trail_mode inp, snd prices with Some mode, Some value => Some (mode, value) | _, _ => None end
     else None).
Proof.
  unfold validate_input. destruct (security_type_of instrument) as [st|]; [|done]. unfold TRAILING_STRATEGY.
  destruct (String.eqb_spec (ci_strategy inp) "trailing_stop_alert") as [Hs|Hs].
  { destruct (ci_trail_mode inp) as [mode|] eqn:Hm; [|done]. destruct (ci_trail_value inp) as [value|] eqn:Hv; [|done].
    destruct (if String.eqb mode _ then _ else _) as [[]|]; [|done]. intros [= <-]. by apply asked_trail. }
  destruct (str_in (ci_strategy inp) MARKET_ORDER_STRATEGIES) eqn:Hm.
  { intros [= <-]. apply asked_market. by apply str_in_spec in Hm. }
  destruct (ci_target_price inp) as [text|] eqn:Ht; [|done]. unfold validate. cbn [pr_amount pr_type pr_price].
  destruct (_ <=? 0); [done|]. destruct (security_type_of instrument) as [st'|]; [|done]. cbn [rbind].
  destruct (parse text) as [p|] eqn:Hp; [|done]. cbn [rbind].
  destruct (is_valid_tick st' p) as [[]|]; cbn [rbind negb]; [|by destruct (nearest_lower st' p); cbn [rbind]; [destruct (nearest_upper st' p)|]|done]. intros [= <-].
  apply (asked_price inp text p); [|done..]. apply not_true_iff_false in Hm. rewrite str_in_spec in Hm.
  intros [He|He]%elem_of_cons; [done|]. by apply Hm.
Qed.

(** The order that [create] stores from accepted arguments. *)
Lemma accepted_order {P} `{QuoteProvider P} limits inp (w w1 : world P) a i : accepted limits inp w a -> create a w = (Ok i, w1) ->
  intent_rows (pending w) i = (None, None, None) ->
  exists c, cores (pending w1) !! i = Some c /\ order_of inp (pending w1) i c /\ c_trading_date c = a_trading_date a /\
    c_status c = a_status a.
Proof.
  intros (sy & prices & date & status & side & _ & _ & Hval & _ & _ & Hside & _ & ->) Hc [= Hn Hnp Hnt].
  destruct (create_Ok _ _ _ _ Hc) as (_ & _ & _ & Hrows). destruct (create_satellites _ _ _ _ Hc) as [Hp Ht].
  pose proof (validated_terms _ _ _ Hval) as Hterms. cbn in Hp, Ht. eexists. rewrite Hrows, lookup_insert_eq.
  split; [done|]. split; [split; try done; [by exists side|]|done].
  unfold terms. rewrite Hp, Ht. destruct prices as [[p|] t]; cbn in *.
  all: rewrite ?lookup_insert_eq, ?Hnp.
  all: destruct (String.eqb (ci_strategy inp) TRAILING_STRATEGY); [|by rewrite Hnt].
  all: destruct (ci_trail_mode inp), t; by rewrite ?lookup_insert_eq, ?Hnt.
Qed.
Lemma create_rest {P} a (w w1 : world P) i : create a w = (Ok i, w1) ->
  forall j, j <> i -> intent_rows (pending w1) j = intent_rows (pending w) j.
Proof.
  intros Hc j Hj. destruct (create_Ok _ _ _ _ Hc) as (_ & _ & _ & Hrows). destruct (create_satellites _ _ _ _ Hc) as [Hp Ht].
  unfold intent_rows. rewrite Hrows, Hp, Ht. repeat case_match; by rewrite ?lookup_insert_ne by done.
Qed.

(** The command reads back what it committed. *)
Lemma create_found {P} `{QuoteProvider P} ks limits inp (w w' : world P) id e : (forall c, ks = Some c -> quiet c) ->
  create_body ks limits inp w = (Ok id, w') -> find_by_id id (ci_owner_user_id inp) w' <> (Raise e, w').
Proof.
  intros Hks Hb. destruct (create_body_cases ks limits inp w (Ok id) w' Hks Hb) as
    (a & w1 & w2 & Hacc & Hcr & [_ Hsy _ _ _ _ Hself] & _ & Hp & _).
  destruct (create_Ok a w w1 id Hcr) as (_ & _ & _ & Hrows).
  destruct (Hself _ ltac:(by rewrite Hrows, lookup_insert_eq)) as (c & Hc & Hsame & _).
  destruct Hacc as (sy & prices & date & status & side & Hsym & _ & Hval & _ & _ & _ & _ & ->).
  unfold same_order_row, order_columns in Hsame. injection Hsame as Hown Hsymb _ _ _ _ _ _ _ _ _ _. cbn in Hown, Hsymb.
  assert (Hsyw : symbols (pending w1) = symbols (pending w)).
  { apply (create_view symbols (symbols (pending w)) _ ltac:(done) ltac:(done) ltac:(done) w (Ok id) w1 eq_refl Hcr). }
  destruct (security_type_parses _ _ _ Hval) as (st & Hty). rewrite <-Hp in Hc.
  pose proof (find_after_create w' id c sy st Hc) as Hf. rewrite Hown in Hf. rewrite Hf; [done| |done].
  by rewrite Hp, Hsy, Hsyw, Hsymb.
Qed.

(** The command, whatever the transaction it joins has already written. *)
Lemma create_command_cases {P} `{QuoteProvider P} (ks : option (M P bool)) limits inp (w w' : world P) r :
  (forall c, ks = Some c -> quiet c) -> create_command ks limits inp w = (r, w') ->
  match r with
  | Raise _ => durable w' = durable w /\ pending w' = durable w' /\ outbox w' = outbox w
  | Ok i => below_limits limits inp (pending w) /\ durable w' = pending w' /\ cores (pending w) !! i_id i = None /\
      (forall j, j <> i_id i -> intent_rows (pending w') j = intent_rows (pending w) j) /\
      exists c st, cores (pending w') !! i_id i = Some c /\ c_owner_user_id c = ci_owner_user_id inp /\
        i = to_domain (pending w') (i_id i) c st /\
        (intent_rows (pending w) (i_id i) = (None, None, None) ->
         exists a, accepted limits inp w a /\ i_id i = next_id w /\
           order_of inp (pending w') (i_id i) c /\ c_trading_date c = a_trading_date a /\
           (c_status c = a_status a \/ (a_status a = "active" /\ c_status c = "triggered")))
  end.
Proof.
  intros Hks Hrun. unfold create_command, bind in Hrun.
  destruct (transaction (create_body ks limits inp) w) as [[id|e] wt] eqn:Ht.
  2: { injection Hrun as <- <-. apply (proj1 (transaction_Raise _ _ _ _)) in Ht as (w1 & Hb & ->).
       destruct (create_body_cases ks limits inp w (Raise e) w1 Hks Hb) as [(Hdu & _) Ho]. done. }
  apply (proj1 (transaction_Ok _ _ _ _)) in Ht.
  destruct (create_body_cases ks limits inp w (Ok id) wt Hks Ht) as
    (a & w1 & w2 & Hacc & Hcr & [_ _ _ _ Hoth Hterms Hself] & Hd & Hp & _).
  pose proof (find_by_id_world _ _ _ _ _ Hrun) as ->. destruct r as [i|e].
  2: { exfalso. by eapply (create_found ks limits inp w wt id). }
  destruct (find_by_id_found _ _ _ _ _ Hrun) as (c & st & Hc & Hown & ->). cbn [i_id to_domain].
  destruct (create_Ok a w w1 id Hcr) as (Hid & _ & Hv & _). apply core_fresh in Hv.
  split; [by destruct Hacc as (? & ? & ? & ? & ? & ? & ? & ? & ? & ? & ? & Hbelow & ?)|]. split; [congruence|]. split; [done|].
  split; [intros j Hj; rewrite Hp, Hoth by done; by apply (create_rest _ _ _ _ Hcr)|].
  exists c, st. split; [done|]. split; [done|]. split; [done|].
  intros Hfree. destruct (accepted_order _ _ _ _ _ _ Hacc Hcr Hfree) as (row & Hrow & Hord & Hdate & Hstat).
  rewrite Hp in *. destruct (Hself row Hrow) as (c' & Hc' & Hsame & Hst). assert (c' = c) as -> by congruence.
  exists a. split; [done|]. split; [done|]. split; [by eapply order_of_same|].
  split; [|by rewrite <-Hstat]. unfold same_order_row, order_columns in Hsame. congruence.
Qed.

(** Under the invariant the identifier of a new intent is free in all tables. *)
Lemma free_rows d i : schema_ok d -> cores d !! i = None -> intent_rows d i = (None, None, None).
Proof. intros Hok Hi. destruct (satellites_owned d Hok i Hi) as [Hp Ht]. unfold intent_rows. by rewrite Hi, Hp, Ht. Qed.

(** C1. Creating an intent is one transaction: when the command raises (a bad
    price, a cap, a duplicate, a refused subscription, a failing inline
    trigger) the database is exactly as before and nothing was sent; when it
    returns, the caps were not reached before, and the stored intent, which is
    the one returned, is the order that was asked for: owner, symbol, strategy,
    lots and modes, and in the satellites exactly the price its text denotes, or
    its trail, or neither.  It is open in the status of the moment or already
    triggered, all rows of every other intent are untouched, and the schema's
    invariants hold. *)
Theorem create_command_atomic {P} `{QuoteProvider P} (ks : option (M P bool)) (limits : option IntentLimits)
    (inp : CreateTradeIntentInput) (w w' : world P) (r : res TradeIntentData)
    (Hks : forall c, ks = Some c -> quiet c) (Hclean : pending w = durable w)
    (Hok : schema_ok (durable w)) (Hrun : create_command ks limits inp w = (r, w')) :
  schema_ok (durable w') /\ pending w' = durable w' /\
  match r with
  | Raise _ => durable w' = durable w /\ outbox w' = outbox w
  | Ok i => below_limits limits inp (durable w) /\
      exists a c st, accepted limits inp w a /\ i_id i = next_id w /\
        cores (durable w) !! i_id i = None /\ cores (durable w') !! i_id i = Some c /\
        i = to_domain (durable w') (i_id i) c st /\
        (forall j, j <> i_id i -> intent_rows (durable w') j = intent_rows (durable w) j) /\
        order_of inp (durable w') (i_id i) c /\ c_trading_date c = a_trading_date a /\
        (c_status c = a_status a \/ (a_status a = "active" /\ c_status c = "triggered"))
  end.
Proof.
  assert (Hboth : both schema_ok w) by (split; congruence).
  destruct (create_command_pres ks limits inp Hks w r w' Hboth Hrun) as [Hd' _]. split; [done|].
  pose proof (create_command_cases ks limits inp w w' r Hks Hrun) as Hcase. rewrite Hclean in Hcase.
  destruct r as [i|e]; [|naive_solver]. destruct Hcase as (Hbelow & Hd & Hn & Hrest & c & st & Hc & _ & Hi & Hcase).
  split; [done|]. split; [done|]. rewrite Hd. destruct (Hcase (free_rows _ _ Hok Hn)) as (a & ? & ? & ? & ? & ?).
  exists a, c, st. by split_and!.
Qed.

(** The market the witnesses trade in: an in-memory provider that knows one
    ask quote. *)
Definition market (ask : dec) : InMemoryQuoteProvider :=
  im_push_quote (mkInMemory ∅ ∅) (quote_at None (Some ask) None).
Definition market_world (ask : dec) (d : db) : world InMemoryQuoteProvider :=
  mkWorld d d (market ask) 100 [] sample_time sample_time.
Definition sample_input (target : string) : CreateTradeIntentInput :=
  mkCreateInput "2330" "buy_price_alert" 2 7 (Some target) "single_notification" "single" None None.

(** An alert whose condition already holds is created and fired at once. *)
Lemma create_command_atomic_witness :
  let w := market_world (Dec 5995 (-1)) sample_db in
  exists i w', create_command None (Some (mkLimits 5 1)) (sample_input "600") w = (Ok i, w') /\
    i_status i = "triggered" /\ length (outbox w') = 1%nat /\ cores (durable w) !! i_id i = None.
Proof.
  intros w. set (x := create_command None (Some (mkLimits 5 1)) (sample_input "600") w).
  assert (H : exists i, fst x = Ok i /\ i_status i = "triggered" /\ length (outbox (snd x)) = 1%nat).
  { vm_compute. eexists. repeat split; reflexivity. }
  destruct H as (i & Hi & Hs & Ho). exists i, (snd x).
  assert (Hx : x = (Ok i, snd x)) by (rewrite <-Hi; apply surjective_pairing).
  split; [exact Hx|]. split; [exact Hs|]. split; [exact Ho|].
  destruct (create_command_atomic None (Some (mkLimits 5 1)) (sample_input "600") w (snd x) (Ok i)
    ltac:(discriminate) eq_refl sample_schema Hx) as (_ & _ & _ & a & c & _ & _ & _ & Hn & _).
  exact Hn.
Defined.

(** ** Cancelling *)

(** The provider after the clean-up for [symbol]: released when no open intent
    is left on it, and left alone when the provider refuses. *)
Definition released {P} `{QuoteProvider P} (symbol : string) (d : db) (p : P) : P :=
  if 0 <? count_where (fun _ c => String.eqb (c_symbol c) symbol && is_open (c_status c)) (cores d) then p
  else match unsubscribe p symbol with Ok p' => p' | Raise _ => p end.

Lemma reconcile_released {P} `{QuoteProvider P} symbol (w : world P) :
  try_except (reconcile_after_terminal_transition symbol) (fun _ => ret tt) w =
    (Ok tt, with_provider (released symbol (pending w) (provider w)) w).
Proof.
  unfold try_except, reconcile_after_terminal_transition, count_active_or_scheduled_for_symbol, query, gets, bind,
    reconcile_on_terminal, released.
  destruct (0 <? _); [by destruct w|]. unfold provider_call, gets, lift, bind, modify.
  destruct (unsubscribe (provider w) symbol); [done|by destruct w].
Qed.

(** Cancelling on every branch: only the owner's open intent changes, to
    cancelled; cancelling it again is accepted and changes nothing; a foreign or
    unknown intent is not found, any other status is refused.  After a success
    the quote subscription is released exactly when no open intent is left on
    the symbol. *)
Theorem cancel_command_outcomes {P} `{QuoteProvider P} (i o : uuid) (w w' : world P) (r : res TradeIntentData)
    (Hclean : pending w = durable w) (Hsym : symbols_ok (durable w)) (Hrun : cancel_command i o w = (r, w')) :
  outbox w' = outbox w /\ pending w' = durable w' /\
  match cores (durable w) !! i with
  | Some c =>
      if (c_owner_user_id c =? o) && is_some (symbols (durable w) !! c_symbol c) then
        if is_open (c_status c) || String.eqb (c_status c) "cancelled" then
          durable w' = (if is_open (c_status c) then cancelled_db i (db_now w) (durable w) else durable w) /\
          provider w' = released (c_symbol c) (durable w') (provider w) /\
          exists x, r = Ok x /\ i_id x = i /\ i_status x = "cancelled" /\ i_owner_user_id x = o
        else r = Raise (CancelNotAllowedError i (c_status c)) /\ durable w' = durable w /\ provider w' = provider w
      else r = Raise (IntentNotFoundError i) /\ durable w' = durable w /\ provider w' = provider w
  | None => r = Raise (IntentNotFoundError i) /\ durable w' = durable w /\ provider w' = provider w
  end.
Proof.
  unfold cancel_command in Hrun. unfold bind at 1 in Hrun.
  destruct (cancel i o w) as [r1 w1] eqn:Hc. pose proof (cancel_cases i o w r1 w1 Hc) as Hcase. rewrite Hclean in Hcase.
  assert (Htr : transaction (do x <- cancel i o; do_ commit; ret x) w =
    match r1 with
    | Ok x => (Ok x, mkWorld (pending w1) (pending w1) (provider w1) (next_id w1) (outbox w1) (app_now w1) (db_now w1))
    | Raise e => (Raise e, with_pending (durable w1) w1)
    end).
  { unfold transaction, try_except, bind. rewrite Hc. by destruct r1. }
  rewrite Htr in Hrun. clear Htr Hc.
  destruct Hcase as [[-> [[-> Hnone]|(c & s & Hc & Ho & Hs & Hcase)]]|(c & s & Hc & Ho & Hopen & Hs & -> & ->)].
  - injection Hrun as <- <-. split; [done|]. split; [done|].
    destruct Hnone as [->|(c & -> & Hc)]; [done|]. destruct (Z.eqb_spec (c_owner_user_id c) o); [|done].
    destruct Hc as [?| ->]; [done|]. done.
  - rewrite Hc, Ho, Z.eqb_refl, Hs. cbn [andb is_some]. destruct Hcase as [(Hno & Hnc & ->)|(Hcan & ->)].
    + injection Hrun as <- <-. split; [done|]. split; [done|]. rewrite Hno. cbn [orb].
      by rewrite (proj2 (String.eqb_neq _ _) Hnc).
    + rewrite Hcan. cbn [is_open str_in existsb String.eqb orb]. revert Hrun. unfold rmap, rbind, parse_security_type.
      specialize (Hsym _ _ Hs). destruct (security_type_of (sy_instrument_type s)) as [st|]; [|done].
      unfold bind. rewrite reconcile_released. cbn [pending provider durable]. intros [= <- <-]. rewrite Hclean.
      split; [done|]. split; [done|]. split; [done|]. split; [done|]. by eexists.
  - rewrite Hc, Ho, Z.eqb_refl, Hs. cbn [andb is_some]. rewrite Hopen. cbn [orb]. revert Hrun.
    unfold rmap, rbind, parse_security_type. specialize (Hsym _ _ Hs).
    destruct (security_type_of (sy_instrument_type s)) as [st|]; [|done].
    unfold bind. rewrite reconcile_released. cbn [pending provider durable]. intros [= <- <-].
    split; [done|]. split; [done|]. split; [done|]. split; [done|]. by eexists.
Qed.

Lemma cancel_command_outcomes_witness :
  let w := market_world (Dec 5995 (-1)) open_db in
  exists x w', cancel_command 1 7 w = (Ok x, w') /\ i_status x = "cancelled" /\
    active_subscriptions (provider w) = ["2330"] /\ provider w' = released "2330" (durable w') (provider w) /\
    active_subscriptions (provider w') = [].
Proof.
  intros w. set (y := cancel_command 1 7 w).
  assert (H : exists x, fst y = Ok x /\ active_subscriptions (provider (snd y)) = []) by (vm_compute; eexists; split; reflexivity).
  destruct H as (x & Hx & Hp). exists x, (snd y).
  assert (Hy : y = (Ok x, snd y)) by (rewrite <-Hx; apply surjective_pairing).
  assert (Hsym : symbols_ok open_db).
  { intros s r. cbn [open_db sample_db symbols set_symbols set_users set_cores set_price_params].
    intros Hs. apply lookup_singleton_Some in Hs as [_ <-]. reflexivity. }
  destruct (cancel_command_outcomes 1 7 w (snd y) (Ok x) eq_refl Hsym Hy) as (_ & _ & Hout).
  change (cores (durable w) !! (1 : uuid)) with (Some (sample_row 2)) in Hout. cbv iota in Hout.
  destruct Hout as (_ & Hrel & x' & [= <-] & _ & Hst & _).
  split; [exact Hy|]. split; [exact Hst|]. split; [vm_compute; reflexivity|]. split; [exact Hrel|exact Hp].
Defined.

(** An open intent of the legacy track on the same symbol. *)
Definition legacy_alert : LegacyRow :=
  mkLegacy 7 "2330" "sell_price_alert" "notify_only" 1 (Some (Dec 650 0)) (Some (Dec 650 0)) "bid" 20601 "day"
    "active" None None "single_notification" "single" 0 None None None None None None None None None None None
    None None sample_time sample_time.

(** The two tracks share one set of subscriptions, but the clean-up after a
    cancellation counts the open intents of its own track only: cancelling the
    last core intent of a symbol drops the quotes an open legacy intent still
    needs. *)
Theorem cancel_drops_legacy_quotes :
  let w := market_world (Dec 5995 (-1)) (set_legacy_intents {[50 := legacy_alert]} open_db) in
  exists x w', cancel_command 1 7 w = (Ok x, w') /\
    active_subscriptions (provider w) = ["2330"] /\ active_subscriptions (provider w') = [] /\
    (fun l => (l_symbol l, is_open (l_status l))) <$> legacy_intents (durable w') !! (50 : uuid) = Some ("2330", true).
Proof. do 2 eexists. split; [vm_compute; reflexivity|]. split; [vm_compute; reflexivity|]. split; vm_compute; reflexivity. Qed.
