(* ===== verification/Dispatcher.v ===== *)
(** * The day lifecycle and the quote dispatcher

    [src/app/services/quote_dispatcher_core.py], with the lifecycle of
    [Lifecycle] on the new track's repository. *)

From S2P Require Import Prelude Decimal Datetime Errors Price TradingSession Intent Evaluation Tables Store CoreSchema Lifecycle IntentRepo Samples IntentQueries Trigger Quotes CreateIntent.

#[local] Open Scope string_scope.
#[local] Open Scope list_scope.
#[local] Open Scope Z_scope.

Section Dispatcher.
  Context {P : Type} `{QuoteProvider P}.

(** [TradeIntentCoreRepository] as the store of the lifecycle. *)
Definition core_store : DayIntentLifecycleStore P :=
  mkLifecycleStore system_expire_day_intents_through system_activate_scheduled_day_intents.

(** [IntentLifecycleCommand(TradeIntentCoreRepository(db), ...).run()] *)
Definition lifecycle_run : M P IntentLifecycleOutput := Lifecycle.run core_store.

(** The races the dispatcher skips. *)
Definition is_race (e : exn) : bool :=
  match e with CoreIntentNotActiveError _ | DuplicateTriggerError _ => true | _ => false end.

(** One iteration of the loop: whether it wrote something. *)
Definition dispatch_intent (snapshot : QuoteSnapshot) (now : datetime) (i : TradeIntentData) : M P bool :=
  do r <- lift (evaluate snapshot i now);
  do i' <- store_baseline i r;
  let wrote := is_some (e_baseline_updated_at r) in
  if negb (should_trigger r) then ret wrote
  else
    match trigger_input snapshot r with
    | None => raise (RuntimeError "Evaluator returned should_trigger=True but trigger fields are None")
    | Some inp =>
        try_except (do_ begin_nested (persist_core_trigger i' inp); ret true)
          (fun e => if is_race e then ret wrote else raise e)
    end.

Fixpoint dispatch_loop (snapshot : QuoteSnapshot) (now : datetime) (intents : list TradeIntentData)
    (has_pending_writes : bool) : M P bool :=
  match intents with
  | [] => ret has_pending_writes
  | i :: rest =>
      do wrote <- dispatch_intent snapshot now i;
      dispatch_loop snapshot now rest (has_pending_writes || wrote)
  end.

(** The block under [with self._session_factory() as db]. *)
Definition dispatch_session (snapshot : QuoteSnapshot) (now : datetime) : M P unit :=
  do_ lifecycle_run;
  do intents <- system_list_active_by_symbols [q_symbol snapshot];
  match intents with
  | [] => ret tt
  | _ => do wrote <- dispatch_loop snapshot now intents false; when wrote commit
  end.

(** [_dispatch_inner] *)
Definition dispatch_inner (kill_switch : option (M P bool)) (snapshot : QuoteSnapshot) : M P unit :=
  do halted <- halted_now kill_switch;
  if halted : bool then ret tt
  else
    do host_now <- clock;
    with_session (dispatch_session snapshot (now_taipei host_now)).

(** [dispatch]: every exception is swallowed. *)
Definition dispatch (kill_switch : option (M P bool)) (snapshot : QuoteSnapshot) : M P unit :=
  try_except (dispatch_inner kill_switch snapshot) (fun _ => ret tt).

(** ** Invariant *)

Lemma with_session_pres J {A} (c : M P A) : preserves (both J) c -> preserves (both J) (with_session c).
Proof.
  intros Hc w r w' [Hd Hp]. unfold with_session.
  destruct (c (with_pending (durable w) w)) as [x w1] eqn:Hx. intros [= _ <-].
  destruct (Hc _ _ _ (conj Hd Hd : both J (with_pending (durable w) w)) Hx). done.
Qed.

Lemma lifecycle_pres : preserves (P := P) (both schema_ok) lifecycle_run.
Proof. unfold lifecycle_run, Lifecycle.run, core_store. cbn [expire_day_intents_through activate_scheduled_day_intents]. pose proof (expire_pres (P := P)). pose proof (activate_pres (P := P)). preserve. Qed.

Lemma dispatch_intent_pres q now i : preserves (P := P) (both schema_ok) (dispatch_intent q now i).
Proof.
  unfold dispatch_intent. pose proof (store_baseline_pres (P := P)).
  assert (forall j inp, preserves (P := P) (both schema_ok) (begin_nested (persist_core_trigger j inp))).
  { intros. apply safe_nested, persist_safe. }
  preserve.
Qed.

Lemma dispatch_loop_pres q now l b : preserves (P := P) (both schema_ok) (dispatch_loop q now l b).
Proof.
  revert b. induction l as [|i l IH]; intros b; cbn; [apply preserves_ret|].
  apply preserves_bind; [apply dispatch_intent_pres|]. intros a. apply IH.
Qed.

Lemma list_active_pres J l : preserves (P := P) (both J) (system_list_active_by_symbols l).
Proof. unfold system_list_active_by_symbols. destruct l; preserve. Qed.

Lemma dispatch_pres ks q : (forall c, ks = Some c -> quiet c) -> preserves (P := P) (both schema_ok) (dispatch ks q).
Proof.
  intros Hks. unfold dispatch, dispatch_inner.
  assert (preserves (P := P) (both schema_ok) (halted_now ks)).
  { unfold halted_now. destruct ks; [by apply quiet_preserves, Hks|apply preserves_ret]. }
  assert (forall now, preserves (P := P) (both schema_ok) (with_session (dispatch_session q now))).
  { intros now. apply with_session_pres. unfold dispatch_session. pose proof lifecycle_pres.
    pose proof dispatch_loop_pres. pose proof list_active_pres. preserve. }
  preserve.
Qed.

End Dispatcher.
