(* ===== verification/DispatchSpec.v ===== *)
(** * What a dispatched quote does

    The day lifecycle and the dispatch loop against their specification: which
    intents expire, are activated and fire, and what is durable and sent
    afterwards. *)

From S2P Require Import Prelude Decimal Datetime Errors Price TradingSession Intent Evaluation Tables Store CoreSchema Lifecycle IntentRepo Samples IntentQueries Trigger Quotes CreateIntent Dispatcher.

#[local] Open Scope string_scope.
#[local] Open Scope list_scope.
#[local] Open Scope Z_scope.

(** ** The races cannot happen inside one session *)

Lemma labelled_not_race {A} what (x : option A) k t e : Template.labelled what x k t = Raise e -> is_race e = false.
Proof. unfold Template.labelled. repeat case_match; intros; simplify_eq; done. Qed.

Lemma render_not_race i inp e : render_trigger i inp = Raise e -> is_race e = false.
Proof.
  unfold render_trigger, Template.render_market_order_triggered, Template.render_limit_order_triggered,
    Template.render_trailing_stop_triggered, Template.render_price_triggered, rbind.
  intros H. repeat case_match; simplify_eq; try done; by eapply labelled_not_race.
Qed.

Lemma notification_not_race i r d k : notification_violation i r d = Some k ->
  k <> "uq_trade_intent_triggers_trade_intent_id".
Proof. unfold notification_violation. cbn [first_violation]. intros H. repeat case_match; by simplify_eq. Qed.

(** Only an existing trigger row of the intent violates the unique index. *)
Lemma trigger_duplicate i r d : trigger_violation i r d = Some "uq_trade_intent_triggers_trade_intent_id" ->
  exists j x, triggers d !! j = Some x /\ g_trade_intent_id x = g_trade_intent_id r.
Proof.
  unfold trigger_violation, trigger_checks. cbn [first_violation app]. intros H.
  repeat (match type of H with (if ?b then _ else _) = _ => destruct b eqn:? end; try discriminate H).
  apply dec_stable. intros Hn.
  match goal with Hc : (count_where ?p ?m =? 0) = false |- _ =>
    apply Z.eqb_neq in Hc; apply Hc, count_zero; intros k x Hx; apply Z.eqb_neq; intros He; apply Hn; by exists k, x end.
Qed.

Section Dispatch.
  Context {P : Type} `{QuoteProvider P}.
  Implicit Types w : world P.

(** An active intent of a well-formed state either fires or fails for a reason
    that is not one of the skipped races. *)
Lemma persist_no_race i inp w e w' c : schema_ok (pending w) -> cores (pending w) !! i_id i = Some c ->
  c_status c = "active" -> persist_core_trigger i inp w = (Raise e, w') -> is_race e = false.
Proof.
  intros Hok Hc Hs. unfold persist_core_trigger, bind, lift.
  destruct (render_trigger i inp) as [x|e0] eqn:Hx; [|intros [= <- _]; by eapply render_not_race].
  destruct (r_target x) as [target|]; [|by intros [= <- _]].
  unfold sql_now, gets, uuid4, try_except, write_trigger, mark_triggered, update_counting, update_cores, bind.
  run_session.
  assert (Hcount : (count_where (trigger_guard i) (cores (pending w)) =? 0) = false).
  { apply Z.eqb_neq. rewrite guard_iff. intros Hn. by apply (Hn c). }
  cbn [pending cores]. unfold ret, sql_now, gets, modify, query, execute, bind. cbn [pending db_now with_pending]. rewrite Hcount.
  unfold insert_trigger, insert_notification, insert_checked, query, execute, gets, modify, bind, id.
  cbn [pending with_pending].
  match goal with |- context [trigger_violation ?t ?r ?d] => destruct (trigger_violation t r d) as [k|] eqn:Hv end.
  - intros [= <- _]. unfold translate_duplicate. destruct (String.eqb_spec k "uq_trade_intent_triggers_trade_intent_id") as [->|]; [|done].
    apply trigger_duplicate in Hv as (j & y & Hy & Hg). cbn in Hy, Hg.
    destruct (trigger_intent _ Hok j y Hy) as (r & Hr & Hrs). rewrite Hg, Hc in Hr. injection Hr as <-. congruence.
  - match goal with |- context [notification_violation ?t ?r ?d] =>
      destruct (notification_violation t r d) as [k|] eqn:Hv2; [|done] end.
    intros [= <- _]. apply notification_not_race in Hv2. unfold translate_duplicate. by rewrite (proj2 (String.eqb_neq _ _) Hv2).
Qed.

(** Storing a baseline changes no status. *)
Lemma store_baseline_status k b i r :
  preserves (P := P) (view_is (fun d => c_status <$> cores d !! k) b) (store_baseline i r).
Proof.
  unfold store_baseline, apply_trailing_baseline_update, system_update_trailing_baseline.
  assert (Hu : forall p now, preserves (P := P) (view_is (fun d => c_status <$> cores d !! k) b)
    (update_cores p (fun x => core_set (c_status x) (c_cancelled_at x) (c_triggered_at x) (c_last_fill_at x)
      (c_filled_quantity_lots x) now x))).
  { intros p now. apply view_execute. intros d. cbn. rewrite lookup_update. destruct (cores d !! k); [|done]. cbn.
    by destruct (p k c). }
  assert (Hi : forall v t, preserves (P := P) (view_is (fun d => c_status <$> cores d !! k) b)
    (insert_checked v (fun d => set_trailing_params (t d) d))) by (intros; by apply view_insert).
  preserve.
Qed.

(** One iteration of the loop on an active intent. *)
Record iteration (q : QuoteSnapshot) (now : datetime) (i : TradeIntentData) (it_result : EvaluationResult)
    (wrote : bool) w w' : Prop := {
  it_evaluated : evaluate q i now = Ok it_result;
  it_only : only_intent (i_id i) w w';
  it_status : c_status <$> cores (pending w') !! i_id i =
    Some (if should_trigger it_result then "triggered" else "active");
  it_fired : if should_trigger it_result
    then exists tid g msg, triggers (pending w) !! tid = None /\
      triggers (pending w') = <[tid := g]> (triggers (pending w)) /\ g_trade_intent_id g = i_id i /\
      trigger_price it_result = Some (g_trigger_price g) /\ outbox w' = outbox w ++ [msg]
    else triggers (pending w') = triggers (pending w) /\ outbox w' = outbox w;
  it_wrote : wrote = false -> pending w' = pending w /\ should_trigger it_result = false;
}.

Lemma dispatch_intent_spec q now i w b w' : both schema_ok w ->
  c_status <$> cores (pending w) !! i_id i = Some "active" ->
  dispatch_intent q now i w = (Ok b, w') -> exists r, iteration q now i r b w w'.
Proof.
  intros Hok Hact. unfold dispatch_intent. unfold bind at 1, lift.
  destruct (evaluate q i now) as [r|e] eqn:Hev; [|done]. unfold bind at 1.
  destruct (store_baseline i r w) as [[j|e] w1] eqn:Hb; [|done].
  destruct (store_baseline_cases _ _ _ _ _ Hb) as (Hoi & Hout & Hid & Htr & _). specialize (Hid j eq_refl).
  pose proof (store_baseline_status (i_id i) (Some "active") i r w _ w1 Hact Hb : _ = _) as Hact1.
  pose proof (store_baseline_pres i r w _ w1 Hok Hb) as [_ Hok1].
  assert (Hnone : is_some (e_baseline_updated_at r) = false -> w1 = w).
  { unfold store_baseline in Hb. destruct (e_baseline_updated_at r); [done|]. by injection Hb. }
  destruct (should_trigger r) eqn:Hst; cbn [negb].
  2: { intros [= <- <-]. exists r. refine {| it_evaluated := Hev; it_only := Hoi |}; rewrite Hst; try done.
       intros Hw. split; [by rewrite (Hnone Hw)|done]. }
  destruct (trigger_input q r) as [inp|] eqn:Hin; [|done].
  unfold try_except, bind, begin_nested. destruct (persist_core_trigger j inp w1) as [[[]|e] w2] eqn:Hp.
  - intros [= <- <-]. destruct (fired_only_intent _ _ _ _ Hp) as [Hoi2 _]. rewrite Hid in Hoi2.
    destruct (persist_cases _ _ _ _ _ Hp) as [_ (c & x & target & tid & nid & _ & _ & Hc & _ & Hn & _ & Hp2 & Ho2)].
    exists r. refine {| it_evaluated := Hev; it_only := only_intent_trans _ _ _ _ Hoi Hoi2 |}; rewrite Hst; try done.
    + by rewrite Hp2, <-Hid; cbn; rewrite lookup_insert_eq.
    + eexists tid, _, _. rewrite <-Htr, <-Hout. split; [done|]. split; [by rewrite Hp2|]. split; [exact Hid|].
      split; [|exact Ho2]. revert Hin. unfold trigger_input. destruct (trigger_price r), (trigger_reference_price_type r);
        by intros [= <-].
  - rewrite <-Hid in Hact1. destruct (cores (pending w1) !! i_id j) as [c|] eqn:Hc; [|done]. injection Hact1 as Hact1.
    by rewrite (persist_no_race _ _ _ _ _ _ Hok1 Hc Hact1 Hp).
Qed.

End Dispatch.

(** ** The day lifecycle *)

(** The session of trading date [d] has ended at [now]. *)
Definition session_over (now : datetime) (d : date) : bool :=
  if is_trading_day (taipei_date now) && (taipei_time now <? SESSION_END) then d <? taipei_date now
  else d <=? taipei_date now.
Definition to_expire (now : datetime) (c : CoreRow) : bool :=
  is_open (c_status c) && session_over now (c_trading_date c).
Definition to_activate (now : datetime) (c : CoreRow) : bool :=
  in_session now && String.eqb (c_status c) "scheduled" && (c_trading_date c =? taipei_date now).

(** The specification: the status of an intent after a run at [now]. *)
Definition lifecycle_status (now : datetime) (c : CoreRow) : string :=
  if to_expire now c then "expired" else if to_activate now c then "active" else c_status c.

Definition with_status (s : string) (now : datetime) (c : CoreRow) : CoreRow :=
  core_set s (c_cancelled_at c) (c_triggered_at c) (c_last_fill_at c) (c_filled_quantity_lots c) now c.
Definition after_lifecycle (now : datetime) (d : db) : db :=
  set_cores (update_where (fun _ c => to_activate now c) (with_status "active" now)
    (update_where (fun _ c => to_expire now c) (with_status "expired" now) (cores d))) d.

Lemma set_cores_same d : set_cores (cores d) d = d.
Proof. by destruct d. Qed.

Lemma cutoff_over now d : (d <=? (if is_trading_day (taipei_date now) && (taipei_time now <? SESSION_END)
  then taipei_date now - 1 else taipei_date now)) = session_over now d.
Proof. unfold session_over. destruct (_ && _); [|done]. destruct (Z.leb_spec d (taipei_date now - 1)), (Z.ltb_spec d (taipei_date now)); lia. Qed.

Lemma open_session_not_over now : in_session now = true -> session_over now (taipei_date now) = false.
Proof. intros Hs. unfold session_over. rewrite in_session_open by done. by rewrite Z.ltb_irrefl. Qed.

Lemma activate_not_expire now c : to_activate now c = true -> to_expire now c = false.
Proof.
  unfold to_activate, to_expire. intros [[Hs _]%andb_true_iff ->%Z.eqb_eq]%andb_true_iff.
  by rewrite open_session_not_over, andb_false_r.
Qed.

Lemma expired_stays now c : to_activate now (with_status "expired" now c) = false.
Proof. unfold to_activate. cbn. by rewrite andb_false_r. Qed.

(** The row of an intent after a run. *)
Lemma after_lifecycle_row now d i : cores (after_lifecycle now d) !! i =
  (fun c => if to_expire now c then with_status "expired" now c
            else if to_activate now c then with_status "active" now c else c) <$> cores d !! i.
Proof.
  unfold after_lifecycle. cbn [cores set_cores]. rewrite !lookup_update. destruct (cores d !! i) as [c|]; [|done].
  cbn. destruct (to_expire now c) eqn:He; [|by destruct (to_activate now c)].
  by rewrite expired_stays.
Qed.

Section Lifecycle.
  Context {P : Type}.
  Implicit Types w : world P.

Lemma lifecycle_run_eq w (now := now_taipei (app_now w)) :
  let expired := count_where (fun _ c => to_expire now c) (cores (pending w)) in
  let activated := count_where (fun _ c => to_activate now c)
    (update_where (fun _ c => to_expire now c) (with_status "expired" now) (cores (pending w))) in
  let w1 := with_pending (after_lifecycle now (pending w)) w in
  lifecycle_run w = (Ok (mkLifecycleOutput activated expired),
    if negb (expired =? 0) || negb (activated =? 0)
    then mkWorld (pending w1) (pending w1) (provider w) (next_id w) (outbox w) (app_now w) (db_now w) else w1).
Proof.
  intros expired activated w1. unfold lifecycle_run, Lifecycle.run, core_store. cbn [expire_day_intents_through activate_scheduled_day_intents].
  unfold system_expire_day_intents_through,
    system_activate_scheduled_day_intents, update_counting, update_cores. run_session. fold now.
  rewrite cutoff_aware by done. destruct (phase_aware now eq_refl) as (ph & -> & Hph & _).
  set (pe := fun (_ : uuid) (c : CoreRow) => is_open (c_status c) && _).
  assert (Hpe : forall (i : uuid) c, pe i c = to_expire now c) by (intros; unfold pe, to_expire; by rewrite cutoff_over).
  rewrite !(count_ext pe (fun _ c => to_expire now c)) by done.
  cbn [cores set_cores pending with_pending].
  rewrite !(update_ext pe (fun _ c => to_expire now c) _ (with_status "expired" now)) by done. fold expired.
  set (m1 := update_where _ _ _) in *. unfold activated, w1, after_lifecycle. fold m1. clear w1 activated pe Hpe.
  destruct (bool_decide (ph = REGULAR_SESSION)) eqn:Hb.
  - apply bool_decide_eq_true in Hb. apply Hph in Hb. set (pa := fun (_ : uuid) (c : CoreRow) => String.eqb _ _ && _).
    assert (Hpa : forall (i : uuid) c, pa i c = to_activate now c).
    { intros. unfold pa, to_activate. by rewrite Hb. }
    rewrite !(count_ext pa (fun _ c => to_activate now c)) by done.
    rewrite !(update_ext pa (fun _ c => to_activate now c) _ (with_status "active" now)) by done.
    change (cores (pending (with_pending (set_cores m1 (pending w)) w))) with m1.
    set (n := count_where _ m1). unfold when. by destruct (negb (expired =? 0) || negb (n =? 0)).
  - assert (Hno : forall (i : uuid) c, m1 !! i = Some c -> to_activate now c = false).
    { intros i c _. apply bool_decide_eq_false in Hb. unfold to_activate. destruct (in_session now); [|done]. by destruct Hb; apply Hph. }
    rewrite (proj2 (count_zero _ _) Hno), (update_none _ _ _ Hno). unfold when.
    by destruct (negb (expired =? 0)).
Qed.

Lemma lifecycle_at_rest w (now := now_taipei (app_now w)) : pending w = durable w ->
  lifecycle_run w =
    (Ok (mkLifecycleOutput
       (count_where (fun _ c => to_activate now c)
          (update_where (fun _ c => to_expire now c) (with_status "expired" now) (cores (durable w))))
       (count_where (fun _ c => to_expire now c) (cores (durable w)))),
     at_rest (after_lifecycle now (durable w)) w).
Proof.
  intros Hc. rewrite lifecycle_run_eq. fold now. rewrite Hc.
  destruct (Z.eqb_spec (count_where (fun _ c => to_expire now c) (cores (durable w))) 0) as [He|He]; cbn [negb orb]; [|done].
  destruct (Z.eqb_spec (count_where (fun _ c => to_activate now c) (update_where (fun _ c => to_expire now c)
    (with_status "expired" now) (cores (durable w)))) 0) as [Ha|Ha]; cbn [negb]; [|done].
  rewrite He, Ha. f_equal. unfold after_lifecycle. rewrite count_zero in Ha. rewrite (update_none _ _ _ Ha).
  rewrite count_zero in He. by rewrite (update_none _ _ _ He), set_cores_same.
Qed.

End Lifecycle.

Lemma lifecycle_settles now c : to_expire now (with_status (lifecycle_status now c) now c) = false /\
  to_activate now (with_status (lifecycle_status now c) now c) = false.
Proof.
  unfold lifecycle_status. destruct (to_expire now c) eqn:He; [split; [done|apply expired_stays]|].
  destruct (to_activate now c) eqn:Ha.
  - split; [|unfold to_activate; cbn; by rewrite andb_false_r]. unfold to_activate in Ha. apply andb_true_iff in Ha as [[Hs _]%andb_true_iff Hd%Z.eqb_eq].
    unfold to_expire. cbn. by rewrite Hd, open_session_not_over.
  - split; [exact He|exact Ha].
Qed.

(** A run of the lifecycle in a session of its own always succeeds and
    leaves everything committed: an open intent whose session is over is
    expired, in session a scheduled intent of today is activated, every other
    row is untouched; the counts are the numbers of these intents, no other
    table changes, and a second run finds nothing to do. *)
Theorem lifecycle_run_correct {P} (w : world P) (now := now_taipei (app_now w)) (Hclean : pending w = durable w) :
  exists out w', lifecycle_run w = (Ok out, w') /\ pending w' = durable w' /\ outbox w' = outbox w /\
    durable w' = set_cores (cores (durable w')) (durable w) /\
    (forall i, cores (durable w) !! i = None -> cores (durable w') !! i = None) /\
    (forall i c, cores (durable w) !! i = Some c -> exists c', cores (durable w') !! i = Some c' /\
       same_order_row c c' /\ c_status c' = lifecycle_status now c /\ (c_status c' = c_status c -> c' = c)) /\
    expired_count out = count_where (fun _ c => to_expire now c) (cores (durable w)) /\
    activated_count out = count_where (fun _ c => to_activate now c) (cores (durable w)) /\
    lifecycle_run w' = (Ok (mkLifecycleOutput 0 0), w').
Proof.
  rewrite (lifecycle_at_rest w Hclean). fold now. do 2 eexists. split; [reflexivity|].
  set (w' := at_rest _ w). split; [done|]. split; [done|]. split; [done|].
  cbn [durable w' at_rest expired_count activated_count].
  split; [intros i Hi; by rewrite after_lifecycle_row, Hi|].
  split; [|split; [done|split]].
  - intros i c Hi. rewrite after_lifecycle_row, Hi. cbn [fmap option_fmap option_map]. eexists. split; [reflexivity|].
    unfold lifecycle_status. destruct (to_expire now c) eqn:He.
    + split; [done|]. split; [done|]. cbn. intros Hs. unfold to_expire in He. by rewrite <-Hs in He.
    + destruct (to_activate now c) eqn:Ha; [|done]. split; [done|]. split; [done|]. cbn. intros Hs.
      unfold to_activate in Ha. rewrite <-Hs in Ha. by rewrite andb_false_r in Ha.
  - rewrite count_update. apply count_ext. intros i c _. destruct (to_expire now c) eqn:He; [|done].
    rewrite expired_stays. destruct (to_activate now c) eqn:Ha; [|done]. apply activate_not_expire in Ha. congruence.
  - rewrite (lifecycle_at_rest w') by done. cbn [app_now durable w' at_rest]. fold now.
    assert (Hset : forall i c, cores (after_lifecycle now (durable w)) !! i = Some c ->
      to_expire now c = false /\ to_activate now c = false).
    { intros i c. rewrite after_lifecycle_row. destruct (cores (durable w) !! i) as [a|]; [|done]. intros [= <-].
      destruct (lifecycle_settles now a) as [H1 H2]. unfold lifecycle_status in *.
      destruct (to_expire now a) eqn:He; [done|]. destruct (to_activate now a) eqn:Ha; done. }
    assert (He : forall i c, cores (after_lifecycle now (durable w)) !! i = Some c -> to_expire now c = false)
      by (intros i c Hi; by apply (Hset i c)).
    assert (Ha : forall i c, cores (after_lifecycle now (durable w)) !! i = Some c -> to_activate now c = false)
      by (intros i c Hi; by apply (Hset i c)).
    rewrite (update_none (fun _ c => to_expire now c)) by exact He. rewrite (proj2 (count_zero _ _) He), (proj2 (count_zero _ _) Ha).
    assert (Hfix : after_lifecycle now (after_lifecycle now (durable w)) = after_lifecycle now (durable w)).
    { unfold after_lifecycle at 1. rewrite (update_none (fun _ c => to_expire now c)) by exact He.
      rewrite (update_none (fun _ c => to_activate now c)) by exact Ha. apply set_cores_same. }
    by rewrite Hfix.
Qed.

(** ** The batch *)

Section Batch.
  Context {P : Type} `{QuoteProvider P} (q : QuoteSnapshot) (now : datetime).
  Implicit Types w : world P.

(** What the specification asks of one intent of the batch. *)
Definition decided (i : TradeIntentData) (c : CoreRow) (d : db) : Prop :=
  exists r c', evaluate q i now = Ok r /\ cores d !! i_id i = Some c' /\ same_order_row c c' /\
    c_status c' = (if should_trigger r then "triggered" else "active") /\
    (should_trigger r = true -> exists tid g, triggers d !! tid = Some g /\ g_trade_intent_id g = i_id i /\
       trigger_price r = Some (g_trigger_price g)).

Record batch (l : list TradeIntentData) (wrote : bool) w w' : Prop := {
  ba_durable : durable w' = durable w;
  ba_symbols : symbols (pending w') = symbols (pending w);
  ba_others : forall j, (forall i, i ∈ l -> i_id i <> j) -> cores (pending w') !! j = cores (pending w) !! j;
  ba_decided : forall i c, i ∈ l -> cores (pending w) !! i_id i = Some c -> decided i c (pending w');
  ba_triggers : triggers (pending w) ⊆ triggers (pending w');
  ba_sent : (size (triggers (pending w')) + length (outbox w) = size (triggers (pending w)) + length (outbox w'))%nat;
  ba_idle : wrote = false -> pending w' = pending w /\ outbox w' = outbox w;
}.

Lemma iteration_triggers i r b w w' : iteration q now i r b w w' ->
  triggers (pending w) ⊆ triggers (pending w') /\
  (size (triggers (pending w')) + length (outbox w) = size (triggers (pending w)) + length (outbox w'))%nat /\
  (b = false -> outbox w' = outbox w).
Proof.
  intros [_ _ _ Hf Hw]. destruct (should_trigger r).
  - destruct Hf as (tid & g & msg & Hn & -> & _ & _ & ->). split; [by apply insert_subseteq|].
    split; [rewrite map_size_insert_None by done; rewrite length_app; cbn; lia|]. intros Hb. by destruct (Hw Hb).
  - destruct Hf as [-> ->]. done.
Qed.

Lemma iteration_decided i r b w w' c : iteration q now i r b w w' -> cores (pending w) !! i_id i = Some c ->
  decided i c (pending w').
Proof.
  intros [Hev Hoi Hst Hf _] Hc. destruct (oi_self _ _ _ Hoi c Hc) as (c' & Hc' & Hs & _).
  exists r, c'. split; [done|]. split; [done|]. split; [done|]. rewrite Hc' in Hst. injection Hst as Hst. split; [done|].
  intros Ht. rewrite Ht in Hf. destruct Hf as (tid & g & msg & _ & -> & Hg & Hp & _).
  exists tid, g. by rewrite lookup_insert_eq.
Qed.

Lemma decided_frame i c d d' : cores d' !! i_id i = cores d !! i_id i -> triggers d ⊆ triggers d' ->
  decided i c d -> decided i c d'.
Proof.
  intros Hc Ht (r & c' & Hev & Hc' & Hs & Hst & Hf). exists r, c'. rewrite Hc. split; [done|]. split; [done|].
  split; [done|]. split; [done|]. intros Hr. destruct (Hf Hr) as (tid & g & Hg & ?). exists tid, g. split; [|done].
  by eapply lookup_weaken.
Qed.

Lemma dispatch_loop_spec l b w b' w' : both schema_ok w -> NoDup (i_id <$> l) ->
  (forall i, i ∈ l -> c_status <$> cores (pending w) !! i_id i = Some "active") ->
  dispatch_loop q now l b w = (Ok b', w') -> batch l b' w w' /\ (b = true -> b' = true).
Proof.
  revert b w. induction l as [|i l IH]; intros b w Hok Hnd Hact; cbn [dispatch_loop].
  { intros [= <- <-]. split; [|done]. split; try done. set_solver. }
  cbn in Hnd. apply NoDup_cons in Hnd as [Hni Hnd]. unfold bind.
  destruct (dispatch_intent q now i w) as [[wrote|e] w1] eqn:Hi; [|done]. intros Hl.
  destruct (dispatch_intent_spec q now i w wrote w1 Hok (Hact i ltac:(left)) Hi) as (r & Hit).
  pose proof (dispatch_intent_pres q now i w _ w1 Hok Hi) as Hok1. pose proof Hit as [_ Hoi _ _ Hidle].
  assert (Hne : forall j, j ∈ l -> i_id j <> i_id i).
  { intros j Hj He. apply Hni. rewrite <-He. by apply list_elem_of_fmap_2. }
  assert (Hact1 : forall j, j ∈ l -> c_status <$> cores (pending w1) !! i_id j = Some "active").
  { intros j Hj. rewrite (oi_core _ _ _ _ Hoi) by by apply Hne. apply Hact. by right. }
  destruct (IH _ w1 Hok1 Hnd Hact1 Hl) as [Hb Hbt].
  destruct (iteration_triggers _ _ _ _ _ Hit) as (Hsub & Hsize & Hout). destruct Hb as [Hd Hsy Hoth Hdec Htr Hsent Hid].
  split; [|intros ->; by apply Hbt]. split.
  - by rewrite Hd, (oi_durable _ _ _ Hoi).
  - by rewrite Hsy, (oi_symbols _ _ _ Hoi).
  - intros j Hj. rewrite Hoth by (intros k Hk; apply Hj; by right). apply (oi_core _ _ _ _ Hoi). apply not_eq_sym, Hj. left.
  - intros j c Hj Hc. apply elem_of_cons in Hj as [->|Hj].
    + apply (decided_frame i c (pending w1)); [|done|by eapply iteration_decided]. apply Hoth. intros k Hk. by apply Hne.
    + apply Hdec; [done|]. rewrite (oi_core _ _ _ _ Hoi) by by apply Hne. done.
  - by trans (triggers (pending w1)).
  - lia.
  - intros Hf. destruct (Hid Hf) as [-> ->]. assert (Hwf : wrote = false).
    { destruct wrote; [|done]. rewrite orb_true_r in Hbt. by rewrite Hbt in Hf. }
    split; [by destruct (Hidle Hwf)|by apply Hout].
Qed.

End Batch.

(** ** The listing *)

Lemma to_domains_elem d rows l : to_domains d rows = Ok l -> forall i, i ∈ l <->
  exists k c s st, (k, c) ∈ rows /\ symbols d !! c_symbol c = Some s /\
    parse_security_type (sy_instrument_type s) = Ok st /\ i = to_domain d k c st.
Proof.
  revert l. induction rows as [|[k c] rows IH]; intros l; cbn [to_domains]; unfold with_symbol_type.
  { intros [= <-] i. set_solver. }
  destruct (symbols d !! c_symbol c) as [s|] eqn:Hs.
  - intros Hl i. apply rbind_Ok in Hl as (st & Hst & Hl). apply rbind_Ok in Hl as (l' & Hl' & Hl). injection Hl as <-.
    rewrite elem_of_cons, (IH l' Hl'). split.
    + intros [->|(k' & c' & s' & st' & Hin & ?)]; [exists k, c, s, st; split; [left|done]|].
      exists k', c', s', st'. split; [by right|done].
    + intros (k' & c' & s' & st' & Hin & Hs' & Hst' & ->). apply elem_of_cons in Hin as [[= -> ->]|Hin]; [left; congruence|].
      right. by exists k', c', s', st'.
  - intros Hl i. rewrite (IH l Hl). split; intros (k' & c' & s' & st' & Hin & Hs' & ?); exists k', c', s', st'.
    + split; [by right|done].
    + apply elem_of_cons in Hin as [[= -> ->]|Hin]; [congruence|done].
Qed.

Lemma to_domains_total d rows l k c s e : to_domains d rows = Ok l -> (k, c) ∈ rows ->
  symbols d !! c_symbol c = Some s -> parse_security_type (sy_instrument_type s) <> Raise e.
Proof.
  revert l. induction rows as [|[k' c'] rows IH]; intros l; cbn [to_domains]; [set_solver|].
  intros Hl Hin Hs Hst. apply elem_of_cons in Hin as [[= <- <-]|Hin].
  - unfold with_symbol_type in Hl. by rewrite Hs, Hst in Hl.
  - destruct (with_symbol_type d c') as [[c0 ty]|]; [|by eapply IH].
    apply rbind_Ok in Hl as (st & _ & Hl). apply rbind_Ok in Hl as (l' & Hl' & _). by eapply IH.
Qed.

Lemma to_domains_ids d rows l : NoDup rows.*1 -> to_domains d rows = Ok l -> NoDup (i_id <$> l).
Proof.
  revert l. induction rows as [|[k c] rows IH]; intros l Hnd; cbn [to_domains].
  { intros [= <-]. constructor. }
  cbn in Hnd. apply NoDup_cons in Hnd as [Hk Hnd]. destruct (with_symbol_type d c) as [[c0 ty]|]; [|by apply IH].
  intros Hl. apply rbind_Ok in Hl as (st & _ & Hl). apply rbind_Ok in Hl as (l' & Hl' & Hl). injection Hl as <-.
  cbn. apply NoDup_cons. split; [|by eapply IH]. intros Hin. apply Hk.
  apply list_elem_of_fmap in Hin as (i & Hi & Hin). apply (to_domains_elem d rows l' Hl') in Hin as (k' & c' & s & st' & Hin & _ & _ & ->).
  cbn in Hi. subst k'. by apply (list_elem_of_fmap_2 fst) in Hin.
Qed.

Definition watches (q : QuoteSnapshot) (d : db) (c : CoreRow) : Prop :=
  c_status c = "active" /\ c_symbol c = q_symbol q /\ is_some (symbols d !! c_symbol c) = true.

(** C7. A quote that is dispatched without an error decides every intent: after
    the lifecycle's run, each active intent on the quote's symbol fires exactly
    when the evaluator says so, at the evaluator's price and with its trigger
    row stored; every other intent is untouched; everything is committed, and
    one message was sent per stored trigger. *)
Theorem dispatch_decides {P} `{QuoteProvider P} (q : QuoteSnapshot) (w w' : world P)
    (now := now_taipei (app_now w)) (d := after_lifecycle now (durable w))
    (Hok : schema_ok (durable w)) (Hrun : dispatch_inner None q w = (Ok tt, w')) :
  pending w' = durable w' /\
  (forall k c, cores d !! k = Some c -> watches q d c -> exists st, decided q now (to_domain d k c st) c (durable w')) /\
  (forall k c, cores d !! k = Some c -> ~ watches q d c -> cores (durable w') !! k = Some c) /\
  (size (triggers (durable w')) + length (outbox w) = size (triggers (durable w)) + length (outbox w'))%nat.
Proof.
  unfold dispatch_inner, halted_now, clock, gets, bind, ret, with_session in Hrun. fold now in Hrun.
  destruct (dispatch_session q now _) as [r w2] eqn:Hs. injection Hrun as -> <-. split; [done|].
  cbn [durable outbox with_pending]. set (w0 := with_pending (durable w) w) in *.
  unfold dispatch_session, bind in Hs. rewrite (lifecycle_at_rest w0 eq_refl) in Hs.
  change (after_lifecycle (now_taipei (app_now w0)) (durable w0)) with d in Hs. set (w1 := at_rest d w0) in *.
  assert (Hok1 : both schema_ok w1).
  { exact (lifecycle_pres w0 _ w1 (conj Hok Hok : both schema_ok w0) (lifecycle_at_rest w0 eq_refl)). }
  unfold system_list_active_by_symbols, query, gets, bind, lift in Hs. unfold id in Hs.
  change (pending w1) with d in Hs. set (rows := select_where _ (cores d)) in Hs.
  destruct (to_domains d rows) as [l|e] eqn:Hl; [|done].
  assert (Hrows : forall k c, (k, c) ∈ rows <-> cores d !! k = Some c /\ c_status c = "active" /\ c_symbol c = q_symbol q).
  { intros k c. unfold rows. rewrite elem_of_select. cbn. rewrite orb_false_r, andb_true_iff, !String.eqb_eq. done. }
  assert (Hact : forall i, i ∈ l -> c_status <$> cores (pending w1) !! i_id i = Some "active").
  { intros i Hi. apply (to_domains_elem _ _ _ Hl) in Hi as (k & c & s & st & Hin & _ & _ & ->).
    apply Hrows in Hin as (Hc & Ha & _). change (pending w1) with d. cbn [i_id to_domain]. by rewrite Hc, <-Ha. }
  assert (Hloop : exists wrote w3, dispatch_loop q now l false w1 = (Ok wrote, w3) /\ outbox w2 = outbox w3 /\
    durable w2 = if wrote then pending w3 else durable w3).
  { destruct l as [|i l]; [injection Hs as <-; by eexists _, _|].
    destruct (dispatch_loop q now (i :: l) false w1) as [[[|]|e] w3]; [injection Hs as <-; by eexists _, _..|done]. }
  destruct Hloop as (wrote & w3 & Hl3 & Hout & Hdur).
  pose proof (to_domains_ids d rows l (select_NoDup _ _) Hl) as Hnd.
  destruct (dispatch_loop_spec q now l false w1 wrote w3 Hok1 Hnd Hact Hl3) as [[Hd _ Hoth Hdec Htr Hsent Hidle] _].
  assert (Hfin : durable w2 = pending w3).
  { rewrite Hdur. destruct wrote; [done|]. destruct (Hidle eq_refl) as [-> _]. by rewrite Hd. }
  rewrite Hfin, Hout. split; [|split; [|exact Hsent]].
  - intros k c Hc (Ha & Hsym & Hs2). destruct (symbols d !! c_symbol c) as [s|] eqn:Hsy; [|done].
    destruct (parse_security_type (sy_instrument_type s)) as [st|e] eqn:Hst.
    + exists st. apply Hdec; [|done]. apply (to_domains_elem _ _ _ Hl). exists k, c, s, st.
      split; [by apply Hrows|done].
    + exfalso. clear -Hl Hrows Hc Ha Hsym Hsy Hst.
      assert (Hin : (k, c) ∈ rows) by by apply Hrows.
      by destruct (to_domains_total d rows l k c s e Hl Hin Hsy).
  - intros k c Hc Hn. rewrite Hoth; [done|]. intros i Hi <-. apply (to_domains_elem _ _ _ Hl) in Hi as (k' & c' & s & st & Hin & Hsy & _ & ->).
    apply Hrows in Hin as (Hc' & Ha & Hsym). cbn [i_id to_domain] in Hc. rewrite Hc' in Hc. injection Hc as <-. apply Hn. unfold watches. by rewrite Hsy.
Qed.

Lemma dispatch_loop_durable {P} `{QuoteProvider P} q now l b (w w' : world P) r :
  dispatch_loop q now l b w = (r, w') -> durable w' = durable w.
Proof.
  revert b w. induction l as [|i l IH]; intros b w; cbn [dispatch_loop]; [by intros [= _ <-]|].
  unfold bind at 1. destruct (dispatch_intent q now i w) as [x w1] eqn:Hi.
  assert (Hd : durable w1 = durable w).
  { revert Hi. unfold dispatch_intent. unfold bind at 1, lift. destruct (evaluate q i now) as [ev|e]; [|by intros [= _ <-]].
    unfold bind at 1. destruct (store_baseline i ev w) as [j w2] eqn:Hb.
    destruct (store_baseline_cases _ _ _ _ _ Hb) as (Hoi & _). apply oi_durable in Hoi.
    destruct j as [j|e]; [|by intros [= _ <-]]. destruct (negb (should_trigger ev)); [by intros [= _ <-]|].
    destruct (trigger_input q ev) as [inp|]; [|by intros [= _ <-]].
    unfold try_except, bind, begin_nested. destruct (persist_core_trigger j inp w2) as [[u|e] w3] eqn:Hp;
      destruct (persist_cases _ _ _ _ _ Hp) as [(Hd3 & _) _].
    - intros [= _ <-]. congruence.
    - destruct (is_race e); intros [= _ <-]; cbn; congruence. }
  destruct x as [x|e]; [|intros [= _ <-]; exact Hd]. intros Hl. rewrite <-Hd. by eapply IH.
Qed.

(** The dispatcher never raises into the quote source, and a quote is all or
    nothing for its symbol: when anything goes wrong with one intent, the
    database keeps only the lifecycle's run. *)
Theorem dispatch_all_or_nothing {P} `{QuoteProvider P} (q : QuoteSnapshot) (w : world P) :
  exists w', dispatch None q w = (Ok tt, w') /\ pending w' = durable w' /\
    match fst (dispatch_inner None q w) with
    | Ok _ => dispatch_inner None q w = (Ok tt, w')
    | Raise _ => durable w' = after_lifecycle (now_taipei (app_now w)) (durable w)
    end.
Proof.
  unfold dispatch, try_except. destruct (dispatch_inner None q w) as [r w'] eqn:Hr. cbn [fst]. exists w'.
  assert (Hrest : pending w' = durable w').
  { revert Hr. unfold dispatch_inner, halted_now, clock, gets, bind, ret, with_session.
    destruct (dispatch_session _ _ _) as [x w2]. by intros [= _ <-]. }
  destruct r as [[]|e]; [done|]. split; [done|]. split; [done|]. revert Hr.
  unfold dispatch_inner, halted_now, clock, gets, bind, ret, with_session.
  set (now := now_taipei (app_now w)). set (w0 := with_pending (durable w) w).
  unfold dispatch_session. unfold bind at 1. rewrite (lifecycle_at_rest w0 eq_refl). fold now.
  set (w1 := at_rest _ w0). unfold bind, system_list_active_by_symbols, query, gets, lift, bind.
  destruct (to_domains _ _) as [l|e']; [|by intros [= _ <-]]. destruct l as [|i l]; [done|].
  destruct (dispatch_loop q now (i :: l) false w1) as [[wrote|e'] w3] eqn:Hl; [by destruct wrote|].
  intros [= _ <-]. cbn. by rewrite (dispatch_loop_durable _ _ _ _ _ _ _ Hl).
Qed.

(** ** Witnesses *)

(** A day later the open alert of [open_db] expires. *)
Lemma lifecycle_run_correct_witness :
  let w := mkWorld open_db open_db tt 100 [] (dt_add sample_time DAY) sample_time in
  exists w', lifecycle_run w = (Ok (mkLifecycleOutput 0 1), w') /\
    c_status <$> cores (durable w') !! 1 = Some "expired".
Proof.
  intros w. destruct (lifecycle_run_correct w eq_refl) as (out & w' & Hrun & _ & _ & _ & _ & Hrows & He & Ha & _).
  assert (Hout : out = mkLifecycleOutput 0 1).
  { destruct out as [a e]. cbn in He, Ha. rewrite He, Ha. vm_compute. reflexivity. }
  exists w'. split; [by rewrite <-Hout|].
  destruct (Hrows 1 (sample_row 2) ltac:(vm_compute; reflexivity)) as (c' & Hc' & _ & Hst & _).
  transitivity (c_status <$> Some c'); [f_equal; exact Hc'|]. cbn [fmap option_fmap option_map]. rewrite Hst.
  vm_compute. reflexivity.
Defined.

(** The open alert fires on a quote below its target. *)
Lemma dispatch_decides_witness :
  let q := quote_at None (Some (Dec 5995 (-1))) None in let w := market_world (Dec 5995 (-1)) open_db in
  exists w', dispatch_inner None q w = (Ok tt, w') /\ length (outbox w') = 1%nat /\ size (triggers (durable w')) = 1%nat.
Proof.
  intros q w. exists (snd (dispatch_inner None q w)).
  assert (H : dispatch_inner None q w = (Ok tt, snd (dispatch_inner None q w))) by (vm_compute; reflexivity).
  split; [exact H|]. assert (Hlen : length (outbox (snd (dispatch_inner None q w))) = 1%nat) by (vm_compute; reflexivity).
  split; [exact Hlen|].
  destruct (dispatch_decides q w _ open_schema H) as (_ & _ & _ & Hsize).
  rewrite Hlen in Hsize. change (length (outbox w)) with 0%nat in Hsize.
  change (size (triggers (durable w))) with 0%nat in Hsize. rewrite Nat.add_0_r in Hsize. exact Hsize.
Defined.
