(* ===== verification/AuditLog.v ===== *)
(** * The audit sink

    [src/app/services/audit.py]: a row of [audit_events] flushed into the
    caller's transaction, so that it lands or is undone together with the
    change it records.  The JSON metadata and the request id are not kept. *)

From S2P Require Import Prelude Decimal Datetime Errors Tables Store CoreSchema.

#[local] Open Scope string_scope.
#[local] Open Scope list_scope.
#[local] Open Scope Z_scope.

(** The constraints of [AuditEvent]. *)
Definition audit_violation (i : uuid) (r : AuditRow) (d : db) : option string :=
  first_violation
    [(str_in (ae_actor_type r) ["user"; "system"; "admin"], "actor_type");
     (is_none (audit_events d !! i), "pk_audit_events")].

Section Sink.
  Context {P : Type}.

(** [AuditEventWriter.write] *)
Definition audit_write (event_type actor_type : string) (actor_id : option uuid) (now : datetime) : M P unit :=
  do i <- uuid4;
  let r := mkAudit event_type actor_type actor_id now in
  insert_checked (audit_violation i r) (fun d => set_audit_events (<[i := r]> (audit_events d)) d).

(** The database with the row. *)
Definition logged (event_type actor_type : string) (actor_id : option uuid) (now : datetime) (i : uuid) (d : db) : db :=
  set_audit_events (<[i := mkAudit event_type actor_type actor_id now]> (audit_events d)) d.

Lemma audit_run e a o now (w : world P) :
  audit_write e a o now w =
  match audit_violation (next_id w) (mkAudit e a o now) (pending w) with
  | None => (Ok tt, with_pending (logged e a o now (next_id w) (pending w)) (with_ids 1 w))
  | Some c => (Raise (IntegrityError c), with_ids 1 w)
  end.
Proof.
  unfold audit_write. run_session. unfold id. cbn [pending]. by destruct (audit_violation _ _ _).
Qed.

(** Whether it returns or raises, only the audit table changed. *)
Definition audited (d d' : db) : Prop := exists t, d' = set_audit_events t d.

Lemma audit_cases e a o now (w w' : world P) r : audit_write e a o now w = (r, w') ->
  same_env w w' /\ outbox w' = outbox w /\ provider w' = provider w /\ next_id w' = next_id w + 1 /\
  match r with
  | Ok _ => audit_events (pending w) !! next_id w = None /\
      pending w' = set_audit_events (<[next_id w := mkAudit e a o now]> (audit_events (pending w))) (pending w)
  | Raise _ => pending w' = pending w
  end.
Proof.
  unfold audit_write. run_session. unfold id, audit_violation. cbn [first_violation ae_actor_type pending].
  destruct (str_in a _); [|intros [= <- <-]; done].
  destruct (audit_events (pending w) !! next_id w) eqn:Hn; cbn; intros [= <- <-]; done.
Qed.

Lemma audit_both J e a o now : (forall d t, J d -> J (set_audit_events t d)) ->
  preserves (P := P) (both J) (audit_write e a o now).
Proof.
  intros HJ. unfold audit_write. apply preserves_bind; [apply both_uuid4|]. intros i.
  apply both_insert. intros d Hd _. by apply HJ.
Qed.

End Sink.
