(* ===== verification/KillSwitch.v ===== *)
(** * The kill switch

    [src/app/services/kill_switch.py], [commands/kill_switch.py] and
    [repositories/system_flag_repository.py]: the global halt flag, its
    process-wide cache and the command that toggles it.  The cache is part of
    the [provider] component of the world, next to the quote provider; the
    monotonic clock counts in the unit of [ttl_seconds]. *)

From S2P Require Import Prelude Decimal Datetime Errors TradingSession Intent Tables Store CoreSchema IntentRepo IntentQueries Samples Trigger Quotes CreateIntent Dispatcher AuditLog.

#[local] Open Scope string_scope.
#[local] Open Scope list_scope.
#[local] Open Scope Z_scope.

Definition GLOBAL_TRIGGER_HALT : string := "global_trigger_halt".

(** [KillSwitchProvider] *)
Record KillSwitchProvider : Type := mkKillSwitch {
  ttl_seconds : Z;
  cached_value : option bool;
  cached_until : Z;
}.

(** A new provider and [invalidate]. *)
Definition new_kill_switch (ttl : Z) : KillSwitchProvider := mkKillSwitch ttl None 0.
Definition invalidate (k : KillSwitchProvider) : KillSwitchProvider := mkKillSwitch (ttl_seconds k) None 0.

(** The cache's answer at time [now], if it may be used. *)
Definition cached_answer (k : KillSwitchProvider) (now : Z) : option bool :=
  match cached_value k with
  | Some v => if now <? cached_until k then Some v else None
  | None => None
  end.

(** Remembering what was read. *)
Definition remember (k : KillSwitchProvider) (now : Z) (value : bool) : KillSwitchProvider :=
  mkKillSwitch (ttl_seconds k) (Some value) (now + ttl_seconds k).

(** [SystemFlagRepository.is_enabled] on a state of the database *)
Definition is_enabled (flag_key : string) (d : db) : bool :=
  match system_flags d !! flag_key with Some r => sf_enabled r | None => false end.

(** [get_state] *)
Definition get_state (flag_key : string) (d : db) : bool * option string * option datetime * option uuid :=
  match system_flags d !! flag_key with
  | None => (false, None, None, None)
  | Some r => (sf_enabled r, sf_reason r, Some (sf_updated_at r), sf_updated_by r)
  end.

(** The process: a quote provider, the kill switch and the monotonic clock. *)
Record system (Q : Type) : Type := mkSystem {
  quotes_of : Q;
  switch_of : KillSwitchProvider;
  monotonic : Z;
}.
Arguments mkSystem {Q}.
Arguments quotes_of {Q}.
Arguments switch_of {Q}.
Arguments monotonic {Q}.

Definition with_quotes {Q} (q : Q) (s : system Q) : system Q := mkSystem q (switch_of s) (monotonic s).
Definition with_switch {Q} (k : KillSwitchProvider) (s : system Q) : system Q :=
  mkSystem (quotes_of s) k (monotonic s).

#[export] Instance system_provider {Q} `{QuoteProvider Q} : QuoteProvider (system Q) := {
  get_quotes s l := get_quotes (quotes_of s) l;
  subscribe s x := rmap (fun q => with_quotes q s) (subscribe (quotes_of s) x);
  unsubscribe s x := rmap (fun q => with_quotes q s) (unsubscribe (quotes_of s) x);
  active_subscriptions s := active_subscriptions (quotes_of s);
  get_current_price := (fun f s x => f (quotes_of s) x) <$> get_current_price;
}.

Section Switch.
  Context {Q : Type}.

(** [is_halted]: the flag is read in a session of its own, which sees the
    committed state. *)
Definition is_halted : M (system Q) bool :=
  do s <- gets provider;
  match cached_answer (switch_of s) (monotonic s) with
  | Some v => ret v
  | None =>
      do value <- gets (fun w => is_enabled GLOBAL_TRIGGER_HALT (durable w));
      do_ modify (fun w => with_provider (with_switch (remember (switch_of s) (monotonic s) value) (provider w)) w);
      ret value
  end.

(** [SystemFlagRepository.upsert] *)
Definition upsert (flag_key : string) (enabled : bool) (updated_by : uuid) (reason : string) (now : datetime)
  : M (system Q) unit :=
  insert_checked (fun d => first_violation [(is_some (users d !! updated_by), "fk_system_flags_updated_by_users")])
    (fun d => set_system_flags (<[flag_key := mkFlag enabled (Some updated_by) now (Some reason)]> (system_flags d)) d).

(** [SetKillSwitchInput] *)
Record SetKillSwitchInput : Type := mkSetKillSwitch {
  sk_enabled : bool;
  sk_reason : string;
  sk_actor_admin_id : uuid;
  sk_now : datetime;
}.

(** [SetKillSwitchCommand.execute]; [wired] is [self._provider is not None]. *)
Definition set_kill_switch (wired : bool) (inp : SetKillSwitchInput) : M (system Q) unit :=
  do_ transaction
        (do_ upsert GLOBAL_TRIGGER_HALT (sk_enabled inp) (sk_actor_admin_id inp) (sk_reason inp) (sk_now inp);
         do_ audit_write (if sk_enabled inp then "kill_switch_enabled" else "kill_switch_disabled") "admin"
               (Some (sk_actor_admin_id inp)) (sk_now inp);
         commit);
  when wired (modify (fun w => with_provider (with_switch (invalidate (switch_of (provider w))) (provider w)) w)).

Lemma upsert_run k e u reason now w : upsert k e u reason now w =
  if is_some (users (pending w) !! u) then
    (Ok tt, with_pending (set_system_flags (<[k := mkFlag e (Some u) now (Some reason)]>
      (system_flags (pending w))) (pending w)) w)
  else (Raise (IntegrityError "fk_system_flags_updated_by_users"), w).
Proof. unfold upsert. run_session. unfold id. cbn [first_violation]. by destruct (is_some _). Qed.

Lemma is_halted_quiet : quiet is_halted.
Proof.
  unfold is_halted. apply quiet_bind; [apply quiet_gets|]. intros s.
  destruct (cached_answer _ _); [apply quiet_ret|]. apply quiet_bind; [apply quiet_gets|]. intros v.
  apply quiet_bind; [|intros _; apply quiet_ret]. by intros w r w' [= _ <-].
Qed.

Lemma is_halted_total w : exists v w', is_halted w = (Ok v, w').
Proof.
  unfold is_halted. run_prog. destruct (cached_answer _ _); [by eexists _, _|].
  unfold modify, ret. by eexists _, _.
Qed.

(** The flag row and the cache agree. *)
Definition cache_current (w : world (system Q)) : Prop :=
  forall v, cached_answer (switch_of (provider w)) (monotonic (provider w)) = Some v ->
    v = is_enabled GLOBAL_TRIGGER_HALT (durable w).

Lemma is_halted_current w : cache_current w ->
  exists w', is_halted w = (Ok (is_enabled GLOBAL_TRIGGER_HALT (durable w)), w').
Proof.
  intros Hc. unfold is_halted. run_prog. destruct (cached_answer _ _) eqn:He; [|by eexists].
  rewrite (Hc _ He). by eexists.
Qed.

End Switch.

Lemma remember_current {Q} (w : world (system Q)) v w' : is_halted w = (Ok v, w') ->
  cache_current w -> cache_current w'.
Proof.
  intros H Hc. destruct (is_halted_quiet _ _ _ H) as (Hd & _). unfold is_halted in H. revert H. run_prog.
  destruct (cached_answer (switch_of (provider w)) (monotonic (provider w))) eqn:He; intros [= <- <-]; [done|].
  unfold cache_current, cached_answer. cbn. intros v. destruct (_ <? _); by intros [= <-].
Qed.

(** Toggling the kill switch is one transaction: it succeeds exactly when
    the acting admin exists (the audit id being fresh), and then the flag row
    and one audit row are the only changes of the database, and the very next
    [is_halted] answers the new value; when it fails, the database and the cache
    are as before. *)
Theorem set_kill_switch_outcomes {Q} (wired : bool) (inp : SetKillSwitchInput) (w w' : world (system Q)) (r : res unit)
    (Hclean : pending w = durable w) (Hfresh : audit_events (durable w) !! next_id w = None)
    (Hrun : set_kill_switch wired inp w = (r, w')) :
  (is_ok r = true <-> is_some (users (durable w) !! sk_actor_admin_id inp) = true) /\ outbox w' = outbox w /\
  match r with
  | Ok _ => exists a,
      durable w' = set_audit_events (<[next_id w := a]> (audit_events (durable w)))
        (set_system_flags (<[GLOBAL_TRIGGER_HALT :=
           mkFlag (sk_enabled inp) (Some (sk_actor_admin_id inp)) (sk_now inp) (Some (sk_reason inp))]>
           (system_flags (durable w))) (durable w)) /\
      ae_actor_id a = Some (sk_actor_admin_id inp) /\
      is_enabled GLOBAL_TRIGGER_HALT (durable w') = sk_enabled inp /\
      (wired = true -> fst (is_halted w') = Ok (sk_enabled inp))
  | Raise _ => durable w' = durable w /\ provider w' = provider w
  end.
Proof.
  unfold set_kill_switch, bind in Hrun. destruct (transaction _ w) as [[[]|e] w1] eqn:Ht.
  - apply (proj1 (transaction_Ok _ _ _ _)) in Ht. revert Ht. unfold bind. rewrite upsert_run, Hclean.
    destruct (is_some (users (durable w) !! _)) eqn:Hu; [|done].
    destruct (audit_write (P := system Q) _ _ _ _ _) as [[[]|e] w2] eqn:Ha; [|done].
    apply audit_cases in Ha as (_ & Ho & Hpr & _ & _ & Hp). cbn in Hp, Ho. intros [= <-].
    assert (Hstate : durable w' = pending w2 /\ outbox w' = outbox w2 /\ is_ok r = true /\
      (wired = true -> cached_value (switch_of (provider w')) = None)).
    { destruct wired; injection Hrun as <- <-; done. }
    destruct Hstate as (Hd & Hout & Hr & Hcache). rewrite Hr. destruct r as [[]|]; [|done].
    split; [done|]. split; [by rewrite Hout, Ho|]. eexists. rewrite Hd at 1. rewrite Hp.
    split; [reflexivity|]. split; [done|].
    assert (Hen : is_enabled GLOBAL_TRIGGER_HALT (durable w') = sk_enabled inp).
    { rewrite Hd, Hp. unfold is_enabled. cbn. by rewrite lookup_insert_eq. }
    split; [by rewrite <-Hen, Hd, Hp|]. intros Hw. rewrite <-Hen.
    destruct (is_halted_current w') as (w3 & ->); [|done]. unfold cache_current, cached_answer.
    by rewrite (Hcache Hw).
  - injection Hrun as <- <-. apply (proj1 (transaction_Raise _ _ _ _)) in Ht as (w2 & Ht & ->). revert Ht.
    unfold bind. rewrite upsert_run, Hclean. destruct (is_some (users (durable w) !! _)) eqn:Hu.
    + destruct (audit_write (P := system Q) _ _ _ _ _) as [[[]|e'] w3] eqn:Ha; [done|].
      exfalso. revert Ha. unfold audit_write. run_session. unfold id, audit_violation. cbn.
      rewrite Hfresh. done.
    + intros [= <- <-]. split; [done|]. done.
Qed.

Definition system_world (k : KillSwitchProvider) (ask : dec) (d : db) : world (system InMemoryQuoteProvider) :=
  mkWorld d d (mkSystem (market ask) k 50) 100 [] sample_time sample_time.

Lemma set_kill_switch_outcomes_witness :
  let w := system_world (mkKillSwitch 30 (Some false) 70) (Dec 5995 (-1)) sample_db in
  let inp := mkSetKillSwitch true "halt" 7 sample_time in
  exists w', set_kill_switch true inp w = (Ok tt, w') /\ fst (is_halted w) = Ok false /\ fst (is_halted w') = Ok true.
Proof.
  intros w inp. exists (snd (set_kill_switch true inp w)).
  assert (H : set_kill_switch true inp w = (Ok tt, snd (set_kill_switch true inp w))) by (vm_compute; reflexivity).
  split; [exact H|]. split; [vm_compute; reflexivity|].
  destruct (set_kill_switch_outcomes true inp w _ (Ok tt) eq_refl ltac:(vm_compute; reflexivity) H)
    as (_ & _ & a & _ & _ & _ & Hn).
  exact (Hn eq_refl).
Defined.

(** ** Halting *)

Section Halt.
  Context {Q : Type} `{QuoteProvider Q}.

(** The quote side of the system does not touch the switch. *)
Lemma reconcile_keeps_switch s (w w' : world (system Q)) r : reconcile_on_create s w = (r, w') ->
  switch_of (provider w') = switch_of (provider w) /\ monotonic (provider w') = monotonic (provider w).
Proof.
  unfold reconcile_on_create, provider_call. run_prog. cbn [active_subscriptions subscribe system_provider].
  destruct (str_in _ _); [by intros [= _ <-]|]. unfold rmap, rbind.
  destruct (subscribe (quotes_of (provider w)) s); by intros [= _ <-].
Qed.

(** C11. While the system is halted (the flag is on and the cache is not older
    than the flag) nothing fires: a quote reaching the dispatcher changes
    neither the database nor the outbox, and an intent can still be created but
    stays in its initial status, without a trigger, a notification or a
    message. *)
Theorem halted_system_fires_nothing (snapshot : QuoteSnapshot) (limits : option IntentLimits)
    (inp : CreateTradeIntentInput) (w : world (system Q)) (Hclean : pending w = durable w)
    (Hcur : cache_current w) (Hon : is_enabled GLOBAL_TRIGGER_HALT (durable w) = true) :
  (exists w', dispatch (Some is_halted) snapshot w = (Ok tt, w') /\ durable w' = durable w /\ outbox w' = outbox w) /\
  forall i w', create_command (Some is_halted) limits inp w = (Ok i, w') ->
    outbox w' = outbox w /\ triggers (durable w') = triggers (durable w) /\
    notifications (durable w') = notifications (durable w) /\
    get_initial_day_intent_status (now_taipei (app_now w)) = Ok (i_status i) /\
    c_status <$> cores (durable w') !! i_id i = Some (i_status i).
Proof.
  split.
  - destruct (is_halted_current w Hcur) as (w' & Hh). rewrite Hon in Hh.
    destruct (is_halted_quiet _ _ _ Hh) as (Hd & _ & Ho & _). exists w'. split; [|done].
    unfold dispatch, dispatch_inner, try_except, halted_now, bind. by rewrite Hh.
  - intros i w' Hrun. unfold create_command, bind in Hrun.
    destruct (transaction _ w) as [[id|e] wt] eqn:Ht; [|done]. apply (proj1 (transaction_Ok _ _ _ _)) in Ht.
    destruct (create_body_cases (Some is_halted) limits inp w (Ok id) wt
      ltac:(intros c [= <-]; apply is_halted_quiet) Ht) as
      (a & w1 & w2 & Hacc & Hcr & Hoi & Hd & Hp & Ho & _ & w0 & Hrec & Hhalt).
    destruct (create_since w a w _ w1 (since_start w) Hcr) as ((Hd1 & _) & Ho1 & Hp1).
    destruct (reconcile_keeps_switch _ _ _ _ Hrec) as [Hsw Hmo].
    destruct (reconcile_on_create_quiet _ _ _ _ Hrec) as (Hd0 & Hpe0 & Ho0 & _).
    assert (Hcur0 : cache_current w0).
    { unfold cache_current. by rewrite Hsw, Hmo, Hp1, Hd0, Hd1. }
    destruct (is_halted_current w0 Hcur0) as (w3' & Hh). rewrite Hd0, Hd1, Hon in Hh.
    pose proof (is_halted_quiet _ _ _ Hh) as (_ & Hpe3 & Ho3 & _).
    pose proof (Hhalt w3' Hh) as ->.
    destruct (create_Ok a w w1 id Hcr) as (-> & _ & Hv & Hrows). set (row := core_of_args _ _ _) in *.
    assert (Htab : triggers (pending w1) = triggers (pending w) /\ notifications (pending w1) = notifications (pending w)).
    { split; [refine (create_view triggers _ a _ _ _ w _ w1 eq_refl Hcr)|refine (create_view notifications _ a _ _ _ w _ w1 eq_refl Hcr)]; done. }
    destruct Htab as [Htr Hno]. assert (Hp' : pending wt = pending w1) by congruence.
    pose proof (find_by_id_world _ _ _ _ _ Hrun) as ->.
    destruct (find_by_id_found _ _ _ _ _ Hrun) as (c & st & Hc & _ & ->).
    assert (Hrow : c = row) by (rewrite Hp', Hrows, lookup_insert_eq in Hc; by injection Hc).
    split; [congruence|]. assert (Hdw : durable wt = pending w1) by congruence. rewrite Hdw.
    split; [congruence|]. split; [congruence|]. cbn [i_id i_status to_domain].
    rewrite Hrows, lookup_insert_eq, Hrow. split; [|done].
    destruct Hacc as (sy & prices & date & status & side & _ & _ & _ & _ & Hst & _ & _ & Ha).
    unfold row. rewrite Ha. exact Hst.
Qed.

End Halt.

Lemma halted_system_fires_nothing_witness :
  let d := set_system_flags {[GLOBAL_TRIGGER_HALT := mkFlag true (Some 7) sample_time None]} sample_db in
  let w := system_world (new_kill_switch 30) (Dec 5995 (-1)) d in
  exists i w', create_command (Some is_halted) None (sample_input "600") w = (Ok i, w') /\
    i_status i = "active" /\ outbox w' = [].
Proof.
  intros d w. set (x := create_command (Some is_halted) None (sample_input "600") w).
  assert (H : exists i, fst x = Ok i /\ i_status i = "active") by (vm_compute; eexists; split; reflexivity).
  destruct H as (i & Hi & Hs). exists i, (snd x).
  assert (Hx : x = (Ok i, snd x)) by (rewrite <-Hi; apply surjective_pairing).
  split; [exact Hx|]. split; [exact Hs|].
  exact (proj1 (proj2 (halted_system_fires_nothing (quote_at None None None) None (sample_input "600") w eq_refl
    ltac:(unfold cache_current; discriminate) ltac:(vm_compute; reflexivity)) i (snd x) Hx)).
Defined.

(** ** Concurrent use

    [is_halted] runs on broker threads and on request threads.  Its lock makes
    the cache access of one call exclude the others and [invalidate], but the
    commits of the toggle (and of anybody who writes the flag directly) fall
    anywhere in between.  The steps of all threads as one relation; the label
    is the answer a call returns. *)

Record shared : Type := mkShared {
  sh_flag : bool;                        (* the committed flag *)
  sh_switch : KillSwitchProvider;
  sh_clock : Z;
  sh_reader : option (Z * option bool);  (* the holder of the lock: its [now] and what it read *)
  sh_toggles : nat;                      (* toggles committed and not yet invalidated *)
}.

Inductive ks_step : shared -> option bool -> shared -> Prop :=
| ks_tick f k c c' r n : c <= c' -> ks_step (mkShared f k c r n) None (mkShared f k c' r n)
| ks_hit f k c n v : cached_answer k c = Some v ->
    ks_step (mkShared f k c None n) (Some v) (mkShared f k c None n)
| ks_miss f k c n : cached_answer k c = None ->
    ks_step (mkShared f k c None n) None (mkShared f k c (Some (c, None)) n)
| ks_read f k c t n : ks_step (mkShared f k c (Some (t, None)) n) None (mkShared f k c (Some (t, Some f)) n)
| ks_store f k c t v n :
    ks_step (mkShared f k c (Some (t, Some v)) n) (Some v) (mkShared f (remember k t v) c None n)
| ks_commit f k c r n b : ks_step (mkShared f k c r n) None (mkShared b k c r (S n))
| ks_invalidate f k c n : ks_step (mkShared f k c None (S n)) None (mkShared f (invalidate k) c None n).

(** A write of the flag that bypasses the toggle. *)
Inductive any_step : shared -> option bool -> shared -> Prop :=
| any_ks s l s' : ks_step s l s' -> any_step s l s'
| any_flip f k c r n b : any_step (mkShared f k c r n) None (mkShared b k c r n).

Definition fresh_process (s : shared) : Prop :=
  cached_value (sh_switch s) = None /\ sh_reader s = None /\ sh_toggles s = 0%nat.

(** What may be answered is the flag, unless a toggle is still to invalidate. *)
Definition settled (s : shared) : Prop := sh_toggles s = 0%nat ->
  (forall v, cached_value (sh_switch s) = Some v -> v = sh_flag s) /\
  (forall t v, sh_reader s = Some (t, Some v) -> v = sh_flag s).

Lemma settled_step s l s' : ks_step s l s' -> settled s -> settled s'.
Proof.
  unfold settled. destruct 1; cbn; try naive_solver.
Qed.

Lemma answer_settled s v s' : ks_step s (Some v) s' -> settled s -> sh_toggles s = 0%nat -> v = sh_flag s.
Proof.
  intros Hst Hs Hn. inversion Hst; subst; unfold settled in Hs; cbn in Hs, Hn; destruct (Hs Hn) as [Hc Hr].
  - unfold cached_answer in *. destruct (cached_value k) as [x|]; [|done].
    destruct (_ <? _); simplify_eq. by apply Hc.
  - by eapply Hr.
Qed.

(** C30. Once every committed toggle has dropped the cache, every [is_halted] of
    every thread answers the committed flag, whatever the interleaving of reads,
    commits and invalidations before. *)
Theorem toggle_takes_effect (s0 s : shared) (v : bool) (s' : shared) (H0 : fresh_process s0)
    (Hrun : rtc (fun a b => exists l, ks_step a l b) s0 s) (Hdone : sh_toggles s = 0%nat)
    (Hans : ks_step s (Some v) s') : v = sh_flag s.
Proof.
  apply (answer_settled s v s' Hans); [|done]. clear Hdone Hans.
  assert (Hs0 : settled s0). { destruct H0 as (Hc & Hr & _). unfold settled. rewrite Hc, Hr. done. }
  clear H0. induction Hrun as [|a b c [l Hab] _ IH]; [done|]. apply IH. by eapply settled_step.
Qed.

Definition idle_process : shared := mkShared false (new_kill_switch 30) 50 None 0.

(** A toggle commits between a read of the flag and the write of the cache:
    the stale answer is cached, then dropped. *)
Lemma toggle_takes_effect_witness : exists s s', ks_step s (Some true) s' /\ sh_flag s = true /\
  rtc (fun a b => exists l, ks_step a l b) idle_process s.
Proof.
  set (k := new_kill_switch 30). set (st := mkShared true (invalidate k) 50 (Some (50, Some true)) 0).
  assert (Hrun : rtc (fun a b => exists l, ks_step a l b) idle_process st).
  { eapply rtc_l; [eexists; by apply ks_miss|]. eapply rtc_l; [eexists; apply ks_read|].
    eapply rtc_l; [eexists; apply (ks_commit _ _ _ _ _ true)|]. eapply rtc_l; [eexists; apply ks_store|].
    eapply rtc_l; [eexists; apply ks_invalidate|]. eapply rtc_l; [eexists; by apply ks_miss|].
    eapply rtc_l; [eexists; apply ks_read|]. apply rtc_refl. }
  eexists st, _. split; [apply ks_store|]. split; [|exact Hrun].
  symmetry. exact (toggle_takes_effect idle_process st true _ (conj eq_refl (conj eq_refl eq_refl)) Hrun eq_refl
    (ks_store true (invalidate k) 50 50 true 0)).
Defined.

(** The states of a run, the last one first. *)
Inductive history : list shared -> Prop :=
| hist_start s : fresh_process s -> history [s]
| hist_step s l s' h : history (s :: h) -> any_step s l s' -> history (s' :: s :: h).

(** [v] was the committed flag at some state of [h] not before [t]. *)
Definition was_flag (h : list shared) (v : bool) (t : Z) : Prop :=
  exists o, o ∈ h /\ sh_flag o = v /\ t <= sh_clock o.

Definition remembered (s : shared) (h : list shared) : Prop :=
  (forall v, cached_value (sh_switch s) = Some v ->
     was_flag h v (cached_until (sh_switch s) - ttl_seconds (sh_switch s))) /\
  (forall t o, sh_reader s = Some (t, o) -> t <= sh_clock s /\
     forall v, o = Some v -> was_flag h v t).

Lemma was_flag_later h v t s : was_flag h v t -> was_flag (s :: h) v t.
Proof. intros (o & Ho & ?). exists o. split; [by right|done]. Qed.

Lemma remembered_step s l s' h : any_step s l s' -> remembered s (s :: h) -> remembered s' (s' :: s :: h).
Proof.
  unfold remembered. intros Hst [Hc Hr].
  destruct Hst as [? ? ? [f k c c' r n Hle|f k c n v Hv|f k c n Hn|f k c t n|f k c t v n|f k c r n b|f k c n]|f k c r n b];
    cbn in *; (split; [try (intros x Hx; by apply was_flag_later, Hc)|]).
  - intros t o Ht. destruct (Hr t o Ht) as [Hle' Ho]. split; [lia|]. intros x Hx. by apply was_flag_later, Ho.
  - done.
  - intros t o [= <- <-]. split; [lia|done].
  - intros t' o [= <- <-]. destruct (Hr t None eq_refl) as [Hle _]. split; [done|]. intros x [= <-].
    eexists. split; [left|]. done.
  - intros x [= <-]. apply was_flag_later. destruct (Hr t (Some v) eq_refl) as [_ Ho].
    replace (t + ttl_seconds k - ttl_seconds k) with t by lia. by apply Ho.
  - done.
  - intros t o Ht. destruct (Hr t o Ht) as [Hle' Ho]. split; [done|]. intros x Hx. by apply was_flag_later, Ho.
  - done.
  - done.
  - intros t o Ht. destruct (Hr t o Ht) as [Hle' Ho]. split; [done|]. intros x Hx. by apply was_flag_later, Ho.
Qed.

Lemma history_remembered s h : history (s :: h) -> remembered s (s :: h).
Proof.
  remember (s :: h) as l. intros Hh. revert s h Heql. induction Hh as [s0 (Hc & Hr & _)|s l s' h Hh IH Hst]; intros s1 h1 [= <- <-].
  - split; intros; congruence.
  - exact (remembered_step _ _ _ _ Hst (IH s h eq_refl)).
Qed.

(** Even if the flag is written behind the provider's back, an answer is
    never older than the TTL: an answer from the cache was the committed flag
    less than [ttl_seconds] ago, a fresh answer was the flag during the call. *)
Theorem stale_at_most_ttl (s s' : shared) (h : list shared) (v : bool) (Hh : history (s :: h))
    (Hans : any_step s (Some v) s') : exists o, o ∈ s :: h /\ sh_flag o = v /\
  match sh_reader s with
  | Some (started, _) => started <= sh_clock o
  | None => sh_clock s < sh_clock o + ttl_seconds (sh_switch s)
  end.
Proof.
  destruct (history_remembered s h Hh) as [Hc Hr].
  inversion Hans as [? ? ? Hks|]; subst. inversion Hks; subst; cbn in *.
  - unfold cached_answer in *. destruct (cached_value k) as [x|]; [|done].
    destruct (Z.ltb_spec c (cached_until k)); [|done]. simplify_eq.
    destruct (Hc v eq_refl) as (o & Ho & Hv & Ht). exists o. split; [done|]. split; [done|]. lia.
  - destruct (Hr t (Some v) eq_refl) as [_ Ho]. destruct (Ho v eq_refl) as (o & ? & ? & ?). by exists o.
Qed.

(** The flag is flipped directly; the cache answers the old value. *)
Lemma stale_at_most_ttl_witness : exists s s' h, history (s :: h) /\ any_step s (Some false) s' /\ sh_flag s = true /\
  exists o, o ∈ s :: h /\ sh_flag o = false /\ 70 < sh_clock o + 30.
Proof.
  set (k := remember (new_kill_switch 30) 50 false).
  assert (Hh : exists h, history (mkShared true k 70 None 0 :: h)).
  { eexists. eapply hist_step; [|apply any_flip]. eapply hist_step; [|apply any_ks, (ks_tick _ _ 50); lia].
    eapply hist_step; [|apply any_ks, ks_store]. eapply hist_step; [|apply any_ks, ks_read].
    eapply hist_step; [|apply any_ks, ks_miss; reflexivity]. by apply (hist_start idle_process). }
  destruct Hh as [h Hh]. eexists _, _, h.
  assert (Hs : any_step (mkShared true k 70 None 0) (Some false) (mkShared true k 70 None 0)).
  { apply any_ks, ks_hit. reflexivity. }
  split; [exact Hh|]. split; [exact Hs|]. split; [reflexivity|]. exact (stale_at_most_ttl _ _ h false Hh Hs).
Defined.
