(* ===== verification/IntentLife.v ===== *)
(** * The life of an intent

    The new track as a transition system: requests (create, cancel, the
    cascade of a disabled account), quotes reaching the dispatcher, the passing
    of time and changes of the quote source.  Every request runs in a session of
    its own. *)

From S2P Require Import Prelude Decimal Datetime Errors Price TradingSession Intent Evaluation Tables Store CoreSchema Lifecycle IntentRepo Samples IntentQueries Trigger Quotes CreateIntent Dispatcher.

#[local] Open Scope string_scope.
#[local] Open Scope list_scope.
#[local] Open Scope Z_scope.

(** ** Status transitions *)

Inductive status_step : string -> string -> Prop :=
| step_activate : status_step "scheduled" "active"
| step_fire : status_step "active" "triggered"
| step_close s s' : is_open s = true -> s' ∈ ["expired"; "cancelled"; "cancelled_by_account_disabled"] ->
    status_step s s'.

Lemma terminal_no_step s s' : s ∈ TERMINAL_STATUSES -> ~ status_step s s'.
Proof.
  intros Hs Hstep. unfold TERMINAL_STATUSES in Hs. rewrite !elem_of_cons, elem_of_nil in Hs.
  inversion Hstep; subst; naive_solver.
Qed.

Lemma terminal_final s s' : s ∈ TERMINAL_STATUSES -> rtc status_step s s' -> s' = s.
Proof. intros Hs Hr. inversion Hr; [done|]. subst. by destruct (terminal_no_step s y). Qed.

(** [d'] is a later state of [d]: no intent disappeared, the order each one
    describes, in its row and in its satellites, is unchanged and its status
    followed the transitions. *)
Definition evolves (d d' : db) : Prop :=
  forall i c, cores d !! i = Some c -> exists c', cores d' !! i = Some c' /\
    (same_order_row c c' /\ terms d' i = terms d i) /\ rtc status_step (c_status c) (c_status c').

Lemma evolves_refl d : evolves d d.
Proof. intros i c Hc. exists c. split; [done|]. split; [done|apply rtc_refl]. Qed.

Lemma same_order_row_trans a b c : same_order_row a b -> same_order_row b c -> same_order_row a c.
Proof. unfold same_order_row. congruence. Qed.

Lemma evolves_trans a b c : evolves a b -> evolves b c -> evolves a c.
Proof.
  intros Hab Hbc i x Hx. destruct (Hab i x Hx) as (y & Hy & Hxy & Hs). destruct (Hbc i y Hy) as (z & Hz & Hyz & Hs').
  exists z. split; [done|]. destruct Hxy, Hyz. split; [split; [by apply same_order_row_trans with y|congruence]|by etrans].
Qed.

(** A statement that leaves the rows of the intents alone, or writes the
    satellites of an intent that was not there. *)
Lemma evolves_frame d0 d d' : (forall i, cores d' !! i = cores d !! i) ->
  (forall i, is_Some (cores d0 !! i) -> terms d' i = terms d i) -> evolves d0 d -> evolves d0 d'.
Proof. intros Hf Ht He i c Hc. rewrite Hf, Ht by by exists c. by apply He. Qed.

Lemma evolves_insert d0 d i r : cores d !! i = None -> evolves d0 d ->
  evolves d0 (set_cores (<[i := r]> (cores d)) d).
Proof.
  intros Hn He j c Hc. destruct (He j c Hc) as (c' & Hc' & Hs). exists c'. split; [|done].
  cbn. rewrite lookup_insert_ne; [done|]. congruence.
Qed.

Lemma evolves_update d0 d p f : evolves d0 d ->
  (forall i c, cores d !! i = Some c -> p i c = true ->
     same_order_row c (f c) /\ rtc status_step (c_status c) (c_status (f c))) ->
  evolves d0 (set_cores (update_where p f (cores d)) d).
Proof.
  intros He Hf j c Hc. destruct (He j c Hc) as (c' & Hc' & Ho & Hs). cbn.
  exists (if p j c' then f c' else c'). split; [apply lookup_update_Some; by exists c'|].
  destruct (p j c') eqn:Hp; [|done]. destruct (Hf j c' Hc' Hp) as [Ho' Hs']. destruct Ho as [Ho Ht].
  split; [split; [by apply same_order_row_trans with c'|done]|by etrans].
Qed.

(** ** Every operation evolves *)

(** A condition on the tables the track does not write. *)
Record off_track (G : db -> Prop) : Prop := {
  off_cores : forall t d, G d -> G (set_cores t d);
  off_price_params : forall t d, G d -> G (set_price_params t d);
  off_trailing_params : forall t d, G d -> G (set_trailing_params t d);
  off_triggers : forall t d, G d -> G (set_triggers t d);
  off_notifications : forall t d, G d -> G (set_notifications t d);
}.

(** The intents evolve and the other tables keep their condition. *)
Definition tracks (d0 : db) (G : db -> Prop) (d : db) : Prop := evolves d0 d /\ G d.

Section Evolution.
  Context {P : Type} `{QuoteProvider P} (d0 : db) (G : db -> Prop) (Hoff : off_track G).

Notation ev := (preserves (P := P) (both (tracks d0 G))).

Lemma insert_frame_ev v f : (forall d i, cores (f d) !! i = cores d !! i) ->
  (forall d i, is_Some (cores d0 !! i) -> terms (f d) i = terms d i) -> (forall d, G d -> G (f d)) -> ev (insert_checked v f).
Proof. intros Hf Ht Hg. apply both_insert. intros d [Hd HG] _. split; [|by apply Hg]. apply (evolves_frame _ d); [apply Hf|apply Ht|done]. Qed.

Lemma insert_core_ev i r : ev (insert_core i r).
Proof. apply both_insert. intros d [Hd HG] Hv. split; [|by apply (off_cores G Hoff)]. apply evolves_insert; [by eapply core_fresh|done]. Qed.

(** The satellites of a new intent. *)
Lemma insert_satellites_ev i : cores d0 !! i = None ->
  (forall r, ev (insert_price_params i r)) /\ (forall r, ev (insert_trailing_params i r)).
Proof.
  intros Hi. split; intros r; apply insert_frame_ev; try done; [|intros d; by apply (off_price_params G Hoff)| |intros d; by apply (off_trailing_params G Hoff)].
  all: intros d j [c Hc]; unfold terms; cbn; rewrite lookup_insert_ne; [done|congruence].
Qed.

Lemma flush_create_ev i a k : ev (flush_create i a k).
Proof.
  unfold flush_create. apply preserves_bind; [apply preserves_sql_now|intros now].
  intros w r w' Hw. unfold bind at 1. pose proof (insert_core_ev i (core_of_args a k now)) as Hins.
  destruct (insert_core i _ w) as [[[]|e] w1] eqn:Hc; specialize (Hins _ _ _ Hw Hc); [|by intros [= _ <-]].
  assert (Hi : cores d0 !! i = None).
  { unfold insert_core in Hc. apply insert_checked_Ok in Hc as [Hv _]. apply core_fresh in Hv.
    destruct (cores d0 !! i) as [c|] eqn:Hc0; [|done]. destruct Hw as [_ [Hev _]]. destruct (Hev i c Hc0) as (c' & Hc' & _). congruence. }
  destruct (insert_satellites_ev i Hi) as [Hp Ht]. revert r w' Hins.
  match goal with |- forall r w', _ -> ?c w1 = _ -> _ => assert (Hrest : ev c) by preserve end.
  intros r w' Hins Hr. by apply (Hrest w1 r w').
Qed.

Lemma create_ev a : ev (create a).
Proof. unfold create. pose proof flush_create_ev. preserve. Qed.

Lemma update_cores_ev p f : (forall i c, p i c = true ->
    same_order_row c (f c) /\ rtc status_step (c_status c) (c_status (f c))) -> ev (update_cores p f).
Proof. intros Hf. apply both_execute. intros d [Hd HG]. split; [|by apply (off_cores G Hoff)]. apply evolves_update; [done|]. intros i c _. apply Hf. Qed.

Lemma closing_ev p st (k : CoreRow -> option datetime) now :
  st ∈ ["expired"; "cancelled"; "cancelled_by_account_disabled"] ->
  (forall i c, p i c = true -> is_open (c_status c) = true) ->
  ev (update_cores p (fun x => core_set st (k x) (c_triggered_at x) (c_last_fill_at x)
    (c_filled_quantity_lots x) now x)).
Proof.
  intros Hst Hp. apply update_cores_ev. intros i c Hc. split; [done|]. apply rtc_once.
  apply step_close; [by eapply Hp|done].
Qed.

Lemma update_counting_ev p f : ev (update_cores p f) -> ev (update_counting p f).
Proof. intros. unfold update_counting. preserve. Qed.

Lemma expire_ev c now : ev (system_expire_day_intents_through c now).
Proof. apply update_counting_ev, closing_ev; [set_solver|]. by intros i r [? _]%andb_true_iff. Qed.

Lemma activate_ev t now : ev (system_activate_scheduled_day_intents t now).
Proof.
  apply update_counting_ev, update_cores_ev. intros i c [Hs _]%andb_true_iff. apply String.eqb_eq in Hs.
  split; [done|]. cbn. rewrite Hs. apply rtc_once, step_activate.
Qed.

Lemma cancel_owner_ev o now : ev (cancel_active_for_owner o "cancelled_by_account_disabled" now).
Proof. apply update_counting_ev, closing_ev; [set_solver|]. by intros i r [_ ?]%andb_true_iff. Qed.

Lemma baseline_ev i b d u : ev (system_update_trailing_baseline i b d u).
Proof.
  unfold system_update_trailing_baseline.
  assert (forall v (g : TrailingParamsRow -> TrailingParamsRow),
    (forall t, (tp_trail_mode (g t), tp_trail_value (g t)) = (tp_trail_mode t, tp_trail_value t)) ->
    ev (insert_checked v (fun x => set_trailing_params (update_where (fun j _ => j =? i) g (trailing_params x)) x))).
  { intros v g Hg. apply insert_frame_ev; [done| |intros; by apply (off_trailing_params G Hoff)].
    intros x j _. unfold terms. cbn. rewrite lookup_update. destruct (trailing_params x !! j) as [t|]; [|done]. cbn.
    destruct (j =? i); [|done]. by rewrite Hg. }
  assert (forall p now, ev (update_cores p (fun x => core_set (c_status x) (c_cancelled_at x) (c_triggered_at x)
    (c_last_fill_at x) (c_filled_quantity_lots x) now x))).
  { intros p now. apply update_cores_ev. intros j c _. split; [done|apply rtc_refl]. }
  preserve.
Qed.

Lemma write_trigger_ev i tid nid trow nrow : ev (write_trigger i tid nid trow nrow).
Proof.
  unfold write_trigger, mark_triggered.
  assert (forall now, ev (update_counting (trigger_guard i) (fun c => core_set "triggered" (c_cancelled_at c)
    (Some now) (Some now) (i_quantity_lots i) now c))).
  { intros now. apply update_counting_ev, update_cores_ev. unfold trigger_guard.
    intros j c [_ Hs]%andb_true_iff. apply String.eqb_eq in Hs. split; [done|]. cbn. rewrite Hs.
    apply rtc_once, step_fire. }
  assert (forall j r, ev (insert_trigger j r)).
  { intros. apply insert_frame_ev; [done|done|]. intros. by apply (off_triggers G Hoff). }
  assert (forall j r, ev (insert_notification j r)).
  { intros. apply insert_frame_ev; [done|done|]. intros. by apply (off_notifications G Hoff). }
  preserve.
Qed.

Lemma persist_ev i inp : ev (persist_core_trigger i inp).
Proof. unfold persist_core_trigger. pose proof write_trigger_ev. preserve. Qed.

Lemma store_baseline_ev i r : ev (store_baseline i r).
Proof. unfold store_baseline, apply_trailing_baseline_update. pose proof baseline_ev. preserve. Qed.

Lemma find_by_id_ev i o : ev (find_by_id i o).
Proof. unfold find_by_id, get_core. preserve. Qed.

Lemma cancel_ev i o : ev (cancel i o).
Proof.
  intros w r w' Hw H0. pose proof Hw as [Hd [Hp HG]].
  destruct (cancel_cases i o w r w' H0) as [[-> _]|(c & s & Hc & _ & Hopen & _ & -> & _)]; [done|].
  split; [done|]. split; [|by apply (off_cores G Hoff)]. apply evolves_update; [done|]. intros j x Hx ->%Z.eqb_eq. rewrite Hc in Hx. injection Hx as <-.
  split; [done|]. apply rtc_once, step_close; [done|]. set_solver.
Qed.

Lemma create_command_ev ks limits inp : (forall c, ks = Some c -> quiet c) -> ev (create_command ks limits inp).
Proof.
  intros Hks. unfold create_command, create_body, get_tradable_symbol, get_by_symbol, check_limits,
    count_active_or_scheduled_for_user, count_active_or_scheduled_for_user_symbol,
    apply_inline_trigger_if_quote_met, fire.
  pose proof find_by_id_ev. pose proof create_ev. pose proof store_baseline_ev. pose proof persist_ev.
  pose proof (quiet_preserves (P := P) _ (tracks d0 G) (reconcile_on_create_quiet (ci_symbol inp))).
  pose proof (fun s t => quiet_preserves (P := P) _ (tracks d0 G) (fetch_quiet s t)).
  assert (ev (halted_now ks)).
  { unfold halted_now. destruct ks; [by apply quiet_preserves, Hks|apply preserves_ret]. }
  apply preserves_bind; [apply both_transaction|intros x]; preserve.
Qed.

Lemma cancel_command_ev i o : ev (cancel_command i o).
Proof.
  unfold cancel_command. pose proof cancel_ev.
  assert (forall s, ev (reconcile_after_terminal_transition s)).
  { intros s. apply quiet_preserves, reconcile_after_quiet. }
  apply preserves_bind; [apply both_transaction; preserve|intros x]. preserve.
Qed.

Lemma dispatch_loop_ev q now l b : ev (dispatch_loop q now l b).
Proof.
  assert (forall i, ev (dispatch_intent q now i)).
  { intros i. unfold dispatch_intent. pose proof store_baseline_ev.
    assert (forall j inp, ev (begin_nested (persist_core_trigger j inp))) by (intros; apply both_nested, persist_ev).
    preserve. }
  revert b. induction l as [|i l IH]; intros b; cbn; [apply preserves_ret|].
  apply preserves_bind; [done|]. intros a. apply IH.
Qed.

Lemma dispatch_ev ks q : (forall c, ks = Some c -> quiet c) -> ev (dispatch ks q).
Proof.
  intros Hks. unfold dispatch, dispatch_inner.
  assert (ev (halted_now ks)).
  { unfold halted_now. destruct ks; [by apply quiet_preserves, Hks|apply preserves_ret]. }
  assert (forall now, ev (with_session (dispatch_session q now))).
  { intros now. apply with_session_pres. unfold dispatch_session, lifecycle_run, Lifecycle.run, core_store. cbn [expire_day_intents_through activate_scheduled_day_intents].
    pose proof expire_ev. pose proof activate_ev. pose proof dispatch_loop_ev. pose proof (list_active_pres (P := P)). preserve. }
  preserve.
Qed.

End Evolution.

(** ** The transition system *)

(** What reaches the track from outside. *)
Inductive request : Type :=
| CreateRequest (limits : option IntentLimits) (inp : CreateTradeIntentInput)
| CancelRequest (intent_id owner_user_id : uuid)
| QuoteRequest (snapshot : QuoteSnapshot)
| DisableRequest (owner_user_id : uuid) (now : datetime).

Section Track.
  Context {P : Type} `{QuoteProvider P} (kill_switch : option (M P bool)).
  Context (Hswitch : forall c, kill_switch = Some c -> quiet c).

(** Serving a request in a session of its own; the last one is the cascade of a
    disabled account. *)
Definition serve (q : request) : M P unit :=
  match q with
  | CreateRequest limits inp => with_session (do_ create_command kill_switch limits inp; ret tt)
  | CancelRequest i o => with_session (do_ cancel_command i o; ret tt)
  | QuoteRequest snapshot => dispatch kill_switch snapshot
  | DisableRequest o now =>
      with_session (transaction (do_ cancel_active_for_owner o "cancelled_by_account_disabled" now; commit))
  end.

(** Between the requests time passes and the quote source does what it likes. *)
Inductive step : world P -> world P -> Prop :=
| step_serve q w r w' : serve q w = (r, w') -> step w w'
| step_clock w a b : step w (mkWorld (durable w) (pending w) (provider w) (next_id w) (outbox w) a b)
| step_provider w p : step w (with_provider p w).

Lemma serve_both q J : 
  (forall limits inp, preserves (P := P) (both J) (create_command kill_switch limits inp)) ->
  (forall i o, preserves (P := P) (both J) (cancel_command i o)) ->
  (forall s, preserves (P := P) (both J) (dispatch kill_switch s)) ->
  (forall o now, preserves (P := P) (both J) (cancel_active_for_owner o "cancelled_by_account_disabled" now)) ->
  preserves (P := P) (both J) (serve q).
Proof.
  intros H1 H2 H3 H4. destruct q; cbn [serve]; [| |done|]; apply with_session_pres; preserve.
  apply both_transaction. preserve.
Qed.

Lemma step_schema w w' : step w w' -> both schema_ok w -> both schema_ok w'.
Proof.
  intros [q ? r ? Hs|? ? ?|? ?] Hw; [|done..]. revert Hs. apply serve_both; [..|done]; intros.
  - by apply create_command_pres.
  - apply cancel_command_pres.
  - by apply dispatch_pres.
  - by apply cancel_owner_pres.
Qed.

Lemma step_evolves d0 G w w' : off_track G -> step w w' -> both (tracks d0 G) w -> both (tracks d0 G) w'.
Proof.
  intros Hoff [q ? r ? Hs|? ? ?|? ?] Hw; [|done..]. revert Hs. apply serve_both; [..|done]; intros.
  - by apply create_command_ev.
  - by apply cancel_command_ev.
  - by apply dispatch_ev.
  - by apply cancel_owner_ev.
Qed.

(** C2. Over any sequence of requests, quotes and clock changes, whatever they
    return: the schema's invariants hold; no stored intent disappears and the
    order it describes never changes, neither the columns of its row (all but
    the status, the fills and the times of changes) nor the target prices, trail
    mode and trail value that evaluation reads; its status only moves along the
    transitions scheduled -> active -> triggered and open -> closed, so that a
    terminal status is final; and an intent is triggered exactly when it has a
    trigger row, of which there is one. *)
Theorem intent_life (w0 w : world P) (Hclean : pending w0 = durable w0) (Hstart : schema_ok (durable w0))
    (Hrun : rtc step w0 w) :
  schema_ok (durable w) /\
  forall i c, cores (durable w0) !! i = Some c -> exists c', cores (durable w) !! i = Some c' /\
    same_order_row c c' /\ terms (durable w) i = terms (durable w0) i /\ rtc status_step (c_status c) (c_status c') /\
    (c_status c ∈ TERMINAL_STATUSES -> c_status c' = c_status c) /\
    (c_status c' = "triggered" <-> exists t g, triggers (durable w) !! t = Some g /\ g_trade_intent_id g = i /\
       forall t' g', triggers (durable w) !! t' = Some g' -> g_trade_intent_id g' = i -> t' = t).
Proof.
  assert (Hall : both schema_ok w /\ both (tracks (durable w0) (fun _ => True)) w).
  { assert (H0 : both schema_ok w0 /\ both (tracks (durable w0) (fun _ => True)) w0).
    { unfold both. rewrite Hclean. split; [done|]. split; (split; [apply evolves_refl|done]). }
    revert H0. generalize (durable w0) as d0. clear Hclean Hstart. intros d0. induction Hrun as [|a b c Hab _ IH]; [done|].
    intros [H1 H2]. apply IH. split; [by eapply step_schema|by apply (step_evolves _ _ a)]. }
  destruct Hall as [Hok [[Hev _] _]].
  destruct Hok as [Hok _]. split; [done|]. intros i c Hc. destruct (Hev i c Hc) as (c' & Hc' & [Hs Hterms] & Hr).
  exists c'. split; [done|]. split; [done|]. split; [done|]. split; [done|]. split; [intros Ht; by eapply terminal_final|]. split.
  - intros Ht. destruct (triggered_has _ Hok i c' Hc' Ht) as (t & g & Hg & Hi). exists t, g. split; [done|]. split; [done|].
    intros t' g' Hg' Hi'. eapply trigger_unique; [done..|congruence].
  - intros (t & g & Hg & Hi & _). destruct (trigger_intent _ Hok t g Hg) as (r & Hr' & Hrs). congruence.
Qed.

End Track.

(** An alert is created, fires on a quote, and cannot be cancelled afterwards. *)
Lemma intent_life_witness :
  let w0 := market_world (Dec 610 0) open_db in
  let quote := QuoteRequest (quote_at None (Some (Dec 5995 (-1))) None) in
  exists w1 w2, serve None quote w0 = (Ok tt, w1) /\
    serve None (CancelRequest 1 7) w1 = (Raise (CancelNotAllowedError 1 "triggered"), w2) /\
    schema_ok (durable w2) /\
    exists c', cores (durable w2) !! (1 : uuid) = Some c' /\ rtc status_step "active" (c_status c').
Proof.
  intros w0 quote. set (x := serve None quote w0). set (y := serve None (CancelRequest 1 7) (snd x)).
  assert (Hx : x = (Ok tt, snd x)) by (vm_compute; reflexivity).
  assert (Hy : y = (Raise (CancelNotAllowedError 1 "triggered"), snd y)) by (vm_compute; reflexivity).
  exists (snd x), (snd y). split; [exact Hx|]. split; [exact Hy|].
  assert (Hrun : rtc (step None) w0 (snd y)).
  { eapply rtc_l; [eapply step_serve; exact Hx|]. apply rtc_once. eapply step_serve. exact Hy. }
  destruct (intent_life None ltac:(discriminate) w0 (snd y) eq_refl open_schema Hrun) as [Hok Hlife].
  split; [exact Hok|]. destruct (Hlife 1 (sample_row 2) ltac:(reflexivity)) as (c' & Hc' & _ & _ & Hr & _).
  exists c'. split; [exact Hc'|exact Hr].
Defined.
