(* ===== verification/RateLimiter.v ===== *)
(** * The rate limiter

    [src/app/core/rate_limiter.py]: a token bucket in a row of
    [rate_limit_buckets].  Tokens and rates are exact rationals (floats in the
    source); the row lock makes one [consume] atomic, so that the calls on a
    bucket form a sequence. *)

From Stdlib Require Import QArith Lqa.
From S2P Require Import Prelude Decimal Datetime Errors Tables Store.

#[local] Open Scope string_scope.
#[local] Open Scope list_scope.
#[local] Open Scope Q_scope.

(** [RateLimitDecision]; an infinite [retry_after_seconds] is [None]. *)
Record RateLimitDecision : Type := mkDecision {
  allowed : bool;
  remaining : Q;
  retry_after_seconds : option Q;
}.

(** [timedelta.total_seconds()] of a number of microseconds *)
Definition total_seconds (us : Z) : Q := inject_Z us / inject_Z 1000000.

(** [_refill] *)
Definition refill (tokens elapsed_seconds capacity refill_per_second : Q) : Q :=
  let elapsed := if Qle_bool elapsed_seconds 0 then 0 else elapsed_seconds in
  let filled := tokens + elapsed * refill_per_second in
  if Qle_bool capacity filled then capacity else filled.

(** The computation of [consume] on the locked row. *)
Definition consume_row (row : BucketRow) (capacity refill_per_second cost : Q) (now : datetime)
  : BucketRow * RateLimitDecision :=
  let elapsed := total_seconds (dt_us now - dt_us (rb_updated_at row)) in
  let tokens := refill (rb_tokens row) elapsed capacity refill_per_second in
  let ok := Qle_bool cost tokens in
  let left := if ok then tokens - cost else tokens in
  let retry_after :=
    if ok then Some 0
    else if negb (Qle_bool refill_per_second 0) then Some ((cost - left) / refill_per_second)
    else None in
  (mkBucket left now, mkDecision ok left retry_after).

Section RateLimiter.
  Context {P : Type}.

(** [consume] *)
Definition consume (bucket_key : string) (capacity refill_per_second cost : Q) (now : datetime)
  : M P RateLimitDecision :=
  do_ execute (fun d =>
        match rate_buckets d !! bucket_key with
        | Some _ => d
        | None => set_rate_buckets (<[bucket_key := mkBucket capacity now]> (rate_buckets d)) d
        end);
  do found <- query (fun d => rate_buckets d !! bucket_key);
  match found with
  | None => raise (RuntimeError "NoResultFound")
  | Some row =>
      let '(row', decision) := consume_row row capacity refill_per_second cost now in
      do_ execute (fun d => set_rate_buckets (<[bucket_key := row']> (rate_buckets d)) d);
      ret decision
  end.

(** [reset] *)
Definition reset (bucket_key : string) : M P unit :=
  execute (fun d => set_rate_buckets (delete bucket_key (rate_buckets d)) d).

(** The bucket a call finds. *)
Definition bucket_at (d : db) (bucket_key : string) (capacity : Q) (now : datetime) : BucketRow :=
  default (mkBucket capacity now) (rate_buckets d !! bucket_key).

Lemma consume_run k cap rate cost now (w : world P) :
  let '(row, dec) := consume_row (bucket_at (pending w) k cap now) cap rate cost now in
  exists t, consume k cap rate cost now w = (Ok dec, with_pending (set_rate_buckets t (pending w)) w) /\
    t !! k = Some row /\ forall j, j <> k -> t !! j = rate_buckets (pending w) !! j.
Proof.
  unfold consume, bucket_at. run_session. destruct (rate_buckets (pending w) !! k) as [row0|] eqn:Hk; cbn [default].
  - cbn [pending with_pending]. rewrite Hk. cbn [default from_option id]. destruct (consume_row row0 cap rate cost now) as [row dec].
    exists (<[k := row]> (rate_buckets (pending w))). split; [reflexivity|].
    split; [by rewrite lookup_insert_eq|]. intros j Hj. by rewrite lookup_insert_ne by done.
  - cbn [pending with_pending rate_buckets set_rate_buckets]. rewrite lookup_insert_eq. cbn [from_option].
    destruct (consume_row _ cap rate cost now) as [row dec].
    exists (<[k := row]> (<[k := mkBucket cap now]> (rate_buckets (pending w)))). split; [reflexivity|].
    split; [by rewrite lookup_insert_eq|]. intros j Hj. by rewrite !lookup_insert_ne by done.
Qed.

(** The database after a call, and its answer. *)
Definition charged (bucket_key : string) (capacity refill_per_second cost : Q) (now : datetime) (d : db) : db :=
  set_rate_buckets (<[bucket_key := fst (consume_row (bucket_at d bucket_key capacity now)
                                      capacity refill_per_second cost now)]> (rate_buckets d)) d.
Definition decision (bucket_key : string) (capacity refill_per_second cost : Q) (now : datetime) (d : db)
  : RateLimitDecision :=
  snd (consume_row (bucket_at d bucket_key capacity now) capacity refill_per_second cost now).

Lemma consume_eq k cap rate cost now (w : world P) :
  consume k cap rate cost now w =
  (Ok (decision k cap rate cost now (pending w)), with_pending (charged k cap rate cost now (pending w)) w).
Proof.
  unfold consume, decision, charged, bucket_at. run_session.
  destruct (rate_buckets (pending w) !! k) as [row0|] eqn:Hk; cbn [pending with_pending].
  - rewrite Hk. cbn [default from_option id]. by destruct (consume_row row0 cap rate cost now).
  - cbn [rate_buckets set_rate_buckets]. rewrite lookup_insert_eq. cbn [default from_option id].
    destruct (consume_row _ cap rate cost now) as [row dec]. cbn [fst snd].
    unfold with_pending, set_rate_buckets. cbn. by rewrite insert_insert_eq.
Qed.

End RateLimiter.

(** ** The bound *)

Lemma qle_true a b : Qle_bool a b = true -> a <= b.
Proof. apply Qle_bool_iff. Qed.
Lemma qle_false a b : Qle_bool a b = false -> b < a.
Proof. intros H. apply Qnot_le_lt. intros Hle. apply Qle_bool_iff in Hle. congruence. Qed.

(** Case analysis on the comparisons of a goal. *)
Ltac qcases :=
  repeat match goal with
  | |- context [Qle_bool ?a ?b] =>
      let H := fresh "Hq" in destruct (Qle_bool a b) eqn:H; [apply qle_true in H|apply qle_false in H]
  | H0 : context [Qle_bool ?a ?b] |- _ =>
      let H := fresh "Hq" in destruct (Qle_bool a b) eqn:H; [apply qle_true in H|apply qle_false in H]
  end.

Lemma total_seconds_mono a b : (a <= b)%Z -> total_seconds a <= total_seconds b.
Proof.
  intros H. unfold total_seconds. apply Qmult_le_compat_r; [by rewrite <-Zle_Qle|]. apply Qinv_le_0_compat. done.
Qed.

Lemma total_seconds_nonneg a : (0 <= a)%Z -> 0 <= total_seconds a.
Proof. intros H. apply (Qle_trans _ (total_seconds 0)); [done|]. by apply total_seconds_mono. Qed.

Lemma total_seconds_sub a b : total_seconds (a - b) == total_seconds a - total_seconds b.
Proof. unfold total_seconds, Z.sub. rewrite inject_Z_plus, inject_Z_opp. field. Qed.

Lemma refill_bounds tokens elapsed cap rate : 0 <= tokens -> 0 <= elapsed -> 0 <= cap -> 0 <= rate ->
  0 <= refill tokens elapsed cap rate /\ refill tokens elapsed cap rate <= cap /\
  refill tokens elapsed cap rate <= tokens + elapsed * rate.
Proof.
  intros Ht He Hc Hr. pose proof (Qmult_le_0_compat _ _ He Hr). unfold refill. qcases; repeat split; try nra.
Qed.

Lemma refill_later tokens e e' cap rate : 0 <= e -> e <= e' -> 0 <= rate ->
  refill tokens e' cap rate <= refill tokens e cap rate + (e' - e) * rate.
Proof.
  intros He Hle Hr. assert (Hd : 0 <= (e' - e) * rate) by (apply Qmult_le_0_compat; lra).
  unfold refill. qcases; nra.
Qed.

(** A sequence of calls on one bucket: the times, and what is let through. *)
Fixpoint consume_all (row : BucketRow) (cap rate cost : Q) (times : list datetime) : BucketRow * list bool :=
  match times with
  | [] => (row, [])
  | t :: rest =>
      let '(row', d) := consume_row row cap rate cost t in
      let '(last, ds) := consume_all row' cap rate cost rest in (last, allowed d :: ds)
  end.

Definition count_allowed (l : list bool) : Q := inject_Z (Z.of_nat (length (List.filter id l))).

Fixpoint monotone (t : Z) (times : list datetime) : Prop :=
  match times with [] => True | x :: rest => (t <= dt_us x)%Z /\ monotone (dt_us x) rest end.

Definition last_time (t : Z) (times : list datetime) : Z := List.fold_left (fun _ x => dt_us x) times t.

Lemma count_allowed_cons (b : bool) l : count_allowed (b :: l) == (if b then 1 else 0) + count_allowed l.
Proof.
  unfold count_allowed. destruct b; cbn [List.filter id length]; [|ring].
  rewrite Nat2Z.inj_succ, <-Z.add_1_l, inject_Z_plus. ring.
Qed.

(** Tokens never go below zero, and what was let through is paid by the tokens
    and the refill. *)
Lemma consume_all_paid cap rate cost times : 0 <= cap -> 0 <= rate -> 0 < cost -> forall row, 0 <= rb_tokens row ->
  monotone (dt_us (rb_updated_at row)) times ->
  let '(last, ds) := consume_all row cap rate cost times in
  0 <= rb_tokens last /\
  count_allowed ds * cost + rb_tokens last <=
    rb_tokens row + (total_seconds (last_time (dt_us (rb_updated_at row)) times) -
                     total_seconds (dt_us (rb_updated_at row))) * rate.
Proof.
  intros Hc Hr Hcost. induction times as [|t times IH]; intros row Hrow Hm; cbn [consume_all].
  { split; [done|]. change (count_allowed []) with 0. cbn [last_time List.fold_left]. lra. }
  destruct Hm as [Hle Hm]. destruct (consume_row row cap rate cost t) as [row' d] eqn:Hcr.
  assert (He : 0 <= total_seconds (dt_us t - dt_us (rb_updated_at row))).
  { apply total_seconds_nonneg. lia. }
  destruct (refill_bounds (rb_tokens row) _ cap rate Hrow He Hc Hr) as (H1 & H2 & H3).
  unfold consume_row in Hcr. set (tk := refill _ _ _ _) in *. injection Hcr as <- <-.
  rewrite total_seconds_sub in H3.
  specialize (IH (mkBucket (if Qle_bool cost tk then tk - cost else tk) t)). cbn [rb_tokens rb_updated_at allowed] in *.
  destruct (consume_all _ cap rate cost times) as [last ds].
  assert (Hpos : 0 <= (if Qle_bool cost tk then tk - cost else tk)) by (qcases; lra).
  destruct (IH Hpos Hm) as [Hl Hsum]. split; [done|]. cbn [last_time List.fold_left]. fold (last_time (dt_us t) times).
  rewrite count_allowed_cons. revert Hsum. qcases; intros Hsum; nra.
Qed.

(** The token bucket's guarantee: starting from any bucket a call leaves
    behind, the requests let through over a sequence of calls cost at most the
    bucket's capacity plus what is refilled between the first and the last call,
    and the bucket never goes below zero. *)
Theorem rate_limit_bound (cap rate cost : Q) (row : BucketRow) (first : datetime) (times : list datetime)
    (Hcap : 0 <= cap) (Hrate : 0 <= rate) (Hcost : 0 < cost) (Hrow : 0 <= rb_tokens row)
    (Hm : monotone (dt_us (rb_updated_at row)) (first :: times)) :
  let '(last, ds) := consume_all row cap rate cost (first :: times) in
  0 <= rb_tokens last /\
  count_allowed ds * cost <= cap + (total_seconds (last_time (dt_us first) times) - total_seconds (dt_us first)) * rate.
Proof.
  cbn [consume_all]. destruct Hm as [Hle Hm].
  assert (He : 0 <= total_seconds (dt_us first - dt_us (rb_updated_at row))).
  { apply total_seconds_nonneg. lia. }
  destruct (refill_bounds (rb_tokens row) _ cap rate Hrow He Hcap Hrate) as (H1 & H2 & _).
  unfold consume_row. set (tk := refill _ _ _ _) in *. cbn [allowed].
  pose proof (consume_all_paid cap rate cost times Hcap Hrate Hcost
    (mkBucket (if Qle_bool cost tk then tk - cost else tk) first)) as Hpaid.
  cbn [rb_tokens rb_updated_at] in Hpaid. destruct (consume_all _ cap rate cost times) as [last ds].
  destruct Hpaid as [Hl Hsum]; [qcases; lra|done|]. split; [done|]. rewrite count_allowed_cons. revert Hsum. qcases; intros; lra.
Qed.

Definition at_second (s : Z) : datetime := DT (s * 1000000) (Some 0%Z).

(** Ten requests at once and one a minute later, five an hour: five pass. *)
Lemma rate_limit_bound_witness :
  let times := List.repeat (at_second 0) 9 ++ [at_second 60] in
  let row := mkBucket 5 (at_second 0) in
  count_allowed (snd (consume_all row 5 (1 # 720) 1 (at_second 0 :: times))) == 5 /\
  count_allowed (snd (consume_all row 5 (1 # 720) 1 (at_second 0 :: times))) * 1 <=
    5 + (total_seconds (last_time (dt_us (at_second 0)) times) - total_seconds (dt_us (at_second 0))) * (1 # 720).
Proof.
  intros times row. split; [vm_compute; reflexivity|].
  pose proof (rate_limit_bound 5 (1 # 720) 1 row (at_second 0) times ltac:(discriminate) ltac:(discriminate)
    ltac:(reflexivity) ltac:(discriminate) ltac:(vm_compute; repeat split; discriminate)) as H.
  destruct (consume_all row 5 (1 # 720) 1 (at_second 0 :: times)) as [last ds]. exact (proj2 H).
Defined.

Lemma qle_refl_true a : Qle_bool a a = true.
Proof. apply Qle_bool_iff, Qle_refl. Qed.

(** [consume] always answers, touches only its own bucket, and its answer can
    be relied on: a refused call leaves the tokens of the moment, and the same
    call on that bucket at a later time is let through exactly when at least
    [retry_after_seconds] have passed. *)
Theorem consume_retry_after {P} (k : string) (cap rate cost : Q) (now later : datetime) (w : world P)
    (Hcap : cost <= cap) (Hcost : 0 < cost) (Hrate : 0 < rate) (Hlater : (dt_us now <= dt_us later)%Z) :
  exists dec w', consume k cap rate cost now w = (Ok dec, w') /\
    durable w' = durable w /\ (forall j, j <> k -> rate_buckets (pending w') !! j = rate_buckets (pending w) !! j) /\
    match retry_after_seconds dec with
    | None => False
    | Some r =>
        (allowed dec = true <-> r == 0) /\
        (allowed dec = false -> exists dec' w'', consume k cap rate cost later w' = (Ok dec', w'') /\
           (allowed dec' = true <-> r <= total_seconds (dt_us later - dt_us now)))
    end.
Proof.
  pose proof (consume_run k cap rate cost now w) as Hrun. set (row0 := bucket_at _ k cap now) in *.
  destruct (consume_row row0 cap rate cost now) as [row dec] eqn:Hcr.
  destruct Hrun as (t & Hrun & Hk & Hother). exists dec. eexists. split; [exact Hrun|]. split; [done|].
  split; [exact Hother|]. unfold consume_row in Hcr. set (tk := refill _ _ _ _) in *.
  injection Hcr as <- <-. cbn [allowed retry_after_seconds].
  destruct (Qle_bool cost tk) eqn:Hok; [by split|]. apply qle_false in Hok.
  destruct (Qle_bool rate 0) eqn:Hr0; [apply qle_true in Hr0; lra|]. cbn [negb].
  assert (Hpos : 0 < (cost - tk) / rate).
  { apply Qlt_shift_div_l; [done|]. lra. }
  split; [split; [done|intros H0; lra]|]. intros _.
  pose proof (consume_run k cap rate cost later (with_pending (set_rate_buckets t (pending w)) w)) as Hrun2.
  assert (Hb : bucket_at (pending (with_pending (set_rate_buckets t (pending w)) w)) k cap later = mkBucket tk now).
  { unfold bucket_at. cbn [pending with_pending rate_buckets set_rate_buckets]. by rewrite Hk. }
  rewrite Hb in Hrun2. destruct (consume_row _ cap rate cost later) as [row2 dec2] eqn:Hcr2.
  destruct Hrun2 as (t2 & Hrun2 & _). exists dec2. eexists. split; [exact Hrun2|].
  unfold consume_row in Hcr2. injection Hcr2 as <- <-. cbn [rb_tokens rb_updated_at allowed].
  set (el := total_seconds _). assert (He : 0 <= el) by (apply total_seconds_nonneg; lia).
  assert (Hiff : (cost - tk) / rate <= el <-> cost <= tk + el * rate).
  { split; intros H.
    - apply (Qmult_le_compat_r _ _ rate) in H; [|lra]. assert (Hdiv : (cost - tk) / rate * rate == cost - tk) by (field; lra).
      rewrite Hdiv in H. lra.
    - apply Qle_shift_div_r; [done|]. lra. }
  rewrite Hiff. unfold refill. rewrite Qle_bool_iff.
  assert (Hel : (if Qle_bool el 0 then 0 else el) == el) by (qcases; lra).
  destruct (Qle_bool cap _) eqn:Hcf; [apply qle_true in Hcf|]; rewrite Hel in *; split; lra.
Qed.

Lemma consume_retry_after_witness :
  let w := mkWorld empty_db (set_rate_buckets {["login" := mkBucket (1 # 2) (at_second 0)]} empty_db) tt 0%Z []
             (at_second 0) (at_second 0) in
  exists dec w', consume "login" 5 (1 # 60) 1 (at_second 0) w = (Ok dec, w') /\ allowed dec = false /\
    match retry_after_seconds dec with Some r => r == 30 | None => False end.
Proof.
  intros w. destruct (consume_retry_after "login" 5 (1 # 60) 1 (at_second 0) (at_second 30) w ltac:(discriminate)
    ltac:(reflexivity) ltac:(reflexivity) ltac:(discriminate)) as (dec & w' & Hrun & _ & _ & _).
  exists dec, w'. split; [exact Hrun|]. assert (H : fst (consume "login" 5 (1 # 60) 1 (at_second 0) w) = Ok dec) by by rewrite Hrun.
  vm_compute in H. injection H as <-. split; [reflexivity|]. vm_compute. reflexivity.
Defined.

(** ** What a throttle bounds

    A component that consults a bucket at each of its steps: a step either
    leaves the bucket alone, or calls [consume_row] on it and is counted only
    when it was let through, or was let through and gives the bucket back full. *)
Inductive verdict : Type := Spared | Counted | Refunded.
Definition is_counted (v : verdict) : bool := match v with Counted => true | _ => false end.
Definition is_refunded (v : verdict) : bool := match v with Refunded => true | _ => false end.
Definition counted (l : list verdict) : Q := count_allowed (is_counted <$> l).
Definition refunds (l : list verdict) : Q := count_allowed (is_refunded <$> l).

Section Throttle.
  Context {S X : Type} (bucket : S -> option BucketRow) (time_of : X -> datetime) (step : S -> X -> verdict * S).
  Context (I : S -> Prop) (V : X -> Prop) (cap rate : Q).
  Hypothesis Hcap : 0 <= cap.
  Hypothesis Hrate : 0 <= rate.

Definition call_of (s : S) (x : X) : BucketRow * RateLimitDecision :=
  consume_row (default (mkBucket cap (time_of x)) (bucket s)) cap rate 1 (time_of x).

(** What a step did to the bucket, by its verdict. *)
Definition throttled_step (s : S) (x : X) : Prop :=
  match fst (step s x) with
  | Spared => bucket (snd (step s x)) = bucket s \/ bucket (snd (step s x)) = Some (fst (call_of s x))
  | Counted => bucket (snd (step s x)) = Some (fst (call_of s x)) /\ allowed (snd (call_of s x)) = true
  | Refunded => bucket (snd (step s x)) = None /\ allowed (snd (call_of s x)) = true
  end.

  Hypothesis Hstep : forall s x, I s -> V x -> I (snd (step s x)) /\ throttled_step s x.

Fixpoint steps (s : S) (xs : list X) : list verdict * S :=
  match xs with
  | [] => ([], s)
  | x :: rest => let '(b, s1) := step s x in let '(bs, s2) := steps s1 rest in (b :: bs, s2)
  end.

(** The tokens a call at [t] would find. *)
Definition available (row : option BucketRow) (t : Z) : Q :=
  match row with
  | Some r => refill (rb_tokens r) (total_seconds (t - dt_us (rb_updated_at r))) cap rate
  | None => cap
  end.

Definition sound_bucket (row : option BucketRow) (t : Z) : Prop :=
  match row with Some r => 0 <= rb_tokens r /\ (dt_us (rb_updated_at r) <= t)%Z | None => True end.

Lemma available_bounds row t : sound_bucket row t -> 0 <= available row t /\ available row t <= cap.
Proof.
  destruct row as [r|]; cbn; [|lra]. intros [Hr Ht].
  destruct (refill_bounds (rb_tokens r) (total_seconds (t - dt_us (rb_updated_at r))) cap rate) as (H1 & H2 & _); try done.
  apply total_seconds_nonneg. lia.
Qed.

Lemma available_later row t t' : sound_bucket row t -> (t <= t')%Z ->
  available row t' <= available row t + (total_seconds t' - total_seconds t) * rate.
Proof.
  intros Hs Ht. pose proof (total_seconds_mono t t' Ht) as Hm.
  assert (Hpos : 0 <= (total_seconds t' - total_seconds t) * rate) by (apply Qmult_le_0_compat; [lra|done]).
  destruct row as [r|]; cbn in *; [|lra]. destruct Hs as [Hr Hu].
  assert (He : 0 <= total_seconds (t - dt_us (rb_updated_at r))) by (apply total_seconds_nonneg; lia).
  assert (He' : total_seconds (t - dt_us (rb_updated_at r)) <= total_seconds (t' - dt_us (rb_updated_at r))).
  { apply total_seconds_mono. lia. }
  pose proof (refill_later (rb_tokens r) _ _ cap rate He He' Hrate) as H.
  pose proof (total_seconds_sub t (dt_us (rb_updated_at r))) as E.
  pose proof (total_seconds_sub t' (dt_us (rb_updated_at r))) as E'.
  set (a := total_seconds (t - _)) in *. set (b := total_seconds (t' - _)) in *. nra.
Qed.

(** A call takes its token from what it found. *)
Lemma available_consumed row x : sound_bucket row (dt_us x) ->
  let '(row', d) := consume_row (default (mkBucket cap x) row) cap rate 1 x in
  sound_bucket (Some row') (dt_us x) /\
  (if allowed d then 1 else 0) + available (Some row') (dt_us x) <= available row (dt_us x).
Proof.
  intros Hs. unfold consume_row. set (tk := refill _ _ _ _).
  assert (Htk : tk == available row (dt_us x)).
  { destruct row as [r|]; cbn in *; [done|]. unfold tk, refill. cbn. rewrite Z.sub_diag.
    change (total_seconds 0) with (0 / inject_Z 1000000). assert (E0 : 0 / inject_Z 1000000 == 0) by reflexivity.
    qcases; lra. }
  pose proof (available_bounds row (dt_us x) Hs) as [Ha Hc]. cbn [allowed sound_bucket rb_tokens rb_updated_at available].
  rewrite Z.sub_diag. assert (Hz : forall a, 0 <= a -> a <= cap -> refill a (total_seconds 0) cap rate == a).
  { intros a Ha0 Hac. unfold refill. assert (E0 : total_seconds 0 == 0) by reflexivity.
    qcases; try lra; exfalso; lra. }
  destruct (Qle_bool 1 tk) eqn:Hq; [apply qle_true in Hq|apply qle_false in Hq].
  - split; [split; [lra|done]|]. rewrite Hz by lra. lra.
  - split; [split; [lra|done]|]. rewrite Hz by lra. lra.
Qed.

(** The counted steps are at most the tokens at the start, the refill, and what
    the refunds gave back. *)
Lemma throttle_paid xs : forall s t, I s -> Forall V xs -> sound_bucket (bucket s) t -> monotone t (time_of <$> xs) ->
  counted (fst (steps s xs)) <=
    available (bucket s) t + (cap - 1) * refunds (fst (steps s xs)) +
    (total_seconds (last_time t (time_of <$> xs)) - total_seconds t) * rate.
Proof.
  induction xs as [|x xs IH]; intros s t Hi Hv Hb Hm; cbn [steps fst].
  { change (counted []) with 0. change (refunds []) with 0. cbn. pose proof (available_bounds _ t Hb). lra. }
  apply Forall_cons in Hv as [Hx Hv]. destruct Hm as [Hle Hm]. cbn [fmap list_fmap last_time List.fold_left].
  fold (last_time (dt_us (time_of x)) (time_of <$> xs)).
  destruct (Hstep s x Hi Hx) as [Hi' Hcase]. unfold throttled_step, call_of in Hcase.
  pose proof (available_later _ _ _ Hb Hle) as Hlater.
  assert (Hb' : sound_bucket (bucket s) (dt_us (time_of x))).
  { destruct (bucket s) as [r|]; [|done]. destruct Hb. split; [done|lia]. }
  pose proof (available_consumed _ _ Hb') as Hc. destruct (consume_row _ cap rate 1 (time_of x)) as [row' d].
  destruct Hc as [Hsound Hpay]. pose proof (available_bounds _ _ Hb') as Hb0. pose proof (available_bounds _ _ Hsound) as Hb1.
  destruct (step s x) as [v s1] eqn:Hs. cbn [fst snd] in *.
  specialize (IH s1 (dt_us (time_of x)) Hi' Hv). destruct (steps s1 xs) as [vs s2]. cbn [fst] in *.
  unfold counted, refunds in *. cbn [fmap list_fmap]. rewrite !count_allowed_cons.
  destruct v; cbn [is_counted is_refunded].
  - destruct Hcase as [Heq|Heq]; rewrite Heq in IH; specialize (IH ltac:(done) Hm); [lra|]. destruct (allowed d); lra.
  - destruct Hcase as [Heq Ha]. rewrite Heq in IH. rewrite Ha in Hpay. specialize (IH Hsound Hm). lra.
  - destruct Hcase as [Heq Ha]. rewrite Heq in IH. rewrite Ha in Hpay. specialize (IH Logic.I Hm). cbn [available] in IH. lra.
Qed.

(** In a window the counted steps are at most the capacity, the refill, and one
    less than the capacity per refund. *)
Lemma throttle_bound x xs s : I s -> Forall V (x :: xs) -> sound_bucket (bucket s) (dt_us (time_of x)) ->
  monotone (dt_us (time_of x)) (time_of <$> xs) ->
  counted (fst (steps s (x :: xs))) <=
    cap + (cap - 1) * refunds (fst (steps s (x :: xs))) +
    (total_seconds (last_time (dt_us (time_of x)) (time_of <$> xs)) - total_seconds (dt_us (time_of x))) * rate.
Proof.
  intros Hi Hv Hb Hm. pose proof (throttle_paid (x :: xs) s (dt_us (time_of x)) Hi Hv Hb) as H.
  cbn [fmap list_fmap monotone] in H. specialize (H (conj (Z.le_refl _) Hm)).
  pose proof (available_bounds _ _ Hb). cbn [last_time List.fold_left] in H.
  fold (last_time (dt_us (time_of x)) (time_of <$> xs)) in H. lra.
Qed.
End Throttle.
