(* ===== verification/Idempotency.v ===== *)
(** * Idempotency keys

    [src/app/services/idempotency.py], [repositories/idempotency_repository.py]
    and [services/idempotency_cleanup.py]: the memoised responses of mutating
    requests.  The hash of a payload (SHA-256 of its canonical JSON) is a
    parameter; [execute] is any program, so that it covers both the command that
    is memoised and whatever other requests commit while it runs. *)

From S2P Require Import Prelude Decimal Datetime Json Errors Tables Store CoreSchema Samples.

#[local] Open Scope string_scope.
#[local] Open Scope list_scope.
#[local] Open Scope Z_scope.

Definition RECORD_TTL : Z := 24 * HOUR.

(** The constraints of [IdempotencyKey]. *)
Definition same_key (user_id : uuid) (key : string) (r : IdempotencyRow) : bool :=
  (ik_user_id r =? user_id) && String.eqb (ik_key r) key.
Definition key_violation (i : uuid) (r : IdempotencyRow) (d : db) : option string :=
  first_violation
    [(is_none (idempotency_keys d !! i), "pk_idempotency_keys");
     (count_where (fun _ x => same_key (ik_user_id r) (ik_key r) x) (idempotency_keys d) =? 0,
        "uq_idempotency_keys_user_id_key");
     (is_some (users d !! ik_user_id r), "fk_idempotency_keys_user_id_users")].

Section Idempotency.
  Context {P Payload : Type} (hash_payload : Payload -> string).

(** [IdempotencyRepository.get]: [scalar_one_or_none] *)
Definition get_record (user_id : uuid) (key : string) : M P (option IdempotencyRow) :=
  do rows <- query (fun d => select_where (fun _ r => same_key user_id key r) (idempotency_keys d));
  match rows with
  | [] => ret None
  | [(_, r)] => ret (Some r)
  | _ => raise (RuntimeError "MultipleResultsFound")
  end.

(** [create] *)
Definition create_record (user_id : uuid) (key endpoint request_hash : string) (response_snapshot : json)
    (now expires_at : datetime) : M P unit :=
  do i <- uuid4;
  let r := mkIdempotency user_id key endpoint request_hash response_snapshot now expires_at in
  insert_checked (key_violation i r) (fun d => set_idempotency_keys (<[i := r]> (idempotency_keys d)) d).

(** [delete] *)
Definition delete_record (user_id : uuid) (key : string) : M P unit :=
  execute (fun d => set_idempotency_keys
    (delete_where (fun _ r => same_key user_id key r) (idempotency_keys d)) d).

(** [delete_expired] *)
Definition is_expired (now : datetime) (r : IdempotencyRow) : bool := dt_us (ik_expires_at r) <? dt_us now.
Definition delete_expired (now : datetime) : M P Z :=
  do n <- query (fun d => count_where (fun _ r => is_expired now r) (idempotency_keys d));
  do_ execute (fun d => set_idempotency_keys (delete_where (fun _ r => is_expired now r) (idempotency_keys d)) d);
  ret n.

(** [IdempotencyCleanupScheduler.run_once], in its own session. *)
Definition cleanup_run_once : M P Z := fun w =>
  let '(r, w') :=
    try_except (do now <- clock; do n <- delete_expired now; do_ commit; ret n) (fun _ => ret 0)
      (with_pending (durable w) w) in
  (r, with_pending (durable w') w').

Definition live (now : datetime) (r : IdempotencyRow) : bool := dt_us now <? dt_us (ik_expires_at r).

(** [IdempotencyManager.run] *)
Definition run (user_id : uuid) (key endpoint : string) (payload : Payload) (now : datetime)
    (exec : M P json) : M P json :=
  let request_hash := hash_payload payload in
  let store_after :=
    do snapshot <- exec;
    try_except
      (do_ create_record user_id key endpoint request_hash snapshot now (dt_add now RECORD_TTL);
       do_ commit;
       ret snapshot)
      (fun e =>
         match e with
         | IntegrityError _ =>
             do_ rollback;
             do winner <- get_record user_id key;
             match winner with
             | Some r =>
                 if live now r && String.eqb (ik_request_hash r) request_hash then ret (ik_response_snapshot r)
                 else raise IdempotencyConflictError
             | None => raise IdempotencyConflictError
             end
         | _ => raise e
         end) in
  do existing <- get_record user_id key;
  match existing with
  | Some r =>
      if live now r then
        if negb (String.eqb (ik_request_hash r) request_hash) then raise IdempotencyConflictError
        else ret (ik_response_snapshot r)
      else do_ delete_record user_id key; store_after
  | None => store_after
  end.

(** ** Lemmas *)

Lemma get_record_run u k (w : world P) r w' : get_record u k w = (r, w') -> w' = w.
Proof. unfold get_record. run_session. destruct (select_where _ _) as [|[i x] [|]]; by intros [= _ <-]. Qed.

(** A single record under the key, with this content. *)
Definition holds (u : uuid) (k : string) (r : IdempotencyRow) (d : db) : Prop :=
  exists i, select_where (fun _ r => same_key u k r) (idempotency_keys d) = [(i, r)].

Lemma get_record_holds u k r (w w' : world P) : get_record u k w = (Ok (Some r), w') <-> w' = w /\ holds u k r (pending w).
Proof.
  unfold get_record, holds. run_session. destruct (select_where _ _) as [|[i x] [|]]; split.
  all: try (intros [= <- <-]; split; [done|by eexists]).
  all: try (intros [-> [j [= <- <-]]]; done). all: try done. all: by intros [_ [j [=]]].
Qed.

Lemma create_record_cases u k ep h s now ex (w w' : world P) r : create_record u k ep h s now ex w = (r, w') ->
  match r with
  | Ok _ => holds u k (mkIdempotency u k ep h s now ex) (pending w')
  | Raise e => exists c, e = IntegrityError c
  end /\ durable w' = durable w.
Proof.
  unfold create_record. run_session. unfold id. set (x := mkIdempotency _ _ _ _ _ _ _).
  destruct (key_violation _ x _) as [c|] eqn:Hv; intros [= <- <-]; (split; [|done]); [by eexists|].
  unfold key_violation in Hv. apply first_violation_none in Hv. rewrite !Forall_cons in Hv. cbn [fst] in Hv.
  destruct Hv as (_ & Hu & _). apply Z.eqb_eq in Hu. rewrite count_zero in Hu. exists (next_id w). cbn.
  apply select_single.
  - by rewrite lookup_insert_eq.
  - unfold same_key, x. cbn. by rewrite Z.eqb_refl, String.eqb_refl.
  - intros j b Hj Hb. apply lookup_insert_Some in Hj as [[-> _]|[_ Hj]]; [done|]. specialize (Hu j b Hj). cbn in Hu. congruence.
Qed.

(** Once a record is live, [run] is a lookup. *)
Lemma run_live u k ep p now exec r (w : world P) : holds u k r (pending w) -> live now r = true ->
  run u k ep p now exec w =
    (if String.eqb (ik_request_hash r) (hash_payload p) then Ok (ik_response_snapshot r)
     else Raise IdempotencyConflictError, w).
Proof.
  intros Hr Hl. unfold run. unfold bind at 1. rewrite (proj2 (get_record_holds u k r w w) (conj eq_refl Hr)), Hl.
  by destruct (String.eqb (ik_request_hash r) (hash_payload p)).
Qed.

(** A result of [run] is memoised. *)
Lemma run_Ok u k ep p now exec snap (w w' : world P) : pending w = durable w ->
  run u k ep p now exec w = (Ok snap, w') ->
  pending w' = durable w' /\ exists r, holds u k r (pending w') /\ live now r = true /\
    ik_request_hash r = hash_payload p /\ ik_response_snapshot r = snap.
Proof.
  intros Hclean. unfold run. set (store := bind exec _).
  assert (Hstore : forall w0, store w0 = (Ok snap, w') -> pending w' = durable w' /\
    exists r, holds u k r (pending w') /\ live now r = true /\ ik_request_hash r = hash_payload p /\
      ik_response_snapshot r = snap).
  { intros w0. unfold store, bind at 1. destruct (exec w0) as [[s|e] w1]; [|done]. unfold try_except, bind at 1.
    destruct (create_record _ _ _ _ _ _ _ w1) as [[u0|e] w2] eqn:Hc; destruct (create_record_cases _ _ _ _ _ _ _ _ _ _ Hc) as [Hcase _].
    - unfold bind, commit, modify, ret. intros [= <- <-]. split; [done|]. eexists. split; [exact Hcase|].
      split; [|done]. unfold live. cbn. apply Z.ltb_lt. unfold RECORD_TTL, HOUR, MINUTE, SECOND. lia.
    - destruct Hcase as [c ->]. unfold bind, rollback, modify.
      destruct (get_record u k _) as [[[r|]|e] w3] eqn:Hg; [| |done]; [|done].
      apply get_record_holds in Hg as [-> Hr]. destruct (live now r && _) eqn:Hb; [|done].
      apply andb_true_iff in Hb as [Hl Hh%String.eqb_eq]. intros [= <- <-]. split; [done|]. by exists r. }
  unfold bind at 1. destruct (get_record u k w) as [[[r|]|e] w1] eqn:Hg; [| |done].
  - apply get_record_holds in Hg as [-> Hr]. destruct (live now r) eqn:Hl.
    + destruct (String.eqb_spec (ik_request_hash r) (hash_payload p)) as [Hh|]; [|done]. intros [= <- <-].
      split; [done|]. by exists r.
    + unfold bind at 1, delete_record, execute, modify. apply Hstore.
  - pose proof (get_record_run _ _ _ _ _ Hg) as ->. apply Hstore.
Qed.

Lemma delete_keeps u k r d now : holds u k r d -> is_expired now r = false ->
  holds u k r (set_idempotency_keys (delete_where (fun _ x => is_expired now x) (idempotency_keys d)) d).
Proof.
  intros [i Hi] Hl. exists i. cbn.
  assert (Hin : forall j b, (j, b) ∈ select_where (fun _ r => same_key u k r) (idempotency_keys d) <-> j = i /\ b = r).
  { intros j b. rewrite Hi, list_elem_of_singleton. split; [by intros [= -> ->]|by intros [-> ->]]. }
  pose proof (proj2 (Hin i r) (conj eq_refl eq_refl)) as Hir. apply elem_of_select in Hir as [Hir Hk].
  apply select_single; [by apply lookup_delete_where|done|].
  intros j b [Hj _]%lookup_delete_where Hb. by apply (Hin j b), elem_of_select.
Qed.

End Idempotency.

(** A key is answered once: after a request was answered, any request with
    the same key before the record expires gets the stored answer when its
    payload hashes the same and a conflict otherwise, without executing
    anything or changing the state, also when the cleanup ran in between. *)
Theorem idempotent_replay {P Payload} (hash_payload : Payload -> string) (user : uuid) (key endpoint : string)
    (p : Payload) (now : datetime) (exec : M P json) (snapshot : json) (w w1 : world P) (Hclean : pending w = durable w)
    (Hrun : run hash_payload user key endpoint p now exec w = (Ok snapshot, w1)) :
  exists r, holds user key r (pending w1) /\ dt_us now < dt_us (ik_expires_at r) /\
    forall (p' : Payload) (endpoint' : string) (now' : datetime) (exec' : M P json) (cleanup : bool),
    dt_us now' < dt_us (ik_expires_at r) -> (cleanup = true -> dt_us (app_now w1) <= dt_us now') ->
    let w2 := if cleanup then snd (cleanup_run_once w1) else w1 in
    run hash_payload user key endpoint' p' now' exec' w2 =
      (if String.eqb (hash_payload p) (hash_payload p') then Ok snapshot else Raise IdempotencyConflictError, w2).
Proof.
  destruct (run_Ok hash_payload user key endpoint p now exec snapshot w w1 Hclean Hrun) as (Hc & r & Hr & Hl & Hh & Hs).
  unfold live in Hl. apply Z.ltb_lt in Hl. exists r. split; [done|]. split; [done|].
  intros p' ep' now' exec' cleanup Hnow Hcl w2. rewrite (run_live hash_payload user key ep' p' now' exec' r w2).
  - by rewrite Hh, Hs.
  - unfold w2. destruct cleanup; [|done]. specialize (Hcl eq_refl).
    unfold cleanup_run_once, try_except, delete_expired. run_session. cbn [snd with_pending pending durable app_now].
    apply (delete_keeps user key r (durable w1)); [by rewrite <-Hc|]. unfold is_expired. apply Z.ltb_ge. lia.
  - unfold live. by apply Z.ltb_lt.
Qed.

Lemma idempotent_replay_witness :
  let w := world_of sample_db in
  let run1 := run id 7 "key" "/intents" "payload" sample_time (ret (JStr "first") : M unit json) in
  exists w1, run1 w = (Ok (JStr "first"), w1) /\ size (idempotency_keys (durable w1)) = 1%nat /\
    forall exec', run id 7 "key" "/intents" "payload" (dt_add sample_time HOUR) exec' w1 = (Ok (JStr "first"), w1) /\
      run id 7 "key" "/intents" "other" (dt_add sample_time HOUR) exec' w1 = (Raise IdempotencyConflictError, w1).
Proof.
  intros w run1. exists (snd (run1 w)).
  assert (H : run1 w = (Ok (JStr "first"), snd (run1 w))) by (vm_compute; reflexivity).
  split; [exact H|]. split; [vm_compute; reflexivity|].
  assert (Hex : forall r, holds 7 "key" r (pending (snd (run1 w))) -> dt_us (dt_add sample_time HOUR) < dt_us (ik_expires_at r)).
  { intros r [i Hi]. assert (E : select_where (fun _ r => same_key 7 "key" r) (idempotency_keys (pending (snd (run1 w)))) =
      [(100, mkIdempotency 7 "key" "/intents" "payload" (JStr "first") sample_time (dt_add sample_time RECORD_TTL))])
      by (vm_compute; reflexivity).
    rewrite E in Hi. injection Hi as _ <-. vm_compute. reflexivity. }
  intros exec'. destruct (idempotent_replay id 7 "key" "/intents" "payload" sample_time _ (JStr "first") w _ eq_refl H)
    as (r & Hr & _ & Hreplay).
  split; [exact (Hreplay "payload" "/intents" _ exec' false (Hex r Hr) ltac:(discriminate))
         |exact (Hreplay "other" "/intents" _ exec' false (Hex r Hr) ltac:(discriminate))].
Defined.
