(* ===== verification/Notifications.v ===== *)
(** * Notifications

    [src/app/repositories/notification_repository.py] and
    [commands/notification.py]: the inbox of an owner, read in pages, and
    marking a notification as read. *)

From S2P Require Import Prelude Decimal Datetime Errors Tables Store Pagination Samples.

#[local] Open Scope string_scope.
#[local] Open Scope list_scope.
#[local] Open Scope Z_scope.

(** [NotificationData] *)
Record NotificationData : Type := mkNotificationData {
  nd_id : uuid;
  nd_owner_user_id : uuid;
  nd_type : string;
  nd_rendered_title : string;
  nd_rendered_body : string;
  nd_created_at : datetime;
  nd_updated_at : datetime;
  nd_trade_intent_id : option uuid;
  nd_read_at : option datetime;
}.

(** [_to_domain] *)
Definition to_notification (i : uuid) (r : NotificationRow) : NotificationData :=
  mkNotificationData i (n_owner_user_id r) (n_type r) (n_rendered_title r) (n_rendered_body r)
    (n_created_at r) (n_updated_at r)
    (match n_trade_intent_id r with Some t => Some t | None => n_trade_intent_core_id r end) (n_read_at r).

(** [ORDER BY created_at DESC, id ASC] *)
Definition newer (a b : uuid * NotificationRow) : bool :=
  (dt_us (n_created_at (snd b)) <? dt_us (n_created_at (snd a))) ||
  ((dt_us (n_created_at (snd b)) =? dt_us (n_created_at (snd a))) && (fst a <? fst b)).

Definition same_row {A} (a b : uuid * A) : Prop := fst a = fst b -> a = b.

#[export] Instance newer_order : RowOrder newer same_row.
Proof.
  split.
  - intros [i a]. unfold newer. cbn. by rewrite !Z.ltb_irrefl, andb_false_r.
  - intros [i a] [j b] [k c]. unfold newer. cbn. rewrite !orb_true_iff, !andb_true_iff, !Z.ltb_lt, !Z.eqb_eq. lia.
  - intros [i a] [j b] Hv. unfold same_row in Hv. cbn in Hv.
    destruct (decide (i = j)) as [->|Hij]; [left; by apply Hv|right].
    unfold newer. cbn. rewrite !orb_true_iff, !andb_true_iff, !Z.ltb_lt, !Z.eqb_eq. lia.
Qed.

Section Repository.
  Context {P : Type}.

(** The rows of the query before the cursor's condition. *)
Definition in_inbox (owner : uuid) (unread_only : bool) (_ : uuid) (r : NotificationRow) : bool :=
  (n_owner_user_id r =? owner) && (negb unread_only || is_none (n_read_at r)).

(** [list_by_owner]; the cursor is a parsed UUID. *)
Definition list_by_owner (owner : uuid) (unread_only : bool) (cursor : option uuid) (page_size : nat)
  : M P (list NotificationData * option uuid) :=
  do table <- query notifications;
  do anchor <-
    (match cursor with
     | None => ret None
     | Some c =>
         match table !! c with
         | Some r => if n_owner_user_id r =? owner then ret (Some (c, r)) else raise (InvalidCursorError c)
         | None => raise (InvalidCursorError c)
         end
     end);
  let '(page, next) := page_after newer fst page_size (select_where (in_inbox owner unread_only) table) anchor in
  ret ((fun x => to_notification (fst x) (snd x)) <$> page, next).

(** [mark_read]; the row is refreshed after the UPDATE. *)
Definition mark_read (notification_id owner : uuid) : M P NotificationData :=
  do found <- query (fun d => notifications d !! notification_id);
  match found with
  | None => raise (NotificationNotFoundError notification_id)
  | Some r =>
      if negb (n_owner_user_id r =? owner) then raise (NotificationNotFoundError notification_id)
      else if is_none (n_read_at r) then
        do now <- sql_now;
        do_ execute (fun d => set_notifications
              (update_where (fun (k : uuid) x => (k =? notification_id) && (n_owner_user_id x =? owner) && is_none (n_read_at x))
                 (notification_read now) (notifications d)) d);
        do refreshed <- query (fun d => notifications d !! notification_id);
        ret (to_notification notification_id (default r refreshed))
      else ret (to_notification notification_id r)
  end.

(** [MarkNotificationReadCommand.execute] *)
Definition mark_read_command (notification_id owner : uuid) : M P NotificationData :=
  transaction (do n <- mark_read notification_id owner; do_ commit; ret n).

End Repository.

(** The table after marking [i]. *)
Definition marked (i : uuid) (now : datetime) (t : gmap uuid NotificationRow) : gmap uuid NotificationRow :=
  alter (fun r => if is_none (n_read_at r) then notification_read now r else r) i t.

Definition resting {P} (d : db) (w : world P) : world P :=
  mkWorld d d (provider w) (next_id w) (outbox w) (app_now w) (db_now w).

Lemma set_notifications_same d : set_notifications (notifications d) d = d.
Proof. by destruct d. Qed.

Lemma mark_read_run {P} i o (w : world P) : pending w = durable w ->
  mark_read_command i o w =
    match notifications (durable w) !! i with
    | Some r =>
        if n_owner_user_id r =? o then
          (Ok (to_notification i (if is_none (n_read_at r) then notification_read (db_now w) r else r)),
           resting (set_notifications (marked i (db_now w) (notifications (durable w))) (durable w)) w)
        else (Raise (NotificationNotFoundError i), w)
    | None => (Raise (NotificationNotFoundError i), w)
    end.
Proof.
  intros Hc. unfold mark_read_command, transaction, try_except, mark_read. run_session. rewrite Hc.
  assert (Hw : with_pending (durable w) w = w) by (destruct w; cbn in *; by subst).
  destruct (notifications (durable w) !! i) as [r|] eqn:Hi; [|by rewrite Hw].
  destruct (Z.eqb_spec (n_owner_user_id r) o) as [Ho|Ho]; cbn [negb]; [|by rewrite Hw].
  destruct (is_none (n_read_at r)) eqn:Hr.
  - cbn [pending with_pending notifications set_notifications]. rewrite lookup_update, !Hc, Hi. cbn [fmap option_fmap option_map].
    rewrite Z.eqb_refl, (proj2 (Z.eqb_eq _ _) Ho), Hr. cbn [andb default from_option id].
    unfold commit, modify. f_equal. unfold resting, with_pending. cbn.
    assert (Ht : update_where (fun (k : uuid) x => (k =? i) && (n_owner_user_id x =? o) && is_none (n_read_at x))
      (notification_read (db_now w)) (notifications (durable w)) = marked i (db_now w) (notifications (durable w))).
    { apply map_eq. intros k. unfold marked. rewrite lookup_update. destruct (decide (i = k)) as [<-|Hk].
      - rewrite lookup_alter_eq, Hi. cbn. by rewrite Z.eqb_refl, (proj2 (Z.eqb_eq _ _) Ho), Hr.
      - rewrite lookup_alter_ne by done. rewrite (proj2 (Z.eqb_neq k i)) by congruence.
        by destruct (notifications (durable w) !! k). }
    by rewrite Ht.
  - unfold commit, modify. f_equal. unfold resting.
    assert (Ht : marked i (db_now w) (notifications (durable w)) = notifications (durable w)).
    { unfold marked. apply map_eq. intros k. destruct (decide (i = k)) as [<-|Hk]; [|by rewrite lookup_alter_ne].
      rewrite lookup_alter_eq, Hi. cbn. by rewrite Hr. }
    by rewrite Ht, set_notifications_same, Hc.
Qed.

(** Marking as read on every branch: only the owner can do it (anybody else
    is told the notification does not exist); the first call stamps the read
    time and touches that row only; repeating it at any later time returns the
    same state and changes nothing, not even the update time. *)
Theorem mark_read_outcomes {P} (i o : uuid) (w w' : world P) (r : res NotificationData)
    (Hclean : pending w = durable w) (Hrun : mark_read_command i o w = (r, w')) :
  pending w' = durable w' /\ outbox w' = outbox w /\
  match r with
  | Raise e => e = NotificationNotFoundError i /\ w' = w /\
      forall row, notifications (durable w) !! i = Some row -> n_owner_user_id row <> o
  | Ok x => exists row, notifications (durable w) !! i = Some row /\ n_owner_user_id row = o /\
      nd_id x = i /\ nd_read_at x = Some (default (db_now w) (n_read_at row)) /\
      (is_some (n_read_at row) = true -> w' = w) /\
      (forall j, j <> i -> notifications (durable w') !! j = notifications (durable w) !! j) /\
      forall later, let w2 := mkWorld (durable w') (pending w') (provider w') (next_id w') (outbox w') (app_now w') later in
        mark_read_command i o w2 = (Ok x, w2)
  end.
Proof.
  rewrite (mark_read_run i o w Hclean) in Hrun.
  destruct (notifications (durable w) !! i) as [row|] eqn:Hi; [|injection Hrun as <- <-; done].
  destruct (Z.eqb_spec (n_owner_user_id row) o) as [Ho|Ho]; injection Hrun as <- <-.
  2: { split; [done|]. split; [done|]. split; [done|]. split; [done|]. by intros ? [= <-]. }
  split; [done|]. split; [done|]. exists row. split; [done|]. split; [done|]. split; [done|].
  set (now := db_now w). set (row' := if is_none (n_read_at row) then notification_read now row else row).
  assert (Hrow : marked i now (notifications (durable w)) !! i = Some row').
  { unfold marked. by rewrite lookup_alter_eq, Hi. }
  assert (Hread : n_read_at row' = Some (default now (n_read_at row))) by (unfold row'; by destruct (n_read_at row) eqn:E).
  split; [exact Hread|]. split; [|split].
  - intros Hr. unfold resting. assert (Ht : marked i now (notifications (durable w)) = notifications (durable w)).
    { unfold marked. apply map_eq. intros k. destruct (decide (i = k)) as [<-|Hk]; [|by rewrite lookup_alter_ne].
      rewrite lookup_alter_eq, Hi. cbn. unfold is_none. by rewrite Hr. }
    rewrite Ht, set_notifications_same. destruct w. cbn in *. by subst.
  - intros j Hj. cbn. unfold marked. by rewrite lookup_alter_ne by congruence.
  - intros later w2. rewrite (mark_read_run i o w2) by done. unfold w2. cbn [durable resting notifications set_notifications db_now].
    fold now. rewrite Hrow. assert (Ho' : n_owner_user_id row' = o) by (unfold row'; by destruct (is_none _)).
    rewrite Ho', Z.eqb_refl. unfold is_none at 1. rewrite Hread. cbn [is_some negb]. f_equal.
    assert (Ht : marked i later (marked i now (notifications (durable w))) = marked i now (notifications (durable w))).
    { unfold marked at 1. apply map_eq. intros k. destruct (decide (i = k)) as [<-|Hk]; [|by rewrite lookup_alter_ne].
      rewrite lookup_alter_eq, Hrow. cbn. unfold is_none. by rewrite Hread. }
    rewrite Ht. done.
Qed.

(** ** Reading the inbox while marking it *)

Definition marked_all (ids : list uuid) (now : datetime) (t : gmap uuid NotificationRow) : gmap uuid NotificationRow :=
  update_where (fun (k : uuid) r => bool_decide (k ∈ ids) && is_none (n_read_at r)) (notification_read now) t.

Lemma marked_all_cons i ids now t : marked_all ids now (marked i now t) = marked_all (i :: ids) now t.
Proof.
  apply map_eq. intros k. unfold marked_all, marked. rewrite !lookup_update.
  destruct (decide (i = k)) as [<-|Hk].
  - rewrite lookup_alter_eq. destruct (t !! i) as [r|]; [|done]. cbn. rewrite (bool_decide_true (i ∈ i :: ids)) by left. cbn.
    destruct (is_none (n_read_at r)) eqn:Hr; [cbn; by rewrite andb_false_r|]. by rewrite Hr, andb_false_r.
  - rewrite lookup_alter_ne by done. destruct (t !! k) as [r|]; [|done]. cbn. do 2 f_equal.
    rewrite (bool_decide_ext (k ∈ i :: ids) (k ∈ ids)); [done|]. set_solver.
Qed.

Lemma marked_all_nil now t : marked_all [] now t = t.
Proof. apply update_none. done. Qed.

Lemma marked_all_app l1 l2 now t : marked_all l2 now (marked_all l1 now t) = marked_all (l1 ++ l2) now t.
Proof.
  revert t. induction l1 as [|i l1 IH]; intros t; [by rewrite marked_all_nil|].
  cbn [app]. by rewrite <-!marked_all_cons, IH.
Qed.

Lemma marked_all_unread ids now t k r : marked_all ids now t !! k = Some r /\ is_none (n_read_at r) = true <->
  t !! k = Some r /\ is_none (n_read_at r) = true /\ k ∉ ids.
Proof.
  unfold marked_all. rewrite lookup_update_Some. split.
  - intros [(a & Ha & ->) Hr]. case_bool_decide as Hk; cbn in *; [|done].
    destruct (is_none (n_read_at a)) eqn:Hn; [done|congruence].
  - intros (Hk & Hr & Hn). split; [|done]. exists r. by rewrite bool_decide_false.
Qed.

Lemma elem_of_take_list {A} n (l : list A) x : x ∈ take n l -> x ∈ l.
Proof. intros Hx. rewrite <-(take_drop n l). set_solver. Qed.

Section Drain.
  Context {P : Type} (owner : uuid) (page_size : nat).

(** A client that follows the cursors of its unread notifications and marks
    what it reads. *)
Definition mark_page (page : list NotificationData) : M P unit :=
  for_each page (fun x => do_ mark_read_command (nd_id x) owner; ret tt).

Fixpoint drain (fuel : nat) (cursor : option uuid) : M P (list NotificationData) :=
  match fuel with
  | O => ret []
  | S fuel' =>
      do answer <- list_by_owner owner true cursor page_size;
      do_ mark_page (fst answer);
      match snd answer with
      | None => ret (fst answer)
      | Some c => do rest <- drain fuel' (Some c); ret (fst answer ++ rest)
      end
  end.

Definition shown (x : uuid * NotificationRow) : NotificationData := to_notification (fst x) (snd x).

Lemma mark_page_run (w : world P) (page : list (uuid * NotificationRow)) : pending w = durable w ->
  (forall x, x ∈ page -> exists r, notifications (durable w) !! fst x = Some r /\ n_owner_user_id r = owner) ->
  mark_page (shown <$> page) w =
    (Ok tt, resting (set_notifications (marked_all page.*1 (db_now w) (notifications (durable w))) (durable w)) w).
Proof.
  revert w. induction page as [|x page IH]; intros w Hc Hin; cbn [fmap list_fmap].
  { rewrite marked_all_nil, set_notifications_same. unfold mark_page, for_each, ret, resting. destruct w; cbn in *; by subst. }
  unfold mark_page. cbn [for_each]. fold (mark_page (shown <$> page)). unfold bind at 1 2.
  rewrite (mark_read_run _ _ w Hc). cbn [nd_id shown to_notification].
  destruct (Hin x ltac:(left)) as (r & Hr & Ho). rewrite Hr, Ho, Z.eqb_refl. unfold ret at 1.
  rewrite IH.
  - cbn [durable resting notifications set_notifications db_now]. rewrite marked_all_cons. done.
  - done.
  - intros y Hy. cbn [durable resting notifications set_notifications]. destruct (Hin y ltac:(by right)) as (ry & Hry & Hoy).
    unfold marked. destruct (decide (fst x = fst y)) as [He|He].
    + rewrite <-He, lookup_alter_eq, Hr. eexists. split; [done|]. by destruct (is_none _).
    + rewrite lookup_alter_ne by done. by exists ry.
Qed.

(** [rest] is what a listing after [anchor] has to show. *)
Definition pending_rows (t : gmap uuid NotificationRow) (anchor : option (uuid * NotificationRow))
    (rest : list (uuid * NotificationRow)) : Prop :=
  ordered newer rest /\ NoDup rest /\
  forall x, x ∈ rest <-> t !! fst x = Some (snd x) /\ in_inbox owner true (fst x) (snd x) = true /\
    match anchor with Some a => newer a x = true | None => True end.

Lemma pending_listed t anchor rest : pending_rows t anchor rest ->
  order_by newer (match anchor with
                  | Some a => List.filter (newer a) (select_where (in_inbox owner true) t)
                  | None => select_where (in_inbox owner true) t
                  end) = rest.
Proof.
  intros (Hord & Hnd & Hrest). set (rows := match anchor with Some a => _ | None => _ end).
  assert (Hin : forall x, x ∈ rows <-> x ∈ rest).
  { intros [k r]. rewrite Hrest. unfold rows. destruct anchor as [a|]; cbn [fst snd];
      rewrite ?list_elem_of_In, ?filter_In, <-?list_elem_of_In, elem_of_select; naive_solver. }
  assert (Hdist : distinct_rows (valid := same_row) rows).
  { assert (Hs : distinct_rows (valid := same_row) (select_where (in_inbox owner true) t)).
    { split; [apply (NoDup_fmap_1 fst), select_NoDup|]. intros [i a] [j b] Ha Hb He. cbn in He. subst.
      apply elem_of_select in Ha as [Ha _], Hb as [Hb _]. congruence. }
    unfold rows. destruct anchor; [by apply distinct_filter|done]. }
  apply (ordered_unique newer fst (valid := same_row)); [by apply (order_by_ordered newer fst)|done|].
  rewrite order_by_perm. apply NoDup_Permutation; [apply Hdist|done|exact Hin].
Qed.

(** After the first [n] rows are read, the rest is pending from the last of them. *)
Lemma pending_next t anchor rest n l1 x now : pending_rows t anchor rest -> take n rest = l1 ++ [x] ->
  let t' := marked_all (take n rest).*1 now t in
  exists r', t' !! fst x = Some r' /\ n_owner_user_id r' = owner /\ pending_rows t' (Some (fst x, r')) (drop n rest).
Proof.
  intros (Hord & Hnd & Hrest) Htake t'.
  assert (Hsplit : rest = l1 ++ x :: drop n rest) by (rewrite <-(take_drop n rest) at 1; rewrite Htake, <-app_assoc; done).
  assert (Hx : x ∈ rest) by (rewrite Hsplit; set_solver).
  apply Hrest in Hx as (Hxt & Hxi & Hxa). unfold in_inbox in Hxi. apply andb_true_iff in Hxi as [Hxo%Z.eqb_eq Hxu].
  assert (Hxr : t' !! fst x = Some (notification_read now (snd x))).
  { unfold t', marked_all. rewrite lookup_update, Hxt. cbn. rewrite bool_decide_true; [|rewrite Htake, fmap_app; set_solver].
    cbn in Hxu. by rewrite Hxu. }
  exists (notification_read now (snd x)). split; [done|]. split; [done|].
  pose proof Hord as Hcut. rewrite Hsplit in Hcut. apply (ordered_split newer fst (valid := same_row)) in Hcut as [Hord' Hafter].
  rewrite <-Hsplit in Hafter. split; [done|]. split.
  { rewrite <-(take_drop n rest) in Hnd. by apply NoDup_app in Hnd as (_ & _ & ?). }
  intros [k r]. cbn [fst snd].
  assert (Hnew : newer (fst x, notification_read now (snd x)) (k, r) = newer x (k, r)) by by destruct x.
  rewrite Hnew. unfold in_inbox. cbn [negb orb]. rewrite andb_true_iff. split.
  - intros Hin. assert (Hr : (k, r) ∈ rest) by (rewrite Hsplit; set_solver).
    pose proof Hr as (Ht & Hi & _)%Hrest. cbn in Ht. unfold in_inbox in Hi. apply andb_true_iff in Hi as [Ho Hu].
    cbn in Hu. assert (Hk : k ∉ (take n rest).*1).
    { intros Hk. apply list_elem_of_fmap in Hk as ([k2 r2] & Hk2 & Hin2). cbn in Hk2. subst k2.
      assert (Hr2 : (k, r2) ∈ rest) by (by apply (elem_of_take_list n)).
      apply Hrest in Hr2 as (Ht2 & _). cbn in Ht2. rewrite Ht in Ht2. injection Ht2 as <-.
      rewrite <-(take_drop n rest) in Hnd. apply NoDup_app in Hnd as (_ & Hdis & _). by apply (Hdis (k, r)). }
    destruct (proj2 (marked_all_unread (take n rest).*1 now t k r)) as [H1 _]; [done|].
    split; [done|]. split; [done|]. by apply Hafter.
  - intros (Ht' & [Ho Hu] & Hn). destruct (proj1 (marked_all_unread (take n rest).*1 now t k r)) as (Ht & _ & Hk); [done|].
    apply Hafter; [|done]. apply Hrest. cbn. split; [done|]. unfold in_inbox. rewrite Ho. cbn. split; [done|].
    destruct anchor as [a|]; [|done]. by apply (after_trans (after := newer) a x).
Qed.

Lemma drain_run fuel : (0 < page_size)%nat -> forall cursor anchor rest (w : world P), pending w = durable w ->
  match cursor, anchor with
  | None, None => True
  | Some c, Some a => fst a = c /\ notifications (durable w) !! c = Some (snd a) /\ n_owner_user_id (snd a) = owner
  | _, _ => False
  end ->
  pending_rows (notifications (durable w)) anchor rest -> (length rest < fuel)%nat ->
  drain fuel cursor w = (Ok (shown <$> rest),
    resting (set_notifications (marked_all rest.*1 (db_now w) (notifications (durable w))) (durable w)) w).
Proof.
  intros Hsize. induction fuel as [|fuel IH]; intros cursor anchor rest w Hc Hanchor Hrest Hlen; [lia|].
  set (t := notifications (durable w)) in *. set (now := db_now w).
  assert (Hlist : list_by_owner owner true cursor page_size w =
    (let '(page, next) := cut_page fst page_size rest in Ok (shown <$> page, next), w)).
  { unfold list_by_owner. run_session. rewrite Hc. fold t. rewrite <-(pending_listed t anchor rest Hrest) at 1.
    destruct cursor as [c|], anchor as [[k r]|]; try done; cbn in Hanchor.
    destruct Hanchor as (-> & Hk & Ho). fold t in Hk. rewrite Hk, Ho, Z.eqb_refl. unfold page_after. by destruct (cut_page _ _ _). }
  cbn [drain]. unfold bind at 1. rewrite Hlist.
  destruct (cut_page_spec fst page_size rest Hsize) as (page & next & Hcut & Hpage & Hnext). rewrite Hcut. cbn [fst snd].
  unfold bind at 1. rewrite mark_page_run; [|done|].
  2: { intros x Hx. subst page. apply elem_of_take_list, Hrest in Hx as (Hx & Hi & _). exists (snd x). split; [done|].
       unfold in_inbox in Hi. by apply andb_true_iff in Hi as [?%Z.eqb_eq _]. }
  fold t now. set (t' := marked_all page.*1 now t). set (w1 := resting (set_notifications t' (durable w)) w).
  destruct Hnext as [[-> Hdrop]|(l1 & x & Hl1 & -> & Hdrop)].
  - pose proof (take_drop page_size rest) as Hpr. rewrite Hdrop, app_nil_r, <-Hpage in Hpr.
    unfold ret. unfold w1, t'. by rewrite Hpr.
  - assert (Htake : take page_size rest = l1 ++ [x]) by congruence.
    destruct (pending_next t anchor rest page_size l1 x now Hrest Htake) as (r' & Hr' & Ho' & Hrest'). rewrite <-Hpage in Hr', Hrest'.
    unfold bind. rewrite (IH (Some (fst x)) (Some (fst x, r')) (drop page_size rest) w1); cbn [fst snd].
    + unfold ret. rewrite <-fmap_app. rewrite Hpage, take_drop. f_equal.
      unfold w1. cbn [durable resting notifications set_notifications db_now]. unfold t'. fold now.
      rewrite marked_all_app, <-fmap_app, Hpage, take_drop. done.
    + done.
    + done.
    + done.
    + rewrite length_drop. assert (rest <> []) by (intros ->; by destruct page_size). destruct rest; [done|]. cbn in *. lia.
Qed.

End Drain.

(** C32. An inbox can be read while it is marked: following the cursors of the
    unread notifications and marking each page as read before asking for the
    next one shows every unread notification of the owner exactly once, newest
    first, and afterwards none is unread; no other row has changed. *)
Theorem inbox_drains {P} (owner : uuid) (page_size fuel : nat) (w : world P) (Hclean : pending w = durable w)
    (Hsize : (0 < page_size)%nat)
    (Hfuel : count_where (in_inbox owner true) (notifications (durable w)) < Z.of_nat fuel) :
  exists rows w', drain owner page_size fuel None w = (Ok (shown <$> rows), w') /\
    ordered newer rows /\ NoDup rows.*1 /\
    (forall i r, (i, r) ∈ rows <-> notifications (durable w) !! i = Some r /\ n_owner_user_id r = owner /\ n_read_at r = None) /\
    count_where (in_inbox owner true) (notifications (durable w')) = 0 /\
    forall i r, notifications (durable w) !! i = Some r -> (i, r) ∉ rows -> notifications (durable w') !! i = Some r.
Proof.
  set (t := notifications (durable w)) in *. set (sel := select_where (in_inbox owner true) t).
  assert (Hdist : distinct_rows (valid := same_row) sel).
  { split; [apply (NoDup_fmap_1 fst), select_NoDup|]. intros [i a] [j b] Ha Hb He. cbn in He. subst.
    apply elem_of_select in Ha as [Ha _], Hb as [Hb _]. congruence. }
  set (rows := order_by newer sel).
  assert (Hin : forall i r, (i, r) ∈ rows <-> t !! i = Some r /\ in_inbox owner true i r = true).
  { intros i r. unfold rows. rewrite order_by_perm. apply elem_of_select. }
  assert (Hnd : NoDup rows.*1) by (unfold rows; rewrite (order_by_perm newer sel); apply select_NoDup).
  assert (Hrest : pending_rows owner t None rows).
  { split; [by apply (order_by_ordered newer fst)|]. split; [by apply (NoDup_fmap_1 fst)|].
    intros [i r]. cbn. rewrite Hin. naive_solver. }
  exists rows. eexists. split.
  { apply (drain_run owner page_size fuel Hsize None None rows w Hclean I Hrest). unfold rows. rewrite order_by_perm.
    unfold count_where in Hfuel. fold sel in Hfuel. lia. }
  cbn [durable resting notifications set_notifications]. fold t.
  assert (Hunread : forall i r, in_inbox owner true i r = true <-> n_owner_user_id r = owner /\ n_read_at r = None).
  { intros i r. unfold in_inbox. cbn. rewrite andb_true_iff, Z.eqb_eq. destruct (n_read_at r); cbn; naive_solver. }
  split; [by apply (order_by_ordered newer fst)|]. split; [done|]. split; [|split].
  - intros i r. by rewrite Hin, Hunread.
  - apply count_zero. intros i r Hr. apply not_true_iff_false. intros Hi. pose proof Hi as [Ho Hn]%Hunread.
    destruct (proj1 (marked_all_unread rows.*1 (db_now w) t i r)) as (Ht & _ & Hni); [by rewrite Hn|].
    apply Hni. apply list_elem_of_fmap. exists (i, r). split; [done|]. by apply Hin.
  - intros i r Hr Hni. unfold marked_all. apply lookup_update_Some. exists r. split; [done|].
    case_bool_decide as Hk; [|done]. exfalso. apply list_elem_of_fmap in Hk as ([j r'] & Hj & Hk). cbn in Hj. subst j.
    apply Hni. pose proof Hk as [Hr' _]%Hin. rewrite Hr in Hr'. by injection Hr' as <-.
Qed.

(** ** Witnesses *)

Definition sample_notification (at_us : Z) (read : option datetime) : NotificationRow :=
  mkNotification 7 None (Some 1) "price_triggered" "title" "body" read (DT at_us (Some 0)) (DT at_us (Some 0)).
Definition inbox_db : db :=
  set_notifications {[1 := sample_notification 5 None; 2 := sample_notification 9 None;
    3 := sample_notification 7 (Some sample_time); 4 := sample_notification 5 None]} sample_db.

Lemma mark_read_outcomes_witness :
  let w := world_of inbox_db in
  exists x w', mark_read_command 2 7 w = (Ok x, w') /\ nd_read_at x = Some sample_time /\
    notifications (durable w') !! (1 : uuid) = notifications (durable w) !! (1 : uuid).
Proof.
  intros w. set (y := mark_read_command 2 7 w). assert (H : exists x, y = (Ok x, snd y)) by (vm_compute; by eexists).
  destruct H as (x & Hy). exists x, (snd y). split; [exact Hy|].
  destruct (mark_read_outcomes 2 7 w (snd y) (Ok x) eq_refl Hy) as (_ & _ & row & Hrow & _ & _ & Hread & _ & Hother & _).
  vm_compute in Hrow. injection Hrow as <-. split; [exact Hread|]. apply Hother. discriminate.
Defined.

Lemma inbox_drains_witness :
  let w := world_of inbox_db in
  exists rows w', drain 7 2 4 None w = (Ok (shown <$> rows), w') /\ rmap (fmap nd_id) (fst (drain 7 2 4 None w)) = Ok [2; 1; 4] /\
    count_where (in_inbox 7 true) (notifications (durable w')) = 0.
Proof.
  intros w. destruct (inbox_drains 7 2 4 w eq_refl ltac:(lia) ltac:(vm_compute; reflexivity)) as (rows & w' & Hrun & _ & _ & _ & H0 & _).
  exists rows, w'. split; [exact Hrun|]. split; [vm_compute; reflexivity|exact H0].
Defined.
