(* ===== verification/AuthRepos.v ===== *)
(** * Accounts and sessions in the database

    [src/app/repositories/user_repository.py], [refresh_token_repository.py],
    [invitation_repository.py], [password_reset_repository.py], the constraints
    of [db/models/auth.py] and [domain/auth.py].  Addresses are byte strings:
    [citext] and [str.lower] are modelled on ASCII. *)

From S2P Require Import Prelude Decimal Datetime Json Errors Price Tables Store CoreSchema.

#[local] Open Scope string_scope.
#[local] Open Scope list_scope.
#[local] Open Scope Z_scope.

(** [str.lower] and [normalize_email] *)
Definition lower (s : string) : string := unchars (List.map lower_char (chars s)).
Definition normalize_email (email : string) : string := lower (unchars (strip (chars email))).

(** [citext] equality *)
Definition same_email (a b : string) : bool := String.eqb (lower a) (lower b).

(** Normalising twice is normalising once. *)
Lemma lower_char_idem c : lower_char (lower_char c) = lower_char c.
Proof. by destruct c as [[] [] [] [] [] [] [] []]. Qed.
Lemma is_space_lower c : is_space (lower_char c) = is_space c.
Proof. by destruct c as [[] [] [] [] [] [] [] []]. Qed.

Lemma lower_lower s : lower (lower s) = lower s.
Proof.
  unfold lower. rewrite chars_unchars, List.map_map. f_equal. apply List.map_ext, lower_char_idem.
Qed.

Lemma lstrip_lower l : lstrip (List.map lower_char l) = List.map lower_char (lstrip l).
Proof. induction l as [|c l IH]; [done|]. cbn. rewrite is_space_lower. by destruct (is_space c). Qed.
Lemma strip_lower l : strip (List.map lower_char l) = List.map lower_char (strip l).
Proof. unfold strip. by rewrite lstrip_lower, <-List.map_rev, lstrip_lower, List.map_rev. Qed.

Definition no_leading_space (l : list ascii) : Prop := match l with c :: _ => is_space c = false | [] => True end.
Lemma lstrip_no_leading l : no_leading_space (lstrip l).
Proof. induction l as [|c l IH]; [done|]. cbn. by destruct (is_space c) eqn:Hc. Qed.
Lemma lstrip_id l : no_leading_space l -> lstrip l = l.
Proof. destruct l as [|c l]; [done|]. cbn. by intros ->. Qed.
Lemma lstrip_suffix l : exists p, l = p ++ lstrip l.
Proof.
  induction l as [|c l [p IH]]; [by exists []|]. cbn. destruct (is_space c); [|by exists []].
  exists (c :: p). by rewrite IH at 1.
Qed.

Lemma strip_strip l : strip (strip l) = strip l.
Proof.
  unfold strip at 1. assert (Hl : no_leading_space (strip l)).
  { unfold strip. pose proof (lstrip_no_leading l) as Ht. set (t := lstrip l) in *.
    destruct (lstrip_suffix (rev t)) as [p Hp]. apply (f_equal (@rev ascii)) in Hp.
    rewrite rev_involutive, rev_app_distr in Hp. rewrite Hp in Ht. by destruct (rev (lstrip (rev t))). }
  rewrite (lstrip_id _ Hl). unfold strip. rewrite rev_involutive.
  by rewrite (lstrip_id _ (lstrip_no_leading (rev (lstrip l)))).
Qed.

Lemma normalize_idem email : normalize_email (normalize_email email) = normalize_email email.
Proof.
  unfold normalize_email at 1. unfold normalize_email, lower. rewrite !chars_unchars, strip_lower, strip_strip, List.map_map.
  f_equal. apply List.map_ext, lower_char_idem.
Qed.

(** ** Rows as the domain sees them *)

(** [UserData] *)
Record UserData : Type := mkUserData {
  us_id : uuid;
  us_email : string;
  us_role : string;
  us_status : string;
  us_mfa_enabled : bool;
  us_password_hash : option string;
  us_created_at : datetime;
  us_updated_at : datetime;
}.

Definition to_user (i : uuid) (r : UserRow) : UserData :=
  mkUserData i (u_email r) (u_role r) (u_status r) (u_mfa_enabled r) (u_password_hash r) (u_created_at r) (u_updated_at r).

(** ** Constraints *)

(** [User] *)
Definition user_violation (i : uuid) (r : UserRow) (d : db) : option string :=
  first_violation
    [(str_in (u_role r) ["user"; "admin"], "role");
     (str_in (u_status r) ["invited"; "active"; "disabled"], "status");
     (is_none (users d !! i), "pk_users");
     (count_where (fun _ x => same_email (u_email x) (u_email r)) (users d) =? 0, "uq_users_email")].

(** [Invitation]: one live invitation per user *)
Definition is_live_invitation (r : InvitationRow) : bool := is_none (inv_consumed_at r) && is_none (inv_revoked_at r).
Definition invitation_violation (i : uuid) (r : InvitationRow) (d : db) : option string :=
  first_violation
    [(is_none (invitations d !! i), "pk_invitations");
     (count_where (fun _ x => String.eqb (inv_token_hash x) (inv_token_hash r)) (invitations d) =? 0,
        "uq_invitations_token_hash");
     (negb (is_live_invitation r) ||
      (count_where (fun _ x => (inv_user_id x =? inv_user_id r) && is_live_invitation x) (invitations d) =? 0),
        "uq_invitations_active_per_user");
     (is_some (users d !! inv_user_id r), "fk_invitations_user_id_users");
     (is_some (users d !! inv_created_by_admin_id r), "fk_invitations_created_by_admin_id_users")].

(** [PasswordReset] *)
Definition reset_violation (i : uuid) (r : PasswordResetRow) (d : db) : option string :=
  first_violation
    [(is_none (password_resets d !! i), "pk_password_resets");
     (count_where (fun _ x => String.eqb (pr_token_hash x) (pr_token_hash r)) (password_resets d) =? 0,
        "uq_password_resets_token_hash");
     (is_some (users d !! pr_user_id r), "fk_password_resets_user_id_users")].

(** [RefreshToken] *)
Definition token_violation (i : uuid) (r : RefreshTokenRow) (d : db) : option string :=
  first_violation
    [(is_none (refresh_tokens d !! i), "pk_refresh_tokens");
     (count_where (fun _ x => String.eqb (rt_token_hash x) (rt_token_hash r)) (refresh_tokens d) =? 0,
        "uq_refresh_tokens_token_hash");
     (is_some (users d !! rt_user_id r), "fk_refresh_tokens_user_id_users");
     (match rt_parent_token_id r with Some p => is_some (refresh_tokens d !! p) | None => true end,
        "fk_refresh_tokens_parent_token_id_refresh_tokens")].

Section Repositories.
  Context {P : Type}.

(** [scalar_one_or_none] *)
Definition one_or_none {A} (rows : list (uuid * A)) : M P (option (uuid * A)) :=
  match rows with
  | [] => ret None
  | [x] => ret (Some x)
  | _ => raise (RuntimeError "MultipleResultsFound")
  end.

(** ** [UserRepository] *)

Definition get_user (user_id : uuid) : M P (option UserData) :=
  query (fun d => to_user user_id <$> users d !! user_id).

Definition get_by_email (email : string) : M P (option UserData) :=
  do rows <- query (fun d => select_where (fun _ r => same_email (u_email r) (normalize_email email)) (users d));
  do found <- one_or_none rows;
  ret ((fun x => to_user (fst x) (snd x)) <$> found).

Definition insert_user (r : UserRow) : M P uuid :=
  do i <- uuid4;
  do_ insert_checked (user_violation i r) (fun d => set_users (<[i := r]> (users d)) d);
  ret i.

Definition create_invited (email role : string) : M P uuid :=
  do now <- sql_now;
  insert_user (mkUser (normalize_email email) None role "invited" false None None now now).

Definition create_active (email role password_hash : string) : M P uuid :=
  do now <- sql_now;
  insert_user (mkUser (normalize_email email) (Some password_hash) role "active" false None None now now).

Definition update_user (user_id : uuid) (f : UserRow -> UserRow) : M P unit :=
  execute (fun d => set_users (update_where (fun (i : uuid) _ => i =? user_id) f (users d)) d).

Definition disable (user_id : uuid) (now : datetime) : M P unit :=
  update_user user_id (fun r => user_set (u_password_hash r) "disabled" (Some now) now r).
Definition reactivate (user_id : uuid) (now : datetime) : M P unit :=
  update_user user_id (fun r => user_set (u_password_hash r) "active" None now r).
Definition set_password (user_id : uuid) (password_hash : string) (now : datetime) : M P unit :=
  update_user user_id (fun r => user_set (Some password_hash) (u_status r) (u_disabled_at r) now r).
Definition activate (user_id : uuid) (password_hash : string) (now : datetime) : M P unit :=
  update_user user_id (fun r => user_set (Some password_hash) "active" (u_disabled_at r) now r).
Definition get_mfa_secret_encrypted (user_id : uuid) : M P (option string) :=
  query (fun d => users d !! user_id ≫= u_mfa_secret_encrypted).
Definition set_mfa_secret (user_id : uuid) (encrypted_secret : string) (now : datetime) : M P unit :=
  update_user user_id (fun r => user_set_mfa (u_mfa_enabled r) (Some encrypted_secret) now r).
Definition enable_mfa (user_id : uuid) (now : datetime) : M P unit :=
  update_user user_id (fun r => user_set_mfa true (u_mfa_secret_encrypted r) now r).

(** ** [RefreshTokenRepository] *)

Definition create_token (user_id : uuid) (token_hash : string) (expires_at : datetime)
    (parent_token_id : option uuid) (mfa_verified : bool) : M P uuid :=
  do i <- uuid4;
  do now <- sql_now;
  let r := mkRefreshToken user_id token_hash parent_token_id now expires_at None None mfa_verified in
  do_ insert_checked (token_violation i r) (fun d => set_refresh_tokens (<[i := r]> (refresh_tokens d)) d);
  ret i.

Definition update_tokens (p : uuid -> RefreshTokenRow -> bool) (f : RefreshTokenRow -> RefreshTokenRow) : M P unit :=
  execute (fun d => set_refresh_tokens (update_where p f (refresh_tokens d)) d).

Definition mark_mfa_verified (token_id : uuid) : M P unit := update_tokens (fun i _ => i =? token_id) token_mfa.

Definition find_token (token_hash : string) : M P (option (uuid * RefreshTokenRow)) :=
  do rows <- query (fun d => select_where (fun _ r => String.eqb (rt_token_hash r) token_hash) (refresh_tokens d));
  one_or_none rows.

Definition get_token (token_id : uuid) : M P (option RefreshTokenRow) :=
  query (fun d => refresh_tokens d !! token_id).

Definition revoke (token_id : uuid) (reason : string) (now : datetime) : M P unit :=
  update_tokens (fun i r => (i =? token_id) && is_none (rt_revoked_at r)) (token_revoke now reason).

Definition revoke_all_active_for_user (user_id : uuid) (reason : string) (now : datetime) : M P Z :=
  let p := fun (_ : uuid) r => (rt_user_id r =? user_id) && is_none (rt_revoked_at r) in
  do n <- query (fun d => count_where p (refresh_tokens d));
  do_ update_tokens p (token_revoke now reason);
  ret n.

(** ** [InvitationRepository] *)

Definition create_invitation (user_id : uuid) (token_hash : string) (expires_at : datetime)
    (created_by_admin_id : uuid) : M P uuid :=
  do i <- uuid4;
  let r := mkInvitation user_id token_hash expires_at None None created_by_admin_id in
  do_ insert_checked (invitation_violation i r) (fun d => set_invitations (<[i := r]> (invitations d)) d);
  ret i.

Definition find_invitation (token_hash : string) : M P (option (uuid * InvitationRow)) :=
  do rows <- query (fun d => select_where (fun _ r => String.eqb (inv_token_hash r) token_hash) (invitations d));
  one_or_none rows.

Definition update_invitations (p : uuid -> InvitationRow -> bool) (f : InvitationRow -> InvitationRow) : M P unit :=
  execute (fun d => set_invitations (update_where p f (invitations d)) d).
Definition consume_invitation (invitation_id : uuid) (now : datetime) : M P unit :=
  update_invitations (fun i r => (i =? invitation_id) && is_none (inv_consumed_at r))
    (fun r => invitation_set (Some now) (inv_revoked_at r) r).
Definition revoke_active_invitation (user_id : uuid) (now : datetime) : M P unit :=
  update_invitations (fun _ r => (inv_user_id r =? user_id) && is_live_invitation r)
    (fun r => invitation_set (inv_consumed_at r) (Some now) r).

(** ** [PasswordResetRepository] *)

Definition create_reset (user_id : uuid) (token_hash : string) (expires_at : datetime) : M P uuid :=
  do i <- uuid4;
  let r := mkPasswordReset user_id token_hash expires_at None in
  do_ insert_checked (reset_violation i r) (fun d => set_password_resets (<[i := r]> (password_resets d)) d);
  ret i.

Definition find_reset (token_hash : string) : M P (option (uuid * PasswordResetRow)) :=
  do rows <- query (fun d => select_where (fun _ r => String.eqb (pr_token_hash r) token_hash) (password_resets d));
  one_or_none rows.

Definition consume_reset (reset_id : uuid) (now : datetime) : M P unit :=
  execute (fun d => set_password_resets (update_where
    (fun (i : uuid) r => (i =? reset_id) && is_none (pr_consumed_at r)) (reset_consume now) (password_resets d)) d).

End Repositories.

(** ** What the schema guarantees *)

(** The unique indexes on the tokens and the rule that a revoked token keeps
    its reason. *)
Record auth_ok (d : db) : Prop := {
  email_unique : forall i j a b, users d !! i = Some a -> users d !! j = Some b -> same_email (u_email a) (u_email b) = true -> i = j;
  token_unique : forall i j a b, refresh_tokens d !! i = Some a -> refresh_tokens d !! j = Some b ->
    rt_token_hash a = rt_token_hash b -> i = j;
  invitation_unique : forall i j a b, invitations d !! i = Some a -> invitations d !! j = Some b ->
    inv_token_hash a = inv_token_hash b -> i = j;
  live_invitation_unique : forall i j a b, invitations d !! i = Some a -> invitations d !! j = Some b ->
    is_live_invitation a = true -> is_live_invitation b = true -> inv_user_id a = inv_user_id b -> i = j;
  reset_unique : forall i j a b, password_resets d !! i = Some a -> password_resets d !! j = Some b ->
    pr_token_hash a = pr_token_hash b -> i = j;
}.

Lemma auth_ok_frame d d' : users d' = users d -> refresh_tokens d' = refresh_tokens d ->
  invitations d' = invitations d -> password_resets d' = password_resets d -> auth_ok d -> auth_ok d'.
Proof. intros Hu Ht Hi Hp []. split; rewrite ?Hu, ?Ht, ?Hi, ?Hp; assumption. Qed.

(** ** Reading under the unique indexes *)

Definition user_by_email (email : string) (d : db) : option UserData :=
  (fun x => to_user (fst x) (snd x)) <$>
  one_of (select_where (fun (_ : uuid) r => same_email (u_email r) (normalize_email email)) (users d)).
Definition token_by_hash (h : string) (d : db) : option (uuid * RefreshTokenRow) :=
  one_of (select_where (fun (_ : uuid) r => String.eqb (rt_token_hash r) h) (refresh_tokens d)).
Definition invitation_by_hash (h : string) (d : db) : option (uuid * InvitationRow) :=
  one_of (select_where (fun (_ : uuid) r => String.eqb (inv_token_hash r) h) (invitations d)).
Definition reset_by_hash (h : string) (d : db) : option (uuid * PasswordResetRow) :=
  one_of (select_where (fun (_ : uuid) r => String.eqb (pr_token_hash r) h) (password_resets d)).

Lemma same_email_trans a b c : same_email a c = true -> same_email b c = true -> same_email a b = true.
Proof. unfold same_email. rewrite !String.eqb_eq. congruence. Qed.

Lemma one_email d email : auth_ok d ->
  at_most_one (fun (_ : uuid) r => same_email (u_email r) (normalize_email email)) (users d).
Proof. intros Hok i j a b Ha Hb Hea Heb. apply (email_unique d Hok i j a b Ha Hb). by eapply same_email_trans. Qed.
Lemma one_token d h : auth_ok d -> at_most_one (fun (_ : uuid) r => String.eqb (rt_token_hash r) h) (refresh_tokens d).
Proof. intros Hok i j a b Ha Hb H1 H2. b2p. apply (token_unique d Hok i j a b Ha Hb). congruence. Qed.
Lemma one_invitation d h : auth_ok d -> at_most_one (fun (_ : uuid) r => String.eqb (inv_token_hash r) h) (invitations d).
Proof. intros Hok i j a b Ha Hb H1 H2. b2p. apply (invitation_unique d Hok i j a b Ha Hb). congruence. Qed.
Lemma one_reset d h : auth_ok d -> at_most_one (fun (_ : uuid) r => String.eqb (pr_token_hash r) h) (password_resets d).
Proof. intros Hok i j a b Ha Hb H1 H2. b2p. apply (reset_unique d Hok i j a b Ha Hb). congruence. Qed.

Section Reads.
  Context {P : Type}.
  Implicit Types w : world P.

Lemma one_or_none_run {A} (rows : list (uuid * A)) w : (length rows <= 1)%nat ->
  one_or_none rows w = (Ok (one_of rows), w).
Proof. destruct rows as [|x [|]]; cbn; [done..|lia]. Qed.

Lemma get_by_email_run email w : auth_ok (pending w) ->
  get_by_email email w = (Ok (user_by_email email (pending w)), w).
Proof.
  intros Hok. unfold get_by_email, bind at 1. unfold query, gets. unfold bind.
  by rewrite one_or_none_run by apply select_short, one_email, Hok.
Qed.
Lemma find_token_run h w : auth_ok (pending w) -> find_token h w = (Ok (token_by_hash h (pending w)), w).
Proof.
  intros Hok. unfold find_token, bind, query, gets. by rewrite one_or_none_run by apply select_short, one_token, Hok.
Qed.
Lemma find_invitation_run h w : auth_ok (pending w) -> find_invitation h w = (Ok (invitation_by_hash h (pending w)), w).
Proof.
  intros Hok. unfold find_invitation, bind, query, gets.
  by rewrite one_or_none_run by apply select_short, one_invitation, Hok.
Qed.
Lemma find_reset_run h w : auth_ok (pending w) -> find_reset h w = (Ok (reset_by_hash h (pending w)), w).
Proof.
  intros Hok. unfold find_reset, bind, query, gets. by rewrite one_or_none_run by apply select_short, one_reset, Hok.
Qed.
End Reads.

Lemma user_by_email_Some d email u : auth_ok d -> user_by_email email d = Some u <->
  exists r, users d !! us_id u = Some r /\ same_email (u_email r) (normalize_email email) = true /\ u = to_user (us_id u) r.
Proof.
  intros Hok. unfold user_by_email. rewrite fmap_Some. split.
  - intros ([i r] & Ho & ->). apply one_of_Some in Ho as [Hi He]; [|by apply one_email]. by exists r.
  - intros (r & Hr & He & Hu). exists (us_id u, r). split; [|done]. apply one_of_Some; [by apply one_email|done].
Qed.
Lemma token_by_hash_Some d h i r : auth_ok d -> token_by_hash h d = Some (i, r) <->
  refresh_tokens d !! i = Some r /\ rt_token_hash r = h.
Proof. intros Hok. unfold token_by_hash. rewrite one_of_Some by by apply one_token. by rewrite String.eqb_eq. Qed.
Lemma invitation_by_hash_Some d h i r : auth_ok d -> invitation_by_hash h d = Some (i, r) <->
  invitations d !! i = Some r /\ inv_token_hash r = h.
Proof. intros Hok. unfold invitation_by_hash. rewrite one_of_Some by by apply one_invitation. by rewrite String.eqb_eq. Qed.
Lemma reset_by_hash_Some d h i r : auth_ok d -> reset_by_hash h d = Some (i, r) <->
  password_resets d !! i = Some r /\ pr_token_hash r = h.
Proof. intros Hok. unfold reset_by_hash. rewrite one_of_Some by by apply one_reset. by rewrite String.eqb_eq. Qed.

(** ** Every statement keeps the indexes *)

(** A value no row has cannot clash. *)
Lemma count_fresh {A} (p : uuid -> A -> bool) m j b : (count_where p m =? 0) = true -> m !! j = Some b -> p j b = false.
Proof. intros Hc. apply Z.eqb_eq in Hc. by apply (proj1 (count_zero p m)). Qed.

Ltac violated H :=
  let Hf := fresh in
  pose proof (proj1 (first_violation_none _) H) as Hf; rewrite !Forall_cons in Hf; cbn [fst] in Hf; clear H; rename Hf into H.

Lemma fresh_index {A} (i : uuid) (r : A) (m : gmap uuid A) (R : A -> A -> bool) :
  (forall x y, R x y = R y x) ->
  (forall j k a b, m !! j = Some a -> m !! k = Some b -> R a b = true -> j = k) ->
  (forall j b, m !! j = Some b -> R b r = false) ->
  forall j k a b, <[i := r]> m !! j = Some a -> <[i := r]> m !! k = Some b -> R a b = true -> j = k.
Proof.
  intros Hsym Hu Hf j k a b. rewrite !lookup_insert_Some. intros [[<- <-]|[Hj Ha]] [[<- <-]|[Hk Hb]]; try done.
  - rewrite Hsym, (Hf k b Hb). done.
  - by rewrite (Hf j a Ha).
  - by apply Hu.
Qed.

Lemma same_email_sym a b : same_email a b = same_email b a.
Proof. apply String.eqb_sym. Qed.

Lemma insert_user_ok d i r : auth_ok d -> user_violation i r d = None -> auth_ok (set_users (<[i := r]> (users d)) d).
Proof.
  intros [H1 H2 H3 H4 H5] Hv. violated Hv. destruct Hv as (_ & _ & _ & Hc & _).
  split; cbn; try assumption. apply (fresh_index i r _ (fun a b => same_email (u_email a) (u_email b))).
  - intros. apply same_email_sym.
  - exact H1.
  - intros j b Hb. exact (count_fresh _ _ j b Hc Hb).
Qed.

Lemma insert_token_ok d i r : auth_ok d -> token_violation i r d = None ->
  auth_ok (set_refresh_tokens (<[i := r]> (refresh_tokens d)) d).
Proof.
  intros [H1 H2 H3 H4 H5] Hv. violated Hv. destruct Hv as (_ & Hc & _).
  split; cbn; try assumption. intros j k a b Hj Hk Hab.
  apply (fresh_index i r (refresh_tokens d) (fun a b => String.eqb (rt_token_hash a) (rt_token_hash b))) with (a := a) (b := b);
    try done; [intros; apply String.eqb_sym|intros; b2p; by eapply H2| |by apply String.eqb_eq].
  intros l c Hl. exact (count_fresh _ _ l c Hc Hl).
Qed.

Lemma insert_reset_ok d i r : auth_ok d -> reset_violation i r d = None ->
  auth_ok (set_password_resets (<[i := r]> (password_resets d)) d).
Proof.
  intros [H1 H2 H3 H4 H5] Hv. violated Hv. destruct Hv as (_ & Hc & _).
  split; cbn; try assumption. intros j k a b Hj Hk Hab.
  apply (fresh_index i r (password_resets d) (fun a b => String.eqb (pr_token_hash a) (pr_token_hash b))) with (a := a) (b := b);
    try done; [intros; apply String.eqb_sym|intros; b2p; by eapply H5| |by apply String.eqb_eq].
  intros l c Hl. exact (count_fresh _ _ l c Hc Hl).
Qed.

Lemma insert_invitation_ok d i r : auth_ok d -> invitation_violation i r d = None ->
  auth_ok (set_invitations (<[i := r]> (invitations d)) d).
Proof.
  intros [H1 H2 H3 H4 H5] Hv. violated Hv. destruct Hv as (_ & Hc & Hl & _).
  split; cbn; try assumption.
  - intros j k a b Hj Hk Hab.
    apply (fresh_index i r (invitations d) (fun a b => String.eqb (inv_token_hash a) (inv_token_hash b))) with (a := a) (b := b);
      try done; [intros; apply String.eqb_sym|intros; b2p; by eapply H3| |by apply String.eqb_eq].
    intros l c Hlk. exact (count_fresh _ _ l c Hc Hlk).
  - intros j k a b Hj Hk Ha Hb Hab.
    apply (fresh_index i r (invitations d)
      (fun a b => is_live_invitation a && is_live_invitation b && (inv_user_id a =? inv_user_id b))) with (a := a) (b := b); try done.
    + intros x y. rewrite (Z.eqb_sym (inv_user_id x)), (andb_comm (is_live_invitation x)). done.
    + intros ? ? x y Hx Hy Hxy. b2p. by eapply (H4 _ _ x y).
    + intros l c Hlk. destruct (is_live_invitation r) eqn:Hr; [|by rewrite andb_false_r].
      rewrite andb_true_r, andb_comm. apply orb_true_iff in Hl as [|Hl]; [done|]. exact (count_fresh _ _ l c Hl Hlk).
    + by rewrite Ha, Hb, Hab, Z.eqb_refl.
Qed.

Lemma update_tokens_ok d p f : auth_ok d -> (forall r, rt_token_hash (f r) = rt_token_hash r) ->
  auth_ok (set_refresh_tokens (update_where p f (refresh_tokens d)) d).
Proof.
  intros [H1 H2 H3 H4 H5] Hf. split; cbn; try assumption.
  intros i j ? ? (a & Ha & ->)%lookup_update_Some (b & Hb & ->)%lookup_update_Some Hab.
  apply (H2 i j a b Ha Hb). revert Hab. by destruct (p i a), (p j b); rewrite ?Hf.
Qed.

Lemma update_users_ok d p f : auth_ok d -> (forall r, u_email (f r) = u_email r) ->
  auth_ok (set_users (update_where p f (users d)) d).
Proof.
  intros [H1 H2 H3 H4 H5] Hf. split; cbn; try assumption.
  intros i j ? ? (a & Ha & ->)%lookup_update_Some (b & Hb & ->)%lookup_update_Some Hab.
  apply (H1 i j a b Ha Hb). revert Hab. by destruct (p i a), (p j b); rewrite ?Hf.
Qed.

Lemma update_resets_ok d p f : auth_ok d -> (forall r, pr_token_hash (f r) = pr_token_hash r) ->
  auth_ok (set_password_resets (update_where p f (password_resets d)) d).
Proof.
  intros [H1 H2 H3 H4 H5] Hf. split; cbn; try assumption.
  intros i j ? ? (a & Ha & ->)%lookup_update_Some (b & Hb & ->)%lookup_update_Some Hab.
  apply (H5 i j a b Ha Hb). revert Hab. by destruct (p i a), (p j b); rewrite ?Hf.
Qed.

(** An update that can only close invitations. *)
Lemma update_invitations_ok d p f : auth_ok d ->
  (forall r, inv_token_hash (f r) = inv_token_hash r /\ inv_user_id (f r) = inv_user_id r) ->
  (forall r, is_live_invitation (f r) = true -> is_live_invitation r = true) ->
  auth_ok (set_invitations (update_where p f (invitations d)) d).
Proof.
  intros [H1 H2 H3 H4 H5] Hf Hl. split; cbn; try assumption.
  - intros i j ? ? (a & Ha & ->)%lookup_update_Some (b & Hb & ->)%lookup_update_Some Hab.
    apply (H3 i j a b Ha Hb). revert Hab. destruct (p i a), (p j b); by rewrite ?(proj1 (Hf _)).
  - intros i j ? ? (a & Ha & ->)%lookup_update_Some (b & Hb & ->)%lookup_update_Some Hla Hlb Hab.
    apply (H4 i j a b Ha Hb); revert Hla Hlb Hab; destruct (p i a), (p j b); rewrite ?(proj2 (Hf _)); intros; auto.
Qed.

(** ** Revoking sessions *)

Definition active_of (user_id : uuid) (_ : uuid) (r : RefreshTokenRow) : bool :=
  (rt_user_id r =? user_id) && is_none (rt_revoked_at r).
Definition revoked_all (user_id : uuid) (reason : string) (now : datetime) (d : db) : db :=
  set_refresh_tokens (update_where (active_of user_id) (token_revoke now reason) (refresh_tokens d)) d.
Definition revoked_one (token_id : uuid) (reason : string) (now : datetime) (d : db) : db :=
  set_refresh_tokens (update_where (fun (i : uuid) r => (i =? token_id) && is_none (rt_revoked_at r))
                        (token_revoke now reason) (refresh_tokens d)) d.

Lemma revoke_run {P} i reason now (w : world P) :
  revoke i reason now w = (Ok tt, with_pending (revoked_one i reason now (pending w)) w).
Proof. done. Qed.
Lemma revoke_all_run {P} u reason now (w : world P) : exists n, revoke_all_active_for_user u reason now w =
  (Ok n, with_pending (revoked_all u reason now (pending w)) w).
Proof. by eexists. Qed.

Lemma revoked_one_lookup d (id : uuid) reason now (i : uuid) t : refresh_tokens d !! i = Some t ->
  refresh_tokens (revoked_one id reason now d) !! i =
    Some (if (i =? id) && is_none (rt_revoked_at t) then token_revoke now reason t else t).
Proof. intros Hi. unfold revoked_one. cbn [refresh_tokens set_refresh_tokens]. by rewrite lookup_update, Hi. Qed.

Lemma revoked_all_lookup d u reason now (i : uuid) t : refresh_tokens d !! i = Some t ->
  refresh_tokens (revoked_all u reason now d) !! i =
    Some (if active_of u i t then token_revoke now reason t else t).
Proof. intros Hi. unfold revoked_all. cbn [refresh_tokens set_refresh_tokens]. by rewrite lookup_update, Hi. Qed.

(** After revoking them all, none is live. *)
Lemma revoked_all_dead d u reason now (i : uuid) t : refresh_tokens (revoked_all u reason now d) !! i = Some t ->
  rt_user_id t = u -> is_some (rt_revoked_at t) = true.
Proof.
  unfold revoked_all. cbn [refresh_tokens set_refresh_tokens]. intros (a & _ & ->)%lookup_update_Some. unfold active_of.
  destruct (rt_revoked_at a) eqn:Hra; cbn [is_none is_some negb]; [by rewrite andb_false_r, Hra|].
  rewrite andb_true_r. destruct (rt_user_id a =? u) eqn:Hau; [done|]. b2p. done.
Qed.

Lemma revoked_one_ok d id reason now : auth_ok d -> auth_ok (revoked_one id reason now d).
Proof. intros Hok. by apply update_tokens_ok. Qed.
Lemma revoked_all_ok d u reason now : auth_ok d -> auth_ok (revoked_all u reason now d).
Proof. intros Hok. by apply update_tokens_ok. Qed.

Lemma violation_absent i r d : token_violation i r d = None -> refresh_tokens d !! i = None.
Proof. intros Hv. violated Hv. destruct Hv as (Hn & _). by destruct (refresh_tokens d !! i). Qed.
