(* ===== verification/Telegram.v ===== *)
(** * Intents from Telegram

    The drafts in the database, and the commands that make and answer them. *)

From S2P Require Import Prelude Decimal Datetime Json Errors Price Intent Tables Store CoreSchema CreateIntent AuthRepos.

#[local] Open Scope string_scope.
#[local] Open Scope list_scope.
#[local] Open Scope Z_scope.

(** ** The drafts of the Telegram workflow

    [src/app/repositories/telegram_intent_repository.py] with the constraints
    of [TelegramIntentInteraction] in [db/models/core.py]. *)

(** [status IN ('pending', 'confirming')], the condition of the partial unique
    index on the chat. *)
Definition is_open_interaction (status : string) : bool := str_in status ["pending"; "confirming"].

(** CHECKs of [TelegramIntentInteraction]. *)
Definition interaction_checks (r : InteractionRow) : list (bool * string) :=
  [(str_in (ti_kind r) ["clarification"; "draft"], "telegram_intent_interaction_kind");
   (str_in (ti_status r) ["pending"; "confirming"; "confirmed"; "cancelled"; "expired"; "superseded"],
      "telegram_intent_interaction_status");
   (str_in (ti_capability_id r) ["limit_buy"; "limit_sell"; "market_buy"; "market_sell"],
      "telegram_intent_interaction_capability");
   (str_in (ti_strategy r) ["limit_buy_order"; "limit_sell_order"; "market_buy_order"; "market_sell_order"],
      "telegram_intent_interaction_strategy");
   (0 <=? ti_clarification_attempt_count r, "telegram_intent_interaction_attempt_count")].

Definition open_in_chat (chat_id : string) (r : InteractionRow) : bool :=
  String.eqb (ti_telegram_chat_id r) chat_id && is_open_interaction (ti_status r).

Definition created_fk (r : InteractionRow) (d : db) : bool :=
  match ti_created_trade_intent_id r with Some k => is_some (cores d !! k) | None => true end.

Definition interaction_violation (i : uuid) (r : InteractionRow) (d : db) : option string :=
  first_violation (interaction_checks r ++
    [(is_none (telegram_interactions d !! i), "pk_telegram_intent_interactions");
     (negb (is_open_interaction (ti_status r)) ||
        (count_where (fun _ x => open_in_chat (ti_telegram_chat_id r) x) (telegram_interactions d) =? 0),
      "uq_telegram_intent_interactions_chat_pending");
     (is_some (users d !! ti_owner_user_id r), "fk_telegram_intent_interactions_owner_user_id_users");
     (created_fk r d, "fk_telegram_intent_interactions_created_trade_intent_id_trade_intent_core")]).

Section Repository.
  Context {P : Type}.

(** [TelegramIntentInteractionData]: the row with its id ([_to_data]). *)
Definition TelegramIntentInteractionData : Type := (uuid * InteractionRow)%type.

(** [find_pending_for_chat] *)
Definition find_pending_for_chat (chat_id : string) : M P (option TelegramIntentInteractionData) :=
  do rows <- query (fun d => select_where (fun _ r => open_in_chat chat_id r) (telegram_interactions d));
  one_or_none rows.

(** [find_by_id] *)
Definition find_interaction (interaction_id : uuid) (chat_id : option string) : M P (option TelegramIntentInteractionData) :=
  query (fun d =>
    match telegram_interactions d !! interaction_id with
    | Some r =>
        if match chat_id with Some c => String.eqb (ti_telegram_chat_id r) c | None => true end
        then Some (interaction_id, r) else None
    | None => None
    end).

Definition put_interaction (i : uuid) (r : InteractionRow) (d : db) : db :=
  set_telegram_interactions (<[i := r]> (telegram_interactions d)) d.

(** [create] *)
Definition create_interaction (owner_user_id : uuid) (chat_id kind capability_id strategy : string)
    (payload : gmap string scalar) (missing_fields : list string) (attempts : Z) (expires_at : datetime)
  : M P TelegramIntentInteractionData :=
  do i <- uuid4;
  let r := mkInteraction owner_user_id chat_id None kind capability_id strategy payload missing_fields
             attempts "pending" expires_at None None in
  do_ insert_checked (interaction_violation i r) (put_interaction i r);
  ret (i, r).

(** [UPDATE ... WHERE id = :id AND ...]: the row count, and the CHECKs and the
    foreign key of the values it writes. *)
Definition update_interaction (i : uuid) (p : InteractionRow -> bool) (f : InteractionRow -> InteractionRow) : M P Z :=
  do d <- query id;
  match telegram_interactions d !! i with
  | Some r =>
      if p r then
        do_ insert_checked (fun d => first_violation (interaction_checks (f r) ++
              [(created_fk (f r) d, "fk_telegram_intent_interactions_created_trade_intent_id_trade_intent_core")]))
            (put_interaction i (f r));
        ret 1
      else ret 0
  | None => ret 0
  end.

Definition in_chat (chat_id : option string) (r : InteractionRow) : bool :=
  match chat_id with Some c => String.eqb (ti_telegram_chat_id r) c | None => true end.
Definition status_is (status : string) (chat_id : option string) (r : InteractionRow) : bool :=
  String.eqb (ti_status r) status && in_chat chat_id r.

(** [update_pending] *)
Definition update_pending (interaction_id : uuid) (chat_id kind capability_id strategy : string)
    (payload : gmap string scalar) (missing_fields : list string) (attempts : Z) (expires_at : datetime)
  : M P (option TelegramIntentInteractionData) :=
  do rowcount <- update_interaction interaction_id (status_is "pending" (Some chat_id))
    (interaction_set_draft kind capability_id strategy payload missing_fields attempts expires_at);
  if negb (rowcount =? 1) then ret None else find_interaction interaction_id (Some chat_id).

(** [attach_bot_message_id] *)
Definition attach_bot_message_id (interaction_id : uuid) (chat_id : string) (message_id : Z) : M P bool :=
  do rowcount <- update_interaction interaction_id (in_chat (Some chat_id)) (interaction_set_message message_id);
  ret (rowcount =? 1).

(** [mark_status] *)
Definition mark_status (interaction_id : uuid) (status : string) (chat_id : option string) : M P bool :=
  do rowcount <- update_interaction interaction_id (status_is "pending" chat_id) (interaction_set_status status);
  ret (rowcount =? 1).

(** [claim_confirming] *)
Definition claim_confirming (interaction_id : uuid) (chat_id : string) : M P bool :=
  do rowcount <- update_interaction interaction_id (status_is "pending" (Some chat_id))
    (interaction_set_status "confirming");
  ret (rowcount =? 1).

(** [mark_confirmed] *)
Definition mark_confirmed (interaction_id : uuid) (chat_id : string) (confirmed_at : datetime)
    (trade_intent_id : uuid) : M P bool :=
  do rowcount <- update_interaction interaction_id (status_is "confirming" (Some chat_id))
    (interaction_confirm confirmed_at trade_intent_id);
  ret (rowcount =? 1).

End Repository.

(** ** Intents from Telegram

    [src/app/commands/telegram_intent.py] with [domain/telegram_intent.py]: the
    messages of the configured chat become drafts, and a button turns a draft
    into an intent of the new track. *)

(** *** [domain/telegram_intent.py] *)

Definition LIMIT_CAPABILITIES : list string := ["limit_buy"; "limit_sell"].
Definition MARKET_CAPABILITIES : list string := ["market_buy"; "market_sell"].
Definition CAPABILITY_TO_NOTIFY_ONLY_STRATEGY (capability : string) : option string :=
  if String.eqb capability "limit_buy" then Some "limit_buy_order"
  else if String.eqb capability "limit_sell" then Some "limit_sell_order"
  else if String.eqb capability "market_buy" then Some "market_buy_order"
  else if String.eqb capability "market_sell" then Some "market_sell_order" else None.
Definition CAPABILITY_TO_TRANSACTION_MODE (capability : string) : option string :=
  if String.eqb capability "limit_buy" then Some "single_notification"
  else if String.eqb capability "limit_sell" then Some "single_notification"
  else if String.eqb capability "market_buy" then Some "partial_fill_allowed"
  else if String.eqb capability "market_sell" then Some "partial_fill_allowed" else None.
Definition CAPABILITY_LABELS (capability : string) : option string :=
  if String.eqb capability "limit_buy" then Some "限價買進提醒"
  else if String.eqb capability "limit_sell" then Some "限價賣出提醒"
  else if String.eqb capability "market_buy" then Some "市價買進提醒"
  else if String.eqb capability "market_sell" then Some "市價賣出提醒" else None.

Inductive DecisionType : Type := Unsupported | NeedsClarification | DraftIntent | Ambiguous.

(** [TelegramIntentDecision] *)
Record TelegramIntentDecision : Type := mkDecision {
  d_decision : DecisionType;
  d_capability_id : option string;
  d_symbol : option string;
  d_quantity_lots : option Z;
  d_target_price : option dec;
  d_missing_fields : list string;
}.

(** The dictionary a draft is kept in. *)
Abbreviation draft_payload := (gmap string scalar).

(** [TelegramIntentDecider]: what the classifier makes of a message, given the
    open draft's capability and payload. *)
Definition TelegramIntentDecider : Type :=
  string -> option string -> option draft_payload -> res TelegramIntentDecision.

(** *** Replies *)

Definition INTERACTION_TTL : Z := 5 * MINUTE.
Definition LLM_FAILURE_REPLY : string := "暫時無法判斷需求，請稍後再試。".
Definition CURRENT_DRAFT_REPLY : string := "目前有一筆尚未完成的提醒，請先補充它或按「取消」後再建立新的提醒。".
Definition EXPIRED_REPLY : string := "此確認已過期，請重新輸入需求。".
Definition CANCELLED_REPLY : string := "已取消。".
Definition ALREADY_CONFIRMED_REPLY : string := "此確認已處理，提醒已建立。".
Definition CONFIRMING_REPLY : string := "此確認正在處理，請稍候。".
Definition FIELD_ERROR_REPLY : string := "欄位格式不符合規則，請重新輸入標的、張數與價格。".
Definition UNSUPPORTED_REPLY : string := "目前只支援限價買進、限價賣出、市價買進、市價賣出。".
Definition USER_PAGE_ERROR_REPLY : string := "無法建立提醒，請確認標的是可交易的台股或 ETF。".
Definition DUPLICATE_INTENT_REPLY : string := "已有相同提醒，請到使用者頁面查看或取消後再建立。".

(** An inline keyboard: rows of buttons, each a text and its callback data. *)
Definition inline_keyboard : Type := list (list (string * string)).

(** [TelegramReply] *)
Record TelegramReply : Type := mkReply {
  reply_chat_id : string;
  reply_text : string;
  reply_markup : option inline_keyboard;
  reply_interaction_id : option uuid;
  reply_bot_message_id : option Z;
}.
Definition plain_reply (chat_id text : string) : TelegramReply := mkReply chat_id text None None None.
Definition draft_reply (chat_id text : string) (i : uuid) : TelegramReply := mkReply chat_id text None (Some i) None.

Definition newline : string := String (ascii_of_nat 10) "".
(** [sep.join(lines)] *)
Definition join (sep : string) (lines : list string) : string := String.concat sep lines.

(** [payload[key]] in an f-string *)
Definition field_text (payload : draft_payload) (key : string) : res string :=
  match payload !! key with Some v => Ok (py_str v) | None => Raise (KeyError key) end.

Definition price_line (payload : draft_payload) : string :=
  match payload !! "targetPrice" with
  | Some v => "價格：" ++ py_str v ++ " 元"
  | None => "價格：市價"
  end%string.

(** The lines the confirmation and the receipt share. *)
Definition order_lines (payload : draft_payload) : res (list string) :=
  let? label := field_text payload "typeLabel" in
  let? symbol := field_text payload "symbol" in
  let? quantity := field_text payload "quantityLots" in
  Ok ["類型：" ++ label; "標的：" ++ symbol; "張數：" ++ quantity ++ " 張";
      price_line payload; "有效期間：當日有效"]%string.

(** [_confirmation_text] *)
Definition confirmation_text (payload : draft_payload) : res string :=
  let? lines := order_lines payload in
  Ok (join newline (["請確認建立提醒"] ++ lines ++ [""; "確認後會建立通知型交易意圖，不會送出券商委託。"])).

(** [_created_reply] *)
Definition created_reply (payload : draft_payload) : res string :=
  let? lines := order_lines payload in
  Ok (join newline ("已建立提醒。" :: lines)).

(** [_clarification_reply] *)
Definition clarification_reply (missing_fields : list string) : string :=
  let missing f := str_in f missing_fields in
  if missing "quantityLots" && missing "targetPrice" then "請提供張數與價格，例如：0050 1 張 180 元。"
  else if missing "quantityLots" then "請提供張數，例如：0050 1 張。"
  else if missing "targetPrice" then "請提供限價價格，例如：0050 180 元。"
  else if missing "symbol" then "請提供標的，例如：0050。"
  else "請補充標的、張數與價格。".

(** [_cancel_markup] and [_confirmation_markup] *)
Definition callback_data (action : string) (interaction_id : uuid) : string :=
  ("tg_intent:" ++ action ++ ":" ++ str_uuid interaction_id)%string.
Definition cancel_markup (interaction_id : uuid) : inline_keyboard :=
  [[("取消", callback_data "cancel" interaction_id)]].
Definition confirmation_markup (interaction_id : uuid) : inline_keyboard :=
  [[("確認建立", callback_data "confirm" interaction_id); ("取消", callback_data "cancel" interaction_id)]].

(** [_parse_callback_data] *)
Definition parse_callback_data (data : string) : option (string * uuid) :=
  match split_at ":"%char (chars data) with
  | [prefix; action; identifier] =>
      if negb (bool_decide (prefix = chars "tg_intent")) ||
         negb (str_in (unchars action) ["confirm"; "cancel"]) then None
      else (fun i => (unchars action, i)) <$> parse_uuid (unchars identifier)
  | _ => None
  end.

(** *** Payloads *)

Definition set_opt {A} (key : string) (f : A -> scalar) (o : option A) (p : draft_payload) : draft_payload :=
  match o with Some a => <[key := f a]> p | None => p end.

(** [_payload_from_decision] *)
Definition payload_from_decision (decision : TelegramIntentDecision) (capability strategy label : string)
    (previous : option draft_payload) : draft_payload :=
  let p := <["typeLabel" := SStr label]> (<["strategy" := SStr strategy]>
             (<["capabilityId" := SStr capability]> (default ∅ previous))) in
  let p := set_opt "symbol" SStr (d_symbol decision) p in
  let p := set_opt "quantityLots" SInt (d_quantity_lots decision) p in
  match d_target_price decision with
  | Some price => <["targetPrice" := SStr (unchars (str_dec price))]> p
  | None => if str_in capability MARKET_CAPABILITIES then delete "targetPrice" p else p
  end.

(** [_create_input_from_payload] *)
Definition create_input_from_payload (payload : draft_payload) (owner_user_id : uuid) : res CreateTradeIntentInput :=
  let target_price := default SNull (payload !! "targetPrice") in
  match payload !! "capabilityId" with
  | Some (SStr capability) =>
      match CAPABILITY_TO_NOTIFY_ONLY_STRATEGY capability, CAPABILITY_TO_TRANSACTION_MODE capability with
      | Some expected_strategy, Some mode =>
          match payload !! "strategy", payload !! "symbol" with
          | Some (SStr strategy), Some (SStr symbol) =>
              if negb (String.eqb strategy expected_strategy) then Raise (ValueError "invalid telegram intent payload")
              else
                match payload !! "quantityLots" with
                | Some (SInt quantity_lots) =>
                    if quantity_lots <=? 0 then Raise (ValueError "invalid telegram quantity")
                    else
                      let create price := Ok (mkCreateInput symbol expected_strategy quantity_lots owner_user_id
                                                price mode "single" None None) in
                      match target_price with
                      | SStr price =>
                          if str_in capability MARKET_CAPABILITIES
                          then Raise (ValueError "market intent cannot contain target price")
                          else create (Some price)
                      | other =>
                          if str_in capability LIMIT_CAPABILITIES
                          then Raise (ValueError "limit intent requires target price")
                          else if str_in capability MARKET_CAPABILITIES && negb (bool_decide (other = SNull))
                          then Raise (ValueError "market intent cannot contain target price")
                          else create None
                      end
                | _ => Raise (ValueError "invalid telegram quantity")
                end
          | _, _ => Raise (ValueError "invalid telegram intent payload")
          end
      | _, _ => Raise (ValueError "invalid telegram capability")
      end
  | _ => Raise (ValueError "invalid telegram capability")
  end.

(** *** [TelegramIntentCommand] *)

(** The settings the command reads. *)
Record TelegramSettings : Type := mkTelegramSettings {
  telegram_chat_id : option string;
  telegram_owner_email : string;
  telegram_webhook_secret : option string;
  telegram_bot_token : option string;
}.

(** [except (SymbolError, ValueError)]: the errors of the symbol service and of
    the price rules. *)
Definition is_symbol_or_value_error (e : exn) : bool :=
  match e with
  | UnknownSymbolError _ | SymbolNotTradableError _ _ | ValueError _ | InvalidPriceError _ _
  | InvalidTickSizeError _ _ _ _ _ | InvalidAmountError _ _ | InvalidTypeError _ _ => true
  | _ => false
  end.

(** [Decimal(str(v)) != price], with the InvalidOperation of the constructor
    counted as a difference. *)
Definition price_differs (previous : option scalar) (price : dec) : bool :=
  match decimal_of_chars (strip (chars (py_str (default SNull previous)))) with
  | Some (Finite d) => negb (dec_eqb d price)
  | _ => true
  end.

(** [_is_different_request] *)
Definition is_different_request (pending : InteractionRow) (decision : TelegramIntentDecision) : bool :=
  if negb (opt_eqb String.eqb (d_capability_id decision) (Some (ti_capability_id pending))) then true
  else if match ti_payload pending !! "symbol", d_symbol decision with
          | Some (SStr previous), Some symbol => negb (String.eqb previous symbol)
          | _, _ => false
          end then true
  else if negb (String.eqb (ti_kind pending) "draft") then false
  else
    match d_decision decision with
    | DraftIntent =>
        match d_quantity_lots decision with
        | Some q => negb (int_eq q (default SNull (ti_payload pending !! "quantityLots")))
        | None => false
        end ||
        match d_target_price decision with
        | Some price => price_differs (ti_payload pending !! "targetPrice") price
        | None => false
        end
    | _ => true
    end.

(** [_current_draft_reply] *)
Definition current_draft_reply (chat_id : string) (pending : TelegramIntentInteractionData) : res TelegramReply :=
  let '(i, r) := pending in
  let reply body markup :=
    mkReply chat_id (CURRENT_DRAFT_REPLY ++ newline ++ newline ++ body)%string (Some markup) (Some i) (ti_bot_message_id r) in
  if String.eqb (ti_kind r) "draft" then
    let? text := confirmation_text (ti_payload r) in
    Ok (reply text (confirmation_markup i))
  else Ok (reply (clarification_reply (ti_missing_fields r)) (cancel_markup i)).

Section Command.
  Context {P : Type} `{QuoteProvider P} (settings : TelegramSettings).

(** [_chat_is_allowed] *)
Definition configured_chat : string := unchars (strip (chars (default "" (telegram_chat_id settings)))).
Definition chat_is_allowed (chat_id : string) : bool :=
  negb (String.eqb configured_chat "") && String.eqb chat_id configured_chat.

(** [_resolve_owner_user_id] *)
Definition resolve_owner_user_id : M P (option uuid) :=
  do user <- get_by_email (telegram_owner_email settings);
  ret (match user with
       | Some u => if negb (String.eqb (us_status u) "active") then None else Some (us_id u)
       | None => None
       end).

(** The [try] of [_validate_decision]. *)
Definition check_tradable (capability symbol : string) (quantity_lots : Z) (target_price : option dec) : M P unit :=
  do symbol_obj <- get_tradable_symbol symbol;
  match security_type_of (sy_instrument_type symbol_obj) with
  | None => raise (ValueError (sy_instrument_type symbol_obj ++ " is not a valid SecurityType")%string)
  | Some _ =>
      match target_price with
      | Some price =>
          if str_in capability LIMIT_CAPABILITIES then
            do effective <- lift (validate (mkPriceRequest (sy_instrument_type symbol_obj)
                              (unchars (str_dec price)) (AmountInt quantity_lots)));
            ret tt
          else ret tt
      | None => ret tt
      end
  end.

(** [_validate_decision] *)
Definition validate_decision (decision : TelegramIntentDecision) : M P (option string) :=
  let capability := default "" (d_capability_id decision) in
  if is_none (CAPABILITY_TO_NOTIFY_ONLY_STRATEGY capability) then ret (Some UNSUPPORTED_REPLY)
  else
    match d_symbol decision, d_quantity_lots decision with
    | Some symbol, Some quantity_lots =>
        if negb (str_isdigit symbol) then ret (Some FIELD_ERROR_REPLY)
        else if quantity_lots <=? 0 then ret (Some FIELD_ERROR_REPLY)
        else if str_in capability LIMIT_CAPABILITIES && is_none (d_target_price decision) then ret (Some FIELD_ERROR_REPLY)
        else if str_in capability MARKET_CAPABILITIES && is_some (d_target_price decision) then ret (Some FIELD_ERROR_REPLY)
        else
          try_except (do_ check_tradable capability symbol quantity_lots (d_target_price decision); ret None)
            (fun e => if is_symbol_or_value_error e then ret (Some USER_PAGE_ERROR_REPLY) else raise e)
    | _, _ => ret (Some FIELD_ERROR_REPLY)
    end.

(** [_save_interaction] *)
Definition save_interaction (owner_user_id : uuid) (chat_id : string) (pending : option TelegramIntentInteractionData)
    (decision : TelegramIntentDecision) (capability strategy label kind : string) (missing_fields : list string)
    (now : datetime) : M P TelegramReply :=
  let payload := payload_from_decision decision capability strategy label ((fun x => ti_payload (snd x)) <$> pending) in
  let expires_at := dt_add now INTERACTION_TTL in
  let attempts := match pending with Some (_, r) => ti_clarification_attempt_count r + 1 | None => 1 end in
  do updated <-
    (match pending with
     | Some (i, _) => update_pending i chat_id kind capability strategy payload missing_fields attempts expires_at
     | None => ret None
     end);
  do interaction <-
    (match updated with
     | Some x => ret x
     | None => create_interaction owner_user_id chat_id kind capability strategy payload missing_fields attempts expires_at
     end);
  let '(i, r) := interaction in
  if String.eqb kind "clarification" then
    ret (mkReply chat_id (clarification_reply missing_fields) (Some (cancel_markup i)) (Some i) (ti_bot_message_id r))
  else
    do text <- lift (confirmation_text payload);
    ret (mkReply chat_id text (Some (confirmation_markup i)) (Some i) (ti_bot_message_id r)).

(** [handle_message] after the classification *)
Definition respond (owner_user_id : uuid) (chat_id : string) (pending : option TelegramIntentInteractionData)
    (decision : TelegramIntentDecision) (now : datetime) : M P (option TelegramReply) :=
  let current_draft :=
    match pending with Some x => do reply <- lift (current_draft_reply chat_id x); ret (Some reply) | None => ret None end in
  match d_decision decision with
  | Unsupported => ret None
  | Ambiguous => current_draft
  | kind =>
      let capability := default "" (d_capability_id decision) in
      match CAPABILITY_TO_NOTIFY_ONLY_STRATEGY capability, CAPABILITY_LABELS capability with
      | Some strategy, Some label =>
          if match pending with Some (_, r) => is_different_request r decision | None => false end then current_draft
          else
            match kind with
            | NeedsClarification =>
                do reply <- save_interaction owner_user_id chat_id pending decision capability strategy label
                              "clarification" (d_missing_fields decision) now;
                ret (Some reply)
            | _ =>
                do validation_error <- validate_decision decision;
                match validation_error with
                | Some text => ret (Some (plain_reply chat_id text))
                | None =>
                    do reply <- save_interaction owner_user_id chat_id pending decision capability strategy label "draft" [] now;
                    ret (Some reply)
                end
            end
      | _, _ => current_draft
      end
  end.

(** [handle_message] *)
Definition handle_message (decide : TelegramIntentDecider) (chat_id text : string) : M P (option TelegramReply) :=
  if negb (chat_is_allowed chat_id) then ret None
  else
    do owner <- resolve_owner_user_id;
    match owner with
    | None => ret None
    | Some owner_user_id =>
        do now <- clock;
        do found <- find_pending_for_chat chat_id;
        if match found with Some (_, r) => String.eqb (ti_status r) "confirming" | None => false end then
          ret ((fun x => mkReply chat_id CONFIRMING_REPLY (Some []) (Some (fst x)) (ti_bot_message_id (snd x))) <$> found)
        else
          do pending <-
            (match found with
             | Some (i, r) =>
                 if dt_us (ti_expires_at r) <=? dt_us now
                 then do_ mark_status i "expired" (Some chat_id); ret None
                 else ret found
             | None => ret None
             end);
          match decide text ((fun x => ti_capability_id (snd x)) <$> pending) ((fun x => ti_payload (snd x)) <$> pending) with
          | Raise (TelegramIntentLlmError _) => ret (Some (plain_reply chat_id LLM_FAILURE_REPLY))
          | Raise e => raise e
          | Ok decision => respond owner_user_id chat_id pending decision now
          end
    end.

(** The end of [handle_callback]: the claimed draft becomes an intent. *)
Definition confirm_claimed (create_intent : CreateTradeIntentInput -> M P TradeIntentData) (chat_id : string)
    (i : uuid) (r : InteractionRow) (inp : CreateTradeIntentInput) (now : datetime) : M P (option TelegramReply) :=
  let reply text := Some (draft_reply chat_id text i) in
  do created <-
    try_except (do intent <- create_intent inp; ret (inl intent))
      (fun e => match e with
       | DuplicateIntentError _ _ _ =>
           do_ mark_status i "cancelled" (Some chat_id); ret (inr DUPLICATE_INTENT_REPLY)
       | _ => ret (inr USER_PAGE_ERROR_REPLY)
       end);
  match created with
  | inr text => ret (reply text)
  | inl intent =>
      do marked <- mark_confirmed i chat_id now (i_id intent);
      if negb marked then
        do current <- find_interaction i (Some chat_id);
        if match current with Some (_, x) => String.eqb (ti_status x) "confirmed" | None => false end
        then ret (reply ALREADY_CONFIRMED_REPLY) else ret (reply ALREADY_CONFIRMED_REPLY)
      else
        do text <- lift (created_reply (ti_payload r));
        ret (Some (mkReply chat_id text None (Some i) (ti_bot_message_id r)))
  end.

(** [handle_callback] on the draft the button belongs to *)
Definition press (create_intent : CreateTradeIntentInput -> M P TradeIntentData) (chat_id action : string)
    (i : uuid) (r : InteractionRow) (now : datetime) : M P (option TelegramReply) :=
  let reply text := ret (Some (draft_reply chat_id text i)) in
  let bare text := ret (Some (plain_reply chat_id text)) in
  if String.eqb (ti_status r) "confirming" then reply CONFIRMING_REPLY
  else if negb (String.eqb (ti_status r) "pending") then
    if String.eqb (ti_status r) "confirmed" then bare ALREADY_CONFIRMED_REPLY
    else if String.eqb (ti_status r) "expired" then bare EXPIRED_REPLY else bare CANCELLED_REPLY
  else if dt_us (ti_expires_at r) <=? dt_us now then
    do_ mark_status i "expired" (Some chat_id); bare EXPIRED_REPLY
  else if String.eqb action "cancel" then
    do marked <- mark_status i "cancelled" (Some chat_id);
    if negb marked then bare CANCELLED_REPLY else reply CANCELLED_REPLY
  else if negb (String.eqb action "confirm") || negb (String.eqb (ti_kind r) "draft") then reply UNSUPPORTED_REPLY
  else
    match create_input_from_payload (ti_payload r) (ti_owner_user_id r) with
    | Raise (ValueError _) => reply FIELD_ERROR_REPLY
    | Raise e => raise e
    | Ok inp =>
        do claimed <- claim_confirming i chat_id;
        if negb claimed then
          do current <- find_interaction i (Some chat_id);
          if match current with Some (_, x) => String.eqb (ti_status x) "confirming" | None => false end
          then reply CONFIRMING_REPLY else reply ALREADY_CONFIRMED_REPLY
        else confirm_claimed create_intent chat_id i r inp now
    end.

(** [handle_callback] *)
Definition handle_callback (create_intent : CreateTradeIntentInput -> M P TradeIntentData) (chat_id data : string)
    (message_id : option Z) : M P (option TelegramReply) :=
  if negb (chat_is_allowed chat_id) then ret None
  else
    match parse_callback_data data with
    | None => ret (Some (plain_reply chat_id UNSUPPORTED_REPLY))
    | Some (action, interaction_id) =>
        do found <- find_interaction interaction_id (Some chat_id);
        match found with
        | None => ret (Some (plain_reply chat_id EXPIRED_REPLY))
        | Some (i, r) =>
            if is_none (ti_bot_message_id r) || negb (opt_eqb Z.eqb message_id (ti_bot_message_id r)) then ret None
            else do now <- clock; press create_intent chat_id action i r now
        end
    end.

End Command.
