(* ===== verification/TelegramLlm.v ===== *)
(** * The classifier of Telegram messages

    [src/app/services/telegram_intent_llm.py]: what the application accepts
    from the language model.  The HTTP exchange and pydantic's JSON parser are
    parameters; the extraction of the text, the strict schema and its validators
    are modelled.  The prompt is not. *)

From S2P Require Import Prelude Decimal Datetime Json Errors Price Tables Store Telegram.

#[local] Open Scope string_scope.
#[local] Open Scope list_scope.
#[local] Open Scope Z_scope.

(** ** [_extract_response_content] *)

Definition llm_error {A} (msg : string) : res A := Raise (TelegramIntentLlmError msg).

(** The [for part in content] loop. *)
Fixpoint part_texts (content : list jvalue) : res (list string) :=
  match content with
  | [] => Ok []
  | JObj part :: rest =>
      if is_str (part !! "type") "refusal" then llm_error "telegram intent LLM refused the request"
      else if negb (is_str (part !! "type") "output_text") then llm_error "telegram intent LLM response text is invalid"
      else
        match part !! "text" with
        | Some (JScalar (SStr text)) => let? texts := part_texts rest in Ok (text :: texts)
        | _ => llm_error "telegram intent LLM response text is invalid"
        end
  | _ :: _ => llm_error "telegram intent LLM response content part is invalid"
  end.

(** The [for item in output] loop. *)
Fixpoint item_texts (output : list jvalue) : res (list string) :=
  match output with
  | [] => Ok []
  | JObj item :: rest =>
      if is_str (item !! "type") "reasoning" then item_texts rest
      else if negb (is_str (item !! "type") "message") || negb (is_str (item !! "role") "assistant")
              || negb (is_str (item !! "status") "completed")
      then llm_error "telegram intent LLM response message is invalid"
      else
        match item !! "content" with
        | Some (JArr content) =>
            let? texts := part_texts content in
            let? others := item_texts rest in
            Ok (texts ++ others)
        | _ => llm_error "telegram intent LLM response content is invalid"
        end
  | _ :: _ => llm_error "telegram intent LLM response output item is invalid"
  end.

Definition extract_response_content (raw : gmap string jvalue) : res string :=
  if negb (is_str (raw !! "status") "completed") || truthy (raw !! "error") || truthy (raw !! "incomplete_details")
  then llm_error "telegram intent LLM response did not complete"
  else
    match raw !! "output" with
    | Some (JArr output) =>
        let? texts := item_texts output in
        let combined := join "" texts in
        if String.eqb combined "" then llm_error "telegram intent LLM response has no content" else Ok combined
    | _ => llm_error "telegram intent LLM response output is invalid"
    end.

(** ** [_DecisionPayload] *)

Record DecisionPayload : Type := mkDecisionPayload {
  dp_decision : DecisionType;
  dp_capability_id : option string;
  dp_symbol : option string;
  dp_quantity_lots : option Z;
  dp_target_price : option string;
  dp_missing_fields : list string;
}.

Definition decision_of_text (s : string) : option DecisionType :=
  if String.eqb s "unsupported" then Some Unsupported
  else if String.eqb s "needs_clarification" then Some NeedsClarification
  else if String.eqb s "draft_intent" then Some DraftIntent
  else if String.eqb s "ambiguous" then Some Ambiguous else None.

Definition CAPABILITY_IDS : list string := ["limit_buy"; "limit_sell"; "market_buy"; "market_sell"].
Definition MISSING_FIELDS : list string := ["symbol"; "quantityLots"; "targetPrice"].

(** [_numeric_symbol]: [\d{4,6}] on ASCII digits *)
Definition numeric_symbol (s : string) : bool :=
  str_isdigit s && (4 <=? String.length s)%nat && (String.length s <=? 6)%nat.

(** [_positive_price] *)
Definition positive_price (s : string) : bool :=
  match decimal_of_chars (strip (chars s)) with
  | Some (Finite d) => negb (dec_leb d (of_int 0))
  | _ => false
  end.

(** [_normalize_numeric_price], the validator that runs before the type test *)
Definition normalize_numeric_price (v : jvalue) : jvalue :=
  match v with
  | JScalar (SInt n) => JStr (str_int n)
  | JFloat repr => JStr repr
  | _ => v
  end.

(** A strict field: the value under its alias or, with [populate_by_name], its
    name; [None] is a validation error. *)
Definition member (o : gmap string jvalue) (alias name : string) : option jvalue :=
  match o !! alias with Some v => Some v | None => o !! name end.
Definition used_key (o : gmap string jvalue) (alias name : string) : string :=
  if is_some (o !! alias) then alias else name.

Definition optional_str (accept : string -> bool) (v : option jvalue) : option (option string) :=
  match v with
  | None | Some (JScalar SNull) => Some None
  | Some (JScalar (SStr s)) => if accept s then Some (Some s) else None
  | _ => None
  end.
(** [_positive_quantity] after the strict integer *)
Definition optional_quantity (v : option jvalue) : option (option Z) :=
  match v with
  | None | Some (JScalar SNull) => Some None
  | Some (JScalar (SInt n)) => if n <=? 0 then None else Some (Some n)
  | _ => None
  end.
Fixpoint literals (accept : list string) (l : list jvalue) : option (list string) :=
  match l with
  | [] => Some []
  | JScalar (SStr s) :: rest => if str_in s accept then (fun t => s :: t) <$> literals accept rest else None
  | _ => None
  end.
Definition missing_list (v : option jvalue) : option (list string) :=
  match v with
  | None => Some []
  | Some (JArr l) => literals MISSING_FIELDS l
  | _ => None
  end.

(** The fields of the schema, as alias and name. *)
Definition FIELDS : list (string * string) :=
  [("decision", "decision"); ("capabilityId", "capability_id"); ("symbol", "symbol");
   ("quantityLots", "quantity_lots"); ("targetPrice", "target_price"); ("missingFields", "missing_fields")].

(** [extra="forbid"] *)
Definition no_extra (o : gmap string jvalue) : bool :=
  forallb (fun x => str_in (fst x) ((fun f => used_key o (fst f) (snd f)) <$> FIELDS)) (map_to_list o).

Definition decision_fields (o : gmap string jvalue) : option DecisionPayload :=
  match o !! "decision" with
  | Some (JScalar (SStr t)) =>
      decision ← decision_of_text t;
      capability ← optional_str (fun s => str_in s CAPABILITY_IDS) (member o "capabilityId" "capability_id");
      symbol ← optional_str numeric_symbol (o !! "symbol");
      quantity ← optional_quantity (member o "quantityLots" "quantity_lots");
      price ← optional_str positive_price (normalize_numeric_price <$> member o "targetPrice" "target_price");
      missing ← missing_list (member o "missingFields" "missing_fields");
      Some (mkDecisionPayload decision capability symbol quantity price missing)
  | _ => None
  end.

Definition required_fields (capability : option string) : list string :=
  ["symbol"; "quantityLots"] ++
  match capability with Some c => if str_in c LIMIT_CAPABILITIES then ["targetPrice"] else [] | None => [] end.
Definition supplied_fields (p : DecisionPayload) : list string :=
  (if is_some (dp_symbol p) then ["symbol"] else []) ++
  (if is_some (dp_quantity_lots p) then ["quantityLots"] else []) ++
  (if is_some (dp_target_price p) then ["targetPrice"] else []).
Definition subset_of (a b : list string) : bool := forallb (fun x => str_in x b) a.
Definition actually_missing (p : DecisionPayload) : list string :=
  List.filter (fun f => negb (str_in f (supplied_fields p))) (required_fields (dp_capability_id p)).

(** [_validate_shape] *)
Definition validate_shape (p : DecisionPayload) : bool :=
  match dp_decision p with
  | Unsupported | Ambiguous =>
      is_none (dp_capability_id p) && is_none (dp_symbol p) && is_none (dp_quantity_lots p) &&
      is_none (dp_target_price p) && match dp_missing_fields p with [] => true | _ => false end
  | kind =>
      is_some (dp_capability_id p) && bool_decide (NoDup (dp_missing_fields p)) &&
      match kind with
      | NeedsClarification =>
          match dp_missing_fields p with [] => false | _ => true end &&
          subset_of (dp_missing_fields p) (actually_missing p) && subset_of (actually_missing p) (dp_missing_fields p)
      | _ => match dp_missing_fields p, actually_missing p with [], [] => true | _, _ => false end
      end &&
      negb (match dp_capability_id p with Some c => str_in c MARKET_CAPABILITIES | None => false end &&
            is_some (dp_target_price p))
  end.

(** [_DecisionPayload.model_validate] on a parsed document *)
Definition validate_payload (v : jvalue) : option DecisionPayload :=
  match v with
  | JObj o =>
      if negb (no_extra o) then None
      else p ← decision_fields o; if validate_shape p then Some p else None
  | _ => None
  end.

(** ** The decider *)

(** The exchange with the model: an HTTP error, another failure of the request
    or of decoding its body, or the decoded body. *)
Inductive llm_http : Type :=
| LlmHttpError (code : Z)
| LlmRequestFailed
| LlmBody (v : jvalue).

Section Decider.
  Context (parse_json : string -> option jvalue).

(** [_parse_response] *)
Definition parse_response (raw : gmap string jvalue) : res TelegramIntentDecision :=
  let? text := extract_response_content raw in
  match parse_json text ≫= validate_payload with
  | None => llm_error "telegram intent LLM returned invalid JSON schema"
  | Some p =>
      let? target_price :=
        match dp_target_price p with
        | None => Ok None
        | Some t =>
            match decimal_of_chars (strip (chars t)) with
            | Some (Finite d) => Ok (Some d)
            | _ => llm_error "telegram intent LLM returned invalid target price"
            end
        end in
      Ok (mkDecision (dp_decision p) (dp_capability_id p) (dp_symbol p) (dp_quantity_lots p) target_price
            (dp_missing_fields p))
  end.

(** [OpenAITelegramIntentDecider.decide] *)
Definition openai_decide (request : string -> option string -> option draft_payload -> llm_http) : TelegramIntentDecider :=
  fun message previous_capability_id previous_payload =>
    match request message previous_capability_id previous_payload with
    | LlmHttpError code => llm_error ("telegram intent LLM request failed with HTTP " ++ str_int code)%string
    | LlmRequestFailed => llm_error "telegram intent LLM request failed"
    | LlmBody (JObj raw) => parse_response raw
    | LlmBody _ => llm_error "telegram intent LLM response is invalid"
    end.

(** [DisabledTelegramIntentDecider.decide] *)
Definition disabled_decide : TelegramIntentDecider :=
  fun _ _ _ => llm_error "telegram intent LLM is not configured".

(** [build_telegram_intent_decider] *)
Definition build_telegram_intent_decider (openai_api_key : option string)
    (request : string -> option string -> option draft_payload -> llm_http) : TelegramIntentDecider :=
  if negb (String.eqb (default "" openai_api_key) "") then openai_decide request else disabled_decide.

End Decider.

(** ** What gets past the boundary *)

(** The shape of a decision. *)
Definition well_shaped (d : TelegramIntentDecision) : Prop :=
  match d_decision d with
  | Unsupported | Ambiguous =>
      d_capability_id d = None /\ d_symbol d = None /\ d_quantity_lots d = None /\ d_target_price d = None /\ d_missing_fields d = []
  | kind => exists capability, d_capability_id d = Some capability /\ capability ∈ CAPABILITY_IDS /\
      (forall s, d_symbol d = Some s -> numeric_symbol s = true) /\ (forall q, d_quantity_lots d = Some q -> 0 < q) /\
      (forall p, d_target_price d = Some p -> dec_leb p (of_int 0) = false /\ capability ∈ LIMIT_CAPABILITIES) /\
      NoDup (d_missing_fields d) /\
      (forall f, f ∈ d_missing_fields d <->
         (f = "symbol" /\ d_symbol d = None) \/ (f = "quantityLots" /\ d_quantity_lots d = None) \/
         (f = "targetPrice" /\ d_target_price d = None /\ capability ∈ LIMIT_CAPABILITIES)) /\
      (kind = DraftIntent <-> d_missing_fields d = [])
  end.

Lemma optional_str_Some accept v o : optional_str accept v = Some o -> forall s, o = Some s -> accept s = true.
Proof.
  unfold optional_str. destruct v as [[[| | |t]| | |]|]; try done; [by intros [= <-]| |by intros [= <-]].
  destruct (accept t) eqn:Ha; [|done]. intros [= <-] s [= <-]. done.
Qed.
Lemma optional_quantity_Some v o : optional_quantity v = Some o -> forall q, o = Some q -> 0 < q.
Proof.
  unfold optional_quantity. destruct v as [[[| |n|]| | |]|]; try done; [by intros [= <-]| |by intros [= <-]].
  destruct (Z.leb_spec n 0); [done|]. by intros [= <-] q [= <-].
Qed.

(** What the fields of an accepted payload satisfy. *)
Lemma payload_accepted v p : validate_payload v = Some p ->
  validate_shape p = true /\ (forall c, dp_capability_id p = Some c -> c ∈ CAPABILITY_IDS) /\
  (forall s, dp_symbol p = Some s -> numeric_symbol s = true) /\ (forall q, dp_quantity_lots p = Some q -> 0 < q) /\
  (forall t, dp_target_price p = Some t -> positive_price t = true).
Proof.
  unfold validate_payload. destruct v as [| | |o]; try done. destruct (negb (no_extra o)); [done|].
  unfold decision_fields. destruct (o !! "decision") as [[[| | |t]| | |]|]; try done.
  destruct (decision_of_text t) as [dec|]; [|done]. cbn [mbind option_bind].
  destruct (optional_str (fun s => str_in s CAPABILITY_IDS) _) as [c|] eqn:Hc; [|done].
  destruct (optional_str numeric_symbol _) as [s|] eqn:Hs; [|done]. destruct (optional_quantity _) as [q|] eqn:Hq; [|done].
  destruct (optional_str positive_price _) as [t'|] eqn:Ht; [|done]. destruct (missing_list _) as [m|]; [|done].
  cbn [mbind option_bind]. destruct (validate_shape _) eqn:Hv; [|done]. intros [= <-]. split; [done|]. cbn.
  split; [intros x Hx; by apply str_in_spec, (optional_str_Some _ _ _ Hc)|].
  split; [by apply (optional_str_Some _ _ _ Hs)|]. split; [by apply (optional_quantity_Some _ _ Hq)|by apply (optional_str_Some _ _ _ Ht)].
Qed.

Lemma actually_missing_spec p c : dp_capability_id p = Some c -> forall f, f ∈ actually_missing p <->
  (f = "symbol" /\ dp_symbol p = None) \/ (f = "quantityLots" /\ dp_quantity_lots p = None) \/
  (f = "targetPrice" /\ dp_target_price p = None /\ c ∈ LIMIT_CAPABILITIES).
Proof.
  intros Hc f. unfold actually_missing, required_fields. rewrite Hc, <-(str_in_spec c LIMIT_CAPABILITIES).
  unfold supplied_fields. destruct (dp_symbol p), (dp_quantity_lots p), (dp_target_price p), (str_in c LIMIT_CAPABILITIES);
    cbn; rewrite ?elem_of_cons, elem_of_nil; naive_solver.
Qed.

Lemma market_not_limit c : c ∈ CAPABILITY_IDS -> str_in c MARKET_CAPABILITIES = false -> c ∈ LIMIT_CAPABILITIES.
Proof. unfold CAPABILITY_IDS, LIMIT_CAPABILITIES. rewrite !elem_of_cons, !elem_of_nil. intros [->|[->|[->|[->|[]]]]]; [by left|by right; left|done|done]. Qed.

(** An accepted payload is well shaped as a decision. *)
Lemma accepted_shape v p price : validate_payload v = Some p ->
  match dp_target_price p with
  | None => price = None
  | Some t => exists d, decimal_of_chars (strip (chars t)) = Some (Finite d) /\ price = Some d
  end ->
  well_shaped (mkDecision (dp_decision p) (dp_capability_id p) (dp_symbol p) (dp_quantity_lots p) price (dp_missing_fields p)).
Proof.
  intros Hv Hprice. destruct (payload_accepted v p Hv) as (Hsh & Hcap & Hsym & Hq & Ht).
  assert (Hpn : price = None <-> dp_target_price p = None).
  { destruct (dp_target_price p); [|by rewrite Hprice]. destruct Hprice as (d & _ & ->). done. }
  assert (Hpos : forall x, price = Some x -> dec_leb x (of_int 0) = false).
  { intros x ->. destruct (dp_target_price p) as [t|] eqn:Hdt; [|done]. destruct Hprice as (d & Hd & [= <-]).
    specialize (Ht t eq_refl). unfold positive_price in Ht. rewrite Hd in Ht. by apply negb_true_iff. }
  unfold validate_shape in Hsh. unfold well_shaped. cbn [d_decision d_capability_id d_symbol d_quantity_lots d_target_price d_missing_fields].
  assert (Hplain : is_none (dp_capability_id p) && is_none (dp_symbol p) && is_none (dp_quantity_lots p) &&
      is_none (dp_target_price p) && match dp_missing_fields p with [] => true | _ => false end = true ->
    dp_capability_id p = None /\ dp_symbol p = None /\ dp_quantity_lots p = None /\ price = None /\ dp_missing_fields p = []).
  { rewrite Hpn, !andb_true_iff. unfold is_none, is_some. destruct (dp_capability_id p), (dp_symbol p), (dp_quantity_lots p),
      (dp_target_price p), (dp_missing_fields p); naive_solver. }
  destruct (dp_decision p) eqn:Hdec; [by apply Hplain| | |by apply Hplain].
  all: destruct (dp_capability_id p) as [c|] eqn:Hc; [|done]; exists c; specialize (Hcap c eq_refl).
  all: rewrite !andb_true_iff, bool_decide_eq_true, negb_true_iff in Hsh; destruct Hsh as [[[_ Hnd] Hmiss] Hmk].
  all: assert (Hlim : forall x, price = Some x -> c ∈ LIMIT_CAPABILITIES) by
    (intros x ->; apply market_not_limit; [done|]; apply not_true_iff_false; intros E; rewrite E in Hmk;
     destruct (dp_target_price p); [done|naive_solver]).
  all: split; [done|]; split; [done|]; split; [done|]; split; [done|]; split; [intros x Hx; by split; [apply Hpos|apply (Hlim x)]|]; split; [done|].
  all: setoid_rewrite Hpn; setoid_rewrite <-(actually_missing_spec p c Hc).
  - destruct Hmiss as [[Hne Hsub] Hsup]. unfold subset_of in *.
    rewrite forallb_forall in Hsub, Hsup. split; [|by destruct (dp_missing_fields p)].
    intros f. split; intros Hf%list_elem_of_In; [specialize (Hsub f Hf)|specialize (Hsup f Hf)]; by apply str_in_spec.
  - destruct (dp_missing_fields p); [|done]. destruct (actually_missing p); [|done]. done.
Qed.

Lemma part_raises l e : part_texts l = Raise e -> exists m, e = TelegramIntentLlmError m.
Proof.
  induction l as [|x l IH]; [done|]. destruct x; try by (intros [= <-]; eexists). cbn [part_texts].
  destruct (is_str _ _); [by intros [= <-]; eexists|]. destruct (negb _); [by intros [= <-]; eexists|].
  destruct (_ !! "text") as [[[]| | |]|]; try by (intros [= <-]; eexists). unfold rbind. destruct (part_texts l); [done|].
  intros [= <-]. by apply IH.
Qed.
Lemma item_raises l e : item_texts l = Raise e -> exists m, e = TelegramIntentLlmError m.
Proof.
  induction l as [|x l IH]; [done|]. destruct x; try by (intros [= <-]; eexists). cbn [item_texts].
  destruct (is_str _ "reasoning"); [done|]. destruct (_ || _); [by intros [= <-]; eexists|].
  destruct (_ !! "content") as [[| |content|]|]; try by (intros [= <-]; eexists). unfold rbind.
  destruct (part_texts content) as [ts|e'] eqn:Hp; [|intros [= <-]; by eapply part_raises].
  destruct (item_texts l); [done|]. intros [= <-]. by apply IH.
Qed.
Lemma extract_raises raw e : extract_response_content raw = Raise e -> exists m, e = TelegramIntentLlmError m.
Proof.
  unfold extract_response_content. destruct (_ || _); [by intros [= <-]; eexists|].
  destruct (raw !! "output") as [[| |output|]|]; try by (intros [= <-]; eexists). unfold rbind.
  destruct (item_texts output) as [ts|e'] eqn:Hi; [|intros [= <-]; by eapply item_raises].
  destruct (String.eqb _ _); [by intros [= <-]; eexists|done].
Qed.

(** C21. Nothing reaches the drafts that is not a well-shaped decision: whatever
    the language model returns, the decider either fails with the error the
    command answers, or yields a decision of one of the four kinds whose fields
    have their types and ranges (a known capability, a symbol of four to six
    digits, a positive quantity, a positive price only for limit requests), and
    whose missing fields are exactly the required ones it lacks. *)
Theorem classifier_boundary parse_json request message capability payload :
  match openai_decide parse_json request message capability payload with Ok d => well_shaped d | Raise e => exists msg, e = TelegramIntentLlmError msg end.
Proof.
  assert (Herr : forall msg, match (llm_error msg : res TelegramIntentDecision) with
    Ok d => well_shaped d | Raise e => exists msg, e = TelegramIntentLlmError msg end) by (intros msg; by exists msg).
  unfold openai_decide.
  destruct (request message capability payload) as [code| |[| | |raw]]; try apply Herr. unfold parse_response.
  destruct (extract_response_content raw) as [text|e] eqn:Hx; [|apply extract_raises in Hx; by destruct Hx as (m & ->); exists m].
  cbn [rbind]. destruct (parse_json text ≫= validate_payload) as [p|] eqn:Hp; [|apply Herr].
  apply bind_Some in Hp as (v & _ & Hv). pose proof (accepted_shape v p) as Hsh.
  destruct (dp_target_price p) as [t|] eqn:Ht; [|by apply Hsh].
  destruct (decimal_of_chars (strip (chars t))) as [[d| |]|] eqn:Hd; try apply Herr. cbn [rbind].
  apply Hsh; [done|]. by exists d.
Qed.
