(* ===== verification/TelegramRoute.v ===== *)
(** * The Telegram webhook

    [src/app/api/routes/telegram.py] with [services/telegram_bot.py]: the
    secret, the configured chat, one transaction per update, and the messages
    that show a draft.  The HTTP exchange with the Bot API is a parameter. *)

From S2P Require Import Prelude Decimal Datetime Json Errors Price Intent Tables Store CreateIntent Telegram.

#[local] Open Scope string_scope.
#[local] Open Scope list_scope.
#[local] Open Scope Z_scope.

(** ** [TelegramBotClient] *)

(** A method of the Bot API with its payload. *)
Inductive BotRequest : Type :=
| SendMessage (chat_id text : string) (markup : option inline_keyboard)
| EditMessageText (chat_id : string) (message_id : Z) (text : string) (markup : option inline_keyboard)
| EditMessageReplyMarkup (chat_id : string) (message_id : Z) (markup : inline_keyboard)
| AnswerCallbackQuery (callback_query_id : string).

(** What the exchange gives: a failure of the transport, or a status with an
    empty body, a body that is not JSON, or a document. *)
Inductive BotBody : Type := EmptyBody | NotJson | BotJson (v : jvalue).
Inductive BotResponse : Type := BotFailure | BotReply (status : Z) (body : BotBody).

Class BotTransport (P : Type) : Type := bot_http : P -> BotRequest -> BotResponse * P.

Section Bot.
  Context {P : Type} `{BotTransport P} (settings : TelegramSettings).

Definition call_transport (request : BotRequest) : M P BotResponse := fun w =>
  let '(r, p) := bot_http (provider w) request in (Ok r, with_provider p w).

(** [_post] *)
Definition decode_reply (r : BotResponse) : option (gmap string jvalue) :=
  match r with
  | BotFailure => None
  | BotReply status body =>
      if 400 <=? status then None
      else
        match body with
        | EmptyBody => Some ∅
        | BotJson (JObj decoded) =>
            if match decoded !! "ok" with Some (JScalar (SBool false)) => true | _ => false end then None
            else Some decoded
        | _ => None
        end
  end.
Definition post (request : BotRequest) : M P (option (gmap string jvalue)) :=
  if String.eqb (unchars (strip (chars (default "" (telegram_bot_token settings))))) "" then ret None
  else do r <- call_transport request; ret (decode_reply r).

(** [send_message]; a bool is an [int] for [isinstance]. *)
Definition message_id_of (response : option (gmap string jvalue)) : option Z :=
  match response with
  | None => None
  | Some decoded =>
      match decoded !! "result" with
      | Some (JObj result) =>
          match result !! "message_id" with
          | Some (JScalar (SInt n)) => Some n
          | Some (JScalar (SBool b)) => Some (if b then 1 else 0)
          | _ => None
          end
      | _ => None
      end
  end.
Definition bot_send_message (chat_id text : string) (markup : option inline_keyboard) : M P (option Z) :=
  do response <- post (SendMessage chat_id text markup);
  ret (message_id_of response).

(** [edit_message_text], [clear_reply_markup] and [answer_callback_query] *)
Definition bot_edit_message_text (chat_id : string) (message_id : Z) (text : string) (markup : option inline_keyboard) : M P bool :=
  do response <- post (EditMessageText chat_id message_id text markup);
  ret (is_some response).
Definition bot_clear_reply_markup (chat_id : string) (message_id : Z) : M P bool :=
  do response <- post (EditMessageReplyMarkup chat_id message_id []);
  ret (is_some response).
Definition bot_answer_callback_query (callback_query_id : string) : M P bool :=
  do response <- post (AnswerCallbackQuery callback_query_id);
  ret (is_some response).

End Bot.

(** ** Updates *)

(** [TelegramChat.id]: [int | str] *)
Inductive ChatIdent : Type := ChatInt (n : Z) | ChatStr (s : string).
Definition chat_text (c : ChatIdent) : string := match c with ChatInt n => str_int n | ChatStr s => s end.

Record TelegramUser : Type := mkTelegramUser { tu_is_bot : bool }.
Record TelegramMessage : Type := mkTelegramMessage {
  tm_message_id : Z;
  tm_chat : ChatIdent;
  tm_text : option string;
  tm_from_user : option TelegramUser;
}.
Record TelegramCallbackQuery : Type := mkCallbackQuery {
  cq_id : option string;
  cq_data : option string;
  cq_message : option TelegramMessage;
  cq_from_user : option TelegramUser;
}.
Record TelegramUpdate : Type := mkUpdate {
  up_message : option TelegramMessage;
  up_callback_query : option TelegramCallbackQuery;
}.

Definition from_bot (u : option TelegramUser) : bool := match u with Some x => tu_is_bot x | None => false end.

(** [_update_chat_id] *)
Definition update_chat_id (update : TelegramUpdate) : option string :=
  match up_callback_query update ≫= cq_message with
  | Some m => Some (chat_text (tm_chat m))
  | None => (fun m => chat_text (tm_chat m)) <$> up_message update
  end.

(** The body of the 200 response: [None] when the update was not handled. *)
Definition WebhookResponse : Type := option TelegramReply.

Section Webhook.
  Context {P : Type} `{QuoteProvider P} `{BotTransport P} (settings : TelegramSettings).

(** [_verify_secret]; [compare_digest] takes ASCII text only. *)
Definition verify_secret (header : option string) : res unit :=
  let forbidden := Raise (ApiError "FORBIDDEN" 403 None []) in
  match telegram_webhook_secret settings, header with
  | Some expected, Some actual =>
      if String.eqb expected "" || String.eqb actual "" then forbidden
      else if negb (forallb (fun c => nat_of_ascii c <? 128)%nat (chars actual ++ chars expected)) then Raise TypeError
      else if String.eqb actual expected then Ok tt else forbidden
  | _, _ => forbidden
  end.

(** [_deliver_message_reply] *)
Definition deliver_message_reply (reply : TelegramReply) : M P unit :=
  do edited <-
    (match reply_bot_message_id reply with
     | Some m => bot_edit_message_text settings (reply_chat_id reply) m (reply_text reply) (reply_markup reply)
     | None => ret false
     end);
  if edited : bool then ret tt
  else
    do message_id <- bot_send_message settings (reply_chat_id reply) (reply_text reply) (reply_markup reply);
    match reply_interaction_id reply, message_id with
    | Some i, Some m => do attached <- attach_bot_message_id i (reply_chat_id reply) m; ret tt
    | _, _ => ret tt
    end.

(** [_edit_callback_message] *)
Definition edit_callback_message (update : TelegramUpdate) (reply : TelegramReply) : M P bool :=
  match up_callback_query update ≫= cq_message with
  | Some m => bot_edit_message_text settings (chat_text (tm_chat m)) (tm_message_id m) (reply_text reply) (Some [])
  | None => ret false
  end.

(** [_handle_callback_update] *)
Definition handle_callback_update (create_intent : CreateTradeIntentInput -> M P TradeIntentData)
    (callback : TelegramCallbackQuery) : M P (option TelegramReply) :=
  match cq_message callback, cq_data callback with
  | Some m, Some data => handle_callback settings create_intent (chat_text (tm_chat m)) data (Some (tm_message_id m))
  | _, _ => ret None
  end.

(** The callback branch of [telegram_webhook]. *)
Definition webhook_callback (create_intent : CreateTradeIntentInput -> M P TradeIntentData) (update : TelegramUpdate)
    (callback : TelegramCallbackQuery) : M P WebhookResponse :=
  do_ (match cq_id callback with
       | Some i => if from_bot (cq_from_user callback) then ret tt
                   else do answered <- bot_answer_callback_query settings i; ret tt
       | None => ret tt
       end);
  if from_bot (cq_from_user callback) then ret None
  else
    do reply <- transaction (do reply <- handle_callback_update create_intent callback; do_ commit; ret reply);
    match reply with
    | None => ret None
    | Some x => do edited <- edit_callback_message update x; ret (Some x)
    end.

(** The message branch. *)
Definition webhook_message (decide : TelegramIntentDecider) (chat_id : string) (message : option TelegramMessage) : M P WebhookResponse :=
  match message with
  | None => ret None
  | Some m =>
      match tm_text m with
      | None => ret None
      | Some text =>
          if from_bot (tm_from_user m) then ret None
          else
            transaction
              (do reply <- handle_message settings decide chat_id text;
               match reply with
               | None => do_ commit; ret None
               | Some x => do_ deliver_message_reply x; do_ commit; ret (Some x)
               end)
      end
  end.

(** [telegram_webhook] *)
Definition telegram_webhook (decide : TelegramIntentDecider)
    (create_intent : CreateTradeIntentInput -> M P TradeIntentData) (secret_header : option string)
    (update : TelegramUpdate) : M P WebhookResponse :=
  do_ lift (verify_secret secret_header);
  match update_chat_id update with
  | None => ret None
  | Some chat_id =>
      if String.eqb (configured_chat settings) "" || negb (String.eqb chat_id (configured_chat settings)) then ret None
      else
        match up_callback_query update with
        | Some callback => webhook_callback create_intent update callback
        | None => webhook_message decide chat_id (up_message update)
        end
  end.

End Webhook.
