(* ===== verification/LegacyRepo.v ===== *)
(** * The repository of the legacy intent track

    [src/app/repositories/intent_repository.py] over [trade_intents] and
    [twap_slices]: still the only home of TWAP plans.  Statements for an empty
    set of ids are kept where they change nothing. *)

From S2P Require Import Prelude Decimal Datetime Errors Price Twap Intent Tables Store CoreSchema Lifecycle Pagination.
From S2P Require IntentRepo.

#[local] Open Scope string_scope.
#[local] Open Scope list_scope.
#[local] Open Scope Z_scope.

(** ** Constraints of [TradeIntent] and [TwapSlice] *)

Definition all_some {A} (l : list (option A)) : bool := forallb is_some l.
Definition all_none {A} (l : list (option A)) : bool := forallb is_none l.

Definition is_trailing (r : LegacyRow) : bool := String.eqb (l_strategy r) TRAILING_STRATEGY.
Definition is_twap (r : LegacyRow) : bool := String.eqb (l_strategy r) TWAP_STRATEGY.

Definition in_range (o : option Z) (lo hi : Z) : bool :=
  match o with Some n => (lo <=? n) && (n <=? hi) | None => true end.

(** A comparison with NULL is neither true nor false and passes a CHECK. *)
Definition legacy_checks (r : LegacyRow) : list (bool * string) :=
  let targets := [l_target_price_original r; l_target_price_effective r] in
  let twap_numbers := [l_twap_interval_seconds r; l_twap_end_time r; l_twap_available_slice_count r;
                       l_twap_materialized_slice_count r] in
  let twap_instants := [l_twap_start_at r; l_twap_end_at r] in
  [(str_in (l_strategy r) VALID_STRATEGIES, "strategy");
   (String.eqb (l_execution_mode r) "notify_only", "execution_mode");
   (String.eqb (l_time_in_force r) "day", "time_in_force");
   (str_in (l_status r) VALID_STATUSES, "status");
   (str_in (l_trigger_reference_price_type r) VALID_TRIGGER_REFERENCE_PRICE_TYPES, "trigger_reference_price_type");
   (0 <? l_quantity_lots r, "quantity_lots");
   (if is_trailing r || str_in (l_strategy r) MARKET_ORDER_STRATEGIES || is_twap r then all_none targets
    else forallb opt_positive targets, "target_price_presence");
   (str_in (l_transaction_mode r) ["single_notification"; "partial_fill_allowed"], "transaction_mode");
   (String.eqb (l_notification_mode r) "single", "notification_mode");
   (0 <=? l_filled_quantity_lots r, "filled_quantity_lots");
   (if is_trailing r then
      match l_trail_mode r with Some m => str_in m ["percentage"; "fixed_amount"] | None => true end &&
      is_some (l_trail_value r)
    else is_none (l_trail_mode r) && all_none [l_trail_value r; l_baseline r; l_dynamic_trigger_price r] &&
         is_none (l_baseline_updated_at r), "trailing_fields_presence");
   (match l_trail_value r with
    | None => true
    | Some v =>
        match l_trail_mode r with
        | Some m => (String.eqb m "percentage" && dec_positive v && dec_leb v (Dec 10 0)) ||
                    (String.eqb m "fixed_amount" && dec_positive v)
        | None => dec_positive v
        end
    end, "trail_value_range");
   (opt_positive (l_baseline r), "baseline_positive");
   (opt_positive (l_dynamic_trigger_price r), "dynamic_trigger_price");
   (if is_twap r then
      match l_position_side r with Some s => str_in s ["long"; "short"] | None => true end &&
      all_some twap_numbers && all_some twap_instants
    else is_none (l_position_side r) && all_none twap_numbers && all_none twap_instants, "twap_fields_presence");
   (in_range (l_twap_interval_seconds r) 1 3600, "twap_interval_seconds");
   (match l_twap_available_slice_count r with Some n => 2 <=? n | None => true end, "twap_available_slice_count");
   (in_range (l_twap_materialized_slice_count r) 2 200, "twap_materialized_slice_count")].

(** [uq_trade_intents_active_duplicate], NULLS NOT DISTINCT *)
Definition same_legacy_key (a b : LegacyRow) : bool :=
  (l_owner_user_id a =? l_owner_user_id b) && String.eqb (l_symbol a) (l_symbol b) &&
  String.eqb (l_strategy a) (l_strategy b) &&
  opt_eqb dec_eqb (l_target_price_effective a) (l_target_price_effective b) &&
  opt_eqb String.eqb (l_trail_mode a) (l_trail_mode b) && opt_eqb dec_eqb (l_trail_value a) (l_trail_value b) &&
  (l_quantity_lots a =? l_quantity_lots b) && (l_trading_date a =? l_trading_date b).

(** [uq_trade_intents_active_twap_duplicate] *)
Definition same_twap_key (a b : LegacyRow) : bool :=
  is_twap a && is_twap b && (l_owner_user_id a =? l_owner_user_id b) && String.eqb (l_symbol a) (l_symbol b) &&
  match l_position_side a, l_position_side b with Some x, Some y => String.eqb x y | _, _ => false end &&
  (l_trading_date a =? l_trading_date b).

Definition clashes (key : LegacyRow -> LegacyRow -> bool) (r : LegacyRow) (d : db) : bool :=
  is_open (l_status r) && negb (count_where (fun _ x => is_open (l_status x) && key r x) (legacy_intents d) =? 0).

Definition legacy_violation (i : uuid) (r : LegacyRow) (d : db) : option string :=
  first_violation (legacy_checks r ++
    [(is_none (legacy_intents d !! i), "pk_trade_intents");
     (negb (clashes same_legacy_key r d), "uq_trade_intents_active_duplicate");
     (negb (clashes same_twap_key r d), "uq_trade_intents_active_twap_duplicate");
     (is_some (users d !! l_owner_user_id r), "fk_trade_intents_owner_user_id_users");
     (is_some (symbols d !! l_symbol r), "fk_trade_intents_symbol_symbols")]).

Definition slice_violation (i : uuid) (r : SliceRow) (d : db) : option string :=
  first_violation
    [(0 <? ts_planned_quantity_lots r, "planned_quantity_lots");
     (str_in (ts_status r) ["pending"; "notified"; "cancelled"], "status");
     (opt_positive (ts_primary_reference_price r), "primary_reference_price");
     (match ts_primary_reference_price_type r with
      | Some t => str_in t VALID_TRIGGER_REFERENCE_PRICE_TYPES | None => true end, "primary_reference_price_type");
     ((0 <=? ts_price_followup_attempts r) && (ts_price_followup_attempts r <=? 3), "price_followup_attempts");
     (is_none (twap_slices d !! i), "pk_twap_slices");
     (count_where (fun _ x => (ts_trade_intent_id x =? ts_trade_intent_id r) && (ts_sequence_no x =? ts_sequence_no r))
        (twap_slices d) =? 0, "uq_twap_slices_intent_sequence");
     (is_some (legacy_intents d !! ts_trade_intent_id r), "fk_twap_slices_trade_intent_id_trade_intents");
     (is_some (users d !! ts_owner_user_id r), "fk_twap_slices_owner_user_id_users");
     (is_some (symbols d !! ts_symbol r), "fk_twap_slices_symbol_symbols")].

(** ** Rows as the domain sees them *)

(** [_to_domain] *)
Definition to_domain (i : uuid) (r : LegacyRow) (st : SecurityType) : TradeIntentData :=
  {| i_id := i; i_owner_user_id := l_owner_user_id r; i_symbol := l_symbol r; i_strategy := l_strategy r;
     i_execution_mode := l_execution_mode r; i_quantity_lots := l_quantity_lots r;
     i_target_price_original := l_target_price_original r; i_target_price_effective := l_target_price_effective r;
     i_trigger_reference_price_type := l_trigger_reference_price_type r; i_trading_date := l_trading_date r;
     i_time_in_force := l_time_in_force r; i_status := l_status r; i_created_at := l_created_at r;
     i_updated_at := l_updated_at r; i_cancelled_at := l_cancelled_at r; i_triggered_at := l_triggered_at r;
     i_transaction_mode := l_transaction_mode r; i_notification_mode := l_notification_mode r;
     i_filled_quantity_lots := l_filled_quantity_lots r; i_last_fill_at := l_last_fill_at r;
     i_trail_mode := l_trail_mode r; i_trail_value := l_trail_value r; i_baseline := l_baseline r;
     i_dynamic_trigger_price := l_dynamic_trigger_price r; i_baseline_updated_at := l_baseline_updated_at r;
     i_security_type := st; i_position_side := l_position_side r;
     i_twap_interval_seconds := l_twap_interval_seconds r; i_twap_end_time := l_twap_end_time r;
     i_twap_start_at := l_twap_start_at r; i_twap_end_at := l_twap_end_at r;
     i_twap_available_slice_count := l_twap_available_slice_count r;
     i_twap_materialized_slice_count := l_twap_materialized_slice_count r |}.

(** [TwapSliceData]: the id and the columns of the row *)
Record TwapSliceData : Type := mkTwapSliceData { sd_id : uuid; sd_row : SliceRow }.

(** [_select_intent_with_symbol_type] *)
Definition with_symbol_type (d : db) (r : LegacyRow) : option (LegacyRow * string) :=
  match symbols d !! l_symbol r with Some s => Some (r, sy_instrument_type s) | None => None end.

Section Repository.
  Context {P : Type}.

(** [_nullable_equals] in the duplicate lookup of [create] *)
Definition is_duplicate (a : IntentRepo.CreateArgs) (r : LegacyRow) : bool :=
  (l_owner_user_id r =? IntentRepo.a_owner_user_id a) && String.eqb (l_symbol r) (IntentRepo.a_symbol a) &&
  String.eqb (l_strategy r) (IntentRepo.a_strategy a) &&
  opt_eqb dec_eqb (l_target_price_effective r) (IntentRepo.a_target_price_effective a) &&
  opt_eqb String.eqb (l_trail_mode r) (IntentRepo.a_trail_mode a) &&
  opt_eqb dec_eqb (l_trail_value r) (IntentRepo.a_trail_value a) &&
  (l_quantity_lots r =? IntentRepo.a_quantity_lots a) && (l_trading_date r =? IntentRepo.a_trading_date a) &&
  is_open (l_status r).

Definition insert_legacy (i : uuid) (r : LegacyRow) : M P unit :=
  insert_checked (legacy_violation i r) (fun d => set_legacy_intents (<[i := r]> (legacy_intents d)) d).
Definition insert_slice (i : uuid) (r : SliceRow) : M P unit :=
  insert_checked (slice_violation i r) (fun d => set_twap_slices (<[i := r]> (twap_slices d)) d).

Definition row_of_args (a : IntentRepo.CreateArgs) (now : datetime) : LegacyRow :=
  mkLegacy (IntentRepo.a_owner_user_id a) (IntentRepo.a_symbol a) (IntentRepo.a_strategy a)
    (IntentRepo.a_execution_mode a) (IntentRepo.a_quantity_lots a) (IntentRepo.a_target_price_original a)
    (IntentRepo.a_target_price_effective a) (IntentRepo.a_trigger_reference_price_type a) (IntentRepo.a_trading_date a)
    (IntentRepo.a_time_in_force a) (IntentRepo.a_status a) None None (IntentRepo.a_transaction_mode a)
    (IntentRepo.a_notification_mode a) 0 None (IntentRepo.a_trail_mode a) (IntentRepo.a_trail_value a)
    (IntentRepo.a_baseline a) (IntentRepo.a_dynamic_trigger_price a) (IntentRepo.a_baseline_updated_at a)
    None None None None None None None now now.

(** Flushing with the translation of an IntegrityError *)
Definition flush_as {A} (c : M P A) (duplicate_error : exn) : M P A :=
  try_except c (fun e => match e with IntegrityError _ => raise duplicate_error | _ => raise e end).

(** [create] *)
Definition create (a : IntentRepo.CreateArgs) : M P uuid :=
  let duplicate_error := DuplicateIntentError (IntentRepo.a_owner_user_id a) (IntentRepo.a_symbol a) (IntentRepo.a_strategy a) in
  do duplicates <- query (fun d => select_where (fun _ r => is_duplicate a r) (legacy_intents d));
  match duplicates with
  | _ :: _ :: _ => raise (RuntimeError "MultipleResultsFound")
  | [_] => raise duplicate_error
  | [] =>
      do i <- uuid4;
      do now <- sql_now;
      do_ flush_as (insert_legacy i (row_of_args a now)) duplicate_error;
      ret i
  end.

(** The row and the slices of [create_twap]. *)
Definition twap_row (owner : uuid) (symbol : string) (plan : TwapPlan)
    (execution_mode time_in_force status price_type : string) (now : datetime) : LegacyRow :=
  mkLegacy owner symbol TWAP_STRATEGY execution_mode (target_quantity_lots plan) None None price_type
    (trading_date plan) time_in_force status None None "single_notification" "single" 0 None
    None None None None None (Some (position_side plan)) (Some (interval_seconds plan)) (Some (requested_end_time plan))
    (Some (start_at plan)) (Some (end_at plan)) (Some (available_slice_count plan)) (Some (materialized_slice_count plan))
    now now.
Definition slice_row_of (intent_id owner : uuid) (symbol : string) (now : datetime) (s : TwapSlicePlan) : SliceRow :=
  mkSliceRow intent_id owner symbol (sequence_no s) (scheduled_at s) (planned_quantity_lots s) "pending"
    None None None None None None false 0 None None None now now.

Fixpoint draw_ids (l : list TwapSlicePlan) : M P (list (uuid * TwapSlicePlan)) :=
  match l with
  | [] => ret []
  | s :: rest => do i <- uuid4; do others <- draw_ids rest; ret ((i, s) :: others)
  end.

Definition same_plan (owner : uuid) (symbol : string) (plan : TwapPlan) (r : LegacyRow) : bool :=
  (l_owner_user_id r =? owner) && String.eqb (l_symbol r) symbol && is_twap r &&
  match l_position_side r with Some s => String.eqb s (position_side plan) | None => false end &&
  (l_trading_date r =? trading_date plan) && is_open (l_status r).

(** [create_twap] *)
Definition create_twap (owner : uuid) (symbol : string) (plan : TwapPlan)
    (execution_mode time_in_force status price_type : string) : M P uuid :=
  let duplicate_error := TwapDuplicateActivePlanError owner symbol (position_side plan) in
  do duplicates <- query (fun d => select_where (fun (_ : uuid) r => same_plan owner symbol plan r) (legacy_intents d));
  match duplicates with
  | _ :: _ :: _ => raise (RuntimeError "MultipleResultsFound")
  | [_] => raise duplicate_error
  | [] =>
      do intent_id <- uuid4;
      do planned <- draw_ids (slices plan);
      do now <- sql_now;
      do_ flush_as
        (do_ insert_legacy intent_id (twap_row owner symbol plan execution_mode time_in_force status price_type now);
         for_each planned (fun x => insert_slice (fst x) (slice_row_of intent_id owner symbol now (snd x))))
        duplicate_error;
      ret intent_id
  end.

(** ** Updates *)

Definition update_legacy (p : uuid -> LegacyRow -> bool) (f : LegacyRow -> LegacyRow) : M P unit :=
  execute (fun d => set_legacy_intents (update_where p f (legacy_intents d)) d).
Definition update_slices (p : uuid -> SliceRow -> bool) (f : SliceRow -> SliceRow) : M P unit :=
  execute (fun d => set_twap_slices (update_where p f (twap_slices d)) d).

(** A new status; the columns an expiry or an activation leaves alone. *)
Definition with_status (status : string) (now : datetime) (r : LegacyRow) : LegacyRow :=
  legacy_set status (l_cancelled_at r) (l_triggered_at r) (l_last_fill_at r) (l_filled_quantity_lots r) now r.
Definition cancelled_row (status : string) (now : datetime) (r : LegacyRow) : LegacyRow :=
  legacy_set status (Some now) (l_triggered_at r) (l_last_fill_at r) (l_filled_quantity_lots r) now r.

(** [system_update_trailing_baseline]; the UPDATE runs the CHECKs on the values
    it writes. *)
Definition baseline_violation (intent_id : uuid) (baseline dynamic : option dec) (d : db) : option string :=
  match legacy_intents d !! intent_id with
  | None => None
  | Some r => first_violation
      [(is_trailing r || (all_none [baseline; dynamic]), "trailing_fields_presence");
       (opt_positive baseline, "baseline_positive"); (opt_positive dynamic, "dynamic_trigger_price")]
  end.

Definition system_update_trailing_baseline (intent_id : uuid) (baseline dynamic : option dec)
    (baseline_updated_at : option datetime) : M P unit :=
  do now <- sql_now;
  insert_checked (baseline_violation intent_id baseline dynamic) (fun d => set_legacy_intents
    (update_where (fun (i : uuid) _ => i =? intent_id) (fun r =>
       legacy_set_baseline baseline dynamic
         (match baseline_updated_at with Some t => Some t | None => l_baseline_updated_at r end) now r)
       (legacy_intents d)) d).

(** [system_activate_scheduled_day_intents] *)
Definition system_activate_scheduled_day_intents (trading_date : date) (now : datetime) : M P Z :=
  let p := fun (_ : uuid) r => String.eqb (l_status r) "scheduled" && (l_trading_date r =? trading_date) in
  do n <- query (fun d => count_where p (legacy_intents d));
  do_ update_legacy p (with_status "active" now);
  ret n.

(** [system_expire_day_intents_through]: the open intents of the day, and the
    slices of theirs that are pending. *)
Definition system_expire_day_intents_through (cutoff_date : date) (now : datetime) : M P Z :=
  let p := fun (_ : uuid) r => is_open (l_status r) && (l_trading_date r <=? cutoff_date) in
  do expired_ids <- query (fun d => fst <$> select_where p (legacy_intents d));
  do_ update_legacy p (with_status "expired" now);
  do_ when (negb (Nat.eqb (length expired_ids) 0))
        (update_slices (fun _ s => existsb (Z.eqb (ts_trade_intent_id s)) expired_ids && String.eqb (ts_status s) "pending")
           (slice_cancel now));
  ret (Z.of_nat (length expired_ids)).

(** [cancel_active_for_owner] *)
Definition cancel_active_for_owner (owner : uuid) (status : string) (now : datetime) : M P Z :=
  let p := fun (_ : uuid) r => (l_owner_user_id r =? owner) && is_open (l_status r) in
  do n <- query (fun d => count_where p (legacy_intents d));
  do_ update_legacy p (cancelled_row status now);
  ret n.

(** The row of [_select_intent_with_symbol_type().where(id == intent_id)]. *)
Definition get_legacy (intent_id : uuid) : M P (option (LegacyRow * string)) :=
  query (fun d => legacy_intents d !! intent_id ≫= with_symbol_type d).

(** [find_by_id] *)
Definition find_by_id (intent_id owner : uuid) : M P TradeIntentData :=
  do row <- get_legacy intent_id;
  match row with
  | None => raise (IntentNotFoundError intent_id)
  | Some (r, instrument_type) =>
      if negb (l_owner_user_id r =? owner) then raise (IntentNotFoundError intent_id)
      else
        do st <- lift (IntentRepo.parse_security_type instrument_type);
        ret (to_domain intent_id r st)
  end.

(** [cancel]: the plan, its pending slices and its open follow-ups. *)
Definition cancel (intent_id owner : uuid) : M P TradeIntentData :=
  do row <- get_legacy intent_id;
  match row with
  | None => raise (IntentNotFoundError intent_id)
  | Some (r, instrument_type) =>
      if negb (l_owner_user_id r =? owner) then raise (IntentNotFoundError intent_id)
      else if String.eqb (l_status r) "cancelled" then
        do st <- lift (IntentRepo.parse_security_type instrument_type);
        ret (to_domain intent_id r st)
      else if negb (str_in (l_status r) CANCELLABLE_STATUSES) then raise (CancelNotAllowedError intent_id (l_status r))
      else
        do now <- sql_now;
        do_ update_legacy (fun i _ => i =? intent_id) (cancelled_row "cancelled" now);
        do_ when (String.eqb (l_strategy r) TWAP_STRATEGY)
              (do_ update_slices (fun _ s => (ts_trade_intent_id s =? intent_id) && String.eqb (ts_status s) "pending")
                     (slice_cancel now);
               update_slices (fun _ s => (ts_trade_intent_id s =? intent_id) && ts_price_followup_required s &&
                                is_none (ts_price_followup_notification_id s)) (slice_no_followup now));
        do refreshed <- query (fun d => legacy_intents d !! intent_id);
        do st <- lift (IntentRepo.parse_security_type instrument_type);
        ret (to_domain intent_id (default r refreshed) st)
  end.

(** ** Queries *)

Definition earlier_slice (a b : uuid * SliceRow) : bool := ts_sequence_no (snd a) <? ts_sequence_no (snd b).

(** [list_twap_slices] *)
Definition list_twap_slices (intent_id owner : uuid) : M P (list TwapSliceData) :=
  do intent <- query (fun d => legacy_intents d !! intent_id);
  match intent with
  | None => raise (IntentNotFoundError intent_id)
  | Some r =>
      if negb (l_owner_user_id r =? owner) then raise (IntentNotFoundError intent_id)
      else query (fun d => (fun x => mkTwapSliceData (fst x) (snd x)) <$> order_by earlier_slice
             (select_where (fun _ s => (ts_trade_intent_id s =? intent_id) && (ts_owner_user_id s =? owner)) (twap_slices d)))
  end.

(** The two orders of [list_by_owner]. *)
Definition row_after (terminal_only : bool) (a b : uuid * LegacyRow) : bool :=
  if terminal_only then
    (dt_us (l_updated_at (snd b)) <? dt_us (l_updated_at (snd a))) ||
    ((dt_us (l_updated_at (snd b)) =? dt_us (l_updated_at (snd a))) && (fst a <? fst b))
  else
    (l_trading_date (snd a) <? l_trading_date (snd b)) ||
    ((l_trading_date (snd b) =? l_trading_date (snd a)) && (dt_us (l_created_at (snd b)) <? dt_us (l_created_at (snd a)))) ||
    ((l_trading_date (snd b) =? l_trading_date (snd a)) &&
       (dt_us (l_created_at (snd b)) =? dt_us (l_created_at (snd a))) && (fst a <? fst b)).

Definition listed (d : db) (owner : uuid) (statuses : option (list string)) (trading_date : option date)
    (_ : uuid) (r : LegacyRow) : bool :=
  (l_owner_user_id r =? owner) && is_some (with_symbol_type d r) &&
  match statuses with Some ((_ :: _) as l) => str_in (l_status r) l | _ => true end &&
  match trading_date with Some t => l_trading_date r =? t | None => true end.

Fixpoint to_domains (d : db) (rows : list (uuid * LegacyRow)) : res (list TradeIntentData) :=
  match rows with
  | [] => Ok []
  | (i, r) :: rest =>
      match with_symbol_type d r with
      | None => to_domains d rest
      | Some (_, instrument_type) =>
          let? st := IntentRepo.parse_security_type instrument_type in
          let? others := to_domains d rest in
          Ok (to_domain i r st :: others)
      end
  end.

(** [list_by_owner] *)
Definition list_by_owner (owner : uuid) (statuses : option (list string)) (trading_date : option date)
    (cursor : option uuid) (page_size : nat) : M P (list TradeIntentData * option uuid) :=
  do d <- query id;
  do anchor <-
    (match cursor with
     | None => ret None
     | Some c =>
         match legacy_intents d !! c with
         | Some r => if l_owner_user_id r =? owner then ret (Some (c, r)) else raise (InvalidCursorError c)
         | None => raise (InvalidCursorError c)
         end
     end);
  let '(page, next) := page_after (row_after (IntentRepo.is_terminal_only statuses)) fst page_size
    (select_where (listed d owner statuses trading_date) (legacy_intents d)) anchor in
  do intents <- lift (to_domains d page);
  ret (intents, next).

(** [system_list_active_symbols] and [active_or_scheduled_symbols] *)
Definition symbols_where (p : LegacyRow -> bool) : M P (list string) :=
  query (fun d => remove_dups ((fun x => l_symbol (snd x)) <$> select_where (fun _ r => p r) (legacy_intents d))).
Definition system_list_active_symbols : M P (list string) := symbols_where (fun r => String.eqb (l_status r) "active").
Definition active_or_scheduled_symbols : M P (list string) := symbols_where (fun r => is_open (l_status r)).

(** [system_list_active_by_symbols] *)
Definition system_list_active_by_symbols (wanted : list string) : M P (list TradeIntentData) :=
  match wanted with
  | [] => ret []
  | _ =>
      do d <- query id;
      lift (to_domains d (select_where
        (fun _ r => String.eqb (l_status r) "active" && str_in (l_symbol r) wanted) (legacy_intents d)))
  end.

(** The three counts. *)
Definition count_legacy (p : LegacyRow -> bool) : M P Z := query (fun d => count_where (fun _ r => p r && is_open (l_status r)) (legacy_intents d)).
Definition count_active_or_scheduled_for_symbol (symbol : string) : M P Z :=
  count_legacy (fun r => String.eqb (l_symbol r) symbol).
Definition count_active_or_scheduled_for_user (owner : uuid) : M P Z :=
  count_legacy (fun r => l_owner_user_id r =? owner).
Definition count_active_or_scheduled_for_user_symbol (owner : uuid) (symbol : string) : M P Z :=
  count_legacy (fun r => (l_owner_user_id r =? owner) && String.eqb (l_symbol r) symbol).

(** The repository as the store of [IntentLifecycleCommand]. *)
Definition legacy_store : DayIntentLifecycleStore P :=
  mkLifecycleStore system_expire_day_intents_through system_activate_scheduled_day_intents.

End Repository.
