(* ===== verification/LegacyTrigger.v ===== *)
(** * Firing an intent of the legacy track

    [src/app/commands/trigger_intent.py]: the rows a firing writes, and the
    command that fires an existing intent in a transaction of its own. *)

From S2P Require Import Prelude Decimal Datetime Errors Price Intent Evaluation Tables Store CoreSchema Samples Trigger.
From S2P Require IntentRepo LegacyRepo.

#[local] Open Scope string_scope.
#[local] Open Scope list_scope.
#[local] Open Scope Z_scope.

(** The constraints of [trigger_events] ([TriggerEvent]): the CHECKs are those
    of [trade_intent_triggers]. *)
Definition event_violation (i : uuid) (r : TriggerRow) (d : db) : option string :=
  first_violation (trigger_checks r ++
    [(is_none (trigger_events d !! i), "pk_trigger_events");
     (count_where (fun _ x => g_trade_intent_id x =? g_trade_intent_id r) (trigger_events d) =? 0,
        "uq_trigger_events_trade_intent_id");
     (is_some (legacy_intents d !! g_trade_intent_id r), "fk_trigger_events_trade_intent_id_trade_intents");
     (is_some (users d !! g_owner_user_id r), "fk_trigger_events_owner_user_id_users");
     (is_some (symbols d !! g_symbol r), "fk_trigger_events_symbol_symbols")]).

(** The row as [persist_trigger] reads it; it never asks for the type of the
    security, which lives in another table. *)
Definition row_intent (i : uuid) (r : LegacyRow) : TradeIntentData := LegacyRepo.to_domain i r STOCK.

Definition legacy_notification_row (i : TradeIntentData) (r : rendering) (now : datetime) : NotificationRow :=
  mkNotification (i_owner_user_id i) (Some (i_id i)) None (notification_type r) (r_title r) (r_body r) None now now.

(** [TriggerIntentOutput]: the two rows, as [_trigger_event_to_domain] and
    [_notification_to_domain] copy them. *)
Record TriggerIntentOutput : Type := mkTriggerOutput {
  to_trigger_event : uuid * TriggerRow;
  to_notification : uuid * NotificationRow;
}.

(** Attributes assigned on the loaded row and not flushed yet: baseline,
    dynamic trigger price and their instant. *)
Definition row_changes : Type := option (option dec * option dec * datetime).
Definition changed_row (changes : row_changes) (r : LegacyRow) : LegacyRow :=
  match changes with
  | Some (baseline, dynamic, t) => legacy_set_baseline baseline dynamic (Some t) (l_updated_at r) r
  | None => r
  end.

Section LegacyTrigger.
  Context {P : Type}.

Definition insert_event (i : uuid) (r : TriggerRow) : M P unit :=
  insert_checked (event_violation i r) (fun d => set_trigger_events (<[i := r]> (trigger_events d)) d).

(** The guarded UPDATE of [persist_trigger]. *)
Definition legacy_guard (i : TradeIntentData) (k : uuid) (r : LegacyRow) : bool :=
  (k =? i_id i) && String.eqb (l_status r) "active".
Definition fired_row (i : TradeIntentData) (now : datetime) (r : LegacyRow) : LegacyRow :=
  legacy_set "triggered" (l_cancelled_at r) (Some now) (Some now) (i_quantity_lots i) now r.
Definition mark_legacy_triggered (i : TradeIntentData) : M P Z :=
  do now <- sql_now;
  do n <- query (fun d => count_where (legacy_guard i) (legacy_intents d));
  do_ LegacyRepo.update_legacy (legacy_guard i) (fired_row i now);
  ret n.

(** Flushing the changes a caller left on the loaded row. *)
Definition flush_row (intent_id : uuid) (changes : row_changes) : M P unit :=
  match changes with
  | None => ret tt
  | Some (baseline, dynamic, _) =>
      insert_checked (LegacyRepo.baseline_violation intent_id baseline dynamic) (fun d => set_legacy_intents
        (update_where (fun k _ => k =? intent_id) (changed_row changes) (legacy_intents d)) d)
  end.

(** The UPDATE, then the flush: the changed row and the two added ones. *)
Definition write_event (i : TradeIntentData) (changes : row_changes) (event_id notification_id : uuid)
    (event : TriggerRow) (notification : NotificationRow) : M P unit :=
  do rowcount <- mark_legacy_triggered i;
  if rowcount =? 0 then raise (IntentNotActiveError (i_id i) "stale")
  else
    do_ flush_row (i_id i) changes;
    do_ insert_event event_id event;
    insert_notification notification_id notification.

(** [persist_trigger] *)
Definition persist_trigger (i : TradeIntentData) (changes : row_changes) (inp : TriggerCoreInput)
  : M P TriggerIntentOutput :=
  do r <- lift (render_trigger i inp);
  match r_target r with
  | None => raise (RuntimeError "trigger requires target_price_effective")
  | Some target =>
      do now <- sql_now;
      do event_id <- uuid4;
      do notification_id <- uuid4;
      let event := trigger_row_of i inp r target now in
      let notification := legacy_notification_row i r now in
      do_ write_event i changes event_id notification_id event notification;
      do_ send_message (mkMessage (r_title r) (r_body r) (notification_type r));
      ret (mkTriggerOutput (event_id, event) (notification_id, notification))
  end.

(** [TriggerIntentCommand.stage] *)
Definition stage (intent_id : uuid) (inp : TriggerCoreInput) : M P TriggerIntentOutput :=
  do row <- query (fun d => legacy_intents d !! intent_id);
  match row with
  | None => raise (IntentNotFoundError intent_id)
  | Some r =>
      if negb (String.eqb (l_status r) "active") then raise (IntentNotActiveError intent_id (l_status r))
      else LegacyRepo.flush_as (persist_trigger (row_intent intent_id r) None inp) (DuplicateTriggerError intent_id)
  end.

(** The exceptions [execute] and the dispatcher know. *)
Definition is_trigger_race (e : exn) : bool :=
  match e with DuplicateTriggerError _ | IntentNotActiveError _ _ | IntentNotFoundError _ => true | _ => false end.

(** [TriggerIntentCommand.execute] *)
Definition trigger_execute (intent_id : uuid) (inp : TriggerCoreInput) : M P TriggerIntentOutput :=
  transaction_keeping (fun e => negb (is_trigger_race e)) (do out <- stage intent_id inp; do_ commit; ret out).

End LegacyTrigger.

(** ** What firing does to the tables *)

Lemma legacy_guard_iff i m : count_where (legacy_guard i) m = 0 <->
  (forall r, m !! i_id i = Some r -> l_status r <> "active").
Proof.
  rewrite count_zero. unfold legacy_guard. split.
  - intros H r Hr Hs. specialize (H (i_id i) r Hr). by rewrite Z.eqb_refl, (proj2 (String.eqb_eq _ _) Hs) in H.
  - intros H k r Hr. destruct (Z.eqb_spec k (i_id i)) as [->|]; [|done]. cbn. apply String.eqb_neq. by apply H.
Qed.

Lemma legacy_guard_update i now (m : gmap uuid LegacyRow) r : m !! i_id i = Some r -> l_status r = "active" ->
  update_where (legacy_guard i) (fired_row i now) m = <[i_id i := fired_row i now r]> m.
Proof.
  intros Hr Hs. apply update_where_one; [done| |].
  - unfold legacy_guard. by rewrite Z.eqb_refl, (proj2 (String.eqb_eq _ _) Hs).
  - unfold legacy_guard. by intros j b _ [Hj%Z.eqb_eq _]%andb_true_iff.
Qed.

(** The statements of a firing. *)
Lemma write_event_cases {P} i changes eid nid event notification (w w' : world P) r :
  g_trade_intent_id event = i_id i -> write_event i changes eid nid event notification w = (r, w') ->
  same_env w w' /\ outbox w' = outbox w /\
  match r with
  | Ok _ => exists row, legacy_intents (pending w) !! i_id i = Some row /\ l_status row = "active" /\
      trigger_events (pending w) !! eid = None /\
      (forall k g, trigger_events (pending w) !! k = Some g -> g_trade_intent_id g <> i_id i) /\
      pending w' = set_notifications (<[nid := notification]> (notifications (pending w)))
        (set_trigger_events (<[eid := event]> (trigger_events (pending w)))
          (set_legacy_intents (<[i_id i := changed_row changes (fired_row i (db_now w) row)]> (legacy_intents (pending w)))
             (pending w)))
  | Raise e =>
      ((forall row, legacy_intents (pending w) !! i_id i = Some row -> l_status row <> "active") /\
         e = IntentNotActiveError (i_id i) "stale") \/
      (exists row k, legacy_intents (pending w) !! i_id i = Some row /\ l_status row = "active" /\ e = IntegrityError k)
  end.
Proof.
  intros Hg. unfold write_event, mark_legacy_triggered, LegacyRepo.update_legacy. run_session.
  destruct (Z.eqb_spec (count_where (legacy_guard i) (legacy_intents (pending w))) 0) as [Hz|Hz].
  { intros [= <- <-]. split; [done|]. split; [done|]. left. split; [by apply legacy_guard_iff|done]. }
  assert (Hc : exists row, legacy_intents (pending w) !! i_id i = Some row /\ l_status row = "active").
  { rewrite legacy_guard_iff in Hz. destruct (legacy_intents (pending w) !! i_id i) as [row|] eqn:Hrow; [|by destruct Hz].
    exists row. split; [done|]. apply dec_stable. intros Hn. apply Hz. by intros ? [= <-]. }
  destruct Hc as (row & Hrow & Hs). rewrite (legacy_guard_update i (db_now w) _ row Hrow Hs).
  set (d1 := set_legacy_intents _ _).
  assert (Hflush : forall w1 : world P, pending w1 = d1 -> exists x w2, flush_row (i_id i) changes w1 = (x, w2) /\ same_env w1 w2 /\
    outbox w2 = outbox w1 /\ match x with
    | Ok _ => pending w2 = set_legacy_intents (<[i_id i := changed_row changes (fired_row i (db_now w) row)]>
        (legacy_intents (pending w))) (pending w)
    | Raise e => exists k, e = IntegrityError k end).
  { intros w1 Hw1. destruct changes as [[[b dy] t]|]; cbn [flush_row]; [|by exists (Ok tt), w1; rewrite Hw1].
    unfold insert_checked. run_session. unfold id. rewrite Hw1.
    destruct (LegacyRepo.baseline_violation _ _ _ _) as [k|]; [do 2 eexists; split; [reflexivity|]; naive_solver|].
    do 2 eexists. split; [reflexivity|]. split; [done|]. split; [done|]. cbn [pending with_pending].
    rewrite (update_where_one _ _ _ (i_id i) (fired_row i (db_now w) row)).
    - rewrite Hw1. unfold d1. cbn [legacy_intents set_legacy_intents]. by rewrite insert_insert_eq.
    - rewrite Hw1. apply lookup_insert_eq.
    - apply Z.eqb_refl.
    - by intros j ? _ ->%Z.eqb_eq. }
  match goal with |- context [flush_row (i_id i) changes ?w1] =>
    destruct (Hflush w1 eq_refl) as (x & w2 & Hx & (Hd2 & Ha2 & Hb2) & Ho2 & Hp2); rewrite Hx end.
  destruct x as [[]|e].
  2: { destruct Hp2 as (k & ->). intros [= <- <-]. split; [naive_solver congruence|]. split; [done|]. right. by exists row, k. }
  unfold insert_event, insert_notification, insert_checked. run_session. unfold id. rewrite Hp2.
  destruct (event_violation eid event _) as [k|] eqn:Hv.
  { intros [= <- <-]. split; [naive_solver congruence|]. split; [done|]. right. by exists row, k. }
  match goal with |- context [notification_violation nid notification ?d] =>
    destruct (notification_violation nid notification d) as [k|] eqn:Hv2 end.
  { intros [= <- <-]. split; [naive_solver congruence|]. split; [done|]. right. by exists row, k. }
  intros [= <- <-]. split; [naive_solver congruence|]. split; [done|]. exists row. split; [done|]. split; [done|].
  unfold event_violation in Hv. apply first_violation_none, Forall_app in Hv as [_ Hu].
  rewrite !Forall_cons in Hu. cbn [fst] in Hu. destruct Hu as (Hpk & Huq & _).
  split; [by cbn in Hpk; destruct (trigger_events (pending w) !! eid)|]. split; [|by rewrite Hp2].
  intros k g Hk He. apply Z.eqb_eq in Huq. rewrite count_zero in Huq. specialize (Huq k g Hk). cbn in Huq.
  rewrite He, Hg, Z.eqb_refl in Huq. done.
Qed.

(** The database after intent [i], stored as [row], fired. *)
Definition fired_db (i : TradeIntentData) (inp : TriggerCoreInput) (x : rendering) (target : dec) (changes : row_changes)
    (row : LegacyRow) (eid nid : uuid) (now : datetime) (d : db) : db :=
  set_notifications (<[nid := legacy_notification_row i x now]> (notifications d))
    (set_trigger_events (<[eid := trigger_row_of i inp x target now]> (trigger_events d))
      (set_legacy_intents (<[i_id i := changed_row changes (fired_row i now row)]> (legacy_intents d)) d)).

(** What [persist_trigger] does, whatever the state it runs in. *)
Lemma persist_trigger_cases {P} i changes inp (w w' : world P) r : persist_trigger i changes inp w = (r, w') ->
  same_env w w' /\
  match r with
  | Ok out => exists row x target,
      render_trigger i inp = Ok x /\ r_target x = Some target /\
      legacy_intents (pending w) !! i_id i = Some row /\ l_status row = "active" /\
      (forall k g, trigger_events (pending w) !! k = Some g -> g_trade_intent_id g <> i_id i) /\
      trigger_events (pending w) !! next_id w = None /\
      pending w' = fired_db i inp x target changes row (next_id w) (next_id w + 1) (db_now w) (pending w) /\
      outbox w' = outbox w ++ [mkMessage (r_title x) (r_body x) (notification_type x)] /\
      out = mkTriggerOutput (next_id w, trigger_row_of i inp x target (db_now w))
              (next_id w + 1, legacy_notification_row i x (db_now w))
  | Raise e => outbox w' = outbox w /\
      (render_trigger i inp = Raise e \/ (exists m, e = RuntimeError m) \/
       ((forall row, legacy_intents (pending w) !! i_id i = Some row -> l_status row <> "active") /\
          e = IntentNotActiveError (i_id i) "stale") \/
       (exists row k, legacy_intents (pending w) !! i_id i = Some row /\ l_status row = "active" /\ e = IntegrityError k))
  end.
Proof.
  unfold persist_trigger. intros H. unfold bind at 1, lift in H.
  destruct (render_trigger i inp) as [x|e] eqn:Hx; [|injection H as <- <-; naive_solver].
  destruct (r_target x) as [target|] eqn:Htg.
  2: { unfold raise in H. injection H as <- <-. split; [done|]. split; [done|]. right. left. by eexists. }
  unfold bind at 1, sql_now, gets, bind at 1, uuid4 in H. unfold bind at 1 in H. unfold bind at 1 in H. cbn [next_id] in H.
  match type of H with context [write_event ?i ?c ?t ?n ?tr ?nr ?w1] =>
    destruct (write_event i c t n tr nr w1) as [r1 w2] eqn:Hw;
    destruct (write_event_cases i c t n tr nr w1 w2 r1 eq_refl Hw) as (Hd & Ho & Hcase)
  end.
  cbn [durable outbox pending db_now app_now] in *. destruct r1 as [[]|e].
  - unfold bind, send_message, modify, ret in H. injection H as <- <-. cbn [durable outbox pending app_now db_now].
    split; [done|]. destruct Hcase as (row & Hrow & Hs & Hf & Hu & Hp). exists row, x, target.
    do 6 (split; [done|]). split; [exact Hp|]. by rewrite Ho.
  - injection H as <- <-. split; [done|]. split; [done|].
    destruct Hcase as [[Hn ->]|(row & k & Hrow & Hs & ->)]; [right; right; left; done|]. right. right. right. by exists row, k.
Qed.

(** Only strategies with a rendering fire: never a TWAP plan. *)
Lemma render_not_twap i inp x : render_trigger i inp = Ok x -> String.eqb (i_strategy i) TWAP_STRATEGY = false.
Proof.
  destruct (String.eqb_spec (i_strategy i) TWAP_STRATEGY) as [He|]; [|done].
  unfold render_trigger. rewrite He. cbn [str_in existsb String.eqb]. destruct (i_target_price_effective i); [|done].
  cbn. unfold Template.render_price_triggered, Template.labelled, rbind. cbn. done.
Qed.

(** ** The invariant of the track

    Triggered intents and trigger events correspond; the plans of the TWAP
    worker end in the same status without an event. *)
Record legacy_ok (d : db) : Prop := {
  event_unique : forall j k a b, trigger_events d !! j = Some a -> trigger_events d !! k = Some b ->
    g_trade_intent_id a = g_trade_intent_id b -> j = k;
  event_intent : forall k g, trigger_events d !! k = Some g ->
    exists r, legacy_intents d !! g_trade_intent_id g = Some r /\ l_status r = "triggered" /\ LegacyRepo.is_twap r = false;
  fired_event : forall i r, legacy_intents d !! i = Some r -> l_status r = "triggered" -> LegacyRepo.is_twap r = false ->
    exists k g, trigger_events d !! k = Some g /\ g_trade_intent_id g = i;
}.

Lemma legacy_ok_frame d d' : legacy_intents d' = legacy_intents d -> trigger_events d' = trigger_events d ->
  legacy_ok d -> legacy_ok d'.
Proof. intros Hl Ht []. split; rewrite ?Hl, ?Ht; assumption. Qed.

(** An UPDATE that neither fires an intent nor touches a fired one. *)
Lemma legacy_ok_update d p f : legacy_ok d ->
  (forall i r, legacy_intents d !! i = Some r -> p i r = true -> l_strategy (f r) = l_strategy r /\
     (l_status (f r) = l_status r \/ (l_status r <> "triggered" /\ l_status (f r) <> "triggered"))) ->
  legacy_ok (set_legacy_intents (update_where p f (legacy_intents d)) d).
Proof.
  intros [H1 H2 H3] Hf. split; cbn [legacy_intents trigger_events set_legacy_intents]; [done| |].
  - intros k g Hg. destruct (H2 k g Hg) as (r & Hr & Hs & Ht). eexists.
    split; [apply lookup_update_Some; by exists r|]. destruct (p _ r) eqn:Hp; [|done].
    destruct (Hf _ r Hr Hp) as [He [He'|[? _]]]; [|done]. unfold LegacyRepo.is_twap. by rewrite He, He'.
  - intros i r Hr Hs Ht. apply lookup_update_Some in Hr as (r0 & Hr0 & Heq). destruct (p i r0) eqn:Hp; subst r; [|by eapply H3].
    destruct (Hf i r0 Hr0 Hp) as [He [He'|[_ ?]]]; [|done]. unfold LegacyRepo.is_twap in Ht. rewrite He in Ht.
    rewrite He' in Hs. by eapply H3.
Qed.

Lemma changed_row_frame changes r : l_status (changed_row changes r) = l_status r /\ l_strategy (changed_row changes r) = l_strategy r.
Proof. destruct changes as [[[? ?] ?]|]; done. Qed.

Lemma fired_legacy_ok i inp x target changes row eid nid now d : legacy_ok d ->
  legacy_intents d !! i_id i = Some row -> l_status row = "active" -> l_strategy row = i_strategy i ->
  render_trigger i inp = Ok x -> trigger_events d !! eid = None ->
  (forall k g, trigger_events d !! k = Some g -> g_trade_intent_id g <> i_id i) ->
  legacy_ok (fired_db i inp x target changes row eid nid now d).
Proof.
  intros [H1 H2 H3] Hrow Hs Hst Hx Hfresh Hnone. apply render_not_twap in Hx.
  destruct (changed_row_frame changes (fired_row i now row)) as [Hcs Hct].
  split; cbn [fired_db legacy_intents trigger_events set_notifications set_trigger_events set_legacy_intents].
  - intros j k a b Ha Hb Heq.
    apply lookup_insert_Some in Ha as [[<- <-]|[Hj Ha]]; apply lookup_insert_Some in Hb as [[<- <-]|[Hk Hb]]; [done| | |by eapply H1].
    + by destruct (Hnone k b Hb).
    + by destruct (Hnone j a Ha).
  - intros k g Hg. apply lookup_insert_Some in Hg as [[<- <-]|[Hk Hg]].
    + eexists. cbn [g_trade_intent_id trigger_row_of]. rewrite lookup_insert_eq. split; [done|]. rewrite Hcs.
      split; [done|]. unfold LegacyRepo.is_twap. rewrite Hct. cbn. by rewrite Hst.
    + destruct (H2 k g Hg) as (r & Hr & ?). exists r. split; [|done]. rewrite lookup_insert_ne; [done|].
      apply not_eq_sym. by apply (Hnone k).
  - intros j r Hr Hrs Ht. apply lookup_insert_Some in Hr as [[<- <-]|[Hj Hr]].
    + exists eid. eexists. by rewrite lookup_insert_eq.
    + destruct (H3 j r Hr Hrs Ht) as (k & g & Hg & He). exists k, g. split; [|done].
      rewrite lookup_insert_ne; [done|]. intros ->. congruence.
Qed.

(** [stage] on every branch. *)
Lemma stage_cases {P} id inp (w w' : world P) r : stage id inp w = (r, w') ->
  same_env w w' /\
  match legacy_intents (pending w) !! id with
  | None => r = Raise (IntentNotFoundError id) /\ w' = w
  | Some row =>
      if String.eqb (l_status row) "active" then
        match r with
        | Ok out => exists x target,
            render_trigger (row_intent id row) inp = Ok x /\ r_target x = Some target /\
            (forall k g, trigger_events (pending w) !! k = Some g -> g_trade_intent_id g <> id) /\
            trigger_events (pending w) !! next_id w = None /\
            pending w' = fired_db (row_intent id row) inp x target None row (next_id w) (next_id w + 1) (db_now w) (pending w) /\
            outbox w' = outbox w ++ [mkMessage (r_title x) (r_body x) (notification_type x)] /\
            out = mkTriggerOutput (next_id w, trigger_row_of (row_intent id row) inp x target (db_now w))
                    (next_id w + 1, legacy_notification_row (row_intent id row) x (db_now w))
        | Raise e => outbox w' = outbox w /\
            (render_trigger (row_intent id row) inp = Raise e \/ (exists m, e = RuntimeError m) \/ e = DuplicateTriggerError id)
        end
      else r = Raise (IntentNotActiveError id (l_status row)) /\ w' = w
  end.
Proof.
  unfold stage, query, gets, bind. destruct (legacy_intents (pending w) !! id) as [row|] eqn:Hrow; [|by intros [= <- <-]].
  destruct (String.eqb_spec (l_status row) "active") as [Hs|]; cbn [negb]; [|by intros [= <- <-]].
  unfold LegacyRepo.flush_as, try_except.
  destruct (persist_trigger (row_intent id row) None inp w) as [r1 w1] eqn:Hp.
  destruct (persist_trigger_cases _ _ _ _ _ _ Hp) as [Henv Hcase]. cbn [i_id row_intent LegacyRepo.to_domain] in Hcase.
  destruct r1 as [out|e].
  - intros [= <- <-]. split; [done|]. destruct Hcase as (row' & x & target & Hx & Ht & Hr & _ & Hu & Hf & Hpe & Ho & ->).
    rewrite Hrow in Hr. injection Hr as <-. by exists x, target.
  - destruct Hcase as [Ho Hcase].
    assert (Hr : r = Raise match e with IntegrityError _ => DuplicateTriggerError id | _ => e end /\ w' = w1 -> same_env w w' /\
      match r with Ok _ => False | Raise e' => outbox w' = outbox w /\
        (render_trigger (row_intent id row) inp = Raise e' \/ (exists m, e' = RuntimeError m) \/ e' = DuplicateTriggerError id) end).
    { intros [-> ->]. split; [done|]. split; [done|].
      destruct Hcase as [Hx|[(m & ->)|[[Hn _]|(? & k & _ & _ & ->)]]]; [| |by destruct (Hn row Hrow)|by right; right].
      - destruct e; try by left. by right; right.
      - right. left. by eexists. }
    destruct e; intros [= <- <-]; (destruct Hr as [? ?]; [done|]); (split; [done|]); done.
Qed.

(** Firing a legacy intent, on every branch: an unknown intent and one that
    is not active are refused; an active one either fires, and then the event,
    the notification, the triggered status and the fill are committed together
    and exactly one message was sent, or, when the text cannot be rendered or a
    constraint is violated, nothing is stored and nothing was sent.  Intents and
    events keep corresponding one to one. *)
Theorem legacy_trigger_outcomes {P} (id : uuid) (inp : TriggerCoreInput) (w w' : world P) (r : res TriggerIntentOutput)
    (Hclean : pending w = durable w) (Hok : legacy_ok (durable w)) (Hrun : trigger_execute id inp w = (r, w')) :
  legacy_ok (durable w') /\
  match legacy_intents (durable w) !! id with
  | None => r = Raise (IntentNotFoundError id) /\ durable w' = durable w /\ outbox w' = outbox w
  | Some row =>
      if String.eqb (l_status row) "active" then
        match r with
        | Ok out => exists x target,
            render_trigger (row_intent id row) inp = Ok x /\ r_target x = Some target /\
            durable w' = fired_db (row_intent id row) inp x target None row (next_id w) (next_id w + 1) (db_now w) (durable w) /\
            pending w' = durable w' /\
            outbox w' = outbox w ++ [mkMessage (r_title x) (r_body x) (notification_type x)] /\
            out = mkTriggerOutput (next_id w, trigger_row_of (row_intent id row) inp x target (db_now w))
                    (next_id w + 1, legacy_notification_row (row_intent id row) x (db_now w))
        | Raise e => durable w' = durable w /\ outbox w' = outbox w /\
            (render_trigger (row_intent id row) inp = Raise e \/ (exists m, e = RuntimeError m) \/ e = DuplicateTriggerError id)
        end
      else r = Raise (IntentNotActiveError id (l_status row)) /\ durable w' = durable w /\ outbox w' = outbox w
  end.
Proof.
  destruct (keeping_cases _ _ _ _ _ Hrun) as (w1 & Hb & Hd & Ho & _ & Hsame). unfold bind in Hb.
  destruct (stage id inp w) as [r0 w0] eqn:Hs. destruct (stage_cases _ _ _ _ _ Hs) as [(Hd0 & _) Hcase].
  rewrite Hclean in Hcase. rewrite Hd, Ho. destruct r0 as [out|e].
  - unfold commit, modify, ret in Hb. injection Hb as <- <-. rewrite (Hsame eq_refl). cbn [durable committed outbox pending].
    destruct (legacy_intents (durable w) !! id) as [row|] eqn:Hrow; [|by destruct Hcase].
    destruct (String.eqb_spec (l_status row) "active") as [Hst|]; [|by destruct Hcase].
    destruct Hcase as (x & target & Hx & Ht & Hu & Hf & Hp & Hout & ->). split.
    + rewrite Hp. by apply fired_legacy_ok.
    + exists x, target. done.
  - injection Hb as <- <-. rewrite Hd0. split; [done|].
    destruct (legacy_intents (durable w) !! id) as [row|]; [|by destruct Hcase as [[= ->] ->]].
    destruct (String.eqb (l_status row) "active"); [|by destruct Hcase as [[= ->] ->]]. by destruct Hcase.
Qed.

(** A database with one active alert of the legacy track, with id 50. *)
Definition sample_alert : LegacyRow :=
  mkLegacy 7 "2330" "sell_price_alert" "notify_only" 1 (Some (Dec 650 0)) (Some (Dec 650 0)) "bid" 20601 "day"
    "active" None None "single_notification" "single" 0 None None None None None None None None None None None
    None None sample_time sample_time.
Definition legacy_db : db := set_legacy_intents {[50 := sample_alert]} sample_db.
Definition sell_input : TriggerCoreInput :=
  mkTriggerInput (Dec 651 0) "bid" false (quote_at (Some (Dec 651 0)) None None) sample_time.

Lemma legacy_db_ok : legacy_ok legacy_db.
Proof.
  split; cbn; [intros *; by rewrite lookup_empty..|].
  intros i r Hr. apply lookup_singleton_Some in Hr as [_ <-]. done.
Qed.

(** The alert fires once; a second attempt is refused. *)
Lemma legacy_trigger_outcomes_witness :
  let w := world_of legacy_db in
  exists out w1, trigger_execute 50 sell_input w = (Ok out, w1) /\ length (outbox w1) = 1%nat /\ legacy_ok (durable w1) /\
    fst (trigger_execute 50 sell_input w1) = Raise (IntentNotActiveError 50 "triggered").
Proof.
  intros w. set (y := trigger_execute 50 sell_input w).
  assert (H : exists out, fst y = Ok out /\ length (outbox (snd y)) = 1%nat /\
    fst (trigger_execute 50 sell_input (snd y)) = Raise (IntentNotActiveError 50 "triggered")).
  { vm_compute. eexists. repeat split; reflexivity. }
  destruct H as (out & Hout & Hlen & Hagain). exists out, (snd y).
  assert (Hy : y = (Ok out, snd y)) by (rewrite <-Hout; exact (surjective_pairing y)).
  destruct (legacy_trigger_outcomes 50 sell_input w (snd y) (Ok out) eq_refl legacy_db_ok Hy) as [Hok _].
  exact (conj Hy (conj Hlen (conj Hok Hagain))).
Defined.
