(* ===== verification/Tokens.v ===== *)
(** * Passwords, tokens and sessions

    [src/app/core/passwords.py], [core/tokens.py], [core/totp.py] and
    [core/mfa_crypto.py] over the libraries they call (argon2, hashlib,
    secrets, PyJWT, pyotp, Fernet), which are parameters, and [issue_session] of
    [commands/auth.py].  A random value is a function of a UUID taken from the
    supply, so that the values drawn by a run differ from each other. *)

From S2P Require Import Prelude Decimal Datetime Json Errors Price Tables Store CoreSchema AuditLog AuthRepos.

#[local] Open Scope string_scope.
#[local] Open Scope list_scope.
#[local] Open Scope Z_scope.

(** What [PasswordHasher.verify] does: returns, or raises one of the two
    exceptions the program catches, or another one. *)
Inductive argon2_outcome : Type :=
| Verified
| VerifyMismatchError
| InvalidHashError
| Argon2Error (what : string).

(** The payload [encode_access_token] signs; the times are POSIX seconds. *)
Record AccessPayload : Type := mkPayload {
  ap_sub : uuid;
  ap_role : string;
  ap_session_id : uuid;
  ap_mfa_verified : bool;
  ap_iat : Z;
  ap_exp : Z;
}.

(** The third-party primitives.  [jwt_decode token secret clock] is
    [jwt.decode] with the system clock (in microseconds) at the call; [None]
    stands for a [PyJWTError] or a payload that is not of the shape above. *)
Class Crypto : Type := {
  argon2_hash : string -> uuid -> string;
  argon2_verify : string -> string -> argon2_outcome;
  dummy_salt : uuid;
  sha256_hex : string -> string;
  token_urlsafe : uuid -> string;
  jwt_encode : AccessPayload -> string -> string;
  jwt_decode : string -> string -> Z -> option AccessPayload;
  random_base32 : uuid -> string;
  totp_verify : string -> string -> Z -> bool;
  provisioning_uri : string -> string -> string -> string;
  fernet_encrypt : string -> string -> uuid -> string;
  fernet_decrypt : string -> string -> option string;
}.

(** What the program relies on: PyJWT gives back a payload signed under the
    same secret while [iat <= now < exp], and no token it made has spaces
    around it. *)
Class JwtLaws `{Crypto} : Prop := {
  jwt_decode_encode : forall p s now, ap_iat p * SECOND <= now ->
    jwt_decode (jwt_encode p s) s now = if now <? ap_exp p * SECOND then Some p else None;
  jwt_stripped : forall p s, strip (chars (jwt_encode p s)) = chars (jwt_encode p s);
}.

(** A password verifies against its own hash. *)
Class PasswordLaws `{Crypto} : Prop := {
  argon2_verify_hash : forall password salt, argon2_verify (argon2_hash password salt) password = Verified;
}.

(** The fields of [Settings] the account commands read. *)
Record Settings : Type := mkSettings {
  jwt_access_secret : option string;
  mfa_encryption_key : option string;
  access_token_ttl_user_seconds : Z;
  access_token_ttl_admin_seconds : Z;
  refresh_token_ttl_user_seconds : Z;
  refresh_token_ttl_admin_seconds : Z;
}.

Definition DEV_JWT_ACCESS_SECRET : string := "dev-only-insecure-jwt-access-secret-do-not-use-in-prod".
Definition DEV_MFA_ENCRYPTION_KEY : string := "ZGV2LW1mYS1rZXktZG8tbm90LXVzZS1pbi1wcm9kISE=".

(** A truthy string *)
Definition or_else (o : option string) (fallback : string) : string :=
  match o with
  | Some s => if String.eqb s "" then fallback else s
  | None => fallback
  end.
Definition resolved_jwt_access_secret (s : Settings) : string := or_else (jwt_access_secret s) DEV_JWT_ACCESS_SECRET.
Definition resolved_mfa_encryption_key (s : Settings) : string :=
  or_else (mfa_encryption_key s) DEV_MFA_ENCRYPTION_KEY.

Section Tokens.
  Context `{Crypto}.

(** ** [core/passwords.py] *)

Definition MIN_PASSWORD_LENGTH : Z := 8.

Definition verify_password (password_hash password : string) : res bool :=
  match argon2_verify password_hash password with
  | Verified => Ok true
  | VerifyMismatchError | InvalidHashError => Ok false
  | Argon2Error what => Raise (ExternalError what)
  end.

(** Computed once per process. *)
Definition dummy_password_hash : string := argon2_hash "dummy" dummy_salt.

Definition is_password_strong_enough (password : string) : bool := MIN_PASSWORD_LENGTH <=? py_len password.

(** ** [core/tokens.py] *)

Definition hash_refresh_token (token : string) : string := sha256_hex token.
Definition hash_url_token (token : string) : string := sha256_hex token.

(** [int(dt.timestamp())] *)
Definition timestamp (dt : datetime) : Z := dt_us dt ÷ SECOND.

Definition encode_access_token (secret : string) (sub : uuid) (role : string) (session_id : uuid)
    (ttl_seconds : Z) (now : datetime) (mfa_verified : bool) : string :=
  jwt_encode (mkPayload sub role session_id mfa_verified (timestamp now) (timestamp (dt_add now (ttl_seconds * SECOND))))
    secret.

(** [decode_access_token] without [now]: PyJWT tests the expiry. *)
Definition decode_access_token (secret token : string) (clock_us : Z) : res AccessPayload :=
  match jwt_decode token secret clock_us with
  | Some p => Ok p
  | None => Raise InvalidAccessTokenError
  end.

(** [secrets.compare_digest] on strings wants ASCII. *)
Definition is_ascii (s : string) : bool := forallb (fun c => Nat.ltb (Ascii.nat_of_ascii c) 128) (chars s).

Definition csrf_tokens_match (cookie_value header_value : option string) : res bool :=
  match cookie_value, header_value with
  | Some c, Some h =>
      if String.eqb c "" || String.eqb h "" then Ok false
      else if is_ascii c && is_ascii h then Ok (String.eqb c h)
      else Raise TypeError
  | _, _ => Ok false
  end.

(** ** Sessions *)

(** [IssuedSession] *)
Record IssuedSession : Type := mkIssued {
  is_access_token : string;
  is_refresh_token : string;
  is_csrf_token : string;
  is_role : string;
  is_session_id : uuid;
  is_access_expires_at : datetime;
  is_refresh_expires_at : datetime;
}.

Definition access_ttl_seconds (s : Settings) (role : string) : Z :=
  if String.eqb role "admin" then access_token_ttl_admin_seconds s else access_token_ttl_user_seconds s.
Definition refresh_ttl_seconds (s : Settings) (role : string) : Z :=
  if String.eqb role "admin" then refresh_token_ttl_admin_seconds s else refresh_token_ttl_user_seconds s.

Section Session.
  Context {P : Type}.

(** [hash_password] draws a salt, [generate_*_token] 32 random bytes. *)
Definition hash_password (password : string) : M P string :=
  do salt <- uuid4; ret (argon2_hash password salt).
Definition generate_token : M P string := do seed <- uuid4; ret (token_urlsafe seed).

Definition issue_session (settings : Settings) (user : UserData) (now : datetime)
    (parent_token_id : option uuid) (mfa_verified : bool) : M P IssuedSession :=
  let refresh_expires_at := dt_add now (refresh_ttl_seconds settings (us_role user) * SECOND) in
  do raw_refresh <- generate_token;
  do token_id <- create_token (us_id user) (hash_refresh_token raw_refresh) refresh_expires_at
                   parent_token_id mfa_verified;
  let access_ttl := access_ttl_seconds settings (us_role user) in
  let access_token := encode_access_token (resolved_jwt_access_secret settings) (us_id user) (us_role user)
                        token_id access_ttl now mfa_verified in
  do csrf_token <- generate_token;
  ret (mkIssued access_token raw_refresh csrf_token (us_role user) token_id
         (dt_add now (access_ttl * SECOND)) refresh_expires_at).

(** The session a run hands out and the row it stores for it. *)
Definition issued_session (settings : Settings) (user : UserData) (now : datetime) (mfa_verified : bool) (next : uuid)
  : IssuedSession :=
  mkIssued
    (encode_access_token (resolved_jwt_access_secret settings) (us_id user) (us_role user) (next + 1)
       (access_ttl_seconds settings (us_role user)) now mfa_verified)
    (token_urlsafe next) (token_urlsafe (next + 2)) (us_role user) (next + 1)
    (dt_add now (access_ttl_seconds settings (us_role user) * SECOND))
    (dt_add now (refresh_ttl_seconds settings (us_role user) * SECOND)).

Definition session_row (user : UserData) (s : IssuedSession) (parent : option uuid) (issued_at : datetime)
    (mfa_verified : bool) : RefreshTokenRow :=
  mkRefreshToken (us_id user) (hash_refresh_token (is_refresh_token s)) parent issued_at (is_refresh_expires_at s)
    None None mfa_verified.

Lemma issue_session_run settings user now parent mfa (w : world P) :
  let s := issued_session settings user now mfa (next_id w) in
  let row := session_row user s parent (db_now w) mfa in
  match token_violation (is_session_id s) row (pending w) with
  | None => issue_session settings user now parent mfa w =
      (Ok s, with_pending (set_refresh_tokens (<[is_session_id s := row]> (refresh_tokens (pending w))) (pending w))
               (with_ids 3 w))
  | Some c => issue_session settings user now parent mfa w = (Raise (IntegrityError c), with_ids 2 w)
  end.
Proof.
  intros s row. unfold issue_session, generate_token, create_token. run_session. unfold id.
  cbn [next_id durable pending provider outbox app_now db_now].
  fold (issued_session settings user now mfa (next_id w)). change (next_id w + 1) with (is_session_id s).
  change (mkRefreshToken _ _ _ _ _ _ _ _) with row. destruct (token_violation (is_session_id s) row (pending w)).
  - unfold with_ids. assert (E : next_id w + 2 = is_session_id s + 1) by (unfold s; cbn; lia). by rewrite E.
  - unfold with_ids, with_pending. cbn.
    assert (E : next_id w + 3 = next_id w + 1 + 1 + 1) by lia.
    assert (E' : next_id w + 2 = next_id w + 1 + 1) by lia. unfold s, issued_session. cbn. by rewrite E, E'.
Qed.

End Session.
End Tokens.

(** The tables after a session was opened. *)
Definition opened (s : IssuedSession) (row : RefreshTokenRow) (d : db) : db :=
  set_refresh_tokens (<[is_session_id s := row]> (refresh_tokens d)) d.

Lemma opened_ok d s row : auth_ok d -> token_violation (is_session_id s) row d = None -> auth_ok (opened s row d).
Proof. apply insert_token_ok. Qed.
Lemma logged_ok e a o now i d : auth_ok d -> auth_ok (logged e a o now i d).
Proof. by apply auth_ok_frame. Qed.
