(* ===== verification/AuthSamples.v ===== *)
(** * A toy cryptography and sample accounts

    Concrete instances for the witnesses of the account theorems: hashes that
    are readable, tokens that are numerals and a signature that is the secret
    itself. *)

From stdpp Require Import countable.
From Stdlib Require Import QArith.
From S2P Require Import Prelude Decimal Datetime Json Errors Price Tables Store AuthRepos Tokens Samples.

#[local] Open Scope string_scope.
#[local] Open Scope list_scope.
#[local] Open Scope Z_scope.

(** ** Numerals for positives *)

Fixpoint bits (p : positive) : list ascii :=
  match p with
  | xH => []
  | xO q => "0"%char :: bits q
  | xI q => "1"%char :: bits q
  end.
Fixpoint of_bits (l : list ascii) : positive :=
  match l with
  | [] => xH
  | c :: r => if Ascii.eqb c "0" then xO (of_bits r) else xI (of_bits r)
  end.

Lemma of_bits_bits p : of_bits (bits p) = p.
Proof. induction p as [p IH|p IH|]; cbn; by rewrite ?IH. Qed.

Lemma bits_printable p : Forall (fun c => is_space c = false) (bits p).
Proof. induction p; cbn; by constructor. Qed.

Lemma lstrip_printable l : Forall (fun c => is_space c = false) l -> lstrip l = l.
Proof. destruct 1 as [|c l Hc Hl]; [done|]. by apply lstrip_head. Qed.

Lemma strip_printable l : Forall (fun c => is_space c = false) l -> strip l = l.
Proof.
  intros Hl. unfold strip. rewrite (lstrip_printable l Hl), lstrip_printable; [apply rev_involutive|].
  by apply Forall_rev.
Qed.

(** ** The primitives *)

#[export] Instance payload_eq_dec : EqDecision AccessPayload.
Proof. solve_decision. Defined.
#[export] Instance payload_countable : Countable AccessPayload.
Proof.
  refine (inj_countable' (fun p => (ap_sub p, ap_role p, ap_session_id p, ap_mfa_verified p, ap_iat p, ap_exp p))
    (fun '(s, r, i, m, a, e) => mkPayload s r i m a e) _). by intros [].
Defined.

Definition numeral {A} `{Countable A} (a : A) : string := unchars (bits (encode a)).
Definition of_numeral {A} `{Countable A} (s : string) : option A := decode (of_bits (chars s)).

Lemma of_numeral_numeral {A} `{Countable A} (a : A) : of_numeral (numeral a) = Some a.
Proof. unfold of_numeral, numeral. by rewrite chars_unchars, of_bits_bits, decode_encode. Qed.

Definition toy_jwt_decode (token secret : string) (now : Z) : option AccessPayload :=
  match of_numeral (A := string * AccessPayload) token with
  | Some (s, p) =>
      if String.eqb s secret && (ap_iat p * SECOND <=? now) && (now <? ap_exp p * SECOND) then Some p else None
  | None => None
  end.

#[export] Instance toy_crypto : Crypto := {
  argon2_hash := fun password _ => ("argon2:" ++ password)%string;
  argon2_verify := fun h password => if String.eqb h ("argon2:" ++ password) then Verified else VerifyMismatchError;
  dummy_salt := 0;
  sha256_hex := fun token => ("sha256:" ++ token)%string;
  token_urlsafe := fun seed => numeral seed;
  jwt_encode := fun p secret => numeral (secret, p);
  jwt_decode := toy_jwt_decode;
  random_base32 := fun seed => numeral seed;
  totp_verify := fun secret code _ => String.eqb secret code;
  provisioning_uri := fun secret account issuer => (issuer ++ ":" ++ account ++ ":" ++ secret)%string;
  fernet_encrypt := fun key plain _ => (key ++ plain)%string;
  fernet_decrypt := fun key cipher =>
    if String.prefix key cipher then Some (String.substring (String.length key) (String.length cipher) cipher) else None;
}.

#[export] Instance toy_jwt_laws : JwtLaws.
Proof.
  split.
  - intros p s now Hiat. cbn. unfold toy_jwt_decode. rewrite of_numeral_numeral, String.eqb_refl.
    rewrite (proj2 (Z.leb_le _ _)) by lia. done.
  - intros p s. cbn. unfold numeral. rewrite chars_unchars. apply strip_printable, bits_printable.
Qed.

#[export] Instance toy_password_laws : PasswordLaws.
Proof. split. intros p s. cbn -[String.append]. by rewrite String.eqb_refl. Qed.

Definition sample_settings : Settings := mkSettings (Some "secret") (Some "key") 900 300 2592000 43200.

(** ** Accounts: user 7 of the sample database with a password, admin 9 *)

Definition sample_user : UserRow :=
  mkUser "a@b.c" (Some "argon2:password") "user" "active" false None None (DT 0 (Some 0)) (DT 0 (Some 0)).
Definition sample_admin : UserRow :=
  mkUser "root@b.c" (Some "argon2:toortoor") "admin" "active" true (Some "key42") None (DT 0 (Some 0)) (DT 0 (Some 0)).
Definition auth_db : db := set_users {[7 := sample_user; 9 := sample_admin]} sample_db.

Lemma auth_db_ok : auth_ok auth_db.
Proof.
  split; cbn; intros i j a b; try (by intros H; rewrite lookup_empty in H).
  rewrite !lookup_insert_Some, !lookup_singleton_Some. unfold same_email.
  intros [[<- <-]|[_ [<- <-]]] [[<- <-]|[_ [<- <-]]]; done.
Qed.
