(* ===== verification/Auth.v ===== *)
(** * Logging in, refreshing and logging out

    [src/app/commands/auth.py] and the request gates of [src/app/api/deps.py].
    The failure paths of a login commit what they consumed before they raise,
    so that the lockout accumulates; an error of the domain is re-raised
    without a rollback, anything else rolls back. *)

From Stdlib Require Import QArith.
From S2P Require Import Prelude Decimal Datetime Json Errors Price Tables Store CoreSchema AuditLog RateLimiter AuthRepos Tokens.

#[local] Open Scope string_scope.
#[local] Open Scope list_scope.
#[local] Open Scope Z_scope.

Definition LOGIN_BUCKET_CAPACITY : Q := 5.
Definition LOGIN_BUCKET_REFILL_PER_SECOND : Q := 1 # 900.
Definition LOGIN_IP_BUCKET_CAPACITY : Q := 20.
Definition LOGIN_IP_BUCKET_REFILL_PER_SECOND : Q := 20 # 900.

(** [LoginInput], [RefreshInput] and [LogoutInput] without the user agent and
    the request id; the IP of the last two is not used. *)
Record LoginInput : Type := mkLoginInput {
  li_email : string;
  li_password : string;
  li_now : datetime;
  li_ip : option string;
}.

Record RefreshInput : Type := mkRefreshInput {
  ri_raw_refresh_token : option string;
  ri_csrf_cookie : option string;
  ri_csrf_header : option string;
  ri_now : datetime;
}.

Section Auth.
  Context {P : Type} `{Crypto} (settings : Settings).

(** ** [LoginCommand] *)

Definition email_bucket (email : string) : string := ("login:" ++ normalize_email email)%string.
Definition ip_bucket (ip : string) : string := ("login:ip:" ++ ip)%string.

(** Commit, then raise. *)
Definition login_failed {A} (actor_id : option uuid) (now : datetime) (e : exn) : M P A :=
  do_ audit_write "login_failed" "user" actor_id now;
  do_ commit;
  raise e.

Definition ip_gate (inp : LoginInput) : M P unit :=
  match li_ip inp with
  | None => ret tt
  | Some ip =>
      do ip_decision <- consume (ip_bucket ip) LOGIN_IP_BUCKET_CAPACITY LOGIN_IP_BUCKET_REFILL_PER_SECOND 1 (li_now inp);
      if allowed ip_decision then ret tt
      else login_failed None (li_now inp) (LoginLockedError (retry_after_seconds ip_decision))
  end.

(** The hash the one verification runs against. *)
Definition stored_hash (user : option UserData) : string :=
  default dummy_password_hash (user ≫= us_password_hash).

(** The verification and the session. *)
Definition login_check (inp : LoginInput) : M P IssuedSession :=
  do user <- get_by_email (li_email inp);
  do password_ok <- lift (verify_password (stored_hash user) (li_password inp));
  match user with
  | None => login_failed None (li_now inp) LoginFailedError
  | Some u =>
      if negb (String.eqb (us_status u) "active" && is_some (us_password_hash u) && password_ok) then
        login_failed (Some (us_id u)) (li_now inp) LoginFailedError
      else
        do_ reset (email_bucket (li_email inp));
        do issued <- issue_session settings u (li_now inp) None false;
        do_ audit_write "login_success" (us_role u) (Some (us_id u)) (li_now inp);
        do_ commit;
        ret issued
  end.

Definition login_body (inp : LoginInput) : M P IssuedSession :=
  do_ ip_gate inp;
  do decision <- consume (email_bucket (li_email inp)) LOGIN_BUCKET_CAPACITY LOGIN_BUCKET_REFILL_PER_SECOND 1 (li_now inp);
  if negb (allowed decision) then
    login_failed None (li_now inp) (LoginLockedError (retry_after_seconds decision))
  else
    login_check inp.

Definition login (inp : LoginInput) : M P IssuedSession := transaction_keeping is_auth_error (login_body inp).

(** ** [RefreshCommand] *)

Definition refresh_body (inp : RefreshInput) : M P IssuedSession :=
  do csrf_ok <- lift (csrf_tokens_match (ri_csrf_cookie inp) (ri_csrf_header inp));
  if negb csrf_ok then raise CsrfFailedError else
  match ri_raw_refresh_token inp with
  | None => raise RefreshInvalidError
  | Some raw =>
      do found <- find_token (hash_refresh_token raw);
      match found with
      | None => raise RefreshInvalidError
      | Some (token_id, token) =>
          if is_some (rt_revoked_at token) then
            if opt_eqb String.eqb (rt_revoked_reason token) (Some "rotated") then
              do revoked <- revoke_all_active_for_user (rt_user_id token) "reuse_detected" (ri_now inp);
              do_ audit_write "refresh_reuse_detected" "user" (Some (rt_user_id token)) (ri_now inp);
              do_ commit;
              raise RefreshReuseDetectedError
            else raise RefreshInvalidError
          else if dt_us (rt_expires_at token) <=? dt_us (ri_now inp) then raise RefreshInvalidError
          else
            do user <- get_user (rt_user_id token);
            match user with
            | None => raise RefreshInvalidError
            | Some u =>
                if negb (String.eqb (us_status u) "active") then raise RefreshInvalidError
                else
                  do_ revoke token_id "rotated" (ri_now inp);
                  do issued <- issue_session settings u (ri_now inp) (Some token_id) (rt_mfa_verified token);
                  do_ audit_write "session_refreshed" (us_role u) (Some (us_id u)) (ri_now inp);
                  do_ commit;
                  ret issued
            end
      end
  end.

Definition refresh (inp : RefreshInput) : M P IssuedSession := transaction_keeping is_auth_error (refresh_body inp).

(** ** [LogoutCommand] *)

Definition logout_body (inp : RefreshInput) : M P unit :=
  match ri_raw_refresh_token inp with
  | None => ret tt
  | Some raw =>
      do csrf_ok <- lift (csrf_tokens_match (ri_csrf_cookie inp) (ri_csrf_header inp));
      if negb csrf_ok then raise CsrfFailedError else
      do found <- find_token (hash_refresh_token raw);
      do_ match found with
          | Some (token_id, token) =>
              when (is_none (rt_revoked_at token))
                (do_ revoke token_id "logout" (ri_now inp);
                 audit_write "logout" "user" (Some (rt_user_id token)) (ri_now inp))
          | None => ret tt
          end;
      commit
  end.

Definition logout (inp : RefreshInput) : M P unit := transaction_keeping is_auth_error (logout_body inp).

(** ** The gates of a request ([api/deps.py]) *)

(** [RequestUser] *)
Record RequestUser : Type := mkRequestUser {
  ru_user_id : uuid;
  ru_role : string;
  ru_session_id : uuid;
  ru_mfa_verified : bool;
}.

(** [get_current_user] *)
Definition get_current_user (authorization : option string) : M P RequestUser :=
  match authorization with
  | None => raise (ApiError "UNAUTHENTICATED" 401 None [])
  | Some header =>
      if negb (String.prefix "Bearer " header) then raise (ApiError "UNAUTHENTICATED" 401 None [])
      else
        let token := unchars (strip (skipn 7 (chars header))) in
        do now <- clock;
        match decode_access_token (resolved_jwt_access_secret settings) token (dt_us now) with
        | Ok claims => ret (mkRequestUser (ap_sub claims) (ap_role claims) (ap_session_id claims) (ap_mfa_verified claims))
        | Raise InvalidAccessTokenError => raise (ApiError "UNAUTHENTICATED" 401 None [])
        | Raise e => raise e
        end
  end.

(** [get_active_user] *)
Definition get_active_user (user : RequestUser) : M P RequestUser :=
  do token <- get_token (ru_session_id user);
  match token with
  | None => raise (ApiError "SESSION_REVOKED" 401 None [])
  | Some t =>
      if is_some (rt_revoked_at t) && negb (opt_eqb String.eqb (rt_revoked_reason t) (Some "rotated")) then
        if opt_eqb String.eqb (rt_revoked_reason t) (Some "account_disabled") then raise (ApiError "ACCOUNT_DISABLED" 403 None [])
        else raise (ApiError "SESSION_REVOKED" 401 None [])
      else ret user
  end.

(** [require_role] and [get_admin_user], on a user [get_active_user] let in *)
Definition require_role (required_role : string) (user : RequestUser) : M P RequestUser :=
  if negb (String.eqb (ru_role user) required_role) then raise (ApiError "FORBIDDEN" 403 None []) else ret user.
Definition get_admin_user (user : RequestUser) : M P RequestUser :=
  if negb (String.eqb (ru_role user) "admin") then raise (ApiError "FORBIDDEN" 403 None [])
  else if negb (ru_mfa_verified user) then raise (ApiError "MFA_REQUIRED" 403 None [])
  else ret user.

(** The dependency chain of a user endpoint and of an admin endpoint. *)
Definition authorize (authorization : option string) : M P RequestUser :=
  do user <- get_current_user authorization; get_active_user user.
Definition authorize_admin (authorization : option string) : M P RequestUser :=
  do user <- authorize authorization; get_admin_user user.

End Auth.

(** ** Signing in: the outcomes *)

Section LoginOutcomes.
  Context {P : Type} `{Crypto} (settings : Settings).
  Implicit Types (w : world P) (d : db) (inp : LoginInput).

(** The database after the IP gate and after the e-mail gate. *)
Definition ip_charged inp d : db :=
  match li_ip inp with
  | Some ip => charged (ip_bucket ip) LOGIN_IP_BUCKET_CAPACITY LOGIN_IP_BUCKET_REFILL_PER_SECOND 1 (li_now inp) d
  | None => d
  end.
Definition ip_open inp d : bool :=
  match li_ip inp with
  | Some ip => allowed (decision (ip_bucket ip) LOGIN_IP_BUCKET_CAPACITY LOGIN_IP_BUCKET_REFILL_PER_SECOND 1 (li_now inp) d)
  | None => true
  end.
Definition email_charged inp d : db :=
  charged (email_bucket (li_email inp)) LOGIN_BUCKET_CAPACITY LOGIN_BUCKET_REFILL_PER_SECOND 1 (li_now inp) (ip_charged inp d).
Definition email_open inp d : bool :=
  allowed (decision (email_bucket (li_email inp)) LOGIN_BUCKET_CAPACITY LOGIN_BUCKET_REFILL_PER_SECOND 1 (li_now inp)
             (ip_charged inp d)).

(** The account and the password are the right ones. *)
Definition credentials_ok inp d (u : UserData) : Prop :=
  user_by_email (li_email inp) d = Some u /\ us_status u = "active" /\
  exists h, us_password_hash u = Some h /\ argon2_verify h (li_password inp) = Verified.

Lemma login_failed_run {A} actor now e w : (login_failed actor now e : M P A) w =
  match audit_violation (next_id w) (mkAudit "login_failed" "user" actor now) (pending w) with
  | None => (Raise e, committed (with_pending (logged "login_failed" "user" actor now (next_id w) (pending w)) (with_ids 1 w)))
  | Some c => (Raise (IntegrityError c), with_ids 1 w)
  end.
Proof. unfold login_failed, bind. rewrite audit_run. by destruct (audit_violation _ _ _). Qed.

Lemma ip_gate_run inp w : ip_gate inp w =
  if ip_open inp (pending w) then (Ok tt, with_pending (ip_charged inp (pending w)) w)
  else match li_ip inp with
       | None => (Ok tt, w)
       | Some ip => login_failed None (li_now inp) (LoginLockedError (retry_after_seconds
           (decision (ip_bucket ip) LOGIN_IP_BUCKET_CAPACITY LOGIN_IP_BUCKET_REFILL_PER_SECOND 1 (li_now inp) (pending w))))
           (with_pending (ip_charged inp (pending w)) w)
       end.
Proof.
  unfold ip_gate, ip_open, ip_charged. destruct (li_ip inp) as [ip|]; [|by destruct w].
  unfold bind. rewrite consume_eq. by destruct (allowed _).
Qed.

(** The three ways a login ends, and the fourth: the infrastructure. *)
Definition login_result inp w (r : res IssuedSession) w' : Prop :=
  let d := durable w in
  match r with
  | Ok s => exists u, ip_open inp d = true /\ email_open inp d = true /\ credentials_ok inp d u /\
      s = issued_session settings u (li_now inp) false (next_id w) /\
      token_violation (is_session_id s) (session_row u s None (db_now w) false) d = None /\
      durable w' = logged "login_success" (us_role u) (Some (us_id u)) (li_now inp) (next_id w + 3)
        (set_refresh_tokens (<[is_session_id s := session_row u s None (db_now w) false]> (refresh_tokens d))
          (set_rate_buckets (delete (email_bucket (li_email inp)) (rate_buckets (email_charged inp d))) d))
  | Raise (LoginLockedError _) =>
      exists d1, durable w' = logged "login_failed" "user" None (li_now inp) (next_id w) d1 /\
        ((ip_open inp d = false /\ d1 = ip_charged inp d) \/
         (ip_open inp d = true /\ email_open inp d = false /\ d1 = email_charged inp d))
  | Raise LoginFailedError => ip_open inp d = true /\ email_open inp d = true /\ (forall u, ~ credentials_ok inp d u) /\
      durable w' = logged "login_failed" "user" (us_id <$> user_by_email (li_email inp) d) (li_now inp) (next_id w)
                     (email_charged inp d)
  | Raise e => durable w' = d /\ ((exists c, e = IntegrityError c) \/ (exists what, e = ExternalError what))
  end.

Lemma auth_ok_buckets t d : auth_ok d -> auth_ok (set_rate_buckets t d).
Proof. by apply auth_ok_frame. Qed.

Lemma login_check_cases inp w r w' : auth_ok (pending w) -> login_check settings inp w = (r, w') ->
  outbox w' = outbox w /\ provider w' = provider w /\
  let d := pending w in
  match r with
  | Ok s => exists u, credentials_ok inp d u /\ s = issued_session settings u (li_now inp) false (next_id w) /\
      token_violation (is_session_id s) (session_row u s None (db_now w) false) d = None /\ pending w' = durable w' /\
      durable w' = logged "login_success" (us_role u) (Some (us_id u)) (li_now inp) (next_id w + 3)
        (set_refresh_tokens (<[is_session_id s := session_row u s None (db_now w) false]> (refresh_tokens d))
          (set_rate_buckets (delete (email_bucket (li_email inp)) (rate_buckets d)) d))
  | Raise LoginFailedError => (forall u, ~ credentials_ok inp d u) /\ pending w' = durable w' /\
      durable w' = logged "login_failed" "user" (us_id <$> user_by_email (li_email inp) d) (li_now inp) (next_id w) d
  | Raise e => is_auth_error e = false /\ durable w' = durable w /\
      ((exists c, e = IntegrityError c) \/ (exists what, e = ExternalError what))
  end.
Proof.
  intros Hok. unfold login_check. unfold bind at 1. rewrite get_by_email_run by exact Hok.
  unfold credentials_ok. destruct (user_by_email (li_email inp) (pending w)) as [u|] eqn:Hf.
  2: { unfold bind at 1, lift. destruct (verify_password _ _) as [b|e] eqn:Hv.
       - rewrite login_failed_run. destruct (audit_violation _ _ _) as [c|]; intros [= <- <-]; cbn.
         + split; [done|]. split; [done|]. split; [done|]. split; [done|]. left. by exists c.
         + split; [done|]. split; [done|]. split; [naive_solver|done].
       - unfold verify_password in Hv. destruct (argon2_verify _ _) as [| | |what]; try done.
         injection Hv as <-. intros [= <- <-]. do 4 (split; [done|]). right. by exists what. }
  unfold bind at 1, lift. destruct (verify_password _ _) as [b|e] eqn:Hv.
  2: { unfold verify_password in Hv. destruct (argon2_verify _ _) as [| | |what]; try done.
       injection Hv as <-. intros [= <- <-]. do 4 (split; [done|]). right. by exists what. }
  destruct (String.eqb (us_status u) "active" && is_some (us_password_hash u) && b) eqn:Hauth; cbn [negb].
  - unfold bind at 1, reset, execute, modify. unfold bind at 1.
    set (w1 := with_pending _ w). pose proof (issue_session_run settings u (li_now inp) None false w1) as Hi.
    cbn zeta in Hi. destruct (token_violation _ _ (pending w1)) as [c|] eqn:Htv; rewrite Hi.
    { intros [= <- <-]. do 4 (split; [done|]). left. by exists c. }
    unfold bind at 1. rewrite audit_run. destruct (audit_violation _ _ _) as [c|].
    { intros [= <- <-]. do 4 (split; [done|]). left. by exists c. }
    intros [= <- <-]. split; [done|]. split; [done|]. exists u. b2p. split; [split; [done|]; split; [done|]|].
    + cbn in Hv. destruct (us_password_hash u) as [h|] eqn:Hh; [|done]. exists h. split; [done|].
      unfold verify_password in Hv. cbn in Hv. subst b. by destruct (argon2_verify h _).
    + done.
  - rewrite login_failed_run. destruct (audit_violation _ _ _) as [c|]; intros [= <- <-]; cbn.
    { do 4 (split; [done|]). left. by exists c. }
    split; [done|]. split; [done|]. split; [|done]. intros ? ([= <-] & Hst & h & Hh & Hver).
    unfold verify_password, stored_hash in Hv. cbn in Hv. rewrite Hh in Hv, Hauth. cbn in Hv. rewrite Hver in Hv.
    injection Hv as <-. by rewrite Hst in Hauth.
Qed.

Lemma login_cases inp w r w' : pending w = durable w -> auth_ok (durable w) -> login settings inp w = (r, w') ->
  login_result inp w r w' /\ pending w' = durable w' /\ outbox w' = outbox w /\ provider w' = provider w.
Proof.
  intros Hc Hok. unfold login, transaction_keeping, login_body, login_result.
  unfold try_except at 1. unfold bind at 1. rewrite ip_gate_run, Hc.
  destruct (ip_open inp (durable w)) eqn:Hip.
  2: { unfold ip_open in Hip. destruct (li_ip inp) as [ip|] eqn:Hli; [|done]. rewrite login_failed_run.
       destruct (audit_violation _ _ _) as [c|]; cbn; unfold rollback, bind, modify, raise; intros [= <- <-]; cbn.
       - split; [|done]. split; [done|]. left. by exists c.
       - split; [|done]. eexists. split; [reflexivity|]. by left. }
  unfold bind at 1. rewrite consume_eq. cbn [pending with_pending].
  change (allowed (decision (email_bucket (li_email inp)) LOGIN_BUCKET_CAPACITY LOGIN_BUCKET_REFILL_PER_SECOND 1
    (li_now inp) (ip_charged inp (durable w)))) with (email_open inp (durable w)).
  fold (email_charged inp (durable w)). destruct (email_open inp (durable w)) eqn:He; cbn [negb].
  2: { rewrite login_failed_run. destruct (audit_violation _ _ _) as [c|]; cbn; unfold rollback, bind, modify, raise;
         intros [= <- <-]; cbn.
       - split; [|done]. split; [done|]. left. by exists c.
       - split; [|done]. eexists. split; [reflexivity|]. by right. }
  assert (Hok2 : auth_ok (email_charged inp (durable w))).
  { unfold email_charged, charged, ip_charged. apply auth_ok_buckets. destruct (li_ip inp); [by apply auth_ok_buckets|done]. }
  assert (Hu : user_by_email (li_email inp) (email_charged inp (durable w)) = user_by_email (li_email inp) (durable w)).
  { unfold email_charged, charged, ip_charged. by destruct (li_ip inp). }
  assert (Ht : refresh_tokens (email_charged inp (durable w)) = refresh_tokens (durable w)).
  { unfold email_charged, charged, ip_charged. by destruct (li_ip inp). }
  assert (Hv : forall i row, token_violation i row (email_charged inp (durable w)) = token_violation i row (durable w)).
  { intros. unfold email_charged, charged, ip_charged. by destruct (li_ip inp). }
  assert (Hd : forall t b, set_refresh_tokens t (set_rate_buckets b (email_charged inp (durable w))) =
    set_refresh_tokens t (set_rate_buckets b (durable w))).
  { unfold email_charged, charged, ip_charged. by destruct (li_ip inp). }
  set (w1 := with_pending (email_charged inp (durable w)) _). destruct (login_check settings inp w1) as [r1 w1'] eqn:Hl.
  destruct (login_check_cases inp w1 r1 w1' Hok2 Hl) as (Ho & Hp & Hr). cbn zeta in Hr.
  unfold credentials_ok in *. change (pending w1) with (email_charged inp (durable w)) in Hr. rewrite Hu in Hr.
  destruct r1 as [s|e].
  - intros [= <- <-]. destruct Hr as (u & Hcred & -> & Hn & Hpd & Hdur). rewrite Ht, Hd in Hdur. rewrite Hv in Hn.
    split; [|done]. by exists u.
  - destruct (is_auth_error e) eqn:Ha; unfold bind, rollback, modify, raise; intros [= <- <-].
    + destruct e; destruct Hr as (Hr & ? & ?); try congruence. split; [|done]. by repeat split.
    + assert (He2 : durable w1' = durable w /\ ((exists c, e = IntegrityError c) \/ (exists what, e = ExternalError what))).
      { destruct e; try done; destruct Hr as (_ & ? & ?); done. }
      destruct He2 as [Hd1 He2]. split; [|by rewrite Hd1 || done]. destruct e; try (by split); by destruct He2 as [[]|[]].
Qed.

End LoginOutcomes.
