(* ===== verification/LoginSpec.v ===== *)
(** * What a login guarantees

    The outcomes of [LoginCommand] and the bound on the number of passwords
    that can be tried on one address. *)

From Stdlib Require Import QArith.
From S2P Require Import Prelude Decimal Datetime Errors Price Tables Store CoreSchema AuditLog RateLimiter AuthRepos Tokens AuthSamples Auth.

#[local] Open Scope string_scope.
#[local] Open Scope list_scope.
#[local] Open Scope Z_scope.

(** C25. Logging in.  The IP bucket is consulted first and the bucket of the
    address second; while one of them is empty the answer is LOGIN_LOCKED
    whatever the password.  Otherwise the answer is a session exactly when the
    address has an active account with that password, and it is the same
    LOGIN_FAILED for an unknown address, a disabled account and a wrong
    password.  What was consumed and the audit row are durable also after a
    failure; a success refunds the bucket of the address, never that of the IP,
    and stores only the hash of the refresh token it hands out.  A failure of
    the infrastructure leaves the database as it was. *)
Theorem login_outcomes {P} `{Crypto} (settings : Settings) (inp : LoginInput) (w w' : world P)
    (r : res IssuedSession) (Hclean : pending w = durable w) (Hok : auth_ok (durable w))
    (Hrun : login settings inp w = (r, w')) :
  let d := durable w in
  pending w' = durable w' /\
  match r with
  | Ok s => exists u, ip_open inp d = true /\ email_open inp d = true /\ credentials_ok inp d u /\
      s = issued_session settings u (li_now inp) false (next_id w) /\
      durable w' = logged "login_success" (us_role u) (Some (us_id u)) (li_now inp) (next_id w + 3)
        (set_refresh_tokens (<[is_session_id s := session_row u s None (db_now w) false]> (refresh_tokens d))
          (set_rate_buckets (delete (email_bucket (li_email inp)) (rate_buckets (email_charged inp d))) d))
  | Raise (LoginLockedError _) =>
      (ip_open inp d = false /\ durable w' = logged "login_failed" "user" None (li_now inp) (next_id w) (ip_charged inp d)) \/
      (ip_open inp d = true /\ email_open inp d = false /\
       durable w' = logged "login_failed" "user" None (li_now inp) (next_id w) (email_charged inp d))
  | Raise LoginFailedError => ip_open inp d = true /\ email_open inp d = true /\ (forall u, ~ credentials_ok inp d u) /\
      durable w' = logged "login_failed" "user" (us_id <$> user_by_email (li_email inp) d) (li_now inp) (next_id w)
                     (email_charged inp d)
  | Raise e => durable w' = d /\ ((exists c, e = IntegrityError c) \/ (exists what, e = ExternalError what))
  end.
Proof.
  destruct (login_cases settings inp w r w' Hclean Hok Hrun) as (Hr & Hp & _). split; [done|].
  unfold login_result in Hr. destruct r as [s|e].
  - destruct Hr as (u & Hi & He & Hc & -> & _ & Hd). by exists u.
  - destruct e; try exact Hr. destruct Hr as (d1 & -> & [[Hi ->]|(Hi & He & ->)]); [by left|by right].
Qed.

Definition login_world (d : db) : world unit := mkWorld d d tt 100 [] (DT 0 (Some 0)) (DT 0 (Some 0)).
Definition login_as (password : string) (at_second_ : Z) : LoginInput :=
  mkLoginInput " A@b.c" password (at_second at_second_) (Some "10.0.0.1").

Lemma login_outcomes_witness :
  (exists w', login sample_settings (login_as "guess" 0) (login_world auth_db) = (Raise LoginFailedError, w') /\
     forall u, ~ credentials_ok (login_as "guess" 0) auth_db u) /\
  exists s w', login sample_settings (login_as "password" 0) (login_world auth_db) = (Ok s, w') /\ is_session_id s = 101.
Proof.
  split.
  - destruct (login sample_settings (login_as "guess" 0) (login_world auth_db)) as [r w'] eqn:Hrun.
    assert (Hr : r = Raise LoginFailedError).
    { change r with (fst (r, w')). rewrite <-Hrun. vm_compute. reflexivity. }
    subst r. exists w'. split; [done|].
    by destruct (login_outcomes sample_settings (login_as "guess" 0) (login_world auth_db) w' _ eq_refl auth_db_ok Hrun) as (_ & _ & _ & Hc & _).
  - destruct (login sample_settings (login_as "password" 0) (login_world auth_db)) as [r w'] eqn:Hrun.
    assert (Hr : is_ok r = true).
    { change r with (fst (r, w')). rewrite <-Hrun. vm_compute. reflexivity. }
    destruct r as [s|]; [|done]. exists s, w'. split; [done|].
    by destruct (login_outcomes sample_settings (login_as "password" 0) (login_world auth_db) w' _ eq_refl auth_db_ok Hrun) as (_ & u & _ & _ & _ & -> & _).
Defined.

(** ** Guessing *)

Section Guessing.
  Context {P : Type} `{Crypto} (settings : Settings) (email : string).
  Implicit Types w : world P.

(** One attempt in a session of its own, and what it told about the password of
    the address: that it is wrong, that it is right, or, for a lockout, a
    failure of the infrastructure or an attempt on another address, nothing. *)
Definition at_address (inp : LoginInput) : bool := String.eqb (normalize_email (li_email inp)) (normalize_email email).
Definition told {A} (inp : LoginInput) (r : res A) : verdict :=
  if at_address inp then
    match r with
    | Ok _ => Refunded
    | Raise LoginFailedError => Counted
    | Raise _ => Spared
    end
  else Spared.
Definition attempt (w : world P) (inp : LoginInput) : verdict * world P :=
  let '(r, w') := with_session (login settings inp) w in (told inp r, w').

Definition address_bucket (w : world P) : option BucketRow := rate_buckets (durable w) !! email_bucket email.

(** The bucket of the source is another one. *)
Definition other_source (inp : LoginInput) : Prop := forall ip, li_ip inp = Some ip -> ip_bucket ip <> email_bucket email.

Lemma at_address_bucket inp : at_address inp = true <-> email_bucket (li_email inp) = email_bucket email.
Proof. unfold at_address, email_bucket. rewrite String.eqb_eq. split; [by intros ->|by intros [=]]. Qed.

Lemma ip_charged_auth inp d : users (ip_charged inp d) = users d /\ refresh_tokens (ip_charged inp d) = refresh_tokens d /\
  invitations (ip_charged inp d) = invitations d /\ password_resets (ip_charged inp d) = password_resets d.
Proof. unfold ip_charged, charged. by destruct (li_ip inp). Qed.

Lemma ip_charged_bucket inp d : other_source inp ->
  rate_buckets (ip_charged inp d) !! email_bucket email = rate_buckets d !! email_bucket email.
Proof.
  intros Hs. unfold ip_charged, charged. destruct (li_ip inp) as [ip|] eqn:Hi; [|done]. cbn.
  rewrite lookup_insert_ne; [done|by apply Hs].
Qed.

(** What a charge of the login's bucket does to the bucket of the address. *)
Lemma email_charged_bucket inp w : other_source inp ->
  rate_buckets (email_charged inp (durable w)) !! email_bucket email =
  if at_address inp then Some (fst (call_of address_bucket li_now LOGIN_BUCKET_CAPACITY LOGIN_BUCKET_REFILL_PER_SECOND w inp))
  else address_bucket w.
Proof.
  intros Hs. unfold email_charged, charged, call_of, address_bucket. cbn. destruct (at_address inp) eqn:Ha.
  - apply at_address_bucket in Ha as Hb. rewrite Hb, lookup_insert_eq. unfold bucket_at. by rewrite ip_charged_bucket.
  - rewrite lookup_insert_ne; [by apply ip_charged_bucket|]. intros He. by rewrite (proj2 (at_address_bucket inp) He) in Ha.
Qed.
Lemma email_open_call inp w : other_source inp -> at_address inp = true ->
  email_open inp (durable w) =
  allowed (snd (call_of address_bucket li_now LOGIN_BUCKET_CAPACITY LOGIN_BUCKET_REFILL_PER_SECOND w inp)).
Proof.
  intros Hs Hb%at_address_bucket. unfold email_open, decision, call_of, address_bucket, bucket_at. by rewrite Hb, ip_charged_bucket.
Qed.

(** The accounts stay well-formed. *)
Lemma login_keeps_ok inp w r w' : pending w = durable w -> auth_ok (durable w) -> login settings inp w = (r, w') -> auth_ok (durable w').
Proof.
  intros Hc Hok Hrun. destruct (login_cases settings inp w r w' Hc Hok Hrun) as (Hr & _). unfold login_result in Hr.
  destruct (ip_charged_auth inp (durable w)) as (Hu & Ht & Hi & Hp).
  assert (Hch : forall d1, d1 = ip_charged inp (durable w) \/ d1 = email_charged inp (durable w) -> auth_ok d1).
  { intros d1 Hd. eapply auth_ok_frame, Hok; destruct Hd as [-> | ->]; cbn; done. }
  destruct r as [s|e].
  - destruct Hr as (u & _ & _ & _ & _ & Hv & ->). apply logged_ok.
    set (d1 := set_rate_buckets _ (durable w)). change (refresh_tokens (durable w)) with (refresh_tokens d1).
    by apply insert_token_ok; [apply auth_ok_buckets|].
  - destruct e; try (destruct Hr as [-> _]; done).
    + destruct Hr as (_ & _ & _ & ->). apply logged_ok, Hch. by right.
    + destruct Hr as (d1 & -> & Hd). apply logged_ok, Hch. destruct Hd as [[_ ->]|(_ & _ & ->)]; auto.
Qed.

(** An attempt is one step of the throttle of the address. *)
Lemma attempt_step w inp : auth_ok (durable w) -> other_source inp ->
  auth_ok (durable (snd (attempt w inp))) /\
  throttled_step address_bucket li_now attempt LOGIN_BUCKET_CAPACITY LOGIN_BUCKET_REFILL_PER_SECOND w inp.
Proof.
  intros Hok Hs. unfold throttled_step, attempt. destruct (with_session _ w) as [r w'] eqn:Hrun. cbn [fst snd].
  apply session_cases in Hrun as (w1 & Hrun & Hd & _).
  pose proof (login_keeps_ok inp (opening w) r w1 eq_refl Hok Hrun) as Hok1.
  destruct (login_cases settings inp (opening w) r w1 eq_refl Hok Hrun) as (Hr & _). unfold login_result in Hr.
  change (durable (opening w)) with (durable w) in Hr. rewrite <-Hd in Hr, Hok1. split; [done|].
  pose proof (email_charged_bucket inp w Hs) as Hb. unfold told.
  destruct (at_address inp) eqn:Ha; [pose proof (email_open_call inp w Hs Ha) as Ho|].
  - destruct r as [s|e].
    + destruct Hr as (u & _ & Hopen & _ & _ & _ & Hdd). split; [|congruence]. unfold address_bucket. rewrite Hdd. cbn.
      apply at_address_bucket in Ha. by rewrite Ha, lookup_delete_eq.
    + destruct e; try (left; unfold address_bucket; by destruct Hr as [-> _]).
      * destruct Hr as (_ & Hopen & _ & Hdd). split; [|congruence]. unfold address_bucket at 1. by rewrite Hdd.
      * destruct Hr as (d1 & Hdd & [[_ ->]|(_ & _ & ->)]); unfold address_bucket at 1 3; rewrite Hdd; [left|by right].
        by apply ip_charged_bucket.
  - left. unfold address_bucket at 1. destruct r as [s|e].
    + destruct Hr as (u & _ & _ & _ & _ & _ & ->). cbn. rewrite lookup_delete_ne; [done|].
      intros He. by rewrite (proj2 (at_address_bucket inp) He) in Ha.
    + destruct e; try by destruct Hr as [-> _].
      * by destruct Hr as (_ & _ & _ & ->).
      * destruct Hr as (d1 & -> & [[_ ->]|(_ & _ & ->)]); [by apply ip_charged_bucket|done].
Qed.

End Guessing.

(** C28. Guessing is slow: over any sequence of logins in the order of time,
    right and wrong, on the address and on others, from whatever sources (but for
    an address that is spelled like the bucket of a source) and whatever fails in
    between, the attempts on the address that are answered LOGIN_FAILED are at most five,
    one more per fifteen minutes elapsed, and four more per successful login on
    the address, since a success gives its bucket back full. *)
Theorem login_guesses_bounded {P} `{Crypto} (settings : Settings) (email : string) (w : world P)
    (first : LoginInput) (rest : list LoginInput) (Hok : auth_ok (durable w))
    (Hsource : Forall (other_source email) (first :: rest))
    (Hbucket : sound_bucket (rate_buckets (durable w) !! email_bucket email) (dt_us (li_now first)))
    (Htimes : monotone (dt_us (li_now first)) (li_now <$> rest)) :
  let answers := fst (steps (attempt settings email) w (first :: rest)) in
  (counted answers <=
    5 + 4 * refunds answers +
    (total_seconds (last_time (dt_us (li_now first)) (li_now <$> rest)) -
     total_seconds (dt_us (li_now first))) / 900)%Q.
Proof.
  assert (E : forall x : Q, (x / 900 == x * (1 # 900))%Q) by (intros x; field). cbv zeta. rewrite E.
  apply (throttle_bound (address_bucket email) li_now (attempt settings email)
    (fun s => auth_ok (durable s)) (other_source email) 5 (1 # 900)); try done.
  intros s x Hs Hx. exact (attempt_step settings email s x Hs Hx).
Qed.

(** Four guesses, a login of the owner and seven more guesses within four
    minutes: nine are answered, the last two are not. *)
Lemma login_guesses_bounded_witness :
  let guess n := login_as "guess" (20 * n) in
  let rest := (guess <$> [1; 2; 3]) ++ login_as "password" 80 :: (guess <$> [5; 6; 7; 8; 9; 10; 11]) in
  let answers := fst (steps (attempt sample_settings "a@b.c") (login_world auth_db) (guess 0 :: rest)) in
  answers = [Counted; Counted; Counted; Counted; Refunded; Counted; Counted; Counted; Counted; Counted; Spared; Spared] /\
  (counted answers <=
    5 + 4 * refunds answers +
    (total_seconds (last_time (dt_us (at_second 0)) (li_now <$> rest)) - total_seconds (dt_us (at_second 0))) / 900)%Q.
Proof.
  intros guess rest answers. split; [vm_compute; reflexivity|].
  apply (login_guesses_bounded sample_settings "a@b.c" (login_world auth_db) (guess 0) rest auth_db_ok).
  - assert (Hw : forall p n, other_source "a@b.c" (login_as p n)) by (intros p n ip [= <-]; discriminate).
    unfold rest, guess. cbn. repeat (constructor; [apply Hw|]). constructor.
  - exact I.
  - vm_compute. repeat split; discriminate.
Defined.
