(* ===== verification/SessionSpec.v ===== *)
(** * What refreshing, logging out and the request gates guarantee

    The outcomes of [RefreshCommand] and [LogoutCommand], the detection of a
    replayed refresh token, and which access tokens the gates of [api/deps.py]
    accept. *)

From S2P Require Import Prelude Decimal Datetime Errors Price Tables Store CoreSchema AuditLog AuthRepos Tokens AuthSamples Auth.

#[local] Open Scope string_scope.
#[local] Open Scope list_scope.
#[local] Open Scope Z_scope.

(** ** Refreshing *)

Section Refresh.
  Context {P : Type} `{Crypto} (settings : Settings).
  Implicit Types (w : world P) (d : db).

(** The presented token is the stored one [id], [t], and the double-submit
    check passed. *)
Definition presented (inp : RefreshInput) d (id : uuid) (t : RefreshTokenRow) : Prop :=
  csrf_tokens_match (ri_csrf_cookie inp) (ri_csrf_header inp) = Ok true /\
  exists raw, ri_raw_refresh_token inp = Some raw /\ token_by_hash (hash_refresh_token raw) d = Some (id, t).

(** A token that may be exchanged, and its owner. *)
Definition refreshable (inp : RefreshInput) d (t : RefreshTokenRow) (u : UserData) : Prop :=
  rt_revoked_at t = None /\ dt_us (ri_now inp) < dt_us (rt_expires_at t) /\
  (exists row, users d !! rt_user_id t = Some row /\ u = to_user (rt_user_id t) row) /\ us_status u = "active".

Definition replayed (t : RefreshTokenRow) : Prop :=
  is_some (rt_revoked_at t) = true /\ rt_revoked_reason t = Some "rotated".

Lemma rotated_iff t : opt_eqb String.eqb (rt_revoked_reason t) (Some "rotated") = true <-> rt_revoked_reason t = Some "rotated".
Proof.
  destruct (rt_revoked_reason t) as [s|]; cbn; [|done]. rewrite String.eqb_eq. split; [by intros ->|by intros [= ->]].
Qed.

Definition refresh_result (inp : RefreshInput) w (r : res IssuedSession) w' : Prop :=
  let d := durable w in
  match r with
  | Ok s => exists id t u, presented inp d id t /\ refreshable inp d t u /\
      let row := session_row u s (Some id) (db_now w) (rt_mfa_verified t) in
      let d1 := revoked_one id "rotated" (ri_now inp) d in
      s = issued_session settings u (ri_now inp) (rt_mfa_verified t) (next_id w) /\
      token_violation (is_session_id s) row d1 = None /\
      durable w' = logged "session_refreshed" (us_role u) (Some (us_id u)) (ri_now inp) (next_id w + 3) (opened s row d1)
  | Raise RefreshReuseDetectedError => exists id t, presented inp d id t /\ replayed t /\
      durable w' = logged "refresh_reuse_detected" "user" (Some (rt_user_id t)) (ri_now inp) (next_id w)
        (revoked_all (rt_user_id t) "reuse_detected" (ri_now inp) d)
  | Raise CsrfFailedError => csrf_tokens_match (ri_csrf_cookie inp) (ri_csrf_header inp) = Ok false /\ durable w' = d
  | Raise RefreshInvalidError => durable w' = d /\
      csrf_tokens_match (ri_csrf_cookie inp) (ri_csrf_header inp) = Ok true /\
      forall id t, presented inp d id t -> ~ replayed t /\ forall u, ~ refreshable inp d t u
  | Raise e => durable w' = d /\ (e = TypeError \/ exists c, e = IntegrityError c)
  end.

(** The rotation itself. *)
Lemma rotate_cases inp id t u w r w' :
  (do_ revoke id "rotated" (ri_now inp);
   do issued <- issue_session settings u (ri_now inp) (Some id) (rt_mfa_verified t);
   do_ audit_write "session_refreshed" (us_role u) (Some (us_id u)) (ri_now inp);
   do_ commit; ret issued) w = (r, w') ->
  outbox w' = outbox w /\ provider w' = provider w /\
  match r with
  | Ok s =>
      let row := session_row u s (Some id) (db_now w) (rt_mfa_verified t) in
      let d1 := revoked_one id "rotated" (ri_now inp) (pending w) in
      s = issued_session settings u (ri_now inp) (rt_mfa_verified t) (next_id w) /\
      token_violation (is_session_id s) row d1 = None /\ pending w' = durable w' /\
      durable w' = logged "session_refreshed" (us_role u) (Some (us_id u)) (ri_now inp) (next_id w + 3) (opened s row d1)
  | Raise e => durable w' = durable w /\ exists c, e = IntegrityError c
  end.
Proof.
  unfold bind at 1. rewrite revoke_run. unfold bind at 1. set (w1 := with_pending _ w).
  pose proof (issue_session_run settings u (ri_now inp) (Some id) (rt_mfa_verified t) w1) as Hi. cbn zeta in Hi.
  destruct (token_violation _ _ (pending w1)) as [c|] eqn:Htv; rewrite Hi.
  { intros [= <- <-]. split; [done|]. split; [done|]. split; [done|]. by exists c. }
  unfold bind at 1. rewrite audit_run. destruct (audit_violation _ _ _) as [c|].
  { intros [= <- <-]. split; [done|]. split; [done|]. split; [done|]. by exists c. }
  intros [= <- <-]. split; [done|]. split; [done|]. split; [done|]. split; [exact Htv|]. split; [done|]. reflexivity.
Qed.

(** A refusal leaves everything as it was. *)
Ltac refused := intros [= <- <-]; split; [|done]; split; [done|]; split; [done|].

Lemma refresh_cases inp w r w' : pending w = durable w -> auth_ok (durable w) -> refresh settings inp w = (r, w') ->
  refresh_result inp w r w' /\ outbox w' = outbox w /\ provider w' = provider w.
Proof.
  intros Hc Hok. unfold refresh, transaction_keeping, refresh_body, try_except, refresh_result, presented.
  unfold bind at 1, lift. destruct (csrf_tokens_match _ _) as [[|]|e] eqn:Hcsrf; cbn [negb].
  2: by intros [= <- <-].
  2: { assert (e = TypeError) as ->.
       { revert Hcsrf. unfold csrf_tokens_match. destruct (ri_csrf_cookie inp), (ri_csrf_header inp); try done.
         destruct (_ || _); [done|]. destruct (_ && _); [done|]. by intros [= <-]. }
       intros [= <- <-]. split; [|done]. split; [done|]. by left. }
  destruct (ri_raw_refresh_token inp) as [raw|] eqn:Hraw.
  2: { refused; by intros id t (_ & raw & [=] & _). }
  unfold bind at 1. rewrite find_token_run by by rewrite Hc. rewrite Hc.
  destruct (token_by_hash (hash_refresh_token raw) (durable w)) as [[id t]|] eqn:Hf.
  2: { refused;
       intros id t (_ & raw' & [= <-] & Ht). congruence. }
  assert (Huniq : forall id' t', (Ok true = Ok true :> res bool /\ exists raw', Some raw = Some raw' /\
    token_by_hash (hash_refresh_token raw') (durable w) = Some (id', t')) -> t' = t).
  { intros id' t' (_ & raw' & [= <-] & Ht). congruence. }
  assert (Hpres : Ok true = Ok true :> res bool /\ exists raw', Some raw = Some raw' /\
    token_by_hash (hash_refresh_token raw') (durable w) = Some (id, t)) by (split; [done|]; by exists raw).
  destruct (is_some (rt_revoked_at t)) eqn:Hrev.
  { destruct (opt_eqb String.eqb (rt_revoked_reason t) (Some "rotated")) eqn:Hrot.
    - apply rotated_iff in Hrot. unfold bind at 1.
      destruct (revoke_all_run (rt_user_id t) "reuse_detected" (ri_now inp) w) as (n & Hn). rewrite Hn. unfold bind at 1.
      rewrite audit_run. destruct (audit_violation _ _ _) as [c|]; cbn; unfold rollback, bind, modify, raise; intros [= <- <-]; cbn.
      + split; [|done]. split; [done|]. right. by exists c.
      + split; [|done]. exists id, t. split; [exact Hpres|]. split; [done|]. by rewrite Hc.
    - refused; intros id' t' Hp. rewrite (Huniq id' t' Hp). split.
      + intros [_ Hr]. apply rotated_iff in Hr. congruence.
      + intros u (Hn & _). by rewrite Hn in Hrev. }
  assert (Hnr : ~ replayed t) by (intros [Hr _]; congruence).
  destruct (dt_us (rt_expires_at t) <=? dt_us (ri_now inp)) eqn:Hexp; b2p.
  { refused; intros id' t' Hp. rewrite (Huniq id' t' Hp).
    split; [done|]. intros u (_ & Hlt & _). lia. }
  unfold bind at 1, get_user, query, gets. rewrite Hc. destruct (users (durable w) !! rt_user_id t) as [urow|] eqn:Hu; cbn [fmap option_fmap option_map].
  2: { refused; intros id' t' Hp. rewrite (Huniq id' t' Hp).
       split; [done|]. intros u (_ & _ & (row & Hr & _) & _). congruence. }
  destruct (String.eqb (us_status _) "active") eqn:Hst; cbn [negb]; b2p.
  2: { refused; intros id' t' Hp. rewrite (Huniq id' t' Hp).
       split; [done|]. intros u (_ & _ & (row & Hr & ->) & Ha). apply Hst. congruence. }
  set (u := to_user (rt_user_id t) urow) in *.
  destruct ((do_ revoke id "rotated" (ri_now inp); _) w) as [r1 w1] eqn:Hrun.
  apply rotate_cases in Hrun as (Ho & Hp & Hr). destruct r1 as [s|e].
  - intros [= <- <-]. split; [|done]. exists id, t, u. split; [exact Hpres|]. rewrite Hc in Hr.
    destruct Hr as (Hs & Hv & _ & Hd). split; [|done]. split; [by destruct (rt_revoked_at t)|].
    split; [lia|]. split; [by exists urow|done].
  - destruct Hr as (Hd & c & ->). intros Hk. apply (keep_run _ _ w) in Hk as (-> & Hd' & Ho' & Hp'); [|done].
    split; [|split; congruence]. split; [done|]. right. by exists c.
Qed.

End Refresh.

(** ** Logging out *)

Section Logout.
  Context {P : Type} `{Crypto}.
  Implicit Types (w : world P) (d : db).

Definition logout_result (inp : RefreshInput) w (r : res unit) w' : Prop :=
  let d := durable w in
  match r with
  | Ok _ =>
      (ri_raw_refresh_token inp = None /\ durable w' = d) \/
      (exists raw, ri_raw_refresh_token inp = Some raw /\
         csrf_tokens_match (ri_csrf_cookie inp) (ri_csrf_header inp) = Ok true /\
         ((durable w' = d /\ forall id t, token_by_hash (hash_refresh_token raw) d = Some (id, t) ->
             is_some (rt_revoked_at t) = true) \/
          exists id t, token_by_hash (hash_refresh_token raw) d = Some (id, t) /\ rt_revoked_at t = None /\
            durable w' = logged "logout" "user" (Some (rt_user_id t)) (ri_now inp) (next_id w)
                           (revoked_one id "logout" (ri_now inp) d)))
  | Raise _ => durable w' = d
  end.

Lemma logout_cases inp w r w' : pending w = durable w -> auth_ok (durable w) -> logout inp w = (r, w') ->
  logout_result inp w r w' /\ outbox w' = outbox w /\ provider w' = provider w.
Proof.
  intros Hc Hok. unfold logout, transaction_keeping, logout_body, try_except, logout_result.
  destruct (ri_raw_refresh_token inp) as [raw|] eqn:Hraw.
  2: { intros [= <- <-]. split; [|done]. by left. }
  unfold bind at 1, lift. destruct (csrf_tokens_match _ _) as [[|]|e] eqn:Hcsrf; cbn [negb].
  2: by intros [= <- <-].
  2: { intros Hk. by apply (keep_run _ _ w) in Hk as (-> & Hd & Ho & Hp). }
  unfold bind at 1. rewrite find_token_run by by rewrite Hc. rewrite Hc. unfold bind at 1.
  destruct (token_by_hash (hash_refresh_token raw) (durable w)) as [[id t]|] eqn:Hf.
  2: { intros [= <- <-]. split; [|done]. right. exists raw. do 2 (split; [done|]). left. split; [exact Hc|]. intros id t Ht. congruence. }
  destruct (rt_revoked_at t) as [x|] eqn:Hrev; cbn [is_none is_some negb when].
  { intros [= <- <-]. split; [|done]. right. exists raw. do 2 (split; [done|]). left. split; [exact Hc|].
    intros id' t' Ht. assert (t' = t) as -> by congruence. by rewrite Hrev. }
  unfold bind at 1. rewrite revoke_run, audit_run. destruct (audit_violation _ _ _) as [c|].
  { intros Hk. apply (keep_run _ _ w) in Hk as (-> & Hd & Ho & Hp); [|done]. by rewrite Ho, Hp. }
  intros [= <- <-]. split; [|done]. right. exists raw. do 2 (split; [done|]). right. exists id, t. cbn. by rewrite Hc.
Qed.

End Logout.

(** ** Tokens that were presented twice *)

(** The chain after a rotation. *)
Lemma rotation_chain {P} `{Crypto} (settings : Settings) inp (w w' : world P) s :
  auth_ok (durable w) -> refresh_result settings inp w (Ok s) w' ->
  auth_ok (durable w') /\ exists raw id t parent,
    ri_raw_refresh_token inp = Some raw /\ refresh_tokens (durable w) !! id = Some t /\
    rt_token_hash t = hash_refresh_token raw /\
    token_by_hash (hash_refresh_token raw) (durable w') = Some (id, parent) /\ rt_user_id parent = rt_user_id t /\
    replayed parent /\
    exists child, refresh_tokens (durable w') !! is_session_id s = Some child /\ is_session_id s <> id /\
      rt_user_id child = rt_user_id t /\ rt_parent_token_id child = Some id /\ rt_revoked_at child = None /\
      rt_mfa_verified child = rt_mfa_verified t /\ rt_token_hash child = hash_refresh_token (is_refresh_token s).
Proof.
  intros Hok (id & t & u & (Hcsrf & raw & Hraw & Hf) & (Hn & Hexp & (urow & Hu & ->) & Hst) & Hs & Hv & Hd). cbn zeta in Hd.
  apply token_by_hash_Some in Hf as [Hid Hh]; [|done].
  assert (Hok' : auth_ok (durable w')).
  { rewrite Hd. apply logged_ok, opened_ok; [by apply revoked_one_ok|exact Hv]. }
  split; [done|]. pose proof (violation_absent _ _ _ Hv) as Habs.
  pose proof (revoked_one_lookup (durable w) id "rotated" (ri_now inp) id t Hid) as Hid1.
  rewrite Z.eqb_refl, Hn in Hid1. cbn [is_none is_some negb andb] in Hid1.
  assert (Hne : is_session_id s <> id) by (intros E; rewrite E in Habs; congruence).
  exists raw, id, t, (token_revoke (ri_now inp) "rotated" t). split; [done|]. split; [done|]. split; [done|]. split.
  { apply token_by_hash_Some; [done|]. split; [|done]. rewrite Hd. cbn. by rewrite lookup_insert_ne. }
  split; [done|]. split; [done|]. eexists. split; [rewrite Hd; cbn; by rewrite lookup_insert_eq|]. done.
Qed.

(** Presenting a rotated token. *)
Lemma replay_run {P} `{Crypto} (settings : Settings) inp (w : world P) raw id t :
  auth_ok (pending w) -> csrf_tokens_match (ri_csrf_cookie inp) (ri_csrf_header inp) = Ok true ->
  ri_raw_refresh_token inp = Some raw -> token_by_hash (hash_refresh_token raw) (pending w) = Some (id, t) ->
  replayed t -> audit_events (pending w) !! next_id w = None ->
  refresh settings inp w = (Raise RefreshReuseDetectedError,
    committed (with_pending (logged "refresh_reuse_detected" "user" (Some (rt_user_id t)) (ri_now inp) (next_id w)
      (revoked_all (rt_user_id t) "reuse_detected" (ri_now inp) (pending w))) (with_ids 1 w))).
Proof.
  intros Hok Hcsrf Hraw Hf [Hrev Hrot] Hfresh.
  unfold refresh, transaction_keeping, refresh_body, try_except, bind at 1, lift. rewrite Hcsrf. cbn [negb].
  rewrite Hraw. unfold bind at 1. rewrite find_token_run by exact Hok. rewrite Hf, Hrev, (proj2 (rotated_iff t) Hrot).
  unfold bind at 1. destruct (revoke_all_run (rt_user_id t) "reuse_detected" (ri_now inp) w) as (n & ->). unfold bind at 1.
  rewrite audit_run. unfold audit_violation. cbn. by rewrite Hfresh.
Qed.

(** Presenting a token that was revoked for another reason. *)
Lemma revoked_refused {P} `{Crypto} (settings : Settings) inp (w : world P) raw id t :
  auth_ok (pending w) -> csrf_tokens_match (ri_csrf_cookie inp) (ri_csrf_header inp) = Ok true ->
  ri_raw_refresh_token inp = Some raw -> token_by_hash (hash_refresh_token raw) (pending w) = Some (id, t) ->
  is_some (rt_revoked_at t) = true -> rt_revoked_reason t <> Some "rotated" ->
  refresh settings inp w = (Raise RefreshInvalidError, w).
Proof.
  intros Hok Hcsrf Hraw Hf Hrev Hrot.
  unfold refresh, transaction_keeping, refresh_body, try_except, bind at 1, lift. rewrite Hcsrf. cbn [negb].
  rewrite Hraw. unfold bind at 1. rewrite find_token_run by exact Hok. rewrite Hf, Hrev.
  destruct (opt_eqb _ _ _) eqn:Hr; [by apply rotated_iff in Hr|done].
Qed.

(** C13. A refresh token works once.  A successful refresh marks the presented
    token as rotated and opens one successor: same user, same second-factor
    state, the presented token as its parent.  Whoever presents the old token
    again, at any time and with a passing double-submit check, is answered
    REFRESH_REUSE_DETECTED, and from then on no session of that user is live:
    the successor is revoked too, so that its refresh token is refused and the
    access tokens of its session are rejected. *)
Theorem refresh_replay_kills_family {P} `{Crypto} (settings : Settings) (inp inp2 inp3 : RefreshInput)
    (w w1 w2 : world P) (s : IssuedSession) (r2 : res IssuedSession)
    (Hclean : pending w = durable w) (Hok : auth_ok (durable w))
    (Hrun : refresh settings inp w = (Ok s, w1))
    (Hsame : ri_raw_refresh_token inp2 = ri_raw_refresh_token inp)
    (Hcsrf : csrf_tokens_match (ri_csrf_cookie inp2) (ri_csrf_header inp2) = Ok true)
    (Hfresh : audit_events (durable w1) !! next_id w1 = None)
    (Hrun2 : with_session (refresh settings inp2) w1 = (r2, w2))
    (Hnext : ri_raw_refresh_token inp3 = Some (is_refresh_token s))
    (Hcsrf3 : csrf_tokens_match (ri_csrf_cookie inp3) (ri_csrf_header inp3) = Ok true) :
  r2 = Raise RefreshReuseDetectedError /\
  (exists user, (exists t, refresh_tokens (durable w2) !! is_session_id s = Some t /\ rt_user_id t = user) /\
     forall i t, refresh_tokens (durable w2) !! i = Some t -> rt_user_id t = user -> is_some (rt_revoked_at t) = true) /\
  fst (with_session (refresh settings inp3) w2) = Raise RefreshInvalidError /\
  forall user, ru_session_id user = is_session_id s -> fst (get_active_user user w2) = Raise (ApiError "SESSION_REVOKED" 401 None []).
Proof.
  destruct (refresh_cases settings inp w _ w1 Hclean Hok Hrun) as [H1 _].
  destruct (rotation_chain settings inp w w1 s Hok H1) as
    (Hok1 & raw & id & t & parent & Hraw & _ & _ & Hf & Hpu & Hrep & child & Hchild & Hne & Hcu & _ & Hlive & _ & Hch).
  revert Hrun2. unfold with_session at 1. set (w1' := with_pending (durable w1) w1).
  destruct (refresh settings inp2 w1') as [r w2'] eqn:Hr2. intros [= <- <-].
    assert (Hr : r = Raise RefreshReuseDetectedError /\ durable w2' =
    logged "refresh_reuse_detected" "user" (Some (rt_user_id parent)) (ri_now inp2) (next_id w1)
      (revoked_all (rt_user_id parent) "reuse_detected" (ri_now inp2) (durable w1))).
  { rewrite (replay_run settings inp2 w1' raw id parent) in Hr2; try done; [by injection Hr2 as <- <-|congruence]. }
  destruct Hr as [-> Hd2]. split; [done|].
  assert (Hall : forall i x, refresh_tokens (durable w2') !! i = Some x -> rt_user_id x = rt_user_id t ->
    is_some (rt_revoked_at x) = true).
  { intros i x. rewrite Hd2. cbn. intros (a & Ha & ->)%lookup_update_Some. unfold active_of. rewrite Hpu.
    destruct (rt_revoked_at a) eqn:Hra; cbn [is_none is_some negb]; [by rewrite andb_false_r, Hra|].
    rewrite andb_true_r. destruct (rt_user_id a =? rt_user_id t) eqn:Hau; [done|]. b2p. done. }
  assert (Hchild2 : refresh_tokens (durable w2') !! is_session_id s = Some (token_revoke (ri_now inp2) "reuse_detected" child)).
  { rewrite Hd2. cbn. rewrite lookup_update, Hchild. cbn. unfold active_of. by rewrite Hpu, Hcu, Z.eqb_refl, Hlive. }
  cbn [durable with_pending]. split; [|split].
  - exists (rt_user_id t). split; [|exact Hall]. by eexists.
  - assert (Hok2 : auth_ok (durable w2')) by (rewrite Hd2; by apply logged_ok, revoked_all_ok).
    unfold with_session. rewrite (revoked_refused settings inp3 _ (is_refresh_token s) (is_session_id s)
      (token_revoke (ri_now inp2) "reuse_detected" child)); try done.
    by apply token_by_hash_Some.
  - intros user Hu. unfold get_active_user, get_token, bind, query, gets. rewrite Hu. cbn [pending with_pending].
    by rewrite Hchild2.
Qed.

Definition csrf_pair (raw : string) (at_second_ : Z) : RefreshInput :=
  mkRefreshInput (Some raw) (Some "csrf") (Some "csrf") (DT (at_second_ * SECOND) (Some 0)).
Definition session_world : world unit :=
  mkWorld (set_refresh_tokens {[50 := mkRefreshToken 7 "sha256:first" None (DT 0 (Some 0)) (DT (90 * DAY) (Some 0)) None None false]} auth_db)
    (set_refresh_tokens {[50 := mkRefreshToken 7 "sha256:first" None (DT 0 (Some 0)) (DT (90 * DAY) (Some 0)) None None false]} auth_db)
    tt 100 [] (DT 0 (Some 0)) (DT 0 (Some 0)).

Lemma session_world_ok : auth_ok (durable session_world).
Proof.
  destruct auth_db_ok as [H1 _ H3 H4 H5]. split; try assumption. intros i j a b Ha Hb _. cbn in Ha, Hb.
  apply lookup_singleton_Some in Ha as [<- _]. by apply lookup_singleton_Some in Hb as [<- _].
Qed.

Lemma refresh_replay_kills_family_witness :
  exists s w1, refresh sample_settings (csrf_pair "first" 10) session_world = (Ok s, w1) /\
    fst (with_session (refresh sample_settings (csrf_pair "first" 20)) w1) = Raise RefreshReuseDetectedError.
Proof.
  destruct (refresh sample_settings (csrf_pair "first" 10) session_world) as [r w1] eqn:Hrun.
  assert (Hr : exists s, r = Ok s).
  { assert (H : is_ok (fst (r, w1)) = true) by (rewrite <-Hrun; vm_compute; reflexivity). destruct r as [s|]; [by exists s|done]. }
  destruct Hr as [s ->]. exists s, w1. split; [reflexivity|].
  assert (Hfresh : audit_events (durable w1) !! next_id w1 = None).
  { change w1 with (snd (@Ok exn _ s, w1)). rewrite <-Hrun. vm_compute. reflexivity. }
  destruct (with_session (refresh sample_settings (csrf_pair "first" 20)) w1) as [r2 w2] eqn:Hrun2.
  destruct (refresh_replay_kills_family sample_settings (csrf_pair "first" 10) (csrf_pair "first" 20)
    (csrf_pair (is_refresh_token s) 30) session_world w1 w2 s r2 eq_refl session_world_ok Hrun eq_refl eq_refl Hfresh Hrun2
    eq_refl eq_refl) as [-> _]. reflexivity.
Defined.

(** ** The gates *)

Lemma bearer_token token : String.prefix "Bearer " ("Bearer " ++ token)%string = true /\
  skipn 7 (chars ("Bearer " ++ token)) = chars token.
Proof. split; [|done]. by destruct token. Qed.

Lemma reason_iff (o : option string) (s : string) : opt_eqb String.eqb o (Some s) = true <-> o = Some s.
Proof. destruct o as [x|]; cbn; [|done]. rewrite String.eqb_eq. split; [by intros ->|by intros [= ->]]. Qed.

(** The answer of the session check on the row of the session. *)
Definition gate_answer (row : option RefreshTokenRow) (user : RequestUser) (r : res RequestUser) : Prop :=
  match r with
  | Ok u => u = user /\ exists t, row = Some t /\ (rt_revoked_at t = None \/ rt_revoked_reason t = Some "rotated")
  | Raise e =>
      (e = ApiError "ACCOUNT_DISABLED" 403 None [] /\ exists t, row = Some t /\ is_some (rt_revoked_at t) = true /\
         rt_revoked_reason t = Some "account_disabled") \/
      (e = ApiError "SESSION_REVOKED" 401 None [] /\ forall t, row = Some t -> is_some (rt_revoked_at t) = true /\
         rt_revoked_reason t <> Some "rotated" /\ rt_revoked_reason t <> Some "account_disabled")
  end.

Lemma get_active_user_cases {P} (user : RequestUser) (w : world P) : exists r, get_active_user user w = (r, w) /\
  gate_answer (refresh_tokens (pending w) !! ru_session_id user) user r.
Proof.
  unfold get_active_user, get_token, bind, query, gets.
  destruct (refresh_tokens (pending w) !! ru_session_id user) as [t|].
  2: { eexists. split; [reflexivity|]. right. by split. }
  destruct (is_some (rt_revoked_at t)) eqn:Hr; cbn [andb].
  2: { eexists. split; [reflexivity|]. split; [done|]. exists t. split; [done|]. left. by destruct (rt_revoked_at t). }
  destruct (opt_eqb _ _ (Some "rotated")) eqn:Hrot; cbn [negb].
  { eexists. split; [reflexivity|]. split; [done|]. exists t. split; [done|]. right. by apply reason_iff. }
  destruct (opt_eqb _ _ (Some "account_disabled")) eqn:Hdis; (eexists; split; [reflexivity|]).
  - left. split; [done|]. exists t. split; [done|]. split; [done|]. by apply reason_iff.
  - right. split; [done|]. intros t' [= <-]. split; [done|].
    split; intros E; apply reason_iff in E; congruence.
Qed.

(** A signed token, read back. *)
Lemma authorize_signed {P} `{Crypto} {Hlaws : JwtLaws} (settings : Settings) (sub session : uuid) (role : string)
    (ttl : Z) (issued : datetime) (mfa : bool) (w : world P) : timestamp issued * SECOND <= dt_us (app_now w) ->
  authorize settings (Some ("Bearer " ++ encode_access_token (resolved_jwt_access_secret settings) sub role session ttl
                                           issued mfa)%string) w =
    (if dt_us (app_now w) <? timestamp (dt_add issued (ttl * SECOND)) * SECOND
     then get_active_user (mkRequestUser sub role session mfa) w else (Raise (ApiError "UNAUTHENTICATED" 401 None []), w)).
Proof.
  intros Hiat. unfold authorize, get_current_user. destruct (bearer_token (encode_access_token (resolved_jwt_access_secret settings)
    sub role session ttl issued mfa)) as [-> ->]. cbn [negb].
  unfold encode_access_token. rewrite jwt_stripped, unchars_chars. unfold bind, clock, gets, decode_access_token.
  rewrite jwt_decode_encode by exact Hiat. cbn [ap_exp].
  destruct (dt_us (app_now w) <? _); reflexivity.
Qed.

(** What an access token opens, and for how long.  A token the program signed
    is accepted exactly while it has not expired and its session row is there
    and not revoked, or revoked only by rotation; the caller is then the user,
    role, session and second-factor state that were signed.  An expired token is
    UNAUTHENTICATED; a session closed because the account was disabled is
    ACCOUNT_DISABLED; any other closed or missing session is SESSION_REVOKED.
    The admin gate lets in exactly the admins among them whose session passed
    the second factor.  No request changes anything. *)
Theorem access_token_gate {P} `{Crypto} {Hlaws : JwtLaws} (settings : Settings) (sub session : uuid) (role : string)
    (ttl : Z) (issued : datetime) (mfa : bool) (w : world P) (Hiat : timestamp issued * SECOND <= dt_us (app_now w)) :
  let token := encode_access_token (resolved_jwt_access_secret settings) sub role session ttl issued mfa in
  let header := Some ("Bearer " ++ token)%string in
  let user := mkRequestUser sub role session mfa in
  exists r, authorize settings header w = (r, w) /\
    (if dt_us (app_now w) <? timestamp (dt_add issued (ttl * SECOND)) * SECOND
     then gate_answer (refresh_tokens (pending w) !! session) user r
     else r = Raise (ApiError "UNAUTHENTICATED" 401 None [])) /\
    authorize_admin settings header w =
      (match r with
       | Ok u => if String.eqb role "admin" then (if mfa then Ok u else Raise (ApiError "MFA_REQUIRED" 403 None []))
                 else Raise (ApiError "FORBIDDEN" 403 None [])
       | Raise e => Raise e
       end, w).
Proof.
  intros token header user. unfold authorize_admin, bind at 1.
  unfold header, user, token. rewrite (authorize_signed settings sub session role ttl issued mfa w Hiat).
  destruct (dt_us (app_now w) <? timestamp (dt_add issued (ttl * SECOND)) * SECOND).
  2: by eexists.
  destruct (get_active_user_cases (mkRequestUser sub role session mfa) w) as (r & -> & Hr).
  exists r. split; [done|]. split; [exact Hr|].
  destruct r as [u|e]; [|done]. destruct Hr as [-> _]. unfold get_admin_user. cbn.
  destruct (String.eqb role "admin"); [|done]. by destruct mfa.
Qed.

Lemma access_token_gate_witness :
  let token n := encode_access_token "secret" 7 "user" 50 900 (DT (n * SECOND) (Some 0)) false in
  (exists u, authorize sample_settings (Some ("Bearer " ++ token 0)%string) session_world = (Ok u, session_world)) /\
  exists r, authorize sample_settings (Some ("Bearer " ++ token (-900))%string) session_world = (r, session_world) /\
    r = Raise (ApiError "UNAUTHENTICATED" 401 None []).
Proof.
  intros token. split.
  - destruct (access_token_gate sample_settings 7 50 "user" 900 (DT 0 (Some 0)) false session_world ltac:(vm_compute; discriminate))
      as (r & H1 & H2 & _). cbn -[authorize encode_access_token gate_answer] in H2. destruct r as [u|e]; [by exists u|].
    exfalso. destruct H2 as [(_ & t & [= <-] & Hr & _)|(_ & Ht)]; [done|]. by destruct (Ht _ eq_refl).
  - destruct (access_token_gate sample_settings 7 50 "user" 900 (DT (-900 * SECOND) (Some 0)) false session_world
      ltac:(vm_compute; discriminate)) as (r & H1 & H2 & _).
    exists r. split; [exact H1|]. exact H2.
Defined.
