(* ===== verification/Account.v ===== *)
(** * Accounts: administration, password reset, two-factor authentication

    The commands on accounts other than the sessions, with the mailer they send
    through. *)

From Stdlib Require Import QArith.
From S2P Require Import Prelude Decimal Datetime Errors Price Tables Store CoreSchema AuditLog RateLimiter AuthRepos Tokens.
From S2P Require IntentRepo LegacyRepo.

#[local] Open Scope string_scope.
#[local] Open Scope list_scope.
#[local] Open Scope Z_scope.

(** ** The mailer

    [src/app/services/mailer.py]: the interface the account commands send
    through.  What a mailer does to the outside is kept in its own state [P];
    the one law is that it does not write to the program's database.  The SMTP
    sender is the outside; the logging stub is an instance. *)

(** [MailMessage] *)
Record MailMessage : Type := mkMail { mail_to : string; mail_subject : string; mail_body : string }.

(** [Mailer] *)
Class Mailer (P : Type) : Type := { mail_send : MailMessage -> M P unit }.
Class MailerLaws (P : Type) `{Mailer P} : Prop := { mail_quiet : forall m, quiet (mail_send m) }.

(** [LoggingMailer] *)
#[export] Instance LoggingMailer : Mailer unit := { mail_send := fun _ => ret tt }.
#[export] Instance logging_laws : MailerLaws unit.
Proof. split. intros m. apply quiet_ret. Qed.

(** A mailer that remembers what it delivered and is down for some addresses. *)
Record post_office : Type := mkPost { delivered : list MailMessage; refuses : string -> bool }.
#[export] Instance PostOffice : Mailer post_office := {
  mail_send := fun m w =>
    if refuses (provider w) (mail_to m) then (Raise (ExternalError "SMTPException"), w)
    else (Ok tt, with_provider (mkPost (delivered (provider w) ++ [m]) (refuses (provider w))) w)
}.
#[export] Instance post_laws : MailerLaws post_office.
Proof. split. intros m w r w'. cbn. destruct (refuses _ _); by intros [= _ <-]. Qed.

(** ** Account administration

    [src/app/commands/account.py]: inviting, provisioning, accepting an
    invitation, disabling, reactivating and re-inviting.  Every command is one
    transaction; errors of the domain are re-raised as they are, everything
    else rolls back. *)

Definition INVITATION_TTL : Z := 24 * HOUR.
Definition ACCOUNT_DISABLED_INTENT_STATUS : string := "cancelled_by_account_disabled".
Definition RESEND_CAPACITY : Q := 3.
Definition RESEND_REFILL_PER_SECOND : Q := 3 # 3600.

(** [except (AuthError, AccountError): raise] *)
Definition is_domain_error (e : exn) : bool := is_auth_error e || is_account_error e.

(** The handlers of the two commands that create a user: losing the race for
    the address is the same error as finding it taken. *)
Definition transaction_creating {P A} (c : M P A) : M P A :=
  try_except c (fun e =>
    if is_domain_error e then raise e
    else
      do_ rollback;
      match e with
      | IntegrityError constraint_name =>
          if String.eqb constraint_name "uq_users_email" then raise EmailAlreadyExistsError else raise e
      | _ => raise e
      end).

Record CreateUserInput : Type := mkCreateUser {
  cu_email : string;
  cu_role : string;
  cu_created_by_admin_id : uuid;
  cu_now : datetime;
}.
Record ProvisionUserInput : Type := mkProvision {
  pu_email : string;
  pu_password : string;
  pu_role : string;
  pu_created_by_admin_id : uuid;
  pu_now : datetime;
}.
Record AcceptInvitationInput : Type := mkAccept {
  ac_raw_token : string;
  ac_password : string;
  ac_now : datetime;
}.
(** [DisableUserInput], [ResendInvitationInput] and [ReactivateUserInput] *)
Record AdminInput : Type := mkAdmin {
  ad_target_user_id : uuid;
  ad_actor_admin_id : uuid;
  ad_now : datetime;
}.

Section Account.
  Context {P : Type} `{Crypto} `{Mailer P} (settings : Settings) (base_url : string).

(** [_send_invitation_mail] *)
Definition send_invitation_mail (email raw_token : string) : M P unit :=
  mail_send (mkMail email "您的帳號邀請"
    ("請於 24 小時內點選連結設定密碼並啟用帳號：" ++ base_url ++ "/accept-invitation?token=" ++ raw_token)%string).

(** [CreateUserCommand] *)
Definition create_user_body (inp : CreateUserInput) : M P uuid :=
  let email := normalize_email (cu_email inp) in
  do taken <- get_by_email email;
  if is_some taken then raise EmailAlreadyExistsError
  else
    do user_id <- create_invited email (cu_role inp);
    do raw_token <- generate_token;
    do_ create_invitation user_id (hash_url_token raw_token) (dt_add (cu_now inp) INVITATION_TTL)
          (cu_created_by_admin_id inp);
    do_ send_invitation_mail email raw_token;
    do_ audit_write "account_invited" "admin" (Some (cu_created_by_admin_id inp)) (cu_now inp);
    do_ commit;
    ret user_id.
Definition create_user (inp : CreateUserInput) : M P uuid := transaction_creating (create_user_body inp).

(** [ProvisionUserCommand] *)
Definition provision_user_body (inp : ProvisionUserInput) : M P uuid :=
  do taken <- get_by_email (pu_email inp);
  if is_some taken then raise EmailAlreadyExistsError
  else if negb (is_password_strong_enough (pu_password inp)) then raise WeakPasswordError
  else
    do password_hash <- hash_password (pu_password inp);
    do user_id <- create_active (pu_email inp) (pu_role inp) password_hash;
    do_ audit_write "account_provisioned_by_admin" "admin" (Some (pu_created_by_admin_id inp)) (pu_now inp);
    do_ commit;
    ret user_id.
Definition provision_user (inp : ProvisionUserInput) : M P uuid := transaction_creating (provision_user_body inp).

(** [AcceptInvitationCommand] *)
Definition accept_invitation_body (inp : AcceptInvitationInput) : M P IssuedSession :=
  do found <- find_invitation (hash_url_token (ac_raw_token inp));
  match found with
  | None => raise InvitationInvalidError
  | Some (invitation_id, invitation) =>
      if is_some (inv_revoked_at invitation) then raise InvitationInvalidError
      else if is_some (inv_consumed_at invitation) then raise InvitationConsumedError
      else if dt_us (inv_expires_at invitation) <=? dt_us (ac_now inp) then raise InvitationExpiredError
      else if negb (is_password_strong_enough (ac_password inp)) then raise WeakPasswordError
      else
        do user <- get_user (inv_user_id invitation);
        match user with
        | None => raise InvitationInvalidError
        | Some u =>
            if negb (String.eqb (us_status u) "invited") then raise InvitationInvalidError
            else
              do password_hash <- hash_password (ac_password inp);
              do_ activate (us_id u) password_hash (ac_now inp);
              do_ consume_invitation invitation_id (ac_now inp);
              do issued <- issue_session settings u (ac_now inp) None false;
              do_ audit_write "account_activated" (us_role u) (Some (us_id u)) (ac_now inp);
              do_ commit;
              ret issued
        end
  end.
Definition accept_invitation (inp : AcceptInvitationInput) : M P IssuedSession :=
  transaction_keeping is_domain_error (accept_invitation_body inp).

(** [DisableUserCommand]: the account, its open intents on both tracks and
    its live sessions. *)
Definition disable_user_body (inp : AdminInput) : M P unit :=
  do user <- get_user (ad_target_user_id inp);
  match user with
  | None => raise UserNotFoundError
  | Some u =>
      do_ disable (us_id u) (ad_now inp);
      do legacy_cancelled <- LegacyRepo.cancel_active_for_owner (us_id u) ACCOUNT_DISABLED_INTENT_STATUS (ad_now inp);
      do core_cancelled <- IntentRepo.cancel_active_for_owner (us_id u) ACCOUNT_DISABLED_INTENT_STATUS (ad_now inp);
      do revoked <- revoke_all_active_for_user (us_id u) "account_disabled" (ad_now inp);
      do_ audit_write "account_disabled" "admin" (Some (ad_actor_admin_id inp)) (ad_now inp);
      commit
  end.
Definition disable_user (inp : AdminInput) : M P unit := transaction_keeping is_domain_error (disable_user_body inp).

(** [ReactivateUserCommand] *)
Definition reactivate_user_body (inp : AdminInput) : M P unit :=
  do user <- get_user (ad_target_user_id inp);
  match user with
  | None => raise UserNotFoundError
  | Some u =>
      if negb (String.eqb (us_status u) "disabled") then raise AccountNotDisabledError
      else
        do_ reactivate (us_id u) (ad_now inp);
        do_ audit_write "account_reactivated" "admin" (Some (ad_actor_admin_id inp)) (ad_now inp);
        commit
  end.
Definition reactivate_user (inp : AdminInput) : M P unit :=
  transaction_keeping is_domain_error (reactivate_user_body inp).

(** [ResendInvitationCommand]; [str] of a UUID is the parameter [uuid_text]. *)
Definition resend_invitation_body (uuid_text : uuid -> string) (inp : AdminInput) : M P unit :=
  do user <- get_user (ad_target_user_id inp);
  match user with
  | None => raise UserNotFoundError
  | Some u =>
      if negb (String.eqb (us_status u) "invited") then raise InvitationInvalidError
      else
        do decision <- consume ("invitation_resend:" ++ uuid_text (us_id u))%string RESEND_CAPACITY RESEND_REFILL_PER_SECOND 1
                         (ad_now inp);
        if negb (allowed decision) then
          do_ commit;
          raise (RateLimitedError (retry_after_seconds decision))
        else
          do_ revoke_active_invitation (us_id u) (ad_now inp);
          do raw_token <- generate_token;
          do_ create_invitation (us_id u) (hash_url_token raw_token) (dt_add (ad_now inp) INVITATION_TTL)
                (ad_actor_admin_id inp);
          do_ send_invitation_mail (us_email u) raw_token;
          do_ audit_write "invitation_resent" "admin" (Some (ad_actor_admin_id inp)) (ad_now inp);
          commit
  end.
Definition resend_invitation (uuid_text : uuid -> string) (inp : AdminInput) : M P unit :=
  transaction_keeping is_domain_error (resend_invitation_body uuid_text inp).

End Account.

(** ** Password reset

    [src/app/commands/password_reset.py].  Asking for a reset always succeeds
    for the caller; the mail goes out after the commit and a failing mailer is
    only logged. *)

Definition RESET_TTL : Z := 30 * MINUTE.
Definition EMAIL_CAPACITY : Q := 3.
Definition EMAIL_REFILL_PER_SECOND : Q := 3 # 3600.
Definition IP_CAPACITY : Q := 10.
Definition IP_REFILL_PER_SECOND : Q := 10 # 3600.

Record PasswordResetRequestInput : Type := mkResetRequest {
  pq_email : string;
  pq_now : datetime;
  pq_ip : option string;
}.
Record PasswordResetConfirmInput : Type := mkResetConfirm {
  pc_raw_token : string;
  pc_new_password : string;
  pc_now : datetime;
}.

Section PasswordReset.
  Context {P : Type} `{Crypto} `{Mailer P} (base_url : string).

Definition reset_mail (email raw_token : string) : MailMessage :=
  mkMail email "重設密碼"
    ("請於 30 分鐘內點選連結重設密碼：" ++ base_url ++ "/reset-password?token=" ++ raw_token)%string.

(** The two throttles: both are consumed, whatever the first one says. *)
Definition reset_throttles (inp : PasswordResetRequestInput) : M P bool :=
  let email := normalize_email (pq_email inp) in
  do by_email <- consume ("pwreset:email:" ++ email)%string EMAIL_CAPACITY EMAIL_REFILL_PER_SECOND 1 (pq_now inp);
  match pq_ip inp with
  | None => ret (allowed by_email)
  | Some ip =>
      do by_ip <- consume ("pwreset:ip:" ++ ip)%string IP_CAPACITY IP_REFILL_PER_SECOND 1 (pq_now inp);
      ret (allowed by_email && allowed by_ip)
  end.

(** The transaction of [PasswordResetRequestCommand]: the mail to send. *)
Definition reset_request_body (inp : PasswordResetRequestInput) : M P (option MailMessage) :=
  do within_limits <- reset_throttles inp;
  do mail <-
    (if within_limits : bool then
       do user <- get_by_email (pq_email inp);
       match user with
       | None => ret None
       | Some u =>
           if String.eqb (us_status u) "active" then
             do raw_token <- generate_token;
             do_ create_reset (us_id u) (hash_url_token raw_token) (dt_add (pq_now inp) RESET_TTL);
             do_ audit_write "password_reset_requested" "user" (Some (us_id u)) (pq_now inp);
             ret (Some (reset_mail (us_email u) raw_token))
           else ret None
       end
     else ret None);
  do_ commit;
  ret mail.

(** [PasswordResetRequestCommand] *)
Definition request_password_reset (inp : PasswordResetRequestInput) : M P unit :=
  do mail <- transaction (reset_request_body inp);
  match mail with
  | None => ret tt
  | Some m => try_except (mail_send m) (fun _ => ret tt)
  end.

(** [PasswordResetConfirmCommand] *)
Definition reset_confirm_body (inp : PasswordResetConfirmInput) : M P unit :=
  do found <- find_reset (hash_url_token (pc_raw_token inp));
  match found with
  | None => raise PasswordResetInvalidError
  | Some (reset_id, reset) =>
      if is_some (pr_consumed_at reset) || (dt_us (pr_expires_at reset) <=? dt_us (pc_now inp)) then
        raise PasswordResetInvalidError
      else if negb (is_password_strong_enough (pc_new_password inp)) then raise WeakPasswordError
      else
        do user <- get_user (pr_user_id reset);
        match user with
        | None => raise PasswordResetInvalidError
        | Some u =>
            if negb (String.eqb (us_status u) "active") then raise PasswordResetInvalidError
            else
              do password_hash <- hash_password (pc_new_password inp);
              do_ set_password (us_id u) password_hash (pc_now inp);
              do_ consume_reset reset_id (pc_now inp);
              do revoked <- revoke_all_active_for_user (us_id u) "password_reset" (pc_now inp);
              do_ audit_write "password_reset_completed" "user" (Some (us_id u)) (pc_now inp);
              commit
        end
  end.
Definition confirm_password_reset (inp : PasswordResetConfirmInput) : M P unit :=
  transaction_keeping is_domain_error (reset_confirm_body inp).

End PasswordReset.

(** ** Two-factor authentication of admins

    [src/app/commands/two_factor.py] over the TOTP and encryption primitives of
    [Tokens].  Like a login, a refused code commits the attempt before it
    raises. *)

Definition TOTP_ISSUER : string := "ai-stock".
Definition VERIFY_2FA_CAPACITY : Q := 5.
Definition VERIFY_2FA_REFILL_PER_SECOND : Q := 1 # 900.

(** [SetupTwoFactorResult], [VerifyTwoFactorInput] and [VerifyTwoFactorResult] *)
Record SetupTwoFactorResult : Type := mkSetup { st_provisioning_uri : string; st_secret : string }.
Record VerifyTwoFactorInput : Type := mkVerify {
  vf_admin_user_id : uuid;
  vf_session_id : uuid;
  vf_code : string;
  vf_now : datetime;
}.
Record VerifyTwoFactorResult : Type := mkVerified { vr_access_token : string; vr_expires_in : Z; vr_role : string }.

Section TwoFactor.
  Context {P : Type} `{Crypto} (settings : Settings) (uuid_text : uuid -> string).

(** [generate_totp_secret] and [encrypt_secret] draw their own randomness. *)
Definition generate_totp_secret : M P string := do seed <- uuid4; ret (random_base32 seed).
Definition encrypt_secret (key plaintext : string) : M P string :=
  do nonce <- uuid4; ret (fernet_encrypt key plaintext nonce).
Definition decrypt_secret (key ciphertext : string) : res string :=
  match fernet_decrypt key ciphertext with
  | Some plaintext => Ok plaintext
  | None => Raise (ExternalError "InvalidToken")
  end.

(** [SetupTwoFactorCommand] *)
Definition setup_body (admin_user_id : uuid) (now : datetime) : M P SetupTwoFactorResult :=
  do user <- get_user admin_user_id;
  match user with
  | None => raise ForbiddenError
  | Some u =>
      if negb (String.eqb (us_role u) "admin") then raise ForbiddenError
      else if us_mfa_enabled u then raise MfaAlreadyEnabledError
      else
        do secret <- generate_totp_secret;
        do encrypted <- encrypt_secret (resolved_mfa_encryption_key settings) secret;
        do_ set_mfa_secret (us_id u) encrypted now;
        do_ commit;
        ret (mkSetup (provisioning_uri secret (us_email u) TOTP_ISSUER) secret)
  end.
Definition setup_two_factor (admin_user_id : uuid) (now : datetime) : M P SetupTwoFactorResult :=
  transaction_keeping is_domain_error (setup_body admin_user_id now).

Definition verify_bucket (admin_user_id : uuid) : string := ("2fa_verify:" ++ uuid_text admin_user_id)%string.

(** What a correct code does. *)
Definition elevate (inp : VerifyTwoFactorInput) (u : UserData) : M P VerifyTwoFactorResult :=
  do_ reset (verify_bucket (vf_admin_user_id inp));
  do_ when (negb (us_mfa_enabled u))
        (do_ enable_mfa (us_id u) (vf_now inp);
         audit_write "admin_2fa_enabled" "admin" (Some (us_id u)) (vf_now inp));
  do_ mark_mfa_verified (vf_session_id inp);
  let access_ttl := access_token_ttl_admin_seconds settings in
  let access_token := encode_access_token (resolved_jwt_access_secret settings) (us_id u) (us_role u)
                        (vf_session_id inp) access_ttl (vf_now inp) true in
  do_ audit_write "admin_2fa_verified" "admin" (Some (us_id u)) (vf_now inp);
  do_ commit;
  ret (mkVerified access_token access_ttl (us_role u)).

(** [VerifyTwoFactorCommand]; the code is checked against the system clock. *)
Definition verify_body (inp : VerifyTwoFactorInput) : M P VerifyTwoFactorResult :=
  do user <- get_user (vf_admin_user_id inp);
  match user with
  | None => raise ForbiddenError
  | Some u =>
      if negb (String.eqb (us_role u) "admin") then raise ForbiddenError
      else
        do decision <- consume (verify_bucket (vf_admin_user_id inp)) VERIFY_2FA_CAPACITY VERIFY_2FA_REFILL_PER_SECOND 1
                         (vf_now inp);
        if negb (allowed decision) then
          do_ audit_write "admin_2fa_verify_locked" "admin" (Some (us_id u)) (vf_now inp);
          do_ commit;
          raise (RateLimitedError (retry_after_seconds decision))
        else
          do encrypted <- get_mfa_secret_encrypted (us_id u);
          match encrypted with
          | None => raise MfaNotSetupError
          | Some e =>
              do secret <- lift (decrypt_secret (resolved_mfa_encryption_key settings) e);
              do host_now <- clock;
              if negb (totp_verify secret (vf_code inp) (dt_us host_now)) then
                do_ commit;
                raise MfaInvalidCodeError
              else elevate inp u
          end
  end.
Definition verify_two_factor (inp : VerifyTwoFactorInput) : M P VerifyTwoFactorResult :=
  transaction_keeping is_domain_error (verify_body inp).

End TwoFactor.
