(* ===== verification/AccountSpec.v ===== *)
(** * What account administration guarantees

    The outcomes of the commands of [Account], and the life of an invitation. *)

From Stdlib Require Import QArith.
From S2P Require Import Prelude Decimal Datetime Errors Price Tables Store CoreSchema AuditLog RateLimiter AuthRepos Tokens AuthSamples Auth Account.
From S2P Require IntentRepo LegacyRepo.

#[local] Open Scope string_scope.
#[local] Open Scope list_scope.
#[local] Open Scope Z_scope.

(** ** Single statements *)

Section Runs.
  Context {P : Type} `{Crypto}.
  Implicit Types w : world P.

Lemma insert_user_run r w : insert_user r w =
  match user_violation (next_id w) r (pending w) with
  | None => (Ok (next_id w), with_pending (set_users (<[next_id w := r]> (users (pending w))) (pending w)) (with_ids 1 w))
  | Some c => (Raise (IntegrityError c), with_ids 1 w)
  end.
Proof. unfold insert_user. run_session. unfold id. cbn [pending]. by destruct (user_violation _ _ _). Qed.

Definition invitation_row (user : uuid) (hash : string) (expires : datetime) (admin : uuid) : InvitationRow :=
  mkInvitation user hash expires None None admin.

Lemma create_invitation_run u h e a w : create_invitation u h e a w =
  match invitation_violation (next_id w) (invitation_row u h e a) (pending w) with
  | None => (Ok (next_id w), with_pending (set_invitations (<[next_id w := invitation_row u h e a]> (invitations (pending w)))
                               (pending w)) (with_ids 1 w))
  | Some c => (Raise (IntegrityError c), with_ids 1 w)
  end.
Proof. unfold create_invitation. run_session. unfold id. cbn [pending]. by destruct (invitation_violation _ _ _). Qed.

Lemma generate_token_run w : generate_token w = (Ok (token_urlsafe (next_id w)), with_ids 1 w).
Proof. done. Qed.
Lemma hash_password_run p w : hash_password p w = (Ok (argon2_hash p (next_id w)), with_ids 1 w).
Proof. done. Qed.
End Runs.

(** ** The tables after the commands *)

Definition with_user (user_id : uuid) (f : UserRow -> UserRow) (d : db) : db :=
  set_users (update_where (fun (i : uuid) _ => i =? user_id) f (users d)) d.
Definition activated_user (user_id : uuid) (hash : string) (now : datetime) : db -> db :=
  with_user user_id (fun r => user_set (Some hash) "active" (u_disabled_at r) now r).
Definition disabled_user (user_id : uuid) (now : datetime) : db -> db :=
  with_user user_id (fun r => user_set (u_password_hash r) "disabled" (Some now) now r).
Definition reactivated_user (user_id : uuid) (now : datetime) : db -> db :=
  with_user user_id (fun r => user_set (u_password_hash r) "active" None now r).
Definition consumed_invitation (invitation_id : uuid) (now : datetime) (d : db) : db :=
  set_invitations (update_where (fun (i : uuid) r => (i =? invitation_id) && is_none (inv_consumed_at r))
    (fun r => invitation_set (Some now) (inv_revoked_at r) r) (invitations d)) d.
Definition revoked_invitations (user_id : uuid) (now : datetime) (d : db) : db :=
  set_invitations (update_where (fun (_ : uuid) r => (inv_user_id r =? user_id) && is_live_invitation r)
    (fun r => invitation_set (inv_consumed_at r) (Some now) r) (invitations d)) d.
Definition cancelled_intents (user_id : uuid) (now : datetime) (d : db) : db :=
  set_cores (update_where (fun (_ : uuid) c => (c_owner_user_id c =? user_id) && is_open (c_status c))
    (fun c => core_set ACCOUNT_DISABLED_INTENT_STATUS (Some now) (c_triggered_at c) (c_last_fill_at c)
       (c_filled_quantity_lots c) now c) (cores d))
   (set_legacy_intents (update_where (fun (_ : uuid) r => (l_owner_user_id r =? user_id) && is_open (l_status r))
      (LegacyRepo.cancelled_row ACCOUNT_DISABLED_INTENT_STATUS now) (legacy_intents d)) d).

Lemma with_user_lookup (i : uuid) f d (j : uuid) r : users d !! j = Some r ->
  users (with_user i f d) !! j = Some (if j =? i then f r else r).
Proof. intros Hj. unfold with_user. cbn [users set_users]. by rewrite lookup_update, Hj. Qed.

(** ** Creating *)

Section Creating.
  Context {P : Type} `{Crypto} `{Mailer P} {Hmail : MailerLaws P} (base_url : string).
  Implicit Types w : world P.

Definition invited_user (inp : CreateUserInput) (now : datetime) : UserRow :=
  mkUser (normalize_email (normalize_email (cu_email inp))) None (cu_role inp) "invited" false None None now now.

Definition create_user_result (inp : CreateUserInput) w (r : res uuid) w' : Prop :=
  let d := durable w in
  let email := normalize_email (cu_email inp) in
  match r with
  | Ok user_id => user_by_email email d = None /\ user_id = next_id w /\
      let user := invited_user inp (db_now w) in
      let invitation := invitation_row user_id (hash_url_token (token_urlsafe (next_id w + 1)))
                          (dt_add (cu_now inp) INVITATION_TTL) (cu_created_by_admin_id inp) in
      user_violation user_id user d = None /\
      invitation_violation (next_id w + 2) invitation (set_users (<[user_id := user]> (users d)) d) = None /\
      durable w' = logged "account_invited" "admin" (Some (cu_created_by_admin_id inp)) (cu_now inp) (next_id w + 3)
        (set_invitations (<[next_id w + 2 := invitation]> (invitations d)) (set_users (<[user_id := user]> (users d)) d)) /\
      exists w0 w1, send_invitation_mail base_url email (token_urlsafe (next_id w + 1)) w0 = (Ok tt, w1) /\ provider w' = provider w1
  | Raise e => durable w' = d
  end.

Lemma creating_run {A} (c : M P A) w w1 e r w' : transaction_creating c w = (r, w') -> c w = (Raise e, w1) ->
  durable w1 = durable w -> durable w' = durable w /\ exists e', r = Raise e'.
Proof.
  unfold transaction_creating, try_except. intros Hr Hc Hd. rewrite Hc in Hr. revert Hr.
  destruct (is_domain_error e); [intros [= <- <-]; split; [done|by eexists]|].
  unfold bind, rollback, modify, raise. destruct e; try (intros [= <- <-]; split; [done|by eexists]).
  destruct (String.eqb _ _); intros [= <- <-]; (split; [done|by eexists]).
Qed.

Lemma create_user_cases inp w r w' : pending w = durable w -> auth_ok (durable w) ->
  create_user base_url inp w = (r, w') -> create_user_result inp w r w' /\ outbox w' = outbox w.
Proof.
  intros Hc Hok Hrun. destruct (create_user_body base_url inp w) as [r1 w1] eqn:Hb.
  assert (Hbody : outbox w1 = outbox w /\ match r1 with Ok _ => create_user_result inp w r1 w1 | Raise _ => durable w1 = durable w end).
  { revert Hb. unfold create_user_body, create_user_result. unfold bind at 1. rewrite get_by_email_run by by rewrite Hc. rewrite Hc.
    destruct (user_by_email (normalize_email (cu_email inp)) (durable w)) as [u|] eqn:Hf; cbn [is_some].
    { by intros [= <- <-]. }
    unfold create_invited. unfold bind at 1. unfold bind at 1, sql_now, gets. rewrite insert_user_run, Hc.
    fold (invited_user inp (db_now w)).
    destruct (user_violation _ _ _) as [c|] eqn:Hu; [by intros [= <- <-]|].
    unfold bind at 1. rewrite generate_token_run. unfold bind at 1. rewrite create_invitation_run.
    set (w2 := with_ids 1 (with_pending _ _)). change (next_id w2) with (next_id w + 1 + 1).
    assert (E : next_id w + 1 + 1 = next_id w + 2) by lia. rewrite E. cbn [next_id with_pending with_ids].
    destruct (invitation_violation _ _ _) as [c|] eqn:Hi; [by intros [= <- <-]|].
    unfold bind at 1. destruct (send_invitation_mail _ _ _ _) as [rm w4] eqn:Hm.
    destruct (mail_quiet _ _ _ _ Hm) as (Hd4 & Hp4 & Ho4 & Hn4 & _). cbn in Hd4, Hp4, Ho4, Hn4.
    destruct rm as [[]|e]; [|intros [= <- <-]; by split].
    unfold bind at 1. rewrite audit_run. destruct (audit_violation _ _ _) as [c|]; [intros [= <- <-]; by split|].
    intros [= <- <-]. cbn. split; [done|]. split; [done|]. split; [done|]. split; [done|]. split; [exact Hi|].
    split; [|by eexists _, _]. rewrite Hp4, Hn4. f_equal. lia. }
  destruct Hbody as [Ho Hbody]. destruct r1 as [u|e].
  - revert Hrun. unfold create_user, transaction_creating, try_except. rewrite Hb. intros [= <- <-]. by split.
  - destruct (creating_run _ _ _ _ _ _ Hrun Hb Hbody) as [Hd (e' & ->)]. split; [exact Hd|].
    revert Hrun. unfold create_user, transaction_creating, try_except. rewrite Hb.
    destruct (is_domain_error e); [by intros [= <- <-]|]. unfold bind, rollback, modify, raise.
    destruct e; try (by intros [= <- <-]). destruct (String.eqb _ _); by intros [= <- <-].
Qed.
End Creating.

(** ** Accepting an invitation *)

Section Accepting.
  Context {P : Type} `{Crypto} (settings : Settings).
  Implicit Types w : world P.

(** An invitation that can still be accepted. *)
Definition acceptable (inp : AcceptInvitationInput) (i : InvitationRow) : Prop :=
  inv_revoked_at i = None /\ inv_consumed_at i = None /\ dt_us (ac_now inp) < dt_us (inv_expires_at i).

Definition accept_result (inp : AcceptInvitationInput) w (r : res IssuedSession) w' : Prop :=
  let d := durable w in
  let found := invitation_by_hash (hash_url_token (ac_raw_token inp)) d in
  match r with
  | Ok s => exists id i urow, found = Some (id, i) /\ acceptable inp i /\
      is_password_strong_enough (ac_password inp) = true /\
      users d !! inv_user_id i = Some urow /\ u_status urow = "invited" /\
      let u := to_user (inv_user_id i) urow in
      let hash := argon2_hash (ac_password inp) (next_id w) in
      let row := session_row u s None (db_now w) false in
      let d1 := consumed_invitation id (ac_now inp) (activated_user (inv_user_id i) hash (ac_now inp) d) in
      s = issued_session settings u (ac_now inp) false (next_id w + 1) /\
      token_violation (is_session_id s) row d1 = None /\
      durable w' = logged "account_activated" (u_role urow) (Some (inv_user_id i)) (ac_now inp) (next_id w + 4) (opened s row d1)
  | Raise e => durable w' = d /\
      match found with
      | None => e = InvitationInvalidError
      | Some (id, i) =>
          (inv_revoked_at i <> None -> e = InvitationInvalidError) /\
          (inv_revoked_at i = None -> inv_consumed_at i <> None -> e = InvitationConsumedError) /\
          (inv_revoked_at i = None -> inv_consumed_at i = None -> dt_us (inv_expires_at i) <= dt_us (ac_now inp) ->
             e = InvitationExpiredError) /\
          (acceptable inp i -> is_password_strong_enough (ac_password inp) = false -> e = WeakPasswordError) /\
          (acceptable inp i -> is_password_strong_enough (ac_password inp) = true ->
             (e = InvitationInvalidError /\ forall urow, users d !! inv_user_id i = Some urow -> u_status urow <> "invited") \/
             exists c, e = IntegrityError c)
      end
  end.

#[local] Ltac refused :=
  intros [= <- <-]; repeat split; intros; destruct_and?; try done; try congruence; try lia.

Lemma accept_cases inp w r w' : pending w = durable w -> auth_ok (durable w) ->
  accept_invitation settings inp w = (r, w') ->
  accept_result inp w r w' /\ outbox w' = outbox w /\ provider w' = provider w.
Proof.
  intros Hc Hok Hrun. apply keeping_cases in Hrun as (w1 & Hb & Hd & Ho & Hp & Hsame).
  unfold accept_result, acceptable. rewrite Hd, Ho, Hp. clear Hd Ho Hp Hsame. revert Hb.
  unfold accept_invitation_body. unfold bind at 1. rewrite find_invitation_run by by rewrite Hc. rewrite Hc.
  destruct (invitation_by_hash _ (durable w)) as [[id i]|]; [|by intros [= <- <-]].
  destruct (inv_revoked_at i) as [x|] eqn:Hrev; cbn [is_some]; [by refused|].
  destruct (inv_consumed_at i) as [x|] eqn:Hcon; cbn [is_some]; [by refused|].
  destruct (dt_us (inv_expires_at i) <=? dt_us (ac_now inp)) eqn:Hexp; b2p.
  { by refused. }
  destruct (is_password_strong_enough _) eqn:Hstrong; cbn [negb].
  2: { by refused. }
  unfold bind at 1, get_user, query, gets. rewrite Hc.
  destruct (users (durable w) !! inv_user_id i) as [urow|] eqn:Hu; cbn [fmap option_fmap option_map].
  2: { refused. left. by split. }
  destruct (String.eqb (us_status _) "invited") eqn:Hst; cbn [negb]; b2p.
  2: { refused. left. split; [done|]. by intros ? [= <-]. }
  unfold bind at 1. rewrite hash_password_run. unfold bind at 1, activate, update_user, execute, modify.
  unfold bind at 1, consume_invitation, update_invitations, execute, modify. unfold bind at 1.
  set (w2 := with_pending _ (with_pending _ _)).
  pose proof (issue_session_run settings (to_user (inv_user_id i) urow) (ac_now inp) None false w2) as Hi. cbn zeta in Hi.
  change (next_id w2) with (next_id w + 1) in Hi.
  destruct (token_violation _ _ (pending w2)) as [c|] eqn:Htv; rewrite Hi.
  { refused. right. by exists c. }
  unfold bind at 1. rewrite audit_run. destruct (audit_violation _ _ _) as [c|].
  { refused. right. by exists c. }
  intros [= <- <-]. split; [|done]. exists id, i, urow. repeat (split; [done|]).
  assert (Hd1 : pending w2 = consumed_invitation id (ac_now inp)
    (activated_user (inv_user_id i) (argon2_hash (ac_password inp) (next_id w)) (ac_now inp) (durable w))).
  { unfold w2, consumed_invitation, activated_user, with_user. cbn. by rewrite Hc. }
  rewrite <-Hd1. split; [exact Htv|]. by replace (next_id w + 4) with (next_id w + 1 + 3) by lia.
Qed.
End Accepting.

(** ** Disabling and reactivating *)

Section Administering.
  Context {P : Type}.
  Implicit Types w : world P.

Lemma update_user_run i f w : update_user i f w = (Ok tt, with_pending (with_user i f (pending w)) w).
Proof. done. Qed.
Lemma cancel_legacy_run o now w : exists n, LegacyRepo.cancel_active_for_owner o ACCOUNT_DISABLED_INTENT_STATUS now w =
  (Ok n, with_pending (set_legacy_intents (update_where (fun (_ : uuid) r => (l_owner_user_id r =? o) && is_open (l_status r))
      (LegacyRepo.cancelled_row ACCOUNT_DISABLED_INTENT_STATUS now) (legacy_intents (pending w))) (pending w)) w).
Proof. by eexists. Qed.
Lemma cancel_core_run o now w : exists n, IntentRepo.cancel_active_for_owner o ACCOUNT_DISABLED_INTENT_STATUS now w =
  (Ok n, with_pending (set_cores (update_where (fun (_ : uuid) c => (c_owner_user_id c =? o) && is_open (c_status c))
    (fun c => core_set ACCOUNT_DISABLED_INTENT_STATUS (Some now) (c_triggered_at c) (c_last_fill_at c)
       (c_filled_quantity_lots c) now c) (cores (pending w))) (pending w)) w).
Proof. by eexists. Qed.

Definition disable_result (inp : AdminInput) w (r : res unit) w' : Prop :=
  let d := durable w in
  let target := ad_target_user_id inp in
  match r with
  | Ok _ => is_some (users d !! target) = true /\
      durable w' = logged "account_disabled" "admin" (Some (ad_actor_admin_id inp)) (ad_now inp) (next_id w)
        (revoked_all target "account_disabled" (ad_now inp)
           (cancelled_intents target (ad_now inp) (disabled_user target (ad_now inp) d)))
  | Raise e => durable w' = d /\
      if is_some (users d !! target) then exists c, e = IntegrityError c else e = UserNotFoundError
  end.

Lemma disable_cases inp w r w' : pending w = durable w -> disable_user inp w = (r, w') ->
  disable_result inp w r w' /\ outbox w' = outbox w /\ provider w' = provider w.
Proof.
  intros Hc Hrun. apply keeping_cases in Hrun as (w1 & Hb & Hd & Ho & Hp & _).
  unfold disable_result. rewrite Hd, Ho, Hp. clear Hd Ho Hp. revert Hb.
  unfold disable_user_body. unfold bind at 1, get_user, query, gets. rewrite Hc.
  destruct (users (durable w) !! ad_target_user_id inp) as [urow|]; cbn [fmap option_fmap option_map is_some];
    [|by intros [= <- <-]].
  cbn [us_id to_user]. unfold bind at 1, disable. rewrite update_user_run. set (w2 := with_pending _ w).
  unfold bind at 1. destruct (cancel_legacy_run (ad_target_user_id inp) (ad_now inp) w2) as (n & ->).
  unfold bind at 1. match goal with |- context [IntentRepo.cancel_active_for_owner _ _ _ ?x] =>
    destruct (cancel_core_run (ad_target_user_id inp) (ad_now inp) x) as (m & ->) end.
  unfold bind at 1. match goal with |- context [revoke_all_active_for_user _ _ _ ?x] =>
    destruct (revoke_all_run (ad_target_user_id inp) "account_disabled" (ad_now inp) x) as (k & ->) end.
  unfold bind at 1. rewrite audit_run. destruct (audit_violation _ _ _) as [c|]; intros [= <- <-].
  - split; [|done]. split; [done|]. by eexists.
  - split; [|done]. split; [done|]. cbn. by rewrite Hc.
Qed.

Definition reactivate_result (inp : AdminInput) w (r : res unit) w' : Prop :=
  let d := durable w in
  let target := ad_target_user_id inp in
  match r with
  | Ok _ => (exists u, users d !! target = Some u /\ u_status u = "disabled") /\
      durable w' = logged "account_reactivated" "admin" (Some (ad_actor_admin_id inp)) (ad_now inp) (next_id w)
        (reactivated_user target (ad_now inp) d)
  | Raise e => durable w' = d /\
      match users d !! target with
      | None => e = UserNotFoundError
      | Some u => if String.eqb (u_status u) "disabled" then exists c, e = IntegrityError c else e = AccountNotDisabledError
      end
  end.

Lemma reactivate_cases inp w r w' : pending w = durable w -> reactivate_user inp w = (r, w') ->
  reactivate_result inp w r w' /\ outbox w' = outbox w /\ provider w' = provider w.
Proof.
  intros Hc Hrun. apply keeping_cases in Hrun as (w1 & Hb & Hd & Ho & Hp & _).
  unfold reactivate_result. rewrite Hd, Ho, Hp. clear Hd Ho Hp. revert Hb.
  unfold reactivate_user_body. unfold bind at 1, get_user, query, gets. rewrite Hc.
  destruct (users (durable w) !! ad_target_user_id inp) as [urow|]; cbn [fmap option_fmap option_map is_some];
    [|by intros [= <- <-]].
  cbn [us_status to_user us_id]. destruct (String.eqb (u_status urow) "disabled") eqn:Hs; cbn [negb]; [|by intros [= <- <-]].
  unfold bind at 1, reactivate. rewrite update_user_run, Hc. unfold bind at 1. rewrite audit_run.
  destruct (audit_violation _ _ _) as [c|]; intros [= <- <-].
  - split; [|done]. split; [done|]. by eexists.
  - b2p. split; [|done]. split; [by eexists|done].
Qed.

End Administering.

(** ** Provisioning and re-inviting *)

Section Provisioning.
  Context {P : Type} `{Crypto}.
  Implicit Types w : world P.

Definition provisioned_user (inp : ProvisionUserInput) (salt : uuid) (now : datetime) : UserRow :=
  mkUser (normalize_email (pu_email inp)) (Some (argon2_hash (pu_password inp) salt)) (pu_role inp) "active" false None None now now.

Definition provision_result (inp : ProvisionUserInput) w (r : res uuid) w' : Prop :=
  let d := durable w in
  match r with
  | Ok user_id => user_by_email (pu_email inp) d = None /\ is_password_strong_enough (pu_password inp) = true /\
      user_id = next_id w + 1 /\
      let user := provisioned_user inp (next_id w) (db_now w) in
      user_violation user_id user d = None /\
      durable w' = logged "account_provisioned_by_admin" "admin" (Some (pu_created_by_admin_id inp)) (pu_now inp)
        (next_id w + 2) (set_users (<[user_id := user]> (users d)) d)
  | Raise e => durable w' = d
  end.

Lemma provision_cases inp w r w' : pending w = durable w -> auth_ok (durable w) ->
  provision_user inp w = (r, w') -> provision_result inp w r w'.
Proof.
  intros Hc Hok Hrun. destruct (provision_user_body inp w) as [r1 w1] eqn:Hb.
  assert (Hbody : match r1 with Ok _ => provision_result inp w r1 w1 | Raise _ => durable w1 = durable w end).
  { revert Hb. unfold provision_user_body, provision_result. unfold bind at 1.
    rewrite get_by_email_run by by rewrite Hc. rewrite Hc.
    destruct (user_by_email (pu_email inp) (durable w)) as [u|] eqn:Hf; cbn [is_some]; [by intros [= <- <-]|].
    destruct (is_password_strong_enough _) eqn:Hstrong; cbn [negb]; [|by intros [= <- <-]].
    unfold bind at 1. rewrite hash_password_run. unfold create_active. unfold bind at 1. unfold bind at 1, sql_now, gets.
    rewrite insert_user_run. change (next_id (with_ids 1 w)) with (next_id w + 1). cbn [db_now with_ids pending].
    rewrite Hc. fold (provisioned_user inp (next_id w) (db_now w)).
    destruct (user_violation _ _ _) as [c|] eqn:Hu; [by intros [= <- <-]|].
    unfold bind at 1. rewrite audit_run. destruct (audit_violation _ _ _) as [c|]; [by intros [= <- <-]|].
    intros [= <- <-]. do 4 (split; [done|]). cbn. f_equal. lia. }
  destruct r1 as [u|e].
  - revert Hrun. unfold provision_user, transaction_creating, try_except. rewrite Hb. by intros [= <- <-].
  - by destruct (creating_run _ _ _ _ _ _ Hrun Hb Hbody) as [Hd (e' & ->)].
Qed.
End Provisioning.

Section Resending.
  Context {P : Type} `{Crypto} `{Mailer P} {Hmail : MailerLaws P} (base_url : string) (uuid_text : uuid -> string).
  Implicit Types w : world P.

Definition resend_charged (inp : AdminInput) : db -> db :=
  charged ("invitation_resend:" ++ uuid_text (ad_target_user_id inp)) RESEND_CAPACITY RESEND_REFILL_PER_SECOND 1 (ad_now inp).
Definition resend_open (inp : AdminInput) (d : db) : bool :=
  allowed (decision ("invitation_resend:" ++ uuid_text (ad_target_user_id inp)) RESEND_CAPACITY RESEND_REFILL_PER_SECOND 1
             (ad_now inp) d).

Definition resend_result (inp : AdminInput) w (r : res unit) w' : Prop :=
  let d := durable w in
  let target := ad_target_user_id inp in
  let invited := exists u, users d !! target = Some u /\ u_status u = "invited" in
  match r with
  | Ok _ => invited /\ resend_open inp d = true /\
      let invitation := invitation_row target (hash_url_token (token_urlsafe (next_id w)))
                          (dt_add (ad_now inp) INVITATION_TTL) (ad_actor_admin_id inp) in
      let d1 := revoked_invitations target (ad_now inp) (resend_charged inp d) in
      invitation_violation (next_id w + 1) invitation d1 = None /\
      durable w' = logged "invitation_resent" "admin" (Some (ad_actor_admin_id inp)) (ad_now inp) (next_id w + 2)
        (set_invitations (<[next_id w + 1 := invitation]> (invitations d1)) d1)
  | Raise e => durable w' = d \/
      (invited /\ resend_open inp d = false /\ durable w' = resend_charged inp d /\ exists s, e = RateLimitedError s)
  end.

Lemma resend_cases inp w r w' : pending w = durable w ->
  resend_invitation base_url uuid_text inp w = (r, w') -> resend_result inp w r w' /\ outbox w' = outbox w.
Proof.
  intros Hc Hrun. apply keeping_cases in Hrun as (w1 & Hb & Hd & Ho & _).
  unfold resend_result. rewrite Hd, Ho. clear Hd Ho. revert Hb.
  unfold resend_invitation_body. unfold bind at 1, get_user, query, gets. rewrite Hc.
  destruct (users (durable w) !! ad_target_user_id inp) as [urow|] eqn:Hu; cbn [fmap option_fmap option_map is_some];
    [|intros [= <- <-]; split; [by left|done]].
  cbn [us_status to_user us_id]. destruct (String.eqb (u_status urow) "invited") eqn:Hs; cbn [negb]; b2p;
    [|intros [= <- <-]; split; [by left|done]].
  unfold bind at 1. rewrite consume_eq, Hc. fold (resend_charged inp (durable w)).
  change (allowed _) with (resend_open inp (durable w)).
  destruct (resend_open inp (durable w)) eqn:Hopen; cbn [negb].
  2: { unfold bind, commit, modify, raise. intros [= <- <-]. split; [|done]. right.
       split; [by exists urow|]. split; [done|]. split; [done|]. by eexists. }
  unfold bind at 1, revoke_active_invitation, update_invitations, execute, modify.
  cbn [pending with_pending]. fold (revoked_invitations (ad_target_user_id inp) (ad_now inp) (resend_charged inp (durable w))).
  unfold bind at 1. rewrite generate_token_run. unfold bind at 1. rewrite create_invitation_run.
  cbn [next_id with_pending with_ids pending].
  destruct (invitation_violation _ _ _) as [c|] eqn:Hi; [intros [= <- <-]; split; [by left|done]|].
  unfold bind at 1. destruct (send_invitation_mail _ _ _ _) as [rm w4] eqn:Hm.
  destruct (mail_quiet _ _ _ _ Hm) as (Hd4 & Hp4 & Ho4 & Hn4 & _). cbn in Hd4, Hp4, Ho4, Hn4.
  destruct rm as [[]|e]; [|intros [= <- <-]; split; [by left|done]].
  unfold bind at 1. rewrite audit_run. destruct (audit_violation _ _ _) as [c|]; [intros [= <- <-]; split; [by left|done]|].
  intros [= <- <-]. split; [|done]. split; [by exists urow|]. do 2 (split; [done|]).
  cbn. rewrite Hp4, Hn4. f_equal. lia.
Qed.
End Resending.
