(* ===== verification/ResetSpec.v ===== *)
(** * What a password reset guarantees

    The outcomes of the two commands of [PasswordReset]. *)

From Stdlib Require Import QArith.
From S2P Require Import Prelude Decimal Datetime Errors Price Tables Store CoreSchema AuditLog RateLimiter AuthRepos Tokens AuthSamples Auth Account AccountSpec.

#[local] Open Scope string_scope.
#[local] Open Scope list_scope.
#[local] Open Scope Z_scope.

Definition consumed_reset (reset_id : uuid) (now : datetime) (d : db) : db :=
  set_password_resets (update_where (fun (i : uuid) r => (i =? reset_id) && is_none (pr_consumed_at r))
    (reset_consume now) (password_resets d)) d.
Definition repassword (user_id : uuid) (hash : string) (now : datetime) : db -> db :=
  with_user user_id (fun r => user_set (Some hash) (u_status r) (u_disabled_at r) now r).
Definition reset_row (user_id : uuid) (hash : string) (expires : datetime) : PasswordResetRow :=
  mkPasswordReset user_id hash expires None.

(** ** Asking *)

Section Asking.
  Context {P : Type} `{Crypto} `{Mailer P} {Hmail : MailerLaws P} (base_url : string).
  Implicit Types w : world P.

Definition reset_email_charged (inp : PasswordResetRequestInput) : db -> db :=
  charged ("pwreset:email:" ++ normalize_email (pq_email inp)) EMAIL_CAPACITY EMAIL_REFILL_PER_SECOND 1 (pq_now inp).
Definition reset_charged (inp : PasswordResetRequestInput) (d : db) : db :=
  match pq_ip inp with
  | None => reset_email_charged inp d
  | Some ip => charged ("pwreset:ip:" ++ ip) IP_CAPACITY IP_REFILL_PER_SECOND 1 (pq_now inp) (reset_email_charged inp d)
  end.
Definition reset_open (inp : PasswordResetRequestInput) (d : db) : bool :=
  allowed (decision ("pwreset:email:" ++ normalize_email (pq_email inp)) EMAIL_CAPACITY EMAIL_REFILL_PER_SECOND 1 (pq_now inp) d) &&
  match pq_ip inp with
  | None => true
  | Some ip => allowed (decision ("pwreset:ip:" ++ ip) IP_CAPACITY IP_REFILL_PER_SECOND 1 (pq_now inp) (reset_email_charged inp d))
  end.

Lemma reset_throttles_run inp w : reset_throttles inp w =
  (Ok (reset_open inp (pending w)), with_pending (reset_charged inp (pending w)) w).
Proof.
  unfold reset_throttles, reset_open, reset_charged. unfold bind at 1. rewrite consume_eq.
  destruct (pq_ip inp) as [ip|]; [|by rewrite andb_true_r].
  unfold bind at 1. rewrite consume_eq. done.
Qed.

Lemma create_reset_run u h e w : create_reset u h e w =
  match reset_violation (next_id w) (reset_row u h e) (pending w) with
  | None => (Ok (next_id w), with_pending (set_password_resets (<[next_id w := reset_row u h e]> (password_resets (pending w)))
                               (pending w)) (with_ids 1 w))
  | Some c => (Raise (IntegrityError c), with_ids 1 w)
  end.
Proof. unfold create_reset. run_session. unfold id. cbn [pending]. by destruct (reset_violation _ _ _). Qed.

(** The account a reset is for. *)
Definition resettable (email : string) (d : db) : option UserData :=
  match user_by_email email d with
  | Some u => if String.eqb (us_status u) "active" then Some u else None
  | None => None
  end.

Definition asked_row (inp : PasswordResetRequestInput) (u : UserData) (next : uuid) : PasswordResetRow :=
  reset_row (us_id u) (hash_url_token (token_urlsafe next)) (dt_add (pq_now inp) RESET_TTL).
Definition asked (inp : PasswordResetRequestInput) (u : UserData) (next : uuid) (d : db) : db :=
  logged "password_reset_requested" "user" (Some (us_id u)) (pq_now inp) (next + 2)
    (set_password_resets (<[next + 1 := asked_row inp u next]> (password_resets d)) d).

Definition request_result (inp : PasswordResetRequestInput) w (r : res unit) w' : Prop :=
  let d := durable w in
  let d1 := reset_charged inp d in
  match r with
  | Ok _ =>
      match (if reset_open inp d then resettable (pq_email inp) d else None) with
      | None => durable w' = d1 /\ provider w' = provider w
      | Some u => reset_violation (next_id w + 1) (asked_row inp u (next_id w)) d1 = None /\
          durable w' = asked inp u (next_id w) d1 /\
          exists r0 w0 w1, mail_send (reset_mail base_url (us_email u) (token_urlsafe (next_id w))) w0 = (r0, w1) /\
            durable w0 = durable w' /\ provider w0 = provider w /\ provider w' = provider w1
      end
  | Raise e => durable w' = d /\ provider w' = provider w /\ exists c, e = IntegrityError c
  end.

Lemma request_cases inp w r w' : pending w = durable w -> auth_ok (durable w) ->
  request_password_reset base_url inp w = (r, w') -> request_result inp w r w' /\ outbox w' = outbox w.
Proof.
  intros Hc Hok. unfold request_password_reset. unfold bind at 1, transaction, try_except at 1.
  unfold reset_request_body. unfold bind at 1. rewrite reset_throttles_run, Hc.
  unfold request_result. set (d1 := reset_charged inp (durable w)).
  assert (Hd1 : auth_ok d1).
  { unfold d1, reset_charged, reset_email_charged, charged. destruct (pq_ip inp); by apply (auth_ok_frame (durable w)). }
  assert (Hres : resettable (pq_email inp) (durable w) = resettable (pq_email inp) d1).
  { unfold resettable, user_by_email, d1, reset_charged, reset_email_charged, charged. by destruct (pq_ip inp). }
  destruct (reset_open inp (durable w)); [|intros [= <- <-]; by repeat split].
  unfold bind at 1. unfold bind at 1. rewrite get_by_email_run by done. cbn [pending with_pending].
  rewrite Hres. unfold resettable. destruct (user_by_email (pq_email inp) d1) as [u|]; [|intros [= <- <-]; by repeat split].
  destruct (String.eqb (us_status u) "active"); [|intros [= <- <-]; by repeat split].
  unfold bind at 1. rewrite generate_token_run. unfold bind at 1. rewrite create_reset_run.
  cbn [next_id with_pending with_ids pending]. fold (asked_row inp u (next_id w)).
  destruct (reset_violation _ _ _) as [c|] eqn:Hv.
  { unfold bind, rollback, modify, raise. intros [= <- <-]. split; [|done]. split; [done|]. split; [done|by eexists]. }
  unfold bind at 1. rewrite audit_run. destruct (audit_violation _ _ _) as [c|].
  { unfold bind, rollback, modify, raise. intros [= <- <-]. split; [|done]. split; [done|]. split; [done|by eexists]. }
  unfold ret at 1, bind at 1, commit, modify. unfold ret at 1, try_except.
  match goal with |- context [mail_send ?m ?x] => set (w0 := x); destruct (mail_send m w0) as [rm w4] eqn:Hm end.
  destruct (mail_quiet _ _ _ _ Hm) as (Hd4 & Hp4 & Ho4 & Hn4 & _).
  assert (Hw0 : durable w0 = asked inp u (next_id w) d1).
  { unfold w0, asked. cbn. f_equal. lia. }
  destruct rm as [[]|e]; intros [= <- <-]; (split; [|by rewrite Ho4]); (split; [done|]); (split; [by rewrite Hd4|]);
    eexists _, w0, w4; by repeat split.
Qed.
End Asking.

(** ** Confirming *)

Section Confirming.
  Context {P : Type} `{Crypto}.
  Implicit Types w : world P.

Definition confirm_result (inp : PasswordResetConfirmInput) w (r : res unit) w' : Prop :=
  let d := durable w in
  let found := reset_by_hash (hash_url_token (pc_raw_token inp)) d in
  let usable t := pr_consumed_at t = None /\ dt_us (pc_now inp) < dt_us (pr_expires_at t) in
  let active u := exists urow, users d !! u = Some urow /\ u_status urow = "active" in
  match r with
  | Ok _ => exists id t, found = Some (id, t) /\ usable t /\ is_password_strong_enough (pc_new_password inp) = true /\
      active (pr_user_id t) /\
      durable w' = logged "password_reset_completed" "user" (Some (pr_user_id t)) (pc_now inp) (next_id w + 1)
        (revoked_all (pr_user_id t) "password_reset" (pc_now inp)
          (consumed_reset id (pc_now inp)
            (repassword (pr_user_id t) (argon2_hash (pc_new_password inp) (next_id w)) (pc_now inp) d)))
  | Raise e => durable w' = d /\
      ((e = PasswordResetInvalidError /\ forall id t, found = Some (id, t) -> ~ (usable t /\ active (pr_user_id t))) \/
       (e = WeakPasswordError /\ is_password_strong_enough (pc_new_password inp) = false /\
          exists id t, found = Some (id, t) /\ usable t) \/
       (is_some (audit_events d !! (next_id w + 1)) = true /\ (exists c, e = IntegrityError c) /\
          exists id t, found = Some (id, t) /\ usable t /\ active (pr_user_id t)))
  end.

Lemma confirm_cases inp w r w' : pending w = durable w -> auth_ok (durable w) ->
  confirm_password_reset inp w = (r, w') ->
  confirm_result inp w r w' /\ outbox w' = outbox w /\ provider w' = provider w.
Proof.
  intros Hc Hok Hrun. apply keeping_cases in Hrun as (w1 & Hb & Hd & Ho & Hp & _).
  unfold confirm_result. rewrite Hd, Ho, Hp. clear Hd Ho Hp. revert Hb.
  unfold reset_confirm_body. unfold bind at 1. rewrite find_reset_run by by rewrite Hc. rewrite Hc.
  destruct (reset_by_hash _ (durable w)) as [[id t]|].
  2: { intros [= <- <-]. split; [|done]. split; [done|]. by left. }
  destruct (pr_consumed_at t) as [c|] eqn:Hcon; cbn [is_some orb].
  { intros [= <- <-]. split; [|done]. split; [done|]. left. split; [done|]. intros ? ? [= <- <-] [[? _] _]. congruence. }
  destruct (dt_us (pr_expires_at t) <=? dt_us (pc_now inp)) eqn:Hexp; b2p.
  { intros [= <- <-]. split; [|done]. split; [done|]. left. split; [done|]. intros ? ? [= <- <-] [[_ ?] _]. lia. }
  destruct (is_password_strong_enough _) eqn:Hstrong; cbn [negb].
  2: { intros [= <- <-]. split; [|done]. split; [done|]. right; left. split; [done|]. split; [done|]. by exists id, t. }
  unfold bind at 1, get_user, query, gets. rewrite Hc.
  destruct (users (durable w) !! pr_user_id t) as [urow|] eqn:Hu; cbn [fmap option_fmap option_map].
  2: { intros [= <- <-]. split; [|done]. split; [done|]. left. split; [done|].
       intros ? ? [= <- <-] [_ (urow & Hu' & _)]. congruence. }
  cbn [us_status us_id to_user]. destruct (String.eqb (u_status urow) "active") eqn:Hst; cbn [negb]; b2p.
  2: { intros [= <- <-]. split; [|done]. split; [done|]. left. split; [done|].
       intros ? ? [= <- <-] [_ (urow' & Hu' & Hs)]. congruence. }
  unfold bind at 1. rewrite hash_password_run. unfold bind at 1, set_password. rewrite update_user_run.
  unfold bind at 1, consume_reset, execute, modify. cbn [pending with_pending with_ids]. rewrite Hc.
  unfold bind at 1. match goal with |- context [revoke_all_active_for_user _ _ _ ?x] =>
    destruct (revoke_all_run (pr_user_id t) "password_reset" (pc_now inp) x) as (k & ->) end.
  unfold bind at 1. rewrite audit_run. unfold audit_violation. cbn -[revoked_all repassword].
  destruct (audit_events _ !! _) eqn:Ha; cbn [first_violation fst snd is_none is_some negb]; intros [= <- <-].
  - split; [|done]. split; [done|]. right; right. cbn in Ha. rewrite ?Ha. split; [done|]. split; [by eexists|].
    exists id, t. split; [done|]. split; [done|]. by exists urow.
  - split; [|done]. exists id, t. split; [done|]. split; [done|]. split; [done|]. split; [by exists urow|]. done.
Qed.
End Confirming.

(** ** The life of a reset *)

Lemma reset_charged_frame inp d : users (reset_charged inp d) = users d /\ refresh_tokens (reset_charged inp d) = refresh_tokens d /\
  invitations (reset_charged inp d) = invitations d /\ password_resets (reset_charged inp d) = password_resets d /\
  cores (reset_charged inp d) = cores d /\ legacy_intents (reset_charged inp d) = legacy_intents d.
Proof. unfold reset_charged, reset_email_charged, charged. by destruct (pq_ip inp). Qed.

Lemma reset_charged_ok inp d : auth_ok d -> auth_ok (reset_charged inp d).
Proof. destruct (reset_charged_frame inp d) as (? & ? & ? & ? & _). by apply auth_ok_frame. Qed.

Lemma asked_ok `{Crypto} inp u n d : auth_ok d -> reset_violation (n + 1) (asked_row inp u n) d = None -> auth_ok (asked inp u n d).
Proof. intros Hok Hv. apply logged_ok. by apply insert_reset_ok. Qed.

Lemma repassword_ok u h now d : auth_ok d -> auth_ok (repassword u h now d).
Proof. intros Hok. by apply update_users_ok. Qed.
Lemma consumed_reset_ok i now d : auth_ok d -> auth_ok (consumed_reset i now d).
Proof. intros Hok. by apply update_resets_ok. Qed.

(** A consumed token is refused whatever the password. *)
Lemma consumed_refused {P} `{Crypto} inp (w : world P) r w' id t : pending w = durable w -> auth_ok (durable w) ->
  confirm_password_reset inp w = (r, w') -> reset_by_hash (hash_url_token (pc_raw_token inp)) (durable w) = Some (id, t) ->
  is_some (pr_consumed_at t) = true -> r = Raise PasswordResetInvalidError /\ durable w' = durable w.
Proof.
  intros Hc Hok Hrun Hf Hcon. destruct (confirm_cases inp w r w' Hc Hok Hrun) as [Hr _].
  unfold confirm_result in Hr. rewrite Hf in Hr. destruct r as [a|e].
  - destruct Hr as (? & ? & [= <- <-] & [E _] & _). by rewrite E in Hcon.
  - destruct Hr as [Hd [[-> _]|[(_ & _ & ? & ? & [= <- <-] & [E _])|(_ & _ & ? & ? & [= <- <-] & [E _] & _)]]]; [done|..];
      by rewrite E in Hcon.
Qed.

(** C26. A password reset from end to end.  When the request finds an active
    account and is within both limits, one mail goes to that account's address
    and carries a token; presenting the token within thirty minutes with a strong
    password succeeds, the account then logs in with the new password, no session
    opened before is live, and the same token is refused from then on, whatever
    the new password, without changing anything. *)
Theorem password_reset_roundtrip {P} `{Crypto} {Hpw : PasswordLaws} `{Mailer P} {Hmail : MailerLaws P} (base_url : string)
    (ask : PasswordResetRequestInput) (conf : PasswordResetConfirmInput) (u : UserData)
    (w w1 w2 : world P) (r2 : res unit)
    (Hclean : pending w = durable w) (Hok : auth_ok (durable w))
    (Hacc : resettable (pq_email ask) (durable w) = Some u) (Hopen : reset_open ask (durable w) = true)
    (Hask : with_session (request_password_reset base_url ask) w = (Ok tt, w1))
    (Htoken : pc_raw_token conf = token_urlsafe (next_id w)) (Hstrong : is_password_strong_enough (pc_new_password conf) = true)
    (Htime : dt_us (pc_now conf) < dt_us (pq_now ask) + RESET_TTL)
    (Hfresh : audit_events (durable w1) !! (next_id w1 + 1) = None)
    (Hrun : with_session (confirm_password_reset conf) w1 = (r2, w2)) :
  (exists r0 w0 x, mail_send (reset_mail base_url (us_email u) (pc_raw_token conf)) w0 = (r0, x) /\ provider w1 = provider x) /\
  r2 = Ok tt /\
  (exists u', us_id u' = us_id u /\
     forall inp, li_email inp = pq_email ask -> li_password inp = pc_new_password conf -> credentials_ok inp (durable w2) u') /\
  (forall i t, refresh_tokens (durable w2) !! i = Some t -> rt_user_id t = us_id u -> is_some (rt_revoked_at t) = true) /\
  forall again, pc_raw_token again = pc_raw_token conf -> exists w3,
    with_session (confirm_password_reset again) w2 = (Raise PasswordResetInvalidError, w3) /\ durable w3 = durable w2.
Proof.
  apply session_cases in Hask as (w1' & Hreq & Hdw1 & _ & Hpw1 & _).
  destruct (request_cases base_url ask (opening w) _ w1' eq_refl Hok Hreq) as [Hr _]. unfold request_result in Hr.
  change (durable (opening w)) with (durable w) in Hr. change (next_id (opening w)) with (next_id w) in Hr.
  rewrite Hopen, Hacc in Hr. destruct Hr as (Hv & Hd1 & r0 & w0 & x & Hm & _ & _ & Hprov).
  split; [exists r0, w0, x; by rewrite Htoken, Hpw1|].
  rewrite <-Hdw1 in Hd1. set (d1 := durable w1) in *. assert (Hok1 : auth_ok d1) by (rewrite Hd1; by apply asked_ok; [apply reset_charged_ok|]).
  destruct (reset_charged_frame ask (durable w)) as (Hfu & Hft & _ & Hfp & _).
  unfold resettable in Hacc. destruct (user_by_email (pq_email ask) (durable w)) as [u0|] eqn:Hmail'; [|done].
  destruct (String.eqb (us_status u0) "active") eqn:Hst; [|done]. injection Hacc as ->. b2p.
  apply user_by_email_Some in Hmail' as (urow & Hu & Hse & Hu'); [|done].
  assert (Hu1 : users d1 !! us_id u = Some urow) by (rewrite Hd1; cbn; by rewrite Hfu).
  assert (Hf1 : reset_by_hash (hash_url_token (pc_raw_token conf)) d1 = Some (next_id w + 1, asked_row ask u (next_id w))).
  { apply reset_by_hash_Some; [done|]. rewrite Htoken. split; [|done]. rewrite Hd1. cbn. by rewrite lookup_insert_eq. }
  apply session_cases in Hrun as (wc' & Hconf & Hdw2 & _). set (wc := opening w1) in *.
  destruct (confirm_cases conf wc r2 wc' eq_refl Hok1 Hconf) as [Hc _]. unfold confirm_result in Hc.
  change (durable wc) with d1 in Hc. rewrite Hf1 in Hc.
  assert (Husable : pr_consumed_at (asked_row ask u (next_id w)) = None /\
    dt_us (pc_now conf) < dt_us (pr_expires_at (asked_row ask u (next_id w)))) by (split; [done|exact Htime]).
  assert (Hactive : exists v, users d1 !! pr_user_id (asked_row ask u (next_id w)) = Some v /\ u_status v = "active").
  { exists urow. split; [exact Hu1|]. rewrite Hu' in Hst. exact Hst. }
  destruct r2 as [[]|e].
  2: { destruct Hc as [_ [[_ Hno]|[(_ & Hweak & _)|(Hclash & _)]]]; [by destruct (Hno _ _ eq_refl)|congruence|].
       change (next_id wc) with (next_id w1) in Hclash. by rewrite Hfresh in Hclash. }
  destruct Hc as (id & t & [= <- <-] & _ & _ & _ & Hd2). rewrite <-Hdw2 in Hd2.
  assert (Hok2 : auth_ok (durable w2)).
  { rewrite Hd2. by apply logged_ok, revoked_all_ok, consumed_reset_ok, repassword_ok. }
  split; [done|]. split; [|split].
  - exists (to_user (us_id u) (user_set (Some (argon2_hash (pc_new_password conf) (next_id wc))) (u_status urow) (u_disabled_at urow)
      (pc_now conf) urow)). split; [done|]. intros inp He Hp. unfold credentials_ok. rewrite He, Hp. split; [|split].
    + apply user_by_email_Some; [done|]. eexists. split; [|split; [|reflexivity]]; [|exact Hse]. cbn [us_id to_user].
      rewrite Hd2. cbn -[with_user repassword]. unfold repassword. rewrite (with_user_lookup _ _ _ _ _ Hu1).
      cbn. by rewrite Z.eqb_refl.
    + cbn. rewrite Hu' in Hst. exact Hst.
    + eexists. split; [reflexivity|]. apply argon2_verify_hash.
  - intros i tk Hi. apply (revoked_all_dead (consumed_reset (next_id w + 1) (pc_now conf)
      (repassword (us_id u) (argon2_hash (pc_new_password conf) (next_id wc)) (pc_now conf) d1)) (us_id u) "password_reset" (pc_now conf) i tk).
    by rewrite Hd2 in Hi.
  - intros again Hagain. destruct (with_session (confirm_password_reset again) w2) as [r3 w3] eqn:H3.
    apply session_cases in H3 as (w3' & H3 & Hdw3 & _). exists w3. rewrite Hdw3.
    destruct (consumed_refused again (opening w2) r3 w3' (next_id w + 1) (reset_consume (pc_now conf) (asked_row ask u (next_id w)))
      eq_refl Hok2 H3) as [-> Hd3]; [|done|by split].
    change (durable (opening w2)) with (durable w2). apply reset_by_hash_Some; [done|]. rewrite Hagain, Htoken. split; [|done].
      rewrite Hd2. cbn -[d1]. rewrite lookup_update, Hd1. cbn. by rewrite lookup_insert_eq; cbn; rewrite Z.eqb_refl.
Qed.

Definition reset_world : world post_office :=
  mkWorld auth_db auth_db (mkPost [] (fun _ => false)) 100 [] (DT 0 (Some 0)) (DT 0 (Some 0)).
Definition reset_ask : PasswordResetRequestInput := mkResetRequest " A@b.c" (at_second 0) (Some "10.0.0.1").
Definition reset_conf (password : string) : PasswordResetConfirmInput :=
  mkResetConfirm (token_urlsafe 100) password (at_second 1799).

Lemma password_reset_roundtrip_witness :
  exists w1 w2, with_session (request_password_reset "https://x" reset_ask) reset_world = (Ok tt, w1) /\
    with_session (confirm_password_reset (reset_conf "new password")) w1 = (Ok tt, w2) /\
    fst (with_session (confirm_password_reset (reset_conf "another one")) w2) = Raise PasswordResetInvalidError.
Proof.
  destruct (with_session (request_password_reset "https://x" reset_ask) reset_world) as [r1 w1] eqn:H1.
  assert (Hr : r1 = Ok tt) by (change r1 with (fst (r1, w1)); rewrite <-H1; vm_compute; reflexivity). subst r1.
  destruct (with_session (confirm_password_reset (reset_conf "new password")) w1) as [r2 w2] eqn:H2.
  destruct (resettable " A@b.c" auth_db) as [u|] eqn:Hu; [|vm_compute in Hu; discriminate].
  assert (Hf : audit_events (durable w1) !! (next_id w1 + 1) = None).
  { change w1 with (snd (@Ok exn _ tt, w1)). rewrite <-H1. vm_compute. reflexivity. }
  destruct (password_reset_roundtrip "https://x" reset_ask (reset_conf "new password") u reset_world w1 w2 r2
    eq_refl auth_db_ok Hu ltac:(vm_compute; reflexivity) H1 eq_refl ltac:(vm_compute; reflexivity)
    ltac:(vm_compute; reflexivity) Hf H2) as (_ & -> & _ & _ & Hagain).
  exists w1, w2. split; [reflexivity|]. split; [exact H2|].
  destruct (Hagain (reset_conf "another one") eq_refl) as (w3 & -> & _). reflexivity.
Defined.
