(* ===== verification/TwoFactorSpec.v ===== *)
(** * What the second factor guarantees

    The outcomes of [TwoFactor], the bound on guessed codes and what a correct
    code opens. *)

From Stdlib Require Import QArith.
From S2P Require Import Prelude Decimal Datetime Errors Price Tables Store CoreSchema AuditLog RateLimiter AuthRepos Tokens AuthSamples Auth SessionSpec Account AccountSpec.

#[local] Open Scope string_scope.
#[local] Open Scope list_scope.
#[local] Open Scope Z_scope.

Section Outcomes.
  Context {P : Type} `{Crypto} (settings : Settings) (uuid_text : uuid -> string).
  Implicit Types w : world P.

Definition mfa_secret_set (user_id : uuid) (encrypted : string) (now : datetime) : db -> db :=
  with_user user_id (fun r => user_set_mfa (u_mfa_enabled r) (Some encrypted) now r).
Definition mfa_switched_on (user_id : uuid) (now : datetime) : db -> db :=
  with_user user_id (fun r => user_set_mfa true (u_mfa_secret_encrypted r) now r).
Definition session_elevated (session_id : uuid) (d : db) : db :=
  set_refresh_tokens (update_where (fun (i : uuid) _ => i =? session_id) token_mfa (refresh_tokens d)) d.

Definition verify_charged (inp : VerifyTwoFactorInput) : db -> db :=
  charged (verify_bucket uuid_text (vf_admin_user_id inp)) VERIFY_2FA_CAPACITY VERIFY_2FA_REFILL_PER_SECOND 1 (vf_now inp).
Definition verify_open (inp : VerifyTwoFactorInput) (d : db) : bool :=
  allowed (decision (verify_bucket uuid_text (vf_admin_user_id inp)) VERIFY_2FA_CAPACITY VERIFY_2FA_REFILL_PER_SECOND 1
             (vf_now inp) d).
Definition refunded (inp : VerifyTwoFactorInput) (d : db) : db :=
  set_rate_buckets (delete (verify_bucket uuid_text (vf_admin_user_id inp)) (rate_buckets (verify_charged inp d))) d.

(** The code is right for the stored secret at time [t]. *)
Definition code_ok (inp : VerifyTwoFactorInput) (t : datetime) (d : db) : Prop :=
  exists urow e secret, users d !! vf_admin_user_id inp = Some urow /\ u_mfa_secret_encrypted urow = Some e /\
    fernet_decrypt (resolved_mfa_encryption_key settings) e = Some secret /\ totp_verify secret (vf_code inp) (dt_us t) = true.

(** The tables after a correct code; the first one also switches the factor on. *)
Definition verified (inp : VerifyTwoFactorInput) (urow : UserRow) (next : uuid) (d : db) : db :=
  let d1 := refunded inp d in
  let '(next1, d2) :=
    if u_mfa_enabled urow then (next, d1)
    else (next + 1, logged "admin_2fa_enabled" "admin" (Some (vf_admin_user_id inp)) (vf_now inp) next
                      (mfa_switched_on (vf_admin_user_id inp) (vf_now inp) d1)) in
  logged "admin_2fa_verified" "admin" (Some (vf_admin_user_id inp)) (vf_now inp) next1
    (session_elevated (vf_session_id inp) d2).

Definition elevated_token (inp : VerifyTwoFactorInput) : string :=
  encode_access_token (resolved_jwt_access_secret settings) (vf_admin_user_id inp) "admin"
    (vf_session_id inp) (access_token_ttl_admin_seconds settings) (vf_now inp) true.

Definition verify_result (inp : VerifyTwoFactorInput) w (r : res VerifyTwoFactorResult) w' : Prop :=
  let d := durable w in
  let admin := exists urow, users d !! vf_admin_user_id inp = Some urow /\ u_role urow = "admin" in
  match r with
  | Ok v => admin /\ verify_open inp d = true /\ code_ok inp (app_now w) d /\
      v = mkVerified (elevated_token inp) (access_token_ttl_admin_seconds settings) "admin" /\
      exists urow, users d !! vf_admin_user_id inp = Some urow /\ durable w' = verified inp urow (next_id w) d
  | Raise (RateLimitedError _) => admin /\ verify_open inp d = false /\
      durable w' = logged "admin_2fa_verify_locked" "admin" (Some (vf_admin_user_id inp)) (vf_now inp) (next_id w)
                     (verify_charged inp d)
  | Raise MfaInvalidCodeError => admin /\ verify_open inp d = true /\ ~ code_ok inp (app_now w) d /\
      durable w' = verify_charged inp d
  | Raise e => durable w' = d
  end.

Lemma elevate_cases inp urow w r w' : u_role urow = "admin" -> users (pending w) !! vf_admin_user_id inp = Some urow ->
  elevate settings uuid_text inp (to_user (vf_admin_user_id inp) urow) w = (r, w') ->
  outbox w' = outbox w /\ provider w' = provider w /\
  match r with
  | Ok v => v = mkVerified (elevated_token inp) (access_token_ttl_admin_seconds settings) "admin" /\
      forall d, pending w = verify_charged inp d -> durable w' = verified inp urow (next_id w) d
  | Raise e => (exists c, e = IntegrityError c) /\ durable w' = durable w
  end.
Proof.
  intros Hrole Hu. unfold elevate. unfold bind at 1, reset, execute, modify. set (w1 := with_pending _ w).
  cbn [us_mfa_enabled us_id us_role to_user]. rewrite Hrole.
  assert (Hd : forall d, pending w = verify_charged inp d -> pending w1 = refunded inp d).
  { intros d Hd. unfold w1, refunded. cbn. by rewrite Hd. }
  unfold verified. destruct (u_mfa_enabled urow); cbn [negb when].
  - unfold bind at 1, ret at 1. unfold bind at 1, mark_mfa_verified, update_tokens, execute, modify.
    unfold bind at 1. rewrite audit_run. destruct (audit_violation _ _ _) as [c|].
    { intros [= <- <-]. do 2 (split; [done|]). split; [by eexists|done]. }
    intros [= <- <-]. do 2 (split; [done|]). split; [done|]. intros d Hpd. cbn -[refunded]. by rewrite <-(Hd d Hpd).
  - unfold bind at 1. unfold bind at 1, enable_mfa. rewrite update_user_run. rewrite audit_run.
    destruct (audit_violation _ _ _) as [c|].
    { intros [= <- <-]. do 2 (split; [done|]). split; [by eexists|done]. }
    unfold bind at 1, mark_mfa_verified, update_tokens, execute, modify. unfold bind at 1.
    rewrite audit_run. destruct (audit_violation _ _ _) as [c|].
    { intros [= <- <-]. do 2 (split; [done|]). split; [by eexists|done]. }
    intros [= <- <-]. do 2 (split; [done|]). split; [done|]. intros d Hpd. cbn -[refunded]. by rewrite <-(Hd d Hpd).
Qed.

Lemma verify_cases inp w r w' : pending w = durable w -> verify_two_factor settings uuid_text inp w = (r, w') ->
  verify_result inp w r w' /\ outbox w' = outbox w /\ provider w' = provider w.
Proof.
  intros Hc Hrun. apply keeping_cases in Hrun as (w1 & Hb & Hd & Ho & Hp & _).
  unfold verify_result. rewrite Hd, Ho, Hp. clear Hd Ho Hp. revert Hb.
  unfold verify_body. unfold bind at 1, get_user, query, gets. rewrite Hc.
  destruct (users (durable w) !! vf_admin_user_id inp) as [urow|] eqn:Hu; cbn [fmap option_fmap option_map];
    [|by intros [= <- <-]].
  cbn [us_role us_id to_user]. destruct (String.eqb (u_role urow) "admin") eqn:Hrole; cbn [negb]; b2p; [|by intros [= <- <-]].
  assert (Hadmin : exists x, users (durable w) !! vf_admin_user_id inp = Some x /\ u_role x = "admin") by by exists urow.
  rewrite <-Hu. unfold bind at 1. rewrite consume_eq, Hc. fold (verify_charged inp (durable w)).
  change (allowed _) with (verify_open inp (durable w)).
  destruct (verify_open inp (durable w)) eqn:Hopen; cbn [negb].
  2: { unfold bind at 1. rewrite audit_run. destruct (audit_violation _ _ _) as [c|]; intros [= <- <-]; done. }
  unfold bind at 1, get_mfa_secret_encrypted, query, gets. cbn [pending with_pending].
  change (users (verify_charged inp (durable w))) with (users (durable w)). rewrite Hu. cbn [mbind option_bind].
  destruct (u_mfa_secret_encrypted urow) as [e|] eqn:He; [|by intros [= <- <-]].
  unfold bind at 1, lift, decrypt_secret. destruct (fernet_decrypt _ e) as [secret|] eqn:Hs; [|by intros [= <- <-]].
  unfold bind at 1, clock, gets. cbn [app_now with_pending].
  destruct (totp_verify secret (vf_code inp) (dt_us (app_now w))) eqn:Ht; cbn [negb].
  - intros Hel. match type of Hel with elevate _ _ _ _ ?x = _ => set (w2 := x) in * end.
    destruct (elevate_cases inp urow w2 r w1 Hrole Hu Hel) as (Ho & Hp & Hr). split; [|by rewrite Ho, Hp].
    destruct r as [v|ex].
    + destruct Hr as [-> Hd]. split; [by exists urow|]. split; [done|]. split; [by exists urow, e, secret|]. split; [done|].
      exists urow. split; [done|]. by apply Hd.
    + destruct Hr as [[c ->] Hd]. exact Hd.
  - unfold bind, commit, modify, raise. intros [= <- <-]. split; [|done]. split; [by exists urow|]. split; [done|]. split; [|done].
    intros (x & e' & secret' & Hx & He' & Hs' & Ht'). congruence.
Qed.
End Outcomes.

(** ** Guessing codes *)

Section Guessing.
  Context {P : Type} `{Crypto} (settings : Settings) (uuid_text : uuid -> string) (admin : uuid).
  Implicit Types w : world P.

(** One attempt of the admin in a session of its own at a time of the host's
    clock, and what it told about the code. *)
Definition code_told {A} (r : res A) : verdict :=
  match r with
  | Ok _ => Refunded
  | Raise MfaInvalidCodeError => Counted
  | Raise _ => Spared
  end.
Definition at_clock (t : datetime) w : world P :=
  mkWorld (durable w) (pending w) (provider w) (next_id w) (outbox w) t (db_now w).
Definition verify_attempt w (x : VerifyTwoFactorInput * datetime) : verdict * world P :=
  let '(r, w') := with_session (verify_two_factor settings uuid_text (fst x)) (at_clock (snd x) w) in (code_told r, w').

Definition code_bucket w : option BucketRow := rate_buckets (durable w) !! verify_bucket uuid_text admin.
Definition code_time (x : VerifyTwoFactorInput * datetime) : datetime := vf_now (fst x).
Definition of_admin (x : VerifyTwoFactorInput * datetime) : Prop := vf_admin_user_id (fst x) = admin.

Lemma verified_bucket inp urow n d : vf_admin_user_id inp = admin ->
  rate_buckets (verified uuid_text inp urow n d) !! verify_bucket uuid_text admin = None.
Proof.
  intros <-. unfold verified. destruct (u_mfa_enabled urow); cbn; apply lookup_delete_eq.
Qed.

Lemma verify_step w x : of_admin x ->
  throttled_step code_bucket code_time verify_attempt VERIFY_2FA_CAPACITY VERIFY_2FA_REFILL_PER_SECOND w x.
Proof.
  intros Hadmin. unfold throttled_step, verify_attempt. destruct (with_session _ _) as [r w'] eqn:Hrun. cbn [fst snd].
  apply session_cases in Hrun as (w1 & Hrun & Hd & _).
  destruct (verify_cases settings uuid_text (fst x) (opening (at_clock (snd x) w)) r w1 eq_refl Hrun) as [Hr _].
  unfold verify_result in Hr. change (durable (opening (at_clock (snd x) w))) with (durable w) in Hr. rewrite <-Hd in Hr.
  assert (Hbucket : rate_buckets (verify_charged uuid_text (fst x) (durable w)) !! verify_bucket uuid_text admin =
    Some (fst (call_of code_bucket code_time VERIFY_2FA_CAPACITY VERIFY_2FA_REFILL_PER_SECOND w x))).
  { unfold verify_charged, charged, call_of, code_bucket. cbn. by rewrite Hadmin, lookup_insert_eq. }
  assert (Hopen : verify_open uuid_text (fst x) (durable w) =
    allowed (snd (call_of code_bucket code_time VERIFY_2FA_CAPACITY VERIFY_2FA_REFILL_PER_SECOND w x))).
  { unfold verify_open, decision, call_of, code_bucket, bucket_at. by rewrite Hadmin. }
  unfold code_told. destruct r as [v|e].
  - destruct Hr as (_ & Ho & _ & _ & urow & _ & Hdd). unfold code_bucket at 1. rewrite Hdd. split; [by apply verified_bucket|congruence].
  - destruct e; try (left; unfold code_bucket; by rewrite Hr).
    + right. unfold code_bucket at 1. by destruct Hr as (_ & _ & ->).
    + destruct Hr as (_ & Ho & _ & Hdd). unfold code_bucket at 1. rewrite Hdd. split; [done|congruence].
Qed.

End Guessing.

(** A stolen admin session does not get past the second factor by guessing:
    over any sequence of codes submitted for one admin, from whichever sessions,
    the wrong ones that are answered as such are at most five, one more per
    fifteen minutes elapsed, and four more per correct code in between. *)
Theorem two_factor_guesses_bounded {P} `{Crypto} (settings : Settings) (uuid_text : uuid -> string) (admin : uuid)
    (w : world P) (first : VerifyTwoFactorInput * datetime) (rest : list (VerifyTwoFactorInput * datetime))
    (Hadmin : Forall (of_admin admin) (first :: rest))
    (Hbucket : sound_bucket (rate_buckets (durable w) !! verify_bucket uuid_text admin) (dt_us (code_time first)))
    (Htimes : monotone (dt_us (code_time first)) (code_time <$> rest)) :
  let answers := fst (steps (verify_attempt settings uuid_text) w (first :: rest)) in
  (counted answers <=
    5 + 4 * refunds answers +
    (total_seconds (last_time (dt_us (code_time first)) (code_time <$> rest)) - total_seconds (dt_us (code_time first))) / 900)%Q.
Proof.
  assert (E : forall x : Q, (x / 900 == x * (1 # 900))%Q) by (intros x; field). cbv zeta. rewrite E.
  apply (throttle_bound (code_bucket uuid_text admin) code_time (verify_attempt settings uuid_text)
    (fun _ => True) (of_admin admin) 5 (1 # 900)); try done.
  intros s x _ Hx. split; [done|exact (verify_step settings uuid_text admin s x Hx)].
Qed.

Definition sample_uuid_text (i : uuid) : string := numeral i.
Definition code_at (code : string) (s : Z) : VerifyTwoFactorInput * datetime := (mkVerify 9 50 code (at_second s), at_second s).

(** Seven codes within two minutes: five are looked at. *)
Lemma two_factor_guesses_bounded_witness :
  let guesses := (fun n => code_at "41" (20 * n)) <$> [1; 2; 3; 4; 5; 6] in
  let w := mkWorld auth_db auth_db tt 100 [] (at_second 0) (at_second 0) in
  let answers := fst (steps (verify_attempt sample_settings sample_uuid_text) w (code_at "41" 0 :: guesses)) in
  answers = [Counted; Counted; Counted; Counted; Counted; Spared; Spared] /\
  (counted answers <=
    5 + 4 * refunds answers +
    (total_seconds (last_time (dt_us (at_second 0)) (code_time <$> guesses)) - total_seconds (dt_us (at_second 0))) / 900)%Q.
Proof.
  intros guesses w answers. split; [vm_compute; reflexivity|].
  apply (two_factor_guesses_bounded sample_settings sample_uuid_text 9 w (code_at "41" 0) guesses).
  - unfold guesses. cbn. repeat (constructor; [reflexivity|]). constructor.
  - exact I.
  - vm_compute. repeat split; discriminate.
Defined.

(** ** Setting the factor up, and what it opens *)

Section Setup.
  Context {P : Type} `{Crypto} (settings : Settings).
  Implicit Types w : world P.

Definition setup_result (admin : uuid) (now : datetime) w (r : res SetupTwoFactorResult) w' : Prop :=
  let d := durable w in
  match r with
  | Ok s => exists urow, users d !! admin = Some urow /\ u_role urow = "admin" /\ u_mfa_enabled urow = false /\
      s = mkSetup (provisioning_uri (random_base32 (next_id w)) (u_email urow) TOTP_ISSUER) (random_base32 (next_id w)) /\
      durable w' = mfa_secret_set admin
        (fernet_encrypt (resolved_mfa_encryption_key settings) (random_base32 (next_id w)) (next_id w + 1)) now d
  | Raise e => durable w' = d /\
      ((e = ForbiddenError /\ forall urow, users d !! admin = Some urow -> u_role urow <> "admin") \/
       (e = MfaAlreadyEnabledError /\ exists urow, users d !! admin = Some urow /\ u_role urow = "admin" /\ u_mfa_enabled urow = true))
  end.

Lemma setup_cases admin now w r w' : pending w = durable w -> setup_two_factor settings admin now w = (r, w') ->
  setup_result admin now w r w' /\ outbox w' = outbox w /\ provider w' = provider w.
Proof.
  intros Hc Hrun. apply keeping_cases in Hrun as (w1 & Hb & Hd & Ho & Hp & _).
  unfold setup_result. rewrite Hd, Ho, Hp. clear Hd Ho Hp. revert Hb.
  unfold setup_body. unfold bind at 1, get_user, query, gets. rewrite Hc.
  destruct (users (durable w) !! admin) as [urow|] eqn:Hu; cbn [fmap option_fmap option_map].
  2: { intros [= <- <-]. split; [|done]. split; [done|]. by left. }
  cbn [us_role us_mfa_enabled us_id us_email to_user]. destruct (String.eqb (u_role urow) "admin") eqn:Hrole; cbn [negb]; b2p.
  2: { intros [= <- <-]. split; [|done]. split; [done|]. left. split; [done|]. by intros ? [= <-]. }
  destruct (u_mfa_enabled urow) eqn:Hm.
  { intros [= <- <-]. split; [|done]. split; [done|]. right. split; [done|]. by exists urow. }
  unfold bind at 1, generate_totp_secret, bind at 1, uuid4, ret at 1. unfold bind at 1, encrypt_secret, bind at 1, uuid4, ret at 1.
  unfold bind at 1, set_mfa_secret. rewrite update_user_run. intros [= <- <-]. split; [|done].
  exists urow. do 4 (split; [done|]). cbn. by rewrite Hc.
Qed.
End Setup.

(** What a correct code opens.  The session it was entered in, and no other,
    becomes verified, the factor is on for the account from then on, the
    attempts are refunded, and the access token handed out passes the admin gate
    as long as it has not expired and the session is not closed; the same session
    was answered MFA_REQUIRED before. *)
Theorem two_factor_elevates {P} `{Crypto} {Hlaws : JwtLaws} (settings : Settings) (uuid_text : uuid -> string)
    (inp : VerifyTwoFactorInput) (v : VerifyTwoFactorResult) (t : RefreshTokenRow) (w w' later : world P)
    (Hclean : pending w = durable w) (Hrun : verify_two_factor settings uuid_text inp w = (Ok v, w'))
    (Hsession : refresh_tokens (durable w) !! vf_session_id inp = Some t) (Hlive : rt_revoked_at t = None)
    (Hdb : pending later = durable w') (Hiat : timestamp (vf_now inp) * SECOND <= dt_us (app_now later))
    (Hexp : dt_us (app_now later) <
            timestamp (dt_add (vf_now inp) (access_token_ttl_admin_seconds settings * SECOND)) * SECOND) :
  (forall i : uuid, refresh_tokens (durable w') !! i =
     if i =? vf_session_id inp then Some (token_mfa t) else refresh_tokens (durable w) !! i) /\
  (exists urow, users (durable w') !! vf_admin_user_id inp = Some urow /\ u_role urow = "admin" /\ u_mfa_enabled urow = true) /\
  rate_buckets (durable w') !! verify_bucket uuid_text (vf_admin_user_id inp) = None /\
  authorize_admin settings (Some ("Bearer " ++ vr_access_token v)%string) later =
    (Ok (mkRequestUser (vf_admin_user_id inp) "admin" (vf_session_id inp) true), later) /\
  get_admin_user (P := P) (mkRequestUser (vf_admin_user_id inp) "admin" (vf_session_id inp) false) w =
    (Raise (ApiError "MFA_REQUIRED" 403 None []), w).
Proof.
  destruct (verify_cases settings uuid_text inp w _ w' Hclean Hrun) as [Hr _].
  destruct Hr as ((x & Hx & Hrole) & _ & _ & -> & urow & Hu & Hd). rewrite Hu in Hx. injection Hx as <-.
  assert (Htok : forall i : uuid, refresh_tokens (durable w') !! i =
     if i =? vf_session_id inp then Some (token_mfa t) else refresh_tokens (durable w) !! i).
  { intros i. rewrite Hd. unfold verified, refunded, verify_charged, charged. destruct (u_mfa_enabled urow); cbn;
      rewrite lookup_update; (destruct (i =? vf_session_id inp) eqn:Hi; b2p; [subst i; by rewrite Hsession|by destruct (_ !! i)]). }
  split; [exact Htok|]. split; [|split; [|split]].
  - rewrite Hd. unfold verified, refunded, verify_charged, charged. destruct (u_mfa_enabled urow) eqn:Hm; cbn.
    + by exists urow.
    + exists (user_set_mfa true (u_mfa_secret_encrypted urow) (vf_now inp) urow). split; [|done].
      rewrite lookup_update, Hu. cbn. by rewrite Z.eqb_refl.
  - rewrite Hd. unfold verified, refunded. destruct (u_mfa_enabled urow); cbn; by rewrite lookup_delete_eq.
  - unfold authorize_admin, bind at 1. cbn [vr_access_token]. unfold elevated_token.
    rewrite (authorize_signed settings _ _ _ _ _ _ later Hiat), (proj2 (Z.ltb_lt _ _) Hexp).
    unfold get_active_user, get_token. unfold bind at 1, query, gets. cbn [ru_session_id]. rewrite Hdb, Htok, Z.eqb_refl.
    cbn [rt_revoked_at token_mfa]. rewrite Hlive. done.
  - done.
Qed.

Lemma two_factor_elevates_witness :
  let d := set_refresh_tokens {[50 := mkRefreshToken 9 "h" None (at_second 0) (at_second 43200) None None false]} auth_db in
  let w := mkWorld d d tt 100 [] (at_second 7) (at_second 7) in
  exists v w', verify_two_factor sample_settings sample_uuid_text (fst (code_at "42" 7)) w = (Ok v, w') /\
    fst (authorize_admin sample_settings (Some ("Bearer " ++ vr_access_token v)%string) w') =
      Ok (mkRequestUser 9 "admin" 50 true).
Proof.
  intros d w. destruct (verify_two_factor sample_settings sample_uuid_text (fst (code_at "42" 7)) w) as [r w'] eqn:Hrun.
  assert (Hr : is_ok r = true).
  { change r with (fst (r, w')). rewrite <-Hrun. vm_compute. reflexivity. }
  destruct r as [v|]; [|done]. exists v, w'. split; [reflexivity|].
  assert (Happ : app_now w' = at_second 7 /\ pending w' = durable w').
  { change w' with (snd (Ok (E := exn) v, w')). rewrite <-Hrun. vm_compute. by split. }
  destruct (two_factor_elevates sample_settings sample_uuid_text (fst (code_at "42" 7)) v
    (mkRefreshToken 9 "h" None (at_second 0) (at_second 43200) None None false) w w' w' eq_refl Hrun eq_refl eq_refl
    (proj2 Happ)) as (_ & _ & _ & -> & _).
  - rewrite (proj1 Happ). vm_compute. discriminate.
  - rewrite (proj1 Happ). vm_compute. reflexivity.
  - reflexivity.
Defined.
