(* ===== verification/AdminSpec.v ===== *)
(** * What account administration guarantees

    The life of an invitation, what disabling an account does to its sessions
    and its open intents on both tracks, and what it does not reach. *)

From Stdlib Require Import QArith.
From S2P Require Import Prelude Decimal Datetime Errors Price Intent Tables Store CoreSchema AuditLog RateLimiter AuthRepos Tokens AuthSamples Auth Samples SessionSpec Account AccountSpec.
From S2P Require LegacyRepo.

#[local] Open Scope string_scope.
#[local] Open Scope list_scope.
#[local] Open Scope Z_scope.

(** ** The indexes after the commands *)

Lemma activated_user_ok i h now d : auth_ok d -> auth_ok (activated_user i h now d).
Proof. intros Hok. by apply update_users_ok. Qed.
Lemma disabled_user_ok i now d : auth_ok d -> auth_ok (disabled_user i now d).
Proof. intros Hok. by apply update_users_ok. Qed.
Lemma reactivated_user_ok i now d : auth_ok d -> auth_ok (reactivated_user i now d).
Proof. intros Hok. by apply update_users_ok. Qed.
Lemma cancelled_intents_ok i now d : auth_ok d -> auth_ok (cancelled_intents i now d).
Proof. by apply auth_ok_frame. Qed.
Lemma consumed_invitation_ok i now d : auth_ok d -> auth_ok (consumed_invitation i now d).
Proof.
  intros Hok. apply update_invitations_ok; [done|done|]. intros r. by destruct r.
Qed.
Lemma revoked_invitations_ok i now d : auth_ok d -> auth_ok (revoked_invitations i now d).
Proof.
  intros Hok. apply update_invitations_ok; [done|done|]. intros r. unfold is_live_invitation. cbn. by rewrite andb_false_r.
Qed.

(** ** Invitations *)

(** A consumed invitation is refused whatever the password. *)
Lemma consumed_invitation_refused {P} `{Crypto} settings inp (w : world P) r w' id i : pending w = durable w -> auth_ok (durable w) ->
  accept_invitation settings inp w = (r, w') -> invitation_by_hash (hash_url_token (ac_raw_token inp)) (durable w) = Some (id, i) ->
  is_some (inv_consumed_at i) = true -> inv_revoked_at i = None ->
  r = Raise InvitationConsumedError /\ durable w' = durable w.
Proof.
  intros Hc Hok Hrun Hf Hcon Hrev. destruct (accept_cases settings inp w r w' Hc Hok Hrun) as [Hr _].
  unfold accept_result in Hr. rewrite Hf in Hr. destruct r as [s|e].
  - destruct Hr as (? & ? & ? & [= <- <-] & (_ & E & _) & _). by rewrite E in Hcon.
  - destruct Hr as [Hd (_ & Hx & _)]. rewrite Hx; [done|done|]. by destruct (inv_consumed_at i).
Qed.

(** An invitation from end to end.  Creating a user stores an invited account
    without a password under an address no account has, and one mail to that
    address carries a token.  Presenting the token within 24 hours with a strong
    password, unless the infrastructure fails and nothing changes, activates the
    account in the role it was invited for with that password, opens a live
    session for it and leaves it no live invitation; from then on the same token
    is INVITATION_CONSUMED and changes nothing. *)
Theorem invitation_roundtrip {P} `{Crypto} {Hpw : PasswordLaws} `{Mailer P} {Hmail : MailerLaws P} (settings : Settings)
    (base_url : string) (inp : CreateUserInput) (acc : AcceptInvitationInput) (user : uuid)
    (w w1 w2 : world P) (r2 : res IssuedSession) (Hok : auth_ok (durable w))
    (Hcreate : with_session (create_user base_url inp) w = (Ok user, w1))
    (Htoken : ac_raw_token acc = token_urlsafe (next_id w + 1)) (Hstrong : is_password_strong_enough (ac_password acc) = true)
    (Htime : dt_us (ac_now acc) < dt_us (cu_now inp) + INVITATION_TTL)
    (Hrun : with_session (accept_invitation settings acc) w1 = (r2, w2)) :
  (exists row, users (durable w1) !! user = Some row /\ u_status row = "invited" /\ u_role row = cu_role inp /\
     u_password_hash row = None) /\
  (exists w0 x, send_invitation_mail base_url (normalize_email (cu_email inp)) (ac_raw_token acc) w0 = (Ok tt, x) /\
     provider w1 = provider x) /\
  match r2 with
  | Raise e => (exists c, e = IntegrityError c) /\ durable w2 = durable w1
  | Ok s =>
      (exists u, us_id u = user /\ us_role u = cu_role inp /\
         forall login, li_email login = cu_email inp -> li_password login = ac_password acc -> credentials_ok login (durable w2) u) /\
      (exists t, refresh_tokens (durable w2) !! is_session_id s = Some t /\ rt_user_id t = user /\ rt_revoked_at t = None) /\
      (forall i x, invitations (durable w2) !! i = Some x -> inv_user_id x = user -> is_live_invitation x = false) /\
      forall again, ac_raw_token again = ac_raw_token acc -> exists w3,
        with_session (accept_invitation settings again) w2 = (Raise InvitationConsumedError, w3) /\ durable w3 = durable w2
  end.
Proof.
  apply session_cases in Hcreate as (w1' & Hcreate & Hd1 & _ & Hp1 & _).
  destruct (create_user_cases base_url inp (opening w) _ w1' eq_refl Hok Hcreate) as [Hr _].
  destruct Hr as (Hfree & -> & Huv & Hiv & Hd1' & w0 & x & Hmail' & Hprov).
  change (durable (opening w)) with (durable w) in *. change (next_id (opening w)) with (next_id w) in *.
  change (db_now (opening w)) with (db_now w) in *. set (n := next_id w) in *.
  set (row := invited_user inp (db_now w)) in *. set (inv := invitation_row _ _ _ _) in *.
  rewrite <-Hd1 in Hd1'. set (d1 := durable w1) in *.
  assert (Hok1 : auth_ok d1).
  { rewrite Hd1'. apply logged_ok. apply (insert_invitation_ok (set_users (<[n := row]> (users (durable w))) (durable w))); [|exact Hiv].
    by apply insert_user_ok. }
  assert (Hu1 : users d1 !! n = Some row) by (rewrite Hd1'; cbn; by rewrite lookup_insert_eq).
  split; [by exists row|]. split; [exists w0, x; by rewrite Htoken, Hp1|].
  apply session_cases in Hrun as (w2' & Hacc & Hd2 & _). rewrite Hd2 in *.
  destruct (accept_cases settings acc (opening w1) r2 w2' eq_refl Hok1 Hacc) as [Hr _].
  assert (Hf : invitation_by_hash (hash_url_token (ac_raw_token acc)) d1 = Some (n + 2, inv)).
  { apply invitation_by_hash_Some; [done|]. rewrite Htoken. split; [|done]. rewrite Hd1'. cbn. by rewrite lookup_insert_eq. }
  unfold accept_result in Hr. change (durable (opening w1)) with d1 in Hr. rewrite Hf in Hr.
  destruct r2 as [s|e].
  2: { destruct Hr as (Hsame & _ & _ & _ & _ & Hlast). split; [|exact Hsame].
       destruct Hlast as [[_ Hno]|Hclash]; [done|done| |exact Hclash]. by destruct (Hno row Hu1). }
  destruct Hr as (id & i & urow & [= <- <-] & _ & _ & Hu & _ & Hs & Htv & Hd2').
  assert (urow = row) as -> by (cbn in Hu; congruence). change (inv_user_id inv) with n in *.
  set (hash := argon2_hash _ _) in *. set (da := activated_user n hash (ac_now acc) d1) in *.
  set (dc := consumed_invitation (n + 2) (ac_now acc) da) in *.
  assert (Hokc : auth_ok dc) by by apply consumed_invitation_ok, activated_user_ok.
  assert (Hok2 : auth_ok (durable w2')) by (rewrite Hd2'; by apply logged_ok, opened_ok).
  assert (Hi2 : invitations (durable w2') !! (n + 2) = Some (invitation_set (Some (ac_now acc)) None inv)).
  { rewrite Hd2'. cbn. rewrite lookup_update. change (invitations (activated_user n hash (ac_now acc) d1)) with (invitations d1).
    rewrite Hd1'. cbn. rewrite lookup_insert_eq. cbn. by rewrite Z.eqb_refl. }
  split; [|split; [|split]].
  - exists (to_user n (user_set (Some hash) "active" (u_disabled_at row) (ac_now acc) row)). do 2 (split; [done|]).
    intros login He Hp. unfold credentials_ok. rewrite He, Hp. split; [|split; [done|]].
    + apply user_by_email_Some; [done|]. eexists. split; [|split; [|reflexivity]].
      * rewrite Hd2'. cbn -[activated_user]. unfold da, activated_user. rewrite (with_user_lookup _ _ _ _ _ Hu1).
        cbn. by rewrite Z.eqb_refl.
      * cbn. rewrite normalize_idem. by apply String.eqb_refl.
    + exists hash. split; [done|]. apply argon2_verify_hash.
  - eexists. split; [rewrite Hd2'; cbn; by rewrite lookup_insert_eq|]. done.
  - intros j y Hj Hy. destruct (is_live_invitation y) eqn:Hl; [|done]. exfalso.
    rewrite Hd2' in Hj. cbn in Hj. apply lookup_update_Some in Hj as (y0 & Hj0 & ->).
    change (invitations (activated_user n hash (ac_now acc) d1)) with (invitations d1) in Hj0.
    assert (Hl0 : is_live_invitation y0 = true /\ inv_user_id y0 = n /\ j <> n + 2).
    { destruct ((j =? n + 2) && is_none (inv_consumed_at y0)) eqn:Hcond; [done|]. split; [done|]. split; [done|].
      intros ->. rewrite Z.eqb_refl in Hcond. unfold is_live_invitation in Hl. cbn in Hcond. by rewrite Hcond in Hl. }
    destruct Hl0 as (Hl0 & Hy0 & Hne). apply Hne.
    refine (live_invitation_unique d1 Hok1 j (n + 2) y0 inv Hj0 _ Hl0 eq_refl Hy0).
    rewrite Hd1'. cbn. by rewrite lookup_insert_eq.
  - intros again Hagain. destruct (with_session (accept_invitation settings again) w2) as [r3 w3] eqn:H3.
    apply session_cases in H3 as (w3' & H3 & Hdw3 & _). exists w3. rewrite Hdw3.
    destruct (consumed_invitation_refused settings again (opening w2) r3 w3' (n + 2) (invitation_set (Some (ac_now acc)) None inv)
      eq_refl) as [-> Hd3]; [by rewrite <-Hd2 in Hok2|exact H3| |done|done|].
    + change (durable (opening w2)) with (durable w2). rewrite Hd2. apply invitation_by_hash_Some; [done|].
      split; [exact Hi2|]. by rewrite Hagain, Htoken.
    + split; [done|]. rewrite Hd3. exact Hd2.
Qed.

Definition office_world : world post_office :=
  mkWorld auth_db auth_db (mkPost [] (fun _ => false)) 100 [] (at_second 0) (at_second 0).

Lemma invitation_roundtrip_witness :
  let inp := mkCreateUser " New@B.c" "user" 9 (at_second 0) in
  let acc password := mkAccept (token_urlsafe 101) password (at_second 86399) in
  exists s w1 w2, with_session (create_user "https://x" inp) office_world = (Ok 100, w1) /\
    with_session (accept_invitation sample_settings (acc "new password")) w1 = (Ok s, w2) /\
    fst (with_session (accept_invitation sample_settings (acc "another one")) w2) = Raise InvitationConsumedError.
Proof.
  intros inp acc. destruct (with_session (create_user "https://x" inp) office_world) as [r1 w1] eqn:H1.
  assert (Hr : r1 = Ok 100) by (change r1 with (fst (r1, w1)); rewrite <-H1; vm_compute; reflexivity). subst r1.
  destruct (with_session (accept_invitation sample_settings (acc "new password")) w1) as [r2 w2] eqn:H2.
  assert (Hr : is_ok (fst (with_session (accept_invitation sample_settings (acc "new password"))
    (snd (with_session (create_user "https://x" inp) office_world)))) = true) by (vm_compute; reflexivity).
  rewrite H1 in Hr. cbn [snd] in Hr. rewrite H2 in Hr.
  destruct (invitation_roundtrip sample_settings "https://x" inp (acc "new password") 100 office_world w1 w2 r2 auth_db_ok H1
    eq_refl ltac:(vm_compute; reflexivity) ltac:(vm_compute; reflexivity) H2) as (_ & _ & Hres).
  destruct r2 as [s|]; [|done]. destruct Hres as (_ & _ & _ & Hagain). exists s, w1, w2. split; [reflexivity|].
  split; [exact H2|]. destruct (Hagain (acc "another one") eq_refl) as (w3 & -> & _). reflexivity.
Defined.

(** ** Disabling *)

Lemma cancelled_not_open : is_open ACCOUNT_DISABLED_INTENT_STATUS = false.
Proof. reflexivity. Qed.

(** C14. Disabling an account shuts it out at once and everywhere.  Afterwards it
    is disabled and no password logs it in; none of its refresh tokens can be
    exchanged, and every session that was live is answered ACCOUNT_DISABLED from
    the next request on; none of its intents is open, neither on the legacy track
    nor on the core track.  Nothing of the other accounts changes: not their rows,
    their sessions nor their intents, and closed intents keep their status. *)
Theorem disable_cascades {P} `{Crypto} (settings : Settings) (adm : AdminInput) (w w1 : world P)
    (Hok : auth_ok (durable w)) (Hrun : with_session (disable_user adm) w = (Ok tt, w1)) :
  let target := ad_target_user_id adm in
  (exists row, users (durable w1) !! target = Some row /\ u_status row = "disabled") /\
  (forall login u, credentials_ok login (durable w1) u -> us_id u <> target) /\
  (forall inp s w2 raw id t, with_session (refresh settings inp) w1 = (Ok s, w2) -> ri_raw_refresh_token inp = Some raw ->
     token_by_hash (hash_refresh_token raw) (durable w1) = Some (id, t) -> rt_user_id t <> target) /\
  (forall (i : uuid) t, refresh_tokens (durable w) !! i = Some t -> rt_revoked_at t = None -> rt_user_id t = target ->
     forall user, ru_session_id user = i -> get_active_user user w1 = (Raise (ApiError "ACCOUNT_DISABLED" 403 None []), w1)) /\
  (forall (i : uuid) c, cores (durable w1) !! i = Some c -> c_owner_user_id c = target -> is_open (c_status c) = false) /\
  (forall (i : uuid) l, legacy_intents (durable w1) !! i = Some l -> l_owner_user_id l = target -> is_open (l_status l) = false) /\
  (forall i : uuid, i <> target -> users (durable w1) !! i = users (durable w) !! i) /\
  (forall (i : uuid) t, refresh_tokens (durable w) !! i = Some t -> rt_user_id t <> target ->
     refresh_tokens (durable w1) !! i = Some t) /\
  (forall (i : uuid) c, cores (durable w) !! i = Some c -> c_owner_user_id c <> target \/ is_open (c_status c) = false ->
     cores (durable w1) !! i = Some c) /\
  (forall (i : uuid) l, legacy_intents (durable w) !! i = Some l -> l_owner_user_id l <> target \/ is_open (l_status l) = false ->
     legacy_intents (durable w1) !! i = Some l).
Proof.
  intros target. apply session_cases in Hrun as (w1' & Hrun & Hd1 & Hp1 & _).
  destruct (disable_cases adm (opening w) _ w1' eq_refl Hrun) as [(Hex & Hd) _].
  change (durable (opening w)) with (durable w) in *. fold target in Hex, Hd. rewrite <-Hd1 in Hd, Hp1.
  set (da := cancelled_intents target (ad_now adm) (disabled_user target (ad_now adm) (durable w))) in *.
  destruct (users (durable w) !! target) as [row|] eqn:Hrow; [|done].
  assert (Hok1 : auth_ok (durable w1)).
  { rewrite Hd. by apply logged_ok, revoked_all_ok, cancelled_intents_ok, disabled_user_ok. }
  assert (Hu : users (durable w1) = users (disabled_user target (ad_now adm) (durable w))) by by rewrite Hd.
  assert (Hrow1 : users (durable w1) !! target = Some (user_set (u_password_hash row) "disabled" (Some (ad_now adm)) (ad_now adm) row)).
  { rewrite Hu. unfold disabled_user. rewrite (with_user_lookup _ _ _ _ _ Hrow). by rewrite Z.eqb_refl. }
  assert (Hdead : forall i t, refresh_tokens (durable w1) !! i = Some t -> rt_user_id t = target -> is_some (rt_revoked_at t) = true).
  { intros i t Hi. apply (revoked_all_dead da target "account_disabled" (ad_now adm) i t). by rewrite Hd in Hi. }
  assert (Htok : forall (i : uuid) t, refresh_tokens (durable w) !! i = Some t -> refresh_tokens (durable w1) !! i =
    Some (if active_of target i t then token_revoke (ad_now adm) "account_disabled" t else t)).
  { intros i t Hi. rewrite Hd. apply (revoked_all_lookup da). exact Hi. }
  assert (Hcores : forall i : uuid, cores (durable w1) !! i = (fun c =>
    if (c_owner_user_id c =? target) && is_open (c_status c) then
      core_set ACCOUNT_DISABLED_INTENT_STATUS (Some (ad_now adm)) (c_triggered_at c) (c_last_fill_at c)
        (c_filled_quantity_lots c) (ad_now adm) c else c) <$> cores (durable w) !! i).
  { intros i. rewrite Hd. cbn. by rewrite lookup_update. }
  assert (Hlegacy : forall i : uuid, legacy_intents (durable w1) !! i = (fun l =>
    if (l_owner_user_id l =? target) && is_open (l_status l) then LegacyRepo.cancelled_row ACCOUNT_DISABLED_INTENT_STATUS (ad_now adm) l
    else l) <$> legacy_intents (durable w) !! i).
  { intros i. rewrite Hd. cbn. by rewrite lookup_update. }
  split; [by eexists|]. split; [|split; [|split; [|split; [|split; [|split; [|split; [|split]]]]]]].
  - intros login u (Hf & Hst & _) E. apply user_by_email_Some in Hf as (r & Hr & _ & Hur); [|done].
    rewrite E, Hrow1 in Hr. injection Hr as <-. rewrite Hur in Hst. done.
  - intros inp s w2 raw id t Href Hraw Hf E. apply session_cases in Href as (w2' & Href & _).
    destruct (refresh_cases settings inp (opening w1) _ w2' eq_refl Hok1 Href) as [Hr _].
    destruct Hr as (id' & t' & u & (_ & raw' & Hraw' & Hf') & (Hn & _) & _).
    change (durable (opening w1)) with (durable w1) in Hf'. assert (raw' = raw) by congruence. subst raw'.
    rewrite Hf in Hf'. injection Hf' as <- <-. apply token_by_hash_Some in Hf as [Hid _]; [|done].
    pose proof (Hdead id t Hid E) as Hx. by rewrite Hn in Hx.
  - intros i t Hi Hn Ht user Hus. unfold get_active_user, get_token, bind, query, gets.
    rewrite Hp1, Hus, (Htok i t Hi). unfold active_of. by rewrite Ht, Z.eqb_refl, Hn.
  - intros i c Hi Hc. rewrite Hcores in Hi. apply fmap_Some in Hi as (c0 & _ & ->).
    destruct ((c_owner_user_id c0 =? target) && is_open (c_status c0)) eqn:Hb; [apply cancelled_not_open|].
    rewrite Hc, Z.eqb_refl in Hb. exact Hb.
  - intros i l Hi Hl. rewrite Hlegacy in Hi. apply fmap_Some in Hi as (l0 & _ & ->).
    destruct ((l_owner_user_id l0 =? target) && is_open (l_status l0)) eqn:Hb; [apply cancelled_not_open|].
    rewrite Hl, Z.eqb_refl in Hb. exact Hb.
  - intros i Hi. rewrite Hu. unfold disabled_user, with_user. cbn. rewrite lookup_update.
    rewrite (proj2 (Z.eqb_neq i target) Hi). by destruct (users (durable w) !! i).
  - intros i t Hi Ht. rewrite (Htok i t Hi). unfold active_of. by rewrite (proj2 (Z.eqb_neq _ _) Ht).
  - intros i c Hi Hc. rewrite Hcores, Hi. cbn [fmap option_fmap option_map]. destruct Hc as [Hc | ->]; [|by rewrite andb_false_r].
    by rewrite (proj2 (Z.eqb_neq _ _) Hc).
  - intros i l Hi Hl. rewrite Hlegacy, Hi. cbn [fmap option_fmap option_map]. destruct Hl as [Hl | ->]; [|by rewrite andb_false_r].
    by rewrite (proj2 (Z.eqb_neq _ _) Hl).
Qed.

(** User 7 with a session and an open intent. *)
Definition busy_db : db :=
  set_refresh_tokens {[50 := mkRefreshToken 7 "sha256:first" None (at_second 0) (at_second 7776000) None None false]}
    (set_cores {[1 := sample_row 2]} auth_db).
Lemma busy_db_ok : auth_ok busy_db.
Proof. apply (auth_ok_frame (durable session_world)); [done..|]. exact session_world_ok. Qed.

Lemma disable_cascades_witness :
  let w := mkWorld busy_db busy_db tt 100 [] (at_second 5) (at_second 5) in
  exists w1, with_session (disable_user (mkAdmin 7 9 (at_second 5))) w = (Ok tt, w1) /\
    get_active_user (mkRequestUser 7 "user" 50 false) w1 = (Raise (ApiError "ACCOUNT_DISABLED" 403 None []), w1) /\
    exists c, cores (durable w1) !! 1 = Some c /\ is_open (c_status c) = false /\ is_open (c_status (sample_row 2)) = true.
Proof.
  intros w. destruct (with_session (disable_user (mkAdmin 7 9 (at_second 5))) w) as [r w1] eqn:H1.
  assert (Hr : r = Ok tt) by (change r with (fst (r, w1)); rewrite <-H1; vm_compute; reflexivity). subst r.
  exists w1. split; [reflexivity|].
  destruct (disable_cascades sample_settings (mkAdmin 7 9 (at_second 5)) w w1 busy_db_ok H1) as (_ & _ & _ & Hs & Hc & _).
  split; [exact (Hs 50 _ eq_refl eq_refl eq_refl (mkRequestUser 7 "user" 50 false) eq_refl)|].
  assert (Hx : exists c, cores (durable w1) !! 1 = Some c /\ c_owner_user_id c = 7).
  { change w1 with (snd (@Ok exn _ tt, w1)). rewrite <-H1. eexists. split; [vm_compute; reflexivity|reflexivity]. }
  destruct Hx as (c & Hx & Hown). exists c. split; [exact Hx|]. split; [exact (Hc 1 c Hx Hown)|reflexivity].
Defined.

(** C29. What disabling does not reach: the access token issued before the last
    rotation.  After a refresh and then the disabling of the account, the
    successor session is answered ACCOUNT_DISABLED, but the access token of the
    session that was rotated still passes the session check, as long as it has not
    expired: its row keeps the reason of the rotation. *)
Theorem rotated_session_survives {P} `{Crypto} {Hlaws : JwtLaws} (settings : Settings) (inp : RefreshInput) (adm : AdminInput)
    (raw role : string) (id : uuid) (t : RefreshTokenRow) (issued : datetime) (ttl : Z) (mfa : bool)
    (s : IssuedSession) (w w1 w2 later : world P) (Hok : auth_ok (durable w))
    (Hraw : ri_raw_refresh_token inp = Some raw)
    (Hid : token_by_hash (hash_refresh_token raw) (durable w) = Some (id, t)) (Hadm : ad_target_user_id adm = rt_user_id t)
    (Hrefresh : with_session (refresh settings inp) w = (Ok s, w1))
    (Hdisable : with_session (disable_user adm) w1 = (Ok tt, w2))
    (Hdb : pending later = durable w2) (Hiat : timestamp issued * SECOND <= dt_us (app_now later))
    (Hexp : dt_us (app_now later) < timestamp (dt_add issued (ttl * SECOND)) * SECOND) :
  (exists row, users (durable w2) !! rt_user_id t = Some row /\ u_status row = "disabled") /\
  (forall user, ru_session_id user = is_session_id s ->
     get_active_user user later = (Raise (ApiError "ACCOUNT_DISABLED" 403 None []), later)) /\
  authorize settings (Some ("Bearer " ++ encode_access_token (resolved_jwt_access_secret settings) (rt_user_id t) role id
                                            ttl issued mfa)%string) later =
    (Ok (mkRequestUser (rt_user_id t) role id mfa), later).
Proof.
  apply session_cases in Hrefresh as (w1' & Hrefresh & Hd1 & _).
  destruct (refresh_cases settings inp (opening w) _ w1' eq_refl Hok Hrefresh) as [Hr _].
  destruct Hr as (id' & t' & u & (_ & raw' & Hraw' & Hf') & (Hn & _ & (urow & Hu & ->) & _) & Hs & Hv & Hd1').
  change (durable (opening w)) with (durable w) in *. assert (raw' = raw) by congruence. subst raw'.
  rewrite Hid in Hf'. injection Hf' as <- <-. apply token_by_hash_Some in Hid as [Hid _]; [|done].
  rewrite <-Hd1 in Hd1'. cbn zeta in Hd1'.
  pose proof (violation_absent _ _ _ Hv) as Habs.
  pose proof (revoked_one_lookup (durable w) id "rotated" (ri_now inp) id t Hid) as Hid1.
  rewrite Z.eqb_refl, Hn in Hid1. cbn [is_none is_some negb andb] in Hid1.
  assert (Hne : is_session_id s <> id) by (intros E; rewrite E in Habs; congruence).
  assert (Hold : refresh_tokens (durable w1) !! id = Some (token_revoke (ri_now inp) "rotated" t)).
  { rewrite Hd1'. cbn. by rewrite lookup_insert_ne. }
  assert (Hnew : exists c, refresh_tokens (durable w1) !! is_session_id s = Some c /\ rt_user_id c = rt_user_id t /\ rt_revoked_at c = None).
  { eexists. split; [rewrite Hd1'; cbn; by rewrite lookup_insert_eq|]. done. }
  destruct Hnew as (c & Hc & Hcu & Hcn).
  apply session_cases in Hdisable as (w2' & Hdisable & Hd2 & _).
  destruct (disable_cases adm (opening w1) _ w2' eq_refl Hdisable) as [(Hex & Hd2') _]. rewrite <-Hd2 in Hd2'.
  change (durable (opening w1)) with (durable w1) in *. rewrite Hadm in *.
  assert (Htok : forall (i : uuid) x, refresh_tokens (durable w1) !! i = Some x -> refresh_tokens (durable w2) !! i =
    Some (if active_of (rt_user_id t) i x then token_revoke (ad_now adm) "account_disabled" x else x)).
  { intros i x Hi. rewrite Hd2'. apply (revoked_all_lookup (cancelled_intents (rt_user_id t) (ad_now adm)
      (disabled_user (rt_user_id t) (ad_now adm) (durable w1)))). exact Hi. }
  split; [|split].
  - destruct (users (durable w1) !! rt_user_id t) as [row|] eqn:Hrow; [|done].
    exists (user_set (u_password_hash row) "disabled" (Some (ad_now adm)) (ad_now adm) row). split; [|done].
    rewrite Hd2'. cbn -[disabled_user]. unfold disabled_user. rewrite (with_user_lookup _ _ _ _ _ Hrow). by rewrite Z.eqb_refl.
  - intros user Hus. unfold get_active_user, get_token, bind, query, gets. rewrite Hdb, Hus, (Htok _ _ Hc).
    unfold active_of. by rewrite Hcu, Z.eqb_refl, Hcn.
  - rewrite (authorize_signed settings _ _ _ _ _ _ later Hiat), (proj2 (Z.ltb_lt _ _) Hexp).
    unfold get_active_user, get_token, bind, query, gets. cbn [ru_session_id]. rewrite Hdb, (Htok _ _ Hold).
    unfold active_of. cbn. by rewrite Z.eqb_refl.
Qed.

(** User 7 logs in at 0 and refreshes at 10; the admin disables the account at
    20; at 30 the first access token (15 minutes) still opens the API. *)
Lemma rotated_session_survives_witness :
  let w := mkWorld busy_db busy_db tt 100 [] (at_second 30) (at_second 30) in
  let first_token := encode_access_token "secret" 7 "user" 50 900 (at_second 0) false in
  exists s w1 w2, with_session (refresh sample_settings (csrf_pair "first" 10)) w = (Ok s, w1) /\
    with_session (disable_user (mkAdmin 7 9 (at_second 20))) w1 = (Ok tt, w2) /\
    authorize sample_settings (Some ("Bearer " ++ first_token)%string) w2 = (Ok (mkRequestUser 7 "user" 50 false), w2).
Proof.
  intros w first_token. destruct (with_session (refresh sample_settings (csrf_pair "first" 10)) w) as [r1 w1] eqn:H1.
  destruct (with_session (disable_user (mkAdmin 7 9 (at_second 20))) w1) as [r2 w2] eqn:H2.
  assert (Hr1 : is_ok (fst (with_session (refresh sample_settings (csrf_pair "first" 10)) w)) = true) by (vm_compute; reflexivity).
  rewrite H1 in Hr1. destruct r1 as [s|]; [|done]. exists s, w1, w2.
  assert (Hr2 : is_ok (fst (with_session (disable_user (mkAdmin 7 9 (at_second 20)))
    (snd (with_session (refresh sample_settings (csrf_pair "first" 10)) w)))) = true) by (vm_compute; reflexivity).
  rewrite H1 in Hr2. cbn [snd] in Hr2. rewrite H2 in Hr2. destruct r2 as [[]|]; [|done].
  assert (Hclock : let w' := snd (with_session (disable_user (mkAdmin 7 9 (at_second 20)))
      (snd (with_session (refresh sample_settings (csrf_pair "first" 10)) w))) in
    app_now w' = at_second 30 /\ pending w' = durable w') by (vm_compute; by split).
  cbn zeta in Hclock. rewrite H1 in Hclock. cbn [snd] in Hclock. rewrite H2 in Hclock. destruct Hclock as [Happ Hp].
  cbn [snd] in Happ, Hp. split; [reflexivity|]. split; [exact H2|].
  assert (Hid : token_by_hash (hash_refresh_token "first") busy_db =
    Some (50, mkRefreshToken 7 "sha256:first" None (at_second 0) (at_second 7776000) None None false)) by (vm_compute; reflexivity).
  destruct (rotated_session_survives sample_settings (csrf_pair "first" 10) (mkAdmin 7 9 (at_second 20)) "first" "user" 50
    (mkRefreshToken 7 "sha256:first" None (at_second 0) (at_second 7776000) None None false) (at_second 0) 900 false
    s w w1 w2 w2 busy_db_ok eq_refl Hid eq_refl H1 H2 Hp) as (_ & _ & Hauth).
  - rewrite Happ. vm_compute. discriminate.
  - rewrite Happ. vm_compute. reflexivity.
  - exact Hauth.
Defined.
