(* ===== verification/AuthLife.v ===== *)
(** * The life of accounts and their secrets

    Every request of the account commands as a step on the database, and what no
    sequence of them undoes. *)

From Stdlib Require Import QArith.
From S2P Require Import Prelude Decimal Datetime Errors Price Tables Store CoreSchema AuditLog RateLimiter AuthRepos Tokens AuthSamples Auth SessionSpec Account AccountSpec ResetSpec TwoFactorSpec AdminSpec.

#[local] Open Scope string_scope.
#[local] Open Scope list_scope.
#[local] Open Scope Z_scope.

(** ** How a row may change *)

Definition user_evolves (a b : UserRow) : Prop :=
  u_email b = u_email a /\ u_role b = u_role a /\ u_created_at b = u_created_at a /\
  (u_status b = "invited" -> u_status a = "invited") /\ (u_mfa_enabled a = true -> u_mfa_enabled b = true).

Definition token_evolves (a b : RefreshTokenRow) : Prop :=
  rt_user_id b = rt_user_id a /\ rt_token_hash b = rt_token_hash a /\ rt_parent_token_id b = rt_parent_token_id a /\
  rt_issued_at b = rt_issued_at a /\ rt_expires_at b = rt_expires_at a /\
  (is_some (rt_revoked_at a) = true -> rt_revoked_at b = rt_revoked_at a /\ rt_revoked_reason b = rt_revoked_reason a) /\
  (rt_mfa_verified a = true -> rt_mfa_verified b = true).

Definition invitation_evolves (a b : InvitationRow) : Prop :=
  inv_user_id b = inv_user_id a /\ inv_token_hash b = inv_token_hash a /\ inv_expires_at b = inv_expires_at a /\
  (is_some (inv_consumed_at a) = true -> inv_consumed_at b = inv_consumed_at a) /\
  (is_some (inv_revoked_at a) = true -> inv_revoked_at b = inv_revoked_at a).

Definition reset_evolves (a b : PasswordResetRow) : Prop :=
  pr_user_id b = pr_user_id a /\ pr_token_hash b = pr_token_hash a /\ pr_expires_at b = pr_expires_at a /\
  (is_some (pr_consumed_at a) = true -> pr_consumed_at b = pr_consumed_at a).

Record evolves (d d' : db) : Prop := {
  ev_users : rows_evolve user_evolves (users d) (users d');
  ev_tokens : rows_evolve token_evolves (refresh_tokens d) (refresh_tokens d');
  ev_invitations : rows_evolve invitation_evolves (invitations d) (invitations d');
  ev_resets : rows_evolve reset_evolves (password_resets d) (password_resets d');
}.

#[export] Instance user_evolves_pre : PreOrder user_evolves.
Proof. split; [by intros a; repeat split|]. intros a b c (?&?&?&?&?) (?&?&?&?&?). repeat split; [congruence..|auto|auto]. Qed.
#[export] Instance token_evolves_pre : PreOrder token_evolves.
Proof.
  split; [by intros a; repeat split|]. intros a b c (A1&A2&A3&A4&A5&A6&A7) (B1&B2&B3&B4&B5&B6&B7).
  split; [congruence|]. split; [congruence|]. split; [congruence|]. split; [congruence|]. split; [congruence|]. split; [|auto].
  intros Ha. destruct (A6 Ha) as [E E']. rewrite <-E in Ha. destruct (B6 Ha) as [F F']. split; congruence.
Qed.
#[export] Instance invitation_evolves_pre : PreOrder invitation_evolves.
Proof.
  split; [by intros a; repeat split|]. intros a b c (A1&A2&A3&A4&A5) (B1&B2&B3&B4&B5).
  split; [congruence|]. split; [congruence|]. split; [congruence|]. split; intros Ha.
  - pose proof (A4 Ha) as E. rewrite <-E in Ha. rewrite (B4 Ha). exact E.
  - pose proof (A5 Ha) as E. rewrite <-E in Ha. rewrite (B5 Ha). exact E.
Qed.
#[export] Instance reset_evolves_pre : PreOrder reset_evolves.
Proof.
  split; [by intros a; repeat split|]. intros a b c (A1&A2&A3&A4) (B1&B2&B3&B4).
  split; [congruence|]. split; [congruence|]. split; [congruence|]. intros Ha.
  pose proof (A4 Ha) as E. rewrite <-E in Ha. rewrite (B4 Ha). exact E.
Qed.

(** ** How a statement may change the tables *)

Record grows (d d' : db) : Prop := { grows_ok : auth_ok d -> auth_ok d'; grows_evolves : evolves d d' }.

#[export] Instance grows_pre : PreOrder grows.
Proof.
  split.
  - intros d. split; [done|]. split; apply rows_refl; apply _.
  - intros d1 d2 d3 [Hok1 []] [Hok2 []]. split; [auto|]. split; (eapply rows_trans; [apply _|eassumption..]).
Qed.

Lemma grows_frame d d' : users d' = users d -> refresh_tokens d' = refresh_tokens d ->
  invitations d' = invitations d -> password_resets d' = password_resets d -> grows d d'.
Proof.
  intros Hu Ht Hi Hr. split; [by apply auth_ok_frame|]. split; rewrite ?Hu, ?Ht, ?Hi, ?Hr; apply rows_refl; apply _.
Qed.

Lemma grows_logged e a o now i d d' : grows d d' -> grows d (logged e a o now i d').
Proof. intros H. transitivity d'; [done|]. by apply grows_frame. Qed.
Lemma grows_charged k c r n now d d' : grows d d' -> grows d (charged k c r n now d').
Proof. intros H. transitivity d'; [done|]. by apply grows_frame. Qed.
Lemma grows_cancelled i now d d' : grows d d' -> grows d (cancelled_intents i now d').
Proof. intros H. transitivity d'; [done|]. by apply grows_frame. Qed.

Lemma grows_with_user i f d d' : (forall r, user_evolves r (f r)) -> grows d d' -> grows d (with_user i f d').
Proof.
  intros Hf H. transitivity d'; [done|]. split.
  - intros Hok. apply update_users_ok; [done|]. intros r. by destruct (Hf r).
  - split; try (apply rows_refl; apply _). apply rows_update; [apply _|]. auto.
Qed.
Lemma grows_user i r d d' : user_violation i r d' = None -> grows d d' -> grows d (set_users (<[i := r]> (users d')) d').
Proof.
  intros Hv H. transitivity d'; [done|]. split; [by intros Hok; apply insert_user_ok|].
  violated Hv. destruct Hv as (_ & _ & Hn & _). cbn in Hn. split; try (apply rows_refl; apply _).
  apply rows_insert; [apply _|]. by destruct (users d' !! i).
Qed.

Lemma grows_update_tokens p f d d' : (forall (i : uuid) r, p i r = true -> token_evolves r (f r)) ->
  (forall r, rt_token_hash (f r) = rt_token_hash r) ->
  grows d d' -> grows d (set_refresh_tokens (update_where p f (refresh_tokens d')) d').
Proof.
  intros Hf Hh H. transitivity d'; [done|]. split; [intros Hok; by apply update_tokens_ok|].
  split; try (apply rows_refl; apply _). apply rows_update; [apply _|done].
Qed.
Lemma revoke_evolves now reason r : is_none (rt_revoked_at r) = true -> token_evolves r (token_revoke now reason r).
Proof. intros Hn. repeat split; [|cbn|done]; by destruct (rt_revoked_at r). Qed.
Lemma grows_revoked_all u reason now d d' : grows d d' -> grows d (revoked_all u reason now d').
Proof.
  apply grows_update_tokens; [|done]. intros i r [_ Hn]%andb_true_iff. by apply revoke_evolves.
Qed.
Lemma grows_revoked_one i reason now d d' : grows d d' -> grows d (revoked_one i reason now d').
Proof. apply grows_update_tokens; [|done]. intros j r [_ Hn]%andb_true_iff. by apply revoke_evolves. Qed.
Lemma grows_elevated s d d' : grows d d' -> grows d (session_elevated s d').
Proof. apply grows_update_tokens; [|done]. intros j r _. by repeat split. Qed.
Lemma grows_token i r d d' : token_violation i r d' = None -> grows d d' ->
  grows d (set_refresh_tokens (<[i := r]> (refresh_tokens d')) d').
Proof.
  intros Hv H. transitivity d'; [done|]. split; [by intros Hok; apply insert_token_ok|].
  pose proof (violation_absent _ _ _ Hv). split; try (apply rows_refl; apply _). by apply rows_insert; [apply _|].
Qed.
Lemma grows_opened s row d d' : token_violation (is_session_id s) row d' = None -> grows d d' -> grows d (opened s row d').
Proof. apply grows_token. Qed.

Lemma grows_consumed_invitation i now d d' : grows d d' -> grows d (consumed_invitation i now d').
Proof.
  intros H. transitivity d'; [done|]. split; [by apply consumed_invitation_ok|].
  split; try (apply rows_refl; apply _). apply rows_update; [apply _|]. intros j r [_ Hn]%andb_true_iff.
  repeat split. cbn. by destruct (inv_consumed_at r).
Qed.
Lemma grows_revoked_invitations i now d d' : grows d d' -> grows d (revoked_invitations i now d').
Proof.
  intros H. transitivity d'; [done|]. split; [by apply revoked_invitations_ok|].
  split; try (apply rows_refl; apply _). apply rows_update; [apply _|]. intros j r [_ Hn]%andb_true_iff.
  apply andb_true_iff in Hn as [_ Hn]. repeat split. cbn. by destruct (inv_revoked_at r).
Qed.
Lemma grows_invitation i r d d' : invitation_violation i r d' = None -> grows d d' ->
  grows d (set_invitations (<[i := r]> (invitations d')) d').
Proof.
  intros Hv H. transitivity d'; [done|]. split; [by intros Hok; apply insert_invitation_ok|].
  violated Hv. destruct Hv as (Hn & _). cbn in Hn. split; try (apply rows_refl; apply _).
  apply rows_insert; [apply _|]. by destruct (invitations d' !! i).
Qed.
Lemma grows_consumed_reset i now d d' : grows d d' -> grows d (consumed_reset i now d').
Proof.
  intros H. transitivity d'; [done|]. split; [by apply consumed_reset_ok|].
  split; try (apply rows_refl; apply _). apply rows_update; [apply _|]. intros j r [_ Hn]%andb_true_iff.
  repeat split. cbn. by destruct (pr_consumed_at r).
Qed.
Lemma grows_reset i r d d' : reset_violation i r d' = None -> grows d d' ->
  grows d (set_password_resets (<[i := r]> (password_resets d')) d').
Proof.
  intros Hv H. transitivity d'; [done|]. split; [by intros Hok; apply insert_reset_ok|].
  violated Hv. destruct Hv as (Hn & _). cbn in Hn. split; try (apply rows_refl; apply _).
  apply rows_insert; [apply _|]. by destruct (password_resets d' !! i).
Qed.

(** ** Requests *)

Section Requests.
  Context {P : Type} `{Crypto} `{Mailer P} {Hmail : MailerLaws P}.
  Context (settings : Settings) (base_url : string) (uuid_text : uuid -> string).
  Implicit Types w : world P.

(** One request of the account API; between requests anything but the database
    may change: the clocks, the mailer and the supply of ids. *)
Inductive request : world P -> world P -> Prop :=
| req_time w w' : durable w' = durable w -> request w w'
| req_login inp r w w' : with_session (login settings inp) w = (r, w') -> request w w'
| req_refresh inp r w w' : with_session (refresh settings inp) w = (r, w') -> request w w'
| req_logout inp r w w' : with_session (logout inp) w = (r, w') -> request w w'
| req_create inp r w w' : with_session (create_user base_url inp) w = (r, w') -> request w w'
| req_provision inp r w w' : with_session (provision_user inp) w = (r, w') -> request w w'
| req_accept inp r w w' : with_session (accept_invitation settings inp) w = (r, w') -> request w w'
| req_disable inp r w w' : with_session (disable_user inp) w = (r, w') -> request w w'
| req_reactivate inp r w w' : with_session (reactivate_user inp) w = (r, w') -> request w w'
| req_resend inp r w w' : with_session (resend_invitation base_url uuid_text inp) w = (r, w') -> request w w'
| req_ask_reset inp r w w' : with_session (request_password_reset base_url inp) w = (r, w') -> request w w'
| req_confirm_reset inp r w w' : with_session (confirm_password_reset inp) w = (r, w') -> request w w'
| req_setup admin now r w w' : with_session (setup_two_factor settings admin now) w = (r, w') -> request w w'
| req_verify inp r w w' : with_session (verify_two_factor settings uuid_text inp) w = (r, w') -> request w w'.

Lemma grows_email_charged inp d : grows d (email_charged inp d).
Proof.
  unfold email_charged, ip_charged. destruct (li_ip inp); repeat (apply grows_charged); reflexivity.
Qed.
Lemma grows_reset_charged inp d : grows d (reset_charged inp d).
Proof. unfold reset_charged, reset_email_charged. destruct (pq_ip inp); repeat (apply grows_charged); reflexivity. Qed.

Lemma login_grows inp r w w' : auth_ok (durable w) -> login settings inp (opening w) = (r, w') -> grows (durable w) (durable w').
Proof.
  intros Hok Hrun. destruct (login_cases settings inp (opening w) r w' eq_refl Hok Hrun) as (Hr & _).
  unfold login_result in Hr. change (durable (opening w)) with (durable w) in Hr. destruct r as [s|e].
  - destruct Hr as (u & _ & _ & _ & _ & Hv & ->). apply grows_logged.
    transitivity (set_rate_buckets (delete (email_bucket (li_email inp)) (rate_buckets (email_charged inp (durable w)))) (durable w));
      [by apply grows_frame|].
    refine (grows_token _ _ _ _ _ _); [exact Hv|reflexivity].
  - destruct e; try (destruct Hr as [-> _]; reflexivity).
    + destruct Hr as (_ & _ & _ & ->). apply grows_logged, grows_email_charged.
    + destruct Hr as (d1 & -> & [[_ ->]|(_ & _ & ->)]); apply grows_logged; [|apply grows_email_charged].
      unfold ip_charged. destruct (li_ip inp); [apply grows_charged|]; reflexivity.
Qed.

Lemma refresh_grows inp r w w' : auth_ok (durable w) -> refresh settings inp (opening w) = (r, w') -> grows (durable w) (durable w').
Proof.
  intros Hok Hrun. destruct (refresh_cases settings inp (opening w) r w' eq_refl Hok Hrun) as (Hr & _).
  unfold refresh_result in Hr. change (durable (opening w)) with (durable w) in Hr. destruct r as [s|e].
  - destruct Hr as (id & t & u & _ & _ & _ & Hv & ->). apply grows_logged, grows_opened; [exact Hv|].
    apply grows_revoked_one. reflexivity.
  - destruct e; try (destruct Hr as [-> _]; reflexivity).
    + destruct Hr as (id & t & _ & _ & ->). apply grows_logged, grows_revoked_all. reflexivity.
    + destruct Hr as [_ ->]. reflexivity.
Qed.

Lemma logout_grows inp r w w' : auth_ok (durable w) -> logout inp (opening w) = (r, w') -> grows (durable w) (durable w').
Proof.
  intros Hok Hrun. destruct (logout_cases inp (opening w) r w' eq_refl Hok Hrun) as (Hr & _).
  unfold logout_result in Hr. change (durable (opening w)) with (durable w) in Hr. destruct r as [s|e]; [|rewrite Hr; reflexivity].
  destruct Hr as [[_ ->]|(raw & _ & _ & [[-> _]|(id & t & _ & _ & ->)])]; [reflexivity..|].
  apply grows_logged, grows_revoked_one. reflexivity.
Qed.

Lemma create_grows inp r w w' : auth_ok (durable w) -> create_user base_url inp (opening w) = (r, w') -> grows (durable w) (durable w').
Proof.
  intros Hok Hrun. destruct (create_user_cases base_url inp (opening w) r w' eq_refl Hok Hrun) as (Hr & _).
  unfold create_user_result in Hr. change (durable (opening w)) with (durable w) in Hr. destruct r as [s|e]; [|rewrite Hr; reflexivity].
  destruct Hr as (_ & -> & Huv & Hiv & -> & _). apply grows_logged.
  refine (grows_invitation _ _ _ _ Hiv _). by apply grows_user.
Qed.

Lemma provision_grows inp r w w' : auth_ok (durable w) -> provision_user inp (opening w) = (r, w') -> grows (durable w) (durable w').
Proof.
  intros Hok Hrun. pose proof (provision_cases inp (opening w) r w' eq_refl Hok Hrun) as Hr.
  unfold provision_result in Hr. change (durable (opening w)) with (durable w) in Hr. destruct r as [s|e]; [|rewrite Hr; reflexivity].
  destruct Hr as (_ & _ & -> & Huv & ->). apply grows_logged. by apply grows_user.
Qed.

Lemma accept_grows inp r w w' : auth_ok (durable w) -> accept_invitation settings inp (opening w) = (r, w') ->
  grows (durable w) (durable w').
Proof.
  intros Hok Hrun. destruct (accept_cases settings inp (opening w) r w' eq_refl Hok Hrun) as (Hr & _).
  unfold accept_result in Hr. change (durable (opening w)) with (durable w) in Hr.
  destruct r as [s|e]; [|destruct Hr as [-> _]; reflexivity].
  destruct Hr as (id & i & urow & _ & _ & _ & _ & _ & _ & Hv & ->). apply grows_logged, grows_opened; [exact Hv|].
  apply grows_consumed_invitation, grows_with_user; [by repeat split|reflexivity].
Qed.

Lemma disable_grows inp r w w' : disable_user inp (opening w) = (r, w') -> grows (durable w) (durable w').
Proof.
  intros Hrun. destruct (disable_cases inp (opening w) r w' eq_refl Hrun) as (Hr & _).
  unfold disable_result in Hr. change (durable (opening w)) with (durable w) in Hr.
  destruct r as [s|e]; [|destruct Hr as [-> _]; reflexivity]. destruct Hr as [_ ->].
  apply grows_logged, grows_revoked_all, grows_cancelled, grows_with_user; [by repeat split|reflexivity].
Qed.

Lemma reactivate_grows inp r w w' : reactivate_user inp (opening w) = (r, w') -> grows (durable w) (durable w').
Proof.
  intros Hrun. destruct (reactivate_cases inp (opening w) r w' eq_refl Hrun) as (Hr & _).
  unfold reactivate_result in Hr. change (durable (opening w)) with (durable w) in Hr.
  destruct r as [s|e]; [|destruct Hr as [-> _]; reflexivity]. destruct Hr as [_ ->].
  apply grows_logged, grows_with_user; [by repeat split|reflexivity].
Qed.

Lemma resend_grows inp r w w' : resend_invitation base_url uuid_text inp (opening w) = (r, w') -> grows (durable w) (durable w').
Proof.
  intros Hrun. destruct (resend_cases base_url uuid_text inp (opening w) r w' eq_refl Hrun) as (Hr & _).
  unfold resend_result in Hr. change (durable (opening w)) with (durable w) in Hr. destruct r as [s|e].
  - destruct Hr as (_ & _ & Hv & ->). apply grows_logged, grows_invitation; [exact Hv|].
    apply grows_revoked_invitations, grows_charged. reflexivity.
  - destruct Hr as [-> |(_ & _ & -> & _)]; [reflexivity|]. apply grows_charged. reflexivity.
Qed.

Lemma ask_reset_grows inp r w w' : auth_ok (durable w) -> request_password_reset base_url inp (opening w) = (r, w') ->
  grows (durable w) (durable w').
Proof.
  intros Hok Hrun. destruct (request_cases base_url inp (opening w) r w' eq_refl Hok Hrun) as (Hr & _).
  unfold request_result in Hr. change (durable (opening w)) with (durable w) in Hr.
  destruct r as [s|e]; [|destruct Hr as [-> _]; reflexivity].
  destruct (if reset_open inp (durable w) then _ else None) as [u|].
  - destruct Hr as (Hv & -> & _). apply grows_logged, grows_reset; [exact Hv|]. apply grows_reset_charged.
  - destruct Hr as [-> _]. apply grows_reset_charged.
Qed.

Lemma confirm_grows inp r w w' : auth_ok (durable w) -> confirm_password_reset inp (opening w) = (r, w') ->
  grows (durable w) (durable w').
Proof.
  intros Hok Hrun. destruct (confirm_cases inp (opening w) r w' eq_refl Hok Hrun) as (Hr & _).
  unfold confirm_result in Hr. change (durable (opening w)) with (durable w) in Hr.
  destruct r as [s|e]; [|destruct Hr as [-> _]; reflexivity]. destruct Hr as (id & t & _ & _ & _ & _ & ->).
  apply grows_logged, grows_revoked_all, grows_consumed_reset, grows_with_user; [by repeat split|reflexivity].
Qed.

Lemma setup_grows admin now r w w' : setup_two_factor settings admin now (opening w) = (r, w') -> grows (durable w) (durable w').
Proof.
  intros Hrun. destruct (setup_cases settings admin now (opening w) r w' eq_refl Hrun) as (Hr & _).
  unfold setup_result in Hr. change (durable (opening w)) with (durable w) in Hr.
  destruct r as [s|e]; [|destruct Hr as [-> _]; reflexivity]. destruct Hr as (urow & _ & _ & _ & _ & ->).
  apply grows_with_user; [by repeat split|reflexivity].
Qed.

Lemma verify_grows inp r w w' : verify_two_factor settings uuid_text inp (opening w) = (r, w') -> grows (durable w) (durable w').
Proof.
  intros Hrun. destruct (verify_cases settings uuid_text inp (opening w) r w' eq_refl Hrun) as (Hr & _).
  unfold verify_result in Hr. change (durable (opening w)) with (durable w) in Hr. destruct r as [s|e].
  - destruct Hr as (_ & _ & _ & _ & urow & _ & ->). unfold verified.
    assert (Href : grows (durable w) (refunded uuid_text inp (durable w))) by by apply grows_frame.
    destruct (u_mfa_enabled urow); apply grows_logged, grows_elevated; [done|].
    apply grows_logged, grows_with_user; [by repeat split|done].
  - destruct e; try (rewrite Hr; reflexivity).
    + destruct Hr as (_ & _ & ->). apply grows_logged, grows_charged. reflexivity.
    + destruct Hr as (_ & _ & _ & ->). apply grows_charged. reflexivity.
Qed.

Lemma request_grows w w' : request w w' -> auth_ok (durable w) -> grows (durable w) (durable w').
Proof.
  intros Hreq Hok. destruct Hreq as [w w' Hd|inp r w w' Hrun|inp r w w' Hrun|inp r w w' Hrun|inp r w w' Hrun|inp r w w' Hrun
    |inp r w w' Hrun|inp r w w' Hrun|inp r w w' Hrun|inp r w w' Hrun|inp r w w' Hrun|inp r w w' Hrun|admin now r w w' Hrun
    |inp r w w' Hrun]; [rewrite Hd; reflexivity|..];
    apply session_cases in Hrun as (w1 & Hrun & -> & _).
  - exact (login_grows inp r w w1 Hok Hrun).
  - exact (refresh_grows inp r w w1 Hok Hrun).
  - exact (logout_grows inp r w w1 Hok Hrun).
  - exact (create_grows inp r w w1 Hok Hrun).
  - exact (provision_grows inp r w w1 Hok Hrun).
  - exact (accept_grows inp r w w1 Hok Hrun).
  - exact (disable_grows inp r w w1 Hrun).
  - exact (reactivate_grows inp r w w1 Hrun).
  - exact (resend_grows inp r w w1 Hrun).
  - exact (ask_reset_grows inp r w w1 Hok Hrun).
  - exact (confirm_grows inp r w w1 Hok Hrun).
  - exact (setup_grows admin now r w w1 Hrun).
  - exact (verify_grows inp r w w1 Hrun).
Qed.

Lemma requests_grow w w' : rtc request w w' -> auth_ok (durable w) -> auth_ok (durable w') /\ evolves (durable w) (durable w').
Proof.
  induction 1 as [w|w w1 w' Hreq _ IH]; intros Hok.
  - split; [done|]. apply (grows_evolves _ _ (reflexivity (durable w))).
  - destruct (request_grows w w1 Hreq Hok) as [Hok1 Hev]. destruct (IH (Hok1 Hok)) as [Hok' Hev']. split; [done|].
    assert (Hg : grows (durable w) (durable w')).
    { transitivity (durable w1); [by split|]. by split. }
    apply Hg.
Qed.
End Requests.

(** C12. What no sequence of account requests undoes, whatever passes between them.
    Accounts keep their address and role and never return to being invited, and
    the second factor once on stays on; sessions keep their owner, hash, parent
    and expiry, and a revoked one its time and reason.  Secrets die once: a refresh
    token that was revoked is never exchanged again, an invitation that was
    consumed or revoked never activates an account again, and a reset token that
    was consumed never sets a password again.  The unique indexes the lookups rely
    on hold all along. *)
Theorem secrets_stay_dead {P} `{Crypto} `{Mailer P} {Hmail : MailerLaws P} (settings : Settings) (base_url : string)
    (uuid_text : uuid -> string) (w w' : world P) (Hok : auth_ok (durable w))
    (Hreach : rtc (request settings base_url uuid_text) w w') :
  auth_ok (durable w') /\ evolves (durable w) (durable w') /\
  (forall id t inp s w2, refresh_tokens (durable w) !! id = Some t -> is_some (rt_revoked_at t) = true ->
     with_session (refresh settings inp) w' = (Ok s, w2) ->
     forall raw, ri_raw_refresh_token inp = Some raw -> hash_refresh_token raw <> rt_token_hash t) /\
  (forall id i inp s w2, invitations (durable w) !! id = Some i -> is_live_invitation i = false ->
     with_session (accept_invitation settings inp) w' = (Ok s, w2) -> hash_url_token (ac_raw_token inp) <> inv_token_hash i) /\
  (forall id p inp u w2, password_resets (durable w) !! id = Some p -> is_some (pr_consumed_at p) = true ->
     with_session (confirm_password_reset inp) w' = (Ok u, w2) -> hash_url_token (pc_raw_token inp) <> pr_token_hash p).
Proof.
  destruct (requests_grow settings base_url uuid_text w w' Hreach Hok) as [Hok' Hev].
  split; [done|]. split; [done|]. split; [|split].
  - intros id t inp s w2 Hid Hrev Hrun raw Hraw Hh. apply session_cases in Hrun as (w2' & Hrun & _).
    destruct (refresh_cases settings inp (opening w') _ w2' eq_refl Hok' Hrun) as [Hr _].
    destruct Hr as (id' & t' & u & (_ & raw' & Hraw' & Hf) & (Hn & _) & _).
    change (durable (opening w')) with (durable w') in Hf. assert (raw' = raw) by congruence. subst raw'.
    destruct (ev_tokens _ _ Hev id t Hid) as (t2 & Hid2 & _ & Hh2 & _ & _ & _ & Hk & _). destruct (Hk Hrev) as [Hrev2 _].
    apply token_by_hash_Some in Hf as [Hid' Hh']; [|done].
    assert (id' = id) by (apply (token_unique _ Hok' id' id t' t2); congruence). subst id'.
    assert (t' = t2) by congruence. subst t'. rewrite Hn in Hrev2. by rewrite <-Hrev2 in Hrev.
  - intros id i inp s w2 Hid Hdead Hrun Hh. apply session_cases in Hrun as (w2' & Hrun & _).
    destruct (accept_cases settings inp (opening w') _ w2' eq_refl Hok' Hrun) as [Hr _].
    destruct Hr as (id' & i' & urow & Hf & (Hn1 & Hn2 & _) & _).
    change (durable (opening w')) with (durable w') in Hf.
    destruct (ev_invitations _ _ Hev id i Hid) as (i2 & Hid2 & _ & Hh2 & _ & Hk1 & Hk2).
    apply invitation_by_hash_Some in Hf as [Hid' Hh']; [|done].
    assert (id' = id) by (apply (invitation_unique _ Hok' id' id i' i2); congruence). subst id'.
    assert (i' = i2) by congruence. subst i'. unfold is_live_invitation in Hdead.
    destruct (inv_consumed_at i) as [c|] eqn:Hc; [by rewrite Hk1 in Hn2|].
    destruct (inv_revoked_at i) as [c|] eqn:Hc'; [by rewrite Hk2 in Hn1|done].
  - intros id p inp u w2 Hid Hcon Hrun Hh. apply session_cases in Hrun as (w2' & Hrun & _).
    destruct (confirm_cases inp (opening w') _ w2' eq_refl Hok' Hrun) as [Hr _].
    destruct Hr as (id' & p' & Hf & [Hn _] & _). change (durable (opening w')) with (durable w') in Hf.
    destruct (ev_resets _ _ Hev id p Hid) as (p2 & Hid2 & _ & Hh2 & _ & Hk).
    apply reset_by_hash_Some in Hf as [Hid' Hh']; [|done].
    assert (id' = id) by (apply (reset_unique _ Hok' id' id p' p2); congruence). subst id'.
    assert (p' = p2) by congruence. subst p'. rewrite (Hk Hcon) in Hn. by rewrite Hn in Hcon.
Qed.

(** A logged-out session: neither a login nor a reset request revives it. *)
Lemma secrets_stay_dead_witness :
  let dead := mkRefreshToken 7 "sha256:first" None (at_second 0) (at_second 7776000) (Some (at_second 1)) (Some "logout") false in
  let d := set_refresh_tokens {[50 := dead]} auth_db in
  let w := mkWorld d d (mkPost [] (fun _ => false)) 100 [] (at_second 5) (at_second 5) in
  let w1 := snd (with_session (login sample_settings (mkLoginInput "a@b.c" "password" (at_second 6) None)) w) in
  let w2 := snd (with_session (request_password_reset "https://x" (mkResetRequest "a@b.c" (at_second 7) None)) w1) in
  (exists t, refresh_tokens (durable w2) !! 50 = Some t /\ rt_revoked_reason t = Some "logout") /\
  forall s w3, with_session (refresh sample_settings (csrf_pair "first" 10)) w2 <> (Ok s, w3).
Proof.
  intros dead d w w1 w2.
  assert (Hok : auth_ok d).
  { destruct auth_db_ok as [H1 _ H3 H4 H5]. split; try assumption. intros i j a b Ha Hb _. cbn in Ha, Hb.
    apply lookup_singleton_Some in Ha as [<- _]. by apply lookup_singleton_Some in Hb as [<- _]. }
  destruct (secrets_stay_dead sample_settings "https://x" sample_uuid_text w w2 Hok) as (_ & Hev & Hdead & _).
  { eapply rtc_l; [eapply req_login, surjective_pairing|]. eapply rtc_once, req_ask_reset, surjective_pairing. }
  split.
  - destruct (ev_tokens _ _ Hev 50 dead eq_refl) as (t & Ht & _ & _ & _ & _ & _ & Hk & _). exists t.
    split; [exact Ht|]. exact (proj2 (Hk eq_refl)).
  - intros s w3 Hrun. exact (Hdead 50 dead _ s w3 eq_refl eq_refl Hrun "first" eq_refl eq_refl).
Defined.
