(* ===== verification/TelegramSpec.v ===== *)
(** * What the Telegram workflow promises

    The invariant of the drafts, what a message and a button do to them, and
    the life of the workflow together with the intents it creates. *)

From S2P Require Import Prelude Decimal Datetime Json Errors Price Intent Tables Store CoreSchema IntentRepo Samples IntentQueries Trigger Quotes CreateIntent Dispatcher IntentLife AuthRepos Telegram TelegramRoute.

#[local] Open Scope string_scope.
#[local] Open Scope list_scope.
#[local] Open Scope Z_scope.

(** ** The invariant *)

(** What a draft asks for. *)
Definition draft_input (r : InteractionRow) : res CreateTradeIntentInput :=
  create_input_from_payload (ti_payload r) (ti_owner_user_id r).

(** The type of a complete draft's payload: it can be shown and it can be turned
    into an input, on the fields and with the types both need, and it is of the
    row's capability. *)
Definition typed_draft (r : InteractionRow) : bool :=
  is_ok (draft_input r) && is_ok (order_lines (ti_payload r)) &&
  bool_decide (ti_payload r !! "capabilityId" = Some (SStr (ti_capability_id r))).

(** Rows pass their CHECKs; a chat has one open row; a complete draft is well
    typed; a confirmed one has its intent, which is the order the
    draft describes, and no intent belongs to two drafts.  The intents keep their
    own invariant. *)
Record interactions_ok (d : db) : Prop := {
  io_checks : forall i r, telegram_interactions d !! i = Some r -> first_violation (interaction_checks r) = None;
  io_one_open : forall i j a b, telegram_interactions d !! i = Some a -> telegram_interactions d !! j = Some b ->
    ti_telegram_chat_id a = ti_telegram_chat_id b -> is_open_interaction (ti_status a) = true ->
    is_open_interaction (ti_status b) = true -> i = j;
  io_draft : forall i r, telegram_interactions d !! i = Some r -> ti_kind r = "draft" -> typed_draft r = true;
  io_confirmed : forall i r, telegram_interactions d !! i = Some r -> ti_status r = "confirmed" ->
    exists inp k c, draft_input r = Ok inp /\ ti_created_trade_intent_id r = Some k /\ cores d !! k = Some c /\ order_of inp d k c;
  io_created : forall i r k, telegram_interactions d !! i = Some r -> ti_created_trade_intent_id r = Some k ->
    ti_status r = "confirmed";
  io_once : forall i j a b k, telegram_interactions d !! i = Some a -> telegram_interactions d !! j = Some b ->
    ti_created_trade_intent_id a = Some k -> ti_created_trade_intent_id b = Some k -> i = j;
  io_intents : schema_ok d;
}.

(** Programs that leave the drafts alone and only move intents along. *)
Lemma interactions_frame d d' : telegram_interactions d' = telegram_interactions d ->
  (forall i c, cores d !! i = Some c -> exists c', cores d' !! i = Some c' /\ same_order_row c c' /\ terms d' i = terms d i) ->
  schema_ok d' -> interactions_ok d -> interactions_ok d'.
Proof.
  intros Ht Hc Hs' [H1 H2 H3 H4 H5 H6 H7]. split; rewrite ?Ht; try assumption.
  intros i r Hi Hs. destruct (H4 i r Hi Hs) as (inp & k & c & Hin & Hk & Hck & Ho).
  destruct (Hc k c Hck) as (c' & Hc' & Hsame & Hterms). exists inp, k, c'.
  do 3 (split; [done|]). by apply (order_of_same inp d d' k c c').
Qed.

(** The statuses of a draft between requests.  The request that claims a draft
    also confirms it, so that from "confirming" no step is left. *)
Inductive interaction_step : string -> string -> Prop :=
| draft_expires : interaction_step "pending" "expired"
| draft_cancelled : interaction_step "pending" "cancelled"
| draft_claimed : interaction_step "pending" "confirming"
| draft_confirmed : interaction_step "pending" "confirmed".

Lemma settled_status s s' : s <> "pending" -> rtc interaction_step s s' -> s' = s.
Proof. intros Hs Hr. destruct Hr as [|x y z Hxy _]; [done|]. by destruct Hxy. Qed.

(** A later state of a row: once it is claimed its order is final, and so is
    the intent it recorded. *)
Definition interaction_evolves (a b : InteractionRow) : Prop :=
  ti_owner_user_id b = ti_owner_user_id a /\ ti_telegram_chat_id b = ti_telegram_chat_id a /\
  rtc interaction_step (ti_status a) (ti_status b) /\
  (ti_status a <> "pending" -> ti_payload b = ti_payload a /\ ti_kind b = ti_kind a /\
     ti_created_trade_intent_id b = ti_created_trade_intent_id a).

#[export] Instance interaction_evolves_pre : PreOrder interaction_evolves.
Proof.
  split; [by intros r|]. intros a b c (H1 & H2 & H3 & H4) (K1 & K2 & K3 & K4).
  split; [congruence|]. split; [congruence|]. split; [by etrans|]. intros Ha.
  assert (Hb : ti_status b <> "pending") by by rewrite (settled_status _ _ Ha H3).
  destruct (H4 Ha) as (? & ? & ?), (K4 Hb) as (? & ? & ?). split_and!; congruence.
Qed.

Lemma order_of_put inp i r d k c : order_of inp d k c -> order_of inp (put_interaction i r d) k c.
Proof. by apply order_of_same. Qed.
Local Hint Resolve order_of_put : core.

(** The intents around a change: all of them as they were, or all that were
    there, and those that were not are recorded in drafts. *)
Definition same_intents (d d' : db) : Prop := forall j, intent_rows d' j = intent_rows d j.
Definition intents_kept (d d' : db) : Prop := forall j, is_Some (cores d !! j) -> intent_rows d' j = intent_rows d j.
Definition intents_recorded (d d' : db) : Prop := forall k, cores d !! k = None -> is_Some (cores d' !! k) ->
  exists i r, telegram_interactions d' !! i = Some r /\ ti_created_trade_intent_id r = Some k.

Lemma same_intents_core d d' j : same_intents d d' -> cores d' !! j = cores d !! j.
Proof. intros Hs. specialize (Hs j). unfold intent_rows in Hs. congruence. Qed.
Lemma same_intents_recorded d d' : same_intents d d' -> intents_kept d d' /\ intents_recorded d d'.
Proof. intros Hs. split; [by intros j _|]. intros k Hk [c Hc]. rewrite (same_intents_core _ _ _ Hs) in Hc. congruence. Qed.

(** Replacing the row of a draft. *)
Lemma put_ok d i r r' : interactions_ok d -> telegram_interactions d !! i = Some r ->
  ti_telegram_chat_id r' = ti_telegram_chat_id r -> first_violation (interaction_checks r') = None ->
  (is_open_interaction (ti_status r') = true -> is_open_interaction (ti_status r) = true) ->
  (ti_kind r' = "draft" -> typed_draft r' = true) ->
  (ti_status r' = "confirmed" -> exists inp k c, draft_input r' = Ok inp /\
     ti_created_trade_intent_id r' = Some k /\ cores d !! k = Some c /\ order_of inp d k c) ->
  (forall k, ti_created_trade_intent_id r' = Some k -> ti_status r' = "confirmed" /\
     forall j b, telegram_interactions d !! j = Some b -> ti_created_trade_intent_id b = Some k -> j = i) ->
  interactions_ok (put_interaction i r' d).
Proof.
  intros [H1 H2 H3 H4 H5 H6 H7] Hr E2 Hch Hop Hdr Hcf Hcr.
  split; [..|by apply (schema_ok_frame d)]; cbn [telegram_interactions put_interaction set_telegram_interactions cores].
  - intros j x [[<- <-]|[_ Hj]]%lookup_insert_Some; [done|by eapply H1].
  - intros j k a b [[<- <-]|[Hji Hj]]%lookup_insert_Some [[<- <-]|[Hki Hk]]%lookup_insert_Some Hab Ha Hb; [done| | |by eapply H2].
    + apply (H2 i k r b); [done|done|congruence|by apply Hop|done].
    + apply (H2 j i a r); [done|done|congruence|done|by apply Hop].
  - intros j x [[<- <-]|[_ Hj]]%lookup_insert_Some; [done|by eapply H3].
  - intros j x [[<- <-]|[_ Hj]]%lookup_insert_Some Hs.
    + destruct (Hcf Hs) as (inp & k & c & ? & ? & ? & ?). exists inp, k, c. by split_and!; auto.
    + destruct (H4 j x Hj Hs) as (inp & k & c & ? & ? & ? & ?). exists inp, k, c. by split_and!; auto.
  - intros j x k [[<- <-]|[_ Hj]]%lookup_insert_Some Hk; [by destruct (Hcr k)|by eapply H5].
  - intros j l a b k [[<- <-]|[Hji Hj]]%lookup_insert_Some [[<- <-]|[Hli Hl]]%lookup_insert_Some Ha Hb; [done| | |by eapply H6].
    + destruct (Hcr k Ha) as [_ Hu]. symmetry. by apply (Hu l b).
    + destruct (Hcr k Hb) as [_ Hu]. by apply (Hu j a).
Qed.

(** A pending draft changes, without becoming an intent. *)
Lemma put_pending_ok d i r r' : interactions_ok d -> telegram_interactions d !! i = Some r -> ti_status r = "pending" ->
  interaction_evolves r r' -> first_violation (interaction_checks r') = None ->
  (ti_kind r' = "draft" -> typed_draft r' = true) -> ti_status r' <> "confirmed" ->
  ti_created_trade_intent_id r' = ti_created_trade_intent_id r -> interactions_ok (put_interaction i r' d).
Proof.
  intros Hok Hr Hst (_ & Hc & _) Hch Hdr Hnc Hcr. apply (put_ok d i r r'); try done.
  - by rewrite Hst.
  - intros k Hk. rewrite Hcr in Hk. pose proof (io_created d Hok i r k Hr Hk). congruence.
Qed.

Lemma put_message_ok d i r m : interactions_ok d -> telegram_interactions d !! i = Some r ->
  interactions_ok (put_interaction i (interaction_set_message m r) d).
Proof.
  intros Hok Hr. apply (put_ok d i r _ Hok Hr).
  - done.
  - exact (io_checks d Hok i r Hr).
  - done.
  - exact (io_draft d Hok i r Hr).
  - exact (io_confirmed d Hok i r Hr).
  - intros k Hk. split; [exact (io_created d Hok i r k Hr Hk)|]. intros j b Hj Hb. by apply (io_once d Hok j i b r k).
Qed.

(** A new row. *)
Lemma create_ok d i r : interactions_ok d -> interaction_violation i r d = None -> ti_status r = "pending" ->
  ti_created_trade_intent_id r = None -> (ti_kind r = "draft" -> typed_draft r = true) ->
  telegram_interactions d !! i = None /\ interactions_ok (put_interaction i r d).
Proof.
  intros [H1 H2 H3 H4 H5 H6 H7] Hv Hst Hcr Hdr. unfold interaction_violation in Hv.
  apply first_violation_none, Forall_app in Hv as [Hch Hv]. apply first_violation_none in Hch.
  rewrite !Forall_cons in Hv. cbn [fst] in Hv. destruct Hv as (Hpk & Huq & _). rewrite Hst in Huq.
  assert (Hnone : telegram_interactions d !! i = None) by by destruct (telegram_interactions d !! i).
  split; [done|]. change (negb (is_open_interaction "pending")) with false in Huq. cbn [orb] in Huq.
  apply Z.eqb_eq in Huq. rewrite count_zero in Huq.
  assert (Hfree : forall j b, telegram_interactions d !! j = Some b -> ti_telegram_chat_id b = ti_telegram_chat_id r ->
    is_open_interaction (ti_status b) = true -> False).
  { intros j b Hj Hc Ho. specialize (Huq j b Hj). unfold open_in_chat in Huq. by rewrite Hc, String.eqb_refl, Ho in Huq. }
  split; [..|by apply (schema_ok_frame d)]; cbn [telegram_interactions put_interaction set_telegram_interactions cores].
  - intros j x [[<- <-]|[_ Hj]]%lookup_insert_Some; [done|by eapply H1].
  - intros j k a b [[<- <-]|[Hji Hj]]%lookup_insert_Some [[<- <-]|[Hki Hk]]%lookup_insert_Some Hab Ha Hb; [done| | |by eapply H2].
    + by destruct (Hfree k b).
    + by destruct (Hfree j a).
  - intros j x [[<- <-]|[_ Hj]]%lookup_insert_Some; [done|by eapply H3].
  - intros j x [[<- <-]|[_ Hj]]%lookup_insert_Some Hs; [congruence|].
    destruct (H4 j x Hj Hs) as (inp & k & c & ? & ? & ? & ?). exists inp, k, c. by split_and!; auto.
  - intros j x k [[<- <-]|[_ Hj]]%lookup_insert_Some Hk; [congruence|by eapply H5].
  - intros j l a b k [[<- <-]|[Hji Hj]]%lookup_insert_Some [[<- <-]|[Hli Hl]]%lookup_insert_Some Ha Hb; [done|congruence..|by eapply H6].
Qed.

(** ** The payload of a complete decision *)

(** What [_validate_decision] establishes, the market aside. *)
Record complete_decision (decision : TelegramIntentDecision) (capability symbol : string) (quantity : Z) : Prop := {
  cd_capability : d_capability_id decision = Some capability;
  cd_symbol : d_symbol decision = Some symbol;
  cd_quantity : d_quantity_lots decision = Some quantity;
  cd_positive : 0 < quantity;
  cd_price : is_some (d_target_price decision) = str_in capability LIMIT_CAPABILITIES;
}.

(** The four capabilities. *)
Lemma capability_cases capability strategy : CAPABILITY_TO_NOTIFY_ONLY_STRATEGY capability = Some strategy ->
  exists label mode, CAPABILITY_LABELS capability = Some label /\ CAPABILITY_TO_TRANSACTION_MODE capability = Some mode /\
    str_in capability MARKET_CAPABILITIES = negb (str_in capability LIMIT_CAPABILITIES) /\
    str_in capability ["limit_buy"; "limit_sell"; "market_buy"; "market_sell"] = true /\
    str_in strategy ["limit_buy_order"; "limit_sell_order"; "market_buy_order"; "market_sell_order"] = true.
Proof.
  unfold CAPABILITY_TO_NOTIFY_ONLY_STRATEGY, CAPABILITY_LABELS, CAPABILITY_TO_TRANSACTION_MODE.
  repeat (match goal with |- context [String.eqb capability ?s] => destruct (String.eqb_spec capability s) as [->|] end;
    [intros [= <-]; do 2 eexists; repeat split; reflexivity|]). done.
Qed.

(** Inversion of [_create_input_from_payload]. *)
Lemma create_input_inv payload owner inp : create_input_from_payload payload owner = Ok inp ->
  exists capability strategy mode symbol quantity price,
    payload !! "capabilityId" = Some (SStr capability) /\ CAPABILITY_TO_NOTIFY_ONLY_STRATEGY capability = Some strategy /\
    CAPABILITY_TO_TRANSACTION_MODE capability = Some mode /\ payload !! "symbol" = Some (SStr symbol) /\
    payload !! "quantityLots" = Some (SInt quantity) /\ 0 < quantity /\
    inp = mkCreateInput symbol strategy quantity owner price mode "single" None None /\
    match price with
    | Some p => payload !! "targetPrice" = Some (SStr p) /\ str_in capability LIMIT_CAPABILITIES = true
    | None => str_in capability LIMIT_CAPABILITIES = false
    end.
Proof.
  unfold create_input_from_payload. destruct (payload !! "capabilityId") as [[| | |capability]|]; try done.
  destruct (CAPABILITY_TO_NOTIFY_ONLY_STRATEGY capability) as [strategy|] eqn:Hst; [|done].
  destruct (capability_cases _ _ Hst) as (_ & mode & _ & Hm & Hmk & _). rewrite Hm.
  destruct (payload !! "strategy") as [[| | |s]|]; try done. destruct (payload !! "symbol") as [[| | |symbol]|]; try done.
  destruct (String.eqb s strategy); cbn [negb]; [|done].
  destruct (payload !! "quantityLots") as [[| |quantity|]|]; try done. destruct (Z.leb_spec quantity 0); [done|]. rewrite Hmk.
  destruct (payload !! "targetPrice") as [[| | |p]|] eqn:Hp; cbn [default]; unfold id;
    destruct (str_in capability LIMIT_CAPABILITIES) eqn:Hl; cbn [negb andb]; try done.
  all: repeat (case_match; try done); intros [= <-];
    eexists capability, strategy, mode, symbol, quantity, _; do 6 (split; [done|]); (split; [reflexivity|]); done.
Qed.

(** The order a complete draft describes, field by field: what the confirmation
    text showed. *)
Inductive draft_asks (r : InteractionRow) : CreateTradeIntentInput -> Prop :=
| asks_order capability strategy mode symbol quantity price :
    (capability, strategy, mode) ∈ [("limit_buy", "limit_buy_order", "single_notification");
      ("limit_sell", "limit_sell_order", "single_notification"); ("market_buy", "market_buy_order", "partial_fill_allowed");
      ("market_sell", "market_sell_order", "partial_fill_allowed")] ->
    ti_payload r !! "capabilityId" = Some (SStr capability) -> ti_payload r !! "symbol" = Some (SStr symbol) ->
    ti_payload r !! "quantityLots" = Some (SInt quantity) -> 0 < quantity ->
    match price with
    | Some text => capability ∈ ["limit_buy"; "limit_sell"] /\ ti_payload r !! "targetPrice" = Some (SStr text)
    | None => capability ∈ ["market_buy"; "market_sell"]
    end ->
    draft_asks r (mkCreateInput symbol strategy quantity (ti_owner_user_id r) price mode "single" None None).

Lemma draft_input_asks r inp : draft_input r = Ok inp -> draft_asks r inp.
Proof.
  intros Hin. destruct (create_input_inv _ _ _ Hin) as (cap & strategy & mode & symbol & quantity & price & Hc & Hs & Hm & Hsym & Hq & Hpos & -> & Hp).
  apply (asks_order r cap); try done.
  - revert Hs Hm. unfold CAPABILITY_TO_NOTIFY_ONLY_STRATEGY, CAPABILITY_TO_TRANSACTION_MODE.
    repeat (match goal with |- context [String.eqb cap ?s] => destruct (String.eqb_spec cap s) as [->|] end;
      [intros [= <-] [= <-]; set_solver|]). done.
  - destruct price as [text|].
    + destruct Hp as [Ht Hl]. split; [by apply str_in_spec in Hl|done].
    + destruct (capability_cases _ _ Hs) as (_ & _ & _ & _ & Hmk & _). rewrite Hp in Hmk. by apply str_in_spec in Hmk.
Qed.

(** A draft asks for one order only. *)
Lemma draft_asks_unique r a b : draft_asks r a -> draft_asks r b -> a = b.
Proof.
  intros [c1 s1 m1 y1 q1 p1 H1 Hc1 Hy1 Hq1 _ Hp1] [c2 s2 m2 y2 q2 p2 H2 Hc2 Hy2 Hq2 _ Hp2].
  assert (c1 = c2) as <- by congruence. assert (y1 = y2) as <- by congruence. assert (q1 = q2) as <- by congruence.
  rewrite !elem_of_cons, elem_of_nil in H1, H2.
  assert (p1 = p2) as <-.
  { destruct p1, p2; [destruct Hp1, Hp2; congruence| | |done]; exfalso; rewrite !elem_of_cons, !elem_of_nil in Hp1, Hp2; naive_solver. }
  naive_solver.
Qed.

Lemma typed_input r : typed_draft r = true -> exists inp, draft_input r = Ok inp.
Proof. unfold typed_draft. rewrite !andb_true_iff. intros [[Hin _] _]. destruct (draft_input r) as [inp|]; [by exists inp|done]. Qed.

Definition price_text (p : dec) : string := unchars (str_dec p).

Ltac map_key := repeat (rewrite lookup_insert_ne by done); rewrite ?lookup_insert_eq, ?lookup_delete_eq; done.
Ltac map_keys := repeat split; repeat (rewrite lookup_delete_ne by done); map_key.

Lemma payload_fields decision capability strategy label symbol quantity previous :
  CAPABILITY_TO_NOTIFY_ONLY_STRATEGY capability = Some strategy -> complete_decision decision capability symbol quantity ->
  let p := payload_from_decision decision capability strategy label previous in
  p !! "capabilityId" = Some (SStr capability) /\ p !! "strategy" = Some (SStr strategy) /\
  p !! "typeLabel" = Some (SStr label) /\ p !! "symbol" = Some (SStr symbol) /\
  p !! "quantityLots" = Some (SInt quantity) /\
  p !! "targetPrice" = (fun price => SStr (price_text price)) <$> d_target_price decision.
Proof.
  intros Hst [_ Hs Hq Hpos Hp]. destruct (capability_cases _ _ Hst) as (_ & _ & _ & _ & Hmk & _).
  unfold payload_from_decision. rewrite Hs, Hq. unfold set_opt.
  destruct (d_target_price decision) as [price|]; cbn [is_some] in Hp; [map_keys|].
  rewrite Hmk, <-Hp. cbn [negb]. map_keys.
Qed.

(** A complete decision's payload asks for exactly that order. *)
Lemma payload_input decision capability strategy label mode symbol quantity previous owner :
  CAPABILITY_TO_NOTIFY_ONLY_STRATEGY capability = Some strategy ->
  CAPABILITY_TO_TRANSACTION_MODE capability = Some mode ->
  complete_decision decision capability symbol quantity ->
  create_input_from_payload (payload_from_decision decision capability strategy label previous) owner =
    Ok (mkCreateInput symbol strategy quantity owner (price_text <$> d_target_price decision) mode "single" None None).
Proof.
  intros Hst Hmode Hcd. destruct (payload_fields _ _ _ label _ _ previous Hst Hcd) as (H1 & H2 & _ & H4 & H5 & H6).
  destruct (capability_cases _ _ Hst) as (_ & _ & _ & _ & Hmk & _). destruct Hcd as [_ _ _ Hpos Hp].
  unfold create_input_from_payload. rewrite H1, Hst, Hmode, H2, H4, String.eqb_refl, H5, H6. cbn [negb].
  rewrite (proj2 (Z.leb_gt quantity 0) Hpos), Hmk, <-Hp. by destruct (d_target_price decision).
Qed.

(** ** The statements of the repository *)

Section Statements.
  Context {P : Type}.
  Implicit Types w : world P.

(** What an UPDATE of one row does. *)
Lemma update_interaction_cases i p f w x w' : update_interaction i p f w = (x, w') ->
  match telegram_interactions (pending w) !! i with
  | Some r =>
      if p r then
        (x = Ok 1 /\ w' = with_pending (put_interaction i (f r) (pending w)) w /\
           first_violation (interaction_checks (f r)) = None /\ created_fk (f r) (pending w) = true) \/
        ((exists k, x = Raise (IntegrityError k)) /\ w' = w /\
           (first_violation (interaction_checks (f r)) <> None \/ created_fk (f r) (pending w) = false))
      else x = Ok 0 /\ w' = w
  | None => x = Ok 0 /\ w' = w
  end.
Proof.
  unfold update_interaction, bind at 1, query, gets. unfold id at 1.
  destruct (telegram_interactions (pending w) !! i) as [r|]; [|by intros [= <- <-]].
  destruct (p r); [|by intros [= <- <-]]. unfold insert_checked. run_session. unfold id.
  destruct (first_violation _) as [k|] eqn:Hv.
  - intros [= <- <-]. right. split; [by eexists|]. split; [done|].
    destruct (first_violation (interaction_checks (f r))) eqn:Hc; [by left|]. right.
    apply not_true_iff_false. intros Hfk. assert (Hn : first_violation (interaction_checks (f r) ++
      [(created_fk (f r) (pending w), "fk_telegram_intent_interactions_created_trade_intent_id_trade_intent_core")]) = None);
      [|congruence].
    apply first_violation_none, Forall_app. split; [by apply first_violation_none|]. by repeat constructor.
  - intros [= <- <-]. left. apply first_violation_none, Forall_app in Hv as [Hc Hf]. rewrite Forall_cons in Hf.
    split; [done|]. split; [done|]. split; [by apply first_violation_none|]. by destruct Hf.
Qed.

(** An UPDATE that is accepted. *)
Lemma update_interaction_run i p f w r : telegram_interactions (pending w) !! i = Some r -> p r = true ->
  first_violation (interaction_checks (f r)) = None -> created_fk (f r) (pending w) = true ->
  update_interaction i p f w = (Ok 1, with_pending (put_interaction i (f r) (pending w)) w).
Proof.
  intros Hr Hp Hc Hf. destruct (update_interaction i p f w) as [x w'] eqn:Hu.
  pose proof (update_interaction_cases i p f w x w' Hu) as H. rewrite Hr, Hp in H.
  destruct H as [(-> & -> & _)|(_ & _ & [?|?])]; [done|done|congruence].
Qed.

Definition statuses_checked : list string := ["pending"; "confirming"; "confirmed"; "cancelled"; "expired"; "superseded"].

Lemma set_status_checks st r : str_in st statuses_checked = true ->
  first_violation (interaction_checks r) = None -> first_violation (interaction_checks (interaction_set_status st r)) = None.
Proof.
  intros Hs. rewrite !first_violation_none. unfold interaction_checks, interaction_set_status.
  cbn [ti_kind ti_status ti_capability_id ti_strategy ti_clarification_attempt_count].
  rewrite !Forall_cons. cbn [fst]. intros (? & ? & ? & ? & ? & ?). repeat split; assumption || apply Forall_nil_2.
Qed.

(** A pending row has no intent, so that its foreign key is vacuous. *)
Lemma pending_unlinked d i r : interactions_ok d -> telegram_interactions d !! i = Some r -> ti_status r <> "confirmed" ->
  ti_created_trade_intent_id r = None.
Proof.
  intros Hok Hr Hst. destruct (ti_created_trade_intent_id r) as [k|] eqn:Hk; [|done].
  pose proof (io_created d Hok i r k Hr Hk). done.
Qed.

(** Closing or claiming a pending draft. *)
Lemma pending_status_run i chat st w r : interactions_ok (pending w) ->
  telegram_interactions (pending w) !! i = Some r -> ti_status r = "pending" -> ti_telegram_chat_id r = chat ->
  str_in st statuses_checked = true ->
  update_interaction i (status_is "pending" (Some chat)) (interaction_set_status st) w =
    (Ok 1, with_pending (put_interaction i (interaction_set_status st r) (pending w)) w).
Proof.
  intros Hok Hr Hst Hc Hs. apply update_interaction_run; [done| | |].
  - unfold status_is, in_chat. by rewrite Hst, Hc, !String.eqb_refl.
  - apply set_status_checks; [done|]. by apply (io_checks _ Hok i).
  - unfold created_fk. cbn. by rewrite (pending_unlinked _ i r Hok Hr) by congruence.
Qed.

Lemma mark_status_run i chat st w r : interactions_ok (pending w) ->
  telegram_interactions (pending w) !! i = Some r -> ti_status r = "pending" -> ti_telegram_chat_id r = chat ->
  str_in st statuses_checked = true ->
  mark_status i st (Some chat) w = (Ok true, with_pending (put_interaction i (interaction_set_status st r) (pending w)) w).
Proof. intros. unfold mark_status, bind. by rewrite (pending_status_run i chat st w r). Qed.

Lemma claim_run i chat w r : interactions_ok (pending w) ->
  telegram_interactions (pending w) !! i = Some r -> ti_status r = "pending" -> ti_telegram_chat_id r = chat ->
  claim_confirming i chat w = (Ok true, with_pending (put_interaction i (interaction_set_status "confirming" r) (pending w)) w).
Proof. intros. unfold claim_confirming, bind. by rewrite (pending_status_run i chat "confirming" w r). Qed.

(** The result of a status change keeps the invariant. *)
Lemma set_status_ok d i r st : interactions_ok d -> telegram_interactions d !! i = Some r -> ti_status r = "pending" ->
  st ∈ ["expired"; "cancelled"; "confirming"] ->
  interactions_ok (put_interaction i (interaction_set_status st r) d) /\ interaction_evolves r (interaction_set_status st r).
Proof.
  intros Hok Hr Hst Hin.
  assert (Hcase : st = "expired" \/ st = "cancelled" \/ st = "confirming").
  { rewrite !elem_of_cons, elem_of_nil in Hin. tauto. }
  assert (Hev : interaction_evolves r (interaction_set_status st r)).
  { split; [done|]. split; [done|]. split; [|done]. rewrite Hst. cbn. apply rtc_once.
    destruct Hcase as [->|[->| ->]]; constructor. }
  split; [|done]. apply (put_pending_ok d i r); [done|done|done|done| |exact (io_draft d Hok i r Hr)| |done].
  - apply set_status_checks; [|by apply (io_checks d Hok i)]. by destruct Hcase as [->|[->| ->]].
  - cbn. by destruct Hcase as [->|[->| ->]].
Qed.

(** The open row of a chat. *)
Definition open_row (chat_id : string) (d : db) : option (uuid * InteractionRow) :=
  one_of (select_where (fun _ r => open_in_chat chat_id r) (telegram_interactions d)).

Lemma open_unique d chat : interactions_ok d -> at_most_one (fun _ r => open_in_chat chat r) (telegram_interactions d).
Proof.
  intros Hok i j a b Ha Hb Hpa Hpb. unfold open_in_chat in *. b2p. by apply (io_one_open d Hok i j a b); [..|congruence| |].
Qed.

Lemma open_row_Some d chat i r : interactions_ok d -> open_row chat d = Some (i, r) <->
  telegram_interactions d !! i = Some r /\ ti_telegram_chat_id r = chat /\ is_open_interaction (ti_status r) = true.
Proof.
  intros Hok. unfold open_row. rewrite (one_of_Some _ _ i r (open_unique d chat Hok)). unfold open_in_chat.
  rewrite andb_true_iff, String.eqb_eq. done.
Qed.

Lemma find_pending_run chat w : interactions_ok (pending w) ->
  find_pending_for_chat chat w = (Ok (open_row chat (pending w)), w).
Proof.
  intros Hok. unfold find_pending_for_chat, open_row, bind, query, gets, one_or_none.
  pose proof (select_short _ _ (open_unique (pending w) chat Hok)) as Hl.
  destruct (select_where _ _) as [|x [|]]; [done..|]. cbn in Hl. lia.
Qed.

End Statements.

(** ** What a message does *)

(** What a message starts from: the open draft of the chat, unless it is
    overdue, in which case it is closed first. *)
Definition settle (chat : string) (now : datetime) (d : db) : db * option (uuid * InteractionRow) :=
  match open_row chat d with
  | None => (d, None)
  | Some (i, r) =>
      if String.eqb (ti_status r) "confirming" then (d, Some (i, r))
      else if dt_us (ti_expires_at r) <=? dt_us now then (put_interaction i (interaction_set_status "expired" r) d, None)
      else (d, Some (i, r))
  end.

Definition previous_payload (live : option (uuid * InteractionRow)) : option draft_payload :=
  (fun x => ti_payload (snd x)) <$> live.
Definition previous_capability (live : option (uuid * InteractionRow)) : option string :=
  (fun x => ti_capability_id (snd x)) <$> live.

(** The kind of draft a decision stores, with its missing fields. *)
Definition draft_kind (decision : TelegramIntentDecision) (capability kind : string) (missing : list string) : Prop :=
  (kind = "clarification" /\ d_decision decision = NeedsClarification /\ missing = d_missing_fields decision) \/
  (kind = "draft" /\ d_decision decision = DraftIntent /\ missing = [] /\
     exists symbol quantity, complete_decision decision capability symbol quantity).

(** The row a message stores: the live draft updated, or a new one. *)
Definition stored_row (owner : uuid) (chat kind capability strategy : string) (payload : draft_payload)
    (missing : list string) (now : datetime) (live : option (uuid * InteractionRow)) (fresh : uuid)
  : uuid * InteractionRow :=
  match live with
  | Some (i, r) => (i, interaction_set_draft kind capability strategy payload missing
      (ti_clarification_attempt_count r + 1) (dt_add now INTERACTION_TTL) r)
  | None => (fresh, mkInteraction owner chat None kind capability strategy payload missing 1 "pending"
      (dt_add now INTERACTION_TTL) None None)
  end.

(** What the decision of the classifier stores. *)
Definition stores (decision : TelegramIntentDecision) (owner : uuid) (chat : string) (live : option (uuid * InteractionRow))
    (now : datetime) (fresh : uuid) (d : db) (i : uuid) (row : InteractionRow) : Prop :=
  exists capability strategy label kind missing,
    d_capability_id decision = Some capability /\ CAPABILITY_TO_NOTIFY_ONLY_STRATEGY capability = Some strategy /\
    (forall x, live = Some x -> is_different_request (snd x) decision = false) /\
    draft_kind decision capability kind missing /\
    (i, row) = stored_row owner chat kind capability strategy
      (payload_from_decision decision capability strategy label (previous_payload live)) missing now live fresh /\
    (live = None -> interaction_violation i row d = None).

Section Message.
  Context {P : Type} `{QuoteProvider P} (settings : TelegramSettings).
  Implicit Types w : world P.

Lemma check_tradable_world capability symbol quantity price w x w' :
  check_tradable capability symbol quantity price w = (x, w') -> w' = w.
Proof.
  unfold check_tradable, bind at 1. destruct (get_tradable_symbol symbol w) as [s w1] eqn:Hs.
  destruct (get_tradable_symbol_world _ _ _ _ Hs) as [-> _]. destruct s as [s|e]; [|by intros [= _ <-]].
  destruct (security_type_of _); [|by intros [= _ <-]]. destruct price; [|by intros [= _ <-]].
  destruct (str_in _ _); [|by intros [= _ <-]]. unfold bind, lift. destruct (validate _); by intros [= _ <-].
Qed.

Lemma validate_decision_cases decision w x w' : validate_decision decision w = (x, w') ->
  w' = w /\ (x = Ok None -> exists capability symbol quantity, complete_decision decision capability symbol quantity).
Proof.
  unfold validate_decision. destruct (CAPABILITY_TO_NOTIFY_ONLY_STRATEGY _) as [strategy|] eqn:Hst; cbn [is_none is_some negb]; [|by intros [= <- <-]].
  destruct (capability_cases _ _ Hst) as (_ & _ & _ & _ & Hmk & _).
  destruct (d_capability_id decision) as [capability|] eqn:Hcap; [|done].
  change (default "" (Some capability)) with capability in *.
  destruct (d_symbol decision) as [symbol|] eqn:Hs; [|by intros [= <- <-]].
  destruct (d_quantity_lots decision) as [quantity|] eqn:Hq; [|by intros [= <- <-]].
  destruct (str_isdigit symbol); cbn [negb]; [|by intros [= <- <-]].
  destruct (Z.leb_spec quantity 0); [by intros [= <- <-]|]. rewrite Hmk.
  assert (Hrun : is_some (d_target_price decision) = str_in capability LIMIT_CAPABILITIES ->
    try_except (do_ check_tradable capability symbol quantity (d_target_price decision); ret None)
      (fun e => if is_symbol_or_value_error e then ret (Some USER_PAGE_ERROR_REPLY) else raise e) w = (x, w') ->
    w' = w /\ (x = Ok None -> exists capability symbol quantity, complete_decision decision capability symbol quantity)).
  { intros Hp. unfold try_except, bind at 1. destruct (check_tradable _ _ _ _ w) as [y w1] eqn:Hy.
    pose proof (check_tradable_world _ _ _ _ _ _ _ Hy) as ->.
    destruct y as [[]|e]; [|destruct (is_symbol_or_value_error e); by intros [= <- <-]].
    intros [= <- <-]. split; [done|]. intros _. by exists capability, symbol, quantity. }
  destruct (str_in capability LIMIT_CAPABILITIES) eqn:Hl, (d_target_price decision) as [price|] eqn:Hp;
    cbn [andb negb is_none is_some]; (by intros [= <- <-]) || by apply Hrun.
Qed.

Lemma set_draft_checks r kind capability strategy payload missing expires :
  first_violation (interaction_checks r) = None -> str_in kind ["clarification"; "draft"] = true ->
  str_in capability ["limit_buy"; "limit_sell"; "market_buy"; "market_sell"] = true ->
  str_in strategy ["limit_buy_order"; "limit_sell_order"; "market_buy_order"; "market_sell_order"] = true ->
  first_violation (interaction_checks (interaction_set_draft kind capability strategy payload missing
    (ti_clarification_attempt_count r + 1) expires r)) = None.
Proof.
  rewrite !first_violation_none. unfold interaction_checks, interaction_set_draft.
  cbn [ti_kind ti_status ti_capability_id ti_strategy ti_clarification_attempt_count].
  rewrite !Forall_cons. cbn [fst]. intros (_ & ? & _ & _ & Hn & _) ? ? ?. repeat split; try assumption; [|apply Forall_nil_2].
  apply Z.leb_le in Hn. apply Z.leb_le. lia.
Qed.

(** Showing the draft cannot fail. *)
Lemma show_draft chat decision capability strategy label kind missing previous i r w x w' :
  CAPABILITY_TO_NOTIFY_ONLY_STRATEGY capability = Some strategy -> draft_kind decision capability kind missing ->
  (if String.eqb kind "clarification" then
     ret (mkReply chat (clarification_reply missing) (Some (cancel_markup i)) (Some i) (ti_bot_message_id r))
   else do text <- lift (confirmation_text (payload_from_decision decision capability strategy label previous));
     ret (mkReply chat text (Some (confirmation_markup i)) (Some i) (ti_bot_message_id r))) w = (x, w') ->
  w' = w /\ exists reply, x = Ok reply /\ reply_interaction_id reply = Some i /\
    reply_bot_message_id reply = ti_bot_message_id r /\ reply_chat_id reply = chat.
Proof.
  intros Hst [(-> & _)|(-> & _ & _ & s & q & Hcd)]; [intros [= <- <-]; split; [done|]; by eexists|].
  destruct (payload_fields _ _ _ label _ _ previous Hst Hcd) as (_ & _ & H3 & H4 & H5 & _).
  unfold confirmation_text, order_lines, field_text. rewrite H3, H4, H5.
  intros [= <- <-]. split; [done|]. by eexists.
Qed.

(** Storing the draft. *)
Lemma save_cases owner chat live decision capability strategy label kind missing now w x w' :
  interactions_ok (pending w) -> CAPABILITY_TO_NOTIFY_ONLY_STRATEGY capability = Some strategy ->
  draft_kind decision capability kind missing ->
  (forall i r, live = Some (i, r) -> telegram_interactions (pending w) !! i = Some r /\ ti_status r = "pending" /\ ti_telegram_chat_id r = chat) ->
  save_interaction owner chat live decision capability strategy label kind missing now w = (x, w') ->
  statements_since w w' /\
  match x with
  | Raise _ => pending w' = pending w
  | Ok reply => exists i row,
      (i, row) = stored_row owner chat kind capability strategy
        (payload_from_decision decision capability strategy label (previous_payload live)) missing now live (next_id w) /\
      (live = None -> interaction_violation i row (pending w) = None) /\
      pending w' = put_interaction i row (pending w) /\
      reply_interaction_id reply = Some i /\ reply_bot_message_id reply = ti_bot_message_id row /\ reply_chat_id reply = chat
  end.
Proof.
  intros Hok Hst Hkind Hlive. destruct (capability_cases _ _ Hst) as (_ & _ & _ & _ & _ & Hcv & Hsv).
  assert (Hkv : str_in kind ["clarification"; "draft"] = true) by (destruct Hkind as [[-> _]|[-> _]]; done).
  unfold save_interaction. fold (previous_payload live). set (payload := payload_from_decision _ _ _ _ _).
  destruct live as [[i r]|].
  - destruct (Hlive i r eq_refl) as (Hr & Hp & Hc).
    set (f := interaction_set_draft kind capability strategy payload missing (ti_clarification_attempt_count r + 1) (dt_add now INTERACTION_TTL)).
    unfold bind at 1, update_pending, bind at 1. fold f.
    rewrite (update_interaction_run i _ f w r Hr).
    2: { unfold status_is, in_chat. by rewrite Hp, Hc, !String.eqb_refl. }
    2: { apply set_draft_checks; [|done..]. by apply (io_checks _ Hok i). }
    2: { unfold created_fk. cbn. by rewrite (pending_unlinked _ i r Hok Hr) by congruence. }
    cbn [Z.eqb Pos.eqb negb]. unfold find_interaction, query, gets.
    cbn [pending with_pending telegram_interactions put_interaction set_telegram_interactions].
    rewrite lookup_insert_eq. change (ti_telegram_chat_id (f r)) with (ti_telegram_chat_id r).
    rewrite Hc, String.eqb_refl. unfold bind at 1, ret at 1. intros He.
    destruct (show_draft _ _ _ _ _ _ _ _ _ _ _ _ _ Hst Hkind He) as (-> & reply & -> & ? & ? & ?). split; [done|].
    exists i, (f r). done.
  - unfold bind at 1, ret at 1. unfold bind at 1, create_interaction. unfold bind at 1, uuid4. cbn zeta.
    set (row := mkInteraction _ _ _ _ _ _ _ _ _ _ _ _ _). unfold bind at 1, insert_checked. unfold bind at 1, query, gets, id at 1.
    cbn [pending]. destruct (interaction_violation (next_id w) row (pending w)) as [k|] eqn:Hv; [by intros [= <- <-]|].
    unfold execute, modify, bind, ret at 1. intros He.
    destruct (show_draft _ _ _ _ _ _ _ _ _ _ _ _ _ Hst Hkind He) as (-> & reply & -> & ? & ? & ?).
    split; [done|]. exists (next_id w), row. done.
Qed.

(** A draft was stored and is shown. *)
Definition stored_and_shown (decision : TelegramIntentDecision) (owner : uuid) (chat : string)
    (live : option (uuid * InteractionRow)) (now : datetime) (fresh : uuid) (d d' : db) (x : res (option TelegramReply)) : Prop :=
  exists i row reply, stores decision owner chat live now fresh d i row /\ d' = put_interaction i row d /\ x = Ok (Some reply) /\ reply_chat_id reply = chat /\
    reply_interaction_id reply = Some i /\ reply_bot_message_id reply = ti_bot_message_id row.

Lemma respond_cases owner chat live decision now w x w' :
  interactions_ok (pending w) ->
  (forall i r, live = Some (i, r) -> telegram_interactions (pending w) !! i = Some r /\ ti_status r = "pending" /\ ti_telegram_chat_id r = chat) ->
  respond owner chat live decision now w = (x, w') ->
  statements_since w w' /\
  (pending w' = pending w \/ stored_and_shown decision owner chat live now (next_id w) (pending w) (pending w') x).
Proof.
  intros Hok Hlive. unfold respond.
  set (current := (match live with Some x => do reply <- lift (current_draft_reply chat x); ret (Some reply) | None => ret None end : M P (option TelegramReply))).
  assert (Hcur : current w = (x, w') -> statements_since w w' /\ (pending w' = pending w \/
    stored_and_shown decision owner chat live now (next_id w) (pending w) (pending w') x)).
  { unfold current. destruct live as [y|]; [|intros [= _ <-]; split; [done|by left]].
    unfold bind, lift. destruct (current_draft_reply chat y); intros [= _ <-]; (split; [done|by left]). }
  destruct (d_decision decision) eqn:Hdec; [intros [= _ <-]; split; [done|by left]| | |done].
  all: destruct (CAPABILITY_TO_NOTIFY_ONLY_STRATEGY _) as [strategy|] eqn:Hst; [|exact Hcur].
  all: destruct (capability_cases _ _ Hst) as (label & _ & -> & _).
  all: destruct (d_capability_id decision) as [capability|] eqn:Hcap; [|done].
  all: change (default "" (Some capability)) with capability in *.
  all: match goal with |- (if ?b then _ else _) _ = _ -> _ => destruct b eqn:Hdiff end; [exact Hcur|].
  all: assert (Hsame : forall y, live = Some y -> is_different_request (snd y) decision = false) by
    (intros [? ?] ->; done).
  - unfold bind. destruct (save_interaction _ _ _ _ _ _ _ _ _ _ w) as [y w1] eqn:Hy.
    assert (Hk : draft_kind decision capability "clarification" (d_missing_fields decision)) by by left.
    destruct (save_cases _ _ _ _ _ _ _ _ _ _ _ _ _ Hok Hst Hk Hlive Hy) as [Hs Hcase].
    destruct y as [reply|e]; intros [= <- <-]; (split; [done|]); [|by left].
    destruct Hcase as (i & row & Hrow & Hv & Hp & Hi & Hm & Hc). right. exists i, row, reply.
    split; [|done]. by exists capability, strategy, label, "clarification", (d_missing_fields decision).
  - unfold bind at 1. destruct (validate_decision decision w) as [y w1] eqn:Hy.
    destruct (validate_decision_cases _ _ _ _ Hy) as [-> Hcd].
    destruct y as [[text|]|e]; [intros [= <- <-]; split; [done|by left]| |intros [= <- <-]; split; [done|by left]].
    destruct (Hcd eq_refl) as (capability' & symbol & quantity & Hcd').
    assert (capability' = capability) as -> by (pose proof (cd_capability _ _ _ _ Hcd'); congruence).
    unfold bind. destruct (save_interaction _ _ _ _ _ _ _ _ _ _ w) as [z w2] eqn:Hz.
    assert (Hk : draft_kind decision capability "draft" []).
    { right. split; [done|]. split; [done|]. split; [done|]. by exists symbol, quantity. }
    destruct (save_cases _ _ _ _ _ _ _ _ _ _ _ _ _ Hok Hst Hk Hlive Hz) as [Hs Hcase].
    destruct z as [reply|e]; intros [= <- <-]; (split; [done|]); [|by left].
    destruct Hcase as (i & row & Hrow & Hv & Hp & Hi & Hm & Hc). right. exists i, row, reply.
    split; [|done]. by exists capability, strategy, label, "draft", [].
Qed.

(** What the overdue draft leaves. *)
Lemma settle_cases chat now d d1 live : interactions_ok d -> settle chat now d = (d1, live) ->
  interactions_ok d1 /\ rows_evolve interaction_evolves (telegram_interactions d) (telegram_interactions d1) /\
  same_intents d d1 /\
  match live with
  | Some (i, r) => d1 = d /\ open_row chat d = Some (i, r) /\
      (ti_status r = "confirming" \/ (ti_status r = "pending" /\ dt_us now < dt_us (ti_expires_at r)))
  | None => open_row chat d1 = None
  end.
Proof.
  intros Hok. unfold settle. destruct (open_row chat d) as [[i r]|] eqn:Ho.
  2: { intros [= <- <-]. split; [done|]. split; [by apply (rows_refl interaction_evolves)|]. done. }
  destruct (proj1 (open_row_Some d chat i r Hok) Ho) as (Hr & Hc & Hop).
  destruct (String.eqb_spec (ti_status r) "confirming") as [Hs|Hs].
  { intros [= <- <-]. split; [done|]. split; [by apply (rows_refl interaction_evolves)|]. split; [done|]. by repeat split; [..|left]. }
  assert (Hpe : ti_status r = "pending").
  { unfold is_open_interaction in Hop. apply str_in_spec in Hop. rewrite !elem_of_cons, elem_of_nil in Hop. naive_solver. }
  destruct (Z.leb_spec (dt_us (ti_expires_at r)) (dt_us now)); intros [= <- <-].
  - destruct (set_status_ok d i r "expired" Hok Hr Hpe ltac:(set_solver)) as [Hok' Hev].
    split; [done|]. split; [by apply (rows_put interaction_evolves _ _ r)|].
    split; [done|]. unfold open_row. apply one_of_None; [by apply open_unique|].
    cbn [telegram_interactions put_interaction set_telegram_interactions]. intros j a [[<- <-]|[Hj Ha]]%lookup_insert_Some; [unfold open_in_chat; cbn; by rewrite andb_false_r|].
    destruct (open_in_chat chat a) eqn:Hoa; [|done]. destruct Hj. symmetry.
    apply (open_unique d chat Hok j i a r); [done..|]. unfold open_in_chat. by rewrite Hc, String.eqb_refl.
  - split; [done|]. split; [by apply (rows_refl interaction_evolves)|]. split; [done|]. by repeat split; [..|right].
Qed.

(** What a whole message does to the drafts. *)
Definition message_effect (decide : TelegramIntentDecider) (chat text : string) (now : datetime) (fresh : uuid)
    (d d' : db) (x : res (option TelegramReply)) : Prop :=
  let '(d1, live) := settle chat now d in
  d' = d \/ d' = d1 \/
  exists owner decision u, users d !! owner = Some u /\ u_status u = "active" /\
    decide text (previous_capability live) (previous_payload live) = Ok decision /\
    (forall i r, live = Some (i, r) -> ti_status r = "pending") /\
    stored_and_shown decision owner chat live now fresh d1 d' x.

Lemma get_by_email_found email w x w' : get_by_email email w = (x, w') ->
  w' = w /\ (forall u, x = Ok (Some u) -> exists r, users (pending w) !! us_id u = Some r /\ us_status u = u_status r).
Proof.
  unfold get_by_email, bind, query, gets, one_or_none.
  destruct (select_where _ _) as [|[i r] [|]] eqn:Hs; intros [= <- <-]; (split; [done|]); try done.
  intros u [= <-]. assert (Hin : (i, r) ∈ select_where (fun _ r => same_email (u_email r) (normalize_email email)) (users (pending w))) by (rewrite Hs; by left).
  apply elem_of_select in Hin as [Hi _]. by exists r.
Qed.

(** The classification, from the settled state. *)
Lemma classify_cases (decide : TelegramIntentDecider) chat text owner live now w x w' : interactions_ok (pending w) ->
  (forall i r, live = Some (i, r) -> telegram_interactions (pending w) !! i = Some r /\ ti_status r = "pending" /\ ti_telegram_chat_id r = chat) ->
  (match decide text (previous_capability live) (previous_payload live) with
   | Raise (TelegramIntentLlmError _) => ret (Some (plain_reply chat LLM_FAILURE_REPLY))
   | Raise e => raise e
   | Ok decision => respond owner chat live decision now
   end) w = (x, w') ->
  statements_since w w' /\ (pending w' = pending w \/
    exists decision, decide text (previous_capability live) (previous_payload live) = Ok decision /\
      stored_and_shown decision owner chat live now (next_id w) (pending w) (pending w') x).
Proof.
  intros Hok Hlive. destruct (decide text _ _) as [decision|e] eqn:Hd.
  - intros Hr. destruct (respond_cases _ _ _ _ _ _ _ _ Hok Hlive Hr) as [Hs [?|Hst]]; (split; [done|]); [by left|].
    right. by exists decision.
  - destruct e; intros [= _ <-]; (split; [done|]); by left.
Qed.

Lemma handle_message_cases decide chat text w x w' : interactions_ok (pending w) ->
  handle_message settings decide chat text w = (x, w') ->
  statements_since w w' /\ message_effect decide chat text (app_now w) (next_id w) (pending w) (pending w') x.
Proof.
  intros Hok. unfold message_effect. destruct (settle chat (app_now w) (pending w)) as [d1 live] eqn:Hset.
  destruct (settle_cases _ _ _ _ _ Hok Hset) as (Hok1 & _ & _ & Hlive).
  unfold handle_message. destruct (chat_is_allowed settings chat); cbn [negb]; [|intros [= _ <-]; split; [done|by left]].
  unfold bind at 1, resolve_owner_user_id, bind at 1. destruct (get_by_email _ w) as [u w1] eqn:Hu.
  destruct (get_by_email_found _ _ _ _ Hu) as [-> Hfound]. destruct u as [u|e]; [|intros [= _ <-]; split; [done|by left]].
  unfold ret at 1. destruct u as [u|]; [|intros [= _ <-]; split; [done|by left]].
  destruct (String.eqb_spec (us_status u) "active") as [Hact|]; cbn [negb]; [|intros [= _ <-]; split; [done|by left]].
  destruct (Hfound u eq_refl) as (ur & Hur & Hus). rewrite Hact in Hus. clear Hu Hfound.
  unfold bind at 1, clock, gets. unfold bind at 1. rewrite (find_pending_run chat w Hok).
  unfold settle in Hset. destruct (open_row chat (pending w)) as [[i r]|] eqn:Ho.
  - destruct (proj1 (open_row_Some _ _ _ _ Hok) Ho) as (Hr & Hc & Hop).
    destruct (String.eqb_spec (ti_status r) "confirming") as [Hs|Hs]; [intros [= _ <-]; split; [done|by left]|].
    assert (Hpe : ti_status r = "pending").
    { unfold is_open_interaction in Hop. apply str_in_spec in Hop. rewrite !elem_of_cons, elem_of_nil in Hop. naive_solver. }
    unfold bind at 1. destruct (Z.leb_spec (dt_us (ti_expires_at r)) (dt_us (app_now w))) as [He|He]; injection Hset as <- <-.
    + unfold bind at 1. rewrite (mark_status_run i chat "expired" w r) by done. unfold ret at 1. intros Hx.
      destruct (classify_cases decide chat text (us_id u) None (app_now w)
        (with_pending (put_interaction i (interaction_set_status "expired" r) (pending w)) w) x w' Hok1 ltac:(done) Hx) as [Hs1 Hcase].
      split; [exact Hs1|]. right. destruct Hcase as [Heq|(dec & Hdec & Hst)]; [by left|right].
      exists (us_id u), dec, ur. repeat (split; [done|]). done.
    + unfold ret at 1. intros Hx.
      destruct (classify_cases decide chat text (us_id u) (Some (i, r)) (app_now w) w x w' Hok ltac:(naive_solver) Hx) as [Hs1 Hcase].
      split; [done|]. destruct Hcase as [Heq|(dec & Hdec & Hst)]; [by left|right; right].
      exists (us_id u), dec, ur. repeat (split; [done|]). split; [|done]. by intros ? ? [= <- <-].
  - injection Hset as <- <-. unfold bind at 1, ret at 1. intros Hx.
    destruct (classify_cases decide chat text (us_id u) None (app_now w) w x w' Hok ltac:(done) Hx) as [Hs1 Hcase].
    split; [done|]. destruct Hcase as [Heq|(dec & Hdec & Hst)]; [by left|right; right].
    exists (us_id u), dec, ur. repeat (split; [done|]). done.
Qed.

End Message.

(** The stored row is a pending draft that can be turned into an input. *)
Lemma stored_draft decision owner chat capability strategy label kind missing now live fresh i row :
  CAPABILITY_TO_NOTIFY_ONLY_STRATEGY capability = Some strategy -> draft_kind decision capability kind missing ->
  (i, row) = stored_row owner chat kind capability strategy
    (payload_from_decision decision capability strategy label (previous_payload live)) missing now live fresh ->
  ti_kind row = kind /\ ti_payload row = payload_from_decision decision capability strategy label (previous_payload live) /\
  (kind = "draft" -> typed_draft row = true).
Proof.
  intros Hst Hkind Hrow.
  assert (Hk : ti_kind row = kind /\ ti_payload row = payload_from_decision decision capability strategy label (previous_payload live)).
  { destruct live as [[j r]|]; injection Hrow as -> ->; done. }
  destruct Hk as [Hk Hp]. split; [done|]. split; [done|]. intros ->.
  destruct Hkind as [[? _]|(_ & _ & _ & s & q & Hcd)]; [done|].
  destruct (capability_cases _ _ Hst) as (_ & mode & _ & Hm & _).
  destruct (payload_fields _ _ _ label _ _ (previous_payload live) Hst Hcd) as (H1 & _ & H3 & H4 & H5 & _).
  unfold typed_draft, draft_input. rewrite Hp, (payload_input _ _ _ label mode s q _ _ Hst Hm Hcd).
  unfold order_lines, field_text. rewrite H3, H4, H5, H1. cbn.
  apply bool_decide_eq_true. by destruct live as [[]|]; injection Hrow as -> ->.
Qed.

Lemma stores_ok decision owner chat live now fresh d i row : interactions_ok d ->
  (forall j r, live = Some (j, r) -> telegram_interactions d !! j = Some r /\ ti_status r = "pending") ->
  stores decision owner chat live now fresh d i row ->
  interactions_ok (put_interaction i row d) /\
  rows_evolve interaction_evolves (telegram_interactions d) (telegram_interactions (put_interaction i row d)).
Proof.
  intros Hok Hlive (capability & strategy & label & kind & missing & Hcap & Hst & Hdiff & Hkind & Hrow & Hv).
  destruct (stored_draft _ _ _ _ _ _ _ _ _ _ _ _ _ Hst Hkind Hrow) as (Hk & Hp & Hdraft).
  rewrite <-Hk in Hdraft. destruct (capability_cases _ _ Hst) as (_ & _ & _ & _ & _ & Hcv & Hsv).
  assert (Hkv : str_in kind ["clarification"; "draft"] = true) by (destruct Hkind as [[-> _]|[-> _]]; done).
  destruct live as [[j r]|].
  - injection Hrow as -> ->. destruct (Hlive j r eq_refl) as [Hr Hpe].
    match goal with |- interactions_ok (put_interaction j ?r' d) /\ _ => assert (Hev : interaction_evolves r r') end.
    { split; [done|]. split; [done|]. split; [apply rtc_refl|]. by rewrite Hpe. }
    split; [|by apply (rows_put interaction_evolves _ _ r)].
    apply (put_pending_ok d j r); try done.
    + apply set_draft_checks; [|done..]. by apply (io_checks d Hok j).
    + cbn. by rewrite Hpe.
  - specialize (Hv eq_refl). injection Hrow as -> Hrow.
    destruct (create_ok d fresh row Hok Hv) as [Hn Hok']; [by rewrite Hrow..|done|].
    split; [done|]. by apply (rows_insert interaction_evolves).
Qed.

Lemma message_effect_ok decide chat text now fresh d d' x : interactions_ok d ->
  message_effect decide chat text now fresh d d' x ->
  interactions_ok d' /\ rows_evolve interaction_evolves (telegram_interactions d) (telegram_interactions d') /\
  same_intents d d'.
Proof.
  intros Hok. unfold message_effect. destruct (settle chat now d) as [d1 live] eqn:Hset.
  destruct (settle_cases _ _ _ _ _ Hok Hset) as (Hok1 & Hev1 & Hc1 & Hlive).
  intros [->|[->|(owner & decision & u & _ & _ & _ & Hpe & i & row & reply & Hst & -> & _)]].
  - split; [done|]. split; [by apply (rows_refl interaction_evolves)|done].
  - done.
  - destruct (stores_ok decision owner chat live now fresh d1 i row Hok1) as [Hok2 Hev2]; [|done|].
    { intros j r ->. destruct Hlive as (-> & Hor & _). apply (open_row_Some _ _ _ _ Hok) in Hor as (? & _ & _).
      split; [done|]. by apply (Hpe j). }
    split; [done|]. split; [by apply (rows_trans interaction_evolves _ _ _ Hev1)|done].
Qed.

(** ** What a button does *)

Section Button.
  Context {P : Type} `{QuoteProvider P} `{BotTransport P} (settings : TelegramSettings).
  Context (kill_switch : option (M P bool)) (limits : option IntentLimits).
  Context (Hswitch : forall c, kill_switch = Some c -> quiet c).
  Implicit Types w : world P.

Definition create_intent : CreateTradeIntentInput -> M P TradeIntentData := create_command kill_switch limits.

(** The create command leaves the drafts of its transaction alone. *)
Lemma create_body_view b inp : preserves (P := P) (view_is telegram_interactions b) (create_body kill_switch limits inp).
Proof.
  assert (Hq : forall A (c : M P A), quiet c -> preserves (view_is telegram_interactions b) c).
  { intros A c Hc w r w' Hw Hr. destruct (Hc w r w' Hr) as (_ & Hp & _). unfold view_is in *. by rewrite Hp. }
  assert (preserves (P := P) (view_is telegram_interactions b) commit) by by intros w r w' Hw [= _ <-].
  assert (forall m, preserves (P := P) (view_is telegram_interactions b) (send_message m)) by by intros m w r w' Hw [= _ <-].
  pose proof (fun s => Hq _ _ (reconcile_on_create_quiet (P := P) s)). pose proof (fun s t => Hq _ _ (fetch_quiet (P := P) s t)).
  assert (preserves (P := P) (view_is telegram_interactions b) (halted_now kill_switch)).
  { unfold halted_now. destruct kill_switch as [c|]; [by apply Hq, Hswitch|apply preserves_ret]. }
  pose proof (fun a => create_view (P := P) telegram_interactions b a ltac:(done) ltac:(done) ltac:(done)).
  assert (forall i inp, preserves (P := P) (view_is telegram_interactions b) (persist_core_trigger i inp)).
  { intros. unfold persist_core_trigger, write_trigger, mark_triggered, update_counting, update_cores, insert_trigger, insert_notification. preserve. }
  unfold create_body, get_tradable_symbol, get_by_symbol, check_limits, count_active_or_scheduled_for_user,
    count_active_or_scheduled_for_user_symbol, apply_inline_trigger_if_quote_met, store_baseline,
    apply_trailing_baseline_update, system_update_trailing_baseline, update_cores, fire, find_by_id, get_core. preserve.
Qed.

(** The create command from inside a transaction that claimed a draft. *)
Lemma create_intent_cases inp w x w' : both schema_ok w -> create_intent inp w = (x, w') ->
  pending w' = durable w' /\
  match x with
  | Raise _ => durable w' = durable w /\ outbox w' = outbox w
  | Ok intent => telegram_interactions (durable w') = telegram_interactions (pending w) /\
      schema_ok (durable w') /\ cores (pending w) !! i_id intent = None /\
      (exists c, cores (durable w') !! i_id intent = Some c /\ order_of inp (durable w') (i_id intent) c) /\
      (forall j, j <> i_id intent -> intent_rows (durable w') j = intent_rows (pending w) j)
  end.
Proof.
  intros Hok Hc. pose proof (create_command_cases kill_switch limits inp w w' x Hswitch Hc) as Hcase.
  destruct (create_command_pres kill_switch limits inp Hswitch w x w' Hok Hc) as [Hok' _].
  destruct x as [intent|e]; [|naive_solver]. destruct Hok as [_ Hok]. destruct Hcase as (_ & Hd & Hn & Hoth & c & st & Hcore & _ & _ & Hcase).
  destruct (Hcase (free_rows _ _ Hok Hn)) as (a & _ & _ & Hord & _).
  split; [done|]. rewrite Hd in *. split.
  - unfold create_intent, create_command in Hc. apply bind_Ok in Hc as (i & w1 & Hb & Hf).
    apply find_by_id_world in Hf as ->. apply (proj1 (transaction_Ok _ _ _ _)) in Hb.
    exact (create_body_view (telegram_interactions (pending w)) inp w _ _ eq_refl Hb).
  - split; [done|]. split; [done|]. split; [by exists c|done].
Qed.

(** The claimed draft is confirmed: one new intent, its order, and no other
    intent touched; or the claim is undone and no intent was created. *)
Inductive confirmation (i : uuid) (r : InteractionRow) (now : datetime) (d : db) : db -> string -> Prop :=
| confirmed_now d1 intent_id inp c text : draft_asks r inp ->
    interactions_ok d1 -> cores d1 !! intent_id = Some c -> order_of inp d1 intent_id c -> cores d !! intent_id = None ->
    (forall j, j <> intent_id -> intent_rows d1 j = intent_rows d j) ->
    telegram_interactions d1 = <[i := interaction_set_status "confirming" r]> (telegram_interactions d) ->
    created_reply (ti_payload r) = Ok text ->
    confirmation i r now d (put_interaction i (interaction_confirm now intent_id (interaction_set_status "confirming" r)) d1) text
| duplicate_order : confirmation i r now d (put_interaction i (interaction_set_status "cancelled" r) d) DUPLICATE_INTENT_REPLY
| create_failed : confirmation i r now d d USER_PAGE_ERROR_REPLY.

Lemma confirm_claimed_cases chat i r inp now w x w' :
  interactions_ok (durable w) -> pending w = put_interaction i (interaction_set_status "confirming" r) (durable w) ->
  telegram_interactions (durable w) !! i = Some r -> ti_status r = "pending" -> ti_telegram_chat_id r = chat ->
  ti_kind r = "draft" -> draft_input r = Ok inp ->
  confirm_claimed create_intent chat i r inp now w = (x, w') ->
  exists text reply, confirmation i r now (durable w) (pending w') text /\ x = Ok (Some reply) /\ reply_text reply = text /\
    interactions_ok (durable w') /\
    (durable w' = durable w \/ (telegram_interactions (durable w') = telegram_interactions (pending w) /\
       intents_kept (durable w) (durable w'))).
Proof.
  intros Hok Hp Hr Hst Hc Hkind Hin.
  destruct (set_status_ok (durable w) i r "confirming" Hok Hr Hst ltac:(set_solver)) as [Hok1 _]. rewrite <-Hp in Hok1.
  unfold confirm_claimed, bind at 1, try_except, bind at 1.
  destruct (create_intent inp w) as [y w1] eqn:Hy.
  destruct (create_intent_cases inp w y w1 (conj (io_intents _ Hok) (io_intents _ Hok1)) Hy) as [Hpd Hcase].
  destruct y as [intent|e].
  - destruct Hcase as (Ht & Hsch & Hn & (c & Hcc & Ho) & Hoth). cbv beta iota.
    assert (Hkept : intents_kept (pending w) (durable w1)).
    { intros j [x0 Hx0]. apply Hoth. congruence. }
    assert (Hok2 : interactions_ok (durable w1)).
    { apply (interactions_frame (pending w)); [done| |done|done]. intros j c' Hj. exists c'.
      assert (Hrows : intent_rows (durable w1) j = intent_rows (pending w) j) by (apply Hkept; by exists c').
      unfold intent_rows in Hrows. injection Hrows as -> Hrp Hrt. split; [done|]. split; [done|]. unfold terms. by rewrite Hrp, Hrt. }
    assert (Hrow : telegram_interactions (pending w1) !! i = Some (interaction_set_status "confirming" r)).
    { rewrite Hpd, Ht, Hp. apply lookup_insert_eq. }
    unfold ret at 1. unfold bind at 1, mark_confirmed. unfold bind at 1.
    rewrite (update_interaction_run _ _ _ _ _ Hrow).
    2: { unfold status_is, in_chat. cbn [ti_status ti_telegram_chat_id interaction_set_status]. by rewrite Hc, !String.eqb_refl. }
    2: { apply (set_status_checks "confirmed"); [done|]. exact (io_checks _ Hok i r Hr). }
    2: { unfold created_fk. cbn. by rewrite Hpd, Hcc. }
    pose proof (io_draft _ Hok i r Hr Hkind) as Hty. unfold typed_draft in Hty. rewrite !andb_true_iff in Hty. destruct Hty as [[_ Hty] _].
    cbn [Z.eqb Pos.eqb negb]. unfold ret at 1. unfold bind, lift, created_reply.
    destruct (order_lines (ti_payload r)) as [lines|] eqn:Hl; [|done]. cbn [rbind]. intros [= <- <-].
    eexists _, _. split; [|split; [done|split; [reflexivity|split; [exact Hok2|right]]]].
    + cbn [pending with_pending]. rewrite Hpd. apply (confirmed_now i r now (durable w) (durable w1) _ inp c); try done.
      * by apply draft_input_asks.
      * by rewrite Hp in Hn.
      * intros j Hj. rewrite Hoth by done. by rewrite Hp.
      * by rewrite Ht, Hp.
      * unfold created_reply. by rewrite Hl.
    + split; [done|]. intros j Hj. rewrite Hkept; [by rewrite Hp|]. by rewrite Hp.
  - destruct Hcase as [Hd Ho].
    assert (Hdup : forall o s t, e = DuplicateIntentError o s t ->
      mark_status i "cancelled" (Some chat) w1 = (Ok true, with_pending (put_interaction i (interaction_set_status "cancelled" r) (durable w)) w1)).
    { intros. rewrite <-Hd, <-Hpd. apply mark_status_run; try done; by rewrite Hpd, Hd. }
    assert (Hgone : durable w1 = durable w \/ (telegram_interactions (durable w1) = telegram_interactions (pending w) /\
      intents_kept (durable w) (durable w1))) by by left.
    assert (Hok2 : interactions_ok (durable w1)) by by rewrite Hd.
    destruct e; [..|idtac]; try (unfold ret; intros [= <- <-]; eexists _, _; split; [rewrite Hpd, Hd; apply create_failed|done]).
    unfold bind at 1. rewrite (Hdup _ _ _ eq_refl). unfold ret. intros [= <- <-]. eexists _, _.
    split; [apply duplicate_order|done].
Qed.

(** The text for a draft that is no longer open. *)
Definition closed_reply (status : string) : string :=
  if String.eqb status "confirmed" then ALREADY_CONFIRMED_REPLY
  else if String.eqb status "expired" then EXPIRED_REPLY else CANCELLED_REPLY.

(** A button of the draft [i] whose row is [r], pressed in [d]: the state the
    request commits, and the text of its reply. *)
Inductive pressed (action : string) (i : uuid) (r : InteractionRow) (now : datetime) (d : db) : db -> string -> Prop :=
| press_confirming : ti_status r = "confirming" -> pressed action i r now d d CONFIRMING_REPLY
| press_closed : is_open_interaction (ti_status r) = false -> pressed action i r now d d (closed_reply (ti_status r))
| press_overdue : ti_status r = "pending" -> dt_us (ti_expires_at r) <= dt_us now ->
    pressed action i r now d (put_interaction i (interaction_set_status "expired" r) d) EXPIRED_REPLY
| press_cancel : ti_status r = "pending" -> dt_us now < dt_us (ti_expires_at r) -> action = "cancel" ->
    pressed action i r now d (put_interaction i (interaction_set_status "cancelled" r) d) CANCELLED_REPLY
| press_incomplete : ti_status r = "pending" -> dt_us now < dt_us (ti_expires_at r) -> action = "confirm" ->
    ti_kind r <> "draft" -> pressed action i r now d d UNSUPPORTED_REPLY
| press_confirm d' text : ti_status r = "pending" -> dt_us now < dt_us (ti_expires_at r) -> action = "confirm" ->
    ti_kind r = "draft" -> confirmation i r now d d' text -> pressed action i r now d d' text.

Lemma press_cases chat action i r now w x w' :
  interactions_ok (durable w) -> pending w = durable w -> telegram_interactions (durable w) !! i = Some r ->
  ti_telegram_chat_id r = chat -> action = "confirm" \/ action = "cancel" ->
  press create_intent chat action i r now w = (x, w') ->
  exists text reply, pressed action i r now (durable w) (pending w') text /\ x = Ok (Some reply) /\ reply_text reply = text /\
    interactions_ok (durable w') /\ intents_kept (durable w) (durable w') /\
    rows_evolve interaction_evolves (telegram_interactions (durable w)) (telegram_interactions (durable w')).
Proof.
  intros Hok Hclean Hr Hc Hact. unfold press.
  assert (Hsame : intents_kept (durable w) (durable w) /\
    rows_evolve interaction_evolves (telegram_interactions (durable w)) (telegram_interactions (durable w))).
  { split; [by intros j _|]. by apply (rows_refl interaction_evolves). }
  assert (Hmark : forall st, str_in st statuses_checked = true -> ti_status r = "pending" ->
    mark_status i st (Some chat) w = (Ok true, with_pending (put_interaction i (interaction_set_status st r) (durable w)) w)).
  { intros st Hst Hpe. rewrite <-Hclean. apply mark_status_run; try done; by rewrite Hclean. }
  destruct (String.eqb_spec (ti_status r) "confirming") as [Hcf|Hcf].
  { intros [= <- <-]. eexists _, _. rewrite Hclean. split; [by apply press_confirming|done]. }
  destruct (String.eqb_spec (ti_status r) "pending") as [Hpe|Hpe]; cbn [negb].
  2: { assert (Hcl : is_open_interaction (ti_status r) = false).
       { apply not_true_iff_false. unfold is_open_interaction. rewrite str_in_spec. set_solver. }
       intros Hx. exists (closed_reply (ti_status r)), (plain_reply chat (closed_reply (ti_status r))).
       assert ((x, w') = (Ok (Some (plain_reply chat (closed_reply (ti_status r)))), w)) as [= -> ->].
       { rewrite <-Hx. unfold closed_reply. by repeat case_match. }
       rewrite Hclean. split; [by apply press_closed|done]. }
  destruct (Z.leb_spec (dt_us (ti_expires_at r)) (dt_us now)) as [He|He].
  { unfold bind. rewrite Hmark by done. intros [= <- <-]. eexists _, _. split; [by apply press_overdue|done]. }
  destruct Hact as [-> | ->]; cbn [String.eqb Ascii.eqb Bool.eqb negb orb].
  2: { change (String.eqb "cancel" "cancel") with true. cbv iota. unfold bind. rewrite Hmark by done. intros [= <- <-]. eexists _, _. split; [by apply press_cancel|done]. }
  change (String.eqb "confirm" "cancel") with false. change (String.eqb "confirm" "confirm") with true. cbn [negb orb].
  destruct (String.eqb_spec (ti_kind r) "draft") as [Hk|Hk]; cbn [negb].
  2: { intros [= <- <-]. eexists _, _. rewrite Hclean. split; [by apply press_incomplete|done]. }
  pose proof (io_draft _ Hok i r Hr Hk) as Hty. unfold typed_draft in Hty. rewrite !andb_true_iff in Hty. destruct Hty as [[Hty _] _].
  fold (draft_input r). destruct (draft_input r) as [inp|] eqn:Hin; [|done].
  unfold bind at 1. rewrite (claim_run i chat w r) by (done || by rewrite Hclean). cbn [negb]. rewrite Hclean.
  set (w1 := with_pending _ w). intros Hx.
  destruct (confirm_claimed_cases chat i r inp now w1 x w' Hok eq_refl Hr Hpe Hc Hk Hin Hx) as (text & reply & Hcon & -> & Ht & Hok' & Hd).
  exists text, reply. split; [by apply press_confirm|]. split; [done|]. split; [done|]. split; [done|].
  change (durable w1) with (durable w) in Hd. destruct Hd as [-> |[Hti Hco]]; [done|].
  split; [done|]. rewrite Hti. apply (rows_put interaction_evolves _ _ r); [done|].
  by destruct (set_status_ok (durable w) i r "confirming" Hok Hr Hpe ltac:(set_solver)).
Qed.

(** What a button leaves is sound again. *)
Lemma pressed_ok action i r now d d' text : interactions_ok d -> telegram_interactions d !! i = Some r ->
  pressed action i r now d d' text ->
  interactions_ok d' /\ rows_evolve interaction_evolves (telegram_interactions d) (telegram_interactions d') /\ intents_kept d d' /\
  intents_recorded d d'.
Proof using Type.
  clear dependent kill_switch.
  intros Hok Hr Hpr.
  assert (Hput : forall st, ti_status r = "pending" -> st ∈ ["expired"; "cancelled"; "confirming"] ->
    let d' := put_interaction i (interaction_set_status st r) d in
    interactions_ok d' /\ rows_evolve interaction_evolves (telegram_interactions d) (telegram_interactions d') /\
      intents_kept d d' /\ intents_recorded d d').
  { intros st Hpe Hst. destruct (set_status_ok d i r st Hok Hr Hpe Hst) as [Hok' Hev]. split; [done|].
    split; [by apply (rows_put interaction_evolves _ _ r)|by apply same_intents_recorded]. }
  assert (Hsame : interactions_ok d /\ rows_evolve interaction_evolves (telegram_interactions d) (telegram_interactions d) /\
    intents_kept d d /\ intents_recorded d d).
  { split; [done|]. split; [by apply (rows_refl interaction_evolves)|by apply same_intents_recorded]. }
  destruct Hpr as [| | | | |d' text Hpe _ _ Hk Hcon]; [done|done|apply Hput; [done|set_solver]|apply Hput; [done|set_solver]|done|].
  destruct Hcon as [d1 k inp c text Hin Hok1 Hck Ho Hn Hkept Ht _| |]; [|apply Hput; [done|set_solver]|done].
  set (claimed := interaction_set_status "confirming" r) in *.
  assert (Hev : interaction_evolves r (interaction_confirm now k claimed)).
  { split; [done|]. split; [done|]. split; [rewrite Hpe; apply rtc_once, draft_confirmed|done]. }
  assert (Hrow : telegram_interactions d1 !! i = Some claimed) by by rewrite Ht, lookup_insert_eq.
  split; [|split; [|split]].
  - apply (put_ok d1 i claimed (interaction_confirm now k claimed) Hok1 Hrow eq_refl); cbn.
    + apply (set_status_checks "confirmed"); [done|]. exact (io_checks _ Hok i r Hr).
    + done.
    + exact (io_draft _ Hok i r Hr).
    + intros _. destruct (typed_input _ (io_draft _ Hok i r Hr Hk)) as [inp' Hin']. exists inp', k, c.
      do 3 (split; [done|]). by rewrite <-(draft_asks_unique _ _ _ Hin (draft_input_asks _ _ Hin')).
    + intros k' [= <-]. split; [done|]. intros j b Hj Hb. apply dec_stable. intros Hji.
      rewrite Ht, lookup_insert_ne in Hj by done. pose proof (io_created _ Hok j b k Hj Hb) as Hcf.
      destruct (io_confirmed _ Hok j b Hj Hcf) as (_ & k' & c' & _ & Hk' & Hck' & _). congruence.
  - cbn. rewrite Ht, insert_insert_eq. by apply (rows_put interaction_evolves _ _ r).
  - intros j [x Hx]. apply Hkept. congruence.
  - intros k' Hk' [x Hx]. assert (k' = k) as ->.
    { apply dec_stable. intros Hne. specialize (Hkept k' Hne). unfold intent_rows in Hkept. cbn in Hx. congruence. }
    exists i. eexists. split; [apply lookup_insert_eq|done].
Qed.

(** ** The webhook *)

Lemma post_quiet request : quiet (post settings request).
Proof.
  unfold post. destruct (String.eqb _ _); [apply quiet_ret|]. apply quiet_bind; [|intros; apply quiet_ret].
  intros w r w'. unfold call_transport. destruct (bot_http (provider w) request). by intros [= _ <-].
Qed.
Lemma edit_quiet chat m text markup : quiet (bot_edit_message_text settings chat m text markup).
Proof. apply quiet_bind; [apply post_quiet|intros; apply quiet_ret]. Qed.
Lemma send_quiet chat text markup : quiet (bot_send_message settings chat text markup).
Proof. apply quiet_bind; [apply post_quiet|intros; apply quiet_ret]. Qed.
Lemma answer_quiet i : quiet (bot_answer_callback_query settings i).
Proof. apply quiet_bind; [apply post_quiet|intros; apply quiet_ret]. Qed.

(** Delivering a reply records the message that shows the draft, at most. *)
Lemma deliver_cases reply w x w' : deliver_message_reply settings reply w = (x, w') ->
  durable w' = durable w /\
  (pending w' = pending w \/ exists i r m, telegram_interactions (pending w) !! i = Some r /\
     reply_interaction_id reply = Some i /\ pending w' = put_interaction i (interaction_set_message m r) (pending w)).
Proof.
  unfold deliver_message_reply, bind at 1. set (edit := match reply_bot_message_id reply with Some m => _ | None => ret false end).
  assert (Hq : quiet edit) by (unfold edit; destruct (reply_bot_message_id reply); [apply edit_quiet|apply quiet_ret]).
  destruct (edit w) as [e w1] eqn:He. destruct (Hq w e w1 He) as (Hd1 & Hp1 & _).
  destruct e as [[]|e]; [intros [= _ <-]; split; [done|by left]| |intros [= _ <-]; split; [done|by left]].
  unfold bind at 1. destruct (bot_send_message _ _ _ _ w1) as [m w2] eqn:Hm.
  destruct (send_quiet _ _ _ w1 m w2 Hm) as (Hd2 & Hp2 & _).
  assert (Hno : durable w2 = durable w /\ (pending w2 = pending w \/ exists i r m, telegram_interactions (pending w) !! i = Some r /\
    reply_interaction_id reply = Some i /\ pending w2 = put_interaction i (interaction_set_message m r) (pending w))).
  { split; [congruence|left; congruence]. }
  destruct m as [m|e]; [|by intros [= _ <-]].
  destruct (reply_interaction_id reply) as [i|] eqn:Hi; [|by intros [= _ <-]]. destruct m as [m|]; [|by intros [= _ <-]].
  unfold attach_bot_message_id, bind. destruct (update_interaction _ _ _ w2) as [y w3] eqn:Hu.
  pose proof (update_interaction_cases _ _ _ _ _ _ Hu) as Hcase.
  assert (w3 = w2 \/ exists r, telegram_interactions (pending w2) !! i = Some r /\
    w3 = with_pending (put_interaction i (interaction_set_message m r) (pending w2)) w2) as [->|(r & Hr & ->)].
  { destruct (telegram_interactions (pending w2) !! i) as [r|]; [|by left; destruct Hcase].
    destruct (in_chat _ r); [|by left; destruct Hcase]. destruct Hcase as [(_ & -> & _)|(_ & -> & _)]; [right; by exists r|by left]. }
  - destruct y; by intros [= _ <-].
  - destruct y; intros [= _ <-]; (split; [cbn; congruence|right; exists i, r, m]); cbn; by rewrite <-Hp1, <-Hp2.
Qed.

(** What a message commits: its effect, and the bot message that shows it. *)
Definition message_committed (decide : TelegramIntentDecider) (chat text : string) (now : datetime) (fresh : uuid) (d d' : db) : Prop :=
  exists d1 y, message_effect decide chat text now fresh d d1 y /\
    (d' = d1 \/ exists reply i r m, y = Ok (Some reply) /\ reply_interaction_id reply = Some i /\
       telegram_interactions d1 !! i = Some r /\ d' = put_interaction i (interaction_set_message m r) d1).

Lemma webhook_message_cases decide chat message w x w' : interactions_ok (durable w) -> pending w = durable w ->
  webhook_message settings decide chat message w = (x, w') ->
  durable w' = durable w \/
  exists m text, message = Some m /\ tm_text m = Some text /\
    message_committed decide chat text (app_now w) (next_id w) (durable w) (durable w').
Proof.
  intros Hok Hclean. unfold webhook_message.
  destruct message as [m|]; [|intros [= _ <-]; by left]. destruct (tm_text m) as [text|] eqn:Htext; [|intros [= _ <-]; by left].
  destruct (from_bot _); [intros [= _ <-]; by left|]. intros Hx.
  assert (Hbody : exists w1, durable w' = durable w1 /\ (is_ok x = false -> durable w1 = durable w) /\
    (is_ok x = true -> message_committed decide chat text (app_now w) (next_id w) (durable w) (durable w1))).
  2: { destruct Hbody as (w1 & -> & Hbad & Hgood). destruct (is_ok x); [right; exists m, text; by split; [|split; [|apply Hgood]]|left; by apply Hbad]. }
  unfold transaction, try_except, bind at 1 in Hx.
  destruct (handle_message settings decide chat text w) as [y w1] eqn:Hy.
  destruct (handle_message_cases settings decide chat text w y w1 ltac:(by rewrite Hclean) Hy) as [((Hd1 & _) & _) Heff].
  rewrite Hclean in Heff. unfold bind, commit, rollback, modify, ret, raise in Hx.
  destruct y as [[reply|]|e].
  - destruct (deliver_message_reply settings reply w1) as [z w2] eqn:Hz. destruct (deliver_cases _ _ _ _ Hz) as [Hd2 Hp2].
    destruct z as [[]|e]; injection Hx as <- <-; (eexists; split; [reflexivity|]); cbn [is_ok durable with_pending committed].
    + split; [done|]. intros _. exists (pending w1), (Ok (Some reply)). split; [done|].
      destruct Hp2 as [->|(i & r & mid & Hr & Hi & ->)]; [by left|right]. by exists reply, i, r, mid.
    + split; [congruence|done].
  - injection Hx as <- <-. eexists. split; [reflexivity|]. split; [done|]. intros _. exists (pending w1), (Ok None).
    split; [done|by left].
  - injection Hx as <- <-. eexists. split; [reflexivity|]. cbn. split; [by rewrite Hd1|done].
Qed.

Lemma message_committed_ok decide chat text now fresh d d' : interactions_ok d ->
  message_committed decide chat text now fresh d d' ->
  interactions_ok d' /\ rows_evolve interaction_evolves (telegram_interactions d) (telegram_interactions d') /\ intents_kept d d' /\
  intents_recorded d d'.
Proof.
  intros Hok (d1 & y & Heff & Hd). destruct (message_effect_ok _ _ _ _ _ _ _ _ Hok Heff) as (Hok1 & Hev1 & Hc1).
  destruct Hd as [->|(reply & i & r & m & _ & _ & Hr & ->)].
  - split; [done|]. split; [done|]. by apply same_intents_recorded.
  - split; [by apply put_message_ok|]. split; [|by apply same_intents_recorded].
    apply (rows_trans interaction_evolves _ _ _ Hev1), (rows_put interaction_evolves _ _ r); [done|].
    split; [done|]. split; [done|]. split; [apply rtc_refl|done].
Qed.

Definition button_chat (callback : TelegramCallbackQuery) : string :=
  match cq_message callback with Some m => chat_text (tm_chat m) | None => "" end.

(** The callback branch, on the draft its data and its message identify. *)
Definition button_of (callback : TelegramCallbackQuery) (d : db) : option (string * (uuid * InteractionRow)) :=
  match cq_message callback, cq_data callback with
  | Some m, Some data =>
      match parse_callback_data data with
      | Some (action, i) =>
          match telegram_interactions d !! i with
          | Some r =>
              if String.eqb (ti_telegram_chat_id r) (chat_text (tm_chat m)) &&
                 opt_eqb Z.eqb (Some (tm_message_id m)) (ti_bot_message_id r)
              then Some (action, (i, r)) else None
          | None => None
          end
      | None => None
      end
  | _, _ => None
  end.

Lemma button_row callback d action i r : button_of callback d = Some (action, (i, r)) ->
  telegram_interactions d !! i = Some r /\ exists m, cq_message callback = Some m.
Proof.
  unfold button_of. destruct (cq_message callback) as [m|]; [|done]. destruct (cq_data callback); [|done].
  destruct (parse_callback_data _) as [[a j]|]; [|done]. destruct (telegram_interactions d !! j) as [x|] eqn:Hx; [|done].
  destruct (_ && _); [|done]. intros [= <- <- <-]. split; [done|by exists m].
Qed.

Lemma parse_callback_action data action i : parse_callback_data data = Some (action, i) -> action = "confirm" \/ action = "cancel".
Proof.
  unfold parse_callback_data. destruct (split_at _ _) as [|a [|b [|c [|]]]]; try done.
  destruct (negb _); cbn [orb]; [done|]. destruct (str_in (unchars b) ["confirm"; "cancel"]) eqn:Hb; cbn [negb]; [|done].
  destruct (parse_uuid _); [|done]. cbn. intros [= <- _]. apply str_in_spec in Hb. set_solver.
Qed.

Lemma handle_callback_cases callback w x w' : interactions_ok (durable w) -> pending w = durable w ->
  handle_callback_update settings create_intent callback w = (x, w') ->
  match button_of callback (durable w) with
  | Some (action, (i, r)) =>
      if chat_is_allowed settings (button_chat callback) then
        exists text reply, pressed action i r (app_now w) (durable w) (pending w') text /\ x = Ok (Some reply) /\ reply_text reply = text /\
          interactions_ok (durable w') /\ intents_kept (durable w) (durable w') /\
          rows_evolve interaction_evolves (telegram_interactions (durable w)) (telegram_interactions (durable w'))
      else w' = w /\ is_ok x = true
  | None => w' = w /\ is_ok x = true
  end.
Proof.
  intros Hok Hclean. unfold handle_callback_update, button_of, button_chat.
  destruct (cq_message callback) as [m|]; [|by intros [= <- <-]]. destruct (cq_data callback) as [data|]; [|by intros [= <- <-]].
  unfold handle_callback.
  destruct (chat_is_allowed settings (chat_text (tm_chat m))) eqn:Hal; cbn [negb].
  2: { intros [= <- <-]. by repeat case_match. }
  destruct (parse_callback_data data) as [[action i]|] eqn:Hparse; [|by intros [= <- <-]].
  unfold bind at 1, find_interaction, query, gets. rewrite Hclean.
  destruct (telegram_interactions (durable w) !! i) as [r|] eqn:Hr; [|by intros [= <- <-]].
  destruct (String.eqb_spec (ti_telegram_chat_id r) (chat_text (tm_chat m))) as [Hc|]; cbn [andb]; [|by intros [= <- <-]].
  destruct (ti_bot_message_id r) as [b|] eqn:Hb; cbn [is_none is_some negb orb opt_eqb]; [|by intros [= <- <-]].
  destruct (tm_message_id m =? b) eqn:Hm; cbn [negb]; [|by intros [= <- <-]].
  unfold bind, clock, gets. intros Hp.
  apply (press_cases (chat_text (tm_chat m)) action i r (app_now w) w x w'); try done. by eapply parse_callback_action.
Qed.

(** What an update commits. *)
Inductive update_committed (decide : TelegramIntentDecider) (update : TelegramUpdate) (now : datetime) (fresh : uuid)
    (d : db) : res WebhookResponse -> db -> Prop :=
| commits_nothing x : update_committed decide update now fresh d x d
| commits_message chat m text x d' : up_callback_query update = None -> up_message update = Some m ->
    tm_text m = Some text -> update_chat_id update = Some chat ->
    message_committed decide chat text now fresh d d' -> update_committed decide update now fresh d x d'
| commits_button callback action i r reply d' : up_callback_query update = Some callback ->
    button_of callback d = Some (action, (i, r)) -> pressed action i r now d d' (reply_text reply) ->
    update_committed decide update now fresh d (Ok (Some reply)) d'.

Lemma edit_callback_cases update reply w z w' : edit_callback_message settings update reply w = (z, w') ->
  is_ok z = true /\ durable w' = durable w.
Proof.
  unfold edit_callback_message. destruct (_ ≫= _) as [m|]; [|by intros [= <- <-]].
  unfold bot_edit_message_text, post, bind, call_transport. destruct (String.eqb _ _); [by intros [= <- <-]|].
  destruct (bot_http _ _). by intros [= <- <-].
Qed.

(** Committing the answer of a callback and showing it. *)
Lemma finish_callback update (y : res (option TelegramReply)) w w2 x w' : is_ok y = true ->
  (do reply <- transaction (fun _ => (do reply <- (fun w => (y, w)); do_ commit; ret reply) w2);
   match reply with
   | None => ret None
   | Some x => do edited <- edit_callback_message settings update x; ret (Some x)
   end) w = (x, w') -> durable w' = pending w2 /\ x = y.
Proof.
  intros Hy. unfold bind at 1, transaction, try_except, bind, commit, modify, ret.
  destruct y as [[reply|]|e]; [| |done]; [|by intros [= <- <-]].
  destruct (edit_callback_message settings update reply (committed w2)) as [z w3] eqn:Hz.
  destruct (edit_callback_cases _ _ _ _ _ Hz) as [Hz1 Hz2]. destruct z; [|done]. intros [= <- <-].
  split; [by rewrite Hz2|done].
Qed.

(** A callback from a bot is ignored; a human's presses its button. *)
Lemma webhook_callback_cases update callback w x w' : interactions_ok (durable w) -> pending w = durable w ->
  webhook_callback settings create_intent update callback w = (x, w') ->
  match button_of callback (durable w) with
  | Some (action, (i, r)) =>
      if negb (from_bot (cq_from_user callback)) && chat_is_allowed settings (button_chat callback) then
        exists reply, x = Ok (Some reply) /\ pressed action i r (app_now w) (durable w) (durable w') (reply_text reply)
      else durable w' = durable w
  | None => durable w' = durable w
  end.
Proof.
  intros Hok Hclean. unfold webhook_callback. unfold bind at 1.
  match goal with |- context [let (_, _) := ?c w in _] => set (answer := c) end.
  assert (Hq : quiet answer /\ is_ok (fst (answer w)) = true).
  { unfold answer. destruct (cq_id callback); [|split; [apply quiet_ret|done]].
    destruct (from_bot _); [split; [apply quiet_ret|done]|]. split; [apply quiet_bind; [apply answer_quiet|intros; apply quiet_ret]|].
    unfold bind, bot_answer_callback_query, bind, post, bind, call_transport. destruct (String.eqb _ _); [done|].
    by destruct (bot_http _ _). }
  destruct Hq as [Hq Hans]. destruct (answer w) as [[[]|e] w1] eqn:Ha; [|done].
  destruct (Hq _ _ _ Ha) as (Hd1 & Hp1 & _ & Hn1 & Hnow1 & _).
  destruct (from_bot (cq_from_user callback)); cbn [negb andb]; [intros [= _ <-]; rewrite Hd1; by repeat case_match|]. intros Hx.
  destruct (handle_callback_update settings create_intent callback w1) as [y w2] eqn:Hy.
  assert (Hok1 : interactions_ok (durable w1)) by by rewrite Hd1. assert (Hclean1 : pending w1 = durable w1) by congruence.
  pose proof (handle_callback_cases callback w1 y w2 Hok1 Hclean1 Hy) as Hcase. rewrite Hd1, Hnow1 in Hcase.
  assert (Hfin : is_ok y = true -> durable w' = pending w2 /\ x = y).
  { intros Hyok. apply (finish_callback update y w1 w2 x w' Hyok). etransitivity; [|exact Hx]. unfold bind, transaction, try_except. by rewrite Hy. }
  assert (Hnone : w2 = w1 /\ is_ok y = true -> durable w' = durable w).
  { intros [-> Hyok]. destruct (Hfin Hyok) as [-> _]. congruence. }
  destruct (button_of callback (durable w)) as [[action [i r]]|] eqn:Hbt; [|by apply Hnone].
  destruct (chat_is_allowed settings (button_chat callback)); [|by apply Hnone].
  destruct Hcase as (text & reply & Hpr & -> & Ht & _). destruct (Hfin eq_refl) as [-> ->]. rewrite <-Ht in Hpr.
  by exists reply.
Qed.

Lemma webhook_cases decide header update w x w' : interactions_ok (durable w) -> pending w = durable w ->
  telegram_webhook settings decide create_intent header update w = (x, w') ->
  update_committed decide update (app_now w) (next_id w) (durable w) x (durable w').
Proof.
  intros Hok Hclean. unfold telegram_webhook. unfold bind, lift.
  destruct (verify_secret settings header); [|intros [= _ <-]; constructor].
  destruct (update_chat_id update) as [chat|] eqn:Hchat; [|intros [= _ <-]; constructor].
  destruct (_ || _); [intros [= _ <-]; constructor|].
  destruct (up_callback_query update) as [callback|] eqn:Hup.
  { intros Hx. pose proof (webhook_callback_cases _ _ _ _ _ Hok Hclean Hx) as Hcase.
    destruct (button_of callback (durable w)) as [[action [i r]]|] eqn:Hbt; [|rewrite Hcase; constructor].
    destruct (_ && _); [|rewrite Hcase; constructor]. destruct Hcase as (reply & -> & Hpr).
    by apply (commits_button _ _ _ _ _ callback action i r). }
  intros Hx. destruct (webhook_message_cases _ _ _ _ _ _ Hok Hclean Hx) as [->|(m & text & Hm & Htext & Hc)]; [constructor|].
  by apply (commits_message _ _ _ _ _ chat m text).
Qed.

Lemma update_committed_ok decide update now fresh d x d' : interactions_ok d ->
  update_committed decide update now fresh d x d' ->
  interactions_ok d' /\ rows_evolve interaction_evolves (telegram_interactions d) (telegram_interactions d') /\ intents_kept d d' /\
  intents_recorded d d'.
Proof using Type.
  clear dependent kill_switch.
  intros Hok [?|chat m text y d1 _ _ _ _ Hm|callback action i r reply d1 _ Hbt Hpr].
  - split; [done|]. split; [by apply (rows_refl interaction_evolves)|by apply same_intents_recorded].
  - by eapply message_committed_ok.
  - apply (pressed_ok action i r now d d1 (reply_text reply) Hok); [|done]. by destruct (button_row _ _ _ _ _ Hbt).
Qed.

End Button.
