(* ===== verification/TelegramLife.v ===== *)
(** * The life of a Telegram draft

    The theorems about the Telegram workflow: what a button and a message do
    through the webhook, what keeps strangers out, and the invariant over any
    sequence of updates and of requests to the intents. *)

From S2P Require Import Prelude Decimal Datetime Json Errors Price Intent Tables Store CoreSchema IntentRepo Samples IntentQueries Trigger Quotes CreateIntent Dispatcher IntentLife AuthRepos Telegram TelegramLlm TelegramRoute TelegramSpec.

#[local] Open Scope string_scope.
#[local] Open Scope list_scope.
#[local] Open Scope Z_scope.

(** ** The order of a draft *)

(** The price a message left: the same text, or [str()] of an equal decimal. *)
Definition same_price (a b : option string) : Prop :=
  a = b \/ exists s d p, a = Some s /\ decimal_of_chars (strip (chars s)) = Some (Finite d) /\
    b = Some (price_text p) /\ dec_eqb d p = true.

Definition same_order (a b : CreateTradeIntentInput) : Prop :=
  ci_owner_user_id b = ci_owner_user_id a /\ ci_symbol b = ci_symbol a /\ ci_strategy b = ci_strategy a /\
  ci_quantity_lots b = ci_quantity_lots a /\ ci_transaction_mode b = ci_transaction_mode a /\
  same_price (ci_target_price a) (ci_target_price b).

Lemma same_order_refl a : same_order a a.
Proof. do 5 (split; [done|]). by left. Qed.

(** A request that is not different from a complete draft asks for its order. *)
Lemma not_different decision r capability strategy label mode symbol quantity owner inp previous :
  ti_kind r = "draft" -> typed_draft r = true -> is_different_request r decision = false ->
  CAPABILITY_TO_NOTIFY_ONLY_STRATEGY capability = Some strategy -> CAPABILITY_TO_TRANSACTION_MODE capability = Some mode ->
  complete_decision decision capability symbol quantity -> owner = ti_owner_user_id r -> draft_input r = Ok inp ->
  exists inp', create_input_from_payload (payload_from_decision decision capability strategy label previous) owner = Ok inp' /\
    same_order inp inp'.
Proof.
  intros Hk Hty Hdiff Hst Hm Hcd -> Hin. unfold typed_draft in Hty. rewrite !andb_true_iff, bool_decide_eq_true in Hty.
  destruct Hty as [_ Hcap]. destruct (create_input_inv _ _ _ Hin) as (cap & strat & mode' & sym & q & price & Hc & Hs & Hm' & Hsym & Hq & _ & -> & Hp).
  rewrite Hcap in Hc. injection Hc as <-. unfold is_different_request in Hdiff.
  destruct Hcd as [Hdc Hds Hdq Hpos Hdp] eqn:Hcd'. rewrite Hdc, Hds, Hdq, Hsym, Hq, Hk in Hdiff. clear Hcd'. cbn [opt_eqb] in Hdiff.
  destruct (String.eqb_spec capability (ti_capability_id r)) as [Heq|]; cbn [negb] in Hdiff; [|done]. rewrite <-Heq in *.
  destruct (String.eqb_spec sym symbol) as [->|]; cbn [negb] in Hdiff; [|done].
  change (String.eqb "draft" "draft") with true in Hdiff. cbn [negb] in Hdiff. destruct (d_decision decision); try done.
  apply orb_false_iff in Hdiff as [Hdq' Hdp']. apply negb_false_iff in Hdq'. cbn [int_eq] in Hdq'. apply Z.eqb_eq in Hdq' as ->.
  eexists. split; [by apply (payload_input decision capability strategy label mode symbol q previous (ti_owner_user_id r) Hst Hm); split|].
  assert (strat = strategy) as -> by congruence. assert (mode' = mode) as -> by congruence.
  do 5 (split; [done|]). cbn [ci_target_price]. destruct (d_target_price decision) as [t|]; cbn [is_some] in Hdp.
  - destruct price as [s|]; [|congruence]. destruct Hp as [Hp _]. rewrite Hp in Hdp'. unfold price_differs in Hdp'.
    change (py_str (default SNull (Some (SStr s)))) with s in Hdp'.
    destruct (decimal_of_chars (strip (chars s))) as [[d| |]|] eqn:Hd; try done. apply negb_false_iff in Hdp'.
    right. by exists s, d, t.
  - destruct price as [s|]; [|by left]. destruct Hp as [_ Hp]. congruence.
Qed.

(** ** The workflow through the webhook *)

Section Workflow.
  Context {P : Type} `{QuoteProvider P} `{BotTransport P} (settings : TelegramSettings).
  Context (kill_switch : option (M P bool)) (limits : option IntentLimits).
  Context (Hswitch : forall c, kill_switch = Some c -> quiet c).
  Implicit Types w : world P.

(** An update, served in a session of its own. *)
Definition serve_update (decider : TelegramIntentDecider) (header : option string) (update : TelegramUpdate) : M P WebhookResponse :=
  with_session (telegram_webhook settings decider (create_intent kill_switch limits) header update).

Lemma serve_update_cases decider header update w x w' : interactions_ok (durable w) ->
  serve_update decider header update w = (x, w') ->
  pending w' = durable w' /\ update_committed decider update (app_now w) (next_id w) (durable w) x (durable w').
Proof.
  intros Hok Hx. destruct (session_cases _ _ _ _ Hx) as (w1 & Hc & Hd & Hp & _).
  rewrite Hd, Hp. split; [done|].
  exact (webhook_cases settings kill_switch limits Hswitch decider header update (opening w) x w1 Hok eq_refl Hc).
Qed.

(** The update of a stranger: a wrong secret, another chat or another bot. *)
Definition stranger (header : option string) (update : TelegramUpdate) : Prop :=
  is_ok (verify_secret settings header) = false \/
  update_chat_id update <> Some (configured_chat settings) \/ configured_chat settings = "" \/
  match up_callback_query update with
  | Some callback => from_bot (cq_from_user callback) = true
  | None => from_bot (up_message update ≫= tm_from_user) = true
  end.

(** Only the configured chat reaches the workflow: an update without the
    webhook's secret, from another chat, from a bot, or while no chat is
    configured, changes nothing, sends nothing, calls neither the Bot API nor
    the quote provider, and gets an error or an unhandled answer. *)
Theorem strangers_ignored decider create header update w x w' (Hstranger : stranger header update)
    (Hrun : telegram_webhook settings decider create header update w = (x, w')) :
  w' = w /\ (x = Ok None \/ exists e, x = Raise e /\ is_ok (verify_secret settings header) = false).
Proof.
  unfold telegram_webhook, bind, lift in Hrun.
  destruct (verify_secret settings header) as [[]|e] eqn:Hv; [|injection Hrun as <- <-; split; [done|right; by exists e]].
  destruct Hstranger as [Hs|Hs]; [by rewrite Hv in Hs|].
  destruct (update_chat_id update) as [chat|]; [|by injection Hrun as <- <-; split; [|left]].
  destruct (String.eqb_spec (configured_chat settings) "") as [|Hne]; cbn [orb] in Hrun; [by injection Hrun as <- <-; split; [|left]|].
  destruct (String.eqb_spec chat (configured_chat settings)) as [->|]; cbn [negb] in Hrun; [|by injection Hrun as <- <-; split; [|left]].
  destruct Hs as [?|[?|Hbot]]; [done..|]. destruct (up_callback_query update) as [callback|].
  - unfold webhook_callback, bind in Hrun. rewrite Hbot in Hrun. destruct (cq_id callback); injection Hrun as <- <-; by split; [|left].
  - unfold webhook_message in Hrun. destruct (up_message update) as [m|]; [|by injection Hrun as <- <-; split; [|left]].
    cbn in Hbot. rewrite Hbot in Hrun. destruct (tm_text m); injection Hrun as <- <-; by split; [|left].
Qed.

(** C20. A button on every branch.  The press is matched to the draft by the
    identifier in its data, the chat and the bot message that carries it; without
    a match nothing changes.  A claimed draft answers that it is being handled, a
    closed one what became of it, an overdue one expires, [cancel] cancels, and
    [confirm] of a complete draft either creates one intent, which is exactly its
    order, target price and modes included, touches no other intent and records
    it, or cancels the draft as a duplicate, or leaves the draft for another
    attempt; the reply says which. *)
Theorem button_outcomes decider header update callback w x w' (Hok : interactions_ok (durable w))
    (Hsecret : verify_secret settings header = Ok tt) (Hchat : update_chat_id update = Some (configured_chat settings))
    (Hconfigured : configured_chat settings <> "") (Hup : up_callback_query update = Some callback)
    (Hhuman : from_bot (cq_from_user callback) = false)
    (Hrun : serve_update decider header update w = (x, w')) :
  match button_of callback (durable w) with
  | Some (action, (i, r)) => exists reply, x = Ok (Some reply) /\
      pressed action i r (app_now w) (durable w) (durable w') (reply_text reply) /\ interactions_ok (durable w')
  | None => durable w' = durable w
  end.
Proof.
  destruct (session_cases _ _ _ _ Hrun) as (w1 & Hc & Hd & _ & _). rewrite Hd.
  unfold telegram_webhook, bind at 1, lift in Hc. rewrite Hsecret, Hchat, Hup in Hc.
  rewrite (proj2 (String.eqb_neq _ _) Hconfigured), String.eqb_refl in Hc. cbn [orb negb] in Hc.
  pose proof (webhook_callback_cases settings kill_switch limits Hswitch update callback (opening w) x w1 Hok eq_refl Hc) as Hcase.
  change (durable (opening w)) with (durable w) in Hcase. change (app_now (opening w)) with (app_now w) in Hcase.
  rewrite Hhuman in Hcase. cbn [negb andb] in Hcase.
  destruct (button_of callback (durable w)) as [[action [i r]]|] eqn:Hbt; [|done].
  destruct (button_row _ _ _ _ _ Hbt) as (Hr & m & Hm).
  assert (Hbc : button_chat callback = configured_chat settings).
  { unfold button_chat. unfold update_chat_id in Hchat. rewrite Hup in Hchat. cbn in Hchat. rewrite Hm in Hchat |- *. by injection Hchat. }
  unfold chat_is_allowed in Hcase. rewrite Hbc, String.eqb_refl, (proj2 (String.eqb_neq _ _) Hconfigured) in Hcase.
  destruct Hcase as (reply & -> & Hpr). exists reply. split; [done|]. split; [done|].
  by destruct (pressed_ok action i r _ _ _ _ Hok Hr Hpr).
Qed.

(** A draft that still asks for the order of [r]. *)
Definition keeps_order (r r' : InteractionRow) : Prop :=
  ti_kind r' = "draft" /\ ti_status r' = "pending" /\
  forall inp, draft_input r = Ok inp -> exists inp', draft_input r' = Ok inp' /\ same_order inp inp'.

Lemma keeps_order_refl r : ti_kind r = "draft" -> ti_status r = "pending" -> keeps_order r r.
Proof. intros Hk Hs. split; [done|]. split; [done|]. intros inp Hin. exists inp. split; [done|apply same_order_refl]. Qed.

Lemma effect_keeps_draft decider chat text now fresh d d' x i r : interactions_ok d ->
  telegram_interactions d !! i = Some r -> ti_kind r = "draft" -> ti_status r = "pending" -> dt_us now < dt_us (ti_expires_at r) ->
  message_effect decider chat text now fresh d d' x ->
  exists r', telegram_interactions d' !! i = Some r' /\ keeps_order r r'.
Proof using Type.
  intros Hok Hr Hkind Hpending Hlive. unfold message_effect. destruct (settle chat now d) as [d1 live] eqn:Hset.
  destruct (settle_cases _ _ _ _ _ Hok Hset) as (Hok1 & _ & _ & Hl).
  assert (Hr1 : telegram_interactions d1 !! i = Some r).
  { revert Hset. unfold settle. destruct (open_row chat d) as [[j rj]|] eqn:Ho; [|by intros [= <- _]].
    destruct (String.eqb _ _); [by intros [= <- _]|]. destruct (Z.leb_spec (dt_us (ti_expires_at rj)) (dt_us now)); intros [= <- _]; [|done].
    cbn. rewrite lookup_insert_ne; [done|]. intros ->. apply (open_row_Some _ _ _ _ Hok) in Ho as (Hj & _). rewrite Hr in Hj. injection Hj as <-. lia. }
  intros [->|[->|(owner & decision & u & _ & _ & _ & Hpe & j & row & reply & Hst & -> & _)]];
    [exists r; split; [done|by apply keeps_order_refl]..|].
  cbn. destruct (decide (j = i)) as [->|Hne]; [|rewrite lookup_insert_ne by done; exists r; split; [done|by apply keeps_order_refl]].
  rewrite lookup_insert_eq. exists row. split; [done|].
  destruct Hst as (capability & strategy & label & kind & missing & Hcap & Hs & Hdiff & Hk & Hrow & Hv).
  destruct live as [[j rj]|].
  - destruct Hl as (-> & Ho & _). apply (open_row_Some _ _ _ _ Hok) in Ho as (Hj & _).
    assert (j = i) as -> by (by injection Hrow). rewrite Hr in Hj. injection Hj as <-. specialize (Hdiff _ eq_refl). cbn [snd] in Hdiff.
    destruct (capability_cases _ _ Hs) as (_ & mode & _ & Hm & _).
    destruct Hk as [(-> & Hd & _)|(-> & Hd & -> & symbol & quantity & Hcd)].
    { unfold is_different_request in Hdiff. rewrite Hkind, Hd in Hdiff. by repeat case_match. }
    injection Hrow as ->. split; [done|]. split; [done|]. intros inp Hin.
    apply (not_different decision r capability strategy label mode symbol quantity _ inp); try done. by apply (io_draft _ Hok i).
  - specialize (Hv eq_refl). injection Hrow as -> _. unfold interaction_violation in Hv.
    apply first_violation_none, Forall_app in Hv as [_ Hv]. rewrite Forall_cons in Hv. destruct Hv as [Hv _]. cbn in Hv. by rewrite Hr1 in Hv.
Qed.

(** A complete draft keeps its order: whatever is written in whatever chat,
    and whatever the classifier makes of it, a live draft that awaits its
    confirmation is afterwards still such a draft and asks for the same owner,
    symbol, strategy, quantity and price (the text of an equal decimal); and its
    payload is well typed, so that the confirmation text and the order can be
    built from it. *)
Theorem message_keeps_draft decider header update w x w' i r (Hok : interactions_ok (durable w))
    (Hup : up_callback_query update = None) (Hr : telegram_interactions (durable w) !! i = Some r)
    (Hkind : ti_kind r = "draft") (Hpending : ti_status r = "pending") (Hlive : dt_us (app_now w) < dt_us (ti_expires_at r))
    (Hrun : serve_update decider header update w = (x, w')) :
  exists r' inp inp', telegram_interactions (durable w') !! i = Some r' /\ ti_kind r' = "draft" /\
    ti_status r' = "pending" /\ typed_draft r' = true /\
    draft_input r = Ok inp /\ draft_input r' = Ok inp' /\ same_order inp inp'.
Proof.
  destruct (serve_update_cases _ _ _ _ _ _ Hok Hrun) as [_ Hcom].
  destruct (update_committed_ok _ _ _ _ _ _ _ Hok Hcom) as (Hok' & _).
  assert (Hgoal : exists r', telegram_interactions (durable w') !! i = Some r' /\ keeps_order r r').
  2: { destruct Hgoal as (r' & Hr' & Hk' & Hs' & Hin'). pose proof (io_draft _ Hok i r Hr Hkind) as Hty. unfold typed_draft in Hty.
       rewrite !andb_true_iff in Hty. destruct Hty as [[Hty _] _]. destruct (draft_input r) as [inp|]; [|done].
       destruct (Hin' inp eq_refl) as (inp' & Hin & Hs). exists r', inp, inp'. do 3 (split; [done|]).
       split; [by apply (io_draft _ Hok' i)|done]. }
  destruct Hcom as [?|chat m text y d' _ _ _ _ (d1 & res & Heff & Hd')|? ? ? ? ? ? Hup'];
    [exists r; split; [done|by apply keeps_order_refl]| |congruence].
  destruct (effect_keeps_draft _ _ _ _ _ _ _ _ i r Hok Hr Hkind Hpending Hlive Heff) as (r1 & Hr1 & Hk1).
  destruct Hd' as [->|(reply & j & rj & mid & _ & _ & Hj & ->)]; [by exists r1|]. cbn.
  destruct (decide (j = i)) as [->|Hne]; [|exists r1; by rewrite lookup_insert_ne].
  rewrite Hr1 in Hj. injection Hj as <-. rewrite lookup_insert_eq. by eexists.
Qed.

(** ** The transition system *)

(** An update of the webhook, or a step of the intents. *)
Inductive telegram_step : world P -> world P -> Prop :=
| step_update decider header update w x w' : serve_update decider header update w = (x, w') -> telegram_step w w'
| step_track w w' : step kill_switch w w' -> telegram_step w w'.

(** Every request ends with its session closed. *)
Lemma step_clean w w' : step kill_switch w w' -> pending w = durable w -> pending w' = durable w'.
Proof.
  intros [q v r v' Hs|? ? ?|? ?] Hc; [|done..].
  assert (Hsession : forall A (c : M P A) r0, with_session c v = (r0, v') -> pending v' = durable v').
  { intros A c r0 Hv. destruct (session_cases _ _ _ _ Hv) as (w1 & _ & -> & -> & _). done. }
  destruct q; cbn [serve] in Hs; [by eapply Hsession|by eapply Hsession| |by eapply Hsession].
  revert Hs. unfold dispatch, try_except, dispatch_inner, bind at 1.
  assert (Hq : quiet (halted_now kill_switch)).
  { unfold halted_now. destruct kill_switch as [c|]; [by apply Hswitch|apply quiet_ret]. }
  destruct (halted_now kill_switch v) as [h v1] eqn:Hh. destruct (Hq _ _ _ Hh) as (Hd & Hp & _).
  destruct h as [[]|e]; [intros [= _ <-]; congruence| |intros [= _ <-]; congruence].
  unfold bind, clock, gets. destruct (with_session _ v1) as [y v2] eqn:Hv2.
  destruct (session_cases _ _ _ _ Hv2) as (w1 & _ & Hd2 & Hp2 & _). destruct y; intros [= _ <-]; congruence.
Qed.

(** A step of the intents leaves the drafts alone. *)
Lemma track_drafts w w' : step kill_switch w w' -> pending w = durable w -> interactions_ok (durable w) ->
  interactions_ok (durable w') /\ telegram_interactions (durable w') = telegram_interactions (durable w).
Proof.
  intros Hs Hc Hok. pose (G := fun d => telegram_interactions d = telegram_interactions (durable w)).
  assert (Hoff : off_track G) by (split; done).
  assert (Hboth : both (tracks (durable w) G) w).
  { unfold both. rewrite Hc. split; (split; [apply evolves_refl|done]). }
  destruct (step_evolves kill_switch Hswitch (durable w) G w w' Hoff Hs Hboth) as [[Hev Hg] _].
  split; [|done]. apply (interactions_frame (durable w)); [done| | |done].
  - intros i c Hi. destruct (Hev i c Hi) as (c' & Hc' & Hsame & _). by exists c'.
  - destruct (step_schema kill_switch Hswitch w w' Hs) as [Hsch _]; [|done]. unfold both. rewrite Hc. split; exact (io_intents _ Hok).
Qed.

(** One step: the invariant, the drafts, and where a new intent comes from. *)
Lemma telegram_step_sound w w' : telegram_step w w' -> pending w = durable w -> interactions_ok (durable w) ->
  pending w' = durable w' /\ interactions_ok (durable w') /\
  rows_evolve interaction_evolves (telegram_interactions (durable w)) (telegram_interactions (durable w')) /\
  (step kill_switch w w' \/ intents_recorded (durable w) (durable w')).
Proof.
  intros [decider header update v x v' Hx|v v' Hs] Hc Hok.
  - destruct (serve_update_cases _ _ _ _ _ _ Hok Hx) as [Hp Hcom]. split; [done|].
    destruct (update_committed_ok _ _ _ _ _ _ _ Hok Hcom) as (? & ? & _ & ?). split; [done|]. split; [done|by right].
  - split; [by apply (step_clean v)|]. destruct (track_drafts _ _ Hs Hc Hok) as [? ->]. split; [done|].
    split; [by apply (rows_refl interaction_evolves)|by left].
Qed.

(** An intent that appears during a run: recorded in a draft, or created by a
    request to the intents. *)
Definition accounted_for (w0 w : world P) (k : uuid) : Prop :=
  (exists i r, telegram_interactions (durable w) !! i = Some r /\ ti_created_trade_intent_id r = Some k) \/
  (exists a b, rtc telegram_step w0 a /\ step kill_switch a b /\ rtc telegram_step b w /\
     cores (durable a) !! k = None /\ is_Some (cores (durable b) !! k)).

Lemma telegram_run_sound w0 w : rtc telegram_step w0 w -> pending w0 = durable w0 -> interactions_ok (durable w0) ->
  interactions_ok (durable w) /\
  rows_evolve interaction_evolves (telegram_interactions (durable w0)) (telegram_interactions (durable w)) /\
  forall k, cores (durable w0) !! k = None -> is_Some (cores (durable w) !! k) -> accounted_for w0 w k.
Proof.
  induction 1 as [w|w w1 w2 Hs Hrun IH]; intros Hc Hok.
  { split; [done|]. split; [by apply (rows_refl interaction_evolves)|]. intros k Hk [c Hk']. congruence. }
  destruct (telegram_step_sound _ _ Hs Hc Hok) as (Hc1 & Hok1 & Hev1 & Hnew). destruct (IH Hc1 Hok1) as (Hok2 & Hev2 & Hacc).
  split; [done|]. split; [by apply (rows_trans interaction_evolves _ _ _ Hev1)|]. intros k Hk Hk2.
  destruct (cores (durable w1) !! k) as [c|] eqn:Hk1.
  2: { destruct (Hacc k Hk1 Hk2) as [Hrec|(a & b & Ha & Hab & Hb & Hna & Hnb)]; [by left|right].
       exists a, b. split; [by apply (rtc_l _ _ w1)|done]. }
  destruct Hnew as [Htrack|Hrec]; [right; exists w, w1; split_and!; [done..|by exists c]|left].
  destruct (Hrec k Hk ltac:(by exists c)) as (i & r & Hr & Hrk). pose proof (io_created _ Hok1 i r k Hr Hrk) as Hst.
  destruct (Hev2 i r Hr) as (r' & Hr' & _ & _ & _ & Hkept). exists i, r'. split; [done|].
  destruct Hkept as (_ & _ & ->); [congruence|done].
Qed.

(** C19. Over any sequence of updates, whoever sends them and whatever the
    classifier answers, interleaved with requests to the intents, quotes and
    clock changes: the invariant of the drafts holds.  No draft disappears; its
    owner and chat never change, and its order and recorded intent not after it
    left "pending"; its status moves from pending to confirming, confirmed,
    expired or cancelled and then never again, so that a draft found claimed at
    rest stays claimed; a confirmed draft has recorded one intent, which is its
    order, price and modes included, and no other draft's; and an intent that
    appeared during the run was recorded by a draft, or was created by one of the
    interleaved requests: a confirmation leaves no second intent behind. *)
Theorem telegram_life w0 w (Hclean : pending w0 = durable w0) (Hstart : interactions_ok (durable w0))
    (Hrun : rtc telegram_step w0 w) :
  interactions_ok (durable w) /\
  (forall i r, telegram_interactions (durable w0) !! i = Some r -> exists r', telegram_interactions (durable w) !! i = Some r' /\
    ti_owner_user_id r' = ti_owner_user_id r /\ ti_telegram_chat_id r' = ti_telegram_chat_id r /\
    rtc interaction_step (ti_status r) (ti_status r') /\
    (ti_status r <> "pending" -> ti_status r' = ti_status r /\ draft_input r' = draft_input r /\
       ti_created_trade_intent_id r' = ti_created_trade_intent_id r) /\
    (ti_status r' = "confirmed" -> exists inp k c, draft_asks r' inp /\ ti_created_trade_intent_id r' = Some k /\
       cores (durable w) !! k = Some c /\ order_of inp (durable w) k c /\
       forall j b, telegram_interactions (durable w) !! j = Some b -> ti_created_trade_intent_id b = Some k -> j = i)) /\
  (forall k, cores (durable w0) !! k = None -> is_Some (cores (durable w) !! k) -> accounted_for w0 w k).
Proof.
  destruct (telegram_run_sound w0 w Hrun Hclean Hstart) as (Hok & Hev & Hacc). split; [done|]. split; [|done].
  intros i r Hr. destruct (Hev i r Hr) as (r' & Hr' & Ho & Hc & Hs & Hpay).
  exists r'. do 4 (split; [done|]). split.
  - intros Hne. destruct (Hpay Hne) as (Hp & _ & Hk). split; [by apply settled_status|]. split; [|done].
    unfold draft_input. by rewrite Hp, Ho.
  - intros Hcf. destruct (io_confirmed _ Hok i r' Hr' Hcf) as (inp & k & c & Hin & Hk & Hck & Hord). exists inp, k, c.
    split; [by apply draft_input_asks|]. do 3 (split; [done|]). intros j b Hj Hb. by apply (io_once _ Hok j i b r' k).
Qed.

End Workflow.

(** ** A chat to try the theorems on *)

(** The in-memory quote provider and a Bot API that records its calls and
    numbers the messages it sends. *)
Record bench : Type := mkBench { bench_quotes : InMemoryQuoteProvider; bench_calls : list BotRequest }.

#[export] Instance bench_provider : QuoteProvider bench := {
  get_quotes p l := im_get_quotes (bench_quotes p) l;
  subscribe p s := rmap (fun q => mkBench q (bench_calls p)) (im_subscribe (bench_quotes p) s);
  unsubscribe p s := rmap (fun q => mkBench q (bench_calls p)) (im_unsubscribe (bench_quotes p) s);
  active_subscriptions p := im_active_subscriptions (bench_quotes p);
  get_current_price := None;
}.

#[export] Instance bench_transport : BotTransport bench := fun p request =>
  let result :=
    match request with
    | SendMessage _ _ _ => JObj {["message_id" := JInt (1000 + Z.of_nat (length (bench_calls p)))]}
    | _ => JScalar (SBool true)
    end in
  (BotReply 200 (BotJson (JObj (<["ok" := JScalar (SBool true)]> {["result" := result]}))),
   mkBench (bench_quotes p) (bench_calls p ++ [request])).

Definition bench_settings : TelegramSettings := mkTelegramSettings (Some " -100 ") "A@B.c" (Some "s3cret") (Some "token").
Definition bench_world (d : db) : world bench :=
  mkWorld d d (mkBench (market (Dec 610 0)) []) 100 [] sample_time sample_time.

(** A classifier for two phrases. *)
Definition bench_decider : TelegramIntentDecider := fun message _ _ =>
  if String.eqb message "2330 2 @600" then Ok (mkDecision DraftIntent (Some "limit_buy") (Some "2330") (Some 2) (Some (Dec 600 0)) [])
  else if String.eqb message "2330 5 @600" then Ok (mkDecision DraftIntent (Some "limit_buy") (Some "2330") (Some 5) (Some (Dec 600 0)) [])
  else Ok (mkDecision Unsupported None None None None []).

Definition bench_chat : ChatIdent := ChatInt (-100).
Definition says (text : string) : TelegramUpdate :=
  mkUpdate (Some (mkTelegramMessage 1 bench_chat (Some text) (Some (mkTelegramUser false)))) None.
Definition presses (data : string) (message_id : Z) : TelegramCallbackQuery :=
  mkCallbackQuery (Some "q") (Some data) (Some (mkTelegramMessage message_id bench_chat None None)) (Some (mkTelegramUser false)).
Definition bench_serve (update : TelegramUpdate) : M bench WebhookResponse :=
  serve_update bench_settings None None bench_decider (Some "s3cret") update.

Lemma sample_interactions : interactions_ok sample_db.
Proof. split; [cbn; intros; by rewrite lookup_empty in *..|exact sample_schema]. Qed.

Definition drafted : world bench := snd (bench_serve (says "2330 2 @600") (bench_world sample_db)).
Definition confirm_press : TelegramCallbackQuery := presses (callback_data "confirm" 100) 1000.
Definition confirm_update : TelegramUpdate := mkUpdate None (Some confirm_press).
Definition first_draft (d : db) : option InteractionRow := telegram_interactions d !! (100 : uuid).
Definition summary (r : InteractionRow) : string * string * option Z * res CreateTradeIntentInput :=
  (ti_kind r, ti_status r, ti_bot_message_id r, draft_input r).
Definition sample_order : CreateTradeIntentInput :=
  mkCreateInput "2330" "limit_buy_order" 2 7 (Some "600") "single_notification" "single" None None.

Lemma drafted_ok : interactions_ok (durable drafted).
Proof.
  assert (Hx : bench_serve (says "2330 2 @600") (bench_world sample_db) = (fst (bench_serve (says "2330 2 @600") (bench_world sample_db)), drafted))
    by exact (surjective_pairing _).
  destruct (serve_update_cases bench_settings None None ltac:(discriminate) bench_decider (Some "s3cret") (says "2330 2 @600")
    (bench_world sample_db) _ drafted sample_interactions Hx) as [_ Hcom].
  by destruct (update_committed_ok _ _ _ _ _ _ _ sample_interactions Hcom).
Qed.

(** A stranger who knows the chat but not the secret. *)
Lemma strangers_ignored_witness :
  let w := bench_world sample_db in
  exists w', telegram_webhook bench_settings bench_decider (create_intent None None) (Some "guess") (says "2330 2 @600") w =
    (Raise (ApiError "FORBIDDEN" 403 None []), w') /\ w' = w.
Proof.
  intros w. set (x := telegram_webhook bench_settings bench_decider (create_intent None None) (Some "guess") (says "2330 2 @600") w).
  assert (Hf : fst x = Raise (ApiError "FORBIDDEN" 403 None [])) by (vm_compute; reflexivity).
  assert (Hx : x = (Raise (ApiError "FORBIDDEN" 403 None []), snd x)) by (rewrite <-Hf; exact (surjective_pairing x)).
  exists (snd x). split; [exact Hx|].
  refine (proj1 (strangers_ignored bench_settings bench_decider (create_intent None None) (Some "guess") (says "2330 2 @600") w _ _ _ Hx)).
  left. vm_compute. reflexivity.
Defined.

(** The confirmation of a draft creates its order. *)
Lemma button_outcomes_witness :
  exists r, first_draft (durable drafted) = Some r /\ summary r = ("draft", "pending", Some 1000, Ok sample_order) /\
    button_of confirm_press (durable drafted) = Some ("confirm", (100, r)) /\
    exists reply w', bench_serve confirm_update drafted = (Ok (Some reply), w') /\
      pressed "confirm" 100 r (app_now drafted) (durable drafted) (durable w') (reply_text reply) /\
      (fun x => (ti_status x, ti_created_trade_intent_id x)) <$> first_draft (durable w') = Some ("confirmed", Some 101) /\
      (fun c => (c_symbol c, c_strategy c, c_quantity_lots c)) <$> cores (durable w') !! (101 : uuid) = Some ("2330", "limit_buy_order", 2).
Proof.
  set (y := bench_serve confirm_update drafted).
  assert (H : exists r reply, first_draft (durable drafted) = Some r /\ summary r = ("draft", "pending", Some 1000, Ok sample_order) /\
    button_of confirm_press (durable drafted) = Some ("confirm", (100, r)) /\ fst y = Ok (Some reply) /\
    (fun x => (ti_status x, ti_created_trade_intent_id x)) <$> first_draft (durable (snd y)) = Some ("confirmed", Some 101) /\
    (fun c => (c_symbol c, c_strategy c, c_quantity_lots c)) <$> cores (durable (snd y)) !! (101 : uuid) = Some ("2330", "limit_buy_order", 2)).
  { vm_compute. do 2 eexists. repeat split; reflexivity. }
  destruct H as (r & reply & H1 & H2 & H3 & H4 & H5 & H6). exists r.
  assert (Hy : y = (Ok (Some reply), snd y)) by (rewrite <-H4; exact (surjective_pairing y)).
  pose proof (button_outcomes bench_settings None None ltac:(discriminate) bench_decider (Some "s3cret") confirm_update confirm_press
    drafted (Ok (Some reply)) (snd y) drafted_ok ltac:(vm_compute; reflexivity) ltac:(vm_compute; reflexivity)
    ltac:(vm_compute; discriminate) eq_refl eq_refl Hy) as Hb.
  rewrite H3 in Hb. destruct Hb as (reply' & [= <-] & Hp & _).
  exact (conj H1 (conj H2 (conj H3 (ex_intro _ reply (ex_intro _ (snd y) (conj Hy (conj Hp (conj H5 H6)))))))).
Defined.

(** Asking for five lots while a draft of two awaits its confirmation. *)
Lemma message_keeps_draft_witness :
  exists r reply w', first_draft (durable drafted) = Some r /\
    bench_serve (says "2330 5 @600") drafted = (Ok (Some reply), w') /\
    exists r', first_draft (durable w') = Some r' /\ ti_status r' = "pending" /\ typed_draft r' = true /\
      exists inp inp', draft_input r = Ok inp /\ draft_input r' = Ok inp' /\ same_order inp inp'.
Proof.
  set (y := bench_serve (says "2330 5 @600") drafted).
  assert (H : exists r reply, first_draft (durable drafted) = Some r /\ ti_kind r = "draft" /\ ti_status r = "pending" /\
    (dt_us (app_now drafted) <? dt_us (ti_expires_at r)) = true /\ fst y = Ok (Some reply)).
  { vm_compute. do 2 eexists. repeat split; reflexivity. }
  destruct H as (r & reply & H1 & H2 & H3 & H4 & H5). apply Z.ltb_lt in H4. exists r, reply, (snd y).
  assert (Hy : y = (Ok (Some reply), snd y)) by (rewrite <-H5; exact (surjective_pairing y)).
  destruct (message_keeps_draft bench_settings None None ltac:(discriminate) bench_decider (Some "s3cret") (says "2330 5 @600")
    drafted (Ok (Some reply)) (snd y) 100 r drafted_ok eq_refl H1 H2 H3 H4 Hy) as (r' & inp & inp' & K1 & K2 & K3 & K4 & K5 & K6 & K7).
  exact (conj H1 (conj Hy (ex_intro _ r' (conj K1 (conj K3 (conj K4 (ex_intro _ inp (ex_intro _ inp' (conj K5 (conj K6 K7)))))))))).
Defined.

(** A draft, its confirmation, and a second press of the same button. *)
Lemma telegram_life_witness :
  let w1 := snd (bench_serve confirm_update drafted) in
  let w2 := snd (bench_serve confirm_update w1) in
  interactions_ok (durable w2) /\ map_size (cores (durable w2)) = 1%nat /\
  exists r r', first_draft (durable w1) = Some r /\ ti_status r = "confirmed" /\ first_draft (durable w2) = Some r' /\ ti_status r' = "confirmed".
Proof.
  intros w1 w2.
  assert (Hstep : forall u w, telegram_step bench_settings None None w (snd (bench_serve u w))).
  { intros u w. eapply (step_update _ _ _ bench_decider (Some "s3cret") u). exact (surjective_pairing _). }
  assert (Hrun1 : rtc (telegram_step bench_settings None None) (bench_world sample_db) w1).
  { eapply rtc_l; [exact (Hstep (says "2330 2 @600") (bench_world sample_db))|]. apply rtc_once. exact (Hstep confirm_update drafted). }
  assert (Hrun2 : rtc (telegram_step bench_settings None None) w1 w2) by (apply rtc_once; exact (Hstep confirm_update w1)).
  assert (Hopen : pending (bench_world sample_db) = durable (bench_world sample_db)) by reflexivity.
  destruct (telegram_life bench_settings None None ltac:(discriminate) _ _ Hopen sample_interactions Hrun1) as [Hok1 _].
  assert (Hclean : pending w1 = durable w1) by (vm_compute; reflexivity).
  destruct (telegram_life bench_settings None None ltac:(discriminate) _ _ Hclean Hok1 Hrun2) as (Hok2 & Hlife & _).
  assert (H : exists r, first_draft (durable w1) = Some r /\ ti_status r = "confirmed") by (vm_compute; eexists; split; reflexivity).
  destruct H as (r & Hr & Hs). destruct (Hlife 100 r Hr) as (r' & Hr' & _ & _ & _ & Hst & _).
  destruct (Hst ltac:(rewrite Hs; discriminate)) as [Hst' _]. rewrite Hs in Hst'.
  assert (Hn : map_size (cores (durable w2)) = 1%nat) by (vm_compute; reflexivity).
  exact (conj Hok2 (conj Hn (ex_intro _ r (ex_intro _ r' (conj Hr (conj Hs (conj Hr' Hst'))))))).
Defined.
