(* ===== verification/LegacyCommands.v ===== *)
(** * Creating, cancelling and dispatching on the legacy track

    [src/app/commands/trade_intent.py] and
    [src/app/services/quote_dispatcher.py]. *)

From S2P Require Import Prelude Decimal Datetime Errors Price TradingSession Intent Evaluation Tables Store CoreSchema Lifecycle Samples Trigger Quotes CreateIntent.
From S2P Require IntentRepo LegacyRepo.
From S2P Require Import LegacyTrigger.

#[local] Open Scope string_scope.
#[local] Open Scope list_scope.
#[local] Open Scope Z_scope.

(** [_TRIGGER_REF] *)
Definition TRIGGER_REF (strategy : string) : option string :=
  if str_in strategy ["buy_price_alert"; "limit_buy_order"; "market_order"; "market_buy_order"] then Some "ask"
  else if str_in strategy ["sell_price_alert"; "limit_sell_order"; "market_sell_order"; "trailing_stop_alert"] then Some "bid"
  else None.

(** The trigger price of a market order: bid or ask by its side, else the last
    price. *)
Definition market_price (strategy : string) (q : QuoteSnapshot) : option dec * string * bool :=
  let sell := String.eqb strategy "market_sell_order" in
  match (if sell then bid_price q else ask_price q) with
  | Some p => (Some p, if sell then "bid" else "ask", false)
  | None => (last_price q, "last_fallback", true)
  end.

Section LegacyCommands.
  Context {P : Type} `{QuoteProvider P}.

(** [select(TradeIntentRow).where(id == intent_id)).scalar_one()] *)
Definition load_row (intent_id : uuid) : M P LegacyRow :=
  do row <- query (fun d => legacy_intents d !! intent_id);
  match row with Some r => ret r | None => raise (RuntimeError "NoResultFound") end.

(** [_get_market_order_quote] *)
Definition get_market_order_quote (symbol : string) : M P QuoteSnapshot :=
  let from_cache :=
    do p <- gets provider;
    do quotes <- lift (get_quotes p [symbol]);
    match quotes with [] => raise (QuoteUnavailableError symbol) | q :: _ => ret q end in
  match get_current_price with
  | Some current => or_provider_error (do p <- gets provider; lift (current p symbol)) from_cache
  | None => from_cache
  end.

(** [_apply_inline_market_order_trigger] *)
Definition apply_inline_market_order_trigger (intent_id : uuid) (symbol : string) : M P unit :=
  do quote <- or_provider_error (do q <- get_market_order_quote symbol; ret (Some q)) (ret None);
  match quote with
  | None => ret tt
  | Some q =>
      if is_none (bid_price q) && is_none (ask_price q) && is_none (last_price q) then ret tt
      else
        do row <- load_row intent_id;
        match market_price (l_strategy row) q with
        | (None, _, _) => ret tt
        | (Some price, ty, fallback) =>
            if negb (dec_positive price) then ret tt
            else
              do out <- persist_trigger (row_intent intent_id row) None (mkTriggerInput price ty fallback q (quote_time q));
              ret tt
        end
  end.

(** [except QuoteUnavailableError] *)
Definition or_unavailable {A} (c : M P A) (otherwise : M P A) : M P A :=
  try_except c (fun e => match e with QuoteUnavailableError _ => otherwise | _ => raise e end).

(** The attributes [_apply_inline_trigger_if_quote_met] assigns on the row. *)
Definition changes_of (r : EvaluationResult) : row_changes :=
  match e_baseline_updated_at r with Some t => Some (e_baseline r, e_dynamic_trigger_price r, t) | None => None end.

(** [_apply_inline_trigger_if_quote_met]; assigned attributes that no firing
    flushes reach the database with the commit that follows. *)
Definition apply_legacy_inline_trigger (intent_id : uuid) (symbol : string) (now : datetime) (st : SecurityType) : M P unit :=
  do quote <- or_unavailable (do p <- gets provider; do quotes <- lift (get_quotes p [symbol]); ret (head quotes)) (ret None);
  match quote with
  | None => ret tt
  | Some q =>
      do row <- load_row intent_id;
      do r <- lift (evaluate q (LegacyRepo.to_domain intent_id row st) now);
      let changes := changes_of r in
      if negb (should_trigger r) then flush_row intent_id changes
      else
        match trigger_input q r with
        | None => raise (RuntimeError "Evaluator returned should_trigger=True but trigger fields are None")
        | Some inp => do out <- persist_trigger (row_intent intent_id (changed_row changes row)) changes inp; ret tt
        end
  end.

(** Step 4 of [execute]: the creation caps. *)
Definition check_legacy_limits (limits : option IntentLimits) (inp : CreateTradeIntentInput) : M P unit :=
  match limits with
  | None => ret tt
  | Some l =>
      do user_count <- LegacyRepo.count_active_or_scheduled_for_user (ci_owner_user_id inp);
      if per_user l <=? user_count then raise (UserIntentLimitExceededError (per_user l) user_count)
      else
        do symbol_count <- LegacyRepo.count_active_or_scheduled_for_user_symbol (ci_owner_user_id inp) (ci_symbol inp);
        if per_symbol l <=? symbol_count then
          raise (SymbolIntentLimitExceededError (ci_symbol inp) (per_symbol l) symbol_count)
        else ret tt
  end.

(** The body of [CreateTradeIntentCommand.execute] up to its commit. *)
Definition create_legacy_body (kill_switch : option (M P bool)) (limits : option IntentLimits)
    (inp : CreateTradeIntentInput) : M P uuid :=
  do symbol_obj <- get_tradable_symbol (ci_symbol inp);
  do prices <- lift (validate_input (sy_instrument_type symbol_obj) inp);
  do host_now <- clock;
  let now := now_taipei host_now in
  do trading_date <- lift (get_day_intent_trading_date now);
  do initial_status <- lift (get_initial_day_intent_status now);
  match TRIGGER_REF (ci_strategy inp), security_type_of (sy_instrument_type symbol_obj) with
  | Some trigger_ref, Some st =>
      do_ check_legacy_limits limits inp;
      do intent_id <- LegacyRepo.create (create_args inp prices trigger_ref trading_date initial_status);
      do_ reconcile_on_create (ci_symbol inp);
      do halted <- halted_now kill_switch;
      do_ (if halted : bool then ret tt
           else if str_in (ci_strategy inp) MARKET_ORDER_STRATEGIES && String.eqb initial_status "active" then
             apply_inline_market_order_trigger intent_id (ci_symbol inp)
           else if String.eqb initial_status "active" then
             apply_legacy_inline_trigger intent_id (ci_symbol inp) now st
           else ret tt);
      do_ commit;
      ret intent_id
  | _, _ => raise (ValueError ("Unsupported strategy: " ++ ci_strategy inp)%string)
  end.

(** [CreateTradeIntentCommand.execute] *)
Definition create_legacy_command (kill_switch : option (M P bool)) (limits : option IntentLimits)
    (inp : CreateTradeIntentInput) : M P TradeIntentData :=
  do intent_id <- transaction (create_legacy_body kill_switch limits inp);
  LegacyRepo.find_by_id intent_id (ci_owner_user_id inp).

(** [reconcile_after_terminal_transition] with the legacy repository *)
Definition reconcile_after_legacy (symbol : string) : M P unit :=
  do remaining <- LegacyRepo.count_active_or_scheduled_for_symbol symbol;
  reconcile_on_terminal symbol remaining.

(** [CancelTradeIntentCommand.execute] *)
Definition cancel_legacy_command (intent_id owner : uuid) : M P TradeIntentData :=
  do i <- transaction (do i <- LegacyRepo.cancel intent_id owner; do_ commit; ret i);
  do_ try_except (reconcile_after_legacy (i_symbol i)) (fun _ => ret tt);
  ret i.

(** ** The dispatcher *)

(** One iteration of the loop of [_dispatch_inner]: whether it wrote something. *)
Definition dispatch_legacy_intent (snapshot : QuoteSnapshot) (now : datetime) (i : TradeIntentData) : M P bool :=
  do r <- lift (evaluate snapshot i now);
  do_ match e_baseline_updated_at r with
      | Some t => LegacyRepo.system_update_trailing_baseline (i_id i) (e_baseline r) (e_dynamic_trigger_price r) (Some t)
      | None => ret tt
      end;
  let wrote := is_some (e_baseline_updated_at r) in
  if negb (should_trigger r) then ret wrote
  else
    match trigger_input snapshot r with
    | None => raise (RuntimeError "Evaluator returned should_trigger=True but trigger fields are None")
    | Some inp =>
        try_except (do out <- begin_nested (stage (i_id i) inp); ret true)
          (fun e => if is_trigger_race e then ret wrote else raise e)
    end.

Fixpoint dispatch_legacy_loop (snapshot : QuoteSnapshot) (now : datetime) (intents : list TradeIntentData)
    (has_pending_writes : bool) : M P bool :=
  match intents with
  | [] => ret has_pending_writes
  | i :: rest =>
      do wrote <- dispatch_legacy_intent snapshot now i;
      dispatch_legacy_loop snapshot now rest (has_pending_writes || wrote)
  end.

(** The block under [with self._session_factory() as db]. *)
Definition dispatch_legacy_session (snapshot : QuoteSnapshot) (now : datetime) : M P unit :=
  do_ Lifecycle.run LegacyRepo.legacy_store;
  do intents <- LegacyRepo.system_list_active_by_symbols [q_symbol snapshot];
  match intents with
  | [] => ret tt
  | _ => do wrote <- dispatch_legacy_loop snapshot now intents false; when wrote commit
  end.

(** [QuoteEvaluationDispatcher._dispatch_inner] and [dispatch] *)
Definition dispatch_legacy_inner (kill_switch : option (M P bool)) (snapshot : QuoteSnapshot) : M P unit :=
  do halted <- halted_now kill_switch;
  if halted : bool then ret tt
  else
    do host_now <- clock;
    with_session (dispatch_legacy_session snapshot (now_taipei host_now)).

Definition dispatch_legacy (kill_switch : option (M P bool)) (snapshot : QuoteSnapshot) : M P unit :=
  try_except (dispatch_legacy_inner kill_switch snapshot) (fun _ => ret tt).

Lemma reconcile_after_legacy_quiet symbol : quiet (reconcile_after_legacy symbol).
Proof.
  intros w r w'. unfold reconcile_after_legacy, LegacyRepo.count_active_or_scheduled_for_symbol, LegacyRepo.count_legacy,
    reconcile_on_terminal, bind, query, gets. case_match; [by intros [= _ <-]|]. apply provider_call_quiet.
Qed.

End LegacyCommands.
