(* ===== verification/LegacyLife.v ===== *)
(** * The life of a legacy intent

    The legacy track as a transition system: requests that create, cancel or
    fire an intent, the cascade of a disabled account, quotes reaching the
    dispatcher.  Intents and trigger events keep corresponding one to one. *)

From S2P Require Import Prelude Decimal Datetime Errors Price TradingSession Intent Evaluation Tables Store CoreSchema Lifecycle Samples Trigger Quotes CreateIntent Dispatcher IntentLife.
From S2P Require IntentRepo LegacyRepo.
From S2P Require Import LegacyTrigger LegacyCommands.

#[local] Open Scope string_scope.
#[local] Open Scope list_scope.
#[local] Open Scope Z_scope.

(** ** Evolution *)

Definition same_legacy_order (a b : LegacyRow) : Prop :=
  l_owner_user_id b = l_owner_user_id a /\ l_symbol b = l_symbol a /\ l_strategy b = l_strategy a /\
  l_quantity_lots b = l_quantity_lots a /\ l_trading_date b = l_trading_date a /\
  l_target_price_effective b = l_target_price_effective a /\ l_trail_mode b = l_trail_mode a /\
  l_trail_value b = l_trail_value a.

(** A later state of a row: the same order, further along the transitions, and
    never triggered by this track when it is a TWAP plan. *)
Definition moved (a b : LegacyRow) : Prop :=
  same_legacy_order a b /\ rtc status_step (l_status a) (l_status b) /\
  (l_status b = "triggered" -> l_status a = "triggered" \/ LegacyRepo.is_twap a = false).

#[export] Instance moved_preorder : PreOrder moved.
Proof.
  split.
  - intros a. split; [done|]. split; [apply rtc_refl|by left].
  - intros a b c [Hab [Hs Ht]] [Hbc [Hs' Ht']]. split.
    { unfold same_legacy_order in *. destruct_and?. split_and!; congruence. }
    split; [by trans (l_status b)|]. intros Hc. destruct (Ht' Hc) as [Hb|Hb]; [by apply Ht|right].
    unfold LegacyRepo.is_twap in *. destruct Hab as (_ & _ & He & _). by rewrite <-He.
Qed.

Definition evolved (d0 d : db) : Prop :=
  (forall i r, legacy_intents d0 !! i = Some r -> exists r', legacy_intents d !! i = Some r' /\ moved r r') /\
  trigger_events d0 ⊆ trigger_events d.

Definition legacy_state (d0 d : db) : Prop := legacy_ok d /\ evolved d0 d.

Lemma state_frame d0 d f : legacy_intents (f d) = legacy_intents d -> trigger_events (f d) = trigger_events d ->
  legacy_state d0 d -> legacy_state d0 (f d).
Proof.
  intros Hl Ht [Hok [He Hsub]]. split; [by eapply legacy_ok_frame|]. unfold evolved. by rewrite Hl, Ht.
Qed.

(** What an UPDATE may do to a row outside a firing. *)
Definition harmless (a b : LegacyRow) : Prop :=
  same_legacy_order a b /\
  (l_status b = l_status a \/ (status_step (l_status a) (l_status b) /\ l_status b <> "triggered")).

Lemma harmless_moved a b : harmless a b -> moved a b.
Proof.
  intros [Ho [He|[Hs Hn]]]; (split; [done|]).
  - rewrite He. split; [apply rtc_refl|by left].
  - split; [by apply rtc_once|done].
Qed.

Lemma state_update d0 d p f : (forall i r, legacy_intents d !! i = Some r -> p i r = true -> harmless r (f r)) ->
  legacy_state d0 d -> legacy_state d0 (set_legacy_intents (update_where p f (legacy_intents d)) d).
Proof.
  intros Hf [Hok [He Hsub]]. split; [|split; [|done]].
  - apply legacy_ok_update; [done|]. intros i r Hr Hp. destruct (Hf i r Hr Hp) as [(_ & _ & Hs & _) Hst]. split; [done|].
    destruct Hst as [Hst|[Hst Hn]]; [by left|]. right. split; [|done]. intros Ht. rewrite Ht in Hst.
    apply (terminal_no_step _ _) in Hst; [done|]. unfold TERMINAL_STATUSES. set_solver.
  - intros i r Hr. destruct (He i r Hr) as (r' & Hr' & Hm). cbn.
    exists (if p i r' then f r' else r'). split; [apply lookup_update_Some; by exists r'|].
    destruct (p i r') eqn:Hp; [|done]. trans r'; [done|]. apply harmless_moved. by eapply Hf.
Qed.

Lemma state_insert d0 d i r : legacy_intents d !! i = None -> l_status r <> "triggered" ->
  legacy_state d0 d -> legacy_state d0 (set_legacy_intents (<[i := r]> (legacy_intents d)) d).
Proof.
  intros Hn Hs [[H1 H2 H3] [He Hsub]]. split; [split|split]; cbn [legacy_intents trigger_events set_legacy_intents].
  - done.
  - intros k g Hg. destruct (H2 k g Hg) as (r0 & Hr0 & ?). exists r0. split; [|done]. rewrite lookup_insert_ne; [done|]. congruence.
  - intros j r0 Hr0 Ht. apply lookup_insert_Some in Hr0 as [[<- <-]|[_ Hr0]]; [done|]. by apply (H3 j r0).
  - intros j r0 Hr0. destruct (He j r0 Hr0) as (r' & Hr' & Hm). exists r'. split; [|done].
    rewrite lookup_insert_ne; [done|]. congruence.
  - done.
Qed.

Lemma state_fired d0 i inp x target changes row eid nid now d : legacy_state d0 d ->
  legacy_intents d !! i_id i = Some row -> l_status row = "active" -> l_strategy row = i_strategy i ->
  render_trigger i inp = Ok x -> trigger_events d !! eid = None ->
  (forall k g, trigger_events d !! k = Some g -> g_trade_intent_id g <> i_id i) ->
  legacy_state d0 (fired_db i inp x target changes row eid nid now d).
Proof.
  intros [Hok [He Hsub]] Hrow Hs Hst Hx Hf Hn. split; [by apply fired_legacy_ok|].
  split; cbn [fired_db legacy_intents trigger_events set_notifications set_trigger_events set_legacy_intents].
  - intros j r Hr. destruct (He j r Hr) as (r' & Hr' & Hm). destruct (decide (j = i_id i)) as [->|Hj].
    + rewrite Hrow in Hr'. injection Hr' as <-. eexists. rewrite lookup_insert_eq. split; [done|]. trans row; [done|].
      split; [by destruct changes as [[[? ?] ?]|]|]. destruct (changed_row_frame changes (fired_row i now row)) as [-> _].
      cbn [fired_row legacy_set l_status]. rewrite Hs. split; [apply rtc_once, step_fire|]. intros _. right.
      unfold LegacyRepo.is_twap. rewrite Hst. by eapply render_not_twap.
    + exists r'. by rewrite lookup_insert_ne.
  - trans (trigger_events d); [done|]. by apply insert_subseteq.
Qed.

(** ** Every operation evolves *)

Section Operations.
  Context {P : Type} `{QuoteProvider P} (d0 : db).
  Implicit Types w : world P.

Notation ev := (preserves (P := P) (both (legacy_state d0))).
Notation sf := (safe (P := P) (legacy_state d0)).

Lemma update_legacy_ev p f : (forall i r, p i r = true -> harmless r (f r)) -> ev (LegacyRepo.update_legacy p f).
Proof. intros Hf. apply both_execute. intros d. apply state_update. intros i r _. apply Hf. Qed.

Lemma update_slices_ev p f : ev (LegacyRepo.update_slices p f).
Proof. apply both_execute. intros d. by apply state_frame. Qed.

Lemma closing_harmless (status : string) (now : datetime) r (f : string -> datetime -> LegacyRow -> LegacyRow) : is_open (l_status r) = true ->
  status ∈ ["expired"; "cancelled"; "cancelled_by_account_disabled"] ->
  same_legacy_order r (f status now r) -> l_status (f status now r) = status -> harmless r (f status now r).
Proof.
  intros Ho Hst Hs He. split; [done|]. right. rewrite He. split; [by apply step_close|]. intros ->. set_solver.
Qed.

Lemma expire_legacy_ev c now : ev (LegacyRepo.system_expire_day_intents_through c now).
Proof.
  unfold LegacyRepo.system_expire_day_intents_through. pose proof update_slices_ev.
  assert (ev (LegacyRepo.update_legacy (fun _ r => is_open (l_status r) && (l_trading_date r <=? c))
    (LegacyRepo.with_status "expired" now))).
  { apply update_legacy_ev. intros i r [Ho _]%andb_true_iff. apply closing_harmless; [done|set_solver|done|done]. }
  preserve.
Qed.

Lemma activate_legacy_ev t now : ev (LegacyRepo.system_activate_scheduled_day_intents t now).
Proof.
  unfold LegacyRepo.system_activate_scheduled_day_intents.
  assert (ev (LegacyRepo.update_legacy (fun _ r => String.eqb (l_status r) "scheduled" && (l_trading_date r =? t))
    (LegacyRepo.with_status "active" now))).
  { apply update_legacy_ev. intros i r [Hs _]%andb_true_iff. apply String.eqb_eq in Hs. split; [done|]. right.
    cbn. rewrite Hs. split; [apply step_activate|done]. }
  preserve.
Qed.

Lemma cancel_owner_legacy_ev o now : ev (LegacyRepo.cancel_active_for_owner o "cancelled_by_account_disabled" now).
Proof.
  unfold LegacyRepo.cancel_active_for_owner.
  assert (ev (LegacyRepo.update_legacy (fun _ r => (l_owner_user_id r =? o) && is_open (l_status r))
    (LegacyRepo.cancelled_row "cancelled_by_account_disabled" now))).
  { apply update_legacy_ev. intros i r [_ Ho]%andb_true_iff. apply closing_harmless; [done|set_solver|done|done]. }
  preserve.
Qed.

Lemma insert_baseline_ev (v : db -> option string) (f : db -> db) :
  (forall d, exists p g, f d = set_legacy_intents (update_where p g (legacy_intents d)) d /\ forall r, harmless r (g r)) ->
  ev (insert_checked v f).
Proof. intros Hf. apply both_insert. intros d Hd _. destruct (Hf d) as (p & g & -> & Hg). by apply state_update. Qed.

Lemma baseline_legacy_ev i b dy u : ev (LegacyRepo.system_update_trailing_baseline i b dy u).
Proof.
  unfold LegacyRepo.system_update_trailing_baseline. apply preserves_bind; [apply preserves_sql_now|]. intros now.
  apply insert_baseline_ev. intros d. do 2 eexists. split; [reflexivity|]. intros r. split; [done|by left].
Qed.

Lemma flush_row_ev i changes : ev (flush_row i changes).
Proof.
  destruct changes as [[[b dy] t]|]; cbn [flush_row]; [|apply preserves_ret].
  apply insert_baseline_ev. intros d. do 2 eexists. split; [reflexivity|]. intros r. split; [done|by left].
Qed.

(** Cancelling: only an open intent of the owner changes. *)
Lemma cancel_legacy_ev i o : ev (LegacyRepo.cancel i o).
Proof.
  intros w r w' [Hd Hp]. unfold LegacyRepo.cancel, LegacyRepo.get_legacy, query, gets, bind, lift, raise, ret.
  destruct (legacy_intents (pending w) !! i) as [row|] eqn:Hrow; cbn [mbind option_bind]; [|by intros [= _ <-]].
  unfold LegacyRepo.with_symbol_type. destruct (symbols (pending w) !! l_symbol row) as [sy|]; cbn [mbind option_bind]; [|by intros [= _ <-]].
  destruct (negb (l_owner_user_id row =? o)); [by intros [= _ <-]|].
  destruct (String.eqb_spec (l_status row) "cancelled"); [destruct (IntentRepo.parse_security_type _); by intros [= _ <-]|].
  destruct (negb (str_in (l_status row) CANCELLABLE_STATUSES)) eqn:Hc; [by intros [= _ <-]|]. apply negb_false_iff in Hc.
  unfold sql_now, gets, LegacyRepo.update_legacy, execute, modify, bind.
  match goal with |- (let (_, _) := when ?b ?c ?w1 in _) = _ -> _ =>
    assert (Hw1 : both (legacy_state d0) w1); [|
      assert (Hwhen : ev (when b c)) by (apply preserves_when, (preserves_bind _ (LegacyRepo.update_slices _ _)
        (fun _ => LegacyRepo.update_slices _ _)); intros; apply update_slices_ev);
      destruct (when b c w1) as [x w2] eqn:Hx; pose proof (Hwhen w1 x w2 Hw1 Hx) as Hw2 ] end.
  { split; [done|]. apply state_update; [|done]. intros j x Hx ->%Z.eqb_eq. rewrite Hrow in Hx. injection Hx as <-.
    apply closing_harmless; [exact Hc|set_solver|done|done]. }
  destruct x as [[]|e]; [|by intros [= _ <-]]. destruct (IntentRepo.parse_security_type _); by intros [= _ <-].
Qed.

Lemma create_legacy_row_ev a : IntentRepo.a_status a <> "triggered" -> ev (LegacyRepo.create a).
Proof.
  intros Hs. unfold LegacyRepo.create, LegacyRepo.flush_as.
  assert (forall i now, ev (LegacyRepo.insert_legacy i (LegacyRepo.row_of_args a now))).
  { intros i now. apply both_insert. intros d Hd Hv. apply state_insert; [|done|done].
    unfold LegacyRepo.legacy_violation in Hv. apply first_violation_none, Forall_app in Hv as [_ Hv].
    rewrite !Forall_cons in Hv. destruct Hv as (Hpk & _). cbn in Hpk. by destruct (legacy_intents d !! i). }
  preserve.
Qed.

(** A firing of the row it was loaded from. *)
Lemma persist_trigger_sf i changes inp w r w' : both (legacy_state d0) w ->
  (forall row, legacy_intents (pending w) !! i_id i = Some row -> l_strategy row = i_strategy i) ->
  persist_trigger i changes inp w = (r, w') ->
  legacy_state d0 (durable w') /\ (is_ok r = true -> legacy_state d0 (pending w')).
Proof.
  intros [Hd Hp] Hst Hrun. destruct (persist_trigger_cases _ _ _ _ _ _ Hrun) as [(-> & _) Hcase]. split; [done|].
  destruct r as [out|e]; [|done]. intros _.
  destruct Hcase as (row & x & target & Hx & Ht & Hrow & Hs & Hn & Hf & -> & _). apply state_fired; try done. by apply Hst.
Qed.

Lemma stage_sf i inp : sf (stage i inp).
Proof.
  intros w r w' [Hd Hp] Hrun. destruct (stage_cases _ _ _ _ _ Hrun) as [(-> & _) Hcase]. split; [done|].
  destruct (legacy_intents (pending w) !! i) as [row|] eqn:Hrow; [|by destruct Hcase as [-> _]].
  destruct (String.eqb_spec (l_status row) "active") as [Hs|]; [|by destruct Hcase as [-> _]].
  destruct r as [out|e]; [|done]. intros _. destruct Hcase as (x & target & Hx & Ht & Hn & Hf & -> & _).
  apply state_fired; try done.
Qed.

Lemma load_row_run i w : load_row i w = (match legacy_intents (pending w) !! i with
  | Some r => Ok r | None => Raise (RuntimeError "NoResultFound") end, w).
Proof. unfold load_row, query, gets, bind. by destruct (_ !! _). Qed.

(** A program that loads a row and goes on with it. *)
Lemma load_row_sf {B} i (k : LegacyRow -> M P B) :
  (forall row w r w', both (legacy_state d0) w -> legacy_intents (pending w) !! i = Some row -> k row w = (r, w') ->
     legacy_state d0 (durable w') /\ (is_ok r = true -> legacy_state d0 (pending w'))) ->
  sf (bind (load_row i) k).
Proof.
  intros Hk w r w' Hw. unfold bind. rewrite load_row_run. destruct (legacy_intents (pending w) !! i) as [row|] eqn:Hrow.
  - by apply Hk.
  - intros [= <- <-]. by destruct Hw.
Qed.

Lemma or_provider_quiet {A} (c o : M P A) : quiet c -> quiet o -> quiet (or_provider_error c o).
Proof. intros Hc Ho. apply quiet_try; [done|]. intros e. destruct (is_quote_provider_error e); [done|apply quiet_raise]. Qed.

Lemma market_quote_quiet symbol : quiet (get_market_order_quote symbol).
Proof.
  assert (Hcache : quiet (do p <- gets provider; do quotes <- lift (get_quotes p [symbol]);
    match quotes with [] => raise (QuoteUnavailableError symbol) | q :: _ => ret q end : M P QuoteSnapshot)).
  { apply quiet_bind; [apply quiet_gets|]. intros p. apply quiet_bind; [apply quiet_lift|]. intros [|q l]; [apply quiet_raise|apply quiet_ret]. }
  unfold get_market_order_quote. destruct get_current_price as [current|]; [|done].
  apply or_provider_quiet; [|done]. apply quiet_bind; [apply quiet_gets|]. intros p. apply quiet_lift.
Qed.

Lemma get_quotes_quiet symbol : quiet (do p <- gets provider; do quotes <- lift (get_quotes p [symbol]); ret (head quotes) : M P (option QuoteSnapshot)).
Proof.
  apply quiet_bind; [apply quiet_gets|]. intros p. apply quiet_bind; [apply quiet_lift|]. intros l. apply quiet_ret.
Qed.

Lemma persist_loaded_sf i row c c' inp w r w' : both (legacy_state d0) w -> legacy_intents (pending w) !! i = Some row ->
  (do out <- persist_trigger (row_intent i (changed_row c row)) c' inp; ret tt) w = (r, w') ->
  legacy_state d0 (durable w') /\ (is_ok r = true -> legacy_state d0 (pending w')).
Proof.
  intros Hw Hrow. unfold bind. destruct (persist_trigger _ _ _ w) as [y w1] eqn:Hy.
  assert (Hst : forall x, legacy_intents (pending w) !! i = Some x -> l_strategy x = i_strategy (row_intent i (changed_row c row))).
  { rewrite Hrow. intros ? [= <-]. cbn [i_strategy row_intent LegacyRepo.to_domain]. by destruct (changed_row_frame c row) as [_ ->]. }
  destruct (persist_trigger_sf (row_intent i (changed_row c row)) _ _ _ _ _ Hw Hst Hy) as [Hd Hp]. destruct y; intros [= <- <-]; done.
Qed.

Lemma inline_market_sf i symbol : sf (apply_inline_market_order_trigger i symbol).
Proof.
  unfold apply_inline_market_order_trigger. apply safe_bind.
  - apply preserves_safe, quiet_preserves, or_provider_quiet; [|apply quiet_ret].
    apply quiet_bind; [apply market_quote_quiet|]. intros q. apply quiet_ret.
  - intros [q|]; [|apply preserves_safe, preserves_ret]. destruct (_ && _); [apply preserves_safe, preserves_ret|].
    apply load_row_sf. intros row w r w' Hw Hrow.
    destruct (market_price (l_strategy row) q) as [[[price|] ty] fb]; [|by destruct Hw; intros [= <- <-]].
    destruct (negb (dec_positive price)); [by destruct Hw; intros [= <- <-]|].
    by apply (persist_loaded_sf i row None).
Qed.

Lemma inline_legacy_sf i symbol now st : sf (apply_legacy_inline_trigger i symbol now st).
Proof.
  unfold apply_legacy_inline_trigger. apply safe_bind.
  - apply preserves_safe, quiet_preserves, quiet_try; [apply get_quotes_quiet|].
    intros e. destruct e; first [apply quiet_ret|apply quiet_raise].
  - intros [q|]; [|apply preserves_safe, preserves_ret]. apply load_row_sf. intros row w r w' Hw Hrow.
    unfold bind at 1, lift. destruct (evaluate q _ now) as [x|e]; [|by destruct Hw; intros [= <- <-]].
    destruct (negb (should_trigger x)).
    { intros Hf. destruct (flush_row_ev i (changes_of x) w r w' Hw Hf). done. }
    destruct (trigger_input q x) as [inp|]; [|by destruct Hw; intros [= <- <-]]. by apply (persist_loaded_sf i row (changes_of x)).
Qed.

Lemma halted_ev ks : (forall c, ks = Some c -> quiet c) -> ev (halted_now ks).
Proof. intros Hks. unfold halted_now. destruct ks; [by apply quiet_preserves, Hks|apply preserves_ret]. Qed.

Lemma find_legacy_ev i o : ev (LegacyRepo.find_by_id i o).
Proof. unfold LegacyRepo.find_by_id, LegacyRepo.get_legacy. preserve. Qed.

Lemma initial_status_open now status : get_initial_day_intent_status now = Ok status -> status <> "triggered".
Proof.
  unfold get_initial_day_intent_status. intros Hst. apply rbind_Ok in Hst as (u & _ & Hst).
  apply rbind_Ok in Hst as (b & _ & Hst). injection Hst as <-. by destruct b.
Qed.

Lemma create_legacy_ev ks limits inp : (forall c, ks = Some c -> quiet c) -> ev (create_legacy_command ks limits inp).
Proof.
  intros Hks. unfold create_legacy_command. apply preserves_bind; [|intros i; apply find_legacy_ev].
  apply safe_transaction. unfold create_legacy_body, get_tradable_symbol, get_by_symbol.
  pose proof (quiet_preserves (P := P) _ (legacy_state d0) (reconcile_on_create_quiet (ci_symbol inp))).
  pose proof (halted_ev ks Hks).
  assert (ev (check_legacy_limits limits inp)).
  { unfold check_legacy_limits, LegacyRepo.count_active_or_scheduled_for_user, LegacyRepo.count_active_or_scheduled_for_user_symbol,
      LegacyRepo.count_legacy. preserve. }
  pose proof inline_market_sf. pose proof inline_legacy_sf.
  apply safe_bind; [safe_prog|intros sy]. apply safe_bind; [safe_prog|intros prices].
  apply safe_bind; [safe_prog|intros t]. apply safe_bind; [safe_prog|intros date].
  apply safe_bind_lift. intros status Hst%initial_status_open.
  assert (forall ref, sf (LegacyRepo.create (create_args inp prices ref date status))).
  { intros ref. by apply preserves_safe, create_legacy_row_ev. }
  safe_prog.
Qed.

Lemma cancel_legacy_command_ev i o : ev (cancel_legacy_command i o).
Proof.
  unfold cancel_legacy_command. pose proof cancel_legacy_ev.
  assert (forall s, ev (reconcile_after_legacy s)) by (intros s; apply quiet_preserves, reconcile_after_legacy_quiet).
  apply preserves_bind; [apply both_transaction; preserve|intros x]. preserve.
Qed.

Lemma dispatch_legacy_loop_ev q now l b : ev (dispatch_legacy_loop q now l b).
Proof.
  assert (forall i, ev (dispatch_legacy_intent q now i)).
  { intros i. unfold dispatch_legacy_intent. pose proof baseline_legacy_ev.
    assert (forall inp, ev (begin_nested (stage (i_id i) inp))) by (intros; apply safe_nested, stage_sf). preserve. }
  revert b. induction l as [|i l IH]; intros b; cbn; [apply preserves_ret|].
  apply preserves_bind; [done|]. intros a. apply IH.
Qed.

Lemma dispatch_legacy_ev ks q : (forall c, ks = Some c -> quiet c) -> ev (dispatch_legacy ks q).
Proof.
  intros Hks. unfold dispatch_legacy, dispatch_legacy_inner. pose proof (halted_ev ks Hks).
  assert (forall now, ev (with_session (dispatch_legacy_session q now))).
  { intros now. apply with_session_pres. unfold dispatch_legacy_session, Lifecycle.run, LegacyRepo.legacy_store.
    cbn [expire_day_intents_through activate_scheduled_day_intents].
    pose proof expire_legacy_ev. pose proof activate_legacy_ev. pose proof dispatch_legacy_loop_ev.
    assert (forall l, ev (LegacyRepo.system_list_active_by_symbols l)).
    { intros l0. unfold LegacyRepo.system_list_active_by_symbols. destruct l0; preserve. }
    preserve. }
  preserve.
Qed.

(** A firing of its own: undone by a rollback, or by the end of its session. *)
Lemma execute_session_ev i inp : ev (with_session (trigger_execute i inp)).
Proof.
  intros w r w' [Hd Hp] Hrun. destruct (session_cases _ _ _ _ Hrun) as (w1 & Hc & Hd1 & Hp1 & _).
  destruct (keeping_cases _ _ _ _ _ Hc) as (w2 & Hb & Hd2 & _ & _ & Hsame).
  assert (Hs2 : legacy_state d0 (durable w2)).
  { unfold bind in Hb. destruct (stage i inp (opening w)) as [x w3] eqn:Hs.
    destruct (stage_sf i inp (opening w) x w3 (conj Hd Hd) Hs) as [Hd3 Hp3].
    destruct x as [out|e]; [|injection Hb as <- <-; done].
    unfold commit, modify, ret in Hb. injection Hb as <- <-. by apply Hp3. }
  split; congruence.
Qed.

End Operations.

(** ** The transition system *)

Inductive legacy_request : Type :=
| LegacyCreate (limits : option IntentLimits) (inp : CreateTradeIntentInput)
| LegacyCancel (intent_id owner_user_id : uuid)
| LegacyTrigger (intent_id : uuid) (inp : TriggerCoreInput)
| LegacyQuote (snapshot : QuoteSnapshot)
| LegacyDisable (owner_user_id : uuid) (now : datetime).

Section Track.
  Context {P : Type} `{QuoteProvider P} (kill_switch : option (M P bool)).
  Context (Hswitch : forall c, kill_switch = Some c -> quiet c).

Definition serve_legacy (q : legacy_request) : M P unit :=
  match q with
  | LegacyCreate limits inp => with_session (do_ create_legacy_command kill_switch limits inp; ret tt)
  | LegacyCancel i o => with_session (do_ cancel_legacy_command i o; ret tt)
  | LegacyTrigger i inp => do_ with_session (trigger_execute i inp); ret tt
  | LegacyQuote snapshot => dispatch_legacy kill_switch snapshot
  | LegacyDisable o now =>
      with_session (transaction (do_ LegacyRepo.cancel_active_for_owner o "cancelled_by_account_disabled" now; commit))
  end.

Inductive legacy_step : world P -> world P -> Prop :=
| legacy_serve q w r w' : serve_legacy q w = (r, w') -> legacy_step w w'
| legacy_clock w a b : legacy_step w (mkWorld (durable w) (pending w) (provider w) (next_id w) (outbox w) a b)
| legacy_provider w p : legacy_step w (with_provider p w).

Lemma legacy_step_state d0 w w' : legacy_step w w' -> both (legacy_state d0) w -> both (legacy_state d0) w'.
Proof.
  intros [q w1 r w2 Hs|? ? ?|? ?] Hw; [|done..].
  assert (Hq : preserves (P := P) (both (legacy_state d0)) (serve_legacy q)); [|by apply (Hq w1 r)]. clear w1 r w2 Hs Hw.
  destruct q; cbn [serve_legacy].
  - apply with_session_pres. pose proof (create_legacy_ev (P := P) d0 kill_switch limits inp Hswitch). preserve.
  - apply with_session_pres. pose proof (cancel_legacy_command_ev (P := P) d0 intent_id owner_user_id). preserve.
  - pose proof (execute_session_ev (P := P) d0 intent_id inp). preserve.
  - by apply dispatch_legacy_ev.
  - apply with_session_pres, both_transaction. pose proof (cancel_owner_legacy_ev (P := P) d0 owner_user_id now). preserve.
Qed.

(** C15. Over any sequence of requests and quotes on the legacy track, whatever
    they return: no intent or event disappears and the order an intent describes
    never changes; its status follows the transitions of the new track, a
    terminal one is final; an intent that is not a TWAP plan is triggered
    exactly when it has its one trigger event, and a TWAP plan is never fired by
    a quote or a request of this track. *)
Theorem legacy_life (w0 w : world P) (Hclean : pending w0 = durable w0) (Hstart : legacy_ok (durable w0))
    (Hrun : rtc legacy_step w0 w) :
  legacy_ok (durable w) /\ trigger_events (durable w0) ⊆ trigger_events (durable w) /\
  forall i r, legacy_intents (durable w0) !! i = Some r -> exists r', legacy_intents (durable w) !! i = Some r' /\
    same_legacy_order r r' /\ rtc status_step (l_status r) (l_status r') /\
    (l_status r ∈ TERMINAL_STATUSES -> l_status r' = l_status r) /\
    (LegacyRepo.is_twap r = true -> l_status r' = "triggered" -> l_status r = "triggered") /\
    (LegacyRepo.is_twap r = false ->
       (l_status r' = "triggered" <-> exists k g, trigger_events (durable w) !! k = Some g /\ g_trade_intent_id g = i /\
          forall k' g', trigger_events (durable w) !! k' = Some g' -> g_trade_intent_id g' = i -> k' = k)).
Proof.
  assert (Hall : both (legacy_state (durable w0)) w).
  { assert (H0 : both (legacy_state (durable w0)) w0).
    { unfold both. rewrite Hclean. assert (legacy_state (durable w0) (durable w0)); [|done].
      split; [done|]. split; [|done]. intros i r Hr. by exists r. }
    revert H0. generalize (durable w0) as d0. clear Hclean Hstart. intros d0. induction Hrun as [|a b c Hab _ IH]; [done|].
    intros Ha. apply IH. by apply (legacy_step_state d0 a). }
  destruct Hall as [[Hok [Hev Hsub]] _]. split; [done|]. split; [done|].
  intros i r Hr. destruct (Hev i r Hr) as (r' & Hr' & Ho & Hs & Ht). exists r'.
  do 3 (split; [done|]). split; [intros Hterm; by eapply terminal_final|]. split.
  { intros Htw Htr. destruct (Ht Htr) as [?|Hf]; [done|]. by rewrite Htw in Hf. }
  intros Htw. assert (Htw' : LegacyRepo.is_twap r' = false).
  { unfold LegacyRepo.is_twap. by destruct Ho as (_ & _ & -> & _). }
  split.
  - intros Hst. destruct (fired_event _ Hok i r' Hr' Hst Htw') as (k & g & Hg & Hi). exists k, g. do 2 (split; [done|]).
    intros k' g' Hg' Hi'. eapply event_unique; [done..|congruence].
  - intros (k & g & Hg & Hi & _). destruct (event_intent _ Hok k g Hg) as (x & Hx & Hst & _). congruence.
Qed.

End Track.

(** An alert fires on a quote; it can neither be fired again nor cancelled. *)
Lemma legacy_life_witness :
  let w0 := market_world (Dec 651 0) legacy_db in
  let quote := LegacyQuote (quote_at (Some (Dec 651 0)) None None) in
  exists w1 w2, serve_legacy None quote w0 = (Ok tt, w1) /\ length (outbox w1) = 1%nat /\
    serve_legacy None (LegacyCancel 50 7) w1 = (Raise (CancelNotAllowedError 50 "triggered"), w2) /\
    legacy_ok (durable w2) /\
    exists r', legacy_intents (durable w2) !! (50 : uuid) = Some r' /\ rtc status_step "active" (l_status r').
Proof.
  intros w0 quote. set (x := serve_legacy None quote w0). set (y := serve_legacy None (LegacyCancel 50 7) (snd x)).
  assert (Hx : x = (Ok tt, snd x)) by (vm_compute; reflexivity).
  assert (Hlen : length (outbox (snd x)) = 1%nat) by (vm_compute; reflexivity).
  assert (Hy : y = (Raise (CancelNotAllowedError 50 "triggered"), snd y)) by (vm_compute; reflexivity).
  exists (snd x), (snd y).
  assert (Hrun : rtc (legacy_step None) w0 (snd y)).
  { eapply rtc_l; [eapply legacy_serve; exact Hx|]. apply rtc_once. eapply legacy_serve. exact Hy. }
  destruct (legacy_life None ltac:(discriminate) w0 (snd y) eq_refl legacy_db_ok Hrun) as (Hok & _ & Hlife).
  destruct (Hlife 50 sample_alert ltac:(reflexivity)) as (r' & Hr' & _ & Hst & _).
  exact (conj Hx (conj Hlen (conj Hy (conj Hok (ex_intro _ r' (conj Hr' Hst)))))).
Defined.
