(* ===== verification/TwapWorker.v ===== *)
(** * Running a TWAP plan

    [src/app/commands/twap.py] and [services/twap_scheduler.py]: confirming a
    plan, and the two phases of the worker that notify its slices and the prices
    they could not quote.  The rows a phase loads are locked for it; they are
    named by their keys and read when they are processed, as the session's
    identity map does. *)

From S2P Require Import Prelude Decimal Datetime Errors Price TradingSession Twap Intent Tables Store CoreSchema Lifecycle Pagination Template Trigger Quotes CreateIntent.
From S2P Require IntentRepo LegacyRepo.

#[local] Open Scope string_scope.
#[local] Open Scope list_scope.
#[local] Open Scope Z_scope.

Definition TWAP_EXECUTION_MODE : string := "notify_only".
Definition TWAP_TIME_IN_FORCE : string := "day".
Definition TWAP_TRIGGER_REFERENCE_PRICE_TYPE : string := "last_fallback".
Definition TWAP_PRICE_FOLLOWUP_MAX_ATTEMPTS : Z := 3.
Definition TWAP_PRICE_FOLLOWUP_DELAY_SECONDS : Z := 10.

Record TwapPlanInput : Type := mkPlanInput {
  pi_symbol : string;
  pi_position_side : string;
  pi_quantity_lots : Z;
  pi_interval_seconds : Z;
  pi_start_time : option time;
  pi_end_time : time;
  pi_owner_user_id : uuid;
}.

Section TwapWorker.
  Context {P : Type} `{QuoteProvider P}.

(** ** Planning *)

(** [_build_plan] *)
Definition build_plan (inp : TwapPlanInput) : M P TwapPlan :=
  do host_now <- clock;
  lift (build_twap_plan (pi_position_side inp) (pi_quantity_lots inp) (pi_interval_seconds inp)
          (pi_start_time inp) (pi_end_time inp) (now_taipei host_now)).

(** [_validate_symbol] *)
Definition validate_symbol (symbol : string) : M P unit :=
  do symbol_obj <- get_tradable_symbol symbol;
  match security_type_of (sy_instrument_type symbol_obj) with
  | Some _ => ret tt
  | None => raise (InvalidTypeError (sy_instrument_type symbol_obj) "must be stock or etf")
  end.

(** [TwapPlanCommand.preview] *)
Definition preview (inp : TwapPlanInput) : M P TwapPlan :=
  do_ validate_symbol (pi_symbol inp);
  build_plan inp.

(** [_enforce_creation_caps] *)
Definition enforce_creation_caps (limits : option IntentLimits) (inp : TwapPlanInput) : M P unit :=
  match limits with
  | None => ret tt
  | Some l =>
      do user_count <- LegacyRepo.count_active_or_scheduled_for_user (pi_owner_user_id inp);
      if per_user l <=? user_count then raise (UserIntentLimitExceededError (per_user l) user_count)
      else
        do symbol_count <- LegacyRepo.count_active_or_scheduled_for_user_symbol (pi_owner_user_id inp) (pi_symbol inp);
        if per_symbol l <=? symbol_count then
          raise (SymbolIntentLimitExceededError (pi_symbol inp) (per_symbol l) symbol_count)
        else ret tt
  end.

(** [TwapConfirmCommand] *)
Definition confirm_body (limits : option IntentLimits) (inp : TwapPlanInput) : M P uuid :=
  do_ validate_symbol (pi_symbol inp);
  do_ enforce_creation_caps limits inp;
  do plan <- build_plan inp;
  let initial_status := if bool_decide (trading_phase plan = REGULAR_SESSION) then "active" else "scheduled" in
  do intent_id <- LegacyRepo.create_twap (pi_owner_user_id inp) (pi_symbol inp) plan TWAP_EXECUTION_MODE TWAP_TIME_IN_FORCE
                    initial_status TWAP_TRIGGER_REFERENCE_PRICE_TYPE;
  do_ reconcile_on_create (pi_symbol inp);
  do_ commit;
  ret intent_id.
Definition confirm (limits : option IntentLimits) (inp : TwapPlanInput) : M P TradeIntentData :=
  do intent_id <- transaction (confirm_body limits inp);
  LegacyRepo.find_by_id intent_id (pi_owner_user_id inp).

(** ** Prices *)

(** [_select_reference_price] *)
Definition select_reference_price (snapshot : QuoteSnapshot) (position_side : option string)
  : option (dec * string * datetime) :=
  let side s := opt_eqb String.eqb position_side (Some s) in
  match side "long", ask_price snapshot, side "short", bid_price snapshot, last_price snapshot with
  | true, Some p, _, _, _ => Some (p, "ask", quote_time snapshot)
  | _, _, true, Some p, _ => Some (p, "bid", quote_time snapshot)
  | _, _, _, _, Some p => Some (p, "last_fallback", quote_time snapshot)
  | _, _, _, _, None => None
  end.

(** [_get_reference_price] *)
Definition get_reference_price (symbol : string) (position_side : option string)
  : M P (option (dec * string * datetime)) :=
  or_provider_error
    (do p <- gets provider;
     do snapshots <- lift (get_quotes p [symbol]);
     match snapshots with
     | [] => ret None
     | snapshot :: _ => ret (select_reference_price snapshot position_side)
     end)
    (ret None).

(** ** Notifying a slice *)

(** [_required_position_side] and [_required_materialized_slice_count] *)
Definition required {A} (what : string) (o : option A) : res A :=
  match o with Some a => Ok a | None => Raise (RuntimeError ("TWAP intent missing " ++ what)%string) end.

(** The rows behind a key. *)
Definition slice_row (slice_id : uuid) : M P SliceRow :=
  do s <- query (fun d => twap_slices d !! slice_id);
  match s with Some s => ret s | None => raise (RuntimeError "ObjectDeletedError") end.
Definition intent_row (intent_id : uuid) : M P LegacyRow :=
  do r <- query (fun d => legacy_intents d !! intent_id);
  match r with Some r => ret r | None => raise (RuntimeError "ObjectDeletedError") end.

(** The flush of a notified slice: the CHECKs on the columns it writes. *)
Definition primary_violation (price : option dec) (price_type : option string) : option string :=
  first_violation
    [(opt_positive price, "primary_reference_price");
     (match price_type with Some t => str_in t VALID_TRIGGER_REFERENCE_PRICE_TYPES | None => true end,
        "primary_reference_price_type")].

(** Writing a notification, and handing it to the Telegram sender. *)
Definition notify (slice : SliceRow) (type title body : string) : M P uuid :=
  do notification_id <- uuid4;
  do db_time <- sql_now;
  do_ insert_notification notification_id
        (mkNotification (ts_owner_user_id slice) (Some (ts_trade_intent_id slice)) None type title body None db_time db_time);
  do_ send_message (mkMessage title body type);
  ret notification_id.

Definition intent_status (status : string) (triggered : option datetime) (now : datetime) (r : LegacyRow) : LegacyRow :=
  legacy_set status (l_cancelled_at r) (match triggered with Some t => Some t | None => l_triggered_at r end)
    (l_last_fill_at r) (l_filled_quantity_lots r) now r.
Definition set_intent (intent_id : uuid) (f : LegacyRow -> LegacyRow) : M P unit :=
  LegacyRepo.update_legacy (fun i _ => i =? intent_id) f.
Definition set_slice (slice_id : uuid) (f : SliceRow -> SliceRow) : M P unit :=
  LegacyRepo.update_slices (fun i _ => i =? slice_id) f.

(** [_complete_intent_if_all_slices_done] *)
Definition complete_intent_if_all_slices_done (intent_id : uuid) (now : datetime) : M P unit :=
  do pending_count <- query (fun d => count_where
       (fun _ s => (ts_trade_intent_id s =? intent_id) && String.eqb (ts_status s) "pending") (twap_slices d));
  do intent <- intent_row intent_id;
  when ((pending_count =? 0) && str_in (l_status intent) ["scheduled"; "active"])
    (set_intent intent_id (intent_status "triggered" (Some now) now)).

(** [_process_due_slice] *)
Definition process_due_slice (now : datetime) (key : uuid * uuid) : M P unit :=
  let '(slice_id, intent_id) := key in
  do slice <- slice_row slice_id;
  do intent <- intent_row intent_id;
  do reference <- get_reference_price (l_symbol intent) (l_position_side intent);
  let price := (fun x => fst (fst x)) <$> reference in
  let price_type := (fun x => snd (fst x)) <$> reference in
  let quote := snd <$> reference in
  do side <- lift (required "position_side" (l_position_side intent));
  do total <- lift (required "slice count" (l_twap_materialized_slice_count intent));
  do text <- lift (render_twap_slice (l_symbol intent) side (ts_sequence_no slice) total
                     (ts_planned_quantity_lots slice) price price_type quote);
  do notification_id <- notify slice "twap_slice" (fst text) (snd text);
  let next := match reference with
              | None => Some (dt_add now (TWAP_PRICE_FOLLOWUP_DELAY_SECONDS * SECOND))
              | Some _ => None
              end in
  do_ insert_checked (fun _ => primary_violation price price_type) (fun d => set_twap_slices
        (update_where (fun (i : uuid) _ => i =? slice_id) (slice_notified notification_id price price_type quote next now)
           (twap_slices d)) d);
  do_ when (String.eqb (l_status intent) "scheduled") (set_intent intent_id (intent_status "active" None now));
  complete_intent_if_all_slices_done intent_id now.

(** [_process_followup] *)
Definition process_followup (now : datetime) (key : uuid * uuid) : M P unit :=
  let '(slice_id, intent_id) := key in
  do slice <- slice_row slice_id;
  do intent <- intent_row intent_id;
  let attempts := ts_price_followup_attempts slice + 1 in
  do reference <- get_reference_price (l_symbol intent) (l_position_side intent);
  match reference with
  | None =>
      let exhausted := TWAP_PRICE_FOLLOWUP_MAX_ATTEMPTS <=? attempts in
      set_slice slice_id (slice_retry attempts (negb exhausted && ts_price_followup_required slice)
        (if exhausted then None else Some (dt_add now (TWAP_PRICE_FOLLOWUP_DELAY_SECONDS * SECOND))) now)
  | Some (price, price_type, _) =>
      do total <- lift (required "slice count" (l_twap_materialized_slice_count intent));
      do text <- lift (render_twap_price_followup (l_symbol intent) (ts_sequence_no slice) total price price_type now);
      do notification_id <- notify slice "twap_price_followup" (fst text) (snd text);
      set_slice slice_id (slice_followed_up attempts notification_id now)
  end.

(** ** The two phases *)

(** The joins of [_load_due_slices] and [_load_followup_slices]: the keys, in
    the order and up to the limit of the query. *)
Definition joined (d : db) (p : SliceRow -> LegacyRow -> bool) (_ : uuid) (s : SliceRow) : bool :=
  match legacy_intents d !! ts_trade_intent_id s with Some r => p s r | None => false end.
Definition due_at (t : option datetime) (now : datetime) : bool :=
  match t with Some t => dt_us t <=? dt_us now | None => false end.
Definition earlier (key : SliceRow -> option datetime) (a b : uuid * SliceRow) : bool :=
  let time x := match key (snd x) with Some t => dt_us t | None => 0 end in
  (time a <? time b) || ((time a =? time b) && (ts_sequence_no (snd a) <? ts_sequence_no (snd b))).

Definition is_due (now : datetime) (s : SliceRow) (r : LegacyRow) : bool :=
  String.eqb (ts_status s) "pending" && (dt_us (ts_scheduled_at s) <=? dt_us now) &&
  String.eqb (l_strategy r) TWAP_STRATEGY && str_in (l_status r) ["scheduled"; "active"].
Definition needs_followup (now : datetime) (s : SliceRow) (r : LegacyRow) : bool :=
  ts_price_followup_required s && is_none (ts_price_followup_notification_id s) &&
  (ts_price_followup_attempts s <? TWAP_PRICE_FOLLOWUP_MAX_ATTEMPTS) && due_at (ts_next_price_followup_at s) now &&
  String.eqb (l_strategy r) TWAP_STRATEGY && negb (String.eqb (l_status r) "cancelled").

Definition load (p : SliceRow -> LegacyRow -> bool) (key : SliceRow -> option datetime) (limit : nat)
  : M P (list (uuid * uuid)) :=
  query (fun d => (fun x => (fst x, ts_trade_intent_id (snd x))) <$>
    take limit (order_by (earlier key) (select_where (joined d p) (twap_slices d)))).
Definition load_due_slices (now : datetime) : nat -> M P (list (uuid * uuid)) :=
  load (is_due now) (fun s => Some (ts_scheduled_at s)).
Definition load_followup_slices (now : datetime) : nat -> M P (list (uuid * uuid)) :=
  load (needs_followup now) ts_next_price_followup_at.

(** The shape of both: the lifecycle in a transaction of its own, the gates of
    the session and the kill switch, then one transaction over the rows. *)
Definition worker_phase (kill_switch : option (M P bool)) (rows : datetime -> M P (list (uuid * uuid)))
    (process : datetime -> uuid * uuid -> M P unit) : M P Z :=
  do host_now <- clock;
  let now := now_taipei host_now in
  do_ Lifecycle.run LegacyRepo.legacy_store;
  do phase <- lift (get_trading_day_phase now);
  if negb (bool_decide (phase = REGULAR_SESSION)) then ret 0
  else
    do halted <- halted_now kill_switch;
    if halted : bool then ret 0
    else
      transaction
        (do keys <- rows now;
         do_ for_each keys (process now);
         do_ commit;
         ret (Z.of_nat (length keys))).

(** [process_due_slices] and [process_price_followups], with their limit *)
Definition process_due_slices (kill_switch : option (M P bool)) (limit : nat) : M P Z :=
  worker_phase kill_switch (fun now => load_due_slices now limit) process_due_slice.
Definition process_price_followups (kill_switch : option (M P bool)) (limit : nat) : M P Z :=
  worker_phase kill_switch (fun now => load_followup_slices now limit) process_followup.

(** [TwapSliceScheduler.run_once]: a failing phase is only logged. *)
Definition run_phase (phase : M P Z) : M P unit :=
  try_except (do n <- with_session phase; ret tt) (fun _ => ret tt).
Definition run_once (kill_switch : option (M P bool)) : M P unit :=
  do_ run_phase (process_due_slices kill_switch 100);
  run_phase (process_price_followups kill_switch 100).

End TwapWorker.
