(* ===== verification/TwapPlanSpec.v ===== *)
(** * What confirming a TWAP plan stores *)

From S2P Require Import Prelude Decimal Datetime Errors Price TradingSession Twap Intent Tables Store CoreSchema Samples Quotes CreateIntent TwapWorker.
From S2P Require IntentRepo LegacyRepo.

#[local] Open Scope string_scope.
#[local] Open Scope list_scope.
#[local] Open Scope Z_scope.

(** ** The plan *)

Lemma plan_facts side quantity interval start_time end_time now p :
  build_twap_plan side quantity interval start_time end_time now = Ok p ->
  slices p = allocate_slices (start_at p) interval quantity (materialized_slice_count p) /\
  2 <= materialized_slice_count p <= 200 /\ materialized_slice_count p <= quantity /\
  target_quantity_lots p = quantity /\ position_side p = side /\ interval_seconds p = interval.
Proof.
  unfold build_twap_plan. intros H. repeat case_match; simplify_eq. destruct (get_trading_day_phase _) as [ph|]; [|done].
  cbn [rbind] in H. destruct (twap_window _ _ _) as [d start]. repeat case_match; simplify_eq. cbn. b2p.
  unfold TWAP_MIN_MATERIALIZED_SLICES, TWAP_MAX_MATERIALIZED_SLICES in *. lia || (repeat split; try done; lia).
Qed.

(** ** Inserting the slices *)

Section Create.
  Context {P : Type}.
  Implicit Types w : world P.

Fixpoint numbered (n : uuid) (l : list TwapSlicePlan) : list (uuid * TwapSlicePlan) :=
  match l with [] => [] | s :: rest => (n, s) :: numbered (n + 1) rest end.

Lemma numbered_lookup l : forall n (k : nat), numbered n l !! k = (fun s => (n + Z.of_nat k, s)) <$> l !! k.
Proof.
  induction l as [|s l IH]; intros n k; [by rewrite !lookup_nil|]. destruct k as [|k]; cbn.
  - by rewrite Z.add_0_r.
  - rewrite IH. destruct (l !! k); cbn; [|done]. do 2 f_equal. lia.
Qed.

Lemma numbered_lookup_gt l n (k : nat) j s : numbered n l !! k = Some (j, s) -> n <= j.
Proof. rewrite numbered_lookup. intros (t & _ & [= -> ->])%fmap_Some. lia. Qed.

Lemma numbered_absent {A} (m : gmap uuid A) l n : Forall (fun x => m !! fst x = None) (numbered n l) ->
  forall j : uuid, (n <=? j) && (j <? n + Z.of_nat (length l)) = true -> m !! j = None.
Proof.
  intros Hall j [H1%Z.leb_le H2%Z.ltb_lt]%andb_true_iff.
  destruct (lookup_lt_is_Some_2 l (Z.to_nat (j - n))) as [s Hs]; [lia|].
  assert (Hn : numbered n l !! Z.to_nat (j - n) = Some (j, s)) by (rewrite numbered_lookup, Hs; cbn; do 2 f_equal; lia).
  exact (proj1 (Forall_lookup _ _) Hall _ _ Hn).
Qed.

Lemma draw_ids_run l : forall w, LegacyRepo.draw_ids l w =
  (Ok (numbered (next_id w) l), with_ids (Z.of_nat (length l)) w).
Proof.
  induction l as [|s l IH]; intros w; cbn [LegacyRepo.draw_ids numbered length].
  - unfold ret, with_ids. rewrite Z.add_0_r. by destruct w.
  - unfold bind at 1, uuid4. cbn iota beta. unfold bind at 1. rewrite IH. cbn [next_id]. unfold ret. f_equal.
    unfold with_ids. cbn. f_equal. lia.
Qed.

Definition with_slice (i : uuid) (r : SliceRow) (d : db) : db := set_twap_slices (<[i := r]> (twap_slices d)) d.
Definition with_slices (f : TwapSlicePlan -> SliceRow) (planned : list (uuid * TwapSlicePlan)) (d : db) : db :=
  fold_left (fun d x => with_slice (fst x) (f (snd x)) d) planned d.

Lemma insert_slice_run i r w : LegacyRepo.insert_slice i r w =
  match LegacyRepo.slice_violation i r (pending w) with
  | None => (Ok tt, with_pending (with_slice i r (pending w)) w)
  | Some c => (Raise (IntegrityError c), w)
  end.
Proof. unfold LegacyRepo.insert_slice. run_session. unfold id. by destruct (LegacyRepo.slice_violation _ _ _). Qed.

Lemma slice_violation_absent i r d : LegacyRepo.slice_violation i r d = None -> twap_slices d !! i = None.
Proof.
  intros Hv. unfold LegacyRepo.slice_violation in Hv. apply first_violation_none in Hv. rewrite !Forall_cons in Hv.
  cbn [fst] in Hv. destruct Hv as (_ & _ & _ & _ & _ & Hn & _). by destruct (twap_slices d !! i).
Qed.
Lemma legacy_violation_absent i r d : LegacyRepo.legacy_violation i r d = None -> legacy_intents d !! i = None.
Proof.
  intros Hv. unfold LegacyRepo.legacy_violation in Hv. apply first_violation_none, Forall_app in Hv as [_ Hv].
  rewrite !Forall_cons in Hv. cbn [fst] in Hv. destruct Hv as (Hn & _). by destruct (legacy_intents d !! i).
Qed.

Lemma insert_slices_cases f planned : forall w r w',
  for_each planned (fun x => LegacyRepo.insert_slice (fst x) (f (snd x))) w = (r, w') ->
  match r with
  | Ok _ => w' = with_pending (with_slices f planned (pending w)) w /\
      Forall (fun x => twap_slices (pending w) !! fst x = None) planned
  | Raise e => (exists c, e = IntegrityError c) /\ exists d, w' = with_pending d w
  end.
Proof.
  induction planned as [|x planned IH]; intros w r w'; cbn [for_each].
  - intros [= <- <-]. cbn. split; [by destruct w|constructor].
  - unfold bind. rewrite insert_slice_run. destruct (LegacyRepo.slice_violation _ _ _) as [c|] eqn:Hv.
    + intros [= <- <-]. split; [by exists c|]. exists (pending w). by destruct w.
    + apply slice_violation_absent in Hv. intros Hrun. specialize (IH _ _ _ Hrun). destruct r as [a|e].
      * destruct IH as [-> Habs]. split; [done|]. constructor; [done|]. eapply Forall_impl; [exact Habs|]. intros y.
        cbn. by intros [? _]%lookup_insert_None.
      * destruct IH as (Hc & d & ->). split; [done|]. by exists d.
Qed.

(** The tables after the plan was stored under the id [n]. *)
Definition stored (owner : uuid) (symbol : string) (plan : TwapPlan) (status : string) (now : datetime) (n : uuid) (d : db) : db :=
  with_slices (LegacyRepo.slice_row_of n owner symbol now) (numbered (n + 1) (slices plan))
    (set_legacy_intents (<[n := LegacyRepo.twap_row owner symbol plan TWAP_EXECUTION_MODE TWAP_TIME_IN_FORCE status
                              TWAP_TRIGGER_REFERENCE_PRICE_TYPE now]> (legacy_intents d)) d).

Lemma with_slices_frame f planned : forall d, legacy_intents (with_slices f planned d) = legacy_intents d /\
  symbols (with_slices f planned d) = symbols d /\ users (with_slices f planned d) = users d /\
  notifications (with_slices f planned d) = notifications d.
Proof.
  induction planned as [|x l IH]; intros d; [done|].
  change (with_slices f (x :: l) d) with (with_slices f l (with_slice (fst x) (f (snd x)) d)). by destruct (IH (with_slice (fst x) (f (snd x)) d)) as (-> & -> & -> & ->).
Qed.

Lemma with_slices_lookup f l : forall n d (j : uuid), twap_slices (with_slices f (numbered n l) d) !! j =
  (if (n <=? j) && (j <? n + Z.of_nat (length l)) then f <$> l !! Z.to_nat (j - n) else twap_slices d !! j).
Proof.
  induction l as [|s l IH]; intros n d j; cbn [numbered with_slices fold_left length].
  - destruct (Z.leb_spec n j), (Z.ltb_spec j (n + Z.of_nat 0)); try done. lia.
  - change (fold_left _ (numbered (n + 1) l) ?x) with (with_slices f (numbered (n + 1) l) x). rewrite IH.
    cbn [with_slice twap_slices set_twap_slices fst snd]. destruct (decide (j = n)) as [->|Hne].
    + rewrite lookup_insert_eq, Z.sub_diag. cbn. rewrite (proj2 (Z.leb_gt (n + 1) n)) by lia. cbn [andb].
      rewrite Z.leb_refl, (proj2 (Z.ltb_lt _ _)) by lia. done.
    + rewrite lookup_insert_ne by done. destruct (Z.leb_spec (n + 1) j), (Z.leb_spec n j); try lia; cbn [andb]; [|done].
      replace (n + 1 + Z.of_nat (length l)) with (n + Z.of_nat (S (length l))) by lia.
      destruct (j <? n + Z.of_nat (S (length l))); [|done].
      replace (Z.to_nat (j - n)) with (S (Z.to_nat (j - (n + 1)))) by lia. done.
Qed.

Lemma create_twap_cases owner symbol plan status w r w' :
  LegacyRepo.create_twap owner symbol plan TWAP_EXECUTION_MODE TWAP_TIME_IN_FORCE status TWAP_TRIGGER_REFERENCE_PRICE_TYPE w = (r, w') ->
  same_env w w' /\ outbox w' = outbox w /\ provider w' = provider w /\
  match r with
  | Ok i => i = next_id w /\
      (forall j x, legacy_intents (pending w) !! j = Some x -> LegacyRepo.same_plan owner symbol plan x = false) /\
      LegacyRepo.legacy_violation i (LegacyRepo.twap_row owner symbol plan TWAP_EXECUTION_MODE TWAP_TIME_IN_FORCE status
                              TWAP_TRIGGER_REFERENCE_PRICE_TYPE (db_now w)) (pending w) = None /\
      pending w' = stored owner symbol plan status (db_now w) (next_id w) (pending w) /\
      Forall (fun x => twap_slices (pending w) !! fst x = None) (numbered (next_id w + 1) (slices plan))
  | Raise e => e = TwapDuplicateActivePlanError owner symbol (position_side plan) \/ e = RuntimeError "MultipleResultsFound"
  end.
Proof.
  unfold LegacyRepo.create_twap. unfold bind at 1, query, gets.
  destruct (select_where _ _) as [|x [|y l]] eqn:Hsel; [|intros [= <- <-]; repeat split; by left|intros [= <- <-]; repeat split; by right].
  unfold bind at 1, uuid4. cbn iota beta. unfold bind at 1. rewrite draw_ids_run. unfold bind at 1, sql_now, gets.
  cbn [next_id db_now with_ids]. unfold bind at 1, LegacyRepo.flush_as, try_except, bind at 1, LegacyRepo.insert_legacy.
  unfold insert_checked, bind at 1, query, gets. cbn [pending with_ids].
  destruct (LegacyRepo.legacy_violation _ _ _) as [c|] eqn:Hv; [intros [= <- <-]; repeat split; by left|].
  unfold execute, modify.
  match goal with |- context [for_each ?p ?f ?x] => destruct (for_each p f x) as [ri wi] eqn:Hi end.
  apply insert_slices_cases in Hi. destruct ri as [u|e].
  - unfold ret. intros [= <- <-]. destruct Hi as [-> Habs]. repeat (split; [done|]).
    split; [|split; [exact Hv|split; [reflexivity|exact Habs]]]. intros j x. exact (proj1 (select_empty _ _) Hsel j x).
  - destruct Hi as ((c & ->) & d & ->). intros [= <- <-]. repeat split; by left.
Qed.

End Create.

(** ** Confirming *)

Section Confirm.
  Context {P : Type} `{QuoteProvider P}.
  Implicit Types w : world P.

(** The caps on the legacy track. *)
Definition within_caps (limits : option IntentLimits) (inp : TwapPlanInput) (d : db) : Prop :=
  match limits with
  | None => True
  | Some l =>
      count_where (fun _ r => (l_owner_user_id r =? pi_owner_user_id inp) && is_open (l_status r)) (legacy_intents d) < per_user l /\
      count_where (fun _ r => (l_owner_user_id r =? pi_owner_user_id inp) && String.eqb (l_symbol r) (pi_symbol inp) && is_open (l_status r))
        (legacy_intents d) < per_symbol l
  end.

Lemma caps_run limits inp w r w' : enforce_creation_caps limits inp w = (r, w') ->
  w' = w /\ (is_ok r = true -> within_caps limits inp (pending w)).
Proof.
  unfold enforce_creation_caps, within_caps. destruct limits as [l|]; [|by intros [= <- <-]].
  unfold LegacyRepo.count_active_or_scheduled_for_user, LegacyRepo.count_active_or_scheduled_for_user_symbol, LegacyRepo.count_legacy.
  unfold bind at 1, query, gets. destruct (per_user l <=? _) eqn:Hu; [by intros [= <- <-]|].
  unfold bind at 1. destruct (per_symbol l <=? _) eqn:Hs; intros [= <- <-]; [done|]. b2p. done.
Qed.

Lemma validate_symbol_run symbol w r w' : validate_symbol symbol w = (r, w') ->
  w' = w /\ (is_ok r = true -> exists s st, symbols (pending w) !! symbol = Some s /\
    security_type_of (sy_instrument_type s) = Some st).
Proof.
  unfold validate_symbol. unfold bind at 1. destruct (get_tradable_symbol symbol w) as [x w1] eqn:Hg.
  apply get_tradable_symbol_world in Hg as [-> Hx]. destruct x as [s|e]; [|by intros [= <- <-]].
  destruct (Hx s eq_refl) as [Hs _]. destruct (security_type_of _) as [st|] eqn:Hst; intros [= <- <-]; [|done].
  split; [done|]. intros _. by exists s, st.
Qed.

Definition initial_status (plan : TwapPlan) : string :=
  if bool_decide (trading_phase plan = REGULAR_SESSION) then "active" else "scheduled".

Definition planned (inp : TwapPlanInput) (now : datetime) : res TwapPlan :=
  build_twap_plan (pi_position_side inp) (pi_quantity_lots inp) (pi_interval_seconds inp)
    (pi_start_time inp) (pi_end_time inp) (now_taipei now).

Lemma confirm_body_cases limits inp w r w' : confirm_body limits inp w = (r, w') ->
  app_now w' = app_now w /\ db_now w' = db_now w /\ outbox w' = outbox w /\
  match r with
  | Raise _ => durable w' = durable w
  | Ok n => exists plan s st, n = next_id w /\ planned inp (app_now w) = Ok plan /\ within_caps limits inp (pending w) /\
      symbols (pending w) !! pi_symbol inp = Some s /\ security_type_of (sy_instrument_type s) = Some st /\
      LegacyRepo.legacy_violation n (LegacyRepo.twap_row (pi_owner_user_id inp) (pi_symbol inp) plan TWAP_EXECUTION_MODE
        TWAP_TIME_IN_FORCE (initial_status plan) TWAP_TRIGGER_REFERENCE_PRICE_TYPE (db_now w)) (pending w) = None /\
      pending w' = durable w' /\
      durable w' = stored (pi_owner_user_id inp) (pi_symbol inp) plan (initial_status plan) (db_now w) n (pending w) /\
      Forall (fun x => twap_slices (pending w) !! fst x = None) (numbered (n + 1) (slices plan))
  end.
Proof.
  unfold confirm_body. unfold bind at 1. destruct (validate_symbol _ w) as [rv wv] eqn:Hval.
  apply validate_symbol_run in Hval as [-> Hval]. destruct rv as [[]|e]; [|by intros [= <- <-]].
  destruct (Hval eq_refl) as (s & st & Hs & Hst).
  unfold bind at 1. destruct (enforce_creation_caps _ _ w) as [rc wc] eqn:Hcap.
  apply caps_run in Hcap as [-> Hcap]. destruct rc as [[]|e]; [|by intros [= <- <-]].
  unfold bind at 1, build_plan. unfold bind at 1, clock, gets. unfold lift. fold (planned inp (app_now w)).
  destruct (planned inp (app_now w)) as [plan|e]; [|by intros [= <- <-]].
  fold (initial_status plan). unfold bind at 1. destruct (LegacyRepo.create_twap _ _ _ _ _ _ _ w) as [ri wi] eqn:Hcr.
  destruct (create_twap_cases _ _ _ _ _ _ _ Hcr) as ((Hd1 & Ha1 & Hb1) & Ho1 & Hp1 & Hres).
  destruct ri as [n|e]; [|intros [= <- <-]; by rewrite Hd1].
  destruct Hres as (-> & _ & Hviol & Hstored & Habs).
  unfold bind at 1. destruct (reconcile_on_create _ wi) as [rr wr] eqn:Hrec.
  destruct (reconcile_on_create_quiet _ _ _ _ Hrec) as (Hd2 & Hp2 & Ho2 & Hn2 & Ha2 & Hb2).
  destruct rr as [[]|e]; [|intros [= <- <-]; repeat split; congruence].
  intros [= <- <-]. cbn. split; [congruence|]. split; [congruence|]. split; [congruence|].
  exists plan, s, st. repeat (split; [done|]). split; [by apply Hcap|]. do 2 (split; [done|]). split; [exact Hviol|].
  split; [done|]. rewrite Hp2. split; [exact Hstored|exact Habs].
Qed.

(** C22. A confirmed TWAP plan is stored as planned.  On success the plan is the
    one [build_twap_plan] gives for the request at the moment of the call, it is
    a new intent of the owner, within the caps, active in the session and
    scheduled outside, and its slices are stored one row each, pending, numbered
    from 1, with the planned times and lots, which add up to the requested
    quantity; no other intent or slice changes.  Any failure stores nothing. *)
Theorem twap_confirm_stores (limits : option IntentLimits) (inp : TwapPlanInput) w w' (r : res TradeIntentData)
    (Hclean : pending w = durable w)
    (Hfk : forall (j : uuid) s, twap_slices (durable w) !! j = Some s -> is_some (legacy_intents (durable w) !! ts_trade_intent_id s) = true)
    (Hrun : confirm limits inp w = (r, w')) :
  match r with
  | Raise _ => durable w' = durable w
  | Ok i => exists plan st, let n := i_id i in
      let row := LegacyRepo.twap_row (pi_owner_user_id inp) (pi_symbol inp) plan TWAP_EXECUTION_MODE TWAP_TIME_IN_FORCE
                   (initial_status plan) TWAP_TRIGGER_REFERENCE_PRICE_TYPE (db_now w) in
      planned inp (app_now w) = Ok plan /\ within_caps limits inp (durable w) /\
      i = LegacyRepo.to_domain n row st /\ legacy_intents (durable w) !! n = None /\
      legacy_intents (durable w') = <[n := row]> (legacy_intents (durable w)) /\
      (forall (j : uuid) s, (twap_slices (durable w') !! j = Some s /\ ts_trade_intent_id s = n) <->
         exists (k : nat) p, slices plan !! k = Some p /\ j = n + 1 + Z.of_nat k /\ sequence_no p = Z.of_nat k + 1 /\
           s = LegacyRepo.slice_row_of n (pi_owner_user_id inp) (pi_symbol inp) (db_now w) p) /\
      (forall (j : uuid) s, twap_slices (durable w) !! j = Some s -> twap_slices (durable w') !! j = Some s) /\
      Z.of_nat (length (slices plan)) = materialized_slice_count plan /\ total_lots (slices plan) = pi_quantity_lots inp
  end.
Proof.
  revert Hrun. unfold confirm. unfold bind at 1, transaction, try_except.
  destruct (confirm_body limits inp w) as [rb wb] eqn:Hb. apply confirm_body_cases in Hb as (_ & _ & _ & Hres).
  destruct rb as [n|e]; [|intros [= <- <-]; exact Hres].
  destruct Hres as (plan & s & st & -> & Hplan & Hcaps & Hs & Hst & Hv & Hpw & Hd & Hids). rewrite Hclean in *.
  set (n := next_id w) in *. set (row := LegacyRepo.twap_row _ _ _ _ _ _ _ _) in *.
  destruct (plan_facts _ _ _ _ _ _ _ Hplan) as (Hslices & Hcount & Hle & Htarget & _).
  destruct (allocate_slices_spec (start_at plan) (pi_interval_seconds inp) (pi_quantity_lots inp) (materialized_slice_count plan))
    as (Hlen & Hsum & _ & _ & Hseq & _); [lia|lia|]. rewrite <-Hslices in *.
  destruct (with_slices_frame (LegacyRepo.slice_row_of n (pi_owner_user_id inp) (pi_symbol inp) (db_now w)) (numbered (n + 1) (slices plan))
    (set_legacy_intents (<[n := row]> (legacy_intents (durable w))) (durable w))) as (Hleg & Hsym & _).
  unfold LegacyRepo.find_by_id, LegacyRepo.get_legacy. unfold bind at 1, query, gets.
  rewrite Hpw, Hd. unfold stored. fold row. rewrite Hleg. cbn [legacy_intents set_legacy_intents]. rewrite lookup_insert_eq.
  cbn [mbind option_bind]. unfold LegacyRepo.with_symbol_type. rewrite Hsym. cbn [symbols set_legacy_intents].
  change (l_symbol row) with (pi_symbol inp). rewrite Hs. change (l_owner_user_id row) with (pi_owner_user_id inp).
  rewrite Z.eqb_refl. cbn [negb]. unfold bind, lift, IntentRepo.parse_security_type. rewrite Hst. intros [= <- <-].
  exists plan, st. rewrite Hd. unfold stored. fold row. cbn [i_id LegacyRepo.to_domain]. fold n. fold row.
  split; [done|]. split; [done|]. split; [done|].
  pose proof (legacy_violation_absent _ _ _ Hv) as Habs.
  split; [exact Habs|]. split; [exact Hleg|]. split; [|split; [|done]].
  - intros j x. rewrite with_slices_lookup. cbn [twap_slices set_legacy_intents].
    destruct ((n + 1 <=? j) && (j <? n + 1 + Z.of_nat (length (slices plan)))) eqn:Hrange.
    + apply andb_true_iff in Hrange as [H1%Z.leb_le H2%Z.ltb_lt]. rewrite fmap_Some. split.
      * intros [(p & Hp & ->) _]. exists (Z.to_nat (j - (n + 1))), p. split; [done|]. split; [lia|].
        destruct (Hseq _ _ Hp) as [-> _]. split; [lia|done].
      * intros (k & p & Hp & -> & _ & ->). replace (Z.to_nat (n + 1 + Z.of_nat k - (n + 1))) with k by lia.
        split; [by exists p|done].
    + split.
      * intros [Hj Hx]. apply Hfk in Hj. rewrite Hx, Habs in Hj. done.
      * intros (k & p & Hp & -> & _). apply lookup_lt_Some in Hp. apply andb_false_iff in Hrange as [Hr%Z.leb_gt|Hr%Z.ltb_ge]; lia.
  - intros j x Hj. rewrite with_slices_lookup. cbn [twap_slices set_legacy_intents].
    destruct ((n + 1 <=? j) && _) eqn:Hrange; [|exact Hj]. by rewrite (numbered_absent _ _ _ Hids j Hrange) in Hj.
Qed.

End Confirm.

Definition plan_input (side : string) (quantity : Z) : TwapPlanInput :=
  mkPlanInput "2330" side quantity 600 None (mk_time 13 0) 7.
Definition plan_world : world InMemoryQuoteProvider :=
  mkWorld sample_db sample_db (mkInMemory ∅ ∅) 100 [] sample_time sample_time.

Lemma twap_confirm_stores_witness : exists i w', confirm None (plan_input "long" 10) plan_world = (Ok i, w') /\
  exists plan, slices plan <> [] /\ total_lots (slices plan) = 10.
Proof.
  destruct (confirm None (plan_input "long" 10) plan_world) as [r w'] eqn:Hrun.
  assert (Hr : is_ok (fst (confirm None (plan_input "long" 10) plan_world)) = true) by (vm_compute; reflexivity).
  rewrite Hrun in Hr. destruct r as [i|]; [|done]. exists i, w'. split; [reflexivity|].
  pose proof (twap_confirm_stores None (plan_input "long" 10) plan_world w' (Ok i) eq_refl
    (fun j s H => ltac:(vm_compute in H; destruct j; discriminate H)) Hrun) as H.
  destruct H as (plan & st & _ & _ & _ & _ & _ & _ & _ & Hlen & Hsum). exists plan. split; [|exact Hsum].
  intros Hnil. rewrite Hnil in Hsum. discriminate Hsum.
Defined.

(** The duplicate rule as the schema applies it.  A request for the other
    position side is refused as a duplicate plan, although the only open plan of
    the owner on that symbol and day is of the opposite side, when the two plans
    have the same number of lots: the index against duplicate intents also covers
    TWAP rows and takes their absent prices as equal.  Nothing is stored. *)
Theorem twap_opposite_side_refused {P} `{QuoteProvider P} (limits : option IntentLimits) (inp : TwapPlanInput) (plan : TwapPlan)
    (j : uuid) (x : LegacyRow) (w : world P) (Hclean : pending w = durable w)
    (Hsymbol : validate_symbol (pi_symbol inp) w = (Ok tt, w)) (Hcaps : enforce_creation_caps limits inp w = (Ok tt, w))
    (Hplan : planned inp (app_now w) = Ok plan)
    (Hx : legacy_intents (durable w) !! j = Some x) (Htwap : LegacyRepo.is_twap x = true) (Hopen : is_open (l_status x) = true)
    (Howner : l_owner_user_id x = pi_owner_user_id inp) (Hsym : l_symbol x = pi_symbol inp)
    (Hdate : l_trading_date x = trading_date plan) (Hqty : l_quantity_lots x = pi_quantity_lots inp)
    (Hprice : l_target_price_effective x = None) (Htrail : l_trail_mode x = None /\ l_trail_value x = None)
    (Hside : forall i y, legacy_intents (durable w) !! i = Some y ->
       LegacyRepo.same_plan (pi_owner_user_id inp) (pi_symbol inp) plan y = false) :
  exists w', confirm limits inp w =
    (Raise (TwapDuplicateActivePlanError (pi_owner_user_id inp) (pi_symbol inp) (pi_position_side inp)), w') /\
    durable w' = durable w.
Proof.
  destruct (plan_facts _ _ _ _ _ _ _ Hplan) as (_ & _ & _ & Htarget & Hps & _).
  destruct (confirm limits inp w) as [r w'] eqn:Hrun. exists w'. revert Hrun.
  unfold confirm, transaction, try_except. unfold bind at 1. unfold confirm_body. unfold bind at 1. rewrite Hsymbol.
  unfold bind at 1. rewrite Hcaps. unfold bind at 1, build_plan. unfold bind at 1, clock, gets, lift.
  fold (planned inp (app_now w)). rewrite Hplan. fold (initial_status plan).
  unfold bind at 1. unfold LegacyRepo.create_twap. unfold bind at 1, query, gets. rewrite Hclean.
  rewrite (proj2 (select_empty _ _) Hside). unfold bind at 1, uuid4. cbn iota beta. unfold bind at 1. rewrite draw_ids_run.
  unfold bind at 1, sql_now, gets. cbn [next_id db_now with_ids].
  unfold bind at 1, LegacyRepo.flush_as, try_except, bind at 1, LegacyRepo.insert_legacy, insert_checked, bind at 1, query, gets.
  cbn [pending with_ids]. rewrite Hclean. set (row := LegacyRepo.twap_row _ _ _ _ _ _ _ _).
  destruct (LegacyRepo.legacy_violation _ row _) as [c|] eqn:Hv.
  { unfold bind, rollback, modify, raise. intros [= <- <-]. by rewrite Hps. }
  exfalso. unfold LegacyRepo.legacy_violation in Hv. apply first_violation_none, Forall_app in Hv as [_ Hv].
  rewrite !Forall_cons in Hv. cbn [fst] in Hv. destruct Hv as (_ & Hclash & _). unfold LegacyRepo.clashes in Hclash.
  assert (Hro : is_open (l_status row) = true) by (cbn; unfold initial_status; by case_bool_decide).
  rewrite Hro in Hclash. cbn [andb negb] in Hclash. rewrite negb_involutive in Hclash. apply Z.eqb_eq in Hclash.
  pose proof (proj1 (count_zero _ _) Hclash j x Hx) as Hno. cbn beta in Hno. rewrite Hopen in Hno.
  destruct Htrail as [Hm Hval]. unfold LegacyRepo.same_legacy_key in Hno. unfold LegacyRepo.is_twap in Htwap. b2p.
  rewrite Howner, Hsym, Htwap, Hprice, Hm, Hval, Hqty, Hdate in Hno. cbn -[String.eqb] in Hno.
  rewrite !Z.eqb_refl, !String.eqb_refl, Htarget, Z.eqb_refl in Hno. done.
Qed.

(** Ten lots long and then ten lots short, in the same session. *)
Lemma twap_opposite_side_refused_witness :
  let w1 := snd (with_session (confirm None (plan_input "long" 10)) plan_world) in
  exists w2, confirm None (plan_input "short" 10) w1 = (Raise (TwapDuplicateActivePlanError 7 "2330" "short"), w2) /\
    durable w2 = durable w1.
Proof.
  intros w1. destruct (planned (plan_input "short" 10) (app_now w1)) as [plan|] eqn:Hplan; [|vm_compute in Hplan; discriminate Hplan].
  destruct (legacy_intents (durable w1) !! (100 : uuid)) as [x|] eqn:Hx; [|vm_compute in Hx; discriminate Hx].
  assert (Hx' := Hx). vm_compute in Hx'. injection Hx' as <-. vm_compute in Hplan. injection Hplan as <-.
  match type of Hx with _ = Some ?x => set (row := x) in * end.
  eapply (twap_opposite_side_refused None (plan_input "short" 10) _ 100 row w1).
  all: try (vm_compute; reflexivity).
  - split; reflexivity.
  - intros i y Hy. assert (Hrows : legacy_intents (durable w1) = {[ (100 : uuid) := row ]}) by (vm_compute; reflexivity).
    rewrite Hrows in Hy. apply lookup_singleton_Some in Hy as [<- <-]. vm_compute. reflexivity.
Defined.
