(* ===== verification/TwapSpec.v ===== *)
(** * What the TWAP worker does to the database

    Each step of [TwapWorker] as a function of the tables it runs on. *)

From S2P Require Import Prelude Decimal Datetime Errors Price TradingSession Twap Intent Tables Store CoreSchema Lifecycle Pagination Template Trigger Quotes CreateIntent TwapWorker.
From S2P Require IntentRepo LegacyRepo.

#[local] Open Scope string_scope.
#[local] Open Scope list_scope.
#[local] Open Scope Z_scope.

(** ** Tables after the statements *)

Definition slice_set (slice_id : uuid) (f : SliceRow -> SliceRow) (d : db) : db :=
  set_twap_slices (update_where (fun (i : uuid) _ => i =? slice_id) f (twap_slices d)) d.
Definition intent_set (intent_id : uuid) (f : LegacyRow -> LegacyRow) (d : db) : db :=
  set_legacy_intents (update_where (fun (i : uuid) _ => i =? intent_id) f (legacy_intents d)) d.
Definition noted (i : uuid) (r : NotificationRow) (d : db) : db :=
  set_notifications (<[i := r]> (notifications d)) d.

Definition twap_note (s : SliceRow) (type title body : string) (t : datetime) : NotificationRow :=
  mkNotification (ts_owner_user_id s) (Some (ts_trade_intent_id s)) None type title body None t t.

Definition pending_of (intent_id : uuid) (_ : uuid) (s : SliceRow) : bool :=
  (ts_trade_intent_id s =? intent_id) && String.eqb (ts_status s) "pending".

(** Completing the plan when no slice is pending. *)
Definition settled (intent_id : uuid) (now : datetime) (d : db) : db :=
  match legacy_intents d !! intent_id with
  | Some r =>
      if (count_where (pending_of intent_id) (twap_slices d) =? 0) && str_in (l_status r) ["scheduled"; "active"]
      then intent_set intent_id (intent_status "triggered" (Some now) now) d else d
  | None => d
  end.

Definition reference : Type := option (dec * string * datetime).
Definition ref_price (x : reference) : option dec := (fun y => fst (fst y)) <$> x.
Definition ref_type (x : reference) : option string := (fun y => snd (fst y)) <$> x.
Definition ref_time (x : reference) : option datetime := snd <$> x.
Definition ref_retry (x : reference) (now : datetime) : option datetime :=
  match x with None => Some (dt_add now (TWAP_PRICE_FOLLOWUP_DELAY_SECONDS * SECOND)) | Some _ => None end.

(** A slice notified under the id [n]. *)
Definition due_done (now : datetime) (slice_id intent_id : uuid) (r : LegacyRow) (x : reference) (n : uuid)
    (note : NotificationRow) (d : db) : db :=
  let d1 := slice_set slice_id (slice_notified n (ref_price x) (ref_type x) (ref_time x) (ref_retry x now) now) (noted n note d) in
  let d2 := if String.eqb (l_status r) "scheduled" then intent_set intent_id (intent_status "active" None now) d1 else d1 in
  settled intent_id now d2.

(** The text of a slice's notification. *)
Definition slice_text (r : LegacyRow) (s : SliceRow) (x : reference) : res (string * string) :=
  let? side := required "position_side" (l_position_side r) in
  let? total := required "slice count" (l_twap_materialized_slice_count r) in
  render_twap_slice (l_symbol r) side (ts_sequence_no s) total (ts_planned_quantity_lots s) (ref_price x) (ref_type x) (ref_time x).

Section Steps.
  Context {P : Type} `{QuoteProvider P}.
  Implicit Types w : world P.

(** The provider's answer as the worker reads it. *)
Definition reference_of (p : P) (symbol : string) (side : option string) : res reference :=
  match get_quotes p [symbol] with
  | Ok [] => Ok None
  | Ok (q :: _) => Ok (select_reference_price q side)
  | Raise e => if is_quote_provider_error e then Ok None else Raise e
  end.

Lemma reference_run symbol side w : get_reference_price symbol side w = (reference_of (provider w) symbol side, w).
Proof.
  unfold get_reference_price, or_provider_error, reference_of, try_except, bind, gets, lift.
  destruct (get_quotes (provider w) [symbol]) as [[|q l]|e]; [done..|]. by destruct (is_quote_provider_error e).
Qed.

Lemma slice_row_run i w : slice_row i w =
  (match twap_slices (pending w) !! i with Some s => Ok s | None => Raise (RuntimeError "ObjectDeletedError") end, w).
Proof. unfold slice_row, bind, query, gets. by destruct (twap_slices (pending w) !! i). Qed.
Lemma intent_row_run i w : intent_row i w =
  (match legacy_intents (pending w) !! i with Some r => Ok r | None => Raise (RuntimeError "ObjectDeletedError") end, w).
Proof. unfold intent_row, bind, query, gets. by destruct (legacy_intents (pending w) !! i). Qed.

Definition sent (m : message) w : world P :=
  mkWorld (durable w) (pending w) (provider w) (next_id w) (outbox w ++ [m]) (app_now w) (db_now w).

Lemma notify_run s type title body w : notify s type title body w =
  let note := twap_note s type title body (db_now w) in
  match notification_violation (next_id w) note (pending w) with
  | None => (Ok (next_id w), sent (mkMessage title body type) (with_pending (noted (next_id w) note (pending w)) (with_ids 1 w)))
  | Some c => (Raise (IntegrityError c), with_ids 1 w)
  end.
Proof.
  unfold notify, insert_notification. run_session. unfold id. cbn [pending db_now].
  change (mkNotification _ _ _ _ _ _ _ _ _) with (twap_note s type title body (db_now w)).
  by destruct (notification_violation _ _ _).
Qed.

Lemma set_slice_run i f w : set_slice i f w = (Ok tt, with_pending (slice_set i f (pending w)) w).
Proof. done. Qed.
Lemma set_intent_run i f w : set_intent i f w = (Ok tt, with_pending (intent_set i f (pending w)) w).
Proof. done. Qed.

Lemma complete_run i now w : is_some (legacy_intents (pending w) !! i) = true ->
  complete_intent_if_all_slices_done i now w = (Ok tt, with_pending (settled i now (pending w)) w).
Proof.
  intros Hi. unfold complete_intent_if_all_slices_done. unfold bind at 1, query, gets. unfold bind at 1. rewrite intent_row_run.
  unfold settled. destruct (legacy_intents (pending w) !! i) as [r|]; [|done]. fold (pending_of i).
  destruct ((count_where _ _ =? 0) && _); cbn [when]; [by rewrite set_intent_run|]. unfold ret. by destruct w.
Qed.

(** Why a slice cannot be notified. *)
Definition due_fails (now : datetime) (slice_id intent_id : uuid) w (e : exn) : Prop :=
  twap_slices (pending w) !! slice_id = None \/ legacy_intents (pending w) !! intent_id = None \/
  exists s r, twap_slices (pending w) !! slice_id = Some s /\ legacy_intents (pending w) !! intent_id = Some r /\
    (reference_of (provider w) (l_symbol r) (l_position_side r) = Raise e \/
     exists x, reference_of (provider w) (l_symbol r) (l_position_side r) = Ok x /\
       (l_position_side r = None \/ l_twap_materialized_slice_count r = None \/
        (exists side total, l_position_side r = Some side /\
           render_twap_slice (l_symbol r) side (ts_sequence_no s) total (ts_planned_quantity_lots s)
             (ref_price x) (ref_type x) (ref_time x) = Raise e) \/
        (exists title body, is_some (notification_violation (next_id w) (twap_note s "twap_slice" title body (db_now w)) (pending w)) = true) \/
        is_some (primary_violation (ref_price x) (ref_type x)) = true)).

Lemma process_due_cases now slice_id intent_id w a w' : process_due_slice now (slice_id, intent_id) w = (a, w') ->
  same_env w w' /\ provider w' = provider w /\
  match a with
  | Raise e => due_fails now slice_id intent_id w e
  | Ok _ => exists s r x title body,
      twap_slices (pending w) !! slice_id = Some s /\ legacy_intents (pending w) !! intent_id = Some r /\
      reference_of (provider w) (l_symbol r) (l_position_side r) = Ok x /\ slice_text r s x = Ok (title, body) /\
      let note := twap_note s "twap_slice" title body (db_now w) in
      notifications (pending w) !! next_id w = None /\ next_id w' = next_id w + 1 /\
      outbox w' = outbox w ++ [mkMessage title body "twap_slice"] /\
      pending w' = due_done now slice_id intent_id r x (next_id w) note (pending w)
  end.
Proof.
  unfold process_due_slice, due_fails. unfold bind at 1. rewrite slice_row_run.
  destruct (twap_slices (pending w) !! slice_id) as [s|] eqn:Hs; [|intros [= <- <-]; split; [done|]; split; [done|by left]].
  unfold bind at 1. rewrite intent_row_run.
  destruct (legacy_intents (pending w) !! intent_id) as [r|] eqn:Hr; [|intros [= <- <-]; split; [done|]; split; [done|by right; left]].
  unfold bind at 1. rewrite reference_run. destruct (reference_of _ _ _) as [x|e] eqn:Hx.
  2: { intros [= <- <-]. split; [done|]. split; [done|]. right; right. exists s, r. do 2 (split; [done|]). by left. }
  change ((fun x => fst (fst x)) <$> x) with (ref_price x). change ((fun x => snd (fst x)) <$> x) with (ref_type x).
  change (snd <$> x) with (ref_time x).
  unfold bind at 1, lift, required. destruct (l_position_side r) as [side|] eqn:Hside.
  2: { intros [= <- <-]. split; [done|]. split; [done|]. right; right. exists s, r. do 2 (split; [done|]). right.
       exists x. rewrite Hside. split; [done|]. by left. }
  unfold bind at 1, lift. destruct (l_twap_materialized_slice_count r) as [total|] eqn:Htotal.
  2: { intros [= <- <-]. split; [done|]. split; [done|]. right; right. exists s, r. do 2 (split; [done|]). right.
       exists x. rewrite Hside. split; [done|]. by right; left. }
  unfold bind at 1, lift. destruct (render_twap_slice _ _ _ _ _ _ _ _) as [[title body]|e] eqn:Hren.
  2: { intros [= <- <-]. split; [done|]. split; [done|]. right; right. exists s, r. do 2 (split; [done|]). right.
       exists x. rewrite Hside. split; [done|]. right; right; left. by exists side, total. }
  cbn [fst snd]. unfold bind at 1. rewrite notify_run. cbn zeta.
  destruct (notification_violation _ _ _) as [c|] eqn:Hnv.
  { intros [= <- <-]. split; [done|]. split; [done|]. right; right. exists s, r. do 2 (split; [done|]). right.
    exists x. rewrite Hside. split; [done|]. right; right; right; left. exists title, body. by rewrite Hnv. }
  unfold bind at 1, insert_checked. unfold bind at 1, query, gets.
  destruct (primary_violation (ref_price x) (ref_type x)) as [c|] eqn:Hpv.
  { intros [= <- <-]. split; [done|]. split; [done|]. right; right. exists s, r. do 2 (split; [done|]). right.
    exists x. rewrite Hside. split; [done|]. right; right; right; right. by rewrite Hpv. }
  unfold execute, modify. fold (ref_retry x now).
  assert (Habs : notifications (pending w) !! next_id w = None).
  { unfold notification_violation in Hnv. apply first_violation_none in Hnv. rewrite !Forall_cons in Hnv. cbn [fst] in Hnv.
    destruct Hnv as (_ & _ & Hn & _). by destruct (notifications (pending w) !! next_id w). }
  set (d1 := slice_set slice_id (slice_notified (next_id w) (ref_price x) (ref_type x) (ref_time x) (ref_retry x now) now)
    (noted (next_id w) (twap_note s "twap_slice" title body (db_now w)) (pending w))).
  set (w1 := with_pending _ _). assert (Hp1 : pending w1 = d1) by done.
  set (d2 := if String.eqb (l_status r) "scheduled" then intent_set intent_id (intent_status "active" None now) d1 else d1).
  unfold bind at 1. assert (Hwhen : when (String.eqb (l_status r) "scheduled") (set_intent intent_id (intent_status "active" None now)) w1 =
    (Ok tt, with_pending d2 w1)).
  { unfold d2. destruct (String.eqb (l_status r) "scheduled"); cbn [when]; [by rewrite set_intent_run|].
    unfold ret. rewrite <-Hp1. by destruct w1. }
  rewrite Hwhen, complete_run.
  2: { cbn [pending with_pending]. unfold d2, d1. destruct (String.eqb _ _); cbn; [rewrite lookup_update|]; by rewrite Hr. }
  intros [= <- <-]. split; [done|]. split; [done|]. exists s, r, x, title, body. unfold slice_text, required.
  rewrite Hside, Htotal. do 3 (split; [done|]). split; [exact Hren|]. split; [exact Habs|]. done.
Qed.

(** One attempt at the price of a slice. *)
Definition followup_none (now : datetime) (slice_id : uuid) (s : SliceRow) (d : db) : db :=
  let attempts := ts_price_followup_attempts s + 1 in
  let exhausted := TWAP_PRICE_FOLLOWUP_MAX_ATTEMPTS <=? attempts in
  slice_set slice_id (slice_retry attempts (negb exhausted && ts_price_followup_required s)
    (if exhausted then None else Some (dt_add now (TWAP_PRICE_FOLLOWUP_DELAY_SECONDS * SECOND))) now) d.
Definition followup_done (now : datetime) (slice_id : uuid) (s : SliceRow) (n : uuid) (note : NotificationRow) (d : db) : db :=
  slice_set slice_id (slice_followed_up (ts_price_followup_attempts s + 1) n now) (noted n note d).

Lemma process_followup_cases now slice_id intent_id w a w' : process_followup now (slice_id, intent_id) w = (a, w') ->
  same_env w w' /\ provider w' = provider w /\
  match a with
  | Raise e => True
  | Ok _ => exists s r x,
      twap_slices (pending w) !! slice_id = Some s /\ legacy_intents (pending w) !! intent_id = Some r /\
      reference_of (provider w) (l_symbol r) (l_position_side r) = Ok x /\
      match x with
      | None => next_id w' = next_id w /\ outbox w' = outbox w /\ pending w' = followup_none now slice_id s (pending w)
      | Some _ => exists title body,
          let note := twap_note s "twap_price_followup" title body (db_now w) in
          notifications (pending w) !! next_id w = None /\ next_id w' = next_id w + 1 /\
          outbox w' = outbox w ++ [mkMessage title body "twap_price_followup"] /\
          pending w' = followup_done now slice_id s (next_id w) note (pending w)
      end
  end.
Proof.
  unfold process_followup. unfold bind at 1. rewrite slice_row_run.
  destruct (twap_slices (pending w) !! slice_id) as [s|] eqn:Hs; [|by intros [= <- <-]].
  unfold bind at 1. rewrite intent_row_run. destruct (legacy_intents (pending w) !! intent_id) as [r|] eqn:Hr; [|by intros [= <- <-]].
  unfold bind at 1. rewrite reference_run. destruct (reference_of _ _ _) as [[[[price type] time]|]|e] eqn:Hx; [| |by intros [= <- <-]].
  2: { rewrite set_slice_run. intros [= <- <-]. do 2 (split; [done|]). by exists s, r, None. }
  unfold bind at 1, lift, required. destruct (l_twap_materialized_slice_count r) as [total|]; [|by intros [= <- <-]].
  unfold bind at 1, lift. destruct (render_twap_price_followup _ _ _ _ _ _) as [[title body]|e]; [|by intros [= <- <-]].
  cbn [fst snd]. unfold bind at 1. rewrite notify_run. cbn zeta.
  destruct (notification_violation _ _ _) as [c|] eqn:Hnv; [by intros [= <- <-]|].
  rewrite set_slice_run. intros [= <- <-]. do 2 (split; [done|]). exists s, r. eexists. do 3 (split; [done|]). cbn iota beta.
  exists title, body. split; [|done].
  unfold notification_violation in Hnv. apply first_violation_none in Hnv. rewrite !Forall_cons in Hnv. cbn [fst] in Hnv.
  destruct Hnv as (_ & _ & Hn & _). by destruct (notifications (pending w) !! next_id w).
Qed.

End Steps.
