(* ===== verification/TwapInv.v ===== *)
(** * What holds of every TWAP plan

    The invariant of the plans, their slices and their notifications, how the
    rows may change, and that every write of [TwapSpec] and of the repository
    keeps the one and follows the other. *)

From S2P Require Import Prelude Decimal Datetime Errors Price TradingSession Twap Intent Tables Store CoreSchema Lifecycle TwapWorker TwapPlanSpec TwapSpec.
From S2P Require LegacyRepo.

#[local] Open Scope string_scope.
#[local] Open Scope list_scope.
#[local] Open Scope Z_scope.

(** ** The invariant *)

(** A slice on its own: it carries a primary notification exactly when it is
    notified; a follow-up is wanted only of a notified slice without a price,
    while fewer than three attempts were made and none was sent. *)
Record slice_wf (s : SliceRow) : Prop := {
  wf_status : ts_status s ∈ ["pending"; "notified"; "cancelled"];
  wf_primary : is_some (ts_primary_notification_id s) = String.eqb (ts_status s) "notified";
  wf_untouched : ts_status s <> "notified" -> ts_price_followup_required s = false /\
    ts_price_followup_attempts s = 0 /\ ts_price_followup_notification_id s = None;
  wf_required : ts_price_followup_required s = true -> ts_price_followup_notification_id s = None /\
    ts_price_followup_attempts s < TWAP_PRICE_FOLLOWUP_MAX_ATTEMPTS /\ ts_primary_reference_price s = None;
  wf_attempts : 0 <= ts_price_followup_attempts s <= TWAP_PRICE_FOLLOWUP_MAX_ATTEMPTS;
  wf_followup : is_some (ts_price_followup_notification_id s) = true -> ts_primary_reference_price s = None;
}.

(** The notifications of one type and the slices that claim them: each claims a
    notification of its own plan and owner, none is claimed twice and none is
    left over. *)
Record claims_ok (kind : string) (claim : SliceRow -> option uuid) (m : gmap uuid SliceRow)
    (notes : gmap uuid NotificationRow) : Prop := {
  claimed_note : forall (i : uuid) s n, m !! i = Some s -> claim s = Some n -> exists note, notes !! n = Some note /\
    n_type note = kind /\ n_trade_intent_id note = Some (ts_trade_intent_id s) /\ n_owner_user_id note = ts_owner_user_id s;
  note_claimed : forall (n : uuid) note, notes !! n = Some note -> n_type note = kind -> exists (i : uuid) s,
    m !! i = Some s /\ claim s = Some n;
  claim_unique : forall (i j : uuid) s t n, m !! i = Some s -> m !! j = Some t -> claim s = Some n -> claim t = Some n -> i = j;
}.

(** Statuses of a plan that was closed with its slices. *)
Definition settled_status (status : string) : bool := str_in status ["triggered"; "expired"; "cancelled"].

Definition has_pending (k : uuid) (d : db) : Prop := exists (i : uuid) s,
  twap_slices d !! i = Some s /\ ts_trade_intent_id s = k /\ ts_status s = "pending".

(** [skip] names the plan that is being written. *)
Record plans_ok (skip : option uuid) (d : db) : Prop := {
  slices_wf : forall (i : uuid) s, twap_slices d !! i = Some s -> slice_wf s;
  primary_ok : claims_ok "twap_slice" ts_primary_notification_id (twap_slices d) (notifications d);
  followup_ok : claims_ok "twap_price_followup" ts_price_followup_notification_id (twap_slices d) (notifications d);
  slice_plan : forall (i : uuid) s, twap_slices d !! i = Some s -> exists r,
    legacy_intents d !! ts_trade_intent_id s = Some r /\ LegacyRepo.is_twap r = true;
  open_pending : forall (k : uuid) r, legacy_intents d !! k = Some r -> LegacyRepo.is_twap r = true ->
    is_open (l_status r) = true -> skip <> Some k -> has_pending k d;
  settled_done : forall (k : uuid) r, legacy_intents d !! k = Some r -> settled_status (l_status r) = true ->
    ~ has_pending k d;
}.
Definition twap_ok : db -> Prop := plans_ok None.

(** ** How rows change *)

Definition slice_evolves (a b : SliceRow) : Prop :=
  (ts_trade_intent_id b, ts_owner_user_id b, ts_symbol b, ts_sequence_no b, ts_scheduled_at b,
   ts_planned_quantity_lots b) =
  (ts_trade_intent_id a, ts_owner_user_id a, ts_symbol a, ts_sequence_no a, ts_scheduled_at a,
   ts_planned_quantity_lots a) /\
  (ts_status a <> "pending" -> ts_status b = ts_status a /\
     ts_primary_notification_id b = ts_primary_notification_id a /\ ts_notified_at b = ts_notified_at a /\
     ts_primary_reference_price b = ts_primary_reference_price a /\
     ts_primary_reference_price_type b = ts_primary_reference_price_type a) /\
  ts_price_followup_attempts a <= ts_price_followup_attempts b /\
  (is_some (ts_price_followup_notification_id a) = true ->
     ts_price_followup_notification_id b = ts_price_followup_notification_id a) /\
  (ts_status a <> "pending" -> ts_price_followup_required a = false -> ts_price_followup_required b = false).

Definition plan_evolves (a b : LegacyRow) : Prop :=
  LegacyRepo.is_twap b = LegacyRepo.is_twap a /\
  (LegacyRepo.is_twap a = true ->
     (l_owner_user_id b, l_symbol b, l_quantity_lots b, l_trading_date b, l_position_side b,
      l_twap_materialized_slice_count b) =
     (l_owner_user_id a, l_symbol a, l_quantity_lots a, l_trading_date a, l_position_side a,
      l_twap_materialized_slice_count a) /\
     (is_open (l_status a) = false -> l_status b = l_status a) /\
     (l_status b = "scheduled" -> l_status a = "scheduled")).

#[export] Instance slice_evolves_pre : PreOrder slice_evolves.
Proof.
  split; [by intros a; repeat split; auto|]. intros a b c (A1 & A2 & A3 & A4 & A5) (B1 & B2 & B3 & B4 & B5).
  split; [congruence|]. split.
  - intros Ha. destruct (A2 Ha) as (E1 & E2 & E3 & E4 & E5). assert (Hb : ts_status b <> "pending") by congruence.
    destruct (B2 Hb) as (F1 & F2 & F3 & F4 & F5). repeat split; congruence.
  - split; [lia|]. split.
    + intros Ha. rewrite <-(A4 Ha). apply B4. by rewrite (A4 Ha).
    + intros Ha Hr. apply B5; [|by apply A5]. by destruct (A2 Ha) as (-> & _).
Qed.
#[export] Instance plan_evolves_pre : PreOrder plan_evolves.
Proof.
  split; [by intros a; repeat split|]. intros a b c [A1 A2] [B1 B2]. split; [congruence|]. intros Ha.
  destruct (A2 Ha) as (E1 & E2 & E3). rewrite <-A1 in Ha. destruct (B2 Ha) as (F1 & F2 & F3).
  split; [congruence|]. split; [|auto]. intros Ho. rewrite <-(E2 Ho). apply F2. by rewrite (E2 Ho).
Qed.

Record twap_evolves (d d' : db) : Prop := {
  ev_slices : rows_evolve slice_evolves (twap_slices d) (twap_slices d');
  ev_plans : rows_evolve plan_evolves (legacy_intents d) (legacy_intents d');
}.
#[export] Instance twap_evolves_pre : PreOrder twap_evolves.
Proof.
  split; [intros d; split; apply rows_refl; apply _|].
  intros d1 d2 d3 [S1 L1] [S2 L2]. split; (eapply rows_trans; [apply _|eassumption..]).
Qed.

(** A write that keeps the invariant and follows the transitions. *)
Record moves (d d' : db) : Prop := { moves_ok : twap_ok d -> twap_ok d'; moves_evolves : twap_evolves d d' }.
#[export] Instance moves_pre : PreOrder moves.
Proof.
  split; [by intros d; split|]. intros d1 d2 d3 [O1 E1] [O2 E2]. split; [auto|]. by transitivity d2.
Qed.

(** ** Claims under the writes *)

Section Claims.
  Context (kind : string) (claim : SliceRow -> option uuid).
  Implicit Types (m : gmap uuid SliceRow) (notes : gmap uuid NotificationRow).

Definition same_claim (a b : SliceRow) : Prop :=
  claim b = claim a /\ ts_trade_intent_id b = ts_trade_intent_id a /\ ts_owner_user_id b = ts_owner_user_id a.

Lemma claims_update (p : uuid -> SliceRow -> bool) f m notes :
  (forall i s, m !! i = Some s -> p i s = true -> same_claim s (f s)) -> claims_ok kind claim m notes ->
  claims_ok kind claim (update_where p f m) notes.
Proof.
  intros Hf [Hn Hc Hu].
  assert (Hrow : forall i s', update_where p f m !! i = Some s' -> exists s, m !! i = Some s /\ same_claim s s').
  { intros i s' (s & Hs & ->)%lookup_update_Some. exists s. split; [done|]. destruct (p i s) eqn:Hp; [by eapply Hf|done]. }
  split.
  - intros i s' n Hs' Hcl. destruct (Hrow i s' Hs') as (s & Hs & Ec & Ei & Eo). rewrite Ec in Hcl. rewrite Ei, Eo. by eapply Hn.
  - intros n note Hnote Hk. destruct (Hc n note Hnote Hk) as (i & s & Hs & Hcl).
    exists i. rewrite lookup_update, Hs. cbn. eexists. split; [reflexivity|]. destruct (p i s) eqn:Hp; [|done].
    by destruct (Hf i s Hs Hp) as [-> _].
  - intros i j s' t' n Hs' Ht'. destruct (Hrow i s' Hs') as (s & Hs & -> & _). destruct (Hrow j t' Ht') as (t & Ht & -> & _).
    by apply Hu.
Qed.

Lemma claims_insert (i : uuid) s m notes : m !! i = None -> claim s = None -> claims_ok kind claim m notes ->
  claims_ok kind claim (<[i := s]> m) notes.
Proof.
  intros Hi Hs [Hn Hc Hu]. split.
  - intros j t n [[_ <-]|[_ Ht]]%lookup_insert_Some Hcl; [congruence|]. by eapply Hn.
  - intros n note Hnote Hk. destruct (Hc n note Hnote Hk) as (j & t & Ht & Hcl). exists j, t. split; [|done].
    rewrite lookup_insert_ne; [done|congruence].
  - intros j k t u n [[_ <-]|[_ Ht]]%lookup_insert_Some [[_ <-]|[_ Hu']]%lookup_insert_Some; try congruence. by apply Hu.
Qed.

Lemma claims_other (n : uuid) note m notes : notes !! n = None -> n_type note <> kind -> claims_ok kind claim m notes ->
  claims_ok kind claim m (<[n := note]> notes).
Proof.
  intros Hn0 Hk [Hn Hc Hu]. split; [|intros n' x [[_ <-]|[_ Hx]]%lookup_insert_Some Hx2; [done|by eapply Hc]|done].
  intros i s n' Hs Hcl. destruct (Hn i s n' Hs Hcl) as (x & Hx & Hrest). exists x. split; [|done].
  rewrite lookup_insert_ne; [done|congruence].
Qed.

(** A slice without a claim takes a new notification. *)
Lemma claims_take (i n : uuid) note s f m notes : notes !! n = None -> m !! i = Some s -> claim s = None ->
  claim (f s) = Some n -> ts_trade_intent_id (f s) = ts_trade_intent_id s -> ts_owner_user_id (f s) = ts_owner_user_id s ->
  n_type note = kind -> n_trade_intent_id note = Some (ts_trade_intent_id s) -> n_owner_user_id note = ts_owner_user_id s ->
  claims_ok kind claim m notes -> claims_ok kind claim (update_where (fun (j : uuid) _ => j =? i) f m) (<[n := note]> notes).
Proof.
  intros Hn0 Hi Hs Hf Ei Eo Hk Ki Ko [Hn Hc Hu].
  assert (Hrow : forall j t', update_where (fun (j : uuid) _ => j =? i) f m !! j = Some t' ->
    (j = i /\ t' = f s) \/ (j <> i /\ m !! j = Some t')).
  { intros j t' (t & Ht & ->)%lookup_update_Some. destruct (Z.eqb_spec j i) as [->|Hne]; [left|by right].
    split; [done|]. congruence. }
  assert (Hold : forall j t k, m !! j = Some t -> claim t = Some k -> k <> n).
  { intros j t k Ht Hcl ->. destruct (Hn j t n Ht Hcl) as (x & Hx & _). congruence. }
  split.
  - intros j t k Ht Hcl. destruct (Hrow j t Ht) as [[-> ->]|[Hne Ht2]].
    + rewrite Hf in Hcl. injection Hcl as <-. exists note. rewrite lookup_insert_eq, Ei, Eo. done.
    + destruct (Hn j t k Ht2 Hcl) as (x & Hx & Hrest). exists x. split; [|done]. rewrite lookup_insert_ne; [done|].
      intros ->. by eapply Hold.
  - intros k x [[<- <-]|[Hne Hx]]%lookup_insert_Some Hxk.
    + exists i, (f s). split; [|done]. rewrite lookup_update, Hi. cbn. by rewrite Z.eqb_refl.
    + destruct (Hc k x Hx Hxk) as (j & t & Ht & Hcl). exists j, t. split; [|done]. rewrite lookup_update, Ht. cbn.
      destruct (Z.eqb_spec j i) as [->|]; [|done]. congruence.
  - intros j k t u q Ht Hu' Hcl Hcu. destruct (Hrow j t Ht) as [[-> ->]|[Hnj Ht2]], (Hrow k u Hu') as [[-> ->]|[Hnk Hu2]].
    + done.
    + rewrite Hf in Hcl. injection Hcl as <-. by destruct (Hold k u n Hu2 Hcu).
    + rewrite Hf in Hcu. injection Hcu as <-. by destruct (Hold j t n Ht2 Hcl).
    + by eapply Hu.
Qed.

(** Other notifications may come, and those of the kind may be marked read. *)
Lemma claims_notes m notes notes' :
  (forall (n : uuid) x, notes !! n = Some x -> n_type x = kind -> exists y, notes' !! n = Some y /\ n_type y = kind /\
     n_trade_intent_id y = n_trade_intent_id x /\ n_owner_user_id y = n_owner_user_id x) ->
  (forall (n : uuid) y, notes' !! n = Some y -> n_type y = kind -> exists x, notes !! n = Some x /\ n_type x = kind) ->
  claims_ok kind claim m notes -> claims_ok kind claim m notes'.
Proof.
  intros Hf Hb [Hn Hc Hu]. split; [| |done].
  - intros i s n Hs Hcl. destruct (Hn i s n Hs Hcl) as (x & Hx & Hk & Hi & Ho).
    destruct (Hf n x Hx Hk) as (y & Hy & Hky & Hiy & Hoy). exists y. repeat split; congruence.
  - intros n y Hy Hk. destruct (Hb n y Hy Hk) as (x & Hx & Hkx). by eapply Hc.
Qed.
End Claims.

(** ** Writes of the slices alone *)

Definition is_pending (s : SliceRow) : Prop := ts_status s = "pending".

(** A change of a slice that keeps its claims and does not make it pending. *)
Record slice_step (a b : SliceRow) : Prop := {
  st_wf : slice_wf a -> slice_wf b;
  st_primary : same_claim ts_primary_notification_id a b;
  st_followup : same_claim ts_price_followup_notification_id a b;
  st_evolves : slice_wf a -> slice_evolves a b;
}.

Lemma update_slices_moves p f d : plans_ok None d ->
  (forall i s, twap_slices d !! i = Some s -> p i s = true -> slice_step s (f s) /\ (is_pending (f s) <-> is_pending s)) ->
  moves d (set_twap_slices (update_where p f (twap_slices d)) d).
Proof.
  intros [Hwf Hp Hf Hplan Hopen Hset] Hstep.
  assert (Hpend : forall k, has_pending k (set_twap_slices (update_where p f (twap_slices d)) d) <-> has_pending k d).
  { intros k. unfold has_pending. cbn. split.
    - intros (i & s' & (s & Hs & ->)%lookup_update_Some & Hk & Hpd). exists i, s. split; [done|].
      destruct (p i s) eqn:Hpi; [|done]. destruct (Hstep i s Hs Hpi) as [[_ (_ & E & _) _ _] Hiff]. rewrite E in Hk.
      split; [done|]. by apply Hiff.
    - intros (i & s & Hs & Hk & Hpd). exists i. rewrite lookup_update, Hs. cbn. eexists. split; [reflexivity|].
      destruct (p i s) eqn:Hpi; [|done]. destruct (Hstep i s Hs Hpi) as [[_ (_ & E & _) _ _] Hiff]. rewrite E.
      split; [done|]. by apply Hiff. }
  split.
  - intros _. split; cbn.
    + intros i s' (s & Hs & ->)%lookup_update_Some. destruct (p i s) eqn:Hpi; [|by eapply Hwf].
      apply (st_wf s); [by apply (Hstep i)|by eapply Hwf].
    + apply claims_update; [|done]. intros i s Hs Hpi. by apply (Hstep i s Hs Hpi).
    + apply claims_update; [|done]. intros i s Hs Hpi. by apply (Hstep i s Hs Hpi).
    + intros i s' (s & Hs & ->)%lookup_update_Some. destruct (p i s) eqn:Hpi; [|by eapply Hplan].
      destruct (Hstep i s Hs Hpi) as [[_ (_ & -> & _) _ _] _]. by eapply Hplan.
    + intros k r Hr Ht Ho Hk. apply Hpend. by eapply Hopen.
    + intros k r Hr Hs. rewrite Hpend. by eapply Hset.
  - split; cbn; [|apply rows_refl; apply _]. intros i s Hs. rewrite lookup_update, Hs. cbn. eexists. split; [reflexivity|].
    destruct (p i s) eqn:Hpi; [|done]. apply (Hstep i s Hs Hpi). by eapply Hwf.
Qed.

Lemma retry_step (s : SliceRow) next now : ts_price_followup_required s = true ->
  let attempts := ts_price_followup_attempts s + 1 in
  let exhausted := TWAP_PRICE_FOLLOWUP_MAX_ATTEMPTS <=? attempts in
  slice_step s (slice_retry attempts (negb exhausted && ts_price_followup_required s) next now s).
Proof.
  intros Hr. cbn zeta. split; [|done|done|].
  - intros [H1 H2 H3 H4 H5 H6]. destruct (H4 Hr) as (Hn & Ha & Hprice). unfold TWAP_PRICE_FOLLOWUP_MAX_ATTEMPTS in *.
    split; cbn [slice_retry ts_status ts_primary_notification_id ts_price_followup_required ts_price_followup_attempts
      ts_price_followup_notification_id ts_primary_reference_price]; unfold TWAP_PRICE_FOLLOWUP_MAX_ATTEMPTS; [done|done| | |lia|done].
    + intros Hne. destruct (H3 Hne) as (Hf & _). congruence.
    + rewrite Hr, andb_true_r. intros Hx%negb_true_iff%Z.leb_gt. split; [done|]. split; [lia|done].
  - intros _. split; [done|]. split; [done|]. cbn. split; [lia|]. split; [done|]. congruence.
Qed.

Lemma no_followup_step (s : SliceRow) now : slice_step s (slice_no_followup now s).
Proof.
  split; [|done|done|by intros _; repeat split].
  intros [H1 H2 H3 H4 H5 H6]. split; cbn; try done. intros Hne. by destruct (H3 Hne) as (_ & ? & ?).
Qed.

(** Cancelling a pending slice. *)
Lemma cancel_wf s now : ts_status s = "pending" -> slice_wf s -> slice_wf (slice_cancel now s).
Proof.
  intros Hs [H1 H2 H3 H4 H5 H6]. rewrite Hs in *. destruct (H3 ltac:(done)) as (_ & ? & ?). split; cbn; try done. set_solver.
Qed.
Lemma cancel_evolves s now : ts_status s = "pending" -> slice_evolves s (slice_cancel now s).
Proof. intros Hs. repeat split; cbn; try done; by rewrite Hs. Qed.

(** ** Notifying *)

Lemma update_one (i j : uuid) s (f : SliceRow -> SliceRow) (m : gmap uuid SliceRow) t :
  m !! i = Some s -> update_where (fun (k : uuid) _ => k =? i) f m !! j = Some t ->
  (j = i /\ t = f s) \/ (j <> i /\ m !! j = Some t).
Proof.
  intros Hi (u & Hu & ->)%lookup_update_Some. destruct (Z.eqb_spec j i) as [->|Hne]; [left|by right].
  split; [done|]. congruence.
Qed.

(** The notification and the slice, before the plan is looked at again. *)
Definition notified_slice (n : uuid) (x : reference) (now : datetime) : SliceRow -> SliceRow :=
  slice_notified n (ref_price x) (ref_type x) (ref_time x) (ref_retry x now) now.

Lemma notified_wf n x now s : ts_status s = "pending" -> slice_wf s -> slice_wf (notified_slice n x now s).
Proof.
  intros Hs [H1 H2 H3 H4 H5 H6]. rewrite Hs in *. destruct (H3 ltac:(done)) as (_ & Ha & Hf).
  unfold notified_slice. split; cbn; rewrite ?Hf, ?Ha; try done; [set_solver|]. unfold TWAP_PRICE_FOLLOWUP_MAX_ATTEMPTS.
  destruct (ref_price x); [done|]. intros _. split; [done|]. split; [lia|done].
Qed.

Lemma slice_noted_ok (i n : uuid) s x title body now t d : twap_slices d !! i = Some s -> ts_status s = "pending" ->
  notifications d !! n = None -> twap_ok d ->
  plans_ok (Some (ts_trade_intent_id s))
    (slice_set i (notified_slice n x now) (noted n (twap_note s "twap_slice" title body t) d)).
Proof.
  intros Hi Hs Hn [Hwf Hp Hf Hplan Hopen Hset]. pose proof (Hwf i s Hi) as Hw.
  assert (Hnone : ts_primary_notification_id s = None).
  { pose proof (wf_primary s Hw) as H. rewrite Hs in H. cbn in H. by destruct (ts_primary_notification_id s). }
  split; cbn.
  - intros j t' Ht. destruct (update_one i j s _ _ t' Hi Ht) as [[-> ->]|[_ Ht2]]; [by apply notified_wf|by eapply Hwf].
  - by eapply claims_take.
  - apply claims_other; [done|done|]. apply claims_update; [|done]. by intros j t' _ _.
  - intros j t' Ht. destruct (update_one i j s _ _ t' Hi Ht) as [[-> ->]|[_ Ht2]]; [exact (Hplan i s Hi)|by eapply Hplan].
  - intros k r Hr Ht Ho Hk. destruct (Hopen k r Hr Ht Ho ltac:(done)) as (j & t' & Hj & Hkj & Hpd).
    assert (j <> i) by congruence. exists j, t'. split; [|done]. cbn. rewrite lookup_update, Hj. cbn.
    by destruct (Z.eqb_spec j i).
  - intros k r Hr Hst (j & t' & Ht & Hk & Hpd). cbn in Ht. destruct (update_one i j s _ _ t' Hi Ht) as [[-> ->]|[_ Ht2]]; [done|].
    apply (Hset k r Hr Hst). by exists j, t'.
Qed.

Lemma slice_noted_evolves (i n : uuid) s x note now d : twap_slices d !! i = Some s -> ts_status s = "pending" -> slice_wf s ->
  twap_evolves d (slice_set i (notified_slice n x now) (noted n note d)).
Proof.
  intros Hi Hs Hw. split; [|apply rows_refl; apply _]. intros j t Ht. cbn. rewrite lookup_update, Ht. cbn.
  eexists. split; [reflexivity|]. destruct (Z.eqb_spec j i) as [->|]; [|done]. assert (t = s) as -> by congruence.
  destruct (wf_untouched s Hw) as (Hr & Ha & Hf); [by rewrite Hs|]. split; [done|]. split; [by rewrite Hs|]. cbn.
  rewrite Ha, Hf, Hs. done.
Qed.

(** ** Writes of the plans *)

Lemma update_plans_ok skip p f d :
  (forall (k : uuid) r, legacy_intents d !! k = Some r -> p k r = true -> LegacyRepo.is_twap (f r) = LegacyRepo.is_twap r /\
     (is_open (l_status (f r)) = true -> is_open (l_status r) = true) /\
     (settled_status (l_status (f r)) = true -> settled_status (l_status r) = true \/ ~ has_pending k d)) ->
  plans_ok skip d -> plans_ok skip (set_legacy_intents (update_where p f (legacy_intents d)) d).
Proof.
  intros Hf0 [Hwf Hp Hf Hplan Hopen Hset]. split; [done..| | |]; cbn.
  - intros i s Hs. destruct (Hplan i s Hs) as (r & Hr & Ht). rewrite lookup_update, Hr. cbn. eexists. split; [reflexivity|].
    destruct (p _ r) eqn:Hpr; [|done]. destruct (Hf0 _ r Hr Hpr) as (-> & _). done.
  - intros k r' (r & Hr & ->)%lookup_update_Some. destruct (p k r) eqn:Hpr; [|by apply Hopen].
    destruct (Hf0 k r Hr Hpr) as (Et & Eo & _). rewrite Et. intros Ht Ho. by apply (Hopen k r Hr Ht (Eo Ho)).
  - intros k r' (r & Hr & ->)%lookup_update_Some. destruct (p k r) eqn:Hpr; [|by apply Hset].
    destruct (Hf0 k r Hr Hpr) as (_ & _ & Es). intros Hs. destruct (Es Hs) as [H|H]; [by apply (Hset k r)|done].
Qed.
Lemma update_plans_evolves p f d :
  (forall (k : uuid) r, legacy_intents d !! k = Some r -> p k r = true -> plan_evolves r (f r)) ->
  twap_evolves d (set_legacy_intents (update_where p f (legacy_intents d)) d).
Proof.
  intros Hf. split; [apply rows_refl; apply _|]. intros k r Hr. cbn. rewrite lookup_update, Hr. cbn. eexists.
  split; [reflexivity|]. destruct (p k r) eqn:Hp; [by eapply Hf|done].
Qed.

Lemma pending_of_has k d : count_where (pending_of k) (twap_slices d) <> 0 <-> has_pending k d.
Proof.
  rewrite count_zero. unfold has_pending, pending_of. split.
  - intros Hn. destruct (select_where (pending_of k) (twap_slices d)) as [|[i s] l] eqn:Hsel.
    + destruct Hn. exact (proj1 (select_empty _ _) Hsel).
    + assert (Hin : (i, s) ∈ select_where (pending_of k) (twap_slices d)) by (rewrite Hsel; by left).
      apply elem_of_select in Hin as [Hs Hp]. unfold pending_of in Hp. b2p. by exists i, s.
  - intros (i & s & Hs & Hk & Hpd) Hn. pose proof (Hn i s Hs) as H. rewrite Hk, Hpd, Z.eqb_refl in H. discriminate H.
Qed.

Lemma unskip k d : (forall r, legacy_intents d !! k = Some r -> is_open (l_status r) = true -> has_pending k d) ->
  plans_ok (Some k) d -> twap_ok d.
Proof.
  intros Hk [Hwf Hp Hf Hplan Hopen Hset]. split; [done..| |done]. intros j r Hr Ht Ho _.
  destruct (decide (j = k)) as [->|Hne]; [by eapply Hk|]. apply (Hopen j r Hr Ht Ho). congruence.
Qed.

Lemma open_alt status : str_in status ["scheduled"; "active"] = is_open status.
Proof. unfold is_open, str_in. cbn. by destruct (status =? "scheduled")%string, (status =? "active")%string. Qed.

Lemma settled_ok k now d : plans_ok (Some k) d -> twap_ok (settled k now d).
Proof.
  intros Hok. unfold settled. destruct (legacy_intents d !! k) as [r|] eqn:Hr; [|apply (unskip k); [congruence|done]].
  rewrite open_alt. destruct ((count_where _ _ =? 0) && is_open (l_status r)) eqn:Hc.
  - apply andb_true_iff in Hc as [Hc _]. apply (unskip k).
    + cbn. intros r'. rewrite lookup_update, Hr. cbn. rewrite Z.eqb_refl. by intros [= <-].
    + apply update_plans_ok; [|done]. intros j r' Hj ->%Z.eqb_eq. split; [done|]. split; [done|]. intros _. right.
      rewrite <-pending_of_has. b2p. by rewrite Hc; intros [].
  - apply (unskip k); [|done]. intros r'. rewrite Hr. intros [= <-] Ho. rewrite Ho, andb_true_r in Hc.
    apply pending_of_has. by apply Z.eqb_neq.
Qed.
Lemma status_evolves st t now r : is_open (l_status r) = true -> st <> "scheduled" -> plan_evolves r (intent_status st t now r).
Proof. intros Ho Hst. split; [done|]. intros _. split; [done|]. split; [|done]. by rewrite Ho. Qed.

Lemma settled_evolves k now d : twap_evolves d (settled k now d).
Proof.
  unfold settled. destruct (legacy_intents d !! k) as [r|] eqn:Hr; [|done]. rewrite open_alt.
  destruct (_ && is_open _) eqn:Hc; [|done]. apply andb_true_iff in Hc as [_ Ho]. apply update_plans_evolves.
  intros j r' Hj ->%Z.eqb_eq. assert (r' = r) as -> by congruence. by apply status_evolves.
Qed.

(** Notifying a pending slice, the plan included. *)
Lemma due_moves now (i n : uuid) s r x title body t d : twap_slices d !! i = Some s -> ts_status s = "pending" ->
  legacy_intents d !! ts_trade_intent_id s = Some r -> notifications d !! n = None -> twap_ok d ->
  moves d (due_done now i (ts_trade_intent_id s) r x n (twap_note s "twap_slice" title body t) d).
Proof.
  intros Hi Hs Hr Hn Hok. set (k := ts_trade_intent_id s) in *. unfold due_done. cbn zeta.
  change (slice_notified n (ref_price x) (ref_type x) (ref_time x) (ref_retry x now) now) with (notified_slice n x now).
  set (note := twap_note s "twap_slice" title body t). set (d1 := slice_set i (notified_slice n x now) (noted n note d)).
  pose proof (slice_noted_ok i n s x title body now t d Hi Hs Hn Hok) as H1. fold note d1 k in H1.
  assert (E1 : twap_evolves d d1).
  { apply (slice_noted_evolves i n s); [done..|]. by apply (slices_wf _ _ Hok i). }
  destruct (String.eqb_spec (l_status r) "scheduled") as [Hsch|_]; (split; [intros _; apply settled_ok|]).
  - apply update_plans_ok; [|done]. intros j r' Hj ->%Z.eqb_eq. cbn in Hj. assert (r' = r) as -> by congruence.
    split; [done|]. rewrite Hsch. by split.
  - etransitivity; [exact E1|]. etransitivity; [|apply settled_evolves]. apply update_plans_evolves.
    intros j r' Hj ->%Z.eqb_eq. cbn in Hj. assert (r' = r) as -> by congruence. apply status_evolves; [by rewrite Hsch|done].
  - done.
  - etransitivity; [exact E1|]. apply settled_evolves.
Qed.

(** The two outcomes of a follow-up. *)
Lemma followup_none_moves now (i : uuid) s d : twap_slices d !! i = Some s -> ts_price_followup_required s = true ->
  twap_ok d -> moves d (followup_none now i s d).
Proof.
  intros Hi Hr Hok. apply update_slices_moves; [done|]. intros j t Hj ->%Z.eqb_eq. assert (t = s) as -> by congruence.
  split; [by apply retry_step|done].
Qed.

Lemma followed_up_wf n now s : ts_price_followup_required s = true -> slice_wf s ->
  slice_wf (slice_followed_up (ts_price_followup_attempts s + 1) n now s).
Proof.
  intros Hr [H1 H2 H3 H4 H5 H6]. destruct (H4 Hr) as (Hn & Ha & Hp). unfold TWAP_PRICE_FOLLOWUP_MAX_ATTEMPTS in *.
  split; cbn; unfold TWAP_PRICE_FOLLOWUP_MAX_ATTEMPTS; [done|done| |done|lia|done].
  intros Hne. destruct (H3 Hne) as (Hf & _). congruence.
Qed.

Lemma followup_done_moves now (i n : uuid) s title body t d : twap_slices d !! i = Some s ->
  ts_price_followup_required s = true -> notifications d !! n = None -> twap_ok d ->
  moves d (followup_done now i s n (twap_note s "twap_price_followup" title body t) d).
Proof.
  intros Hi Hr Hn Hok. pose proof Hok as [Hwf Hp Hf Hplan Hopen Hset]. pose proof (Hwf i s Hi) as Hw.
  destruct (wf_required s Hw Hr) as (Hnone & Ha & Hprice).
  assert (Hst : ts_status s <> "pending").
  { intros E. destruct (wf_untouched s Hw) as (H & _); [by rewrite E|]. congruence. }
  set (f := slice_followed_up (ts_price_followup_attempts s + 1) n now). split; [intros _; split; cbn; fold f|].
  - intros j t' Ht. destruct (update_one i j s _ _ t' Hi Ht) as [[-> ->]|[_ Ht2]]; [by apply followed_up_wf|by eapply Hwf].
  - apply claims_other; [done|done|]. apply claims_update; [|done]. by intros j t' _ _.
  - by eapply claims_take.
  - intros j t' Ht. destruct (update_one i j s _ _ t' Hi Ht) as [[-> ->]|[_ Ht2]]; [exact (Hplan i s Hi)|by eapply Hplan].
  - intros k r Hk Ht Ho Hskip. destruct (Hopen k r Hk Ht Ho Hskip) as (j & t' & Hj & Hkj & Hpd). assert (j <> i) by congruence.
    exists j, t'. split; [|done]. cbn. rewrite lookup_update, Hj. cbn. by destruct (Z.eqb_spec j i).
  - intros k r Hk Hset' (j & t' & Ht & Hkj & Hpd). cbn in Ht. fold f in Ht.
    destruct (update_one i j s _ _ t' Hi Ht) as [[-> ->]|[_ Ht2]]; [done|]. apply (Hset k r Hk Hset'). by exists j, t'.
  - split; [|apply rows_refl; apply _]. intros j t' Ht. cbn. fold f. rewrite lookup_update, Ht. cbn. eexists. split; [reflexivity|].
    destruct (Z.eqb_spec j i) as [->|]; [|done]. assert (t' = s) as -> by congruence. split; [done|]. split; [done|].
    cbn. split; [lia|]. split; [by rewrite Hnone|done].
Qed.

(** ** Closing plans together with their slices *)

Definition closing (p : uuid -> LegacyRow -> bool) (q : uuid -> SliceRow -> bool) (f : LegacyRow -> LegacyRow)
    (now : datetime) (d : db) : db :=
  set_twap_slices (update_where q (slice_cancel now) (twap_slices d))
    (set_legacy_intents (update_where p f (legacy_intents d)) d).

Section Closing.
  Context (p : uuid -> LegacyRow -> bool) (q : uuid -> SliceRow -> bool) (f : LegacyRow -> LegacyRow) (now : datetime) (d : db).
  Context (Hrow : forall (k : uuid) r, legacy_intents d !! k = Some r -> p k r = true -> is_open (l_status r) = true).
  Context (Hf : forall r, LegacyRepo.is_twap (f r) = LegacyRepo.is_twap r /\ is_open (l_status (f r)) = false /\
                  (is_open (l_status r) = true -> plan_evolves r (f r))).
  Context (Hslice : forall (i : uuid) s, twap_slices d !! i = Some s -> q i s = true <->
             ts_status s = "pending" /\ exists r, legacy_intents d !! ts_trade_intent_id s = Some r /\ p (ts_trade_intent_id s) r = true).
  Context (Hok : twap_ok d).

Lemma closing_slices (i : uuid) s : twap_slices (closing p q f now d) !! i = Some s ->
  exists t, twap_slices d !! i = Some t /\ ts_trade_intent_id s = ts_trade_intent_id t /\
    ((q i t = true /\ s = slice_cancel now t) \/ (q i t = false /\ s = t)).
Proof.
  cbn. intros (t & Ht & ->)%lookup_update_Some. exists t. split; [done|]. destruct (q i t); [split; [done|by left]|].
  split; [done|by right].
Qed.

Lemma closing_pending k : has_pending k (closing p q f now d) -> has_pending k d /\
  forall r, legacy_intents d !! k = Some r -> p k r = false.
Proof.
  intros (i & s & Hs & Hk & Hpd). destruct (closing_slices i s Hs) as (t & Ht & Ei & [[_ ->]|[Hq ->]]); [done|].
  split; [by exists i, t|]. intros r Hr. destruct (p k r) eqn:Hp; [|done]. exfalso.
  apply not_true_iff_false in Hq. apply Hq, Hslice; [done|]. split; [done|]. exists r. by rewrite Hk.
Qed.

Lemma closing_ok : twap_ok (closing p q f now d).
Proof.
  pose proof Hok as [Hwf Hp Hfo Hplan Hopen Hset].
  assert (Hpd : forall i s, twap_slices d !! i = Some s -> q i s = true -> ts_status s = "pending") by (intros i s Hs Hq; by apply (Hslice i s Hs)).
  split.
  - intros i s Hs. destruct (closing_slices i s Hs) as (t & Ht & _ & [[Hq ->]|[_ ->]]); [|by eapply Hwf].
    apply cancel_wf; [by eapply Hpd|by eapply Hwf].
  - apply claims_update; [|done]. by intros i s _ _.
  - apply claims_update; [|done]. by intros i s _ _.
  - intros i s Hs. destruct (closing_slices i s Hs) as (t & Ht & -> & _). destruct (Hplan i t Ht) as (r & Hr & Htw).
    cbn. rewrite lookup_update, Hr. cbn. eexists. split; [reflexivity|]. destruct (p _ r); [|done]. by rewrite (proj1 (Hf r)).
  - cbn -[is_open settled_status]. intros k r' (r & Hr & ->)%lookup_update_Some. destruct (p k r) eqn:Hpk.
    + intros _ Ho. destruct (Hf r) as (_ & Hno & _). exfalso. congruence.
    + intros Htw Ho Hk. destruct (Hopen k r Hr Htw Ho Hk) as (i & s & Hs & Hks & Hps). exists i, s. split; [|done].
      cbn. rewrite lookup_update, Hs. cbn. destruct (q i s) eqn:Hq; [|done]. exfalso.
      apply (Hslice i s Hs) in Hq as (_ & r' & Hr' & Hpr'). rewrite Hks in Hr', Hpr'. congruence.
  - cbn -[is_open settled_status]. intros k r' (r & Hr & ->)%lookup_update_Some Hs Hpend. destruct (closing_pending k Hpend) as [Hpend' Hno].
    rewrite (Hno r Hr) in Hs. by apply (Hset k r Hr Hs).
Qed.

Lemma closing_moves : moves d (closing p q f now d).
Proof.
  split; [intros _; exact closing_ok|]. split; cbn.
  - intros i s Hs. rewrite lookup_update, Hs. cbn. eexists. split; [reflexivity|]. destruct (q i s) eqn:Hq; [|done].
    apply cancel_evolves. by apply (Hslice i s Hs).
  - intros k r Hr. rewrite lookup_update, Hr. cbn. eexists. split; [reflexivity|]. destruct (p k r) eqn:Hp; [|done].
    by apply (Hf r), (Hrow k).
Qed.
End Closing.

Lemma closed_row_evolves st c t now r : is_open (l_status r) = true -> st <> "scheduled" ->
  plan_evolves r (legacy_set st c t (l_last_fill_at r) (l_filled_quantity_lots r) now r).
Proof. intros Ho Hst. split; [done|]. intros _. split; [done|]. split; [by rewrite Ho|done]. Qed.

(** ** A new plan *)

Lemma stored_slices owner symbol plan status now n d (j : uuid) s :
  twap_slices (stored owner symbol plan status now n d) !! j = Some s ->
  (exists p, s = LegacyRepo.slice_row_of n owner symbol now p) \/ twap_slices d !! j = Some s.
Proof.
  unfold stored. rewrite with_slices_lookup. cbn [twap_slices set_legacy_intents]. destruct (_ && _); [|by right].
  intros (p & _ & ->)%fmap_Some. left. by exists p.
Qed.

Lemma with_slices_claims kind claim f l : forall n d, (forall p, claim (f p) = None) ->
  Forall (fun x => twap_slices d !! fst x = None) (numbered n l) ->
  claims_ok kind claim (twap_slices d) (notifications d) ->
  claims_ok kind claim (twap_slices (with_slices f (numbered n l) d)) (notifications d).
Proof.
  induction l as [|s l IH]; intros n d Hc Habs Hok; [done|]. cbn [numbered] in *. apply Forall_cons in Habs as [Hn Habs].
  change (with_slices f ((n, s) :: numbered (n + 1) l) d) with (with_slices f (numbered (n + 1) l) (with_slice n (f s) d)).
  apply (IH (n + 1) (with_slice n (f s) d)); [done| |by apply claims_insert].
  apply Forall_lookup. intros k [j t] Hk. cbn. pose proof (proj1 (Forall_lookup _ _) Habs _ _ Hk) as Hj. cbn in Hj.
  apply numbered_lookup_gt in Hk. rewrite lookup_insert_ne; [done|lia].
Qed.

Lemma stored_moves owner symbol plan status now (n : uuid) d : slices plan <> [] -> is_open status = true ->
  legacy_intents d !! n = None -> Forall (fun x => twap_slices d !! fst x = None) (numbered (n + 1) (slices plan)) ->
  twap_ok d -> moves d (stored owner symbol plan status now n d).
Proof.
  intros Hne Ho Habs Hids Hok. pose proof Hok as [Hwf Hp Hf Hplan Hopen Hset].
  set (row := LegacyRepo.twap_row owner symbol plan TWAP_EXECUTION_MODE TWAP_TIME_IN_FORCE status TWAP_TRIGGER_REFERENCE_PRICE_TYPE now).
  set (f := LegacyRepo.slice_row_of n owner symbol now). set (d1 := set_legacy_intents (<[n := row]> (legacy_intents d)) d).
  destruct (with_slices_frame f (numbered (n + 1) (slices plan)) d1) as (Hleg & _ & _ & Hnotes).
  assert (Hlookup : forall (j : uuid) s, twap_slices d !! j = Some s -> twap_slices (stored owner symbol plan status now n d) !! j = Some s).
  { intros j s Hj. unfold stored. rewrite with_slices_lookup. destruct (_ && _) eqn:Hr; [|exact Hj].
    by rewrite (numbered_absent _ _ _ Hids j Hr) in Hj. }
  assert (Hnp : forall r, legacy_intents d !! n = Some r -> False) by congruence.
  split; [intros _; split|].
  - intros j s Hj. destruct (stored_slices _ _ _ _ _ _ _ _ _ Hj) as [(p & ->)|Hj2]; [|by eapply Hwf].
    split; cbn; try done. set_solver.
  - unfold stored. fold row f d1. rewrite Hnotes. by apply (with_slices_claims _ _ f (slices plan) (n + 1) d1).
  - unfold stored. fold row f d1. rewrite Hnotes. by apply (with_slices_claims _ _ f (slices plan) (n + 1) d1).
  - intros j s Hj. unfold stored. fold row f d1. rewrite Hleg. cbn.
    destruct (stored_slices _ _ _ _ _ _ _ _ _ Hj) as [(p & ->)|Hj2]; [exists row; by rewrite lookup_insert_eq|].
    destruct (Hplan j s Hj2) as (r & Hr & Ht). exists r. split; [|done]. rewrite lookup_insert_ne; [done|congruence].
  - unfold stored at 1. fold row f d1. rewrite Hleg. cbn -[is_open settled_status]. intros k r [[<- <-]|[Hk Hr]]%lookup_insert_Some Ht Hor Hskip.
    + destruct (slices plan) as [|p l] eqn:Hsl; [done|]. exists (n + 1), (f p). split; [|done]. unfold stored. fold row f d1.
      rewrite with_slices_lookup, Hsl. replace ((n + 1 <=? n + 1) && (n + 1 <? n + 1 + Z.of_nat (length (p :: l)))) with true.
      * by rewrite Z.sub_diag.
      * symmetry. apply andb_true_iff. split; [apply Z.leb_refl|]. apply Z.ltb_lt. cbn [length]. lia.
    + destruct (Hopen k r Hr Ht Hor Hskip) as (j & s & Hj & Hkj). exists j, s. split; [by apply Hlookup|done].
  - unfold stored at 1. fold row f d1. rewrite Hleg. cbn -[is_open settled_status]. intros k r [[<- <-]|[Hk Hr]]%lookup_insert_Some Hs.
    + exfalso. cbn in Hs. unfold is_open, str_in in Ho. unfold settled_status, str_in in Hs. cbn in Ho, Hs.
      destruct (String.eqb_spec status "active") as [->|]; [done|]. by destruct (String.eqb_spec status "scheduled") as [->|].
    + intros (j & s & Hj & Hkj & Hpd). apply (Hset k r Hr Hs). destruct (stored_slices _ _ _ _ _ _ _ _ _ Hj) as [(p & ->)|Hj2]; [done|].
      by exists j, s.
  - split; [intros j s Hj; exists s; by rewrite (Hlookup j s Hj)|]. unfold stored. fold row f d1. rewrite Hleg. cbn.
    by apply rows_insert; [apply _|].
Qed.

(** ** What the rest of the program may do *)

(** It leaves plans and slices alone, and the notifications of slices except
    that they may be marked read. *)
Definition slice_kinds : list string := ["twap_slice"; "twap_price_followup"].
Record outside (d d' : db) : Prop := {
  out_slices : twap_slices d' = twap_slices d;
  out_plans : forall (k : uuid) r, legacy_intents d !! k = Some r -> exists r', legacy_intents d' !! k = Some r' /\
    LegacyRepo.is_twap r' = LegacyRepo.is_twap r /\ (LegacyRepo.is_twap r = true -> r' = r);
  out_new : forall (k : uuid) r, legacy_intents d !! k = None -> legacy_intents d' !! k = Some r -> LegacyRepo.is_twap r = false;
  out_notes : forall (n : uuid) x, notifications d !! n = Some x -> n_type x ∈ slice_kinds ->
    exists y, notifications d' !! n = Some y /\ n_type y = n_type x /\ n_trade_intent_id y = n_trade_intent_id x /\
      n_owner_user_id y = n_owner_user_id x;
  out_no_notes : forall (n : uuid) y, notifications d' !! n = Some y -> n_type y ∈ slice_kinds ->
    exists x, notifications d !! n = Some x /\ n_type x = n_type y;
}.

Lemma outside_claims kind claim d d' m : kind ∈ slice_kinds -> outside d d' ->
  claims_ok kind claim m (notifications d) -> claims_ok kind claim m (notifications d').
Proof.
  intros Hk [_ _ _ Hn Hno]. apply claims_notes.
  - intros n x Hx <-. destruct (Hn n x Hx Hk) as (y & Hy & Ht & Hi & Ho). by exists y.
  - intros n y Hy <-. by apply (Hno n y).
Qed.

Lemma outside_moves d d' : outside d d' -> moves d d'.
Proof.
  intros Hout. pose proof Hout as [Hs Hpl Hnew _ _]. split.
  - intros [Hwf Hp Hf Hplan Hopen Hset].
    assert (Hback : forall (k : uuid) r, legacy_intents d' !! k = Some r -> LegacyRepo.is_twap r = true -> legacy_intents d !! k = Some r).
    { intros k r Hr Ht. destruct (legacy_intents d !! k) as [r0|] eqn:H0; [|by rewrite (Hnew k r H0 Hr) in Ht].
      destruct (Hpl k r0 H0) as (r1 & Hr1 & E & Heq). rewrite Hr in Hr1. injection Hr1 as <-. rewrite E in Ht.
      by rewrite (Heq Ht). }
    split; rewrite ?Hs; [done|by apply (outside_claims _ _ d); [set_solver|..]|by apply (outside_claims _ _ d); [set_solver|..]| | |].
    + intros i s Hi. destruct (Hplan i s Hi) as (r & Hr & Ht). destruct (Hpl _ r Hr) as (r' & Hr' & E & _).
      exists r'. split; [done|congruence].
    + intros k r Hr Ht Ho Hk. destruct (Hopen k r (Hback k r Hr Ht) Ht Ho Hk) as (i & s & Hi & Hrest). exists i, s. by rewrite Hs.
    + intros k r Hr Hst (i & s & Hi & Hk & Hpd). rewrite Hs in Hi. destruct (Hplan i s Hi) as (r0 & Hr0 & Ht0). rewrite Hk in Hr0.
      destruct (Hpl k r0 Hr0) as (r1 & Hr1 & _ & Heq). rewrite (Heq Ht0), Hr in Hr1. injection Hr1 as <-.
      apply (Hset k r Hr0 Hst). by exists i, s.
  - split; [rewrite Hs; apply rows_refl; apply _|]. intros k r Hr. destruct (Hpl k r Hr) as (r' & Hr' & E & Heq). exists r'.
    split; [done|]. split; [done|]. intros Ht. by rewrite (Heq Ht).
Qed.
