(* ===== verification/TwapLife.v ===== *)
(** * The life of a TWAP plan

    Confirmation, the two phases of the worker, cancellation, the disabling of
    the owner and whatever else the program does in between, as steps on the
    database; the invariant of [TwapInv] over all of them, and what one pass of
    the worker delivers. *)

From S2P Require Import Prelude Decimal Datetime Errors Price TradingSession Twap Intent Tables Store CoreSchema Lifecycle Pagination Samples Template Trigger Quotes CreateIntent AuthRepos AuditLog Account AccountSpec LegacyCommands TwapWorker TwapPlanSpec TwapSpec TwapInv.
From S2P Require IntentRepo LegacyRepo.

#[local] Open Scope string_scope.
#[local] Open Scope list_scope.
#[local] Open Scope Z_scope.

(** ** The lifecycle of the legacy track *)

Section Sweep.
  Context {P : Type}.
  Implicit Types w : world P.

Definition over (cutoff : date) (_ : uuid) (r : LegacyRow) : bool := is_open (l_status r) && (l_trading_date r <=? cutoff).
Definition over_slice (cutoff : date) (d : db) (_ : uuid) (s : SliceRow) : bool :=
  existsb (Z.eqb (ts_trade_intent_id s)) (fst <$> select_where (over cutoff) (legacy_intents d)) && String.eqb (ts_status s) "pending".
Definition expired (cutoff : date) (now : datetime) (d : db) : db :=
  closing (over cutoff) (over_slice cutoff d) (LegacyRepo.with_status "expired" now) now d.

Lemma set_slices_same d : set_twap_slices (twap_slices d) d = d.
Proof. by destruct d. Qed.
Lemma set_plans_same d : set_legacy_intents (legacy_intents d) d = d.
Proof. by destruct d. Qed.

Lemma expire_run cutoff now w : exists n, LegacyRepo.system_expire_day_intents_through cutoff now w =
  (Ok n, with_pending (expired cutoff now (pending w)) w) /\ (n = 0 -> expired cutoff now (pending w) = pending w).
Proof.
  unfold LegacyRepo.system_expire_day_intents_through. unfold bind at 1, query, gets. fold (over cutoff).
  set (ids := fst <$> _). exists (Z.of_nat (length ids)).
  unfold bind at 1, LegacyRepo.update_legacy, execute, modify. unfold bind, LegacyRepo.update_slices, execute, modify, ret.
  assert (Hnil : ids = [] -> (forall k r, legacy_intents (pending w) !! k = Some r -> over cutoff k r = false) /\
    forall i s, over_slice cutoff (pending w) i s = false).
  { intros Hn. split; [|intros i s; unfold over_slice; fold ids; by rewrite Hn]. apply select_empty. by apply fmap_nil_inv in Hn. }
  split.
  - destruct (Nat.eqb_spec (length ids) 0) as [Hl|Hl]; cbn [negb when]; [|reflexivity].
    destruct (Hnil ltac:(by apply length_zero_iff_nil)) as [_ Hs]. unfold expired, closing, ret.
    rewrite (update_none (over_slice cutoff (pending w))) by (intros; apply Hs). reflexivity.
  - intros Hl. destruct (Hnil ltac:(apply length_zero_iff_nil; lia)) as [Hr Hs]. unfold expired, closing.
    rewrite (update_none _ _ _ Hr), update_none by (intros; apply Hs). by rewrite set_plans_same, set_slices_same.
Qed.

Lemma expired_moves cutoff now d : twap_ok d -> moves d (expired cutoff now d).
Proof.
  intros Hok. unfold expired. refine (closing_moves _ _ _ _ _ _ _ _ Hok).
  - intros k r _ H. unfold over in H. by b2p.
  - intros r. split; [done|]. split; [done|]. intros Ho. by apply closed_row_evolves.
  - intros i s Hs. unfold over_slice. rewrite andb_true_iff, existsb_exists, String.eqb_eq. split.
    + intros ((k & Hk & ->%Z.eqb_eq) & Hpd). split; [done|]. apply list_elem_of_In, list_elem_of_fmap in Hk as ([j r] & -> & Hj).
      apply elem_of_select in Hj as [Hj Hp]. by exists r.
    + intros (Hpd & r & Hr & Hp). split; [|done]. exists (ts_trade_intent_id s). split; [|apply Z.eqb_refl].
      apply list_elem_of_In, list_elem_of_fmap. exists (ts_trade_intent_id s, r). split; [done|]. by apply elem_of_select.
Qed.

Definition waiting (trading_date : date) (_ : uuid) (r : LegacyRow) : bool :=
  String.eqb (l_status r) "scheduled" && (l_trading_date r =? trading_date).
Definition activated (trading_date : date) (now : datetime) (d : db) : db :=
  set_legacy_intents (update_where (waiting trading_date) (LegacyRepo.with_status "active" now) (legacy_intents d)) d.

Lemma activate_run day now w : exists n, LegacyRepo.system_activate_scheduled_day_intents day now w =
  (Ok n, with_pending (activated day now (pending w)) w) /\ (n = 0 -> activated day now (pending w) = pending w).
Proof.
  eexists. split; [reflexivity|]. fold (waiting day). intros Hn. rewrite count_zero in Hn. unfold activated.
  rewrite (update_none _ _ _ Hn). apply set_plans_same.
Qed.

Lemma activated_moves day now d : twap_ok d -> moves d (activated day now d).
Proof.
  intros Hok. assert (Hsch : forall (k : uuid) r, waiting day k r = true -> l_status r = "scheduled").
  { intros k r H. unfold waiting in H. by b2p. }
  split.
  - intros _. apply update_plans_ok; [|done]. intros k r _ Hw. rewrite (Hsch k r Hw). by repeat split.
  - apply update_plans_evolves. intros k r _ Hw. pose proof (Hsch k r Hw) as Hs. split; [done|]. intros _. split; [done|].
    rewrite Hs. by split.
Qed.

(** It always succeeds and leaves nothing uncommitted. *)
Lemma sweep_run w : pending w = durable w -> exists out d1, Lifecycle.run LegacyRepo.legacy_store w = (Ok out, at_rest d1 w) /\
  (twap_ok (durable w) -> moves (durable w) d1).
Proof.
  intros Hc. unfold Lifecycle.run, LegacyRepo.legacy_store. cbn [expire_day_intents_through activate_scheduled_day_intents].
  unfold bind at 1, clock, gets. set (now := now_taipei (app_now w)). unfold bind at 1, lift.
  rewrite cutoff_aware by done. set (cutoff := if _ && _ then _ else _). unfold bind at 1.
  destruct (expire_run cutoff now w) as (n & -> & Hn). rewrite Hc in *. unfold bind at 1, lift.
  destruct (phase_aware now eq_refl) as (ph & -> & _). unfold bind at 1.
  set (d1 := expired cutoff now (durable w)) in *. set (w1 := with_pending d1 w).
  match goal with |- context [?f w1] => lazymatch f with if _ then _ else _ => set (act := f) end end.
  assert (Hact : exists m d2, act w1 = (Ok m, with_pending d2 w1) /\ (m = 0 -> d2 = d1) /\ (twap_ok d1 -> moves d1 d2)).
  { unfold act. destruct (bool_decide _).
    - destruct (activate_run (dt_date now) now w1) as (m & -> & Hm). exists m, (activated (dt_date now) now d1).
      split; [done|]. split; [done|]. apply activated_moves.
    - exists 0, d1. split; [done|]. by split. }
  destruct Hact as (m & d2 & -> & Hm & Hmv). eexists. exists d2. split.
  - unfold bind, ret. destruct (Z.eqb_spec n 0) as [->|]; cbn [negb orb]; [|reflexivity].
    destruct (Z.eqb_spec m 0) as [->|]; cbn [negb when]; [|reflexivity].
    rewrite (Hm eq_refl). rewrite (Hn eq_refl). unfold with_pending, at_rest, ret. cbn. by destruct w; cbn in *; subst.
  - intros Hok. transitivity d1; [by apply expired_moves|]. apply Hmv. by apply (moves_ok (durable w)); [apply expired_moves|].
Qed.
End Sweep.

(** ** The due slices *)

(** Tables that only gain notifications. *)
Definition notes_kept (d d' : db) : Prop := forall (n : uuid) x, notifications d !! n = Some x -> notifications d' !! n = Some x.

(** One slice delivered: with the price the provider quotes for the plan's side,
    if any, under a notification of its own and with the text sent out. *)
Definition delivered {P : Type} `{QuoteProvider P} (p : P) (now db_time : datetime) (d d' : db) (key : uuid * uuid) (m : message) : Prop :=
  exists s r x n title body,
    twap_slices d !! fst key = Some s /\ ts_trade_intent_id s = snd key /\ legacy_intents d !! snd key = Some r /\
    reference_of p (l_symbol r) (l_position_side r) = Ok x /\ slice_text r s x = Ok (title, body) /\
    twap_slices d' !! fst key = Some (notified_slice n x now s) /\
    notifications d !! n = None /\ notifications d' !! n = Some (twap_note s "twap_slice" title body db_time) /\
    m = mkMessage title body "twap_slice".

(** A plan may be activated and completed by the worker, nothing else. *)
Definition plan_kept (r r' : LegacyRow) : Prop :=
  plan_evolves r r' /\ l_symbol r' = l_symbol r /\ l_position_side r' = l_position_side r /\
  l_twap_materialized_slice_count r' = l_twap_materialized_slice_count r /\
  (l_status r' = l_status r \/ l_status r' ∈ ["active"; "triggered"]).
#[export] Instance plan_kept_pre : PreOrder plan_kept.
Proof.
  split; [intros a; by split; [|repeat split; left]|]. intros a b c (A1 & A2 & A3 & A4 & A5) (B1 & B2 & B3 & B4 & B5).
  split; [by transitivity b|]. repeat split; [congruence..|]. destruct B5 as [->|B5]; [done|by right].
Qed.

Section Due.
  Context {P : Type} `{QuoteProvider P}.
  Implicit Types w : world P.

Definition due_ready (d : db) (key : uuid * uuid) : Prop :=
  exists s, twap_slices d !! fst key = Some s /\ ts_status s = "pending" /\ ts_trade_intent_id s = snd key.

Lemma settled_frame k now d : twap_slices (settled k now d) = twap_slices d /\ notifications (settled k now d) = notifications d.
Proof. unfold settled. destruct (legacy_intents d !! k); [|done]. by destruct (_ && _). Qed.
Lemma settled_plans k now d : rows_evolve plan_kept (legacy_intents d) (legacy_intents (settled k now d)).
Proof.
  unfold settled. destruct (legacy_intents d !! k) as [r|] eqn:Hr; [|apply rows_refl; apply _]. rewrite open_alt.
  destruct (_ && is_open _) eqn:Hc; [|apply rows_refl; apply _]. apply andb_true_iff in Hc as [_ Ho].
  intros j a Ha. cbn. rewrite lookup_update, Ha. cbn. eexists. split; [reflexivity|]. destruct (Z.eqb_spec j k) as [->|]; [|done].
  assert (a = r) as -> by congruence. split; [by apply status_evolves|]. repeat split. right. cbn. set_solver.
Qed.

(** The tables after one slice. *)
Lemma due_done_frame now (i k : uuid) r x n note d : legacy_intents d !! k = Some r -> notifications d !! n = None ->
  let d' := due_done now i k r x n note d in
  twap_slices d' = update_where (fun (j : uuid) _ => j =? i) (notified_slice n x now) (twap_slices d) /\
  notifications d' = <[n := note]> (notifications d) /\ rows_evolve plan_kept (legacy_intents d) (legacy_intents d').
Proof.
  intros Hr Hn. unfold due_done. cbn zeta. set (d1 := slice_set _ _ _).
  match goal with |- context [settled k now ?x] => set (d2 := x) end. destruct (settled_frame k now d2) as [-> ->].
  assert (H2 : twap_slices d2 = twap_slices d1 /\ notifications d2 = notifications d1 /\
    rows_evolve plan_kept (legacy_intents d) (legacy_intents d2)).
  { unfold d2. destruct (String.eqb_spec (l_status r) "scheduled") as [Hs|]; [|split; [done|]; split; [done|]; apply rows_refl; apply _].
    split; [done|]. split; [done|]. intros j a Ha. cbn. rewrite lookup_update, Ha. cbn. eexists. split; [reflexivity|].
    destruct (Z.eqb_spec j k) as [->|]; [|done]. assert (a = r) as -> by congruence.
    split; [apply status_evolves; [by rewrite Hs|done]|]. repeat split. right. cbn. set_solver. }
  destruct H2 as (-> & -> & H2). split; [done|]. split; [done|]. eapply rows_trans; [apply _|exact H2|apply settled_plans].
Qed.

Lemma due_loop now keys : forall w r w', twap_ok (pending w) -> NoDup (fst <$> keys) -> Forall (due_ready (pending w)) keys ->
  for_each keys (process_due_slice now) w = (r, w') ->
  same_env w w' /\ provider w' = provider w /\
  (is_ok r = true -> moves (pending w) (pending w') /\ notes_kept (pending w) (pending w') /\
    rows_evolve plan_kept (legacy_intents (pending w)) (legacy_intents (pending w')) /\
    (forall i : uuid, i ∉ fst <$> keys -> twap_slices (pending w') !! i = twap_slices (pending w) !! i) /\
    exists msgs, outbox w' = outbox w ++ msgs /\
      Forall2 (delivered (provider w) now (db_now w) (pending w) (pending w')) keys msgs).
Proof.
  induction keys as [|[i k] keys IH]; intros w r w' Hok Hnd Hready; cbn [for_each].
  - intros [= <- <-]. split; [done|]. split; [done|]. intros _. split; [done|]. split; [by intros n|].
    split; [apply rows_refl; apply _|]. split; [done|]. exists []. by rewrite app_nil_r.
  - cbn [fmap list_fmap fst] in Hnd. apply NoDup_cons in Hnd as [Hi Hnd]. apply Forall_cons in Hready as [(s0 & Hs0 & Hpd & Hk) Hready].
    cbn [fst snd] in *. unfold bind. destruct (process_due_slice now (i, k) w) as [a w1] eqn:Hp.
    apply process_due_cases in Hp as (Henv & Hprov & Hres). destruct a as [[]|e]; [|by intros [= <- <-]].
    destruct Hres as (s & r0 & x & title & body & Hs & Hr0 & Hx & Htext & Hn & _ & Hout & Hpw).
    assert (s0 = s) as -> by congruence. set (n := next_id w) in *. set (note := twap_note s "twap_slice" title body (db_now w)) in *.
    destruct (due_done_frame now i k r0 x n note (pending w) Hr0 Hn) as (Fs & Fn & Fp). rewrite <-Hpw in Fs, Fn, Fp.
    assert (Hm : moves (pending w) (pending w1)) by (rewrite Hpw; subst k; by eapply due_moves).
    assert (Hother : forall j : uuid, j <> i -> twap_slices (pending w1) !! j = twap_slices (pending w) !! j).
    { intros j Hj. rewrite Fs, lookup_update. destruct (twap_slices (pending w) !! j); cbn; [|done]. by destruct (Z.eqb_spec j i). }
    assert (Hne : forall key, key ∈ keys -> fst key <> i).
    { intros key Hin <-. apply Hi. by apply list_elem_of_fmap_2. }
    intros Hrun. apply IH in Hrun as (Henv' & Hprov' & Hall); [|by apply (moves_ok (pending w))|done|].
    2: { apply Forall_forall. intros key Hin. pose proof (proj1 (Forall_forall _ _) Hready key Hin) as (t & Ht & Hrest).
         exists t. split; [|done]. by rewrite Hother by by apply Hne. }
    destruct Henv as (E1 & E2 & E3), Henv' as (E1' & E2' & E3'). split; [repeat split; congruence|]. split; [congruence|].
    intros Hr. destruct (Hall Hr) as (Hm' & Hnotes & Hplans & Hsame & msgs & Ho & Hdel). split; [by transitivity (pending w1)|].
    assert (Hk1 : notes_kept (pending w) (pending w1)).
    { intros q y Hq. rewrite Fn, lookup_insert_ne; [done|congruence]. }
    split; [intros q y Hq; by apply Hnotes, Hk1|]. split; [by eapply rows_trans; [apply _|exact Fp|]|].
    split.
    { cbn [fmap list_fmap fst]. intros j Hj. apply not_elem_of_cons in Hj as [Hji Hj]. rewrite Hsame by done. by apply Hother. }
    exists (mkMessage title body "twap_slice" :: msgs). split; [rewrite Ho, Hout; by rewrite <-app_assoc|]. constructor.
    + exists s, r0, x, n, title, body. cbn [fst snd]. do 5 (split; [done|]). split.
      { rewrite Hsame by done. rewrite Fs, lookup_update, Hs. cbn. by rewrite Z.eqb_refl. }
      split; [done|]. split; [|done]. apply Hnotes. rewrite Fn. apply lookup_insert_eq.
    + rewrite Hprov, E3 in Hdel. eapply Forall2_impl_in; [exact Hdel|]. intros [j l] m Hin.
      intros (t & b & y & q & ti & bo & Ht & Hl & Hb & Hy & Htx & Ht' & Hq & Hq' & ->). cbn [fst snd] in *.
      destruct (slice_plan _ _ Hok j t) as (b0 & Hb0 & Htw); [by rewrite <-Hother by exact (Hne _ Hin)|]. rewrite Hl in Hb0.
      destruct (Fp l b0 Hb0) as (b1 & Hb1 & _ & Esym & Eside & Ecount & _). assert (b1 = b) as -> by congruence.
      exists t, b0, y, q, ti, bo. cbn [fst snd]. split; [by rewrite <-Hother by exact (Hne _ Hin)|].
      split; [done|]. split; [done|]. unfold slice_text in *. rewrite Esym, Eside, ?Ecount in *. split; [done|]. split; [done|].
      split; [done|]. split; [|done]. destruct (notifications (pending w) !! q) as [z|] eqn:Hz; [|done]. apply Hk1 in Hz. congruence.
Qed.
End Due.

(** ** A pass of the worker *)

Section Phase.
  Context {P : Type} `{QuoteProvider P} (kill_switch : option (M P bool)).
  Context (Hswitch : forall c, kill_switch = Some c -> quiet c).
  Implicit Types w : world P.

Lemma halted_quiet : quiet (halted_now kill_switch).
Proof. unfold halted_now. destruct kill_switch as [c|]; [by apply Hswitch|apply quiet_ret]. Qed.

(** Which keys a phase loads. *)
Definition keys_of (p : SliceRow -> LegacyRow -> bool) (key : SliceRow -> option datetime) (limit : nat) (d : db) : list (uuid * uuid) :=
  (fun x => (fst x, ts_trade_intent_id (snd x))) <$> take limit (order_by (earlier key) (select_where (joined d p) (twap_slices d))).

Lemma keys_of_spec p key limit d : NoDup (fst <$> keys_of p key limit d) /\
  (forall i k, (i, k) ∈ keys_of p key limit d -> exists s r, twap_slices d !! i = Some s /\ ts_trade_intent_id s = k /\
     legacy_intents d !! k = Some r /\ p s r = true) /\
  ((length (select_where (joined d p) (twap_slices d)) <= limit)%nat -> forall (i : uuid) s r, twap_slices d !! i = Some s ->
     legacy_intents d !! ts_trade_intent_id s = Some r -> p s r = true -> (i, ts_trade_intent_id s) ∈ keys_of p key limit d).
Proof.
  unfold keys_of. set (rows := select_where _ _). pose proof (order_by_perm (earlier key) rows) as Hperm.
  split; [|split].
  - rewrite <-list_fmap_compose. change (fst ∘ _) with (fst : uuid * SliceRow -> uuid).
    assert (Hnd : NoDup (fst <$> order_by (earlier key) rows)) by (rewrite Hperm; apply select_NoDup).
    rewrite <-(take_drop limit (order_by _ _)), fmap_app in Hnd. by apply NoDup_app in Hnd as [? _].
  - intros i k Hin. apply list_elem_of_fmap in Hin as ([j s] & [= -> ->] & Hin). cbn [fst snd] in *.
    apply elem_of_take in Hin as (q & Hin%list_elem_of_lookup_2 & _). rewrite Hperm in Hin. apply elem_of_select in Hin as [Hs Hj]. unfold joined in Hj.
    destruct (legacy_intents d !! ts_trade_intent_id s) as [r|] eqn:Hr; [|done]. by exists s, r.
  - intros Hlen i s r Hs Hr Hp. apply list_elem_of_fmap. exists (i, s). split; [done|].
    rewrite take_ge by (by rewrite (Permutation_length Hperm)). rewrite Hperm. apply elem_of_select. split; [done|].
    unfold joined. by rewrite Hr.
Qed.

(** Everything but the loop. *)
Lemma worker_cases p key limit process w r w' : pending w = durable w ->
  worker_phase kill_switch (fun now => load (p now) key limit) process w = (r, w') ->
  let now := now_taipei (app_now w) in
  exists out d1, Lifecycle.run LegacyRepo.legacy_store w = (Ok out, at_rest d1 w) /\ (twap_ok (durable w) -> moves (durable w) d1) /\
    ((durable w' = d1 /\ (is_ok r = true -> r = Ok 0 /\ outbox w' = outbox w /\
        (in_session now = false \/ fst (halted_now kill_switch (at_rest d1 w)) = Ok true))) \/
     (in_session now = true /\ exists w2 rl w3, halted_now kill_switch (at_rest d1 w) = (Ok false, w2) /\
        pending w2 = d1 /\ outbox w2 = outbox w /\ db_now w2 = db_now w /\ durable w2 = d1 /\
        let keys := keys_of (p now) key limit d1 in
        for_each keys (process now) w2 = (rl, w3) /\
        match rl with
        | Ok _ => r = Ok (Z.of_nat (length keys)) /\ w' = committed w3
        | Raise e => r = Raise e /\ durable w' = durable w3
        end)).
Proof.
  intros Hc. unfold worker_phase. unfold bind at 1, clock, gets. set (now := now_taipei (app_now w)). unfold bind at 1.
  destruct (sweep_run w Hc) as (out & d1 & Hsweep & Hm). rewrite Hsweep. unfold bind at 1, lift.
  destruct (phase_aware now eq_refl) as (ph & -> & Hph & _). intros Hrun. exists out, d1. split; [done|]. split; [exact Hm|].
  case_bool_decide as Hb; cbn [negb] in Hrun.
  2: { left. revert Hrun. intros [= <- <-]. split; [done|]. intros _. split; [done|]. split; [done|]. left.
       apply not_true_iff_false. intros Hin. by apply Hb, Hph. }
  unfold bind at 1 in Hrun. destruct (halted_now kill_switch (at_rest d1 w)) as [h w2] eqn:Hh.
  destruct (halted_quiet _ _ _ Hh) as (Ed & Ep & Eo & _ & _ & Et). cbn in Ed, Ep, Eo, Et.
  destruct h as [[]|e]; [left|right|left].
  - revert Hrun. intros [= <- <-]. split; [done|]. intros _. split; [done|]. split; [done|]. by right.
  - split; [by apply Hph|]. revert Hrun. unfold transaction, try_except. unfold bind at 1, load, query, gets. rewrite Ep.
    fold (keys_of (p now) key limit d1). set (keys := keys_of _ _ _ _). unfold bind at 1.
    destruct (for_each keys (process now) w2) as [rl w3] eqn:Hl. intros Hrun. exists w2, rl, w3.
    do 6 (split; [done|]). revert Hrun. destruct rl as [[]|e].
    + unfold bind, commit, modify, ret. by intros [= <- <-].
    + unfold bind, rollback, modify, raise. by intros [= <- <-].
  - revert Hrun. intros [= <- <-]. by split.
Qed.

(** C10. What one pass over the due slices delivers.  The day lifecycle runs first
    and is kept whatever follows.  Outside the session, or while the system is
    halted, nothing else happens.  Otherwise, unless the pass fails and changes
    nothing, it takes the due slices, pending ones of open plans whose time has
    come, all of them when they are at most the limit: each of them, and no
    other, becomes notified, with one new notification for the owner of its plan,
    the price the provider gives for the plan's side or a follow-up in ten
    seconds, and the text sent once, in the order of the slices.  A plan left
    without a pending slice is triggered. *)
Theorem due_phase_delivers (limit : nat) w w' (r : res Z) (Hok : twap_ok (durable w))
    (Hrun : with_session (process_due_slices kill_switch limit) w = (r, w')) :
  let now := now_taipei (app_now w) in
  exists out w1, Lifecycle.run LegacyRepo.legacy_store (opening w) = (Ok out, w1) /\ twap_ok (durable w') /\
    match r with
    | Raise _ => durable w' = durable w1
    | Ok n =>
        (n = 0 /\ durable w' = durable w1 /\ outbox w' = outbox w /\
           (in_session now = false \/ fst (halted_now kill_switch w1) = Ok true)) \/
        (in_session now = true /\ exists w2 due msgs, halted_now kill_switch w1 = (Ok false, w2) /\
           n = Z.of_nat (length due) /\ outbox w' = outbox w ++ msgs /\
           Forall2 (delivered (provider w2) now (db_now w) (durable w1) (durable w')) due msgs /\
           (forall i k, (i, k) ∈ due -> exists s row, twap_slices (durable w1) !! i = Some s /\ ts_trade_intent_id s = k /\
              legacy_intents (durable w1) !! k = Some row /\ is_due now s row = true) /\
           ((length (select_where (joined (durable w1) (is_due now)) (twap_slices (durable w1))) <= limit)%nat ->
              forall (i : uuid) s row, twap_slices (durable w1) !! i = Some s ->
                legacy_intents (durable w1) !! ts_trade_intent_id s = Some row -> is_due now s row = true ->
                (i, ts_trade_intent_id s) ∈ due) /\
           (forall i : uuid, i ∉ fst <$> due -> twap_slices (durable w') !! i = twap_slices (durable w1) !! i) /\
           (forall i k, (i, k) ∈ due -> ~ has_pending k (durable w') ->
              exists row, legacy_intents (durable w') !! k = Some row /\ l_status row = "triggered"))
    end.
Proof.
  intros now. apply session_cases in Hrun as (wa & Hrun & Hd & _ & _ & _ & Ho). unfold process_due_slices, load_due_slices in Hrun.
  apply (worker_cases is_due) in Hrun as (out & d1 & Hsweep & Hm & Hcase); [|done]. exists out, (at_rest d1 (opening w)).
  split; [exact Hsweep|]. specialize (Hm Hok). pose proof (moves_ok _ _ Hm Hok) as Hok1. rewrite Hd, Ho.
  change (app_now (opening w)) with (app_now w) in Hcase. fold now in Hcase.
  destruct Hcase as [[-> Hzero]|(Hin & w2 & rl & w3 & Hh & Hp2 & Ho2 & Ht2 & Hd2 & Hl & Hres)].
  { split; [exact Hok1|]. destruct r as [n|e]; [|done]. destruct (Hzero eq_refl) as ([= ->] & -> & Hwhy). by left. }
  set (due := keys_of _ _ _ _) in *. destruct (keys_of_spec (is_due now) (fun s => Some (ts_scheduled_at s)) limit d1) as (Hnd & Hsel & Hall).
  fold due in Hnd, Hsel, Hall. apply due_loop in Hl as (Henv & _ & Hloop); [|by rewrite Hp2|exact Hnd|].
  2: { apply Forall_forall. intros [i k] Hin2. destruct (Hsel i k Hin2) as (s & row & Hs & Hk & Hr & Hdue).
       exists s. rewrite Hp2. split; [done|]. split; [|done]. unfold is_due in Hdue. by b2p. }
  destruct rl as [u|e]; destruct Hres as [-> Hw']; [|split; [by rewrite Hw', (proj1 Henv), Hd2|by rewrite Hw', (proj1 Henv)]].
  destruct (Hloop eq_refl) as (Hmv & _ & Hplans & Hsame & msgs & Hout & Hdel). rewrite Hp2 in *. subst wa. cbn [durable committed outbox at_rest].
  split; [by apply (moves_ok d1)|]. right. split; [done|]. exists w2, due, msgs. split; [exact Hh|]. split; [done|].
  split; [by rewrite Hout, Ho2|]. split; [by change (db_now w) with (db_now (opening w)); rewrite <-Ht2|]. do 3 (split; [done|]).
  intros i k Hik Hno. destruct (Hsel i k Hik) as (s & row & Hs & Hk & Hr & Hdue). destruct (Hplans k row Hr) as (row' & Hr' & Hkept).
  exists row'. split; [done|]. pose proof (moves_ok _ _ Hmv Hok1) as Hok3.
  assert (Htw : LegacyRepo.is_twap row = true) by (unfold is_due in Hdue; b2p; by apply String.eqb_eq).
  assert (Hclosed : is_open (l_status row') = false).
  { apply not_true_iff_false. intros Hopen. apply Hno. apply (open_pending _ _ Hok3 k row'); [done| |done|done].
    destruct Hkept as ([-> _] & _). exact Htw. }
  destruct Hkept as (_ & _ & _ & _ & [E|E]).
  - unfold is_due in Hdue. apply andb_true_iff in Hdue as [_ Hopen]. rewrite open_alt, <-E, Hclosed in Hopen. done.
  - rewrite !elem_of_cons, elem_of_nil in E. destruct E as [E|[E|[]]]; [|done]. by rewrite E in Hclosed.
Qed.
End Phase.

(** ** The follow-ups *)

Section Followups.
  Context {P : Type} `{QuoteProvider P}.
  Implicit Types w : world P.

Definition followup_ready (d : db) (key : uuid * uuid) : Prop :=
  exists s, twap_slices d !! fst key = Some s /\ ts_price_followup_required s = true.

Lemma followup_loop now keys : forall w r w', twap_ok (pending w) -> NoDup (fst <$> keys) -> Forall (followup_ready (pending w)) keys ->
  for_each keys (process_followup now) w = (r, w') ->
  durable w' = durable w /\ (is_ok r = true -> moves (pending w) (pending w')).
Proof.
  induction keys as [|[i k] keys IH]; intros w r w' Hok Hnd Hready; cbn [for_each]; [by intros [= <- <-]|].
  cbn [fmap list_fmap fst] in Hnd. apply NoDup_cons in Hnd as [Hi Hnd]. apply Forall_cons in Hready as [(s0 & Hs0 & Hreq) Hready].
  cbn [fst] in Hs0. unfold bind. destruct (process_followup now (i, k) w) as [a w1] eqn:Hp.
  apply process_followup_cases in Hp as ((Ed & _) & _ & Hres). destruct a as [[]|e]; [|by intros [= <- <-]].
  destruct Hres as (s & r0 & x & Hs & _ & _ & Hx). assert (s0 = s) as -> by congruence.
  assert (Hone : moves (pending w) (pending w1) /\ forall j : uuid, j <> i -> twap_slices (pending w1) !! j = twap_slices (pending w) !! j).
  { destruct x as [x|].
    - destruct Hx as (title & body & Hn & _ & _ & ->). split; [by apply followup_done_moves|]. intros j Hj. cbn.
      rewrite lookup_update. destruct (twap_slices (pending w) !! j); cbn; [|done]. by destruct (Z.eqb_spec j i).
    - destruct Hx as (_ & _ & ->). split; [by apply followup_none_moves|]. intros j Hj. cbn.
      rewrite lookup_update. destruct (twap_slices (pending w) !! j); cbn; [|done]. by destruct (Z.eqb_spec j i). }
  destruct Hone as [Hm Hother]. intros Hrun. apply IH in Hrun as [Ed' Hall]; [|by apply (moves_ok (pending w))|done|].
  - split; [congruence|]. intros Hr. transitivity (pending w1); [done|by apply Hall].
  - apply Forall_forall. intros key Hin. pose proof (proj1 (Forall_forall _ _) Hready key Hin) as (t & Ht & Hrest).
    exists t. rewrite Hother; [done|]. intros <-. apply Hi. by apply list_elem_of_fmap_2.
Qed.
End Followups.

(** ** Steps *)

Section Steps.
  Context {P : Type} `{QuoteProvider P} (kill_switch : option (M P bool)).
  Context (Hswitch : forall c, kill_switch = Some c -> quiet c).
  Implicit Types w : world P.

(** The rest of the program runs between the commands; the clocks, the
    identifiers and the provider are whatever they are then. *)
Inductive twap_step w w' : Prop :=
| step_confirm limits inp r : with_session (confirm limits inp) w = (r, w') -> twap_step w w'
| step_due limit r : with_session (process_due_slices kill_switch limit) w = (r, w') -> twap_step w w'
| step_followup limit r : with_session (process_price_followups kill_switch limit) w = (r, w') -> twap_step w w'
| step_cancel intent_id owner r : with_session (cancel_legacy_command intent_id owner) w = (r, w') -> twap_step w w'
| step_disable inp r : with_session (disable_user inp) w = (r, w') -> twap_step w w'
| step_outside : outside (durable w) (durable w') -> twap_step w w'.

Lemma moves_frame d d1 d2 : twap_slices d2 = twap_slices d1 -> legacy_intents d2 = legacy_intents d1 ->
  notifications d2 = notifications d1 -> moves d d1 -> moves d d2.
Proof.
  intros Hs Hl Hn [Hok [Es El]]. split.
  - intros H0. destruct (Hok H0) as [Hwf Hp Hf Hplan Hopen Hset]. unfold has_pending in *.
    split; unfold has_pending; rewrite ?Hs, ?Hl, ?Hn; done.
  - split; by rewrite ?Hs, ?Hl.
Qed.

Lemma confirm_moves limits inp w r w' : twap_ok (durable w) -> pending w = durable w -> confirm limits inp w = (r, w') ->
  moves (durable w) (durable w').
Proof.
  intros Hok Hc Hrun. unfold confirm in Hrun. unfold bind, transaction, try_except in Hrun.
  destruct (confirm_body limits inp w) as [rb wb] eqn:Hb. apply confirm_body_cases in Hb as (_ & _ & _ & Hres).
  destruct rb as [n|e].
  - destruct Hres as (plan & s & st & -> & Hplan & _ & _ & _ & Hv & Hpw & Hd & Hids). rewrite Hc in *.
    assert (Hdw : durable w' = durable wb).
    { revert Hrun. unfold LegacyRepo.find_by_id, LegacyRepo.get_legacy, bind, query, gets, lift. repeat case_match; by intros [= _ <-]. }
    rewrite Hdw, Hd. destruct (plan_facts _ _ _ _ _ _ _ Hplan) as (Hslices & Hcount & Hle & _).
    apply stored_moves; [| |by eapply legacy_violation_absent|done|done].
    + intros Hnil. destruct (allocate_slices_spec (start_at plan) (pi_interval_seconds inp) (pi_quantity_lots inp)
        (materialized_slice_count plan)) as (Hlen & _); [lia|lia|]. rewrite <-Hslices, Hnil in Hlen. cbn in Hlen. lia.
    + unfold initial_status. by case_bool_decide.
  - unfold rollback, modify, raise in Hrun. revert Hrun. intros [= _ <-]. cbn. by rewrite Hres.
Qed.

Lemma phase_moves p key process w r w' limit :
  (forall now keys wa ra wb, twap_ok (pending wa) -> NoDup (fst <$> keys) ->
     (forall i k, (i, k) ∈ keys -> exists s row, twap_slices (pending wa) !! i = Some s /\ ts_trade_intent_id s = k /\
        legacy_intents (pending wa) !! k = Some row /\ p now s row = true) ->
     for_each keys (process now) wa = (ra, wb) -> durable wb = durable wa /\ (is_ok ra = true -> moves (pending wa) (pending wb))) ->
  twap_ok (durable w) -> pending w = durable w ->
  worker_phase kill_switch (fun now => load (p now) key limit) process w = (r, w') -> moves (durable w) (durable w').
Proof.
  intros Hloop Hok Hc Hrun. apply (worker_cases kill_switch Hswitch) in Hrun as (out & d1 & _ & Hm & Hcase); [|done].
  specialize (Hm Hok). destruct Hcase as [[-> _]|(_ & w2 & rl & w3 & _ & Hp2 & _ & _ & Hd2 & Hl & Hres)]; [done|].
  destruct (keys_of_spec (p (now_taipei (app_now w))) key limit d1) as (Hnd & Hsel & _).
  destruct (Hloop _ _ _ _ _ ltac:(rewrite Hp2; by apply (moves_ok (durable w))) Hnd ltac:(by rewrite Hp2) Hl) as [Ed Hmv].
  destruct rl as [u|e]; destruct Hres as [_ Hw'].
  - subst w'. cbn. transitivity d1; [done|]. rewrite <-Hp2. by apply Hmv.
  - by rewrite Hw', Ed, Hd2.
Qed.
Definition of_plan (intent_id : uuid) (k : uuid) (_ : LegacyRow) : bool := k =? intent_id.

(** Cancelling a row that is open: alone, or with the slices of its plan. *)
Lemma cancelled_moves intent_id r now d : legacy_intents d !! intent_id = Some r -> is_open (l_status r) = true -> twap_ok d ->
  if LegacyRepo.is_twap r then
    moves d (closing (of_plan intent_id) (fun _ s => (ts_trade_intent_id s =? intent_id) && String.eqb (ts_status s) "pending")
               (LegacyRepo.cancelled_row "cancelled" now) now d)
  else moves d (set_legacy_intents (update_where (of_plan intent_id) (LegacyRepo.cancelled_row "cancelled" now) (legacy_intents d)) d).
Proof.
  intros Hr Ho Hok. destruct (LegacyRepo.is_twap r) eqn:Htw.
  - refine (closing_moves _ _ _ _ _ _ _ _ Hok).
    + intros k x Hx ->%Z.eqb_eq. congruence.
    + intros x. split; [done|]. split; [done|]. intros Hx. by apply closed_row_evolves.
    + intros i s Hs. rewrite andb_true_iff, Z.eqb_eq, String.eqb_eq. unfold of_plan. split.
      * intros [-> Hpd]. split; [done|]. exists r. by rewrite Z.eqb_refl.
      * intros (Hpd & x & Hx & ->%Z.eqb_eq). done.
  - split.
    + intros _. apply update_plans_ok; [|done]. intros k x Hx ->%Z.eqb_eq. assert (x = r) as -> by congruence.
      split; [done|]. split; [done|]. intros _. right. intros (i & s & Hs & Hk & _).
      destruct (slice_plan _ _ Hok i s Hs) as (y & Hy & Hty). congruence.
    + apply update_plans_evolves. intros k x Hx ->%Z.eqb_eq. assert (x = r) as -> by congruence.
      split; [done|]. by rewrite Htw.
Qed.

Lemma cancel_repo_moves intent_id owner w r w' : twap_ok (pending w) -> LegacyRepo.cancel intent_id owner w = (r, w') ->
  durable w' = durable w /\ (is_ok r = true -> moves (pending w) (pending w')).
Proof.
  intros Hok. unfold LegacyRepo.cancel, LegacyRepo.get_legacy. unfold bind at 1, query, gets.
  destruct (legacy_intents (pending w) !! intent_id) as [row|] eqn:Hrow; cbn [mbind option_bind]; [|by intros [= <- <-]].
  unfold LegacyRepo.with_symbol_type. destruct (symbols (pending w) !! l_symbol row) as [sy|]; [|by intros [= <- <-]].
  destruct (negb (l_owner_user_id row =? owner)); [by intros [= <- <-]|]. destruct (String.eqb (l_status row) "cancelled").
  { unfold bind, lift. destruct (IntentRepo.parse_security_type _); by intros [= <- <-]. }
  destruct (str_in (l_status row) CANCELLABLE_STATUSES) eqn:Hst; cbn [negb]; [|by intros [= <- <-]].
  unfold bind at 1, sql_now, gets. unfold bind at 1, LegacyRepo.update_legacy, execute, modify.
  pose proof (cancelled_moves intent_id row (db_now w) (pending w) Hrow Hst Hok) as Hm. unfold bind at 1.
  fold (of_plan intent_id). change (String.eqb (l_strategy row) TWAP_STRATEGY) with (LegacyRepo.is_twap row).
  destruct (LegacyRepo.is_twap row); cbn [when].
  - unfold bind at 1, LegacyRepo.update_slices, execute, modify.
    match type of Hm with moves _ ?x => set (d1 := x) in Hm end.
    assert (Hm2 : forall q, moves d1 (set_twap_slices (update_where q (slice_no_followup (db_now w)) (twap_slices d1)) d1)).
    { intros q. apply update_slices_moves; [by apply (moves_ok (pending w))|]. intros i s _ _. split; [apply no_followup_step|done]. }
    unfold bind, lift, ret. cbn iota beta. destruct (IntentRepo.parse_security_type _); intros [= <- <-]; (split; [done|]); [|done].
    intros _. cbn [pending with_pending]. transitivity d1; [exact Hm|exact (Hm2 _)].
  - unfold bind, lift, ret. cbn iota beta. destruct (IntentRepo.parse_security_type _); by intros [= <- <-].
Qed.

Lemma cancel_moves intent_id owner w r w' : twap_ok (durable w) -> pending w = durable w ->
  cancel_legacy_command intent_id owner w = (r, w') -> moves (durable w) (durable w').
Proof.
  intros Hok Hc Hrun. unfold cancel_legacy_command in Hrun. unfold bind at 1 in Hrun.
  destruct (transaction _ w) as [ra wa] eqn:Ht.
  assert (Ha : moves (durable w) (durable wa)).
  { revert Ht. unfold transaction, try_except, bind. destruct (LegacyRepo.cancel intent_id owner w) as [rc wc] eqn:Hrc.
    apply cancel_repo_moves in Hrc as [Ed Hm]; [|by rewrite Hc]. rewrite Hc in Hm. destruct rc as [i|e].
    - unfold commit, modify, ret. intros [= <- <-]. cbn. by apply Hm.
    - unfold rollback, modify, raise. intros [= <- <-]. cbn. by rewrite Ed. }
  destruct ra as [i|e]; [|by injection Hrun as <- <-]. unfold bind, try_except in Hrun.
  destruct (reconcile_after_legacy (i_symbol i) wa) as [rb wb] eqn:Hrec.
  destruct (reconcile_after_legacy_quiet _ _ _ _ Hrec) as (Ed & _).
  destruct rb; unfold ret in Hrun; injection Hrun as <- <-; by rewrite Ed.
Qed.

Lemma disable_moves inp w r w' : twap_ok (durable w) -> pending w = durable w -> disable_user inp w = (r, w') ->
  moves (durable w) (durable w').
Proof.
  intros Hok Hc Hrun. apply disable_cases in Hrun as [Hres _]; [|done]. unfold disable_result in Hres.
  destruct r as [[]|e]; [|by rewrite (proj1 Hres)]. destruct Hres as [_ ->].
  set (p := fun (_ : uuid) x => (l_owner_user_id x =? ad_target_user_id inp) && is_open (l_status x)).
  apply (moves_frame _ (set_legacy_intents (update_where p (LegacyRepo.cancelled_row ACCOUNT_DISABLED_INTENT_STATUS (ad_now inp))
    (legacy_intents (durable w))) (durable w))); [done..|]. split.
  - intros _. apply update_plans_ok; [|done]. intros k x _ _. by repeat split.
  - apply update_plans_evolves. intros k x _ Hp. apply andb_true_iff in Hp as [_ Ho]. by apply closed_row_evolves.
Qed.

Lemma step_moves w w' : twap_step w w' -> twap_ok (durable w) -> moves (durable w) (durable w').
Proof.
  intros Hstep Hok. destruct Hstep as [limits inp r Hrun|limit r Hrun|limit r Hrun|i o r Hrun|inp r Hrun|Hout].
  6: { by apply outside_moves. }
  all: apply session_cases in Hrun as (w1 & Hrun & -> & _).
  - by eapply (confirm_moves _ _ (opening w)).
  - eapply (phase_moves is_due _ _ (opening w)); [|done|done|exact Hrun]. intros now keys wa ra wb Hwa Hnd Hk Hl.
    apply due_loop in Hl as ((Ed & _) & _ & Hm); [|done|done|].
    + split; [done|]. intros Hr. by destruct (Hm Hr).
    + apply Forall_forall. intros [i k] Hin. destruct (Hk i k Hin) as (s & row & Hs & Hi & _ & Hd). exists s.
      split; [done|]. split; [|done]. unfold is_due in Hd. by b2p.
  - eapply (phase_moves needs_followup _ _ (opening w)); [|done|done|exact Hrun]. intros now keys wa ra wb Hwa Hnd Hk Hl.
    apply followup_loop in Hl; [done|done|done|].
    apply Forall_forall. intros [i k] Hin. destruct (Hk i k Hin) as (s & row & Hs & Hi & _ & Hd). exists s.
    split; [done|]. unfold needs_followup in Hd. by b2p.
  - by eapply (cancel_moves _ _ (opening w)).
  - by eapply (disable_moves _ (opening w)).
Qed.

Lemma steps_move w w' : rtc twap_step w w' -> twap_ok (durable w) -> moves (durable w) (durable w').
Proof.
  induction 1 as [w|w w1 w2 H1 _ IH]; [done|]. intros Hok. pose proof (step_moves _ _ H1 Hok) as Hm.
  etransitivity; [exact Hm|]. apply IH. by apply (moves_ok (durable w)).
Qed.
End Steps.

(** C9. The life of a plan, over any sequence of confirmations, worker passes,
    cancellations and disabled accounts, whether they succeed or fail, and with
    whatever else the program does in between.  A slice keeps its plan, time and
    lots; it is notified at most once, and once notified or cancelled it stays as
    it is; every slice notification is claimed by exactly one slice, of the plan
    and the owner it is addressed to, and so is every price follow-up, of which
    a slice gets at most one, in at most three attempts, and only when its
    notification had no price.  An open plan still has a slice to notify, a
    triggered, expired or cancelled one has none, and a closed plan never opens
    again. *)
Theorem twap_life {P} `{QuoteProvider P} (kill_switch : option (M P bool)) (Hswitch : forall c, kill_switch = Some c -> quiet c)
    (w w' : world P) (Hok : twap_ok (durable w)) (Hrun : rtc (twap_step kill_switch) w w') :
  twap_ok (durable w') /\
  (forall (i : uuid) s, twap_slices (durable w) !! i = Some s -> exists s', twap_slices (durable w') !! i = Some s' /\
     slice_evolves s s') /\
  (forall (k : uuid) r, legacy_intents (durable w) !! k = Some r -> LegacyRepo.is_twap r = true ->
     exists r', legacy_intents (durable w') !! k = Some r' /\ plan_evolves r r' /\
       (is_open (l_status r) = false -> l_status r' = l_status r)) /\
  (forall (n : uuid) x, notifications (durable w') !! n = Some x -> n_type x = "twap_slice" ->
     exists i s, twap_slices (durable w') !! i = Some s /\ ts_primary_notification_id s = Some n /\
       n_trade_intent_id x = Some (ts_trade_intent_id s) /\ n_owner_user_id x = ts_owner_user_id s /\
       forall j t, twap_slices (durable w') !! j = Some t -> ts_primary_notification_id t = Some n -> j = i) /\
  (forall (k : uuid) r, legacy_intents (durable w') !! k = Some r -> LegacyRepo.is_twap r = true ->
     is_open (l_status r) = true -> has_pending k (durable w')).
Proof.
  destruct (steps_move kill_switch Hswitch w w' Hrun Hok) as [Hok' [Hs Hp]]. specialize (Hok' Hok).
  split; [exact Hok'|]. split; [exact Hs|]. split; [|split].
  - intros k r Hr Ht. destruct (Hp k r Hr) as (r' & Hr' & He). exists r'. split; [done|]. split; [done|]. by apply He.
  - intros n x Hx Hk. destruct (primary_ok _ _ Hok') as [Hn Hc Hu]. destruct (Hc n x Hx Hk) as (i & s & Hi & Hcl).
    destruct (Hn i s n Hi Hcl) as (y & Hy & _ & Eplan & Eowner). assert (y = x) as -> by congruence.
    exists i, s. repeat (split; [done|]). intros j t Hj Ht. by apply (Hu j i t s n).
  - intros k r Hr Ht Ho. by apply (open_pending _ _ Hok' k r).
Qed.

(** ** Ten lots from ten o'clock, and a pass of the worker ten minutes later *)

Definition plan_confirmed : world InMemoryQuoteProvider := snd (with_session (confirm None (plan_input "long" 10)) plan_world).
Definition later (t : datetime) {P} (w : world P) : world P :=
  mkWorld (durable w) (pending w) (provider w) (next_id w) (outbox w) t t.
Definition ten_past : datetime := combine_taipei 20601 (mk_time 10 10).

Lemma sample_twap : twap_ok sample_db.
Proof.
  split; cbn; try (intros * Hx; by rewrite lookup_empty in Hx); split; cbn; intros * Hx; by rewrite lookup_empty in Hx.
Qed.

Lemma outside_refl d : outside d d.
Proof. split; [done|intros k r Hr; by exists r|congruence|intros n x Hx _; by exists x|intros n y Hy _; by exists y]. Qed.

Lemma later_step {P} `{QuoteProvider P} ks t (w : world P) : twap_step ks w (later t w).
Proof. apply step_outside, outside_refl. Qed.

Lemma twap_life_witness : exists w' s, rtc (twap_step None) plan_world w' /\ twap_ok (durable w') /\
  twap_slices (durable w') !! (101 : uuid) = Some s /\ ts_status s = "notified" /\ ts_price_followup_required s = true.
Proof.
  set (w1 := later ten_past plan_confirmed). set (x := with_session (process_due_slices None 100) w1).
  assert (Hsl : exists s, twap_slices (durable (snd x)) !! (101 : uuid) = Some s /\ ts_status s = "notified" /\
    ts_price_followup_required s = true).
  { assert (Hfmap : (fun s => (ts_status s, ts_price_followup_required s)) <$> twap_slices (durable (snd x)) !! (101 : uuid) =
      Some ("notified", true)) by (vm_compute; reflexivity).
    apply fmap_Some in Hfmap as (s & Hs & [= Hst Hreq]). exists s. exact (conj Hs (conj (eq_sym Hst) (eq_sym Hreq))). }
  destruct Hsl as (s & Hs & Hst & Hreq). exists (snd x), s.
  assert (Hrun : rtc (twap_step None) plan_world (snd x)).
  { apply (rtc_l _ _ plan_confirmed); [exact (step_confirm None plan_world _ None (plan_input "long" 10) _ (surjective_pairing _))|].
    apply (rtc_l _ _ w1); [exact (later_step None ten_past plan_confirmed)|].
    assert (Hx : with_session (process_due_slices None 100) w1 = (fst x, snd x)) by exact (surjective_pairing x).
    apply rtc_once. exact (step_due None w1 (snd x) 100 (fst x) Hx). }
  split; [exact Hrun|]. split; [|exact (conj Hs (conj Hst Hreq))].
  destruct (twap_life None ltac:(discriminate) plan_world (snd x) sample_twap Hrun) as [Hok _]. exact Hok.
Defined.

(** The first of the two slices is due and goes out without a price. *)
Lemma due_phase_delivers_witness : exists w' msgs, with_session (process_due_slices None 100) (later ten_past plan_confirmed) = (Ok 2, w') /\
  outbox w' = [] ++ msgs /\ length msgs = 2%nat.
Proof.
  set (w1 := later ten_past plan_confirmed). set (x := with_session (process_due_slices None 100) w1).
  assert (Hr : fst x = Ok 2) by (vm_compute; reflexivity).
  assert (Hrun : with_session (process_due_slices None 100) w1 = (Ok 2, snd x)) by (rewrite <-Hr; exact (surjective_pairing x)).
  assert (Hok : twap_ok (durable w1)).
  { assert (Hstep : twap_step None plan_world plan_confirmed)
      by exact (step_confirm None plan_world _ None (plan_input "long" 10) _ (surjective_pairing _)).
    exact (moves_ok _ _ (step_moves None ltac:(discriminate) _ _ Hstep sample_twap) sample_twap). }
  assert (Hout : outbox w1 = []) by (vm_compute; reflexivity).
  destruct (due_phase_delivers None ltac:(discriminate) 100 w1 (snd x) (Ok 2) Hok Hrun)
    as (out & w2 & _ & _ & [(Hz & _)|(_ & w3 & due & msgs & _ & Hn & Ho & Hdel & _)]); [discriminate Hz|].
  exists (snd x), msgs. split; [exact Hrun|]. split; [rewrite <-Hout; exact Ho|]. rewrite <-(Forall2_length _ _ _ Hdel). lia.
Defined.
