(* ===== verification/App.v ===== *)
(** * The running application

    [src/app/main.py]: what the lifespan does before the first request is
    served, and how one incoming quote reaches the dispatchers of the two
    tracks.  Its theorems are proved against the interface of the quote
    providers, [LawfulSubscriptions]. *)

From S2P Require Import Prelude Decimal Datetime Errors Price TradingSession Intent Evaluation Tables Store CoreSchema Lifecycle IntentRepo Samples IntentQueries Trigger Quotes Shioaji CreateIntent Dispatcher DispatchSpec IntentLife.
From S2P Require LegacyRepo TwapLife.
From S2P Require Import LegacyTrigger LegacyCommands LegacyLife.

#[local] Open Scope string_scope.
#[local] Open Scope list_scope.
#[local] Open Scope Z_scope.

Section App.
  Context {P : Type} `{QuoteProvider P}.

(** [for symbol in ...: provider.subscribe(symbol)] *)
Definition subscribe_all (symbols : list string) : M P unit :=
  for_each symbols (fun symbol => provider_call (fun p => subscribe p symbol)).

(** The start of [lifespan]: the provider's own [startup], then the lifecycle
    and the subscriptions of each track in one session. *)
Definition lifespan_startup (provider_startup : M P unit) : M P unit :=
  do_ provider_startup;
  with_session
    (do_ Lifecycle.run LegacyRepo.legacy_store;
     do legacy_symbols <- LegacyRepo.active_or_scheduled_symbols;
     do_ subscribe_all legacy_symbols;
     do_ Lifecycle.run core_store;
     do core_symbols <- active_or_scheduled_symbols;
     subscribe_all core_symbols).

(** The two listeners the lifespan registers, in that order; each runs in the
    thread that delivered the quote and swallows its own exceptions. *)
Definition quote_listeners (kill_switch : option (M P bool)) (snapshot : QuoteSnapshot) : M P unit :=
  do_ dispatch_legacy kill_switch snapshot;
  dispatch kill_switch snapshot.

(** ** Start-up *)

Lemma subscribe_all_quiet l : quiet (subscribe_all l).
Proof.
  unfold subscribe_all. induction l as [|s l IH]; cbn; [apply quiet_ret|].
  apply quiet_bind; [apply provider_call_quiet|]. intros _. exact IH.
Qed.

Lemma subscribe_all_active `{!LawfulSubscriptions P} l w w' : subscribe_all l w = (Ok tt, w') ->
  forall s, s ∈ active_subscriptions (provider w') <-> s ∈ l \/ s ∈ active_subscriptions (provider w).
Proof.
  revert w. induction l as [|x l IH]; intros w; cbn.
  { intros [= <-] s. set_solver. }
  unfold bind. destruct (provider_call _ w) as [[[]|e] w1] eqn:Hc; [|done]. intros Hl s. rewrite (IH w1 Hl s).
  revert Hc. unfold provider_call, gets, bind, lift, modify. destruct (subscribe (provider w) x) as [p|e] eqn:Hs; [|done].
  intros [= <-]. cbn [provider with_provider]. rewrite (subscribe_active _ _ _ s Hs). set_solver.
Qed.

(** The symbols of the open intents of a state. *)
Definition core_open (d : db) (s : string) : Prop := exists i c, cores d !! i = Some c /\ is_open (c_status c) = true /\ c_symbol c = s.
Definition legacy_open (d : db) (s : string) : Prop := exists i r, legacy_intents d !! i = Some r /\ is_open (l_status r) = true /\ l_symbol r = s.

Lemma core_symbols_run (w : world P) : exists l, active_or_scheduled_symbols w = (Ok l, w) /\ forall s, s ∈ l <-> core_open (pending w) s.
Proof.
  eexists. split; [reflexivity|]. intros s. rewrite elem_of_remove_dups, list_elem_of_fmap. split.
  - intros ([i c] & -> & Hin). apply elem_of_select in Hin as [Hc Ho]. by exists i, c.
  - intros (i & c & Hc & Ho & <-). exists (i, c). split; [done|]. by apply elem_of_select.
Qed.

Lemma legacy_symbols_run (w : world P) : exists l, LegacyRepo.active_or_scheduled_symbols w = (Ok l, w) /\ forall s, s ∈ l <-> legacy_open (pending w) s.
Proof.
  eexists. split; [reflexivity|]. intros s. rewrite elem_of_remove_dups, list_elem_of_fmap. split.
  - intros ([i r] & -> & Hin). apply elem_of_select in Hin as [Hr Ho]. by exists i, r.
  - intros (i & r & Hr & Ho & <-). exists (i, r). split; [done|]. by apply elem_of_select.
Qed.

(** C18. When the start-up returns, everything is committed and the provider is
    subscribed to exactly the symbols an open intent of either track watches
    (after both lifecycles ran), besides those it already had. *)
Theorem startup_covers `{!LawfulSubscriptions P} (provider_startup : M P unit) (w w0 w' : world P)
    (Hquiet : quiet provider_startup) (Hstart : provider_startup w = (Ok tt, w0))
    (Hrun : lifespan_startup provider_startup w = (Ok tt, w')) :
  pending w' = durable w' /\
  forall s, s ∈ active_subscriptions (provider w') <->
    core_open (durable w') s \/ legacy_open (durable w') s \/ s ∈ active_subscriptions (provider w0).
Proof.
  unfold lifespan_startup in Hrun. unfold bind at 1 in Hrun. rewrite Hstart in Hrun.
  destruct (session_cases _ _ _ _ Hrun) as (w1 & Hc & Hd & Hp & Hpr & _). split; [congruence|]. clear Hrun Hstart Hp.
  destruct (TwapLife.sweep_run (opening w0) eq_refl) as (out & d1 & Hsweep & _).
  unfold bind at 1 in Hc. rewrite Hsweep in Hc. set (wa := at_rest d1 (opening w0)) in *.
  destruct (legacy_symbols_run wa) as (l & Hl & Hls). unfold bind at 1 in Hc. rewrite Hl in Hc.
  unfold bind at 1 in Hc. destruct (subscribe_all l wa) as [[[]|e] wb] eqn:Hb; [|done].
  pose proof (subscribe_all_active l wa wb Hb) as Hbs. destruct (subscribe_all_quiet l wa _ wb Hb) as (Hdb & Hpb & _).
  unfold bind at 1 in Hc. change (Lifecycle.run core_store) with (lifecycle_run (P := P)) in Hc.
  rewrite (lifecycle_at_rest wb) in Hc by (rewrite Hdb, Hpb; done). set (d2 := after_lifecycle _ _) in Hc.
  set (wc := at_rest d2 wb) in *. destruct (core_symbols_run wc) as (k & Hk & Hks). unfold bind in Hc. rewrite Hk in Hc.
  pose proof (subscribe_all_active k wc w1 Hc) as Hcs. destruct (subscribe_all_quiet k wc _ w1 Hc) as (Hdc & _).
  intros s. rewrite Hpr, Hcs, Hks, Hd, Hdc. change (provider wc) with (provider wb). rewrite Hbs, Hls.
  change (provider wa) with (provider w0). change (pending wc) with d2. change (durable wc) with d2. change (pending wa) with d1.
  assert (Hleg : legacy_open d1 s <-> legacy_open d2 s); [|tauto].
  unfold d2. rewrite Hdb. done.
Qed.

(** ** One quote, two tracks *)

(** The tables of one track. *)
Definition core_side (d : db) := (cores d, triggers d, price_params d, trailing_params d).
Definition legacy_side (d : db) := (legacy_intents d, trigger_events d, twap_slices d).

Lemma dispatch_legacy_core x ks q : (forall c, ks = Some c -> quiet c) ->
  preserves (P := P) (both (fun d => core_side d = x)) (dispatch_legacy ks q).
Proof.
  intros Hks. unfold dispatch_legacy, dispatch_legacy_inner.
  assert (Hex : forall f : db -> db, (forall d, core_side (f d) = core_side d) ->
    preserves (P := P) (both (fun d => core_side d = x)) (execute f)).
  { intros f Hf. apply both_execute. intros d. by rewrite Hf. }
  assert (Hin : forall v (f : db -> db), (forall d, core_side (f d) = core_side d) ->
    preserves (P := P) (both (fun d => core_side d = x)) (insert_checked v f)).
  { intros v f Hf. apply both_insert. intros d Hd _. by rewrite Hf. }
  assert (Hst : forall i inp, preserves (P := P) (both (fun d => core_side d = x)) (stage i inp)).
  { intros i inp. unfold stage, LegacyRepo.flush_as, persist_trigger, write_event, mark_legacy_triggered, flush_row,
      insert_event, insert_notification, LegacyRepo.update_legacy. preserve. }
  assert (Hloop : forall now l b, preserves (P := P) (both (fun d => core_side d = x)) (dispatch_legacy_loop q now l b)).
  { intros now l. induction l as [|i l IH]; intros b; cbn; [apply preserves_ret|].
    apply preserves_bind; [|intros a; apply IH]. unfold dispatch_legacy_intent, LegacyRepo.system_update_trailing_baseline.
    preserve. }
  assert (Hh : preserves (P := P) (both (fun d => core_side d = x)) (halted_now ks)).
  { unfold halted_now. destruct ks; [by apply quiet_preserves, Hks|apply preserves_ret]. }
  assert (Hs : forall now, preserves (P := P) (both (fun d => core_side d = x)) (with_session (dispatch_legacy_session q now))).
  { intros now. apply with_session_pres. unfold dispatch_legacy_session, Lifecycle.run, LegacyRepo.legacy_store.
    cbn [expire_day_intents_through activate_scheduled_day_intents].
    unfold LegacyRepo.system_expire_day_intents_through, LegacyRepo.system_activate_scheduled_day_intents, LegacyRepo.update_legacy,
      LegacyRepo.update_slices, LegacyRepo.system_list_active_by_symbols. preserve. }
  preserve.
Qed.

Lemma dispatch_core_legacy x ks q : (forall c, ks = Some c -> quiet c) ->
  preserves (P := P) (both (fun d => legacy_side d = x)) (dispatch ks q).
Proof.
  intros Hks. unfold dispatch, dispatch_inner.
  assert (Hex : forall f : db -> db, (forall d, legacy_side (f d) = legacy_side d) ->
    preserves (P := P) (both (fun d => legacy_side d = x)) (execute f)).
  { intros f Hf. apply both_execute. intros d. by rewrite Hf. }
  assert (Hin : forall v (f : db -> db), (forall d, legacy_side (f d) = legacy_side d) ->
    preserves (P := P) (both (fun d => legacy_side d = x)) (insert_checked v f)).
  { intros v f Hf. apply both_insert. intros d Hd _. by rewrite Hf. }
  assert (Hpe : forall i inp, preserves (P := P) (both (fun d => legacy_side d = x)) (persist_core_trigger i inp)).
  { intros i inp. unfold persist_core_trigger, write_trigger, mark_triggered, insert_trigger, insert_notification,
      update_counting, update_cores. preserve. }
  assert (Hloop : forall now l b, preserves (P := P) (both (fun d => legacy_side d = x)) (dispatch_loop q now l b)).
  { intros now l. induction l as [|i l IH]; intros b; cbn; [apply preserves_ret|].
    apply preserves_bind; [|intros a; apply IH].
    unfold dispatch_intent, store_baseline, apply_trailing_baseline_update, system_update_trailing_baseline, update_cores.
    preserve. }
  assert (Hh : preserves (P := P) (both (fun d => legacy_side d = x)) (halted_now ks)).
  { unfold halted_now. destruct ks; [by apply quiet_preserves, Hks|apply preserves_ret]. }
  assert (Hs : forall now, preserves (P := P) (both (fun d => legacy_side d = x)) (with_session (dispatch_session q now))).
  { intros now. apply with_session_pres. unfold dispatch_session, lifecycle_run, Lifecycle.run, core_store.
    cbn [expire_day_intents_through activate_scheduled_day_intents].
    unfold system_expire_day_intents_through, system_activate_scheduled_day_intents, update_counting, update_cores,
      system_list_active_by_symbols. preserve. }
  preserve.
Qed.

(** A dispatch leaves nothing uncommitted. *)
Lemma dispatch_legacy_pending ks q (w w1 : world P) : (forall c, ks = Some c -> quiet c) -> pending w = durable w ->
  dispatch_legacy ks q w = (Ok tt, w1) -> pending w1 = durable w1.
Proof.
  intros Hks Hc. unfold dispatch_legacy, dispatch_legacy_inner, try_except, bind.
  destruct (halted_now ks w) as [h wh] eqn:Hh.
  assert (Hq : pending wh = durable wh).
  { unfold halted_now in Hh. destruct ks as [c|]; [|by injection Hh as _ <-]. destruct (Hks c eq_refl w h wh Hh) as (-> & -> & _). done. }
  destruct h as [[|]|e]; [by intros [= <-]| |by intros [= <-]]. unfold clock, gets, with_session.
  destruct (dispatch_legacy_session _ _ _) as [[[]|e] w2]; by intros [= <-].
Qed.

(** One quote through both listeners: neither raises; the legacy dispatcher
    leaves the tables of the new track alone and the other one those of the
    legacy track, so that each track ends as its own dispatcher left it, and the
    invariants of both hold. *)
Theorem quote_reaches_both_tracks (ks : option (M P bool)) (q : QuoteSnapshot) (w : world P)
    (Hks : forall c, ks = Some c -> quiet c) (Hclean : pending w = durable w)
    (Hcore : schema_ok (durable w)) (Hlegacy : legacy_ok (durable w)) :
  exists w1 w', dispatch_legacy ks q w = (Ok tt, w1) /\ dispatch ks q w1 = (Ok tt, w') /\
    quote_listeners ks q w = (Ok tt, w') /\
    core_side (durable w1) = core_side (durable w) /\ legacy_side (durable w') = legacy_side (durable w1) /\
    schema_ok (durable w') /\ legacy_ok (durable w').
Proof.
  assert (Hok : forall (c : M P unit) w0, exists w1, try_except c (fun _ => ret tt) w0 = (Ok tt, w1)).
  { intros c w0. unfold try_except. destruct (c w0) as [[[]|e] w1]; by exists w1. }
  destruct (Hok (dispatch_legacy_inner ks q) w) as (w1 & H1). fold (dispatch_legacy ks q) in H1.
  destruct (Hok (dispatch_inner ks q) w1) as (w' & H2). fold (dispatch ks q) in H2. exists w1, w'.
  assert (Hb : both (fun d => core_side d = core_side (durable w)) w1).
  { apply (dispatch_legacy_core _ ks q Hks w (Ok tt) w1); [|exact H1]. split; [done|by rewrite Hclean]. }
  assert (Hl1 : both (legacy_state (durable w)) w1).
  { apply (dispatch_legacy_ev (durable w) ks q Hks w (Ok tt) w1); [|exact H1].
    assert (legacy_state (durable w) (durable w)); [|by split; rewrite ?Hclean].
    split; [done|]. split; [|done]. intros i r Hr. by exists r. }
  assert (Hs1 : both schema_ok w1).
  { destruct Hb as [Hbd Hbp]. unfold core_side in Hbd, Hbp. injection Hbd as Hc1 Ht1 Hpr1 Htr1. injection Hbp as Hc2 Ht2 Hpr2 Htr2.
    split; by apply (schema_ok_frame (durable w)). }
  pose proof (dispatch_pres ks q Hks w1 _ w' Hs1 H2) as [Hs2 _].
  pose proof (dispatch_legacy_pending ks q w w1 Hks Hclean H1) as Hp1.
  assert (Hlb : both (fun d => legacy_side d = legacy_side (durable w1)) w').
  { apply (dispatch_core_legacy _ ks q Hks w1 (Ok tt) w'); [|exact H2]. split; [done|by rewrite Hp1]. }
  split; [done|]. split; [done|]. split; [by unfold quote_listeners, bind; rewrite H1|]. split; [by destruct Hb|].
  split; [by destruct Hlb|]. split; [done|]. destruct Hlb as [Hlb _]. unfold legacy_side in Hlb. injection Hlb as Hi He _.
  by apply (legacy_ok_frame (durable w1)); [done..|destruct Hl1 as [[? _] _]].
Qed.

End App.

(** ** Witnesses *)

(** A state with an open alert on each track. *)
Definition two_tracks : db := set_legacy_intents {[50 := sample_alert]} open_db.

Lemma two_tracks_core : schema_ok two_tracks.
Proof. by apply (schema_ok_frame open_db), open_schema. Qed.
Lemma two_tracks_legacy : legacy_ok two_tracks.
Proof. apply (legacy_ok_frame legacy_db); [done|done|exact legacy_db_ok]. Qed.

Lemma startup_covers_witness :
  let w := mkWorld two_tracks two_tracks (mkInMemory ∅ ∅) 100 [] sample_time sample_time in
  exists w', lifespan_startup (ret tt) w = (Ok tt, w') /\ "2330" ∈ active_subscriptions (provider w').
Proof.
  intros w. set (x := lifespan_startup (ret tt) w). assert (Hx : x = (Ok tt, snd x)) by (vm_compute; reflexivity).
  exists (snd x). split; [exact Hx|].
  destruct (startup_covers (ret tt) w w (snd x) (quiet_ret tt) eq_refl Hx) as [_ Hs]. apply Hs. left.
  exists 1, (sample_row 2). split; [vm_compute; reflexivity|]. split; reflexivity.
Defined.

(** A quote that meets neither, one or both conditions: here the buy alert of
    the new track at 600. *)
Lemma quote_reaches_both_tracks_witness :
  let q := quote_at (Some (Dec 599 0)) (Some (Dec 5995 (-1))) None in
  let w := mkWorld two_tracks two_tracks (mkInMemory ∅ ∅) 100 [] sample_time sample_time in
  exists w', quote_listeners None q w = (Ok tt, w') /\ schema_ok (durable w') /\ legacy_ok (durable w') /\
    c_status <$> cores (durable w') !! (1 : uuid) = Some "triggered" /\
    l_status <$> legacy_intents (durable w') !! (50 : uuid) = Some "active".
Proof.
  intros q w. set (x := quote_listeners None q w).
  destruct (quote_reaches_both_tracks None q w ltac:(discriminate) eq_refl two_tracks_core two_tracks_legacy)
    as (w1 & w' & _ & _ & Hx & _ & _ & Hs & Hl).
  exists w'. split; [exact Hx|]. split; [exact Hs|]. split; [exact Hl|].
  assert (Hw : w' = snd x) by (unfold x; by rewrite Hx). rewrite Hw. split; vm_compute; reflexivity.
Defined.
