(* ===== verification/Responses.v ===== *)
(** * Error responses

    [src/app/api/errors.py]: which handler answers an exception that leaves an
    endpoint, and the envelope it answers with; and the request ids of
    [src/app/core/ids.py].  Starlette looks a handler up along the classes of
    the exception; a handler that raises itself, and an exception no handler is
    registered for, are answered by the handler of [Exception]. *)

From Stdlib Require QArith_base Qround.
From S2P Require Import Prelude Decimal Datetime Json Errors Twap.

#[local] Open Scope string_scope.
#[local] Open Scope list_scope.
#[local] Open Scope Z_scope.

(** ** Codes and messages *)

(** The values of [ErrorCode]. *)
Definition ERROR_CODES : list string :=
  ["INTERNAL_ERROR"; "VALIDATION_ERROR"; "DATABASE_UNAVAILABLE"; "UNKNOWN_SYMBOL"; "SYMBOL_NOT_TRADABLE";
   "INVALID_PRICE"; "INVALID_TICK_SIZE"; "INVALID_AMOUNT"; "INVALID_TYPE"; "DUPLICATE_INTENT";
   "USER_INTENT_LIMIT_EXCEEDED"; "SYMBOL_INTENT_LIMIT_EXCEEDED"; "IDEMPOTENCY_KEY_REQUIRED";
   "IDEMPOTENCY_KEY_CONFLICT"; "NOT_FOUND"; "CANCEL_NOT_ALLOWED"; "INVALID_CURSOR";
   "QUOTE_PROVIDER_UNAVAILABLE"; "QUOTE_UNAVAILABLE"; "CURRENT_PRICE_SYMBOL_NOT_ALLOWED";
   "TWAP_END_TIME_OUTSIDE_SESSION"; "TWAP_END_TIME_ALREADY_PASSED"; "TWAP_INSUFFICIENT_SLICES";
   "TWAP_TOO_MANY_SLICES"; "TWAP_INVALID_INTERVAL"; "TWAP_INVALID_QUANTITY"; "TWAP_DUPLICATE_ACTIVE_PLAN";
   "UNAUTHENTICATED"; "FORBIDDEN"; "ACCOUNT_DISABLED"; "SESSION_REVOKED"; "LOGIN_FAILED"; "LOGIN_LOCKED";
   "REFRESH_INVALID"; "REFRESH_REUSE_DETECTED"; "CSRF_FAILED"; "MFA_REQUIRED"; "RATE_LIMITED";
   "EMAIL_ALREADY_EXISTS"; "INVITATION_INVALID"; "INVITATION_EXPIRED"; "INVITATION_CONSUMED";
   "WEAK_PASSWORD"; "PASSWORD_RESET_INVALID"; "MFA_INVALID_CODE"; "MFA_ALREADY_ENABLED"; "MFA_NOT_SETUP";
   "ACCOUNT_NOT_DISABLED"].

Definition DEFAULT_MESSAGES : list (string * string) :=
  [("INTERNAL_ERROR", "發生未預期錯誤");
   ("VALIDATION_ERROR", "請求資料不合法");
   ("DATABASE_UNAVAILABLE", "資料庫暫時無法使用");
   ("UNKNOWN_SYMBOL", "找不到標的代號");
   ("SYMBOL_NOT_TRADABLE", "標的目前不可交易");
   ("INVALID_PRICE", "價格格式不合法");
   ("INVALID_TICK_SIZE", "價格不符合升降單位規定");
   ("INVALID_AMOUNT", "數量不合法");
   ("INVALID_TYPE", "證券類型不合法");
   ("DUPLICATE_INTENT", "已存在相同的委託");
   ("USER_INTENT_LIMIT_EXCEEDED", "您的有效委託數已達上限");
   ("SYMBOL_INTENT_LIMIT_EXCEEDED", "此標的的有效委託數已達上限");
   ("IDEMPOTENCY_KEY_REQUIRED", "此操作需要提供 Idempotency-Key");
   ("IDEMPOTENCY_KEY_CONFLICT", "Idempotency-Key 已用於不同的請求");
   ("NOT_FOUND", "找不到此資源");
   ("CANCEL_NOT_ALLOWED", "此委託狀態不允許取消");
   ("INVALID_CURSOR", "Cursor 已失效或不存在");
   ("QUOTE_PROVIDER_UNAVAILABLE", "行情服務暫時無法使用");
   ("QUOTE_UNAVAILABLE", "尚未收到該標的的行情報價");
   ("CURRENT_PRICE_SYMBOL_NOT_ALLOWED", "此測試查價 API 僅允許指定標的");
   ("TWAP_END_TIME_OUTSIDE_SESSION", "TWAP 結束時間需在台股交易時段內");
   ("TWAP_END_TIME_ALREADY_PASSED", "TWAP 結束時間已經超過");
   ("TWAP_INSUFFICIENT_SLICES", "TWAP 至少需要兩筆分批交易");
   ("TWAP_TOO_MANY_SLICES", "TWAP 分批筆數超過上限");
   ("TWAP_INVALID_INTERVAL", "TWAP 間隔秒數不合法");
   ("TWAP_INVALID_QUANTITY", "TWAP 目標量不合法");
   ("TWAP_DUPLICATE_ACTIVE_PLAN", "已存在相同的 TWAP 計畫");
   ("UNAUTHENTICATED", "請先登入");
   ("FORBIDDEN", "沒有權限執行此操作");
   ("ACCOUNT_DISABLED", "帳號已停用，請重新登入或聯絡管理員");
   ("SESSION_REVOKED", "工作階段已失效，請重新登入");
   ("LOGIN_FAILED", "帳號或密碼錯誤");
   ("LOGIN_LOCKED", "登入失敗次數過多，請稍後再試");
   ("REFRESH_INVALID", "登入憑證已失效，請重新登入");
   ("REFRESH_REUSE_DETECTED", "偵測到憑證異常使用，已登出所有工作階段");
   ("CSRF_FAILED", "CSRF 驗證失敗");
   ("MFA_REQUIRED", "需要完成兩階段驗證");
   ("RATE_LIMITED", "請求過於頻繁，請稍後再試");
   ("EMAIL_ALREADY_EXISTS", "此 email 已存在");
   ("INVITATION_INVALID", "邀請連結無效");
   ("INVITATION_EXPIRED", "邀請連結已過期");
   ("INVITATION_CONSUMED", "邀請連結已被使用");
   ("WEAK_PASSWORD", "密碼長度至少需 8 個字元");
   ("PASSWORD_RESET_INVALID", "重設連結無效或已過期");
   ("MFA_INVALID_CODE", "驗證碼錯誤");
   ("MFA_ALREADY_ENABLED", "已啟用兩階段驗證");
   ("MFA_NOT_SETUP", "尚未設定兩階段驗證");
   ("ACCOUNT_NOT_DISABLED", "帳號未處於停用狀態，無法復權")].

(** [ErrorCode | str]: a member of the enumeration, or a plain text. *)
Inductive code : Type :=
| EnumCode (value : string)
| PlainCode (value : string).

(** [try: ErrorCode(text) except ValueError: text] *)
Definition error_code (text : string) : code := if str_in text ERROR_CODES then EnumCode text else PlainCode text.

Definition code_value (c : code) : string := match c with EnumCode v | PlainCode v => v end.

(** [d[key]] of a dict written as a literal *)
Definition dict_get {A} (d : list (string * A)) (key : string) : res A :=
  match List.find (fun x => String.eqb (fst x) key) d with
  | Some (_, v) => Ok v
  | None => Raise (KeyError key)
  end.

Definition default_message (c : code) : res string :=
  match c with
  | EnumCode v => dict_get DEFAULT_MESSAGES v
  | PlainCode _ => Ok "行情服務發生錯誤"
  end.

(** [isoformat()] of a time of day and of a datetime *)
Definition pad (w : nat) (n : Z) : list ascii :=
  let ds := int_digits n in replicate (w - length ds) zero_ch ++ ds.
Definition time_chars (t : time) : list ascii :=
  pad 2 (t / HOUR) ++ ":"%char :: pad 2 (t / MINUTE mod 60) ++ ":"%char :: pad 2 (t / SECOND mod 60) ++
  (if t mod SECOND =? 0 then [] else "."%char :: pad 6 (t mod SECOND)).
Definition time_isoformat (t : time) : string := unchars (time_chars t).
Definition dt_isoformat (dt : datetime) : string :=
  let '(y, m, d) := civil (dt_date dt) in
  unchars (pad 4 y ++ "-"%char :: pad 2 m ++ "-"%char :: pad 2 d ++ "T"%char :: time_chars (dt_time dt) ++
    match dt_off dt with
    | None => []
    | Some o => (if o <? 0 then "-"%char else "+"%char) :: pad 2 (Z.abs o / 60) ++ ":"%char :: pad 2 (Z.abs o mod 60)
    end).

(** ** Responses *)

(** [Response.set_cookie]; a deleted cookie has a maximal age of 0. *)
Record Cookie : Type := mkCookie {
  ck_name : string;
  ck_value : string;
  ck_max_age : Z;
  ck_http_only : bool;
  ck_secure : bool;
  ck_same_site : string;
  ck_path : string;
}.

(** A response: the status, the headers other than cookies, the cookies, and the
    JSON body ([None] for an empty one). *)
Record Response : Type := mkResponse {
  rs_status : Z;
  rs_headers : list (string * string);
  rs_cookies : list Cookie;
  rs_body : option jvalue;
}.

(** [response.headers[name] = value]: header names are case-insensitive in
    Starlette; the names the program uses differ by more than case. *)
Definition set_header (name value : string) (r : Response) : Response :=
  mkResponse (rs_status r) (List.filter (fun h => negb (String.eqb (fst h) name)) (rs_headers r) ++ [(name, value)]) (rs_cookies r) (rs_body r).
Definition header (name : string) (r : Response) : option string :=
  snd <$> List.find (fun h => String.eqb (fst h) name) (rs_headers r).

(** What a handler reads of the request: its id ([""] when there is none) and
    the name of the header the id is sent under. *)
Record RequestInfo : Type := mkRequestInfo {
  rq_id : string;
  rq_header : string;
}.

Definition details : Type := list (string * jvalue).

Definition error_body (rq : RequestInfo) (c : code) (message : string) (d : details) : jvalue :=
  JObj {[ "error" := JObj (list_to_map
    [("code", JStr (code_value c)); ("message", JStr message); ("details", JObj (list_to_map d)); ("requestId", JStr (rq_id rq))]) ]}.

(** [message or _default_message(code)] *)
Definition message_or_default (c : code) (message : option string) : res string :=
  match message with
  | Some m => if String.eqb m "" then default_message c else Ok m
  | None => default_message c
  end.

Definition build_error_response (rq : RequestInfo) (status_code : Z) (c : code) (message : option string) (d : details) : res Response :=
  let? m := message_or_default c message in
  Ok (mkResponse status_code (if String.eqb (rq_id rq) "" then [] else [(rq_header rq, rq_id rq)]) [] (Some (error_body rq c m d))).

(** ** The classes of an exception *)

(** [type(exc).__mro__] without [BaseException] and [object]; a third-party
    class, whatever its name, is none of those a handler is registered for. *)
Definition mro (e : exn) : list string :=
  let under name bases := name :: bases ++ ["Exception"] in
  let twap name := under name ["TwapError"] in
  let auth name := under name ["AuthError"] in
  let account name := under name ["AccountError"] in
  let quote name := under name ["QuoteProviderError"] in
  let trigger name := under name ["TriggerError"] in
  let intent name := under name ["IntentError"] in
  match e with
  | TypeError => under "TypeError" []
  | ValueError _ => under "ValueError" []
  | RuntimeError _ => under "RuntimeError" []
  | KeyError _ => under "KeyError" ["LookupError"]
  | DecimalError _ => under "DecimalException" ["ArithmeticError"]
  | OverflowError => under "OverflowError" ["ArithmeticError"]
  | IntegrityError _ => under "IntegrityError" ["DatabaseError"; "DBAPIError"; "StatementError"; "SQLAlchemyError"]
  | InvalidPriceError _ _ => under "InvalidPriceError" ["ValueError"]
  | InvalidTickSizeError _ _ _ _ _ => under "InvalidTickSizeError" ["InvalidPriceError"; "ValueError"]
  | InvalidAmountError _ _ => under "InvalidAmountError" ["ValueError"]
  | InvalidTypeError _ _ => under "InvalidTypeError" ["ValueError"]
  | UnknownSymbolError _ => under "UnknownSymbolError" ["SymbolError"]
  | SymbolNotTradableError _ _ => under "SymbolNotTradableError" ["SymbolError"]
  | OutsideSessionError _ => under "OutsideSessionError" []
  | DuplicateIntentError _ _ _ => intent "DuplicateIntentError"
  | IntentNotFoundError _ => intent "IntentNotFoundError"
  | CancelNotAllowedError _ _ => intent "CancelNotAllowedError"
  | InvalidCursorError _ => intent "InvalidCursorError"
  | UserIntentLimitExceededError _ _ => under "UserIntentLimitExceededError" ["IntentLimitExceededError"; "IntentError"]
  | SymbolIntentLimitExceededError _ _ _ => under "SymbolIntentLimitExceededError" ["IntentLimitExceededError"; "IntentError"]
  | DuplicateTriggerError _ => trigger "DuplicateTriggerError"
  | CoreIntentNotActiveError _ => trigger "CoreIntentNotActiveError"
  | IntentNotActiveError _ _ => trigger "IntentNotActiveError"
  | TwapInvalidIntervalError _ => twap "TwapInvalidIntervalError"
  | TwapInvalidQuantityError _ => twap "TwapInvalidQuantityError"
  | TwapEndTimeOutsideSessionError _ => twap "TwapEndTimeOutsideSessionError"
  | TwapStartTimeOutsideSessionError _ => twap "TwapStartTimeOutsideSessionError"
  | TwapStartTimeAfterEndTimeError _ _ => twap "TwapStartTimeAfterEndTimeError"
  | TwapEndTimeAlreadyPassedError _ _ => twap "TwapEndTimeAlreadyPassedError"
  | TwapInsufficientSlicesError _ _ => twap "TwapInsufficientSlicesError"
  | TwapTooManySlicesError _ => twap "TwapTooManySlicesError"
  | TwapDuplicateActivePlanError _ _ _ => twap "TwapDuplicateActivePlanError"
  | QuoteUnavailableError _ => quote "QuoteUnavailableError"
  | QuoteProviderUnavailableError _ _ => quote "QuoteProviderUnavailableError"
  | SymbolNotAvailableInDemo _ _ => quote "SymbolNotAvailableInDemo"
  | QuoteSubscriptionLimitExceeded _ _ _ => quote "QuoteSubscriptionLimitExceeded"
  | QuoteValidationError _ _ => under "QuoteValidationError" ["ValueError"]
  | NotificationNotFoundError _ => under "NotificationNotFoundError" ["NotificationError"]
  | UnauthenticatedError => auth "UnauthenticatedError"
  | ForbiddenError => auth "ForbiddenError"
  | LoginFailedError => auth "LoginFailedError"
  | LoginLockedError _ => auth "LoginLockedError"
  | RefreshInvalidError => auth "RefreshInvalidError"
  | RefreshReuseDetectedError => auth "RefreshReuseDetectedError"
  | CsrfFailedError => auth "CsrfFailedError"
  | MfaRequiredError => under "MfaRequiredError" ["ForbiddenError"; "AuthError"]
  | RateLimitedError _ => auth "RateLimitedError"
  | MfaInvalidCodeError => auth "MfaInvalidCodeError"
  | EmailAlreadyExistsError => account "EmailAlreadyExistsError"
  | UserNotFoundError => account "UserNotFoundError"
  | InvitationInvalidError => account "InvitationInvalidError"
  | InvitationExpiredError => account "InvitationExpiredError"
  | InvitationConsumedError => account "InvitationConsumedError"
  | WeakPasswordError => account "WeakPasswordError"
  | PasswordResetInvalidError => account "PasswordResetInvalidError"
  | MfaAlreadyEnabledError => account "MfaAlreadyEnabledError"
  | MfaNotSetupError => account "MfaNotSetupError"
  | AccountNotDisabledError => account "AccountNotDisabledError"
  | TelegramIntentLlmError _ => under "TelegramIntentLlmError" ["TelegramIntentError"]
  | IdempotencyConflictError => under "IdempotencyConflictError" []
  | InvalidAccessTokenError => under "InvalidAccessTokenError" []
  | ApiError _ _ _ _ => under "ApiError" []
  | ExternalError _ => under "ExternalError" []
  end.

(** What leaves an endpoint: an exception of the model, or one of the two
    FastAPI raises.  The errors of a rejected request are pydantic's; [None]
    stands for errors the JSON encoder cannot render. *)
Inductive raised : Type :=
| Raised (e : exn)
| RequestValidationError (errors : option jvalue)
| HTTPException (status_code : Z).

Definition raised_mro (x : raised) : list string :=
  match x with
  | Raised e => mro e
  | RequestValidationError _ => ["RequestValidationError"; "ValidationException"; "Exception"]
  | HTTPException _ => ["HTTPException"; "Exception"]
  end.

(** [exc.error_code], [exc.details()] of the TWAP errors *)
Definition twap_error (e : exn) : option (string * details) :=
  match e with
  | TwapInvalidIntervalError n => Some ("TWAP_INVALID_INTERVAL",
      [("intervalSeconds", JInt n); ("minIntervalSeconds", JInt TWAP_MIN_INTERVAL_SECONDS);
       ("maxIntervalSeconds", JInt TWAP_MAX_INTERVAL_SECONDS)])
  | TwapInvalidQuantityError n => Some ("TWAP_INVALID_QUANTITY",
      [("quantityLots", JInt n); ("minQuantityLots", JInt TWAP_MIN_QUANTITY_LOTS);
       ("maxQuantityLots", JInt TWAP_MAX_QUANTITY_LOTS)])
  | TwapEndTimeOutsideSessionError t => Some ("TWAP_END_TIME_OUTSIDE_SESSION",
      [("endTime", JStr (time_isoformat t)); ("sessionStart", JStr (time_isoformat SESSION_START_TIME));
       ("latestEndTime", JStr (time_isoformat TWAP_LATEST_END_TIME))])
  | TwapStartTimeOutsideSessionError t => Some ("TWAP_START_TIME_OUTSIDE_SESSION",
      [("startTime", JStr (time_isoformat t)); ("sessionStart", JStr (time_isoformat SESSION_START_TIME));
       ("latestStartTime", JStr (time_isoformat TWAP_LATEST_START_TIME))])
  | TwapStartTimeAfterEndTimeError s t => Some ("TWAP_START_TIME_AFTER_END_TIME",
      [("startTime", JStr (time_isoformat s)); ("endTime", JStr (time_isoformat t))])
  | TwapEndTimeAlreadyPassedError fin now => Some ("TWAP_END_TIME_ALREADY_PASSED",
      [("endAt", JStr (dt_isoformat fin)); ("now", JStr (dt_isoformat now))])
  | TwapInsufficientSlicesError a m => Some ("TWAP_INSUFFICIENT_SLICES",
      [("availableSliceCount", JInt a); ("materializedSliceCount", JInt m);
       ("minMaterializedSliceCount", JInt TWAP_MIN_MATERIALIZED_SLICES)])
  | TwapTooManySlicesError m => Some ("TWAP_TOO_MANY_SLICES",
      [("materializedSliceCount", JInt m); ("maxMaterializedSliceCount", JInt TWAP_MAX_MATERIALIZED_SLICES)])
  | TwapDuplicateActivePlanError _ symbol side => Some ("TWAP_DUPLICATE_ACTIVE_PLAN",
      [("symbol", JStr symbol); ("positionSide", JStr side)])
  | _ => None
  end.

(** [exc.error_code], [exc.http_status], [exc.default_message] and [exc.details()]
    of the provider errors *)
Definition quote_error (e : exn) : option (string * Z * string * details) :=
  match e with
  | QuoteUnavailableError symbol => Some ("QUOTE_UNAVAILABLE", 503, "尚未收到該標的的行情報價", [("symbol", JStr symbol)])
  | QuoteProviderUnavailableError provider reason => Some ("QUOTE_PROVIDER_UNAVAILABLE", 503, "行情服務暫時無法使用",
      ("provider", JStr provider) ::
      match reason with Some r => if String.eqb r "" then [] else [("reason", JStr r)] | None => [] end)
  | SymbolNotAvailableInDemo symbol allowed => Some ("SYMBOL_NOT_AVAILABLE_IN_DEMO", 422,
      "此標的不在 Shioaji demo 白名單，無法訂閱",
      [("symbol", JStr symbol); ("allowed", JArr (JStr <$> sorted_strings allowed))])
  | QuoteSubscriptionLimitExceeded symbol current limit => Some ("QUOTE_SUBSCRIPTION_LIMIT_EXCEEDED", 409,
      "目前訂閱數已達 Shioaji demo 上限",
      [("symbol", JStr symbol); ("current", JInt current); ("limit", JInt limit)])
  | _ => None
  end.

(** ** The handlers *)

Section Handlers.
  Context (rq : RequestInfo).

#[local] Notation answer_with := (build_error_response rq).

(** A handler is only called with an instance of its class; anything else
    would lack the attributes it reads. *)
Definition attribute_error : res Response := Raise (RuntimeError "AttributeError").

Definition api_error_handler (x : raised) : res Response :=
  match x with
  | Raised (ApiError c status_code message d) => answer_with status_code (error_code c) message d
  | _ => attribute_error
  end.

(** [max(1, ceil(seconds))]; [None] stands for an infinite wait, of which
    [ceil] raises. *)
Definition retry_after (seconds : option QArith_base.Q) : res Z :=
  match seconds with
  | Some q => Ok (Z.max 1 (Qround.Qceiling q))
  | None => Raise OverflowError
  end.
Definition throttled (c : string) (seconds : option QArith_base.Q) : res Response :=
  let? n := retry_after seconds in
  let? r := answer_with 429 (EnumCode c) None [("retryAfterSeconds", JInt n)] in
  Ok (set_header "Retry-After" (str_int n) r).

Definition auth_error_handler (x : raised) : res Response :=
  match x with
  | Raised UnauthenticatedError => answer_with 401 (EnumCode "UNAUTHENTICATED") None []
  | Raised LoginFailedError => answer_with 401 (EnumCode "LOGIN_FAILED") None []
  | Raised (LoginLockedError seconds) => throttled "LOGIN_LOCKED" seconds
  | Raised RefreshReuseDetectedError => answer_with 401 (EnumCode "REFRESH_REUSE_DETECTED") None []
  | Raised RefreshInvalidError => answer_with 401 (EnumCode "REFRESH_INVALID") None []
  | Raised CsrfFailedError => answer_with 403 (EnumCode "CSRF_FAILED") None []
  | Raised MfaInvalidCodeError => answer_with 422 (EnumCode "MFA_INVALID_CODE") None []
  | Raised (RateLimitedError seconds) => throttled "RATE_LIMITED" seconds
  | Raised MfaRequiredError => answer_with 403 (EnumCode "MFA_REQUIRED") None []
  | _ => answer_with 403 (EnumCode "FORBIDDEN") None []
  end.

Definition account_error_handler (x : raised) : res Response :=
  match x with
  | Raised UserNotFoundError => answer_with 404 (EnumCode "NOT_FOUND") None []
  | Raised EmailAlreadyExistsError => answer_with 409 (EnumCode "EMAIL_ALREADY_EXISTS") None []
  | Raised InvitationExpiredError => answer_with 410 (EnumCode "INVITATION_EXPIRED") None []
  | Raised InvitationConsumedError => answer_with 409 (EnumCode "INVITATION_CONSUMED") None []
  | Raised InvitationInvalidError => answer_with 400 (EnumCode "INVITATION_INVALID") None []
  | Raised WeakPasswordError => answer_with 422 (EnumCode "WEAK_PASSWORD") None []
  | Raised PasswordResetInvalidError => answer_with 400 (EnumCode "PASSWORD_RESET_INVALID") None []
  | Raised MfaAlreadyEnabledError => answer_with 409 (EnumCode "MFA_ALREADY_ENABLED") None []
  | Raised MfaNotSetupError => answer_with 409 (EnumCode "MFA_NOT_SETUP") None []
  | Raised AccountNotDisabledError => answer_with 409 (EnumCode "ACCOUNT_NOT_DISABLED") None []
  | _ => answer_with 400 (EnumCode "VALIDATION_ERROR") None []
  end.

Definition symbol_error_handler (x : raised) : res Response :=
  match x with
  | Raised (UnknownSymbolError symbol) => answer_with 404 (EnumCode "UNKNOWN_SYMBOL") None [("symbol", JStr symbol)]
  | Raised (SymbolNotTradableError symbol status) =>
      answer_with 422 (EnumCode "SYMBOL_NOT_TRADABLE") None [("symbol", JStr symbol); ("tradable_status", JStr status)]
  | _ => answer_with 500 (EnumCode "INTERNAL_ERROR") None []
  end.

Definition invalid_tick_size_handler (x : raised) : res Response :=
  match x with
  | Raised (InvalidTickSizeError value _ lower upper field) =>
      answer_with 422 (EnumCode "INVALID_TICK_SIZE") None
        ([("value", JStr value); ("nearest_lower", JStr (unchars (str_dec lower)));
          ("nearest_upper", JStr (unchars (str_dec upper)))] ++
         match field with Some f => [("field", JStr f)] | None => [] end)
  | _ => attribute_error
  end.

Definition invalid_price_handler (x : raised) : res Response :=
  match x with
  | Raised (InvalidPriceError value _) => answer_with 422 (EnumCode "INVALID_PRICE") None [("value", JStr value)]
  | _ => attribute_error
  end.

Definition amount_text (a : py_amount) : string := match a with AmountInt n => str_int n | AmountOther s => s end.
Definition invalid_amount_handler (x : raised) : res Response :=
  match x with
  | Raised (InvalidAmountError value _) => answer_with 422 (EnumCode "INVALID_AMOUNT") None [("value", JStr (amount_text value))]
  | _ => attribute_error
  end.

Definition invalid_type_handler (x : raised) : res Response :=
  match x with
  | Raised (InvalidTypeError value _) => answer_with 422 (EnumCode "INVALID_TYPE") None [("value", JStr value)]
  | _ => attribute_error
  end.

Definition duplicate_intent_handler (x : raised) : res Response :=
  match x with
  | Raised (DuplicateIntentError _ symbol strategy) =>
      answer_with 409 (EnumCode "DUPLICATE_INTENT") None [("symbol", JStr symbol); ("strategy", JStr strategy)]
  | _ => attribute_error
  end.

Definition intent_limit_exceeded_handler (x : raised) : res Response :=
  match x with
  | Raised (SymbolIntentLimitExceededError symbol limit current) =>
      answer_with 409 (EnumCode "SYMBOL_INTENT_LIMIT_EXCEEDED") None
        [("symbol", JStr symbol); ("limit", JInt limit); ("current", JInt current)]
  | Raised (UserIntentLimitExceededError limit current) =>
      answer_with 409 (EnumCode "USER_INTENT_LIMIT_EXCEEDED") None [("limit", JInt limit); ("current", JInt current)]
  | _ => attribute_error
  end.

Definition idempotency_conflict_handler (_ : raised) : res Response :=
  answer_with 409 (EnumCode "IDEMPOTENCY_KEY_CONFLICT") None [].
Definition intent_not_found_handler (_ : raised) : res Response := answer_with 404 (EnumCode "NOT_FOUND") None [].
Definition notification_not_found_handler (_ : raised) : res Response := answer_with 404 (EnumCode "NOT_FOUND") None [].
Definition invalid_cursor_handler (_ : raised) : res Response := answer_with 400 (EnumCode "INVALID_CURSOR") None [].

Definition twap_error_handler (x : raised) : res Response :=
  match x with
  | Raised e =>
      let status_code := match e with TwapDuplicateActivePlanError _ _ _ => 409 | _ => 422 end in
      match twap_error e with
      | Some (c, d) => answer_with status_code (error_code c) None d
      | None => attribute_error
      end
  | _ => attribute_error
  end.

Definition cancel_not_allowed_handler (x : raised) : res Response :=
  match x with
  | Raised (CancelNotAllowedError _ status) =>
      answer_with 409 (EnumCode "CANCEL_NOT_ALLOWED") None [("currentStatus", JStr status)]
  | _ => attribute_error
  end.

Definition quote_provider_error_handler (x : raised) : res Response :=
  match x with
  | Raised e =>
      match quote_error e with
      | Some (c, status_code, message, d) => answer_with status_code (error_code c) (Some message) d
      | None => attribute_error
      end
  | _ => attribute_error
  end.

(** [JSONResponse] raises when its content has a value JSON has not. *)
Definition validation_error_handler (x : raised) : res Response :=
  match x with
  | RequestValidationError (Some errors) => answer_with 422 (EnumCode "VALIDATION_ERROR") None [("errors", errors)]
  | RequestValidationError None => Raise TypeError
  | _ => attribute_error
  end.

Definition http_error_handler (x : raised) : res Response :=
  match x with
  | HTTPException status_code => answer_with status_code (EnumCode "VALIDATION_ERROR") None []
  | _ => attribute_error
  end.

(** [register_exception_handlers]: the handlers of the exception middleware. *)
Definition exception_handlers : list (string * (raised -> res Response)) :=
  [("ApiError", api_error_handler); ("AuthError", auth_error_handler); ("AccountError", account_error_handler);
   ("SymbolError", symbol_error_handler); ("InvalidTickSizeError", invalid_tick_size_handler);
   ("InvalidPriceError", invalid_price_handler); ("InvalidAmountError", invalid_amount_handler);
   ("InvalidTypeError", invalid_type_handler); ("DuplicateIntentError", duplicate_intent_handler);
   ("IntentLimitExceededError", intent_limit_exceeded_handler); ("IdempotencyConflictError", idempotency_conflict_handler);
   ("IntentNotFoundError", intent_not_found_handler); ("NotificationNotFoundError", notification_not_found_handler);
   ("InvalidCursorError", invalid_cursor_handler); ("TwapError", twap_error_handler);
   ("CancelNotAllowedError", cancel_not_allowed_handler); ("QuoteProviderError", quote_provider_error_handler);
   ("RequestValidationError", validation_error_handler); ("HTTPException", http_error_handler)].

(** The one registered for [Exception], which Starlette gives to its outermost
    middleware. *)
Definition unhandled_error_handler : res Response := answer_with 500 (EnumCode "INTERNAL_ERROR") None [].

(** The first class of the exception that has a handler. *)
Definition lookup_handler (x : raised) : option (raised -> res Response) :=
  head (omap (fun name => snd <$> List.find (fun h => String.eqb (fst h) name) exception_handlers) (raised_mro x)).

End Handlers.

(** ** The layers around an endpoint

    A layer is a program that answers or raises.  Starlette puts its own error
    layer outside of all that [create_app] adds: [SecurityHeadersMiddleware],
    then [RequestIdMiddleware], then the layer that runs the handlers.  The CORS
    layer, between the last two, is Starlette's own and only adds headers. *)

Section Layers.
  Context {S : Type}.
  Abbreviation layer := (prog S raised Response).

(** A call of the model inside a layer. *)
Definition calling {A} (c : prog S exn A) : prog S raised A :=
  fun s => match c s with (Ok a, s') => (Ok a, s') | (Raise e, s') => (Raise (Raised e), s') end.

Definition exception_layer (rq : RequestInfo) (inner : layer) : layer :=
  try_except inner (fun x =>
    match lookup_handler rq x with
    | Some handler => calling (lift (handler x))
    | None => raise x
    end).

Definition MAX_REQUEST_ID_LENGTH : Z := 128.

(** The id a request gets, and whether the one it brought is refused. *)
Definition request_id (incoming : option string) (fresh : string) : string * bool :=
  match incoming with
  | None => (fresh, false)
  | Some i =>
      if bool_decide (strip (chars i) = []) then (fresh, false)
      else if MAX_REQUEST_ID_LENGTH <? py_len i then (fresh, true)
      else (i, false)
  end.

(** [RequestIdMiddleware.dispatch] *)
Definition request_id_layer (header_name : string) (incoming : option string) (fresh : string)
    (inner : RequestInfo -> layer) : layer :=
  let '(i, refused) := request_id incoming fresh in
  let rq := mkRequestInfo i header_name in
  if refused then
    calling (lift (build_error_response rq 400 (EnumCode "VALIDATION_ERROR") (Some "請求資料不合法")
      [("field", JStr header_name); ("reason", JStr "request id length must be 1..128")]))
  else
    do response <- inner rq;
    ret (set_header header_name i response).

(** [SecurityHeadersMiddleware.dispatch] *)
Definition HSTS_VALUE : string := "max-age=63072000; includeSubDomains".
Definition harden (hsts_enabled : bool) (r : Response) : Response :=
  let r := set_header "Referrer-Policy" "no-referrer" (set_header "X-Frame-Options" "DENY"
             (set_header "X-Content-Type-Options" "nosniff" r)) in
  if hsts_enabled then set_header "Strict-Transport-Security" HSTS_VALUE r else r.
Definition security_layer (hsts_enabled : bool) (inner : layer) : layer :=
  do response <- inner; ret (harden hsts_enabled response).

(** Starlette's error layer, with [unhandled_error_handler]; [call] is the
    request as that handler sees it.  The plain answer stands for a handler
    that raises. *)
Definition error_layer (rq : RequestInfo) (inner : layer) : S -> Response * S := fun s =>
  match inner s with
  | (Ok r, s') => (r, s')
  | (Raise _, s') =>
      (match unhandled_error_handler rq with Ok r => r | Raise _ => mkResponse 500 [] [] (Some (JStr "Internal Server Error")) end, s')
  end.

(** [create_app]: a request through all the layers. *)
Definition application (header_name : string) (hsts_enabled : bool) (incoming : option string) (fresh : string)
    (endpoint : RequestInfo -> layer) : S -> Response * S :=
  error_layer (mkRequestInfo (fst (request_id incoming fresh)) header_name)
    (security_layer hsts_enabled
      (request_id_layer header_name incoming fresh (fun rq => exception_layer rq (endpoint rq)))).

End Layers.

(** The answer to an exception that left an endpoint. *)
Definition error_response (rq : RequestInfo) (x : raised) : Response :=
  fst (error_layer rq (exception_layer rq (raise x)) tt).

(** ** Facts *)

Lemma find_app {A} (f : A -> bool) l k :
  List.find f (l ++ k) = match List.find f l with Some x => Some x | None => List.find f k end.
Proof. induction l as [|x l IH]; cbn; [done|]. by destruct (f x). Qed.

Lemma header_set name v r : header name (set_header name v r) = Some v.
Proof.
  unfold header, set_header. cbn [rs_headers]. rewrite find_app.
  replace (List.find _ (List.filter _ _)) with (@None (string * string)).
  - cbn. by rewrite String.eqb_refl.
  - symmetry. induction (rs_headers r) as [|[n x] l IH]; [done|]. cbn. destruct (String.eqb n name) eqn:E; cbn; [done|]. by rewrite E.
Qed.

Lemma header_set_ne name name' v r : name' <> name -> header name' (set_header name v r) = header name' r.
Proof.
  intros Hn. unfold header, set_header. cbn [rs_headers]. rewrite find_app.
  replace (List.find _ (List.filter _ _)) with (List.find (fun h : string * string => String.eqb (fst h) name') (rs_headers r)).
  - destruct (List.find _ _); [done|]. cbn. by rewrite (proj2 (String.eqb_neq _ _) (not_eq_sym Hn)).
  - induction (rs_headers r) as [|[n x] l IH]; [done|]. cbn. destruct (String.eqb_spec n name') as [->|]; cbn.
    + rewrite (proj2 (String.eqb_neq _ _) Hn). cbn. by rewrite String.eqb_refl.
    + destruct (String.eqb n name); cbn; [done|]. rewrite (proj2 (String.eqb_neq n name') ltac:(done)). done.
Qed.

Lemma default_message_ok text : exists m, default_message (error_code text) = Ok m /\
  (forall m', dict_get DEFAULT_MESSAGES text = Ok m' -> m = m') /\ m <> "".
Proof.
  unfold error_code. destruct (str_in text ERROR_CODES) eqn:Hin; cbn [default_message].
  - assert (Hall : forallb (fun c => match dict_get DEFAULT_MESSAGES c with Ok m => negb (String.eqb m "") | _ => false end) ERROR_CODES = true)
      by (vm_compute; reflexivity).
    rewrite forallb_forall in Hall. unfold str_in in Hin. apply existsb_exists in Hin as (c & Hc & <-%String.eqb_eq).
    specialize (Hall _ Hc). destruct (dict_get DEFAULT_MESSAGES text) as [m|]; [|done]. exists m. split; [done|].
    split; [by intros ? [=]|]. intros ->. done.
  - eexists. split; [done|]. split; [|done]. intros m' Hm. exfalso. revert Hin.
    unfold dict_get in Hm. destruct (List.find _ _) as [[k v]|] eqn:Hf; [|done].
    apply List.find_some in Hf as [Hk <-%String.eqb_eq].
    assert (Hall : forallb (fun x => str_in (fst x) ERROR_CODES) DEFAULT_MESSAGES = true) by (vm_compute; reflexivity).
    rewrite forallb_forall in Hall. specialize (Hall _ Hk). cbn in Hall |- *. congruence.
Qed.

(** ** What every error becomes

    The contract of the API, error by error: the status and the code; [None]
    for what is not an answer to the client but a failure of the service. *)
Definition contract (e : exn) : option (Z * string) :=
  match e with
  | UnauthenticatedError => Some (401, "UNAUTHENTICATED")
  | LoginFailedError => Some (401, "LOGIN_FAILED")
  | RefreshInvalidError => Some (401, "REFRESH_INVALID")
  | RefreshReuseDetectedError => Some (401, "REFRESH_REUSE_DETECTED")
  | ForbiddenError => Some (403, "FORBIDDEN")
  | CsrfFailedError => Some (403, "CSRF_FAILED")
  | MfaRequiredError => Some (403, "MFA_REQUIRED")
  | LoginLockedError (Some _) => Some (429, "LOGIN_LOCKED")
  | RateLimitedError (Some _) => Some (429, "RATE_LIMITED")
  | MfaInvalidCodeError => Some (422, "MFA_INVALID_CODE")
  | WeakPasswordError => Some (422, "WEAK_PASSWORD")
  | InvitationInvalidError => Some (400, "INVITATION_INVALID")
  | PasswordResetInvalidError => Some (400, "PASSWORD_RESET_INVALID")
  | InvitationExpiredError => Some (410, "INVITATION_EXPIRED")
  | InvitationConsumedError => Some (409, "INVITATION_CONSUMED")
  | EmailAlreadyExistsError => Some (409, "EMAIL_ALREADY_EXISTS")
  | MfaAlreadyEnabledError => Some (409, "MFA_ALREADY_ENABLED")
  | MfaNotSetupError => Some (409, "MFA_NOT_SETUP")
  | AccountNotDisabledError => Some (409, "ACCOUNT_NOT_DISABLED")
  | UserNotFoundError | IntentNotFoundError _ | NotificationNotFoundError _ => Some (404, "NOT_FOUND")
  | UnknownSymbolError _ => Some (404, "UNKNOWN_SYMBOL")
  | SymbolNotTradableError _ _ => Some (422, "SYMBOL_NOT_TRADABLE")
  | InvalidPriceError _ _ => Some (422, "INVALID_PRICE")
  | InvalidTickSizeError _ _ _ _ _ => Some (422, "INVALID_TICK_SIZE")
  | InvalidAmountError _ _ => Some (422, "INVALID_AMOUNT")
  | InvalidTypeError _ _ => Some (422, "INVALID_TYPE")
  | DuplicateIntentError _ _ _ => Some (409, "DUPLICATE_INTENT")
  | UserIntentLimitExceededError _ _ => Some (409, "USER_INTENT_LIMIT_EXCEEDED")
  | SymbolIntentLimitExceededError _ _ _ => Some (409, "SYMBOL_INTENT_LIMIT_EXCEEDED")
  | IdempotencyConflictError => Some (409, "IDEMPOTENCY_KEY_CONFLICT")
  | CancelNotAllowedError _ _ => Some (409, "CANCEL_NOT_ALLOWED")
  | InvalidCursorError _ => Some (400, "INVALID_CURSOR")
  | TwapInvalidIntervalError _ => Some (422, "TWAP_INVALID_INTERVAL")
  | TwapInvalidQuantityError _ => Some (422, "TWAP_INVALID_QUANTITY")
  | TwapEndTimeOutsideSessionError _ => Some (422, "TWAP_END_TIME_OUTSIDE_SESSION")
  | TwapStartTimeOutsideSessionError _ => Some (422, "TWAP_START_TIME_OUTSIDE_SESSION")
  | TwapStartTimeAfterEndTimeError _ _ => Some (422, "TWAP_START_TIME_AFTER_END_TIME")
  | TwapEndTimeAlreadyPassedError _ _ => Some (422, "TWAP_END_TIME_ALREADY_PASSED")
  | TwapInsufficientSlicesError _ _ => Some (422, "TWAP_INSUFFICIENT_SLICES")
  | TwapTooManySlicesError _ => Some (422, "TWAP_TOO_MANY_SLICES")
  | TwapDuplicateActivePlanError _ _ _ => Some (409, "TWAP_DUPLICATE_ACTIVE_PLAN")
  | QuoteUnavailableError _ => Some (503, "QUOTE_UNAVAILABLE")
  | QuoteProviderUnavailableError _ _ => Some (503, "QUOTE_PROVIDER_UNAVAILABLE")
  | SymbolNotAvailableInDemo _ _ => Some (422, "SYMBOL_NOT_AVAILABLE_IN_DEMO")
  | QuoteSubscriptionLimitExceeded _ _ _ => Some (409, "QUOTE_SUBSCRIPTION_LIMIT_EXCEEDED")
  | ApiError c status_code _ _ => Some (status_code, c)
  | _ => None
  end.

(** The text an error brings along. *)
Definition own_message (e : exn) : option string :=
  match e with
  | ApiError _ _ (Some m) _ => if String.eqb m "" then None else Some m
  | _ => match quote_error e with Some (_, _, m, _) => Some m | None => None end
  end.

(** The two refusals of a TWAP start time, whose codes [ErrorCode] lacks. *)
Definition nameless (e : exn) : bool :=
  match e with TwapStartTimeOutsideSessionError _ | TwapStartTimeAfterEndTimeError _ _ => true | _ => false end.

Definition text_of (e : exn) (c m : string) : Prop :=
  match own_message e with
  | Some own => m = own
  | None => if nameless e then m = "行情服務發生錯誤" else (forall t, dict_get DEFAULT_MESSAGES c = Ok t -> m = t)
  end.

(** What the error layer answers when all else fails. *)
Definition internal_error (rq : RequestInfo) : Response :=
  mkResponse 500 (if String.eqb (rq_id rq) "" then [] else [(rq_header rq, rq_id rq)])
    [] (Some (error_body rq (EnumCode "INTERNAL_ERROR") "發生未預期錯誤" [])).

Lemma unhandled_ok rq : unhandled_error_handler rq = Ok (internal_error rq).
Proof. done. Qed.

Lemma api_answered rq c st msg (d : details) :
  exists m d', rs_status (error_response rq (Raised (ApiError c st msg d))) = st /\ text_of (ApiError c st msg d) c m /\ m <> "" /\
    rs_body (error_response rq (Raised (ApiError c st msg d))) = Some (error_body rq (error_code c) m d').
Proof.
  destruct (default_message_ok c) as (t & Ht & Htab & Hne).
  assert (Hm : exists m, message_or_default (error_code c) msg = Ok m /\ text_of (ApiError c st msg d) c m /\ m <> "").
  { unfold text_of, own_message. destruct msg as [m|]; cbn [message_or_default]; [|by exists t; destruct (nameless _) eqn:?].
    destruct (String.eqb_spec m "") as [->|]; [|by exists m]. by exists t. }
  destruct Hm as (m & Hm & Htext & Hm0). exists m, d.
  assert (E : error_response rq (Raised (ApiError c st msg d)) =
    mkResponse st (if String.eqb (rq_id rq) "" then [] else [(rq_header rq, rq_id rq)]) [] (Some (error_body rq (error_code c) m d))).
  { unfold error_response, error_layer, exception_layer, try_except, raise.
    change (lookup_handler rq (Raised (ApiError c st msg d))) with (Some (api_error_handler rq)).
    unfold calling, lift, api_error_handler, build_error_response. by rewrite Hm. }
  by rewrite E.
Qed.

(** C34. Every exception of the program, whatever its class hierarchy and the
    order of the handlers, is answered with the status and the code of its row
    of the contract, in the standard envelope, under the text it brings along or
    that of its code; the two refusals of a TWAP start time show the text of the
    quote service.  An exception without a row is answered 500 with nothing of
    it in the answer. *)
Theorem errors_answered (rq : RequestInfo) (e : exn) :
  match contract e with
  | Some (status_code, c) =>
      exists m d, rs_status (error_response rq (Raised e)) = status_code /\ text_of e c m /\ m <> "" /\
        rs_body (error_response rq (Raised e)) = Some (error_body rq (error_code c) m d)
  | None => error_response rq (Raised e) = internal_error rq
  end.
Proof.
  destruct e; try (destruct retry_after_seconds as [q|]); cbn [contract];
    try exact (api_answered rq _ _ _ _); try reflexivity;
    (eexists _, _; split; [reflexivity|]; split; [|split; [|reflexivity]];
       [first [reflexivity|intros t Ht; injection Ht as <-; reflexivity]|discriminate]).
Qed.

(** ** The layers, from outside *)

(** The hardening headers. *)
Definition hardening (hsts_enabled : bool) : list (string * string) :=
  [("X-Content-Type-Options", "nosniff"); ("X-Frame-Options", "DENY"); ("Referrer-Policy", "no-referrer")] ++
  (if hsts_enabled then [("Strict-Transport-Security", HSTS_VALUE)] else []).

Lemma harden_headers hsts r n v : (n, v) ∈ hardening hsts -> header n (harden hsts r) = Some v.
Proof.
  unfold hardening, harden. destruct hsts; cbn [app]; rewrite ?elem_of_cons, ?elem_of_nil; intros Hin;
    repeat (destruct Hin as [Hin|Hin]; [injection Hin as -> ->|]); try done;
    rewrite ?header_set; repeat (rewrite header_set_ne by done; rewrite ?header_set); done.
Qed.

Lemma harden_keeps hsts r n : n ∉ (hardening true).*1 -> header n (harden hsts r) = header n r.
Proof.
  cbn. rewrite !not_elem_of_cons. intros (H1 & H2 & H3 & H4 & _). unfold harden.
  destruct hsts; by rewrite !header_set_ne by done.
Qed.

Lemma harden_content hsts r : rs_status (harden hsts r) = rs_status r /\ rs_body (harden hsts r) = rs_body r /\ rs_cookies (harden hsts r) = rs_cookies r.
Proof. by destruct hsts. Qed.

Lemma request_id_nonempty incoming fresh : fresh <> "" -> fst (request_id incoming fresh) <> "".
Proof.
  intros Hf. unfold request_id. destruct incoming as [i|]; [|done]. case_bool_decide as Hs; [done|].
  destruct (MAX_REQUEST_ID_LENGTH <? py_len i); [done|]. cbn. intros ->. by apply Hs.
Qed.

(** C38. Every response carries the request's id in the configured header: the
    one the client sent, or a fresh one when it sent none or a blank one.  An id
    of more than 128 characters is refused with 400 before the endpoint runs.
    Otherwise the response is what the endpoint and the handlers made, with the
    hardening headers; only the answer to an exception that escaped the handlers
    is sent from outside the layer that adds those headers, so that it has none
    of them. *)
Theorem responses_identified {S : Type} (header_name : string) (hsts_enabled : bool) (incoming : option string)
    (fresh : string) (endpoint : RequestInfo -> prog S raised Response) (s : S)
    (Hname : header_name ∉ (hardening true).*1) (Hfresh : fresh <> "") :
  let i := fst (request_id incoming fresh) in
  let rq := mkRequestInfo i header_name in
  let '(r, s') := application header_name hsts_enabled incoming fresh endpoint s in
  header header_name r = Some i /\
  (forall i0, incoming = Some i0 -> strip (chars i0) <> [] -> py_len i0 <= MAX_REQUEST_ID_LENGTH -> i = i0) /\
  ((forall n v, (n, v) ∈ hardening hsts_enabled -> header n r = Some v) \/
   (r = internal_error rq /\ forall n v, (n, v) ∈ hardening hsts_enabled -> header n r = None)) /\
  (if snd (request_id incoming fresh) then i = fresh /\ rs_status r = 400 /\ s' = s
   else match exception_layer rq (endpoint rq) s with
        | (Ok r0, s1) => s' = s1 /\ rs_status r = rs_status r0 /\ rs_body r = rs_body r0 /\ rs_cookies r = rs_cookies r0
        | (Raise _, s1) => s' = s1 /\ r = internal_error rq
        end).
Proof.
  cbv zeta. pose proof (request_id_nonempty incoming fresh Hfresh) as Hne. set (i := fst (request_id incoming fresh)) in *.
  assert (Hint : header header_name (internal_error (mkRequestInfo i header_name)) = Some i /\
    forall n v, (n, v) ∈ hardening hsts_enabled -> header n (internal_error (mkRequestInfo i header_name)) = None).
  { unfold internal_error, header. cbn [rs_headers rq_id rq_header]. rewrite (proj2 (String.eqb_neq i "") Hne). cbn.
    rewrite String.eqb_refl. split; [done|]. intros n v Hin. destruct (String.eqb_spec header_name n) as [->|]; [|done].
    exfalso. apply Hname. apply list_elem_of_fmap. exists (n, v). split; [done|].
    destruct hsts_enabled; [done|]. revert Hin. cbn. rewrite !elem_of_cons. tauto. }
  assert (Hid : forall i0, incoming = Some i0 -> strip (chars i0) <> [] -> py_len i0 <= MAX_REQUEST_ID_LENGTH -> i = i0).
  { intros i0 -> Hs Hl. unfold i, request_id. rewrite bool_decide_false by done.
    by rewrite (proj2 (Z.ltb_ge _ _) Hl). }
  unfold application, error_layer, security_layer, request_id_layer. destruct (request_id incoming fresh) as [j refused] eqn:E.
  cbn [fst snd] in *. subst i. unfold bind at 1. destruct refused.
  - assert (Hj : j = fresh).
    { revert E. unfold request_id. destruct incoming as [i0|]; [|by intros [=]]. case_bool_decide; [by intros [=]|].
      destruct (_ <? _); by intros [=]. }
    cbn [calling lift build_error_response message_or_default String.eqb rbind]. unfold calling, lift. cbn.
    rewrite (proj2 (String.eqb_neq j "") Hne). set (r0 := mkResponse _ _ _ _).
    destruct (harden_content hsts_enabled r0) as [Hst _].
    split; [|split; [exact Hid|]; split; [left; intros n v; apply harden_headers|by rewrite Hst]].
    rewrite harden_keeps by done. unfold header, r0. cbn. by rewrite String.eqb_refl.
  - unfold bind. destruct (exception_layer _ _ s) as [[r0|x] s1].
    + cbn [ret]. set (r1 := set_header header_name j r0). destruct (harden_content hsts_enabled r1) as (Hst & Hb & Hck).
      split; [rewrite harden_keeps by done; apply header_set|]. split; [exact Hid|].
      split; [left; intros n v; apply harden_headers|]. by rewrite Hst, Hb, Hck.
    + rewrite unhandled_ok. destruct Hint as [H1 H2]. split; [done|]. split; [exact Hid|]. by split; [right|].
Qed.

(** A request with an id of its own to an endpoint that fails. *)
Lemma responses_identified_witness :
  let rq := mkRequestInfo "req-7" "X-Request-Id" in
  let r := fst (application "X-Request-Id" true (Some "req-7") "fresh" (fun _ => raise (Raised (RuntimeError "boom"))) tt) in
  r = internal_error rq /\ header "X-Request-Id" r = Some "req-7" /\ header "X-Frame-Options" r = None.
Proof.
  intros rq r. pose proof (responses_identified "X-Request-Id" true (Some "req-7") "fresh"
    (fun _ => raise (Raised (RuntimeError "boom"))) tt ltac:(vm_compute; set_solver) ltac:(discriminate)) as H.
  cbv zeta in H. fold r in H.
  assert (Hr : r = internal_error rq) by (vm_compute; reflexivity). split; [exact Hr|].
  destruct (application _ _ _ _ _ tt) as [r' s'] eqn:E. destruct H as (Hid & _ & _ & _). split; [|rewrite Hr; vm_compute; reflexivity].
  exact Hid.
Defined.
