(* ===== verification/ClientIp.v ===== *)
(** * Where a request comes from

    [_client_ip] and [_enforce_csrf_origin] of [src/app/api/routes/auth.py],
    with the parts of Python's [ipaddress] and [urllib.parse] they rely on.
    Header values are text; the bytes of a header are its characters. *)

From S2P Require Import Prelude Decimal Json Errors.

#[local] Open Scope string_scope.
#[local] Open Scope list_scope.
#[local] Open Scope Z_scope.

(** ** [ipaddress] *)

Inductive ip : Type :=
| V4 (n : Z)
| V6 (n : Z) (scope_id : option string).

(** All elements, or nothing. *)
Fixpoint all_some {A} (l : list (option A)) : option (list A) :=
  match l with
  | [] => Some []
  | None :: _ => None
  | Some x :: l' => cons x <$> all_some l'
  end.

(** The number big-endian digits of the base [b] stand for. *)
Definition from_digits (b : Z) (l : list Z) : Z := List.fold_left (fun acc d => b * acc + d) l 0.

Definition decimal_value (s : list ascii) : Z := from_digits 10 (digit_val <$> s).

(** [IPv4Address._parse_octet] *)
Definition parse_octet (s : list ascii) : option Z :=
  if bool_decide (s = []) || negb (forallb is_digit s) || (3 <? Z.of_nat (length s)) then None
  else if negb (bool_decide (s = [zero_ch])) && bool_decide (head s = Some zero_ch) then None
  else let v := decimal_value s in if 255 <? v then None else Some v.

Definition parse_v4 (s : list ascii) : option Z :=
  let octets := split_at dot s in
  if negb (Z.of_nat (length octets) =? 4) then None
  else from_digits 256 <$> all_some (parse_octet <$> octets).

(** [IPv6Address._parse_hextet] *)
Definition parse_hextet (s : list ascii) : option Z :=
  if bool_decide (s = []) || (4 <? Z.of_nat (length s)) then None
  else from_digits 16 <$> all_some (hex_value <$> s).

Definition colon : ascii := ":"%char.

(** The last group may be written as an IPv4 address. *)
Definition expand_v4_tail (parts : list (list ascii)) : option (list (list ascii)) :=
  match last parts with
  | Some tail =>
      if existsb (Ascii.eqb dot) tail then
        (fun v => removelast parts ++ [low_hex 4 (v / 65536); low_hex 4 (v mod 65536)]) <$> parse_v4 tail
      else Some parts
  | None => Some parts
  end.

(** The inner positions of empty groups. *)
Definition gaps (parts : list (list ascii)) : list nat :=
  List.filter (fun i => (0 <? Z.of_nat i) && (Z.of_nat i <? Z.of_nat (length parts) - 1) &&
                        bool_decide (parts !! i = Some [])) (seq 0 (length parts)).

Definition groups_value (groups : list (list ascii)) : option Z := from_digits 65536 <$> all_some (parse_hextet <$> groups).

(** [IPv6Address._ip_int_from_string] *)
Definition parse_v6_int (s : list ascii) : option Z :=
  if 45 <? Z.of_nat (length s) then None else
  let parts := split_at colon s in
  if Z.of_nat (length parts) <? 3 then None else
  match expand_v4_tail parts with
  | None => None
  | Some parts =>
      if 9 <? Z.of_nat (length parts) then None else
      match gaps parts with
      | [] => if negb (Z.of_nat (length parts) =? 8) then None else groups_value parts
      | [skip] =>
          let first_empty := bool_decide (head parts = Some []) in
          let last_empty := bool_decide (last parts = Some []) in
          let parts_hi := Z.of_nat skip - (if first_empty then 1 else 0) in
          let parts_lo := Z.of_nat (length parts) - Z.of_nat skip - 1 - (if last_empty then 1 else 0) in
          if (first_empty && negb (parts_hi =? 0)) || (last_empty && negb (parts_lo =? 0)) then None
          else
            let skipped := 8 - (parts_hi + parts_lo) in
            if skipped <? 1 then None
            else groups_value (take (Z.to_nat parts_hi) parts ++ replicate (Z.to_nat skipped) [zero_ch] ++
                               drop (length parts - Z.to_nat parts_lo) parts)
      | _ => None
      end
  end.

(** [_split_scope_id]: the address and what follows the first [%]. *)
Definition percent : ascii := "%"%char.
Definition split_scope_id (s : list ascii) : option (list ascii * option string) :=
  if negb (existsb (Ascii.eqb percent) s) then Some (s, None)
  else
    let '(addr, scope) := partition_at percent s in
    if bool_decide (scope = []) || existsb (Ascii.eqb percent) scope then None else Some (addr, Some (unchars scope)).

(** [ipaddress.ip_address(text)]; [None] is its ValueError. *)
Definition ip_address (text : string) : option ip :=
  let s := chars text in
  match parse_v4 s with
  | Some n => Some (V4 n)
  | None =>
      if existsb (Ascii.eqb "/"%char) s then None
      else
        match split_scope_id s with
        | Some (addr, scope) => (fun n => V6 n scope) <$> parse_v6_int addr
        | None => None
        end
  end.

(** ** [str(ip)] *)

(** The big-endian digits of [n] in base [b], [w] of them. *)
Fixpoint to_digits (w : nat) (b n : Z) : list Z :=
  match w with
  | O => []
  | S w' => to_digits w' b (n / b) ++ [n mod b]
  end.

Definition join (sep : list ascii) (l : list (list ascii)) : list ascii :=
  match l with [] => [] | x :: l' => x ++ concat ((fun y => sep ++ y) <$> l') end.

Definition str_v4 (n : Z) : list ascii := join [dot] (int_digits <$> to_digits 4 256 n).

(** [%x]: no leading zeros *)
Fixpoint drop_zeros (s : list ascii) : list ascii :=
  match s with
  | [] => []
  | c :: rest => match rest with [] => s | _ :: _ => if Ascii.eqb c zero_ch then drop_zeros rest else s end
  end.
Definition hextet (n : Z) : list ascii := drop_zeros (low_hex 4 n).

(** [_compress_hextets]: the first longest run of zeros, as its start and length. *)
Fixpoint longest_run (i : Z) (l : list Z) (current best : Z * Z) : Z * Z :=
  match l with
  | [] => best
  | x :: l' =>
      if x =? 0 then
        let current := (if snd current =? 0 then i else fst current, snd current + 1) in
        longest_run (i + 1) l' current (if snd best <? snd current then current else best)
      else longest_run (i + 1) l' (0, 0) best
  end.
Definition compressed (l : list Z) : list (list ascii) :=
  let '(start, len) := longest_run 0 l (0, 0) (-1, 0) in
  let groups := hextet <$> l in
  if 1 <? len then
    (if start =? 0 then [[]] else []) ++ take (Z.to_nat start) groups ++ [[]] ++ drop (Z.to_nat (start + len)) groups ++
    (if start + len =? Z.of_nat (length l) then [[]] else [])
  else groups.
Definition str_v6_int (n : Z) : list ascii := join [colon] (compressed (to_digits 8 65536 n)).

(** [ipv4_mapped]: [::ffff:0:0/96] is written with an IPv4 tail. *)
Definition str_v6 (n : Z) : list ascii :=
  if n / 2 ^ 32 =? 65535 then str_v6_int 65535 ++ colon :: str_v4 (n mod 2 ^ 32) else str_v6_int n.

Definition str_ip (a : ip) : string :=
  match a with
  | V4 n => unchars (str_v4 n)
  | V6 n scope => unchars (str_v6 n ++ match scope with Some s => percent :: chars s | None => [] end)
  end.

(** ** Networks *)

(** The version (4 or 6), the network address and the length of the prefix. *)
Record ip_net : Type := mkNet { net_version : Z; net_address : Z; net_prefix : Z }.

Definition width (version : Z) : Z := if version =? 4 then 32 else 128.
Definition net_of (version n prefix : Z) : ip_net :=
  let host := 2 ^ (width version - prefix) in mkNet version (n / host * host) prefix.

(** [address in network]; the scope does not matter. *)
Definition in_net (a : ip) (net : ip_net) : bool :=
  let '(version, n) := match a with V4 n => (4, n) | V6 n _ => (6, n) end in
  (version =? net_version net) && (net_address (net_of version n (net_prefix net)) =? net_address net).

(** [_prefix_from_prefix_string] *)
Definition prefix_length (version : Z) (s : list ascii) : option Z :=
  if bool_decide (s = []) || negb (forallb is_digit s) then None
  else let v := decimal_value s in if v <=? width version then Some v else None.

(** [_prefix_from_ip_string]: a netmask, or else a hostmask, of IPv4. *)
Fixpoint find_prefix (mask : Z -> Z) (v : Z) (k : nat) : option Z :=
  match k with
  | O => if mask 0 =? v then Some 0 else None
  | S k' => if mask (Z.of_nat k) =? v then Some (Z.of_nat k) else find_prefix mask v k'
  end.
Definition mask_length (s : list ascii) : option Z :=
  match parse_v4 s with
  | None => None
  | Some v =>
      match find_prefix (fun p => 2 ^ 32 - 2 ^ (32 - p)) v 32 with
      | Some p => Some p
      | None => find_prefix (fun p => 2 ^ (32 - p) - 1) v 32
      end
  end.

(** [ipaddress.ip_network(text, strict=False)]; [None] is its ValueError. *)
Definition ip_network (text : string) : option ip_net :=
  let slash := "/"%char in
  match split_at slash (chars text) with
  | [addr] =>
      match ip_address (unchars addr) with
      | Some (V4 n) => Some (net_of 4 n 32)
      | Some (V6 n _) => Some (net_of 6 n 128)
      | None => None
      end
  | [addr; mask] =>
      match ip_address (unchars addr) with
      | Some (V4 n) =>
          net_of 4 n <$> (match prefix_length 4 mask with Some p => Some p | None => mask_length mask end)
      | Some (V6 n _) => net_of 6 n <$> prefix_length 6 mask
      | None => None
      end
  | _ => None
  end.

(** ** The client of a request *)

Definition trusted_by (nets : list ip_net) (a : ip) : bool := existsb (in_net a) nets.

(** [[part.strip() for part in text.split(",") if part.strip()]] *)
Definition comma_list (text : string) : list string :=
  List.filter (fun t => negb (String.eqb t "")) ((fun part => unchars (strip part)) <$> split_at ","%char (chars text)).

(** The loop over the hops, the nearest first. *)
Fixpoint nearest_untrusted (nets : list ip_net) (hops : list string) : option ip :=
  match hops with
  | [] => None
  | hop :: rest =>
      match ip_address hop with
      | Some candidate => if negb (trusted_by nets candidate) then Some candidate else nearest_untrusted nets rest
      | None => nearest_untrusted nets rest
      end
  end.

(** [_client_ip]: [peer] is [request.client.host], [forwarded] the header. *)
Definition client_ip (trusted : list ip_net) (peer forwarded : option string) : option string :=
  match peer with
  | None => None
  | Some host =>
      match ip_address host with
      | None => None
      | Some a =>
          if bool_decide (trusted = []) || negb (trusted_by trusted a) then Some host
          else
            match forwarded with
            | None => Some host
            | Some text =>
                if String.eqb text "" then Some host
                else
                  match nearest_untrusted trusted (rev (comma_list text)) with
                  | Some candidate => Some (str_ip candidate)
                  | None => Some host
                  end
            end
      end
  end.

(** [trusted_proxy_networks] of the settings; [None] is a ValueError. *)
Definition trusted_proxy_networks (trusted_proxy_ips : option string) : option (list ip_net) :=
  match trusted_proxy_ips with
  | None => Some []
  | Some text => if String.eqb text "" then Some [] else all_some (ip_network <$> comma_list text)
  end.

(** ** [urlsplit]: the scheme and the network location *)

Definition is_alpha (c : ascii) : bool :=
  let n := Z.of_nat (nat_of_ascii (lower_char c)) in (97 <=? n) && (n <=? 122).
Definition is_scheme_char (c : ascii) : bool :=
  is_alpha c || is_digit c || existsb (Ascii.eqb c) (chars "+-.").

Fixpoint drop_while {A} (f : A -> bool) (l : list A) : list A :=
  match l with [] => [] | x :: l' => if f x then drop_while f l' else l end.
Fixpoint take_while {A} (f : A -> bool) (l : list A) : list A :=
  match l with [] => [] | x :: l' => if f x then x :: take_while f l' else [] end.

(** Leading C0 controls and spaces are stripped, tabs and line ends removed. *)
Definition clean_url (s : list ascii) : list ascii :=
  List.filter (fun c => negb (existsb (Z.eqb (Z.of_nat (nat_of_ascii c))) [9; 10; 13]))
    (drop_while (fun c => (nat_of_ascii c <=? 32)%nat) s).

Definition split_scheme (s : list ascii) : list ascii * list ascii :=
  if existsb (Ascii.eqb colon) s then
    let '(before, after) := partition_at colon s in
    match before with
    | c :: _ => if is_alpha c && forallb is_scheme_char before then (lower_char <$> before, after) else ([], s)
    | [] => ([], s)
    end
  else ([], s).

(** [_check_bracketed_netloc]: false for its ValueErrors. *)
Definition after_last_at (s : list ascii) : list ascii := rev (take_while (fun c => negb (Ascii.eqb c "@"%char)) (rev s)).
Definition ip_future (host : list ascii) : bool :=
  match host with
  | _ :: rest =>
      let h := take_while (fun c => is_some (hex_value c)) rest in
      negb (bool_decide (h = [])) && bool_decide (head (drop (length h) rest) = Some dot) &&
      match drop (S (length h)) rest with c :: _ => negb (Ascii.eqb c (ascii_of_nat 10)) | [] => false end
  | [] => false
  end.
Definition bracketed_host_ok (host : list ascii) : bool :=
  if bool_decide (head host = Some "v"%char) then ip_future host
  else match ip_address (unchars host) with Some (V6 _ _) => true | _ => false end.
Definition bracketed_ok (netloc : list ascii) : bool :=
  let host_and_port := after_last_at netloc in
  if existsb (Ascii.eqb "["%char) host_and_port then
    let '(before, bracketed) := partition_at "["%char host_and_port in
    let '(host, port) := partition_at "]"%char bracketed in
    bool_decide (before = []) && (bool_decide (port = []) || bool_decide (head port = Some colon)) && bracketed_host_ok host
  else bracketed_host_ok (fst (partition_at colon host_and_port)).

(** A network location outside ASCII is also checked under NFKC, which is left out. *)
Definition urlsplit (url : string) : res (string * string) :=
  let '(scheme, rest) := split_scheme (clean_url (chars url)) in
  let netloc :=
    if bool_decide (take 2 rest = chars "//") then take_while (fun c => negb (existsb (Ascii.eqb c) (chars "/?#"))) (drop 2 rest)
    else [] in
  let opening := existsb (Ascii.eqb "["%char) netloc in
  let closing := existsb (Ascii.eqb "]"%char) netloc in
  if xorb opening closing then Raise (ValueError "Invalid IPv6 URL")
  else if opening && closing && negb (bracketed_ok netloc) then Raise (ValueError "Invalid IPv6 URL")
  else Ok (unchars scheme, unchars netloc).

(** [_enforce_csrf_origin] *)
Definition enforce_csrf_origin (allowed_origins : list string) (origin referer : option string) : res unit :=
  match allowed_origins with
  | [] => Ok tt
  | _ =>
      match origin with
      | Some o => if negb (str_in o allowed_origins) then Raise CsrfFailedError else Ok tt
      | None =>
          match referer with
          | Some r =>
              let? parsed := urlsplit r in
              if negb (str_in (fst parsed ++ "://" ++ snd parsed)%string allowed_origins) then Raise CsrfFailedError else Ok tt
          | None => Ok tt
          end
      end
  end.

(** ** Facts *)

Lemma split_at_app c x y : split_at c (x ++ c :: y) = split_at c x ++ split_at c y.
Proof.
  induction x as [|a x IH]; cbn; [by rewrite Ascii.eqb_refl|]. destruct (Ascii.eqb a c); [by rewrite IH|]. rewrite IH.
  destruct (split_at c x) as [|w ws] eqn:E; [|done]. exfalso. clear -E. destruct x as [|b x]; cbn in E; [done|].
  destruct (Ascii.eqb b c); [done|]. by destruct (split_at c x).
Qed.

Lemma comma_list_app a b : comma_list (a ++ "," ++ b)%string = comma_list a ++ comma_list b.
Proof.
  unfold comma_list. rewrite <-List.filter_app, <-fmap_app, <-split_at_app. f_equal. f_equal. f_equal.
  induction a as [|c a IH]; [done|].
  change (c :: chars (a ++ "," ++ b)%string = c :: (chars a ++ ","%char :: chars b)). by rewrite IH.
Qed.

Lemma nearest_app nets l k : nearest_untrusted nets (l ++ k) =
  match nearest_untrusted nets l with Some a => Some a | None => nearest_untrusted nets k end.
Proof.
  induction l as [|x l IH]; cbn; [done|]. destruct (ip_address x) as [a|]; [|done]. by destruct (negb (trusted_by nets a)).
Qed.

Lemma nearest_trusted nets l : Forall (fun t => exists a, ip_address t = Some a /\ trusted_by nets a = true) l ->
  nearest_untrusted nets l = None.
Proof. induction 1 as [|t l (a & Ha & Ht) _ IH]; cbn; [done|]. by rewrite Ha, Ht. Qed.

(** C39. The address the throttles see cannot be chosen by the client.  On a direct
    connection, or one from a peer that is not a trusted proxy, it is the peer's,
    whatever the forwarded header says.  Behind trusted proxies, which append the
    address they were called from, it is the client's as the first proxy saw it,
    whatever the client wrote into the header itself. *)
Theorem client_ip_unspoofable (trusted : list ip_net) (host : string) (a : ip) (Hhost : ip_address host = Some a) :
  ((trusted = [] \/ trusted_by trusted a = false) ->
   forall forwarded, client_ip trusted (Some host) forwarded = Some host) /\
  (trusted_by trusted a = true ->
   forall (chain real_text : string) (proxies : list string) (real : ip),
     comma_list chain = real_text :: proxies -> ip_address real_text = Some real -> trusted_by trusted real = false ->
     Forall (fun t => exists b, ip_address t = Some b /\ trusted_by trusted b = true) proxies ->
     client_ip trusted (Some host) (Some chain) = Some (str_ip real) /\
     forall spoofed, client_ip trusted (Some host) (Some (spoofed ++ "," ++ chain)%string) = Some (str_ip real)).
Proof.
  assert (Hcons : trusted_by trusted a = true -> bool_decide (trusted = []) || negb (trusted_by trusted a) = false).
  { intros Ht. rewrite Ht, orb_false_r. apply bool_decide_false. by intros ->. }
  split.
  - intros Hd fwd. unfold client_ip. rewrite Hhost.
    destruct Hd as [Hd|Hd]; [rewrite bool_decide_true by done|rewrite Hd, orb_true_r]; done.
  - intros Ht chain real_text proxies real Hchain Hreal Hun Hprox.
    assert (Hn : nearest_untrusted trusted (rev (comma_list chain)) = Some real).
    { rewrite Hchain. cbn [rev]. rewrite nearest_app, nearest_trusted; [cbn; by rewrite Hreal, Hun|].
      rewrite rev_alt. apply Forall_rev in Hprox. by rewrite <-rev_alt. }
    assert (Hne : forall t, comma_list t <> [] -> String.eqb t "" = false).
    { intros t Hl. apply String.eqb_neq. by intros ->. }
    assert (Hgo : forall t, comma_list t <> [] -> nearest_untrusted trusted (rev (comma_list t)) = Some real ->
      client_ip trusted (Some host) (Some t) = Some (str_ip real)).
    { intros t Hl Hr. unfold client_ip. by rewrite Hhost, (Hcons Ht), (Hne t Hl), Hr. }
    split; [apply Hgo; [by rewrite Hchain|done]|]. intros spoofed. apply Hgo; rewrite comma_list_app.
    + rewrite Hchain. by destruct (comma_list spoofed).
    + by rewrite rev_app_distr, nearest_app, Hn.
Qed.

(** A proxy at 10.0.0.1 that was called from 203.0.113.9. *)
Lemma client_ip_unspoofable_witness :
  let trusted := [mkNet 4 (10 * 2 ^ 24) 8] in
  ip_network "10.0.0.0/8" = Some (mkNet 4 (10 * 2 ^ 24) 8) /\
  client_ip trusted (Some "10.0.0.1") (Some "198.51.100.1, 10.0.0.7,203.0.113.9, 10.0.0.2") = Some "203.0.113.9" /\
  client_ip trusted (Some "198.51.100.1") (Some "203.0.113.9") = Some "198.51.100.1".
Proof.
  intros trusted. split; [vm_compute; reflexivity|]. split.
  - apply (proj2 (client_ip_unspoofable trusted "10.0.0.1" (V4 (10 * 2 ^ 24 + 1)) ltac:(vm_compute; reflexivity))
      ltac:(vm_compute; reflexivity) "203.0.113.9, 10.0.0.2" "203.0.113.9" ["10.0.0.2"] (V4 3405803785)
      ltac:(vm_compute; reflexivity) ltac:(vm_compute; reflexivity) ltac:(vm_compute; reflexivity)) with (spoofed := "198.51.100.1, 10.0.0.7").
    repeat constructor. exists (V4 (10 * 2 ^ 24 + 2)). split; vm_compute; reflexivity.
  - apply (proj1 (client_ip_unspoofable trusted "198.51.100.1" (V4 3325256705) ltac:(vm_compute; reflexivity))).
    right. vm_compute. reflexivity.
Defined.
