(* ===== verification/Config.v ===== *)
(** * The settings of the service

    [src/app/core/config.py]: the values read from the environment, with their
    defaults, the validators that refuse to start on a bad combination, and the
    values derived from them.  The floats are exact rationals. *)

From Stdlib Require Import QArith_base.
From S2P Require Import Prelude Decimal Json Errors ClientIp.
From S2P Require Telegram Tokens.

#[local] Open Scope string_scope.
#[local] Open Scope list_scope.
#[local] Open Scope Z_scope.

Definition REQUIRED_CURRENT_PRICE_PROVIDER : string := "shioaji_demo".
Definition CURRENT_PRICE_SOURCE_NAME : string := "shioaji".

(** [Settings] *)
Record Settings : Type := mkSettings {
  app_env : string;
  app_name : string;
  app_version : string;
  database_url : option string;
  local_user_id : option uuid;
  local_mode : bool;
  initial_admin_email : option string;
  initial_admin_password : option string;
  initial_admin_allow_non_local : bool;
  request_id_header : string;
  app_base_url : string;
  trusted_proxy_ips : option string;
  cors_allow_origins : string;
  quote_provider : string;
  shioaji_api_key : option string;
  shioaji_secret_key : option string;
  shioaji_max_subscriptions : Z;
  shioaji_simulation : bool;
  shioaji_demo_allowed_symbols : option string;
  ses_from_address : option string;
  ses_region : option string;
  ses_smtp_username : option string;
  ses_smtp_password : option string;
  telegram_bot_token : option string;
  telegram_chat_id : option string;
  telegram_timeout_seconds : Q;
  telegram_webhook_secret : option string;
  telegram_owner_email : string;
  telegram_webhook_url : option string;
  telegram_llm_model : string;
  telegram_llm_timeout_seconds : Q;
  openai_api_key : option string;
  twap_worker_enabled : bool;
  twap_worker_interval_seconds : Q;
  intent_limit_per_user : Z;
  intent_limit_per_symbol : Z;
  mutation_rate_limit_capacity : Q;
  mutation_rate_limit_refill_per_second : Q;
  idempotency_cleanup_enabled : bool;
  idempotency_cleanup_interval_seconds : Q;
  jwt_access_secret : option string;
  access_token_ttl_user_seconds : Z;
  access_token_ttl_admin_seconds : Z;
  refresh_token_ttl_user_seconds : Z;
  refresh_token_ttl_admin_seconds : Z;
  argon2_time_cost : Z;
  argon2_memory_cost : Z;
  argon2_parallelism : Z;
  mfa_encryption_key : option string;
}.

(** The settings with an empty environment. *)
Definition default_settings : Settings := {|
  app_env := "local"; app_name := "ai-stock-api"; app_version := "0.5.0"; database_url := None; local_user_id := None;
  local_mode := true; initial_admin_email := None; initial_admin_password := None; initial_admin_allow_non_local := false;
  request_id_header := "X-Request-Id"; app_base_url := "http://localhost:3000"; trusted_proxy_ips := None;
  cors_allow_origins := "http://localhost:3000,http://127.0.0.1:3000,http://localhost:3001,http://127.0.0.1:3001,http://localhost:3100,http://127.0.0.1:3100";
  quote_provider := "shioaji_demo"; shioaji_api_key := None; shioaji_secret_key := None; shioaji_max_subscriptions := 5;
  shioaji_simulation := false; shioaji_demo_allowed_symbols := None; ses_from_address := None; ses_region := None;
  ses_smtp_username := None; ses_smtp_password := None; telegram_bot_token := None; telegram_chat_id := None;
  telegram_timeout_seconds := 5; telegram_webhook_secret := None; telegram_owner_email := "admin@tingfong.com";
  telegram_webhook_url := None; telegram_llm_model := "gpt-6-luna"; telegram_llm_timeout_seconds := 10; openai_api_key := None;
  twap_worker_enabled := true; twap_worker_interval_seconds := 1; intent_limit_per_user := 200; intent_limit_per_symbol := 20;
  mutation_rate_limit_capacity := 60; mutation_rate_limit_refill_per_second := 1; idempotency_cleanup_enabled := true;
  idempotency_cleanup_interval_seconds := 3600; jwt_access_secret := None; access_token_ttl_user_seconds := 900;
  access_token_ttl_admin_seconds := 300; refresh_token_ttl_user_seconds := 2592000; refresh_token_ttl_admin_seconds := 43200;
  argon2_time_cost := 3; argon2_memory_cost := 65536; argon2_parallelism := 4; mfa_encryption_key := None |}.

(** ** Derived values *)

(** [bool(value)] of an optional text *)
Definition given (o : option string) : bool := match o with Some s => negb (String.eqb s "") | None => false end.

Definition ses_values (s : Settings) : list (option string) :=
  [ses_from_address s; ses_region s; ses_smtp_username s; ses_smtp_password s].

(** [resolved_ses_mailer_config] *)
Definition resolved_ses_mailer_config (s : Settings) : option (list string) :=
  if forallb given (ses_values s) then all_some (ses_values s) else None.

Definition cookie_secure (s : Settings) : bool := negb (local_mode s).
Definition cors_allow_origins_list (s : Settings) : list string := comma_list (cors_allow_origins s).

(** The groups of fields other components read. *)
Definition token_settings (s : Settings) : Tokens.Settings :=
  Tokens.mkSettings (jwt_access_secret s) (mfa_encryption_key s) (access_token_ttl_user_seconds s)
    (access_token_ttl_admin_seconds s) (refresh_token_ttl_user_seconds s) (refresh_token_ttl_admin_seconds s).
Definition telegram_settings (s : Settings) : Telegram.TelegramSettings :=
  Telegram.mkTelegramSettings (telegram_chat_id s) (telegram_owner_email s) (telegram_webhook_secret s) (telegram_bot_token s).

(** ** The validators, in the order pydantic runs them *)

Definition require (b : bool) (message : string) : res unit := if b then Ok tt else Raise (ValueError message).

Definition enforce_ses_all_or_none (s : Settings) : res unit :=
  require (negb (existsb given (ses_values s) && negb (forallb given (ses_values s)))) "SES is partially configured".

Definition enforce_local_user_id (s : Settings) : res unit :=
  require (negb (local_mode s && is_none (local_user_id s))) "LOCAL_USER_ID is required when LOCAL_MODE is true".

(** [[A-Za-z0-9_-]] *)
Definition is_secret_char (c : ascii) : bool := is_alpha c || is_digit c || Ascii.eqb c "_"%char || Ascii.eqb c "-"%char.
Definition webhook_secret_ok (o : option string) : bool :=
  match o with
  | Some secret =>
      String.eqb secret "" ||
      ((1 <=? py_len secret) && (py_len secret <=? 256) && forallb is_secret_char (chars secret))
  | None => true
  end.
Definition validate_telegram_settings (s : Settings) : res unit :=
  let? _ := require (negb (Qle_bool (telegram_llm_timeout_seconds s) 0)) "TELEGRAM_LLM_TIMEOUT_SECONDS must be positive" in
  let? _ := require (negb (Qle_bool (telegram_timeout_seconds s) 0)) "TELEGRAM_TIMEOUT_SECONDS must be positive" in
  let? _ := require (webhook_secret_ok (telegram_webhook_secret s)) "TELEGRAM_WEBHOOK_SECRET must be 1-256 characters" in
  require (negb (bool_decide (strip (chars (telegram_owner_email s)) = []))) "TELEGRAM_OWNER_EMAIL must not be empty".

Definition inbound_enabled (s : Settings) : bool :=
  given (openai_api_key s) || given (telegram_webhook_secret s) || given (telegram_webhook_url s).
Definition inbound_values (s : Settings) : list (option string) :=
  [telegram_bot_token s; telegram_chat_id s; telegram_webhook_secret s; openai_api_key s].
Definition enforce_production_telegram_inbound_config (s : Settings) : res unit :=
  require (negb (negb (local_mode s) && inbound_enabled s && negb (forallb given (inbound_values s))))
    "Telegram inbound workflow is partially configured".

Definition enforce_jwt_access_secret (s : Settings) : res unit :=
  require (negb (negb (local_mode s) && negb (given (jwt_access_secret s)))) "JWT_ACCESS_SECRET is required when LOCAL_MODE is false".
Definition enforce_mfa_encryption_key (s : Settings) : res unit :=
  require (negb (negb (local_mode s) && negb (given (mfa_encryption_key s)))) "MFA_ENCRYPTION_KEY is required when LOCAL_MODE is false".

Definition validate_trusted_proxy_ips (s : Settings) : res unit :=
  require (is_some (trusted_proxy_networks (trusted_proxy_ips s))) "invalid network".

Definition enforce_shioaji_credentials (s : Settings) : res unit :=
  require (negb (String.eqb (quote_provider s) "shioaji_demo" && negb (given (shioaji_api_key s) && given (shioaji_secret_key s))))
    "QUOTE_PROVIDER=shioaji_demo requires SHIOAJI_API_KEY, SHIOAJI_SECRET_KEY".

(** Building a [Settings]; the provider is one of the two of the literal type. *)
Definition validate_settings (s : Settings) : res Settings :=
  let? _ := require (str_in (quote_provider s) ["shioaji_demo"; "in_memory"]) "Input should be 'shioaji_demo' or 'in_memory'" in
  let? _ := enforce_ses_all_or_none s in
  let? _ := enforce_local_user_id s in
  let? _ := validate_telegram_settings s in
  let? _ := enforce_production_telegram_inbound_config s in
  let? _ := enforce_jwt_access_secret s in
  let? _ := enforce_mfa_encryption_key s in
  let? _ := validate_trusted_proxy_ips s in
  let? _ := enforce_shioaji_credentials s in
  Ok s.

(** ** What a service that started can rely on *)

Lemma require_ok b m : require b m = Ok tt <-> b = true.
Proof. unfold require. by destruct b. Qed.

Lemma rbind_ok {A B} (r : res A) (k : A -> res B) b : rbind r k = Ok b <-> exists a, r = Ok a /\ k a = Ok b.
Proof.
  destruct r; cbn; split; [by eexists| by intros (? & [= <-] & ?)|done|by intros (? & ? & ?)].
Qed.

(** A value that is set to something, and one that is not. *)
Definition present (o : option string) : Prop := exists v, o = Some v /\ v <> "".
Definition absent (o : option string) : Prop := o = None \/ o = Some "".

(** A character of a webhook secret, by its code. *)
Definition secret_code (n : nat) : Prop :=
  (65 <= n <= 90)%nat \/ (97 <= n <= 122)%nat \/ (48 <= n <= 57)%nat \/ n = 45%nat \/ n = 95%nat.

(** The conditions under which the service starts, setting by setting. *)
Record startable (s : Settings) : Prop := {
  st_provider : quote_provider s = "in_memory" \/
    (quote_provider s = "shioaji_demo" /\ present (shioaji_api_key s) /\ present (shioaji_secret_key s));
  st_mail :
    (present (ses_from_address s) /\ present (ses_region s) /\ present (ses_smtp_username s) /\ present (ses_smtp_password s)) \/
    (absent (ses_from_address s) /\ absent (ses_region s) /\ absent (ses_smtp_username s) /\ absent (ses_smtp_password s));
  st_user : local_mode s = true -> exists u, local_user_id s = Some u;
  st_timeouts : (0 < telegram_llm_timeout_seconds s)%Q /\ (0 < telegram_timeout_seconds s)%Q;
  st_owner : exists c, c ∈ chars (telegram_owner_email s) /\ is_space c = false;
  st_secret : forall secret, telegram_webhook_secret s = Some secret ->
    (length (chars secret) <= 256)%nat /\ Forall (fun c => secret_code (nat_of_ascii c)) (chars secret);
  st_production : local_mode s = false ->
    present (jwt_access_secret s) /\ present (mfa_encryption_key s) /\
    (present (openai_api_key s) \/ present (telegram_webhook_secret s) \/ present (telegram_webhook_url s) ->
     present (telegram_bot_token s) /\ present (telegram_chat_id s) /\ present (telegram_webhook_secret s) /\ present (openai_api_key s));
  st_proxies : forall text part, trusted_proxy_ips s = Some text -> part ∈ split_at ","%char (chars text) ->
    strip part = [] \/ exists net, ip_network (unchars (strip part)) = Some net;
}.

Lemma given_present o : given o = true <-> present o.
Proof.
  unfold present. destruct o as [v|]; cbn; [|split; [done|by intros (? & ? & _)]].
  rewrite negb_true_iff, String.eqb_neq. split; [by exists v|by intros (? & [= <-] & ?)].
Qed.
Lemma given_absent o : given o = false <-> absent o.
Proof.
  unfold absent. destruct o as [v|]; cbn; [|split; [by left|done]]. rewrite negb_false_iff, String.eqb_eq.
  split; [intros ->; by right|by intros [?|[= ->]]].
Qed.

Lemma all_given l : forallb given l = true <-> Forall present l.
Proof. rewrite forallb_forall, List.Forall_forall. by setoid_rewrite given_present. Qed.
Lemma none_given l : existsb given l = false <-> Forall absent l.
Proof.
  induction l as [|o l IH]; cbn; [by split|]. rewrite orb_false_iff, Forall_cons, given_absent. by rewrite IH.
Qed.

(** A text has something left of it when a character of it is no space. *)
Lemma lstrip_nil s : lstrip s = [] <-> Forall (fun c => is_space c = true) s.
Proof.
  induction s as [|c s IH]; cbn; [by split|]. rewrite Forall_cons. destruct (is_space c); [by rewrite IH; intuition|].
  split; [done|by intros []].
Qed.
Lemma lstrip_spaces s : Forall (fun c => is_space c = true) (lstrip s) -> Forall (fun c => is_space c = true) s.
Proof.
  induction s as [|c s IH]; cbn; [done|]. destruct (is_space c) eqn:E; [intros H; constructor; [done|by apply IH]|done].
Qed.
Lemma strip_something s : strip s <> [] <-> exists c, c ∈ s /\ is_space c = false.
Proof.
  assert (Hnil : strip s = [] <-> Forall (fun c => is_space c = true) s).
  { unfold strip. split.
    - intros H. apply (f_equal (@rev ascii)) in H. rewrite rev_involutive in H. apply lstrip_nil in H.
      apply lstrip_spaces. apply List.Forall_rev in H. by rewrite rev_involutive in H.
    - intros H. apply lstrip_nil in H as ->. done. }
  rewrite Hnil. rewrite List.Forall_forall. split.
  - intros Hn. destruct (existsb (fun c => negb (is_space c)) s) eqn:E.
    + apply existsb_exists in E as (c & Hc & Hs). exists c. split; [by apply list_elem_of_In|by apply negb_true_iff].
    + destruct Hn. intros c Hc. destruct (is_space c) eqn:Hs; [done|]. exfalso. apply not_true_iff_false in E. apply E.
      apply existsb_exists. exists c. by rewrite Hs.
  - intros (c & Hc & Hs) Hall. rewrite Hall in Hs; [done|]. by apply list_elem_of_In.
Qed.

(** The character class of the secret, and that its texts are ASCII. *)
Lemma secret_char_code c : is_secret_char c = true <-> secret_code (nat_of_ascii c).
Proof.
  unfold secret_code. destruct c as [[] [] [] [] [] [] [] []]; vm_compute (is_secret_char _); vm_compute (nat_of_ascii _);
    split; intros; (done || lia).
Qed.
Lemma secret_len secret : Forall (fun c => secret_code (nat_of_ascii c)) (chars secret) -> py_len secret = Z.of_nat (length (chars secret)).
Proof.
  intros Hall. unfold py_len. do 2 f_equal. induction Hall as [|c l Hc Hl IH]; cbn [List.filter]; [done|].
  assert (Hlow : Nat.leb 128 (nat_of_ascii c) = false) by (apply Nat.leb_gt; unfold secret_code in Hc; lia).
  rewrite Hlow, IH. done.
Qed.

(** The networks parse when every part between the commas does. *)
Lemma all_some_is {A} (l : list (option A)) : (exists r, all_some l = Some r) <-> Forall (fun o => exists a, o = Some a) l.
Proof.
  induction l as [|[a|] l IH]; cbn.
  - split; [done|by exists []].
  - rewrite Forall_cons, <-IH. split.
    + intros [r Hr]. split; [by exists a|]. destruct (all_some l) as [r'|]; [by exists r'|done].
    + intros [_ [r ->]]. by eexists.
  - rewrite Forall_cons. split; [by intros []|by intros [[] _]].
Qed.
Lemma networks_parse o : (exists nets, trusted_proxy_networks o = Some nets) <->
  (forall text part, o = Some text -> part ∈ split_at ","%char (chars text) ->
     strip part = [] \/ exists net, ip_network (unchars (strip part)) = Some net).
Proof.
  destruct o as [t|]; cbn; [|split; [done|by exists []]].
  destruct (String.eqb_spec t "") as [->|Hne].
  { split; [|by exists []]. intros _ ? part [= <-] Hin. cbn in Hin. apply list_elem_of_singleton in Hin as ->. by left. }
  rewrite all_some_is. unfold comma_list. rewrite !List.Forall_forall. split.
  - intros H ? part [= <-] Hin. destruct (strip part) as [|c l] eqn:Hs; [by left|right]. rewrite <-Hs.
    apply H, list_elem_of_In, list_elem_of_fmap_2, list_elem_of_In, List.filter_In. split.
    + apply list_elem_of_In, (list_elem_of_fmap_2 (fun part => unchars (strip part))), Hin.
    + rewrite Hs. done.
  - intros H x Hx. apply list_elem_of_In, list_elem_of_fmap in Hx as (y & -> & Hy).
    apply list_elem_of_In, List.filter_In in Hy as [Hy Hyne]. apply list_elem_of_In, list_elem_of_fmap in Hy as (part & -> & Hin).
    destruct (H t part eq_refl Hin) as [Hs|Hnet]; [|done]. rewrite Hs in Hyne. done.
Qed.

Lemma Qpos_bool q : negb (Qle_bool q 0) = true <-> (0 < q)%Q.
Proof.
  rewrite negb_true_iff. split; intros H.
  - destruct (Qlt_le_dec 0 q) as [|Hle]; [done|]. apply Qle_bool_iff in Hle. congruence.
  - destruct (Qle_bool q 0) eqn:E; [|done]. apply Qle_bool_iff in E. by apply Qlt_not_le in H.
Qed.

Lemma webhook_secret_iff o : webhook_secret_ok o = true <->
  (forall secret, o = Some secret ->
     (length (chars secret) <= 256)%nat /\ Forall (fun c => secret_code (nat_of_ascii c)) (chars secret)).
Proof.
  destruct o as [t|]; cbn; [|by split]. rewrite orb_true_iff, !andb_true_iff, !Z.leb_le, forallb_forall, String.eqb_eq.
  assert (Hcodes : (forall c, In c (chars t) -> is_secret_char c = true) <-> Forall (fun c => secret_code (nat_of_ascii c)) (chars t)).
  { rewrite List.Forall_forall. by setoid_rewrite secret_char_code. }
  rewrite Hcodes. split.
  - intros [->|[[_ Hl] Hc]] secret [= <-]; [split; [cbn; lia|constructor]|]. rewrite secret_len in Hl by done. split; [lia|done].
  - intros H. destruct (H t eq_refl) as [Hl Hc]. destruct (String.string_dec t "") as [|Hne]; [by left|right].
    rewrite secret_len by done. split; [|done]. destruct t as [|c t']; [done|]. cbn [chars length] in *. cbn in Hl |- *. lia.
Qed.

Lemma telegram_settings_iff s : validate_telegram_settings s = Ok tt <->
  (0 < telegram_llm_timeout_seconds s)%Q /\ (0 < telegram_timeout_seconds s)%Q /\
  webhook_secret_ok (telegram_webhook_secret s) = true /\ strip (chars (telegram_owner_email s)) <> [].
Proof.
  rewrite <-!Qpos_bool. unfold validate_telegram_settings, require.
  destruct (negb (Qle_bool (telegram_llm_timeout_seconds s) 0)); cbn; [|by split; [|intros (? & _)]].
  destruct (negb (Qle_bool (telegram_timeout_seconds s) 0)); cbn; [|by split; [|intros (_ & ? & _)]].
  destruct (webhook_secret_ok _); cbn; [|by split; [|intros (_ & _ & ? & _)]].
  case_bool_decide; cbn; [by split; [|intros (_ & _ & _ & ?)]|by split].
Qed.

Lemma settings_startable (s : Settings) : (exists s', validate_settings s = Ok s') <-> startable s.
Proof.
  assert (Hex : (exists s', validate_settings s = Ok s') <->
    str_in (quote_provider s) ["shioaji_demo"; "in_memory"] = true /\ enforce_ses_all_or_none s = Ok tt /\
    enforce_local_user_id s = Ok tt /\ validate_telegram_settings s = Ok tt /\
    enforce_production_telegram_inbound_config s = Ok tt /\ enforce_jwt_access_secret s = Ok tt /\
    enforce_mfa_encryption_key s = Ok tt /\ validate_trusted_proxy_ips s = Ok tt /\ enforce_shioaji_credentials s = Ok tt).
  { unfold validate_settings. split.
    - intros [s' H]. apply rbind_ok in H as ([] & Hp & H). repeat (apply rbind_ok in H as ([] & ? & H)).
      split; [by apply require_ok in Hp|]. by split_and!.
    - intros (H1 & H2 & H3 & H4 & H5 & H6 & H7 & H8 & H9). exists s. unfold require at 1.
      rewrite H1. cbn [rbind]. by rewrite H2, H3, H4, H5, H6, H7, H8, H9. }
  rewrite Hex. clear Hex. rewrite telegram_settings_iff, webhook_secret_iff. unfold enforce_ses_all_or_none, enforce_local_user_id,
    enforce_production_telegram_inbound_config, enforce_jwt_access_secret, enforce_mfa_encryption_key,
    validate_trusted_proxy_ips, enforce_shioaji_credentials.
  rewrite !require_ok, strip_something.
  assert (Hmail : negb (existsb given (ses_values s) && negb (forallb given (ses_values s))) = true <->
    Forall present (ses_values s) \/ Forall absent (ses_values s)).
  { rewrite <-all_given, <-none_given. destruct (existsb given (ses_values s)), (forallb given (ses_values s)); cbn; intuition discriminate. }
  assert (Hin : negb (negb (local_mode s) && inbound_enabled s && negb (forallb given (inbound_values s))) = true <->
    (local_mode s = false -> present (openai_api_key s) \/ present (telegram_webhook_secret s) \/ present (telegram_webhook_url s) ->
     Forall present (inbound_values s))).
  { rewrite <-all_given, <-!given_present. unfold inbound_enabled.
    destruct (local_mode s), (given (openai_api_key s)), (given (telegram_webhook_secret s)), (given (telegram_webhook_url s)),
      (forallb given (inbound_values s)); cbn; intuition discriminate. }
  assert (Hkey : forall o, negb (negb (local_mode s) && negb (given o)) = true <-> (local_mode s = false -> present o)).
  { intros o. rewrite <-given_present. destruct (local_mode s), (given o); cbn; intuition discriminate. }
  assert (Huser : negb (local_mode s && is_none (local_user_id s)) = true <-> (local_mode s = true -> exists u, local_user_id s = Some u)).
  { destruct (local_mode s), (local_user_id s) as [u|]; cbn; (split; [intros|]); try done; try (by exists u);
      intros Hl; by destruct (Hl eq_refl). }
  assert (Hprov : str_in (quote_provider s) ["shioaji_demo"; "in_memory"] = true /\
      negb (String.eqb (quote_provider s) "shioaji_demo" && negb (given (shioaji_api_key s) && given (shioaji_secret_key s))) = true <->
    quote_provider s = "in_memory" \/ (quote_provider s = "shioaji_demo" /\ present (shioaji_api_key s) /\ present (shioaji_secret_key s))).
  { rewrite <-!given_present. unfold str_in. cbn [existsb].
    destruct (String.eqb_spec (quote_provider s) "shioaji_demo") as [->|]; cbn.
    - destruct (given (shioaji_api_key s)), (given (shioaji_secret_key s)); cbn; intuition discriminate.
    - rewrite orb_false_r, String.eqb_eq. intuition. }
  assert (Hnets : is_some (trusted_proxy_networks (trusted_proxy_ips s)) = true <-> exists nets, trusted_proxy_networks (trusted_proxy_ips s) = Some nets).
  { destruct (trusted_proxy_networks _) as [nets|]; cbn; split; [by exists nets|done|done|by intros []]. }
  rewrite networks_parse in Hnets. rewrite Hmail, Hin, !Hkey, Huser, Hnets. clear Hmail Hin Hkey Huser Hnets.
  unfold ses_values, inbound_values. rewrite !Forall_cons, !Forall_nil. split.
  - intros (Hp & Hm & Hu & (Ht1 & Ht2 & Hw & Ho) & Hi & Hj & Hf & Hx & Hsh). pose proof (proj1 Hprov (conj Hp Hsh)) as Hpr.
    clear Hprov. split; try done; [clear - Hm; tauto|]. intros Hl. specialize (Hi Hl). specialize (Hj Hl). specialize (Hf Hl).
    clear - Hi Hj Hf. tauto.
  - intros [Hp Hm Hu [Ht1 Ht2] Ho Hw Hprod Hn]. apply Hprov in Hp as [Hp Hsh]. clear Hprov.
    split_and!; try done; [clear - Hm; tauto|..]; clear - Hprod; tauto.
Qed.

Lemma validated_same s s' : validate_settings s = Ok s' -> s' = s.
Proof. unfold validate_settings. intros H. repeat (apply rbind_ok in H as ([] & _ & H)). by injection H. Qed.

Lemma refused_settings s e : validate_settings s = Raise e -> exists message, e = ValueError message.
Proof.
  assert (Hreq : forall b m (k : res Settings), (k = Raise e -> exists message, e = ValueError message) ->
    rbind (require b m) (fun _ => k) = Raise e -> exists message, e = ValueError message).
  { intros [] m k Hk; cbn; [done|]. intros [= <-]. by eexists. }
  unfold validate_settings, enforce_ses_all_or_none, enforce_local_user_id, enforce_production_telegram_inbound_config,
    enforce_jwt_access_secret, enforce_mfa_encryption_key, validate_trusted_proxy_ips, enforce_shioaji_credentials.
  do 3 apply Hreq. unfold validate_telegram_settings. unfold require at 1 2 3 4.
  do 4 (case_match; cbn [rbind]; [|intros [= <-]; by eexists]). do 5 (apply Hreq || (cbn [rbind]; apply Hreq)). done.
Qed.

(** What the settings of a started service are read for: in production the
    tokens are signed and the TOTP secrets encrypted with the given secrets, and
    mail is sent with the four given values or not at all. *)
Lemma started_values (s : Settings) : startable s ->
  (local_mode s = false -> exists j m, jwt_access_secret s = Some j /\ mfa_encryption_key s = Some m /\
     Tokens.resolved_jwt_access_secret (token_settings s) = j /\ Tokens.resolved_mfa_encryption_key (token_settings s) = m) /\
  match resolved_ses_mailer_config s with
  | Some values => exists a r u p, ses_from_address s = Some a /\ ses_region s = Some r /\ ses_smtp_username s = Some u /\
      ses_smtp_password s = Some p /\ values = [a; r; u; p]
  | None => absent (ses_from_address s) /\ absent (ses_region s) /\ absent (ses_smtp_username s) /\ absent (ses_smtp_password s)
  end.
Proof.
  intros [_ Hmail _ _ _ _ Hprod _]. split.
  - intros Hl. destruct (Hprod Hl) as ((j & Hj & Hjn) & (m & Hm & Hmn) & _). exists j, m. split; [done|]. split; [done|].
    unfold Tokens.resolved_jwt_access_secret, Tokens.resolved_mfa_encryption_key, Tokens.or_else. cbn. rewrite Hj, Hm.
    by rewrite (proj2 (String.eqb_neq j "") Hjn), (proj2 (String.eqb_neq m "") Hmn).
  - unfold resolved_ses_mailer_config, ses_values. destruct Hmail as [((a & Ha & Han) & (r & Hr & Hrn) & (u & Hu & Hun) & (p & Hp & Hpn))|(Ha & Hr)].
    + rewrite Ha, Hr, Hu, Hp. cbn. rewrite (proj2 (String.eqb_neq a "") Han), (proj2 (String.eqb_neq r "") Hrn),
        (proj2 (String.eqb_neq u "") Hun), (proj2 (String.eqb_neq p "") Hpn). cbn. by exists a, r, u, p.
    + cbn [forallb]. apply given_absent in Ha as Hga. rewrite Hga. done.
Qed.

(** C40. The service starts on exactly the settings that fit together: a known
    quote provider with its credentials, mail configured in full or not at all,
    usable timeouts, a webhook secret of at most 256 letters, digits, - and _,
    proxies that are networks, a local user in local mode, and in production
    secrets of its own and no half-configured inbound bot.  It keeps the settings
    it was given; anything else is a ValueError.  A started service in production
    signs and encrypts with the given secrets, never with the built-in ones, and
    it sends mail with the four given values, or no mail setting was given. *)
Theorem settings_checked (s : Settings) :
  match validate_settings s with
  | Ok s' => s' = s /\ startable s /\
      (local_mode s = false -> exists j m, jwt_access_secret s = Some j /\ mfa_encryption_key s = Some m /\
         Tokens.resolved_jwt_access_secret (token_settings s) = j /\ Tokens.resolved_mfa_encryption_key (token_settings s) = m) /\
      match resolved_ses_mailer_config s with
      | Some values => exists a r u p, ses_from_address s = Some a /\ ses_region s = Some r /\ ses_smtp_username s = Some u /\
          ses_smtp_password s = Some p /\ values = [a; r; u; p]
      | None => absent (ses_from_address s) /\ absent (ses_region s) /\ absent (ses_smtp_username s) /\ absent (ses_smtp_password s)
      end
  | Raise e => ~ startable s /\ exists message, e = ValueError message
  end.
Proof.
  destruct (validate_settings s) as [s'|e] eqn:Hv.
  - assert (Hs : startable s) by (apply settings_startable; by exists s').
    split; [by apply validated_same in Hv|]. split; [done|]. by apply started_values.
  - split; [|by apply refused_settings in Hv]. intros Hs. apply settings_startable in Hs as [s' Hs]. congruence.
Qed.

(** ** An example *)

(** A deployment behind two proxies, without a broker, a mailer or a bot. *)
Definition production_sample : Settings := {|
  app_env := "local"; app_name := "ai-stock-api"; app_version := "0.5.0"; database_url := None; local_user_id := None;
  local_mode := false; initial_admin_email := None; initial_admin_password := None; initial_admin_allow_non_local := false;
  request_id_header := "X-Request-Id"; app_base_url := "http://localhost:3000"; trusted_proxy_ips := Some "10.0.0.0/8, 192.168.1.1";
  cors_allow_origins := "http://localhost:3000,http://127.0.0.1:3000,http://localhost:3001,http://127.0.0.1:3001,http://localhost:3100,http://127.0.0.1:3100";
  quote_provider := "in_memory"; shioaji_api_key := None; shioaji_secret_key := None; shioaji_max_subscriptions := 5;
  shioaji_simulation := false; shioaji_demo_allowed_symbols := None; ses_from_address := None; ses_region := None;
  ses_smtp_username := None; ses_smtp_password := None; telegram_bot_token := None; telegram_chat_id := None;
  telegram_timeout_seconds := 5; telegram_webhook_secret := None; telegram_owner_email := "admin@tingfong.com";
  telegram_webhook_url := None; telegram_llm_model := "gpt-6-luna"; telegram_llm_timeout_seconds := 10; openai_api_key := None;
  twap_worker_enabled := true; twap_worker_interval_seconds := 1; intent_limit_per_user := 200; intent_limit_per_symbol := 20;
  mutation_rate_limit_capacity := 60; mutation_rate_limit_refill_per_second := 1; idempotency_cleanup_enabled := true;
  idempotency_cleanup_interval_seconds := 3600; jwt_access_secret := Some "s3cret"; access_token_ttl_user_seconds := 900;
  access_token_ttl_admin_seconds := 300; refresh_token_ttl_user_seconds := 2592000; refresh_token_ttl_admin_seconds := 43200;
  argon2_time_cost := 3; argon2_memory_cost := 65536; argon2_parallelism := 4; mfa_encryption_key := Some "k3y" |}.

Example production_sample_starts :
  validate_settings production_sample = Ok production_sample /\ startable production_sample.
Proof.
  assert (Hv : validate_settings production_sample = Ok production_sample) by (vm_compute; reflexivity).
  split; [exact Hv|]. apply settings_startable. by exists production_sample.
Qed.
