(* ===== verification/Schemas.v ===== *)
(** * Request and response bodies

    [src/app/schemas/intent.py], [schemas/notification.py] and [schemas/quote.py]:
    which bodies of a create request are accepted and what they become, and the
    documents the endpoints answer with.  The conversions of pydantic (an
    integer or a decimal out of a JSON value, a timestamp into text, the report
    on a rejected body and whether JSON can say it, which echoes the input and so
    fails on a NaN) are parameters.  A document has the names of the fields;
    FastAPI renames them to their aliases when it sends it. *)

From S2P Require Import Prelude Decimal Datetime Json Errors Price TradingSession Intent Twap Tables Quotes CreateIntent Notifications.
From S2P Require Import Responses ClientIp.
From S2P Require LegacyRepo TwapWorker Config.

#[local] Open Scope string_scope.
#[local] Open Scope list_scope.
#[local] Open Scope Z_scope.

(** pydantic, as far as the bodies depend on it. *)
Class Pydantic : Type := {
  to_int : jvalue -> option Z;
  to_bool : jvalue -> option bool;
  to_decimal : jvalue -> option dec;
  to_email : jvalue -> option string;
  report : jvalue -> jvalue;
  writable : jvalue -> bool;
  dump_datetime : datetime -> string;
  dump_date : date -> string;
  dump_time : time -> string;
  dump_decimal : dec -> string;
}.

(** ** Create requests *)

(** A request model: the strategies it admits and the members of its body. *)
Record RequestModel : Type := mkModel {
  rm_strategies : list string;
  rm_members : list string;
}.

Definition BASE_MEMBERS : list string := ["symbol"; "quantityLots"; "strategy"].
Definition BuyPriceAlertCreateRequest := mkModel ["buy_price_alert"] (BASE_MEMBERS ++ ["targetPrice"]).
Definition SellPriceAlertCreateRequest := mkModel ["sell_price_alert"] (BASE_MEMBERS ++ ["targetPrice"]).
Definition LIMIT_MEMBERS : list string := BASE_MEMBERS ++ ["targetPrice"; "transactionMode"; "notificationMode"].
Definition LimitBuyOrderCreateRequest := mkModel ["limit_buy_order"] LIMIT_MEMBERS.
Definition LimitSellOrderCreateRequest := mkModel ["limit_sell_order"] LIMIT_MEMBERS.
Definition MarketOrderCreateRequest :=
  mkModel ["market_order"; "market_buy_order"; "market_sell_order"] (BASE_MEMBERS ++ ["transactionMode"; "notificationMode"]).
Definition TrailingStopAlertCreateRequest := mkModel ["trailing_stop_alert"] (BASE_MEMBERS ++ ["trailMode"; "trailValue"]).

(** The members of the union, told apart by [strategy]. *)
Definition IntentCreateRequest : list RequestModel :=
  [BuyPriceAlertCreateRequest; SellPriceAlertCreateRequest; LimitBuyOrderCreateRequest; LimitSellOrderCreateRequest;
   MarketOrderCreateRequest; TrailingStopAlertCreateRequest].

(** A validated request; an attribute its model has not is [None]. *)
Record IntentRequest : Type := mkRequest {
  ir_symbol : string;
  ir_strategy : string;
  ir_quantity_lots : Z;
  ir_target_price : option string;
  ir_transaction_mode : option string;
  ir_notification_mode : option string;
  ir_trail_mode : option string;
  ir_trail_value : option dec;
}.

(** The outcome of validating a body: a failure carries the errors of
    [RequestValidationError], or [None] when one of them holds a value JSON has
    not. *)
Definition validated (A : Type) : Type := result (option jvalue) A.

Section Requests.
  Context `{Pydantic}.

Definition rejected {A} (body : jvalue) : validated A := Raise (if writable body then Some (report body) else None).

(** [Literal[...]] with its default; a member the model has not is [None]. *)
Definition literal (members : gmap string jvalue) (name : string) (choices : list string) (otherwise : string) : option string :=
  match members !! name with
  | None => Some otherwise
  | Some (JScalar (SStr s)) => if str_in s choices then Some s else None
  | Some _ => None
  end.
Definition text (members : gmap string jvalue) (name : string) : option string :=
  match members !! name with Some (JScalar (SStr s)) => Some s | _ => None end.

(** [quantize(Decimal("0.0001"))] of a value of at most 10, in reach of the context. *)
Definition quantize_4 (d : dec) : dec :=
  if expo d <? -4 then Dec (div_half_even (coef d) (10 ^ (- 4 - expo d))) (-4) else Dec (coef d * 10 ^ (expo d + 4)) (-4).

(** [_validate_percentage_trail_value]; its errors hold a ValueError and a
    Decimal, which JSON has not. *)
Definition validate_percentage_trail_value (trail_mode : string) (trail_value : dec) : validated unit :=
  if negb (String.eqb trail_mode "percentage") then Ok tt
  else if dec_ltb (of_int 10) trail_value then Raise None
  else if negb (dec_eqb (quantize_4 trail_value) trail_value) then Raise None
  else Ok tt.

(** [Field(gt=0)] of [trail_value]: the error for a value that is not positive
    carries the bound, a Decimal, whatever else is wrong with the body. *)
Definition nonpositive_trail (members : gmap string jvalue) : bool :=
  match members !! "trailValue" ≫= to_decimal with Some value => negb (dec_ltb (of_int 0) value) | None => false end.

(** The fields one kind of model adds to the base. *)
Definition transaction_modes (strategy : string) : list string * string :=
  if str_in strategy MARKET_ORDER_STRATEGIES then (["partial_fill_allowed"], "partial_fill_allowed")
  else (["single_notification"; "partial_fill_allowed"], "single_notification").

Definition validate_body (m : RequestModel) (members : gmap string jvalue) : validated IntentRequest :=
  let body := JObj members in
  let has name := str_in name (rm_members m) in
  if has "trailValue" && nonpositive_trail members then Raise None else
  match text members "symbol", text members "strategy", members !! "quantityLots" ≫= to_int with
  | Some symbol, Some strategy, Some quantity =>
      if negb (forallb (fun x => has (fst x)) (map_to_list members)) || negb (str_in strategy (rm_strategies m)) ||
         (quantity <? 1) then rejected body
      else if has "trailMode" then
        match text members "trailMode", members !! "trailValue" ≫= to_decimal with
        | Some mode, Some value =>
            if negb (str_in mode ["percentage"; "fixed_amount"]) then rejected body
            else
              let? _ := validate_percentage_trail_value mode value in
              Ok (mkRequest symbol strategy quantity None None None (Some mode) (Some value))
        | _, _ => rejected body
        end
      else
        let target := text members "targetPrice" in
        if has "targetPrice" && is_none target then rejected body
        else if has "transactionMode" then
          match literal members "transactionMode" (fst (transaction_modes strategy)) (snd (transaction_modes strategy)),
                literal members "notificationMode" ["single"] "single" with
          | Some tmode, Some nmode =>
              Ok (mkRequest symbol strategy quantity (if has "targetPrice" then target else None) (Some tmode) (Some nmode) None None)
          | _, _ => rejected body
          end
        else Ok (mkRequest symbol strategy quantity target None None None None)
  | _, _, _ => rejected body
  end.

(** A body against one model, or against a union, where [strategy] selects the
    model. *)
Definition select_model (models : list RequestModel) (members : gmap string jvalue) : option RequestModel :=
  match models with
  | [m] => Some m
  | _ => List.find (fun m => match text members "strategy" with Some s => str_in s (rm_strategies m) | None => false end) models
  end.
Definition parse_request (models : list RequestModel) (body : jvalue) : validated IntentRequest :=
  match body with
  | JObj members =>
      match select_model models members with
      | Some m => validate_body m members
      | None => rejected body
      end
  | _ => rejected body
  end.

(** [TwapPlanRequest]; the owner comes from the access token. *)
Record TwapPlanRequest : Type := mkTwapRequest {
  tr_symbol : string;
  tr_position_side : string;
  tr_quantity_lots : Z;
  tr_interval_seconds : Z;
  tr_start_time : option time;
  tr_end_time : time;
}.

(** [_validate_time_precision]: [HH:MM], in ASCII digits; [None] where it raises. *)
Definition two_digits (s : list ascii) : option Z :=
  if negb (length s =? 2)%nat || negb (forallb is_digit s) then None else Some (digits_val s).
Definition parse_time (v : jvalue) : option time :=
  match v with
  | JScalar (SStr s) =>
      match split_at ":"%char (chars s) with
      | [h; m] =>
          match two_digits h, two_digits m with
          | Some hour, Some minute => if (hour <=? 23) && (minute <=? 59) then Some (mk_time hour minute) else None
          | _, _ => None
          end
      | _ => None
      end
  | _ => None
  end.

Definition TWAP_MEMBERS : list string := ["symbol"; "positionSide"; "quantityLots"; "intervalSeconds"; "startTime"; "endTime"].

Definition parse_twap_request (body : jvalue) : validated TwapPlanRequest :=
  match body with
  | JObj members =>
      if negb (forallb (fun x => str_in (fst x) TWAP_MEMBERS) (map_to_list members)) then rejected body else
      let start := match members !! "startTime" with
                   | None | Some (JScalar SNull) => Some None
                   | Some v => Some <$> parse_time v
                   end in
      match text members "symbol", text members "positionSide", members !! "quantityLots" ≫= to_int,
            members !! "intervalSeconds" ≫= to_int, start, members !! "endTime" ≫= parse_time with
      | Some symbol, Some side, Some quantity, Some interval, Some start, Some fin =>
          if str_in side ["long"; "short"] then Ok (mkTwapRequest symbol side quantity interval start fin) else rejected body
      | _, _, _, _, _, _ => rejected body
      end
  | _ => rejected body
  end.

(** ** Bodies of the account endpoints ([api/schemas/auth.py], [api/schemas/admin.py]) *)

(** A body with these members and no others. *)
Definition strict_members (names : list string) (body : jvalue) : validated (gmap string jvalue) :=
  match body with
  | JObj members => if forallb (fun x => str_in (fst x) names) (map_to_list members) then Ok members else rejected body
  | _ => rejected body
  end.
Definition field {A} (body : jvalue) (o : option A) : validated A := match o with Some a => Ok a | None => rejected body end.

Definition parse_login (body : jvalue) : validated (string * string) :=
  let? m := strict_members ["email"; "password"] body in
  let? email := field body (m !! "email" ≫= to_email) in
  let? password := field body (text m "password") in
  Ok (email, password).
Definition parse_accept_invitation (body : jvalue) : validated (string * string) :=
  let? m := strict_members ["token"; "password"] body in
  let? token := field body (text m "token") in
  let? password := field body (text m "password") in
  Ok (token, password).
Definition parse_reset_request (body : jvalue) : validated string :=
  let? m := strict_members ["email"] body in field body (m !! "email" ≫= to_email).
Definition parse_reset_confirm (body : jvalue) : validated (string * string) :=
  let? m := strict_members ["token"; "newPassword"] body in
  let? token := field body (text m "token") in
  let? password := field body (text m "newPassword") in
  Ok (token, password).
Definition parse_role (m : gmap string jvalue) : option string :=
  match text m "role" with Some r => if str_in r ["user"; "admin"] then Some r else None | None => None end.
Definition parse_create_user (body : jvalue) : validated (string * string) :=
  let? m := strict_members ["email"; "role"] body in
  let? email := field body (m !! "email" ≫= to_email) in
  let? role := field body (parse_role m) in
  Ok (email, role).
Definition parse_provision_user (body : jvalue) : validated (string * string * string) :=
  let? m := strict_members ["email"; "password"; "role"] body in
  let? email := field body (m !! "email" ≫= to_email) in
  let? password := field body (text m "password") in
  let? role := field body (parse_role m) in
  Ok (email, password, role).
Definition parse_two_factor_verify (body : jvalue) : validated string :=
  let? m := strict_members ["code"] body in field body (text m "code").

(** The reason is stripped and may not be empty. *)
Definition parse_kill_switch (body : jvalue) : validated (bool * string) :=
  let? m := strict_members ["enabled"; "reason"] body in
  let? enabled := field body (m !! "enabled" ≫= to_bool) in
  let? reason := field body (text m "reason") in
  match strip (chars reason) with [] => rejected body | r => Ok (enabled, unchars r) end.

(** [EvaluateQuotesRequest] ignores members it does not know. *)
Definition parse_evaluate_quotes (body : jvalue) : validated (option (list string)) :=
  match body with
  | JObj m =>
      match m !! "symbols" with
      | None | Some (JScalar SNull) => Ok None
      | Some (JArr l) =>
          rmap Some (field body (all_some ((fun v => match v with JScalar (SStr s) => Some s | _ => None end) <$> l)))
      | Some _ => rejected body
      end
  | _ => rejected body
  end.

End Requests.

(** ** Documents *)

Definition nullable {A} (f : A -> jvalue) (o : option A) : jvalue := match o with Some a => f a | None => JNull end.

(** A price that is present, and one that is present and not zero. *)
Definition price_text (o : option dec) : option string := format_price_str <$> o.
Definition nonzero_price_text (o : option dec) : option string :=
  match o with Some d => if coef d =? 0 then None else Some (format_price_str d) | None => None end.

(** [TwapSummaryData] *)
Record TwapSummaryData : Type := mkTwapSummary {
  tw_position_side : string;
  tw_interval_seconds : Z;
  tw_start_time : time;
  tw_end_time : time;
  tw_start_at : datetime;
  tw_end_at : datetime;
  tw_available_slice_count : Z;
  tw_materialized_slice_count : Z;
}.

(** [IntentResponseData] *)
Record IntentResponseData : Type := mkIntentResponse {
  rd_id : uuid;
  rd_symbol : string;
  rd_strategy : string;
  rd_quantity_lots : Z;
  rd_target_price_original : option string;
  rd_target_price_effective : option string;
  rd_trading_date : date;
  rd_time_in_force : string;
  rd_execution_mode : string;
  rd_status : string;
  rd_transaction_mode : string;
  rd_notification_mode : string;
  rd_filled_quantity_lots : Z;
  rd_last_fill_at : option datetime;
  rd_trail_mode : option string;
  rd_trail_value : option string;
  rd_baseline : option string;
  rd_dynamic_trigger_price : option string;
  rd_baseline_updated_at : option datetime;
  rd_twap : option TwapSummaryData;
  rd_created_at : datetime;
  rd_cancelled_at : option datetime;
}.

(** [map_twap_summary] *)
Definition map_twap_summary (i : TradeIntentData) : res (option TwapSummaryData) :=
  if negb (String.eqb (i_strategy i) "twap_order") then Ok None
  else
    match i_position_side i, i_twap_interval_seconds i, i_twap_end_time i, i_twap_start_at i, i_twap_end_at i,
          i_twap_available_slice_count i, i_twap_materialized_slice_count i with
    | Some side, Some interval, Some fin, Some start_at, Some end_at, Some available, Some materialized =>
        Ok (Some (mkTwapSummary side interval (dt_time start_at) fin start_at end_at available materialized))
    | _, _, _, _, _, _, _ => Raise (RuntimeError "TWAP intent missing summary fields")
    end.

(** [map_to_response_data] of an intent *)
Definition map_to_response_data (i : TradeIntentData) : res IntentResponseData :=
  let? twap := map_twap_summary i in
  Ok {| rd_id := i_id i; rd_symbol := i_symbol i; rd_strategy := i_strategy i; rd_quantity_lots := i_quantity_lots i;
        rd_target_price_original := price_text (i_target_price_original i);
        rd_target_price_effective := price_text (i_target_price_effective i);
        rd_trading_date := i_trading_date i; rd_time_in_force := i_time_in_force i; rd_execution_mode := i_execution_mode i;
        rd_status := i_status i; rd_transaction_mode := i_transaction_mode i; rd_notification_mode := i_notification_mode i;
        rd_filled_quantity_lots := i_filled_quantity_lots i; rd_last_fill_at := i_last_fill_at i; rd_trail_mode := i_trail_mode i;
        rd_trail_value := nonzero_price_text (i_trail_value i); rd_baseline := nonzero_price_text (i_baseline i);
        rd_dynamic_trigger_price := nonzero_price_text (i_dynamic_trigger_price i);
        rd_baseline_updated_at := i_baseline_updated_at i; rd_twap := twap; rd_created_at := i_created_at i;
        rd_cancelled_at := i_cancelled_at i |}.

(** [TwapSliceResponseData] *)
Record TwapSliceResponseData : Type := mkSliceResponse {
  sr_id : option uuid;
  sr_sequence_no : Z;
  sr_scheduled_at : datetime;
  sr_planned_quantity_lots : Z;
  sr_status : option string;
  sr_primary_notification_id : option uuid;
  sr_notified_at : option datetime;
  sr_primary_price_available : option bool;
  sr_primary_reference_price : option string;
  sr_primary_reference_price_type : option string;
  sr_primary_quote_time : option datetime;
  sr_price_followup_required : option bool;
  sr_price_followup_attempts : option Z;
  sr_next_price_followup_at : option datetime;
  sr_price_followup_notification_id : option uuid;
  sr_price_followup_sent_at : option datetime;
}.

(** [map_twap_slice_to_response_data] *)
Definition map_twap_slice_to_response_data (s : LegacyRepo.TwapSliceData) : TwapSliceResponseData :=
  let r := LegacyRepo.sd_row s in
  {| sr_id := Some (LegacyRepo.sd_id s); sr_sequence_no := ts_sequence_no r; sr_scheduled_at := ts_scheduled_at r;
     sr_planned_quantity_lots := ts_planned_quantity_lots r; sr_status := Some (ts_status r);
     sr_primary_notification_id := ts_primary_notification_id r; sr_notified_at := ts_notified_at r;
     sr_primary_price_available := ts_primary_price_available r;
     sr_primary_reference_price := price_text (ts_primary_reference_price r);
     sr_primary_reference_price_type := ts_primary_reference_price_type r; sr_primary_quote_time := ts_primary_quote_time r;
     sr_price_followup_required := Some (ts_price_followup_required r);
     sr_price_followup_attempts := Some (ts_price_followup_attempts r);
     sr_next_price_followup_at := ts_next_price_followup_at r;
     sr_price_followup_notification_id := ts_price_followup_notification_id r;
     sr_price_followup_sent_at := ts_price_followup_sent_at r |}.

(** The slices of [map_twap_plan], which are not stored yet. *)
Definition planned_slice (s : TwapSlicePlan) : TwapSliceResponseData :=
  {| sr_id := None; sr_sequence_no := sequence_no s; sr_scheduled_at := scheduled_at s;
     sr_planned_quantity_lots := planned_quantity_lots s; sr_status := None; sr_primary_notification_id := None;
     sr_notified_at := None; sr_primary_price_available := None; sr_primary_reference_price := None;
     sr_primary_reference_price_type := None; sr_primary_quote_time := None; sr_price_followup_required := None;
     sr_price_followup_attempts := None; sr_next_price_followup_at := None; sr_price_followup_notification_id := None;
     sr_price_followup_sent_at := None |}.

(** [map_to_read_response_data] of a notification: its id and when it was read *)
Definition map_to_read_response_data (n : NotificationData) : res (uuid * datetime) :=
  match nd_read_at n with
  | Some t => Ok (nd_id n, t)
  | None => Raise (RuntimeError "mark_read returned a notification with read_at=None")
  end.

(** [model_dump(mode="json")] *)
Section Dumps.
  Context `{Pydantic}.

Definition dt_json (t : datetime) : jvalue := JStr (dump_datetime t).
Definition uuid_json (i : uuid) : jvalue := JStr (str_uuid i).
Definition bool_json (b : bool) : jvalue := JScalar (SBool b).
Definition document (members : list (string * jvalue)) : jvalue := JObj (list_to_map members).
Definition data_document (v : jvalue) : jvalue := document [("data", v)].

Definition dump_twap_summary (t : TwapSummaryData) : jvalue :=
  document [("position_side", JStr (tw_position_side t)); ("interval_seconds", JInt (tw_interval_seconds t));
    ("start_time", JStr (dump_time (tw_start_time t))); ("end_time", JStr (dump_time (tw_end_time t)));
    ("start_at", dt_json (tw_start_at t)); ("end_at", dt_json (tw_end_at t));
    ("available_slice_count", JInt (tw_available_slice_count t));
    ("materialized_slice_count", JInt (tw_materialized_slice_count t))].

Definition intent_members (r : IntentResponseData) : list (string * jvalue) :=
  [("id", uuid_json (rd_id r)); ("symbol", JStr (rd_symbol r)); ("strategy", JStr (rd_strategy r));
   ("quantity_lots", JInt (rd_quantity_lots r)); ("target_price_original", nullable JStr (rd_target_price_original r));
   ("target_price_effective", nullable JStr (rd_target_price_effective r));
   ("trading_date", JStr (dump_date (rd_trading_date r))); ("time_in_force", JStr (rd_time_in_force r));
   ("execution_mode", JStr (rd_execution_mode r)); ("status", JStr (rd_status r));
   ("transaction_mode", JStr (rd_transaction_mode r)); ("notification_mode", JStr (rd_notification_mode r));
   ("filled_quantity_lots", JInt (rd_filled_quantity_lots r)); ("last_fill_at", nullable dt_json (rd_last_fill_at r));
   ("trail_mode", nullable JStr (rd_trail_mode r)); ("trail_value", nullable JStr (rd_trail_value r));
   ("baseline", nullable JStr (rd_baseline r)); ("dynamic_trigger_price", nullable JStr (rd_dynamic_trigger_price r));
   ("baseline_updated_at", nullable dt_json (rd_baseline_updated_at r)); ("twap", nullable dump_twap_summary (rd_twap r));
   ("created_at", dt_json (rd_created_at r)); ("cancelled_at", nullable dt_json (rd_cancelled_at r))].

Definition dump_slice (s : TwapSliceResponseData) : jvalue :=
  document [("id", nullable uuid_json (sr_id s)); ("sequence_no", JInt (sr_sequence_no s));
    ("scheduled_at", dt_json (sr_scheduled_at s)); ("planned_quantity_lots", JInt (sr_planned_quantity_lots s));
    ("status", nullable JStr (sr_status s)); ("primary_notification_id", nullable uuid_json (sr_primary_notification_id s));
    ("notified_at", nullable dt_json (sr_notified_at s));
    ("primary_price_available", nullable bool_json (sr_primary_price_available s));
    ("primary_reference_price", nullable JStr (sr_primary_reference_price s));
    ("primary_reference_price_type", nullable JStr (sr_primary_reference_price_type s));
    ("primary_quote_time", nullable dt_json (sr_primary_quote_time s));
    ("price_followup_required", nullable bool_json (sr_price_followup_required s));
    ("price_followup_attempts", nullable JInt (sr_price_followup_attempts s));
    ("next_price_followup_at", nullable dt_json (sr_next_price_followup_at s));
    ("price_followup_notification_id", nullable uuid_json (sr_price_followup_notification_id s));
    ("price_followup_sent_at", nullable dt_json (sr_price_followup_sent_at s))].

(** [IntentCreateResponse], [IntentListResponse], [IntentDetailResponse] and
    [TwapConfirmResponse] *)
Definition intent_create_response (r : IntentResponseData) : jvalue := data_document (document (intent_members r)).
Definition intent_list_response (rows : list IntentResponseData) (next_cursor : option string) (page_size : nat) : jvalue :=
  document [("data", JArr ((fun r => document (intent_members r)) <$> rows)); ("next_cursor", nullable JStr next_cursor);
    ("page_size", JInt (Z.of_nat page_size))].
Definition detail_response (r : IntentResponseData) (slices : option (list TwapSliceResponseData)) : jvalue :=
  data_document (document (intent_members r ++
    [("twap_slices", nullable (fun l => JArr (dump_slice <$> l)) slices)])).

(** [map_to_detail_response_data], dumped *)
Definition map_to_detail_response_data (i : TradeIntentData) (slices : option (list LegacyRepo.TwapSliceData)) : res jvalue :=
  let? r := map_to_response_data i in
  Ok (detail_response r (option_map (fun l => map_twap_slice_to_response_data <$> l) slices)).

(** [map_twap_plan] and [TwapPreviewResponse] *)
Definition phase_text (p : TradingDayPhase) : string :=
  match p with PRE_MARKET => "pre_market" | REGULAR_SESSION => "regular_session" | POST_MARKET => "post_market" end.
Definition map_twap_plan (symbol : string) (p : TwapPlan) : jvalue :=
  data_document (document
    [("symbol", JStr symbol); ("strategy", JStr "twap_order"); ("position_side", JStr (position_side p));
     ("trading_phase", JStr (phase_text (trading_phase p))); ("trading_date", JStr (dump_date (trading_date p)));
     ("target_quantity_lots", JInt (target_quantity_lots p)); ("interval_seconds", JInt (interval_seconds p));
     ("start_time", JStr (dump_time (requested_start_time p))); ("end_time", JStr (dump_time (requested_end_time p)));
     ("start_at", dt_json (start_at p)); ("end_at", dt_json (end_at p));
     ("available_slice_count", JInt (available_slice_count p)); ("materialized_slice_count", JInt (materialized_slice_count p));
     ("slices", JArr ((fun s => dump_slice (planned_slice s)) <$> slices p))]).

(** [map_to_response_data] of a notification, and the list of them *)
Definition notification_document (n : NotificationData) : jvalue :=
  document [("id", uuid_json (nd_id n)); ("type", JStr (nd_type n)); ("trade_intent_id", nullable uuid_json (nd_trade_intent_id n));
    ("rendered_title", JStr (nd_rendered_title n)); ("rendered_body", JStr (nd_rendered_body n));
    ("read_at", nullable dt_json (nd_read_at n)); ("created_at", dt_json (nd_created_at n))].
Definition notification_list_response (rows : list NotificationData) (next_cursor : option string) (page_size : nat) : jvalue :=
  document [("data", JArr (notification_document <$> rows)); ("next_cursor", nullable JStr next_cursor);
    ("page_size", JInt (Z.of_nat page_size))].
Definition notification_read_response (n : NotificationData) : res jvalue :=
  let? x := map_to_read_response_data n in
  Ok (data_document (document [("id", uuid_json (fst x)); ("read_at", dt_json (snd x))])).

(** [map_current_price] *)
Definition map_current_price (q : QuoteSnapshot) : jvalue :=
  data_document (document
    [("symbol", JStr (q_symbol q)); ("current_price", nullable JStr (price_text (last_price q)));
     ("bid_price", nullable JStr (price_text (bid_price q))); ("ask_price", nullable JStr (price_text (ask_price q)));
     ("quote_time", dt_json (quote_time q)); ("received_at", dt_json (received_at q));
     ("source", JStr Config.CURRENT_PRICE_SOURCE_NAME); ("test_feature", bool_json true)]).

(** [SymbolResponse] *)
Definition symbol_document (symbol : string) (r : SymbolRow) : jvalue :=
  document [("symbol", JStr symbol); ("display_name", JStr (sy_display_name r)); ("market", JStr (sy_market r));
    ("instrument_type", JStr (sy_instrument_type r)); ("tradable_status", JStr (sy_tradable_status r))].

End Dumps.
