(* ===== verification/Symbols.v ===== *)
(** * Looking symbols up

    [src/app/repositories/symbol_repository.py] and [services/symbol.py]: the
    search of the symbol list by a prefix of the symbol or a part of the name.
    [like] is SQL's LIKE with a backslash as its escape character. *)

From S2P Require Import Prelude Decimal Datetime Json Errors Tables Store.

#[local] Open Scope string_scope.
#[local] Open Scope list_scope.
#[local] Open Scope Z_scope.

Definition MAX_SEARCH_LIMIT : Z := 50.
Definition LIKE_ESCAPE_CHAR : ascii := "\"%char.

(** [escape_like_pattern]: each replacement in turn. *)
Definition replace_char (c : ascii) (by_ : list ascii) (s : list ascii) : list ascii :=
  concat ((fun x => if Ascii.eqb x c then by_ else [x]) <$> s).
Definition escape_like_pattern (s : list ascii) : list ascii :=
  replace_char "_" [LIKE_ESCAPE_CHAR; "_"%char]
    (replace_char "%" [LIKE_ESCAPE_CHAR; "%"%char]
      (replace_char LIKE_ESCAPE_CHAR [LIKE_ESCAPE_CHAR; LIKE_ESCAPE_CHAR] s)).

(** Some suffix of the text satisfies [f]. *)
Fixpoint some_suffix (f : list ascii -> bool) (s : list ascii) : bool :=
  f s || match s with [] => false | _ :: s' => some_suffix f s' end.

(** [text LIKE pattern ESCAPE '\'] *)
Fixpoint like (pattern s : list ascii) : bool :=
  match pattern with
  | [] => bool_decide (s = [])
  | c :: p =>
      if Ascii.eqb c LIKE_ESCAPE_CHAR then
        match p, s with
        | x :: p', y :: s' => Ascii.eqb x y && like p' s'
        | _, _ => false
        end
      else if Ascii.eqb c "%" then some_suffix (like p) s
      else
        match s with
        | [] => false
        | y :: s' => (Ascii.eqb c "_" || Ascii.eqb c y) && like p s'
        end
  end.

(** The condition of [SymbolRepository.search]. *)
Definition matches (q : option string) (symbol : string) (r : SymbolRow) : bool :=
  match q with
  | None => true
  | Some t =>
      if String.eqb t "" then true
      else
        let escaped := escape_like_pattern (chars t) in
        like (escaped ++ chars "%") (chars symbol) || like (chars "%" ++ escaped ++ chars "%") (chars (sy_display_name r))
  end.

Section Symbols.
  Context {P : Type}.

(** [search] and [SymbolService.lookup] *)
Definition search (q : option string) (limit : Z) : M P (list (string * SymbolRow)) :=
  query (fun d => take (Z.to_nat (Z.min limit MAX_SEARCH_LIMIT)) (select_where (matches q) (symbols d))).

End Symbols.

(** ** What a search finds *)

Definition is_prefix (p s : list ascii) : Prop := exists rest, s = p ++ rest.
Definition is_part (p s : list ascii) : Prop := exists before rest, s = before ++ p ++ rest.

Lemma some_suffix_iff f s : some_suffix f s = true <-> exists before rest, s = before ++ rest /\ f rest = true.
Proof.
  induction s as [|x s IH]; cbn; rewrite orb_true_iff.
  - split; [intros [Hf|]; [by exists [], []|done]|]. intros (before & rest & Hs & Hf). left.
    by destruct before, rest.
  - rewrite IH. split.
    + intros [Hf|(before & rest & -> & Hf)]; [by exists [], (x :: s)|by exists (x :: before), rest].
    + intros ([|y before] & rest & Hs & Hf); cbn in Hs; [left; by subst|]. injection Hs as <- ->. right. by exists before, rest.
Qed.

(** The escaped form of one character. *)
Definition escape_char (x : ascii) : list ascii :=
  if Ascii.eqb x LIKE_ESCAPE_CHAR || Ascii.eqb x "%" || Ascii.eqb x "_" then [LIKE_ESCAPE_CHAR; x] else [x].

Lemma escape_cons x s : escape_like_pattern (x :: s) = escape_char x ++ escape_like_pattern s.
Proof.
  unfold escape_like_pattern, escape_char, replace_char. cbn [fmap list_fmap concat].
  destruct (Ascii.eqb_spec x LIKE_ESCAPE_CHAR) as [->|H1]; [done|].
  destruct (Ascii.eqb_spec x "%") as [->|H2]; [done|]. cbn [app orb fmap list_fmap concat].
  rewrite (proj2 (Ascii.eqb_neq x "%") H2). cbn [app fmap list_fmap concat].
  by destruct (Ascii.eqb_spec x "_") as [->|H3].
Qed.

Lemma like_escaped_app t p s : like (escape_like_pattern t ++ p) s = true <-> exists rest, s = t ++ rest /\ like p rest = true.
Proof.
  revert s. induction t as [|x t IH]; intros s; [split; [by exists s|by intros (rest & -> & ?)]|].
  rewrite escape_cons. unfold escape_char.
  assert (Hstep : forall b : list ascii -> bool, (forall y s', b (y :: s') = true <-> x = y /\ like (escape_like_pattern t ++ p) s' = true) ->
    b [] = false -> (b s = true <-> exists rest, s = (x :: t) ++ rest /\ like p rest = true)).
  { intros b Hcons Hnil. destruct s as [|y s].
    - rewrite Hnil. split; [done|]. by intros (rest & ? & _).
    - rewrite Hcons, IH. split.
      + intros (-> & rest & -> & ?). by exists rest.
      + intros (rest & [= -> ->] & ?). split; [done|]. by exists rest. }
  destruct (Ascii.eqb x LIKE_ESCAPE_CHAR || Ascii.eqb x "%" || Ascii.eqb x "_") eqn:E.
  - apply (Hstep (like (([LIKE_ESCAPE_CHAR; x] ++ escape_like_pattern t) ++ p))); [|done].
    intros y s'. cbn. by rewrite andb_true_iff, Ascii.eqb_eq.
  - apply orb_false_iff in E as [[H1 H2]%orb_false_iff H3].
    apply (Hstep (like (([x] ++ escape_like_pattern t) ++ p))).
    + intros y s'. cbn [app like]. rewrite H1, H2, H3. by rewrite orb_false_l, andb_true_iff, Ascii.eqb_eq.
    + cbn [app like]. by rewrite H1, H2.
Qed.

Lemma like_any s : like (chars "%") s = true.
Proof. apply some_suffix_iff. exists s, []. by rewrite app_nil_r. Qed.

Lemma like_percent p s : like (chars "%" ++ p) s = some_suffix (like p) s.
Proof. done. Qed.

(** A search text is taken literally, its percent signs, underscores and
    backslashes included: the rows that match are those whose symbol starts with
    it or whose name contains it; at most fifty of them are returned, and no row
    that matches is left out before that. *)
Theorem search_is_literal {P} (q : string) (limit : Z) (w : world P) (Hq : q <> "") (Hlimit : 0 <= limit) :
  exists rows, search (Some q) limit w = (Ok rows, w) /\
    Z.of_nat (length rows) <= Z.min limit 50 /\
    (forall s r, (s, r) ∈ rows -> symbols (pending w) !! s = Some r /\
       (is_prefix (chars q) (chars s) \/ is_part (chars q) (chars (sy_display_name r)))) /\
    (Z.of_nat (length rows) < Z.min limit 50 -> forall s r, symbols (pending w) !! s = Some r ->
       is_prefix (chars q) (chars s) \/ is_part (chars q) (chars (sy_display_name r)) -> (s, r) ∈ rows).
Proof.
  assert (Hm : forall s r, matches (Some q) s r = true <-> is_prefix (chars q) (chars s) \/ is_part (chars q) (chars (sy_display_name r))).
  { intros s r. unfold matches. rewrite (proj2 (String.eqb_neq q "") Hq), orb_true_iff, like_escaped_app.
    rewrite like_percent, some_suffix_iff. setoid_rewrite like_escaped_app. unfold is_prefix, is_part. pose proof like_any. naive_solver. }
  eexists. split; [reflexivity|]. unfold id, MAX_SEARCH_LIMIT. set (sel := select_where _ _). split; [rewrite length_take; lia|]. split.
  - intros s r Hin. apply elem_of_take in Hin as (n & Hn & _). apply list_elem_of_lookup_2, elem_of_select in Hn as [Hs Hr].
    split; [done|]. by apply Hm.
  - intros Hlen s r Hs Hr. rewrite length_take in Hlen. rewrite take_ge by lia. apply elem_of_select. split; [done|]. by apply Hm.
Qed.

Definition symbol_named (name : string) : SymbolRow := mkSymbol name "TWSE" "stock" "tradable".

(** "5%" finds the fund with a percent sign in its name, not the one with a 5. *)
Lemma search_is_literal_witness :
  let d := set_symbols {["0050" := symbol_named "Top 50"; "00713" := symbol_named "Low 5% volatility"]} empty_db in
  exists rows, search (Some "5%") 20 (mkWorld d d tt 100 [] (DT 0 (Some 0)) (DT 0 (Some 0))) =
      (Ok rows, mkWorld d d tt 100 [] (DT 0 (Some 0)) (DT 0 (Some 0))) /\
    fst <$> rows = ["00713"] /\ Z.of_nat (length rows) <= 20.
Proof.
  intros d. destruct (search_is_literal "5%" 20 (mkWorld d d tt 100 [] (DT 0 (Some 0)) (DT 0 (Some 0)))
    ltac:(discriminate) ltac:(lia)) as (rows & Hr & Hl & _).
  exists rows. split; [exact Hr|]. split; [|exact Hl].
  assert (E : fst (search (Some "5%") 20 (mkWorld d d tt 100 [] (DT 0 (Some 0)) (DT 0 (Some 0)))) =
    Ok [("00713", symbol_named "Low 5% volatility")]) by (vm_compute; reflexivity).
  rewrite Hr in E. injection E as ->. reflexivity.
Defined.
