(* ===== verification/Endpoints.v ===== *)
(** * The endpoints

    [src/app/api/routes]: every route as a program that answers or raises, over
    the commands of the other files, with the dependencies of [api/deps.py] in
    the order FastAPI resolves them: those of the route, those of its
    parameters, then the body.  A request runs in one session of its own. *)

From Stdlib Require Import QArith_base.
From S2P Require Import Prelude Decimal Datetime Json Errors Price TradingSession Intent Evaluation Twap Tables Store CoreSchema Lifecycle Pagination.
From S2P Require Import IntentRepo Quotes CreateIntent Dispatcher KillSwitch RateLimiter AuthRepos Tokens Auth Account.
From S2P Require Import Telegram TelegramRoute LegacyTrigger LegacyCommands TwapWorker Responses ClientIp Schemas Symbols.
From S2P Require Idempotency Notifications LegacyRepo Config.

#[local] Open Scope string_scope.
#[local] Open Scope list_scope.
#[local] Open Scope Z_scope.

(** What the endpoints read of a request.  The body is [None] when it is no
    JSON document. *)
Record Request : Type := mkHttpRequest {
  hq_authorization : option string;
  hq_idempotency_key : option string;
  hq_origin : option string;
  hq_referer : option string;
  hq_csrf_header : option string;
  hq_refresh_cookie : option string;
  hq_csrf_cookie : option string;
  hq_peer : option string;
  hq_forwarded : option string;
  hq_telegram_secret : option string;
  hq_body : option jvalue;
}.

(** [CURRENT_PRICE_ALLOWED_SYMBOLS] *)
Definition CURRENT_PRICE_ALLOWED_SYMBOLS : list string := ["2330"; "2317"; "0050"; "00878"].

(** The endpoints that may create an intent: their models and their name. *)
Inductive create_kind : Type :=
| AnyIntent | BuyPriceAlert | SellPriceAlert | LimitBuyOrder | LimitSellOrder | MarketOrder | TrailingStopAlert.

Definition models_of (k : create_kind) : list RequestModel :=
  match k with
  | AnyIntent => IntentCreateRequest
  | BuyPriceAlert => [BuyPriceAlertCreateRequest]
  | SellPriceAlert => [SellPriceAlertCreateRequest]
  | LimitBuyOrder => [LimitBuyOrderCreateRequest]
  | LimitSellOrder => [LimitSellOrderCreateRequest]
  | MarketOrder => [MarketOrderCreateRequest]
  | TrailingStopAlert => [TrailingStopAlertCreateRequest]
  end.
Definition endpoint_name (k : create_kind) : string :=
  match k with
  | AnyIntent => "create_intent"
  | BuyPriceAlert => "create_buy_price_alert"
  | SellPriceAlert => "create_sell_price_alert"
  | LimitBuyOrder => "create_limit_buy_order"
  | LimitSellOrder => "create_limit_sell_order"
  | MarketOrder => "create_market_order"
  | TrailingStopAlert => "create_trailing_stop_alert"
  end.

(** [CreateTradeIntentInput(...)] of each endpoint; a keyword it does not pass
    has the default of the dataclass, an attribute [getattr] does not find the
    default given there. *)
Definition create_input (k : create_kind) (owner : uuid) (r : IntentRequest) : CreateTradeIntentInput :=
  let input := mkCreateInput (ir_symbol r) (ir_strategy r) (ir_quantity_lots r) owner in
  let tmode := default "single_notification" (ir_transaction_mode r) in
  let nmode := default "single" (ir_notification_mode r) in
  match k with
  | AnyIntent => input (ir_target_price r) tmode nmode (ir_trail_mode r) (ir_trail_value r)
  | BuyPriceAlert | SellPriceAlert => input (ir_target_price r) "single_notification" "single" None None
  | LimitBuyOrder | LimitSellOrder => input (ir_target_price r) tmode nmode None None
  | MarketOrder => input None tmode nmode None None
  | TrailingStopAlert => input None "single_notification" "single" (ir_trail_mode r) (ir_trail_value r)
  end.

(** [_parse_status_list] and [_validate_statuses] *)
Definition parse_status_list (raw : list string) : option (list string) :=
  match concat (comma_list <$> raw) with [] => None | l => Some l end.
Definition validate_statuses (statuses : option (list string)) : res unit :=
  match statuses with
  | None => Ok tt
  | Some l =>
      match List.filter (fun s => negb (str_in s VALID_STATUSES)) l with
      | [] => Ok tt
      | invalid => Raise (ApiError "VALIDATION_ERROR" 422 None
          [("invalid_statuses", JArr (JStr <$> invalid)); ("valid_statuses", JArr (JStr <$> sorted_strings VALID_STATUSES))])
      end
  end.

(** [validate_cursor] and the [UUID(cursor)] of the repository *)
Definition validate_cursor (cursor : option string) : res (option uuid) :=
  match cursor with
  | None => Ok None
  | Some c =>
      match parse_uuid c with
      | Some i => Ok (Some i)
      | None => Raise (ApiError "VALIDATION_ERROR" 400 None [("cursor", JStr "must be a valid UUID")])
      end
  end.

(** The query of [list_intents]. *)
Record ListQuery : Type := mkListQuery {
  lq_status : list string;
  lq_trading_date : option date;
  lq_cursor : option string;
  lq_page_size : Z;
}.

Section Endpoints.
  Context {Q : Type} `{QuoteProvider Q} `{Crypto} `{!Mailer (system Q)} `{!BotTransport (system Q)} `{Pydantic}.
  (** [wired]: whether a database, and so the kill switch, is configured. *)
  Context (settings : Config.Settings) (wired : bool) (hash_payload : jvalue -> string) (decide : TelegramIntentDecider).
  Abbreviation P := (system Q).
  Abbreviation L := (prog (world P) raised).

(** ** What the endpoints share *)

Definition tokens := Config.token_settings settings.
Definition kill_switch : option (M P bool) := if wired then Some is_halted else None.
Definition limits : IntentLimits :=
  {| per_user := Config.intent_limit_per_user settings; per_symbol := Config.intent_limit_per_symbol settings |}.

(** [get_db]: the session of a request, closed at its end. *)
Definition in_session {A} (c : L A) : L A := fun w =>
  let '(r, w') := c (with_pending (durable w) w) in (r, with_pending (durable w') w').

Definition validation {A} (v : validated A) : L A := fun w =>
  match v with Ok a => (Ok a, w) | Raise errors => (Raise (RequestValidationError errors), w) end.

(** A body that is no JSON is refused before the dependencies run. *)
Definition with_body {A} (rq : Request) (k : jvalue -> L A) : L A :=
  match hq_body rq with Some body => k body | None => raise (RequestValidationError (Some (report JNull))) end.

Definition json_response (status_code : Z) (body : jvalue) : Response := mkResponse status_code [] [] (Some body).
Definition no_content : Response := mkResponse 204 [] [] None.
Definition now_utc : L datetime := calling clock.

(** [ActiveUserDep] and [AdminUserDep]; [AdminRoleDep] leaves the second factor out. *)
Definition active_user (rq : Request) : L RequestUser := calling (authorize tokens (hq_authorization rq)).
Definition admin_user (rq : Request) : L RequestUser := calling (authorize_admin tokens (hq_authorization rq)).
Definition admin_role (rq : Request) : L RequestUser :=
  calling (do user <- authorize tokens (hq_authorization rq); require_role "admin" user).

(** [enforce_mutation_rate_limit] *)
Definition mutation_bucket (user_id : uuid) : string := ("mutation:" ++ str_uuid user_id)%string.
Definition enforce_mutation_rate_limit (user : RequestUser) : M P unit :=
  do now <- clock;
  do decision <- consume (mutation_bucket (ru_user_id user)) (Config.mutation_rate_limit_capacity settings)
                   (Config.mutation_rate_limit_refill_per_second settings) 1 now;
  do_ commit;
  if allowed decision then ret tt else raise (RateLimitedError (retry_after_seconds decision)).

(** [get_idempotency_key] *)
Definition get_idempotency_key (header : option string) : res string :=
  let key := unchars (strip (chars (default "" header))) in
  if String.eqb key "" then Raise (ApiError "IDEMPOTENCY_KEY_REQUIRED" 400 None []) else Ok key.

(** The dependencies of a mutating endpoint: the user, the shared rate limit,
    the key. *)
Definition mutating (rq : Request) : L (RequestUser * string) :=
  do user <- active_user rq;
  do_ calling (enforce_mutation_rate_limit user);
  do key <- calling (lift (get_idempotency_key (hq_idempotency_key rq)));
  ret (user, key).

(** ** [routes/intents.py] *)

(** [request.model_dump(mode="json")] *)
Definition request_payload (r : IntentRequest) : jvalue :=
  let optional name (o : option string) := match o with Some s => [(name, JStr s)] | None => [] end in
  document ([("symbol", JStr (ir_symbol r)); ("quantity_lots", JInt (ir_quantity_lots r)); ("strategy", JStr (ir_strategy r))] ++
    optional "target_price" (ir_target_price r) ++ optional "transaction_mode" (ir_transaction_mode r) ++
    optional "notification_mode" (ir_notification_mode r) ++ optional "trail_mode" (ir_trail_mode r) ++
    optional "trail_value" (dump_decimal <$> ir_trail_value r)).
Definition twap_payload (r : TwapPlanRequest) : jvalue :=
  document [("symbol", JStr (tr_symbol r)); ("position_side", JStr (tr_position_side r));
    ("quantity_lots", JInt (tr_quantity_lots r)); ("interval_seconds", JInt (tr_interval_seconds r));
    ("start_time", nullable (fun t => JStr (dump_time t)) (tr_start_time r)); ("end_time", JStr (dump_time (tr_end_time r)))].

(** [_run_create_intent], and the same lines of [create_intent] *)
Definition create_and_dump (inp : CreateTradeIntentInput) : M P jvalue :=
  do intent <- create_command kill_switch (Some limits) inp;
  do r <- lift (map_to_response_data intent);
  ret (intent_create_response r).
Definition run_create_intent (user_id : uuid) (key endpoint : string) (inp : CreateTradeIntentInput) (payload : jvalue)
  : M P jvalue :=
  do now <- clock;
  Idempotency.run hash_payload user_id key endpoint payload now (create_and_dump inp).

Definition create_intent (k : create_kind) (rq : Request) : L Response :=
  with_body rq (fun body => in_session
    (do gates <- mutating rq;
     do r <- validation (parse_request (models_of k) body);
     do snapshot <- calling (run_create_intent (ru_user_id (fst gates)) (snd gates) (endpoint_name k)
                      (create_input k (ru_user_id (fst gates)) r) (request_payload r));
     ret (json_response 201 snapshot))).

(** [list_intents] *)
Definition list_intents (q : ListQuery) (rq : Request) : L Response :=
  in_session
    (do user <- active_user rq;
     do_ validation (if (1 <=? lq_page_size q) && (lq_page_size q <=? 100) then Ok tt else Raise (Some (report (JInt (lq_page_size q)))));
     let statuses := parse_status_list (lq_status q) in
     do_ calling (lift (validate_statuses statuses));
     do cursor <- calling (lift (validate_cursor (lq_cursor q)));
     do out <- calling (Lifecycle.run core_store);
     do page <- calling (IntentRepo.list_by_owner (ru_user_id user) statuses (lq_trading_date q) cursor (Z.to_nat (lq_page_size q)));
     do rows <- calling (lift (map_result map_to_response_data (fst page)));
     ret (json_response 200 (intent_list_response rows (str_uuid <$> snd page) (Z.to_nat (lq_page_size q))))).

(** [preview_twap] and [confirm_twap] *)
Definition plan_input (owner : uuid) (r : TwapPlanRequest) : TwapPlanInput :=
  mkPlanInput (tr_symbol r) (tr_position_side r) (tr_quantity_lots r) (tr_interval_seconds r) (tr_start_time r) (tr_end_time r) owner.
Definition preview_twap (rq : Request) : L Response :=
  with_body rq (fun body => in_session
    (do user <- active_user rq;
     do r <- validation (parse_twap_request body);
     do plan <- calling (preview (plan_input (ru_user_id user) r));
     ret (json_response 200 (map_twap_plan (tr_symbol r) plan)))).
Definition confirm_and_dump (owner : uuid) (r : TwapPlanRequest) : M P jvalue :=
  do intent <- confirm (Some limits) (plan_input owner r);
  do slices <- LegacyRepo.list_twap_slices (i_id intent) owner;
  lift (map_to_detail_response_data intent (Some slices)).
Definition confirm_twap (rq : Request) : L Response :=
  with_body rq (fun body => in_session
    (do gates <- mutating rq;
     do r <- validation (parse_twap_request body);
     do now <- now_utc;
     do snapshot <- calling (Idempotency.run hash_payload (ru_user_id (fst gates)) (snd gates) "confirm_twap" (twap_payload r) now
                      (confirm_and_dump (ru_user_id (fst gates)) r));
     ret (json_response 201 snapshot))).

(** [get_intent] and [cancel_intent] *)
Definition get_intent (intent_id : uuid) (rq : Request) : L Response :=
  in_session
    (do user <- active_user rq;
     do out <- calling (Lifecycle.run core_store);
     do intent <- calling (IntentRepo.find_by_id intent_id (ru_user_id user));
     do body <- calling (lift (map_to_detail_response_data intent None));
     ret (json_response 200 body)).
Definition cancel_and_dump (intent_id owner : uuid) : M P jvalue :=
  do out <- Lifecycle.run core_store;
  do intent <- cancel_command intent_id owner;
  lift (map_to_detail_response_data intent None).
Definition cancel_intent (intent_id : uuid) (rq : Request) : L Response :=
  in_session
    (do gates <- mutating rq;
     do now <- now_utc;
     do snapshot <- calling (Idempotency.run hash_payload (ru_user_id (fst gates)) (snd gates) "cancel_intent"
                      (document [("intent_id", JStr (str_uuid intent_id))]) now
                      (cancel_and_dump intent_id (ru_user_id (fst gates))));
     ret (json_response 200 snapshot)).

(** ** [routes/notifications.py], [routes/symbols.py], [routes/quotes.py], [routes/health.py] *)

Definition list_notifications (unread_only : bool) (cursor : option string) (page_size : Z) (rq : Request) : L Response :=
  in_session
    (do user <- active_user rq;
     do_ validation (if (1 <=? page_size) && (page_size <=? 100) then Ok tt else Raise (Some (report (JInt page_size))));
     do cursor <- calling (lift (validate_cursor cursor));
     do page <- calling (Notifications.list_by_owner (ru_user_id user) unread_only cursor (Z.to_nat page_size));
     ret (json_response 200 (notification_list_response (fst page) (str_uuid <$> snd page) (Z.to_nat page_size)))).
Definition mark_notification_read (notification_id : uuid) (rq : Request) : L Response :=
  in_session
    (do user <- active_user rq;
     do n <- calling (Notifications.mark_read_command notification_id (ru_user_id user));
     do body <- calling (lift (notification_read_response n));
     ret (json_response 200 body)).

Definition list_symbols (q : option string) (limit : Z) (rq : Request) : L Response :=
  in_session
    (do_ validation (if (1 <=? limit) && (limit <=? 50) then Ok tt else Raise (Some (report (JInt limit))));
     do rows <- calling (search q limit);
     ret (json_response 200 (document [("data", JArr ((fun x => symbol_document (fst x) (snd x)) <$> rows))]))).
Definition get_symbol (symbol : string) (rq : Request) : L Response :=
  in_session
    (do r <- calling (CreateIntent.get_by_symbol symbol);
     ret (json_response 200 (data_document (symbol_document symbol r)))).

(** [get_current_price_symbol] and [get_current_price_provider] *)
Definition get_current_price_symbol (symbol : string) : res unit :=
  if str_in symbol CURRENT_PRICE_ALLOWED_SYMBOLS then Ok tt
  else Raise (ApiError "CURRENT_PRICE_SYMBOL_NOT_ALLOWED" 422 None
         [("symbol", JStr symbol); ("allowed", JArr (JStr <$> sorted_strings CURRENT_PRICE_ALLOWED_SYMBOLS))]).
Definition get_current_price_provider : res (P -> string -> res QuoteSnapshot) :=
  let refuse message name value :=
    Raise (ApiError "QUOTE_PROVIDER_UNAVAILABLE" 503 (Some message)
             [(name, JStr value); ("currentProvider", JStr (Config.quote_provider settings))]) in
  if negb (String.eqb (Config.quote_provider settings) Config.REQUIRED_CURRENT_PRICE_PROVIDER) then
    refuse "此測試 API 依賴 broker demo quote provider，無法在其他 provider 下使用" "requiredProvider" Config.REQUIRED_CURRENT_PRICE_PROVIDER
  else
    match get_current_price with
    | Some f => Ok f
    | None => refuse "目前 quote provider 不支援測試查價能力" "requiredCapability" "current_price"
    end.
Definition current_price (symbol : string) (rq : Request) : L Response :=
  do_ calling (lift (get_current_price_symbol symbol));
  do f <- calling (lift get_current_price_provider);
  do p <- gets provider;
  do quote <- calling (lift (f p symbol));
  ret (json_response 200 (map_current_price quote)).

(** [health]; [connected] is what the connectivity check finds. *)
Definition health (connected : bool) (rq : Request) : L Response :=
  if negb connected then raise (Raised (ApiError "DATABASE_UNAVAILABLE" 503 None []))
  else ret (json_response 200 (data_document (document
    [("service", JStr (Config.app_name settings)); ("version", JStr (Config.app_version settings));
     ("environment", JStr (Config.app_env settings)); ("database", JStr "ok")]))).

(** ** [routes/auth.py] *)

(** [_client_ip]; the settings were checked when the service started. *)
Definition caller_ip (rq : Request) : L (option string) :=
  calling (lift (match trusted_proxy_networks (Config.trusted_proxy_ips settings) with
                 | Some nets => Ok (client_ip nets (hq_peer rq) (hq_forwarded rq))
                 | None => Raise (ValueError "invalid network")
                 end)).
Definition enforce_origin (rq : Request) : L unit :=
  calling (lift (enforce_csrf_origin (Config.cors_allow_origins_list settings) (hq_origin rq) (hq_referer rq))).

(** [int((t - now).total_seconds())] *)
Definition seconds_until (t now : datetime) : Z := (dt_us t - dt_us now) ÷ SECOND.

(** [_set_session_cookies] and [_clear_session_cookies] *)
Definition session_cookies (issued : IssuedSession) (now : datetime) : list Cookie :=
  let max_age := seconds_until (is_refresh_expires_at issued) now in
  let secure := Config.cookie_secure settings in
  [mkCookie "refresh_token" (is_refresh_token issued) max_age true secure "lax" "/auth";
   mkCookie "csrf_token" (is_csrf_token issued) max_age false secure "lax" "/"].
Definition cleared_cookies : list Cookie :=
  [mkCookie "refresh_token" "" 0 false false "lax" "/auth"; mkCookie "csrf_token" "" 0 false false "lax" "/"].

(** [_session_response], with the cookies *)
Definition session_response (issued : IssuedSession) (now : datetime) : Response :=
  mkResponse 200 [] (session_cookies issued now) (Some (document
    [("access_token", JStr (is_access_token issued)); ("token_type", JStr "Bearer");
     ("expires_in", JInt (seconds_until (is_access_expires_at issued) now)); ("role", JStr (is_role issued))])).

Definition login_endpoint (rq : Request) : L Response :=
  with_body rq (fun body => in_session
    (do b <- validation (parse_login body);
     do now <- now_utc;
     do ip <- caller_ip rq;
     do issued <- calling (login tokens (mkLoginInput (fst b) (snd b) now ip));
     ret (session_response issued now))).

Definition accept_invitation_endpoint (rq : Request) : L Response :=
  with_body rq (fun body => in_session
    (do b <- validation (parse_accept_invitation body);
     do now <- now_utc;
     do ip <- caller_ip rq;
     do issued <- calling (accept_invitation tokens (mkAccept (fst b) (snd b) now));
     ret (session_response issued now))).

Definition refresh_input (rq : Request) (now : datetime) : RefreshInput :=
  mkRefreshInput (hq_refresh_cookie rq) (hq_csrf_cookie rq) (hq_csrf_header rq) now.
Definition refresh_endpoint (rq : Request) : L Response :=
  in_session
    (do_ enforce_origin rq;
     do now <- now_utc;
     do ip <- caller_ip rq;
     do issued <- calling (refresh tokens (refresh_input rq now));
     ret (session_response issued now)).

Definition logout_endpoint (rq : Request) : L Response :=
  in_session
    (do_ enforce_origin rq;
     do now <- now_utc;
     do_ calling (logout (refresh_input rq now));
     ret (mkResponse 204 [] cleared_cookies None)).

Definition password_reset_request (rq : Request) : L Response :=
  with_body rq (fun body => in_session
    (do email <- validation (parse_reset_request body);
     do now <- now_utc;
     do ip <- caller_ip rq;
     do_ calling (request_password_reset (Config.app_base_url settings) (mkResetRequest email now ip));
     ret (mkResponse 202 [] [] (Some JNull)))).

Definition password_reset_confirm (rq : Request) : L Response :=
  with_body rq (fun body => in_session
    (do b <- validation (parse_reset_confirm body);
     do now <- now_utc;
     do_ calling (confirm_password_reset (mkResetConfirm (fst b) (snd b) now));
     ret no_content)).

Definition user_document (u : UserData) : list (string * jvalue) :=
  [("id", uuid_json (us_id u)); ("email", JStr (us_email u)); ("role", JStr (us_role u)); ("status", JStr (us_status u));
   ("mfa_enabled", bool_json (us_mfa_enabled u))].
Definition me (rq : Request) : L Response :=
  in_session
    (do user <- active_user rq;
     do profile <- calling (get_user (ru_user_id user));
     match profile with
     | None => raise (Raised (ApiError "UNAUTHENTICATED" 401 None []))
     | Some u => ret (json_response 200 (document (user_document u)))
     end).

(** ** [routes/admin.py] *)

Definition created_response (status : string) (i : uuid) : Response :=
  json_response 201 (document [("id", uuid_json i); ("status", JStr status)]).

Definition create_user_endpoint (rq : Request) : L Response :=
  with_body rq (fun body => in_session
    (do admin <- admin_user rq;
     do b <- validation (parse_create_user body);
     do now <- now_utc;
     do i <- calling (create_user (Config.app_base_url settings) (mkCreateUser (fst b) (snd b) (ru_user_id admin) now));
     ret (created_response "invited" i))).
Definition provision_user_endpoint (rq : Request) : L Response :=
  with_body rq (fun body => in_session
    (do admin <- admin_user rq;
     do b <- validation (parse_provision_user body);
     do now <- now_utc;
     let '(email, password, role) := b in
     do i <- calling (provision_user (mkProvision email password role (ru_user_id admin) now));
     ret (created_response "active" i))).
(** [list_all]: newest first; the database orders accounts of one instant as it
    likes, the model by id. *)
Definition newer_user (a b : uuid * UserRow) : bool :=
  (dt_us (u_created_at (snd b)) <? dt_us (u_created_at (snd a))) ||
  ((dt_us (u_created_at (snd a)) =? dt_us (u_created_at (snd b))) && (fst a <? fst b)).
Definition list_all_users : M P (list (uuid * UserRow)) :=
  query (fun d => order_by newer_user (select_where (fun _ _ => true) (users d))).
Definition list_users (rq : Request) : L Response :=
  in_session
    (do admin <- admin_user rq;
     do rows <- calling list_all_users;
     ret (json_response 200 (document [("data", JArr ((fun x => let u := to_user (fst x) (snd x) in
       document (user_document u ++ [("created_at", dt_json (u_created_at (snd x)))])) <$> rows))]))).

(** The three endpoints that act on an account. *)
Definition on_account (command : AdminInput -> M P unit) (user_id : uuid) (rq : Request) : L Response :=
  in_session
    (do admin <- admin_user rq;
     do now <- now_utc;
     do_ calling (command (mkAdmin user_id (ru_user_id admin) now));
     ret no_content).
Definition disable_user_endpoint : uuid -> Request -> L Response := on_account disable_user.
Definition reactivate_user_endpoint : uuid -> Request -> L Response := on_account reactivate_user.
Definition resend_invitation_endpoint : uuid -> Request -> L Response :=
  on_account (resend_invitation (Config.app_base_url settings) str_uuid).

Definition setup_two_factor_endpoint (rq : Request) : L Response :=
  in_session
    (do admin <- admin_role rq;
     do now <- now_utc;
     do r <- calling (setup_two_factor tokens (ru_user_id admin) now);
     ret (json_response 200 (document [("provisioning_uri", JStr (st_provisioning_uri r)); ("secret", JStr (st_secret r))]))).
Definition verify_two_factor_endpoint (rq : Request) : L Response :=
  with_body rq (fun body => in_session
    (do admin <- admin_role rq;
     do code <- validation (parse_two_factor_verify body);
     do now <- now_utc;
     do r <- calling (verify_two_factor tokens str_uuid (mkVerify (ru_user_id admin) (ru_session_id admin) code now));
     ret (json_response 200 (document [("access_token", JStr (vr_access_token r)); ("token_type", JStr "Bearer");
       ("expires_in", JInt (vr_expires_in r)); ("role", JStr (vr_role r))])))).

(** [_kill_switch_state] *)
Definition kill_switch_state : L Response :=
  do state <- calling (query (get_state GLOBAL_TRIGGER_HALT));
  let '(enabled, reason, updated_at, updated_by) := state in
  ret (json_response 200 (document [("enabled", bool_json enabled); ("reason", nullable JStr reason);
    ("updated_at", nullable dt_json updated_at); ("updated_by", nullable uuid_json updated_by)])).
Definition set_kill_switch_endpoint (rq : Request) : L Response :=
  with_body rq (fun body => in_session
    (do admin <- admin_user rq;
     do b <- validation (parse_kill_switch body);
     do now <- now_utc;
     do_ calling (set_kill_switch wired (mkSetKillSwitch (fst b) (snd b) (ru_user_id admin) now));
     kill_switch_state)).
Definition get_kill_switch_endpoint (rq : Request) : L Response :=
  in_session (do admin <- admin_user rq; kill_switch_state).

End Endpoints.
