(* ===== verification/Routes.v ===== *)
(** * The routes of the service

    [src/app/main.py] mounts the routers: every call a client can make, the
    endpoint that answers it, and the layers around it.  Also the endpoint of
    the Telegram webhook and those of [routes/dev.py], which are mounted in the
    local mode only. *)

From S2P Require Import Prelude Decimal Datetime Json Errors Price TradingSession Intent Evaluation Tables Store CoreSchema Lifecycle.
From S2P Require Import IntentRepo Quotes CreateIntent Dispatcher KillSwitch Tokens Account Telegram TelegramRoute LegacyTrigger LegacyCommands TwapWorker.
From S2P Require Import Responses ClientIp Schemas Endpoints.
From S2P Require LegacyRepo Config.

#[local] Open Scope string_scope.
#[local] Open Scope list_scope.
#[local] Open Scope Z_scope.

(** ** The update of the webhook *)

Section Updates.
  Context `{Pydantic}.

(** A member that may be missing or null. *)
Definition optional {A} (members : gmap string jvalue) (name : string) (f : jvalue -> option A) : option (option A) :=
  match members !! name with
  | None | Some (JScalar SNull) => Some None
  | Some v => Some <$> f v
  end.
Definition as_text (v : jvalue) : option string := match v with JScalar (SStr s) => Some s | _ => None end.

(** [int | str]: text stays text, all else must be an integer. *)
Definition parse_chat_id (v : jvalue) : option ChatIdent :=
  match v with JScalar (SStr s) => Some (ChatStr s) | _ => ChatInt <$> to_int v end.

Definition parse_user (v : jvalue) : option TelegramUser :=
  match v with
  | JObj m =>
      match optional m "id" parse_chat_id, (match m !! "is_bot" with Some b => to_bool b | None => Some false end) with
      | Some _, Some is_bot => Some (mkTelegramUser is_bot)
      | _, _ => None
      end
  | _ => None
  end.
(** The member [from], or by the name of the field. *)
Definition parse_from (m : gmap string jvalue) : option (option TelegramUser) :=
  optional m (if is_some (m !! "from") then "from" else "from_user") parse_user.

Definition parse_chat (v : jvalue) : option ChatIdent :=
  match v with JObj m => m !! "id" ≫= parse_chat_id | _ => None end.
Definition parse_message (v : jvalue) : option TelegramMessage :=
  match v with
  | JObj m =>
      match m !! "message_id" ≫= to_int, m !! "chat" ≫= parse_chat, optional m "text" as_text, parse_from m with
      | Some i, Some chat, Some content, Some from => Some (mkTelegramMessage i chat content from)
      | _, _, _, _ => None
      end
  | _ => None
  end.
Definition parse_callback_query (v : jvalue) : option TelegramCallbackQuery :=
  match v with
  | JObj m =>
      match optional m "id" as_text, optional m "data" as_text, optional m "message" parse_message, parse_from m with
      | Some i, Some data, Some message, Some from => Some (mkCallbackQuery i data message from)
      | _, _, _, _ => None
      end
  | _ => None
  end.
Definition parse_update (body : jvalue) : validated TelegramUpdate :=
  field body
    (match body with
     | JObj m =>
         match optional m "message" parse_message, optional m "callback_query" parse_callback_query with
         | Some message, Some callback => Some (mkUpdate message callback)
         | _, _ => None
         end
     | _ => None
     end).

(** [_reply_payload], and the answer to an update that is not handled *)
Definition markup_document (rows : inline_keyboard) : jvalue :=
  document [("inline_keyboard", JArr ((fun row => JArr ((fun b => document [("text", JStr (fst b)); ("callback_data", JStr (snd b))]) <$> row)) <$> rows))].
Definition reply_payload (r : WebhookResponse) : jvalue :=
  document
    match r with
    | None => [("ok", bool_json true); ("handled", bool_json false)]
    | Some x =>
        [("ok", bool_json true); ("handled", bool_json true);
         ("reply", document [("chatId", JStr (reply_chat_id x)); ("text", JStr (reply_text x));
           ("replyMarkup", nullable markup_document (reply_markup x)); ("interactionId", nullable uuid_json (reply_interaction_id x))])]
    end.

End Updates.

Section Routes.
  Context {Q : Type} `{QuoteProvider Q} `{Crypto} `{!Mailer (system Q)} `{!BotTransport (system Q)} `{Pydantic}.
  Context (settings : Config.Settings) (wired : bool) (hash_payload : jvalue -> string) (decide : TelegramIntentDecider).
  Abbreviation P := (system Q).
  Abbreviation L := (prog (world P) raised).

(** [telegram_webhook] *)
Definition telegram_webhook_endpoint (rq : Request) : L Response :=
  with_body rq (fun body => in_session
    (do update <- validation (parse_update body);
     do r <- calling (telegram_webhook (Config.telegram_settings settings) decide
                        (create_command (kill_switch wired) (Some (limits settings))) (hq_telegram_secret rq) update);
     ret (json_response 200 (reply_payload r)))).

(** ** [routes/dev.py] *)

(** [sorted(set(...))] *)
Definition sorted_set (l : list string) : list string := sorted_strings (remove_dups l).

(** The quotes by symbol; a symbol without one is left out. *)
Fixpoint quotes_of (symbols : list string) (found : gmap string QuoteSnapshot) : M P (gmap string QuoteSnapshot) :=
  match symbols with
  | [] => ret found
  | s :: rest =>
      do found <- or_unavailable
        (do p <- gets provider;
         do quotes <- lift (get_quotes p [s]);
         ret (foldl (fun m q => <[q_symbol q := q]> m) found quotes))
        (ret found);
      quotes_of rest found
  end.

(** One iteration of the loop over the intents: whether it wrote something, and
    whether it fired. *)
Definition evaluate_intent (quotes : gmap string QuoteSnapshot) (now : datetime) (i : TradeIntentData) : M P (bool * bool) :=
  match quotes !! i_symbol i with
  | None => ret (false, false)
  | Some quote =>
      do r <- lift (evaluate quote i now);
      do_ match e_baseline_updated_at r with
          | Some t => LegacyRepo.system_update_trailing_baseline (i_id i) (e_baseline r) (e_dynamic_trigger_price r) (Some t)
          | None => ret tt
          end;
      let wrote := is_some (e_baseline_updated_at r) in
      if negb (should_trigger r) then ret (wrote, false)
      else
        match trigger_input quote r with
        | None => raise (RuntimeError "Evaluator returned should_trigger=True but trigger fields are None")
        | Some inp =>
            try_except (do out <- begin_nested (stage (i_id i) inp); ret (true, true))
              (fun e => if is_trigger_race e then ret (wrote, false) else raise e)
        end
  end.
Fixpoint evaluate_loop (quotes : gmap string QuoteSnapshot) (now : datetime) (intents : list TradeIntentData)
    (has_pending_writes : bool) : M P (bool * list uuid) :=
  match intents with
  | [] => ret (has_pending_writes, [])
  | i :: rest =>
      do done <- evaluate_intent quotes now i;
      do later <- evaluate_loop quotes now rest (has_pending_writes || fst done);
      ret (fst later, if snd done : bool then i_id i :: snd later else snd later)
  end.

(** [evaluate_quotes] *)
Definition evaluate_quotes_command (requested : option (list string)) : M P (list string * list uuid) :=
  do_ Lifecycle.run core_store;
  do symbols <-
    match requested with
    | Some (s :: l) => ret (sorted_set (s :: l))
    | _ => do active <- LegacyRepo.system_list_active_symbols; ret (sorted_strings active)
    end;
  do quotes <- quotes_of symbols ∅;
  do intents <- LegacyRepo.system_list_active_by_symbols symbols;
  do host_now <- clock;
  do out <- evaluate_loop quotes (now_taipei host_now) intents false;
  do_ when (fst out) commit;
  ret (symbols, snd out).
Definition evaluate_quotes (rq : Request) : L Response :=
  with_body rq (fun body => in_session
    (do requested <- validation (parse_evaluate_quotes body);
     do out <- calling (evaluate_quotes_command requested);
     ret (json_response 200 (data_document (document
       [("evaluated_symbols", JArr (JStr <$> fst out)); ("triggered_intent_ids", JArr (uuid_json <$> snd out))]))))).

(** [process_twap_due_slices] and [process_twap_price_followups] *)
Definition twap_worker_endpoint (phase : M P Z) (rq : Request) : L Response :=
  in_session
    (do n <- calling phase;
     ret (json_response 200 (data_document (document [("processed_count", JInt n)])))).
Definition process_twap_due_slices : Request -> L Response := twap_worker_endpoint (process_due_slices (kill_switch wired) 100).
Definition process_twap_price_followups : Request -> L Response :=
  twap_worker_endpoint (process_price_followups (kill_switch wired) 100).

(** ** The calls *)

Inductive call : Type :=
| Health (connected : bool)
| Login | AcceptInvitation | Refresh | Logout | PasswordResetRequest | PasswordResetConfirm | Me
| CreateUser | ProvisionUser | ListUsers | DisableUser (i : uuid) | ReactivateUser (i : uuid) | ResendInvitation (i : uuid)
| SetupTwoFactor | VerifyTwoFactor | GetKillSwitch | SetKillSwitch
| ListSymbols (q : option string) (limit : Z) | GetSymbol (symbol : string) | CurrentPrice (symbol : string)
| CreateIntent (k : create_kind) | ListIntents (q : ListQuery) | PreviewTwap | ConfirmTwap | GetIntent (i : uuid) | CancelIntent (i : uuid)
| ListNotifications (unread_only : bool) (cursor : option string) (page_size : Z) | MarkNotificationRead (i : uuid)
| TelegramWebhook
| EvaluateQuotes | ProcessTwapDueSlices | ProcessTwapPriceFollowups.

(** A path no router serves. *)
Definition not_mounted : L Response := raise (HTTPException 404).

Definition serve (c : call) (rq : Request) : L Response :=
  let dev (endpoint : L Response) := if Config.local_mode settings then endpoint else not_mounted in
  match c with
  | Health connected => health settings connected rq
  | Login => login_endpoint settings rq
  | AcceptInvitation => accept_invitation_endpoint settings rq
  | Refresh => refresh_endpoint settings rq
  | Logout => logout_endpoint settings rq
  | PasswordResetRequest => password_reset_request settings rq
  | PasswordResetConfirm => password_reset_confirm rq
  | Me => me settings rq
  | CreateUser => create_user_endpoint settings rq
  | ProvisionUser => provision_user_endpoint settings rq
  | ListUsers => list_users settings rq
  | DisableUser i => disable_user_endpoint settings i rq
  | ReactivateUser i => reactivate_user_endpoint settings i rq
  | ResendInvitation i => resend_invitation_endpoint settings i rq
  | SetupTwoFactor => setup_two_factor_endpoint settings rq
  | VerifyTwoFactor => verify_two_factor_endpoint settings rq
  | GetKillSwitch => get_kill_switch_endpoint settings rq
  | SetKillSwitch => set_kill_switch_endpoint settings wired rq
  | ListSymbols q limit => list_symbols q limit rq
  | GetSymbol symbol => get_symbol symbol rq
  | CurrentPrice symbol => current_price settings symbol rq
  | CreateIntent k => create_intent settings wired hash_payload k rq
  | ListIntents q => list_intents settings q rq
  | PreviewTwap => preview_twap settings rq
  | ConfirmTwap => confirm_twap settings hash_payload rq
  | GetIntent i => get_intent settings i rq
  | CancelIntent i => cancel_intent settings hash_payload i rq
  | ListNotifications u cursor n => list_notifications settings u cursor n rq
  | MarkNotificationRead i => mark_notification_read settings i rq
  | TelegramWebhook => telegram_webhook_endpoint rq
  | EvaluateQuotes => dev (evaluate_quotes rq)
  | ProcessTwapDueSlices => dev (process_twap_due_slices rq)
  | ProcessTwapPriceFollowups => dev (process_twap_price_followups rq)
  end.

(** [create_app]: a call through the layers. *)
Definition service (incoming : option string) (fresh : string) (c : call) (rq : Request) : world P -> Response * world P :=
  application (Config.request_id_header settings) (negb (Config.local_mode settings)) incoming fresh (fun _ => serve c rq).

End Routes.
