(* ===== verification/RequestSpec.v ===== *)
(** * The bodies of create requests

    A service to try theorems on, and the facts about the bodies of requests
    that create intents. *)

From S2P Require Import Prelude Decimal Datetime Json Errors Price Intent Tables Store CoreSchema IntentRepo Samples Quotes CreateIntent KillSwitch AuthRepos TelegramRoute Tokens AuthSamples Auth.
From S2P Require Import Account Responses Schemas Endpoints.
From S2P Require Idempotency Config.

#[local] Open Scope string_scope.
#[local] Open Scope list_scope.
#[local] Open Scope Z_scope.

(** ** A service to try the theorems on

    The in-memory provider, no mails, a Bot API that refuses everything, and the
    conversions of pydantic for the values the samples use. *)

#[export] Instance toy_pydantic : Pydantic := {
  to_int v := match v with JScalar (SInt n) => Some n | _ => None end;
  to_bool v := match v with JScalar (SBool b) => Some b | _ => None end;
  to_decimal v :=
    match v with
    | JScalar (SInt n) => Some (of_int n)
    | JScalar (SStr s) => match decimal_of_chars (chars s) with Some (Finite d) => Some d | _ => None end
    | _ => None
    end;
  to_email v := match v with JScalar (SStr s) => Some s | _ => None end;
  report v := JArr [v];
  writable v := match v with JFloat _ => false | _ => true end;
  dump_datetime := dt_isoformat;
  dump_date := str_int;
  dump_time := time_isoformat;
  dump_decimal d := unchars (str_dec d);
}.

#[export] Instance silent_mailer {Q} : Mailer (system Q) := { mail_send := fun _ => ret tt }.
#[export] Instance deaf_bot {Q} : BotTransport (system Q) := fun p _ => (BotFailure, p).

(** A started service: user 7, signed in at 9:00 of the sample day, and a market that
    knows an ask of 600. *)
Definition api_settings : Config.Settings := Config.default_settings.
Definition signed_in (user session : uuid) (role : string) (mfa : bool) : string :=
  ("Bearer " ++ encode_access_token (resolved_jwt_access_secret (tokens api_settings)) user role session 900 sample_time mfa)%string.
Definition api_db : db :=
  set_refresh_tokens
    {[50 := mkRefreshToken 7 "sha256:a" None sample_time (dt_add sample_time DAY) None None false;
      51 := mkRefreshToken 9 "sha256:b" None sample_time (dt_add sample_time DAY) None None true]} auth_db.
Definition api_system (ask : dec) : system InMemoryQuoteProvider := mkSystem (market ask) (new_kill_switch 5) 0.
Definition api_world (ask : dec) : world (system InMemoryQuoteProvider) :=
  mkWorld api_db api_db (api_system ask) 100 [] sample_time sample_time.

(** A request of user 7 with a key and a body. *)
Definition request_of (token : string) (key : option string) (body : option jvalue) : Request :=
  mkHttpRequest (Some token) key None None None None None None None None body.

(** ** The bodies of create requests

    What an accepted one looks like, and that the endpoint of one kind of intent
    and the endpoint of them all take the same requests. *)

(** A check of every model. *)
Lemma every_model (p : RequestModel -> bool) m : m ∈ IntentCreateRequest -> forallb p IntentCreateRequest = true -> p m = true.
Proof. intros Hm Hp. rewrite forallb_forall in Hp. by apply Hp, list_elem_of_In. Qed.

Section RequestFacts.
  Context `{Pydantic}.

(** The values of a request of the model [m]. *)
Definition shaped (m : RequestModel) (r : IntentRequest) : Prop :=
  1 <= ir_quantity_lots r /\ str_in (ir_strategy r) (rm_strategies m) = true /\
  is_some (ir_target_price r) = str_in "targetPrice" (rm_members m) /\
  is_some (ir_transaction_mode r) = str_in "transactionMode" (rm_members m) /\
  is_some (ir_trail_value r) = str_in "trailValue" (rm_members m) /\
  is_some (ir_notification_mode r) = is_some (ir_transaction_mode r) /\
  is_some (ir_trail_mode r) = is_some (ir_trail_value r) /\
  (forall mode, ir_trail_mode r = Some mode -> mode = "percentage" \/ mode = "fixed_amount") /\
  (forall v, ir_trail_value r = Some v -> dec_ltb (of_int 0) v = true /\
     (ir_trail_mode r = Some "percentage" -> dec_leb v (of_int 10) = true /\ exists n, dec_eqb v (Dec n (-4)) = true)).

Lemma percentage_checked v : validate_percentage_trail_value "percentage" v = Ok tt ->
  dec_leb v (of_int 10) = true /\ exists n, dec_eqb v (Dec n (-4)) = true.
Proof.
  unfold validate_percentage_trail_value. cbn [String.eqb negb]. change (negb (String.eqb "percentage" "percentage")) with false. cbn iota.
  destruct (dec_ltb (of_int 10) v) eqn:H10; [done|]. destruct (dec_eqb (quantize_4 v) v) eqn:Hq; [|done]. intros _.
  rewrite dec_ltb_leb in H10. apply negb_false_iff in H10. split; [done|].
  assert (Hs : dec_eqb v (quantize_4 v) = true).
  { revert Hq. unfold dec_eqb, common_expo. rewrite Z.min_comm. by rewrite Z.eqb_sym. }
  unfold quantize_4 in Hs. destruct (expo v <? -4); by eexists.
Qed.

Lemma validate_body_cases m members r : m ∈ IntentCreateRequest -> validate_body m members = Ok r ->
  shaped m r /\ forallb (fun x => str_in (fst x) (rm_members m)) (map_to_list members) = true /\
  text members "symbol" = Some (ir_symbol r) /\ text members "strategy" = Some (ir_strategy r) /\
  members !! "quantityLots" ≫= to_int = Some (ir_quantity_lots r).
Proof.
  intros Hm. unfold validate_body.
  destruct (str_in "trailValue" (rm_members m) && nonpositive_trail members) eqn:Hnp; [done|].
  destruct (text members "symbol") as [symbol|]; [|done]. destruct (text members "strategy") as [strategy|]; [|done].
  destruct (members !! "quantityLots" ≫= to_int) as [q|]; [|done].
  destruct (negb _ || negb (str_in strategy _) || (q <? 1)) eqn:Hc; [done|].
  apply orb_false_iff in Hc as [[Hall%negb_false_iff Hst%negb_false_iff]%orb_false_iff Hq1%Z.ltb_ge].
  pose proof (every_model (fun m => Bool.eqb (str_in "trailMode" (rm_members m)) (str_in "trailValue" (rm_members m))) m Hm eq_refl) as Hvalue.
  pose proof (every_model (fun m => negb (str_in "trailMode" (rm_members m) && str_in "transactionMode" (rm_members m))) m Hm eq_refl) as Hn1.
  pose proof (every_model (fun m => negb (str_in "trailMode" (rm_members m) && str_in "targetPrice" (rm_members m))) m Hm eq_refl) as Hn2.
  pose proof (every_model (fun m => str_in "trailMode" (rm_members m) || str_in "transactionMode" (rm_members m) ||
    str_in "targetPrice" (rm_members m)) m Hm eq_refl) as Hn3.
  cbn beta in *. apply Bool.eqb_prop in Hvalue. apply negb_true_iff in Hn1, Hn2. unfold shaped.
  destruct (str_in "trailMode" (rm_members m)); cbn [andb orb] in *.
  - destruct (text members "trailMode") as [mode|]; [|done]. destruct (members !! "trailValue" ≫= to_decimal) as [v|] eqn:Hv0; [|done].
    destruct (negb (str_in mode _)) eqn:Hmode; [done|]. apply negb_false_iff in Hmode.
    assert (Hpos : dec_ltb (of_int 0) v = true) by (rewrite <-Hvalue in Hnp; unfold nonpositive_trail in Hnp; rewrite Hv0 in Hnp; by apply negb_false_iff in Hnp).
    destruct (validate_percentage_trail_value mode v) as [[]|e] eqn:Hv; [|done]. intros [= <-]. cbn. rewrite Hn1, Hn2, <-Hvalue.
    split_and!; try done.
    + intros mode0 [= <-]. unfold str_in in Hmode. cbn in Hmode. rewrite !orb_true_iff, !String.eqb_eq in Hmode. naive_solver.
    + intros v0 [= <-]. split; [done|]. intros [= ->]. by apply percentage_checked.
  - set (target := text members "targetPrice").
    destruct (str_in "targetPrice" (rm_members m) && is_none target) eqn:Ht; [done|].
    assert (Hsome : is_some (if str_in "targetPrice" (rm_members m) then target else None) = str_in "targetPrice" (rm_members m)).
    { destruct (str_in "targetPrice" (rm_members m)); [|done]. by destruct target. }
    destruct (str_in "transactionMode" (rm_members m)).
    + destruct (literal members "transactionMode" _ _) as [tmode|]; [|done].
      destruct (literal members "notificationMode" _ _) as [nmode|]; [|done]. intros [= <-]. cbn [ir_target_price]. cbn. by split_and!.
    + cbn in Hn3. rewrite Hn3 in *. intros [= <-]. cbn. by split_and!.
Qed.

Lemma selected_model models members m : select_model models members = Some m -> m ∈ models.
Proof.
  unfold select_model. destruct models as [|a [|b l]]; [done|intros [= <-]; by left|].
  intros Hf. apply List.find_some in Hf as [Hm _]. by apply list_elem_of_In.
Qed.

Lemma find_model models body r : models ⊆ IntentCreateRequest -> parse_request models body = Ok r ->
  exists m members, m ∈ models /\ body = JObj members /\ validate_body m members = Ok r /\ str_in (ir_strategy r) (rm_strategies m) = true.
Proof.
  intros Hsub. destruct body as [| | |members]; try done. unfold parse_request.
  destruct (select_model models members) as [m|] eqn:Hf; [|done]. apply selected_model in Hf as Hm.
  intros Hr. exists m, members. split_and!; try done. by apply (validate_body_cases m members r (Hsub _ Hm)).
Qed.

(** The trailing values whose errors cannot be written as JSON: one that is not
    positive, and a percentage above ten or with more than four decimals. *)
Definition unwritable_trail (members : gmap string jvalue) : Prop :=
  exists v, members !! "trailValue" ≫= to_decimal = Some v /\
    (dec_leb v (of_int 0) = true \/
     (text members "trailMode" = Some "percentage" /\ (dec_ltb (of_int 10) v = true \/ dec_eqb (quantize_4 v) v = false))).

Lemma nonpositive_unwritable members : nonpositive_trail members = true -> unwritable_trail members.
Proof.
  unfold nonpositive_trail. destruct (members !! "trailValue" ≫= to_decimal) as [v|] eqn:Hv; [|done].
  rewrite dec_ltb_leb, negb_involutive. intros Hle. exists v. split; [done|by left].
Qed.

Lemma unwritable_errors models body : parse_request models body = Raise None ->
  writable body = false \/ exists members, body = JObj members /\ unwritable_trail members.
Proof.
  assert (Hrej : forall A b, @rejected _ A b = Raise None -> writable b = false).
  { intros A b. unfold rejected. by destruct (writable b). }
  destruct body as [| | |members]; try (intros Hp; left; by apply (Hrej IntentRequest)). unfold parse_request.
  destruct (select_model models members) as [m|]; [|intros Hp; left; by apply (Hrej IntentRequest)].
  unfold validate_body. destruct (str_in "trailValue" _ && nonpositive_trail members) eqn:Hnp.
  { apply andb_true_iff in Hnp as [_ Hnp]. intros _. right. exists members. split; [done|by apply nonpositive_unwritable]. }
  destruct (text members "symbol") as [symbol|]; [|intros Hp; left; by apply (Hrej IntentRequest)].
  destruct (text members "strategy") as [strategy|]; [|intros Hp; left; by apply (Hrej IntentRequest)].
  destruct (members !! "quantityLots" ≫= to_int) as [quantity|]; [|intros Hp; left; by apply (Hrej IntentRequest)].
  destruct (_ || _); [intros Hp; left; by apply (Hrej IntentRequest)|].
  destruct (str_in "trailMode" _).
  2: { repeat (case_match; try (intros Hp; left; by apply (Hrej IntentRequest)); try done). }
  destruct (text members "trailMode") as [mode|] eqn:Hmode; [|intros Hp; left; by apply (Hrej IntentRequest)].
  destruct (members !! "trailValue" ≫= to_decimal) as [d|] eqn:Hv; [|intros Hp; left; by apply (Hrej IntentRequest)].
  destruct (negb (str_in mode _)); [intros Hp; left; by apply (Hrej IntentRequest)|].
  unfold validate_percentage_trail_value. intros Hp. right. exists members. split; [done|]. eexists. split; [done|]. right.
  destruct (String.eqb_spec mode "percentage") as [->|]; [|done]. split; [done|]. cbn in Hp.
  destruct (dec_ltb (of_int 10) d) eqn:H10; [by left|]. destruct (dec_eqb (quantize_4 d) d) eqn:Hq; [done|by right].
Qed.

(** A trailing stop whose value is not positive is never answered with its errors. *)
Lemma nonpositive_refused models members m : select_model models members = Some m -> str_in "trailValue" (rm_members m) = true ->
  nonpositive_trail members = true -> parse_request models (JObj members) = Raise None.
Proof. intros Hm Ht Hn. unfold parse_request, validate_body. by rewrite Hm, Ht, Hn. Qed.

End RequestFacts.




(** *** The union endpoint and the typed ones *)

(** Worlds that differ in nothing but the endpoint an idempotency record names. *)
Definition unnamed (r : IdempotencyRow) : IdempotencyRow :=
  mkIdempotency (ik_user_id r) (ik_key r) "" (ik_request_hash r) (ik_response_snapshot r) (ik_created_at r) (ik_expires_at r).
Definition forget_endpoints (d : db) : db := set_idempotency_keys (unnamed <$> idempotency_keys d) d.
Record alike {P} (w w' : world P) : Prop := {
  al_durable : forget_endpoints (durable w) = forget_endpoints (durable w');
  al_pending : forget_endpoints (pending w) = forget_endpoints (pending w');
  al_provider : provider w = provider w';
  al_ids : next_id w = next_id w';
  al_outbox : outbox w = outbox w';
  al_app_now : app_now w = app_now w';
  al_db_now : db_now w = db_now w';
}.

Section Agreement.
  Context {P Payload : Type} (hash_payload : Payload -> string).

Lemma alike_refl (w : world P) : alike w w.
Proof. done. Qed.

Lemma forget_insert d (i : uuid) u key ep ep' h s now ex :
  forget_endpoints (set_idempotency_keys (<[i := mkIdempotency u key ep h s now ex]> (idempotency_keys d)) d) =
  forget_endpoints (set_idempotency_keys (<[i := mkIdempotency u key ep' h s now ex]> (idempotency_keys d)) d).
Proof. unfold forget_endpoints. cbn. by rewrite !fmap_insert. Qed.

(** Storing a record under another endpoint name. *)
Lemma store_alike u key ep ep' h s now ex (w : world P) :
  let store e := (do_ Idempotency.create_record u key e h s now ex; do_ commit; ret s) w in
  (fst (store ep) = fst (store ep') /\ alike (snd (store ep)) (snd (store ep'))) /\
  (is_ok (fst (store ep)) = false -> store ep = store ep').
Proof.
  cbn zeta. unfold Idempotency.create_record. run_session. unfold id.
  change (Idempotency.key_violation (next_id w) (mkIdempotency u key ep' h s now ex)) with
    (Idempotency.key_violation (next_id w) (mkIdempotency u key ep h s now ex)).
  destruct (Idempotency.key_violation _ _ _) as [c|]; cbn; [done|].
  split; [|done]. split; [done|]. by split; cbn; try apply forget_insert.
Qed.

Definition agree {E A} (c c' : prog (world P) E A) : Prop := forall w, fst (c w) = fst (c' w) /\ alike (snd (c w)) (snd (c' w)).

Lemma agree_refl {E A} (c : prog (world P) E A) : agree c c.
Proof. done. Qed.
Lemma agree_bind {E A B} (c : prog (world P) E A) (k k' : A -> prog (world P) E B) :
  (forall a, agree (k a) (k' a)) -> agree (bind c k) (bind c k').
Proof. intros Hk w. unfold bind. destruct (c w) as [[a|e] w1]; [apply Hk|done]. Qed.

Lemma agree_then {E A B} (c c' : prog (world P) E A) (f : A -> B) : agree c c' -> agree (bind c (fun a => ret (f a))) (bind c' (fun a => ret (f a))).
Proof.
  intros Hc w. destruct (Hc w) as [Hf Ha]. unfold bind, ret. destruct (c w) as [[a|e] w1], (c' w) as [[a'|e'] w2]; cbn [fst snd] in *;
    split; congruence || done.
Qed.

Lemma run_alike u key ep ep' p now exec :
  agree (Idempotency.run hash_payload u key ep p now exec) (Idempotency.run hash_payload u key ep' p now exec).
Proof.
  unfold Idempotency.run.
  match goal with |- agree (bind _ (fun x => match x with Some _ => if _ then _ else bind _ (fun _ => ?a) | None => _ end))
                           (bind _ (fun x => match x with Some _ => if _ then _ else bind _ (fun _ => ?b) | None => _ end)) =>
    assert (Hs : agree a b) end.
  { apply agree_bind. intros s w. destruct (store_alike u key ep ep' (hash_payload p) s now (dt_add now Idempotency.RECORD_TTL) w) as [[Hf Ha] Hr].
    cbn zeta in Hf, Ha, Hr. revert Hf Ha Hr. unfold try_except.
    match goal with |- context [fst (?c w) = fst (?c' w)] => set (x := c w); set (y := c' w) end.
    clearbody x y. destruct x as [[a|e] wx], y as [[b|e'] wy]; cbn [fst snd is_ok]; intros Hf Ha Hr; try done.
    by injection (Hr eq_refl) as -> ->. }
  apply agree_bind. intros [r|]; [|exact Hs]. destruct (Idempotency.live now r); [done|]. by apply agree_bind.
Qed.

End Agreement.

Section Typed.
  Context {Q : Type} `{QuoteProvider Q} `{Crypto} `{!Mailer (system Q)} `{Pydantic}.

Lemma agree_session {A} (c c' : prog (world (system Q)) raised A) : agree c c' -> agree (in_session c) (in_session c').
Proof.
  intros Hc w. unfold in_session. destruct (Hc (with_pending (durable w) w)) as [Hf []].
  destruct (c _) as [r w1], (c' _) as [r' w2]. cbn [fst snd] in *. split; [done|]. by split.
Qed.
Lemma agree_calling {A} (c c' : M (system Q) A) : agree c c' -> agree (calling c) (calling c').
Proof.
  intros Hc w. unfold calling. destruct (Hc w) as [Hf Ha]. destruct (c w) as [[a|e] w1], (c' w) as [[a'|e'] w2];
    cbn [fst snd] in *; split; congruence || done.
Qed.

(** The strategies a kind of endpoint takes. *)
Definition strategies_of (k : create_kind) : list string := concat (rm_strategies <$> models_of k).

Lemma find_typed k s : str_in s (strategies_of k) = true ->
  List.find (fun m => str_in s (rm_strategies m)) (models_of k) = List.find (fun m => str_in s (rm_strategies m)) IntentCreateRequest.
Proof.
  intros Hs. unfold str_in in Hs at 1. apply existsb_exists in Hs as (x & Hx & <-%String.eqb_eq).
  destruct k; cbn in Hx; repeat (destruct Hx as [<-|Hx]; [reflexivity|]); done.
Qed.

(** The model of a typed endpoint is the one the union selects. *)
Lemma select_typed k members s : text members "strategy" = Some s -> str_in s (strategies_of k) = true ->
  select_model (models_of k) members = select_model IntentCreateRequest members.
Proof.
  intros Hs Hin. change (select_model IntentCreateRequest members) with
    (List.find (fun m => match text members "strategy" with Some s => str_in s (rm_strategies m) | None => false end) IntentCreateRequest).
  rewrite Hs, <-(find_typed k s Hin). destruct k; cbn [models_of]; [cbn [select_model IntentCreateRequest]; by rewrite Hs|..];
    unfold strategies_of in Hin; cbn [models_of fmap list_fmap concat] in Hin; rewrite app_nil_r in Hin;
    cbn [select_model List.find]; by rewrite Hin.
Qed.

Lemma accepted_strategy k members r : parse_request (models_of k) (JObj members) = Ok r ->
  text members "strategy" = Some (ir_strategy r) /\ str_in (ir_strategy r) (strategies_of k) = true.
Proof.
  assert (Hsub : models_of k ⊆ IntentCreateRequest) by (destruct k; set_solver). intros Hr.
  destruct (find_model _ _ _ Hsub Hr) as (m & members' & Hm & [= <-] & Hv & Hin).
  destruct (validate_body_cases m members r (Hsub _ Hm) Hv) as (_ & _ & _ & Hst & _). split; [done|].
  apply str_in_spec in Hin. apply str_in_spec. unfold strategies_of. apply list_elem_of_In, in_concat.
  exists (rm_strategies m). split; [|by apply list_elem_of_In]. apply list_elem_of_In. by apply list_elem_of_fmap_2.
Qed.

Lemma parse_typed k body r : parse_request (models_of k) body = Ok r <->
  parse_request (models_of AnyIntent) body = Ok r /\ str_in (ir_strategy r) (strategies_of k) = true.
Proof.
  destruct body as [| | |members]; try (split; [|intros [Hr _]; revert Hr]; cbn; unfold rejected; by case_match).
  split.
  - intros Hr. destruct (accepted_strategy k members r Hr) as [Hs Hin]. split; [|done].
    unfold parse_request in *. cbn [models_of]. by rewrite <-(select_typed k members _ Hs Hin).
  - intros [Hr Hin]. destruct (accepted_strategy AnyIntent members r Hr) as [Hs _].
    unfold parse_request in *. by rewrite (select_typed k members _ Hs Hin).
Qed.

(** A typed endpoint makes the command's input the union endpoint makes. *)
Lemma create_input_typed k owner body r : parse_request (models_of k) body = Ok r ->
  create_input k owner r = create_input AnyIntent owner r.
Proof.
  intros Hp. assert (Hsub : models_of k ⊆ IntentCreateRequest) by (destruct k; set_solver).
  destruct (find_model _ _ _ Hsub Hp) as (m & members & Hm & -> & Hv & _).
  destruct (validate_body_cases m members r (Hsub _ Hm) Hv) as ((_ & _ & Ht & Htr & Htv & Hn & Htm & _) & _).
  destruct r as [sym st q tp tm nm trm trv]. cbn in Ht, Htr, Htv, Hn, Htm.
  destruct k; [done|..]; apply list_elem_of_singleton in Hm as ->; cbn in Ht, Htr, Htv.
  all: destruct tp, tm, nm, trm, trv; try discriminate; reflexivity.
Qed.

Lemma valid_bind {A B} (a : A) (k : A -> prog (world (system Q)) raised B) : bind (validation (Ok a)) k = k a.
Proof. done. Qed.

Lemma create_agree (settings : Config.Settings) (wired : bool) (hash_payload : jvalue -> string) k rq body r :
  hq_body rq = Some body -> parse_request (models_of k) body = Ok r ->
  agree (create_intent settings wired hash_payload k rq) (create_intent settings wired hash_payload AnyIntent rq).
Proof.
  intros Hb Hr. pose proof (proj1 (proj1 (parse_typed k body r) Hr)) as Hany. unfold create_intent, with_body. rewrite Hb.
  apply agree_session, agree_bind. intros [user key]. rewrite Hr, Hany. cbn [fst snd].
  rewrite !valid_bind. rewrite <-(create_input_typed k (ru_user_id user) body r Hr). apply agree_then, agree_calling. unfold run_create_intent. apply agree_bind. intros now. apply run_alike.
Qed.

End Typed.

(** C35. The compatibility endpoint and the typed ones are one contract.  A typed
    endpoint accepts exactly the bodies the union endpoint accepts with one of
    its strategies, as the same request; and a request it accepts gets from
    either the same answer and leaves the same world, but for the endpoint's
    name in the idempotency record: the same user, rate limit, key, order,
    limits, trigger and response. *)
Theorem typed_endpoints_agree {Q : Type} `{QuoteProvider Q} `{Crypto} `{!Mailer (system Q)} `{Pydantic}
    (settings : Config.Settings) (wired : bool) (hash_payload : jvalue -> string) (k : create_kind) (rq : Request)
    (body : jvalue) (r : IntentRequest) (w : world (system Q))
    (Hbody : hq_body rq = Some body) (Hr : parse_request (models_of k) body = Ok r) :
  (forall body' r', parse_request (models_of k) body' = Ok r' <->
     parse_request (models_of AnyIntent) body' = Ok r' /\ str_in (ir_strategy r') (strategies_of k) = true) /\
  let typed := create_intent settings wired hash_payload k rq w in
  let union := create_intent settings wired hash_payload AnyIntent rq w in
  fst typed = fst union /\ alike (snd typed) (snd union).
Proof.
  split; [intros; apply parse_typed|]. exact (create_agree settings wired hash_payload k rq body r Hbody Hr w).
Qed.

(** A buy alert at 610 fires at once in a market that asks 600. *)
Definition alert_body (strategy target : string) : jvalue :=
  document [("symbol", JStr "2330"); ("strategy", JStr strategy); ("quantityLots", JInt 2); ("targetPrice", JStr target)].
Definition alert_request : Request :=
  request_of (signed_in 7 50 "user" false) (Some "key-1") (Some (alert_body "buy_price_alert" "610")).

Lemma typed_endpoints_agree_witness :
  let go k := create_intent api_settings true (fun _ => "hash") k alert_request (api_world (Dec 600 0)) in
  (exists resp, fst (go BuyPriceAlert) = Ok resp /\ rs_status resp = 201 /\ fst (go AnyIntent) = Ok resp) /\
  size (cores (durable (snd (go AnyIntent)))) = 1%nat /\ length (outbox (snd (go AnyIntent))) = 1%nat.
Proof.
  intros go.
  assert (Hr : parse_request (models_of BuyPriceAlert) (alert_body "buy_price_alert" "610") =
    Ok (mkRequest "2330" "buy_price_alert" 2 (Some "610") None None None None)) by (vm_compute; reflexivity).
  destruct (typed_endpoints_agree api_settings true (fun _ => "hash") BuyPriceAlert alert_request _ _ (api_world (Dec 600 0)) eq_refl Hr)
    as [_ [Hf _]].
  split; [|split; vm_compute; reflexivity].
  assert (Hok : exists resp, fst (go BuyPriceAlert) = Ok resp /\ rs_status resp = 201) by (vm_compute; eexists; split; reflexivity).
  destruct Hok as (resp & Ho & Hs). exists resp. split; [exact Ho|]. split; [exact Hs|]. rewrite <-Ho. symmetry. exact Hf.
Defined.
