(* ===== verification/ApiSpec.v ===== *)
(** * What the service promises its clients

    The calls of [Routes]: who may make them, what a refused one leaves behind,
    whose data one touches, what a repeated one answers. *)

From Stdlib Require Import QArith_base.
From S2P Require Import Prelude Decimal Datetime Json Errors Price TradingSession Intent Evaluation Tables Store CoreSchema Lifecycle.
From S2P Require Import IntentRepo Samples Quotes CreateIntent Dispatcher KillSwitch RateLimiter AuthRepos Tokens AuthSamples Auth SessionSpec Account Telegram TelegramRoute.
From S2P Require Import Responses ClientIp Schemas Endpoints Routes RequestSpec.
From S2P Require Idempotency Notifications LegacyRepo Config.

#[local] Open Scope string_scope.
#[local] Open Scope list_scope.
#[local] Open Scope Z_scope.

(** ** Who may make a call

    [None]: everyone. *)
Inductive access : Type := Account | AdminRole | Administrator.
Definition required_access (c : call) : option access :=
  match c with
  | Health _ | Login | AcceptInvitation | Refresh | Logout | PasswordResetRequest | PasswordResetConfirm => None
  | ListSymbols _ _ | GetSymbol _ | CurrentPrice _ | TelegramWebhook => None
  | EvaluateQuotes | ProcessTwapDueSlices | ProcessTwapPriceFollowups => None
  | SetupTwoFactor | VerifyTwoFactor => Some AdminRole
  | CreateUser | ProvisionUser | ListUsers | DisableUser _ | ReactivateUser _ | ResendInvitation _
  | GetKillSwitch | SetKillSwitch => Some Administrator
  | Me | CreateIntent _ | ListIntents _ | PreviewTwap | ConfirmTwap | GetIntent _ | CancelIntent _
  | ListNotifications _ _ _ | MarkNotificationRead _ => Some Account
  end.

(** The refusals of the gates. *)
Definition REFUSALS : list (string * Z) :=
  [("UNAUTHENTICATED", 401); ("SESSION_REVOKED", 401); ("ACCOUNT_DISABLED", 403); ("FORBIDDEN", 403); ("MFA_REQUIRED", 403)].

(** Membership in a list that is written out. *)
Ltac listed := try unfold REFUSALS; repeat match goal with H : _ ∈ _ |- _ => revert H end; rewrite ?elem_of_cons, ?elem_of_nil; tauto.

Section Access.
  Context {Q : Type} `{QuoteProvider Q} `{Crypto} `{!Mailer (system Q)} `{!BotTransport (system Q)} `{Pydantic}.
  Context (settings : Config.Settings) (wired : bool) (hash_payload : jvalue -> string) (decide : TelegramIntentDecider).
  Abbreviation P := (system Q).

(** Whom a request speaks for: its bearer token is genuine and not expired, and
    the session in it is stored and open, or closed by a rotation only. *)
Definition speaks_for (rq : Request) (w : world P) (u : RequestUser) : Prop :=
  exists header claims t, hq_authorization rq = Some header /\ String.prefix "Bearer " header = true /\
    decode_access_token (resolved_jwt_access_secret (tokens settings)) (unchars (strip (skipn 7 (chars header))))
      (dt_us (app_now w)) = Ok claims /\
    u = mkRequestUser (ap_sub claims) (ap_role claims) (ap_session_id claims) (ap_mfa_verified claims) /\
    refresh_tokens (durable w) !! ap_session_id claims = Some t /\
    (rt_revoked_at t = None \/ rt_revoked_reason t = Some "rotated").
Definition permitted (level : access) (rq : Request) (w : world P) (u : RequestUser) : Prop :=
  speaks_for rq w u /\
  match level with
  | Account => True
  | AdminRole => ru_role u = "admin"
  | Administrator => ru_role u = "admin" /\ ru_mfa_verified u = true
  end.

Definition gate (level : access) : Request -> prog (world P) raised RequestUser :=
  match level with Account => active_user settings | AdminRole => admin_role settings | Administrator => admin_user settings end.

Definition refusal (x : raised) : Prop := exists c, c ∈ REFUSALS /\ x = Raised (ApiError (fst c) (snd c) None []).

(** The gates let in who is permitted, and nothing else. *)
Lemma authorize_cases rq (w : world P) : exists r, authorize (tokens settings) (hq_authorization rq) (opening w) = (r, opening w) /\
  match r with
  | Ok u => speaks_for rq w u
  | Raise e => refusal (Raised e) /\ forall u, ~ speaks_for rq w u
  end.
Proof.
  unfold authorize, get_current_user, speaks_for, bind.
  assert (Hno : forall c : string * Z, c ∈ REFUSALS -> refusal (Raised (ApiError (fst c) (snd c) None []))) by (intros c Hc; by exists c).
  destruct (hq_authorization rq) as [header|].
  2: { eexists. split; [done|]. split; [apply (Hno ("UNAUTHENTICATED", 401)); listed|naive_solver]. }
  destruct (String.prefix "Bearer " header) eqn:Hp; cbn [negb].
  2: { eexists. split; [done|]. split; [apply (Hno ("UNAUTHENTICATED", 401)); listed|intros u (h & c & t & [= <-] & Hp' & _); congruence]. }
  cbn [clock gets]. change (app_now (opening w)) with (app_now w). unfold clock, gets.
  unfold decode_access_token. destruct (jwt_decode _ _ _) as [claims|] eqn:Hj.
  2: { eexists. split; [done|]. split; [apply (Hno ("UNAUTHENTICATED", 401)); listed|].
       intros u (h & c & t & [= <-] & _ & Hd & _). unfold opening, with_pending in Hj. cbn [app_now] in Hj. by rewrite Hj in Hd. }
  cbn [ret]. unfold ret.
  destruct (get_active_user_cases (mkRequestUser (ap_sub claims) (ap_role claims) (ap_session_id claims) (ap_mfa_verified claims)) (opening w))
    as (r & -> & Hr). exists r. split; [done|]. unfold opening, with_pending in Hj. cbn [app_now] in Hj.
  change (pending (opening w)) with (durable w) in Hr. cbn [ru_session_id] in Hr. destruct r as [u|e]; cbn [gate_answer] in Hr.
  - destruct Hr as [-> (t & Ht & Ho)]. exists header, claims, t. by rewrite Hj.
  - split.
    + destruct Hr as [[-> _]|[-> _]]; [apply (Hno ("ACCOUNT_DISABLED", 403))|apply (Hno ("SESSION_REVOKED", 401))]; listed.
    + intros u (h & c & t & [= <-] & _ & Hd & -> & Ht & Ho). rewrite Hj in Hd. injection Hd as <-.
      destruct Hr as [(_ & t' & Ht' & Hs & Hd)|[_ Hd]].
      * rewrite Ht in Ht'. injection Ht' as <-. destruct Ho as [Ho|Ho]; [by rewrite Ho in Hs|congruence].
      * destruct (Hd _ Ht) as (Hs & Hn & _). destruct Ho as [Ho|Ho]; [by rewrite Ho in Hs|done].
Qed.

Lemma speaks_unique rq (w : world P) u u' : speaks_for rq w u -> speaks_for rq w u' -> u = u'.
Proof.
  intros (h & c & t & Hh & _ & Hd & -> & _) (h' & c' & t' & Hh' & _ & Hd' & -> & _). simplify_eq. congruence.
Qed.

Lemma gate_cases level rq (w : world P) : exists r, gate level rq (opening w) = (r, opening w) /\
  match r with Ok u => permitted level rq w u | Raise x => refusal x /\ forall u, ~ permitted level rq w u end.
Proof.
  destruct (authorize_cases rq w) as (a & Ha & Hcase). unfold gate, permitted.
  assert (Hno : forall (c : string * Z) (Q0 : Prop), c ∈ REFUSALS -> Q0 -> refusal (Raised (ApiError (fst c) (snd c) None [])) /\ Q0)
    by (intros c Q0 Hc HQ; split; [by exists c|done]).
  destruct level; unfold active_user, admin_role, admin_user, authorize_admin, calling, bind; rewrite Ha;
    destruct a as [u|e]; try by (eexists; split; [done|]; split; [apply Hcase|intros u [Hu _]; by apply (proj2 Hcase u)]).
  - exists (Ok u). by split.
  - unfold require_role. destruct (String.eqb_spec (ru_role u) "admin") as [|Hr]; (eexists; split; [done|]); [done|].
    apply (Hno ("FORBIDDEN", 403)); [listed|]. intros u' [Hu' Hr']. by rewrite (speaks_unique _ _ _ _ Hu' Hcase) in Hr'.
  - unfold get_admin_user. destruct (String.eqb_spec (ru_role u) "admin") as [|Hr]; cbn [negb].
    2: { eexists. split; [done|]. apply (Hno ("FORBIDDEN", 403)); [listed|]. intros u' [Hu' [Hr' _]].
         by rewrite (speaks_unique _ _ _ _ Hu' Hcase) in Hr'. }
    destruct (ru_mfa_verified u) eqn:Hm; cbn [negb]; (eexists; split; [done|]); [done|].
    apply (Hno ("MFA_REQUIRED", 403)); [listed|]. intros u' [Hu' [_ Hm']]. rewrite (speaks_unique _ _ _ _ Hu' Hcase) in Hm'. congruence.
Qed.

Lemma opening_clean (w : world P) : pending w = durable w -> opening w = w.
Proof. destruct w; cbn. by intros ->. Qed.

Lemma session_refused {A B} (g : prog (world P) raised A) (k : A -> prog (world P) raised B) x (w : world P) :
  g (opening w) = (Raise x, opening w) -> in_session (bind g k) w = (Raise x, opening w).
Proof. intros Hg. unfold in_session, bind. fold (opening w). by rewrite Hg. Qed.

(** A protected call starts with its gate. *)
Lemma gate_first level c rq (w : world P) x : required_access c = Some level ->
  gate level rq (opening w) = (Raise x, opening w) ->
  serve settings wired hash_payload decide c rq w = (Raise x, opening w) \/
  (hq_body rq = None /\ serve settings wired hash_payload decide c rq w = (Raise (RequestValidationError (Some (report JNull))), w)).
Proof.
  intros Hc Hg. unfold serve. destruct c; try discriminate Hc; injection Hc as <-; cbn [gate] in Hg.
  all: try (left; by apply session_refused).
  all: unfold create_user_endpoint, provision_user_endpoint, verify_two_factor_endpoint, set_kill_switch_endpoint,
    create_intent, preview_twap, confirm_twap, with_body; try (destruct (hq_body rq); [|by right]; left).
  all: try by apply session_refused.
  all: unfold cancel_intent; try left; apply session_refused; unfold mutating, bind at 1; by rewrite Hg.
Qed.

Lemma session_idle {A} (c : prog (world P) raised A) r (w : world P) : pending w = durable w -> c w = (r, w) -> in_session c w = (r, w).
Proof. intros Hclean Hc. unfold in_session. fold (opening w). by rewrite (opening_clean w Hclean), Hc; fold (opening w); rewrite (opening_clean w Hclean). Qed.

Lemma refusal_answered x rq (s : world P) : refusal x -> exists r, exception_layer rq (raise x) s = (Ok r, s) /\
  rs_status r ∈ [401; 403] /\ rs_cookies r = [].
Proof.
  intros (c & Hc & ->). unfold REFUSALS in Hc. repeat (apply elem_of_cons in Hc as [->|Hc]); [..|by apply elem_of_nil in Hc].
  all: eexists; split; [reflexivity|]; split; [listed|reflexivity].
Qed.

Lemma malformed_answered rq (s : world P) : exists r,
  exception_layer rq (raise (RequestValidationError (Some (report JNull)))) s = (Ok r, s) /\ rs_status r ∈ [422] /\ rs_cookies r = [].
Proof. eexists. split; [reflexivity|]. split; [listed|reflexivity]. Qed.

(** What the layers make of a call that is refused. *)
Lemma service_refused incoming fresh c rq x codes (w : world P) :
  serve settings wired hash_payload decide c rq w = (Raise x, w) ->
  (forall ri, exists r, exception_layer ri (raise x) w = (Ok r, w) /\ rs_status r ∈ codes /\ rs_cookies r = []) ->
  exists r, service settings wired hash_payload decide incoming fresh c rq w = (r, w) /\
    rs_status r ∈ 400 :: codes /\ rs_cookies r = [].
Proof.
  intros Hs Hx. unfold service, application, error_layer, security_layer, request_id_layer, bind.
  destruct (request_id incoming fresh) as [i [|]]; cbn [fst].
  - eexists. split; [reflexivity|]. cbn. destruct (Config.local_mode settings); split; [listed|done|listed|done].
  - destruct (Hx (mkRequestInfo i (Config.request_id_header settings))) as (r & Hr & Hst & Hck).
    assert (Hl : exception_layer (mkRequestInfo i (Config.request_id_header settings))
      (serve settings wired hash_payload decide c rq) w = (Ok r, w)).
    { rewrite <-Hr. unfold exception_layer, try_except. by rewrite Hs. }
    rewrite Hl. eexists. split; [reflexivity|]. cbn. destruct (Config.local_mode settings); cbn; (split; [by constructor|done]).
Qed.

End Access.

(** C3. Access control.  A call that needs an account, an administrator or an
    administrator whose session passed the second factor runs for exactly the
    user its bearer token speaks for: the token must be genuine and not expired,
    its session stored and open (or only rotated), its role and second factor
    those the call needs.  Otherwise the client gets 401, 403, 422 (a body that
    is no JSON) or 400 (an unusable request id) without a cookie, and nothing at
    all has changed: no row, no subscription, no message, no rate-limit token. *)
Theorem access_control {Q : Type} `{QuoteProvider Q} `{Crypto} `{!Mailer (system Q)} `{!BotTransport (system Q)} `{Pydantic}
    (settings : Config.Settings) (wired : bool) (hash_payload : jvalue -> string) (decide : TelegramIntentDecider)
    (incoming : option string) (fresh : string) (c : call) (rq : Request) (level : access) (w : world (system Q))
    (Hclean : pending w = durable w) (Hlevel : required_access c = Some level) :
  (exists u, permitted settings level rq w u /\ gate settings level rq w = (Ok u, w) /\
     forall u', permitted settings level rq w u' -> u' = u) \/
  ((forall u, ~ permitted settings level rq w u) /\
   exists r, service settings wired hash_payload decide incoming fresh c rq w = (r, w) /\
     rs_status r ∈ [400; 401; 403; 422] /\ rs_cookies r = []).
Proof.
  pose proof (opening_clean w Hclean) as Hw. destruct (gate_cases settings level rq w) as (g & Hg & Hcase).
  destruct g as [u|x].
  - left. exists u. rewrite Hw in Hg. split; [done|]. split; [done|]. intros u' Hu'. by eapply speaks_unique; [apply Hu'|apply Hcase].
  - right. destruct Hcase as [Href Hno]. split; [exact Hno|].
    destruct (gate_first settings wired hash_payload decide level c rq w x Hlevel Hg) as [Hs|[_ Hs]]; rewrite ?Hw in Hs.
    + destruct (service_refused settings wired hash_payload decide incoming fresh c rq x [401; 403] w Hs) as (r & Hr & Hst & Hck).
      { intros ri. by apply refusal_answered. }
      exists r. split; [done|]. split; [listed|done].
    + destruct (service_refused settings wired hash_payload decide incoming fresh c rq _ [422] w Hs) as (r & Hr & Hst & Hck).
      { intros ri. apply malformed_answered. }
      exists r. split; [done|]. split; [listed|done].
Qed.

Definition no_decider : TelegramIntentDecider := fun _ _ _ => Raise TypeError.

(** User 7 reads his profile; nobody has a token signed with another secret;
    administrator 9 without the second factor does not see the kill switch. *)
Lemma access_control_witness :
  let w := api_world (Dec 600 0) in
  let forged := ("Bearer " ++ encode_access_token "guessed" 7 "user" 50 900 sample_time false)%string in
  let answer token c := service api_settings true (fun _ => "hash") no_decider None "id-1" c (request_of token None None) w in
  (exists u, permitted api_settings Account (request_of (signed_in 7 50 "user" false) None None) w u /\ ru_user_id u = 7) /\
  rs_status (fst (answer (signed_in 7 50 "user" false) Me)) = 200 /\
  snd (answer forged Me) = w /\ rs_status (fst (answer forged Me)) = 401 /\
  rs_status (fst (answer (signed_in 9 51 "admin" false) GetKillSwitch)) = 403.
Proof.
  intros w forged answer.
  assert (H1 : rs_status (fst (answer (signed_in 7 50 "user" false) Me)) = 200) by (vm_compute; reflexivity).
  assert (H2 : rs_status (fst (answer forged Me)) = 401) by (vm_compute; reflexivity).
  assert (H3 : rs_status (fst (answer (signed_in 9 51 "admin" false) GetKillSwitch)) = 403) by (vm_compute; reflexivity).
  pose proof (access_control api_settings true (fun _ => "hash") no_decider None "id-1" Me) as Hac.
  split.
  - destruct (Hac (request_of (signed_in 7 50 "user" false) None None) Account w eq_refl eq_refl) as [(u & Hu & Hg & _)|(_ & r & Hr & Hst & _)].
    + exists u. split; [exact Hu|]. assert (Hc : fst (gate api_settings Account (request_of (signed_in 7 50 "user" false) None None) w) =
        Ok (mkRequestUser 7 "user" 50 false)) by (vm_compute; reflexivity).
      rewrite Hg in Hc. injection Hc as ->. reflexivity.
    + exfalso. unfold answer in H1. rewrite Hr in H1. cbn [fst] in H1. rewrite H1 in Hst. rewrite !elem_of_cons, elem_of_nil in Hst. lia.
  - split; [exact H1|]. split; [|split; [exact H2|exact H3]].
    destruct (Hac (request_of forged None None) Account w eq_refl eq_refl) as [(u & _ & Hg & _)|(_ & r & Hr & _)].
    + exfalso. assert (Hc : is_ok (fst (gate api_settings Account (request_of forged None None) w)) = false) by (vm_compute; reflexivity).
      rewrite Hg in Hc. discriminate Hc.
    + unfold answer. rewrite Hr. reflexivity.
Defined.

(** ** Repeating a request *)

Section Retry.
  Context {Q : Type} `{QuoteProvider Q} `{Crypto} `{!Mailer (system Q)} `{!BotTransport (system Q)} `{Pydantic}.
  Context (settings : Config.Settings) (wired : bool) (hash_payload : jvalue -> string) (decide : TelegramIntentDecider).
  Abbreviation P := (system Q).

(** What a mutating call does to the caller's rate limit, and whether it may go on. *)
Definition mutation_charged (user_id : uuid) (now : datetime) : db -> db :=
  charged (mutation_bucket user_id) (Config.mutation_rate_limit_capacity settings)
    (Config.mutation_rate_limit_refill_per_second settings) 1%Q now.
Definition mutation_decision (user_id : uuid) (now : datetime) : db -> RateLimitDecision :=
  decision (mutation_bucket user_id) (Config.mutation_rate_limit_capacity settings)
    (Config.mutation_rate_limit_refill_per_second settings) 1%Q now.

(** The calls with an idempotency key: the status of their success and the payload
    their key stands for; [None] for the others and for bodies they refuse. *)
Definition mutation (c : call) (body : option jvalue) : option (Z * jvalue) :=
  match c with
  | CreateIntent k => body ≫= fun b => match parse_request (models_of k) b with Ok r => Some (201, request_payload r) | Raise _ => None end
  | ConfirmTwap => body ≫= fun b => match parse_twap_request b with Ok r => Some (201, twap_payload r) | Raise _ => None end
  | CancelIntent i => Some (200, document [("intent_id", JStr (str_uuid i))])
  | _ => None
  end.

Lemma mutating_speaks rq (w : world P) u : speaks_for settings rq w u ->
  mutating settings rq (opening w) =
    ((if allowed (mutation_decision (ru_user_id u) (app_now w) (durable w)) then
        match get_idempotency_key (hq_idempotency_key rq) with Ok key => Ok (u, key) | Raise e => Raise (Raised e) end
      else Raise (Raised (RateLimitedError (retry_after_seconds (mutation_decision (ru_user_id u) (app_now w) (durable w)))))),
     at_rest (mutation_charged (ru_user_id u) (app_now w) (durable w)) w).
Proof.
  intros Hu. destruct (authorize_cases settings rq w) as (r & Hr & Hcase). destruct r as [u'|e]; [|by destruct (proj2 Hcase u)].
  rewrite (speaks_unique _ _ _ _ _ Hcase Hu) in Hr. clear Hcase.
  unfold mutating, active_user, calling, bind. rewrite Hr. unfold enforce_mutation_rate_limit, clock, gets, bind.
  rewrite consume_eq. unfold mutation_decision, mutation_charged. cbn [commit modify pending opening with_pending app_now].
  destruct (allowed _); [|done]. unfold ret, lift. by destruct (get_idempotency_key _).
Qed.

(** A call with a key is its gates and a run of the idempotency manager. *)
Definition memoised (st : Z) (payload : jvalue) (endpoint : string) (exec : uuid -> M P json) (rq : Request)
  : prog (world P) raised Response :=
  in_session
    (do gates <- mutating settings rq;
     do now <- now_utc;
     do snapshot <- calling (Idempotency.run hash_payload (ru_user_id (fst gates)) (snd gates) endpoint payload now (exec (ru_user_id (fst gates))));
     ret (json_response st snapshot)).

Lemma serve_memo c body st payload : mutation c body = Some (st, payload) -> exists endpoint exec, forall rq w, hq_body rq = body ->
  serve settings wired hash_payload decide c rq w = memoised st payload endpoint exec rq w.
Proof.
  intros Hm. destruct c; try discriminate Hm; cbn [mutation] in Hm.
  - destruct body as [b|]; [|done]. cbn in Hm. destruct (parse_request (models_of k) b) as [r|] eqn:Hr; [|done]. injection Hm as <- <-.
    exists (endpoint_name k), (fun u => create_and_dump settings wired (create_input k u r)). intros rq w Hb.
    cbn [serve]. unfold create_intent, with_body, memoised. rewrite Hb, Hr. reflexivity.
  - destruct body as [b|]; [|done]. cbn in Hm. destruct (parse_twap_request b) as [r|] eqn:Hr; [|done]. injection Hm as <- <-.
    exists "confirm_twap", (fun u => confirm_and_dump settings u r). intros rq w Hb.
    cbn [serve]. unfold confirm_twap, with_body, memoised. rewrite Hb, Hr. reflexivity.
  - injection Hm as <- <-. exists "cancel_intent", (cancel_and_dump i). reflexivity.
Qed.

(** A success of such a call: its caller, its key and the record it leaves. *)
Lemma memoised_Ok st payload endpoint exec rq (w w1 : world P) resp :
  memoised st payload endpoint exec rq w = (Ok resp, w1) ->
  exists u key snapshot r, speaks_for settings rq w u /\ get_idempotency_key (hq_idempotency_key rq) = Ok key /\
    resp = json_response st snapshot /\ Idempotency.holds (ru_user_id u) key r (durable w1) /\
    dt_us (app_now w) < dt_us (ik_expires_at r) /\ ik_request_hash r = hash_payload payload /\ ik_response_snapshot r = snapshot.
Proof.
  intros Hrun. destruct (authorize_cases settings rq w) as (a & Ha & Hcase).
  assert (Hu : exists u, speaks_for settings rq w u).
  { destruct a as [u|e]; [by exists u|]. exfalso. unfold memoised, in_session, mutating, active_user, calling, bind in Hrun. fold (opening w) in Hrun.
    by rewrite Ha in Hrun. }
  destruct Hu as [u Hu]. exists u. pose proof (mutating_speaks rq w u Hu) as Hg. unfold memoised, in_session in Hrun. fold (opening w) in Hrun.
  unfold bind at 1 in Hrun. rewrite Hg in Hrun. destruct (allowed _); [|done].
  destruct (get_idempotency_key (hq_idempotency_key rq)) as [key|e]; [|done].
  set (w0 := at_rest _ w) in Hrun. unfold bind, now_utc, calling, clock, gets in Hrun. cbn [fst snd] in Hrun.
  destruct (Idempotency.run _ _ _ _ _ _ _ w0) as [[snapshot|e] w2] eqn:Hx; [|done]. injection Hrun as <- <-.
  destruct (Idempotency.run_Ok hash_payload _ _ _ _ _ _ _ w0 w2 eq_refl Hx) as (Hc & r & Hr & Hl & Hh & Hs).
  exists key, snapshot, r. cbn [durable with_pending]. rewrite <-Hc. apply Z.ltb_lt in Hl. by split_and!.
Qed.

(** The same key again, while the record is there. *)
Lemma memoised_again st payload endpoint exec rq (w : world P) u key r :
  speaks_for settings rq w u -> get_idempotency_key (hq_idempotency_key rq) = Ok key ->
  Idempotency.holds (ru_user_id u) key r (durable w) -> dt_us (app_now w) < dt_us (ik_expires_at r) ->
  memoised st payload endpoint exec rq w =
    (if allowed (mutation_decision (ru_user_id u) (app_now w) (durable w)) then
       if String.eqb (ik_request_hash r) (hash_payload payload) then Ok (json_response st (ik_response_snapshot r))
       else Raise (Raised IdempotencyConflictError)
     else Raise (Raised (RateLimitedError (retry_after_seconds (mutation_decision (ru_user_id u) (app_now w) (durable w))))),
     at_rest (mutation_charged (ru_user_id u) (app_now w) (durable w)) w).
Proof.
  intros Hu Hk Hr Hl. unfold memoised, in_session. fold (opening w). unfold bind at 1. rewrite (mutating_speaks rq w u Hu), Hk.
  destruct (allowed _); [|done]. set (w0 := at_rest _ w). unfold bind, now_utc, calling, clock, gets. cbn [fst snd].
  rewrite (Idempotency.run_live hash_payload (ru_user_id u) key endpoint payload (app_now w0) _ r w0).
  - by destruct (String.eqb _ _).
  - exact Hr.
  - unfold Idempotency.live. by apply Z.ltb_lt.
Qed.

End Retry.

(** C5. A client may safely repeat a request.  Once a creation, a confirmation or a
    cancellation succeeded, every later call of the same user with the same key,
    while the record is kept, creates and cancels nothing: it costs one token of
    the rate limit and gets the stored answer if its payload hashes the same, and
    a conflict if not. *)
Theorem retry_replays {Q : Type} `{QuoteProvider Q} `{Crypto} `{!Mailer (system Q)} `{!BotTransport (system Q)} `{Pydantic}
    (settings : Config.Settings) (wired : bool) (hash_payload : jvalue -> string) (decide : TelegramIntentDecider)
    (c : call) (rq : Request) (st : Z) (payload : jvalue) (resp : Response) (w w1 : world (system Q))
    (Hcall : mutation c (hq_body rq) = Some (st, payload))
    (Hrun : serve settings wired hash_payload decide c rq w = (Ok resp, w1)) :
  exists u key r, speaks_for settings rq w u /\ get_idempotency_key (hq_idempotency_key rq) = Ok key /\
    resp = json_response st (ik_response_snapshot r) /\
    Idempotency.holds (ru_user_id u) key r (durable w1) /\ dt_us (app_now w) < dt_us (ik_expires_at r) /\
    forall c2 rq2 st2 payload2 w2 u2, mutation c2 (hq_body rq2) = Some (st2, payload2) ->
      speaks_for settings rq2 w2 u2 -> ru_user_id u2 = ru_user_id u -> get_idempotency_key (hq_idempotency_key rq2) = Ok key ->
      Idempotency.holds (ru_user_id u) key r (durable w2) -> dt_us (app_now w2) < dt_us (ik_expires_at r) ->
      let decision := mutation_decision settings (ru_user_id u) (app_now w2) (durable w2) in
      serve settings wired hash_payload decide c2 rq2 w2 =
        (if allowed decision then
           if String.eqb (hash_payload payload) (hash_payload payload2) then Ok (json_response st2 (ik_response_snapshot r))
           else Raise (Raised IdempotencyConflictError)
         else Raise (Raised (RateLimitedError (retry_after_seconds decision))),
         at_rest (mutation_charged settings (ru_user_id u) (app_now w2) (durable w2)) w2).
Proof.
  destruct (serve_memo settings wired hash_payload decide c (hq_body rq) st payload Hcall) as (ep & ex & Hmemo). rewrite Hmemo in Hrun by done.
  destruct (memoised_Ok settings hash_payload _ _ _ _ _ _ _ _ Hrun) as (u & key & sn & r & Hu & Hk & -> & Hr & Hl & Hh & <-).
  exists u, key, r. split_and!; try done. intros c2 rq2 st2 p2 w2 u2 Hc2 Hu2 Hid Hk2 Hr2 Hl2. cbn zeta.
  destruct (serve_memo settings wired hash_payload decide c2 (hq_body rq2) st2 p2 Hc2) as (ep2 & ex2 & Hmemo2). rewrite Hmemo2 by done.
  rewrite <-Hid in Hr2 |- *. rewrite (memoised_again settings hash_payload _ _ _ _ _ _ u2 key r Hu2 Hk2 Hr2 Hl2). by rewrite Hh.
Qed.

(** The alert of the sample, twice: one intent, one message, the same answer. *)
#[local] Abbreviation post_alert := (serve api_settings true (fun _ => "hash") no_decider (CreateIntent AnyIntent) alert_request).

Lemma retry_replays_witness :
  exists resp w1 w2, post_alert (api_world (Dec 600 0)) = (Ok resp, w1) /\ rs_status resp = 201 /\ size (cores (durable w1)) = 1%nat /\
    post_alert w1 = (Ok resp, w2) /\ cores (durable w2) = cores (durable w1) /\ outbox w2 = outbox w1.
Proof.
  assert (Hsample : match post_alert (api_world (Dec 600 0)) with
    | (Ok resp, w1) => rs_status resp = 201 /\ size (cores (durable w1)) = 1%nat /\ app_now w1 = sample_time /\
        refresh_tokens (durable w1) = refresh_tokens api_db /\ is_ok (fst (post_alert w1)) = true
    | _ => False end) by (vm_compute; repeat split; reflexivity).
  assert (Hm : exists p, mutation (CreateIntent AnyIntent) (hq_body alert_request) = Some (201, p)) by (vm_compute; eexists; reflexivity).
  destruct Hm as [p Hm].
  destruct (post_alert (api_world (Dec 600 0))) as [[resp|e] w1] eqn:Hrun; [|destruct Hsample].
  destruct Hsample as (Hs & Hsize & Happ & Htok & Hok).
  destruct (retry_replays api_settings true (fun _ => "hash") no_decider _ alert_request 201 p resp _ w1 Hm Hrun)
    as (u & key & r & Hu & Hk & Hresp & Hr & Hl & Hagain).
  specialize (Hagain (CreateIntent AnyIntent) alert_request 201 p w1 u Hm).
  unfold speaks_for in Hu, Hagain. rewrite Happ, Htok in Hagain. specialize (Hagain Hu eq_refl Hk Hr Hl). cbn zeta in Hagain.
  rewrite Hagain in Hok. rewrite (String.eqb_refl "hash") in Hok, Hagain.
  destruct (allowed _); [|discriminate Hok]. exists resp, w1. eexists.
  split; [reflexivity|]. split; [exact Hs|]. split; [exact Hsize|]. rewrite Hagain, Hresp. split; [reflexivity|]. split; reflexivity.
Defined.

(** ** Requests other sites make *)

(** The request's origin is one of the allowed; a request that names none passes. *)
Definition from_own_site (origins : list string) (rq : Request) : Prop :=
  origins = [] \/
  match hq_origin rq with
  | Some o => o ∈ origins
  | None =>
      match hq_referer rq with
      | Some r => exists scheme netloc, urlsplit r = Ok (scheme, netloc) /\ (scheme ++ "://" ++ netloc)%string ∈ origins
      | None => True
      end
  end.
(** It repeats the CSRF cookie in the header, which another site cannot read. *)
Definition knows_csrf (rq : Request) : Prop :=
  exists t, t <> "" /\ hq_csrf_cookie rq = Some t /\ hq_csrf_header rq = Some t.

Lemma str_in_elem s l : str_in s l = true <-> s ∈ l.
Proof.
  unfold str_in. rewrite existsb_exists, list_elem_of_In. split; [by intros (x & Hx & ->%String.eqb_eq)|].
  intros Hs. exists s. split; [done|apply String.eqb_refl].
Qed.

Lemma origin_ok origins rq : enforce_csrf_origin origins (hq_origin rq) (hq_referer rq) = Ok tt -> from_own_site origins rq.
Proof.
  unfold enforce_csrf_origin, from_own_site. destruct origins as [|o l]; [by left|]. intros Hok. right.
  destruct (hq_origin rq) as [x|].
  - destruct (str_in x (o :: l)) eqn:Hx; [by apply str_in_elem|done].
  - destruct (hq_referer rq) as [x|]; [|done]. destruct (urlsplit x) as [[sc nl]|e]; [|done].
    cbn -[str_in String.append] in Hok. destruct (str_in _ (o :: l)) eqn:Hx in Hok; [|done].
    exists sc, nl. split; [done|]. by apply str_in_elem.
Qed.

Lemma csrf_ok rq : csrf_tokens_match (hq_csrf_cookie rq) (hq_csrf_header rq) = Ok true -> knows_csrf rq.
Proof.
  unfold csrf_tokens_match, knows_csrf. destruct (hq_csrf_cookie rq) as [c|]; [|done]. destruct (hq_csrf_header rq) as [h|]; [|done].
  destruct (String.eqb_spec c ""); cbn [orb]; [done|]. destruct (String.eqb h ""); [done|].
  destruct (_ && _); [|done]. intros [= ->%String.eqb_eq]. by exists h.
Qed.

Section CrossSite.
  Context {Q : Type} `{QuoteProvider Q} `{Crypto} `{!Mailer (system Q)} `{!BotTransport (system Q)} `{Pydantic}.
  Context (settings : Config.Settings).
  Abbreviation P := (system Q).

(** Without a match of the tokens nothing is refreshed. *)
Lemma refresh_needs_csrf inp (w : world P) : pending w = durable w ->
  csrf_tokens_match (ri_csrf_cookie inp) (ri_csrf_header inp) <> Ok true ->
  exists e, refresh (tokens settings) inp w = (Raise e, w).
Proof.
  intros Hclean Hno. pose proof (opening_clean w Hclean) as Hw. unfold opening in Hw.
  unfold refresh, transaction_keeping, try_except, refresh_body, bind at 1, lift.
  destruct (csrf_tokens_match _ _) as [[]|e]; [done|..]; cbn; [by eexists|].
  destruct (is_auth_error e); [by eexists|]. unfold bind, rollback, modify, raise. rewrite Hw. by eexists.
Qed.
Lemma logout_needs_csrf inp raw (w : world P) : pending w = durable w -> ri_raw_refresh_token inp = Some raw ->
  csrf_tokens_match (ri_csrf_cookie inp) (ri_csrf_header inp) <> Ok true ->
  exists e, logout inp w = (Raise e, w).
Proof.
  intros Hclean Hraw Hno. pose proof (opening_clean w Hclean) as Hw. unfold opening in Hw.
  unfold logout, transaction_keeping, try_except, logout_body. rewrite Hraw. unfold bind at 1, lift.
  destruct (csrf_tokens_match _ _) as [[]|e]; [done|..]; cbn; [by eexists|].
  destruct (is_auth_error e); [by eexists|]. unfold bind, rollback, modify, raise. rewrite Hw. by eexists.
Qed.

Lemma origin_refused {A} rq (k : unit -> prog (world P) raised A) (w : world P) : pending w = durable w ->
  enforce_csrf_origin (Config.cors_allow_origins_list settings) (hq_origin rq) (hq_referer rq) <> Ok tt ->
  exists e, in_session (bind (enforce_origin settings rq) k) w = (Raise (Raised e), w).
Proof.
  intros Hclean Hno. pose proof (opening_clean w Hclean) as Hw.
  destruct (enforce_csrf_origin _ _ _) as [[]|e] eqn:He; [done|]. exists e.
  pose proof (session_refused (enforce_origin settings rq) k (Raised e) w) as Hs. rewrite Hw in Hs. apply Hs.
  unfold enforce_origin, calling, lift. by rewrite He.
Qed.

End CrossSite.

(** C6. Another site cannot use the cookies.  A refresh or a logout that does not
    come from an allowed origin, or does not repeat the CSRF cookie, is refused
    and changes nothing: no session is rotated, revoked or issued, no cookie is
    set; only a logout from an allowed origin that carries no session at all is
    answered, by clearing the cookies. *)
Theorem cross_site_refused {Q : Type} `{QuoteProvider Q} `{Crypto} `{!Mailer (system Q)} `{!BotTransport (system Q)} `{Pydantic}
    (settings : Config.Settings) (wired : bool) (hash_payload : jvalue -> string) (decide : TelegramIntentDecider)
    (c : call) (rq : Request) (w : world (system Q)) (Hclean : pending w = durable w) (Hcall : c = Refresh \/ c = Logout)
    (Hforeign : ~ (from_own_site (Config.cors_allow_origins_list settings) rq /\ knows_csrf rq)) :
  exists r, serve settings wired hash_payload decide c rq w = (r, w) /\
    ((exists e, r = Raise (Raised e)) \/
     (c = Logout /\ hq_refresh_cookie rq = None /\ from_own_site (Config.cors_allow_origins_list settings) rq /\
        r = Ok (mkResponse 204 [] cleared_cookies None))).
Proof.
  pose proof (opening_clean w Hclean) as Hw.
  destruct (enforce_csrf_origin (Config.cors_allow_origins_list settings) (hq_origin rq) (hq_referer rq)) as [[]|e] eqn:Ho.
  2: { destruct Hcall as [-> | ->]; cbn [serve]; unfold refresh_endpoint, logout_endpoint.
       all: match goal with |- context [in_session (bind _ ?k)] =>
         destruct (origin_refused settings rq k w Hclean ltac:(rewrite Ho; discriminate)) as (e' & ->) end.
       all: eexists; split; [done|]; left; by eexists. }
  assert (Hno : csrf_tokens_match (hq_csrf_cookie rq) (hq_csrf_header rq) <> Ok true).
  { intros Hok. apply Hforeign. split; [by apply origin_ok|by apply csrf_ok]. }
  destruct Hcall as [-> | ->]; cbn [serve]; unfold refresh_endpoint, logout_endpoint.
  - assert (Hc : forall k, exists e, (do_ enforce_origin settings rq; do now <- now_utc; do ip <- caller_ip settings rq;
      do issued <- calling (refresh (tokens settings) (refresh_input rq now)); k issued now) w = (Raise (Raised e) : result raised Response, w)).
    { intros k. unfold enforce_origin, caller_ip, now_utc, calling, bind, lift, clock, gets. rewrite Ho.
      destruct (match trusted_proxy_networks _ with Some _ => _ | None => _ end) as [ip|e]; [|by eexists].
      destruct (refresh_needs_csrf settings (refresh_input rq (app_now w)) w Hclean Hno) as (e & ->). by eexists. }
    destruct (Hc (fun issued now => ret (session_response settings issued now))) as (e & Hc').
    eexists. split; [by apply (session_idle _ _ _ Hclean)|]. left. by eexists.
  - destruct (hq_refresh_cookie rq) as [raw|] eqn:Hraw.
    + destruct (logout_needs_csrf (refresh_input rq (app_now w)) raw w Hclean Hraw Hno) as (e & Hl). exists (Raise (Raised e)).
      split; [|left; by eexists]. apply session_idle; [done|]. unfold enforce_origin, now_utc, calling, bind, lift, clock, gets. by rewrite Ho, Hl.
    + assert (Hl : logout (refresh_input rq (app_now w)) w = (Ok tt, w)).
      { unfold logout, transaction_keeping, try_except, logout_body. cbn [refresh_input ri_raw_refresh_token]. by rewrite Hraw. }
      eexists. split.
      { apply session_idle; [done|]. unfold enforce_origin, now_utc, calling, bind, lift, clock, gets. rewrite Ho, Hl. reflexivity. }
      right. split; [done|]. split; [done|]. split; [by apply origin_ok|done].
Qed.

(** The session of user 7 used from another site, and from the right one without
    the header. *)
Definition forged_refresh (origin header : option string) : Request :=
  mkHttpRequest None None origin None header (Some "a") (Some "t0ken") None None None None.

Lemma cross_site_refused_witness :
  let w := api_world (Dec 600 0) in
  let go c origin header := serve api_settings true (fun _ => "hash") no_decider c (forged_refresh origin header) w in
  (exists e, go Refresh (Some "https://evil.example") (Some "t0ken") = (Raise (Raised e), w)) /\
  (exists e, go Logout (Some "http://localhost:3000") None = (Raise (Raised e), w)) /\
  is_ok (fst (go Refresh (Some "http://localhost:3000") (Some "t0ken"))) = true.
Proof.
  intros w go. pose proof (cross_site_refused api_settings true (fun _ => "hash") no_decider) as Hcs. split; [|split; [|vm_compute; reflexivity]].
  - destruct (Hcs Refresh (forged_refresh (Some "https://evil.example") (Some "t0ken")) w eq_refl (or_introl eq_refl)) as (r & Hr & [[e He]|[? _]]).
    + intros [[Ho|Ho] _]; [discriminate Ho|]. apply str_in_elem in Ho. vm_compute in Ho. discriminate Ho.
    + exists e. rewrite <-He. exact Hr.
    + discriminate.
  - destruct (Hcs Logout (forged_refresh (Some "http://localhost:3000") None) w eq_refl (or_intror eq_refl)) as (r & Hr & [[e He]|(_ & Hn & _)]).
    + intros [_ (t & _ & _ & Hh)]. discriminate Hh.
    + exists e. rewrite <-He. exact Hr.
    + discriminate Hn.
Defined.

(** ** A body that is refused *)


