(* ===== verification/IsolationSpec.v ===== *)
(** * Whose data a call touches

    The calls of a signed-in account, against the rows of the other accounts. *)

From S2P Require Import Prelude Decimal Datetime Json Errors Price TradingSession Intent Evaluation Tables Store CoreSchema Lifecycle Pagination.
From S2P Require Import IntentRepo Samples Trigger Quotes CreateIntent Dispatcher IntentLife KillSwitch RateLimiter AuthRepos Tokens AuthSamples Auth SessionSpec.
From S2P Require Import Account Telegram TelegramRoute TwapWorker TwapPlanSpec Responses ClientIp Schemas Endpoints Routes RequestSpec ApiSpec.
From S2P Require Idempotency Notifications LegacyRepo Config.

#[local] Open Scope string_scope.
#[local] Open Scope list_scope.
#[local] Open Scope Z_scope.

(** A table seen by the others than [u]: every row is still there and has its
    owner, the rows of the others are related by [R], and a new row is [u]'s. *)
Record owned {A} (owner : A -> uuid) (R : A -> A -> Prop) (u : uuid) (m0 m : gmap uuid A) : Prop := {
  ow_kept : forall j a, m0 !! j = Some a -> exists b, m !! j = Some b /\ owner b = owner a /\ (owner a <> u -> R a b);
  ow_new : forall j b, m !! j = Some b -> m0 !! j = None -> owner b = u;
}.

Section Owned.
  Context {A : Type} (owner : A -> uuid) (R : A -> A -> Prop) (u : uuid) (m0 : gmap uuid A) `{!Reflexive R, !Transitive R}.
  Abbreviation own := (owned owner R u m0).

Lemma owned_refl : own m0.
Proof. split; [intros j a Ha; by exists a|intros j b Hb Hn; congruence]. Qed.

Lemma owned_insert m (i : uuid) r : own m -> owner r = u -> m !! i = None -> own (<[i := r]> m).
Proof.
  intros [Hk Hn] Hr Hi. split.
  - intros j a Ha. destruct (Hk j a Ha) as (b & Hb & Hs). exists b. split; [|done]. rewrite lookup_insert_ne; [done|congruence].
  - intros j b [[<- <-]|[_ Hb]]%lookup_insert_Some Hn0; [done|by eapply Hn].
Qed.

Lemma owned_update m (p : uuid -> A -> bool) (f : A -> A) : own m -> (forall i a, p i a = true -> owner (f a) = owner a) ->
  (forall i a, m !! i = Some a -> p i a = true -> owner a <> u -> R a (f a)) -> own (update_where p f m).
Proof.
  intros [Hk Hn] Ho Hf. split.
  - intros j a Ha. destruct (Hk j a Ha) as (b & Hb & Hob & HR). exists (if p j b then f b else b).
    split; [apply lookup_update_Some; by exists b|]. destruct (p j b) eqn:Hp; [|done].
    rewrite (Ho j b Hp). split; [done|]. intros Hne. etrans; [by apply HR|]. apply (Hf j b); [done|done|congruence].
  - intros j b Hb Hn0. apply lookup_update_Some in Hb as (a & Ha & ->). specialize (Hn j a Ha Hn0).
    destruct (p j a) eqn:Hp; [|done]. by rewrite (Ho j a Hp).
Qed.
End Owned.

(** What the day does to an intent: it is activated or expires. *)
Definition swept (a b : CoreRow) : Prop :=
  same_order_row a b /\
  (c_status b = c_status a \/ (is_open (c_status a) = true /\ c_status b = "expired") \/
   (c_status a = "scheduled" /\ c_status b = "active")).
#[export] Instance swept_refl : Reflexive swept.
Proof. intros a. split; [done|by left]. Qed.
#[export] Instance swept_trans : Transitive swept.
Proof.
  intros a b c [Hab Ha] [Hbc Hb]. split; [by apply same_order_row_trans with b|].
  destruct Ha as [Ha|[[Ho Ha]|[Hs Ha]]], Hb as [Hb|[[Ho' Hb]|[Hs' Hb]]]; rewrite ?Ha in *; try discriminate; auto.
  right. left. split; [|done]. by rewrite Hs.
Qed.

(** The database as the accounts other than [u] see it, since [d0]. *)
Record isolated (u : uuid) (d0 d : db) : Prop := {
  is_cores : owned c_owner_user_id swept u (cores d0) (cores d);
  is_satellites : forall i a, cores d0 !! i = Some a -> c_owner_user_id a <> u ->
    price_params d !! i = price_params d0 !! i /\ trailing_params d !! i = trailing_params d0 !! i;
  is_legacy : owned l_owner_user_id eq u (legacy_intents d0) (legacy_intents d);
  is_slices : owned ts_owner_user_id eq u (twap_slices d0) (twap_slices d);
  is_notifications : owned n_owner_user_id eq u (notifications d0) (notifications d);
  is_records : forall k r, idempotency_keys d0 !! k = Some r -> ik_user_id r <> u -> idempotency_keys d !! k = Some r;
  is_users : users d = users d0;
  is_tokens : refresh_tokens d = refresh_tokens d0;
}.

Lemma isolated_refl u d : isolated u d d.
Proof. split; try done; apply owned_refl; (apply _ || by intros ?). Qed.

(** The tables an account's call is judged by. *)
Definition account_side (d : db) :=
  (cores d, price_params d, trailing_params d, legacy_intents d, twap_slices d, notifications d, users d, refresh_tokens d,
   idempotency_keys d).

Section Isolation.
  Context {P : Type} `{QuoteProvider P} (u : uuid) (d0 : db).

(** While a command runs, no idempotency record is written either. *)
Definition running (d : db) : Prop := isolated u d0 d /\ idempotency_keys d ⊆ idempotency_keys d0.
Abbreviation J := running.
Notation iso := (preserves (P := P) (both J)).

Lemma running_frame d d' : account_side d' = account_side d -> J d -> J d'.
Proof.
  unfold account_side. intros [= E1 E2 E3 E4 E5 E6 E7 E8 E9] [[Ha Hs Hb Hsl Hn Hr Hc Hd] Hk]. split; [split|]; rewrite ?E1, ?E2, ?E3, ?E4, ?E5, ?E6, ?E7, ?E8, ?E9; done.
Qed.

Lemma execute_iso f : (forall d, account_side (f d) = account_side d) -> iso (execute f).
Proof. intros Hf. apply both_execute. intros d. by apply running_frame. Qed.
Lemma insert_iso v f : (forall d, account_side (f d) = account_side d) -> iso (insert_checked v f).
Proof. intros Hf. apply both_insert. intros d Hd _. by apply (running_frame d). Qed.

(** The lifecycle only sweeps. *)
Lemma sweep_iso (p : uuid -> CoreRow -> bool) st now :
  (forall i c, p i c = true -> swept c (core_set st (c_cancelled_at c) (c_triggered_at c) (c_last_fill_at c) (c_filled_quantity_lots c) now c)) ->
  iso (update_counting p (fun x => core_set st (c_cancelled_at x) (c_triggered_at x) (c_last_fill_at x) (c_filled_quantity_lots x) now x)).
Proof.
  intros Hp. unfold update_counting, update_cores. apply preserves_bind; [apply preserves_query|intros n].
  apply preserves_bind; [|intros; apply preserves_ret]. apply both_execute. intros d [[Hc Hs Hl Hsl Hn Hr Hu Ht] Hk]. split; [|done].
  split; try done. apply owned_update; [apply _|done|done|]. intros i c _ Hpc _. by apply (Hp i).
Qed.

Lemma lifecycle_iso : iso (Lifecycle.run core_store).
Proof.
  unfold Lifecycle.run. cbn [expire_day_intents_through activate_scheduled_day_intents core_store].
  assert (forall c now, iso (system_expire_day_intents_through c now)).
  { intros. apply sweep_iso. intros i r [Ho _]%andb_true_iff. split; [done|]. right. by left. }
  assert (forall t now, iso (system_activate_scheduled_day_intents t now)).
  { intros. apply sweep_iso. intros i r [Hs _]%andb_true_iff. apply String.eqb_eq in Hs. split; [done|]. right. by right. }
  preserve.
Qed.

(** The notification of an inline trigger goes to the owner of the new intent. *)
Definition own_notes (d : db) : Prop := owned n_owner_user_id eq u (notifications d0) (notifications d).
Notation notes := (preserves (P := P) (both own_notes)).

Lemma notification_violation_absent i r d : notification_violation i r d = None -> notifications d !! i = None.
Proof.
  intros Hv. unfold notification_violation in Hv. apply first_violation_none in Hv. rewrite !Forall_cons in Hv.
  destruct Hv as (_ & _ & Hpk & _). cbn in Hpk. by destruct (notifications d !! i).
Qed.

Lemma execute_notes f : (forall d, notifications (f d) = notifications d) -> notes (execute f).
Proof. intros Hf. apply both_execute. unfold own_notes. intros d Hd. by rewrite Hf. Qed.
Lemma insert_notes v f : (forall d, notifications (f d) = notifications d) -> notes (insert_checked v f).
Proof. intros Hf. apply both_insert. unfold own_notes. intros d Hd _. by rewrite Hf. Qed.

Ltac other_table := repeat (preserve_step || (apply execute_notes; done) || (apply insert_notes; done)).

Lemma fire_notes i q r : i_owner_user_id i = u -> notes (fire i q r).
Proof.
  intros Hi. unfold fire, persist_core_trigger, write_trigger, mark_triggered, update_counting, update_cores, insert_trigger.
  assert (forall n x now, notes (insert_notification n (notification_row_of i x now))).
  { intros n x now. apply both_insert. intros d Hd Hv. by apply owned_insert, notification_violation_absent with (notification_row_of i x now). }
  other_table.
Qed.

Lemma inline_notes id symbol strategy now : notes (apply_inline_trigger_if_quote_met id u symbol strategy now).
Proof.
  unfold apply_inline_trigger_if_quote_met. apply preserves_bind; [apply quiet_preserves, fetch_quiet|intros [q|]; [|apply preserves_ret]].
  intros w r w' Hw. unfold bind at 1. destruct (find_by_id id u w) as [[i|e] w1] eqn:Hf; pose proof (find_by_id_world _ _ _ _ _ Hf) as ->;
    [|by intros [= _ <-]].
  assert (Hi : i_owner_user_id i = u) by (by destruct (find_by_id_found _ _ _ _ _ Hf) as (c & st & _ & <- & ->)).
  assert (Hk : notes (do x <- lift (evaluate q i now); do j <- store_baseline i x; if should_trigger x then fire j q x else ret tt));
    [|by apply Hk].
  apply preserves_bind; [apply preserves_lift|intros x]. unfold store_baseline, apply_trailing_baseline_update.
  assert (forall a b c t, notes (system_update_trailing_baseline a b c t)).
  { intros. unfold system_update_trailing_baseline, update_cores. other_table. }
  pose proof fire_notes. destruct (e_baseline_updated_at x) as [t|].
  - assert (forall b c t q r, notes (fire (intent_with_baseline i b c t) q r)) by (intros; by apply fire_notes).
    intros w1 r1 w1' Hw1. unfold bind, ret. destruct (system_update_trailing_baseline _ _ _ _ w1) as [[y|e] w2] eqn:Hy.
    + intros Hr. assert (Hw2 : both own_notes w2) by (eapply H0; eassumption).
      destruct (should_trigger x); [by eapply H2; eassumption|by injection Hr as _ <-].
    + intros [= _ <-]. eapply H0; eassumption.
  - unfold bind, ret. destruct (should_trigger x); [by apply fire_notes|]. by intros w1 r1 w1' Hw1 [= _ <-].
Qed.

Lemma create_notes ks limits inp : (forall c, ks = Some c -> quiet c) -> ci_owner_user_id inp = u -> notes (create_command ks limits inp).
Proof.
  intros Hks Hu. assert (notes (halted_now ks)).
  { unfold halted_now. destruct ks as [c|]; [by apply quiet_preserves, Hks|apply preserves_ret]. }
  assert (forall s, notes (reconcile_on_create s)) by (intros; apply quiet_preserves, reconcile_on_create_quiet).
  assert (forall a, notes (create a)).
  { intros a. unfold create, flush_create, insert_core, insert_price_params, insert_trailing_params. other_table. }
  pose proof inline_notes as Hin. rewrite <-Hu in Hin.
  unfold create_command, create_body, get_tradable_symbol, get_by_symbol, check_limits, count_active_or_scheduled_for_user,
    count_active_or_scheduled_for_user_symbol. apply preserves_bind; [apply both_transaction; preserve|intros i].
  unfold find_by_id, get_core. preserve.
Qed.

(** Creating and cancelling. *)
Lemma create_iso ks limits inp : (forall c, ks = Some c -> quiet c) -> ci_owner_user_id inp = u -> iso (create_command ks limits inp).
Proof.
  intros Hks Hu w r w' [[Hd Hkd] [Hp Hkp]] Hrun.
  set (G := fun d => owned l_owner_user_id eq u (legacy_intents d0) (legacy_intents d) /\
    owned ts_owner_user_id eq u (twap_slices d0) (twap_slices d) /\ users d = users d0 /\
    refresh_tokens d = refresh_tokens d0 /\ idempotency_keys d ⊆ idempotency_keys d0 /\
    forall k r, idempotency_keys d0 !! k = Some r -> ik_user_id r <> u -> idempotency_keys d !! k = Some r).
  assert (Hoff : off_track G) by by split.
  destruct (create_command_ev empty_db G Hoff ks limits inp Hks w r w') as [[_ (Hl1 & Hs1 & Hu1 & Ht1 & Hk1 & Hr1)] [_ (Hl2 & Hs2 & Hu2 & Ht2 & Hk2 & Hr2)]]; [|done|].
  { destruct Hd, Hp. split; (split; [|done]); intros i c Hc; cbn in Hc; by rewrite lookup_empty in Hc. }
  destruct (create_notes ks limits inp Hks Hu w r w') as [Hn1 Hn2]; [by destruct Hd, Hp|done|].
  pose proof (create_command_cases ks limits inp w w' r Hks Hrun) as Hcase. destruct r as [i|e].
  2: { destruct Hcase as (Hd' & Hp' & _). split; [by rewrite Hd'|by rewrite Hp', Hd']. }
  destruct Hcase as (_ & Hdp & Hn & Hoth & c & st & Hc & Hown & _).
  assert (Hrow : forall j, j <> i_id i -> cores (pending w') !! j = cores (pending w) !! j /\
    price_params (pending w') !! j = price_params (pending w) !! j /\ trailing_params (pending w') !! j = trailing_params (pending w) !! j).
  { intros j Hj. specialize (Hoth j Hj). by injection Hoth as -> -> ->. }
  destruct Hp as [[Hk Hnew] Hsat _ _ _ _ _ _].
  assert (Hne : forall j x, cores d0 !! j = Some x -> j <> i_id i) by (intros j x Hx ->; destruct (Hk _ _ Hx) as (b & Hb & _); congruence).
  assert (HJ : isolated u d0 (pending w')).
  { split; try done.
    - split.
      + intros j x Hx. destruct (Hk j x Hx) as (b & Hb & Hs). exists b. split; [|done]. by rewrite (proj1 (Hrow j (Hne j x Hx))).
      + intros j b Hb Hx. destruct (decide (j = i_id i)) as [->|Hj]; [congruence|]. rewrite (proj1 (Hrow j Hj)) in Hb. by apply (Hnew j).
    - intros j x Hx Hxo. destruct (Hrow j (Hne j x Hx)) as (_ & -> & ->). by apply (Hsat j x). }
  split; [by rewrite Hdp|done].
Qed.

Lemma cancel_iso i : iso (cancel_command i u).
Proof.
  unfold cancel_command. assert (iso (cancel i u)).
  { intros w r w' [Hd Hp] Hrun. destruct (cancel_cases i u w r w' Hrun) as [[-> _]|(c & s & Hc & Ho & _ & _ & -> & _)]; [done|].
    split; [done|]. destruct Hp as [[Hcs Hsat Hl Hsl Hn Hr Hus Ht] Hk]. split; [|done]. split; try done. apply owned_update; [apply _|done|done|].
    intros j a Ha ->%Z.eqb_eq Hne. congruence. }
  assert (forall s, iso (reconcile_after_terminal_transition s)) by (intros; apply quiet_preserves, reconcile_after_quiet).
  apply preserves_bind; [apply both_transaction; preserve|intros x]. preserve.
Qed.

(** The confirmation of a TWAP plan. *)
Lemma create_twap_iso symbol plan em tif st pt : iso (LegacyRepo.create_twap u symbol plan em tif st pt).
Proof.
  unfold LegacyRepo.create_twap.
  assert (forall l, iso (LegacyRepo.draw_ids l)).
  { induction l as [|x l IH]; cbn [LegacyRepo.draw_ids]; preserve. }
  assert (forall i now, iso (LegacyRepo.insert_legacy i (LegacyRepo.twap_row u symbol plan em tif st pt now))).
  { intros i now. apply both_insert. intros d [[Hc Hs Hl Hsl Hn Hr Hu Ht] Hk] Hv. split; [|done]. split; try done.
    apply owned_insert; [done|done|]. by eapply legacy_violation_absent. }
  assert (forall i n now s, iso (LegacyRepo.insert_slice i (LegacyRepo.slice_row_of n u symbol now s))).
  { intros i n now s. apply both_insert. intros d [[Hc Hs Hl Hsl Hn Hr Hu Ht] Hk] Hv. split; [|done]. split; try done.
    apply owned_insert; [done|done|]. by eapply slice_violation_absent. }
  unfold LegacyRepo.flush_as. preserve.
Qed.

Lemma confirm_iso limits inp : pi_owner_user_id inp = u -> iso (confirm limits inp).
Proof.
  intros Hu. unfold confirm, confirm_body, validate_symbol, get_tradable_symbol, get_by_symbol, enforce_creation_caps, build_plan,
    LegacyRepo.count_active_or_scheduled_for_user, LegacyRepo.count_active_or_scheduled_for_user_symbol, LegacyRepo.count_legacy.
  assert (iso (reconcile_on_create (pi_symbol inp))) by (apply quiet_preserves, reconcile_on_create_quiet).
  assert (forall i, iso (LegacyRepo.find_by_id i (pi_owner_user_id inp))) by (intros i; unfold LegacyRepo.find_by_id, LegacyRepo.get_legacy; preserve).
  rewrite Hu in *. pose proof create_twap_iso. apply preserves_bind; [apply both_transaction; preserve|done].
Qed.

End Isolation.

(** ** What is shown *)

(** What of the database is [u]'s own. *)
Definition own_intent (u : uuid) (d : db) (x : TradeIntentData) : Prop :=
  exists c st, cores d !! i_id x = Some c /\ c_owner_user_id c = u /\ x = to_domain d (i_id x) c st.
Definition own_plan (u : uuid) (d : db) (x : TradeIntentData) : Prop :=
  exists r st, legacy_intents d !! i_id x = Some r /\ l_owner_user_id r = u /\ x = LegacyRepo.to_domain (i_id x) r st.
Definition own_slice (u : uuid) (d : db) (s : LegacyRepo.TwapSliceData) : Prop :=
  twap_slices d !! LegacyRepo.sd_id s = Some (LegacyRepo.sd_row s) /\ ts_owner_user_id (LegacyRepo.sd_row s) = u.
Definition own_notification (u : uuid) (d : db) (n : Notifications.NotificationData) : Prop :=
  exists r, notifications d !! Notifications.nd_id n = Some r /\ n_owner_user_id r = u /\
    n = Notifications.to_notification (Notifications.nd_id n) r.
Definition own_record (u : uuid) (d : db) (body : jvalue) : Prop :=
  exists k r, idempotency_keys d !! k = Some r /\ ik_user_id r = u /\ body = ik_response_snapshot r.

(** The cursor of a page is the id of a row of the table, which is [u]'s. *)
Definition own_cursor {A} (owner : A -> uuid) (u : uuid) (m : gmap uuid A) (next : option uuid) : Prop :=
  forall i, next = Some i -> exists a, m !! i = Some a /\ owner a = u.

Section Shown.
  Context `{Pydantic}.

(** The bodies of the answers to the calls of an account [u], by the database
    [d0] the call found and the database [d] it left. *)
Definition shows (u : uuid) (d0 d : db) (c : call) (body : jvalue) : Prop :=
  match c with
  | Me => exists r, users d !! u = Some r /\ body = document (user_document (to_user u r))
  | GetIntent i => exists x, own_intent u d x /\ i_id x = i /\ map_to_detail_response_data x None = Ok body
  | ListIntents q => exists l rows next, Forall (own_intent u d) l /\ own_cursor c_owner_user_id u (cores d) next /\
      map_result map_to_response_data l = Ok rows /\
      body = intent_list_response rows (str_uuid <$> next) (Z.to_nat (lq_page_size q))
  | CreateIntent _ => own_record u d0 body \/
      exists x row, own_intent u d x /\ map_to_response_data x = Ok row /\ body = intent_create_response row
  | CancelIntent i => own_record u d0 body \/
      exists x, own_intent u d x /\ i_id x = i /\ map_to_detail_response_data x None = Ok body
  | ConfirmTwap => own_record u d0 body \/
      exists x l, own_plan u d x /\ Forall (own_slice u d) l /\ map_to_detail_response_data x (Some l) = Ok body
  | PreviewTwap => exists symbol plan, body = map_twap_plan symbol plan
  | ListNotifications _ _ n => exists l next, Forall (own_notification u d) l /\
      own_cursor n_owner_user_id u (notifications d) next /\
      body = notification_list_response l (str_uuid <$> next) (Z.to_nat n)
  | MarkNotificationRead i => exists n, own_notification u d n /\ Notifications.nd_id n = i /\ notification_read_response n = Ok body
  | _ => False
  end.
End Shown.

(** Pages hold rows of the query. *)
Lemma page_rows {A} (after : A -> A -> bool) (row_id : A -> uuid) n rows anchor :
  let page := page_after after row_id n rows anchor in
  (forall x, x ∈ fst page -> x ∈ rows) /\ (forall i, snd page = Some i -> exists x, x ∈ rows /\ row_id x = i).
Proof.
  cbn zeta. assert (Hin : forall x, x ∈ fst (page_after after row_id n rows anchor) -> x ∈ rows).
  { unfold page_after, cut_page. cbn [fst]. intros x Hx. apply elem_of_take in Hx as (j & Hx & _).
    apply list_elem_of_lookup_2, elem_of_take in Hx as (k & Hx & _). apply list_elem_of_lookup_2 in Hx. rewrite order_by_perm in Hx.
    destruct anchor; [|done]. by apply list_elem_of_In, filter_In in Hx as [Hx%list_elem_of_In _]. }
  split; [done|]. intros i. unfold page_after, cut_page. cbn [snd]. destruct (_ <? _)%nat; [|done].
  intros Hl. apply fmap_Some in Hl as (x & Hx & ->). exists x. split; [|done]. apply Hin.
  unfold page_after, cut_page. cbn [fst]. apply last_Some in Hx as [l ->]. set_solver.
Qed.

Section Sources.
  Context {P : Type} `{QuoteProvider P} (u : uuid).
  Implicit Types w : world P.

Lemma to_domains_own d rows l : (forall k c, (k, c) ∈ rows -> cores d !! k = Some c /\ c_owner_user_id c = u) ->
  to_domains d rows = Ok l -> Forall (own_intent u d) l.
Proof.
  revert l. induction rows as [|[k c] rows IH]; intros l Hr; cbn [to_domains]; [by intros [= <-]|].
  assert (Hrest : forall j x, (j, x) ∈ rows -> cores d !! j = Some x /\ c_owner_user_id x = u) by (intros; apply Hr; by right).
  destruct (with_symbol_type d c) as [[c1 ty]|]; [|by apply IH].
  intros Hl. apply rbind_Ok in Hl as (st & _ & Hl). apply rbind_Ok in Hl as (l' & Hl' & [= <-]).
  constructor; [|by apply IH]. destruct (Hr k c ltac:(by left)) as [Hk Ho]. by exists c, st.
Qed.

Lemma list_by_owner_own statuses date cursor n w l next w' :
  IntentRepo.list_by_owner u statuses date cursor n w = (Ok (l, next), w') ->
  w' = w /\ Forall (own_intent u (pending w)) l /\ own_cursor c_owner_user_id u (cores (pending w)) next.
Proof.
  unfold IntentRepo.list_by_owner. intros Hrun. apply bind_Ok in Hrun as (d & w1 & [= <- <-] & Hrun).
  apply bind_Ok in Hrun as (anchor & w2 & Ha & Hrun). unfold id in *.
  assert (w2 = w) as ->.
  { destruct cursor as [i|]; [|by inversion Ha]. destruct (cores (pending w) !! i) as [r|]; [|done].
    destruct (_ =? _); [by inversion Ha|done]. }
  clear Ha. set (rows := select_where _ _) in Hrun.
  destruct (page_rows (row_after (is_terminal_only statuses)) fst n rows anchor) as [Hin Hnext].
  destruct (page_after _ _ _ _ _) as [page nx]. cbn [fst snd] in *.
  apply bind_Ok in Hrun as (l1 & w3 & [= Hl <-] & [= <- <- <-]). split; [done|].
  assert (Hrows : forall k c, (k, c) ∈ rows -> cores (pending w) !! k = Some c /\ c_owner_user_id c = u).
  { intros k c Hkc. apply elem_of_select in Hkc as [Hk Hlisted]. split; [done|]. unfold listed in Hlisted.
    rewrite !andb_true_iff in Hlisted. destruct Hlisted as [[[Ho _] _] _]. by apply Z.eqb_eq. }
  split; [|intros i Hi; destruct (Hnext i Hi) as ([k c] & Hk & <-); exists c; by apply Hrows].
  eapply to_domains_own; [|exact Hl]. intros k c Hkc. by apply Hrows, Hin.
Qed.

Lemma inbox_own unread cursor n w l next w' :
  Notifications.list_by_owner u unread cursor n w = (Ok (l, next), w') ->
  w' = w /\ Forall (own_notification u (pending w)) l /\ own_cursor n_owner_user_id u (notifications (pending w)) next.
Proof.
  unfold Notifications.list_by_owner. intros Hrun. apply bind_Ok in Hrun as (d & w1 & [= <- <-] & Hrun).
  apply bind_Ok in Hrun as (anchor & w2 & Ha & Hrun).
  assert (w2 = w) as ->.
  { destruct cursor as [i|]; [|by inversion Ha]. destruct (notifications (pending w) !! i) as [r|]; [|done].
    destruct (_ =? _); [by inversion Ha|done]. }
  clear Ha. set (rows := select_where _ _) in Hrun.
  destruct (page_rows Notifications.newer fst n rows anchor) as [Hin Hnext].
  destruct (page_after _ _ _ _ _) as [page nx]. cbn [fst snd] in *. injection Hrun as <- <- <-. split; [done|].
  assert (Hrows : forall k c, (k, c) ∈ rows -> notifications (pending w) !! k = Some c /\ n_owner_user_id c = u).
  { intros k c Hkc. apply elem_of_select in Hkc as [Hk Hlisted]. split; [done|]. unfold Notifications.in_inbox in Hlisted.
    apply andb_true_iff in Hlisted as [Ho _]. by apply Z.eqb_eq. }
  split; [|intros i Hi; destruct (Hnext i Hi) as ([k c] & Hk & <-); exists c; by apply Hrows].
  apply Forall_fmap, Forall_forall. intros [k c] Hkc. destruct (Hrows k c (Hin _ Hkc)) as [Hk Ho]. by exists c.
Qed.

Lemma found_own i w x w' : IntentRepo.find_by_id i u w = (Ok x, w') -> w' = w /\ own_intent u (pending w) x /\ i_id x = i.
Proof.
  intros Hf. pose proof (find_by_id_world _ _ _ _ _ Hf) as ->. destruct (find_by_id_found _ _ _ _ _ Hf) as (c & st & Hc & Ho & ->).
  split; [done|]. split; [|done]. by exists c, st.
Qed.

(** A sweep that counted nothing changed nothing. *)
Lemma update_nothing {A} (p : uuid -> A -> bool) f m : count_where p m = 0 -> update_where p f m = m.
Proof.
  intros Hz. pose proof (proj1 (count_zero p m) Hz) as Hno. clear Hz. apply map_eq. intros k. rewrite lookup_update. destruct (m !! k) as [a|] eqn:Ha; [|done].
  cbn. by rewrite (Hno k a Ha).
Qed.
Lemma update_counting_idle p f w n w' : update_counting p f w = (Ok n, w') ->
  durable w' = durable w /\ (n = 0 -> pending w' = pending w).
Proof.
  unfold update_counting, update_cores. run_session. intros [= <- <-]. split; [done|]. cbn. intros Hz.
  rewrite update_nothing by done. by destruct (pending w).
Qed.

Lemma lifecycle_rests w r w' : pending w = durable w -> Lifecycle.run core_store w = (Ok r, w') -> pending w' = durable w'.
Proof.
  intros Hc Hrun. unfold Lifecycle.run in Hrun. cbn [expire_day_intents_through activate_scheduled_day_intents core_store] in Hrun.
  apply bind_Ok in Hrun as (t & w1 & [= <- <-] & Hrun). apply bind_Ok in Hrun as (cutoff & w2 & Hl & Hrun). injection Hl as _ <-.
  apply bind_Ok in Hrun as (n & w3 & He & Hrun). apply update_counting_idle in He as [Hd3 Hp3].
  apply bind_Ok in Hrun as (phase & w4 & Hl & Hrun). injection Hl as _ <-.
  apply bind_Ok in Hrun as (m & w5 & Ha & Hrun).
  assert (Hw5 : durable w5 = durable w3 /\ (m = 0 -> pending w5 = pending w3)).
  { destruct (bool_decide _); [by apply update_counting_idle in Ha|by injection Ha as <- <-]. }
  destruct Hw5 as [Hd5 Hp5]. apply bind_Ok in Hrun as (x & w6 & Hw & [= _ <-]).
  destruct (Z.eqb_spec n 0) as [Hn|]; cbn [negb orb when] in Hw; [|by injection Hw as _ <-].
  destruct (Z.eqb_spec m 0) as [Hm|]; cbn [negb orb when] in Hw; [|by injection Hw as _ <-].
  injection Hw as _ <-. rewrite Hp5, Hp3 by done. congruence.
Qed.

Lemma cancel_own i w x w' : cancel_command i u w = (Ok x, w') -> own_intent u (pending w') x /\ i_id x = i.
Proof.
  unfold cancel_command. intros Hrun. apply bind_Ok in Hrun as (x1 & w1 & Ht & Hrun).
  apply bind_Ok in Hrun as (y & w2 & Hr & [= <- <-]). rewrite reconcile_released in Hr. injection Hr as _ <-. cbn [pending with_provider].
  apply (proj1 (transaction_Ok _ _ _ _)) in Ht. apply bind_Ok in Ht as (x2 & w3 & Hc & Ht). apply bind_Ok in Ht as (z & w4 & [= _ <-] & [= <- <-]). cbn [pending].
  destruct (cancel_cases i u w (Ok x2) w3 Hc) as [[-> Hcase]|(c & s & Hi & Ho & _ & _ & -> & Hx)].
  - destruct Hcase as [[Hcase _]|(c & s & Hi & Ho & _ & [(_ & _ & Hx)|[_ Hx]])]; [done..|].
    destruct (parse_security_type _) as [st|]; [|done]. injection Hx as ->. split; [|done]. by exists c, st.
  - destruct (parse_security_type _) as [st|]; [|done]. injection Hx as ->. split; [|done].
    exists (cancelled_row (db_now w) c), st. split; [|done]. cbn. by rewrite lookup_update, Hi, Z.eqb_refl.
Qed.

Lemma plan_own i w x w' : LegacyRepo.find_by_id i u w = (Ok x, w') -> w' = w /\ own_plan u (pending w) x.
Proof.
  unfold LegacyRepo.find_by_id, LegacyRepo.get_legacy. run_session.
  destruct (legacy_intents (pending w) !! i) as [r|] eqn:Hi; cbn; [|done]. unfold LegacyRepo.with_symbol_type.
  destruct (symbols (pending w) !! l_symbol r) as [s|]; cbn; [|done]. destruct (Z.eqb_spec (l_owner_user_id r) u); cbn; [|done].
  destruct (parse_security_type _) as [st|]; cbn; [|done]. intros [= <- <-]. split; [done|]. by exists r, st.
Qed.
Lemma slices_own i w l w' : LegacyRepo.list_twap_slices i u w = (Ok l, w') -> w' = w /\ Forall (own_slice u (pending w)) l.
Proof.
  unfold LegacyRepo.list_twap_slices. run_session. destruct (legacy_intents (pending w) !! i) as [r|]; cbn; [|done].
  destruct (negb _); cbn; [done|]. intros [= <- <-]. split; [done|]. apply Forall_fmap, Forall_forall.
  intros [k s] Hk. rewrite order_by_perm in Hk. apply elem_of_select in Hk as [Hk [_ Ho%Z.eqb_eq]%andb_true_iff]. by split.
Qed.

End Sources.

(** ** The calls *)

Section Calls.
  Context {Q : Type} `{QuoteProvider Q} `{Crypto} `{!Mailer (system Q)} `{!BotTransport (system Q)} `{Pydantic}.
  Context (settings : Config.Settings) (wired : bool) (hash_payload : jvalue -> string) (decide : TelegramIntentDecider).
  Context (u : uuid) (d0 : db).
  Abbreviation P := (system Q).
  Notation iso := (preserves (P := P) (both (running u d0))).

(** The same for the programs of the endpoints. *)
Definition keeps {E A} (c : prog (world P) E A) : Prop :=
  forall w r w', both (running u d0) w -> c w = (r, w') -> both (running u d0) w'.

Lemma keeps_bind {E A B} (c : prog (world P) E A) (k : A -> prog (world P) E B) : keeps c -> (forall a, keeps (k a)) -> keeps (bind c k).
Proof.
  intros Hc Hk w r w' Hw. unfold bind. destruct (c w) as [[a|e] w1] eqn:Hcw; [|intros [= _ <-]; by eapply Hc].
  intros Hkw. eapply Hk; [|exact Hkw]. by eapply Hc.
Qed.
Lemma keeps_calling {A} (c : M P A) : iso c -> keeps (calling c).
Proof.
  intros Hc w r w' Hw. unfold calling. destruct (c w) as [[a|e] w1] eqn:Hcw; intros [= _ <-]; by eapply Hc.
Qed.
Lemma keeps_still {E A} (c : prog (world P) E A) : (forall w, snd (c w) = w) -> keeps c.
Proof. intros Hc w r w' Hw Hr. specialize (Hc w). rewrite Hr in Hc. cbn in Hc. by subst. Qed.

Lemma calling_lift {A} (x : res A) (w w' : world P) a : calling (lift x) w = (Ok a, w') -> x = Ok a /\ w' = w.
Proof. unfold calling, lift. destruct x as [y|e]; by intros [= <- <-]. Qed.
Lemma validation_Ok {A} (x : validated A) (w w' : world P) a : validation x w = (Ok a, w') -> x = Ok a /\ w' = w.
Proof. unfold validation. destruct x as [y|e]; by intros [= <- <-]. Qed.
Lemma calling_Ok {A} (c : M P A) (w w' : world P) a : calling c w = (Ok a, w') -> c w = (Ok a, w').
Proof. unfold calling. destruct (c w) as [[x|e] w1]; by intros [= <- <-]. Qed.

(** A session whose caller is known. *)
Lemma gate_account {A} rq (usr : RequestUser) (k : RequestUser -> prog (world P) raised A) (w w' : world P) r :
  speaks_for settings rq w usr -> in_session (bind (active_user settings rq) k) w = (r, w') ->
  exists w1, k usr (opening w) = (r, w1) /\ durable w' = durable w1.
Proof.
  intros Hu. destruct (authorize_cases settings rq w) as (a & Ha & Hcase). destruct a as [x|e]; [|by destruct (proj2 Hcase usr)].
  rewrite (speaks_unique _ _ _ _ _ Hcase Hu) in Ha. unfold in_session, active_user, bind, calling. fold (opening w). rewrite Ha.
  destruct (k usr (opening w)) as [r1 w1] eqn:Hr. intros [= <- <-]. by exists w1.
Qed.

Definition charged_world (usr : RequestUser) (w : world P) : world P :=
  at_rest (mutation_charged settings (ru_user_id usr) (app_now w) (durable w)) w.

Lemma gate_mutating {A} rq (usr : RequestUser) (k : RequestUser * string -> prog (world P) raised A) (w w' : world P) r :
  speaks_for settings rq w usr -> in_session (bind (mutating settings rq) k) w = (r, w') ->
  (is_ok r = false /\ durable w' = durable (charged_world usr w)) \/
  exists key w1, k (usr, key) (charged_world usr w) = (r, w1) /\ durable w' = durable w1.
Proof.
  intros Hu. unfold in_session, bind. fold (opening w). rewrite (mutating_speaks settings rq w usr Hu). fold (charged_world usr w).
  destruct (allowed _); [|intros [= <- <-]; by left]. destruct (get_idempotency_key _) as [key|e]; [|intros [= <- <-]; by left].
  destruct (k (usr, key) (charged_world usr w)) as [r1 w1] eqn:Hr. intros [= <- <-]. right. by exists key, w1.
Qed.

(** ** Memoised answers *)

Lemma holds_own key r d : Idempotency.holds u key r d -> running u d0 d -> own_record u d0 (ik_response_snapshot r).
Proof.
  intros [i Hi] [_ Hk]. assert (Hin : (i, r) ∈ select_where (fun _ r => Idempotency.same_key u key r) (idempotency_keys d)) by (rewrite Hi; by left).
  apply elem_of_select in Hin as [Hl [Hu%Z.eqb_eq _]%andb_true_iff]. exists i, r. split; [by eapply lookup_weaken|done].
Qed.

Lemma record_run key ep h s now ex (w w' : world P) r : Idempotency.create_record u key ep h s now ex w = (r, w') ->
  durable w' = durable w /\
  match r with
  | Raise e => exists c, e = IntegrityError c
  | Ok _ => exists i row, ik_user_id row = u /\ ik_response_snapshot row = s /\ idempotency_keys (pending w) !! i = None /\
      pending w' = set_idempotency_keys (<[i := row]> (idempotency_keys (pending w))) (pending w)
  end.
Proof.
  unfold Idempotency.create_record, insert_checked. run_session. unfold id. cbn [pending].
  destruct (Idempotency.key_violation _ _ _) as [c|] eqn:Hv; intros [= <- <-]; (split; [done|]); [by eexists|].
  unfold Idempotency.key_violation in Hv. apply first_violation_none in Hv. rewrite !Forall_cons in Hv. destruct Hv as (Hpk & _).
  cbn in Hpk. eexists _, _. split; [|split; [|split; [|done]]]; [done..|]. by destruct (idempotency_keys (pending w) !! _).
Qed.

Lemma delete_iso key : iso (Idempotency.delete_record u key).
Proof.
  apply both_execute. intros d [[Hc Hs Hl Hsl Hn Hr Hu Ht] Hk]. split.
  - split; try done. intros j r Hj Hne. cbn. apply lookup_delete_where. split; [by apply Hr|].
    unfold Idempotency.same_key. apply andb_false_iff. left. by apply Z.eqb_neq.
  - cbn. apply map_subseteq_spec. intros j r [Hj _]%lookup_delete_where. by eapply lookup_weaken.
Qed.

(** What a memoised command answers, and what it leaves: the caller's record, or
    what the command itself answered, recorded for the caller. *)
Definition memo_outcome (exec : M P json) (r : res json) (d : db) : Prop :=
  match r with
  | Raise _ => running u d0 d
  | Ok snap => (running u d0 d /\ own_record u d0 snap) \/
      exists w1 w2 i row, both (running u d0) w1 /\ exec w1 = (Ok snap, w2) /\ ik_user_id row = u /\ ik_response_snapshot row = snap /\
        idempotency_keys (pending w2) !! i = None /\
        d = set_idempotency_keys (<[i := row]> (idempotency_keys (pending w2))) (pending w2)
  end.

(** The part of the manager after the look-up. *)
Lemma store_run key ep h now exec (w w' : world P) r : iso exec -> both (running u d0) w ->
  (do snapshot <- exec;
   try_except
     (do_ Idempotency.create_record u key ep h snapshot now (dt_add now Idempotency.RECORD_TTL); do_ commit; ret snapshot)
     (fun e =>
        match e with
        | IntegrityError _ =>
            do_ rollback;
            do winner <- Idempotency.get_record u key;
            match winner with
            | Some r =>
                if Idempotency.live now r && String.eqb (ik_request_hash r) h then ret (ik_response_snapshot r)
                else raise IdempotencyConflictError
            | None => raise IdempotencyConflictError
            end
        | _ => raise e
        end)) w = (r, w') ->
  memo_outcome exec r (durable w').
Proof.
  intros Hx Hw. unfold bind at 1. destruct (exec w) as [[snap|e] w2] eqn:He; [|intros [= <- <-]; by destruct (Hx _ _ _ Hw He)].
  destruct (Hx _ _ _ Hw He) as [Hd2 Hp2]. unfold try_except. unfold bind at 1.
  destruct (Idempotency.create_record _ _ _ _ _ _ _ w2) as [y w3] eqn:Hc. destruct (record_run _ _ _ _ _ _ _ _ _ Hc) as [Hd3 Hy].
  destruct y as [[]|e].
  - destruct Hy as (i & row & Hu & Hs & Hi & Hp3). unfold commit, modify, bind, ret. intros [= <- <-]. right.
    exists w, w2, i, row. repeat (split; [done|]). exact Hp3.
  - destruct Hy as [c ->]. unfold rollback, modify. unfold bind at 1. unfold bind at 1.
    set (w4 := with_pending _ w3). destruct (Idempotency.get_record u key w4) as [[[row|]|e] w5] eqn:Hg;
      pose proof (Idempotency.get_record_run _ _ _ _ _ Hg) as ->.
    + apply Idempotency.get_record_holds in Hg as [_ Hh].
      assert (Hr4 : running u d0 (durable w4)) by (cbn; congruence).
      destruct (_ && _); intros [= <- <-]; [|exact Hr4]. left. split; [exact Hr4|]. eapply holds_own; [exact Hh|]. cbn. congruence.
    + intros [= <- <-]. cbn. congruence.
    + intros [= <- <-]. cbn. congruence.
Qed.

Lemma memo_run key ep p now exec (w w' : world P) r : iso exec -> both (running u d0) w ->
  Idempotency.run hash_payload u key ep p now exec w = (r, w') -> memo_outcome exec r (durable w').
Proof.
  intros Hx Hw. unfold Idempotency.run. unfold bind at 1.
  destruct (Idempotency.get_record u key w) as [[[row|]|e] w1] eqn:Hg; pose proof (Idempotency.get_record_run _ _ _ _ _ Hg) as ->.
  - apply Idempotency.get_record_holds in Hg as [_ Hh]. destruct (Idempotency.live now row).
    + destruct (negb _); intros [= <- <-]; [by destruct Hw|]. left. split; [by destruct Hw|].
      eapply holds_own; [exact Hh|by destruct Hw].
    + unfold bind at 1. destruct (Idempotency.delete_record u key w) as [[[]|e] w2] eqn:Hd; pose proof (delete_iso key _ _ _ Hw Hd) as Hw2.
      * by apply store_run.
      * intros [= <- <-]. by destruct Hw2.
  - by apply store_run.
  - intros [= <- <-]. by destruct Hw.
Qed.

(** The new record is the caller's, and no other is touched. *)
Definition recorded (d : db) (r : result raised Response) : Prop :=
  forall k row, idempotency_keys d !! k = Some row -> idempotency_keys d0 !! k = Some row \/
    (ik_user_id row = u /\ exists resp, r = Ok resp /\ rs_body resp = Some (ik_response_snapshot row)).

Lemma running_recorded d r : running u d0 d -> recorded d r.
Proof. intros [_ Hk] k row Hrow. left. by eapply lookup_weaken. Qed.

Lemma stored_isolated d i row : running u d0 d -> idempotency_keys d !! i = None ->
  isolated u d0 (set_idempotency_keys (<[i := row]> (idempotency_keys d)) d).
Proof.
  intros [[Hc Hs Hl Hsl Hn Hr Hu Ht] _] Hi. split; try done. intros k x Hx Hne. cbn.
  specialize (Hr k x Hx Hne). rewrite lookup_insert_ne; [done|congruence].
Qed.

(** A mutating call with a key, from its gate on. *)
Lemma gate_memo st payload ep (exec : uuid -> M P json) rq (usr : RequestUser) (w w' : world P) r :
  speaks_for settings rq w usr -> ru_user_id usr = u -> d0 = durable w -> iso (exec u) ->
  memoised settings hash_payload st payload ep exec rq w = (r, w') ->
  isolated u d0 (durable w') /\ recorded (durable w') r /\
  forall resp, r = Ok resp -> exists body, rs_body resp = Some body /\
    (own_record u d0 body \/ exists w1 w2 t, exec u w1 = (Ok body, w2) /\ durable w' = set_idempotency_keys t (pending w2)).
Proof.
  intros Hu Hid Hd0 Hx Hrun. assert (Hw0 : both (running u d0) (charged_world usr w)).
  { assert (Hr : running u d0 (durable (charged_world usr w))) by (subst d0; split; [by split; destruct (isolated_refl u (durable w))|done]).
    by split. }
  unfold memoised in Hrun. destruct (gate_mutating rq usr _ w w' r Hu Hrun) as [[Hno Hd]|(key & w1 & Hk & Hd)]; clear Hrun; [|rename Hk into Hrun].
  { rewrite Hd. destruct Hw0 as [Hr _]. split; [by destruct Hr|]. split; [by apply running_recorded|]. by intros resp ->. }
  cbn [fst snd] in Hrun. rewrite Hid in Hrun. unfold bind at 1, now_utc, calling at 1, clock, gets in Hrun.
  unfold bind, calling in Hrun. destruct (Idempotency.run _ _ _ _ _ _ _ _) as [x w2] eqn:Hm.
  apply (memo_run _ _ _ _ _ _ _ _ Hx Hw0) in Hm. rewrite Hd. destruct x as [snap|e].
  - injection Hrun as <- <-. destruct Hm as [[Hr Hown]|(w3 & w4 & i & row & Hw3 & He & Hru & Hrs & Hi & Hdd)].
    + split; [by destruct Hr|]. split; [by apply running_recorded|]. intros ? [= <-]. exists snap. split; [done|by left].
    + destruct (Hx _ _ _ Hw3 He) as [_ Hp4]. rewrite Hdd. split; [by apply stored_isolated|]. split.
      * intros k x Hk. cbn in Hk. apply lookup_insert_Some in Hk as [[<- <-]|[_ Hk]].
        -- right. split; [done|]. eexists. split; [done|]. cbn. by rewrite Hrs.
        -- left. destruct Hp4 as [_ Hsub]. by eapply lookup_weaken.
      * intros ? [= <-]. exists snap. split; [done|]. right. by exists w3, w4, (<[i := row]> (idempotency_keys (pending w4))).
  - injection Hrun as <- <-. split; [by destruct Hm|]. split; [by apply running_recorded|done].
Qed.


(** ** The programs behind the answers *)

Lemma list_page_iso owner statuses date cursor n : iso (IntentRepo.list_by_owner owner statuses date cursor n).
Proof. unfold IntentRepo.list_by_owner. preserve. Qed.
Lemma inbox_iso owner unread cursor n : iso (Notifications.list_by_owner owner unread cursor n).
Proof. unfold Notifications.list_by_owner. preserve. Qed.
Lemma find_core_iso i owner : iso (IntentRepo.find_by_id i owner).
Proof. unfold IntentRepo.find_by_id, get_core. preserve. Qed.
Lemma preview_iso inp : iso (preview inp).
Proof. unfold preview, validate_symbol, get_tradable_symbol, get_by_symbol, build_plan. preserve. Qed.

(** Only the caller's own notification is marked. *)
Lemma mark_read_iso i : iso (Notifications.mark_read_command i u).
Proof.
  unfold Notifications.mark_read_command, Notifications.mark_read. apply both_transaction.
  assert (forall now, iso (execute (fun d => set_notifications
    (update_where (fun (k : uuid) x => (k =? i) && (n_owner_user_id x =? u) && is_none (n_read_at x))
       (notification_read now) (notifications d)) d))).
  { intros now. apply both_execute. intros d [[Hc Hs Hl Hsl Hn Hr Hu Ht] Hk]. split; [|done]. split; try done.
    apply owned_update; [apply _|done|done|]. intros k x _ [[_ Ho%Z.eqb_eq]%andb_true_iff _]%andb_true_iff Hne. congruence. }
  preserve.
Qed.

Lemma create_dump_iso inp : ci_owner_user_id inp = u -> iso (create_and_dump settings wired inp).
Proof.
  intros Hu. unfold create_and_dump. apply preserves_bind; [|intros x; preserve]. apply create_iso; [|done].
  intros ks. unfold kill_switch. destruct wired; [|done]. intros [= <-]. apply is_halted_quiet.
Qed.
Lemma cancel_dump_iso i : iso (cancel_and_dump i u).
Proof. unfold cancel_and_dump. pose proof (lifecycle_iso (P := P) u d0). pose proof (cancel_iso (P := P) u d0). preserve. Qed.
Lemma confirm_dump_iso r : iso (confirm_and_dump settings u r).
Proof.
  unfold confirm_and_dump, LegacyRepo.list_twap_slices. apply preserves_bind; [by apply confirm_iso|intros x]. preserve.
Qed.

Lemma create_dump_own inp (w w' : world P) snap : ci_owner_user_id inp = u -> create_and_dump settings wired inp w = (Ok snap, w') ->
  exists x row, own_intent u (pending w') x /\ map_to_response_data x = Ok row /\ snap = intent_create_response row.
Proof.
  intros Hu Hrun. apply bind_Ok in Hrun as (x & w1 & Hc & Hrun). apply bind_Ok in Hrun as (row & w2 & [= Hrow <-] & [= <- <-]).
  unfold create_command in Hc. apply bind_Ok in Hc as (i & w3 & _ & Hf). rewrite Hu in Hf. apply found_own in Hf as (-> & Hx & _).
  by exists x, row.
Qed.
Lemma cancel_dump_own i (w w' : world P) snap : cancel_and_dump i u w = (Ok snap, w') ->
  exists x, own_intent u (pending w') x /\ i_id x = i /\ map_to_detail_response_data x None = Ok snap.
Proof.
  intros Hrun. apply bind_Ok in Hrun as (y & w1 & _ & Hrun). apply bind_Ok in Hrun as (x & w2 & Hc & [= Hx <-]).
  destruct (cancel_own u i w1 x w2 Hc) as [Ho Hi]. by exists x.
Qed.
Lemma confirm_dump_own r (w w' : world P) snap : confirm_and_dump settings u r w = (Ok snap, w') ->
  exists x l, own_plan u (pending w') x /\ Forall (own_slice u (pending w')) l /\ map_to_detail_response_data x (Some l) = Ok snap.
Proof.
  intros Hrun. apply bind_Ok in Hrun as (x & w1 & Hc & Hrun). apply bind_Ok in Hrun as (l & w2 & Hl & [= Hx <-]).
  apply bind_Ok in Hc as (i & w3 & _ & Hf). apply plan_own in Hf as [-> Ho]. apply slices_own in Hl as [-> Hs]. by exists x, l.
Qed.

(** What a call is shown to be. *)
Definition keeps_to_own (c : call) (r : result raised Response) (d : db) : Prop :=
  isolated u d0 d /\ recorded d r /\ forall resp, r = Ok resp -> exists body, rs_body resp = Some body /\ shows u d0 d c body.

(** A reading call: its program keeps the others' rows and answers with own ones. *)
Lemma read_own c rq (usr : RequestUser) (k : RequestUser -> prog (world P) raised Response) (w w' : world P) r :
  speaks_for settings rq w usr -> d0 = durable w -> keeps (k usr) ->
  (forall resp w1, k usr (opening w) = (Ok resp, w1) -> exists body, rs_body resp = Some body /\ shows u d0 (durable w1) c body) ->
  in_session (bind (active_user settings rq) k) w = (r, w') -> keeps_to_own c r (durable w').
Proof.
  intros Hu Hd0 Hk Hshow Hrun. destruct (gate_account rq usr k w w' r Hu Hrun) as (w1 & Hk1 & Hd). rewrite Hd.
  assert (Hw0 : both (running u d0) (opening w)).
  { assert (Hr : running u d0 (durable w)) by (rewrite Hd0; split; [apply isolated_refl|done]). by split. }
  destruct (Hk _ _ _ Hw0 Hk1) as [Hr _]. split; [by destruct Hr|]. split; [by apply running_recorded|]. intros resp ->. by apply Hshow.
Qed.

Lemma refused_own c rq (usr : RequestUser) (k : RequestUser * string -> prog (world P) raised Response) (w w' : world P) r :
  speaks_for settings rq w usr -> d0 = durable w -> (forall x w1, exists e, k x w1 = (Raise e, w1)) ->
  in_session (bind (mutating settings rq) k) w = (r, w') -> keeps_to_own c r (durable w').
Proof.
  intros Hu Hd0 Hk Hrun. assert (Hr : running u d0 (durable (charged_world usr w))).
  { rewrite Hd0. split; [by split; destruct (isolated_refl u (durable w))|done]. }
  assert (Hgoal : is_ok r = false /\ durable w' = durable (charged_world usr w)).
  { destruct (gate_mutating rq usr k w w' r Hu Hrun) as [|(key & w1 & Hk1 & Hd)]; [done|].
    destruct (Hk (usr, key) (charged_world usr w)) as [e He]. rewrite He in Hk1. by injection Hk1 as <- <-. }
  destruct Hgoal as [Hno ->]. split; [by destruct Hr|]. split; [by apply running_recorded|]. by intros resp ->.
Qed.

Lemma memo_own c st payload ep (exec : uuid -> M P json) rq (usr : RequestUser) (w w' : world P) r :
  speaks_for settings rq w usr -> ru_user_id usr = u -> d0 = durable w -> iso (exec u) ->
  (forall body d, own_record u d0 body -> shows u d0 d c body) ->
  (forall body (w1 w2 : world P) t, exec u w1 = (Ok body, w2) -> shows u d0 (set_idempotency_keys t (pending w2)) c body) ->
  memoised settings hash_payload st payload ep exec rq w = (r, w') -> keeps_to_own c r (durable w').
Proof.
  intros Hu Hid Hd0 Hx Hold Hnew Hrun. destruct (gate_memo st payload ep exec rq usr w w' r Hu Hid Hd0 Hx Hrun) as (Hi & Hrec & Hbody).
  split; [done|]. split; [done|]. intros resp Hr. destruct (Hbody resp Hr) as (body & Hb & Hcase). exists body. split; [done|].
  destruct Hcase as [Ho|(w1 & w2 & t & He & ->)]; [by apply Hold|by eapply Hnew].
Qed.

Lemma no_body_own c rq (k : jvalue -> prog (world P) raised Response) (w w' : world P) r :
  d0 = durable w -> hq_body rq = None -> with_body rq k w = (r, w') -> keeps_to_own c r (durable w').
Proof.
  intros Hd0 Hb. unfold with_body. rewrite Hb. intros [= <- <-].
  assert (Hr : running u d0 (durable w)) by (rewrite Hd0; split; [apply isolated_refl|done]).
  split; [by destruct Hr|]. split; [by apply running_recorded|done].
Qed.

End Calls.

Ltac keep :=
  cbv beta zeta;
  repeat match goal with
  | |- keeps _ _ (bind _ _) => apply keeps_bind; [|intros ?]
  | |- keeps _ _ (calling _) => apply keeps_calling
  | |- keeps _ _ (validation ?v) => apply keeps_still; intros ?; unfold validation; by destruct v
  | |- keeps _ _ (ret _) => by apply keeps_still
  | |- keeps _ _ (raise _) => by apply keeps_still
  | |- keeps _ _ (match ?x with _ => _ end) => destruct x
  | |- preserves _ (lift _) => apply preserves_lift
  | |- preserves _ (Lifecycle.run core_store) => apply lifecycle_iso
  | |- preserves _ (IntentRepo.list_by_owner _ _ _ _ _) => apply list_page_iso
  | |- preserves _ (Notifications.list_by_owner _ _ _ _) => apply inbox_iso
  | |- preserves _ (Notifications.mark_read_command _ _) => apply mark_read_iso
  | |- preserves _ (IntentRepo.find_by_id _ _) => apply find_core_iso
  | |- preserves _ (preview _) => apply preview_iso
  | |- preserves _ (get_user _) => apply preserves_query
  end.

(** The steps of a program that returned. *)
Ltac returned H :=
  cbv beta zeta in H; repeat match type of H with
  | bind _ _ _ = (Ok _, _) => let a := fresh "a" in let v := fresh "v" in let Hs := fresh "Hs" in
      apply bind_Ok in H as (a & v & Hs & H);
      first [apply calling_lift in Hs as [Hs ->] | apply validation_Ok in Hs as [Hs ->] | apply calling_Ok in Hs]
  | ret _ _ = (Ok _, _) => injection H as <- <-
  end.

(** C4. An account works on its own rows only.  Whatever a signed-in user calls,
    with whatever ids and bodies: every intent of another user, on either track,
    is still there, is still that user's, keeps its price, its trail and its
    slices, and has changed by nothing but the day's activation and expiry of the
    new track; the other users' notifications and idempotency records are
    untouched; every new intent, notification and record is the caller's; no
    account and no session changed.  And every answer is made of the caller's own
    rows: intents, plans and notifications that are stored under the caller, the
    caller's account, a plan that is only previewed, or an answer that was
    recorded for the caller before; a record that is written holds the very
    answer given.  So the intent of another user is never shown. *)
Theorem owner_isolation {Q : Type} `{QuoteProvider Q} `{Crypto} `{!Mailer (system Q)} `{!BotTransport (system Q)} `{Pydantic}
    (settings : Config.Settings) (wired : bool) (hash_payload : jvalue -> string) (decide : TelegramIntentDecider)
    (c : call) (rq : Request) (usr : RequestUser) (r : result raised Response) (w w' : world (system Q))
    (Hlevel : required_access c = Some Account) (Husr : speaks_for settings rq w usr)
    (Hrun : serve settings wired hash_payload decide c rq w = (r, w')) :
  let u := ru_user_id usr in
  isolated u (durable w) (durable w') /\
  recorded u (durable w) (durable w') r /\
  (forall resp, r = Ok resp -> exists body, rs_body resp = Some body /\ shows u (durable w) (durable w') c body) /\
  (forall i a, c = GetIntent i -> cores (durable w) !! i = Some a -> c_owner_user_id a <> u -> is_ok r = false).
Proof.
  cbv zeta. assert (Hown : keeps_to_own (ru_user_id usr) (durable w) c r (durable w')).
  { unfold serve in Hrun. destruct c; try discriminate Hlevel.
    all: unfold preview_twap, confirm_twap, create_intent in Hrun.
    all: try (destruct (hq_body rq) as [body|] eqn:Hb; [unfold with_body in Hrun; rewrite Hb in Hrun|by eapply no_body_own; [done| |exact Hrun]]).
    - (* Me *) eapply read_own; [exact Husr|done| | |exact Hrun]; [by keep|]. intros resp w1 Hk. returned Hk.
      injection Hs as <-. cbn [pending opening with_pending] in Hk.
      destruct (users (durable w) !! ru_user_id usr) as [row|] eqn:Hu; cbn in Hk; [|done]. injection Hk as <- <-.
      eexists. split; [done|]. exists row. by split.
    - (* CreateIntent *) destruct (parse_request (models_of k) body) as [q|e] eqn:Hq.
      2: { eapply refused_own; [exact Husr|done| |exact Hrun]; intros x w1. by eexists. }
      eapply (memo_own settings hash_payload _ _ _ 201 (request_payload q) (endpoint_name k)
        (fun u => create_and_dump settings wired (create_input k u q))); [exact Husr|done|done| |by left| |exact Hrun].
      + apply create_dump_iso. by destruct k.
      + intros b w1 w2 t Hx. right. eapply create_dump_own in Hx; [exact Hx|by destruct k].
    - (* ListIntents *) eapply read_own; [exact Husr|done| | |exact Hrun]; [by keep|]. intros resp w1 Hk. returned Hk.
      destruct a3 as [l next]. cbn [fst snd] in *. apply lifecycle_rests in Hs2 as Hrest; [|done].
      apply list_by_owner_own in Hs3 as (-> & Hl & Hn). rewrite Hrest in Hl, Hn. eexists. split; [done|]. by exists l, a4, next.
    - (* PreviewTwap *) eapply read_own; [exact Husr|done| | |exact Hrun]; [by keep|]. intros resp w1 Hk. returned Hk.
      eexists. split; [done|]. by eexists _, _.
    - (* ConfirmTwap *) destruct (parse_twap_request body) as [q|e] eqn:Hq.
      2: { eapply refused_own; [exact Husr|done| |exact Hrun]; intros x w1. by eexists. }
      eapply (memo_own settings hash_payload _ _ _ 201 (twap_payload q) "confirm_twap" (fun u => confirm_and_dump settings u q));
        [exact Husr|done|done|by apply confirm_dump_iso|by left| |exact Hrun].
      intros b w1 w2 t Hx. right. by eapply confirm_dump_own in Hx.
    - (* GetIntent *) eapply read_own; [exact Husr|done| | |exact Hrun]; [by keep|]. intros resp w1 Hk. returned Hk.
      apply lifecycle_rests in Hs as Hrest; [|done]. apply found_own in Hs0 as (-> & Hx & Hi). rewrite Hrest in Hx.
      eexists. split; [done|]. by exists a0.
    - (* CancelIntent *)
      eapply (memo_own settings hash_payload _ _ _ 200 (document [("intent_id", JStr (str_uuid i))]) "cancel_intent" (cancel_and_dump i));
        [exact Husr|done|done|by apply cancel_dump_iso|by left| |exact Hrun].
      intros b w1 w2 t Hx. right. by eapply cancel_dump_own in Hx.
    - (* ListNotifications *) eapply read_own; [exact Husr|done| | |exact Hrun]; [by keep|]. intros resp w1 Hk. returned Hk.
      destruct a1 as [l next]. cbn [fst snd]. apply inbox_own in Hs1 as (-> & Hl & Hn).
      eexists. split; [done|]. by exists l, next.
    - (* MarkNotificationRead *) eapply read_own; [exact Husr|done| | |exact Hrun]; [by keep|]. intros resp w1 Hk. returned Hk.
      rewrite Notifications.mark_read_run in Hs by done. cbn [durable opening with_pending] in Hs.
      destruct (notifications (durable w) !! i) as [row|] eqn:Hi; [|done].
      destruct (Z.eqb_spec (n_owner_user_id row) (ru_user_id usr)) as [Ho|]; [|done]. injection Hs as <- <-.
      eexists. split; [done|]. eexists. split; [|split; [|exact Hs0]]; [|done].
      eexists. split; [|split; [|done]]; [|by destruct (is_none (n_read_at row))].
      cbn. unfold Notifications.marked. by rewrite lookup_alter_eq, Hi. }
  destruct Hown as (Hi & Hr & Hs). split; [done|]. split; [done|]. split; [done|]. intros i a -> Ha Hne.
  destruct r as [resp|e]; [|done]. exfalso. destruct (Hs resp eq_refl) as (body & _ & x & (b & st & Hb & Hob & _) & Hid & _).
  destruct Hi as [[Hk _] _ _ _ _ _ _ _]. destruct (Hk i a Ha) as (b' & Hb' & Hob' & _). rewrite Hid in Hb. congruence.
Qed.

(** Administrator 9 neither sees nor cancels the alert of user 7: the list is
    empty, and the two other calls are refused. *)
Definition shared_db : db := set_price_params (price_params open_db) (set_cores (cores open_db) api_db).
Definition shared_world : world (system InMemoryQuoteProvider) :=
  mkWorld shared_db shared_db (api_system (Dec 700 0)) 100 [] sample_time sample_time.
Definition intruder : Request := request_of (signed_in 9 51 "admin" false) (Some "key-1") None.

Definition everything : ListQuery := mkListQuery [] None None 20.

#[local] Abbreviation as_intruder c := (serve api_settings true (fun _ => "hash") no_decider c intruder).

Lemma owner_isolation_witness :
  (exists u, speaks_for api_settings intruder shared_world u /\ ru_user_id u = 9) /\
  is_ok (fst (as_intruder (GetIntent 1) shared_world)) = false /\ c_owner_user_id (sample_row 2) = 7 /\
  (exists b, cores (durable (snd (as_intruder (CancelIntent 1) shared_world))) !! 1 = Some b /\ swept (sample_row 2) b) /\
  exists resp w1, as_intruder (ListIntents everything) shared_world = (Ok resp, w1) /\
    rs_body resp = Some (intent_list_response [] None 20) /\
    exists body, rs_body resp = Some body /\ shows 9 (durable shared_world) (durable w1) (ListIntents everything) body.
Proof.
  set (u := mkRequestUser 9 "admin" 51 false).
  assert (Hu : speaks_for api_settings intruder shared_world u).
  { exists (signed_in 9 51 "admin" false). exists (mkPayload 9 "admin" 51 false (timestamp sample_time) (timestamp (dt_add sample_time (900 * SECOND)))).
    exists (mkRefreshToken 9 "sha256:b" None sample_time (dt_add sample_time DAY) None None true).
    split; [reflexivity|]. split; [reflexivity|]. split; [vm_compute; reflexivity|]. split; [reflexivity|]. split; [vm_compute; reflexivity|by left]. }
  assert (Hrow : cores (durable shared_world) !! 1 = Some (sample_row 2)) by (vm_compute; reflexivity).
  assert (Hne : c_owner_user_id (sample_row 2) <> ru_user_id u) by (intros E; discriminate E).
  assert (Hlist : match fst (as_intruder (ListIntents everything) shared_world) with
    | Ok resp => rs_body resp = Some (intent_list_response [] None 20) | Raise _ => False end) by (vm_compute; reflexivity).
  assert (Hid : ru_user_id u = 9) by reflexivity.
  pose proof (fun c r w1 => owner_isolation api_settings true (fun _ => "hash") no_decider c intruder u r shared_world w1) as Hiso.
  split; [exists u; split; [exact Hu|exact Hid]|]. clearbody u.
  destruct (as_intruder (GetIntent 1) shared_world) as [r1 w1] eqn:H1. destruct (as_intruder (CancelIntent 1) shared_world) as [r2 w2] eqn:H2.
  destruct (as_intruder (ListIntents everything) shared_world) as [r3 w3] eqn:H3.
  split; [|split; [reflexivity|split]].
  - destruct (Hiso (GetIntent 1) _ _ eq_refl Hu H1) as (_ & _ & _ & Hno). exact (Hno 1 _ eq_refl Hrow Hne).
  - destruct (Hiso (CancelIntent 1) _ _ eq_refl Hu H2) as [[[Hk _] _ _ _ _ _ _ _] _]. destruct (Hk 1 _ Hrow) as (b & Hb & _ & Hsw).
    exists b. split; [exact Hb|exact (Hsw Hne)].
  - destruct r3 as [resp|e]; [|destruct Hlist]. exists resp, w3. split; [reflexivity|]. split; [exact Hlist|].
    destruct (Hiso (ListIntents everything) _ _ eq_refl Hu H3) as (_ & _ & Hs & _). rewrite Hid in Hs. exact (Hs resp eq_refl).
Defined.
