(* ===== verification/Ddl.v ===== *)
(** * The schema as a value, and the statements that change it

    What [src/app/db/migrations] asks of PostgreSQL: tables with typed columns,
    constraints and indexes, the rows in them, and the DDL statements of the
    revisions, which fail when a name is taken or missing, when something
    depends on what they drop, or when the rows do not fit what they add.
    CHECKs are expressions with SQL's three truth values.  The order of the
    columns of a table is not kept: every statement names its columns. *)

From Stdlib Require Import QArith Qcanon.
From S2P Require Import Prelude.
#[local] Open Scope Z_scope.

(** ** Values, rows and conditions *)

Inductive value : Type :=
| Null
| Text (s : string)
| Citext (s : string)          (* compared without regard to case *)
| Int (z : Z)
| Num (q : Qc)
| Flag (b : bool)
| Instant (microseconds : Z)   (* timestamptz *)
| Day (days : Z)
| Clock (microseconds : Z)     (* time *)
| Uuid (n : Z)
| Jsonb (s : string)
| Bytes (s : string)
| Inet (s : string).

#[export] Instance value_eq_dec : EqDecision value.
Proof. solve_decision. Defined.

Inductive coltype : Type :=
| TUuid | TText | TCitext | TInteger | TNumeric (precision_scale : option (Z * Z))
| TBoolean | TTimestamptz | TDate | TTime | TJsonb | TBytea | TInet.

#[export] Instance coltype_eq_dec : EqDecision coltype.
Proof. solve_decision. Defined.

(** A numeric of precision [p] and scale [s]: at most [s] digits behind the
    point and [p - s] before it. *)
Definition fits_numeric (p s : Z) (q : Qc) : bool :=
  let units := (q * Q2Qc (inject_Z (10 ^ s)))%Qc in
  Pos.eqb (Qden units) 1 && (Z.abs (Qnum units) <? 10 ^ p).

(** NULL belongs to every type. *)
Definition has_type (ty : coltype) (v : value) : bool :=
  match ty, v with
  | _, Null => true
  | TUuid, Uuid _ | TText, Text _ | TCitext, Citext _ | TBoolean, Flag _ | TTimestamptz, Instant _
  | TDate, Day _ | TTime, Clock _ | TJsonb, Jsonb _ | TBytea, Bytes _ | TInet, Inet _ => true
  | TInteger, Int z => (- 2 ^ 31 <=? z) && (z <? 2 ^ 31)
  | TNumeric None, Num _ => true
  | TNumeric (Some (p, s)), Num q => fits_numeric p s q
  | _, _ => false
  end.

Abbreviation row := (gmap string value).

Definition col (r : row) (c : string) : value := default Null (r !! c).

Inductive comparison_operator : Type := Equal | Differs | Less | AtMost | More | AtLeast.

#[export] Instance comparison_operator_eq_dec : EqDecision comparison_operator.
Proof. solve_decision. Defined.

Inductive cond : Type :=
| TextIs (c : string) (o : comparison_operator) (s : string)
| TextIn (c : string) (l : list string)
| TextNotIn (c : string) (l : list string)
| NumberIs (c : string) (o : comparison_operator) (n : Z)
| FlagIs (c : string) (b : bool)
| IsNull (c : string)
| IsNotNull (c : string)
| NumNonnullsIs (cs : list string) (n : Z)
| And (p q : cond)
| Or (p q : cond).

#[export] Instance cond_eq_dec : EqDecision cond.
Proof. solve_decision. Defined.

(** Truth, falsehood, and [None] for unknown. *)
Definition truth : Type := option bool.

Definition and3 (p q : truth) : truth :=
  match p, q with
  | Some false, _ | _, Some false => Some false
  | Some true, Some true => Some true
  | _, _ => None
  end.

Definition or3 (p q : truth) : truth :=
  match p, q with
  | Some true, _ | _, Some true => Some true
  | Some false, Some false => Some false
  | _, _ => None
  end.

Definition compare_with (o : comparison_operator) (c : comparison) : bool :=
  match o, c with
  | Equal, Eq | Differs, Lt | Differs, Gt | Less, Lt | AtMost, Lt | AtMost, Eq
  | More, Gt | AtLeast, Gt | AtLeast, Eq => true
  | _, _ => false
  end.

Definition number_compare (v : value) (n : Z) : option comparison :=
  match v with
  | Int z => Some (z ?= n)
  | Num q => Some (Qccompare q (Q2Qc (inject_Z n)))
  | _ => None
  end.

(** The text of a value; a comparison with NULL is unknown.  (A comparison with
    a column of another type is refused when the constraint is made, see
    [cond_fits].) *)
Definition text_of (v : value) : option string :=
  match v with Text s => Some s | _ => None end.

Definition is_null (v : value) : bool :=
  match v with Null => true | _ => false end.

Definition count_nonnulls (r : row) (cs : list string) : Z :=
  Z.of_nat (length (List.filter (fun c => negb (is_null (col r c))) cs)).

Fixpoint eval (p : cond) (r : row) : truth :=
  match p with
  | TextIs c Equal s => option_map (fun t => String.eqb t s) (text_of (col r c))
  | TextIs c Differs s => option_map (fun t => negb (String.eqb t s)) (text_of (col r c))
  | TextIs c o s => option_map (fun t => compare_with o (String.compare t s)) (text_of (col r c))
  | TextIn c l => option_map (fun t => str_in t l) (text_of (col r c))
  | TextNotIn c l => option_map (fun t => negb (str_in t l)) (text_of (col r c))
  | NumberIs c o n => option_map (compare_with o) (number_compare (col r c) n)
  | FlagIs c b => match col r c with Flag b' => Some (Bool.eqb b' b) | _ => None end
  | IsNull c => Some (is_null (col r c))
  | IsNotNull c => Some (negb (is_null (col r c)))
  | NumNonnullsIs cs n => Some (count_nonnulls r cs =? n)
  | And p q => and3 (eval p r) (eval q r)
  | Or p q => or3 (eval p r) (eval q r)
  end.

(** A CHECK is violated by falsehood only; a WHERE selects on truth only. *)
Definition passes (p : cond) (r : row) : bool :=
  match eval p r with Some false => false | _ => true end.
Definition holds (p : cond) (r : row) : bool :=
  match eval p r with Some true => true | _ => false end.

(** ** Schemas *)

Inductive col_default : Type := Now | Literal (v : value).

#[export] Instance col_default_eq_dec : EqDecision col_default.
Proof. solve_decision. Defined.

Record column := Column {
  col_type : coltype;
  nullable : bool;
  server_default : option col_default;
}.

#[export] Instance column_eq_dec : EqDecision column.
Proof. solve_decision. Defined.

Inductive constraint : Type :=
| CheckThat (p : cond)
| PrimaryKey (cs : list string)
| Unique (cs : list string)
| ForeignKey (cs : list string) (table : string) (refs : list string).

#[export] Instance constraint_eq_dec : EqDecision constraint.
Proof. solve_decision. Defined.

Record index := Index {
  ix_table : string;
  ix_unique : bool;
  ix_keys : list (string * bool);   (* column, descending *)
  nulls_not_distinct : bool;
  ix_where : option cond;
}.

#[export] Instance index_eq_dec : EqDecision index.
Proof. solve_decision. Defined.

Record table := Table {
  columns : gmap string column;
  constraints : gmap string constraint;
}.

#[export] Instance table_eq_dec : EqDecision table.
Proof. solve_decision. Defined.

Record schema := Schema {
  tables : gmap string table;
  indexes : gmap string index;
  extensions : gset string;
}.

#[export] Instance schema_eq_dec : EqDecision schema.
Proof. solve_decision. Defined.

Definition empty_schema : schema := Schema ∅ ∅ ∅.

Abbreviation data := (gmap string (list row)).
Definition rows (d : data) (t : string) : list row := default [] (d !! t).

Definition ix_columns (ix : index) : list string := map fst (ix_keys ix).

Fixpoint cond_columns (p : cond) : list string :=
  match p with
  | TextIs c _ _ | TextIn c _ | TextNotIn c _ | NumberIs c _ _ | FlagIs c _ | IsNull c | IsNotNull c => [c]
  | NumNonnullsIs cs _ => cs
  | And p q | Or p q => cond_columns p ++ cond_columns q
  end.

Definition constraint_columns (k : constraint) : list string :=
  match k with
  | CheckThat p => cond_columns p
  | PrimaryKey cs | Unique cs | ForeignKey cs _ _ => cs
  end.

Definition index_columns (ix : index) : list string :=
  ix_columns ix ++ match ix_where ix with Some p => cond_columns p | None => [] end.

(** The constraints that come with an index of their name. *)
Definition index_backed (k : constraint) : bool :=
  match k with PrimaryKey _ | Unique _ => true | _ => false end.

Definition key_columns (k : constraint) : option (list string) :=
  match k with PrimaryKey cs | Unique cs => Some cs | _ => None end.

(** ** What the rows have to satisfy *)

(** ASCII lower case, for the keys of citext columns. *)
Definition lower_ascii (c : ascii) : ascii :=
  let n := nat_of_ascii c in
  if (Nat.leb 65 n && Nat.leb n 90)%bool then ascii_of_nat (n + 32) else c.

Definition key_value (v : value) : value :=
  match v with Citext s => Citext (unchars (map lower_ascii (chars s))) | v => v end.

Definition key (cs : list string) (r : row) : list value := map (fun c => key_value (col r c)) cs.

Definition value_eqb (v w : value) : bool := bool_decide (v = w).
Definition key_eqb (k l : list value) : bool := bool_decide (k = l).

Fixpoint distinct (keys : list (list value)) : bool :=
  match keys with
  | [] => true
  | k :: rest => negb (existsb (key_eqb k) rest) && distinct rest
  end.

(** No two rows with equal keys; unless told otherwise, a key with a NULL
    equals no other. *)
Definition unique_rows (cs : list string) (nulls_not_distinct : bool) (selected : row -> bool) (rs : list row) : bool :=
  distinct (List.filter (fun k => nulls_not_distinct || negb (existsb is_null k))
              (map (key cs) (List.filter selected rs))).

Definition everything (_ : row) : bool := true.

Definition constraint_holds (d : data) (t : string) (k : constraint) : bool :=
  match k with
  | CheckThat p => forallb (passes p) (rows d t)
  | PrimaryKey cs | Unique cs => unique_rows cs false everything (rows d t)
  | ForeignKey cs t' refs =>
      forallb (fun r => existsb is_null (key cs r) || existsb (fun r' => key_eqb (key cs r) (key refs r')) (rows d t'))
        (rows d t)
  end.

Definition index_selects (ix : index) (r : row) : bool :=
  match ix_where ix with Some p => holds p r | None => true end.

Definition index_holds (d : data) (ix : index) : bool :=
  if ix_unique ix
  then unique_rows (ix_columns ix) (nulls_not_distinct ix) (index_selects ix) (rows d (ix_table ix))
  else true.

Definition value_fits (k : column) (v : value) : bool :=
  has_type (col_type k) v && (nullable k || negb (is_null v)).

(** The columns of the table, each with a value of its type. *)
Definition row_fits (cols : gmap string column) (r : row) : bool :=
  bool_decide (dom r = dom cols) &&
  forallb (fun ck => value_fits (snd ck) (col r (fst ck))) (map_to_list cols).

(** ** Consistent databases *)

Definition all_of {A} (m : gmap string A) (f : string -> A -> bool) : bool :=
  forallb (fun nx => f (fst nx) (snd nx)) (map_to_list m).

Definition any_of {A} (m : gmap string A) (f : string -> A -> bool) : bool :=
  existsb (fun nx => f (fst nx) (snd nx)) (map_to_list m).

Definition has_column (tb : table) (c : string) : bool := is_some (columns tb !! c).

(** The type a literal or an operator asks of a column. *)
Definition is_text (tb : table) (c : string) : bool :=
  match columns tb !! c with Some k => bool_decide (col_type k = TText) | None => false end.
Definition is_number (tb : table) (c : string) : bool :=
  match columns tb !! c with
  | Some k => match col_type k with TInteger | TNumeric _ => true | _ => false end
  | None => false
  end.
Definition is_flag (tb : table) (c : string) : bool :=
  match columns tb !! c with Some k => bool_decide (col_type k = TBoolean) | None => false end.

Fixpoint cond_fits (tb : table) (p : cond) : bool :=
  match p with
  | TextIs c _ _ | TextIn c _ | TextNotIn c _ => is_text tb c
  | NumberIs c _ _ => is_number tb c
  | FlagIs c _ => is_flag tb c
  | IsNull c | IsNotNull c => has_column tb c
  | NumNonnullsIs cs _ => forallb (has_column tb) cs
  | And p q | Or p q => cond_fits tb p && cond_fits tb q
  end.

(** The columns a foreign key may refer to: those of a primary key or of a
    unique constraint. *)
Definition is_key (tb : table) (cs : list string) : bool :=
  any_of (constraints tb) (fun _ k => match key_columns k with Some cs' => bool_decide (cs = cs') | None => false end).

Definition constraint_fits (s : schema) (tb : table) (k : constraint) : bool :=
  match k with
  | CheckThat p => cond_fits tb p
  | PrimaryKey cs =>
      forallb (fun c => match columns tb !! c with Some k => negb (nullable k) | None => false end) cs
  | Unique cs => forallb (has_column tb) cs
  | ForeignKey cs t refs =>
      forallb (has_column tb) cs &&
      match tables s !! t with Some tb' => forallb (has_column tb') refs && is_key tb' refs | None => false end
  end.

Definition index_fits (tb : table) (ix : index) : bool :=
  forallb (has_column tb) (ix_columns ix) &&
  match ix_where ix with Some p => cond_fits tb p | None => true end.

(** The schema refers to nothing it does not have. *)
Definition well_formed (s : schema) : bool :=
  all_of (tables s) (fun _ tb => all_of (constraints tb) (fun _ k => constraint_fits s tb k)) &&
  all_of (indexes s) (fun _ ix =>
    match tables s !! ix_table ix with Some tb => index_fits tb ix | None => false end).

Definition data_fits (s : schema) (d : data) : bool :=
  all_of (tables s) (fun t tb =>
    forallb (row_fits (columns tb)) (rows d t) && all_of (constraints tb) (fun _ k => constraint_holds d t k)) &&
  all_of (indexes s) (fun _ ix => index_holds d ix).

Record database := Database { db_schema : schema; db_data : data }.

Definition consistent (db : database) : bool :=
  well_formed (db_schema db) && data_fits (db_schema db) (db_data db).

(** ** Statements *)

Inductive ddl : Type :=
| CreateExtension (name : string)
| CreateTable (t : string) (cols : list (string * column)) (ks : list (string * constraint))
| DropTable (t : string)
| RenameTable (t t' : string)
| AddColumn (t c : string) (k : column)
| DropColumn (t c : string)
| SetNullable (t c : string) (b : bool)
| SetDefault (t c : string) (df : option col_default)
| AddConstraint (t n : string) (k : constraint)
| DropConstraint (t n : string)
| DropChecksIfExist (t : string) (ns : list string)
| RenameConstraint (t n n' : string)
| CreateIndex (n : string) (ix : index)
| DropIndex (n : string)
| RefuseIf (t : string) (p : cond) (message : string)
| UpdateFrom (t c : string) (t' c' : string) (reference target : string)
| DeleteWhere (t : string) (p : cond)
| InsertUnlessExists (t : string) (conflict : string) (r : row).

Inductive sql_error : Type :=
| DuplicateTable (t : string)
| DuplicateColumn (t c : string)
| DuplicateObject (n : string)
| UndefinedTable (t : string)
| UndefinedColumn (t c : string)
| UndefinedObject (n : string)
| InvalidDefinition (n : string)
| DependentObjects (n : string)
| NotNullViolation (t c : string)
| ConstraintViolation (t n : string)
| IntegrityError (t : string)
| RaiseException (message : string).

Definition ensure (b : bool) (e : sql_error) : result sql_error unit := if b then Ok tt else Raise e.

Notation "'check' b 'else' e ; k" := (rbind (ensure b e) (fun _ => k))
  (at level 10, b at level 100, e at level 100, k at level 200) : py_scope.

Definition require {A} (o : option A) (e : sql_error) : result sql_error A :=
  match o with Some a => Ok a | None => Raise e end.

Definition get_table (s : schema) (t : string) : result sql_error table := require (tables s !! t) (UndefinedTable t).

Definition set_table (t : string) (tb : table) (s : schema) : schema :=
  Schema (<[t := tb]> (tables s)) (indexes s) (extensions s).

Definition set_columns (f : gmap string column -> gmap string column) (tb : table) : table :=
  Table (f (columns tb)) (constraints tb).
Definition set_constraints (f : gmap string constraint -> gmap string constraint) (tb : table) : table :=
  Table (columns tb) (f (constraints tb)).
Definition set_indexes (f : gmap string index -> gmap string index) (s : schema) : schema :=
  Schema (tables s) (f (indexes s)) (extensions s).

(** Tables and indexes share one name space, the indexes of keys included. *)
Definition is_relation (s : schema) (n : string) : bool :=
  is_some (tables s !! n) || is_some (indexes s !! n) ||
  any_of (tables s) (fun _ tb => match constraints tb !! n with Some k => index_backed k | None => false end).

(** Some constraint of a table other than [t'] refers to columns of [t] that
    satisfy [f]. *)
Definition referenced (s : schema) (t : string) (f : list string -> bool) (except : string) : bool :=
  any_of (tables s) (fun t' tb =>
    negb (String.eqb t' except) &&
    any_of (constraints tb) (fun _ k =>
      match k with ForeignKey _ u refs => String.eqb u t && f refs | _ => false end)).

Definition retarget (t t' : string) (k : constraint) : constraint :=
  match k with
  | ForeignKey cs u refs => ForeignKey cs (if String.eqb u t then t' else u) refs
  | k => k
  end.

Definition move_index (t t' : string) (ix : index) : index :=
  if String.eqb (ix_table ix) t
  then Index t' (ix_unique ix) (ix_keys ix) (nulls_not_distinct ix) (ix_where ix)
  else ix.

(** Whether a constraint or an index goes with a column of [t]. *)
Definition uses_column (t c : string) (k : constraint) : bool :=
  bool_decide (c ∈ constraint_columns k) ||
  match k with ForeignKey _ u refs => String.eqb u t && bool_decide (c ∈ refs) | _ => false end.

Definition index_uses (t c : string) (ix : index) : bool :=
  String.eqb (ix_table ix) t && bool_decide (c ∈ index_columns ix).

Definition free_names (s : schema) (tb : table) (n : string) (k : constraint) : result sql_error unit :=
  check negb (is_some (constraints tb !! n)) else DuplicateObject n;
  ensure (negb (index_backed k && is_relation s n)) (DuplicateObject n).

Definition add_constraint (t n : string) (k : constraint) (s : schema) : result sql_error schema :=
  let? tb := get_table s t in
  let? _ := free_names s tb n k in
  check constraint_fits s tb k else InvalidDefinition n;
  Ok (set_table t (set_constraints <[n := k]> tb) s).

Fixpoint add_constraints (t : string) (ks : list (string * constraint)) (s : schema) : result sql_error schema :=
  match ks with
  | [] => Ok s
  | (n, k) :: ks' => let? s' := add_constraint t n k s in add_constraints t ks' s'
  end.

(** CREATE TABLE makes the keys before the foreign keys. *)
Definition keys_first (ks : list (string * constraint)) : list (string * constraint) :=
  List.filter (fun nk => index_backed (snd nk)) ks ++ List.filter (fun nk => negb (index_backed (snd nk))) ks.

Fixpoint table_columns (t : string) (cols : list (string * column)) : result sql_error (gmap string column) :=
  match cols with
  | [] => Ok ∅
  | (c, k) :: cols' =>
      let? m := table_columns t cols' in
      check negb (is_some (m !! c)) else DuplicateColumn t c;
      Ok (<[c := k]> m)
  end.

Definition needs_citext (cols : list (string * column)) : bool :=
  existsb (fun ck => bool_decide (col_type (snd ck) = TCitext)) cols.

Definition update_column (s : schema) (t c : string) (f : column -> column) : result sql_error schema :=
  let? tb := get_table s t in
  let? k := require (columns tb !! c) (UndefinedColumn t c) in
  Ok (set_table t (set_columns <[c := f k]> tb) s).

Definition in_primary_key (tb : table) (c : string) : bool :=
  any_of (constraints tb) (fun _ k => match k with PrimaryKey cs => bool_decide (c ∈ cs) | _ => false end).

(** What a statement does to the schema. *)
Definition schema_step (o : ddl) (s : schema) : result sql_error schema :=
  match o with
  | CreateExtension e => Ok (Schema (tables s) (indexes s) ({[e]} ∪ extensions s))
  | CreateTable t cols ks =>
      check negb (is_relation s t) else DuplicateTable t;
      check negb (needs_citext cols) || bool_decide ("citext" ∈ extensions s) else UndefinedObject "citext";
      let? m := table_columns t cols in
      add_constraints t (keys_first ks) (set_table t (Table m ∅) s)
  | DropTable t =>
      let? _ := get_table s t in
      check negb (referenced s t (fun _ => true) t) else DependentObjects t;
      Ok (Schema (delete t (tables s))
                 (filter (fun nx => ix_table (snd nx) <> t) (indexes s)) (extensions s))
  | RenameTable t t' =>
      let? tb := get_table s t in
      check negb (is_relation s t') else DuplicateTable t';
      Ok (Schema (set_constraints (fmap (retarget t t')) <$> <[t' := tb]> (delete t (tables s)))
                 (move_index t t' <$> indexes s) (extensions s))
  | AddColumn t c k =>
      let? tb := get_table s t in
      check negb (has_column tb c) else DuplicateColumn t c;
      Ok (set_table t (set_columns <[c := k]> tb) s)
  | DropColumn t c =>
      let? tb := get_table s t in
      check has_column tb c else UndefinedColumn t c;
      check negb (referenced s t (fun refs => bool_decide (c ∈ refs)) t) else DependentObjects c;
      Ok (set_indexes (filter (fun nx => index_uses t c (snd nx) = false))
            (set_table t (Table (delete c (columns tb))
                                (filter (fun nk => uses_column t c (snd nk) = false) (constraints tb))) s))
  | SetNullable t c b =>
      let? tb := get_table s t in
      check negb (b && in_primary_key tb c) else InvalidDefinition c;
      update_column s t c (fun k => Column (col_type k) b (server_default k))
  | SetDefault t c df => update_column s t c (fun k => Column (col_type k) (nullable k) df)
  | AddConstraint t n k => add_constraint t n k s
  | DropConstraint t n =>
      let? tb := get_table s t in
      let? k := require (constraints tb !! n) (UndefinedObject n) in
      check negb (match key_columns k with
                  | Some cs => any_of (tables s) (fun _ tb' => any_of (constraints tb') (fun _ k' =>
                      match k' with ForeignKey _ u refs => String.eqb u t && bool_decide (cs = refs) | _ => false end))
                  | None => false
                  end) else DependentObjects n;
      Ok (set_table t (set_constraints (delete n) tb) s)
  | DropChecksIfExist t ns =>
      let? tb := get_table s t in
      Ok (set_table t (set_constraints (filter (fun nk =>
            (match snd nk with CheckThat _ => str_in (fst nk) ns | _ => false end) = false)) tb) s)
  | RenameConstraint t n n' =>
      let? tb := get_table s t in
      let? k := require (constraints tb !! n) (UndefinedObject n) in
      let? _ := free_names s tb n' k in
      Ok (set_table t (set_constraints (fun m => <[n' := k]> (delete n m)) tb) s)
  | CreateIndex n ix =>
      let? tb := get_table s (ix_table ix) in
      check negb (is_relation s n) else DuplicateTable n;
      check index_fits tb ix else InvalidDefinition n;
      Ok (set_indexes <[n := ix]> s)
  | DropIndex n =>
      let? _ := require (indexes s !! n) (UndefinedObject n) in
      Ok (set_indexes (delete n) s)
  | RefuseIf t p _ | DeleteWhere t p =>
      let? tb := get_table s t in
      check cond_fits tb p else InvalidDefinition t;
      Ok s
  | UpdateFrom t c t' c' ref target =>
      let? tb := get_table s t in
      let? tb' := get_table s t' in
      check has_column tb c && has_column tb ref else UndefinedColumn t c;
      check has_column tb' c' && has_column tb' target else UndefinedColumn t' c';
      Ok s
  | InsertUnlessExists t c r =>
      let? tb := get_table s t in
      check is_key tb [c] else InvalidDefinition c;
      Ok s
  end.

Definition set_rows (t : string) (f : list row -> list row) (d : data) : data := <[t := f (rows d t)]> d.

Section Rows.
(** The time of the transaction. *)
Variable now : Z.

Definition default_value (k : column) : value :=
  match server_default k with
  | Some Now => Instant now
  | Some (Literal v) => v
  | None => Null
  end.

(** The columns an INSERT leaves out take their defaults. *)
Definition with_defaults (cols : gmap string column) (r : row) : row :=
  map_imap (fun c k => Some (default (default_value k) (r !! c))) cols.

Definition checked (s : schema) (t : string) (d : data) : result sql_error data :=
  if data_fits s d then Ok d else Raise (IntegrityError t).

(** What it does to the rows; [s] is the schema it leaves.  DDL tests the rows
    it concerns, an INSERT, UPDATE or DELETE tests all. *)
Definition data_step (s : schema) (o : ddl) (d : data) : result sql_error data :=
  match o with
  | CreateTable t _ _ => Ok (<[t := []]> d)
  | DropTable t => Ok (delete t d)
  | RenameTable t t' => Ok (<[t' := rows d t]> (delete t d))
  | AddColumn t c k =>
      let v := default_value k in
      check nullable k || negb (is_null v) || bool_decide (rows d t = []) else NotNullViolation t c;
      check has_type (col_type k) v else InvalidDefinition c;
      Ok (set_rows t (map <[c := v]>) d)
  | DropColumn t c => Ok (set_rows t (map (delete c)) d)
  | SetNullable t c b =>
      check b || forallb (fun r => negb (is_null (col r c))) (rows d t) else NotNullViolation t c;
      Ok d
  | AddConstraint t n k =>
      check constraint_holds d t k else ConstraintViolation t n;
      Ok d
  | CreateIndex n ix =>
      check index_holds d ix else ConstraintViolation (ix_table ix) n;
      Ok d
  | RefuseIf t p message =>
      check negb (existsb (holds p) (rows d t)) else RaiseException message;
      Ok d
  | UpdateFrom t c t' c' ref target =>
      checked s t (set_rows t (map (fun r =>
        match find (fun r' => key_eqb (key [ref] r) (key [target] r')) (rows d t') with
        | Some r' => <[c := col r' c']> r
        | None => r
        end)) d)
  | DeleteWhere t p => checked s t (set_rows t (List.filter (fun r => negb (holds p r))) d)
  | InsertUnlessExists t c r =>
      if existsb (fun r' => key_eqb (key [c] r) (key [c] r')) (rows d t) then Ok d
      else match tables s !! t with
           | Some tb => checked s t (set_rows t (fun rs => rs ++ [with_defaults (columns tb) r]) d)
           | None => Raise (UndefinedTable t)
           end
  | CreateExtension _ | SetDefault _ _ _ | DropConstraint _ _ | DropChecksIfExist _ _
  | RenameConstraint _ _ _ | DropIndex _ => Ok d
  end.

Definition step (o : ddl) (db : database) : result sql_error database :=
  let? s := schema_step o (db_schema db) in
  let? d := data_step s o (db_data db) in
  Ok (Database s d).

Fixpoint run (os : list ddl) (db : database) : result sql_error database :=
  match os with
  | [] => Ok db
  | o :: os' => let? db' := step o db in run os' db'
  end.

End Rows.
