(* ===== verification/DdlFacts.v ===== *)
(** * Facts about schemas and statements

    A statement that succeeds leaves rows that fit the schema it leaves; what a
    row of a table may rely on; and how the rows are followed through a list of
    statements. *)

From S2P Require Import Prelude Ddl.
From Stdlib Require Import QArith Qcanon.
#[local] Open Scope Z_scope.

(** ** The boolean quantifiers over maps *)

Lemma all_of_spec {A} (m : gmap string A) f :
  all_of m f = true <-> forall n x, m !! n = Some x -> f n x = true.
Proof.
  unfold all_of. rewrite forallb_forall. split.
  - intros H n x Hx. apply (H (n, x)), list_elem_of_In, elem_of_map_to_list, Hx.
  - intros H [n x] Hx. apply H, elem_of_map_to_list, list_elem_of_In, Hx.
Qed.

Lemma any_of_false {A} (m : gmap string A) f :
  any_of m f = false <-> forall n x, m !! n = Some x -> f n x = false.
Proof.
  assert (any_of m f = negb (all_of m (fun n x => negb (f n x)))) as ->.
  { unfold any_of, all_of. induction (map_to_list m) as [|nx l IH]; [done|].
    cbn. rewrite IH. by destruct (f _ _). }
  rewrite negb_false_iff, all_of_spec. setoid_rewrite negb_true_iff. done.
Qed.

Lemma ensure_Ok b e u : ensure b e = Ok u -> b = true.
Proof. unfold ensure. by destruct b. Qed.

Lemma require_Ok {A} (o : option A) e a : require o e = Ok a -> o = Some a.
Proof. unfold require. destruct o; congruence. Qed.

(** Open the guards of a step that succeeded. *)
Ltac open_step :=
  repeat match goal with
  | H : rbind _ _ = Ok _ |- _ => apply rbind_Ok in H; destruct H as (? & ? & H)
  | H : ensure _ _ = Ok _ |- _ => apply ensure_Ok in H
  | H : get_table _ _ = Ok _ |- _ => unfold get_table in H; apply require_Ok in H
  | H : require _ _ = Ok _ |- _ => apply require_Ok in H
  | H : Ok _ = Ok _ |- _ => injection H as H; try subst
  | H : Raise _ = Ok _ |- _ => discriminate H
  | H : (_ && _)%bool = true |- _ => apply andb_true_iff in H; destruct H
  end.

(** ** Rows that fit *)

Record fits (s : schema) (d : data) : Prop := {
  fits_rows t tb r : tables s !! t = Some tb -> r ∈ rows d t -> row_fits (columns tb) r = true;
  fits_constraint t tb n k :
    tables s !! t = Some tb -> constraints tb !! n = Some k -> constraint_holds d t k = true;
  fits_index n ix : indexes s !! n = Some ix -> index_holds d ix = true;
}.

Lemma data_fits_spec s d : data_fits s d = true <-> fits s d.
Proof.
  unfold data_fits. rewrite andb_true_iff, !all_of_spec. split.
  - intros [Ht Hi]. split; [..|done].
    + intros t tb r Htb Hr. specialize (Ht _ _ Htb). apply andb_true_iff in Ht as [Ht _].
      rewrite forallb_forall in Ht. apply Ht, list_elem_of_In, Hr.
    + intros t tb n k Htb Hk. specialize (Ht _ _ Htb). apply andb_true_iff in Ht as [_ Ht].
      rewrite all_of_spec in Ht. by eapply Ht.
  - intros [Hr Hk Hi]. split; [|done]. intros t tb Htb. apply andb_true_iff. split.
    + apply forallb_forall. intros r Hin. apply (Hr t tb r Htb), list_elem_of_In, Hin.
    + apply all_of_spec. eauto.
Qed.

(** What a well-formed schema says of its parts. *)
Lemma well_formed_constraint s t tb n k :
  well_formed s = true -> tables s !! t = Some tb -> constraints tb !! n = Some k -> constraint_fits s tb k = true.
Proof.
  unfold well_formed. rewrite andb_true_iff, all_of_spec. intros [H _] Ht Hk.
  specialize (H _ _ Ht). rewrite all_of_spec in H. by eapply H.
Qed.

Lemma well_formed_index s n ix :
  well_formed s = true -> indexes s !! n = Some ix ->
  exists tb, tables s !! ix_table ix = Some tb /\ index_fits tb ix = true.
Proof.
  unfold well_formed. rewrite andb_true_iff, !all_of_spec. intros [_ H] Hi.
  specialize (H _ _ Hi). cbn in H. destruct (tables s !! ix_table ix) as [tb|]; [eauto|done].
Qed.

Lemma has_column_spec tb c : has_column tb c = true <-> is_Some (columns tb !! c).
Proof. unfold has_column, is_some. destruct (columns tb !! c); naive_solver. Qed.

Lemma cond_fits_columns tb p c : cond_fits tb p = true -> c ∈ cond_columns p -> is_Some (columns tb !! c).
Proof.
  induction p; cbn [cond_fits cond_columns]; intros H Hc;
    try (apply list_elem_of_singleton in Hc as ->;
         first [by apply has_column_spec
               |unfold is_text, is_number, is_flag in H;
                match type of H with context [columns tb !! ?x] => destruct (columns tb !! x) end; [by eexists|done]]).
  - rewrite forallb_forall in H. by apply has_column_spec, H, list_elem_of_In.
  - apply elem_of_app in Hc. apply andb_true_iff in H. naive_solver.
  - apply elem_of_app in Hc. apply andb_true_iff in H. naive_solver.
Qed.

Lemma forallb_has_column tb cs c : forallb (has_column tb) cs = true -> c ∈ cs -> is_Some (columns tb !! c).
Proof. rewrite forallb_forall. intros H Hc. by apply has_column_spec, H, list_elem_of_In. Qed.

Lemma constraint_fits_columns s tb k c :
  constraint_fits s tb k = true -> c ∈ constraint_columns k -> is_Some (columns tb !! c).
Proof.
  destruct k as [p|cs|cs|cs u refs]; cbn; intros H Hc.
  - by eapply cond_fits_columns.
  - rewrite forallb_forall in H. specialize (H c ltac:(by apply list_elem_of_In)). cbn in H.
    destruct (columns tb !! c); [by eexists|done].
  - by eapply forallb_has_column.
  - apply andb_true_iff in H as [H _]. by eapply forallb_has_column.
Qed.

Lemma constraint_fits_refs s tb cs u refs :
  constraint_fits s tb (ForeignKey cs u refs) = true ->
  exists tb', tables s !! u = Some tb' /\ forall c, c ∈ refs -> is_Some (columns tb' !! c).
Proof.
  cbn. rewrite andb_true_iff. intros [_ H]. destruct (tables s !! u) as [tb'|]; [|done].
  apply andb_true_iff in H as [H _]. exists tb'. split; [done|]. intros c. by apply forallb_has_column.
Qed.

Lemma index_fits_columns tb ix c : index_fits tb ix = true -> c ∈ index_columns ix -> is_Some (columns tb !! c).
Proof.
  unfold index_fits, index_columns. rewrite andb_true_iff. intros [Hk Hw] Hc.
  apply elem_of_app in Hc as [Hc|Hc]; [by eapply forallb_has_column|].
  destruct (ix_where ix) as [p|]; [by eapply cond_fits_columns|by apply elem_of_nil in Hc].
Qed.

(** ** What a change of the rows leaves as it was *)

Lemma eval_frame p r r' : (forall c, c ∈ cond_columns p -> col r' c = col r c) -> eval p r' = eval p r.
Proof.
  induction p; cbn [cond_columns eval]; intros H;
    try (rewrite (H c) by (by apply list_elem_of_singleton); reflexivity).
  - unfold count_nonnulls. rewrite (List.filter_ext_in _ (fun c => negb (is_null (col r c)))); [done|].
    intros c Hc. by rewrite H by (by apply list_elem_of_In).
  - rewrite IHp1, IHp2; [done|..]; intros c Hc; apply H, elem_of_app; auto.
  - rewrite IHp1, IHp2; [done|..]; intros c Hc; apply H, elem_of_app; auto.
Qed.

Lemma passes_frame p r r' : (forall c, c ∈ cond_columns p -> col r' c = col r c) -> passes p r' = passes p r.
Proof. intros H. unfold passes. by rewrite (eval_frame p r r' H). Qed.

Lemma holds_frame p r r' : (forall c, c ∈ cond_columns p -> col r' c = col r c) -> holds p r' = holds p r.
Proof. intros H. unfold holds. by rewrite (eval_frame p r r' H). Qed.

Lemma key_frame cs r r' : (forall c, c ∈ cs -> col r' c = col r c) -> key cs r' = key cs r.
Proof. intros H. unfold key. apply map_ext_in. intros c Hc. by rewrite H by (by apply list_elem_of_In). Qed.

Lemma filter_map {A B} (f : A -> B) (p : B -> bool) l :
  List.filter p (map f l) = map f (List.filter (fun x => p (f x)) l).
Proof. induction l as [|x l IH]; [done|]. cbn. rewrite IH. by destruct (p (f x)). Qed.

Lemma unique_rows_frame cs b sel (f : row -> row) rs :
  (forall r c, c ∈ cs -> col (f r) c = col r c) -> (forall r, sel (f r) = sel r) ->
  unique_rows cs b sel (map f rs) = unique_rows cs b sel rs.
Proof.
  intros Hk Hs. unfold unique_rows. rewrite (filter_map f sel), map_map. do 2 f_equal.
  rewrite (List.filter_ext _ sel) by done. apply map_ext. intros r. apply key_frame. eauto.
Qed.

Lemma forallb_over_map {A B} (f : A -> B) p l : forallb p (map f l) = forallb (fun x => p (f x)) l.
Proof. induction l as [|x l IH]; [done|]. cbn. by rewrite IH. Qed.

Lemma forallb_eq {A} (p q : A -> bool) l : (forall x, p x = q x) -> forallb p l = forallb q l.
Proof. intros H. induction l as [|x l IH]; [done|]. cbn. by rewrite H, IH. Qed.

(** The rows of every table are those before, changed by [f]. *)
Definition mapped (f : string -> row -> row) (d d' : data) : Prop := forall t, rows d' t = map (f t) (rows d t).

Lemma constraint_holds_frame f d d' t k :
  mapped f d d' ->
  (forall r c, c ∈ constraint_columns k -> col (f t r) c = col r c) ->
  (forall cs u refs, k = ForeignKey cs u refs -> forall r c, c ∈ refs -> col (f u r) c = col r c) ->
  constraint_holds d' t k = constraint_holds d t k.
Proof.
  intros Hm Ht Hu. destruct k as [p|cs|cs|cs u refs]; cbn [constraint_holds]; rewrite !Hm.
  - rewrite forallb_over_map. apply forallb_eq. intros r. by apply passes_frame, Ht.
  - apply unique_rows_frame; [apply Ht|done].
  - apply unique_rows_frame; [apply Ht|done].
  - rewrite forallb_over_map. apply forallb_eq. intros r.
    rewrite (key_frame cs r) by apply Ht. f_equal.
    induction (rows d u) as [|r' rs IH]; [done|]. cbn.
    rewrite (key_frame refs r') by (by apply (Hu cs u refs eq_refl)). by rewrite IH.
Qed.

Lemma index_holds_frame f d d' ix :
  mapped f d d' -> (forall r c, c ∈ index_columns ix -> col (f (ix_table ix) r) c = col r c) ->
  index_holds d' ix = index_holds d ix.
Proof.
  intros Hm H. unfold index_holds. destruct (ix_unique ix); [|done]. rewrite Hm. unfold index_columns in H.
  apply unique_rows_frame.
  - intros r c Hc. apply H, elem_of_app. by left.
  - intros r. unfold index_selects. destruct (ix_where ix) as [p|]; [|done].
    apply holds_frame. intros c Hc. apply H, elem_of_app. by right.
Qed.

Lemma rows_inserted t x d u : rows (<[t := x]> d) u = if decide (t = u) then x else rows d u.
Proof. unfold rows. case_decide; subst; [by rewrite lookup_insert_eq|by rewrite lookup_insert_ne]. Qed.

Lemma rows_delete t d u : rows (delete t d) u = if decide (t = u) then [] else rows d u.
Proof. unfold rows. case_decide; subst; [by rewrite lookup_delete_eq|by rewrite lookup_delete_ne]. Qed.

Lemma rows_set_rows t f d u : rows (set_rows t f d) u = if decide (t = u) then f (rows d t) else rows d u.
Proof. apply rows_inserted. Qed.

Lemma mapped_at t f d :
  mapped (fun u r => if decide (t = u) then f r else r) d (set_rows t (map f) d).
Proof.
  intros u. rewrite rows_set_rows. case_decide; subst; [done|]. by rewrite map_id.
Qed.

Lemma col_insert_ne r c c' v : c <> c' -> col (<[c := v]> r) c' = col r c'.
Proof. intros H. unfold col. by rewrite lookup_insert_ne. Qed.

Lemma col_insert r c v : col (<[c := v]> r) c = v.
Proof. unfold col. by rewrite lookup_insert_eq. Qed.

Lemma col_delete_ne r c c' : c <> c' -> col (delete c r) c' = col r c'.
Proof. intros H. unfold col. by rewrite lookup_delete_ne. Qed.

Lemma row_fits_spec cols r :
  row_fits cols r = true <->
  dom r = dom cols /\ forall c k, cols !! c = Some k -> value_fits k (col r c) = true.
Proof.
  unfold row_fits. rewrite andb_true_iff, bool_decide_eq_true, forallb_forall. split; intros [Hd H]; split; try done.
  - intros c k Hc. apply (H (c, k)), list_elem_of_In, elem_of_map_to_list, Hc.
  - intros [c k] Hc. apply H, elem_of_map_to_list, list_elem_of_In, Hc.
Qed.

(** A row keeps fitting when its columns only become more permissive. *)
Lemma row_fits_weaken cols cols' r :
  row_fits cols r = true -> dom cols' = dom cols ->
  (forall c k k', cols !! c = Some k -> cols' !! c = Some k' -> value_fits k (col r c) = true -> value_fits k' (col r c) = true) ->
  row_fits cols' r = true.
Proof.
  rewrite !row_fits_spec. intros [Hd H] Hd' Hw. split; [congruence|]. intros c k' Hc.
  assert (c ∈ dom cols) as [k Hk]%elem_of_dom by (rewrite <-Hd'; by eapply elem_of_dom_2). eauto.
Qed.

(** ** A statement that succeeds leaves rows that fit *)

Lemma tables_set_table t tb s u :
  tables (set_table t tb s) !! u = if decide (t = u) then Some tb else tables s !! u.
Proof. cbn. case_decide; subst; [by rewrite lookup_insert_eq|by rewrite lookup_insert_ne]. Qed.

(** The rows stay, a table changes its columns and constraints. *)
Lemma fits_set_table s d t tb tb' :
  fits s d -> tables s !! t = Some tb ->
  (forall r, r ∈ rows d t -> row_fits (columns tb) r = true -> row_fits (columns tb') r = true) ->
  (forall n k, constraints tb' !! n = Some k ->
     constraint_holds d t k = true \/ exists n', constraints tb !! n' = Some k) ->
  fits (set_table t tb' s) d.
Proof.
  intros [Hr Hk Hi] Ht Hrows Hcs. split; [..|done].
  - intros u tu r. rewrite tables_set_table. case_decide; subst; intros Hu Hin; [injection Hu as <-|]; eauto.
  - intros u tu n k. rewrite tables_set_table. case_decide; subst; intros Hu Hn; [injection Hu as <-|]; eauto.
    destruct (Hcs n k Hn) as [|[n' Hn']]; eauto.
Qed.

Lemma value_fits_nullable k v df : value_fits k v = true -> value_fits (Column (col_type k) true df) v = true.
Proof. unfold value_fits. rewrite !andb_true_iff. cbn. naive_solver. Qed.

Lemma fits_update_column s s' d t c f :
  fits s d -> update_column s t c f = Ok s' ->
  (forall k r, r ∈ rows d t -> value_fits k (col r c) = true -> value_fits (f k) (col r c) = true) ->
  fits s' d.
Proof.
  unfold update_column. intros Hf H Hk. open_step.
  match goal with H : columns ?tb !! c = Some ?k |- _ => rename k into k0; rename H into Hc0 end.
  eapply fits_set_table; [done..|intros r Hin Hr|cbn; eauto]. cbn.
  eapply row_fits_weaken; [done|by rewrite dom_insert_lookup_L by eauto|].
  intros c' k k' Hc Hc'. destruct (decide (c = c')) as [<-|Hne].
  - rewrite lookup_insert_eq in Hc'. injection Hc' as <-. simplify_eq. eauto.
  - rewrite lookup_insert_ne in Hc' by done. by simplify_eq.
Qed.

Lemma fits_indexes s d f :
  fits s d -> (forall n ix, f (indexes s) !! n = Some ix -> index_holds d ix = true) -> fits (set_indexes f s) d.
Proof. intros [Hr Hk _] Hi. by split. Qed.

(** The shape of the schema after a batch of constraints on one table. *)
Lemma add_constraints_shape t ks s s' m cs :
  tables s !! t = Some (Table m cs) -> add_constraints t ks s = Ok s' ->
  exists cs', s' = set_table t (Table m cs') s.
Proof.
  revert s cs. induction ks as [|[n k] ks IH]; intros s cs Ht H; cbn in H.
  - injection H as <-. exists cs. unfold set_table. rewrite insert_id by done. by destruct s.
  - unfold add_constraint in H. open_step. simplify_eq.
    apply (IH _ (<[n := k]> cs)) in H as [cs' ->]; [|by rewrite tables_set_table, decide_True].
    exists cs'. unfold set_table. cbn. by rewrite insert_insert_eq.
Qed.

Lemma holds_on_no_rows d t k : rows d t = [] -> constraint_holds d t k = true.
Proof. intros H. destruct k; cbn; by rewrite H. Qed.

(** Constraints and indexes of other tables do not see the rows of a table
    nothing refers to. *)
Lemma constraint_holds_rows d d' t k :
  rows d' t = rows d t -> (forall cs u refs, k = ForeignKey cs u refs -> rows d' u = rows d u) ->
  constraint_holds d' t k = constraint_holds d t k.
Proof. intros H Hf. destruct k; cbn; rewrite H; try done. by rewrite (Hf _ _ _ eq_refl). Qed.

Lemma index_holds_rows d d' ix : rows d' (ix_table ix) = rows d (ix_table ix) -> index_holds d' ix = index_holds d ix.
Proof. intros H. unfold index_holds. by rewrite H. Qed.

Lemma fits_create_table s d t m cs :
  well_formed s = true -> fits s d -> tables s !! t = None -> fits (set_table t (Table m cs) s) (<[t := []]> d).
Proof.
  intros Hwf [Hr Hk Hi] Ht. split.
  - intros u tu r. rewrite tables_set_table, rows_inserted. case_decide; subst; [set_solver|eauto].
  - intros u tu n k. rewrite tables_set_table. case_decide; subst; intros Hu Hn.
    + apply holds_on_no_rows. by rewrite rows_inserted, decide_True.
    + rewrite (constraint_holds_rows d); [by eapply Hk|by rewrite rows_inserted, decide_False|].
      intros cs0 v refs ->. pose proof (well_formed_constraint _ _ _ _ _ Hwf Hu Hn) as Hw.
      apply constraint_fits_refs in Hw as (tb' & Htb' & _).
      rewrite rows_inserted, decide_False; [done|congruence].
  - intros n ix Hn. destruct (well_formed_index _ _ _ Hwf Hn) as (tb & Htb & _).
    rewrite (index_holds_rows d); [by eapply Hi|]. rewrite rows_inserted, decide_False; [done|congruence].
Qed.

Lemma referenced_false s t f ex :
  referenced s t f ex = false ->
  forall u tb n cs refs, u <> ex -> tables s !! u = Some tb -> constraints tb !! n = Some (ForeignKey cs t refs) ->
  f refs = false.
Proof.
  unfold referenced. rewrite any_of_false. intros H u tb n cs refs Hu Ht Hn.
  specialize (H _ _ Ht). apply andb_false_iff in H as [H|H].
  - apply negb_false_iff, String.eqb_eq in H. congruence.
  - rewrite any_of_false in H. specialize (H _ _ Hn). cbn in H. by rewrite String.eqb_refl in H.
Qed.

Lemma fits_drop_table s d t :
  fits s d -> referenced s t (fun _ => true) t = false ->
  fits (Schema (delete t (tables s)) (filter (fun nx => ix_table (snd nx) <> t) (indexes s)) (extensions s)) (delete t d).
Proof.
  intros [Hr Hk Hi] Href. split; cbn.
  - intros u tu r Hu. apply lookup_delete_Some in Hu as [Hne Hu]. rewrite rows_delete, decide_False by done. eauto.
  - intros u tu n k Hu Hn. apply lookup_delete_Some in Hu as [Hne Hu].
    rewrite (constraint_holds_rows d); [by eapply Hk|by rewrite rows_delete, decide_False|].
    intros cs v refs ->. rewrite rows_delete, decide_False; [done|]. intros <-.
    by pose proof (referenced_false _ _ _ _ Href u tu n cs refs ltac:(congruence) Hu Hn).
  - intros n ix Hn. apply map_lookup_filter_Some in Hn as [Hn Hne]. cbn in Hne.
    rewrite (index_holds_rows d); [by eapply Hi|]. rewrite rows_delete, decide_False; [done|congruence].
Qed.

Lemma retarget_columns t t' k : constraint_columns (retarget t t' k) = constraint_columns k.
Proof. by destruct k. Qed.

Lemma is_relation_table s t : is_relation s t = false -> tables s !! t = None.
Proof. unfold is_relation. rewrite !orb_false_iff. unfold is_some. destruct (tables s !! t); naive_solver. Qed.

Section Renaming.
Context (s : schema) (d : data) (t t' : string) (tb : table).
Hypothesis (Hwf : well_formed s = true) (Hf : fits s d) (Ht : tables s !! t = Some tb) (Hfree : tables s !! t' = None).

Let d' : data := <[t' := rows d t]> (delete t d).
Let moved (u : string) : string := if String.eqb u t then t' else u.

Lemma moved_rows u : is_Some (tables s !! u) -> rows d' (moved u) = rows d u.
Proof.
  intros [tu Hu]. unfold d', moved. rewrite rows_inserted. destruct (String.eqb_spec u t) as [->|Hne].
  - by rewrite decide_True.
  - rewrite decide_False by congruence. by rewrite rows_delete, decide_False by congruence.
Qed.

Lemma moved_constraint u tu n k :
  tables s !! u = Some tu -> constraints tu !! n = Some k ->
  constraint_holds d' (moved u) (retarget t t' k) = true.
Proof.
  intros Hu Hn. pose proof (fits_constraint _ _ Hf _ _ _ _ Hu Hn) as Hk.
  pose proof (well_formed_constraint _ _ _ _ _ Hwf Hu Hn) as Hc.
  destruct k as [p|cs|cs|cs v refs]; cbn in *; rewrite ?moved_rows by (by eexists); try done.
  apply constraint_fits_refs in Hc as (tv & Hv & _).
  change (if String.eqb v t then t' else v) with (moved v). by rewrite moved_rows by (by eexists).
Qed.

Lemma fits_rename :
  fits (Schema (set_constraints (fmap (retarget t t')) <$> <[t' := tb]> (delete t (tables s)))
               (move_index t t' <$> indexes s) (extensions s)) d'.
Proof using All.
  assert (Hback : forall u tu, (set_constraints (fmap (retarget t t')) <$> <[t' := tb]> (delete t (tables s))) !! u = Some tu ->
    exists v tv, u = moved v /\ tables s !! v = Some tv /\ tu = set_constraints (fmap (retarget t t')) tv).
  { intros u tu Hu. apply lookup_fmap_Some in Hu as (tv & <- & Hu). destruct (decide (t' = u)) as [<-|Hne].
    - rewrite lookup_insert_eq in Hu. injection Hu as <-. exists t, tb. unfold moved. by rewrite String.eqb_refl.
    - rewrite lookup_insert_ne in Hu by done. apply lookup_delete_Some in Hu as [Hnt Hu]. exists u, tv.
      unfold moved. destruct (String.eqb_spec u t); [congruence|done]. }
  split; cbn.
  - intros u tu r Hu Hr. destruct (Hback _ _ Hu) as (v & tv & -> & Hv & ->).
    rewrite moved_rows in Hr by (by eexists). cbn. by eapply (fits_rows _ _ Hf).
  - intros u tu n k Hu Hn. destruct (Hback _ _ Hu) as (v & tv & -> & Hv & ->). cbn in Hn.
    apply lookup_fmap_Some in Hn as (k0 & <- & Hn). by eapply moved_constraint.
  - intros n ix Hn. apply lookup_fmap_Some in Hn as (ix0 & <- & Hn).
    pose proof (fits_index _ _ Hf _ _ Hn) as Hi. destruct (well_formed_index _ _ _ Hwf Hn) as (tu & Hu & _).
    pose proof (moved_rows (ix_table ix0) ltac:(by eexists)) as Hm. unfold moved in Hm.
    unfold index_holds, move_index in *. destruct (String.eqb (ix_table ix0) t); cbn; by rewrite Hm.
Qed.
End Renaming.

(** A change of the rows of [t] outside the columns the constraints use. *)
Lemma constraint_unchanged s d t f u tu n k :
  fits s d -> tables s !! u = Some tu -> constraints tu !! n = Some k ->
  (u = t -> forall r c, c ∈ constraint_columns k -> col (f r) c = col r c) ->
  (forall cs refs, k = ForeignKey cs t refs -> forall r c, c ∈ refs -> col (f r) c = col r c) ->
  constraint_holds (set_rows t (map f) d) u k = true.
Proof.
  intros Hf Hu Hn Hown Hrefs.
  rewrite (constraint_holds_frame _ _ _ u k (mapped_at t f d)).
  - by eapply (fits_constraint _ _ Hf).
  - intros r c Hc. cbn. case_decide; [|done]. by apply Hown.
  - intros cs v refs -> r c Hc. cbn. case_decide; subst; [|done]. by eapply Hrefs.
Qed.

Lemma index_unchanged s d t f n ix :
  fits s d -> indexes s !! n = Some ix ->
  (ix_table ix = t -> forall r c, c ∈ index_columns ix -> col (f r) c = col r c) ->
  index_holds (set_rows t (map f) d) ix = true.
Proof.
  intros Hf Hn H. rewrite (index_holds_frame _ _ _ ix (mapped_at t f d)).
  - by eapply (fits_index _ _ Hf).
  - intros r c Hc. cbn. case_decide; [|done]. by apply H.
Qed.

Lemma dom_alter_row (f : row -> row) rs (D D' : gset string) :
  (forall r, r ∈ rs -> dom r = D) -> (forall r, dom r = D -> dom (f r) = D') -> forall r, r ∈ map f rs -> dom r = D'.
Proof. intros H Hf r (r0 & -> & Hr0)%list_elem_of_fmap. eauto. Qed.

Lemma fits_add_column now s d t c k tb :
  well_formed s = true -> fits s d -> tables s !! t = Some tb -> has_column tb c = false ->
  has_type (col_type k) (default_value now k) = true ->
  (nullable k || negb (is_null (default_value now k)) || bool_decide (rows d t = [])) = true ->
  fits (set_table t (set_columns <[c := k]> tb) s) (set_rows t (map <[c := default_value now k]>) d).
Proof.
  intros Hwf Hf Ht Hc Hty Hnull.
  assert (Hfresh : forall c', is_Some (columns tb !! c') -> c <> c').
  { intros c' Hc' <-. apply has_column_spec in Hc'. congruence. }
  split; cbn [indexes set_table].
  - intros u tu r. rewrite tables_set_table, rows_set_rows. case_decide; subst; intros Hu Hr; [injection Hu as <-|by eapply (fits_rows _ _ Hf)].
    apply list_elem_of_fmap in Hr as (r0 & -> & Hr0).
    pose proof (fits_rows _ _ Hf _ _ _ Ht Hr0) as Hr. apply row_fits_spec in Hr as [Hd Hr].
    apply row_fits_spec. cbn [set_columns columns]. split; [by rewrite !dom_insert_L, Hd|].
    intros c' k' Hc'. destruct (decide (c = c')) as [<-|Hne].
    + rewrite lookup_insert_eq in Hc'. injection Hc' as <-. rewrite col_insert. unfold value_fits. rewrite Hty. cbn [andb].
      apply orb_true_iff in Hnull as [Hnull|Hnull]; [done|]. apply bool_decide_eq_true in Hnull. rewrite Hnull in Hr0.
      by apply elem_of_nil in Hr0.
    + rewrite lookup_insert_ne in Hc' by done. rewrite col_insert_ne by done. eauto.
  - intros u tu n k'. rewrite tables_set_table. intros Hu Hn.
    assert (exists tu0, tables s !! u = Some tu0 /\ constraints tu0 !! n = Some k' /\ (u = t -> tu0 = tb))
      as (tu0 & Hu0 & Hn0 & Htb).
    { case_decide; subst; [injection Hu as <-; eauto|]. exists tu. naive_solver. }
    pose proof (well_formed_constraint _ _ _ _ _ Hwf Hu0 Hn0) as Hw.
    eapply constraint_unchanged; [done..| |].
    + intros -> r c' Hc'. rewrite (Htb eq_refl) in *. apply col_insert_ne, Hfresh. by eapply constraint_fits_columns.
    + intros cs refs -> r c' Hc'. apply constraint_fits_refs in Hw as (tb' & Htb' & Hrefs). simplify_eq.
      apply col_insert_ne, Hfresh. eauto.
  - intros n ix Hn. destruct (well_formed_index _ _ _ Hwf Hn) as (tu & Hu & Hw).
    eapply index_unchanged; [done..|]. intros <- r c' Hc'. simplify_eq. apply col_insert_ne, Hfresh.
    by eapply index_fits_columns.
Qed.

Lemma fits_drop_column s d t c tb :
  fits s d -> tables s !! t = Some tb ->
  referenced s t (fun refs => bool_decide (c ∈ refs)) t = false ->
  fits (set_indexes (filter (fun nx => index_uses t c (snd nx) = false))
          (set_table t (Table (delete c (columns tb))
                              (filter (fun nk => uses_column t c (snd nk) = false) (constraints tb))) s))
       (set_rows t (map (delete c)) d).
Proof.
  intros Hf Ht Href.
  split; cbn [indexes set_table set_indexes tables].
  - intros u tu r. change (<[t := ?x]> (tables s) !! u) with (tables (set_table t x s) !! u).
    rewrite tables_set_table, rows_set_rows. case_decide; subst; intros Hu Hr; [injection Hu as <-|by eapply (fits_rows _ _ Hf)].
    apply list_elem_of_fmap in Hr as (r0 & -> & Hr0).
    pose proof (fits_rows _ _ Hf _ _ _ Ht Hr0) as Hr. apply row_fits_spec in Hr as [Hd Hr].
    apply row_fits_spec. cbn [columns]. split; [by rewrite !dom_delete_L, Hd|].
    intros c' k' Hc'. apply lookup_delete_Some in Hc' as [Hne Hc']. rewrite col_delete_ne by done. eauto.
  - intros u tu n k. change (<[t := ?x]> (tables s) !! u) with (tables (set_table t x s) !! u).
    rewrite tables_set_table. intros Hu Hn.
    assert (exists tu0, tables s !! u = Some tu0 /\ constraints tu0 !! n = Some k /\ (u = t -> uses_column t c k = false)) as (tu0 & Hu0 & Hn0 & Huse).
    { case_decide; subst; [|exists tu; naive_solver].
      injection Hu as <-. cbn in Hn. apply map_lookup_filter_Some in Hn as [Hn ?]. eauto. }
    eapply constraint_unchanged; [done..| |].
    + intros -> r c' Hc'. apply col_delete_ne. intros <-. specialize (Huse eq_refl). unfold uses_column in Huse.
      by rewrite bool_decide_true in Huse.
    + intros cs refs -> r c' Hc'. apply col_delete_ne. intros <-. destruct (decide (u = t)) as [->|Hne].
      * specialize (Huse eq_refl). unfold uses_column in Huse. rewrite String.eqb_refl in Huse.
        rewrite (bool_decide_true (c ∈ refs)) in Huse by done. by rewrite orb_true_r in Huse.
      * pose proof (referenced_false _ _ _ _ Href u tu0 n cs refs Hne Hu0 Hn0) as Hx. cbn in Hx.
        by rewrite bool_decide_true in Hx.
  - intros n ix Hn. apply map_lookup_filter_Some in Hn as [Hn Huse]. cbn in Huse.
    eapply index_unchanged; [done..|]. intros <- r c' Hc'. apply col_delete_ne. intros <-.
    unfold index_uses in Huse. rewrite String.eqb_refl, bool_decide_true in Huse by done. done.
Qed.

Ltac same_table Hf :=
  eapply (fits_set_table _ _ _ _ _ Hf); [done|cbn; by eauto|cbn; intros ?n ?k ?Hk].

Theorem fits_step now o s s' d d' :
  well_formed s = true -> fits s d -> schema_step o s = Ok s' -> data_step now s' o d = Ok d' -> fits s' d'.
Proof.
  intros Hwf Hf Hs Hd.
  destruct o; cbn [schema_step data_step] in Hs, Hd; unfold checked in Hd; open_step;
    try (case_match; [|discriminate]; open_step; by apply data_fits_spec).
  - by split; apply Hf.
  - apply negb_true_iff, is_relation_table in H.
    destruct (add_constraints_shape _ _ _ _ x1 ∅ ltac:(by rewrite tables_set_table, decide_True) Hs) as [cs' ->].
    replace (set_table t (Table x1 cs') (set_table t (Table x1 ∅) s)) with (set_table t (Table x1 cs') s)
      by (unfold set_table; cbn; by rewrite insert_insert_eq).
    by apply fits_create_table.
  - apply fits_drop_table; [done|by apply negb_true_iff].
  - apply fits_rename; [done..|]. by apply is_relation_table, negb_true_iff.
  - by apply fits_add_column; [..|apply negb_true_iff| |].
  - apply fits_drop_column; [done..|by apply negb_true_iff].
  - eapply fits_update_column; [done..|]. intros k r Hr Hk. unfold value_fits in *. cbn.
    apply andb_true_iff in Hk as [-> Hk]. cbn. destruct b; [done|]. cbn in *.
    match goal with H : forallb _ _ = true |- _ => rewrite forallb_forall in H; apply H, list_elem_of_In, Hr end.
  - eapply fits_update_column; [done..|]. done.
  - unfold add_constraint in Hs. open_step. same_table Hf.
    apply lookup_insert_Some in Hk as [[_ <-]|[_ Hk]]; eauto.
  - same_table Hf. apply lookup_delete_Some in Hk as [_ Hk]. eauto.
  - same_table Hf. apply map_lookup_filter_Some in Hk as [Hk _]. eauto.
  - same_table Hf. apply lookup_insert_Some in Hk as [[_ <-]|[_ Hk]]; [eauto|].
    apply lookup_delete_Some in Hk as [_ Hk]. eauto.
  - apply fits_indexes; [done|]. intros n' ix' Hn. apply lookup_insert_Some in Hn as [[_ <-]|[_ Hn]]; [done|].
    by eapply (fits_index _ _ Hf).
  - apply fits_indexes; [done|]. intros n' ix' Hn. apply lookup_delete_Some in Hn as [_ Hn]. by eapply (fits_index _ _ Hf).
  - done.
  - destruct (existsb _ _); [by open_step|]. case_match; [|discriminate]. case_match; [|discriminate]. open_step.
    by apply data_fits_spec.
Qed.

(** ** A statement that succeeds leaves a schema without loose ends *)

Record well_formed_prop (s : schema) : Prop := {
  wf_constraint t tb n k : tables s !! t = Some tb -> constraints tb !! n = Some k -> constraint_fits s tb k = true;
  wf_index n ix : indexes s !! n = Some ix -> exists tb, tables s !! ix_table ix = Some tb /\ index_fits tb ix = true;
}.

Lemma well_formed_spec s : well_formed s = true <-> well_formed_prop s.
Proof.
  split.
  - intros H. split; [intros; by eapply well_formed_constraint|intros; by eapply well_formed_index].
  - intros [Hc Hi]. unfold well_formed. apply andb_true_iff. split; apply all_of_spec.
    + intros t tb Ht. apply all_of_spec. intros n k Hn. by eapply Hc.
    + intros n ix Hn. by destruct (Hi n ix Hn) as (tb & -> & ?).
Qed.

(** Column [c] of [tb] is a column of [tb'], of the same type. *)
Definition kept_column (tb tb' : table) (c : string) : Prop :=
  forall k, columns tb !! c = Some k -> exists k', columns tb' !! c = Some k' /\ col_type k' = col_type k.

Lemma has_column_kept tb tb' c : kept_column tb tb' c -> has_column tb c = true -> has_column tb' c = true.
Proof. rewrite !has_column_spec. intros H [k Hk]. destruct (H k Hk) as (k' & -> & _). by eexists. Qed.

Lemma forallb_kept tb tb' cs :
  (forall c, c ∈ cs -> kept_column tb tb' c) -> forallb (has_column tb) cs = true -> forallb (has_column tb') cs = true.
Proof.
  rewrite !forallb_forall. intros H Hc c Hin. eapply has_column_kept; [by apply H, list_elem_of_In|by apply Hc].
Qed.

Lemma cond_fits_kept tb tb' p :
  (forall c, c ∈ cond_columns p -> kept_column tb tb' c) -> cond_fits tb p = true -> cond_fits tb' p = true.
Proof.
  induction p; cbn [cond_fits cond_columns]; intros H;
    try (specialize (H c ltac:(by apply list_elem_of_singleton)));
    try (unfold is_text, is_number, is_flag; destruct (columns tb !! c) as [k|] eqn:E; [|done];
         destruct (H k E) as (k' & -> & ->); done);
    try by apply has_column_kept.
  - by apply forallb_kept.
  - rewrite !andb_true_iff. intros [H1 H2]. split; [apply IHp1|apply IHp2]; try done;
      intros c Hc; apply H, elem_of_app; auto.
  - rewrite !andb_true_iff. intros [H1 H2]. split; [apply IHp1|apply IHp2]; try done;
      intros c Hc; apply H, elem_of_app; auto.
Qed.

Lemma index_fits_kept tb tb' ix :
  (forall c, c ∈ index_columns ix -> kept_column tb tb' c) -> index_fits tb ix = true -> index_fits tb' ix = true.
Proof.
  unfold index_fits, index_columns. intros H. rewrite !andb_true_iff. intros [Hc Hw]. split.
  - eapply forallb_kept; [|exact Hc]. intros c Hin. apply H, elem_of_app. by left.
  - destruct (ix_where ix) as [p|]; [|done]. eapply cond_fits_kept; [|exact Hw].
    intros c Hin. apply H, elem_of_app. by right.
Qed.

Lemma any_of_true {A} (m : gmap string A) f : any_of m f = true <-> exists n x, m !! n = Some x /\ f n x = true.
Proof.
  unfold any_of. rewrite existsb_exists. split.
  - intros ([n x] & Hin & Hf). exists n, x. split; [|done]. by apply elem_of_map_to_list, list_elem_of_In.
  - intros (n & x & Hx & Hf). exists (n, x). split; [|done]. by apply list_elem_of_In, elem_of_map_to_list.
Qed.

Lemma is_key_spec tb cs :
  is_key tb cs = true <-> exists n k, constraints tb !! n = Some k /\ key_columns k = Some cs.
Proof.
  unfold is_key. rewrite any_of_true. split; intros (n & k & Hn & Hk); exists n, k; (split; [done|]).
  - destruct (key_columns k); [|done]. by apply bool_decide_eq_true in Hk as ->.
  - rewrite Hk. by apply bool_decide_eq_true.
Qed.

(** Nothing a constraint relies on is lost. *)
Lemma constraint_fits_kept s s' tb tb' k :
  (forall c, c ∈ constraint_columns k -> kept_column tb tb' c) ->
  (forall cs c ck, k = PrimaryKey cs -> c ∈ cs -> columns tb !! c = Some ck -> nullable ck = false ->
     exists ck', columns tb' !! c = Some ck' /\ nullable ck' = false) ->
  (forall cs u refs tu, k = ForeignKey cs u refs -> tables s !! u = Some tu -> is_key tu refs = true ->
     exists tu', tables s' !! u = Some tu' /\ (forall c, c ∈ refs -> kept_column tu tu' c) /\ is_key tu' refs = true) ->
  constraint_fits s tb k = true -> constraint_fits s' tb' k = true.
Proof.
  intros Hc Hp Hf. destruct k as [p|cs|cs|cs u refs]; cbn [constraint_fits constraint_columns] in *.
  - by apply cond_fits_kept.
  - rewrite !forallb_forall. intros H c Hin. specialize (H c Hin). destruct (columns tb !! c) as [ck|] eqn:E; [|done].
    apply negb_true_iff in H. destruct (Hp cs c ck eq_refl ltac:(by apply list_elem_of_In) E H) as (ck' & -> & ->). done.
  - by apply forallb_kept.
  - rewrite !andb_true_iff. intros [H1 H2]. split; [by eapply forallb_kept|].
    destruct (tables s !! u) as [tu|] eqn:E; [|done]. apply andb_true_iff in H2 as [H2 H3].
    destruct (Hf cs u refs tu eq_refl E H3) as (tu' & -> & Hk & ->). rewrite andb_true_r. by eapply forallb_kept.
Qed.

Lemma kept_column_same tb tb' c : columns tb' = columns tb -> kept_column tb tb' c.
Proof. intros E k Hk. rewrite E. eauto. Qed.

Lemma kept_column_refl tb c : kept_column tb tb c.
Proof. by apply kept_column_same. Qed.

(** One table changes. *)
Lemma wf_set_table s t tb tb' :
  well_formed_prop s -> tables s !! t = Some tb ->
  (forall c, kept_column tb tb' c) ->
  (forall n cs c ck, constraints tb !! n = Some (PrimaryKey cs) -> c ∈ cs -> columns tb !! c = Some ck ->
     nullable ck = false -> exists ck', columns tb' !! c = Some ck' /\ nullable ck' = false) ->
  (forall u tu n cs refs, tables s !! u = Some tu -> constraints tu !! n = Some (ForeignKey cs t refs) ->
     is_key tb refs = true -> is_key tb' refs = true) ->
  (forall n k, constraints tb' !! n = Some k ->
     (exists n', constraints tb !! n' = Some k) \/ constraint_fits s tb k = true) ->
  (forall n cs refs, constraints tb' !! n = Some (ForeignKey cs t refs) -> is_key tb refs = true -> is_key tb' refs = true) ->
  (forall n cs c ck, constraints tb' !! n = Some (PrimaryKey cs) -> c ∈ cs -> columns tb !! c = Some ck ->
     nullable ck = false -> exists ck', columns tb' !! c = Some ck' /\ nullable ck' = false) ->
  well_formed_prop (set_table t tb' s).
Proof.
  intros [Hc Hi] Ht Hcol Hpk Hkey Hcs Hself Hpk'. split.
  - intros u tu n k Hu Hn. rewrite tables_set_table in Hu.
    assert (Hfk : forall cs v refs tv, k = ForeignKey cs v refs -> tables s !! v = Some tv -> is_key tv refs = true ->
      (v = t -> is_key tb refs = true -> is_key tb' refs = true) ->
      exists tv', tables (set_table t tb' s) !! v = Some tv' /\ (forall c, c ∈ refs -> kept_column tv tv' c) /\ is_key tv' refs = true).
    { intros cs v refs tv _ Hv Hk Hsame. rewrite tables_set_table. destruct (decide (t = v)) as [Hvt|Hvt].
      - rewrite <-Hvt, Ht in Hv. injection Hv as <-. exists tb'. eauto.
      - exists tv. split; [done|]. split; [intros; apply kept_column_refl|done]. }
    destruct (decide (t = u)) as [Htu|Htu].
    + injection Hu as <-. assert (Hold : constraint_fits s tb k = true) by (destruct (Hcs n k Hn) as [[n' Hn']|]; eauto).
      eapply constraint_fits_kept; [intros c _; apply Hcol|intros cs c ck Hkk Hin; rewrite Hkk in Hn; exact (Hpk' n cs c ck Hn Hin)| |exact Hold].
      intros cs v refs tv Hkk Hv Hk. eapply Hfk; [done..|]. intros ->. rewrite Hkk in Hn. by eapply Hself.
    + refine (constraint_fits_kept s _ tu tu k _ _ _ (Hc _ _ _ _ Hu Hn));
        [intros; apply kept_column_refl|intros cs0 c ck _ _ Hck Hn0; exists ck; by split|].
      intros cs v refs tv Hkk Hv Hk. eapply Hfk; [done..|]. intros ->. rewrite Hkk in Hn. exact (Hkey _ _ _ _ _ Hu Hn).
  - intros n ix Hn. destruct (Hi n ix Hn) as (tu & Hu & Hfit). rewrite tables_set_table.
    case_decide as Htu; [|eauto]. rewrite <-Htu in Hu. simplify_eq. eexists. split; [done|].
    eapply index_fits_kept; [intros; apply Hcol|done].
Qed.

Lemma wf_set_indexes s f :
  well_formed_prop s ->
  (forall n ix, f (indexes s) !! n = Some ix ->
     (exists n', indexes s !! n' = Some ix) \/ exists tb, tables s !! ix_table ix = Some tb /\ index_fits tb ix = true) ->
  well_formed_prop (set_indexes f s).
Proof. intros [Hc Hi] H. split; [exact Hc|]. intros n ix Hn. destruct (H n ix Hn) as [[n' Hn']|]; eauto. Qed.

Lemma free_names_fresh s tb n k u : free_names s tb n k = Ok u -> constraints tb !! n = None.
Proof.
  unfold free_names. intros H. open_step. apply negb_true_iff in H0. unfold is_some in H0.
  by destruct (constraints tb !! n).
Qed.

Lemma is_key_insert m cs n k refs :
  cs !! n = None -> is_key (Table m cs) refs = true -> is_key (Table m (<[n := k]> cs)) refs = true.
Proof.
  rewrite !is_key_spec. cbn. intros Hn (n' & k' & Hn' & Hk'). exists n', k'. split; [|done].
  rewrite lookup_insert_ne by congruence. done.
Qed.

Lemma wf_add_constraint t n k s s' : well_formed_prop s -> add_constraint t n k s = Ok s' -> well_formed_prop s'.
Proof.
  intros Hwf H. unfold add_constraint in H. open_step.
  match goal with H : free_names _ ?tb0 _ _ = Ok _ |- _ => rename tb0 into tb; apply free_names_fresh in H end.
  assert (Hkey : forall refs, is_key tb refs = true -> is_key (set_constraints <[n := k]> tb) refs = true).
  { intros refs. destruct tb. by apply is_key_insert. }
  eapply wf_set_table; [done|done|by intros; apply kept_column_same|by eauto|by intros; apply Hkey| |by intros; apply Hkey|by eauto].
  intros n' k' Hk'. cbn in Hk'. apply lookup_insert_Some in Hk' as [[_ <-]|[_ Hk']]; eauto.
Qed.

Lemma wf_add_constraints t ks s s' : well_formed_prop s -> add_constraints t ks s = Ok s' -> well_formed_prop s'.
Proof.
  revert s. induction ks as [|[n k] ks IH]; intros s Hwf H; cbn in H; [by injection H as <-|].
  apply rbind_Ok in H as (s1 & H1 & H). eapply IH; [|done]. by eapply wf_add_constraint.
Qed.

Lemma wf_new_table s t m : well_formed_prop s -> tables s !! t = None -> well_formed_prop (set_table t (Table m ∅) s).
Proof.
  intros [Hc Hi] Ht. split.
  - intros u tu n k Hu Hn. rewrite tables_set_table in Hu. case_decide; subst; [by simplify_eq|].
    refine (constraint_fits_kept s _ tu tu k _ _ _ (Hc _ _ _ _ Hu Hn));
        [intros; apply kept_column_refl|intros cs0 c ck _ _ Hck Hn0; exists ck; by split|].
    intros cs v refs tv -> Hv Hk. rewrite tables_set_table, decide_False by congruence. exists tv.
    split; [done|]. split; [intros; apply kept_column_refl|done].
  - intros n ix Hn. destruct (Hi n ix Hn) as (tu & Hu & Hfit). rewrite tables_set_table, decide_False by congruence. eauto.
Qed.

(** The statements that change one table and keep its columns. *)
Lemma wf_change_constraints s t tb f :
  well_formed_prop s -> tables s !! t = Some tb ->
  (forall n k, f (constraints tb) !! n = Some k -> exists n', constraints tb !! n' = Some k) ->
  (forall refs, is_key tb refs = true -> is_key (set_constraints f tb) refs = true \/
     forall u tu n cs, tables s !! u = Some tu -> constraints tu !! n <> Some (ForeignKey cs t refs)) ->
  well_formed_prop (set_table t (set_constraints f tb) s).
Proof.
  intros Hwf Ht Hold Hkey. eapply wf_set_table; [done|done|by intros; apply kept_column_same|by eauto| | | |by eauto].
  - intros u tu n cs refs Hu Hn Hk. destruct (Hkey refs Hk) as [|Hno]; [done|]. by destruct (Hno _ _ _ _ Hu Hn).
  - intros n k Hn. left. by apply (Hold n).
  - intros n cs refs Hn Hk. destruct (Hkey refs Hk) as [|Hno]; [done|].
    destruct (Hold _ _ Hn) as [n' Hn']. by destruct (Hno _ _ _ _ Ht Hn').
Qed.

Lemma wf_update_column s s' t c f :
  well_formed_prop s -> update_column s t c f = Ok s' -> (forall k, col_type (f k) = col_type k) ->
  (forall tb k, tables s !! t = Some tb -> columns tb !! c = Some k -> in_primary_key tb c = true ->
     nullable k = false -> nullable (f k) = false) ->
  well_formed_prop s'.
Proof.
  unfold update_column. intros Hwf H Hty Hpk. open_step.
  match goal with H : columns ?tb0 !! c = Some ?k |- _ => rename tb0 into tb; rename k into k0; rename H into Hc0 end.
  assert (Hcol : forall n cs c' ck, constraints tb !! n = Some (PrimaryKey cs) -> c' ∈ cs -> columns tb !! c' = Some ck ->
    nullable ck = false -> exists ck', <[c := f k0]> (columns tb) !! c' = Some ck' /\ nullable ck' = false).
  { intros n cs c' ck Hn Hin Hck Hnull. destruct (decide (c = c')) as [<-|Hne].
    - rewrite lookup_insert_eq. eexists. split; [done|]. assert (ck = k0) as -> by congruence.
      eapply Hpk; [done|done| |done]. unfold in_primary_key. apply any_of_true. exists n, (PrimaryKey cs).
      split; [done|]. by apply bool_decide_eq_true.
    - rewrite lookup_insert_ne by done. eauto. }
  eapply wf_set_table; [done|done| |exact Hcol|by intros|by eauto|by intros|exact Hcol].
  intros c' k Hk. cbn. destruct (decide (c = c')) as [<-|Hne].
  - rewrite lookup_insert_eq. eexists. split; [done|]. rewrite Hty. congruence.
  - rewrite lookup_insert_ne by done. eauto.
Qed.

Lemma wf_drop_table s t :
  well_formed_prop s -> referenced s t (fun _ => true) t = false ->
  well_formed_prop (Schema (delete t (tables s)) (filter (fun nx => ix_table (snd nx) <> t) (indexes s)) (extensions s)).
Proof.
  intros [Hc Hi] Href. split; cbn.
  - intros u tu n k Hu Hn. apply lookup_delete_Some in Hu as [Hne Hu].
    refine (constraint_fits_kept s _ tu tu k _ _ _ (Hc _ _ _ _ Hu Hn));
      [intros; apply kept_column_refl|intros cs0 c ck _ _ Hck Hn0; exists ck; by split|].
    intros cs v refs tv Hkk Hv Hk. subst k. exists tv. cbn. rewrite lookup_delete_ne.
    + split; [done|]. split; [intros; apply kept_column_refl|done].
    + intros <-. by pose proof (referenced_false _ _ _ _ Href u tu n cs refs ltac:(congruence) Hu Hn).
  - intros n ix Hn. apply map_lookup_filter_Some in Hn as [Hn Hne]. cbn in Hne.
    destruct (Hi _ _ Hn) as (tu & Hu & Hfit). exists tu. split; [|done]. rewrite lookup_delete_ne; [done|congruence].
Qed.

Lemma is_key_retarget t t' tb refs : is_key (set_constraints (fmap (retarget t t')) tb) refs = is_key tb refs.
Proof.
  apply eq_true_iff_eq. rewrite !is_key_spec. cbn. split.
  - intros (n & k & Hn & Hk). apply lookup_fmap_Some in Hn as (k0 & <- & Hn). exists n, k0. split; [done|]. by destruct k0.
  - intros (n & k & Hn & Hk). exists n, (retarget t t' k). rewrite lookup_fmap, Hn. split; [done|]. by destruct k.
Qed.

(** Where a table of the schema is found after a renaming. *)
Lemma renamed_lookup s t t' tb u tu :
  tables s !! t = Some tb -> tables s !! t' = None -> tables s !! u = Some tu ->
  (set_constraints (fmap (retarget t t')) <$> <[t' := tb]> (delete t (tables s))) !! (if String.eqb u t then t' else u)
  = Some (set_constraints (fmap (retarget t t')) tu).
Proof.
  intros Ht Hfree Hu. rewrite lookup_fmap. destruct (String.eqb_spec u t) as [->|Hne].
  - rewrite lookup_insert_eq. cbn. congruence.
  - rewrite lookup_insert_ne by congruence. rewrite lookup_delete_ne by done. by rewrite Hu.
Qed.

Lemma wf_rename_table s t t' tb :
  well_formed_prop s -> tables s !! t = Some tb -> tables s !! t' = None ->
  well_formed_prop (Schema (set_constraints (fmap (retarget t t')) <$> <[t' := tb]> (delete t (tables s)))
                           (move_index t t' <$> indexes s) (extensions s)).
Proof.
  intros [Hc Hi] Ht Hfree. split; cbn.
  - intros u tu n k Hu Hn. apply lookup_fmap_Some in Hu as (tv & <- & Hu). cbn in Hn.
    apply lookup_fmap_Some in Hn as (k0 & <- & Hn).
    assert (Hold : constraint_fits s tv k0 = true).
    { apply lookup_insert_Some in Hu as [[_ <-]|[_ Hu]]; [by eapply Hc|].
      apply lookup_delete_Some in Hu as [_ Hu]. by eapply Hc. }
    destruct k0 as [p|cs|cs|cs v refs]; cbn in Hold |- *.
    + eapply cond_fits_kept; [|exact Hold]. intros; by apply kept_column_same.
    + done.
    + done.
    + apply andb_true_iff in Hold as [Hcols Href]. apply andb_true_iff. split; [done|].
      destruct (tables s !! v) as [tw|] eqn:Hv; [|done]. rewrite (renamed_lookup s t t' tb v tw) by done.
      rewrite is_key_retarget. done.
  - intros n ix Hn. apply lookup_fmap_Some in Hn as (ix0 & <- & Hn). destruct (Hi _ _ Hn) as (tu & Hu & Hfit).
    exists (set_constraints (fmap (retarget t t')) tu). split.
    + rewrite <-(renamed_lookup s t t' tb _ tu) by done. f_equal. unfold move_index. by destruct (String.eqb _ _).
    + unfold move_index. destruct (String.eqb _ _); (eapply index_fits_kept; [|exact Hfit]; intros; by apply kept_column_same).
Qed.

Lemma kept_delete tb cs c c' : c <> c' -> kept_column tb (Table (delete c (columns tb)) cs) c'.
Proof. intros Hne k Hk. cbn. rewrite lookup_delete_ne by done. eauto. Qed.

Lemma wf_drop_column s t c tb :
  well_formed_prop s -> tables s !! t = Some tb -> referenced s t (fun refs => bool_decide (c ∈ refs)) t = false ->
  well_formed_prop (set_indexes (filter (fun nx => index_uses t c (snd nx) = false))
    (set_table t (Table (delete c (columns tb)) (filter (fun nk => uses_column t c (snd nk) = false) (constraints tb))) s)).
Proof.
  intros [Hc Hi] Ht Href.
  set (tb' := Table _ _).
  assert (Hkey : forall refs, c ∉ refs -> is_key tb refs = true -> is_key tb' refs = true).
  { intros refs Hno. rewrite !is_key_spec. intros (n & k & Hn & Hk). exists n, k. split; [|done]. cbn.
    apply map_lookup_filter_Some. split; [done|]. cbn. unfold uses_column.
    destruct k; cbn in Hk; simplify_eq; cbn; by rewrite bool_decide_false. }
  assert (Hne : forall k c', uses_column t c k = false -> c' ∈ constraint_columns k -> c <> c').
  { intros k c' Huse Hin <-. unfold uses_column in Huse. by rewrite bool_decide_true in Huse. }
  split; cbn [set_indexes indexes tables].
  - intros u tu n k Hu Hn.
    assert (exists tu0, tables s !! u = Some tu0 /\ constraints tu0 !! n = Some k /\
      (u = t -> tu0 = tb /\ tu = tb' /\ uses_column t c k = false) /\ (u <> t -> tu = tu0)) as (tu0 & Hu0 & Hn0 & Hsame & Hother).
    { rewrite tables_set_table in Hu. destruct (decide (t = u)) as [<-|Hd].
      - injection Hu as <-. cbn in Hn. apply map_lookup_filter_Some in Hn as [Hn Huse]. exists tb. naive_solver.
      - exists tu. naive_solver. }
    assert (Hkept : forall c', c' ∈ constraint_columns k -> kept_column tu0 tu c').
    { intros c' Hin. destruct (decide (u = t)) as [Hd|Hd].
      - destruct (Hsame Hd) as (-> & -> & Huse). apply kept_delete. by eapply Hne.
      - rewrite (Hother Hd). apply kept_column_refl. }
    refine (constraint_fits_kept s _ tu0 tu k Hkept _ _ (Hc _ _ _ _ Hu0 Hn0)).
    + intros cs c' ck Hkk Hin Hck Hnull. subst k. destruct (decide (u = t)) as [Hd|Hd].
      * destruct (Hsame Hd) as (-> & -> & Huse). cbn. rewrite lookup_delete_ne by (by eapply Hne). eauto.
      * rewrite (Hother Hd). eauto.
    + intros cs v refs tv Hkk Hv Hk. subst k. change (tables (set_indexes _ ?x)) with (tables x). rewrite tables_set_table.
      destruct (decide (t = v)) as [<-|Hd]; [|exists tv; split; [done|]; split; [intros; apply kept_column_refl|done]].
      assert (c ∉ refs) as Hno.
      { intros Hin. destruct (decide (u = t)) as [Hd|Hd].
        - destruct (Hsame Hd) as (_ & _ & Huse). unfold uses_column in Huse. rewrite String.eqb_refl in Huse.
          rewrite (bool_decide_true (c ∈ refs)) in Huse by done. by rewrite orb_true_r in Huse.
        - pose proof (referenced_false _ _ _ _ Href u tu0 n cs refs Hd Hu0 Hn0) as Hx. cbn in Hx.
          by rewrite bool_decide_true in Hx. }
      simplify_eq. exists tb'. split; [done|]. split; [|by apply Hkey].
      intros c' Hin. apply kept_delete. by intros <-.
  - intros n ix Hn. apply map_lookup_filter_Some in Hn as [Hn Huse]. cbn in Huse.
    destruct (Hi _ _ Hn) as (tu & Hu & Hfit). rewrite tables_set_table.
    destruct (decide (t = ix_table ix)) as [Hd|Hd]; [|eauto]. exists tb'. split; [done|].
    assert (tu = tb) as -> by congruence. eapply index_fits_kept; [|exact Hfit]. intros c' Hin. apply kept_delete.
    intros <-. unfold index_uses in Huse. by rewrite <-Hd, String.eqb_refl, bool_decide_true in Huse.
Qed.

Lemma in_primary_key_false tb c n cs :
  in_primary_key tb c = false -> constraints tb !! n = Some (PrimaryKey cs) -> c ∉ cs.
Proof.
  unfold in_primary_key. rewrite any_of_false. intros H Hn Hin. specialize (H _ _ Hn). cbn in H.
  by rewrite bool_decide_true in H.
Qed.

(** What [DropConstraint] tests: no foreign key relies on the key it drops. *)
Lemma not_relied_on s t cs u tu n cs' :
  any_of (tables s) (fun _ tb' => any_of (constraints tb') (fun _ k' =>
    match k' with ForeignKey _ v refs => String.eqb v t && bool_decide (cs = refs) | _ => false end)) = false ->
  tables s !! u = Some tu -> constraints tu !! n <> Some (ForeignKey cs' t cs).
Proof.
  rewrite any_of_false. intros H Hu Hn. specialize (H _ _ Hu). rewrite any_of_false in H. specialize (H _ _ Hn).
  cbn in H. by rewrite String.eqb_refl, bool_decide_true in H.
Qed.

Lemma wf_drop_constraint s t n tb k :
  well_formed_prop s -> tables s !! t = Some tb -> constraints tb !! n = Some k ->
  match key_columns k with
  | Some cs => any_of (tables s) (fun _ tb' => any_of (constraints tb') (fun _ k' =>
      match k' with ForeignKey _ u refs => String.eqb u t && bool_decide (cs = refs) | _ => false end))
  | None => false
  end = false ->
  well_formed_prop (set_table t (set_constraints (delete n) tb) s).
Proof.
  intros Hwf Ht Hk Hfree. apply wf_change_constraints; [done..| |].
  - intros n' k' Hn'. apply lookup_delete_Some in Hn' as [_ Hn']. eauto.
  - intros refs. rewrite !is_key_spec. intros (n' & k' & Hn' & Hk'). destruct (decide (n = n')) as [<-|Hne].
    + right. intros u tu m cs Hu. assert (k' = k) as -> by congruence. rewrite Hk' in Hfree. by eapply not_relied_on.
    + left. exists n', k'. split; [|done]. cbn. by rewrite lookup_delete_ne.
Qed.

Theorem wf_step o s s' : well_formed_prop s -> schema_step o s = Ok s' -> well_formed_prop s'.
Proof.
  intros Hwf Hs. destruct o; cbn [schema_step] in Hs; [..|by eapply wf_add_constraint| | | | | | | | | ]; open_step; try exact Hwf.
  - destruct Hwf as [Hc Hi]. by split.
  - apply negb_true_iff, is_relation_table in H. eapply wf_add_constraints; [|exact Hs]. by apply wf_new_table.
  - apply wf_drop_table; [done|by apply negb_true_iff].
  - apply wf_rename_table; [done..|]. by apply is_relation_table, negb_true_iff.
  - match goal with H : negb (has_column ?tb _) = true |- _ => apply negb_true_iff in H; rename H into Hfresh; rename tb into tb0 end.
    assert (Hne : forall c', is_Some (columns tb0 !! c') -> c <> c').
    { intros c' Hc' <-. apply has_column_spec in Hc'. congruence. }
    eapply wf_set_table; [done|done| | |by intros|by eauto|by intros|].
    + intros c' k' Hk'. cbn. rewrite lookup_insert_ne by (by eapply Hne; eexists). eauto.
    + intros n cs c' ck _ _ Hk' Hn. cbn. rewrite lookup_insert_ne by (by eapply Hne; eexists). eauto.
    + intros n cs c' ck _ _ Hk' Hn. cbn. rewrite lookup_insert_ne by (by eapply Hne; eexists). eauto.
  - apply wf_drop_column; [done..|by apply negb_true_iff].
  - eapply wf_update_column; [done..|]. intros tb k Ht Hk Hin Hnull. cbn.
    match goal with H : negb (b && in_primary_key ?x c) = true |- _ => assert (x = tb) as -> by congruence; rewrite Hin in H end.
    by destruct b.
  - eapply wf_update_column; [done..|]. done.
  - eapply wf_drop_constraint; [done..|by apply negb_true_iff].
  - apply wf_change_constraints; [done..| |].
    + intros n k Hn. apply map_lookup_filter_Some in Hn as [Hn _]. eauto.
    + intros refs. rewrite !is_key_spec. intros (n & k & Hn & Hk). left. exists n, k. split; [|done]. cbn.
      apply map_lookup_filter_Some. split; [done|]. cbn. by destruct k.
  - match goal with H : free_names _ _ _ _ = Ok _ |- _ => apply free_names_fresh in H; rename H into Hfresh end.
    match goal with H : constraints ?tb !! n = Some ?k |- _ => rename tb into tb0; rename k into k0; rename H into Hn0 end.
    apply wf_change_constraints; [done..| |].
    + intros m k Hm. apply lookup_insert_Some in Hm as [[_ <-]|[_ Hm]]; [eauto|]. apply lookup_delete_Some in Hm as [_ Hm]. eauto.
    + intros refs. rewrite !is_key_spec. intros (m & k & Hm & Hk). left. destruct (decide (n = m)) as [<-|Hne].
      * exists n', k. cbn. rewrite lookup_insert_eq. split; [congruence|done].
      * exists m, k. cbn. rewrite lookup_insert_ne by congruence. by rewrite lookup_delete_ne.
  - apply wf_set_indexes; [done|]. intros n' ix' Hn'. apply lookup_insert_Some in Hn' as [[_ <-]|[_ Hn']]; [|eauto].
    right. eauto.
  - apply wf_set_indexes; [done|]. intros n' ix' Hn'. apply lookup_delete_Some in Hn' as [_ Hn']. eauto.
Qed.

(** ** Lists of statements *)

Fixpoint schema_run (os : list ddl) (s : schema) : result sql_error schema :=
  match os with
  | [] => Ok s
  | o :: os' => let? s' := schema_step o s in schema_run os' s'
  end.

Lemma run_schema now os db db' : run now os db = Ok db' -> schema_run os (db_schema db) = Ok (db_schema db').
Proof.
  revert db. induction os as [|o os IH]; intros db H; cbn in *; [by injection H as <-|].
  unfold step in H. open_step. match goal with H : schema_step _ _ = _ |- _ => rewrite H end. cbn. by apply IH in H.
Qed.

Lemma schema_run_app os1 os2 s : schema_run (os1 ++ os2) s = rbind (schema_run os1 s) (schema_run os2).
Proof. revert s. induction os1 as [|o os1 IH]; intros s; [done|]. cbn. destruct (schema_step o s); cbn; [apply IH|done]. Qed.

Lemma wf_run os s s' : well_formed_prop s -> schema_run os s = Ok s' -> well_formed_prop s'.
Proof.
  revert s. induction os as [|o os IH]; intros s Hwf H; cbn in H; [by injection H as <-|].
  apply rbind_Ok in H as (s1 & H1 & H). eapply IH; [|done]. by eapply wf_step.
Qed.

Lemma run_fits now os db db' :
  well_formed_prop (db_schema db) -> fits (db_schema db) (db_data db) -> run now os db = Ok db' ->
  fits (db_schema db') (db_data db').
Proof.
  revert db. induction os as [|o os IH]; intros db Hwf Hf H; cbn in *; [by injection H as <-|].
  unfold step in H. open_step. eapply IH; [..|exact H]; cbn.
  - by eapply wf_step.
  - eapply fits_step; [by apply well_formed_spec|done..].
Qed.

(** Consistency is kept by whatever succeeds. *)
Lemma consistent_run now os db db' :
  consistent db = true -> run now os db = Ok db' -> consistent db' = true.
Proof.
  unfold consistent. rewrite !andb_true_iff, !data_fits_spec, !well_formed_spec. intros [Hwf Hf] H.
  split; [eapply wf_run; [exact Hwf|by eapply run_schema]|by eapply run_fits].
Qed.

Lemma run_app now os1 os2 db : run now (os1 ++ os2) db = rbind (run now os1 db) (run now os2).
Proof. revert db. induction os1 as [|o os1 IH]; intros db; [done|]. cbn. destruct (step now o db); cbn; [apply IH|done]. Qed.

(** ** Overwriting a column no constraint looks at *)

Definition refers_to (t c : string) (k : constraint) : bool :=
  match k with ForeignKey _ u refs => String.eqb u t && bool_decide (c ∈ refs) | _ => false end.

Definition column_unused (s : schema) (t c : string) : bool :=
  all_of (tables s) (fun u tb => all_of (constraints tb) (fun _ k =>
    negb (String.eqb u t && bool_decide (c ∈ constraint_columns k)) && negb (refers_to t c k))) &&
  all_of (indexes s) (fun _ ix => negb (String.eqb (ix_table ix) t && bool_decide (c ∈ index_columns ix))).

Lemma fits_overwrite s d t tb c k f :
  fits s d -> tables s !! t = Some tb -> columns tb !! c = Some k -> column_unused s t c = true ->
  (forall r, f r = r \/ exists v, f r = <[c := v]> r) ->
  (forall r, r ∈ rows d t -> value_fits k (col (f r) c) = true) ->
  fits s (set_rows t (map f) d).
Proof.
  intros Hf Ht Hc Hun Hfr Hv. unfold column_unused in Hun. apply andb_true_iff in Hun as [Hun Huni].
  rewrite all_of_spec in Hun. rewrite all_of_spec in Huni.
  assert (Hother : forall r c', c' <> c -> col (f r) c' = col r c').
  { intros r c' Hne. destruct (Hfr r) as [->|[v ->]]; [done|]. by apply col_insert_ne. }
  split.
  - intros u tu r Hu Hr. rewrite rows_set_rows in Hr. case_decide; subst; [|by eapply (fits_rows _ _ Hf)]. simplify_eq.
    apply list_elem_of_fmap in Hr as (r0 & -> & Hr0).
    pose proof (fits_rows _ _ Hf _ _ _ Ht Hr0) as Hr. apply row_fits_spec in Hr as [Hd Hr]. apply row_fits_spec. split.
    + destruct (Hfr r0) as [->|[v ->]]; [done|]. rewrite dom_insert_L, Hd.
      assert (c ∈ dom (columns tb)) by (by apply elem_of_dom_2 in Hc). set_solver.
    + intros c' k' Hc'. destruct (decide (c' = c)) as [->|Hne]; [simplify_eq; eauto|]. rewrite Hother by done. eauto.
  - intros u tu n k' Hu Hn. specialize (Hun _ _ Hu). rewrite all_of_spec in Hun. specialize (Hun _ _ Hn).
    apply andb_true_iff in Hun as [Hun Href]. apply negb_true_iff in Hun, Href.
    eapply constraint_unchanged; [done..| |].
    + intros -> r c' Hc'. apply Hother. intros ->. by rewrite String.eqb_refl, bool_decide_true in Hun.
    + intros cs refs -> r c' Hc'. apply Hother. intros ->. unfold refers_to in Href.
      by rewrite String.eqb_refl, bool_decide_true in Href.
  - intros n ix Hn. specialize (Huni _ _ Hn). apply negb_true_iff in Huni.
    eapply index_unchanged; [done..|]. intros <- r c' Hc'. apply Hother. intros ->.
    by rewrite String.eqb_refl, bool_decide_true in Huni.
Qed.

(** ** A first row *)

Lemma existsb_app_l {A} (p : A -> bool) l l' : existsb p l = true -> existsb p (l ++ l') = true.
Proof. rewrite existsb_app. by intros ->. Qed.

(** A row put into an empty table whose constraints it satisfies by itself. *)
Lemma fits_first_row s d t tb r :
  fits s d -> tables s !! t = Some tb -> rows d t = [] -> row_fits (columns tb) r = true ->
  (forall n k, constraints tb !! n = Some k ->
     match k with CheckThat p => passes p r = true | ForeignKey _ _ _ => False | _ => True end) ->
  fits s (set_rows t (fun rs => rs ++ [r]) d).
Proof.
  intros Hf Ht He Hr Hk. split.
  - intros u tu r' Hu Hr'. rewrite rows_set_rows in Hr'. case_decide; subst; [|by eapply (fits_rows _ _ Hf)].
    rewrite He in Hr'. cbn in Hr'. apply list_elem_of_singleton in Hr' as ->. congruence.
  - intros u tu n k Hu Hn. destruct (decide (t = u)) as [<-|Hne].
    + simplify_eq. specialize (Hk _ _ Hn).
      destruct k as [p|cs|cs|]; [| | |done]; cbn; rewrite rows_set_rows, decide_True, He by done; cbn.
      * by rewrite Hk.
      * unfold unique_rows. cbn. by destruct (negb _).
      * unfold unique_rows. cbn. by destruct (negb _).
    + pose proof (fits_constraint _ _ Hf _ _ _ _ Hu Hn) as H.
      assert (Hru : rows (set_rows t (fun rs => rs ++ [r]) d) u = rows d u) by (by rewrite rows_set_rows, decide_False).
      destruct k as [p|cs|cs|cs v refs]; cbn in *; rewrite ?Hru; try done.
      rewrite rows_set_rows. rewrite forallb_forall in *. intros r' Hr'. specialize (H r' Hr'). apply orb_true_iff in H as [H|H]; [by rewrite H|].
      apply orb_true_iff. right. case_decide; subst; [by apply existsb_app_l|done].
  - intros n ix Hn. pose proof (fits_index _ _ Hf _ _ Hn) as H. unfold index_holds in *.
    destruct (ix_unique ix); [|done]. rewrite rows_set_rows. case_decide; [|done]. rewrite He.
    unfold unique_rows. cbn. destruct (index_selects ix r); [|done]. cbn. by destruct (nulls_not_distinct ix || _)%bool.
Qed.

Lemma col_with_defaults now cols r c :
  col (with_defaults now cols r) c =
  match cols !! c with Some k => default (default_value now k) (r !! c) | None => Null end.
Proof. unfold with_defaults, col. rewrite map_lookup_imap. by destruct (cols !! c). Qed.

Lemma dom_with_defaults now cols r : dom (with_defaults now cols r) = dom cols.
Proof.
  unfold with_defaults. apply set_eq. intros c. rewrite !elem_of_dom, map_lookup_imap.
  destruct (cols !! c); cbn; split; intros []; by eauto.
Qed.
