(* ===== verification/Naming.v ===== *)
(** * The names of constraints, and how tables are written down

    MD5, which ends the names that are too long; the naming convention; columns
    and constraints as the models and the revisions write them. *)

From S2P Require Import Prelude Ddl.



(** ** MD5

    [hashlib.md5] of the standard library (RFC 1321): SQLAlchemy ends the name
    of a constraint that is too long for PostgreSQL with four digits of it, and
    the revisions of [db/migrations] spell such names out. *)

(** *** Words of 32 bits *)

Definition w32 (z : Z) : Z := Z.land z 0xffffffff.
Definition rotate_left (x c : Z) : Z := w32 (Z.lor (Z.shiftl x c) (Z.shiftr x (32 - c))).
Definition complement (x : Z) : Z := 0xffffffff - x.

Definition round_constants : list Z :=
  [
   0xd76aa478; 0xe8c7b756; 0x242070db; 0xc1bdceee; 0xf57c0faf; 0x4787c62a; 0xa8304613; 0xfd469501;
   0x698098d8; 0x8b44f7af; 0xffff5bb1; 0x895cd7be; 0x6b901122; 0xfd987193; 0xa679438e; 0x49b40821;
   0xf61e2562; 0xc040b340; 0x265e5a51; 0xe9b6c7aa; 0xd62f105d; 0x02441453; 0xd8a1e681; 0xe7d3fbc8;
   0x21e1cde6; 0xc33707d6; 0xf4d50d87; 0x455a14ed; 0xa9e3e905; 0xfcefa3f8; 0x676f02d9; 0x8d2a4c8a;
   0xfffa3942; 0x8771f681; 0x6d9d6122; 0xfde5380c; 0xa4beea44; 0x4bdecfa9; 0xf6bb4b60; 0xbebfbc70;
   0x289b7ec6; 0xeaa127fa; 0xd4ef3085; 0x04881d05; 0xd9d4d039; 0xe6db99e5; 0x1fa27cf8; 0xc4ac5665;
   0xf4292244; 0x432aff97; 0xab9423a7; 0xfc93a039; 0x655b59c3; 0x8f0ccc92; 0xffeff47d; 0x85845dd1;
   0x6fa87e4f; 0xfe2ce6e0; 0xa3014314; 0x4e0811a1; 0xf7537e82; 0xbd3af235; 0x2ad7d2bb; 0xeb86d391].

Definition shifts : list Z :=
  concat (map (fun q => concat (replicate 4 q))
    [[7; 12; 17; 22]; [5; 9; 14; 20]; [4; 11; 16; 23]; [6; 10; 15; 21]]).

(** *** One block *)

Definition md5_state : Type := Z * Z * Z * Z.

Definition round_function (i b c d : Z) : Z :=
  if i <? 16 then Z.lor (Z.land b c) (Z.land (complement b) d)
  else if i <? 32 then Z.lor (Z.land d b) (Z.land (complement d) c)
  else if i <? 48 then Z.lxor b (Z.lxor c d)
  else Z.lxor c (Z.lor b (complement d)).

(** The word of the message round [i] adds. *)
Definition round_word (i : Z) : Z :=
  (if i <? 16 then i
   else if i <? 32 then 5 * i + 1
   else if i <? 48 then 3 * i + 5
   else 7 * i) mod 16.

Definition md5_round (words : list Z) (st : md5_state) (r : Z * (Z * Z)) : md5_state :=
  let '(a, b, c, d) := st in
  let '(i, (k, s)) := r in
  let m := default 0 (words !! Z.to_nat (round_word i)) in
  let f := w32 (round_function i b c d + a + k + m) in
  (d, w32 (b + rotate_left f s), b, c).

Definition md5_rounds : list (Z * (Z * Z)) :=
  zip (map Z.of_nat (seq 0 64)) (zip round_constants shifts).

Definition md5_block (st : md5_state) (words : list Z) : md5_state :=
  let '(a, b, c, d) := st in
  let '(a', b', c', d') := fold_left (md5_round words) md5_rounds st in
  (w32 (a + a'), w32 (b + b'), w32 (c + c'), w32 (d + d')).

(** *** The message *)

Fixpoint little_endian (n : nat) (z : Z) : list Z :=
  match n with
  | O => []
  | S n' => Z.land z 255 :: little_endian n' (Z.shiftr z 8)
  end.

Fixpoint of_little_endian (bytes : list Z) : Z :=
  match bytes with
  | [] => 0
  | b :: rest => b + 256 * of_little_endian rest
  end.

Fixpoint chunks {A} (fuel n : nat) (l : list A) : list (list A) :=
  match fuel, l with
  | O, _ | _, [] => []
  | S fuel', _ => take n l :: chunks fuel' n (drop n l)
  end.

Definition pad (bytes : list Z) : list Z :=
  let n := Z.of_nat (length bytes) in
  bytes ++ [128] ++ replicate (Z.to_nat ((55 - n) mod 64)) 0 ++ little_endian 8 (8 * n).

Definition blocks (bytes : list Z) : list (list Z) :=
  let padded := pad bytes in
  map (fun block => map of_little_endian (chunks 16 4 block)) (chunks (length padded) 64 padded).

Definition md5_digest (bytes : list Z) : list Z :=
  let '(a, b, c, d) := fold_left md5_block (blocks bytes)
    (0x67452301, 0xefcdab89, 0x98badcfe, 0x10325476) in
  concat (map (little_endian 4) [a; b; c; d]).

Definition hex_digit (n : Z) : ascii :=
  ascii_of_nat (Z.to_nat (if n <? 10 then 48 + n else 87 + n)).

Definition hex (bytes : list Z) : list ascii :=
  concat (map (fun b => [hex_digit (b / 16); hex_digit (b mod 16)]) bytes).

Definition byte_values (s : string) : list Z := map (fun c => Z.of_nat (nat_of_ascii c)) (chars s).

(** [hashlib.md5(s).hexdigest()] *)
Definition md5_hex (s : string) : string := unchars (hex (md5_digest (byte_values s))).

(** The test suite of the RFC. *)
Example md5_empty : md5_hex "" = "d41d8cd98f00b204e9800998ecf8427e"%string.
Proof. vm_compute. reflexivity. Qed.

Example md5_alphabet : md5_hex "abcdefghijklmnopqrstuvwxyz" = "c3fcd3d76192e4007dfb496cca67e13b"%string.
Proof. vm_compute. reflexivity. Qed.

Example md5_two_blocks :
  md5_hex "12345678901234567890123456789012345678901234567890123456789012345678901234567890"
  = "57edf4a22be3c955ac49da2e2107b67a"%string.
Proof. vm_compute. reflexivity. Qed.

(** ** The names of constraints, and how tables are written down

    The naming convention of [src/app/db/base.py] as SQLAlchemy applies it, and
    the arguments of a table as the models and the revisions give them. *)

(** *** Conditions, as SQL writes them *)

Declare Scope sql_scope.
Delimit Scope sql_scope with sql.
Notation "p 'AND' q" := (And p q) (at level 76, left associativity) : sql_scope.
Notation "p 'OR' q" := (Or p q) (at level 78, left associativity) : sql_scope.
Notation "c 'IN' l" := (TextIn c l%string) (at level 70) : sql_scope.
Notation "c 'NOT_IN' l" := (TextNotIn c l%string) (at level 70) : sql_scope.
Notation "c '==' s" := (TextIs c Equal s) (at level 70) : sql_scope.
Notation "c '<>>' s" := (TextIs c Differs s) (at level 70) : sql_scope.
Notation "c '>#' n" := (NumberIs c More n%Z) (at level 70) : sql_scope.
Notation "c '>=#' n" := (NumberIs c AtLeast n%Z) (at level 70) : sql_scope.
Notation "c '<=#' n" := (NumberIs c AtMost n%Z) (at level 70) : sql_scope.
#[global] Open Scope sql_scope.

(** *** The naming convention *)

(** The longest identifier of PostgreSQL. *)
Definition max_identifier_length : nat := 63.

(** SQLAlchemy shortens a name it generated: eight characters are kept free
    for an underscore and the last four digits of the name's MD5. *)
Definition truncated (name : string) : string :=
  if Nat.leb (String.length name) max_identifier_length then name
  else String.substring 0 (max_identifier_length - 8) name ++ "_" ++ String.substring 28 4 (md5_hex name).

(** The name given to a constraint: a plain string, one the convention is not
    applied to again ([op.f]), or none. *)
Inductive given_name : Type :=
| Named (n : string)
| Final (n : string)
| Unnamed.

Definition join_names (parts : list string) : string := String.concat "_" parts.

(** [ck_%(table_name)s_%(constraint_name)s] *)
Definition check_name (t : string) (n : given_name) : string :=
  match n with
  | Named s => truncated (join_names ["ck"; t; s])
  | Final s => truncated s
  | Unnamed => ""
  end.

(** The other conventions name only what has no name. *)
Definition key_name (convention : list string) (n : given_name) : string :=
  match n with
  | Named s => s
  | Final s => truncated s
  | Unnamed => truncated (join_names convention)
  end.

(** *** The arguments of a table *)

Inductive table_arg : Type :=
| CK (p : cond) (n : given_name)
| PK (cs : list string) (n : given_name)
| UQ (cs : list string) (n : given_name)
| FK (cs : list string) (t : string) (refs : list string) (n : given_name).

Definition first_of (cs : list string) : string := default "" (head cs).

Definition named_constraint (t : string) (a : table_arg) : string * constraint :=
  match a with
  | CK p n => (check_name t n, CheckThat p)
  | PK cs n => (key_name ["pk"; t] n, PrimaryKey cs)
  | UQ cs n => (key_name ["uq"; t; first_of cs] n, Unique cs)
  | FK cs u refs n => (key_name ["fk"; t; first_of cs; u] n, ForeignKey cs u refs)
  end.

(** [sa.Column(name, type, nullable=False)], with [nullable=True], and with a
    default of the server. *)
Definition required (c : string) (ty : coltype) : string * column := (c, Column ty false None).
Definition optional (c : string) (ty : coltype) : string * column := (c, Column ty true None).
Definition defaulted (c : string) (ty : coltype) (df : col_default) : string * column := (c, Column ty false (Some df)).

Definition price_type : coltype := TNumeric (Some (9, 4)).

Definition created_at : string * column := defaulted "created_at" TTimestamptz Now.
Definition updated_at : string * column := defaulted "updated_at" TTimestamptz Now.

(** [Index(name, *columns)] *)
Definition plain_index (t : string) (cs : list string) : index := Index t false (map (fun c => (c, false)) cs) false None.
Definition partial_index (t : string) (cs : list string) (p : cond) : index :=
  Index t false (map (fun c => (c, false)) cs) false (Some p).
Definition unique_index (t : string) (cs : list string) (p : option cond) : index :=
  Index t true (map (fun c => (c, false)) cs) false p.
Definition null_safe_unique_index (t : string) (cs : list string) (p : cond) : index :=
  Index t true (map (fun c => (c, false)) cs) true (Some p).

(** *** Conditions several tables share *)

Definition REFERENCE_PRICE_TYPES : list string := ["ask"; "bid"; "last_fallback"].

Definition reference_price_type_check : cond := "trigger_reference_price_type" IN REFERENCE_PRICE_TYPES.

Definition fallback_consistency : cond :=
  ("trigger_reference_price_type" == "last_fallback" AND FlagIs "fallback_used" true)
  OR ("trigger_reference_price_type" IN ["ask"; "bid"] AND FlagIs "fallback_used" false).

Definition positive (c : string) : cond := c ># 0.
Definition absent_or_positive (c : string) : cond := IsNull c OR c ># 0.
Definition live : cond := "status" IN ["scheduled"; "active"].
