(* ===== verification/Revisions.v ===== *)
(** * The revisions of the schema

    [src/app/db/migrations/versions]: what each revision does on the way up and
    on the way down, statement by statement, and Alembic's walk along them. *)

From S2P Require Import Prelude Json Ddl Naming.

(** ** The operations of Alembic *)

Definition create_table (t : string) (cols : list (string * column)) (args : list table_arg) : ddl :=
  CreateTable t cols (map (named_constraint t) args).

(** [ALTER TABLE t ADD CONSTRAINT n CHECK (p)], in SQL: the name is taken as it is. *)
Definition add_check (t n : string) (p : cond) : ddl := AddConstraint t n (CheckThat p).

Definition create_check_constraint (n t : string) (p : cond) : ddl := add_check t (check_name t (Named n)) p.
Definition drop_check_constraint (n t : string) : ddl := DropConstraint t (check_name t (Named n)).

Definition create_foreign_key (n : given_name) (t u : string) (cs refs : list string) : ddl :=
  AddConstraint t (key_name ["fk"; t; first_of cs; u] n) (ForeignKey cs u refs).

Definition drop_constraints (t : string) (ns : list string) : list ddl := map (DropConstraint t) ns.
Definition drop_columns (t : string) (cs : list string) : list ddl := map (DropColumn t) cs.
Definition add_columns (t : string) (cols : list (string * column)) : list ddl :=
  map (fun ck => AddColumn t (fst ck) (snd ck)) cols.
Definition rename_constraints (t : string) (names : list (string * string)) : list ddl :=
  map (fun on => RenameConstraint t (fst on) (snd on)) names.

Record revision := Revision {
  rev_id : string;
  down_revision : option string;
  upgrade : list ddl;
  downgrade : list ddl;
}.

(** ** 202605120001: the first schema *)

Definition rev_v0_5 : revision := Revision "202605120001" None
  [create_table "symbols"
     [required "id" TUuid; required "symbol" TText; required "display_name" TText; required "market" TText;
      required "instrument_type" TText; required "tradable_status" TText; created_at; updated_at]
     [CK ("instrument_type" IN ["stock"; "etf"]) (Named "ck_symbols_instrument_type");
      CK ("market" IN ["TWSE"; "TPEx"]) (Named "ck_symbols_market");
      CK ("tradable_status" IN ["tradable"; "halted"; "unsupported"]) (Named "ck_symbols_tradable_status");
      PK ["id"] (Named "pk_symbols");
      UQ ["symbol"] (Named "uq_symbols_symbol")];
   create_table "trade_intents"
     [required "id" TUuid; required "owner_user_id" TUuid; required "symbol" TText; required "strategy" TText;
      required "execution_mode" TText; required "quantity_lots" TInteger;
      required "target_price_original" price_type; required "target_price_effective" price_type;
      required "trigger_reference_price_type" TText; required "trading_date" TDate; required "time_in_force" TText;
      required "status" TText; created_at; updated_at;
      optional "cancelled_at" TTimestamptz; optional "triggered_at" TTimestamptz]
     [CK ("execution_mode" == "notify_only") (Named "ck_trade_intents_execution_mode");
      CK (positive "quantity_lots") (Named "ck_trade_intents_quantity_lots");
      CK ("status" IN ["scheduled"; "active"; "triggered"; "cancelled"]) (Named "ck_trade_intents_status");
      CK ("strategy" IN ["buy_price_alert"; "sell_price_alert"]) (Named "ck_trade_intents_strategy");
      CK (positive "target_price_effective") (Named "ck_trade_intents_target_price_effective");
      CK (positive "target_price_original") (Named "ck_trade_intents_target_price_original");
      CK ("time_in_force" == "day") (Named "ck_trade_intents_time_in_force");
      CK reference_price_type_check (Named "ck_trade_intents_trigger_reference_price_type");
      FK ["symbol"] "symbols" ["symbol"] (Named "fk_trade_intents_symbol_symbols");
      PK ["id"] (Named "pk_trade_intents")];
   CreateIndex "ix_trade_intents_owner_status_trading_date"
     (plain_index "trade_intents" ["owner_user_id"; "status"; "trading_date"]);
   CreateIndex "ix_trade_intents_symbol_status_trading_date"
     (plain_index "trade_intents" ["symbol"; "status"; "trading_date"]);
   CreateIndex "uq_trade_intents_active_duplicate"
     (unique_index "trade_intents"
        ["owner_user_id"; "symbol"; "strategy"; "target_price_effective"; "quantity_lots"; "trading_date"] (Some live));
   create_table "trigger_records"
     [required "id" TUuid; required "trade_intent_id" TUuid; required "owner_user_id" TUuid; required "symbol" TText;
      required "quote_snapshot" TJsonb; required "target_price_effective" price_type;
      required "trigger_price" price_type; required "trigger_reference_price_type" TText;
      defaulted "fallback_used" TBoolean (Literal (Flag false)); required "triggered_at" TTimestamptz; created_at]
     [CK (positive "target_price_effective") (Named "ck_trigger_records_target_price_effective");
      CK (positive "trigger_price") (Named "ck_trigger_records_trigger_price");
      CK reference_price_type_check (Named "ck_trigger_records_trigger_reference_price_type");
      CK fallback_consistency (Named "ck_trigger_records_fallback_consistency");
      FK ["trade_intent_id"] "trade_intents" ["id"] (Named "fk_trigger_records_trade_intent_id_trade_intents");
      FK ["symbol"] "symbols" ["symbol"] (Named "fk_trigger_records_symbol_symbols");
      PK ["id"] (Named "pk_trigger_records");
      UQ ["trade_intent_id"] (Named "uq_trigger_records_trade_intent_id")];
   create_table "notifications"
     [required "id" TUuid; required "owner_user_id" TUuid; optional "trade_intent_id" TUuid; required "type" TText;
      required "rendered_title" TText; required "rendered_body" TText; optional "read_at" TTimestamptz;
      created_at; updated_at]
     [CK ("type" IN ["price_triggered"]) (Named "ck_notifications_type");
      CK ("type" <>> "price_triggered" OR IsNotNull "trade_intent_id") (Named "ck_notifications_price_triggered_intent");
      FK ["trade_intent_id"] "trade_intents" ["id"] (Named "fk_notifications_trade_intent_id_trade_intents");
      PK ["id"] (Named "pk_notifications")];
   CreateIndex "ix_notifications_owner_created_at"
     (Index "notifications" false [("owner_user_id", false); ("created_at", true)] false None);
   CreateIndex "ix_notifications_owner_read_at" (plain_index "notifications" ["owner_user_id"; "read_at"])]
  [DropIndex "ix_notifications_owner_read_at";
   DropIndex "ix_notifications_owner_created_at";
   DropTable "notifications";
   DropTable "trigger_records";
   DropIndex "uq_trade_intents_active_duplicate";
   DropIndex "ix_trade_intents_symbol_status_trading_date";
   DropIndex "ix_trade_intents_owner_status_trading_date";
   DropTable "trade_intents";
   DropTable "symbols"].

(** ** 202605210001: trigger records become trigger events *)

Definition simple_renames : list (string * string) :=
  [("pk_trigger_records", "pk_trigger_events");
   ("uq_trigger_records_trade_intent_id", "uq_trigger_events_trade_intent_id");
   ("fk_trigger_records_trade_intent_id_trade_intents", "fk_trigger_events_trade_intent_id_trade_intents");
   ("fk_trigger_records_symbol_symbols", "fk_trigger_events_symbol_symbols")].

Definition check_recreates : list (string * string * cond) :=
  [("ck_trigger_records_ck_trigger_records_target_price_effective", "ck_trigger_events_target_price_effective",
    positive "target_price_effective");
   ("ck_trigger_records_ck_trigger_records_trigger_price", "ck_trigger_events_trigger_price",
    positive "trigger_price");
   ("ck_trigger_records_ck_trigger_records_trigger_reference_7113", "ck_trigger_events_trigger_reference_price_type",
    reference_price_type_check);
   ("ck_trigger_records_ck_trigger_records_fallback_consistency", "ck_trigger_events_fallback_consistency",
    fallback_consistency)].

Definition swap {A B} (p : A * B) : B * A := (snd p, fst p).

Definition recreate_checks (t : string) (checks : list (string * string * cond)) : list ddl :=
  concat (map (fun onp => [DropConstraint t (fst (fst onp)); add_check t (snd (fst onp)) (snd onp)]) checks).

Definition rev_trigger_events : revision := Revision "202605210001" (Some "202605120001")
  (RenameTable "trigger_records" "trigger_events"
   :: rename_constraints "trigger_events" simple_renames
   ++ recreate_checks "trigger_events" check_recreates
   ++ [SetDefault "trigger_events" "triggered_at" (Some Now)])
  (SetDefault "trigger_events" "triggered_at" None
   :: recreate_checks "trigger_events" (map (fun onp => (swap (fst onp), snd onp)) check_recreates)
   ++ rename_constraints "trigger_events" (map swap simple_renames)
   ++ [RenameTable "trigger_events" "trigger_records"]).

(** ** 202605260001: limit orders and trailing stops *)

Definition no_targets (p : cond) : cond := p AND IsNull "target_price_original" AND IsNull "target_price_effective".
Definition with_targets (p : cond) : cond := p AND positive "target_price_original" AND positive "target_price_effective".

(** A trigger notification names its intent. *)
Definition triggers_name_intent (types : list string) : cond := "type" NOT_IN types OR IsNotNull "trade_intent_id".

Definition strategies_1 : list string :=
  ["buy_price_alert"; "sell_price_alert"; "limit_buy_order"; "limit_sell_order"; "trailing_stop_alert"].
Definition target_price_presence_1 : cond :=
  no_targets ("strategy" == "trailing_stop_alert") OR with_targets ("strategy" <>> "trailing_stop_alert").
Definition notification_types_1 : list string :=
  ["price_triggered"; "limit_order_triggered"; "trailing_stop_triggered"].

Definition trailing_fields_presence : cond :=
  ("strategy" == "trailing_stop_alert" AND "trail_mode" IN ["percentage"; "fixed_amount"] AND IsNotNull "trail_value")
  OR ("strategy" <>> "trailing_stop_alert" AND IsNull "trail_mode" AND IsNull "trail_value" AND IsNull "baseline"
      AND IsNull "dynamic_trigger_price" AND IsNull "baseline_updated_at").

Definition trail_value_range : cond :=
  IsNull "trail_value"
  OR ("trail_mode" == "percentage" AND "trail_value" ># 0 AND "trail_value" <=# 10)
  OR ("trail_mode" == "fixed_amount" AND "trail_value" ># 0).

Definition active_duplicate : ddl :=
  CreateIndex "uq_trade_intents_active_duplicate"
    (null_safe_unique_index "trade_intents"
       ["owner_user_id"; "symbol"; "strategy"; "target_price_effective"; "trail_mode"; "trail_value"; "quantity_lots";
        "trading_date"] live).

Definition rev_trailing : revision := Revision "202605260001" (Some "202605210001")
  ([DropIndex "uq_trade_intents_active_duplicate";
    DropConstraint "trade_intents" "ck_trade_intents_ck_trade_intents_strategy";
    DropConstraint "trade_intents" "ck_trade_intents_ck_trade_intents_target_price_effective";
    DropConstraint "trade_intents" "ck_trade_intents_ck_trade_intents_target_price_original";
    DropConstraint "notifications" "ck_notifications_ck_notifications_type";
    DropConstraint "notifications" "ck_notifications_ck_notifications_price_triggered_intent"]
   ++ add_columns "trade_intents"
     [defaulted "transaction_mode" TText (Literal (Text "single_notification"));
      defaulted "notification_mode" TText (Literal (Text "single"));
      defaulted "filled_quantity_lots" TInteger (Literal (Int 0));
      optional "last_fill_at" TTimestamptz; optional "trail_mode" TText; optional "trail_value" price_type;
      optional "baseline" price_type; optional "dynamic_trigger_price" price_type;
      optional "baseline_updated_at" TTimestamptz]
   ++ [SetNullable "trade_intents" "target_price_original" true;
       SetNullable "trade_intents" "target_price_effective" true;
       add_check "trade_intents" "ck_trade_intents_strategy" ("strategy" IN strategies_1);
       add_check "trade_intents" "ck_trade_intents_target_price_presence" target_price_presence_1;
       add_check "trade_intents" "ck_trade_intents_transaction_mode"
         ("transaction_mode" IN ["single_notification"; "partial_fill_allowed"]);
       add_check "trade_intents" "ck_trade_intents_notification_mode" ("notification_mode" == "single");
       add_check "trade_intents" "ck_trade_intents_filled_quantity_lots" ("filled_quantity_lots" >=# 0);
       add_check "trade_intents" "ck_trade_intents_trailing_fields_presence" trailing_fields_presence;
       add_check "trade_intents" "ck_trade_intents_trail_value_range" trail_value_range;
       add_check "trade_intents" "ck_trade_intents_baseline_positive" (absent_or_positive "baseline");
       add_check "trade_intents" "ck_trade_intents_dynamic_trigger_price" (absent_or_positive "dynamic_trigger_price");
       active_duplicate]
   ++ add_columns "trigger_events"
     [defaulted "filled_quantity_lots" TInteger (Literal (Int 0)); optional "baseline_at_trigger" price_type;
      optional "dynamic_trigger_price_at_trigger" price_type]
   ++ [UpdateFrom "trigger_events" "filled_quantity_lots" "trade_intents" "quantity_lots" "trade_intent_id" "id";
       add_check "trigger_events" "ck_trigger_events_filled_quantity_lots" ("filled_quantity_lots" >=# 0);
       add_check "trigger_events" "ck_trigger_events_baseline_at_trigger" (absent_or_positive "baseline_at_trigger");
       add_check "trigger_events" "ck_trigger_events_dynamic_trigger_price_at_trigger"
         (absent_or_positive "dynamic_trigger_price_at_trigger");
       add_check "notifications" "ck_notifications_type" ("type" IN notification_types_1);
       add_check "notifications" "ck_notifications_triggered_notification_intent"
         (triggers_name_intent notification_types_1)])
  ([RefuseIf "trade_intents" ("strategy" NOT_IN ["buy_price_alert"; "sell_price_alert"])
      "Cannot downgrade 202605260001: migrate or delete limit/trailing trade_intents first.";
    RefuseIf "notifications" ("type" IN ["limit_order_triggered"; "trailing_stop_triggered"])
      "Cannot downgrade 202605260001: migrate or delete limit/trailing notifications first.";
    DropConstraint "notifications" "ck_notifications_triggered_notification_intent";
    DropConstraint "notifications" "ck_notifications_type";
    add_check "notifications" "ck_notifications_ck_notifications_type" ("type" IN ["price_triggered"]);
    add_check "notifications" "ck_notifications_ck_notifications_price_triggered_intent"
      ("type" <>> "price_triggered" OR IsNotNull "trade_intent_id")]
   ++ drop_constraints "trigger_events"
     ["ck_trigger_events_dynamic_trigger_price_at_trigger"; "ck_trigger_events_baseline_at_trigger";
      "ck_trigger_events_filled_quantity_lots"]
   ++ drop_columns "trigger_events"
     ["dynamic_trigger_price_at_trigger"; "baseline_at_trigger"; "filled_quantity_lots"]
   ++ [DropIndex "uq_trade_intents_active_duplicate"]
   ++ drop_constraints "trade_intents"
     ["ck_trade_intents_dynamic_trigger_price"; "ck_trade_intents_baseline_positive";
      "ck_trade_intents_trail_value_range"; "ck_trade_intents_trailing_fields_presence";
      "ck_trade_intents_filled_quantity_lots"; "ck_trade_intents_notification_mode";
      "ck_trade_intents_transaction_mode"; "ck_trade_intents_target_price_presence"; "ck_trade_intents_strategy"]
   ++ [SetNullable "trade_intents" "target_price_effective" false;
       SetNullable "trade_intents" "target_price_original" false]
   ++ drop_columns "trade_intents"
     ["baseline_updated_at"; "dynamic_trigger_price"; "baseline"; "trail_value"; "trail_mode"; "last_fill_at";
      "filled_quantity_lots"; "notification_mode"; "transaction_mode"]
   ++ [add_check "trade_intents" "ck_trade_intents_ck_trade_intents_strategy"
         ("strategy" IN ["buy_price_alert"; "sell_price_alert"]);
       add_check "trade_intents" "ck_trade_intents_ck_trade_intents_target_price_effective"
         (positive "target_price_effective");
       add_check "trade_intents" "ck_trade_intents_ck_trade_intents_target_price_original"
         (positive "target_price_original");
       CreateIndex "uq_trade_intents_active_duplicate"
         (unique_index "trade_intents"
            ["owner_user_id"; "symbol"; "strategy"; "target_price_effective"; "quantity_lots"; "trading_date"]
            (Some live))]).

(** ** 202605280001: TWAP orders *)

Definition no_twap_fields : cond :=
  "strategy" <>> "twap_order" AND IsNull "position_side" AND IsNull "twap_interval_seconds" AND IsNull "twap_end_time"
  AND IsNull "twap_start_at" AND IsNull "twap_end_at" AND IsNull "twap_available_slice_count"
  AND IsNull "twap_materialized_slice_count".

Definition twap_fields_presence : cond :=
  ("strategy" == "twap_order" AND "position_side" IN ["long"; "short"] AND IsNotNull "twap_interval_seconds"
   AND IsNotNull "twap_end_time" AND IsNotNull "twap_start_at" AND IsNotNull "twap_end_at"
   AND IsNotNull "twap_available_slice_count" AND IsNotNull "twap_materialized_slice_count")
  OR no_twap_fields.

Definition twap_interval_range : cond := "twap_interval_seconds" >=# 1 AND "twap_interval_seconds" <=# 3600.
Definition twap_available_range : cond := "twap_available_slice_count" >=# 2.
Definition twap_materialized_range : cond :=
  "twap_materialized_slice_count" >=# 2 AND "twap_materialized_slice_count" <=# 200.

Definition strategies_2 : list string := strategies_1 ++ ["twap_order"].
Definition target_price_presence_2 : cond :=
  no_targets ("strategy" == "trailing_stop_alert")
  OR no_targets ("strategy" == "twap_order")
  OR with_targets ("strategy" NOT_IN ["trailing_stop_alert"; "twap_order"]).
Definition notification_types_2 : list string := notification_types_1 ++ ["twap_slice"; "twap_price_followup"].

Definition twap_slice_checks : list (cond * string) :=
  [(positive "planned_quantity_lots", "planned_quantity_lots");
   ("status" IN ["pending"; "notified"; "cancelled"], "status");
   (absent_or_positive "primary_reference_price", "primary_reference_price");
   (IsNull "primary_reference_price_type" OR "primary_reference_price_type" IN REFERENCE_PRICE_TYPES,
    "primary_reference_price_type");
   ("price_followup_attempts" >=# 0 AND "price_followup_attempts" <=# 3, "price_followup_attempts")].

Definition rev_twap : revision := Revision "202605280001" (Some "202605260001")
  ([DropIndex "uq_trade_intents_active_duplicate";
    DropConstraint "trade_intents" "ck_trade_intents_strategy";
    DropConstraint "trade_intents" "ck_trade_intents_target_price_presence";
    DropConstraint "notifications" "ck_notifications_type";
    DropConstraint "notifications" "ck_notifications_triggered_notification_intent"]
   ++ add_columns "trade_intents"
     [optional "position_side" TText; optional "twap_interval_seconds" TInteger; optional "twap_end_time" TTime;
      optional "twap_start_at" TTimestamptz; optional "twap_end_at" TTimestamptz;
      optional "twap_available_slice_count" TInteger; optional "twap_materialized_slice_count" TInteger]
   ++ [add_check "trade_intents" "ck_trade_intents_strategy" ("strategy" IN strategies_2);
       add_check "trade_intents" "ck_trade_intents_target_price_presence" target_price_presence_2;
       add_check "trade_intents" "ck_trade_intents_twap_fields_presence" twap_fields_presence;
       add_check "trade_intents" "ck_trade_intents_twap_interval_seconds"
         (IsNull "twap_interval_seconds" OR twap_interval_range);
       add_check "trade_intents" "ck_trade_intents_twap_available_slice_count"
         (IsNull "twap_available_slice_count" OR twap_available_range);
       add_check "trade_intents" "ck_trade_intents_twap_materialized_slice_count"
         (IsNull "twap_materialized_slice_count" OR twap_materialized_range);
       active_duplicate;
       CreateIndex "uq_trade_intents_active_twap_duplicate"
         (unique_index "trade_intents" ["owner_user_id"; "symbol"; "position_side"; "trading_date"]
            (Some ("strategy" == "twap_order" AND live)));
       create_table "twap_slices"
         [required "id" TUuid; required "trade_intent_id" TUuid; required "owner_user_id" TUuid;
          required "symbol" TText; required "sequence_no" TInteger; required "scheduled_at" TTimestamptz;
          required "planned_quantity_lots" TInteger; required "status" TText;
          optional "primary_notification_id" TUuid; optional "notified_at" TTimestamptz;
          optional "primary_price_available" TBoolean; optional "primary_reference_price" price_type;
          optional "primary_reference_price_type" TText; optional "primary_quote_time" TTimestamptz;
          defaulted "price_followup_required" TBoolean (Literal (Flag false));
          defaulted "price_followup_attempts" TInteger (Literal (Int 0));
          optional "next_price_followup_at" TTimestamptz; optional "price_followup_notification_id" TUuid;
          optional "price_followup_sent_at" TTimestamptz; created_at; updated_at]
         (map (fun pn => CK (fst pn) (Named (join_names ["ck_twap_slices"; snd pn]))) twap_slice_checks ++
          [FK ["trade_intent_id"] "trade_intents" ["id"] (Named "fk_twap_slices_trade_intent_id_trade_intents");
           FK ["symbol"] "symbols" ["symbol"] (Named "fk_twap_slices_symbol_symbols");
           FK ["primary_notification_id"] "notifications" ["id"]
             (Named "fk_twap_slices_primary_notification_id_notifications");
           FK ["price_followup_notification_id"] "notifications" ["id"]
             (Named "fk_twap_slices_price_followup_notification_id_notifications");
           PK ["id"] (Named "pk_twap_slices")]);
       CreateIndex "uq_twap_slices_intent_sequence" (unique_index "twap_slices" ["trade_intent_id"; "sequence_no"] None);
       CreateIndex "ix_twap_slices_due" (plain_index "twap_slices" ["status"; "scheduled_at"]);
       CreateIndex "ix_twap_slices_price_followup_due"
         (plain_index "twap_slices" ["price_followup_required"; "next_price_followup_at"]);
       add_check "notifications" "ck_notifications_type" ("type" IN notification_types_2);
       add_check "notifications" "ck_notifications_triggered_notification_intent"
         (triggers_name_intent notification_types_2)])
  ([RefuseIf "trade_intents" ("strategy" == "twap_order")
      "Cannot downgrade 202605280001: migrate or delete TWAP trade_intents first.";
    RefuseIf "notifications" ("type" IN ["twap_slice"; "twap_price_followup"])
      "Cannot downgrade 202605280001: migrate or delete TWAP notifications first.";
    DropConstraint "notifications" "ck_notifications_triggered_notification_intent";
    DropConstraint "notifications" "ck_notifications_type";
    DropIndex "ix_twap_slices_price_followup_due";
    DropIndex "ix_twap_slices_due";
    DropIndex "uq_twap_slices_intent_sequence";
    DropTable "twap_slices";
    DropIndex "uq_trade_intents_active_twap_duplicate";
    DropIndex "uq_trade_intents_active_duplicate"]
   ++ drop_constraints "trade_intents"
     ["ck_trade_intents_twap_materialized_slice_count"; "ck_trade_intents_twap_available_slice_count";
      "ck_trade_intents_twap_interval_seconds"; "ck_trade_intents_twap_fields_presence";
      "ck_trade_intents_target_price_presence"; "ck_trade_intents_strategy"]
   ++ drop_columns "trade_intents"
     ["twap_materialized_slice_count"; "twap_available_slice_count"; "twap_end_at"; "twap_start_at"; "twap_end_time";
      "twap_interval_seconds"; "position_side"]
   ++ [add_check "trade_intents" "ck_trade_intents_strategy" ("strategy" IN strategies_1);
       add_check "trade_intents" "ck_trade_intents_target_price_presence" target_price_presence_1;
       active_duplicate;
       add_check "notifications" "ck_notifications_type" ("type" IN notification_types_1);
       add_check "notifications" "ck_notifications_triggered_notification_intent"
         (triggers_name_intent notification_types_1)]).

(** ** 202605280002: the status expired *)

Definition STATUS_CONSTRAINTS : list string := ["ck_trade_intents_status"; "ck_trade_intents_ck_trade_intents_status"].

Definition replace_status_check (statuses : list string) : list ddl :=
  [DropChecksIfExist "trade_intents" STATUS_CONSTRAINTS;
   add_check "trade_intents" "ck_trade_intents_status" ("status" IN statuses)].

Definition rev_expired : revision := Revision "202605280002" (Some "202605280001")
  (replace_status_check ["scheduled"; "active"; "triggered"; "expired"; "cancelled"])
  (RefuseIf "trade_intents" ("status" == "expired")
     "Cannot downgrade 202605280002: migrate or delete expired trade_intents first."
   :: replace_status_check ["scheduled"; "active"; "triggered"; "cancelled"]).

(** ** 202605280003 and 202605280004: market orders *)

Definition replace_strategy_checks (strategies : list string) (presence : cond) : list ddl :=
  [DropChecksIfExist "trade_intents"
     ["ck_trade_intents_strategy"; "ck_trade_intents_ck_trade_intents_strategy"; "ck_trade_intents_target_price_presence"];
   add_check "trade_intents" "ck_trade_intents_strategy" ("strategy" IN strategies);
   add_check "trade_intents" "ck_trade_intents_target_price_presence" presence].

Definition replace_type_checks (types : list string) : list ddl :=
  [DropChecksIfExist "notifications" ["ck_notifications_type"; "ck_notifications_triggered_notification_intent"];
   add_check "notifications" "ck_notifications_type" ("type" IN types);
   add_check "notifications" "ck_notifications_triggered_notification_intent" (triggers_name_intent types)].

Definition strategies_3 : list string := strategies_1 ++ ["market_order"; "twap_order"].
Definition target_price_presence_3 : cond :=
  no_targets ("strategy" == "trailing_stop_alert")
  OR no_targets ("strategy" == "market_order")
  OR no_targets ("strategy" == "twap_order")
  OR with_targets ("strategy" NOT_IN ["trailing_stop_alert"; "market_order"; "twap_order"]).
Definition notification_types_3 : list string :=
  notification_types_1 ++ ["market_order_triggered"; "twap_slice"; "twap_price_followup"].

Definition rev_market : revision := Revision "202605280003" (Some "202605280002")
  (replace_strategy_checks strategies_3 target_price_presence_3 ++ replace_type_checks notification_types_3)
  ([RefuseIf "trade_intents" ("strategy" == "market_order")
      "Cannot downgrade 202605280003: migrate or delete market_order trade_intents first.";
    RefuseIf "notifications" ("type" == "market_order_triggered")
      "Cannot downgrade 202605280003: migrate or delete market_order notifications first."]
   ++ replace_strategy_checks strategies_2 target_price_presence_2 ++ replace_type_checks notification_types_2).

Definition MARKET_STRATEGIES : list string := ["market_order"; "market_buy_order"; "market_sell_order"].
Definition strategies_4 : list string := strategies_1 ++ MARKET_STRATEGIES ++ ["twap_order"].
Definition target_price_presence_4 : cond :=
  no_targets ("strategy" == "trailing_stop_alert")
  OR no_targets ("strategy" IN MARKET_STRATEGIES)
  OR no_targets ("strategy" == "twap_order")
  OR with_targets ("strategy" NOT_IN ("trailing_stop_alert" :: MARKET_STRATEGIES ++ ["twap_order"])).

Definition rev_market_sides : revision := Revision "202605280004" (Some "202605280003")
  (replace_strategy_checks strategies_4 target_price_presence_4)
  (RefuseIf "trade_intents" ("strategy" IN ["market_buy_order"; "market_sell_order"])
     "Cannot downgrade 202605280004: migrate or delete market buy/sell trade_intents first."
   :: replace_strategy_checks strategies_3 target_price_presence_3).

(** ** 202605290001: accounts and sessions *)

Definition REVOKED_REASONS : list string :=
  ["rotated"; "logout"; "password_reset"; "reuse_detected"; "account_disabled"; "2fa_reset"].

Definition unconsumed : cond := IsNull "consumed_at" AND IsNull "revoked_at".

(** [_seed_local_user]: the user of the local mode becomes an admin. *)
Definition seed_local_user (local_user_id : option Z) : list ddl :=
  match local_user_id with
  | None => []
  | Some i =>
      [InsertUnlessExists "users" "id"
         {[ "id" := Uuid i; "email" := Citext ("local-" ++ str_uuid i ++ "@local.invalid");
            "role" := Text "admin"; "status" := Text "active" ]}]
  end.

Definition rev_identity (local_user_id : option Z) : revision := Revision "202605290001" (Some "202605280004")
  ([CreateExtension "citext";
    create_table "audit_events"
      [required "id" TUuid; required "event_type" TText; required "actor_type" TText; optional "actor_id" TUuid;
       defaulted "occurred_at" TTimestamptz Now; defaulted "metadata" TJsonb (Literal (Jsonb "{}"));
       optional "request_id" TText]
      [CK ("actor_type" IN ["user"; "system"; "admin"]) (Final "ck_audit_events_actor_type");
       PK ["id"] (Final "pk_audit_events")];
    CreateIndex "ix_audit_events_actor_id_occurred_at" (plain_index "audit_events" ["actor_id"; "occurred_at"]);
    CreateIndex "ix_audit_events_event_type_occurred_at" (plain_index "audit_events" ["event_type"; "occurred_at"]);
    create_table "rate_limit_buckets"
      [required "bucket_key" TText; required "tokens" (TNumeric None); updated_at]
      [PK ["bucket_key"] (Final "pk_rate_limit_buckets")];
    create_table "users"
      [required "id" TUuid; required "email" TCitext; optional "password_hash" TText; required "role" TText;
       required "status" TText; defaulted "mfa_enabled" TBoolean (Literal (Flag false));
       optional "mfa_secret_encrypted" TBytea; optional "terms_version_accepted" TText;
       optional "terms_accepted_at" TTimestamptz; optional "disabled_at" TTimestamptz; created_at; updated_at]
      [CK ("role" IN ["user"; "admin"]) (Final "ck_users_role");
       CK ("status" IN ["invited"; "active"; "disabled"]) (Final "ck_users_status");
       PK ["id"] (Final "pk_users"); UQ ["email"] (Final "uq_users_email")];
    CreateIndex "ix_users_status_role" (plain_index "users" ["status"; "role"]);
    create_table "invitations"
      [required "id" TUuid; required "user_id" TUuid; required "token_hash" TText; required "expires_at" TTimestamptz;
       optional "consumed_at" TTimestamptz; optional "revoked_at" TTimestamptz; required "created_by_admin_id" TUuid;
       created_at]
      [FK ["created_by_admin_id"] "users" ["id"] (Final "fk_invitations_created_by_admin_id_users");
       FK ["user_id"] "users" ["id"] (Final "fk_invitations_user_id_users");
       PK ["id"] (Final "pk_invitations"); UQ ["token_hash"] (Final "uq_invitations_token_hash")];
    CreateIndex "uq_invitations_active_per_user" (unique_index "invitations" ["user_id"] (Some unconsumed));
    create_table "password_resets"
      [required "id" TUuid; required "user_id" TUuid; required "token_hash" TText; required "expires_at" TTimestamptz;
       optional "consumed_at" TTimestamptz; optional "requested_ip" TInet; created_at]
      [FK ["user_id"] "users" ["id"] (Final "fk_password_resets_user_id_users");
       PK ["id"] (Final "pk_password_resets"); UQ ["token_hash"] (Final "uq_password_resets_token_hash")];
    create_table "refresh_tokens"
      [required "id" TUuid; required "user_id" TUuid; required "token_hash" TText; optional "parent_token_id" TUuid;
       defaulted "issued_at" TTimestamptz Now; required "expires_at" TTimestamptz; optional "revoked_at" TTimestamptz;
       optional "revoked_reason" TText; optional "user_agent" TText; optional "ip" TInet]
      [CK (IsNull "revoked_reason" OR "revoked_reason" IN REVOKED_REASONS) (Final "ck_refresh_tokens_revoked_reason");
       FK ["parent_token_id"] "refresh_tokens" ["id"] (Final "fk_refresh_tokens_parent_token_id_refresh_tokens");
       FK ["user_id"] "users" ["id"] (Final "fk_refresh_tokens_user_id_users");
       PK ["id"] (Final "pk_refresh_tokens"); UQ ["token_hash"] (Final "uq_refresh_tokens_token_hash")];
    CreateIndex "ix_refresh_tokens_user_revoked" (plain_index "refresh_tokens" ["user_id"; "revoked_at"])]
   ++ seed_local_user local_user_id)
  [DropIndex "ix_refresh_tokens_user_revoked"; DropTable "refresh_tokens"; DropTable "password_resets";
   DropIndex "uq_invitations_active_per_user"; DropTable "invitations"; DropIndex "ix_users_status_role";
   DropTable "users"; DropTable "rate_limit_buckets"; DropIndex "ix_audit_events_event_type_occurred_at";
   DropIndex "ix_audit_events_actor_id_occurred_at"; DropTable "audit_events"].

(** ** 202605290002 to 202606120002 *)

Definition rev_account_disabled : revision := Revision "202605290002" (Some "202605290001")
  (replace_status_check ["scheduled"; "active"; "triggered"; "expired"; "cancelled"; "cancelled_by_account_disabled"])
  (RefuseIf "trade_intents" ("status" == "cancelled_by_account_disabled")
     "Downgrade 202605290002 blocked: cancelled_by_account_disabled rows exist."
   :: replace_status_check ["scheduled"; "active"; "triggered"; "expired"; "cancelled"]).

Definition rev_mfa_verified : revision := Revision "202605290003" (Some "202605290002")
  (add_columns "refresh_tokens" [defaulted "mfa_verified" TBoolean (Literal (Flag false))])
  (drop_columns "refresh_tokens" ["mfa_verified"]).

Definition owned_tables : list string := ["notifications"; "trade_intents"; "trigger_events"; "twap_slices"].
Definition owner_fk (t : string) : string := join_names ["fk"; t; "owner_user_id_users"].

Definition rev_owner_fk : revision := Revision "202605290004" (Some "202605290003")
  (map (fun t => create_foreign_key (Final (owner_fk t)) t "users" ["owner_user_id"] ["id"]) owned_tables)
  (map (fun t => DropConstraint t (owner_fk t)) (reverse owned_tables)).

Definition rev_system_flags : revision := Revision "202606120001" (Some "202605290004")
  [create_table "system_flags"
     [required "flag_key" TText; defaulted "enabled" TBoolean (Literal (Flag false)); optional "updated_by" TUuid;
      updated_at; optional "reason" TText]
     [FK ["updated_by"] "users" ["id"] (Final "fk_system_flags_updated_by_users");
      PK ["flag_key"] (Final "pk_system_flags")]]
  [DropTable "system_flags"].

Definition rev_idempotency : revision := Revision "202606120002" (Some "202606120001")
  [create_table "idempotency_keys"
     [required "id" TUuid; required "user_id" TUuid; required "key" TText; required "endpoint" TText;
      required "request_hash" TText; required "response_snapshot" TJsonb; required "status" TText; created_at;
      required "expires_at" TTimestamptz]
     [FK ["user_id"] "users" ["id"] (Final "fk_idempotency_keys_user_id_users");
      PK ["id"] (Final "pk_idempotency_keys");
      UQ ["user_id"; "key"] (Final "uq_idempotency_keys_user_id_key")];
   CreateIndex "ix_idempotency_keys_expires_at" (plain_index "idempotency_keys" ["expires_at"])]
  [DropIndex "ix_idempotency_keys_expires_at"; DropTable "idempotency_keys"].

(** ** 202606180001: the new intent track *)

Definition INTENT_STATUSES : list string :=
  ["scheduled"; "active"; "triggered"; "expired"; "cancelled"; "cancelled_by_account_disabled"].

Definition trailing_value_range : cond :=
  ("trail_mode" == "percentage" AND "trail_value" ># 0 AND "trail_value" <=# 10)
  OR ("trail_mode" == "fixed_amount" AND "trail_value" ># 0).

Definition rev_core : revision := Revision "202606180001" (Some "202606120002")
  [create_table "trade_intent_core"
     [required "id" TUuid; required "owner_user_id" TUuid; required "symbol" TText; required "strategy" TText;
      required "execution_mode" TText; required "quantity_lots" TInteger; required "trigger_reference_price_type" TText;
      required "trading_date" TDate; required "time_in_force" TText; required "status" TText;
      optional "cancelled_at" TTimestamptz; optional "triggered_at" TTimestamptz;
      defaulted "transaction_mode" TText (Literal (Text "single_notification"));
      defaulted "notification_mode" TText (Literal (Text "single"));
      defaulted "filled_quantity_lots" TInteger (Literal (Int 0)); optional "last_fill_at" TTimestamptz;
      required "dedup_key" TText; created_at; updated_at]
     [CK ("strategy" IN strategies_4) (Named "ck_trade_intent_core_strategy");
      CK ("execution_mode" == "notify_only") (Named "ck_trade_intent_core_execution_mode");
      CK ("time_in_force" == "day") (Named "ck_trade_intent_core_time_in_force");
      CK ("status" IN INTENT_STATUSES) (Named "ck_trade_intent_core_status");
      CK reference_price_type_check (Named "ck_trade_intent_core_trigger_reference_price_type");
      CK (positive "quantity_lots") (Named "ck_trade_intent_core_quantity_lots");
      CK ("transaction_mode" IN ["single_notification"; "partial_fill_allowed"])
        (Named "ck_trade_intent_core_transaction_mode");
      CK ("notification_mode" == "single") (Named "ck_trade_intent_core_notification_mode");
      CK ("filled_quantity_lots" >=# 0) (Named "ck_trade_intent_core_filled_quantity_lots");
      FK ["owner_user_id"] "users" ["id"] (Named "fk_trade_intent_core_owner_user_id_users");
      FK ["symbol"] "symbols" ["symbol"] (Named "fk_trade_intent_core_symbol_symbols");
      PK ["id"] (Named "pk_trade_intent_core")];
   CreateIndex "ix_trade_intent_core_owner_status_trading_date"
     (plain_index "trade_intent_core" ["owner_user_id"; "status"; "trading_date"]);
   CreateIndex "ix_trade_intent_core_symbol_status_trading_date"
     (plain_index "trade_intent_core" ["symbol"; "status"; "trading_date"]);
   CreateIndex "uq_trade_intent_core_active_duplicate"
     (unique_index "trade_intent_core"
        ["owner_user_id"; "symbol"; "strategy"; "dedup_key"; "quantity_lots"; "trading_date"]
        (Some ("strategy" <>> "twap_order" AND live)));
   CreateIndex "uq_trade_intent_core_active_twap_duplicate"
     (unique_index "trade_intent_core" ["owner_user_id"; "symbol"; "dedup_key"; "trading_date"]
        (Some ("strategy" == "twap_order" AND live)));
   CreateIndex "ix_trade_intent_core_active_symbols" (partial_index "trade_intent_core" ["symbol"] live);
   create_table "trade_intent_price_params"
     [required "trade_intent_id" TUuid; required "target_price_original" price_type;
      required "target_price_effective" price_type]
     [CK (positive "target_price_original") (Named "ck_trade_intent_price_params_target_price_original");
      CK (positive "target_price_effective") (Named "ck_trade_intent_price_params_target_price_effective");
      FK ["trade_intent_id"] "trade_intent_core" ["id"] (Named "fk_trade_intent_price_params_intent");
      PK ["trade_intent_id"] (Named "pk_trade_intent_price_params")];
   create_table "trade_intent_trailing_params"
     [required "trade_intent_id" TUuid; required "trail_mode" TText; required "trail_value" price_type;
      optional "baseline" price_type; optional "dynamic_trigger_price" price_type;
      optional "baseline_updated_at" TTimestamptz]
     [CK ("trail_mode" IN ["percentage"; "fixed_amount"]) (Named "ck_trade_intent_trailing_params_trail_mode");
      CK trailing_value_range (Named "ck_trade_intent_trailing_params_trail_value_range");
      CK (absent_or_positive "baseline") (Named "ck_trade_intent_trailing_params_baseline_positive");
      CK (absent_or_positive "dynamic_trigger_price") (Named "ck_trade_intent_trailing_params_dynamic_trigger_price");
      FK ["trade_intent_id"] "trade_intent_core" ["id"] (Named "fk_trade_intent_trailing_params_intent");
      PK ["trade_intent_id"] (Named "pk_trade_intent_trailing_params")];
   create_table "trade_intent_twap_params"
     [required "trade_intent_id" TUuid; required "position_side" TText; required "twap_interval_seconds" TInteger;
      required "twap_end_time" TTime; required "twap_start_at" TTimestamptz; required "twap_end_at" TTimestamptz;
      required "twap_available_slice_count" TInteger; required "twap_materialized_slice_count" TInteger]
     [CK ("position_side" IN ["long"; "short"]) (Named "ck_trade_intent_twap_params_position_side");
      CK twap_interval_range (Named "ck_trade_intent_twap_params_twap_interval_seconds");
      CK twap_available_range (Named "ck_trade_intent_twap_params_twap_available_slice_count");
      CK twap_materialized_range (Named "ck_trade_intent_twap_params_twap_materialized_slice_count");
      FK ["trade_intent_id"] "trade_intent_core" ["id"] (Named "fk_trade_intent_twap_params_intent");
      PK ["trade_intent_id"] (Named "pk_trade_intent_twap_params")]]
  [DropTable "trade_intent_twap_params"; DropTable "trade_intent_trailing_params"; DropTable "trade_intent_price_params";
   DropIndex "ix_trade_intent_core_active_symbols"; DropIndex "uq_trade_intent_core_active_twap_duplicate";
   DropIndex "uq_trade_intent_core_active_duplicate"; DropIndex "ix_trade_intent_core_symbol_status_trading_date";
   DropIndex "ix_trade_intent_core_owner_status_trading_date"; DropTable "trade_intent_core"].

(** ** 202606180002: triggers of the new track, notifications of both *)

Definition triggers_of_one_track : cond :=
  "type" NOT_IN notification_types_3 OR NumNonnullsIs ["trade_intent_id"; "trade_intent_core_id"] 1.

Definition rev_core_triggers : revision := Revision "202606180002" (Some "202606180001")
  [create_table "trade_intent_triggers"
     [required "id" TUuid; required "trade_intent_id" TUuid; required "owner_user_id" TUuid; required "symbol" TText;
      required "quote_snapshot" TJsonb; required "target_price_effective" price_type;
      required "trigger_price" price_type; required "trigger_reference_price_type" TText;
      defaulted "fallback_used" TBoolean (Literal (Flag false));
      defaulted "filled_quantity_lots" TInteger (Literal (Int 0)); optional "baseline_at_trigger" price_type;
      optional "dynamic_trigger_price_at_trigger" price_type; defaulted "triggered_at" TTimestamptz Now; created_at]
     [CK reference_price_type_check (Named "trigger_reference_price_type");
      CK fallback_consistency (Named "fallback_consistency");
      CK (positive "target_price_effective") (Named "target_price_effective");
      CK (positive "trigger_price") (Named "trigger_price");
      CK ("filled_quantity_lots" >=# 0) (Named "filled_quantity_lots");
      CK (absent_or_positive "baseline_at_trigger") (Named "baseline_at_trigger");
      CK (absent_or_positive "dynamic_trigger_price_at_trigger") (Named "dynamic_trigger_price_at_trigger");
      FK ["trade_intent_id"] "trade_intent_core" ["id"] (Named "fk_trade_intent_triggers_intent");
      FK ["owner_user_id"] "users" ["id"] (Named "fk_trade_intent_triggers_owner");
      FK ["symbol"] "symbols" ["symbol"] (Named "fk_trade_intent_triggers_symbol");
      PK ["id"] (Named "pk_trade_intent_triggers");
      UQ ["trade_intent_id"] (Named "uq_trade_intent_triggers_trade_intent_id")];
   AddColumn "notifications" "trade_intent_core_id" (Column TUuid true None);
   create_foreign_key (Named "fk_notifications_trade_intent_core_id_trade_intent_core")
     "notifications" "trade_intent_core" ["trade_intent_core_id"] ["id"];
   CreateIndex "ix_notifications_trade_intent_core_id" (plain_index "notifications" ["trade_intent_core_id"]);
   drop_check_constraint "triggered_notification_intent" "notifications";
   create_check_constraint "triggered_notification_intent" "notifications" triggers_of_one_track]
  [DeleteWhere "notifications" (IsNotNull "trade_intent_core_id");
   drop_check_constraint "triggered_notification_intent" "notifications";
   create_check_constraint "triggered_notification_intent" "notifications" (triggers_name_intent notification_types_3);
   DropConstraint "notifications" "fk_notifications_trade_intent_core_id_trade_intent_core";
   DropColumn "notifications" "trade_intent_core_id";
   DropTable "trade_intent_triggers"].

(** ** 202606180003: the names of the new track *)

Definition core_renames : list (string * string * string) :=
  map (fun tso => (fst (fst tso), join_names ["ck"; fst (fst tso); snd (fst tso)], join_names ["ck"; fst (fst tso); snd tso]))
    ([("trade_intent_core", "ck_trade_intent_core_execution_mode", "execution_mode");
      ("trade_intent_core", "ck_trade_intent_core_filled_quantity_lots", "filled_quantity_lots");
      ("trade_intent_core", "ck_trade_intent_core_notification_mode", "notification_mode");
      ("trade_intent_core", "ck_trade_intent_core_quantity_lots", "quantity_lots");
      ("trade_intent_core", "ck_trade_intent_core_status", "status");
      ("trade_intent_core", "ck_trade_intent_core_strategy", "strategy");
      ("trade_intent_core", "ck_trade_intent_core_time_in_force", "time_in_force");
      ("trade_intent_core", "ck_trade_intent_core_transaction_mode", "transaction_mode");
      ("trade_intent_core", "ck_trade_intent_core_trigger_refer_ef8a", "trigger_reference_price_type");
      ("trade_intent_price_params", "ck_trade_intent_price_para_7160", "target_price_effective");
      ("trade_intent_price_params", "ck_trade_intent_price_para_a03e", "target_price_original");
      ("trade_intent_trailing_params", "ck_trade_intent_trailin_24f4", "trail_mode");
      ("trade_intent_trailing_params", "ck_trade_intent_trailin_4084", "trail_value_range");
      ("trade_intent_trailing_params", "ck_trade_intent_trailin_ac12", "dynamic_trigger_price");
      ("trade_intent_trailing_params", "ck_trade_intent_trailin_bf6d", "baseline_positive");
      ("trade_intent_twap_params", "ck_trade_intent_twap_params_1012", "twap_materialized_slice_count");
      ("trade_intent_twap_params", "ck_trade_intent_twap_params_a742", "position_side");
      ("trade_intent_twap_params", "ck_trade_intent_twap_params_ad4e", "twap_available_slice_count");
      ("trade_intent_twap_params", "ck_trade_intent_twap_params_e6b6", "twap_interval_seconds")]).

Definition rev_core_names : revision := Revision "202606180003" (Some "202606180002")
  (map (fun ton => RenameConstraint (fst (fst ton)) (snd (fst ton)) (snd ton)) core_renames)
  (map (fun ton => RenameConstraint (fst (fst ton)) (snd ton) (snd (fst ton))) core_renames).

(** ** 202607220001 and 202608190001 *)

Definition rev_terms : revision := Revision "202607220001" (Some "202606180003")
  (drop_columns "users" ["terms_accepted_at"; "terms_version_accepted"])
  (add_columns "users" [optional "terms_version_accepted" TText; optional "terms_accepted_at" TTimestamptz]).

Definition rev_telegram : revision := Revision "202608190001" (Some "202607220001")
  [create_table "telegram_intent_interactions"
     [required "id" TUuid; required "owner_user_id" TUuid; required "telegram_chat_id" TText;
      optional "bot_message_id" TInteger; required "kind" TText; required "capability_id" TText;
      required "strategy" TText; defaulted "payload" TJsonb (Literal (Jsonb "{}"));
      defaulted "missing_fields" TJsonb (Literal (Jsonb "[]"));
      defaulted "clarification_attempt_count" TInteger (Literal (Int 0)); required "status" TText;
      required "expires_at" TTimestamptz; optional "confirmed_at" TTimestamptz;
      optional "created_trade_intent_id" TUuid; created_at; updated_at]
     [CK ("kind" IN ["clarification"; "draft"])
        (Final "ck_telegram_intent_interactions_telegram_intent_interaction_kind");
      CK ("status" IN ["pending"; "confirming"; "confirmed"; "cancelled"; "expired"; "superseded"])
        (Final "ck_telegram_intent_interactions_telegram_intent_interaction_status");
      CK ("capability_id" IN ["limit_buy"; "limit_sell"; "market_buy"; "market_sell"])
        (Final "ck_telegram_intent_interactions_telegram_intent_interaction_capability");
      CK ("strategy" IN ["limit_buy_order"; "limit_sell_order"; "market_buy_order"; "market_sell_order"])
        (Final "ck_telegram_intent_interactions_telegram_intent_interaction_strategy");
      CK ("clarification_attempt_count" >=# 0)
        (Final "ck_telegram_intent_interactions_telegram_intent_interaction_attempt_count");
      FK ["created_trade_intent_id"] "trade_intent_core" ["id"]
        (Final "fk_telegram_intent_interactions_created_trade_intent_id_trade_intent_core");
      FK ["owner_user_id"] "users" ["id"] (Final "fk_telegram_intent_interactions_owner_user_id_users");
      PK ["id"] (Final "pk_telegram_intent_interactions")];
   CreateIndex "uq_telegram_intent_interactions_chat_pending"
     (unique_index "telegram_intent_interactions" ["telegram_chat_id"] (Some ("status" IN ["pending"; "confirming"])));
   CreateIndex "ix_telegram_intent_interactions_chat_status"
     (plain_index "telegram_intent_interactions" ["telegram_chat_id"; "status"]);
   CreateIndex "ix_telegram_intent_interactions_expires_at"
     (plain_index "telegram_intent_interactions" ["status"; "expires_at"])]
  [DropIndex "ix_telegram_intent_interactions_expires_at"; DropIndex "ix_telegram_intent_interactions_chat_status";
   DropIndex "uq_telegram_intent_interactions_chat_pending"; DropTable "telegram_intent_interactions"].

(** ** Walking along the revisions *)

Definition revisions (local_user_id : option Z) : list revision :=
  [rev_v0_5; rev_trigger_events; rev_trailing; rev_twap; rev_expired; rev_market; rev_market_sides;
   rev_identity local_user_id; rev_account_disabled; rev_mfa_verified; rev_owner_fk; rev_system_flags; rev_idempotency;
   rev_core; rev_core_triggers; rev_core_names; rev_terms; rev_telegram].

(** A database with its row of [alembic_version]. *)
Record deployment := Deployment { at_revision : option string; db : database }.

Section Walk.
Context (now : Z) (local_user_id : option Z).

Definition upgrade_one (dep : deployment) (r : revision) : result sql_error deployment :=
  let? d := run now (upgrade r) (db dep) in
  Ok (Deployment (Some (rev_id r)) d).

Fixpoint upgrade_along (dep : deployment) (rs : list revision) : result sql_error deployment :=
  match rs with
  | [] => Ok dep
  | r :: rs' => let? dep' := upgrade_one dep r in upgrade_along dep' rs'
  end.

(** The revision that comes on top of one, and those that follow it. *)
Definition successor (v : option string) (rs : list revision) : option revision :=
  find (fun r => bool_decide (down_revision r = v)) rs.

Fixpoint path_up (fuel : nat) (v : option string) (rs : list revision) : list revision :=
  match fuel with
  | O => []
  | S fuel' => match successor v rs with Some r => r :: path_up fuel' (Some (rev_id r)) rs | None => [] end
  end.

(** [alembic upgrade head]: [run_migrations_online] puts the whole walk into
    one transaction, so a failure leaves the database as it was. *)
Definition upgrade_head (dep : deployment) : result sql_error unit * deployment :=
  let rs := revisions local_user_id in
  match upgrade_along dep (path_up (length rs) (at_revision dep) rs) with
  | Ok dep' => (Ok tt, dep')
  | Raise e => (Raise e, dep)
  end.

(** [alembic downgrade -1]. *)
Definition downgrade_one (dep : deployment) : result sql_error unit * deployment :=
  match at_revision dep with
  | None => (Ok tt, dep)
  | Some v =>
      match find (fun r => String.eqb (rev_id r) v) (revisions local_user_id) with
      | None => (Raise (UndefinedObject v), dep)
      | Some r =>
          match run now (downgrade r) (db dep) with
          | Ok d => (Ok tt, Deployment (down_revision r) d)
          | Raise e => (Raise e, dep)
          end
      end
  end.

End Walk.

Definition empty_deployment : deployment := Deployment None (Database empty_schema ∅).
