(* ===== verification/Models.v ===== *)
(** * The tables the models declare

    [src/app/db/models]: the columns, constraints and indexes SQLAlchemy's
    [Base.metadata] holds, with the names the convention of [db/base.py] gives
    them.  The program's rows are modelled in [Tables]; this is the schema. *)

From S2P Require Import Prelude Ddl Naming Revisions.

(** ** Declarations *)

(** [mapped_column(...)] *)
Record mapped := Mapped {
  m_name : string;
  m_column : column;
  m_primary_key : bool;
  m_unique : bool;
  m_index : bool;
  m_foreign_key : option (string * string * given_name);
}.

Definition plain (ck : string * column) : mapped := Mapped (fst ck) (snd ck) false false false None.
Definition primary_key (c : string) (ty : coltype) : mapped := Mapped c (Column ty false None) true false false None.
Definition unique (m : mapped) : mapped :=
  Mapped (m_name m) (m_column m) (m_primary_key m) true (m_index m) (m_foreign_key m).
Definition indexed (m : mapped) : mapped :=
  Mapped (m_name m) (m_column m) (m_primary_key m) (m_unique m) true (m_foreign_key m).
Definition foreign_key (t c : string) (n : given_name) (m : mapped) : mapped :=
  Mapped (m_name m) (m_column m) (m_primary_key m) (m_unique m) (m_index m) (Some (t, c, n)).

Definition user_id_of (c : string) : mapped := foreign_key "users" "id" Unnamed (plain (required c TUuid)).
Definition symbol_of : mapped := foreign_key "symbols" "symbol" Unnamed (plain (required "symbol" TText)).

(** [TimestampMixin] *)
Definition timestamps : list mapped := [plain created_at; plain updated_at].

Record model := Model {
  tablename : string;
  table_args : list table_arg;
  table_indexes : list (string * index);
  mapped_columns : list mapped;
}.

(** ** From declarations to a schema *)

Definition column_args (m : mapped) : list table_arg :=
  (if m_unique m then [UQ [m_name m] Unnamed] else []) ++
  match m_foreign_key m with Some (t, c, n) => [FK [m_name m] t [c] n] | None => [] end.

Definition model_constraints (m : model) : list (string * constraint) :=
  map (named_constraint (tablename m))
    (PK (map m_name (List.filter m_primary_key (mapped_columns m))) Unnamed ::
     concat (map column_args (mapped_columns m)) ++ table_args m).

(** [ix_%(column_0_label)s] *)
Definition model_indexes (m : model) : list (string * index) :=
  map (fun c => (truncated (join_names ["ix"; tablename m; m_name c]), plain_index (tablename m) [m_name c]))
    (List.filter m_index (mapped_columns m)) ++ table_indexes m.

Definition model_table (m : model) : table :=
  Table (list_to_map (map (fun c => (m_name c, m_column c)) (mapped_columns m))) (list_to_map (model_constraints m)).

Definition metadata_tables (ms : list model) : gmap string table :=
  list_to_map (map (fun m => (tablename m, model_table m)) ms).
Definition metadata_indexes (ms : list model) : gmap string index := list_to_map (concat (map model_indexes ms)).

(** ** [db/models/core.py] *)

Definition checks (l : list (cond * string)) : list table_arg := map (fun pn => CK (fst pn) (Named (snd pn))) l.

Definition Symbol : model := Model "symbols"
  (checks [("market" IN ["TWSE"; "TPEx"], "market"); ("instrument_type" IN ["stock"; "etf"], "instrument_type");
           ("tradable_status" IN ["tradable"; "halted"; "unsupported"], "tradable_status")])
  []
  (timestamps ++
   [primary_key "id" TUuid; unique (plain (required "symbol" TText)); plain (required "display_name" TText);
    plain (required "market" TText); plain (required "instrument_type" TText); plain (required "tradable_status" TText)]).

Definition TradeIntent : model := Model "trade_intents"
  (checks
     [("strategy" IN strategies_4, "strategy"); ("execution_mode" == "notify_only", "execution_mode");
      ("time_in_force" == "day", "time_in_force"); ("status" IN INTENT_STATUSES, "status");
      (reference_price_type_check, "trigger_reference_price_type"); (positive "quantity_lots", "quantity_lots");
      (target_price_presence_4, "target_price_presence");
      ("transaction_mode" IN ["single_notification"; "partial_fill_allowed"], "transaction_mode");
      ("notification_mode" == "single", "notification_mode"); ("filled_quantity_lots" >=# 0, "filled_quantity_lots");
      (trailing_fields_presence, "trailing_fields_presence"); (trail_value_range, "trail_value_range");
      (absent_or_positive "baseline", "baseline_positive");
      (absent_or_positive "dynamic_trigger_price", "dynamic_trigger_price");
      (twap_fields_presence, "twap_fields_presence");
      (IsNull "twap_interval_seconds" OR twap_interval_range, "twap_interval_seconds");
      (IsNull "twap_available_slice_count" OR twap_available_range, "twap_available_slice_count");
      (IsNull "twap_materialized_slice_count" OR twap_materialized_range, "twap_materialized_slice_count")])
  [("ix_trade_intents_owner_status_trading_date",
    plain_index "trade_intents" ["owner_user_id"; "status"; "trading_date"]);
   ("ix_trade_intents_symbol_status_trading_date", plain_index "trade_intents" ["symbol"; "status"; "trading_date"]);
   ("uq_trade_intents_active_duplicate",
    null_safe_unique_index "trade_intents"
      ["owner_user_id"; "symbol"; "strategy"; "target_price_effective"; "trail_mode"; "trail_value"; "quantity_lots";
       "trading_date"] live);
   ("uq_trade_intents_active_twap_duplicate",
    unique_index "trade_intents" ["owner_user_id"; "symbol"; "position_side"; "trading_date"]
      (Some ("strategy" == "twap_order" AND live)))]
  (timestamps ++
   [primary_key "id" TUuid; user_id_of "owner_user_id"; symbol_of] ++
   map plain
     [required "strategy" TText; required "execution_mode" TText; required "quantity_lots" TInteger;
      optional "target_price_original" price_type; optional "target_price_effective" price_type;
      required "trigger_reference_price_type" TText; required "trading_date" TDate; required "time_in_force" TText;
      required "status" TText; optional "cancelled_at" TTimestamptz; optional "triggered_at" TTimestamptz;
      defaulted "transaction_mode" TText (Literal (Text "single_notification"));
      defaulted "notification_mode" TText (Literal (Text "single"));
      defaulted "filled_quantity_lots" TInteger (Literal (Int 0)); optional "last_fill_at" TTimestamptz;
      optional "trail_mode" TText; optional "trail_value" price_type; optional "baseline" price_type;
      optional "dynamic_trigger_price" price_type; optional "baseline_updated_at" TTimestamptz;
      optional "position_side" TText; optional "twap_interval_seconds" TInteger; optional "twap_end_time" TTime;
      optional "twap_start_at" TTimestamptz; optional "twap_end_at" TTimestamptz;
      optional "twap_available_slice_count" TInteger; optional "twap_materialized_slice_count" TInteger]).

Definition notification_of (c : string) : mapped := foreign_key "notifications" "id" Unnamed (plain (optional c TUuid)).

Definition TwapSlice : model := Model "twap_slices"
  (checks twap_slice_checks)
  [("uq_twap_slices_intent_sequence", unique_index "twap_slices" ["trade_intent_id"; "sequence_no"] None);
   ("ix_twap_slices_due", plain_index "twap_slices" ["status"; "scheduled_at"]);
   ("ix_twap_slices_price_followup_due", plain_index "twap_slices" ["price_followup_required"; "next_price_followup_at"])]
  (timestamps ++
   [primary_key "id" TUuid; foreign_key "trade_intents" "id" Unnamed (plain (required "trade_intent_id" TUuid));
    user_id_of "owner_user_id"; symbol_of; notification_of "primary_notification_id";
    notification_of "price_followup_notification_id"] ++
   map plain
     [required "sequence_no" TInteger; required "scheduled_at" TTimestamptz; required "planned_quantity_lots" TInteger;
      required "status" TText; optional "notified_at" TTimestamptz; optional "primary_price_available" TBoolean;
      optional "primary_reference_price" price_type; optional "primary_reference_price_type" TText;
      optional "primary_quote_time" TTimestamptz;
      defaulted "price_followup_required" TBoolean (Literal (Flag false));
      defaulted "price_followup_attempts" TInteger (Literal (Int 0));
      optional "next_price_followup_at" TTimestamptz; optional "price_followup_sent_at" TTimestamptz]).

Definition TelegramIntentInteraction : model := Model "telegram_intent_interactions"
  (checks
     [("kind" IN ["clarification"; "draft"], "telegram_intent_interaction_kind");
      ("status" IN ["pending"; "confirming"; "confirmed"; "cancelled"; "expired"; "superseded"],
       "telegram_intent_interaction_status");
      ("capability_id" IN ["limit_buy"; "limit_sell"; "market_buy"; "market_sell"],
       "telegram_intent_interaction_capability");
      ("strategy" IN ["limit_buy_order"; "limit_sell_order"; "market_buy_order"; "market_sell_order"],
       "telegram_intent_interaction_strategy");
      ("clarification_attempt_count" >=# 0, "telegram_intent_interaction_attempt_count")])
  [("uq_telegram_intent_interactions_chat_pending",
    unique_index "telegram_intent_interactions" ["telegram_chat_id"] (Some ("status" IN ["pending"; "confirming"])));
   ("ix_telegram_intent_interactions_chat_status",
    plain_index "telegram_intent_interactions" ["telegram_chat_id"; "status"]);
   ("ix_telegram_intent_interactions_expires_at", plain_index "telegram_intent_interactions" ["status"; "expires_at"])]
  (timestamps ++
   [primary_key "id" TUuid; user_id_of "owner_user_id";
    foreign_key "trade_intent_core" "id" Unnamed (plain (optional "created_trade_intent_id" TUuid))] ++
   map plain
     [required "telegram_chat_id" TText; optional "bot_message_id" TInteger; required "kind" TText;
      required "capability_id" TText; required "strategy" TText; defaulted "payload" TJsonb (Literal (Jsonb "{}"));
      defaulted "missing_fields" TJsonb (Literal (Jsonb "[]"));
      defaulted "clarification_attempt_count" TInteger (Literal (Int 0)); required "status" TText;
      required "expires_at" TTimestamptz; optional "confirmed_at" TTimestamptz]).

(** The checks and the values the trigger tables of both tracks have. *)
Definition trigger_checks : list (cond * string) :=
  [(reference_price_type_check, "trigger_reference_price_type"); (fallback_consistency, "fallback_consistency");
   (positive "target_price_effective", "target_price_effective"); (positive "trigger_price", "trigger_price");
   ("filled_quantity_lots" >=# 0, "filled_quantity_lots");
   (absent_or_positive "baseline_at_trigger", "baseline_at_trigger");
   (absent_or_positive "dynamic_trigger_price_at_trigger", "dynamic_trigger_price_at_trigger")].

Definition trigger_columns : list mapped :=
  map plain
    [required "quote_snapshot" TJsonb; required "target_price_effective" price_type; required "trigger_price" price_type;
     required "trigger_reference_price_type" TText; defaulted "fallback_used" TBoolean (Literal (Flag false));
     defaulted "filled_quantity_lots" TInteger (Literal (Int 0)); optional "baseline_at_trigger" price_type;
     optional "dynamic_trigger_price_at_trigger" price_type; defaulted "triggered_at" TTimestamptz Now; created_at].

Definition TriggerEvent : model := Model "trigger_events"
  (checks trigger_checks) []
  ([primary_key "id" TUuid;
    unique (foreign_key "trade_intents" "id" Unnamed (plain (required "trade_intent_id" TUuid)));
    user_id_of "owner_user_id"; symbol_of] ++ trigger_columns).

Definition SystemFlag : model := Model "system_flags" [] []
  [primary_key "flag_key" TText; plain (defaulted "enabled" TBoolean (Literal (Flag false)));
   foreign_key "users" "id" Unnamed (plain (optional "updated_by" TUuid)); plain updated_at;
   plain (optional "reason" TText)].

Definition IdempotencyKey : model := Model "idempotency_keys"
  [UQ ["user_id"; "key"] (Named "uq_idempotency_keys_user_id_key")]
  [("ix_idempotency_keys_expires_at", plain_index "idempotency_keys" ["expires_at"])]
  (primary_key "id" TUuid :: user_id_of "user_id" ::
   map plain
     [required "key" TText; required "endpoint" TText; required "request_hash" TText;
      required "response_snapshot" TJsonb; required "status" TText; created_at; required "expires_at" TTimestamptz]).

Definition Notification : model := Model "notifications"
  (checks [("type" IN notification_types_3, "type"); (triggers_of_one_track, "triggered_notification_intent")])
  [("ix_notifications_owner_created_at",
    Index "notifications" false [("owner_user_id", false); ("created_at", true)] false None);
   ("ix_notifications_owner_read_at", plain_index "notifications" ["owner_user_id"; "read_at"])]
  ([primary_key "id" TUuid; user_id_of "owner_user_id";
    foreign_key "trade_intents" "id" Unnamed (plain (optional "trade_intent_id" TUuid));
    indexed (foreign_key "trade_intent_core" "id" Unnamed (plain (optional "trade_intent_core_id" TUuid)))] ++
   map plain
     [required "type" TText; required "rendered_title" TText; required "rendered_body" TText;
      optional "read_at" TTimestamptz; created_at; updated_at]).

(** ** [db/models/auth.py] *)

Definition User : model := Model "users"
  (checks [("role" IN ["user"; "admin"], "role"); ("status" IN ["invited"; "active"; "disabled"], "status")])
  [("ix_users_status_role", plain_index "users" ["status"; "role"])]
  (timestamps ++
   [primary_key "id" TUuid; unique (plain (required "email" TCitext))] ++
   map plain
     [optional "password_hash" TText; required "role" TText; required "status" TText;
      defaulted "mfa_enabled" TBoolean (Literal (Flag false)); optional "mfa_secret_encrypted" TBytea;
      optional "disabled_at" TTimestamptz]).

Definition token_hash : mapped := unique (plain (required "token_hash" TText)).

Definition Invitation : model := Model "invitations" []
  [("uq_invitations_active_per_user", unique_index "invitations" ["user_id"] (Some unconsumed))]
  ([primary_key "id" TUuid; user_id_of "user_id"; token_hash; user_id_of "created_by_admin_id"] ++
   map plain
     [required "expires_at" TTimestamptz; optional "consumed_at" TTimestamptz; optional "revoked_at" TTimestamptz;
      created_at]).

Definition PasswordReset : model := Model "password_resets" [] []
  ([primary_key "id" TUuid; user_id_of "user_id"; token_hash] ++
   map plain
     [required "expires_at" TTimestamptz; optional "consumed_at" TTimestamptz; optional "requested_ip" TInet; created_at]).

Definition RefreshToken : model := Model "refresh_tokens"
  (checks [(IsNull "revoked_reason" OR "revoked_reason" IN REVOKED_REASONS, "revoked_reason")])
  [("ix_refresh_tokens_user_revoked", plain_index "refresh_tokens" ["user_id"; "revoked_at"])]
  ([primary_key "id" TUuid; user_id_of "user_id"; token_hash;
    foreign_key "refresh_tokens" "id" Unnamed (plain (optional "parent_token_id" TUuid))] ++
   map plain
     [defaulted "issued_at" TTimestamptz Now; required "expires_at" TTimestamptz; optional "revoked_at" TTimestamptz;
      optional "revoked_reason" TText; optional "user_agent" TText; optional "ip" TInet;
      defaulted "mfa_verified" TBoolean (Literal (Flag false))]).

Definition RateLimitBucket : model := Model "rate_limit_buckets" [] []
  [primary_key "bucket_key" TText; plain (required "tokens" (TNumeric None)); plain updated_at].

Definition AuditEvent : model := Model "audit_events"
  (checks [("actor_type" IN ["user"; "system"; "admin"], "actor_type")])
  [("ix_audit_events_event_type_occurred_at", plain_index "audit_events" ["event_type"; "occurred_at"]);
   ("ix_audit_events_actor_id_occurred_at", plain_index "audit_events" ["actor_id"; "occurred_at"])]
  (primary_key "id" TUuid ::
   map plain
     [required "event_type" TText; required "actor_type" TText; optional "actor_id" TUuid;
      defaulted "occurred_at" TTimestamptz Now; defaulted "metadata" TJsonb (Literal (Jsonb "{}"));
      optional "request_id" TText]).

(** ** [db/models/trade_intent_core.py] *)

Definition TradeIntentCore : model := Model "trade_intent_core"
  (checks
     [("strategy" IN strategies_4, "strategy"); ("execution_mode" == "notify_only", "execution_mode");
      ("time_in_force" == "day", "time_in_force"); ("status" IN INTENT_STATUSES, "status");
      (reference_price_type_check, "trigger_reference_price_type"); (positive "quantity_lots", "quantity_lots");
      ("transaction_mode" IN ["single_notification"; "partial_fill_allowed"], "transaction_mode");
      ("notification_mode" == "single", "notification_mode"); ("filled_quantity_lots" >=# 0, "filled_quantity_lots")])
  [("ix_trade_intent_core_owner_status_trading_date",
    plain_index "trade_intent_core" ["owner_user_id"; "status"; "trading_date"]);
   ("ix_trade_intent_core_symbol_status_trading_date",
    plain_index "trade_intent_core" ["symbol"; "status"; "trading_date"]);
   ("ix_trade_intent_core_active_symbols", partial_index "trade_intent_core" ["symbol"] live);
   ("uq_trade_intent_core_active_duplicate",
    unique_index "trade_intent_core" ["owner_user_id"; "symbol"; "strategy"; "dedup_key"; "quantity_lots"; "trading_date"]
      (Some ("strategy" <>> "twap_order" AND live)));
   ("uq_trade_intent_core_active_twap_duplicate",
    unique_index "trade_intent_core" ["owner_user_id"; "symbol"; "dedup_key"; "trading_date"]
      (Some ("strategy" == "twap_order" AND live)))]
  (timestamps ++
   [primary_key "id" TUuid; user_id_of "owner_user_id"; symbol_of] ++
   map plain
     [required "strategy" TText; required "execution_mode" TText; required "quantity_lots" TInteger;
      required "trigger_reference_price_type" TText; required "trading_date" TDate; required "time_in_force" TText;
      required "status" TText; optional "cancelled_at" TTimestamptz; optional "triggered_at" TTimestamptz;
      defaulted "transaction_mode" TText (Literal (Text "single_notification"));
      defaulted "notification_mode" TText (Literal (Text "single"));
      defaulted "filled_quantity_lots" TInteger (Literal (Int 0)); optional "last_fill_at" TTimestamptz;
      required "dedup_key" TText]).

(** The primary key of a table of parameters is the intent. *)
Definition intent_key (n : string) : mapped :=
  foreign_key "trade_intent_core" "id" (Named n) (primary_key "trade_intent_id" TUuid).

Definition TradeIntentPriceParams : model := Model "trade_intent_price_params"
  (checks [(positive "target_price_original", "target_price_original");
           (positive "target_price_effective", "target_price_effective")]) []
  [intent_key "fk_trade_intent_price_params_intent"; plain (required "target_price_original" price_type);
   plain (required "target_price_effective" price_type)].

Definition TradeIntentTrailingParams : model := Model "trade_intent_trailing_params"
  (checks [("trail_mode" IN ["percentage"; "fixed_amount"], "trail_mode"); (trailing_value_range, "trail_value_range");
           (absent_or_positive "baseline", "baseline_positive");
           (absent_or_positive "dynamic_trigger_price", "dynamic_trigger_price")]) []
  (intent_key "fk_trade_intent_trailing_params_intent" ::
   map plain
     [required "trail_mode" TText; required "trail_value" price_type; optional "baseline" price_type;
      optional "dynamic_trigger_price" price_type; optional "baseline_updated_at" TTimestamptz]).

Definition TradeIntentTwapParams : model := Model "trade_intent_twap_params"
  (checks [("position_side" IN ["long"; "short"], "position_side"); (twap_interval_range, "twap_interval_seconds");
           (twap_available_range, "twap_available_slice_count");
           (twap_materialized_range, "twap_materialized_slice_count")]) []
  (intent_key "fk_trade_intent_twap_params_intent" ::
   map plain
     [required "position_side" TText; required "twap_interval_seconds" TInteger; required "twap_end_time" TTime;
      required "twap_start_at" TTimestamptz; required "twap_end_at" TTimestamptz;
      required "twap_available_slice_count" TInteger; required "twap_materialized_slice_count" TInteger]).

Definition TradeIntentTrigger : model := Model "trade_intent_triggers"
  (checks trigger_checks) []
  ([primary_key "id" TUuid;
    unique (foreign_key "trade_intent_core" "id" (Named "fk_trade_intent_triggers_intent")
              (plain (required "trade_intent_id" TUuid)));
    foreign_key "users" "id" (Named "fk_trade_intent_triggers_owner") (plain (required "owner_user_id" TUuid));
    foreign_key "symbols" "symbol" (Named "fk_trade_intent_triggers_symbol") (plain (required "symbol" TText))]
   ++ trigger_columns).

(** [Base.metadata], with [db/models/__init__.py] importing the three modules. *)
Definition metadata : list model :=
  [Symbol; TradeIntent; TwapSlice; TelegramIntentInteraction; TriggerEvent; SystemFlag; IdempotencyKey; Notification;
   User; Invitation; PasswordReset; RefreshToken; RateLimitBucket; AuditEvent;
   TradeIntentCore; TradeIntentPriceParams; TradeIntentTrailingParams; TradeIntentTwapParams; TradeIntentTrigger].
