(* ===== verification/MigrationFacts.v ===== *)
(** * Following rows through a revision

    Most statements of a revision treat the rows of a table one by one and do
    not look at the schema.  The lemmas and tactics here run such statements on
    rows that are not known, given the constraints they satisfied before. *)

From S2P Require Import Prelude Ddl DdlFacts Naming Revisions.
#[local] Open Scope Z_scope.

(** ** Statements that do not look at the schema *)

Definition looks_at_schema (o : ddl) : bool :=
  match o with UpdateFrom _ _ _ _ _ _ | DeleteWhere _ _ | InsertUnlessExists _ _ _ => true | _ => false end.

Fixpoint rows_run (now : Z) (os : list ddl) (d : data) : result sql_error data :=
  match os with
  | [] => Ok d
  | o :: os' => let? d' := data_step now empty_schema o d in rows_run now os' d'
  end.

Lemma data_step_schema now s s' o d : looks_at_schema o = false -> data_step now s o d = data_step now s' o d.
Proof. by destruct o. Qed.

Lemma run_rows now os s s' d d' :
  forallb (fun o => negb (looks_at_schema o)) os = true ->
  schema_run os s = Ok s' -> rows_run now os d = Ok d' -> run now os (Database s d) = Ok (Database s' d').
Proof.
  revert s d. induction os as [|o os IH]; intros s d Hl Hs Hd; cbn in *.
  - by injection Hs as <-; injection Hd as <-.
  - apply andb_true_iff in Hl as [Ho Hl]. apply negb_true_iff in Ho.
    apply rbind_Ok in Hs as (s1 & Hs1 & Hs), Hd as (d1 & Hd1 & Hd).
    unfold step. cbn. rewrite Hs1. cbn. rewrite (data_step_schema _ s1 empty_schema) by done. rewrite Hd1. cbn. by apply IH.
Qed.

Lemma rows_run_app now os1 os2 d : rows_run now (os1 ++ os2) d = rbind (rows_run now os1 d) (rows_run now os2).
Proof.
  revert d. induction os1 as [|o os1 IH]; intros d; [done|]. cbn. destruct (data_step now empty_schema o d); cbn; [apply IH|done].
Qed.

Lemma ensure_true {A} b e (k : unit -> result sql_error A) : b = true -> rbind (ensure b e) k = k tt.
Proof. by intros ->. Qed.

(** ** Adding and dropping columns *)

Definition extend (now : Z) (cols : list (string * column)) (r : row) : row :=
  fold_left (fun r ck => <[fst ck := default_value now (snd ck)]> r) cols r.

Definition without (cs : list string) (r : row) : row := fold_left (fun r c => delete c r) cs r.

Definition addable (now : Z) (ck : string * column) : bool :=
  (nullable (snd ck) || negb (is_null (default_value now (snd ck)))) &&
  has_type (col_type (snd ck)) (default_value now (snd ck)).

Lemma set_rows_map t f g (d : data) : set_rows t (map g) (set_rows t (map f) d) = set_rows t (map (fun r => g (f r))) d.
Proof.
  unfold set_rows. rewrite rows_inserted, decide_True by done. by rewrite insert_insert_eq, map_map.
Qed.

Lemma set_rows_ext t f g (d : data) : (forall l, f l = g l) -> set_rows t f d = set_rows t g d.
Proof. intros H. unfold set_rows. by rewrite H. Qed.

Lemma run_add_columns_after now t g cols os d :
  forallb (addable now) cols = true ->
  rows_run now (add_columns t cols ++ os) (set_rows t (map g) d) =
  rows_run now os (set_rows t (map (fun r => extend now cols (g r))) d).
Proof.
  revert g. induction cols as [|[c k] cols IH]; intros g Ha; [done|]. cbn in Ha.
  apply andb_true_iff in Ha as [Ha Has]. unfold addable in Ha. apply andb_true_iff in Ha as [Hn Hty]. cbn in Hn, Hty.
  cbn. rewrite ensure_true by (by rewrite Hn). rewrite ensure_true by done. cbn.
  rewrite set_rows_map. by rewrite (IH (fun r => <[c := default_value now k]> (g r))).
Qed.

Lemma run_add_columns now t cols os d :
  cols <> [] -> forallb (addable now) cols = true ->
  rows_run now (add_columns t cols ++ os) d = rows_run now os (set_rows t (map (extend now cols)) d).
Proof.
  destruct cols as [|[c k] cols]; intros Hne Ha; [done|]. cbn in Ha.
  apply andb_true_iff in Ha as [Ha Has]. unfold addable in Ha. apply andb_true_iff in Ha as [Hn Hty]. cbn in Hn, Hty.
  cbn. rewrite ensure_true by (by rewrite Hn). rewrite ensure_true by done. cbn.
  by apply (run_add_columns_after now t <[c := default_value now k]>).
Qed.

Lemma run_drop_columns_after now t g cs os d :
  rows_run now (drop_columns t cs ++ os) (set_rows t (map g) d) =
  rows_run now os (set_rows t (map (fun r => without cs (g r))) d).
Proof.
  revert g. induction cs as [|c cs IH]; intros g; [done|]. cbn. rewrite set_rows_map.
  by apply (IH (fun r => delete c (g r))).
Qed.

Lemma run_drop_columns now t cs os d :
  cs <> [] -> rows_run now (drop_columns t cs ++ os) d = rows_run now os (set_rows t (map (without cs)) d).
Proof.
  destruct cs as [|c cs]; intros Hne; [done|]. cbn. by apply (run_drop_columns_after now t (fun r => delete c r)).
Qed.

Fixpoint added (now : Z) (cols : list (string * column)) (c : string) (v : value) : value :=
  match cols with
  | [] => v
  | (c', k) :: cols' => added now cols' c (if String.eqb c' c then default_value now k else v)
  end.

Lemma col_extend now cols r c : col (extend now cols r) c = added now cols c (col r c).
Proof.
  unfold extend. revert r. induction cols as [|[c' k] cols IH]; intros r; cbn; [done|]. rewrite IH. f_equal.
  destruct (String.eqb_spec c' c) as [->|Hne]; [apply col_insert|by apply col_insert_ne].
Qed.

Lemma col_without cs r c : str_in c cs = false -> col (without cs r) c = col r c.
Proof.
  unfold without. revert r. induction cs as [|c' cs IH]; intros r H; cbn in *; [done|].
  apply orb_false_iff in H as [Hc H]. rewrite IH by done. apply String.eqb_neq in Hc. by apply col_delete_ne.
Qed.

(** ** Unique keys *)

Lemma distinct_NoDup l : distinct l = true <-> NoDup l.
Proof.
  induction l as [|k l IH]; cbn; [split; [constructor|done]|].
  rewrite andb_true_iff, negb_true_iff, NoDup_cons, IH.
  assert (existsb (key_eqb k) l = false <-> k ∉ l) as ->; [|done].
  rewrite <-not_true_iff_false, existsb_exists. unfold key_eqb. setoid_rewrite bool_decide_eq_true.
  setoid_rewrite <-list_elem_of_In. naive_solver.
Qed.

Definition counts (nulls_not_distinct : bool) (k : list value) : bool := nulls_not_distinct || negb (existsb is_null k).

Lemma filter_elem {A} (p : A -> bool) l x : x ∈ List.filter p l <-> x ∈ l /\ p x = true.
Proof. rewrite !list_elem_of_In. apply List.filter_In. Qed.

(** A key stays unique when equal new keys come from equal old ones and the
    rows it selects were selected. *)
Lemma unique_rows_implied cs cs' b b' sel sel' (f : row -> row) rs :
  (forall r, r ∈ rs -> sel' (f r) = true -> counts b' (key cs' (f r)) = true -> sel r = true /\ counts b (key cs r) = true) ->
  (forall r r', r ∈ rs -> r' ∈ rs -> key cs' (f r) = key cs' (f r') -> key cs r = key cs r') ->
  unique_rows cs b sel rs = true -> unique_rows cs' b' sel' (map f rs) = true.
Proof.
  unfold unique_rows. rewrite !distinct_NoDup. fold (counts b) (counts b').
  induction rs as [|r rs IH]; intros Hsel Hkey Hn; cbn in *; [done|].
  assert (Hn' : NoDup (List.filter (counts b') (map (key cs') (List.filter sel' (map f rs))))).
  { apply IH; [intros r0 Hr0; apply Hsel; by right|intros r1 r2 H1 H2; apply Hkey; by right|].
    destruct (sel r); [|done]. cbn in Hn. destruct (counts b (key cs r)); [|done]. by apply NoDup_cons in Hn as [_ Hn]. }
  destruct (sel' (f r)) eqn:Hs; [|done]. cbn. destruct (counts b' (key cs' (f r))) eqn:Hc; [|done].
  apply NoDup_cons. split; [|done]. intros Hin.
  destruct (Hsel r ltac:(left) Hs Hc) as [Hsr Hcr]. rewrite Hsr in Hn. cbn in Hn. rewrite Hcr in Hn.
  apply NoDup_cons in Hn as [Hn _]. apply Hn.
  apply filter_elem in Hin as [Hin Hc']. apply list_elem_of_fmap in Hin as (r1 & Hk & Hin).
  apply filter_elem in Hin as [Hin Hs1]. apply list_elem_of_fmap in Hin as (r2 & -> & Hin).
  apply filter_elem. rewrite Hk in Hc'. destruct (Hsel r2 ltac:(by right) Hs1 Hc') as [Hs2 Hc2].
  rewrite (Hkey r r2 ltac:(left) ltac:(by right) Hk). split; [|done].
  apply list_elem_of_fmap. exists r2. split; [done|]. by apply filter_elem.
Qed.

Lemma unique_rows_none cs b sel rs : (forall r, r ∈ rs -> sel r = false) -> unique_rows cs b sel rs = true.
Proof.
  intros H. unfold unique_rows. assert (List.filter sel rs = []) as ->; [|done].
  induction rs as [|r rs IH]; cbn; [done|]. rewrite (H r) by left. apply IH. intros r' Hr'. apply H. by right.
Qed.

(** ** What a row of a table satisfies *)

Lemma row_passes s d t tb n p r :
  fits s d -> tables s !! t = Some tb -> constraints tb !! n = Some (CheckThat p) -> r ∈ rows d t -> passes p r = true.
Proof.
  intros Hf Ht Hn Hr. pose proof (fits_constraint _ _ Hf _ _ _ _ Ht Hn) as H. cbn in H.
  rewrite forallb_forall in H. by apply H, list_elem_of_In.
Qed.

Lemma row_column s d t tb c k r :
  fits s d -> tables s !! t = Some tb -> columns tb !! c = Some k -> r ∈ rows d t -> value_fits k (col r c) = true.
Proof.
  intros Hf Ht Hc Hr. pose proof (fits_rows _ _ Hf _ _ _ Ht Hr) as H. apply row_fits_spec in H as [_ H]. eauto.
Qed.

Lemma text_value k v : col_type k = TText -> value_fits k v = true -> (exists s, v = Text s) \/ (v = Null /\ nullable k = true).
Proof.
  unfold value_fits. intros -> H. destruct v; cbn in H; try discriminate; [|by left; eexists].
  right. split; [done|]. by destruct (nullable k).
Qed.

Lemma forallb_rows p (rs : list row) : (forall r, r ∈ rs -> passes p r = true) -> forallb (passes p) rs = true.
Proof. intros H. apply forallb_forall. intros r Hr. by apply H, list_elem_of_In. Qed.

(** ** Where the values of a column go *)

(** The table that holds column [c] of [t] after a statement; none when its
    values are dropped or overwritten, or rows are deleted or inserted. *)
Definition track_step (o : ddl) (t c : string) : option string :=
  match o with
  | DropTable t' | DeleteWhere t' _ | InsertUnlessExists t' _ _ => if String.eqb t t' then None else Some t
  | RenameTable u u' => if String.eqb t u then Some u' else Some t
  | CreateTable u _ _ => if String.eqb t u then None else Some t
  | DropColumn u c' | UpdateFrom u c' _ _ _ _ => if String.eqb t u && String.eqb c c' then None else Some t
  | _ => Some t
  end.

Fixpoint track (os : list ddl) (t c : string) : option string :=
  match os with
  | [] => Some t
  | o :: os' => match track_step o t c with Some t' => track os' t' c | None => None end
  end.

Definition column_values (d : data) (t c : string) : list value := map (fun r => col r c) (rows d t).

Definition column_of (s : schema) (t c : string) : option column :=
  match tables s !! t with Some tb => columns tb !! c | None => None end.

Lemma column_of_table s t c k :
  column_of s t c = Some k -> exists tb, tables s !! t = Some tb /\ columns tb !! c = Some k.
Proof. unfold column_of. destruct (tables s !! t); [eauto|done]. Qed.

Lemma column_of_set_table t tb s u c :
  column_of (set_table t tb s) u c = if decide (t = u) then columns tb !! c else column_of s u c.
Proof. unfold column_of. rewrite tables_set_table. by case_decide. Qed.

Lemma column_of_set_indexes f s u c : column_of (set_indexes f s) u c = column_of s u c.
Proof. done. Qed.

Ltac split_eqb := repeat match goal with
  | H : context [String.eqb ?x ?y] |- _ => destruct (String.eqb_spec x y); subst; cbn in H
  | |- context [String.eqb ?x ?y] => destruct (String.eqb_spec x y); subst; cbn
  end.

(** A column that is tracked is still there. *)
Lemma tracked_column o s s' t c t' :
  schema_step o s = Ok s' -> is_Some (column_of s t c) -> track_step o t c = Some t' -> is_Some (column_of s' t' c).
Proof.
  intros Hs [k Hk] Ht. pose proof (column_of_table _ _ _ _ Hk) as (tb & Htb & Hc).
  destruct o; cbn [schema_step track_step] in Hs, Ht; unfold update_column in Hs; open_step; simplify_eq;
    rewrite ?column_of_set_indexes, ?column_of_set_table;
    try (by eexists); try (case_decide; subst; simplify_eq; cbn; by eexists).
  - destruct (String.eqb_spec t t0) as [->|Hne]; [done|]. simplify_eq.
    match goal with H : add_constraints _ _ _ = Ok _ |- _ =>
      destruct (add_constraints_shape _ _ _ _ _ ∅ ltac:(by rewrite tables_set_table, decide_True) H) as [cs' ->] end.
    rewrite !column_of_set_table, !decide_False by congruence. by eexists.
  - split_eqb; simplify_eq. unfold column_of. cbn. rewrite lookup_delete_ne by congruence. rewrite Htb. by eexists.
  - match goal with H : negb (is_relation _ _) = true |- _ => apply negb_true_iff, is_relation_table in H end.
    split_eqb; simplify_eq; unfold column_of; cbn; rewrite lookup_fmap.
    + rewrite lookup_insert_eq. cbn. by eexists.
    + rewrite lookup_insert_ne, lookup_delete_ne, Htb by congruence. cbn. by eexists.
  - case_decide; subst; simplify_eq; [|by eexists]. cbn. destruct (decide (c0 = c)) as [->|Hne].
    + unfold has_column, is_some in *. by rewrite Hc in *.
    + rewrite lookup_insert_ne by done. by eexists.
  - destruct (String.eqb t t0 && String.eqb c c0)%bool eqn:E; [done|]. injection Ht as <-.
    case_decide; subst; simplify_eq; [|by eexists]. cbn. rewrite String.eqb_refl in E. cbn in E.
    apply String.eqb_neq in E. rewrite lookup_delete_ne by congruence. by eexists.
  - case_decide; subst; simplify_eq; [|by eexists]. cbn. destruct (decide (c0 = c)) as [->|Hne];
      [rewrite lookup_insert_eq|rewrite lookup_insert_ne by done]; by eexists.
  - case_decide; subst; simplify_eq; [|by eexists]. cbn. destruct (decide (c0 = c)) as [->|Hne];
      [rewrite lookup_insert_eq|rewrite lookup_insert_ne by done]; by eexists.
  - unfold add_constraint in Hs. open_step. simplify_eq. rewrite column_of_set_table.
    case_decide; subst; simplify_eq; cbn; by eexists.
  - case_match; simplify_eq. by eexists.
  - case_match; simplify_eq. by eexists.
  - case_match; simplify_eq. by eexists.
Qed.

Lemma values_set_rows t f d u c :
  (t = u -> map (fun r => col r c) (f (rows d t)) = map (fun r => col r c) (rows d t)) ->
  column_values (set_rows t f d) u c = column_values d u c.
Proof. intros H. unfold column_values. rewrite rows_set_rows. case_decide; subst; [by apply H|done]. Qed.

Ltac split_checked :=
  match goal with H : context [if data_fits ?s ?d then _ else _] |- _ => destruct (data_fits s d); [|discriminate H] end.

(** Its values are those before, in their order. *)
Lemma tracked_values now o s s' d d' t c t' :
  schema_step o s = Ok s' -> data_step now s' o d = Ok d' ->
  is_Some (column_of s t c) -> track_step o t c = Some t' -> column_values d' t' c = column_values d t c.
Proof.
  intros Hs Hd [k Hk] Ht. pose proof (column_of_table _ _ _ _ Hk) as (tb & Htb & Hc).
  destruct o; cbn [schema_step data_step track_step] in Hs, Hd, Ht; unfold checked in Hd;
    open_step; simplify_eq; try done.
  - destruct (String.eqb_spec t t0) as [->|Hne]; [done|]. simplify_eq.
    unfold column_values. by rewrite rows_inserted, decide_False by congruence.
  - split_eqb; simplify_eq. unfold column_values. by rewrite rows_delete, decide_False by congruence.
  - match goal with H : negb (is_relation _ _) = true |- _ => apply negb_true_iff, is_relation_table in H end.
    split_eqb; simplify_eq; unfold column_values; rewrite rows_inserted.
    + by rewrite decide_True.
    + by rewrite decide_False, rows_delete, decide_False by congruence.
  - apply values_set_rows. intros ->. rewrite map_map. apply map_ext. intros r. simplify_eq.
    apply col_insert_ne. intros ->. by unfold has_column, is_some in *; rewrite Hc in *.
  - destruct (String.eqb t t0 && String.eqb c c0)%bool eqn:E; [done|]. injection Ht as <-.
    apply values_set_rows. intros ->. rewrite map_map. apply map_ext. intros r. rewrite String.eqb_refl in E. cbn in E.
    apply String.eqb_neq in E. apply col_delete_ne. congruence.
  - split_checked. open_step.
    destruct (String.eqb t t0 && String.eqb c c0)%bool eqn:E; [done|]. injection Ht as <-.
    apply values_set_rows. intros ->. rewrite map_map. apply map_ext. intros r. rewrite String.eqb_refl in E. cbn in E.
    apply String.eqb_neq in E. case_match; [|done]. apply col_insert_ne. congruence.
  - split_checked. open_step. split_eqb; simplify_eq.
    apply values_set_rows. congruence.
  - destruct (String.eqb_spec t t0) as [->|Hne]; [done|]. simplify_eq.
    destruct (existsb _ _); [by open_step|]. case_match; [|discriminate]. split_checked. open_step.
    apply values_set_rows. congruence.
Qed.

Theorem run_values now os db db' t c t' :
  run now os db = Ok db' -> is_Some (column_of (db_schema db) t c) -> track os t c = Some t' ->
  column_values (db_data db') t' c = column_values (db_data db) t c /\ is_Some (column_of (db_schema db') t' c).
Proof.
  revert db t. induction os as [|o os IH]; intros db t H Hc Ht; cbn in *; [by simplify_eq|].
  unfold step in H. open_step.
  destruct (track_step o t c) as [t1|] eqn:E; [|done].
  match goal with H1 : schema_step _ _ = _, H2 : data_step _ _ _ _ = _ |- _ =>
    pose proof (tracked_column _ _ _ _ _ _ H1 Hc E) as Hc1;
    pose proof (tracked_values _ _ _ _ _ _ _ _ _ H1 H2 Hc E) as Hv end.
  destruct (IH _ _ H Hc1 Ht) as [Hv' Hc']. split; [|done]. by rewrite Hv'.
Qed.

(** ** One statement after another *)

(** Statements that neither test nor change rows. *)
Definition leaves_rows (o : ddl) : bool :=
  match o with
  | CreateExtension _ | SetDefault _ _ _ | SetNullable _ _ true | DropConstraint _ _ | DropChecksIfExist _ _
  | RenameConstraint _ _ _ | DropIndex _ => true
  | CreateIndex _ ix => negb (ix_unique ix)
  | _ => false
  end.

Lemma run_leaving now os os' d :
  forallb leaves_rows os = true -> rows_run now (os ++ os') d = rows_run now os' d.
Proof.
  induction os as [|o os IH]; intros H; [done|]. cbn [forallb] in H. apply andb_true_iff in H as [Ho H].
  specialize (IH H). destruct o; try discriminate Ho; cbn; try exact IH.
  - destruct b; [|discriminate]. exact IH.
  - unfold index_holds. cbn in Ho. destruct (ix_unique ix); [discriminate|]. exact IH.
Qed.

Lemma run_leaving_one now o os d : leaves_rows o = true -> rows_run now (o :: os) d = rows_run now os d.
Proof. intros H. apply (run_leaving now [o]). cbn. by rewrite H. Qed.

Lemma run_create now t cols ks os d : rows_run now (CreateTable t cols ks :: os) d = rows_run now os (<[t := []]> d).
Proof. done. Qed.

Lemma run_drop_table now t os d : rows_run now (DropTable t :: os) d = rows_run now os (delete t d).
Proof. done. Qed.

Lemma run_constraint now t n k os d :
  constraint_holds d t k = true -> rows_run now (AddConstraint t n k :: os) d = rows_run now os d.
Proof. intros H. cbn. by rewrite H. Qed.

Lemma run_check now t n p os d :
  (forall r, r ∈ rows d t -> passes p r = true) -> rows_run now (AddConstraint t n (CheckThat p) :: os) d = rows_run now os d.
Proof. intros H. apply run_constraint. by apply forallb_rows. Qed.

Lemma run_index now n ix os d :
  index_holds d ix = true -> rows_run now (CreateIndex n ix :: os) d = rows_run now os d.
Proof. intros H. cbn. by rewrite H. Qed.

Lemma run_not_null now t c os d :
  (forall r, r ∈ rows d t -> col r c <> Null) -> rows_run now (SetNullable t c false :: os) d = rows_run now os d.
Proof.
  intros H. cbn. rewrite ensure_true; [done|]. apply forallb_forall. intros r Hr.
  specialize (H r ltac:(by apply list_elem_of_In)). by destruct (col r c).
Qed.

Lemma index_on_no_rows d ix : rows d (ix_table ix) = [] -> index_holds d ix = true.
Proof. unfold index_holds. intros ->. by destruct (ix_unique ix). Qed.

Lemma rows_insert_at t x d u : rows (<[t := x]> d) u = if String.eqb t u then x else rows d u.
Proof. rewrite rows_inserted. by destruct (String.eqb_spec t u); case_decide. Qed.
Lemma rows_set_rows_at t f d u : rows (set_rows t f d) u = if String.eqb t u then f (rows d t) else rows d u.
Proof. apply rows_insert_at. Qed.
Lemma rows_delete_at t d u : rows (delete t d) u = if String.eqb t u then [] else rows d u.
Proof. rewrite rows_delete. by destruct (String.eqb_spec t u); case_decide. Qed.

(** Decide the comparisons of names that are written out. *)
Ltac compare_names :=
  repeat match goal with
  | |- context [String.eqb ?x ?y] =>
      let b := eval vm_compute in (String.eqb x y) in
      lazymatch b with true => idtac | false => idtac end;
      change (String.eqb x y) with b; cbv beta iota
  end.

Ltac at_rows := repeat (first [rewrite rows_set_rows_at | rewrite rows_insert_at | rewrite rows_delete_at]; compare_names).

(** The rest of a revision once its head is done. *)
Ltac next :=
  first
    [ rewrite run_leaving_one by reflexivity
    | rewrite run_create
    | rewrite run_drop_table
    | rewrite run_index by (apply index_on_no_rows; cbn [ix_table unique_index]; at_rows; reflexivity) ].

(** ** Truth of conditions on rows known in part *)

Lemma text_in_list c l r :
  passes (TextIn c l) r = true -> (exists s, col r c = Text s) -> exists s, s ∈ l /\ col r c = Text s.
Proof.
  unfold passes. cbn. intros H [s Hs]. rewrite Hs in *. cbn in H. exists s. split; [|done].
  destruct (str_in s l) eqn:E; [by apply str_in_spec|done].
Qed.

(** Evaluate a condition, splitting on what is not known of the columns. *)
Ltac eval_cond :=
  unfold passes, holds in *; cbn [eval passes holds] in *;
  repeat match goal with
  | |- context [number_compare ?v ?n] => is_var v; destruct (number_compare v n) as [[]|]
  | H : context [number_compare ?v ?n] |- _ => is_var v; destruct (number_compare v n) as [[]|]
  end; cbn in *; try congruence.
