(* ===== verification/History.v ===== *)
(** * The history of the schema, and revisions on rows that are not known

    The schemas a database goes through, what is known of each of them and of
    the rows in them, and the revisions that change no rows or add to them. *)

From S2P Require Import Prelude Json Ddl DdlFacts Naming Revisions MigrationFacts.

#[local] Open Scope Z_scope.

(** ** The schemas a database goes through

    One pass over the history computes the schema before each revision and
    verifies what the other files rely on of it, so that none of them has to
    compute a schema again. *)

Definition history : list revision := revisions None.

Definition revision_at (k : nat) : revision := nth k history rev_v0_5.

(** The schemas before, between and after revisions. *)
Fixpoint schemas (rs : list revision) (s : schema) : list schema :=
  s :: match rs with
       | [] => []
       | r :: rs' => match schema_run (upgrade r) s with Ok s' => schemas rs' s' | Raise _ => [] end
       end.

Definition schema_before (k : nat) : schema := nth k (schemas history empty_schema) empty_schema.

(** *** A pass over the history *)

Section Pass.
Variable facts : nat -> schema -> schema -> bool.
Variable final : schema -> bool.

Fixpoint along (k : nat) (rs : list revision) (s : schema) : bool :=
  match rs with
  | [] => final s
  | r :: rs' =>
      match schema_run (upgrade r) s with
      | Ok s' => facts k s s' && along (S k) rs' s'
      | Raise _ => false
      end
  end.

Lemma schemas_first rs s d : nth 0 (schemas rs s) d = s.
Proof. by destruct rs. Qed.

Lemma along_each k rs s j :
  along k rs s = true -> (j < length rs)%nat ->
  schema_run (upgrade (nth j rs rev_v0_5)) (nth j (schemas rs s) empty_schema) = Ok (nth (S j) (schemas rs s) empty_schema) /\
  facts (k + j) (nth j (schemas rs s) empty_schema) (nth (S j) (schemas rs s) empty_schema) = true.
Proof.
  revert k s j. induction rs as [|r rs IH]; intros k s j H Hj; [cbn in Hj; lia|]. cbn in H.
  destruct (schema_run (upgrade r) s) as [s'|] eqn:E; [|done]. apply andb_true_iff in H as [Hf H].
  destruct j as [|j].
  - cbn. rewrite E, schemas_first, Nat.add_0_r. done.
  - assert (Hn : forall i, nth (S i) (schemas (r :: rs) s) empty_schema = nth i (schemas rs s') empty_schema)
      by (intros i; cbn; by rewrite E).
    rewrite !Hn. replace (k + S j)%nat with (S k + j)%nat by lia. apply IH; [exact H|cbn in Hj; lia].
Qed.

Lemma along_last k rs s :
  along k rs s = true -> final (nth (length rs) (schemas rs s) empty_schema) = true.
Proof.
  revert k s. induction rs as [|r rs IH]; intros k s H; cbn in H; [done|].
  cbn. destruct (schema_run (upgrade r) s) as [s'|] eqn:E; [|done]. apply andb_true_iff in H as [_ H]. by eapply IH.
Qed.

Lemma pass : along 0 history empty_schema = true ->
  (forall k, (k < 18)%nat -> facts k (schema_before k) (schema_before (S k)) = true) /\ final (schema_before 18) = true.
Proof.
  intros H. split.
  - intros k Hk. exact (proj2 (along_each 0 history empty_schema k H Hk)).
  - exact (along_last 0 history empty_schema H).
Qed.

Lemma pass_run : along 0 history empty_schema = true ->
  forall k, (k < 18)%nat -> schema_run (upgrade (revision_at k)) (schema_before k) = Ok (schema_before (S k)).
Proof. intros H k Hk. exact (proj1 (along_each 0 history empty_schema k H Hk)). Qed.
End Pass.

(** *** What is known of each schema *)

Definition check_of (s : schema) (t n : string) : option cond :=
  match tables s !! t with
  | Some tb => match constraints tb !! n with Some (CheckThat p) => Some p | _ => None end
  | None => None
  end.

(** The checks, columns and indexes the proofs use, by the schema they are
    in. *)
Definition checks_wanted : list (nat * string * list string) :=
  [(1%nat, "trigger_records",
     ["ck_trigger_records_ck_trigger_records_fallback_consistency";
      "ck_trigger_records_ck_trigger_records_trigger_reference_7113";
      "ck_trigger_records_ck_trigger_records_trigger_price";
      "ck_trigger_records_ck_trigger_records_target_price_effective"]);
   (2%nat, "trade_intents",
     ["ck_trade_intents_ck_trade_intents_strategy"; "ck_trade_intents_ck_trade_intents_target_price_original";
      "ck_trade_intents_ck_trade_intents_target_price_effective"; "ck_trade_intents_ck_trade_intents_quantity_lots"]);
   (2%nat, "notifications",
     ["ck_notifications_ck_notifications_type"; "ck_notifications_ck_notifications_price_triggered_intent"]);
   (3%nat, "trade_intents",
     ["ck_trade_intents_strategy"; "ck_trade_intents_target_price_presence"; "ck_trade_intents_trailing_fields_presence"]);
   (4%nat, "trade_intents",
     ["ck_trade_intents_ck_trade_intents_status"; "ck_trade_intents_strategy"; "ck_trade_intents_target_price_presence"]);
   (5%nat, "trade_intents",
     ["ck_trade_intents_status"; "ck_trade_intents_strategy"; "ck_trade_intents_target_price_presence"]);
   (6%nat, "trade_intents", ["ck_trade_intents_strategy"; "ck_trade_intents_target_price_presence"]);
   (7%nat, "trade_intents", ["ck_trade_intents_strategy"; "ck_trade_intents_target_price_presence"]);
   (8%nat, "trade_intents", ["ck_trade_intents_status"]);
   (9%nat, "trade_intents", ["ck_trade_intents_status"])] ++
  map (fun k => (k, "notifications", ["ck_notifications_type"; "ck_notifications_triggered_notification_intent"]))
    [3; 4; 5; 6; 14]%nat.

Definition columns_wanted : list (nat * string * list string) :=
  (2%nat, "trade_intents",
    ["owner_user_id"; "symbol"; "target_price_effective"; "quantity_lots"; "trading_date"]) ::
  map (fun k => (k, "trade_intents", ["strategy"; "status"])) [2; 3; 4; 5; 6; 7; 8; 9]%nat ++
  map (fun k => (k, "notifications", ["type"])) [2; 3; 4; 5; 6; 14]%nat.

Definition indexes_wanted : list (nat * string) :=
  map (fun k => (k, "uq_trade_intents_active_duplicate")) [2; 3; 4]%nat.

Definition found {A B} (f : string -> string -> option A) (g : A -> B) (t : string) (ns : list string) : list (string * string * B) :=
  omap (fun n => (fun a => (t, n, g a)) <$> f t n) ns.

(** By stage. *)
Definition staged {A} (l : list (nat * A)) : list (list A) :=
  map (fun k => map snd (List.filter (fun ka => Nat.eqb (fst ka) k) l)) (seq 0 18).

Definition known_checks : list (list (string * string * cond)) :=
  Eval vm_compute in staged (concat (map (fun w => map (pair (fst (fst w)))
    (found (check_of (schema_before (fst (fst w)))) id (snd (fst w)) (snd w))) checks_wanted)).

Definition known_columns : list (list (string * string * column)) :=
  Eval vm_compute in staged (concat (map (fun w => map (pair (fst (fst w)))
    (found (column_of (schema_before (fst (fst w)))) id (snd (fst w)) (snd w))) columns_wanted)).

Definition known_indexes : list (list (string * index)) :=
  Eval vm_compute in staged (concat (map (fun w =>
    match indexes (schema_before (fst w)) !! snd w with Some ix => [(fst w, (snd w, ix))] | None => [] end) indexes_wanted)).

Definition at_stage {A} (k : nat) (l : list (list A)) : list A := nth k l [].

Definition has_checks (s : schema) (l : list (string * string * cond)) : bool :=
  forallb (fun f => bool_decide (check_of s (fst (fst f)) (snd (fst f)) = Some (snd f))) l.
Definition has_columns (s : schema) (l : list (string * string * column)) : bool :=
  forallb (fun f => bool_decide (column_of s (fst (fst f)) (snd (fst f)) = Some (snd f))) l.
Definition has_indexes (s : schema) (l : list (string * index)) : bool :=
  forallb (fun f => bool_decide (indexes s !! fst f = Some (snd f))) l.

Definition stage_facts (k : nat) (s s' : schema) : bool :=
  has_checks s (at_stage k known_checks) && has_columns s (at_stage k known_columns) &&
  has_indexes s (at_stage k known_indexes).

Definition lookup2 {A} (l : list (string * string * A)) (t n : string) : option A :=
  snd <$> find (fun f => String.eqb (fst (fst f)) t && String.eqb (snd (fst f)) n) l.

Definition lookup1 {A} (l : list (string * A)) (n : string) : option A := snd <$> find (fun f => String.eqb (fst f) n) l.

Lemma lookup2_In {A} (l : list (string * string * A)) t n a : lookup2 l t n = Some a -> In (t, n, a) l.
Proof.
  unfold lookup2. destruct (find _ _) as [[[t' n'] a']|] eqn:E; [|done]. intros [= <-].
  apply find_some in E as [Hin E]. cbn in E. by apply andb_true_iff in E as [->%String.eqb_eq ->%String.eqb_eq].
Qed.

Lemma has_checks_spec s l t n p : has_checks s l = true -> lookup2 l t n = Some p -> check_of s t n = Some p.
Proof.
  unfold has_checks. rewrite forallb_forall. intros H Hin%lookup2_In. specialize (H _ Hin). by apply bool_decide_eq_true in H.
Qed.

Lemma has_columns_spec s l t c ck : has_columns s l = true -> lookup2 l t c = Some ck -> column_of s t c = Some ck.
Proof.
  unfold has_columns. rewrite forallb_forall. intros H Hin%lookup2_In. specialize (H _ Hin). by apply bool_decide_eq_true in H.
Qed.

Lemma has_indexes_spec s l n ix : has_indexes s l = true -> lookup1 l n = Some ix -> indexes s !! n = Some ix.
Proof.
  unfold has_indexes, lookup1. rewrite forallb_forall. destruct (find _ _) as [[n' ix']|] eqn:E; [|done].
  intros H [= <-]. apply find_some in E as [Hin E]. cbn in E. apply String.eqb_eq in E as ->.
  specialize (H _ Hin). by apply bool_decide_eq_true in H.
Qed.

Lemma stages : along stage_facts (fun s => true) 0 history empty_schema = true.
Proof. vm_compute. reflexivity. Qed.

Lemma revision_schema k :
  (k < 18)%nat -> schema_run (upgrade (revision_at k)) (schema_before k) = Ok (schema_before (S k)).
Proof. exact (pass_run _ _ stages k). Qed.

Lemma stage_facts_at k : (k < 18)%nat -> stage_facts k (schema_before k) (schema_before (S k)) = true.
Proof. exact (proj1 (pass _ _ stages) k). Qed.

(** From here on a schema is known by the facts proved of it. *)
#[global] Opaque schema_before.

Lemma stage_facts_split k :
  (k < 18)%nat ->
  has_checks (schema_before k) (at_stage k known_checks) = true /\
  has_columns (schema_before k) (at_stage k known_columns) = true /\
  has_indexes (schema_before k) (at_stage k known_indexes) = true.
Proof.
  intros Hk. pose proof (stage_facts_at k Hk) as H. unfold stage_facts in H.
  apply andb_true_iff in H as [H Hi]. apply andb_true_iff in H as [Hc Hcol]. exact (conj Hc (conj Hcol Hi)).
Qed.

Lemma stage_check k t n p :
  (k < 18)%nat -> lookup2 (at_stage k known_checks) t n = Some p -> check_of (schema_before k) t n = Some p.
Proof. intros Hk. apply has_checks_spec. exact (proj1 (stage_facts_split k Hk)). Qed.

Lemma stage_column k t c ck :
  (k < 18)%nat -> lookup2 (at_stage k known_columns) t c = Some ck -> column_of (schema_before k) t c = Some ck.
Proof. intros Hk. apply has_columns_spec. exact (proj1 (proj2 (stage_facts_split k Hk))). Qed.

Lemma stage_index k n ix :
  (k < 18)%nat -> lookup1 (at_stage k known_indexes) n = Some ix -> indexes (schema_before k) !! n = Some ix.
Proof. intros Hk. apply has_indexes_spec. exact (proj2 (proj2 (stage_facts_split k Hk))). Qed.

Lemma stage_well_formed k : (k <= 18)%nat -> well_formed_prop (schema_before k).
Proof.
  induction k as [|k IH]; intros Hk.
  - Transparent schema_before. change (schema_before 0) with empty_schema. Opaque schema_before. by apply well_formed_spec.
  - eapply wf_run; [apply IH; lia|apply revision_schema; lia].
Qed.

(** ** The revisions on rows that are not known

    What the rows satisfy in each schema of the history,
    and the revisions that change no rows or add to them. *)

(** *** Revisions and their rows *)

(** A revision without data statements succeeds when its rows do. *)
Lemma revision_runs now k d d' :
  (k < 18)%nat -> forallb (fun o => negb (looks_at_schema o)) (upgrade (revision_at k)) = true ->
  rows_run now (upgrade (revision_at k)) d = Ok d' ->
  run now (upgrade (revision_at k)) (Database (schema_before k) d) = Ok (Database (schema_before (S k)) d').
Proof. intros Hk Hl Hd. apply run_rows; [done| |done]. by apply revision_schema. Qed.

(** *** What is known of a row *)

Lemma check_of_passes s d t n p r :
  check_of s t n = Some p -> fits s d -> r ∈ rows d t -> passes p r = true.
Proof.
  unfold check_of. destruct (tables s !! t) as [tb|] eqn:Ht; [|done].
  destruct (constraints tb !! n) as [[]|] eqn:Hn; try done. intros [= ->] Hf. by eapply row_passes.
Qed.

Lemma column_of_fits s d t c k r :
  column_of s t c = Some k -> fits s d -> r ∈ rows d t -> value_fits k (col r c) = true.
Proof. intros Hc Hf. apply column_of_table in Hc as (tb & Ht & Hc). by eapply row_column. Qed.

Lemma text_column s d t c df r :
  column_of s t c = Some (Column TText false df) -> fits s d -> r ∈ rows d t -> exists x, col r c = Text x.
Proof.
  intros Hc Hf Hr. pose proof (column_of_fits _ _ _ _ _ _ Hc Hf Hr) as H.
  apply text_value in H as [?|[_ H]]; [done|discriminate H|done].
Qed.

Lemma not_null_column s d t c ty df r :
  column_of s t c = Some (Column ty false df) -> fits s d -> r ∈ rows d t -> col r c <> Null.
Proof.
  intros Hc Hf Hr E. pose proof (column_of_fits _ _ _ _ _ _ Hc Hf Hr) as H. unfold value_fits in H. rewrite E in H.
  apply andb_true_iff in H as [_ H]. done.
Qed.

(** *** The revisions one by one *)

Lemma runs_v0_5 now d : exists d', rows_run now (upgrade rev_v0_5) d = Ok d' /\
  forall t, t ∈ ["notifications"; "trade_intents"; "trigger_records"] -> rows d' t = [].
Proof.
  cbn [upgrade rev_v0_5]. unfold create_table. repeat next. eexists. split; [reflexivity|].
  intros t Ht. repeat (apply elem_of_cons in Ht as [->|Ht]; [at_rows; reflexivity|]). by apply elem_of_nil in Ht.
Qed.

Lemma runs_mfa_verified now d : exists d', rows_run now (upgrade rev_mfa_verified) d = Ok d'.
Proof.
  cbn [upgrade rev_mfa_verified]. rewrite <-(app_nil_r (add_columns _ _)).
  rewrite run_add_columns by done. by eexists.
Qed.

Lemma runs_system_flags now d : exists d', rows_run now (upgrade rev_system_flags) d = Ok d'.
Proof. cbn [upgrade rev_system_flags]. unfold create_table. repeat next. by eexists. Qed.

Lemma runs_idempotency now d : exists d', rows_run now (upgrade rev_idempotency) d = Ok d'.
Proof. cbn [upgrade rev_idempotency]. unfold create_table. repeat next. by eexists. Qed.

Lemma runs_core now d : exists d', rows_run now (upgrade rev_core) d = Ok d'.
Proof. cbn [upgrade rev_core]. unfold create_table. repeat next. by eexists. Qed.

Lemma runs_core_names now d : exists d', rows_run now (upgrade rev_core_names) d = Ok d'.
Proof.
  cbn [upgrade rev_core_names]. rewrite <-(app_nil_r (map _ _)). rewrite run_leaving by reflexivity. by eexists.
Qed.

Lemma runs_terms now d : exists d', rows_run now (upgrade rev_terms) d = Ok d'.
Proof.
  cbn [upgrade rev_terms]. rewrite <-(app_nil_r (drop_columns _ _)). rewrite run_drop_columns by done. by eexists.
Qed.

Lemma runs_telegram now d : exists d', rows_run now (upgrade rev_telegram) d = Ok d'.
Proof. cbn [upgrade rev_telegram]. unfold create_table. repeat next. by eexists. Qed.

(** The row [r] of table [t] satisfies the check [n] its schema has. *)
Ltac known Hf Hr n H :=
  lazymatch type of Hf with fits (schema_before ?k) ?d =>
    lazymatch type of Hr with ?r ∈ rows d ?t =>
      let p := eval vm_compute in (lookup2 (at_stage k known_checks) t n) in
      lazymatch p with Some ?q =>
        assert (H : passes q r = true)
          by exact (check_of_passes (schema_before k) d t n q r (stage_check k t n q ltac:(lia) eq_refl) Hf Hr)
      end
    end
  end.

(** The index [n] of its schema holds. *)
Ltac known_index Hf n H :=
  lazymatch type of Hf with fits (schema_before ?k) ?d =>
    let ix := eval vm_compute in (lookup1 (at_stage k known_indexes) n) in
    lazymatch ix with Some ?i =>
      assert (H : index_holds d i = true)
        by exact (fits_index _ _ Hf n i (stage_index k n i ltac:(lia) eq_refl))
    end
  end.

(** Its column [c] is a text. *)
Ltac text_of_column Hf Hr c H :=
  lazymatch type of Hf with fits (schema_before ?k) ?d =>
    lazymatch type of Hr with ?r ∈ rows d ?t =>
      assert (H : exists x, col r c = Text x)
        by exact (text_column (schema_before k) d t c _ r (stage_column k t c _ ltac:(lia) eq_refl) Hf Hr)
    end
  end.

Ltac same_check Hf Hr n := let H := fresh in known Hf Hr n H; exact H.

Lemma runs_trigger_events now d :
  fits (schema_before 1) d -> exists d', rows_run now (upgrade rev_trigger_events) d = Ok d'.
Proof.
  intros Hf. cbn [upgrade rev_trigger_events].
  set (os := rename_constraints _ _ ++ _).
  change (rows_run now (RenameTable "trigger_records" "trigger_events" :: os) d)
    with (rows_run now os (<["trigger_events" := rows d "trigger_records"]> (delete "trigger_records" d))).
  subst os. rewrite run_leaving by reflexivity. cbn [recreate_checks check_recreates map concat app fst snd].
  unfold add_check. eexists.
  repeat (next; rewrite run_check; [|at_rows; intros r Hr]).
  - next. reflexivity.
  - same_check Hf Hr "ck_trigger_records_ck_trigger_records_fallback_consistency".
  - same_check Hf Hr "ck_trigger_records_ck_trigger_records_trigger_reference_7113".
  - same_check Hf Hr "ck_trigger_records_ck_trigger_records_trigger_price".
  - same_check Hf Hr "ck_trigger_records_ck_trigger_records_target_price_effective".
Qed.

(** A text column of a row is one of the list its check has. *)
Ltac split_text Hf Hr n c :=
  let H := fresh in let Hc := fresh in let E := fresh in let Hin := fresh in
  known Hf Hr n H; text_of_column Hf Hr c Hc;
  apply text_in_list in H; [|exact Hc];
  destruct H as (? & Hin & E); clear Hc;
  repeat (apply elem_of_cons in Hin as [->|Hin]; [|]); [..|by apply elem_of_nil in Hin].

Lemma runs_expired now d : fits (schema_before 4) d -> rows_run now (upgrade rev_expired) d = Ok d.
Proof.
  intros Hf. cbn [upgrade rev_expired]. unfold replace_status_check, add_check. next.
  rewrite run_check; [done|]. intros r Hr.
  split_text Hf Hr "ck_trade_intents_ck_trade_intents_status" "status";
    match goal with E : col r _ = _ |- _ => unfold passes; cbn [eval]; rewrite E; reflexivity end.
Qed.

(** Conditions over a text that is known and columns that are not: what is
    left are the comparisons of those columns, each with three outcomes. *)
Ltac decide_conditions r :=
  repeat match goal with
  | H : fits _ _ |- _ => clear H
  | H : r ∈ _ |- _ => clear H
  end;
  unfold passes, holds in *;
  cbn [eval no_targets with_targets target_price_presence_1 target_price_presence_2 target_price_presence_3
       target_price_presence_4 positive absent_or_positive] in *;
  repeat match goal with
  | E : col r ?c = Text _ |- _ => rewrite E in *; clear E
  end;
  cbn [option_map text_of is_null] in *;
  repeat match goal with
  | |- context [col r ?c] => generalize dependent (col r c); intros ?v
  | H : context [col r ?c] |- _ => generalize dependent (col r c); intros ?v
  end;
  repeat match goal with
  | |- context [number_compare ?v ?n] => generalize dependent (number_compare v n); intros ?o
  | H : context [number_compare ?v ?n] |- _ => generalize dependent (number_compare v n); intros ?o
  end;
  repeat match goal with
  | |- context [is_null ?v] => generalize dependent (is_null v); intros ?b
  | H : context [is_null ?v] |- _ => generalize dependent (is_null v); intros ?b
  end;
  repeat match goal with
  | b : bool |- _ => destruct b
  | o : option comparison |- _ => destruct o as [[]|]
  end; repeat match goal with H : _ = true |- _ => revert H end; vm_compute; congruence.

Lemma check_notification_types (l l' : list string) r :
  forallb (fun s => str_in s l') l = true ->
  passes (TextIn "type" l) r = true -> passes (TextIn "type" l') r = true.
Proof.
  rewrite forallb_forall. unfold passes. cbn. intros H. destruct (col r "type"); try done. cbn.
  destruct (str_in s l) eqn:E; [|done]. apply str_in_spec, list_elem_of_In, H in E. by rewrite E.
Qed.

(** A wider list of trigger types asks nothing more of the types in use. *)
Lemma check_triggers_name_intent l l' r :
  (exists s, col r "type" = Text s /\ str_in s l = true) ->
  passes (triggers_name_intent l) r = true -> passes (triggers_name_intent l') r = true.
Proof.
  intros (s & E & Hl). unfold passes, triggers_name_intent. cbn. rewrite E. cbn. rewrite Hl. cbn.
  destruct (str_in s l'), (is_null (col r "trade_intent_id")); done.
Qed.

Lemma type_in l r : passes (TextIn "type" l) r = true -> (exists s, col r "type" = Text s) ->
  exists s, col r "type" = Text s /\ str_in s l = true.
Proof. intros H Hc. apply text_in_list in H as (s & Hs & E); [|done]. exists s. split; [done|by apply str_in_spec]. Qed.

Lemma runs_market now d : fits (schema_before 5) d -> rows_run now (upgrade rev_market) d = Ok d.
Proof.
  intros Hf. cbn [upgrade rev_market]. unfold replace_strategy_checks, replace_type_checks, add_check. cbn [app].
  next. rewrite run_check by (intros r Hr; split_text Hf Hr "ck_trade_intents_strategy" "strategy"; decide_conditions r).
  rewrite run_check.
  2: { intros r Hr. known Hf Hr "ck_trade_intents_target_price_presence" Hp.
       split_text Hf Hr "ck_trade_intents_strategy" "strategy"; decide_conditions r. }
  next. rewrite !run_check; [done|..]; intros r Hr; known Hf Hr "ck_notifications_type" Hty.
  - text_of_column Hf Hr "type" Hc. known Hf Hr "ck_notifications_triggered_notification_intent" Hi.
    by eapply check_triggers_name_intent; [eapply type_in|].
  - eapply check_notification_types; [|exact Hty]. reflexivity.
Qed.

Lemma runs_market_sides now d : fits (schema_before 6) d -> rows_run now (upgrade rev_market_sides) d = Ok d.
Proof.
  intros Hf. cbn [upgrade rev_market_sides]. unfold replace_strategy_checks, add_check. next.
  rewrite run_check by (intros r Hr; split_text Hf Hr "ck_trade_intents_strategy" "strategy"; decide_conditions r).
  rewrite run_check; [done|]. intros r Hr. known Hf Hr "ck_trade_intents_target_price_presence" Hp.
  split_text Hf Hr "ck_trade_intents_strategy" "strategy"; decide_conditions r.
Qed.

Lemma runs_account_disabled now d : fits (schema_before 8) d -> rows_run now (upgrade rev_account_disabled) d = Ok d.
Proof.
  intros Hf. cbn [upgrade rev_account_disabled]. unfold replace_status_check, add_check. next.
  rewrite run_check; [done|]. intros r Hr.
  split_text Hf Hr "ck_trade_intents_status" "status"; decide_conditions r.
Qed.

(** Bring a goal about a row that got columns back to the row it was. *)
Ltac open_row Hr r :=
  at_rows; let x := fresh "x" in intros x Hr; apply list_elem_of_fmap in Hr as (r & -> & Hr);
  unfold passes, trailing_fields_presence, trail_value_range, twap_fields_presence, no_twap_fields,
    twap_interval_range, twap_available_range, twap_materialized_range;
  cbn [eval target_price_presence_1 target_price_presence_2 no_targets with_targets positive absent_or_positive];
  rewrite ?col_extend; repeat match goal with |- context [added _ ?cols _ _] => is_const cols; unfold cols end;
  cbn [added fst snd optional defaulted default_value server_default]; compare_names;
  cbn [is_null option_map text_of str_in existsb].

(** *** Where a database stands *)

Definition revision_before (k : nat) : option string :=
  match k with O => None | S k' => Some (rev_id (revision_at k')) end.

(** At revision [k], with the schema of that revision and rows that fit it. *)
Definition stands (k : nat) (dep : deployment) : bool :=
  Nat.leb k 18 && bool_decide (at_revision dep = revision_before k) &&
  bool_decide (db_schema (db dep) = schema_before k) && data_fits (schema_before k) (db_data (db dep)).

Lemma stands_spec k dep :
  stands k dep = true ->
  (k <= 18)%nat /\ dep = Deployment (revision_before k) (Database (schema_before k) (db_data (db dep))) /\
  fits (schema_before k) (db_data (db dep)).
Proof.
  unfold stands. rewrite !andb_true_iff, !bool_decide_eq_true, data_fits_spec.
  intros [[[Hk Hv] Hs] Hf]. split; [by apply Nat.leb_le|]. split; [|exact Hf].
  destruct dep as [v [s d]]. cbn in *. by subst.
Qed.
