(* ===== verification/UpgradeSteps.v ===== *)
(** * The revisions that look at rows

    Each of them run on rows known only by the constraints they satisfied
    before: 202605260001 first, then the later ones. *)

From S2P Require Import Prelude Json Ddl DdlFacts Naming Revisions MigrationFacts History.

#[local] Open Scope Z_scope.

(** ** The rows of the first schema under the checks of the second

    Revision 202605260001: new columns with defaults, new checks over them, the
    index of active duplicates made again over more columns, and the lots of
    past trigger events filled in from their intents. *)

Lemma key_value_null v : is_null (key_value v) = is_null v.
Proof. by destruct v. Qed.

Definition head_of_trailing : list ddl := take 30 (upgrade rev_trailing).
Definition tail_of_trailing : list ddl := drop 31 (upgrade rev_trailing).

Definition intent_columns_1 : list (string * column) :=
  [defaulted "transaction_mode" TText (Literal (Text "single_notification"));
   defaulted "notification_mode" TText (Literal (Text "single"));
   defaulted "filled_quantity_lots" TInteger (Literal (Int 0));
   optional "last_fill_at" TTimestamptz; optional "trail_mode" TText; optional "trail_value" price_type;
   optional "baseline" price_type; optional "dynamic_trigger_price" price_type;
   optional "baseline_updated_at" TTimestamptz].
Definition event_columns_1 : list (string * column) :=
  [defaulted "filled_quantity_lots" TInteger (Literal (Int 0)); optional "baseline_at_trigger" price_type;
   optional "dynamic_trigger_price_at_trigger" price_type].

Lemma duplicates_stay_unique now d :
  fits (schema_before 2) d ->
  index_holds (set_rows "trade_intents" (map (extend now intent_columns_1)) d)
    (null_safe_unique_index "trade_intents"
       ["owner_user_id"; "symbol"; "strategy"; "target_price_effective"; "trail_mode"; "trail_value"; "quantity_lots";
        "trading_date"] live) = true.
Proof.
  intros Hf. known_index Hf "uq_trade_intents_active_duplicate" Hi.
  unfold index_holds in *. cbn [ix_unique ix_columns ix_keys ix_table nulls_not_distinct null_safe_unique_index
    unique_index map fst] in *. at_rows.
  eapply unique_rows_implied; [..|exact Hi].
  - intros r Hr Hs _. split.
    + unfold index_selects in *. cbn [ix_where null_safe_unique_index unique_index] in *. unfold holds, live in *. cbn [eval] in *.
      rewrite col_extend in Hs. cbn [added intent_columns_1 fst] in Hs. revert Hs. compare_names. done.
    + unfold counts. cbn [orb key map existsb]. rewrite !key_value_null.
      repeat match goal with |- context [is_null (col r ?c)] =>
        assert (is_null (col r c) = false) as ->
          by (assert (Hn : col r c <> Null)
                by exact (not_null_column _ d "trade_intents" c _ _ r (stage_column 2 "trade_intents" c _ ltac:(lia) eq_refl) Hf Hr);
              by destruct (col r c))
      end. done.
  - intros r r' _ _. unfold key. cbn [map]. rewrite !col_extend. cbn [added intent_columns_1 fst]. compare_names.
    intros H. injection H as H1 H2 H3 H4 H5 H6. by rewrite H1, H2, H3, H4, H5, H6.
Qed.

Definition trailing_rows (now : Z) (d : data) : data :=
  set_rows "trigger_events" (map (extend now event_columns_1))
    (set_rows "trade_intents" (map (extend now intent_columns_1)) d).

(** The strategy of a row of the first schema. *)
Ltac first_strategies Hf Hr := split_text Hf Hr "ck_trade_intents_ck_trade_intents_strategy" "strategy".

Lemma head_of_trailing_runs now d :
  fits (schema_before 2) d -> rows_run now head_of_trailing d = Ok (trailing_rows now d).
Proof.
  intros Hf. change head_of_trailing with
    (take 6 head_of_trailing ++ add_columns "trade_intents" intent_columns_1 ++ drop 15 head_of_trailing).
  rewrite run_leaving by reflexivity. rewrite run_add_columns by done.
  cbn [drop head_of_trailing take upgrade rev_trailing app add_columns map]. unfold add_check.
  do 2 next.
  rewrite run_check by (open_row Hr r; first_strategies Hf Hr; decide_conditions r).
  rewrite run_check.
  2: { open_row Hr r. known Hf Hr "ck_trade_intents_ck_trade_intents_target_price_original" Ho.
       known Hf Hr "ck_trade_intents_ck_trade_intents_target_price_effective" He.
       first_strategies Hf Hr; decide_conditions r. }
  rewrite run_check by (open_row Hr r; reflexivity).
  rewrite run_check by (open_row Hr r; reflexivity).
  rewrite run_check by (open_row Hr r; reflexivity).
  rewrite run_check by (open_row Hr r; first_strategies Hf Hr; decide_conditions r).
  rewrite run_check by (open_row Hr r; reflexivity).
  rewrite run_check by (open_row Hr r; reflexivity).
  rewrite run_check by (open_row Hr r; reflexivity).
  unfold active_duplicate. rewrite run_index by (by apply duplicates_stay_unique).
  change (rows_run now (add_columns "trigger_events" event_columns_1 ++ [])
            (set_rows "trade_intents" (map (extend now intent_columns_1)) d) = Ok (trailing_rows now d)).
  by rewrite run_add_columns by done.
Qed.

Definition schema_mid : schema :=
  match schema_run head_of_trailing (schema_before 2) with Ok s => s | Raise _ => empty_schema end.

Definition fill_from (intents : list row) (r : row) : row :=
  match find (fun r' => key_eqb (key ["trade_intent_id"] r) (key ["id"] r')) intents with
  | Some r' => <["filled_quantity_lots" := col r' "quantity_lots"]> r
  | None => r
  end.

Lemma fill_from_cases intents r :
  fill_from intents r = r \/
  exists r', r' ∈ intents /\ fill_from intents r = <["filled_quantity_lots" := col r' "quantity_lots"]> r.
Proof.
  unfold fill_from. destruct (find _ _) as [r'|] eqn:E; [right|by left].
  exists r'. split; [|done]. apply find_some in E as [E _]. by apply list_elem_of_In.
Qed.

Definition filled_rows (now : Z) (d : data) : data :=
  let d1 := trailing_rows now d in
  set_rows "trigger_events" (map (fill_from (rows d1 "trade_intents"))) d1.

Definition fill_statement : ddl :=
  UpdateFrom "trigger_events" "filled_quantity_lots" "trade_intents" "quantity_lots" "trade_intent_id" "id".

(** Facts of the schema in the middle of the revision. *)
Definition mid_facts (k : nat) (s s' : schema) : bool :=
  match k with
  | 2%nat =>
      match schema_run head_of_trailing s with
      | Ok m =>
          column_unused m "trigger_events" "filled_quantity_lots" &&
          (bool_decide (column_of m "trigger_events" "filled_quantity_lots"
             = Some (Column TInteger false (Some (Literal (Int 0))))) &&
           (bool_decide (column_of m "trade_intents" "quantity_lots" = Some (Column TInteger false None)) &&
            bool_decide (check_of m "trade_intents" "ck_trade_intents_ck_trade_intents_quantity_lots"
              = Some (positive "quantity_lots"))))
      | Raise _ => false
      end
  | _ => true
  end.

Lemma mid_pass : along mid_facts (fun _ => true) 0 history empty_schema = true.
Proof. vm_compute. reflexivity. Qed.

Lemma mid_schema_facts :
  column_unused schema_mid "trigger_events" "filled_quantity_lots" = true /\
  column_of schema_mid "trigger_events" "filled_quantity_lots" = Some (Column TInteger false (Some (Literal (Int 0)))) /\
  column_of schema_mid "trade_intents" "quantity_lots" = Some (Column TInteger false None) /\
  check_of schema_mid "trade_intents" "ck_trade_intents_ck_trade_intents_quantity_lots" = Some (positive "quantity_lots").
Proof.
  pose proof (proj1 (pass _ _ mid_pass) 2%nat ltac:(lia)) as H. unfold mid_facts, schema_mid in *.
  destruct (schema_run head_of_trailing (schema_before 2)) as [m|]; [|done].
  apply andb_true_iff in H as [Hu H]. apply andb_true_iff in H as [H1 H]. apply andb_true_iff in H as [H2 H3].
  apply bool_decide_eq_true in H1, H2, H3. exact (conj Hu (conj H1 (conj H2 H3))).
Qed.

Lemma mid_schema :
  schema_run head_of_trailing (schema_before 2) = Ok schema_mid /\
  schema_step fill_statement schema_mid = Ok schema_mid /\
  schema_run tail_of_trailing schema_mid = Ok (schema_before 3).
Proof.
  pose proof (revision_schema 2 ltac:(lia)) as H.
  change (upgrade (revision_at 2)) with (head_of_trailing ++ [fill_statement] ++ tail_of_trailing) in H.
  rewrite schema_run_app in H. unfold schema_mid.
  destruct (schema_run head_of_trailing (schema_before 2)) as [m|]; [|done]. cbn [rbind app schema_run] in H.
  split; [done|]. assert (Hfill : forall m', schema_step fill_statement m = Ok m' -> m' = m).
  { intros m' Hm. cbn [schema_step fill_statement] in Hm. by open_step. }
  destruct (schema_step fill_statement m) as [m'|] eqn:E; [|done]. by rewrite (Hfill m' eq_refl) in *.
Qed.

Lemma fits_mid now d : fits (schema_before 2) d -> fits schema_mid (trailing_rows now d).
Proof.
  intros Hf. destruct mid_schema as (Hs & _ & _).
  apply (run_fits now head_of_trailing (Database (schema_before 2) d) (Database schema_mid (trailing_rows now d)));
    [by apply stage_well_formed; lia|exact Hf|].
  apply run_rows; [reflexivity|exact Hs|by apply head_of_trailing_runs].
Qed.

Lemma fits_filled now d : fits (schema_before 2) d -> fits schema_mid (filled_rows now d).
Proof.
  intros Hf. pose proof (fits_mid now d Hf) as Hm. destruct mid_schema_facts as (Hun & Hcol & Hlots & _).
  pose proof (column_of_table _ _ _ _ Hcol) as (tb & Htb & Hc).
  eapply fits_overwrite; [exact Hm|exact Htb|exact Hc|exact Hun|..].
  - intros r. destruct (fill_from_cases (rows (trailing_rows now d) "trade_intents") r) as [->|(r' & _ & ->)]; eauto.
  - intros r Hr. destruct (fill_from_cases (rows (trailing_rows now d) "trade_intents") r) as [->|(r' & Hr' & ->)].
    + exact (column_of_fits schema_mid _ _ _ _ r Hcol Hm Hr).
    + rewrite col_insert. exact (column_of_fits schema_mid _ _ _ _ r' Hlots Hm Hr').
Qed.

Lemma tail_of_trailing_runs now d :
  fits (schema_before 2) d -> rows_run now tail_of_trailing (filled_rows now d) = Ok (filled_rows now d).
Proof.
  intros Hf. pose proof (fits_mid now d Hf) as Hm.
  cbn [tail_of_trailing drop upgrade rev_trailing app add_columns map]. unfold add_check.
  assert (Hev : rows (filled_rows now d) "trigger_events" =
    map (fun r => fill_from (rows (trailing_rows now d) "trade_intents") (extend now event_columns_1 r))
      (rows d "trigger_events")).
  { unfold filled_rows, trailing_rows. at_rows. by rewrite map_map. }
  assert (Hno : rows (filled_rows now d) "notifications" = rows d "notifications").
  { unfold filled_rows, trailing_rows. by at_rows. }
  assert (Hother : forall r c, c <> "filled_quantity_lots" ->
    col (fill_from (rows (trailing_rows now d) "trade_intents") r) c = col r c).
  { intros r c Hc. destruct (fill_from_cases (rows (trailing_rows now d) "trade_intents") r) as [->|(r' & _ & ->)]; [done|].
    by apply col_insert_ne. }
  rewrite run_check.
  2: { rewrite Hev. intros r Hr. apply list_elem_of_fmap in Hr as (r0 & -> & Hr).
       destruct (fill_from_cases (rows (trailing_rows now d) "trade_intents") (extend now event_columns_1 r0))
         as [->|(r' & Hr' & ->)].
       - unfold passes. cbn [eval]. by rewrite col_extend.
       - pose proof (check_of_passes _ _ _ _ _ _ (proj2 (proj2 (proj2 mid_schema_facts))) Hm Hr') as Hq.
         unfold passes, positive in *. cbn [eval] in *. rewrite col_insert.
         destruct (number_compare (col r' "quantity_lots") 0) as [[]|]; done. }
  rewrite run_check.
  2: { rewrite Hev. intros r Hr. apply list_elem_of_fmap in Hr as (r0 & -> & Hr).
       unfold passes. cbn [eval absent_or_positive]. rewrite !Hother, !col_extend by discriminate. reflexivity. }
  rewrite run_check.
  2: { rewrite Hev. intros r Hr. apply list_elem_of_fmap in Hr as (r0 & -> & Hr).
       unfold passes. cbn [eval absent_or_positive]. rewrite !Hother, !col_extend by discriminate. reflexivity. }
  rewrite run_check.
  2: { rewrite Hno. intros r Hr. known Hf Hr "ck_notifications_ck_notifications_type" Hty.
       eapply check_notification_types; [|exact Hty]. reflexivity. }
  rewrite run_check; [done|]. rewrite Hno. intros r Hr.
  known Hf Hr "ck_notifications_ck_notifications_price_triggered_intent" Hi.
  split_text Hf Hr "ck_notifications_ck_notifications_type" "type". unfold triggers_name_intent. decide_conditions r.
Qed.

Lemma upgrade_trailing now d :
  fits (schema_before 2) d ->
  run now (upgrade rev_trailing) (Database (schema_before 2) d) = Ok (Database (schema_before 3) (filled_rows now d)).
Proof.
  intros Hf. destruct mid_schema as (Hs & Hu & Ht).
  change (upgrade rev_trailing) with (head_of_trailing ++ [fill_statement] ++ tail_of_trailing).
  rewrite run_app, (run_rows now head_of_trailing _ schema_mid d (trailing_rows now d));
    [|reflexivity|exact Hs|by apply head_of_trailing_runs].
  cbn [rbind app]. cbn [run]. unfold step. cbn [db_schema db_data]. rewrite Hu. cbn [rbind data_step fill_statement].
  change (set_rows "trigger_events" _ (trailing_rows now d)) with (filled_rows now d).
  unfold checked. rewrite (proj2 (data_fits_spec _ _) (fits_filled now d Hf)). cbn [rbind].
  by apply run_rows; [reflexivity|exact Ht|apply tail_of_trailing_runs].
Qed.

(** ** The other revisions that look at rows

    202605280001 (TWAP), 202605290001 (accounts, with the user of the local
    mode), 202605290004 (owners become users) and 202606180002 (notifications of
    two tracks). *)

(** *** The schemas around the accounts *)

Definition has_table (s : schema) (t : string) : bool := is_some (tables s !! t).

Lemma has_table_Some s t : is_Some (tables s !! t) <-> has_table s t = true.
Proof. unfold has_table, is_some. destruct (tables s !! t); split; [by eauto|by eauto|by intros []|done]. Qed.

(** The tables whose rows have an owner. *)
Definition OWNED : list string := ["notifications"; "trade_intents"; "trigger_records"; "trigger_events"; "twap_slices"].

Definition users_table : table :=
  Eval vm_compute in default (Table ∅ ∅) (tables (schema_before 8) !! "users").

Definition identity_facts (k : nat) (s s' : schema) : bool :=
  match k with
  | 7%nat =>
      bool_decide (tables s' !! "users" = Some users_table) &&
      (negb (has_table s "users") && forallb (fun t => Bool.eqb (has_table s t) (has_table s' t)) OWNED)
  | 10%nat => forallb (fun t => str_in t OWNED && has_table s t) owned_tables && has_table s "users"
  | _ => true
  end.

Lemma identity_pass : along identity_facts (fun _ => true) 0 history empty_schema = true.
Proof. vm_compute. reflexivity. Qed.

Lemma identity_schemas :
  tables (schema_before 8) !! "users" = Some users_table /\
  (has_table (schema_before 7) "users" = false /\
   forall t, t ∈ OWNED -> has_table (schema_before 7) t = has_table (schema_before 8) t) /\
  forallb (fun t => str_in t OWNED && has_table (schema_before 10) t) owned_tables = true /\
  has_table (schema_before 10) "users" = true.
Proof.
  pose proof (proj1 (pass _ _ identity_pass) 7%nat ltac:(lia)) as H.
  pose proof (proj1 (pass _ _ identity_pass) 10%nat ltac:(lia)) as H10. unfold identity_facts in H, H10.
  apply andb_true_iff in H as [Hu H], H10 as [Ht H10]. apply andb_true_iff in H as [Hn Heq].
  apply bool_decide_eq_true in Hu. apply negb_true_iff in Hn. rewrite forallb_forall in Heq.
  refine (conj Hu (conj (conj Hn _) (conj Ht H10))).
  intros t Hin. apply Bool.eqb_prop, Heq. by apply list_elem_of_In.
Qed.

(** *** 202605280001 *)

Definition intent_columns_2 : list (string * column) :=
  [optional "position_side" TText; optional "twap_interval_seconds" TInteger; optional "twap_end_time" TTime;
   optional "twap_start_at" TTimestamptz; optional "twap_end_at" TTimestamptz;
   optional "twap_available_slice_count" TInteger; optional "twap_materialized_slice_count" TInteger].

Definition twap_rows (now : Z) (d : data) : data :=
  <["twap_slices" := []]> (set_rows "trade_intents" (map (extend now intent_columns_2)) d).

Lemma extend_twap_col now r c :
  str_in c (map fst intent_columns_2) = false -> col (extend now intent_columns_2 r) c = col r c.
Proof.
  intros H. rewrite col_extend. cbn [added intent_columns_2 fst optional]. cbn in H.
  repeat match goal with |- context [String.eqb ?x c] =>
    rewrite (String.eqb_sym x c); destruct (String.eqb c x); [discriminate H|cbn in H] end.
  done.
Qed.

Lemma duplicates_unchanged now d :
  fits (schema_before 3) d ->
  index_holds (set_rows "trade_intents" (map (extend now intent_columns_2)) d)
    (null_safe_unique_index "trade_intents"
       ["owner_user_id"; "symbol"; "strategy"; "target_price_effective"; "trail_mode"; "trail_value"; "quantity_lots";
        "trading_date"] live) = true.
Proof.
  intros Hf. eapply (index_unchanged (schema_before 3) d "trade_intents" _ "uq_trade_intents_active_duplicate");
    [exact Hf|by apply stage_index; [lia|reflexivity]|].
  intros _ r c Hc. apply extend_twap_col. cbn in Hc.
  repeat (apply elem_of_cons in Hc as [->|Hc]; [reflexivity|]). by apply elem_of_nil in Hc.
Qed.

Ltac strategies_before_twap Hf Hr := split_text Hf Hr "ck_trade_intents_strategy" "strategy".

Lemma runs_twap now d :
  fits (schema_before 3) d -> rows_run now (upgrade rev_twap) d = Ok (twap_rows now d).
Proof.
  intros Hf. change (upgrade rev_twap) with
    (take 5 (upgrade rev_twap) ++ add_columns "trade_intents" intent_columns_2 ++ drop 12 (upgrade rev_twap)).
  rewrite run_leaving by reflexivity. rewrite run_add_columns by done.
  cbn [drop upgrade rev_twap app add_columns map]. unfold add_check, create_table.
  rewrite run_check by (open_row Hr r; strategies_before_twap Hf Hr; decide_conditions r).
  rewrite run_check.
  2: { open_row Hr r. known Hf Hr "ck_trade_intents_target_price_presence" Hp.
       strategies_before_twap Hf Hr; decide_conditions r. }
  rewrite run_check by (open_row Hr r; strategies_before_twap Hf Hr; decide_conditions r).
  rewrite run_check by (open_row Hr r; reflexivity).
  rewrite run_check by (open_row Hr r; reflexivity).
  rewrite run_check by (open_row Hr r; reflexivity).
  unfold active_duplicate. rewrite run_index by (by apply duplicates_unchanged).
  rewrite run_index.
  2: { unfold index_holds. cbn [ix_unique unique_index ix_table]. at_rows. apply unique_rows_none.
       open_row Hr r. unfold index_selects. cbn [ix_where unique_index]. unfold holds, live. cbn [eval].
       rewrite !extend_twap_col by reflexivity.
       strategies_before_twap Hf Hr; match goal with E : col r _ = _ |- _ => rewrite E end; reflexivity. }
  do 4 next.
  rewrite run_check.
  2: { at_rows. intros r Hr. known Hf Hr "ck_notifications_type" Hty.
       eapply check_notification_types; [|exact Hty]. reflexivity. }
  rewrite run_check; [done|]. at_rows. intros r Hr.
  known Hf Hr "ck_notifications_type" Hty. text_of_column Hf Hr "type" Hc.
  known Hf Hr "ck_notifications_triggered_notification_intent" Hi.
  by eapply check_triggers_name_intent; [eapply type_in|].
Qed.

(** *** 202605290004 *)

(** Whoever owns a row is a user; before there are users, the user of the local
    mode, who is about to become one. *)
Definition owner_known (local_user_id : option Z) (s : schema) (d : data) (owner : value) : Prop :=
  if is_some (tables s !! "users") then owner ∈ column_values d "users" "id"
  else Uuid <$> local_user_id = Some owner.

Definition owners_known (local_user_id : option Z) (s : schema) (d : data) : Prop :=
  forall t owner, t ∈ OWNED -> is_Some (tables s !! t) -> owner ∈ column_values d t "owner_user_id" ->
    owner_known local_user_id s d owner.

Lemma owner_fk_holds d t :
  (forall owner, owner ∈ column_values d t "owner_user_id" -> owner ∈ column_values d "users" "id") ->
  constraint_holds d t (ForeignKey ["owner_user_id"] "users" ["id"]) = true.
Proof.
  intros H. cbn. apply forallb_forall. intros r Hr. apply orb_true_iff. right.
  apply existsb_exists.
  specialize (H (col r "owner_user_id")). unfold column_values in H. rewrite !list_elem_of_fmap in H.
  destruct H as (r' & E & Hr'); [exists r; split; [done|by apply list_elem_of_In]|].
  exists r'. split; [by apply list_elem_of_In|]. unfold key_eqb. apply bool_decide_eq_true. unfold key. cbn. by rewrite E.
Qed.

Lemma runs_owner_fk now luser d :
  owners_known luser (schema_before 10) d -> rows_run now (upgrade rev_owner_fk) d = Ok d.
Proof.
  intros Ho. assert (Hall : forall t, t ∈ owned_tables ->
    constraint_holds d t (ForeignKey ["owner_user_id"] "users" ["id"]) = true).
  { intros t Ht. apply owner_fk_holds. intros owner Hin.
    destruct identity_schemas as (_ & _ & Htabs & Husers). rewrite forallb_forall in Htabs.
    specialize (Htabs t ltac:(by apply list_elem_of_In)). apply andb_true_iff in Htabs as [Hto%str_in_spec Hs].
    specialize (Ho t owner Hto (proj2 (has_table_Some _ _) Hs) Hin). unfold owner_known in Ho.
    fold (has_table (schema_before 10) "users") in Ho. by rewrite Husers in Ho. }
  cbn [upgrade rev_owner_fk owned_tables map]. unfold create_foreign_key.
  rewrite !run_constraint; [done|apply Hall, str_in_spec; reflexivity..].
Qed.

(** *** 202606180002 *)

Definition two_track_rows (now : Z) (d : data) : data :=
  set_rows "notifications" (map (extend now [optional "trade_intent_core_id" TUuid]))
    (<["trade_intent_triggers" := []]> d).

Lemma runs_core_triggers now d :
  fits (schema_before 14) d -> rows_run now (upgrade rev_core_triggers) d = Ok (two_track_rows now d).
Proof.
  intros Hf. cbn [upgrade rev_core_triggers]. unfold create_table, create_foreign_key. next.
  match goal with |- rows_run now (AddColumn _ _ _ :: ?os) ?d0 = _ =>
    change (rows_run now (AddColumn "notifications" "trade_intent_core_id" (Column TUuid true None) :: os) d0)
      with (rows_run now (add_columns "notifications" [optional "trade_intent_core_id" TUuid] ++ os) d0) end.
  rewrite run_add_columns by done.
  rewrite run_constraint.
  2: { cbn [constraint_holds]. apply forallb_forall. intros r Hr. apply list_elem_of_In in Hr. revert r Hr.
       open_row Hr r. cbn [key map]. by rewrite col_extend. }
  do 2 next. unfold create_check_constraint, add_check. rewrite run_check; [done|]. open_row Hr r.
  unfold triggers_of_one_track. cbn [eval]. unfold count_nonnulls. cbn [List.filter].
  rewrite !col_extend. cbn [added fst optional default_value server_default]. compare_names. cbn [is_null negb].
  known Hf Hr "ck_notifications_type" Hty. text_of_column Hf Hr "type" Hc.
  known Hf Hr "ck_notifications_triggered_notification_intent" Hi.
  apply type_in in Hty as (x & E & Hx); [|done]. clear Hc. revert Hi.
  unfold passes. cbn [eval]. rewrite E. cbn [option_map text_of].
  change notification_types_3 with ["price_triggered"; "limit_order_triggered"; "trailing_stop_triggered";
    "market_order_triggered"; "twap_slice"; "twap_price_followup"]. rewrite Hx.
  by destruct (is_null (col r "trade_intent_id")).
Qed.

(** *** 202605290001 *)

Definition identity_statements : list ddl := upgrade (rev_identity None).

Lemma runs_identity now d : exists d', rows_run now identity_statements d = Ok d' /\
  rows d' "users" = [] /\
  forall t, t ∈ OWNED -> rows d' t = rows d t.
Proof.
  cbn [upgrade rev_identity identity_statements app seed_local_user]. unfold create_table. repeat next.
  eexists. split; [reflexivity|]. split; [by at_rows|].
  intros t Ht. repeat (apply elem_of_cons in Ht as [->|Ht]; [by at_rows|]). exfalso. by apply elem_of_nil in Ht.
Qed.

Definition local_admin (i : Z) (email : string) : row :=
  {[ "id" := Uuid i; "email" := Citext email; "role" := Text "admin"; "status" := Text "active" ]}.

Lemma users_table_ok now i email :
  tables (schema_before 8) !! "users" = Some users_table /\
  row_fits (columns users_table) (with_defaults now (columns users_table) (local_admin i email)) = true /\
  forall n k, constraints users_table !! n = Some k ->
    match k with
    | CheckThat p => passes p (with_defaults now (columns users_table) (local_admin i email)) = true
    | ForeignKey _ _ _ => False
    | _ => True
    end.
Proof.
  split; [exact (proj1 identity_schemas)|]. split.
  - apply row_fits_spec. split; [apply dom_with_defaults|]. intros c k Hc. rewrite col_with_defaults, Hc.
    assert (Hall : all_of (columns users_table) (fun c k =>
      value_fits k (default (default_value now k) (local_admin i email !! c))) = true) by (vm_compute; reflexivity).
    rewrite all_of_spec in Hall. by apply Hall.
  - assert (Hall : all_of (constraints users_table) (fun _ k => bool_decide (k ∈
      [CheckThat ("role" IN ["user"; "admin"]); CheckThat ("status" IN ["invited"; "active"; "disabled"]);
       PrimaryKey ["id"]; Unique ["email"]])) = true) by (vm_compute; reflexivity).
    rewrite all_of_spec in Hall.
    assert (Hrole : passes ("role" IN ["user"; "admin"])
      (with_defaults now (columns users_table) (local_admin i email)) = true)
      by (unfold passes; cbn [eval]; rewrite col_with_defaults; vm_compute; reflexivity).
    assert (Hstatus : passes ("status" IN ["invited"; "active"; "disabled"])
      (with_defaults now (columns users_table) (local_admin i email)) = true)
      by (unfold passes; cbn [eval]; rewrite col_with_defaults; vm_compute; reflexivity).
    intros n k Hk. specialize (Hall _ _ Hk). apply bool_decide_eq_true in Hall. clear Hk.
    repeat (apply elem_of_cons in Hall as [->|Hall]; [first [exact Hrole | exact Hstatus | exact I]|]).
    exfalso. by apply elem_of_nil in Hall.
Qed.

Definition seeded_rows (now : Z) (local_user_id : option Z) (d : data) : data :=
  match local_user_id with
  | None => d
  | Some i => set_rows "users" (fun rs => rs ++ [with_defaults now (columns users_table)
                (local_admin i ("local-" ++ str_uuid i ++ "@local.invalid"))]) d
  end.

Lemma seed_schema r : schema_step (InsertUnlessExists "users" "id" r) (schema_before 8) = Ok (schema_before 8).
Proof.
  cbn [schema_step]. unfold get_table. rewrite (proj1 (users_table_ok 0 0 "")). cbn [require rbind].
  rewrite ensure_true; [done|]. vm_compute. reflexivity.
Qed.

Lemma upgrade_identity now luser d :
  fits (schema_before 7) d -> exists d', rows d' "users" = [] /\ (forall t, t ∈ OWNED -> rows d' t = rows d t) /\
  run now (upgrade (rev_identity luser)) (Database (schema_before 7) d)
    = Ok (Database (schema_before 8) (seeded_rows now luser d')).
Proof.
  intros Hf. destruct (runs_identity now d) as (d' & Hrun & Hu & Ht). exists d'. split_and!; [done..|].
  assert (Hrest : run now identity_statements (Database (schema_before 7) d) = Ok (Database (schema_before 8) d'))
    by (apply run_rows; [reflexivity|exact (revision_schema 7 ltac:(lia))|exact Hrun]).
  pose proof (run_fits now identity_statements (Database (schema_before 7) d) _
    (stage_well_formed 7 ltac:(lia)) Hf Hrest) as Hf'. cbn in Hf'.
  assert (upgrade (rev_identity luser) = identity_statements ++ seed_local_user luser) as -> by (by destruct luser).
  rewrite run_app, Hrest. cbn [rbind]. destruct luser as [i|]; [|done].
  cbn [seed_local_user run seeded_rows]. unfold step. cbn [db_schema db_data]. rewrite seed_schema. cbn [rbind data_step].
  rewrite Hu. cbn [existsb].
  destruct (users_table_ok now i ("local-" ++ str_uuid i ++ "@local.invalid")) as (Htb & Hr & Hk). rewrite Htb.
  unfold checked. rewrite (proj2 (data_fits_spec _ _)); [done|]. by eapply fits_first_row.
Qed.
