(* ===== verification/UpgradeSpec.v ===== *)
(** * Upgrading a database that is in use

    From whatever revision a database stands at, the upgrade succeeds, keeps
    what is in the rows, and arrives at the schema of the models. *)

From S2P Require Import Prelude Json Ddl DdlFacts Naming Revisions Models MigrationFacts History UpgradeSteps.
From Stdlib Require QArith Qcanon.
#[local] Open Scope Z_scope.

(** ** The schema of the models *)

(** 202605120001 and 202605280001 gave checks names the convention was applied
    to once more. *)
Definition undouble (t n : string) : string :=
  let doubled := join_names ["ck"; t; "ck"; t; ""] in
  if String.prefix doubled n
  then join_names ["ck"; t; String.substring (String.length doubled) (String.length n) n]
  else n.

Definition undoubled (t : string) (tb : table) : table :=
  Table (columns tb) (list_to_map (map (fun nk => (undouble t (fst nk), snd nk)) (map_to_list (constraints tb)))).

(** The schema has the tables, columns, constraints and indexes the models
    declare, and no others. *)
Definition implements_models (s : schema) : Prop :=
  map_imap (fun t tb => Some (undoubled t tb)) (tables s) = metadata_tables metadata /\
  indexes s = metadata_indexes metadata.

(** ** What the rows keep along the way *)

(** The name a table has today, and the columns a revision drops. *)
Definition now_named (t : string) : string := if String.eqb t "trigger_records" then "trigger_events" else t.

Definition lost (t c : string) : bool :=
  String.eqb t "users" && str_in c ["terms_version_accepted"; "terms_accepted_at"].

Section Tracking.
Context (k : nat) (s s' : schema).

(** The statements of revision [k] bring the owners in [t] from a table that
    had them. *)
Definition owners_from (t : string) : option string :=
  find (fun t0 => has_table s t0 && is_some (column_of s t0 "owner_user_id") &&
                  bool_decide (track (upgrade (revision_at k)) t0 "owner_user_id" = Some t)) OWNED.

Definition owners_tracked (fresh : list string) : bool :=
  forallb (fun t => negb (has_table s' t) || str_in t fresh || is_some (owners_from t)) OWNED.

Definition users_tracked : bool :=
  if has_table s "users"
  then has_table s' "users" && is_some (column_of s "users" "id") &&
       bool_decide (track (upgrade (revision_at k)) "users" "id" = Some "users")
  else negb (has_table s' "users").

Definition keeps_columns : bool :=
  all_of (tables s) (fun t tb => all_of (columns tb) (fun c _ =>
    lost t c || bool_decide (track (upgrade (revision_at k)) t c = Some (now_named t)))).
End Tracking.

(** The tables with owners a revision creates. *)
Definition fresh_owned (k : nat) : list string :=
  match k with 0%nat => ["notifications"; "trade_intents"; "trigger_records"] | 3%nat => ["twap_slices"] | _ => [] end.

(** The accounts come with revision 7, and with revision 10 the schema itself
    sees to the owners. *)
Definition tracking_facts (k : nat) (s s' : schema) : bool :=
  (Nat.eqb k 7 || Nat.ltb 9 k || (owners_tracked k s s' (fresh_owned k) && users_tracked k s s')) && keeps_columns k s.

Definition head_facts (s : schema) : bool :=
  negb (has_table s "trigger_records") &&
  (bool_decide (map_imap (fun t tb => Some (undoubled t tb)) (tables s) = metadata_tables metadata) &&
   bool_decide (indexes s = metadata_indexes metadata)).

Lemma tracking_pass : along tracking_facts head_facts 0 history empty_schema = true.
Proof. vm_compute. reflexivity. Qed.

Lemma tracking_at k : (k < 18)%nat -> tracking_facts k (schema_before k) (schema_before (S k)) = true.
Proof. exact (proj1 (pass _ _ tracking_pass) k). Qed.

Lemma tracking k :
  (k <= 9)%nat -> k <> 7%nat ->
  owners_tracked k (schema_before k) (schema_before (S k)) (fresh_owned k) = true /\
  users_tracked k (schema_before k) (schema_before (S k)) = true.
Proof.
  intros Hk Hne. pose proof (tracking_at k ltac:(lia)) as H. unfold tracking_facts in H.
  apply andb_true_iff in H as [H _]. rewrite (proj2 (Nat.eqb_neq k 7) Hne), (proj2 (Nat.ltb_ge 9 k) Hk) in H.
  by apply andb_true_iff in H.
Qed.

Lemma head_schema :
  implements_models (schema_before 18) /\ has_table (schema_before 18) "trigger_records" = false.
Proof.
  pose proof (proj2 (pass _ _ tracking_pass)) as H. unfold head_facts in H.
  apply andb_true_iff in H as [Hn H]. apply andb_true_iff in H as [Ht Hi].
  apply bool_decide_eq_true in Ht, Hi. apply negb_true_iff in Hn. exact (conj (conj Ht Hi) Hn).
Qed.

Section Owners.
Context (now : Z) (luser : option Z) (k : nat) (d d' : data).
Hypothesis Hrun :
  run now (upgrade (revision_at k)) (Database (schema_before k) d) = Ok (Database (schema_before (S k)) d').

Lemma owner_still_known owner :
  users_tracked k (schema_before k) (schema_before (S k)) = true -> owner_known luser (schema_before k) d owner -> owner_known luser (schema_before (S k)) d' owner.
Proof.
  unfold users_tracked, owner_known. fold (has_table (schema_before k) "users") (has_table (schema_before (S k)) "users").
  destruct (has_table (schema_before k) "users").
  - rewrite !andb_true_iff. intros [[-> Hc] Htr]. apply bool_decide_eq_true in Htr.
    destruct (run_values now _ _ _ "users" "id" "users" Hrun) as [Hv _]; cbn [db_schema db_data] in *.
    + destruct (column_of (schema_before k) "users" "id"); [by eexists|discriminate Hc].
    + exact Htr.
    + by rewrite Hv.
  - intros ->%negb_true_iff. done.
Qed.

Lemma owners_still_known fresh :
  owners_tracked k (schema_before k) (schema_before (S k)) fresh = true ->
  users_tracked k (schema_before k) (schema_before (S k)) = true -> (forall t, t ∈ fresh -> rows d' t = []) ->
  owners_known luser (schema_before k) d -> owners_known luser (schema_before (S k)) d'.
Proof.
  intros Ht Hu Hfresh Ho t owner Hin Htab Howner.
  unfold owners_tracked in Ht. rewrite forallb_forall in Ht. specialize (Ht t ltac:(by apply list_elem_of_In)).
  apply has_table_Some in Htab. rewrite Htab in Ht. cbn [negb orb] in Ht. apply orb_true_iff in Ht as [Ht|Ht].
  - apply str_in_spec in Ht. unfold column_values in Howner. rewrite (Hfresh t Ht) in Howner. cbn in Howner.
    exfalso. by apply elem_of_nil in Howner.
  - unfold owners_from in Ht. destruct (find _ OWNED) as [t0|] eqn:E; [|discriminate Ht].
    apply find_some in E as [Hin0 E]. rewrite !andb_true_iff in E. destruct E as [[Htab0 Hc] Htr].
    apply bool_decide_eq_true in Htr.
    destruct (run_values now _ _ _ t0 "owner_user_id" t Hrun) as [Hv _]; cbn [db_schema db_data] in *.
    + destruct (column_of (schema_before k) t0 "owner_user_id"); [by eexists|discriminate Hc].
    + exact Htr.
    + rewrite Hv in Howner. apply owner_still_known; [exact Hu|].
      apply (Ho t0); [by apply list_elem_of_In|by apply has_table_Some|exact Howner].
Qed.
End Owners.

(** ** One revision *)

Definition succeeds (now : Z) (luser : option Z) (k : nat) (d : data) : Prop :=
  exists d', run now (upgrade (nth k (revisions luser) rev_v0_5)) (Database (schema_before k) d)
               = Ok (Database (schema_before (S k)) d') /\
    ((S k <= 10)%nat -> owners_known luser (schema_before (S k)) d').

(** The owners stay known in a revision that neither creates tables with owners
    nor users. *)
Lemma tracked_succeeds now luser k d d' :
  (k <= 9)%nat -> k <> 7%nat -> fresh_owned k = [] -> nth k (revisions luser) rev_v0_5 = revision_at k ->
  owners_known luser (schema_before k) d ->
  run now (upgrade (revision_at k)) (Database (schema_before k) d) = Ok (Database (schema_before (S k)) d') ->
  succeeds now luser k d.
Proof.
  intros Hk Hne Hnew Hr Ho Hrun. exists d'. rewrite Hr. split; [exact Hrun|]. intros _.
  destruct (tracking k Hk Hne) as [Htr Hut]. rewrite Hnew in Htr.
  apply (owners_still_known now luser k d d' Hrun []); [exact Htr|exact Hut| |exact Ho].
  intros t Ht; exfalso; by apply elem_of_nil in Ht.
Qed.

Lemma last_succeeds now luser k d d' :
  (10 < S k)%nat -> (k < 18)%nat -> nth k (revisions luser) rev_v0_5 = revision_at k ->
  forallb (fun o => negb (looks_at_schema o)) (upgrade (revision_at k)) = true ->
  rows_run now (upgrade (revision_at k)) d = Ok d' -> succeeds now luser k d.
Proof.
  intros Hlate Hk Hr Hl Hrun. exists d'. rewrite Hr. split; [by apply revision_runs|]. lia.
Qed.

Lemma first_succeeds now luser d : succeeds now luser 0 d.
Proof.
  destruct (runs_v0_5 now d) as (d' & Hrun & Hempty). exists d'.
  assert (Hr : run now (upgrade (revision_at 0)) (Database (schema_before 0) d) = Ok (Database (schema_before 1) d'))
    by (by apply revision_runs; [lia|reflexivity|]).
  split; [exact Hr|]. intros _. destruct (tracking 0 ltac:(lia) ltac:(lia)) as [H0 Hut].
  apply (owners_still_known now luser 0 d d' Hr _ H0); [exact Hut|exact Hempty|].
  intros t owner _ [tb Htb]. exfalso. Transparent schema_before. change (schema_before 0) with empty_schema in Htb.
  Opaque schema_before. discriminate Htb.
Qed.

Lemma twap_succeeds now luser d :
  fits (schema_before 3) d -> owners_known luser (schema_before 3) d -> succeeds now luser 3 d.
Proof.
  intros Hf Ho. exists (twap_rows now d).
  assert (Hr : run now (upgrade (revision_at 3)) (Database (schema_before 3) d) = Ok (Database (schema_before 4) (twap_rows now d)))
    by (by apply revision_runs; [lia|reflexivity|apply runs_twap]).
  split; [exact Hr|]. intros _. destruct (tracking 3 ltac:(lia) ltac:(lia)) as [H3 Hut].
  apply (owners_still_known now luser 3 d _ Hr _ H3); [exact Hut| |exact Ho].
  intros t ->%list_elem_of_singleton. unfold twap_rows. by at_rows.
Qed.

Lemma identity_succeeds now luser d :
  fits (schema_before 7) d -> owners_known luser (schema_before 7) d -> succeeds now luser 7 d.
Proof.
  intros Hf Ho. destruct (upgrade_identity now luser d Hf) as (d' & Hu & Ht & Hrun).
  exists (seeded_rows now luser d'). split; [exact Hrun|]. intros _ t owner Hin Htab Howner.
  destruct identity_schemas as (Hut8 & (H7 & Heq) & _). specialize (Heq t Hin).
  apply has_table_Some in Htab. rewrite <-Heq in Htab.
  assert (Hv : column_values (seeded_rows now luser d') t "owner_user_id" = column_values d t "owner_user_id").
  { unfold column_values. rewrite <-(Ht t Hin). destruct luser as [i|]; [|done]. cbn [seeded_rows]. rewrite rows_set_rows.
    case_decide; [|done]. subst t. exfalso. rewrite H7 in Htab. discriminate Htab. }
  rewrite Hv in Howner. specialize (Ho t owner Hin (proj2 (has_table_Some _ _) Htab) Howner).
  unfold owner_known in *. fold (has_table (schema_before 7) "users") in Ho. rewrite H7 in Ho. rewrite Hut8. cbn [is_some].
  destruct luser as [i|]; [|discriminate Ho]. cbn in Ho. injection Ho as <-.
  unfold column_values. cbn [seeded_rows]. rewrite rows_set_rows, decide_True, Hu by done. cbn [app map].
  apply list_elem_of_singleton. rewrite col_with_defaults.
  change (columns users_table !! "id") with (column_of (Schema {["users" := users_table]} ∅ ∅) "users" "id").
  replace (column_of (Schema {["users" := users_table]} ∅ ∅) "users" "id") with (Some (Column TUuid false None))
    by (vm_compute; reflexivity).
  reflexivity.
Qed.

Lemma revision_succeeds now luser k d :
  (k < 18)%nat -> fits (schema_before k) d -> ((k <= 10)%nat -> owners_known luser (schema_before k) d) ->
  succeeds now luser k d.
Proof.
  intros Hk Hf Ho.
  destruct k as [|k]; [apply first_succeeds|specialize (fun H => Ho H)].
  destruct k as [|k].
  { destruct (runs_trigger_events now d Hf) as [d' Hr].
    eapply tracked_succeeds; [lia|lia|reflexivity..|apply Ho; lia|by apply revision_runs; [lia|reflexivity|]]. }
  destruct k as [|k].
  { eapply tracked_succeeds; [lia|lia|reflexivity..|apply Ho; lia|by apply upgrade_trailing]. }
  destruct k as [|k]; [apply twap_succeeds; [exact Hf|apply Ho; lia]|].
  destruct k as [|k].
  { eapply tracked_succeeds; [lia|lia|reflexivity..|apply Ho; lia|by apply revision_runs; [lia|reflexivity|apply runs_expired]]. }
  destruct k as [|k].
  { eapply tracked_succeeds; [lia|lia|reflexivity..|apply Ho; lia|by apply revision_runs; [lia|reflexivity|apply runs_market]]. }
  destruct k as [|k].
  { eapply tracked_succeeds; [lia|lia|reflexivity..|apply Ho; lia|
      by apply revision_runs; [lia|reflexivity|apply runs_market_sides]]. }
  destruct k as [|k]; [apply identity_succeeds; [exact Hf|apply Ho; lia]|].
  destruct k as [|k].
  { eapply tracked_succeeds; [lia|lia|reflexivity..|apply Ho; lia|
      by apply revision_runs; [lia|reflexivity|apply runs_account_disabled]]. }
  destruct k as [|k].
  { destruct (runs_mfa_verified now d) as [d' Hr].
    eapply tracked_succeeds; [lia|lia|reflexivity..|apply Ho; lia|by apply revision_runs; [lia|reflexivity|]]. }
  destruct k as [|k].
  { eapply last_succeeds; [lia|lia|reflexivity..|]. apply (runs_owner_fk now luser). apply Ho; lia. }
  destruct k as [|k]; [destruct (runs_system_flags now d) as [d' Hr]; by eapply last_succeeds; [lia|lia|reflexivity..|]|].
  destruct k as [|k]; [destruct (runs_idempotency now d) as [d' Hr]; by eapply last_succeeds; [lia|lia|reflexivity..|]|].
  destruct k as [|k]; [destruct (runs_core now d) as [d' Hr]; by eapply last_succeeds; [lia|lia|reflexivity..|]|].
  destruct k as [|k]; [eapply last_succeeds; [lia|lia|reflexivity..|by apply runs_core_triggers]|].
  destruct k as [|k]; [destruct (runs_core_names now d) as [d' Hr]; by eapply last_succeeds; [lia|lia|reflexivity..|]|].
  destruct k as [|k]; [destruct (runs_terms now d) as [d' Hr]; by eapply last_succeeds; [lia|lia|reflexivity..|]|].
  destruct k as [|k]; [destruct (runs_telegram now d) as [d' Hr]; by eapply last_succeeds; [lia|lia|reflexivity..|]|].
  lia.
Qed.

(** ** What is kept *)

Lemma keeps_column k t c :
  (k < 18)%nat -> is_Some (column_of (schema_before k) t c) -> lost t c = false ->
  track (upgrade (revision_at k)) t c = Some (now_named t).
Proof.
  intros Hk [ck Hc] Hl. pose proof (tracking_at k Hk) as H. apply andb_true_iff in H as [_ H].
  unfold keeps_columns in H. rewrite all_of_spec in H.
  apply column_of_table in Hc as (tb & Ht & Hc). specialize (H _ _ Ht). rewrite all_of_spec in H.
  specialize (H _ _ Hc). rewrite Hl in H. cbn [orb] in H. by apply bool_decide_eq_true in H.
Qed.

Lemma track_app os1 os2 t c t' : track os1 t c = Some t' -> track (os1 ++ os2) t c = track os2 t' c.
Proof.
  revert t. induction os1 as [|o os1 IH]; intros t H; cbn in *; [by injection H as ->|].
  destruct (track_step o t c); [by apply IH|done].
Qed.

(** The user of the local mode changes nothing for the tables there are. *)
Lemma keeps_column_seeded luser k t c :
  (k < 18)%nat -> is_Some (column_of (schema_before k) t c) -> lost t c = false ->
  track (upgrade (nth k (revisions luser) rev_v0_5)) t c = Some (now_named t).
Proof.
  intros Hk Hc Hl. pose proof (keeps_column k t c Hk Hc Hl) as H.
  destruct (decide (k = 7%nat)) as [->|Hne].
  - change (upgrade (nth 7 (revisions luser) rev_v0_5)) with (upgrade (rev_identity luser)).
    change (upgrade (revision_at 7)) with identity_statements in H.
    assert (upgrade (rev_identity luser) = identity_statements ++ seed_local_user luser) as -> by (by destruct luser).
    rewrite (track_app _ _ _ _ _ H). destruct luser as [i|]; [|done]. cbn [seed_local_user track track_step].
    destruct (String.eqb_spec (now_named t) "users") as [E|]; [|done]. exfalso.
    assert (t = "users") as ->.
    { unfold now_named in E. destruct (String.eqb t "trigger_records"); [discriminate E|exact E]. }
    destruct identity_schemas as (_ & (H7 & _) & _). destruct Hc as [ck Hc]. apply column_of_table in Hc as (tb & Ht & _). unfold has_table in H7. by rewrite Ht in H7.
  - rewrite <-H. f_equal. f_equal.
    do 7 (destruct k as [|k]; [reflexivity|]). destruct k as [|k]; [done|].
    do 10 (destruct k as [|k]; [reflexivity|]). lia.
Qed.

(** ** Walking to the head *)

Lemma path_ids k luser : (k < 18)%nat -> rev_id (nth k (revisions luser) rev_v0_5) = rev_id (revision_at k).
Proof. intros Hk. do 18 (destruct k as [|k]; [reflexivity|]). lia. Qed.

Lemma drop_path k luser : (k < 18)%nat -> drop k (revisions luser) = nth k (revisions luser) rev_v0_5 :: drop (S k) (revisions luser).
Proof. intros Hk. do 18 (destruct k as [|k]; [reflexivity|]). lia. Qed.

Lemma path_from k luser : (k <= 18)%nat -> path_up 18 (revision_before k) (revisions luser) = drop k (revisions luser).
Proof. intros Hk. do 19 (destruct k as [|k]; [reflexivity|]). lia. Qed.

Definition values_kept (s : schema) (d d' : data) : Prop :=
  forall t c, is_Some (column_of s t c) -> lost t c = false -> column_values d' (now_named t) c = column_values d t c.

Lemma now_named_twice t : now_named (now_named t) = now_named t.
Proof. unfold now_named. destruct (String.eqb t "trigger_records") eqn:E; [reflexivity|]. by rewrite E. Qed.

Lemma lost_now_named t c : lost t c = false -> lost (now_named t) c = false.
Proof. unfold now_named. by destruct (String.eqb_spec t "trigger_records"). Qed.

Lemma upgrade_fits now luser k d d' :
  (k < 18)%nat -> fits (schema_before k) d ->
  run now (upgrade (nth k (revisions luser) rev_v0_5)) (Database (schema_before k) d) = Ok (Database (schema_before (S k)) d') ->
  fits (schema_before (S k)) d'.
Proof. intros Hk Hf Hrun. exact (run_fits now _ (Database (schema_before k) d) _ (stage_well_formed k ltac:(lia)) Hf Hrun). Qed.

Lemma walk_up now luser n k d :
  (k + n = 18)%nat -> fits (schema_before k) d -> ((k <= 10)%nat -> owners_known luser (schema_before k) d) ->
  exists d', upgrade_along now (Deployment (revision_before k) (Database (schema_before k) d)) (drop k (revisions luser))
      = Ok (Deployment (revision_before 18) (Database (schema_before 18) d')) /\
    fits (schema_before 18) d' /\ values_kept (schema_before k) d d'.
Proof.
  revert k d. induction n as [|n IH]; intros k d Hk Hf Ho.
  - assert (k = 18%nat) as -> by lia. exists d. split; [reflexivity|]. split; [exact Hf|].
    intros t c Hc _. unfold now_named. destruct (String.eqb_spec t "trigger_records") as [->|]; [|done]. exfalso.
    destruct Hc as [ck Hc]. apply column_of_table in Hc as (tb & Ht & _). pose proof (proj2 head_schema) as Hn.
    unfold has_table in Hn. by rewrite Ht in Hn.
  - destruct (revision_succeeds now luser k d ltac:(lia) Hf Ho) as (d1 & Hrun & Ho1).
    assert (Hf1 : fits (schema_before (S k)) d1).
    { apply (upgrade_fits now luser k d d1); [lia|exact Hf|exact Hrun]. }
    destruct (IH (S k) d1 ltac:(lia) Hf1 Ho1) as (d' & Hwalk & Hf' & Hkept).
    exists d'. split; [|split; [exact Hf'|]].
    + rewrite drop_path by lia. cbn [upgrade_along]. unfold upgrade_one. cbn [db]. rewrite Hrun. cbn [rbind].
      rewrite path_ids by lia. exact Hwalk.
    + intros t c Hc Hl. destruct (run_values now _ _ _ t c (now_named t) Hrun Hc) as [Hv Hc'];
        [by apply keeps_column_seeded; [lia|..]|].
      cbn [db_schema db_data] in *. rewrite <-Hv, <-(now_named_twice t).
      rewrite (Hkept (now_named t) c Hc' (lost_now_named _ _ Hl)). by rewrite now_named_twice.
Qed.

(** C16. Upgrading works on every database, wherever it stands and whatever is in
    it.  From the schema of any revision, or from nothing, with any rows that
    satisfy it: [alembic upgrade head] succeeds, the database then has exactly
    the tables, columns, constraints and indexes the models declare (twelve
    checks of the oldest tables keep a doubled name), the rows satisfy them, and
    every value of every column is where it was, but for the two columns on
    terms of use, which are dropped.  The one condition is that the owners of
    rows are users when rows must be owned by users: before there are any, all
    rows are owned by the user of the local mode. *)
Theorem upgrade_in_use now local_user_id k dep :
  stands k dep = true ->
  ((k <= 10)%nat -> owners_known local_user_id (schema_before k) (db_data (db dep))) ->
  exists dep', upgrade_head now local_user_id dep = (Ok tt, dep') /\
    at_revision dep' = Some "202608190001" /\
    implements_models (db_schema (db dep')) /\
    consistent (db dep') = true /\
    values_kept (db_schema (db dep)) (db_data (db dep)) (db_data (db dep')).
Proof.
  intros Hs Ho. apply stands_spec in Hs as (Hk & Hdep & Hf).
  destruct (walk_up now local_user_id (18 - k) k (db_data (db dep)) ltac:(lia) Hf Ho) as (d' & Hwalk & Hf' & Hkept).
  exists (Deployment (revision_before 18) (Database (schema_before 18) d')).
  destruct head_schema as [Hm _]. split_and!.
  - unfold upgrade_head. change (length (revisions local_user_id)) with 18%nat. rewrite Hdep at 1 2. cbn [at_revision].
    rewrite path_from by exact Hk. by rewrite Hwalk.
  - reflexivity.
  - exact Hm.
  - unfold consistent. cbn [db db_schema db_data]. rewrite andb_true_iff, data_fits_spec, well_formed_spec.
    split; [by apply stage_well_formed|exact Hf'].
  - rewrite Hdep. exact Hkept.
Qed.

(** A database of the time of the first alerts: one intent, fired, with its
    event and its notification. *)
Definition price (n : Z) : value := Num (Qcanon.Q2Qc (QArith_base.inject_Z n)).
Definition row_of (l : list (string * value)) : row := list_to_map l.

Definition alert_rows : data :=
  {[ "symbols" := [row_of [("id", Uuid 1); ("symbol", Text "2330"); ("display_name", Text "TSMC"); ("market", Text "TWSE");
                      ("instrument_type", Text "stock"); ("tradable_status", Text "tradable");
                      ("created_at", Instant 0); ("updated_at", Instant 0)]];
     "trade_intents" := [row_of [("id", Uuid 2); ("owner_user_id", Uuid 7); ("symbol", Text "2330");
                            ("strategy", Text "buy_price_alert"); ("execution_mode", Text "notify_only");
                            ("quantity_lots", Int 3); ("target_price_original", price 600);
                            ("target_price_effective", price 600);
                            ("trigger_reference_price_type", Text "ask"); ("trading_date", Day 0);
                            ("time_in_force", Text "day"); ("status", Text "triggered"); ("created_at", Instant 0);
                            ("updated_at", Instant 0); ("cancelled_at", Null); ("triggered_at", Instant 5)]];
     "trigger_events" := [row_of [("id", Uuid 3); ("trade_intent_id", Uuid 2); ("owner_user_id", Uuid 7);
                             ("symbol", Text "2330"); ("quote_snapshot", Jsonb "{}");
                             ("target_price_effective", price 600);
                             ("trigger_price", price 600);
                             ("trigger_reference_price_type", Text "ask"); ("fallback_used", Flag false);
                             ("triggered_at", Instant 5); ("created_at", Instant 5)]];
     "notifications" := [row_of [("id", Uuid 4); ("owner_user_id", Uuid 7); ("trade_intent_id", Uuid 2);
                            ("type", Text "price_triggered"); ("rendered_title", Text "title");
                            ("rendered_body", Text "body"); ("read_at", Null); ("created_at", Instant 5);
                            ("updated_at", Instant 5)]] ]}.

Definition alert_deployment : deployment := Deployment (Some "202605210001") (Database (schema_before 2) alert_rows).

Definition owners_are (owner : value) (d : data) : bool :=
  forallb (fun t => forallb (fun v => bool_decide (v = owner)) (column_values d t "owner_user_id")) OWNED.

Lemma owners_are_known i k d :
  has_table (schema_before k) "users" = false -> owners_are (Uuid i) d = true -> owners_known (Some i) (schema_before k) d.
Proof.
  intros Hu Hall t owner Ht _ Ho. unfold owners_are in Hall. rewrite forallb_forall in Hall.
  specialize (Hall t ltac:(by apply list_elem_of_In)). rewrite forallb_forall in Hall.
  specialize (Hall owner ltac:(by apply list_elem_of_In)). apply bool_decide_eq_true in Hall as ->.
  unfold owner_known. fold (has_table (schema_before k) "users"). by rewrite Hu.
Qed.

Lemma four_true (a b c e : bool) : forallb (fun b => b) [a; b; c; e] = true -> a = true /\ b = true /\ c = true /\ e = true.
Proof. by destruct a, b, c, e. Qed.

Lemma alert_facts :
  forallb (fun b => b)
    [stands 2 alert_deployment; owners_are (Uuid 7) alert_rows; negb (has_table (schema_before 2) "users"); true] = true.
Proof. Transparent schema_before. vm_compute. reflexivity. Qed.
#[local] Opaque schema_before.

Lemma upgrade_in_use_witness :
  stands 2 alert_deployment = true /\
  exists dep', upgrade_head 9 (Some 7) alert_deployment = (Ok tt, dep') /\
    at_revision dep' = Some "202608190001" /\
    implements_models (db_schema (db dep')) /\
    consistent (db dep') = true /\
    values_kept (db_schema (db alert_deployment)) (db_data (db alert_deployment)) (db_data (db dep')).
Proof.
  destruct (four_true _ _ _ _ alert_facts) as (Hs & Ho & Hu & _). split; [exact Hs|].
  apply (upgrade_in_use 9 (Some 7) 2 alert_deployment Hs). intros _.
  exact (owners_are_known 7 2 alert_rows (proj1 (negb_true_iff _) Hu) Ho).
Defined.
