(* ===== verification/DowngradeSpec.v ===== *)
(** * Taking a revision back

    The revisions that widened what a row may be refuse to be taken back while
    rows need it.  Otherwise they succeed: their guards are complete. *)

From S2P Require Import Prelude Json Ddl DdlFacts Naming Revisions Models MigrationFacts History UpgradeSteps UpgradeSpec.
#[local] Open Scope Z_scope.

(** The revisions with a guard, and the rows their guards look for. *)
Definition guarded : list nat := [2; 3; 4; 5; 6; 8]%nat.

Definition guards (os : list ddl) : list (string * cond * string) :=
  omap (fun o => match o with RefuseIf t p m => Some (t, p, m) | _ => None end) os.

Definition blocking (os : list ddl) (d : data) : list string :=
  map snd (List.filter (fun g => existsb (holds (snd (fst g))) (rows d (fst (fst g)))) (guards os)).

(** The schema a revision taken back leaves: but for the name of a check, the
    one before it. *)
Definition schema_back (k : nat) : schema :=
  match schema_run (downgrade (revision_at k)) (schema_before (S k)) with Ok s => s | Raise _ => empty_schema end.

Lemma run_refuse_passes now t p m os d :
  existsb (holds p) (rows d t) = false -> rows_run now (RefuseIf t p m :: os) d = rows_run now os d.
Proof. intros H. cbn. by rewrite H. Qed.

Lemma not_blocked d t p r : existsb (holds p) (rows d t) = false -> r ∈ rows d t -> holds p r = false.
Proof.
  intros H Hr. rewrite <-not_true_iff_false, existsb_exists in H. apply not_true_iff_false. intros Hh. apply H.
  exists r. split; [by apply list_elem_of_In|done].
Qed.

(** Decide with the guards that did not fire. *)
Ltac decide_unblocked r :=
  repeat match goal with H : holds _ r = false |- _ => unfold holds in H; cbn [eval] in H end;
  repeat match goal with
  | H : fits _ _ |- _ => clear H
  | H : r ∈ _ |- _ => clear H
  | H : existsb _ _ = _ |- _ => clear H
  end;
  repeat match goal with H : context [col r _] |- _ = true =>
    lazymatch type of H with _ = Text _ => fail | _ => revert H end end;
  decide_conditions r.

Lemma back_account_disabled now d :
  fits (schema_before 9) d -> blocking (downgrade rev_account_disabled) d = [] ->
  rows_run now (downgrade rev_account_disabled) d = Ok d.
Proof.
  intros Hf Hb. cbn [downgrade rev_account_disabled] in *. unfold blocking in Hb. cbn in Hb.
  destruct (existsb _ _) eqn:E; [discriminate Hb|]. clear Hb.
  rewrite run_refuse_passes by exact E. unfold replace_status_check, add_check. next.
  rewrite run_check; [done|]. intros r Hr. pose proof (not_blocked _ _ _ _ E Hr) as Hn.
  split_text Hf Hr "ck_trade_intents_status" "status"; decide_unblocked r.
Qed.

Lemma back_expired now d :
  fits (schema_before 5) d -> blocking (downgrade rev_expired) d = [] -> rows_run now (downgrade rev_expired) d = Ok d.
Proof.
  intros Hf Hb. cbn [downgrade rev_expired] in *. unfold blocking in Hb. cbn in Hb.
  destruct (existsb _ _) eqn:E; [discriminate Hb|]. clear Hb.
  rewrite run_refuse_passes by exact E. unfold replace_status_check, add_check. next.
  rewrite run_check; [done|]. intros r Hr. pose proof (not_blocked _ _ _ _ E Hr) as Hn.
  split_text Hf Hr "ck_trade_intents_status" "status"; decide_unblocked r.
Qed.

Lemma back_market_sides now d :
  fits (schema_before 7) d -> blocking (downgrade rev_market_sides) d = [] ->
  rows_run now (downgrade rev_market_sides) d = Ok d.
Proof.
  intros Hf Hb. cbn [downgrade rev_market_sides] in *. unfold blocking in Hb. cbn in Hb.
  destruct (existsb _ _) eqn:E; [discriminate Hb|]. clear Hb.
  rewrite run_refuse_passes by exact E. unfold replace_strategy_checks, add_check. next.
  rewrite run_check.
  2: { intros r Hr. pose proof (not_blocked _ _ _ _ E Hr) as Hn.
       split_text Hf Hr "ck_trade_intents_strategy" "strategy"; decide_unblocked r. }
  rewrite run_check; [done|]. intros r Hr. pose proof (not_blocked _ _ _ _ E Hr) as Hn.
  known Hf Hr "ck_trade_intents_target_price_presence" Hp.
  split_text Hf Hr "ck_trade_intents_strategy" "strategy"; decide_unblocked r.
Qed.

(** Two guards, on intents and on notifications. *)
Lemma two_guards d t1 p1 m1 t2 p2 m2 os :
  guards os = [] -> blocking (RefuseIf t1 p1 m1 :: RefuseIf t2 p2 m2 :: os) d = [] ->
  existsb (holds p1) (rows d t1) = false /\ existsb (holds p2) (rows d t2) = false.
Proof.
  intros Ho. unfold blocking. cbn [guards omap list_omap]. unfold guards in Ho. rewrite Ho. cbn.
  destruct (existsb (holds p1) _), (existsb (holds p2) _); done.
Qed.

Lemma back_market now d :
  fits (schema_before 6) d -> blocking (downgrade rev_market) d = [] -> rows_run now (downgrade rev_market) d = Ok d.
Proof.
  intros Hf Hb. cbn [downgrade rev_market app] in *.
  apply two_guards in Hb as [E1 E2]; [|reflexivity].
  rewrite run_refuse_passes by exact E1. rewrite run_refuse_passes by exact E2.
  unfold replace_strategy_checks, replace_type_checks, add_check. cbn [app]. next.
  rewrite run_check.
  2: { intros r Hr. pose proof (not_blocked _ _ _ _ E1 Hr) as Hn.
       split_text Hf Hr "ck_trade_intents_strategy" "strategy"; decide_unblocked r. }
  rewrite run_check.
  2: { intros r Hr. pose proof (not_blocked _ _ _ _ E1 Hr) as Hn.
       known Hf Hr "ck_trade_intents_target_price_presence" Hp.
       split_text Hf Hr "ck_trade_intents_strategy" "strategy"; decide_unblocked r. }
  next. rewrite run_check.
  2: { intros r Hr. pose proof (not_blocked _ _ _ _ E2 Hr) as Hn.
       split_text Hf Hr "ck_notifications_type" "type"; decide_unblocked r. }
  rewrite run_check; [done|]. intros r Hr. pose proof (not_blocked _ _ _ _ E2 Hr) as Hn.
  known Hf Hr "ck_notifications_triggered_notification_intent" Hi. unfold triggers_name_intent in *.
  split_text Hf Hr "ck_notifications_type" "type"; decide_unblocked r.
Qed.

(** ** 202605280001 taken back *)

Definition twap_columns_back : list string :=
  ["twap_materialized_slice_count"; "twap_available_slice_count"; "twap_end_at"; "twap_start_at"; "twap_end_time";
   "twap_interval_seconds"; "position_side"].

Ltac in_texts := apply str_in_spec; reflexivity.

(** Bring a goal about a row that lost columns back to the row it was. *)
Ltac open_narrow_row Hr r :=
  at_rows; let x := fresh "x" in intros x Hr; apply list_elem_of_fmap in Hr as (r & -> & Hr);
  unfold passes; cbn [eval target_price_presence_1 no_targets with_targets positive];
  rewrite !col_without by reflexivity; fold (passes : cond -> row -> bool).

Lemma duplicates_back now_rows d :
  fits (schema_before 4) d -> now_rows = set_rows "trade_intents" (map (without twap_columns_back)) d ->
  index_holds now_rows
    (null_safe_unique_index "trade_intents"
       ["owner_user_id"; "symbol"; "strategy"; "target_price_effective"; "trail_mode"; "trail_value"; "quantity_lots";
        "trading_date"] live) = true.
Proof.
  intros Hf ->. eapply (index_unchanged (schema_before 4) d "trade_intents" _ "uq_trade_intents_active_duplicate");
    [exact Hf|by apply stage_index; [lia|reflexivity]|].
  intros _ r c Hc. apply col_without. cbn in Hc.
  repeat (apply elem_of_cons in Hc as [->|Hc]; [reflexivity|]). exfalso. by apply elem_of_nil in Hc.
Qed.

Lemma index_holds_other t x d ix : ix_table ix <> t -> index_holds (<[t := x]> d) ix = index_holds d ix.
Proof. intros H. apply index_holds_rows. by rewrite rows_inserted, decide_False. Qed.
Lemma index_holds_dropped t d ix : ix_table ix <> t -> index_holds (delete t d) ix = index_holds d ix.
Proof. intros H. apply index_holds_rows. by rewrite rows_delete, decide_False. Qed.

Definition twap_back_rows (d : data) : data :=
  set_rows "trade_intents" (map (without twap_columns_back)) (delete "twap_slices" d).

Lemma back_twap now d :
  fits (schema_before 4) d -> blocking (downgrade rev_twap) d = [] ->
  rows_run now (downgrade rev_twap) d = Ok (twap_back_rows d).
Proof.
  intros Hf Hb.
  change (downgrade rev_twap) with (take 2 (downgrade rev_twap) ++ take 14 (drop 2 (downgrade rev_twap)) ++
    drop_columns "trade_intents" twap_columns_back ++ drop 23 (downgrade rev_twap)) in *.
  cbn [take downgrade rev_twap app drop drop_constraints drop_columns map] in Hb.
  apply two_guards in Hb as [E1 E2]; [|reflexivity].
  rewrite rows_run_app. cbn [take downgrade rev_twap app]. rewrite run_refuse_passes by exact E1.
  rewrite run_refuse_passes by exact E2. cbn [rows_run rbind].
  cbn [take drop downgrade rev_twap app drop_constraints map]. repeat next. rewrite take_0. cbn [app].
  rewrite run_drop_columns by done. cbn [drop downgrade rev_twap app drop_constraints drop_columns map].
  unfold add_check.
  rewrite run_check.
  2: { open_narrow_row Hr r. pose proof (not_blocked _ _ _ _ E1 Hr) as Hn.
       split_text Hf Hr "ck_trade_intents_strategy" "strategy"; decide_unblocked r. }
  rewrite run_check.
  2: { open_narrow_row Hr r. pose proof (not_blocked _ _ _ _ E1 Hr) as Hn.
       known Hf Hr "ck_trade_intents_target_price_presence" Hp.
       split_text Hf Hr "ck_trade_intents_strategy" "strategy"; decide_unblocked r. }
  unfold active_duplicate. rewrite run_index.
  2: { transitivity (index_holds (set_rows "trade_intents" (map (without twap_columns_back)) d)
         (null_safe_unique_index "trade_intents"
            ["owner_user_id"; "symbol"; "strategy"; "target_price_effective"; "trail_mode"; "trail_value";
             "quantity_lots"; "trading_date"] live)).
       - apply index_holds_rows. cbn [ix_table null_safe_unique_index]. by at_rows.
       - by eapply duplicates_back. }
  rewrite run_check.
  2: { at_rows. intros r Hr. pose proof (not_blocked _ _ _ _ E2 Hr) as Hn.
       split_text Hf Hr "ck_notifications_type" "type"; decide_unblocked r. }
  rewrite run_check; [done|]. at_rows. intros r Hr. pose proof (not_blocked _ _ _ _ E2 Hr) as Hn.
  known Hf Hr "ck_notifications_triggered_notification_intent" Hi. unfold triggers_name_intent in *.
  split_text Hf Hr "ck_notifications_type" "type"; decide_unblocked r.
Qed.

(** ** 202605260001 taken back *)

Definition event_columns_back : list string :=
  ["dynamic_trigger_price_at_trigger"; "baseline_at_trigger"; "filled_quantity_lots"].
Definition intent_columns_back : list string :=
  ["baseline_updated_at"; "dynamic_trigger_price"; "baseline"; "trail_value"; "trail_mode"; "last_fill_at";
   "filled_quantity_lots"; "notification_mode"; "transaction_mode"].

Definition trailing_back_rows (d : data) : data :=
  set_rows "trade_intents" (map (without intent_columns_back))
    (set_rows "trigger_events" (map (without event_columns_back)) d).

(** A price alert has its target price.  The program sees to it; the check
    [target_price_presence] does not (see [null_target_accepted]). *)
Definition targets_present (d : data) : Prop :=
  forall r, r ∈ rows d "trade_intents" -> holds ("strategy" IN ["buy_price_alert"; "sell_price_alert"]) r = true ->
    col r "target_price_original" <> Null /\ col r "target_price_effective" <> Null.

Section TrailingBack.
Context (d : data).
Hypothesis (Hf : fits (schema_before 3) d) (Htargets : targets_present d).
Hypothesis Hguard :
  existsb (holds ("strategy" NOT_IN ["buy_price_alert"; "sell_price_alert"])) (rows d "trade_intents") = false.

Lemma price_alerts_only r :
  r ∈ rows d "trade_intents" -> holds ("strategy" IN ["buy_price_alert"; "sell_price_alert"]) r = true.
Proof using Hf Hguard.
  intros Hr. pose proof (not_blocked _ _ _ _ Hguard Hr) as Hn. text_of_column Hf Hr "strategy" Hc.
  destruct Hc as [s E]. unfold holds in *. cbn [eval] in *. rewrite E in *. cbn [option_map text_of] in *.
  by destruct (str_in s ["buy_price_alert"; "sell_price_alert"]).
Qed.

Lemma no_trail r : r ∈ rows d "trade_intents" -> col r "trail_mode" = Null /\ col r "trail_value" = Null.
Proof using Hf Hguard.
  intros Hr. pose proof (price_alerts_only r Hr) as Hs.
  known Hf Hr "ck_trade_intents_trailing_fields_presence" Hp. text_of_column Hf Hr "strategy" Hc.
  destruct Hc as [s E]. unfold passes, holds in *. cbn [eval] in *. rewrite E in *. cbn [option_map text_of] in *.
  assert (String.eqb s "trailing_stop_alert" = false) as Hne.
  { destruct (str_in s _) eqn:Hin in Hs; [|discriminate Hs]. apply str_in_spec in Hin.
    repeat (apply elem_of_cons in Hin as [->|Hin]; [reflexivity|]). exfalso. by apply elem_of_nil in Hin. }
  rewrite Hne in Hp. cbn [negb and3 or3] in Hp.
  destruct (col r "trail_mode"), (col r "trail_value"); try done; exfalso; revert Hp; cbn;
    repeat match goal with |- context [match ?x with _ => _ end] => destruct x; cbn end; discriminate.
Qed.

Lemma duplicates_narrowed :
  index_holds (trailing_back_rows d)
    (unique_index "trade_intents"
       ["owner_user_id"; "symbol"; "strategy"; "target_price_effective"; "quantity_lots"; "trading_date"] (Some live)) = true.
Proof using Hf Hguard.
  known_index Hf "uq_trade_intents_active_duplicate" Hi.
  unfold index_holds in *. cbn [ix_unique ix_columns ix_keys ix_table nulls_not_distinct unique_index map fst] in *.
  unfold trailing_back_rows. at_rows.
  eapply unique_rows_implied; [..|exact Hi].
  - intros r Hr Hs _. split; [|reflexivity].
    unfold index_selects in *. cbn [ix_where unique_index] in *. unfold holds, live in *. cbn [eval] in *.
    rewrite col_without in Hs by reflexivity. exact Hs.
  - intros r r' Hr Hr'. destruct (no_trail r Hr) as [Hm Hv], (no_trail r' Hr') as [Hm' Hv'].
    unfold key. cbn [map]. rewrite !col_without, Hm, Hv, Hm', Hv' by reflexivity.
    intros H. injection H as H1 H2 H3 H4 H5 H6. by rewrite H1, H2, H3, H4, H5, H6.
Qed.

Lemma target_not_null r c :
  c ∈ ["target_price_original"; "target_price_effective"] -> r ∈ rows d "trade_intents" -> col r c <> Null.
Proof using Hf Htargets Hguard.
  intros Hc Hr. destruct (Htargets r Hr (price_alerts_only r Hr)) as [Ho He].
  repeat (apply elem_of_cons in Hc as [->|Hc]; [done|]). exfalso. by apply elem_of_nil in Hc.
Qed.

(** What is left of the presence check once the strategies are price alerts. *)
Lemma target_positive r c :
  c ∈ ["target_price_original"; "target_price_effective"] -> r ∈ rows d "trade_intents" -> passes (positive c) r = true.
Proof using Hf Hguard.
  intros Hc Hr. pose proof (price_alerts_only r Hr) as Hs.
  known Hf Hr "ck_trade_intents_target_price_presence" Hp. text_of_column Hf Hr "strategy" Ht.
  destruct Ht as [s E]. unfold passes, holds, positive in *. cbn [eval] in *. rewrite E in *. cbn [option_map text_of] in *.
  assert (String.eqb s "trailing_stop_alert" = false) as Hne.
  { destruct (str_in s _) eqn:Hin in Hs; [|discriminate Hs]. apply str_in_spec in Hin.
    repeat (apply elem_of_cons in Hin as [->|Hin]; [reflexivity|]). exfalso. by apply elem_of_nil in Hin. }
  rewrite Hne in Hp. cbn [negb and3 or3] in Hp.
  repeat (apply elem_of_cons in Hc as [->|Hc]; [
    revert Hp; destruct (number_compare (col r "target_price_original") 0) as [[]|],
      (number_compare (col r "target_price_effective") 0) as [[]|]; done|]).
  exfalso. by apply elem_of_nil in Hc.
Qed.
End TrailingBack.

Lemma back_trailing now d :
  fits (schema_before 3) d -> targets_present d -> blocking (downgrade rev_trailing) d = [] ->
  rows_run now (downgrade rev_trailing) d = Ok (trailing_back_rows d).
Proof.
  intros Hf Htp Hb.
  change (downgrade rev_trailing) with (take 9 (downgrade rev_trailing) ++
    drop_columns "trigger_events" event_columns_back ++ take 12 (drop 12 (downgrade rev_trailing)) ++
    drop_columns "trade_intents" intent_columns_back ++ drop 33 (downgrade rev_trailing)) in *.
  cbn [take downgrade rev_trailing app drop drop_constraints drop_columns map] in Hb.
  apply two_guards in Hb as [E1 E2]; [|reflexivity].
  cbn [take downgrade rev_trailing app drop_constraints map]. unfold add_check. rewrite ?take_0. cbn [app].
  rewrite run_refuse_passes by exact E1. rewrite run_refuse_passes by exact E2. do 2 next.
  rewrite run_check.
  2: { intros r Hr. pose proof (not_blocked _ _ _ _ E2 Hr) as Hn.
       split_text Hf Hr "ck_notifications_type" "type"; decide_unblocked r. }
  rewrite run_check.
  2: { intros r Hr. known Hf Hr "ck_notifications_triggered_notification_intent" Hi. unfold triggers_name_intent in *.
       pose proof (not_blocked _ _ _ _ E2 Hr) as Hn.
       split_text Hf Hr "ck_notifications_type" "type"; decide_unblocked r. }
  do 3 next. rewrite run_drop_columns by done.
  cbn [drop take downgrade rev_trailing app drop_constraints drop_columns map]. unfold add_check. rewrite ?take_0. cbn [app].
  do 10 next.
  rewrite run_not_null by (at_rows; intros r Hr; eapply target_not_null; [exact Hf|exact Htp|exact E1|in_texts|exact Hr]).
  rewrite run_not_null by (at_rows; intros r Hr; eapply target_not_null; [exact Hf|exact Htp|exact E1|in_texts|exact Hr]).
  rewrite run_drop_columns by done. cbn [drop].
  rewrite run_check.
  2: { open_narrow_row Hr r. pose proof (price_alerts_only d Hf E1 r Hr) as Hs. unfold holds in Hs. cbn [eval] in Hs.
       by destruct (option_map _ _) as [[]|]. }
  rewrite run_check by (open_narrow_row Hr r; eapply (target_positive d Hf E1); [in_texts|exact Hr]).
  rewrite run_check by (open_narrow_row Hr r; eapply (target_positive d Hf E1); [in_texts|exact Hr]).
  rewrite run_index; [done|]. by apply duplicates_narrowed.
Qed.

(** ** Guards first *)

Definition refuse (g : string * cond * string) : ddl := RefuseIf (fst (fst g)) (snd (fst g)) (snd g).

Lemma guards_first now gs os d :
  guards os = [] ->
  rows_run now (map refuse gs ++ os) d =
  match blocking (map refuse gs ++ os) d with m :: _ => Raise (RaiseException m) | [] => rows_run now os d end.
Proof.
  intros Ho. unfold blocking, guards in *. induction gs as [|[[t p] m] gs IH]; cbn.
  - by rewrite Ho.
  - destruct (existsb (holds p) (rows d t)); cbn; [done|]. exact IH.
Qed.

(** The data decide what happens when the schema allows it. *)
Lemma run_rows_raise now os s s' d e :
  forallb (fun o => negb (looks_at_schema o)) os = true ->
  schema_run os s = Ok s' -> rows_run now os d = Raise e -> run now os (Database s d) = Raise e.
Proof.
  revert s d. induction os as [|o os IH]; intros s d Hl Hs Hd; cbn in *; [done|].
  apply andb_true_iff in Hl as [Ho Hl]. apply negb_true_iff in Ho.
  apply rbind_Ok in Hs as (s1 & Hs1 & Hs). unfold step. cbn. rewrite Hs1. cbn.
  rewrite (data_step_schema _ s1 empty_schema) by done.
  destruct (data_step now empty_schema o d); cbn in *; [by apply IH|by injection Hd as ->].
Qed.

(** ** The schemas on the way back *)

(** Equal but for the names of constraints. *)
Definition same_constraints (m m' : gmap string constraint) : bool :=
  let ks := map snd (map_to_list m) in
  let ks' := map snd (map_to_list m') in
  forallb (fun k => bool_decide (k ∈ ks')) ks && forallb (fun k => bool_decide (k ∈ ks)) ks' &&
  Nat.eqb (length ks) (length ks').

Definition same_schema (s s' : schema) : bool :=
  bool_decide (indexes s = indexes s') && bool_decide (columns <$> tables s = columns <$> tables s') &&
  all_of (tables s) (fun t tb => match tables s' !! t with
                                 | Some tb' => same_constraints (constraints tb) (constraints tb')
                                 | None => false
                                 end).

(** Taking a revision back leaves the schema before it, with the former
    columns, and it can be applied again. *)
Definition keeps_former_columns (k : nat) (s s' : schema) : bool :=
  all_of (tables s) (fun t tb => all_of (columns tb) (fun c _ =>
    is_some (column_of s' t c) && bool_decide (track (downgrade (revision_at k)) t c = Some t))).

Definition leads_to (r : result sql_error schema) (s : schema) : bool :=
  match r with Ok s' => bool_decide (s' = s) | Raise _ => false end.

Definition back_facts (k : nat) (s s' : schema) : bool :=
  match schema_run (downgrade (revision_at k)) s' with
  | Ok b => same_schema b s && leads_to (schema_run (upgrade (revision_at k)) b) s'
  | Raise _ => false
  end && (negb (existsb (Nat.eqb k) guarded) || keeps_former_columns k s s').

Lemma back_pass : along back_facts (fun _ => true) 0 history empty_schema = true.
Proof. vm_compute. reflexivity. Qed.

Lemma back_at k : (k < 18)%nat -> back_facts k (schema_before k) (schema_before (S k)) = true.
Proof. exact (proj1 (pass _ _ back_pass) k). Qed.

Lemma leads_to_spec r s : leads_to r s = true -> r = Ok s.
Proof. destruct r; [|done]. cbn. by intros ->%bool_decide_eq_true. Qed.

Lemma back_step k :
  (k < 18)%nat ->
  schema_run (downgrade (revision_at k)) (schema_before (S k)) = Ok (schema_back k) /\
  well_formed_prop (schema_back k) /\ same_schema (schema_back k) (schema_before k) = true /\
  schema_run (upgrade (revision_at k)) (schema_back k) = Ok (schema_before (S k)).
Proof.
  intros Hk. pose proof (back_at k Hk) as H. apply andb_true_iff in H as [H _]. unfold schema_back.
  destruct (schema_run (downgrade _) (schema_before (S k))) as [b|] eqn:E; [|done].
  apply andb_true_iff in H as [Hs Hu]. split; [done|].
  refine (conj _ (conj Hs (leads_to_spec _ _ Hu))).
  eapply wf_run; [|exact E]. apply stage_well_formed. lia.
Qed.

Lemma former_column k t c :
  k ∈ guarded -> is_Some (column_of (schema_before k) t c) ->
  is_Some (column_of (schema_before (S k)) t c) /\ track (downgrade (revision_at k)) t c = Some t.
Proof.
  intros Hk [ck Hc]. assert (Hin : existsb (Nat.eqb k) guarded = true).
  { apply existsb_exists. exists k. split; [by apply list_elem_of_In|by apply Nat.eqb_eq]. }
  assert (Hlt : (k < 18)%nat).
  { unfold guarded in Hk. repeat (apply elem_of_cons in Hk as [->|Hk]; [lia|]). exfalso. by apply elem_of_nil in Hk. }
  pose proof (back_at k Hlt) as H. apply andb_true_iff in H as [_ H]. rewrite Hin in H. cbn [negb orb] in H.
  unfold keeps_former_columns in H. rewrite all_of_spec in H.
  apply column_of_table in Hc as (tb & Ht & Hc). specialize (H _ _ Ht). rewrite all_of_spec in H.
  specialize (H _ _ Hc). apply andb_true_iff in H as [H1 H2]. apply bool_decide_eq_true in H2. split; [|exact H2].
  destruct (column_of (schema_before (S k)) t c); [by eexists|discriminate H1].
Qed.

#[local] Opaque schema_before schema_back.

(** The guarded revisions taken back on their rows. *)
Definition split_guards (k : nat) : Prop :=
  exists gs os, downgrade (revision_at k) = map refuse gs ++ os /\ guards os = [].

Lemma guarded_split k : k ∈ guarded -> split_guards k.
Proof.
  intros Hk. unfold guarded in Hk.
  assert (Hat : forall r, revision_at k = r ->
    downgrade r = map refuse (guards (downgrade r)) ++ drop (length (guards (downgrade r))) (downgrade r) ->
    guards (drop (length (guards (downgrade r))) (downgrade r)) = [] -> split_guards k).
  { intros r <- H1 H2. by exists (guards (downgrade (revision_at k))), (drop (length (guards (downgrade (revision_at k)))) (downgrade (revision_at k))). }
  repeat (apply elem_of_cons in Hk as [->|Hk]; [eapply Hat; reflexivity|]). exfalso. by apply elem_of_nil in Hk.
Qed.

Lemma guarded_back now k d :
  k ∈ guarded -> fits (schema_before (S k)) d -> (k = 2%nat -> targets_present d) ->
  blocking (downgrade (revision_at k)) d = [] -> exists d', rows_run now (downgrade (revision_at k)) d = Ok d'.
Proof.
  intros Hk Hf Ht Hb. unfold guarded in Hk.
  apply elem_of_cons in Hk as [->|Hk]; [eexists; exact (back_trailing now d Hf (Ht eq_refl) Hb)|].
  apply elem_of_cons in Hk as [->|Hk]; [eexists; exact (back_twap now d Hf Hb)|].
  apply elem_of_cons in Hk as [->|Hk]; [eexists; exact (back_expired now d Hf Hb)|].
  apply elem_of_cons in Hk as [->|Hk]; [eexists; exact (back_market now d Hf Hb)|].
  apply elem_of_cons in Hk as [->|Hk]; [eexists; exact (back_market_sides now d Hf Hb)|].
  apply elem_of_cons in Hk as [->|Hk]; [eexists; exact (back_account_disabled now d Hf Hb)|].
  exfalso. by apply elem_of_nil in Hk.
Qed.

Lemma guarded_plain k :
  k ∈ guarded -> forallb (fun o => negb (looks_at_schema o)) (downgrade (revision_at k)) = true /\ (k < 18)%nat /\
  forall luser, find (fun r => String.eqb (rev_id r) (rev_id (revision_at k))) (revisions luser) = Some (revision_at k) /\
                down_revision (revision_at k) = revision_before k.
Proof.
  intros Hk. unfold guarded in Hk.
  repeat (apply elem_of_cons in Hk as [->|Hk];
    [split; [reflexivity|split; [lia|intros luser; split; reflexivity]]|]).
  exfalso. by apply elem_of_nil in Hk.
Qed.

(** C17. The guards of the downgrades are complete.  A revision that let rows be
    what they could not be before (limit orders and trailing stops, TWAP orders,
    the expired status, market orders, their sides, cancellation with an
    account) is taken back or refuses: it refuses, and changes nothing, exactly
    while rows exist that need it, with the message about the first kind of
    them; otherwise it succeeds on any rows, the schema is the former one, the
    rows fit it, every value of every former column is where it was, and the
    revision can be applied again.  For the first of them, price alerts must
    have their target prices, which its checks do not enforce. *)
Theorem guarded_downgrade now local_user_id k dep :
  k ∈ guarded -> stands (S k) dep = true -> (k = 2%nat -> targets_present (db_data (db dep))) ->
  match blocking (downgrade (revision_at k)) (db_data (db dep)) with
  | message :: _ => downgrade_one now local_user_id dep = (Raise (RaiseException message), dep)
  | [] =>
      exists dep', downgrade_one now local_user_id dep = (Ok tt, dep') /\
        at_revision dep' = revision_before k /\
        same_schema (db_schema (db dep')) (schema_before k) = true /\
        consistent (db dep') = true /\
        (forall t c, is_Some (column_of (schema_before k) t c) ->
           column_values (db_data (db dep')) t c = column_values (db_data (db dep)) t c) /\
        schema_run (upgrade (revision_at k)) (db_schema (db dep')) = Ok (schema_before (S k))
  end.
Proof.
  intros Hk Hs Ht. apply stands_spec in Hs as (_ & Hdep & Hf).
  destruct (guarded_plain k Hk) as (Hplain & Hlt & Hfind). destruct (Hfind local_user_id) as [Hrev Hdown].
  destruct (back_step k Hlt) as (Hrun & Hwf & Hsame & Hup).
  set (d := db_data (db dep)) in *. rewrite Hdep. unfold downgrade_one. cbn [at_revision revision_before db].
  rewrite Hrev, Hdown.
  destruct (blocking (downgrade (revision_at k)) d) as [|m l] eqn:Hb.
  - destruct (guarded_back now k d Hk Hf Ht Hb) as [d' Hd].
    pose proof (run_rows now _ _ _ d d' Hplain Hrun Hd) as Hdone. rewrite Hdone.
    eexists. split; [reflexivity|]. cbn [at_revision db db_schema db_data]. split; [reflexivity|].
    split; [exact Hsame|]. split; [|split; [|exact Hup]].
    + unfold consistent. cbn [db_schema db_data]. rewrite andb_true_iff, data_fits_spec, well_formed_spec.
      split; [exact Hwf|].
      exact (run_fits now _ (Database (schema_before (S k)) d) _ (stage_well_formed (S k) ltac:(lia)) Hf Hdone).
    + intros t c Hc. destruct (former_column k t c Hk Hc) as [Hc' Htr].
      exact (proj1 (run_values now _ _ _ t c t Hdone Hc' Htr)).
  - destruct (guarded_split k Hk) as (gs & os & Heq & Hg).
    assert (Hd : rows_run now (downgrade (revision_at k)) d = Raise (RaiseException m)).
    { rewrite Heq in Hb |- *. rewrite guards_first by exact Hg. by rewrite Hb. }
    by rewrite (run_rows_raise now _ _ _ d _ Hplain Hrun Hd).
Qed.

(** The alert of [alert_rows] after 202605260001. *)
Definition limit_deployment : deployment :=
  Deployment (Some "202605260001") (Database (schema_before 3) (filled_rows 9 alert_rows)).

Definition targets_are_present (d : data) : bool :=
  forallb (fun r => negb (is_null (col r "target_price_original")) && negb (is_null (col r "target_price_effective")))
    (rows d "trade_intents").

Lemma targets_are_present_spec d : targets_are_present d = true -> targets_present d.
Proof.
  unfold targets_are_present. rewrite forallb_forall. intros H r Hr _.
  specialize (H r ltac:(by apply list_elem_of_In)). apply andb_true_iff in H as [Ho He].
  split; intros E; rewrite E in *; discriminate.
Qed.

Lemma limit_facts :
  forallb (fun b => b)
    [stands 3 limit_deployment; targets_are_present (db_data (db limit_deployment));
     is_none (head (blocking (downgrade (revision_at 2)) (db_data (db limit_deployment)))); true] = true.
Proof. Transparent schema_before. vm_compute. reflexivity. Qed.
#[local] Opaque schema_before.

Lemma no_head {A} (l : list A) : is_none (head l) = true -> l = [].
Proof. by destruct l. Qed.

Lemma guarded_downgrade_witness :
  stands 3 limit_deployment = true /\
  exists dep', downgrade_one 9 None limit_deployment = (Ok tt, dep') /\
    at_revision dep' = Some "202605210001" /\
    same_schema (db_schema (db dep')) (schema_before 2) = true /\
    consistent (db dep') = true /\
    (forall t c, is_Some (column_of (schema_before 2) t c) ->
       column_values (db_data (db dep')) t c = column_values (db_data (db limit_deployment)) t c) /\
    schema_run (upgrade (revision_at 2)) (db_schema (db dep')) = Ok (schema_before 3).
Proof.
  destruct (four_true _ _ _ _ limit_facts) as (Hs & Ht & Hb & _). split; [exact Hs|].
  pose proof (guarded_downgrade 9 None 2 limit_deployment ltac:(left) Hs
    (fun _ => targets_are_present_spec _ Ht)) as H.
  rewrite (no_head _ Hb) in H. exact H.
Defined.

(** ** What the checks let through *)

Definition without_targets (r : row) : row :=
  <["target_price_original" := Null]> (<["target_price_effective" := Null]> r).

Definition null_deployment : deployment :=
  Deployment (Some "202605260001")
    (Database (schema_before 3) (set_rows "trade_intents" (map without_targets) (filled_rows 9 alert_rows))).

Definition fails_with (e : sql_error) (r : result sql_error unit * deployment) : bool :=
  match r with
  | (Raise (NotNullViolation t c), _) => match e with NotNullViolation t' c' => String.eqb t t' && String.eqb c c' | _ => false end
  | _ => false
  end.

(** [target_price_presence] does not ask for a price: for a price alert without
    target prices its comparisons are unknown, and a CHECK that is not false
    passes, then and with today's expression.  Such a row passes the guard of
    202605260001 as well, and the downgrade fails on the NOT NULL it restores. *)
Lemma null_target_accepted :
  stands 3 null_deployment = true /\
  fails_with (NotNullViolation "trade_intents" "target_price_effective") (downgrade_one 9 None null_deployment) = true /\
  passes target_price_presence_4 {[ "strategy" := Text "buy_price_alert" ]} = true.
Proof. Transparent schema_before. split_and!; vm_compute; reflexivity. Qed.
