(* ===== verification/Tools.v ===== *)
(** * Seeds and command-line tools

    [src/app/db/seed.py], [db/bootstrap_admin.py] and [db/create_admin.py]: the
    symbols of a local database, and the first admins, who cannot be invited.
    Reading the environment and printing are outside. *)

From S2P Require Import Prelude Decimal Datetime Json Errors Price Tables Store CoreSchema Samples AuthRepos Tokens AuthSamples Auth LoginSpec.
From S2P Require Config.

#[local] Open Scope string_scope.
#[local] Open Scope list_scope.
#[local] Open Scope Z_scope.

(** ** [db/seed.py] *)

Definition PRODUCTION_SYMBOL_SEED : list (string * SymbolRow) :=
  [("2330", mkSymbol "台積電" "TWSE" "stock" "tradable");
   ("2317", mkSymbol "鴻海" "TWSE" "stock" "tradable");
   ("0050", mkSymbol "元大台灣50" "TWSE" "etf" "tradable");
   ("00878", mkSymbol "國泰永續高股息" "TWSE" "etf" "tradable")].

Definition TEST_FIXTURE_SYMBOL_SEED : list (string * SymbolRow) :=
  [("9999", mkSymbol "測試停牌股票" "TWSE" "stock" "halted")].

Definition SYMBOL_SEED : list (string * SymbolRow) := PRODUCTION_SYMBOL_SEED ++ TEST_FIXTURE_SYMBOL_SEED.

(** INSERT ... ON CONFLICT (symbol) DO UPDATE; the values are constants the
    CHECKs of the table accept ([seed_accepted]). *)
Definition seed_symbols {P} : M P unit :=
  do_ for_each SYMBOL_SEED (fun entry =>
        do_ uuid4;
        execute (fun d => set_symbols (<[fst entry := snd entry]> (symbols d)) d));
  commit.

Lemma seed_accepted :
  forallb (fun e => str_in (sy_market (snd e)) ["TWSE"; "TPEx"] && str_in (sy_instrument_type (snd e)) ["stock"; "etf"] &&
                    str_in (sy_tradable_status (snd e)) ["tradable"; "halted"; "unsupported"]) SYMBOL_SEED = true.
Proof. reflexivity. Qed.

(** ** [db/bootstrap_admin.py] *)

Definition DEFAULT_LOCAL_ADMIN_EMAIL : string := "admin@example.com".
Definition DEFAULT_LOCAL_ADMIN_PASSWORD : string := "password123".

Record BootstrapAdminConfig : Type := mkBootstrap {
  ba_email : string;
  ba_password : string;
  ba_allow_non_local : bool;
}.

Record BootstrapAdminResult : Type := mkBootstrapped {
  br_action : string;
  br_email : string;
  br_user_id : string;
}.

(** [str.strip] *)
Definition stripped (s : string) : string := unchars (strip (chars s)).

Definition resolve_bootstrap_admin_config (settings : Config.Settings) : res BootstrapAdminConfig :=
  let email := stripped (or_else (Config.initial_admin_email settings) DEFAULT_LOCAL_ADMIN_EMAIL) in
  let password := default "" (stripped <$> Config.initial_admin_password settings) in
  let allow_non_local := Config.initial_admin_allow_non_local settings in
  if negb (String.eqb password "") then Ok (mkBootstrap email password allow_non_local)
  else if negb (Config.local_mode settings) then Raise (RuntimeError "INITIAL_ADMIN_PASSWORD is required outside LOCAL_MODE")
  else Ok (mkBootstrap email DEFAULT_LOCAL_ADMIN_PASSWORD allow_non_local).

Section Tools.
(** [email_validator.validate_email] without the look into the DNS,
    [secrets.token_urlsafe(16)] over a random seed, and [repr], which shows in
    a message only. *)
Context {P : Type} `{Crypto} (valid_email : string -> bool) (token_urlsafe_16 : uuid -> string) (repr : string -> string).

(** [scalar_one_or_none]; its exception is not a [RuntimeError]. *)
Definition find_account (email : string) : M P (option (uuid * UserRow)) :=
  do rows <- query (fun d => select_where (fun (_ : uuid) r => same_email (u_email r) email) (users d));
  match rows with
  | [] => ret None
  | [x] => ret (Some x)
  | _ => raise (ExternalError "MultipleResultsFound")
  end.

(** [now or datetime.now(UTC)] *)
Definition now_or_clock (now : option datetime) : M P datetime :=
  match now with Some n => ret n | None => clock end.

Definition bootstrap_initial_admin (settings : Config.Settings) (config : BootstrapAdminConfig)
    (now : option datetime) (overwrite : bool) : M P BootstrapAdminResult :=
  if negb (Config.local_mode settings) && negb (ba_allow_non_local config) then
    raise (RuntimeError "Initial admin bootstrap is disabled outside LOCAL_MODE")
  else
  let email := normalize_email (ba_email config) in
  if String.eqb email "" then raise (RuntimeError "INITIAL_ADMIN_EMAIL must not be blank")
  else if negb (valid_email email) then raise (RuntimeError ("INITIAL_ADMIN_EMAIL is not a valid email: " ++ repr email)%string)
  else if negb (is_password_strong_enough (ba_password config)) then
    raise (RuntimeError "INITIAL_ADMIN_PASSWORD must be at least 8 characters")
  else
  do now_ts <- now_or_clock now;
  do password_hash <- hash_password (ba_password config);
  do user <- find_account email;
  match user with
  | None =>
      do created <- sql_now;
      do user_id <- insert_user (mkUser email (Some password_hash) "admin" "active" false None None created created);
      do_ commit;
      ret (mkBootstrapped "created" email (str_uuid user_id))
  | Some (user_id, _) =>
      if negb overwrite then raise (RuntimeError ("admin already exists, refusing to overwrite: " ++ email)%string)
      else
        do_ update_user user_id (fun r =>
          mkUser (u_email r) (Some password_hash) "admin" "active" false None None (u_created_at r) now_ts);
        do_ commit;
        ret (mkBootstrapped "updated" email (str_uuid user_id))
  end.

(** [main] *)
Definition bootstrap_admin_main (settings : Config.Settings) : M P BootstrapAdminResult :=
  do config <- lift (resolve_bootstrap_admin_config settings);
  with_session (bootstrap_initial_admin settings config None true).

(** ** [db/create_admin.py] *)

(** What the command prints and how it exits: the account and the password if
    it made one, or a message and the exit code 1. *)
Inductive cli_outcome : Type :=
| Created (result : BootstrapAdminResult) (one_time_password : option string)
| ExitOne (message : string).

(** [main] with [CREATE_ADMIN_PASSWORD] and [--email]; an empty password counts
    as none. *)
Definition create_admin_main (settings : Config.Settings) (env_password : option string) (email : string)
  : M P cli_outcome :=
  let custom_password := match env_password with Some p => if String.eqb p "" then None else Some p | None => None end in
  do password <- match custom_password with
                 | Some p => ret p
                 | None => do seed <- uuid4; ret (token_urlsafe_16 seed)
                 end;
  let config := mkBootstrap email password true in
  try_except
    (do result <- with_session (bootstrap_initial_admin settings config None false);
     ret (Created result (if is_none custom_password then Some password else None)))
    (fun e => match e with RuntimeError message => ret (ExitOne message) | e => raise e end).

End Tools.

(** ** What the tools leave *)

Definition account_of (email : string) (d : db) : option (uuid * UserRow) :=
  one_of (select_where (fun (_ : uuid) r => same_email (u_email r) (normalize_email email)) (users d)).

Lemma find_account_run {P} email (w : world P) :
  auth_ok (pending w) -> find_account (normalize_email email) w = (Ok (account_of email (pending w)), w).
Proof.
  intros Hok. unfold find_account, account_of. run_session.
  pose proof (select_short _ _ (one_email (pending w) email Hok)) as Hl.
  destruct (select_where _ _) as [|x [|]]; [done|done|cbn in Hl; lia].
Qed.

Lemma account_of_Some email d i r : auth_ok d ->
  account_of email d = Some (i, r) <-> users d !! i = Some r /\ same_email (u_email r) (normalize_email email) = true.
Proof. intros Hok. unfold account_of. by rewrite one_of_Some by by apply one_email. Qed.

Lemma same_email_refl a : same_email a a = true.
Proof. apply String.eqb_refl. Qed.

(** The account is found under every spelling of its address. *)
Lemma user_by_email_at email email' d i r : auth_ok d -> users d !! i = Some r ->
  same_email (u_email r) (normalize_email email) = true -> normalize_email email' = normalize_email email ->
  user_by_email email' d = Some (to_user i r).
Proof. intros Hok Hi He Hn. apply user_by_email_Some; [done|]. exists r. cbn. by rewrite Hn. Qed.

Section Outcomes.
Context {P : Type} `{PasswordLaws} (valid_email : string -> bool) (repr : string -> string).
Context (settings : Config.Settings) (config : BootstrapAdminConfig) (overwrite : bool).

(** The requests the tool turns down. *)
Definition refused (d : db) : bool :=
  negb (Config.local_mode settings) && negb (ba_allow_non_local config) ||
  String.eqb (normalize_email (ba_email config)) "" ||
  negb (valid_email (normalize_email (ba_email config))) ||
  negb (is_password_strong_enough (ba_password config)) ||
  negb overwrite && is_some (account_of (ba_email config) d).

(** An active admin with the password and without a second factor. *)
Definition fresh_admin (u : UserRow) : Prop :=
  u_role u = "admin" /\ u_status u = "active" /\ u_mfa_enabled u = false /\ u_mfa_secret_encrypted u = None /\
  u_disabled_at u = None /\
  exists h, u_password_hash u = Some h /\ argon2_verify h (ba_password config) = Verified.

Lemma fresh_admin_opens d i u inp : auth_ok d -> users d !! i = Some u -> fresh_admin u ->
  same_email (u_email u) (normalize_email (ba_email config)) = true ->
  normalize_email (li_email inp) = normalize_email (ba_email config) -> li_password inp = ba_password config ->
  credentials_ok inp d (to_user i u).
Proof.
  intros Hok Hi (_ & Hs & _ & _ & _ & h & Hh & Hv) He Hn Hp. split; [by eapply user_by_email_at|].
  split; [exact Hs|]. exists h. by rewrite Hp.
Qed.

Lemma created_violation d i u : account_of (ba_email config) d = None -> auth_ok d ->
  u_role u = "admin" -> u_status u = "active" -> u_email u = normalize_email (ba_email config) ->
  user_violation i u d = if is_none (users d !! i) then None else Some "pk_users".
Proof.
  intros Hn Hok Hr Hs He. unfold user_violation. rewrite Hr, Hs, He. cbn [str_in existsb String.eqb].
  assert (Hc : (count_where (fun _ x => same_email (u_email x) (normalize_email (ba_email config))) (users d) =? 0) = true).
  { apply Z.eqb_eq, count_zero. intros k a Hk. unfold account_of in Hn.
    by eapply (proj1 (one_of_None _ _ (one_email d (ba_email config) Hok))) in Hn. }
  unfold first_violation. rewrite Hc. by destruct (users d !! i).
Qed.

Lemma update_only d (i : uuid) r (f : UserRow -> UserRow) :
  users d !! i = Some r -> update_where (fun (j : uuid) _ => j =? i) f (users d) = <[i := f r]> (users d).
Proof.
  intros Hi. apply map_eq. intros j. rewrite lookup_update. destruct (decide (j = i)) as [->|Hne].
  - rewrite Hi, lookup_insert_eq. cbn. by rewrite Z.eqb_refl.
  - rewrite lookup_insert_ne by done. destruct (users d !! j); [|done]. cbn. by rewrite (proj2 (Z.eqb_neq j i) Hne).
Qed.
End Outcomes.

(** What a run of the tool leaves, case by case. *)
Lemma bootstrap_cases {P} `{PasswordLaws} (valid_email : string -> bool) (repr : string -> string)
    (settings : Config.Settings) (config : BootstrapAdminConfig) (now : option datetime) (overwrite : bool)
    (w w' : world P) (r : res BootstrapAdminResult) (Hok : auth_ok (durable w))
    (Hrun : with_session (bootstrap_initial_admin valid_email repr settings config now overwrite) w = (r, w')) :
  let d := durable w in
  match r with
  | Ok result =>
      refused valid_email settings config overwrite d = false /\
      exists i u, durable w' = set_users (<[i := u]> (users d)) d /\ auth_ok (durable w') /\ fresh_admin config u /\
        br_user_id result = str_uuid i /\ br_email result = normalize_email (ba_email config) /\
        (forall inp, normalize_email (li_email inp) = normalize_email (ba_email config) ->
           li_password inp = ba_password config -> credentials_ok inp (durable w') (to_user i u)) /\
        match account_of (ba_email config) d with
        | None => br_action result = "created" /\ users d !! i = None
        | Some (j, old) => br_action result = "updated" /\ overwrite = true /\ i = j /\ u_email u = u_email old
        end
  | Raise (RuntimeError _) => refused valid_email settings config overwrite d = true /\ durable w' = d
  | Raise e => refused valid_email settings config overwrite d = false /\ durable w' = d /\ e = IntegrityError "pk_users"
  end.
Proof.
  intros d. apply session_cases in Hrun as (w1 & Hrun & Hd & _). rewrite Hd. clear Hd w'. fold d in Hok.
  assert (Hopen : pending (opening w) = d) by done. assert (Hdur : durable (opening w) = d) by done.
  set (w0 := opening w) in *. clearbody w0. revert Hrun. unfold bootstrap_initial_admin, refused.
  destruct (negb (Config.local_mode settings) && negb (ba_allow_non_local config)); [by intros [= <- <-]|].
  destruct (String.eqb _ ""); [by intros [= <- <-]|]. destruct (negb (valid_email _)); [by intros [= <- <-]|].
  destruct (negb (is_password_strong_enough _)); [by intros [= <- <-]|]. cbn [orb].
  set (ts := match now with Some n => n | None => app_now w0 end).
  unfold bind at 1. assert (now_or_clock now w0 = (Ok ts, w0)) as -> by (by destruct now).
  unfold bind at 1, hash_password. unfold bind at 1, uuid4. unfold ret at 1.
  set (w2 := mkWorld _ _ _ _ _ _ _). set (hash := argon2_hash _ _).
  assert (Hv : argon2_verify hash (ba_password config) = Verified) by apply argon2_verify_hash.
  unfold bind at 1. rewrite find_account_run by (cbn; by rewrite Hopen). change (pending w2) with (pending w0). rewrite Hopen.
  destruct (account_of (ba_email config) d) as [[i old]|] eqn:Ha.
  - destruct overwrite; [|by intros [= <- <-]]. cbn [negb andb].
    apply account_of_Some in Ha as [Hi He]; [|exact Hok].
    unfold update_user. run_session. intros [= <- <-]. cbn [durable pending]. rewrite Hopen, (update_only d i old) by exact Hi.
    set (u := mkUser _ _ _ _ _ _ _ _ _).
    assert (Hu : fresh_admin config u) by (split_and!; try done; by exists hash).
    assert (Hok' : auth_ok (set_users (<[i := u]> (users d)) d)).
    { unfold u. rewrite <-(update_only d i old (fun r => mkUser (u_email r) (Some hash) "admin" "active" false None None
        (u_created_at r) ts)) by exact Hi. by apply update_users_ok. }
    split; [done|]. exists i, u. split_and!; try done.
    intros inp Hn Hp. eapply fresh_admin_opens; [exact Hok'| |exact Hu|exact He|exact Hn|exact Hp]. cbn. apply lookup_insert_eq.
  - rewrite andb_false_r. unfold insert_user. run_session. cbn [durable pending next_id db_now].
    change (pending w2) with (pending w0). rewrite Hopen. set (i := next_id w2). set (u := mkUser _ _ _ _ _ _ _ _ _).
    change (id d) with d. rewrite (created_violation config d i u Ha Hok) by done.
    destruct (users d !! i) as [x|] eqn:Hi; cbn [is_none]; [by intros [= <- <-]|].
    intros [= <- <-]. cbn [durable pending].
    assert (Hu : fresh_admin config u) by (split_and!; try done; by exists hash).
    assert (Hok' : auth_ok (set_users (<[i := u]> (users d)) d)).
    { apply insert_user_ok; [exact Hok|]. rewrite (created_violation config d i u Ha Hok) by done. by rewrite Hi. }
    split; [done|]. exists i, u. split_and!; try done.
    intros inp Hn Hp. eapply fresh_admin_opens; [exact Hok'| |exact Hu|apply same_email_refl|exact Hn|exact Hp].
    cbn. apply lookup_insert_eq.
Qed.

(** C27. A first admin can always be made, and only one that can log in.  The
    tool turns down a request outside the local mode that is not allowed there,
    an address that is blank or no address, a short password, and, unless it
    may overwrite, an address that has an account; it then changes nothing.
    Otherwise it leaves an active admin with that password and no second
    factor, under the id it reports: a new account, or the one the address had.
    Every spelling of the address with the password is then accepted by a
    login, and no other row of the database has changed.  The one failure that
    is left is an identifier drawn twice. *)
Theorem bootstrap_admin_outcomes {P} `{PasswordLaws} (valid_email : string -> bool) (repr : string -> string)
    (settings : Config.Settings) (config : BootstrapAdminConfig) (now : option datetime) (overwrite : bool)
    (w w' : world P) (r : res BootstrapAdminResult) (Hok : auth_ok (durable w))
    (Hrun : with_session (bootstrap_initial_admin valid_email repr settings config now overwrite) w = (r, w')) :
  let d := durable w in
  match r with
  | Ok result =>
      refused valid_email settings config overwrite d = false /\
      exists i u, durable w' = set_users (<[i := u]> (users d)) d /\ auth_ok (durable w') /\ fresh_admin config u /\
        br_user_id result = str_uuid i /\ br_email result = normalize_email (ba_email config) /\
        (forall inp, normalize_email (li_email inp) = normalize_email (ba_email config) ->
           li_password inp = ba_password config -> credentials_ok inp (durable w') (to_user i u)) /\
        match account_of (ba_email config) d with
        | None => br_action result = "created" /\ users d !! i = None
        | Some (j, old) => br_action result = "updated" /\ overwrite = true /\ i = j /\ u_email u = u_email old
        end
  | Raise (RuntimeError _) => refused valid_email settings config overwrite d = true /\ durable w' = d
  | Raise e => refused valid_email settings config overwrite d = false /\ durable w' = d /\ e = IntegrityError "pk_users"
  end.
Proof. exact (bootstrap_cases valid_email repr settings config now overwrite w w' r Hok Hrun). Qed.

Definition no_accounts : db := set_users ∅ sample_db.

Lemma no_accounts_ok : auth_ok no_accounts.
Proof.
  split; cbn; intros i j a b; by intros H; rewrite lookup_empty in H.
Qed.

Definition local_config : BootstrapAdminConfig := mkBootstrap " Admin@Example.com" "password123" false.

Lemma bootstrap_admin_outcomes_witness :
  exists result w', with_session (bootstrap_initial_admin (fun _ => true) id Config.default_settings local_config None true)
      (login_world no_accounts) = (Ok result, w') /\
    br_action result = "created" /\ br_email result = "admin@example.com" /\
    exists i u, users (durable w') !! i = Some u /\ fresh_admin local_config u.
Proof.
  destruct (with_session (bootstrap_initial_admin (fun _ => true) id Config.default_settings local_config None true)
    (login_world no_accounts)) as [r w'] eqn:Hrun.
  assert (Hr : is_ok r = true).
  { change r with (fst (r, w')). rewrite <-Hrun. vm_compute. reflexivity. }
  destruct r as [result|]; [|done]. exists result, w'. split; [done|].
  destruct (bootstrap_admin_outcomes (fun _ => true) id Config.default_settings local_config None true
    (login_world no_accounts) w' _ no_accounts_ok Hrun) as (_ & i & u & Hd & _ & Hu & _ & He & _ & Ha).
  split; [exact (proj1 Ha)|]. split; [rewrite He; reflexivity|]. exists i, u. split; [|exact Hu].
  rewrite Hd. apply lookup_insert_eq.
Defined.

(** [create_admin] adds an account or nothing: whoever had one keeps the
    password, and the exit code tells. *)
Lemma create_admin_adds {P} `{PasswordLaws} valid_email token_urlsafe_16 repr settings env_password email (w w' : world P) r :
  auth_ok (durable w) ->
  create_admin_main valid_email token_urlsafe_16 repr settings env_password email w = (r, w') ->
  match r with
  | Ok (Created _ _) => exists i u, users (durable w) !! i = None /\
      durable w' = set_users (<[i := u]> (users (durable w))) (durable w)
  | _ => durable w' = durable w
  end.
Proof.
  intros Hok. unfold create_admin_main.
  set (custom := match env_password with Some p => if String.eqb p "" then None else Some p | None => None end).
  assert (Hpw : exists p w1, (match custom with Some p => ret p | None => do seed <- uuid4; ret (token_urlsafe_16 seed) end) w
      = (Ok p, w1) /\ durable w1 = durable w).
  { destruct custom; run_session; by eexists _, _. }
  destruct Hpw as (p & w1 & Hp & Hd). unfold bind at 1. rewrite Hp. rewrite <-Hd in Hok |- *. clear Hp Hd.
  unfold try_except. unfold bind at 1.
  destruct (with_session _ w1) as [r1 w2] eqn:Hrun. apply bootstrap_cases in Hrun; [|exact Hok]. cbn zeta in Hrun.
  destruct r1 as [result|e].
  - intros [= <- <-]. destruct Hrun as (_ & i & u & Hd & _ & _ & _ & _ & _ & Ha). exists i, u.
    destruct (account_of _ _) as [[j old]|]; [by destruct Ha as (_ & ? & _)|]. by destruct Ha.
  - destruct e; try (intros [= <- <-]; by destruct Hrun as (_ & -> & _)). intros [= <- <-]. by destruct Hrun as [_ ->].
Qed.
